(* ===== verification/_CoqProject ===== *)
-Q . S2P
Prelude.v
CString.v
Rtc.v
Bio.v
Log.v
Fs.v
Balloc.v
Content.v
Inode.v
Trunc.v
Dir.v
Kalloc.v
Vm.v
Paging.v
Uvm.v
Ualloc.v
Ucopy.v
Spinlock.v
Proc.v
Procinv.v
Conout.v
Kernel.v
Syscall.v
Exec.v
Console.v
Trap.v
Ide.v
Usermem.v
Pipe.v
Line.v
Signal.v
Fork.v
Files.v
Umalloc.v
Uheap.v
Uallocator.v
Sh.v
Shparse.v
Shrun.v
Mkfs.v
Mkimage.v
Mktree.v
Mkboot.v
