(* ===== verification/Prelude.v ===== *)
(** * xv7: a shallow embedding of the system and its theorems

    xv7 is a small Unix-like operating system for the x86, in C: a kernel
    (src/kernel), a user library (src/ulib), programs (src/bin, src/games) and the
    program that builds the disk image (src/tools).  This development translates most
    of it into Rocq functions and proves what makes the parts correct, alone and put
    together; where the code does not do what it means to, a theorem says so.

    ** The parts and how they interact

    A process enters the kernel through [trap], which dispatches interrupts and system
    calls.  System calls fetch their arguments from user memory, and work on open
    files, pipes, processes and address spaces.  Open files lead to inodes; inodes to
    blocks, which the buffer cache holds; changes of blocks go through a write-ahead
    log, and to the disk by the disk driver.  Sleeping and waking in the process table
    ties the parts together.  On the build host, mkfs makes the image from which the
    kernel starts.

    ** Conventions

    A C integer is a [Z] with its wrap written out ([u8], [u16], [u32], [s8], [s32]);
    bytes are a [Z] from 0 to 255; a pointer to an element of a static table is its
    index, with -1 for null; a pointer to memory is an address.  Code that changes
    state is a function in the monad [M S A] over the state [S] of its component; a run
    ends in [Ok a s], in [Panic msg s] (the kernel's [panic], an [assert], or
    ["undefined"] for what C leaves undefined), in [Block why s] when the process
    sleeps, or in [NoFuel].  [wp] and its rules are the program logic of the proofs;
    [lift] runs a component in the state of a larger one.

    Loops over a list or over a counter are structural.  A loop whose end depends on
    the data has fuel ([loop]), chosen so that it cannot run out: the length of the
    ring for walks over the buffers and of the queue for the disk driver, one more than
    the number of characters the devices hold for [consoleintr], the number of blocks
    that [readi], [writei] and [iappend] touch, at most [n / BSIZE + 2], the number of
    headers that fit the heap for the free ring, the length of the line for the shell's
    parser and the number of its nodes for [runcmd], the length of the path for path
    lookup (with twelve rounds for symbolic links: the code gives up after ten).  The
    theorems on results are of total correctness: they state that the run ends in [Ok],
    or in the outcome named, so that the fuel is enough.

    ** Which file models what

    Definitions and their lemmas, each file requiring those below it:

    - Prelude: machine integers, the monad, [wp], lists as memory, little-endian
      words.
    - CString: src/kernel/string.c.  Rtc: src/kernel/time.c, [cmostime] of lapic.c and
      [ctime] of src/ulib/time.c.
    - Bio: src/kernel/bio.c with the sleep locks; state [bst], the buffers, their
      links and the disk.  Ide: src/kernel/dev/ide.c with its queue and interrupts.
    - Log: src/kernel/log.c and [readsb]; state [lst].
    - Fs: src/kernel/fs.c; state [fstate].  Its theorems are in Balloc (the block
      allocator), Content ([bmap], [readi], [writei]), Inode ([iget], [ilock],
      [iupdate]), Trunc ([itrunc], [iput]) and Dir (directories and paths).
    - Kalloc: src/kernel/kalloc.c.  Vm: src/kernel/vm.c; state [vst], physical memory
      as words.  Paging relates the words of page tables to finite maps; Uvm, Ualloc
      and Ucopy have the theorems on address spaces.
    - Spinlock: src/kernel/spinlock.c for several CPUs.  Proc: the critical sections
      of src/kernel/proc.c and their interleaving; Procinv: their invariant.
    - Conout and Console: src/kernel/dev/char (console.c, kbd.c, uart.c); Line: the
      theorems.
    - Kernel: the composed state [kst], src/kernel/file.c and src/kernel/pipe.c.
      Syscall: argument fetching and src/kernel/sysfile.c.  Exec: src/kernel/exec.c,
      src/kernel/sysproc.c and the parts of proc.c that involve memory and files.
      Trap: src/kernel/trap.c and the table of system calls.  Usermem, Pipe, Signal,
      Fork and Files: theorems on the composed kernel.
    - Umalloc: src/ulib/umalloc.c; Uheap and Uallocator: its invariant and contract.
    - Sh, Shrun: src/bin/sh/sh.c; Shparse: the grammar and the parser.
    - Mkfs: src/tools/mkfs.c; Mkimage and Mktree: the image it builds; Mkboot: the
      kernel on that image.

    ** What the theorems show

    - Crash safety: the commit of a transaction is atomic across a crash after any
      prefix of its disk writes, and so is recovery itself; the space reserved by
      [begin_op] suffices however operations interleave, up to one block (Log).
    - Files: the first free block is allocated; what [writei] stores [readi] returns;
      inodes survive the trip to disk; freeing gives back exactly the blocks of a file;
      a directory maps names as linked; paths split into their elements.
    - Memory: the page allocator refines an abstract one; address spaces are grown,
      copied and built all or nothing; system call arguments come from the process
      alone.
    - Processes: mutual exclusion of spin locks; the process table's invariant, no
      missed wakeup of [wait], no starvation; [fork] with all it touches; every
      descriptor counted, over every trap.
    - Devices: a pipe is a queue whose users do not sleep in vain; the console edits
      and delivers lines; the disk driver serves in order and refines the atomic
      [iderw], disk errors included; signals and their handlers.
    - User space: the allocator refines a contract on a finite map; the shell's parser
      accepts exactly its grammar, and [runcmd] wires processes as the line says.
    - Composition: an image built by mkfs holds exactly the tree of its command line,
      and the kernel booted from it finds every file with its contents.
    - Defects: the theorems about panics, lost wakeups and lost signals
      ([full_reservation_panics], [iput_after_read_panics], [pending_signal_exits],
      [killed_writer_strands_reader], [ctrl_c_to_init_panics], [malloc_huge_unsafe])
      state what the code does in those cases.

    ** Parameters

    The linker's symbols ([kend], [kdata]), the device switch as [fs.c] sees it, the
    [ioctl] functions and the return addresses on kernel stacks are arguments; so are,
    for user programs, which [sbrk], [exec], [open] and [fork] succeed.  The disk does
    what its registers say or reports an error ([outcome]); the file system above the
    buffer cache is studied on a disk without errors.  Theorems that rely on a
    parameter name what they need as hypotheses.

    ** Not modelled

    - Machine set-up (main.c, mp.c, ioapic.c, picirq.c, most of lapic.c, seginit,
      tvinit, bootmain.c): writes to device registers and descriptor tables, once,
      before the first process.
    - Assembly (entry, context switch, trap entry, boot sector): the boundaries of the
      modelled sections.
    - The rest of the user library (formatted output, [scanf], string routines,
      buffered files) and the small programs and games, which only call the modelled
      system calls.
    - Weak memory and the TLB: memory is sequentially consistent, translations are
      read from the tables.
    - In the composed kernel a sleeping process ends the run; interleaving is studied
      in the step relations of Spinlock, Proc, Log, Ide and Pipe.  In Shrun a child
      runs to its end before its parent goes on, forks succeed always or never, and
      whether a file opens depends on its name and mode only. *)

From Stdlib Require Import ZArith Lia.
From stdpp Require Import base gmap strings numbers list.

Local Open Scope Z_scope.

(** ** Machine integers

    A C value of a w-bit type is a [Z] kept in range by an explicit wrap. *)

Definition u8 (z : Z) : Z := z mod 256.
Definition u16 (z : Z) : Z := z mod 65536.
Definition u32 (z : Z) : Z := z mod 4294967296.
Definition u64 (z : Z) : Z := z mod 18446744073709551616.
Definition s8 (z : Z) : Z := (z + 128) mod 256 - 128.
Definition s16 (z : Z) : Z := (z + 32768) mod 65536 - 32768.
Definition s32 (z : Z) : Z := (z + 2147483648) mod 4294967296 - 2147483648.

Lemma u32_small (z : Z) : 0 <= z < 2 ^ 32 -> u32 z = z.
Proof. unfold u32. intros. by rewrite Z.mod_small. Qed.

Lemma u32_range (z : Z) : 0 <= u32 z < 2 ^ 32.
Proof. unfold u32. by apply Z.mod_pos_bound. Qed.

Lemma u8_small (z : Z) : 0 <= z < 2 ^ 8 -> u8 z = z.
Proof. unfold u8. intros. by rewrite Z.mod_small. Qed.

Lemma u8_range (z : Z) : 0 <= u8 z < 2 ^ 8.
Proof. unfold u8. by apply Z.mod_pos_bound. Qed.

Lemma s32_small (z : Z) : - 2 ^ 31 <= z < 2 ^ 31 -> s32 z = z.
Proof. unfold s32. intros. rewrite Z.mod_small; lia. Qed.

Lemma s32_range (z : Z) : - 2 ^ 31 <= s32 z < 2 ^ 31.
Proof. unfold s32. pose proof (Z.mod_pos_bound (z + 2147483648) 4294967296). lia. Qed.

(** ** The kernel monad

    Kernel code threads its state and may stop in ways other than a return.
    [Panic] is a call of the C function [panic] (the machine halts; the state
    is kept because the disk survives it), [Block] is a process that goes to
    sleep on a condition nobody in this sequential execution can make true, and
    [NoFuel] is a bounded loop of the model that used up its bound. *)

Inductive res (S A : Type) : Type :=
  | Ok (a : A) (s : S)
  | Panic (msg : string) (s : S)
  | Block (why : string) (s : S)
  | NoFuel.
Arguments Ok {S A} a s.
Arguments Panic {S A} msg s.
Arguments Block {S A} why s.
Arguments NoFuel {S A}.

Definition M (S A : Type) : Type := S -> res S A.

#[export] Instance M_ret (S : Type) : MRet (M S) := fun A a s => Ok a s.
#[export] Instance M_bind (S : Type) : MBind (M S) := fun A B k m s =>
  match m s with
  | Ok a s' => k a s'
  | Panic msg s' => Panic msg s'
  | Block why s' => Block why s'
  | NoFuel => NoFuel
  end.

Definition getS {S : Type} : M S S := fun s => Ok s s.
Definition gets {S A : Type} (f : S -> A) : M S A := fun s => Ok (f s) s.
Definition putS {S : Type} (s : S) : M S unit := fun _ => Ok tt s.
Definition modS {S : Type} (f : S -> S) : M S unit := fun s => Ok tt (f s).
Definition panic {S A : Type} (msg : string) : M S A := fun s => Panic msg s.
Definition block {S A : Type} (why : string) : M S A := fun s => Block why s.

(** Running a component's operation inside a larger state. *)
Definition lift {S T A : Type} (get : S -> T) (set : T -> S -> S)
    (m : M T A) : M S A := fun s =>
  match m (get s) with
  | Ok a t => Ok a (set t s)
  | Panic msg t => Panic msg (set t s)
  | Block why t => Block why (set t s)
  | NoFuel => NoFuel
  end.

(** [for (x in l) body], and the same loop with an early [return]. *)
Fixpoint forM {S A : Type} (l : list A) (body : A -> M S unit) : M S unit :=
  match l with
  | [] => mret tt
  | x :: l' => body x ;; forM l' body
  end.

Fixpoint forR {S A B : Type} (l : list A) (body : A -> M S (option B)) : M S (option B) :=
  match l with
  | [] => mret None
  | x :: l' => r ← body x; match r with Some b => mret (Some b) | None => forR l' body end
  end.

(** Loops whose bound is not syntactic: [body] returns [inr] to leave. *)
Fixpoint loop {S A B : Type} (fuel : nat) (body : A -> M S (A + B)) (x : A) : M S B :=
  match fuel with
  | O => fun _ => NoFuel
  | S fuel' =>
      r ← body x;
      match r with inl x' => loop fuel' body x' | inr b => mret b end
  end.

(** ** Total-correctness reasoning

    [wp m Q s]: run from [s], [m] returns and its result satisfies [Q]; a
    panic, a block or exhausted fuel makes it false. *)

Definition wp {S A : Type} (m : M S A) (Q : A -> S -> Prop) (s : S) : Prop :=
  match m s with Ok a s' => Q a s' | _ => False end.

Section wp.
Context {S : Type}.

Lemma wp_iff {A} (m : M S A) Q s :
  wp m Q s <-> exists a s', m s = Ok a s' /\ Q a s'.
Proof.
  unfold wp. destruct (m s) as [a s'| | |]; split; try done; [eauto| |..];
    intros (? & ? & [=] & ?); by subst.
Qed.

Lemma wp_mono {A} (m : M S A) (Q Q' : A -> S -> Prop) s :
  wp m Q s -> (forall a s', Q a s' -> Q' a s') -> wp m Q' s.
Proof. unfold wp. destruct (m s); naive_solver. Qed.

Lemma wp_ret {A} (a : A) Q (s : S) : Q a s -> wp (mret a) Q s.
Proof. done. Qed.

Lemma wp_bind {A B} (m : M S A) (k : A -> M S B) Q s :
  wp m (fun a s' => wp (k a) Q s') s -> wp (m ≫= k) Q s.
Proof. unfold wp, mbind, M_bind. by destruct (m s). Qed.

Lemma wp_bind_inv {A B} (m : M S A) (k : A -> M S B) Q s :
  wp (m ≫= k) Q s -> wp m (fun a s' => wp (k a) Q s') s.
Proof. unfold wp, mbind, M_bind. by destruct (m s). Qed.

Lemma wp_seq {A B} (m1 : M S unit) (m2 : M S A) (k : A -> M S B) Q s :
  wp (m1 ;; m2) (fun a s' => wp (k a) Q s') s -> wp (m1 ;; (m2 ≫= k)) Q s.
Proof.
  unfold wp, mbind, M_bind. destruct (m1 s) as [[] s'| | |]; [|done..]. by destruct (m2 s').
Qed.

Lemma wp_gets {A} (f : S -> A) Q s : Q (f s) s -> wp (gets f) Q s.
Proof. done. Qed.

Lemma wp_modS (f : S -> S) Q s : Q tt (f s) -> wp (modS f) Q s.
Proof. done. Qed.

Lemma wp_lift {T A} (get : S -> T) set (m : M T A) Q s :
  wp m (fun a t => Q a (set t s)) (get s) -> wp (lift get set m) Q s.
Proof. unfold wp, lift. by destruct (m (get s)). Qed.

(** Loop rule: an invariant indexed by the part of the list already done. *)
Lemma wp_forM {A} (l : list A) (body : A -> M S unit) (I : list A -> S -> Prop) Q s :
  I [] s ->
  (forall done x rest s', l = done ++ x :: rest -> I done s' ->
     wp (body x) (fun _ s'' => I (done ++ [x]) s'') s') ->
  (forall s', I l s' -> Q tt s') ->
  wp (forM l body) Q s.
Proof.
  intros H0 Hstep HQ.
  enough (Hgen : forall rest done s', l = done ++ rest -> I done s' ->
            wp (forM rest body) Q s') by (by apply (Hgen l [])).
  induction rest as [|x rest IH]; intros done s' Hl HI; simpl.
  - apply wp_ret, HQ. by rewrite Hl, app_nil_r.
  - apply wp_bind. eapply wp_mono; [by apply Hstep with (rest := rest)|].
    intros [] s'' HI'. apply (IH (done ++ [x])); [|done].
    by rewrite <-app_assoc.
Qed.

Lemma wp_forR {A B} (l : list A) (body : A -> M S (option B)) (I : list A -> S -> Prop) Q s :
  I [] s ->
  (forall done x rest s', l = done ++ x :: rest -> I done s' ->
     wp (body x) (fun r s'' => match r with
                               | Some b => Q (Some b) s''
                               | None => I (done ++ [x]) s'' end) s') ->
  (forall s', I l s' -> Q None s') ->
  wp (forR l body) Q s.
Proof.
  intros H0 Hstep HQ.
  enough (Hgen : forall rest done s', l = done ++ rest -> I done s' ->
            wp (forR rest body) Q s') by (by apply (Hgen l [])).
  induction rest as [|x rest IH]; intros done s' Hl HI; simpl.
  - apply wp_ret, HQ. by rewrite Hl, app_nil_r.
  - apply wp_bind. eapply wp_mono; [by apply Hstep with (rest := rest)|].
    intros [b|] s'' HI'; [done|]. apply (IH (done ++ [x])); [|done].
    by rewrite <-app_assoc.
Qed.

(** Loops with a measure that bounds the fuel. *)
Lemma wp_loop {A B} (body : A -> M S (A + B)) (I : A -> S -> Prop) (mu : A -> nat) Q fuel x s :
  I x s -> (mu x < fuel)%nat ->
  (forall y s', I y s' -> wp (body y) (fun r s'' => match r with
     | inl y' => I y' s'' /\ (mu y' < mu y)%nat
     | inr b => Q b s'' end) s') ->
  wp (loop fuel body x) Q s.
Proof.
  intros HI Hmu Hb. revert x s HI Hmu. induction fuel as [|fuel IH]; intros x s HI Hmu; [lia|].
  simpl. apply wp_bind. eapply wp_mono; [by apply Hb|].
  intros [y|b] s'; [|done]. intros [HI' Hlt]. apply IH; [done|lia].
Qed.

(** Running to the end from a weakest precondition. *)
Lemma wp_run {A} (m : M S A) Q s : wp m Q s -> exists a s', m s = Ok a s' /\ Q a s'.
Proof. apply wp_iff. Qed.

Lemma bind_Ok {A B} (m : M S A) (k : A -> M S B) s a s1 :
  m s = Ok a s1 -> (m ≫= k) s = k a s1.
Proof. unfold mbind, M_bind. by intros ->. Qed.

Lemma forR_step {A B} (x : A) (l : list A) (body : A -> M S (option B)) s r s1 :
  body x s = Ok r s1 ->
  forR (x :: l) body s = match r with Some b => Ok (Some b) s1 | None => forR l body s1 end.
Proof. cbn [forR]. unfold mbind, M_bind. intros ->. by destruct r. Qed.

(** [panics m msg s]: run from [s], [m] ends in that panic. *)
Definition panics {A} (m : M S A) (msg : string) (s : S) : Prop := exists s', m s = Panic msg s'.

Lemma panics_bind_l {A B} (m : M S A) (k : A -> M S B) msg s :
  panics m msg s -> panics (m ≫= k) msg s.
Proof. intros [s' E]. exists s'. unfold mbind, M_bind. by rewrite E. Qed.

Lemma panics_bind_r {A B} (m : M S A) (k : A -> M S B) Q msg s :
  wp m Q s -> (forall a s', Q a s' -> panics (k a) msg s') -> panics (m ≫= k) msg s.
Proof.
  intros (a & s1 & E & HQ)%wp_run Hk. destruct (Hk a s1 HQ) as [s' E']. exists s'.
  unfold mbind, M_bind. by rewrite E.
Qed.

Lemma panics_gets {A B} (f : S -> A) (k : A -> M S B) msg s :
  panics (k (f s)) msg s -> panics (gets f ≫= k) msg s.
Proof. done. Qed.
End wp.

Create HintDb xv7.
#[export] Hint Resolve wp_ret wp_gets wp_modS : xv7.
#[export] Hint Resolve u32_range u8_range s32_range : xv7.

(** Step through the monadic head of a [wp] goal. *)
Ltac wp_step :=
  lazymatch goal with
  | |- wp (mbind _ _) _ _ => apply wp_bind
  | |- wp (mret _) _ _ => apply wp_ret
  | |- wp (gets _) _ _ => apply wp_gets
  | |- wp (modS _) _ _ => apply wp_modS
  | |- wp (lift _ _ _) _ _ => apply wp_lift
  end.
Ltac wp_steps := repeat wp_step.

(** Split the boolean tests of the C conditions into propositions. *)
Ltac bool_split :=
  repeat match goal with
  | H : (_ && _)%bool = true |- _ => apply andb_prop in H as [? ?]
  | H : (_ || _)%bool = false |- _ => apply orb_false_elim in H as [? ?]
  | H : negb _ = true |- _ => apply negb_true_iff in H
  | H : negb _ = false |- _ => apply negb_false_iff in H
  | H : (_ =? _) = true |- _ => apply Z.eqb_eq in H
  | H : (_ =? _) = false |- _ => apply Z.eqb_neq in H
  | H : (_ <? _) = true |- _ => apply Z.ltb_lt in H
  | H : (_ <? _) = false |- _ => apply Z.ltb_ge in H
  | H : (_ <=? _) = true |- _ => apply Z.leb_le in H
  | H : (_ <=? _) = false |- _ => apply Z.leb_gt in H
  end.

(** ** Byte arrays *)

(** Array access with a [Z] index; the C arrays of the model are lists, and a
    read outside the list yields the default (callers check the range). *)
Definition nthZ {A : Type} (d : A) (l : list A) (i : Z) : A :=
  if i <? 0 then d else nth (Z.to_nat i) l d.
Definition updZ {A : Type} (i : Z) (x : A) (l : list A) : list A :=
  if i <? 0 then l else <[Z.to_nat i := x]> l.

(** [memmove(l + off, bs, len bs)] inside an array. *)
Definition splice {A : Type} (off : nat) (bs l : list A) : list A :=
  take off l ++ bs ++ drop (off + length bs) l.
Definition slice {A : Type} (off n : nat) (l : list A) : list A := take n (drop off l).

(** Little-endian words. *)
Fixpoint le_encode (n : nat) (z : Z) : list Z :=
  match n with
  | O => []
  | S n' => z mod 256 :: le_encode n' (z / 256)
  end.
Fixpoint le_decode (l : list Z) : Z :=
  match l with
  | [] => 0
  | b :: l' => b + 256 * le_decode l'
  end.

Section arrays.
Context {A : Type}.
Implicit Types (l bs : list A) (d x : A).

Lemma length_updZ i x l : length (updZ i x l) = length l.
Proof. unfold updZ. case_match; [done|]. apply length_insert. Qed.

Lemma nthZ_updZ_eq d i x l : 0 <= i < Z.of_nat (length l) -> nthZ d (updZ i x l) i = x.
Proof.
  intros [H1 H2]. unfold nthZ, updZ.
  destruct (Z.ltb_spec i 0); [lia|].
  apply nth_lookup_Some. apply list_lookup_insert_eq. lia.
Qed.

Lemma nthZ_updZ_ne d i j x l : i <> j -> nthZ d (updZ i x l) j = nthZ d l j.
Proof.
  intros Hne. unfold nthZ, updZ.
  destruct (Z.ltb_spec j 0); [done|]. destruct (Z.ltb_spec i 0); [done|].
  rewrite !nth_lookup, list_lookup_insert_ne; [done|lia].
Qed.

Lemma updZ_updZ i x y l : updZ i x (updZ i y l) = updZ i x l.
Proof. unfold updZ. case_match; [done|]. apply list_insert_insert_eq. Qed.

Lemma updZ_id d i l : 0 <= i < Z.of_nat (length l) -> updZ i (nthZ d l i) l = l.
Proof.
  intros Hi. unfold updZ, nthZ. destruct (Z.ltb_spec i 0); [done|]. apply list_insert_id.
  destruct (lookup_lt_is_Some_2 l (Z.to_nat i)) as [v Hv]; [lia|]. rewrite Hv.
  f_equal. symmetry. by apply nth_lookup_Some.
Qed.

Lemma length_splice off bs l :
  (off + length bs <= length l)%nat -> length (splice off bs l) = length l.
Proof. intros. unfold splice. rewrite !length_app, length_take, length_drop. lia. Qed.

Lemma length_slice off n l :
  (off + n <= length l)%nat -> length (slice off n l) = n.
Proof. intros. unfold slice. rewrite length_take, length_drop. lia. Qed.

Lemma slice_splice_eq off bs l :
  (off + length bs <= length l)%nat -> slice off (length bs) (splice off bs l) = bs.
Proof.
  intros. unfold slice, splice.
  rewrite drop_app_length' by (rewrite length_take; lia). by rewrite take_app_length.
Qed.

Lemma lookup_splice_out off bs l i :
  (off + length bs <= length l)%nat -> (i < off \/ off + length bs <= i)%nat ->
  splice off bs l !! i = l !! i.
Proof.
  intros Hle Hi. unfold splice. destruct (decide (i < off)%nat) as [Hlt|Hge].
  - rewrite lookup_app_l by (rewrite length_take; lia). by rewrite lookup_take_lt.
  - rewrite lookup_app_r by (rewrite length_take; lia). rewrite length_take.
    rewrite lookup_app_r by lia. rewrite lookup_drop. f_equal. lia.
Qed.

Lemma lookup_splice_in off bs l i :
  (off + length bs <= length l)%nat -> (off <= i < off + length bs)%nat ->
  splice off bs l !! i = bs !! (i - off)%nat.
Proof.
  intros Hle Hi. unfold splice.
  rewrite lookup_app_r by (rewrite length_take; lia). rewrite length_take.
  rewrite lookup_app_l by lia. f_equal. lia.
Qed.

Lemma lookup_slice off n l i : (i < n)%nat -> slice off n l !! i = l !! (off + i)%nat.
Proof. intros. unfold slice. rewrite lookup_take_lt by done. by rewrite lookup_drop. Qed.

Lemma slice_splice_ne off bs l off' n :
  (off + length bs <= length l)%nat ->
  (off' + n <= off \/ off + length bs <= off')%nat ->
  slice off' n (splice off bs l) = slice off' n l.
Proof.
  intros Hle Hdis. apply list_eq. intros i.
  destruct (decide (i < n)%nat).
  - rewrite !lookup_slice by done. apply lookup_splice_out; lia.
  - unfold slice. rewrite !lookup_take_ge by lia. done.
Qed.
End arrays.

Lemma length_le_encode n z : length (le_encode n z) = n.
Proof. revert z. induction n; intros; simpl; auto. Qed.

Lemma le_encode_bytes n z : Forall (fun b => 0 <= b < 256) (le_encode n z).
Proof.
  revert z. induction n; intros; simpl; constructor; [|done].
  apply Z.mod_pos_bound. lia.
Qed.

Lemma le_decode_encode n z : 0 <= z < 256 ^ Z.of_nat n -> le_decode (le_encode n z) = z.
Proof.
  revert z. induction n as [|n IH]; intros z Hz.
  - simpl in *. change (256 ^ 0) with 1 in Hz. lia.
  - rewrite Nat2Z.inj_succ, Z.pow_succ_r in Hz by lia.
    cbn [le_encode le_decode].
    rewrite IH.
    + pose proof (Z.div_mod z 256). lia.
    + split; [apply Z.div_pos; lia|]. apply Z.div_lt_upper_bound; lia.
Qed.

Lemma le_encode_decode (l : list Z) :
  Forall (fun b => 0 <= b < 256) l -> le_encode (length l) (le_decode l) = l.
Proof.
  induction 1 as [|b l Hb _ IH]; [done|]. cbn [length le_decode le_encode].
  replace ((b + 256 * le_decode l) mod 256) with b.
  - replace ((b + 256 * le_decode l) / 256) with (le_decode l); [by rewrite IH|].
    rewrite Z.mul_comm, Z.div_add by lia. rewrite Z.div_small by lia. lia.
  - rewrite Z.mul_comm, Z.mod_add by lia. by rewrite Z.mod_small.
Qed.

(** 16- and 32-bit fields of a byte array at a byte offset. *)
Definition get16 (l : list Z) (off : nat) : Z := le_decode (slice off 2 l).
Definition get32 (l : list Z) (off : nat) : Z := le_decode (slice off 4 l).
Definition put16 (off : nat) (z : Z) (l : list Z) : list Z := splice off (le_encode 2 z) l.
Definition put32 (off : nat) (z : Z) (l : list Z) : list Z := splice off (le_encode 4 z) l.

Lemma get32_put32_eq off z l :
  (off + 4 <= length l)%nat -> 0 <= z < 2 ^ 32 -> get32 (put32 off z l) off = z.
Proof.
  intros Hl Hz. unfold get32, put32.
  replace 4%nat with (length (le_encode 4 z)) at 1 by apply length_le_encode.
  rewrite slice_splice_eq by (rewrite length_le_encode; done).
  apply le_decode_encode. done.
Qed.

Lemma get32_put32_ne off off' z l :
  (off + 4 <= length l)%nat -> (off' + 4 <= off \/ off + 4 <= off')%nat ->
  get32 (put32 off z l) off' = get32 l off'.
Proof.
  intros Hl Hd. unfold get32, put32.
  rewrite slice_splice_ne; rewrite ?length_le_encode; auto.
Qed.

Lemma get16_put16_eq off z l :
  (off + 2 <= length l)%nat -> 0 <= z < 2 ^ 16 -> get16 (put16 off z l) off = z.
Proof.
  intros Hl Hz. unfold get16, put16.
  replace 2%nat with (length (le_encode 2 z)) at 1 by apply length_le_encode.
  rewrite slice_splice_eq by (rewrite length_le_encode; done).
  apply le_decode_encode. done.
Qed.

Lemma length_put32 off z l : (off + 4 <= length l)%nat -> length (put32 off z l) = length l.
Proof. intros. unfold put32. apply length_splice. by rewrite length_le_encode. Qed.

Lemma length_put16 off z l : (off + 2 <= length l)%nat -> length (put16 off z l) = length l.
Proof. intros. unfold put16. apply length_splice. by rewrite length_le_encode. Qed.

(** ** Several fields at once

    A sequence of writes of byte strings at disjoint offsets. *)
Definition put_fields (o : nat) (ws : list (nat * list Z)) (l : list Z) : list Z :=
  fold_left (fun l w => splice (o + w.1) w.2 l) ws l.
Definition apart (a b : nat * nat) : bool :=
  bool_decide (a.1 + a.2 <= b.1)%nat || bool_decide (b.1 + b.2 <= a.1)%nat.
Fixpoint all_apart (l : list (nat * nat)) : bool :=
  match l with
  | [] => true
  | a :: l' => forallb (apart a) l' && all_apart l'
  end.
Definition extent (w : nat * list Z) : nat * nat := (w.1, length w.2).
Definition fits (n : nat) (a : nat * nat) : bool := bool_decide (a.1 + a.2 <= n)%nat.

Section fields.
Context (o n : nat).
Implicit Types (ws : list (nat * list Z)) (l : list Z).

Lemma put_fields_cons w ws l :
  put_fields o (w :: ws) l = put_fields o ws (splice (o + w.1) w.2 l).
Proof. done. Qed.

Lemma length_put_fields ws l :
  forallb (fits n) (map extent ws) = true -> (o + n <= length l)%nat ->
  length (put_fields o ws l) = length l.
Proof.
  revert l. induction ws as [|w ws IH]; intros l Hf Hl; [done|]. simpl in Hf.
  apply andb_prop in Hf as [Hw Hf]. apply bool_decide_eq_true in Hw. simpl in Hw.
  rewrite put_fields_cons. rewrite IH; rewrite ?length_splice; try done; lia.
Qed.

(** A range apart from every field is not changed. *)
Lemma slice_put_fields_ne ws l a k :
  forallb (fits n) (map extent ws) = true -> (o + n <= length l)%nat ->
  (forall w, w ∈ ws -> a + k <= o + w.1 \/ o + w.1 + length w.2 <= a)%nat ->
  slice a k (put_fields o ws l) = slice a k l.
Proof.
  revert l. induction ws as [|w ws IH]; intros l Hf Hl Ha; [done|]. simpl in Hf.
  apply andb_prop in Hf as [Hw Hf]. apply bool_decide_eq_true in Hw. simpl in Hw.
  rewrite put_fields_cons, IH.
  - apply slice_splice_ne; [lia|]. apply Ha. by constructor.
  - done.
  - rewrite length_splice; lia.
  - intros w' Hw'. apply Ha. by constructor.
Qed.

(** Each field reads back what was written to it. *)
Lemma slice_put_fields_eq ws l w :
  all_apart (map extent ws) = true -> forallb (fits n) (map extent ws) = true ->
  (o + n <= length l)%nat -> w ∈ ws ->
  slice (o + w.1) (length w.2) (put_fields o ws l) = w.2.
Proof.
  revert l. induction ws as [|v ws IH]; intros l Ha Hf Hl Hin; [by apply not_elem_of_nil in Hin|].
  simpl in Ha, Hf. apply andb_prop in Hf as [Hv Hf]. apply andb_prop in Ha as [Hd Ha].
  apply bool_decide_eq_true in Hv. simpl in Hv. rewrite put_fields_cons.
  apply elem_of_cons in Hin as [->|Hin].
  - rewrite slice_put_fields_ne; [apply slice_splice_eq; lia|done|rewrite length_splice; lia|].
    intros u Hu. rewrite forallb_forall in Hd. specialize (Hd (extent u)).
    assert (Hap : apart (extent v) (extent u) = true).
    { apply Hd, in_map. by apply list_elem_of_In. }
    unfold apart in Hap. apply orb_prop in Hap as [Hap|Hap]; apply bool_decide_eq_true in Hap;
      simpl in Hap; lia.
  - apply IH; [done|done| |done]. rewrite length_splice; lia.
Qed.
End fields.

Create Rewrite HintDb xv7_len.
#[export] Hint Rewrite @length_updZ length_le_encode : xv7_len.

(** ** Counting in an array *)

Definition count {A : Type} (f : A -> bool) (l : list A) : nat := length (List.filter f l).

Lemma count_update {A} (f : A -> bool) (l : list A) (i : nat) (x y : A) :
  l !! i = Some y ->
  (count f (<[i:=x]> l) + (if f y then 1 else 0) = count f l + (if f x then 1 else 0))%nat.
Proof.
  unfold count. revert i. induction l as [|z l IH]; intros [|i] H; simpl in *; [done..| |].
  - injection H as ->. destruct (f x), (f y); simpl; lia.
  - specialize (IH i H). destruct (f z); simpl; lia.
Qed.

Lemma count_le {A} (f : A -> bool) (l : list A) : (count f l <= length l)%nat.
Proof. unfold count. induction l as [|z l IH]; simpl; [lia|]. destruct (f z); simpl; lia. Qed.

Lemma count_lt_exists {A} (f : A -> bool) (l : list A) :
  (count f l < length l)%nat -> exists i x, l !! i = Some x /\ f x = false.
Proof.
  unfold count. induction l as [|z l IH]; simpl; [lia|]. destruct (f z) eqn:E; simpl; intros H.
  - destruct IH as (i & x & Hi & Hx); [lia|]. by exists (S i), x.
  - by exists 0%nat, z.
Qed.

Lemma nthZ_lookup {A} (d : A) (l : list A) i :
  0 <= i < Z.of_nat (length l) -> l !! Z.to_nat i = Some (nthZ d l i).
Proof.
  intros Hi. unfold nthZ. rewrite (proj2 (Z.ltb_ge i 0)) by lia.
  destruct (l !! Z.to_nat i) eqn:E.
  - symmetry. f_equal. by apply nth_lookup_Some.
  - apply lookup_ge_None in E. lia.
Qed.

Lemma nthZ_app {A} (d : A) l1 l2 i : 0 <= i ->
  nthZ d (l1 ++ l2) i = if i <? Z.of_nat (length l1) then nthZ d l1 i else nthZ d l2 (i - Z.of_nat (length l1)).
Proof.
  intros Hi. unfold nthZ. rewrite !(proj2 (Z.ltb_ge _ 0)) by lia.
  destruct (Z.ltb_spec i (Z.of_nat (length l1))).
  - rewrite app_nth1 by lia. done.
  - rewrite (proj2 (Z.ltb_ge _ 0)) by lia. rewrite app_nth2 by lia. f_equal. lia.
Qed.
Lemma nthZ_app_l {A} (d : A) (l1 l2 : list A) k : k < Z.of_nat (length l1) -> nthZ d (l1 ++ l2) k = nthZ d l1 k.
Proof. intros Hk. unfold nthZ. case_match; [done|]. bool_split. by rewrite app_nth1 by lia. Qed.
Lemma nthZ_app_r {A} (d : A) (l1 l2 : list A) k :
  Z.of_nat (length l1) <= k -> nthZ d (l1 ++ l2) k = nthZ d l2 (k - Z.of_nat (length l1)).
Proof. intros Hk. rewrite nthZ_app by lia. by rewrite (proj2 (Z.ltb_ge _ _)). Qed.
Lemma nthZ_beyond {A} (d : A) (l : list A) k : Z.of_nat (length l) <= k -> nthZ d l k = d.
Proof. intros Hk. unfold nthZ. case_match; [done|]. apply nth_overflow. lia. Qed.

Lemma slice_splice_in {A} o (bs d : list A) k n :
  (o + length bs <= length d)%nat -> (k + n <= length bs)%nat ->
  slice (o + k) n (splice o bs d) = slice k n bs.
Proof.
  intros Hl Hk. apply list_eq. intros j. destruct (decide (j < n)%nat) as [Hj|Hj].
  - rewrite !lookup_slice by done. rewrite lookup_splice_in by lia. f_equal. lia.
  - rewrite !lookup_ge_None_2; [done|..]; unfold slice; rewrite length_take; lia.
Qed.

Lemma slice_slice {A} a n o m (d : list A) :
  (a + n <= m)%nat -> slice a n (slice o m d) = slice (o + a) n d.
Proof.
  intros H. unfold slice. rewrite skipn_firstn_comm, take_take, drop_drop. f_equal. lia.
Qed.

Lemma nthZ_map_seqZ {A} (d : A) (f : Z -> A) n k : 0 <= k < n -> nthZ d (map f (seqZ 0 n)) k = f k.
Proof.
  intros Hk. unfold nthZ. rewrite (proj2 (Z.ltb_ge k 0)) by lia. apply nth_lookup_Some.
  rewrite list_lookup_fmap, lookup_seqZ_lt by lia. simpl. do 2 f_equal. lia.
Qed.

Lemma count_updZ {A} (d : A) (f : A -> bool) (l : list A) (i : Z) (x : A) :
  0 <= i < Z.of_nat (length l) ->
  (count f (updZ i x l) + (if f (nthZ d l i) then 1 else 0)
   = count f l + (if f x then 1 else 0))%nat.
Proof.
  intros Hi. unfold updZ. rewrite (proj2 (Z.ltb_ge i 0)) by lia.
  apply count_update. by apply nthZ_lookup.
Qed.

(** ** Filters that keep everything or nothing *)

Section filters.
Context {A : Type} (P : A -> Prop) `{!forall x, Decision (P x)}.

Lemma filter_all (l : list A) : (forall x, x ∈ l -> P x) -> filter P l = l.
Proof.
  induction l as [|x l IH]; intros Hl; [done|].
  rewrite filter_cons_True by (apply Hl; by constructor).
  f_equal. apply IH. intros y Hy. apply Hl. by constructor.
Qed.

Lemma filter_none (l : list A) : (forall x, x ∈ l -> ~ P x) -> filter P l = [].
Proof.
  induction l as [|x l IH]; intros Hl; [done|].
  rewrite filter_cons_False by (apply Hl; by constructor).
  apply IH. intros y Hy. apply Hl. by constructor.
Qed.
End filters.

(** ** Searching a range *)

Lemma find_seqZ (f : Z -> bool) m n x :
  List.find f (seqZ m n) = Some x ->
  m <= x < m + n /\ f x = true /\ (forall j, m <= j < x -> f j = false).
Proof.
  destruct (decide (0 <= n)) as [Hn|Hn]; [|rewrite seqZ_nil by lia; done].
  revert m. pattern n. apply natlike_ind; [done| |done]. clear n Hn.
  intros n Hn IH m. rewrite seqZ_cons by lia. replace (Z.pred (Z.succ n)) with n by lia.
  cbn [List.find]. destruct (f m) eqn:E.
  - intros [= <-]. split_and!; [lia|lia|done|intros; lia].
  - intros (H1 & H2 & H3)%IH. split_and!; [lia|lia|done|].
    intros j Hj. destruct (decide (j = m)) as [->|]; [done|]. apply H3. lia.
Qed.

Lemma find_seqZ_None (f : Z -> bool) m n :
  List.find f (seqZ m n) = None -> forall j, m <= j < m + n -> f j = false.
Proof.
  intros H j Hj. eapply List.find_none in H; [exact H|].
  apply list_elem_of_In, elem_of_seqZ. lia.
Qed.

Lemma find_seqZ_first (f : Z -> bool) m n x :
  m <= x < m + n -> f x = true -> (forall j, m <= j < x -> f j = false) ->
  List.find f (seqZ m n) = Some x.
Proof.
  intros Hx Hf Hb. destruct (List.find f (seqZ m n)) as [y|] eqn:E.
  - apply find_seqZ in E as (Hy & Hfy & Hby). f_equal.
    destruct (Z.lt_trichotomy x y) as [H|[H|H]]; [|done|].
    + specialize (Hby x ltac:(lia)). congruence.
    + specialize (Hb y ltac:(lia)). congruence.
  - pose proof (find_seqZ_None _ _ _ E x Hx). congruence.
Qed.

Lemma count_ext {A} (f g : A -> bool) (l : list A) :
  (forall x, x ∈ l -> f x = g x) -> count f l = count g l.
Proof.
  unfold count. induction l as [|x l IH]; intros H; [done|]. simpl. rewrite (H x) by constructor.
  destruct (g x); simpl; rewrite IH; try done; intros y Hy; apply H; by constructor.
Qed.

(** Turning off one element of a list without duplicates. *)
Lemma count_off {A} (f g : A -> bool) (l : list A) y :
  NoDup l -> y ∈ l -> f y = true -> g y = false -> (forall x, x <> y -> f x = g x) ->
  count f l = S (count g l).
Proof.
  intros Hnd Hy Hf Hg Hext. apply list_elem_of_split in Hy as (l1 & l2 & ->).
  apply NoDup_app in Hnd as (_ & Hd & [Hn _]%NoDup_cons).
  assert (H1 : count f l1 = count g l1).
  { apply count_ext. intros x Hx. apply Hext. intros ->. apply (Hd y Hx). by constructor. }
  assert (H2 : count f l2 = count g l2) by (apply count_ext; intros x Hx; apply Hext; by intros ->).
  assert (Happ : forall h : A -> bool, count h (l1 ++ y :: l2)
            = (count h l1 + (if h y then 1 else 0) + count h l2)%nat).
  { intros h. unfold count. rewrite List.filter_app, length_app. simpl.
    destruct (h y); simpl; lia. }
  rewrite !Happ, Hf, Hg, H1, H2. lia.
Qed.

(** The element at a position of a mapped range. *)
Lemma map_seqZ_split {A} (f : Z -> A) n dn x rest :
  map f (seqZ 0 n) = dn ++ x :: rest -> x = f (Z.of_nat (length dn)) /\ Z.of_nat (length dn) < n.
Proof.
  intros Hl. assert (E : map f (seqZ 0 n) !! length dn = Some x)
    by (rewrite Hl, lookup_app_r, Nat.sub_diag by lia; done).
  change (map ?f ?l) with (f <$> l) in E. apply list_lookup_fmap_Some in E as (i & -> & Hi).
  apply lookup_seqZ in Hi as [-> ?]. split; [f_equal; lia|done].
Qed.
