(* ===== verification/CString.v ===== *)
(** * Memory and string primitives (kernel/string.c)

    [memset], [memcmp], [memmove], [strncmp], [strncpy], [safestrcpy] and
    [strlen].  The [mem*] routines work on one flat byte memory, because whether
    their operands overlap matters; the [str*] routines take the object each
    pointer points into as a reader [Z -> Z] (the C standard makes overlapping
    operands undefined for them). *)

From stdpp Require Import base list numbers.
From Stdlib Require Import ZArith Lia ZifyBool.
From S2P Require Import Prelude.

Local Open Scope Z_scope.

(** ** Model *)

Definition mem : Type := Z -> Z.

Definition store (a v : Z) (m : mem) : mem := fun x => if x =? a then v else m x.

(** [rep stosb] and [rep stosl] with the direction flag clear. *)
Fixpoint stosb (m : mem) (addr data : Z) (cnt : nat) : mem :=
  match cnt with
  | O => m
  | S cnt' => stosb (store addr (u8 data) m) (addr + 1) data cnt'
  end.

Definition store4 (addr data : Z) (m : mem) : mem :=
  store (addr + 3) (u8 (Z.shiftr data 24))
    (store (addr + 2) (u8 (Z.shiftr data 16))
       (store (addr + 1) (u8 (Z.shiftr data 8)) (store addr (u8 data) m))).

Fixpoint stosl (m : mem) (addr data : Z) (cnt : nat) : mem :=
  match cnt with
  | O => m
  | S cnt' => stosl (store4 addr data m) (addr + 4) data cnt'
  end.

Definition memset (m : mem) (dst c n : Z) : mem :=
  if (dst mod 4 =? 0) && (n mod 4 =? 0) then
    let c := Z.land c 255 in
    stosl m dst
      (u32 (Z.lor (Z.lor (Z.lor (Z.shiftl c 24) (Z.shiftl c 16)) (Z.shiftl c 8)) c))
      (Z.to_nat (n / 4))
  else stosb m dst c (Z.to_nat n).

Fixpoint memcmp_loop (m : mem) (s1 s2 : Z) (n : nat) : Z :=
  match n with
  | O => 0
  | S n' =>
      if m s1 =? m s2 then memcmp_loop m (s1 + 1) (s2 + 1) n' else m s1 - m s2
  end.
Definition memcmp (m : mem) (v1 v2 n : Z) : Z := memcmp_loop m v1 v2 (Z.to_nat n).

(** [while (n-- > 0) *d++ = *s++] and [while (n-- > 0) *--d = *--s]. *)
Fixpoint copy_up (m : mem) (d s : Z) (n : nat) : mem :=
  match n with
  | O => m
  | S n' => copy_up (store d (m s) m) (d + 1) (s + 1) n'
  end.
Fixpoint copy_down (m : mem) (d s : Z) (n : nat) : mem :=
  match n with
  | O => m
  | S n' => copy_down (store (d - 1) (m (s - 1)) m) (d - 1) (s - 1) n'
  end.

Definition memmove (m : mem) (dst src n : Z) : mem :=
  if (src <? dst) && (dst <? u32 (src + n)) then
    copy_down m (dst + n) (src + n) (Z.to_nat n)
  else copy_up m dst src (Z.to_nat n).

Fixpoint strncmp_loop (p q : Z -> Z) (i : Z) (n : nat) : Z :=
  match n with
  | O => 0
  | S n' =>
      if negb (p i =? 0) && (p i =? q i) then strncmp_loop p q (i + 1) n'
      else u8 (p i) - u8 (q i)
  end.
Definition strncmp (p q : Z -> Z) (n : Z) : Z := strncmp_loop p q 0 (Z.to_nat n).

(** The first loop of [strncpy] leaves with [n] already decremented, so the
    padding loop runs for the cells after the NUL only. *)
Fixpoint strncpy_pad (s : Z -> Z) (i : Z) (n : nat) : Z -> Z :=
  match n with
  | O => s
  | S n' => strncpy_pad (store i 0 s) (i + 1) n'
  end.
Fixpoint strncpy_loop (s t : Z -> Z) (i : Z) (n : nat) : Z -> Z :=
  match n with
  | O => s
  | S n' =>
      let s' := store i (t i) s in
      if t i =? 0 then strncpy_pad s' (i + 1) n' else strncpy_loop s' t (i + 1) n'
  end.
Definition strncpy (s t : Z -> Z) (n : Z) : Z -> Z := strncpy_loop s t 0 (Z.to_nat n).

(** [n] counts the iterations [--n > 0] still allows. *)
Fixpoint safestrcpy_loop (s t : Z -> Z) (i : Z) (n : nat) : Z -> Z :=
  match n with
  | O => store i 0 s
  | S n' =>
      let s' := store i (t i) s in
      if t i =? 0 then store (i + 1) 0 s' else safestrcpy_loop s' t (i + 1) n'
  end.
Definition safestrcpy (s t : Z -> Z) (n : Z) : Z -> Z :=
  if n <=? 0 then s else safestrcpy_loop s t 0 (Z.to_nat (n - 1)).

Fixpoint strlen_loop (fuel : nat) (s : Z -> Z) (n : Z) : option Z :=
  match fuel with
  | O => None
  | S fuel' => if s n =? 0 then Some n else strlen_loop fuel' s (n + 1)
  end.
(** [None]: no NUL within the first [fuel] bytes. *)
Definition strlen (fuel : nat) (s : Z -> Z) : option Z := strlen_loop fuel s 0.

(** The object a C array is, as a reader. *)
Definition arr (l : list Z) : Z -> Z := nthZ 0 l.

(** The C string a pointer denotes, cut at [n] bytes: the specification the
    routines above are measured against. *)
Fixpoint cstr (p : Z -> Z) (i : Z) (n : nat) : list Z :=
  match n with
  | O => []
  | S n' => if p i =? 0 then [] else p i :: cstr p (i + 1) n'
  end.

(** ** Lemmas *)

Lemma store_eq a v m : store a v m a = v.
Proof. unfold store. by rewrite Z.eqb_refl. Qed.

Lemma store_ne a v m x : x <> a -> store a v m x = m x.
Proof. intros. unfold store. by rewrite (proj2 (Z.eqb_neq x a)). Qed.

(** A read of a memory one cell [d] of which was just overwritten. *)
Ltac copy_case d :=
  match goal with
  | |- store _ _ _ _ = _ =>
      first
        [ rewrite store_ne by lia; first [done | f_equal; lia]
        | match goal with |- store _ _ _ ?a = _ => replace a with d by lia end;
          rewrite store_eq; f_equal; lia ]
  end.

Lemma stosb_spec m addr data cnt a :
  stosb m addr data cnt a =
  if (addr <=? a) && (a <? addr + Z.of_nat cnt) then u8 data else m a.
Proof.
  revert m addr. induction cnt as [|cnt IH]; intros m addr; cbn [stosb].
  - by rewrite (proj2 (andb_false_iff _ _)) by lia.
  - rewrite IH. unfold store.
    destruct (Z.eqb_spec a addr), (Z.leb_spec (addr + 1) a), (Z.leb_spec addr a),
      (Z.ltb_spec a (addr + 1 + Z.of_nat cnt)), (Z.ltb_spec a (addr + Z.of_nat (S cnt)));
      simpl; try done; lia.
Qed.

Lemma stosl_spec m addr data v cnt a :
  u8 data = v -> u8 (Z.shiftr data 8) = v -> u8 (Z.shiftr data 16) = v ->
  u8 (Z.shiftr data 24) = v ->
  stosl m addr data cnt a =
  if (addr <=? a) && (a <? addr + 4 * Z.of_nat cnt) then v else m a.
Proof.
  intros H0 H1 H2 H3. revert m addr. induction cnt as [|cnt IH]; intros m addr; cbn [stosl].
  - by rewrite (proj2 (andb_false_iff _ _)) by lia.
  - rewrite IH. unfold store4, store. rewrite H0, H1, H2, H3.
    destruct (Z.leb_spec (addr + 4) a), (Z.leb_spec addr a),
      (Z.ltb_spec a (addr + 4 + 4 * Z.of_nat cnt)),
      (Z.ltb_spec a (addr + 4 * Z.of_nat (S cnt))); simpl; try lia; try done;
      repeat case_match; bool_split; try lia; done.
Qed.

(** The four bytes of the word [memset] stores. *)
Lemma memset_word_bytes c :
  0 <= c < 256 ->
  let w := u32 (Z.lor (Z.lor (Z.lor (Z.shiftl c 24) (Z.shiftl c 16)) (Z.shiftl c 8)) c) in
  u8 w = c /\ u8 (Z.shiftr w 8) = c /\ u8 (Z.shiftr w 16) = c /\ u8 (Z.shiftr w 24) = c.
Proof.
  intros Hc.
  set (ok := fun c =>
    let w := u32 (Z.lor (Z.lor (Z.lor (Z.shiftl c 24) (Z.shiftl c 16)) (Z.shiftl c 8)) c) in
    (u8 w =? c) && (u8 (Z.shiftr w 8) =? c) && (u8 (Z.shiftr w 16) =? c)
      && (u8 (Z.shiftr w 24) =? c)).
  assert (Hall : forallb ok (seqZ 0 256) = true) by (vm_compute; reflexivity).
  rewrite forallb_forall in Hall.
  assert (Hin : In c (seqZ 0 256)) by (apply list_elem_of_In, elem_of_seqZ; lia).
  specialize (Hall c Hin). unfold ok in Hall. cbv zeta in *. bool_split. auto.
Qed.

Lemma land_255 c : Z.land c 255 = u8 c.
Proof. unfold u8. change 255 with (Z.ones 8). by rewrite Z.land_ones. Qed.

Lemma copy_up_spec m d s n a :
  d <= s \/ s + Z.of_nat n <= d ->
  copy_up m d s n a =
  if (d <=? a) && (a <? d + Z.of_nat n) then m (s + (a - d)) else m a.
Proof.
  revert m d s. induction n as [|n IH]; intros m d s Hd; cbn [copy_up].
  - by rewrite (proj2 (andb_false_iff _ _)) by lia.
  - rewrite IH by lia.
    destruct (Z.leb_spec (d + 1) a), (Z.leb_spec d a),
      (Z.ltb_spec a (d + 1 + Z.of_nat n)), (Z.ltb_spec a (d + Z.of_nat (S n)));
      simpl; try lia; copy_case d.
Qed.

Lemma copy_down_spec m d s n a :
  s <= d ->
  copy_down m d s n a =
  if (d - Z.of_nat n <=? a) && (a <? d) then m (s + (a - d)) else m a.
Proof.
  revert m d s. induction n as [|n IH]; intros m d s Hd; cbn [copy_down].
  - by rewrite (proj2 (andb_false_iff _ _)) by lia.
  - rewrite IH by lia.
    destruct (Z.leb_spec (d - 1 - Z.of_nat n) a), (Z.leb_spec (d - Z.of_nat (S n)) a),
      (Z.ltb_spec a (d - 1)), (Z.ltb_spec a d); simpl; try lia; copy_case (d - 1).
Qed.

Lemma strncmp_loop_eq p q i n :
  (forall k, 0 <= p k < 256) -> (forall k, 0 <= q k < 256) ->
  strncmp_loop p q i n = 0 <-> cstr p i n = cstr q i n.
Proof.
  intros Hp Hq. revert i. induction n as [|n IH]; intros i; cbn [strncmp_loop cstr]; [done|].
  rewrite !u8_small by (change (2 ^ 8) with 256; auto).
  destruct (Z.eqb_spec (p i) 0) as [Hp0|Hp0], (Z.eqb_spec (q i) 0) as [Hq0|Hq0],
    (Z.eqb_spec (p i) (q i)) as [Heq|Hne]; simpl; try (split; [lia|done]); try lia.
  - split; [done|lia].
  - rewrite IH, Heq. split; [by intros ->|by intros [= ?]].
  - split; [lia|]. intros [= ? ?]. lia.
Qed.

Lemma strncpy_pad_spec s i n a :
  strncpy_pad s i n a = if (i <=? a) && (a <? i + Z.of_nat n) then 0 else s a.
Proof.
  revert s i. induction n as [|n IH]; intros s i; cbn [strncpy_pad].
  - by rewrite (proj2 (andb_false_iff _ _)) by lia.
  - rewrite IH. unfold store.
    destruct (Z.eqb_spec a i), (Z.leb_spec (i + 1) a), (Z.leb_spec i a),
      (Z.ltb_spec a (i + 1 + Z.of_nat n)), (Z.ltb_spec a (i + Z.of_nat (S n)));
      simpl; try done; lia.
Qed.

Lemma strncpy_loop_out s t i n a :
  (a < i \/ i + Z.of_nat n <= a) -> strncpy_loop s t i n a = s a.
Proof.
  revert s i. induction n as [|n IH]; intros s i Ha; cbn [strncpy_loop]; [done|].
  case_match.
  - rewrite strncpy_pad_spec. rewrite (proj2 (andb_false_iff _ _)) by lia.
    apply store_ne. lia.
  - rewrite IH by lia. apply store_ne. lia.
Qed.

(** Reading the copy back: the string, then zeroes up to [n]. *)
Lemma strncpy_loop_in s t i n k :
  0 <= k < Z.of_nat n ->
  strncpy_loop s t i n (i + k) = nth (Z.to_nat k) (cstr t i n) 0.
Proof.
  revert s i k. induction n as [|n IH]; intros s i k Hk; cbn [strncpy_loop cstr]; [lia|].
  destruct (Z.eqb_spec (t i) 0) as [H0|H0].
  - rewrite strncpy_pad_spec. destruct (Z.to_nat k);
      (destruct (Z.eq_dec k 0) as [->|]; [rewrite (proj2 (andb_false_iff _ _)) by lia;
        rewrite Z.add_0_r, store_eq; done|]);
      rewrite (proj2 (andb_true_iff _ _)) by lia; done.
  - destruct (Z.eq_dec k 0) as [->|].
    + rewrite Z.add_0_r, strncpy_loop_out by lia. rewrite store_eq. done.
    + replace (i + k) with (i + 1 + (k - 1)) by lia. rewrite IH by lia.
      replace (Z.to_nat k) with (S (Z.to_nat (k - 1))) by lia. done.
Qed.

Lemma cstr_ext p q i n :
  (forall k, i <= k < i + Z.of_nat n -> p k = q k) -> cstr p i n = cstr q i n.
Proof.
  revert i. induction n as [|n IH]; intros i H; cbn [cstr]; [done|].
  rewrite H by lia. case_match; [done|]. f_equal. apply IH. intros. apply H. lia.
Qed.

Lemma cstr_bytes p i n :
  (forall k, 0 <= p k < 256) -> Forall (fun b => 0 <= b < 256) (cstr p i n).
Proof.
  intros Hp. revert i. induction n as [|n IH]; intros i; cbn [cstr]; [constructor|].
  case_match; constructor; auto.
Qed.

Lemma arr_bytes l k : Forall (fun b => 0 <= b < 256) l -> 0 <= arr l k < 256.
Proof.
  intros Hl. unfold arr, nthZ. case_match; [lia|].
  destruct (nth_in_or_default (Z.to_nat k) l 0) as [Hi| ->]; [|lia].
  rewrite List.Forall_forall in Hl. by apply Hl.
Qed.

Lemma length_cstr p i n : (length (cstr p i n) <= n)%nat.
Proof.
  revert i. induction n as [|n IH]; intros i; cbn [cstr]; [simpl; lia|].
  case_match; simpl; [lia|]. specialize (IH (i + 1)). lia.
Qed.

(** The string read from a copy is the string copied. *)
Lemma cstr_strncpy s t i n : cstr (strncpy_loop s t i n) i n = cstr t i n.
Proof.
  revert s i. induction n as [|n IH]; intros s i; [done|].
  cbn [cstr].
  assert (Hi : strncpy_loop s t i (S n) i = t i).
  { pose proof (strncpy_loop_in s t i (S n) 0) as H. rewrite Z.add_0_r in H.
    rewrite H by lia. cbn [cstr]. by destruct (Z.eqb_spec (t i) 0). }
  rewrite Hi. destruct (Z.eqb_spec (t i) 0) as [|Hne]; [done|]. f_equal.
  cbn [strncpy_loop]. rewrite (proj2 (Z.eqb_neq _ _) Hne). apply IH.
Qed.

Lemma safestrcpy_loop_out s t i n a :
  (a < i \/ i + Z.of_nat n < a) -> safestrcpy_loop s t i n a = s a.
Proof.
  revert s i. induction n as [|n IH]; intros s i Ha; cbn [safestrcpy_loop].
  - apply store_ne. lia.
  - case_match.
    + rewrite !store_ne; [done|lia|lia].
    + rewrite IH by lia. apply store_ne. lia.
Qed.

Lemma cstr_safestrcpy s t i n : cstr (safestrcpy_loop s t i n) i (S n) = cstr t i n.
Proof.
  revert s i. induction n as [|n IH]; intros s i.
  - cbn [safestrcpy_loop cstr]. by rewrite store_eq.
  - cbn [safestrcpy_loop]. destruct (Z.eqb_spec (t i) 0) as [H0|H0].
    + cbn [cstr]. rewrite store_ne, store_eq, H0 by lia. done.
    + rewrite (eq_refl : cstr t i (S n) = if t i =? 0 then [] else t i :: cstr t (i + 1) n).
      rewrite (proj2 (Z.eqb_neq _ _) H0), <-(IH (store i (t i) s) (i + 1)).
      cbn [cstr]. rewrite safestrcpy_loop_out by lia. rewrite store_eq.
      by rewrite (proj2 (Z.eqb_neq _ _) H0).
Qed.

Lemma strlen_loop_found fuel s n k :
  0 <= k < Z.of_nat fuel -> s (n + k) = 0 -> (forall j, 0 <= j < k -> s (n + j) <> 0) ->
  strlen_loop fuel s n = Some (n + k).
Proof.
  revert n k. induction fuel as [|fuel IH]; intros n k Hk H0 Hj; [lia|]. cbn [strlen_loop].
  destruct (Z.eq_dec k 0) as [->|Hne].
  - rewrite Z.add_0_r in *. by rewrite (proj2 (Z.eqb_eq _ _) H0).
  - assert (s n <> 0) by (specialize (Hj 0); rewrite Z.add_0_r in Hj; apply Hj; lia).
    rewrite (proj2 (Z.eqb_neq _ _)) by done.
    rewrite (IH (n + 1) (k - 1)); [f_equal; lia|lia|..].
    + by replace (n + 1 + (k - 1)) with (n + k) by lia.
    + intros j Hj'. replace (n + 1 + j) with (n + (j + 1)) by lia. apply Hj. lia.
Qed.

#[export] Hint Resolve cstr_ext cstr_strncpy cstr_safestrcpy : xv7.

(** ** Properties *)

(** [memset] fills exactly the [n] bytes at [dst] with the low byte of [c]
    and leaves every other byte alone, on the word-at-a-time path as on the
    byte path. *)
Theorem memset_fills m dst c n a :
  0 <= n ->
  memset m dst c n a = if (dst <=? a) && (a <? dst + n) then u8 c else m a.
Proof.
  intros Hn. unfold memset. destruct (_ && _) eqn:E.
  - bool_split. rewrite land_255. destruct (memset_word_bytes (u8 c)) as (? & ? & ? & ?);
      [apply u8_range|].
    erewrite stosl_spec by eassumption.
    pose proof (Z.div_mod n 4). pose proof (Z.div_pos n 4).
    replace (4 * Z.of_nat (Z.to_nat (n / 4))) with n by lia. done.
  - rewrite stosb_spec. by rewrite Z2Nat.id.
Qed.

Lemma memset_fills_witness :
  memset (fun _ => 7) 8 0x1ff 12 19 = 255 /\ memset (fun _ => 7) 8 0x1ff 12 20 = 7.
Proof.
  split; (etransitivity; [apply (memset_fills (fun _ => 7) 8 0x1ff 12); lia|]);
    vm_compute; reflexivity.
Defined.

(** [memmove] is a simultaneous copy, whether or not the two regions
    overlap: afterwards the destination holds what the source held before, and
    no byte outside the destination has changed. *)
Theorem memmove_copies m dst src n a :
  0 <= src -> 0 <= n -> src + n < 2 ^ 32 ->
  memmove m dst src n a =
  if (dst <=? a) && (a <? dst + n) then m (src + (a - dst)) else m a.
Proof.
  intros Hs Hn Hw. unfold memmove. rewrite u32_small by lia.
  destruct (_ && _) eqn:E; bool_split.
  - rewrite copy_down_spec by lia. rewrite Z2Nat.id by lia.
    replace (dst + n - n) with dst by lia.
    case_match; [|done]. f_equal. lia.
  - rewrite copy_up_spec by lia. by rewrite Z2Nat.id by lia.
Qed.

(** Overlapping regions, destination above the source. *)
Lemma memmove_copies_witness :
  map (memmove (fun x => x) 12 10 5) [10; 11; 12; 13; 14; 15; 16; 17] =
  [10; 11; 10; 11; 12; 13; 14; 17].
Proof.
  cbn [map].
  rewrite !(memmove_copies (fun x => x) 12 10 5) by lia. reflexivity.
Defined.

(** [strncmp] returns 0 exactly when the two C strings, cut at [n] bytes,
    are equal. *)
Theorem strncmp_zero_iff p q n :
  (forall k, 0 <= p k < 256) -> (forall k, 0 <= q k < 256) ->
  strncmp p q n = 0 <-> cstr p 0 (Z.to_nat n) = cstr q 0 (Z.to_nat n).
Proof. apply strncmp_loop_eq. Qed.

Lemma strncmp_zero_iff_witness : strncmp (fun _ => 65) (fun k => if k =? 2 then 0 else 65) 2 = 0.
Proof.
  apply (strncmp_zero_iff (fun _ => 65) (fun k => if k =? 2 then 0 else 65) 2);
    [lia| |reflexivity].
  intros k. destruct (k =? 2); lia.
Defined.

(** a string stored with [strncpy] compares equal to the original under
    [strncmp] with the same bound (this is how directory names are written and
    looked up), the cells behind it up to [n] are zero, and nothing outside the
    [n] bytes is written. *)
Theorem strncpy_roundtrip s t n :
  (forall k, 0 <= s k < 256) -> (forall k, 0 <= t k < 256) ->
  strncmp t (strncpy s t n) n = 0
  /\ (forall k, 0 <= k < n -> strncpy s t n k = nth (Z.to_nat k) (cstr t 0 (Z.to_nat n)) 0)
  /\ (forall k, (k < 0 \/ Z.max 0 n <= k) -> strncpy s t n k = s k).
Proof.
  intros Hs Ht. unfold strncpy.
  assert (Hin : forall k, 0 <= k < n ->
            strncpy_loop s t 0 (Z.to_nat n) k = nth (Z.to_nat k) (cstr t 0 (Z.to_nat n)) 0).
  { intros k Hk. pose proof (strncpy_loop_in s t 0 (Z.to_nat n) k) as H.
    rewrite Z.add_0_l in H. apply H. lia. }
  assert (Hout : forall k, (k < 0 \/ Z.max 0 n <= k) ->
            strncpy_loop s t 0 (Z.to_nat n) k = s k).
  { intros k Hk. apply strncpy_loop_out. lia. }
  repeat split; [|done|done].
  apply strncmp_loop_eq; [done| |by rewrite cstr_strncpy].
  intros k. destruct (decide (0 <= k < n)) as [Hk|Hk].
  - rewrite Hin by done.
    destruct (nth_in_or_default (Z.to_nat k) (cstr t 0 (Z.to_nat n)) 0) as [Hi| ->]; [|lia].
    pose proof (cstr_bytes t 0 (Z.to_nat n) Ht) as Hb. rewrite List.Forall_forall in Hb. by apply Hb.
  - rewrite Hout by lia. auto.
Qed.

Lemma strncpy_roundtrip_witness :
  strncmp (arr [97; 98; 0; 99]) (strncpy (fun _ => 255) (arr [97; 98; 0; 99]) 14) 14 = 0.
Proof.
  apply (strncpy_roundtrip (fun _ => 255) (arr [97; 98; 0; 99]) 14); [lia|].
  intros k. apply arr_bytes. repeat constructor; lia.
Defined.

(** [safestrcpy] with a positive bound leaves a NUL-terminated string of
    fewer than [n] bytes, the source cut at [n - 1] bytes, and writes nothing
    outside the [n] bytes of the destination. *)
Theorem safestrcpy_terminates s t n :
  0 < n ->
  cstr (safestrcpy s t n) 0 (Z.to_nat n) = cstr t 0 (Z.to_nat (n - 1))
  /\ (length (cstr (safestrcpy s t n) 0 (Z.to_nat n)) < Z.to_nat n)%nat
  /\ (forall k, (k < 0 \/ n <= k) -> safestrcpy s t n k = s k).
Proof.
  intros Hn. unfold safestrcpy. rewrite (proj2 (Z.leb_gt n 0)) by lia.
  replace (Z.to_nat n) with (S (Z.to_nat (n - 1))) by lia.
  rewrite cstr_safestrcpy. split_and!; [done| |].
  - pose proof (length_cstr t 0 (Z.to_nat (n - 1))). lia.
  - intros k Hk. apply safestrcpy_loop_out. lia.
Qed.

Lemma safestrcpy_terminates_witness :
  cstr (safestrcpy (fun _ => 255) (fun _ => 97) 4) 0 4 = [97; 97; 97].
Proof. exact (proj1 (safestrcpy_terminates (fun _ => 255) (fun _ => 97) 4 ltac:(lia))). Defined.
