(* ===== verification/Rtc.v ===== *)
(** * Wall-clock time (kernel/time.c, kernel/lapic.c, ulib/time.c)

    The kernel reads the CMOS clock, decodes it from BCD and converts it to
    Unix seconds ([cmostime], [unix_converttime]); the user library converts
    seconds back to a calendar date ([ctime]).  The CMOS chip is a parameter:
    the two readings and the update-in-progress flag each attempt sees. *)

From stdpp Require Import base list numbers.
From Stdlib Require Import ZArith Lia ZifyBool.
From S2P Require Import Prelude.

Local Open Scope Z_scope.

(** ** Model *)

Record rtcdate : Type := mk_rtcdate {
  second : Z; minute : Z; hour : Z; day : Z; month : Z; year : Z
}.

#[export] Instance rtcdate_eq_dec : EqDecision rtcdate.
Proof. solve_decision. Defined.

(** [CONV(x)] of [cmostime]. *)
Definition conv (x : Z) : Z := Z.shiftr x 4 * 10 + Z.land x 15.

(** One pass of the read loop: [fill_rtcdate(&t1)], the STATA register,
    [fill_rtcdate(&t2)].  [memcmp] of the two structs is equality of the six
    words. *)
Fixpoint cmos_stable (fuel : nat) (cmos : nat -> rtcdate * Z * rtcdate) (k : nat)
    : option rtcdate :=
  match fuel with
  | O => None
  | S fuel' =>
      let '(t1, stata, t2) := cmos k in
      if negb (Z.land stata (Z.shiftl 1 7) =? 0) then cmos_stable fuel' cmos (S k)
      else if decide (t1 = t2) then Some t1 else cmos_stable fuel' cmos (S k)
  end.

Definition cmostime (fuel : nat) (statb : Z) (cmos : nat -> rtcdate * Z * rtcdate)
    : option rtcdate :=
  t1 ← cmos_stable fuel cmos 0;
  let t1 :=
    if Z.land statb (Z.shiftl 1 2) =? 0 then
      mk_rtcdate (conv (second t1)) (conv (minute t1)) (conv (hour t1))
        (conv (day t1)) (conv (month t1)) (conv (year t1))
    else t1 in
  Some (mk_rtcdate (second t1) (minute t1) (hour t1) (day t1) (month t1) (year t1 + 2000)).

Definition leapyear (y : Z) : bool :=
  (Z.rem y 4 =? 0) && (negb (Z.rem y 100 =? 0) || (Z.rem y 400 =? 0)).

Definition mdays : list Z := [31; 28; 31; 30; 31; 30; 31; 31; 30; 31; 30; 31].

(** The [days] variable of [unix_converttime]: after the year loop, after the
    month loop, and after the final [days += r->day - 1]. *)
Definition year_days (y : Z) : Z :=
  fold_left (fun days i => s32 (days + (if leapyear i then 366 else 365)))
    (seqZ 1970 (y - 1970)) 0.
Definition month_days (y m days : Z) : Z :=
  fold_left (fun days i =>
    let days := s32 (days + nthZ 0 mdays (i - 1)) in
    if (i =? 2) && leapyear y then s32 (days + 1) else days)
    (seqZ 1 (m - 1)) days.
Definition converttime_days (y m d : Z) : Z :=
  let days := year_days y in
  let days := month_days y m days in
  s32 (days + u32 (d - 1)).

Definition unix_converttime (r : rtcdate) : Z :=
  let days := converttime_days (year r) (month r) (day r) in
  let seconds := s32 (u64 (days * 86400)) in
  let seconds := s32 (u64 (seconds + hour r * 3600)) in
  let seconds := s32 (u64 (seconds + minute r * 60)) in
  s32 (seconds + second r).

Definition unix_uptime (fuel : nat) (statb : Z) (cmos : nat -> rtcdate * Z * rtcdate)
    : option Z :=
  unix_converttime <$> cmostime fuel statb cmos.

(** The two loops of the user library's [ctime]. *)
Fixpoint ctime_year (fuel : nat) (t y : Z) : option (Z * Z) :=
  match fuel with
  | O => None
  | S fuel' =>
      let days := if leapyear y then 366 else 365 in
      if days <=? t then ctime_year fuel' (t - days) (y + 1) else Some (t, y)
  end.

Fixpoint ctime_month (fuel : nat) (t m y : Z) : option (Z * Z) :=
  match fuel with
  | O => None
  | S fuel' =>
      let days := nthZ 0 mdays m in
      let days := if (m =? 1) && leapyear y then days + 1 else days in
      if days <=? t then ctime_month fuel' (t - days) (m + 1) y else Some (t, m)
  end.

(** The date [ctime] prints for [t] days since the epoch: year, month, day. *)
Definition ctime_date (t : Z) : option (Z * Z * Z) :=
  '(t, y) ← ctime_year (Z.to_nat (t / 365 + 1)) t 1970;
  '(t, m) ← ctime_month 12 t 0 y;
  Some (y, m + 1, t + 1).

(** The six numbers [ctime] hands to [snprintf], for [t >= 0]. *)
Definition ctime_fields (t : Z) : option rtcdate :=
  let sec := Z.rem t 60 in
  let t := Z.quot t 60 in
  let min := Z.rem t 60 in
  let t := Z.quot t 60 in
  let hour := Z.rem t 24 in
  let t := Z.quot t 24 in
  '(y, m, d) ← ctime_date t;
  Some (mk_rtcdate sec min hour d m y).

(** ** Specification: a calendar date in the range of a 32-bit [time_t] *)

Definition month_length (y m : Z) : Z :=
  nthZ 0 mdays (m - 1) + (if (m =? 2) && leapyear y then 1 else 0).

Definition valid_date (y m d : Z) : bool :=
  (1970 <=? y) && (y <=? 2037) && (1 <=? m) && (m <=? 12)
  && (1 <=? d) && (d <=? month_length y m).

Definition valid_rtc (r : rtcdate) : bool :=
  valid_date (year r) (month r) (day r)
  && (0 <=? hour r) && (hour r <? 24) && (0 <=? minute r) && (minute r <? 60)
  && (0 <=? second r) && (second r <? 60).

(** ** Lemmas *)

Lemma ctime_year_add fuel t r y y' :
  ctime_year fuel t y = Some (0, y') -> 0 <= t ->
  0 <= r < (if leapyear y' then 366 else 365) ->
  ctime_year fuel (t + r) y = Some (r, y').
Proof.
  revert t y. induction fuel as [|fuel IH]; intros t y H Ht Hr; [done|].
  cbn [ctime_year] in *. revert H. set (days := if leapyear y then 366 else 365).
  destruct (Z.leb_spec days t) as [Hle|Hgt]; intros H.
  - rewrite (proj2 (Z.leb_le _ _)) by lia. replace (t + r - days) with (t - days + r) by lia.
    apply IH; [done|lia|done].
  - injection H as -> ->. rewrite (proj2 (Z.leb_gt _ _)) by (subst days; lia).
    done.
Qed.

Lemma ctime_year_mono fuel fuel' t y x :
  ctime_year fuel t y = Some x -> (fuel <= fuel')%nat -> ctime_year fuel' t y = Some x.
Proof.
  revert fuel' t y. induction fuel as [|fuel IH]; intros fuel' t y H Hle; [done|].
  destruct fuel' as [|fuel']; [lia|]. cbn [ctime_year] in *.
  case_match; [|done]. apply IH; [done|lia].
Qed.

(** Every year, and every day of it, by computation. *)
Definition year_ok_b (y : Z) : bool :=
  let yd := year_days y in
  (0 <=? yd) && (yd <=? 24472)
  && bool_decide (ctime_year (Z.to_nat (yd / 365 + 1)) yd 1970 = Some (0, y)).

Definition date_ok_b (y m yd md d : Z) : bool :=
  implb (valid_date y m d)
    (let n := s32 (md + u32 (d - 1)) - yd in
     (0 <=? n) && (n <? (if leapyear y then 366 else 365))
     && bool_decide (ctime_month 12 n 0 y = Some (d - 1, m - 1))).

Lemma forallb_seqZ (f : Z -> bool) a n i :
  forallb f (seqZ a n) = true -> a <= i < a + n -> f i = true.
Proof.
  rewrite forallb_forall. intros H Hi. apply H, list_elem_of_In, elem_of_seqZ. done.
Qed.

Lemma forallb_seqZ3 (f : Z -> Z -> Z -> bool) a n b m c k :
  forallb (fun y => forallb (fun x => forallb (f y x) (seqZ c k)) (seqZ b m)) (seqZ a n) = true ->
  forall y x d, a <= y < a + n -> b <= x < b + m -> c <= d < c + k -> f y x d = true.
Proof.
  intros H y x d Hy Hx Hd. apply (forallb_seqZ (f y x) c k); [|done].
  apply (forallb_seqZ (fun x => forallb (f y x) (seqZ c k)) b m); [|done].
  by apply (forallb_seqZ _ a n y H).
Qed.

Lemma years_ok y : 1970 <= y < 1970 + 68 -> year_ok_b y = true.
Proof. apply (forallb_seqZ year_ok_b). vm_compute. reflexivity. Qed.

Lemma dates_ok y m d :
  1970 <= y < 1970 + 68 -> 1 <= m < 1 + 12 -> 1 <= d < 1 + 31 ->
  date_ok_b y m (year_days y) (month_days y m (year_days y)) d = true.
Proof.
  apply (forallb_seqZ3 (fun y m =>
    date_ok_b y m (year_days y) (month_days y m (year_days y)))).
  vm_compute. reflexivity.
Qed.

Lemma month_length_le y m : month_length y m <= 31 \/ m < 1 \/ 12 < m.
Proof.
  destruct (decide (1 <= m <= 12)) as [H|]; [|lia]. left.
  unfold month_length, nthZ. rewrite (proj2 (Z.ltb_ge (m - 1) 0)) by lia.
  assert (m = 1 \/ m = 2 \/ m = 3 \/ m = 4 \/ m = 5 \/ m = 6 \/ m = 7 \/ m = 8
    \/ m = 9 \/ m = 10 \/ m = 11 \/ m = 12) as Hm by lia.
  repeat destruct Hm as [->|Hm]; subst; simpl; destruct (leapyear y); simpl; lia.
Qed.

Lemma year_ok y :
  1970 <= y <= 2037 ->
  0 <= year_days y <= 24472
  /\ ctime_year (Z.to_nat (year_days y / 365 + 1)) (year_days y) 1970 = Some (0, y).
Proof.
  intros Hy. pose proof (years_ok y ltac:(lia)) as H.
  unfold year_ok_b in H. cbv zeta in H. apply andb_prop in H as [H Hd]. apply bool_decide_eq_true in Hd.
  split; [lia|done].
Qed.

Lemma date_ok y m d :
  valid_date y m d = true ->
  0 <= converttime_days y m d < 24838
  /\ ctime_date (converttime_days y m d) = Some (y, m, d).
Proof.
  intros Hv.
  assert (Hr : 1970 <= y <= 2037 /\ 1 <= m <= 12 /\ 1 <= d <= 31).
  { pose proof (month_length_le y m). unfold valid_date in Hv. lia. }
  destruct (year_ok y) as [Hyb Hyt]; [lia|].
  pose proof (dates_ok y m d ltac:(lia) ltac:(lia) ltac:(lia)) as H.
  unfold date_ok_b in H. rewrite Hv in H. cbv zeta in H.
  cbn [implb] in H. apply andb_prop in H as [H Hd]. apply bool_decide_eq_true in Hd.
  change (s32 (month_days y m (year_days y) + u32 (d - 1))) with (converttime_days y m d) in *.
  set (D := converttime_days y m d) in *. set (n := D - year_days y) in *.
  assert (D = year_days y + n) as HD by (subst n; lia).
  assert (0 <= n < (if leapyear y then 366 else 365)) as Hn by lia.
  clearbody n.
  split; [destruct (leapyear y); lia|]. unfold ctime_date.
  rewrite HD.
  rewrite (ctime_year_mono (Z.to_nat (year_days y / 365 + 1)) _ _ _ (n, y)).
  - unfold mbind, option_bind. cbv beta iota. rewrite Hd. f_equal. f_equal; [f_equal|]; lia.
  - apply ctime_year_add; [done|lia|done].
  - apply Z2Nat.inj_le; [pose proof (Z.div_pos (year_days y) 365); lia
      |pose proof (Z.div_pos (year_days y + n) 365); lia|].
    apply Zplus_le_compat_r, Z.div_le_mono; lia.
Qed.

(** Without overflow, [unix_converttime] is the plain sum. *)
Lemma unix_converttime_sum r :
  valid_rtc r = true ->
  unix_converttime r =
  converttime_days (year r) (month r) (day r) * 86400
  + hour r * 3600 + minute r * 60 + second r.
Proof.
  intros Hv. unfold valid_rtc in Hv.
  assert (valid_date (year r) (month r) (day r) = true) as Hd by lia.
  apply date_ok in Hd as [Hd _].
  unfold unix_converttime. cbv zeta. set (D := converttime_days _ _ _) in *.
  assert (0 <= hour r < 24 /\ 0 <= minute r < 60 /\ 0 <= second r < 60) as (?&?&?) by lia.
  unfold u64. rewrite (Z.mod_small (D * 86400)) by lia. rewrite (s32_small (D * 86400)) by lia.
  rewrite (Z.mod_small (D * 86400 + hour r * 3600)) by lia.
  rewrite (s32_small (D * 86400 + hour r * 3600)) by lia.
  rewrite (Z.mod_small (D * 86400 + hour r * 3600 + minute r * 60)) by lia.
  rewrite (s32_small (D * 86400 + hour r * 3600 + minute r * 60)) by lia.
  by rewrite s32_small by lia.
Qed.

Lemma split_rem b q r x : 0 <= q -> 0 <= r < b -> x = q * b + r -> Z.rem x b = r.
Proof.
  intros Hq Hr ->. rewrite Z.rem_mod_nonneg by nia.
  symmetry. apply Z.mod_unique with q; lia.
Qed.

Lemma split_quot b q r x : 0 <= q -> 0 <= r < b -> x = q * b + r -> Z.quot x b = q.
Proof.
  intros Hq Hr ->. rewrite Z.quot_div_nonneg by nia.
  symmetry. apply Z.div_unique with r; lia.
Qed.

Lemma bcd_ok : forallb (fun x => conv ((x / 10) * 16 + x mod 10) =? x) (seqZ 0 100) = true.
Proof. vm_compute. reflexivity. Qed.

(** ** Properties *)

(** C34: kernel and library agree on the calendar: for every valid date and
    time of 1970-2037, [ctime] of the seconds [unix_converttime] computes are
    the fields the clock had, and the conversion does not overflow an [int]. *)
Theorem ctime_converttime r :
  valid_rtc r = true ->
  ctime_fields (unix_converttime r) = Some r /\ 0 <= unix_converttime r < 2 ^ 31.
Proof.
  intros Hv. rewrite unix_converttime_sum by done.
  assert (valid_date (year r) (month r) (day r) = true) as Hd by (unfold valid_rtc in Hv; lia).
  apply date_ok in Hd as [Hb Hd].
  assert (0 <= hour r < 24 /\ 0 <= minute r < 60 /\ 0 <= second r < 60) as (Hh&Hm&Hs)
    by (unfold valid_rtc in Hv; lia).
  set (D := converttime_days _ _ _) in *.
  split; [|lia]. unfold ctime_fields. cbv zeta.
  rewrite !(split_rem 60 (D * 1440 + hour r * 60 + minute r) (second r)) by lia.
  rewrite (split_quot 60 (D * 1440 + hour r * 60 + minute r) (second r)) by lia.
  rewrite (split_rem 60 (D * 24 + hour r) (minute r)) by lia.
  rewrite (split_quot 60 (D * 24 + hour r) (minute r)) by lia.
  rewrite (split_rem 24 D (hour r)) by lia. rewrite (split_quot 24 D (hour r)) by lia.
  rewrite Hd. unfold mbind, option_bind. by destruct r.
Qed.

Lemma ctime_converttime_witness :
  unix_converttime (mk_rtcdate 59 30 23 29 2 2024) = 1709249459
  /\ ctime_fields 1709249459 = Some (mk_rtcdate 59 30 23 29 2 2024).
Proof.
  split; [vm_compute; reflexivity|].
  exact (proj1 (ctime_converttime (mk_rtcdate 59 30 23 29 2 2024)
           ltac:(vm_compute; reflexivity))).
Defined.

(** once the CMOS chip shows two equal readings with no update in progress
    at attempt [k], and every earlier attempt saw an update or two different
    readings, [cmostime] returns that reading; in BCD mode each field below 100
    is decoded to its value and the century is added. *)
Theorem cmostime_decodes fuel statb cmos k (t : rtcdate) stata :
  (k < fuel)%nat ->
  cmos k = (t, stata, t) -> Z.land stata 128 = 0 ->
  (forall j, (j < k)%nat ->
     let '(t1, st, t2) := cmos j in Z.land st 128 <> 0 \/ t1 <> t2) ->
  Z.land statb 4 = 0 ->
  forall s mi h d mo y,
  Forall (fun x => 0 <= x < 100) [s; mi; h; d; mo; y] ->
  (let bcd x := (x / 10) * 16 + x mod 10 in
   t = mk_rtcdate (bcd s) (bcd mi) (bcd h) (bcd d) (bcd mo) (bcd y)) ->
  cmostime fuel statb cmos = Some (mk_rtcdate s mi h d mo (2000 + y)).
Proof.
  intros Hk Hc Hs Hj Hb s mi h d mo y Hall Ht. unfold cmostime.
  assert (Hst : forall i n, (i <= k < i + n)%nat -> cmos_stable n cmos i = Some t).
  { intros i n. revert i. induction n as [|n IH]; intros i Hi; [lia|]. cbn [cmos_stable].
    destruct (decide (i = k)) as [->|Hne].
    - rewrite Hc. change (Z.shiftl 1 7) with 128. rewrite Hs. simpl.
      by rewrite decide_True.
    - specialize (Hj i ltac:(lia)). destruct (cmos i) as [[t1 st] t2].
      change (Z.shiftl 1 7) with 128.
      destruct (Z.eqb_spec (Z.land st 128) 0); simpl; [|apply IH; lia].
      rewrite decide_False by tauto. apply IH. lia. }
  rewrite Hst by lia. cbn. change (Z.shiftl 1 2) with 4. rewrite Hb. simpl.
  assert (Hconv : forall x, 0 <= x < 100 -> conv (x / 10 * 16 + x mod 10) = x).
  { intros x Hx. pose proof (forallb_seqZ _ _ _ x bcd_ok Hx) as H. lia. }
  rewrite Ht. cbn. repeat match goal with H : Forall _ (_ :: _) |- _ => inv H end.
  rewrite !Hconv by done. f_equal. f_equal. lia.
Qed.

(** The clock of a 2025-12-31 23:59:58 machine, read while it is updated once. *)
Definition demo_cmos (k : nat) : rtcdate * Z * rtcdate :=
  let t := mk_rtcdate 0x58 0x59 0x23 0x31 0x12 0x25 in
  match k with O => (t, 0x80, t) | _ => (t, 0x26, t) end.

Lemma cmostime_decodes_witness :
  cmostime 5 2 demo_cmos = Some (mk_rtcdate 58 59 23 31 12 (2000 + 25)).
Proof.
  refine (cmostime_decodes 5 2 demo_cmos 1 (mk_rtcdate 0x58 0x59 0x23 0x31 0x12 0x25) 0x26
            _ _ _ _ _ 58 59 23 31 12 25 _ _); try reflexivity; [lia| |].
  - intros [|j] Hj; [left; vm_compute; discriminate|lia].
  - repeat constructor; lia.
Defined.
