(* ===== verification/Bio.v ===== *)
(** * Buffer cache (kernel/bio.c), with the sleep locks of kernel/sleeplock.c
      and the synchronous view of the disk driver (kernel/dev/ide.c)

    A process runs the cache sequentially here: [bcache.lock] sections contain no
    call that sleeps, so they are atomic and the spinlock itself is left out,
    except in [bsync], which calls the driver with it held ([nspin] counts it).
    The linked list is kept as the code keeps it, with [prev]/[next] links
    through the buffers and the list head; buffers are array indices and the
    head is index [NBUF].  [iderw] is the driver seen from the caller: queue the
    request, sleep, return when the interrupt handler has moved the data (the
    queue and the handler are modelled in Ide.v, which proves that this is
    what the caller observes, disk errors included). *)

From Stdlib Require Import ZArith Lia ZifyBool.
From stdpp Require Import base gmap strings numbers list.
From S2P Require Import Prelude.

Local Open Scope Z_scope.

(** ** Model *)

Definition BSIZE : Z := 512.
Definition MAXOPBLOCKS : Z := 20.
Definition LOGSIZE : Z := MAXOPBLOCKS * 3.
Definition NBUF : Z := MAXOPBLOCKS * 3.
Definition FSSIZE : Z := 10000.
Definition ROOTDEV : Z := 1.
Definition B_VALID : Z := 2.
Definition B_DIRTY : Z := 4.

(** Sleep locks: [locked] and the pid of the holder. *)
Record sleeplock : Type := mk_lock { locked : bool; lpid : Z }.
Definition initsleeplock : sleeplock := mk_lock false 0.

(** [None]: the lock is taken and the caller sleeps. *)
Definition acquiresleep (pid : Z) (lk : sleeplock) : option sleeplock :=
  if locked lk then None else Some (mk_lock true pid).
Definition releasesleep (lk : sleeplock) : sleeplock := mk_lock false 0.
Definition holdingsleep (pid : Z) (lk : sleeplock) : bool := locked lk && (lpid lk =? pid).

Record buf : Type := mk_buf {
  flags : Z; dev : Z; blockno : Z; lock : sleeplock; refcnt : Z; data : list Z
}.

Definition zero_block : list Z := replicate (Z.to_nat BSIZE) 0.
(** A buffer of the zero-initialised kernel image. *)
Definition buf0 : buf := mk_buf 0 0 0 initsleeplock 0 zero_block.

(** [nxt] and [prv] hold the links of the buffers and, at index [NBUF], of the
    list head.  [dwrites] is the history of the blocks written to the disk,
    oldest first. *)
Record bst : Type := mk_bst {
  bufs : list buf; nxt : list Z; prv : list Z;
  disk : gmap (Z * Z) (list Z); dwrites : list (Z * Z * list Z);
  havedisk1 : bool; curpid : Z; nspin : Z
}.

Definition head : Z := NBUF.

Definition getbuf (s : bst) (i : Z) : buf := nthZ buf0 (bufs s) i.
Definition setbuf (i : Z) (b : buf) (s : bst) : bst :=
  mk_bst (updZ i b (bufs s)) (nxt s) (prv s) (disk s) (dwrites s) (havedisk1 s)
    (curpid s) (nspin s).
Definition setlinks (n p : list Z) (s : bst) : bst :=
  mk_bst (bufs s) n p (disk s) (dwrites s) (havedisk1 s) (curpid s) (nspin s).

Definition with_lock (lk : sleeplock) (b : buf) : buf :=
  mk_buf (flags b) (dev b) (blockno b) lk (refcnt b) (data b).
Definition with_flags (f : Z) (b : buf) : buf :=
  mk_buf f (dev b) (blockno b) (lock b) (refcnt b) (data b).
Definition with_data (d : list Z) (b : buf) : buf :=
  mk_buf (flags b) (dev b) (blockno b) (lock b) (refcnt b) d.
Definition with_refcnt (r : Z) (b : buf) : buf :=
  mk_buf (flags b) (dev b) (blockno b) (lock b) r (data b).

(** The contents of a disk block; the drive selected by [dev & 1]. *)
Definition disk_at (d : gmap (Z * Z) (list Z)) (dv b : Z) : list Z :=
  default zero_block (d !! (Z.land dv 1, b)).

(** [binit] links the buffers in front of the head one after the other. *)
Definition link_front (b : Z) (np : list Z * list Z) : list Z * list Z :=
  let '(n, p) := np in
  let n := updZ b (nthZ 0 n head) n in
  let p := updZ b head p in
  let p := updZ (nthZ 0 n head) b p in
  let n := updZ head b n in
  (n, p).
Definition unlink (b : Z) (np : list Z * list Z) : list Z * list Z :=
  let '(n, p) := np in
  let p := updZ (nthZ 0 n b) (nthZ 0 p b) p in
  let n := updZ (nthZ 0 p b) (nthZ 0 n b) n in
  (n, p).

Definition binit (s : bst) : bst :=
  let n := updZ head head (nxt s) in
  let p := updZ head head (prv s) in
  let '(n, p) := fold_left (fun np b => link_front b np) (seqZ 0 NBUF) (n, p) in
  let s := fold_left (fun s b => setbuf b (with_lock initsleeplock (getbuf s b)) s)
             (seqZ 0 NBUF) s in
  setlinks n p s.

(** [for (b = start; b != &bcache.head; b = b->link)] with an early exit. *)
Fixpoint walk (fuel : nat) (link : list Z) (p : Z -> bool) (b : Z) : option (option Z) :=
  match fuel with
  | O => None
  | S fuel' =>
      if b =? head then Some None
      else if p b then Some (Some b) else walk fuel' link p (nthZ 0 link b)
  end.
(** The ring has [NBUF] buffers, so this many steps reach the head again. *)
Definition ring_fuel : nat := S (Z.to_nat NBUF).

Definition acquirebuf (i : Z) : M bst unit := fun s =>
  match acquiresleep (curpid s) (lock (getbuf s i)) with
  | Some lk => Ok tt (setbuf i (with_lock lk (getbuf s i)) s)
  | None => Block "acquiresleep" s
  end.

Definition bget (dv b : Z) : M bst Z := fun s =>
  match walk ring_fuel (nxt s)
          (fun i => (dev (getbuf s i) =? dv) && (blockno (getbuf s i) =? b))
          (nthZ 0 (nxt s) head) with
  | Some (Some i) =>
      (acquirebuf i ;; mret i) (setbuf i (with_refcnt (u32 (refcnt (getbuf s i) + 1)) (getbuf s i)) s)
  | Some None =>
      match walk ring_fuel (prv s)
              (fun i => (refcnt (getbuf s i) =? 0)
                        && (Z.land (flags (getbuf s i)) B_DIRTY =? 0))
              (nthZ 0 (prv s) head) with
      | Some (Some i) =>
          let o := getbuf s i in
          (acquirebuf i ;; mret i) (setbuf i (mk_buf 0 dv b (lock o) 1 (data o)) s)
      | Some None => Panic "bget: no buffers" s
      | None => NoFuel
      end
  | None => NoFuel
  end.

(** What becomes of a transfer: it is carried out, or the disk reports an error; a
    write that fails leaves [junk] in the block. *)
Inductive outcome : Type := Done | Failed (junk : list Z).

(** [ideintr] looks at the error of a read only, and marks the buffer valid anyhow;
    an error of a write goes unnoticed. *)
Definition iderw_with (o : outcome) (i : Z) : M bst unit := fun s =>
  let b := getbuf s i in
  if negb (holdingsleep (curpid s) (lock b)) then Panic "iderw: buf not locked" s
  else if Z.land (flags b) (Z.lor B_VALID B_DIRTY) =? B_VALID then
    Panic "iderw: nothing to do" s
  else if negb (dev b =? 0) && negb (havedisk1 s) then
    Panic "iderw: ide disk 1 not present" s
  else if FSSIZE <=? blockno b then Panic "incorrect blockno" s
  else if negb (nspin s =? 0) then Panic "sched locks" s
  else
    let f := Z.ldiff (Z.lor (flags b) B_VALID) B_DIRTY in
    if Z.land (flags b) B_DIRTY =? 0 then
      let d := match o with Done => disk_at (disk s) (dev b) (blockno b) | Failed _ => data b end in
      Ok tt (setbuf i (with_flags f (with_data d b)) s)
    else
      let key := (Z.land (dev b) 1, blockno b) in
      let d := match o with Done => data b | Failed junk => junk end in
      Ok tt (mk_bst (updZ i (with_flags f b) (bufs s)) (nxt s) (prv s)
               (<[key := d]> (disk s)) (dwrites s ++ [(key, d)])
               (havedisk1 s) (curpid s) (nspin s)).

(** The rest of the file system is studied on a disk that reports no errors. *)
Definition iderw (i : Z) : M bst unit := iderw_with Done i.

Definition bread (dv b : Z) : M bst Z :=
  i ← bget dv b;
  f ← gets (fun s => flags (getbuf s i));
  (if Z.land f B_VALID =? 0 then iderw i else mret tt) ;;
  mret i.

Definition bwrite (i : Z) : M bst unit := fun s =>
  let b := getbuf s i in
  if negb (holdingsleep (curpid s) (lock b)) then Panic "bwrite" s
  else iderw i (setbuf i (with_flags (Z.lor (flags b) B_DIRTY) b) s).

Definition brelse (i : Z) : M bst unit := fun s =>
  let b := getbuf s i in
  if negb (holdingsleep (curpid s) (lock b)) then Panic "brelse" s
  else
    let r := u32 (refcnt b - 1) in
    let s := setbuf i (with_refcnt r (with_lock (releasesleep (lock b)) b)) s in
    if r =? 0 then
      let '(n, p) := link_front i (unlink i (nxt s, prv s)) in Ok tt (setlinks n p s)
    else Ok tt s.

(** [b->data] as the holder sees it, and an assignment to it. *)
Definition bdata (i : Z) : M bst (list Z) := gets (fun s => data (getbuf s i)).
Definition set_bdata (i : Z) (d : list Z) : M bst unit :=
  modS (fun s => setbuf i (with_data d (getbuf s i)) s).

Definition add_spin (k : Z) (s : bst) : bst :=
  mk_bst (bufs s) (nxt s) (prv s) (disk s) (dwrites s) (havedisk1 s) (curpid s) (nspin s + k).

(** [bsync] walks the list with [bcache.lock] held. *)
Fixpoint bsync_loop (fuel : nat) (b : Z) : M bst unit := fun s =>
  match fuel with
  | O => NoFuel
  | S fuel' =>
      if b =? head then Ok tt s
      else
        ((if (refcnt (getbuf s b) =? 0) && negb (Z.land (flags (getbuf s b)) B_DIRTY =? 0)
          then bwrite b else mret tt) ;;
         n ← gets (fun s => nthZ 0 (nxt s) b);
         bsync_loop fuel' n) s
  end.
Definition bsync : M bst unit :=
  modS (add_spin 1) ;;
  first ← gets (fun s => nthZ 0 (nxt s) head);
  bsync_loop ring_fuel first ;;
  modS (add_spin (-1)).

(** ** The ring of buffers *)

(** [x] is followed by the elements of [l], along [n] forwards and [p] back. *)
Fixpoint linked (n p : list Z) (x : Z) (l : list Z) : Prop :=
  match l with
  | [] => True
  | y :: l' => nthZ 0 n x = y /\ nthZ 0 p y = x /\ linked n p y l'
  end.
Fixpoint follows (link : list Z) (x : Z) (l : list Z) : Prop :=
  match l with
  | [] => True
  | y :: l' => nthZ 0 link x = y /\ follows link y l'
  end.

(** The links hold the circular list [head, ord], [ord] most recent first. *)
Definition ring (n p : list Z) (ord : list Z) : Prop :=
  linked n p head (ord ++ [head]) /\ NoDup ord
  /\ Forall (fun i => 0 <= i < NBUF) ord
  /\ length n = S (Z.to_nat NBUF) /\ length p = S (Z.to_nat NBUF).

Lemma linked_app n p x l1 y l2 :
  linked n p x (l1 ++ y :: l2) <-> linked n p x (l1 ++ [y]) /\ linked n p y l2.
Proof.
  revert x. induction l1 as [|z l1 IH]; intros x; simpl; [naive_solver|].
  rewrite IH. naive_solver.
Qed.

Lemma linked_frame n p n' p' x t e :
  linked n p x (t ++ [e]) ->
  (forall z, z ∈ x :: t -> nthZ 0 n' z = nthZ 0 n z) ->
  (forall z, z ∈ t ++ [e] -> nthZ 0 p' z = nthZ 0 p z) ->
  linked n' p' x (t ++ [e]).
Proof.
  revert x. induction t as [|y t IH]; intros x; simpl; intros (H1 & H2 & H3) Hn Hp.
  - rewrite Hn, Hp by set_solver. done.
  - rewrite Hn, Hp by set_solver. split_and!; [done|done|].
    apply IH; [done|set_solver|set_solver].
Qed.

Lemma linked_follows n p x l : linked n p x l -> follows n x l.
Proof. revert x. induction l; simpl; naive_solver. Qed.

Lemma follows_snoc link x l y z :
  follows link x (l ++ [y]) -> nthZ 0 link y = z -> follows link x (l ++ [y] ++ [z]).
Proof. revert x. induction l; intros x; simpl; naive_solver. Qed.

Lemma linked_follows_back n p x t e :
  linked n p x (t ++ [e]) -> follows p e (reverse t ++ [x]).
Proof.
  revert x. induction t as [|y t IH]; intros x; simpl; intros (H1 & H2 & H3); [done|].
  rewrite reverse_cons, <-app_assoc. by apply follows_snoc; [apply IH|].
Qed.

Lemma walk_follows link p x l fuel :
  follows link x (l ++ [head]) -> head ∉ l -> (length l < fuel)%nat ->
  walk fuel link p (nthZ 0 link x) = Some (List.find p l).
Proof.
  revert x fuel. induction l as [|y l IH]; intros x fuel; simpl.
  - intros [-> _] _ Hf. destruct fuel; [lia|]. cbn [walk]. by rewrite Z.eqb_refl.
  - intros [-> Hl] Hn Hf. destruct fuel as [|fuel]; [lia|]. cbn [walk].
    rewrite (proj2 (Z.eqb_neq y head)) by set_solver.
    destruct (p y); [done|]. apply IH; [done|set_solver|lia].
Qed.

Lemma head_nin ord : Forall (fun i => 0 <= i < NBUF) ord -> head ∉ ord.
Proof. rewrite Forall_forall. unfold head. intros H Hin. specialize (H _ Hin). lia. Qed.

Lemma NoDup_bounded_length (l : list Z) m :
  NoDup l -> Forall (fun i => 0 <= i < m) l -> (length l <= Z.to_nat m)%nat.
Proof.
  intros Hnd Hb. rewrite <-(length_seqZ 0 m).
  apply submseteq_length, NoDup_submseteq; [done|].
  intros x Hx. rewrite Forall_forall in Hb. apply elem_of_seqZ. specialize (Hb _ Hx). lia.
Qed.

Lemma ring_walk_next n p ord f :
  ring n p ord -> walk ring_fuel n f (nthZ 0 n head) = Some (List.find f ord).
Proof.
  intros (Hl & Hnd & Hb & _). apply walk_follows.
  - by eapply linked_follows.
  - by apply head_nin.
  - pose proof (NoDup_bounded_length _ _ Hnd Hb). unfold ring_fuel. lia.
Qed.

Lemma ring_walk_prev n p ord f :
  ring n p ord -> walk ring_fuel p f (nthZ 0 p head) = Some (List.find f (reverse ord)).
Proof.
  intros (Hl & Hnd & Hb & _). apply walk_follows.
  - by eapply linked_follows_back.
  - rewrite elem_of_reverse. by apply head_nin.
  - rewrite length_reverse. pose proof (NoDup_bounded_length _ _ Hnd Hb).
    unfold ring_fuel. lia.
Qed.

(** Read of a link after the assignments of [link_front] or [unlink]. *)
Ltac link_simpl :=
  repeat first
    [ rewrite nthZ_updZ_eq by (rewrite ?length_updZ; unfold head, NBUF, MAXOPBLOCKS in *; lia)
    | rewrite nthZ_updZ_ne by (unfold head in *; (congruence || lia || set_solver)) ].

Lemma ring_link_front n p ord b n' p' :
  ring n p ord -> 0 <= b < NBUF -> b ∉ ord ->
  link_front b (n, p) = (n', p') -> ring n' p' (b :: ord).
Proof.
  intros (Hl & Hnd & Hb & Hn & Hp) Hbr Hnin [= <- <-].
  pose proof (head_nin _ Hb) as Hh.
  assert (Hhr : b <> head) by (unfold head; lia).
  split_and!; [|by constructor|by constructor|by rewrite !length_updZ|by rewrite !length_updZ].
  rewrite (nthZ_updZ_ne 0 b head) by done.
  destruct ord as [|f o]; simpl in Hl |- *; destruct Hl as (H1 & H2 & H3);
    rewrite H1; unfold head, NBUF, MAXOPBLOCKS in *.
  - split_and!; link_simpl; done.
  - assert (0 <= f < 60) by (apply Forall_cons in Hb as [? _]; lia).
    split_and!; link_simpl; try done.
    eapply linked_frame; [exact H3|..]; intros z Hz.
    + assert (z <> 20 * 3 /\ z <> b) as [? ?] by set_solver. by link_simpl.
    + apply NoDup_cons in Hnd as [Hf Hnd]. assert (z <> f).
      { intros ->. apply elem_of_app in Hz as [Hz|Hz]; [done|].
        apply list_elem_of_singleton in Hz. lia. }
      assert (z <> b). { intros ->. apply elem_of_app in Hz as [Hz|Hz]; [set_solver|].
        apply list_elem_of_singleton in Hz. lia. }
      by link_simpl.
Qed.

Lemma ring_unlink n p o1 b o2 n' p' :
  ring n p (o1 ++ b :: o2) -> unlink b (n, p) = (n', p') -> ring n' p' (o1 ++ o2).
Proof.
  intros (Hl & Hnd & Hb & Hn & Hp) [= <- <-].
  pose proof (head_nin _ Hb) as Hh.
  apply NoDup_app in Hnd as (Hnd1 & Hdis & Hnd2). apply NoDup_cons in Hnd2 as [Hb2 Hnd2].
  assert (Hb1 : b ∉ o1) by (intros Hin; by apply (Hdis _ Hin); left).
  assert (Ho12 : forall z, z ∈ o1 -> z ∉ o2) by (intros z Hz Hz2; apply (Hdis _ Hz); by right).
  apply Forall_app in Hb as [Hf1 Hf2]. apply Forall_cons in Hf2 as [Hbr Hf2].
  split_and!; [|by apply NoDup_app|by apply Forall_app|by rewrite !length_updZ
    |by rewrite !length_updZ].
  rewrite <-app_assoc in Hl. simpl in Hl. rewrite <-app_assoc.
  apply linked_app in Hl as [Hl1 Hl2].
  assert (exists y t, o2 ++ [head] = y :: t /\ (y ∈ o2 \/ y = head)) as (y & t & Hyt & Hy).
  { destruct o2 as [|y o2]; simpl; [by eexists _, _; split; [|right]|].
    eexists _, _. split; [done|]. left. set_solver. }
  rewrite Hyt in Hl2 |- *. simpl in Hl2. destruct Hl2 as (Hny & Hpy & Hl2).
  rewrite Hny.
  assert (Hyr : 0 <= y <= NBUF).
  { rewrite Forall_forall in Hf2. destruct Hy as [Hy| ->]; [apply Hf2 in Hy; lia|].
    unfold head, NBUF, MAXOPBLOCKS. lia. }
  assert (Hyb : y <> b) by (destruct Hy as [Hy| ->]; [by intros ->|unfold head; lia]).
  rewrite (nthZ_updZ_ne 0 y b) by done.
  (* the rest after [y], which the two assignments do not touch *)
  assert (Hrest : forall x, (x ∈ o1 \/ x = head) ->
            linked (updZ x y n) (updZ y x p) y t).
  { intros x Hx. destruct o2 as [|y' o2]; simpl in Hyt; injection Hyt as Hy1 <-; [done|subst y'].
    eapply linked_frame; [exact Hl2|..]; intros z Hz.
    - apply nthZ_updZ_ne. intros ->. destruct Hx as [Hx|Hx]; [by apply (Ho12 z)|apply Hh; set_solver].
    - apply nthZ_updZ_ne. intros ->. apply NoDup_cons in Hnd2 as [Hn2 _].
      apply elem_of_app in Hz as [Hz|Hz]; [done|]. apply list_elem_of_singleton in Hz.
      apply Forall_cons in Hf2 as [? _]. unfold head in Hz. lia. }
  destruct o1 as [|x o1 _] using rev_ind.
  - simpl in Hl1 |- *. destruct Hl1 as (Hnh & Hph & _). rewrite Hph.
    split_and!; [apply nthZ_updZ_eq; unfold head, NBUF, MAXOPBLOCKS in *; lia
      |apply nthZ_updZ_eq; unfold NBUF, MAXOPBLOCKS in *; lia|apply Hrest; by right].
  - rewrite <-app_assoc in Hl1. apply linked_app in Hl1 as [Hl1 (Hnx & Hpx & _)].
    rewrite Hpx. rewrite <-app_assoc. apply linked_app. split; [|simpl; split_and!].
    + apply NoDup_app in Hnd1 as (_ & Hd1 & _).
      eapply linked_frame; [exact Hl1|..]; intros z Hz; apply nthZ_updZ_ne; intros ->.
      * apply elem_of_cons in Hz as [->|Hz].
        -- apply Hh. set_solver.
        -- apply (Hd1 z Hz). set_solver.
      * destruct Hy as [Hy| ->]; [apply (Ho12 z Hz Hy)|apply Hh; set_solver].
    + apply nthZ_updZ_eq. apply Forall_app in Hf1 as [_ Hx]. apply Forall_cons in Hx as [? _].
      unfold NBUF, MAXOPBLOCKS in *. lia.
    + apply nthZ_updZ_eq. unfold NBUF, MAXOPBLOCKS in *. lia.
    + apply Hrest. left. set_solver.
Qed.

(** ** The cache as its clients see it

    Between operations every block of the root disk has one logical value, the
    cached one if the block is cached and valid and the disk's otherwise. *)

Definition isvalid (b : buf) : bool := negb (Z.land (flags b) B_VALID =? 0).
Definition isdirty (b : buf) : bool := negb (Z.land (flags b) B_DIRTY =? 0).

(** The buffer assigned to block [b] of the root disk. *)
Definition slot (s : bst) (b : Z) : option Z :=
  List.find (fun i => (dev (getbuf s i) =? ROOTDEV) && (blockno (getbuf s i) =? b))
    (seqZ 0 NBUF).

Definition view (s : bst) (b : Z) : list Z :=
  match slot s b with
  | Some i => if isvalid (getbuf s i) then data (getbuf s i)
              else disk_at (disk s) ROOTDEV b
  | None => disk_at (disk s) ROOTDEV b
  end.
Definition dirty (s : bst) (b : Z) : bool :=
  match slot s b with Some i => isdirty (getbuf s i) | None => false end.
(** The process holds block [b] locked in buffer [i]. *)
Definition hold (s : bst) (i b : Z) : Prop :=
  slot s b = Some i /\ locked (lock (getbuf s i)) = true.
Definition pinned (s : bst) : nat :=
  count (fun x => locked (lock x) || isdirty x) (bufs s).

(** Well-formed buffers.  A buffer that never held a block still has device 0. *)
Definition buf_ok (s : bst) (x : buf) : Prop :=
  (length (data x) = Z.to_nat BSIZE /\ (flags x <> 0 -> blockno x < FSSIZE))
  /\ (flags x = 0 \/ flags x = B_VALID \/ flags x = Z.lor B_VALID B_DIRTY)
  /\ (dev x = ROOTDEV \/ dev x = 0 /\ flags x = 0 /\ locked (lock x) = false)
  /\ (if locked (lock x) then refcnt x = 1 /\ lpid (lock x) = curpid s /\ isvalid x = true
      else refcnt x = 0
           /\ (flags x = B_VALID -> data x = disk_at (disk s) (dev x) (blockno x))).

(** No block of the root disk has two buffers. *)
Definition uniq (s : bst) : Prop := forall i j,
  0 <= i < NBUF -> 0 <= j < NBUF ->
  dev (getbuf s i) = ROOTDEV -> dev (getbuf s j) = ROOTDEV ->
  blockno (getbuf s i) = blockno (getbuf s j) -> i = j.

Record bio_inv (s : bst) : Prop := {
  inv_ring : exists ord, ring (nxt s) (prv s) ord /\ length ord = Z.to_nat NBUF;
  inv_len : length (bufs s) = Z.to_nat NBUF;
  inv_bufs : forall i, 0 <= i < NBUF -> buf_ok s (getbuf s i);
  inv_uniq : uniq s;
  inv_disk : forall k d, disk s !! k = Some d -> length d = Z.to_nat BSIZE;
  inv_dev1 : havedisk1 s = true;
  inv_spin : nspin s = 0
}.

Lemma getbuf_setbuf_eq s i x :
  0 <= i < Z.of_nat (length (bufs s)) -> getbuf (setbuf i x s) i = x.
Proof. apply nthZ_updZ_eq. Qed.

Lemma getbuf_setbuf_ne s i j x : i <> j -> getbuf (setbuf i x s) j = getbuf s j.
Proof. apply nthZ_updZ_ne. Qed.

Lemma slot_in_range s b i :
  slot s b = Some i ->
  0 <= i < NBUF /\ dev (getbuf s i) = ROOTDEV /\ blockno (getbuf s i) = b.
Proof.
  unfold slot. intros H. apply List.find_some in H as [Hin H].
  apply list_elem_of_In, elem_of_seqZ in Hin. bool_split. lia.
Qed.

Lemma slot_None s b i :
  slot s b = None -> 0 <= i < NBUF -> dev (getbuf s i) = ROOTDEV -> blockno (getbuf s i) <> b.
Proof.
  unfold slot. intros H Hi Hd Hb.
  eapply List.find_none in H; [|apply list_elem_of_In, elem_of_seqZ; rewrite Z.add_0_l; exact Hi].
  cbv beta in H. rewrite Hd, Hb, !Z.eqb_refl in H. done.
Qed.

Lemma slot_Some s b i :
  uniq s -> 0 <= i < NBUF -> dev (getbuf s i) = ROOTDEV -> blockno (getbuf s i) = b ->
  slot s b = Some i.
Proof.
  intros Hinv Hi Hd Hb. destruct (slot s b) as [j|] eqn:E.
  - apply slot_in_range in E as (Hj & Hdj & Hbj). f_equal.
    by apply Hinv; congruence.
  - by eapply slot_None in E.
Qed.

Lemma slot_ext s s' b :
  (forall i, 0 <= i < NBUF -> dev (getbuf s' i) = dev (getbuf s i)
             /\ blockno (getbuf s' i) = blockno (getbuf s i)) ->
  slot s' b = slot s b.
Proof.
  intros H. unfold slot.
  assert (Hin : forall i, i ∈ seqZ 0 NBUF -> 0 <= i < NBUF) by (intros i; rewrite elem_of_seqZ; lia).
  revert Hin. generalize (seqZ 0 NBUF). induction l as [|i l IH]; intros Hin; simpl; [done|].
  destruct (H i) as [-> ->]; [apply Hin; set_solver|]. case_match; [done|]. apply IH. set_solver.
Qed.

(** An update of buffer [i] that keeps its identity. *)
Lemma slot_setbuf s i x b :
  length (bufs s) = Z.to_nat NBUF -> 0 <= i < NBUF ->
  dev x = dev (getbuf s i) -> blockno x = blockno (getbuf s i) ->
  slot (setbuf i x s) b = slot s b.
Proof.
  intros Hl Hi Hd Hb. apply slot_ext. intros j Hj. destruct (decide (i = j)) as [<-|].
  - rewrite getbuf_setbuf_eq by lia. done.
  - by rewrite getbuf_setbuf_ne.
Qed.

Lemma pinned_setbuf s i x :
  length (bufs s) = Z.to_nat NBUF -> 0 <= i < NBUF ->
  (pinned (setbuf i x s)
   + (if locked (lock (getbuf s i)) || isdirty (getbuf s i) then 1 else 0)
   = pinned s + (if locked (lock x) || isdirty x then 1 else 0))%nat.
Proof.
  intros Hl Hi. unfold pinned, setbuf, getbuf; simpl.
  apply (count_updZ buf0 (fun x => locked (lock x) || isdirty x)). lia.
Qed.

(** The ring contains every buffer, so a search of it misses none. *)
Lemma ring_full n p ord i :
  ring n p ord -> length ord = Z.to_nat NBUF -> 0 <= i < NBUF -> i ∈ ord.
Proof.
  intros (_ & Hnd & Hb & _) Hl Hi.
  assert (Hp : ord ≡ₚ seqZ 0 NBUF).
  { apply submseteq_length_Permutation; [|by rewrite length_seqZ, Hl].
    apply NoDup_submseteq; [done|]. intros x Hx. rewrite Forall_forall in Hb.
    apply elem_of_seqZ. specialize (Hb _ Hx). lia. }
  rewrite Hp. apply elem_of_seqZ. lia.
Qed.

Lemma find_is_slot s ord b :
  uniq s -> ring (nxt s) (prv s) ord -> length ord = Z.to_nat NBUF ->
  List.find (fun i => (dev (getbuf s i) =? ROOTDEV) && (blockno (getbuf s i) =? b)) ord
  = slot s b.
Proof.
  intros Hinv Hr Hl. destruct (List.find _ ord) as [i|] eqn:E.
  - apply List.find_some in E as [Hin E]. bool_split. symmetry. apply slot_Some; [done| |lia|lia].
    destruct Hr as (_ & _ & Hb & _). rewrite Forall_forall in Hb. apply Hb.
    by apply list_elem_of_In.
  - destruct (slot s b) as [i|] eqn:Es; [|done]. exfalso.
    apply slot_in_range in Es as (Hi & Hd & Hb).
    eapply List.find_none in E; [|apply list_elem_of_In, (ring_full _ _ _ _ Hr Hl Hi)].
    cbv beta in E. rewrite Hd, Hb, !Z.eqb_refl in E. done.
Qed.

(** ** Lemmas on the operations *)

Lemma setbuf_setbuf i x y s : setbuf i y (setbuf i x s) = setbuf i y s.
Proof.
  unfold setbuf; simpl. f_equal. unfold updZ. case_match; [done|]. apply list_insert_insert_eq.
Qed.

Lemma uniq_assign s i x b :
  uniq s -> length (bufs s) = Z.to_nat NBUF -> 0 <= i < NBUF ->
  (slot s b = Some i \/ slot s b = None) -> blockno x = b ->
  uniq (setbuf i x s).
Proof.
  intros Hu Hl Hi Hs Hb j k Hj Hk.
  assert (Hother : forall j, j <> i -> 0 <= j < NBUF -> dev (getbuf s j) = ROOTDEV ->
            blockno (getbuf s j) <> b).
  { intros m Hm Hmr Hd Hbm. destruct Hs as [Hs|Hs]; [|by eapply slot_None in Hs].
    apply slot_in_range in Hs as (_ & Hdi & Hbi). apply Hm. by apply Hu; congruence. }
  destruct (decide (j = i)) as [->|Hji], (decide (k = i)) as [->|Hki]; [done|..].
  - rewrite getbuf_setbuf_eq, getbuf_setbuf_ne by lia. intros _ Hd Heq.
    exfalso. by apply (Hother k); try congruence.
  - rewrite getbuf_setbuf_eq, getbuf_setbuf_ne by lia. intros Hd _ Heq.
    exfalso. by apply (Hother j); try congruence.
  - rewrite !getbuf_setbuf_ne by lia. by apply Hu.
Qed.

Lemma slot_assign s i x b c :
  uniq s -> length (bufs s) = Z.to_nat NBUF -> 0 <= i < NBUF ->
  (slot s b = Some i \/ slot s b = None) -> dev x = ROOTDEV -> blockno x = b ->
  slot (setbuf i x s) c =
  if decide (c = b) then Some i
  else match slot s c with Some j => if decide (j = i) then None else Some j | None => None end.
Proof.
  intros Hu Hl Hi Hs Hd Hb.
  assert (Hu' : uniq (setbuf i x s)) by (by eapply uniq_assign).
  destruct (decide (c = b)) as [->|Hcb].
  - apply slot_Some; [done..| |]; by rewrite getbuf_setbuf_eq by lia.
  - destruct (slot (setbuf i x s) c) as [j|] eqn:E.
    + apply slot_in_range in E as (Hj & Hdj & Hbj).
      destruct (decide (j = i)) as [->|Hji].
      { rewrite getbuf_setbuf_eq in Hbj by lia. congruence. }
      rewrite getbuf_setbuf_ne in Hdj, Hbj by lia.
      rewrite (slot_Some s c j) by done. by rewrite decide_False.
    + destruct (slot s c) as [j|] eqn:Esc; [|done]. case_decide as Hji; [done|].
      apply slot_in_range in Esc as (Hj & Hdj & Hbj).
      eapply (slot_None _ _ j) in E; [|done|by rewrite getbuf_setbuf_ne by lia].
      by rewrite getbuf_setbuf_ne in E by lia.
Qed.

Definition loaded (s : bst) (b : Z) : buf :=
  mk_buf (if dirty s b then Z.lor B_VALID B_DIRTY else B_VALID) ROOTDEV b
    (mk_lock true (curpid s)) 1 (view s b).

Lemma flags_valid x : flags x = B_VALID -> isvalid x = true /\ isdirty x = false.
Proof. unfold isvalid, isdirty. by intros ->. Qed.

Lemma flags_dirty x :
  flags x = Z.lor B_VALID B_DIRTY -> isvalid x = true /\ isdirty x = true.
Proof. unfold isvalid, isdirty. by intros ->. Qed.

Lemma flags_none x : flags x = 0 -> isvalid x = false /\ isdirty x = false.
Proof. unfold isvalid, isdirty. by intros ->. Qed.

Lemma setbuf_fields i x s :
  curpid (setbuf i x s) = curpid s /\ havedisk1 (setbuf i x s) = havedisk1 s
  /\ nspin (setbuf i x s) = nspin s /\ disk (setbuf i x s) = disk s.
Proof. done. Qed.

(** [iderw] on a locked buffer that holds no data yet reads the disk. *)
Lemma iderw_read s i b d :
  length (bufs s) = Z.to_nat NBUF -> 0 <= i < NBUF -> havedisk1 s = true -> nspin s = 0 ->
  b < FSSIZE ->
  iderw i (setbuf i (mk_buf 0 ROOTDEV b (mk_lock true (curpid s)) 1 d) s) =
  Ok tt (setbuf i (mk_buf B_VALID ROOTDEV b (mk_lock true (curpid s)) 1
                     (disk_at (disk s) ROOTDEV b)) s).
Proof.
  intros Hl Hi Hd Hn Hb. unfold iderw, iderw_with. cbv zeta. rewrite getbuf_setbuf_eq by lia.
  cbn [flags dev blockno lock refcnt data]. unfold holdingsleep. cbn [locked lpid].
  destruct (setbuf_fields i (mk_buf 0 ROOTDEV b (mk_lock true (curpid s)) 1 d) s)
    as (-> & -> & -> & ->).
  rewrite Z.eqb_refl, Hd, Hn, (proj2 (Z.leb_gt FSSIZE b)) by lia.
  change (Z.land 0 B_DIRTY =? 0) with true. cbn -[setbuf disk_at].
  by rewrite setbuf_setbuf.
Qed.

(** What [bget] does when the block is not held and a buffer can be found. *)
Definition got (s : bst) (i b : Z) : buf :=
  mk_buf (match slot s b with Some _ => flags (getbuf s i) | None => 0 end) ROOTDEV b
    (mk_lock true (curpid s)) 1 (data (getbuf s i)).

Lemma bget_result s b :
  bio_inv s -> (forall i, ~ hold s i b) ->
  (pinned s < Z.to_nat NBUF)%nat \/ dirty s b = true ->
  exists i, bget ROOTDEV b s = Ok i (setbuf i (got s i b) s)
    /\ 0 <= i < NBUF /\ locked (lock (getbuf s i)) = false
    /\ (slot s b = Some i \/ slot s b = None /\ isdirty (getbuf s i) = false).
Proof.
  intros Hinv Hfree Hpin.
  destruct Hinv as [(ord & Hring & Hord) Hlen Hbufs Huniq Hdisk Hd1 Hspin].
  unfold bget, mbind, M_bind.
  rewrite (ring_walk_next _ _ _ _ Hring), (find_is_slot _ _ _ Huniq Hring Hord).
  destruct (slot s b) as [i|] eqn:Es.
  - (* cached *)
    pose proof Es as Es'. apply slot_in_range in Es' as (Hi & Hdev & Hbno).
    assert (Hlk : locked (lock (getbuf s i)) = false).
    { destruct (locked _) eqn:E; [|done]. by destruct (Hfree i). }
    exists i. split_and!; [|lia|lia|done|by left].
    pose proof (Hbufs i Hi) as (_ & _ & _ & Hrc). rewrite Hlk in Hrc. destruct Hrc as [Hrc _].
    unfold acquirebuf, acquiresleep. rewrite getbuf_setbuf_eq by lia. cbn [lock with_refcnt].
    rewrite Hlk, (proj1 (setbuf_fields _ _ _)), setbuf_setbuf. unfold got. rewrite Es.
    unfold with_lock, with_refcnt. cbn [flags dev blockno lock refcnt data].
    by rewrite Hrc, Hdev, Hbno.
  - (* recycle *)
    rewrite (ring_walk_prev _ _ _ _ Hring).
    destruct (List.find _ (reverse ord)) as [i|] eqn:E.
    + apply List.find_some in E as [Hin E]. bool_split.
      apply list_elem_of_In in Hin. rewrite elem_of_reverse in Hin.
      assert (Hi : 0 <= i < NBUF).
      { destruct Hring as (_ & _ & Hb' & _). rewrite Forall_forall in Hb'. by apply Hb'. }
      pose proof (Hbufs i Hi) as (_ & Hfl & _ & Hrc).
      assert (Hlk : locked (lock (getbuf s i)) = false).
      { destruct (locked _) eqn:El; [|done]. destruct Hrc as [Hrc _]. lia. }
      exists i. split_and!; [|lia|lia|done|].
      2: { right. split; [done|]. unfold isdirty. lia. }
      unfold acquirebuf, acquiresleep. rewrite getbuf_setbuf_eq by lia. cbn [lock].
      rewrite Hlk, (proj1 (setbuf_fields _ _ _)), setbuf_setbuf. unfold got. by rewrite Es.
    + exfalso. destruct Hpin as [Hpin|Hpin]; [|unfold dirty in Hpin; by rewrite Es in Hpin].
      unfold pinned in Hpin. rewrite <-Hlen in Hpin.
      apply count_lt_exists in Hpin as (j & x & Hj & Hx).
      assert (Hjr : 0 <= Z.of_nat j < NBUF) by (apply lookup_lt_Some in Hj; lia).
      assert (Hgx : getbuf s (Z.of_nat j) = x).
      { unfold getbuf, nthZ. rewrite (proj2 (Z.ltb_ge _ _)) by lia. rewrite Nat2Z.id.
        by apply nth_lookup_Some. }
      eapply List.find_none in E; [|apply list_elem_of_In, elem_of_reverse,
        (ring_full _ _ _ _ Hring Hord Hjr)].
      cbv beta in E. pose proof (Hbufs _ Hjr) as (_ & _ & _ & Hrc). rewrite Hgx in *.
      destruct (locked (lock x)); [done|]. destruct Hrc as [Hrc _].
      unfold isdirty in Hx. simpl in Hx. lia.
Qed.

(** The rest of [bread]. *)
Lemma bread_result s b :
  bio_inv s -> 0 <= b < FSSIZE -> (forall i, ~ hold s i b) ->
  (pinned s < Z.to_nat NBUF)%nat \/ dirty s b = true ->
  exists i, bread ROOTDEV b s = Ok i (setbuf i (loaded s b) s)
    /\ 0 <= i < NBUF /\ locked (lock (getbuf s i)) = false
    /\ (slot s b = Some i \/ slot s b = None /\ isdirty (getbuf s i) = false).
Proof.
  intros Hinv Hb Hfree Hpin. destruct (bget_result s b Hinv Hfree Hpin) as (i & E & Hi & Hlk & Hs).
  exists i. split_and!; [|lia|lia|done|done]. unfold bread, mbind, M_bind. rewrite E.
  destruct Hinv as [_ Hlen Hbufs _ _ Hd1 Hspin]. unfold gets.
  rewrite getbuf_setbuf_eq by lia. unfold got, loaded, dirty, view. cbn [flags].
  pose proof (Hbufs i Hi) as (_ & Hfl & _ & _).
  destruct Hs as [Hs|[Hs _]]; rewrite Hs.
  - destruct Hfl as [Hf|[Hf|Hf]].
    + destruct (flags_none _ Hf) as [-> ->]. rewrite Hf. change (Z.land 0 B_VALID =? 0) with true.
      cbv iota. by rewrite (iderw_read s i b) by (done || lia).
    + destruct (flags_valid _ Hf) as [-> ->]. by rewrite Hf.
    + destruct (flags_dirty _ Hf) as [-> ->]. by rewrite Hf.
  - change (Z.land 0 B_VALID =? 0) with true. cbv iota.
    by rewrite (iderw_read s i b) by (done || lia).
Qed.

(** Nothing of the state outside the buffers and their order has changed. *)
Definition same_disk (s s' : bst) : Prop :=
  disk s' = disk s /\ dwrites s' = dwrites s /\ curpid s' = curpid s.

Lemma hold_range s i b :
  hold s i b -> 0 <= i < NBUF /\ dev (getbuf s i) = ROOTDEV /\ blockno (getbuf s i) = b
                /\ locked (lock (getbuf s i)) = true.
Proof. intros [Hs Hl]. apply slot_in_range in Hs as (? & ? & ?). done. Qed.

Lemma hold_view s i b : bio_inv s -> hold s i b -> data (getbuf s i) = view s b.
Proof.
  intros Hinv Hh. pose proof Hh as (Hi & _ & _ & Hl)%hold_range. destruct Hh as [Hs _].
  unfold view. rewrite Hs. pose proof (inv_bufs s Hinv i Hi) as (_ & _ & _ & H).
  rewrite Hl in H. by destruct H as (_ & _ & ->).
Qed.

Lemma length_view s b : bio_inv s -> length (view s b) = Z.to_nat BSIZE.
Proof.
  intros Hinv. assert (Hd : length (disk_at (disk s) ROOTDEV b) = Z.to_nat BSIZE).
  { unfold disk_at. destruct (disk s !! _) eqn:E; [by eapply inv_disk|done]. }
  unfold view. destruct (slot s b) as [i|] eqn:Es; [|done]. case_match; [|done].
  apply slot_in_range in Es as (Hi & _). by apply (inv_bufs s Hinv).
Qed.

Lemma hold_bno s i b : bio_inv s -> hold s i b -> b < FSSIZE.
Proof.
  intros Hinv Hh. pose proof Hh as (Hi & _ & <- & Hl)%hold_range.
  pose proof (inv_bufs s Hinv i Hi) as ((_ & Hb) & _ & _ & H). rewrite Hl in H.
  apply Hb. intros Hf. unfold isvalid in H. rewrite Hf in H. by destruct H as (_ & _ & ?).
Qed.

Lemma buf_ok_frame s s' x : same_disk s s' -> buf_ok s x -> buf_ok s' x.
Proof. unfold buf_ok. intros (-> & _ & ->). done. Qed.

(** An update of one buffer that keeps the ring, the disk and uniqueness. *)
Lemma bio_inv_setbuf s i x b :
  bio_inv s -> 0 <= i < NBUF -> (slot s b = Some i \/ slot s b = None) ->
  blockno x = b -> buf_ok s x -> bio_inv (setbuf i x s).
Proof.
  intros [Hr Hl Hb Hu Hd H1 Hn] Hi Hs Hx Hok. split; try done.
  - simpl. by rewrite length_updZ.
  - intros j Hj. apply (buf_ok_frame s); [done|]. destruct (decide (i = j)) as [<-|].
    + by rewrite getbuf_setbuf_eq by lia.
    + rewrite getbuf_setbuf_ne by done. by apply Hb.
  - by eapply uniq_assign.
Qed.

Lemma bread_spec s b :
  bio_inv s -> 0 <= b < FSSIZE -> (forall i, ~ hold s i b) ->
  (pinned s < Z.to_nat NBUF)%nat \/ dirty s b = true ->
  wp (bread ROOTDEV b) (fun i s' =>
    bio_inv s' /\ hold s' i b /\ same_disk s s'
    /\ (forall c, view s' c = view s c) /\ (forall c, dirty s' c = dirty s c)
    /\ (forall j c, hold s' j c <-> hold s j c \/ (j = i /\ c = b))
    /\ pinned s' = (pinned s + if dirty s b then 0 else 1)%nat) s.
Proof.
  intros Hinv Hb Hfree Hpin.
  destruct (bread_result s b Hinv Hb Hfree Hpin) as (i & Hrun & Hi & Hlk & Hs).
  apply wp_iff. exists i, (setbuf i (loaded s b) s). split; [done|].
  assert (Hs' : slot s b = Some i \/ slot s b = None) by tauto.
  pose proof (inv_len s Hinv) as Hl. pose proof (inv_uniq s Hinv) as Hu.
  pose proof (inv_bufs s Hinv i Hi) as (_ & Hfl & Hdv & Hrc). rewrite Hlk in Hrc.
  assert (Hv : isvalid (loaded s b) = true)
    by (unfold loaded, isvalid; simpl; by destruct (dirty s b)).
  assert (Hdy : isdirty (loaded s b) = dirty s b)
    by (unfold loaded, isdirty; simpl; by destruct (dirty s b)).
  assert (Hsl : forall c, slot (setbuf i (loaded s b) s) c = if decide (c = b) then Some i
            else match slot s c with Some j => if decide (j = i) then None else Some j
                 | None => None end)
    by (intros c; by eapply slot_assign).
  (* a block other than [b] that loses its buffer was clean *)
  assert (Hevict : forall c, c <> b -> slot s c = Some i ->
            isdirty (getbuf s i) = false /\ view s c = disk_at (disk s) ROOTDEV c).
  { intros c Hc Hsc. destruct Hs as [Hs|[Hs Hnd]].
    { apply slot_in_range in Hs as (_ & _ & Hs). apply slot_in_range in Hsc as (_ & _ & Hsc).
      congruence. }
    split; [done|]. unfold view. rewrite Hsc.
    apply slot_in_range in Hsc as (_ & Hd & Hbc).
    destruct Hfl as [Hf|[Hf|Hf]].
    - by destruct (flags_none _ Hf) as [-> _].
    - destruct (flags_valid _ Hf) as [-> _]. destruct Hrc as [_ Hrc]. by rewrite Hrc, Hd, Hbc.
    - destruct (flags_dirty _ Hf) as [_ Hf']. congruence. }
  split_and!.
  - apply (bio_inv_setbuf _ _ _ b); [done..|]. split_and!; simpl.
    + by apply length_view.
    + intros _. lia.
    + destruct (dirty s b); auto.
    + by left.
    + by split_and!.
  - split; [rewrite Hsl; by rewrite decide_True|]. by rewrite getbuf_setbuf_eq by lia.
  - done.
  - intros c. unfold view at 1. rewrite Hsl. destruct (decide (c = b)) as [->|Hc].
    { rewrite getbuf_setbuf_eq by lia. by rewrite Hv. }
    destruct (slot s c) as [j|] eqn:Esc; simpl.
    + destruct (decide (j = i)) as [->|Hji].
      * by destruct (Hevict c Hc Esc) as [_ ->].
      * unfold view. rewrite Esc. by rewrite getbuf_setbuf_ne by done.
    + unfold view. by rewrite Esc.
  - intros c. unfold dirty at 1. rewrite Hsl. destruct (decide (c = b)) as [->|Hc].
    { by rewrite getbuf_setbuf_eq by lia. }
    unfold dirty. destruct (slot s c) as [j|] eqn:Esc; [|done].
    destruct (decide (j = i)) as [->|Hji].
    + by destruct (Hevict c Hc Esc) as [-> _].
    + by rewrite getbuf_setbuf_ne by done.
  - intros j c. unfold hold. rewrite Hsl. destruct (decide (c = b)) as [->|Hc].
    + split.
      * intros [[= <-] _]. by right.
      * intros [[Hsb Hlj]|[-> _]].
        -- exfalso. by apply (Hfree j).
        -- by rewrite getbuf_setbuf_eq by lia.
    + split.
      * intros [Hj Hlj]. left. destruct (slot s c) as [k|] eqn:Esc; [|done].
        case_decide; [done|]. injection Hj as ->.
        by rewrite getbuf_setbuf_ne in Hlj by done.
      * intros [[Hj Hlj]|[_ ?]]; [|done]. rewrite Hj.
        destruct (decide (j = i)) as [->|Hji]; [congruence|].
        by rewrite getbuf_setbuf_ne by done.
  - pose proof (pinned_setbuf s i (loaded s b) Hl Hi) as Hp. simpl in Hp.
    rewrite Hlk in Hp. simpl in Hp.
    destruct Hs as [Hs|[Hs Hnd]].
    + assert (dirty s b = isdirty (getbuf s i)) as -> by (unfold dirty; by rewrite Hs).
      destruct (isdirty (getbuf s i)); lia.
    + assert (dirty s b = false) as -> by (unfold dirty; by rewrite Hs).
      rewrite Hnd in Hp. lia.
Qed.

(** Any change the holder of a buffer makes to its data and dirty flag. *)
Lemma held_update s i b x :
  bio_inv s -> hold s i b -> dev x = ROOTDEV -> blockno x = b ->
  lock x = lock (getbuf s i) -> refcnt x = refcnt (getbuf s i) ->
  (flags x = B_VALID \/ flags x = Z.lor B_VALID B_DIRTY) ->
  length (data x) = Z.to_nat BSIZE ->
  let s' := setbuf i x s in
  bio_inv s' /\ (forall j c, hold s' j c <-> hold s j c) /\ pinned s' = pinned s
  /\ (forall c, view s' c = if decide (c = b) then data x else view s c)
  /\ (forall c, dirty s' c = if decide (c = b) then isdirty x else dirty s c).
Proof.
  intros Hinv Hh Hd Hb Hlk Hrc Hf Hlen s'. pose proof Hh as (Hi & Hdi & Hbi & Hli)%hold_range.
  pose proof (inv_len s Hinv) as Hl. pose proof (hold_bno _ _ _ Hinv Hh) as Hbn.
  destruct Hh as [Hs _].
  pose proof (inv_bufs s Hinv i Hi) as (_ & _ & _ & Hok). rewrite Hli in Hok.
  destruct Hok as (Hr1 & Hpid & _).
  assert (Hv : isvalid x = true) by (destruct Hf as [Hf|Hf]; unfold isvalid; by rewrite Hf).
  assert (Hsl : forall c, slot s' c = slot s c) by (intros c; apply slot_setbuf; congruence || done).
  assert (Hne : forall j c, slot s c = Some j -> c <> b -> i <> j).
  { intros j c Hj Hc ->. apply slot_in_range in Hj as (_ & _ & Hj). congruence. }
  split_and!.
  - apply (bio_inv_setbuf _ _ _ b); [done|done|by left|done|].
    split_and!; [done|intros _; lia|tauto|by left|]. rewrite Hlk, Hli. split_and!; congruence || done.
  - intros j c. unfold hold. rewrite Hsl. destruct (decide (i = j)) as [<-|Hij].
    + unfold s'. rewrite getbuf_setbuf_eq by lia. by rewrite Hlk.
    + unfold s'. by rewrite getbuf_setbuf_ne by done.
  - pose proof (pinned_setbuf s i x Hl Hi) as Hp. rewrite Hlk, Hli in Hp. simpl in Hp.
    fold s' in Hp. lia.
  - intros c. unfold view. rewrite Hsl. destruct (decide (c = b)) as [->|Hc].
    + rewrite Hs. unfold s'. rewrite getbuf_setbuf_eq by lia. by rewrite Hv.
    + destruct (slot s c) as [j|] eqn:E; [|done]. unfold s'.
      by rewrite getbuf_setbuf_ne by eauto.
  - intros c. unfold dirty. rewrite Hsl. destruct (decide (c = b)) as [->|Hc].
    + rewrite Hs. unfold s'. by rewrite getbuf_setbuf_eq by lia.
    + destruct (slot s c) as [j|] eqn:E; [|done]. unfold s'.
      by rewrite getbuf_setbuf_ne by eauto.
Qed.

(** Block numbers beyond the disk are never cached; reading one panics in the
    driver. *)
Lemma bread_beyond_disk s b :
  bio_inv s -> FSSIZE <= b -> (pinned s < Z.to_nat NBUF)%nat ->
  exists s', bread ROOTDEV b s = Panic "incorrect blockno" s'.
Proof.
  intros Hinv Hb Hpin.
  destruct (bget_result s b Hinv) as (i & E & Hi & Hlk & Hs); [|by left|].
  { intros i Hh. pose proof (hold_bno _ _ _ Hinv Hh). lia. }
  pose proof Hinv as [_ Hlen Hbufs _ _ Hd1 Hspin].
  assert (Hf : flags (got s i b) = 0).
  { unfold got. cbn [flags]. destruct Hs as [Hs|[Hs _]]; rewrite Hs; [|done].
    apply slot_in_range in Hs as (_ & _ & Hbno). destruct (Hbufs i Hi) as ((_ & Hr) & _).
    destruct (decide (flags (getbuf s i) = 0)) as [|Hn]; [done|]. specialize (Hr Hn). lia. }
  unfold bread, mbind, M_bind. rewrite E. unfold gets. rewrite getbuf_setbuf_eq by lia.
  rewrite Hf. change (Z.land 0 B_VALID =? 0) with true. cbv iota.
  unfold iderw, iderw_with. cbv zeta. rewrite getbuf_setbuf_eq by lia. rewrite Hf.
  destruct (setbuf_fields i (got s i b) s) as (-> & -> & _).
  unfold got, holdingsleep. cbn [lock locked lpid dev blockno]. rewrite Z.eqb_refl, Hd1.
  rewrite (proj2 (Z.leb_le FSSIZE b)) by lia. cbn -[setbuf]. eauto.
Qed.

(** The flags of a held buffer. *)
Lemma hold_flags s i b :
  bio_inv s -> hold s i b ->
  (flags (getbuf s i) = B_VALID \/ flags (getbuf s i) = Z.lor B_VALID B_DIRTY)
  /\ isdirty (getbuf s i) = dirty s b /\ holdingsleep (curpid s) (lock (getbuf s i)) = true
  /\ refcnt (getbuf s i) = 1.
Proof.
  intros Hinv Hh. pose proof Hh as (Hi & _ & _ & Hl)%hold_range. destruct Hh as [Hs _].
  pose proof (inv_bufs s Hinv i Hi) as (_ & Hf & _ & H). rewrite Hl in H.
  destruct H as (Hr & Hp & Hv). split_and!; [|unfold dirty; by rewrite Hs| |done].
  - destruct Hf as [Hf|Hf]; [|done]. destruct (flags_none _ Hf). congruence.
  - unfold holdingsleep. rewrite Hl, Hp. apply Z.eqb_refl.
Qed.

Lemma set_bdata_spec s i b d :
  bio_inv s -> hold s i b -> length d = Z.to_nat BSIZE ->
  wp (set_bdata i d) (fun _ s' =>
    bio_inv s' /\ same_disk s s' /\ (forall j c, hold s' j c <-> hold s j c)
    /\ pinned s' = pinned s
    /\ (forall c, view s' c = if decide (c = b) then d else view s c)
    /\ (forall c, dirty s' c = dirty s c)) s.
Proof.
  intros Hinv Hh Hd. apply wp_modS.
  pose proof Hh as (Hi & Hdi & Hbi & Hli)%hold_range.
  destruct (hold_flags s i b Hinv Hh) as (Hf & Hdy & _).
  destruct (held_update s i b (with_data d (getbuf s i)) Hinv Hh Hdi Hbi eq_refl eq_refl Hf Hd)
    as (H1 & H2 & H3 & H4 & H5).
  split_and!; [exact H1|done|exact H2|exact H3|exact H4|]. intros c. rewrite H5. destruct (decide (c = b)) as [->|Hc]; [|reflexivity].
  rewrite <-Hdy. reflexivity.
Qed.

(** [b->flags |= B_DIRTY] on a held buffer. *)
Lemma mark_dirty_spec s i b :
  bio_inv s -> hold s i b ->
  let s' := setbuf i (with_flags (Z.lor (flags (getbuf s i)) B_DIRTY) (getbuf s i)) s in
  bio_inv s' /\ same_disk s s' /\ (forall j c, hold s' j c <-> hold s j c)
  /\ pinned s' = pinned s /\ (forall c, view s' c = view s c)
  /\ (forall c, dirty s' c = if decide (c = b) then true else dirty s c).
Proof.
  intros Hinv Hh s'. pose proof Hh as (Hi & Hdi & Hbi & Hli)%hold_range.
  destruct (hold_flags s i b Hinv Hh) as (Hf & _ & _).
  assert (Hfl : Z.lor (flags (getbuf s i)) B_DIRTY = Z.lor B_VALID B_DIRTY)
    by (destruct Hf as [-> | ->]; reflexivity).
  destruct (held_update s i b (with_flags (Z.lor (flags (getbuf s i)) B_DIRTY) (getbuf s i))
    Hinv Hh Hdi Hbi eq_refl eq_refl) as (H1 & H2 & H3 & H4 & H5).
  - right. simpl. by rewrite Hfl.
  - simpl. by apply (inv_bufs s Hinv).
  - split_and!; [exact H1|done|exact H2|exact H3| |].
    + intros c. unfold s'. rewrite H4. destruct (decide (c = b)) as [->|Hc]; [|reflexivity]. simpl.
      by apply hold_view.
    + intros c. unfold s'. rewrite H5. destruct (decide (c = b)) as [->|Hc]; [|reflexivity].
      unfold isdirty. simpl. by rewrite Hfl.
Qed.

Lemma ring_move_front n p ord i :
  ring n p ord -> i ∈ ord ->
  exists n' p' ord', link_front i (unlink i (n, p)) = (n', p')
    /\ ring n' p' (i :: ord') /\ length ord = S (length ord').
Proof.
  intros Hr Hin. apply list_elem_of_split in Hin as (o1 & o2 & ->).
  destruct (unlink i (n, p)) as [n1 p1] eqn:E1.
  destruct (link_front i (n1, p1)) as [n' p'] eqn:E2.
  exists n', p', (o1 ++ o2). split_and!; [done| |rewrite !length_app; simpl; lia].
  eapply ring_link_front; [by eapply ring_unlink| | |done].
  - destruct Hr as (_ & _ & Hb & _). rewrite Forall_forall in Hb. apply Hb. set_solver.
  - destruct Hr as (_ & Hnd & _). apply NoDup_app in Hnd as (_ & Hd & Hnd).
    apply NoDup_cons in Hnd as [Hnd _]. intros Hin. apply elem_of_app in Hin as [Hin|Hin]; [|done].
    apply (Hd i Hin). set_solver.
Qed.

Lemma brelse_spec s i b :
  bio_inv s -> hold s i b -> (dirty s b = true \/ view s b = disk_at (disk s) ROOTDEV b) ->
  wp (brelse i) (fun _ s' =>
    bio_inv s' /\ same_disk s s' /\ (forall c, view s' c = view s c)
    /\ (forall c, dirty s' c = dirty s c)
    /\ (forall j c, hold s' j c <-> hold s j c /\ c <> b)
    /\ pinned s = (pinned s' + if dirty s b then 0 else 1)%nat) s.
Proof.
  intros Hinv Hh Hcl. pose proof Hh as (Hi & Hdi & Hbi & Hli)%hold_range.
  destruct (hold_flags s i b Hinv Hh) as (Hf & Hdy & Hhs & Hr1).
  pose proof (hold_view s i b Hinv Hh) as Hview.
  pose proof (inv_len s Hinv) as Hl. destruct Hh as [Hs _].
  set (x := with_refcnt 0 (with_lock initsleeplock (getbuf s i))).
  destruct (inv_ring s Hinv) as (ord & Hring & Hord).
  destruct (ring_move_front _ _ _ _ Hring (ring_full _ _ _ _ Hring Hord Hi))
    as (n' & p' & ord' & Hlf & Hring' & Hlen).
  assert (Hrun : brelse i s = Ok tt (setlinks n' p' (setbuf i x s))).
  { unfold brelse. cbv zeta. rewrite Hhs, Hr1. change (u32 (1 - 1)) with 0. simpl Z.eqb.
    cbn [negb]. cbv iota.
    change (nxt (setbuf i _ s)) with (nxt s). change (prv (setbuf i _ s)) with (prv s).
    by rewrite Hlf. }
  set (s' := setlinks n' p' (setbuf i x s)) in *.
  apply wp_iff. exists tt, s'. split; [done|].
  assert (Hget : forall j, getbuf s' j = getbuf (setbuf i x s) j) by done.
  assert (Hsl : forall c, slot s' c = slot s c).
  { intros c. transitivity (slot (setbuf i x s) c); [by apply slot_ext|].
    by apply slot_setbuf. }
  assert (Hne : forall j c, slot s c = Some j -> c <> b -> i <> j).
  { intros j c Hj Hc ->. apply slot_in_range in Hj as (_ & _ & Hj). congruence. }
  assert (Hxv : isvalid x = true).
  { destruct Hf as [Hf|Hf]; unfold isvalid; simpl; by rewrite Hf. }
  split_and!.
  - assert (Hinv1 : bio_inv (setbuf i x s)).
    { apply (bio_inv_setbuf _ _ _ b); [done|done|by left|done|]. split_and!; simpl.
      - rewrite Hview. by apply length_view.
      - intros _. rewrite Hbi. by apply (hold_bno s i).
      - tauto.
      - by left.
      - split; [done|]. intros Hfx. rewrite Hview, Hdi, Hbi.
        destruct Hcl as [Hcl|Hcl]; [|done]. destruct (flags_valid _ Hfx). congruence. }
    destruct Hinv1 as [_ G2 G3 G4 G5 G6 G7].
    split; [|exact G2|exact G3|exact G4|exact G5|exact G6|exact G7].
    exists (i :: ord'). split; [done|]. simpl. lia.
  - done.
  - intros c. unfold view. rewrite Hsl. destruct (slot s c) as [j|] eqn:E; [|done].
    rewrite Hget. destruct (decide (c = b)) as [->|Hc].
    + rewrite Hs in E. injection E as <-. rewrite getbuf_setbuf_eq by lia.
      rewrite Hxv. destruct (isvalid (getbuf s i)) eqn:Ev; [done|].
      unfold isvalid in *. simpl in Hxv. congruence.
    + by rewrite getbuf_setbuf_ne by eauto.
  - intros c. unfold dirty. rewrite Hsl. destruct (slot s c) as [j|] eqn:E; [|done].
    rewrite Hget. destruct (decide (i = j)) as [<-|].
    + by rewrite getbuf_setbuf_eq by lia.
    + by rewrite getbuf_setbuf_ne.
  - intros j c. unfold hold. rewrite Hsl, Hget. split.
    + intros [Hj Hlj]. destruct (decide (i = j)) as [<-|Hij].
      { by rewrite getbuf_setbuf_eq in Hlj by lia. }
      rewrite getbuf_setbuf_ne in Hlj by done. split_and!; [done|done|].
      intros ->. congruence.
    + intros [[Hj Hlj] Hc]. split; [done|]. by rewrite getbuf_setbuf_ne by eauto.
  - pose proof (pinned_setbuf s i x Hl Hi) as Hp. rewrite Hli in Hp.
    change (pinned s') with (pinned (setbuf i x s)). simpl in Hp.
    change (isdirty x) with (isdirty (getbuf s i)) in Hp. rewrite Hdy in Hp.
    destruct (dirty s b); lia.
Qed.

Lemma bwrite_spec s i b :
  bio_inv s -> hold s i b -> 0 <= b < FSSIZE ->
  wp (bwrite i) (fun _ s' =>
    bio_inv s' /\ disk s' = <[(1, b) := view s b]> (disk s)
    /\ dwrites s' = dwrites s ++ [((1, b), view s b)] /\ curpid s' = curpid s
    /\ (forall c, view s' c = view s c)
    /\ (forall c, dirty s' c = if decide (c = b) then false else dirty s c)
    /\ (forall j c, hold s' j c <-> hold s j c) /\ pinned s' = pinned s) s.
Proof.
  intros Hinv Hh Hb. pose proof Hh as (Hi & Hdi & Hbi & Hli)%hold_range.
  destruct (hold_flags s i b Hinv Hh) as (Hf & Hdy & Hhs & Hr1).
  pose proof (hold_view s i b Hinv Hh) as Hview. pose proof (inv_len s Hinv) as Hl.
  set (x := with_flags B_VALID (getbuf s i)).
  set (d' := <[(1, b) := view s b]> (disk s)).
  set (s' := mk_bst (updZ i x (bufs s)) (nxt s) (prv s) d'
               (dwrites s ++ [((1, b), view s b)]) (havedisk1 s) (curpid s) (nspin s)).
  assert (Hrun : bwrite i s = Ok tt s').
  { unfold bwrite. cbv zeta. rewrite Hhs. cbn [negb]. cbv iota.
    unfold iderw, iderw_with. cbv zeta. rewrite getbuf_setbuf_eq by lia.
    cbn [flags dev blockno lock refcnt data with_flags].
    destruct (setbuf_fields i (with_flags (Z.lor (flags (getbuf s i)) B_DIRTY) (getbuf s i)) s)
      as (-> & -> & -> & ->).
    rewrite Hhs, (inv_dev1 s Hinv), (inv_spin s Hinv), Hdi, Hbi, Hview.
    rewrite (proj2 (Z.leb_gt FSSIZE b)) by lia.
    assert (Hfl : Z.lor (flags (getbuf s i)) B_DIRTY = Z.lor B_VALID B_DIRTY)
      by (destruct Hf as [-> | ->]; reflexivity).
    rewrite Hfl. cbn -[setbuf updZ insert app].
    unfold s', setbuf; simpl. unfold d'.
    f_equal. f_equal; [|symmetry; by apply inv_dev1|symmetry; by apply inv_spin].
    unfold updZ. case_match; [done|]. by rewrite list_insert_insert_eq. }
  (* first as an update of the buffer, then of the disk *)
  destruct (held_update s i b x Hinv Hh Hdi Hbi eq_refl eq_refl) as (H1 & H2 & H3 & H4 & H5).
  { by left. }
  { simpl. by apply (inv_bufs s Hinv). }
  apply wp_iff. exists tt, s'. split; [done|].
  assert (Hsl : forall c, slot s' c = slot (setbuf i x s) c) by done.
  assert (Hdk : forall c, c <> b -> disk_at d' ROOTDEV c = disk_at (disk s) ROOTDEV c).
  { intros c Hc. unfold disk_at, d'. change (Z.land ROOTDEV 1) with 1.
    rewrite lookup_insert_ne; [done|]. congruence. }
  assert (Hslb : slot (setbuf i x s) b = Some i).
  { assert (hold (setbuf i x s) i b) as [? _] by (by apply H2). done. }
  split_and!; [|done|done|done| |exact H5|exact H2|exact H3].
  - destruct H1 as [G1 G2 G3 G4 G5 G6 G7]. split; [exact G1|exact G2| |exact G4| |exact G6|exact G7].
    + intros j Hj. destruct (G3 j Hj) as (K1 & K2 & K3 & K4). change (getbuf s' j) with
        (getbuf (setbuf i x s) j). split; [done|]. split; [done|]. split; [done|].
      change (curpid s') with (curpid (setbuf i x s)).
      case_match eqn:Hl'; [done|]. destruct K4 as [K4 K5]. split; [done|]. intros Hfx.
      rewrite K5 by done. destruct K3 as [K3|(K3 & K6 & _)]; [|by rewrite K6 in Hfx].
      rewrite K3. symmetry. apply Hdk. intros Hc.
      assert (j = i) as ->.
      { apply G4; [done|done|done| |].
        - rewrite getbuf_setbuf_eq by lia. done.
        - rewrite Hc. rewrite getbuf_setbuf_eq by lia. done. }
      rewrite getbuf_setbuf_eq in Hl' by lia. simpl in Hl'. congruence.
    + simpl. intros k d. unfold d'. rewrite lookup_insert. case_decide.
      * intros [= <-]. by apply length_view.
      * apply G5.
  - intros c. transitivity (view (setbuf i x s) c).
    + unfold view. rewrite Hsl. change (getbuf s') with (getbuf (setbuf i x s)).
      change (disk (setbuf i x s)) with (disk s). change (disk s') with d'.
      destruct (decide (c = b)) as [->|Hc].
      * rewrite Hslb, getbuf_setbuf_eq by lia. done.
      * rewrite !Hdk by done. done.
    + rewrite H4. destruct (decide (c = b)) as [->|Hc]; [exact Hview|reflexivity].
Qed.

(** ** Initialisation *)

(** The cache of the zero-initialised kernel image over a given disk. *)
Definition bss (d : gmap (Z * Z) (list Z)) (pid : Z) : bst :=
  mk_bst (replicate (Z.to_nat NBUF) buf0) (replicate (S (Z.to_nat NBUF)) 0)
    (replicate (S (Z.to_nat NBUF)) 0) d [] true pid 0.

Lemma ring_nil n p :
  length n = S (Z.to_nat NBUF) -> length p = S (Z.to_nat NBUF) ->
  ring (updZ head head n) (updZ head head p) [].
Proof.
  intros Hn Hp. split_and!; [|constructor|constructor|by rewrite length_updZ..].
  simpl. split_and!; [apply nthZ_updZ_eq; unfold head, NBUF, MAXOPBLOCKS in *; lia..|done].
Qed.

Lemma fold_link_front l n p ord n' p' :
  ring n p ord -> NoDup (l ++ ord) -> Forall (fun i => 0 <= i < NBUF) l ->
  fold_left (fun np b => link_front b np) l (n, p) = (n', p') ->
  ring n' p' (reverse l ++ ord).
Proof.
  revert n p ord. induction l as [|b l IH]; intros n p ord Hr Hnd Hb; cbn [fold_left].
  - by intros [= -> ->].
  - intros H. destruct (link_front b (n, p)) as [n1 p1] eqn:E.
    apply Forall_cons in Hb as [Hb1 Hb]. simpl in Hnd. apply NoDup_cons in Hnd as [Hnb Hnd].
    rewrite reverse_cons, <-app_assoc. simpl.
    refine (IH n1 p1 (b :: ord) _ _ Hb H).
    + eapply ring_link_front; [done|done|set_solver|done].
    + apply NoDup_app in Hnd as (? & ? & ?). apply NoDup_app. split_and!; [done| |].
      * intros x Hx. set_solver.
      * constructor; [set_solver|done].
Qed.

(** [initsleeplock] on the buffers of the boot image changes nothing. *)
Lemma binit_bufs l d pid :
  fold_left (fun s b => setbuf b (with_lock initsleeplock (getbuf s b)) s) l (bss d pid)
  = bss d pid.
Proof.
  induction l as [|b l IH]; simpl; [done|].
  assert (Hg : getbuf (bss d pid) b = buf0).
  { unfold getbuf, nthZ. case_match; [done|]. unfold bss; cbn [bufs].
    generalize (Z.to_nat NBUF), (Z.to_nat b). induction n as [|n IHn]; intros [|m]; simpl; auto. }
  rewrite Hg. change (with_lock initsleeplock buf0) with buf0.
  assert (setbuf b buf0 (bss d pid) = bss d pid) as ->; [|done].
  unfold setbuf, bss. cbn [bufs nxt prv disk dwrites havedisk1 curpid nspin]. f_equal. unfold updZ. case_match; [done|].
  apply list_eq. intros j. destruct (decide (Z.to_nat b = j)) as [<-|].
  - destruct (decide (Z.to_nat b < Z.to_nat NBUF)%nat).
    + rewrite list_lookup_insert_eq by (rewrite length_replicate; lia).
      by rewrite lookup_replicate_2.
    + by rewrite list_insert_ge by (rewrite length_replicate; lia).
  - by rewrite list_lookup_insert_ne.
Qed.

Lemma getbuf_bss d pid i : 0 <= i < NBUF -> getbuf (bss d pid) i = buf0.
Proof.
  intros Hi. unfold getbuf, nthZ. rewrite (proj2 (Z.ltb_ge i 0)) by lia.
  unfold bss. cbn [bufs]. apply nth_lookup_Some, lookup_replicate_2. lia.
Qed.

Lemma buf0_ok s : buf_ok s buf0.
Proof. split_and!; [reflexivity|done|by left|by right|]. simpl. by split. Qed.

Lemma binit_ok d pid :
  (forall k x, d !! k = Some x -> length x = Z.to_nat BSIZE) ->
  bio_inv (binit (bss d pid)) /\ pinned (binit (bss d pid)) = 0%nat
  /\ (forall i b, ~ hold (binit (bss d pid)) i b)
  /\ (forall b, dirty (binit (bss d pid)) b = false)
  /\ (forall b, view (binit (bss d pid)) b = disk_at d ROOTDEV b)
  /\ disk (binit (bss d pid)) = d.
Proof.
  intros Hd. unfold binit. cbv zeta. rewrite binit_bufs.
  destruct (fold_left _ (seqZ 0 NBUF) _) as [n p] eqn:E.
  set (s := setlinks n p (bss d pid)).
  assert (Hg : forall i, 0 <= i < NBUF -> getbuf s i = buf0) by apply getbuf_bss.
  assert (Hslot : forall b, slot s b = None).
  { intros b. destruct (slot s b) as [i|] eqn:Es; [|done].
    apply slot_in_range in Es as (Hi & Hdv & _). by rewrite Hg in Hdv. }
  split_and!.
  - split.
    + exists (reverse (seqZ 0 NBUF)). split; [|by rewrite length_reverse, length_seqZ].
      rewrite <-(app_nil_r (reverse _)). eapply fold_link_front; [|..|exact E].
      * apply ring_nil; apply length_replicate.
      * rewrite app_nil_r. apply NoDup_seqZ.
      * apply Forall_seqZ. lia.
    + apply length_replicate.
    + intros i Hi. rewrite (Hg i Hi). apply buf0_ok.
    + intros i j Hi Hj Hdi. by rewrite (Hg i Hi) in Hdi.
    + exact Hd.
    + reflexivity.
    + reflexivity.
  - unfold pinned. cbn [bufs s setlinks bss].
    clear. generalize (Z.to_nat NBUF). intros k. induction k as [|k IH]; [reflexivity|exact IH].
  - intros i b [Hs _]. rewrite Hslot in Hs. discriminate Hs.
  - intros b. unfold dirty. rewrite Hslot. reflexivity.
  - intros b. unfold view. rewrite Hslot. reflexivity.
  - reflexivity.
Qed.

(** ** [bsync] and recycling *)

Definition unsynced (s : bst) (i : Z) : bool :=
  (refcnt (getbuf s i) =? 0) && negb (Z.land (flags (getbuf s i)) B_DIRTY =? 0).

Lemma bsync_loop_run s l : forall fuel x,
  (forall i, i ∈ l -> unsynced s i = true -> locked (lock (getbuf s i)) = false) ->
  follows (nxt s) x (l ++ [head]) -> head ∉ l -> (length l < fuel)%nat ->
  bsync_loop fuel (nthZ 0 (nxt s) x) s
  = if existsb (unsynced s) l then Panic "bwrite" s else Ok tt s.
Proof.
  induction l as [|i l IH]; intros [|fuel] x Hlk Hf Hh Hn; simpl in Hn; try lia.
  - destruct Hf as [Hx _]. simpl. rewrite Hx. reflexivity.
  - destruct Hf as [Hx Hf]. apply not_elem_of_cons in Hh as [Hih Hh].
    cbn [bsync_loop existsb]. rewrite Hx, (proj2 (Z.eqb_neq i head)) by congruence.
    unfold mbind, M_bind, gets. fold (unsynced s i). destruct (unsynced s i) eqn:E; cbn [orb].
    + unfold bwrite, holdingsleep. rewrite (Hlk i (list_elem_of_here _ _) E). reflexivity.
    + cbn. apply IH; [|exact Hf|exact Hh|lia].
      intros j Hj. apply Hlk. by constructor.
Qed.

Lemma add_spin_back s : add_spin (-1) (add_spin 1 s) = s.
Proof. destruct s. unfold add_spin; simpl. f_equal. lia. Qed.

(** A buffer that may be recycled. *)
Definition evictable (s : bst) (i : Z) : bool :=
  (refcnt (getbuf s i) =? 0) && (Z.land (flags (getbuf s i)) B_DIRTY =? 0).

Lemma find_uncached s ord b :
  bio_inv s -> ring (nxt s) (prv s) ord -> slot s b = None ->
  List.find (fun i => (dev (getbuf s i) =? ROOTDEV) && (blockno (getbuf s i) =? b)) ord = None.
Proof.
  intros Hinv (_ & _ & Hb & _) Hs.
  destruct (List.find _ ord) as [i|] eqn:E; [|done].
  apply List.find_some in E as [Hin E]. apply list_elem_of_In in Hin.
  rewrite Forall_forall in Hb. bool_split. exfalso.
  eapply (slot_None s b i Hs); [by apply Hb|done..].
Qed.

(** ** Properties *)

(** [binit] builds a well-formed, empty cache: the circular list holds
    every buffer, no buffer is held or dirty, and each block reads as the disk
    has it. *)
Theorem binit_wellformed d pid :
  (forall k x, d !! k = Some x -> length x = Z.to_nat BSIZE) ->
  bio_inv (binit (bss d pid)) /\ pinned (binit (bss d pid)) = 0%nat
  /\ (forall b, view (binit (bss d pid)) b = disk_at d ROOTDEV b).
Proof. intros Hd. destruct (binit_ok d pid Hd) as (H1 & H2 & _ & _ & H3 & _). exact (conj H1 (conj H2 H3)). Qed.

Lemma binit_wellformed_witness : bio_inv (binit (bss ∅ 1)).
Proof. exact (proj1 (binit_wellformed ∅ 1 (fun k x H => ltac:(rewrite lookup_empty in H; discriminate H)))). Defined.

(** [bread] of a block nobody holds, with a buffer neither held nor dirty
    left, does not panic: it returns a buffer locked by the caller with the
    block's current contents, keeps one buffer per block, and changes neither
    the contents of any block nor the disk. *)
Theorem bread_returns_block s b :
  bio_inv s -> 0 <= b < FSSIZE -> (forall i, ~ hold s i b) -> (pinned s < Z.to_nat NBUF)%nat ->
  exists i s', bread ROOTDEV b s = Ok i s'
    /\ bio_inv s' /\ hold s' i b /\ data (getbuf s' i) = view s b
    /\ (forall c, view s' c = view s c) /\ disk s' = disk s.
Proof.
  intros Hinv Hb Hf Hp.
  destruct (proj1 (wp_iff _ _ _) (bread_spec s b Hinv Hb Hf (or_introl Hp)))
    as (i & s' & Hrun & Hinv' & Hh & (Hd & _) & Hv & _).
  exists i, s'. split_and!; [done..| |done|done]. rewrite <-Hv. by apply hold_view.
Qed.

Lemma bread_returns_block_witness :
  exists i s', bread ROOTDEV 29 (binit (bss {[(1, 29) := replicate 512 7]} 1)) = Ok i s'
    /\ bio_inv s' /\ hold s' i 29
    /\ data (getbuf s' i) = view (binit (bss {[(1, 29) := replicate 512 7]} 1)) 29
    /\ (forall c, view s' c = view (binit (bss {[(1, 29) := replicate 512 7]} 1)) c)
    /\ disk s' = disk (binit (bss {[(1, 29) := replicate 512 7]} 1)).
Proof.
  assert (Hok : forall k x, ({[(1, 29) := replicate 512 7]} : gmap (Z * Z) (list Z)) !! k = Some x ->
            length x = Z.to_nat BSIZE).
  { intros k x H. apply lookup_singleton_Some in H as [_ <-]. reflexivity. }
  destruct (binit_ok _ 1 Hok) as (H1 & H2 & H3 & _).
  apply (bread_returns_block (binit (bss {[(1, 29) := replicate 512 7]} 1)) 29);
    [exact H1|unfold FSSIZE; lia|intros i; apply H3|rewrite H2; vm_compute; lia].
Defined.

(** [bwrite] of a held buffer puts its contents on the disk, as the last
    write of the disk's history, and changes the contents of no block. *)
Theorem bwrite_durable s i b :
  bio_inv s -> hold s i b -> 0 <= b < FSSIZE ->
  exists s', bwrite i s = Ok tt s' /\ bio_inv s'
    /\ disk_at (disk s') ROOTDEV b = view s b
    /\ dwrites s' = dwrites s ++ [((1, b), view s b)]
    /\ (forall c, c <> b -> disk_at (disk s') ROOTDEV c = disk_at (disk s) ROOTDEV c)
    /\ (forall c, view s' c = view s c).
Proof.
  intros Hinv Hh Hb.
  destruct (proj1 (wp_iff _ _ _) (bwrite_spec s i b Hinv Hh Hb))
    as ([] & s' & Hrun & Hinv' & Hd & Hw & _ & Hv & _).
  exists s'. unfold disk_at. rewrite Hd. change (Z.land ROOTDEV 1) with 1.
  split_and!; [done|done|by rewrite lookup_insert_eq|done| |done].
  intros c Hc. by rewrite lookup_insert_ne by congruence.
Qed.

Lemma bwrite_durable_witness : exists s i s',
  hold s i 29 /\ bwrite i s = Ok tt s' /\ disk_at (disk s') ROOTDEV 29 = view s 29.
Proof.
  destruct (binit_ok ∅ 1) as (H1 & H2 & H3 & _).
  { intros k x H. rewrite lookup_empty in H. discriminate H. }
  destruct (proj1 (wp_iff _ _ _) (bread_spec (binit (bss ∅ 1)) 29 H1 ltac:(unfold FSSIZE; lia)
              (fun i => H3 i 29) ltac:(left; rewrite H2; vm_compute; lia))) as (i & s & _ & Hi & Hh & _).
  destruct (bwrite_durable s i 29 Hi Hh ltac:(unfold FSSIZE; lia)) as (s' & Hr & _ & Hd & _).
  exists s, i, s'. split; [exact Hh|]. split; [exact Hr|exact Hd].
Defined.

(** [bget] of a block that is not cached recycles the buffer released
    longest ago among those that are neither referenced nor dirty (the list is
    kept in order of release), leaves every other buffer alone, and panics
    exactly when there is no such buffer. *)
Theorem bget_recycles_lru s b ord :
  bio_inv s -> ring (nxt s) (prv s) ord -> length ord = Z.to_nat NBUF -> slot s b = None ->
  match List.find (evictable s) (reverse ord) with
  | Some i => exists s', bget ROOTDEV b s = Ok i s' /\ slot s' b = Some i
                /\ (forall j, j <> i -> getbuf s' j = getbuf s j)
  | None => bget ROOTDEV b s = Panic "bget: no buffers" s
  end.
Proof.
  intros Hinv Hr Hl Hs. unfold bget. rewrite (ring_walk_next _ _ _ _ Hr).
  rewrite (find_uncached s ord b Hinv Hr Hs). rewrite (ring_walk_prev _ _ _ _ Hr).
  fold (evictable s). destruct (List.find (evictable s) (reverse ord)) as [i|] eqn:E; [|reflexivity].
  apply List.find_some in E as [Hin E]. apply list_elem_of_In in Hin.
  rewrite elem_of_reverse in Hin. destruct Hr as (_ & _ & Hb & _).
  rewrite Forall_forall in Hb. specialize (Hb i Hin). pose proof (inv_len s Hinv) as Hn.
  destruct (inv_bufs s Hinv i Hb) as (_ & _ & _ & Hk).
  unfold evictable in E. bool_split.
  destruct (locked (lock (getbuf s i))) eqn:El; [destruct Hk as [Hk _]; lia|].
  set (o := getbuf s i) in *. set (x := mk_buf 0 ROOTDEV b (lock o) 1 (data o)).
  exists (setbuf i (with_lock (mk_lock true (curpid s)) x) s).
  assert (Hu : forall y, dev y = ROOTDEV -> blockno y = b -> slot (setbuf i y s) b = Some i).
  { intros y Hy1 Hy2. rewrite (slot_assign s i y b b (inv_uniq s Hinv) Hn Hb (or_intror Hs) Hy1 Hy2).
    destruct (decide (b = b)); [reflexivity|contradiction]. }
  split_and!.
  - unfold mbind, M_bind, acquirebuf. rewrite getbuf_setbuf_eq by lia.
    change (curpid (setbuf i x s)) with (curpid s).
    unfold acquiresleep. cbn [lock x]. rewrite El, setbuf_setbuf. reflexivity.
  - by apply Hu.
  - intros j Hj. by apply getbuf_setbuf_ne.
Qed.

Lemma bget_recycles_lru_witness : exists ord,
  ring (nxt (binit (bss ∅ 1))) (prv (binit (bss ∅ 1))) ord
  /\ match List.find (evictable (binit (bss ∅ 1))) (reverse ord) with
     | Some i => exists s', bget ROOTDEV 7 (binit (bss ∅ 1)) = Ok i s' /\ slot s' 7 = Some i
                   /\ (forall j, j <> i -> getbuf s' j = getbuf (binit (bss ∅ 1)) j)
     | None => bget ROOTDEV 7 (binit (bss ∅ 1)) = Panic "bget: no buffers" (binit (bss ∅ 1))
     end.
Proof.
  destruct (binit_ok ∅ 1) as (H1 & _).
  { intros k x H. rewrite lookup_empty in H. discriminate H. }
  destruct (inv_ring _ H1) as (ord & Hr & Hl). exists ord. split; [exact Hr|].
  exact (bget_recycles_lru (binit (bss ∅ 1)) 7 ord H1 Hr Hl ltac:(vm_compute; reflexivity)).
Defined.

(** [bsync] never writes anything: it panics when an unreferenced buffer
    is dirty, because [bwrite] insists on the sleep lock that nobody holds, and
    otherwise changes nothing. *)
Theorem bsync_panics_on_dirty s ord :
  bio_inv s -> ring (nxt s) (prv s) ord ->
  bsync s = if existsb (unsynced s) ord then Panic "bwrite" (add_spin 1 s) else Ok tt s.
Proof.
  intros Hinv Hr. unfold bsync, mbind, M_bind, modS, gets.
  destruct Hr as (Hl & Hnd & Hb & _). rewrite Forall_forall in Hb.
  change (nthZ 0 (nxt (add_spin 1 s)) head) with (nthZ 0 (nxt s) head).
  rewrite (bsync_loop_run (add_spin 1 s) ord).
  - change (unsynced (add_spin 1 s)) with (unsynced s).
    destruct (existsb (unsynced s) ord); [reflexivity|]. by rewrite add_spin_back.
  - intros i Hi Hu. destruct (inv_bufs s Hinv i (Hb i Hi)) as (_ & _ & _ & Hk).
    change (getbuf (add_spin 1 s)) with (getbuf s).
    change (unsynced (add_spin 1 s)) with (unsynced s) in Hu. unfold unsynced in Hu. bool_split.
    destruct (locked _); [destruct Hk; lia|reflexivity].
  - by eapply linked_follows.
  - apply head_nin. by apply Forall_forall.
  - pose proof (NoDup_bounded_length _ _ Hnd ltac:(by apply Forall_forall)). unfold ring_fuel. lia.
Qed.

Lemma bsync_panics_on_dirty_witness : exists ord,
  bsync (binit (bss ∅ 1))
  = if existsb (unsynced (binit (bss ∅ 1))) ord
    then Panic "bwrite" (add_spin 1 (binit (bss ∅ 1))) else Ok tt (binit (bss ∅ 1)).
Proof.
  destruct (binit_ok ∅ 1) as (H1 & _).
  { intros k x H. rewrite lookup_empty in H. discriminate H. }
  destruct (inv_ring _ H1) as (ord & Hr & Hl). exists ord.
  exact (bsync_panics_on_dirty (binit (bss ∅ 1)) ord H1 Hr).
Defined.
