(* ===== verification/Log.v ===== *)
(** * Log: the write-ahead log

    Model of src/kernel/log.c on top of the buffer cache: initialisation and
    recovery, [begin_op]/[end_op], [log_write] with absorption, the commit and
    [log_sync], together with [readsb] of src/kernel/fs.c, which [initlog]
    calls.  The theorems: a commit installs exactly the blocks written by the
    transaction and erases the log; a crash after any prefix of the disk writes
    of a commit is recovered to all of the transaction or to none of it; a crash
    during recovery is recovered the same way; and the ways the log can panic
    or hang.  Waiting for another process is [Block]. *)

From Stdlib Require Import ZArith Lia ZifyBool.
From stdpp Require Import base gmap strings numbers list.
From S2P Require Import Prelude Bio.

Local Open Scope Z_scope.

(** ** The superblock *)

Record superblock : Type := mk_sb {
  sb_size : Z; sb_nblocks : Z; sb_ninodes : Z; sb_nlog : Z; sb_logstart : Z;
  sb_inodestart : Z; sb_bmapstart : Z; sb_mounttime : Z; sb_modtime : Z
}.

Definition decode_sb (d : list Z) : superblock :=
  mk_sb (get32 d 0) (get32 d 4) (get32 d 8) (get32 d 12) (get32 d 16) (get32 d 20)
    (get32 d 24) (s32 (get32 d 28)) (s32 (get32 d 32)).

Definition readsb (dv : Z) : M bst superblock :=
  bp ← bread dv 1;
  d ← bdata bp;
  brelse bp ;;
  mret (decode_sb d).

(** ** State *)

Record lst : Type := mk_lst {
  bio : bst; log_start : Z; log_size : Z; outstanding : Z; committing : bool;
  log_dev : Z; lh_n : Z; lh_block : list Z
}.

Definition set_bio (b : bst) (s : lst) : lst :=
  mk_lst b (log_start s) (log_size s) (outstanding s) (committing s) (log_dev s) (lh_n s) (lh_block s).
Definition set_geo (start size dv : Z) (s : lst) : lst :=
  mk_lst (bio s) start size (outstanding s) (committing s) dv (lh_n s) (lh_block s).
Definition set_ops (o : Z) (c : bool) (s : lst) : lst :=
  mk_lst (bio s) (log_start s) (log_size s) o c (log_dev s) (lh_n s) (lh_block s).
Definition set_lh (n : Z) (bl : list Z) (s : lst) : lst :=
  mk_lst (bio s) (log_start s) (log_size s) (outstanding s) (committing s) (log_dev s) n bl.

(** A call into the buffer cache. *)
Definition bioM {A : Type} (m : M bst A) : M lst A := lift bio set_bio m.

(** ** Recovery and installation *)

Definition install_trans : M lst unit :=
  s ← getS;
  forM (seqZ 0 (lh_n s)) (fun tail =>
    lbuf ← bioM (bread (u32 (log_dev s)) (u32 (log_start s + tail + 1)));
    dbuf ← bioM (bread (u32 (log_dev s)) (u32 (nthZ 0 (lh_block s) tail)));
    d ← bioM (bdata lbuf);
    bioM (set_bdata dbuf d) ;;
    bioM (bwrite dbuf) ;;
    bioM (brelse lbuf) ;;
    bioM (brelse dbuf)).

(** The header block: [int n; int block[LOGSIZE]]. *)
Definition hdr_off (i : Z) : nat := Z.to_nat (4 + 4 * i).
Definition hdr_blocks (d : list Z) (n : Z) (bl : list Z) : list Z :=
  fold_left (fun bl i => updZ i (s32 (get32 d (hdr_off i))) bl) (seqZ 0 n) bl.
Definition hdr_write (n : Z) (bl d : list Z) : list Z :=
  fold_left (fun d i => put32 (hdr_off i) (u32 (nthZ 0 bl i)) d) (seqZ 0 n)
    (put32 0 (u32 n) d).

(** A header with more than [LOGSIZE] entries makes the loop write past the
    end of [log.lh.block], which C leaves undefined. *)
Definition read_head : M lst unit :=
  s ← getS;
  b ← bioM (bread (u32 (log_dev s)) (u32 (log_start s)));
  d ← bioM (bdata b);
  let n := s32 (get32 d 0) in
  (if LOGSIZE <? n then panic "undefined" else mret tt) ;;
  modS (set_lh n (hdr_blocks d n (lh_block s))) ;;
  bioM (brelse b).

Definition write_head : M lst unit :=
  s ← getS;
  b ← bioM (bread (u32 (log_dev s)) (u32 (log_start s)));
  d ← bioM (bdata b);
  bioM (set_bdata b (hdr_write (lh_n s) (lh_block s) d)) ;;
  bioM (bwrite b) ;;
  bioM (brelse b).

Definition recover_from_log : M lst unit :=
  read_head ;;
  install_trans ;;
  modS (fun s => set_lh 0 (lh_block s) s) ;;
  write_head.

Definition initlog (dv : Z) : M lst unit :=
  sb ← bioM (readsb (u32 dv));
  modS (set_geo (s32 (sb_logstart sb)) (s32 (sb_nlog sb)) dv) ;;
  recover_from_log.

(** ** Transactions *)

Definition begin_op : M lst unit := fun s =>
  if committing s then Block "begin_op" s
  else if LOGSIZE <? lh_n s + (outstanding s + 1) * MAXOPBLOCKS then Block "begin_op" s
  else Ok tt (set_ops (outstanding s + 1) (committing s) s).

Definition write_log : M lst unit :=
  s ← getS;
  forM (seqZ 0 (lh_n s)) (fun tail =>
    to ← bioM (bread (u32 (log_dev s)) (u32 (log_start s + tail + 1)));
    from ← bioM (bread (u32 (log_dev s)) (u32 (nthZ 0 (lh_block s) tail)));
    d ← bioM (bdata from);
    bioM (set_bdata to d) ;;
    bioM (bwrite to) ;;
    bioM (brelse from) ;;
    bioM (brelse to)).

Definition commit : M lst unit :=
  n ← gets lh_n;
  if 0 <? n then
    write_log ;;
    write_head ;;
    install_trans ;;
    modS (fun s => set_lh 0 (lh_block s) s) ;;
    write_head
  else mret tt.

Definition end_op : M lst unit :=
  modS (fun s => set_ops (outstanding s - 1) (committing s) s) ;;
  s ← getS;
  if committing s then panic "log.committing"
  else if outstanding s =? 0 then
    modS (set_ops (outstanding s) true) ;;
    commit ;;
    modS (fun s => set_ops (outstanding s) false s)
  else mret tt.

(** The index at which [log_write] leaves its loop. *)
Definition absorb (bl : list Z) (n bno : Z) : Z :=
  match List.find (fun i => u32 (nthZ 0 bl i) =? bno) (seqZ 0 n) with
  | Some i => i
  | None => n
  end.

Definition log_write (b : Z) : M lst unit :=
  o ← gets outstanding;
  (if o <? 1 then begin_op else mret tt) ;;
  s ← getS;
  (if (LOGSIZE <=? lh_n s) || (log_size s - 1 <=? lh_n s)
   then panic "too big a transaction" else mret tt) ;;
  let bno := blockno (getbuf (bio s) b) in
  let i := absorb (lh_block s) (lh_n s) bno in
  modS (set_lh (if i =? lh_n s then lh_n s + 1 else lh_n s) (updZ i (s32 bno) (lh_block s))) ;;
  bioM (modS (fun t => setbuf b (with_flags (Z.lor (flags (getbuf t b)) B_DIRTY) (getbuf t b)) t)) ;;
  (if o <? 1 then end_op else mret tt).

(** [log_sync] commits with [log.lock] held. *)
Definition log_sync : M lst unit :=
  bioM (modS (add_spin 1)) ;;
  s ← getS;
  (if committing s then block "log_sync" else mret tt) ;;
  (if 0 <? lh_n s then commit else mret tt) ;;
  bioM (modS (add_spin (-1))).

(** ** Ownership of the buffer cache *)

(** The number of buffers that cannot be recycled. *)
Definition pins (L : list Z) (H : list (Z * Z)) : nat :=
  (length L + length (filter (fun p => p.2 ∉ L) H))%nat.

(**

    [cache s L H]: the cache is well formed, [L] lists the dirty blocks, [H] the
    buffers the process holds with their blocks, every other block is as on the
    disk, and the buffers that cannot be recycled are exactly those. *)
Record cache (s : bst) (L : list Z) (H : list (Z * Z)) : Prop := {
  ca_inv : bio_inv s;
  ca_L : NoDup L;
  ca_H : NoDup H.*2;
  ca_dirty : forall b, dirty s b = true <-> b ∈ L;
  ca_hold : forall i b, hold s i b <-> (i, b) ∈ H;
  ca_clean : forall b, b ∉ L -> view s b = disk_at (disk s) ROOTDEV b;
  ca_pin : pinned s = pins L H
}.

(** The disk writes of an execution, and their effect. *)
Definition apply_writes (ws : list ((Z * Z) * list Z)) (d : gmap (Z * Z) (list Z))
  : gmap (Z * Z) (list Z) := fold_left (fun d w => <[w.1 := w.2]> d) ws d.
Definition wrote (s s' : bst) (ws : list ((Z * Z) * list Z)) : Prop :=
  dwrites s' = dwrites s ++ ws /\ disk s' = apply_writes ws (disk s) /\ curpid s' = curpid s.

Lemma wrote_nil s s' : same_disk s s' <-> wrote s s' [].
Proof. unfold same_disk, wrote. rewrite app_nil_r. simpl. tauto. Qed.

Lemma wrote_trans s1 s2 s3 w1 w2 : wrote s1 s2 w1 -> wrote s2 s3 w2 -> wrote s1 s3 (w1 ++ w2).
Proof.
  intros (H1 & H2 & H3) (G1 & G2 & G3). split_and!.
  - by rewrite G1, H1, app_assoc.
  - unfold apply_writes in *. by rewrite G2, H2, fold_left_app.
  - congruence.
Qed.

Lemma wrote_same_l s1 s2 s3 w : same_disk s1 s2 -> wrote s2 s3 w -> wrote s1 s3 w.
Proof. intros H1 H2. apply wrote_nil in H1. exact (wrote_trans _ _ _ _ _ H1 H2). Qed.
Lemma wrote_same_r s1 s2 s3 w : wrote s1 s2 w -> same_disk s2 s3 -> wrote s1 s3 w.
Proof.
  intros H1 H2. apply wrote_nil in H2. rewrite <-(app_nil_r w). exact (wrote_trans _ _ _ _ _ H1 H2).
Qed.
Lemma same_disk_trans s1 s2 s3 : same_disk s1 s2 -> same_disk s2 s3 -> same_disk s1 s3.
Proof. rewrite !wrote_nil. intros H1 H2. exact (wrote_trans _ _ _ [] [] H1 H2). Qed.

Lemma cache_perm s L L' H H' : L ≡ₚ L' -> H ≡ₚ H' -> cache s L H -> cache s L' H'.
Proof.
  intros HL HH [C1 C2 C3 C4 C5 C6 C7]. split; [done|by rewrite <-HL|by rewrite <-HH| | | |].
  - intros b. by rewrite <-HL.
  - intros i b. by rewrite <-HH.
  - intros b. rewrite <-HL. apply C6.
  - rewrite C7. unfold pins. rewrite HL. f_equal. rewrite HH. f_equal.
    apply list_filter_iff. intros p. by rewrite HL.
Qed.

Lemma fst_notin_hold s L H b : cache s L H -> b ∉ H.*2 -> forall i, ~ hold s i b.
Proof.
  intros C Hb i Hh. apply (ca_hold _ _ _ C) in Hh. apply Hb, list_elem_of_fmap. by exists (i, b).
Qed.

Lemma cache_bread s L H b :
  cache s L H -> 0 <= b < FSSIZE -> b ∉ H.*2 ->
  (length L + length H < Z.to_nat NBUF)%nat \/ b ∈ L ->
  wp (bread ROOTDEV b) (fun i s' =>
    cache s' L ((i, b) :: H) /\ same_disk s s' /\ (forall c, view s' c = view s c)) s.
Proof.
  intros C Hb Hn Hroom. pose proof C as [C1 C2 C3 C4 C5 C6 C7].
  eapply wp_mono; [apply bread_spec; [done|done|by eapply fst_notin_hold|]|].
  { rewrite C4. destruct Hroom; [left|by right].
    pose proof (length_filter (fun p => p.2 ∉ L) H). unfold pins in C7. lia. }
  intros i s' (I1 & I2 & I3 & I4 & I5 & I6 & I7). split_and!; [|done|done]. split; [done|done| | | | |].
  - simpl. by constructor.
  - intros c. by rewrite I5.
  - intros j c. rewrite I6, C5, elem_of_cons. naive_solver.
  - intros c Hc. rewrite I4. destruct I3 as (-> & _). by apply C6.
  - rewrite I7, C7. unfold pins. destruct (dirty s b) eqn:E.
    + rewrite filter_cons_False; [lia|]. simpl. apply C4 in E. tauto.
    + rewrite filter_cons_True; [simpl; lia|]. simpl. rewrite <-C4, E. done.
Qed.

Lemma cache_brelse s L H i b :
  cache s L ((i, b) :: H) ->
  wp (brelse i) (fun _ s' =>
    cache s' L H /\ same_disk s s' /\ (forall c, view s' c = view s c)) s.
Proof.
  intros [C1 C2 C3 C4 C5 C6 C7]. simpl in C3. apply NoDup_cons in C3 as [C3' C3].
  eapply wp_mono; [apply (brelse_spec s i b C1)|].
  { apply C5. by constructor. }
  { destruct (dirty s b) eqn:E; [by left|right]. apply C6. rewrite <-C4, E. done. }
  intros _ s' (I1 & I2 & I3 & I4 & I5 & I6). split_and!; [|done|done]. split; [done|done|done| | | |].
  - intros c. by rewrite I4.
  - intros j c. rewrite I5, C5, elem_of_cons. split; [naive_solver|]. intros Hin.
    split; [by right|]. intros ->. apply C3', list_elem_of_fmap. by exists (j, b).
  - intros c Hc. rewrite I3. destruct I2 as (-> & _). by apply C6.
  - rewrite C7 in I6. unfold pins in *. destruct (dirty s b) eqn:E.
    + rewrite filter_cons_False in I6; [lia|]. simpl. apply C4 in E. tauto.
    + rewrite filter_cons_True in I6; [simpl in I6; lia|]. simpl. rewrite <-C4, E. done.
Qed.

Lemma cache_bdata s L H i b (Q : list Z -> bst -> Prop) :
  cache s L H -> (i, b) ∈ H -> Q (view s b) s -> wp (bdata i) Q s.
Proof.
  intros C Hin HQ. unfold bdata. apply wp_gets.
  rewrite (hold_view s i b (ca_inv _ _ _ C)); [done|]. by apply C.
Qed.

Lemma filter_ne_id (L : list Z) b : b ∉ L -> filter (fun c => c <> b) L = L.
Proof. intros Hb. apply filter_all. intros x Hx ->. done. Qed.

Lemma length_filter_ne (L : list Z) b :
  NoDup L -> b ∈ L -> length L = S (length (filter (fun c => c <> b) L)).
Proof.
  intros Hnd Hb. apply list_elem_of_split in Hb as (l1 & l2 & ->).
  apply NoDup_app in Hnd as (_ & Hd & [Hn _]%NoDup_cons).
  rewrite filter_app, filter_cons_False by tauto. rewrite length_app, length_app. simpl.
  rewrite !filter_ne_id; [lia|done|]. intros Hx. apply (Hd b Hx). by constructor.
Qed.

(** Buffers held other than [b] are pinned for the same reason whether or not
    [b] is dirty. *)
Lemma filter_held (L L' : list Z) (H : list (Z * Z)) b :
  b ∉ H.*2 -> (forall c, c <> b -> c ∈ L <-> c ∈ L') ->
  filter (fun p => p.2 ∉ L) H = filter (fun p => p.2 ∉ L') H.
Proof.
  intros Hb Heq. induction H as [|[j c] H IH]; [done|].
  simpl in Hb. apply not_elem_of_cons in Hb as [Hbc Hb]. rewrite !filter_cons, IH by done.
  destruct (decide _) as [Hc|Hc], (decide _) as [Hc'|Hc']; simpl in *; try done;
    rewrite Heq in Hc by done; tauto.
Qed.

Lemma pins_clean L H i b :
  NoDup L -> b ∉ H.*2 ->
  pins L ((i, b) :: H) = pins (filter (fun c => c <> b) L) ((i, b) :: H).
Proof.
  intros HL Hb. unfold pins. rewrite !filter_cons. cbn [snd].
  rewrite (filter_held L (filter (fun c => c <> b) L) H b Hb)
    by (intros c Hc; rewrite list_elem_of_filter; tauto).
  rewrite (decide_True (P := b ∉ filter _ L)) by (rewrite list_elem_of_filter; tauto).
  destruct (decide (b ∉ L)) as [Hin|Hin]; cbn [length].
  - by rewrite (filter_ne_id L b Hin).
  - apply dec_stable in Hin. rewrite (length_filter_ne L b HL Hin). lia.
Qed.

(** [memmove(b->data, ...); bwrite(b)]. *)
Lemma cache_put s L H i b d :
  cache s L ((i, b) :: H) -> 0 <= b < FSSIZE -> length d = Z.to_nat BSIZE ->
  wp (set_bdata i d ;; bwrite i) (fun _ s' =>
    cache s' (filter (fun c => c <> b) L) ((i, b) :: H) /\ wrote s s' [((1, b), d)]
    /\ (forall c, view s' c = if decide (c = b) then d else view s c)) s.
Proof.
  intros [C1 C2 C3 C4 C5 C6 C7] Hb Hd. pose proof C3 as C3'. simpl in C3'.
  apply NoDup_cons in C3' as [Hnb _].
  assert (Hh : hold s i b) by (apply C5; by constructor).
  apply wp_bind. eapply wp_mono; [by apply (set_bdata_spec s i b)|].
  intros [] s1 (A1 & A2 & A3 & A4 & A5 & A6).
  eapply wp_mono; [apply (bwrite_spec s1 i b A1); [by apply A3|done]|].
  intros [] s2 (B1 & B2 & B3 & B4 & B5 & B6 & B7 & B8).
  assert (Hv1 : view s1 b = d) by (rewrite A5; by rewrite decide_True).
  rewrite Hv1 in B2, B3. destruct A2 as (A2 & A2' & A2'').
  assert (Hv : forall c, view s2 c = if decide (c = b) then d else view s c)
    by (intros c; by rewrite B5, A5).
  split_and!; [|split_and!|exact Hv].
  - split; [done|by apply NoDup_filter|done| | | |].
    + intros c. rewrite B6, A6, list_elem_of_filter, <-C4.
      destruct (decide (c = b)); [naive_solver|]. tauto.
    + intros j c. by rewrite B7, A3.
    + intros c Hc. rewrite Hv. unfold disk_at. rewrite B2, A2. change (Z.land ROOTDEV 1) with 1.
      destruct (decide (c = b)) as [->|Hcb]; [by rewrite lookup_insert_eq|].
      rewrite lookup_insert_ne by congruence. apply C6. intros Hin. apply Hc.
      apply list_elem_of_filter. done.
    + rewrite B8, A4, C7. apply pins_clean; done.
  - by rewrite B3, A2'.
  - by rewrite B2, A2.
  - by rewrite B4.
Qed.

(** [memmove(b->data, ...)] and the [B_DIRTY] mark of [log_write]. *)
Definition logged_with (L : list Z) (b : Z) : list Z := if decide (b ∈ L) then L else L ++ [b].

Lemma pins_mark L H i b :
  b ∉ H.*2 -> pins L ((i, b) :: H) = pins (logged_with L b) ((i, b) :: H).
Proof.
  intros Hb. unfold pins, logged_with. destruct (decide (b ∈ L)) as [Hin|Hin]; [done|].
  rewrite !filter_cons. cbn [snd]. rewrite decide_True by done.
  rewrite decide_False by set_solver. rewrite length_app. simpl.
  rewrite (filter_held L (L ++ [b]) H b Hb) by set_solver. lia.
Qed.

Lemma elem_of_logged_with L b c : c ∈ logged_with L b <-> c ∈ L \/ c = b.
Proof. unfold logged_with. destruct (decide (b ∈ L)); set_solver. Qed.

Lemma NoDup_logged_with L b : NoDup L -> NoDup (logged_with L b).
Proof.
  intros. unfold logged_with. case_decide; [done|]. apply NoDup_app. split_and!; [done| |].
  - set_solver.
  - apply NoDup_singleton.
Qed.

Lemma cache_mark s L H i b d :
  cache s L ((i, b) :: H) -> length d = Z.to_nat BSIZE ->
  wp (set_bdata i d ;;
      modS (fun t => setbuf i (with_flags (Z.lor (flags (getbuf t i)) B_DIRTY) (getbuf t i)) t))
    (fun _ s' => cache s' (logged_with L b) ((i, b) :: H) /\ same_disk s s'
      /\ (forall c, view s' c = if decide (c = b) then d else view s c)) s.
Proof.
  intros [C1 C2 C3 C4 C5 C6 C7] Hd. pose proof C3 as C3'. simpl in C3'.
  apply NoDup_cons in C3' as [Hnb _].
  assert (Hh : hold s i b) by (apply C5; by constructor).
  apply wp_bind. eapply wp_mono; [by apply (set_bdata_spec s i b)|].
  intros [] s1 (A1 & A2 & A3 & A4 & A5 & A6). apply wp_modS.
  destruct (mark_dirty_spec s1 i b A1 (proj2 (A3 i b) Hh)) as (B1 & B2 & B3 & B4 & B5 & B6).
  set (s2 := setbuf i _ s1) in *.
  assert (Hv : forall c, view s2 c = if decide (c = b) then d else view s c)
    by (intros c; rewrite B5; apply A5).
  pose proof (same_disk_trans _ _ _ A2 B2) as Hsd.
  split; [|split; [exact Hsd|exact Hv]]. split.
  - exact B1.
  - by apply NoDup_logged_with.
  - exact C3.
  - intros c. rewrite B6, A6, elem_of_logged_with, <-C4. destruct (decide (c = b)); tauto.
  - intros j c. rewrite B3, A3. apply C5.
  - intros c Hc. rewrite elem_of_logged_with in Hc. rewrite Hv, decide_False by tauto.
    destruct Hsd as (-> & _). apply C6. tauto.
  - rewrite B4, A4, C7. by apply pins_mark.
Qed.

(** ** The log *)

(** The geometry [mkfs] gives the log: after the superblock, of at most
    [LOGSIZE] blocks, the first of them the header. *)
Record geo (s : lst) : Prop := {
  geo_dev : log_dev s = ROOTDEV;
  geo_start : 2 <= log_start s;
  geo_size : 2 <= log_size s <= LOGSIZE;
  geo_end : log_start s + log_size s <= FSSIZE
}.
Definition in_log (s : lst) (b : Z) : Prop := log_start s <= b < log_start s + log_size s.
(** A block a transaction may write, in a file system with its log at [start]. *)
Definition data_block (start size b : Z) : Prop := 2 <= b < FSSIZE /\ ~ (start <= b < start + size).
Definition loggable (s : lst) (b : Z) : Prop := data_block (log_start s) (log_size s) b.
Definition logged (s : lst) : list Z := take (Z.to_nat (lh_n s)) (lh_block s).

Definition hdr_n (s : lst) : Z :=
  s32 (get32 (disk_at (disk (bio s)) ROOTDEV (log_start s)) 0).

(** Between two calls into the log, with the buffers [H] held: the list of
    logged blocks is well formed, exactly they are dirty, and the log on disk
    is empty. *)
Record log_ok (s : lst) (H : list (Z * Z)) : Prop := {
  lo_geo : geo s;
  lo_len : length (lh_block s) = Z.to_nat LOGSIZE;
  lo_n : 0 <= lh_n s <= log_size s - 1;
  lo_cache : cache (bio s) (logged s) H;
  lo_blk : Forall (loggable s) (logged s);
  lo_held : Forall (loggable s) H.*2;
  lo_head : hdr_n s = 0;
  lo_comm : committing s = false
}.

Lemma geo_frame s s' :
  log_dev s' = log_dev s -> log_start s' = log_start s -> log_size s' = log_size s ->
  geo s -> geo s'.
Proof. intros E1 E2 E3 []. split; congruence || lia. Qed.

Lemma geo_range s t :
  geo s -> 0 <= t < log_size s ->
  u32 (log_dev s) = ROOTDEV /\ u32 (log_start s + t) = log_start s + t
  /\ 0 <= log_start s + t < FSSIZE /\ in_log s (log_start s + t).
Proof.
  intros [-> H1 H2 H3] Ht. unfold in_log, FSSIZE in *. split_and!; try lia; [done|].
  apply u32_small. lia.
Qed.

Lemma lookup_logged s t :
  0 <= lh_n s <= Z.of_nat (length (lh_block s)) -> 0 <= t < lh_n s ->
  logged s !! Z.to_nat t = Some (nthZ 0 (lh_block s) t).
Proof.
  intros Hn Ht. unfold logged, nthZ. rewrite (proj2 (Z.ltb_ge t 0)) by lia.
  rewrite lookup_take_lt by lia.
  destruct (lookup_lt_is_Some_2 (lh_block s) (Z.to_nat t)) as [x Hx]; [lia|].
  rewrite Hx. f_equal. symmetry. by apply nth_lookup_Some.
Qed.

Lemma length_hdr_write n bl d :
  length d = Z.to_nat BSIZE -> n <= LOGSIZE -> length (hdr_write n bl d) = length d.
Proof.
  intros Hd Hn. unfold hdr_write.
  assert (H0 : length (put32 0 (u32 n) d) = length d)
    by (apply length_put32; unfold BSIZE in *; lia).
  rewrite <-H0. rewrite <-H0 in Hd. revert Hd. generalize (put32 0 (u32 n) d).
  assert (Hin : Forall (fun i => 0 <= i < LOGSIZE) (seqZ 0 n)).
  { apply Forall_forall. intros i. rewrite elem_of_seqZ. lia. }
  induction Hin as [|i l Hi _ IH]; intros x Hx; simpl; [done|].
  assert (H1 : length (put32 (hdr_off i) (u32 (nthZ 0 bl i)) x) = length x).
  { apply length_put32. unfold hdr_off, LOGSIZE, MAXOPBLOCKS, BSIZE in *. lia. }
  rewrite IH; congruence.
Qed.

Lemma wp_bio2 {A} (m1 m2 : M bst unit) (k : M lst A) Q s :
  wp (m1 ;; m2) (fun _ t => wp k Q (set_bio t s)) (bio s) ->
  wp (bioM m1 ;; bioM m2 ;; k) Q s.
Proof.
  unfold wp, mbind, M_bind, bioM, lift. destruct (m1 (bio s)) as [[] t| | |]; [|done..].
  cbn [bio set_bio]. by destruct (m2 t) as [[] t'| | |].
Qed.

(** One iteration of [write_log]: block [c], dirty, is copied to log block [a]. *)
Lemma write_log_body s L a c :
  cache (bio s) L [] -> (length L < Z.to_nat NBUF)%nat ->
  0 <= a < FSSIZE -> a ∉ L -> 0 <= c < FSSIZE -> c ∈ L ->
  wp (to ← bioM (bread ROOTDEV a);
      from ← bioM (bread ROOTDEV c);
      d ← bioM (bdata from);
      bioM (set_bdata to d) ;; bioM (bwrite to) ;; bioM (brelse from) ;; bioM (brelse to))
    (fun _ s' => s' = set_bio (bio s') s /\ cache (bio s') L []
       /\ wrote (bio s) (bio s') [((1, a), view (bio s) c)]
       /\ (forall x, x <> a -> view (bio s') x = view (bio s) x)) s.
Proof.
  intros C HL Ha HaL Hc HcL. assert (Hac : a <> c) by congruence.
  apply wp_bind, wp_lift. eapply wp_mono.
  { apply (cache_bread _ _ _ a C Ha); [set_solver|left; simpl; lia]. }
  intros to s1 (C1 & D1 & V1). apply wp_bind, wp_lift. cbn [bio set_bio]. eapply wp_mono.
  { apply (cache_bread _ _ _ c C1 Hc); [set_solver|by right]. }
  intros from s2 (C2 & D2 & V2). apply wp_bind, wp_lift. cbn [bio set_bio].
  apply (cache_bdata _ _ _ _ c _ C2); [by constructor|].
  rewrite V2, V1.
  assert (C2' : cache s2 L [(to, a); (from, c)])
    by (eapply cache_perm; [done|apply perm_swap|exact C2]).
  apply wp_bio2. cbn [bio set_bio]. eapply wp_mono.
  { apply (cache_put s2 L _ to a _ C2' Ha), length_view, C. }
  intros [] s3 (C3 & W3 & V3). rewrite filter_ne_id in C3 by done.
  apply wp_bind, wp_lift. cbn [bio set_bio]. eapply wp_mono.
  { eapply cache_brelse, cache_perm; [done|apply perm_swap|exact C3]. }
  intros [] s4 (C4 & D4 & V4). apply wp_lift. cbn [bio set_bio]. eapply wp_mono.
  { eapply cache_brelse. exact C4. }
  intros [] s5 (C5 & D5 & V5). cbn [bio set_bio]. split_and!; [done|done| |].
  - eapply wrote_same_l; [exact (same_disk_trans _ _ _ D1 D2)|].
    eapply wrote_same_r; [exact W3|]. exact (same_disk_trans _ _ _ D4 D5).
  - intros x Hx. rewrite V5, V4, V3, decide_False, V2, V1 by done. done.
Qed.

(** One iteration of [install_trans]: log block [a] is copied home to [c]. *)
Lemma install_body s D a c :
  cache (bio s) D [] -> (length D < Z.to_nat NBUF)%nat ->
  (S (length D) < Z.to_nat NBUF)%nat \/ c ∈ D ->
  0 <= a < FSSIZE -> a ∉ D -> 0 <= c < FSSIZE -> a <> c ->
  wp (lbuf ← bioM (bread ROOTDEV a);
      dbuf ← bioM (bread ROOTDEV c);
      d ← bioM (bdata lbuf);
      bioM (set_bdata dbuf d) ;; bioM (bwrite dbuf) ;; bioM (brelse lbuf) ;; bioM (brelse dbuf))
    (fun _ s' => s' = set_bio (bio s') s /\ cache (bio s') (filter (fun x => x <> c) D) []
       /\ wrote (bio s) (bio s') [((1, c), view (bio s) a)]
       /\ (forall x, x <> c -> view (bio s') x = view (bio s) x)) s.
Proof.
  intros C HD Hroom Ha HaD Hc Hac.
  apply wp_bind, wp_lift. eapply wp_mono.
  { apply (cache_bread _ _ _ a C Ha); [set_solver|left; simpl; lia]. }
  intros lb s1 (C1 & D1 & V1). apply wp_bind, wp_lift. cbn [bio set_bio]. eapply wp_mono.
  { apply (cache_bread _ _ _ c C1 Hc); [set_solver|]. cbn [length].
    destruct Hroom; [left; lia|by right]. }
  intros db s2 (C2 & D2 & V2). apply wp_bind, wp_lift. cbn [bio set_bio].
  apply (cache_bdata _ _ _ lb a _ C2); [set_solver|]. rewrite V2, V1.
  apply wp_bio2. cbn [bio set_bio]. eapply wp_mono.
  { apply (cache_put s2 D _ db c _ C2 Hc), length_view, C. }
  intros [] s3 (C3 & W3 & V3).
  apply wp_bind, wp_lift. cbn [bio set_bio]. eapply wp_mono.
  { eapply cache_brelse, cache_perm; [done|apply perm_swap|exact C3]. }
  intros [] s4 (C4 & D4 & V4). apply wp_lift. cbn [bio set_bio]. eapply wp_mono.
  { eapply cache_brelse. exact C4. }
  intros [] s5 (C5 & D5 & V5). cbn [bio set_bio]. split_and!; [done|done| |].
  - eapply wrote_same_l; [exact (same_disk_trans _ _ _ D1 D2)|].
    eapply wrote_same_r; [exact W3|]. exact (same_disk_trans _ _ _ D4 D5).
  - intros x Hx. rewrite V5, V4, V3, decide_False, V2, V1 by done. done.
Qed.

Lemma write_head_spec s D :
  geo s -> cache (bio s) D [] -> (length D < Z.to_nat NBUF)%nat -> log_start s ∉ D ->
  0 <= lh_n s <= LOGSIZE ->
  wp write_head (fun _ s' => s' = set_bio (bio s') s /\ cache (bio s') D []
    /\ wrote (bio s) (bio s')
         [((1, log_start s), hdr_write (lh_n s) (lh_block s) (view (bio s) (log_start s)))]
    /\ (forall x, x <> log_start s -> view (bio s') x = view (bio s) x)) s.
Proof.
  intros G C HD Hs Hn. destruct (geo_range s 0 G) as (E1 & E2 & E3 & _).
  { destruct G; lia. }
  rewrite Z.add_0_r in *.
  unfold write_head. apply wp_bind. unfold getS, wp at 1. rewrite E1, E2.
  apply wp_bind, wp_lift. eapply wp_mono.
  { apply (cache_bread _ _ _ _ C E3); [set_solver|left; simpl; lia]. }
  intros b s1 (C1 & D1 & V1). apply wp_bind, wp_lift. cbn [bio set_bio].
  apply (cache_bdata _ _ _ b (log_start s) _ C1); [set_solver|]. rewrite V1.
  apply wp_bio2. cbn [bio set_bio]. eapply wp_mono.
  { apply (cache_put s1 D _ b _ _ C1 E3).
    rewrite length_hdr_write; [apply length_view, C| |apply Hn].
    rewrite length_view by apply C. done. }
  intros [] s2 (C2 & W2 & V2). rewrite filter_ne_id in C2 by done.
  apply wp_lift. cbn [bio set_bio]. eapply wp_mono.
  { eapply cache_brelse. exact C2. }
  intros [] s3 (C3 & D3 & V3). cbn [bio set_bio]. split_and!; [done|done| |].
  - eapply wrote_same_l; [exact D1|]. by eapply wrote_same_r.
  - intros x Hx. rewrite V3, V2, decide_False, V1 by done. done.
Qed.

Definition blk (s : lst) (t : Z) : Z := nthZ 0 (lh_block s) t.

Lemma map_blk s :
  0 <= lh_n s <= Z.of_nat (length (lh_block s)) -> map (blk s) (seqZ 0 (lh_n s)) = logged s.
Proof.
  intros Hn. apply list_eq. intros t. rewrite list_lookup_fmap.
  destruct (decide (t < Z.to_nat (lh_n s))%nat) as [Ht|Ht].
  - rewrite lookup_seqZ_lt by lia. cbn [fmap option_map option_fmap].
    rewrite <-(Nat2Z.id t) at 2. rewrite lookup_logged by lia. simpl. done.
  - rewrite lookup_seqZ_ge by lia. unfold logged. by rewrite lookup_take_ge by lia.
Qed.

Record log_pre (s : lst) : Prop := {
  lp_geo : geo s;
  lp_len : length (lh_block s) = Z.to_nat LOGSIZE;
  lp_n : 0 <= lh_n s <= log_size s - 1;
  lp_blk : Forall (loggable s) (logged s)
}.

Lemma lp_room s : log_pre s -> 0 <= lh_n s <= Z.of_nat (length (lh_block s)).
Proof. intros [[] H1 H2 _]. lia. Qed.

Lemma length_logged s : log_pre s -> (length (logged s) < Z.to_nat NBUF)%nat.
Proof.
  intros [[] H1 H2 _]. unfold logged. rewrite length_take.
  unfold LOGSIZE, NBUF, MAXOPBLOCKS in *. lia.
Qed.

Lemma lp_block s t :
  log_pre s -> 0 <= t < lh_n s ->
  blk s t ∈ logged s /\ 0 <= blk s t < FSSIZE /\ u32 (blk s t) = blk s t /\ ~ in_log s (blk s t).
Proof.
  intros P Ht. pose proof (lp_room s P). pose proof (lookup_logged s t ltac:(lia) Ht) as Hl.
  assert (Hin : blk s t ∈ logged s) by (by eapply list_elem_of_lookup_2).
  pose proof (lp_blk s P) as Hf. rewrite Forall_forall in Hf. destruct (Hf _ Hin) as [H1 H2].
  split_and!; [done|lia|lia| |done]. apply u32_small. unfold FSSIZE in *. lia.
Qed.

Lemma seqZ_split n done x rest :
  seqZ 0 n = done ++ x :: rest ->
  0 <= x < n /\ (x ∉ done) /\ (forall u, u ∈ done -> 0 <= u < n).
Proof.
  intros H. assert (Hin : forall u, u ∈ done ++ x :: rest -> 0 <= u < n).
  { intros u. rewrite <-H, elem_of_seqZ. lia. }
  split_and!; [apply Hin; set_solver..| |intros u Hu; apply Hin; set_solver]. pose proof (NoDup_seqZ 0 n) as Hnd.
  rewrite H in Hnd. apply NoDup_app in Hnd as (_ & Hd & _). intros Hx. apply (Hd x Hx). by constructor.
Qed.

Definition log_writes (s : lst) : list ((Z * Z) * list Z) :=
  map (fun t => ((1, log_start s + t + 1), view (bio s) (blk s t))) (seqZ 0 (lh_n s)).

Lemma write_log_spec s :
  log_pre s -> cache (bio s) (logged s) [] ->
  wp write_log (fun _ s' => s' = set_bio (bio s') s /\ cache (bio s') (logged s) []
    /\ wrote (bio s) (bio s') (log_writes s)
    /\ (forall x, ~ in_log s x -> view (bio s') x = view (bio s) x)) s.
Proof.
  intros P C. unfold write_log. apply wp_bind. unfold getS, wp at 1.
  apply (wp_forM _ _ (fun done s' => s' = set_bio (bio s') s /\ cache (bio s') (logged s) []
    /\ wrote (bio s) (bio s')
         (map (fun t => ((1, log_start s + t + 1), view (bio s) (blk s t))) done)
    /\ (forall x, ~ in_log s x -> view (bio s') x = view (bio s) x))).
  - split_and!; [by destruct s|done|by apply wrote_nil|done].
  - intros done t rest s' Hl (Hs & C' & W & V). apply seqZ_split in Hl as [Ht _].
    destruct (lp_block s t P Ht) as (B1 & B2 & B3 & B4).
    pose proof (lp_n s P) as Hn.
    destruct (geo_range s (t + 1) (lp_geo s P) ltac:(lia)) as (G1 & G2 & G3 & G4).
    rewrite Z.add_assoc in G2, G3, G4. fold (blk s t). rewrite G1, G2, B3.
    eapply wp_mono.
    + apply (write_log_body s' (logged s)); [done|by apply length_logged|done| |done|done].
      intros Hin. pose proof (lp_blk s P) as Hf. rewrite Forall_forall in Hf.
      by apply (Hf _ Hin).
    + intros _ s2 (E2 & C2 & W2 & V2). rewrite Hs in E2. cbn [bio set_bio] in E2.
      split_and!; [exact E2|done| |].
      * rewrite map_app. eapply wrote_trans; [exact W|]. simpl. by rewrite V in W2.
      * intros x Hx. rewrite V2; [by apply V|]. intros ->. done.
  - intros s' (H1 & H2 & H3 & H4). split_and!; done.
Qed.

Definition install_writes (s : lst) : list ((Z * Z) * list Z) :=
  map (fun t => ((1, blk s t), view (bio s) (log_start s + t + 1))) (seqZ 0 (lh_n s)).

Lemma filter_notin_snoc (D M : list Z) c :
  filter (fun x => x <> c) (filter (fun x => x ∉ M) D) = filter (fun x => x ∉ M ++ [c]) D.
Proof.
  rewrite list_filter_filter. apply list_filter_iff. intros x. set_solver.
Qed.

Lemma blk_inj s t u :
  log_pre s -> NoDup (logged s) -> 0 <= t < lh_n s -> 0 <= u < lh_n s -> blk s t = blk s u -> t = u.
Proof.
  intros P Hnd Ht Hu E. pose proof (lp_room s P).
  pose proof (lookup_logged s t ltac:(lia) Ht) as H1.
  pose proof (lookup_logged s u ltac:(lia) Hu) as H2.
  fold (blk s t) in H1. fold (blk s u) in H2. rewrite E in H1.
  pose proof (NoDup_lookup _ _ _ _ Hnd H1 H2). lia.
Qed.

(** [D] is empty in recovery and the whole transaction in a commit. *)
Lemma install_trans_spec s D :
  log_pre s -> cache (bio s) D [] -> D = [] \/ D = logged s ->
  wp install_trans (fun _ s' => s' = set_bio (bio s') s /\ cache (bio s') [] []
    /\ wrote (bio s) (bio s') (install_writes s)
    /\ (forall x, x ∉ logged s -> view (bio s') x = view (bio s) x)) s.
Proof.
  intros P C HD. unfold install_trans. apply wp_bind. unfold getS, wp at 1.
  apply (wp_forM _ _ (fun done s' => s' = set_bio (bio s') s
    /\ cache (bio s') (filter (fun x => x ∉ map (blk s) done) D) []
    /\ wrote (bio s) (bio s')
         (map (fun t => ((1, blk s t), view (bio s) (log_start s + t + 1))) done)
    /\ (forall x, x ∉ map (blk s) done -> view (bio s') x = view (bio s) x))).
  - split_and!; [by destruct s| |by apply wrote_nil|done].
    rewrite filter_all; [done|]. set_solver.
  - intros done t rest s' Hl (Hs & C' & W & V). apply seqZ_split in Hl as (Ht & Htd & Hdone).
    destruct (lp_block s t P Ht) as (B1 & B2 & B3 & B4). pose proof (lp_n s P) as Hn.
    destruct (geo_range s (t + 1) (lp_geo s P) ltac:(lia)) as (G1 & G2 & G3 & G4).
    rewrite Z.add_assoc in G2, G3, G4. fold (blk s t). rewrite G1, G2, B3.
    assert (Hlb : forall u, u ∈ done -> blk s u <> log_start s + t + 1).
    { intros u Hu Heq. destruct (lp_block s u P (Hdone u Hu)) as (_ & _ & _ & Hnl).
      rewrite Heq in Hnl. done. }
    pose proof (length_logged s P) as Hll.
    eapply wp_mono.
    + apply (install_body s' _ (log_start s + t + 1) (blk s t) C'); [| |done| |done|congruence].
      * eapply Nat.le_lt_trans; [apply length_filter|]. destruct HD as [-> | ->]; [|done]. simpl; lia.
      * destruct HD as [-> | ->]; [left; simpl; unfold NBUF, MAXOPBLOCKS; lia|right].
        apply list_elem_of_filter. split; [|done]. intros (u & Hu & Hin)%list_elem_of_fmap.
        apply (blk_inj s) in Hu; [subst; done|done|apply C|done|by apply Hdone].
      * intros [_ Hin]%list_elem_of_filter. destruct HD as [-> | ->]; [set_solver|].
        pose proof (lp_blk s P) as Hf. rewrite Forall_forall in Hf. by apply (Hf _ Hin).
    + intros _ s2 (E2 & C2 & W2 & V2). rewrite Hs in E2. cbn [bio set_bio] in E2.
      rewrite V in W2 by (intros (u & Hu & Hin)%list_elem_of_fmap; by apply (Hlb u Hin)).
      split_and!; [exact E2| | |].
      * rewrite map_app. simpl. by rewrite <-filter_notin_snoc.
      * rewrite map_app. eapply wrote_trans; [exact W|]. exact W2.
      * intros x Hx. rewrite map_app in Hx. simpl in Hx. rewrite V2, V; set_solver.
  - intros s' (H1 & H2 & H3 & H4). rewrite map_blk in * by (by apply lp_room).
    split_and!; [done| |done|done].
    replace (filter _ D) with (@nil Z) in H2; [done|]. destruct HD as [-> | ->]; [done|].
    symmetry. apply filter_none. by intros x Hx Hn.
Qed.

(** ** Disk writes *)

Lemma apply_writes_app w1 w2 d : apply_writes (w1 ++ w2) d = apply_writes w2 (apply_writes w1 d).
Proof. apply fold_left_app. Qed.

(** The value the writes leave at [k], when they write it. *)
Definition last_write (ws : list ((Z * Z) * list Z)) (k : Z * Z) : option (list Z) :=
  fold_left (fun acc w => if decide (w.1 = k) then Some w.2 else acc) ws None.

Lemma last_write_acc ws k acc :
  fold_left (fun acc w => if decide (w.1 = k) then Some w.2 else acc) ws acc
  = match last_write ws k with Some v => Some v | None => acc end.
Proof.
  unfold last_write. revert acc. induction ws as [|w ws IH]; intros acc; [done|].
  cbn [fold_left]. rewrite IH, (IH (if decide _ then _ else _)).
  case_decide; by destruct (fold_left _ ws None).
Qed.

Lemma last_write_cons k' v ws k :
  last_write ((k', v) :: ws) k
  = match last_write ws k with
    | Some v' => Some v' | None => if decide (k' = k) then Some v else None
    end.
Proof. unfold last_write at 1. cbn [fold_left fst snd]. apply last_write_acc. Qed.

Lemma lookup_apply_writes ws d k :
  apply_writes ws d !! k = match last_write ws k with Some v => Some v | None => d !! k end.
Proof.
  revert d. induction ws as [|[k' v] ws IH]; intros d; [done|].
  change (apply_writes ((k', v) :: ws) d) with (apply_writes ws (<[k' := v]> d)).
  rewrite IH, last_write_cons. destruct (last_write ws k); [done|].
  rewrite lookup_insert. by case_decide.
Qed.

Lemma last_write_None ws k : last_write ws k = None <-> k ∉ ws.*1.
Proof.
  induction ws as [|[k' v] ws IH]; [set_solver|].
  rewrite last_write_cons, fmap_cons, not_elem_of_cons, <-IH. cbn [fst].
  destruct (last_write ws k); [naive_solver|]. case_decide; naive_solver.
Qed.

Lemma last_write_app w1 w2 k :
  last_write (w1 ++ w2) k = match last_write w2 k with Some v => Some v | None => last_write w1 k end.
Proof. unfold last_write at 1. rewrite fold_left_app. apply last_write_acc. Qed.

Lemma apply_writes_again ws k d : apply_writes ws (apply_writes (take k ws) d) = apply_writes ws d.
Proof.
  apply map_eq. intros x. rewrite !lookup_apply_writes.
  destruct (last_write ws x) eqn:E; [done|].
  assert (last_write (take k ws) x = None) as ->; [|done].
  apply last_write_None. apply last_write_None in E. intros Hin. apply E.
  rewrite fmap_take in Hin. apply elem_of_take in Hin as (i & Hi & _). by eapply list_elem_of_lookup_2.
Qed.

Lemma last_write_fun (f : Z -> Z * Z) (g : Z -> list Z) l t :
  t ∈ l -> (forall u, u ∈ l -> f u = f t -> g u = g t) ->
  last_write (map (fun u => (f u, g u)) l) (f t) = Some (g t).
Proof.
  intros Hin Hg. destruct (last_write _ _) as [v|] eqn:E.
  - revert E. clear Hin. induction l as [|u l IH]; [done|].
    cbn [map]. rewrite last_write_cons. intros H. destruct (last_write (map _ l) (f t)) eqn:E'.
    + injection H as ->. apply IH; [|done]. intros; apply Hg; set_solver.
    + case_decide as Hu; [|done]. injection H as <-. f_equal. apply Hg; [set_solver|done].
  - apply last_write_None in E. exfalso. apply E. rewrite <-list_fmap_compose.
    apply list_elem_of_fmap. by exists t.
Qed.

Lemma disk_at_writes_ne ws d b :
  (1, b) ∉ ws.*1 -> disk_at (apply_writes ws d) ROOTDEV b = disk_at d ROOTDEV b.
Proof.
  intros Hn. unfold disk_at. change (Z.land ROOTDEV 1) with 1. rewrite lookup_apply_writes.
  by rewrite (proj2 (last_write_None _ _) Hn).
Qed.

(** ** Headers *)

Lemma hdr_fold_get bl l d t :
  length d = Z.to_nat BSIZE -> Forall (fun i => 0 <= i < LOGSIZE) l -> 0 <= t < LOGSIZE ->
  get32 (fold_left (fun d i => put32 (hdr_off i) (u32 (nthZ 0 bl i)) d) l d) (hdr_off t)
  = if decide (t ∈ l) then u32 (nthZ 0 bl t) else get32 d (hdr_off t).
Proof.
  intros Hd Hl Ht. revert d Hd. induction Hl as [|i l Hi Hl IH]; intros d Hd; [done|]. cbn [fold_left].
  assert (Hi' : (hdr_off i + 4 <= length d)%nat)
    by (unfold hdr_off, LOGSIZE, MAXOPBLOCKS, BSIZE in *; lia).
  rewrite IH by (rewrite length_put32; done).
  destruct (decide (t ∈ l)) as [H1|H1].
  { rewrite decide_True by (by constructor). done. }
  destruct (decide (t = i)) as [->|Hne].
  - rewrite decide_True by (by constructor). apply get32_put32_eq; [done|].
    pose proof (u32_range (nthZ 0 bl i)). lia.
  - rewrite decide_False by set_solver. apply get32_put32_ne; [done|].
    unfold hdr_off. lia.
Qed.

Lemma hdr_fold_zero bl l d :
  length d = Z.to_nat BSIZE -> Forall (fun i => 0 <= i < LOGSIZE) l ->
  get32 (fold_left (fun d i => put32 (hdr_off i) (u32 (nthZ 0 bl i)) d) l d) 0 = get32 d 0.
Proof.
  intros Hd Hl. revert d Hd. induction Hl as [|i l Hi Hl IH]; intros d Hd; [done|]. cbn [fold_left].
  assert (Hi' : (hdr_off i + 4 <= length d)%nat)
    by (unfold hdr_off, LOGSIZE, MAXOPBLOCKS, BSIZE in *; lia).
  rewrite IH by (rewrite length_put32; done). apply get32_put32_ne; [done|]. unfold hdr_off. lia.
Qed.

Lemma seqZ_logsize n : n <= LOGSIZE -> Forall (fun i => 0 <= i < LOGSIZE) (seqZ 0 n).
Proof. intros Hn. apply Forall_forall. intros i. rewrite elem_of_seqZ. lia. Qed.

Lemma hdr_write_n n bl d :
  length d = Z.to_nat BSIZE -> 0 <= n <= LOGSIZE -> s32 (get32 (hdr_write n bl d) 0) = n.
Proof.
  intros Hd Hn. unfold LOGSIZE, MAXOPBLOCKS in Hn. unfold hdr_write.
  rewrite hdr_fold_zero; [|rewrite length_put32; [done|unfold BSIZE in *; lia]|].
  - rewrite get32_put32_eq, u32_small, s32_small; [done|lia..| |].
    + unfold BSIZE in *; lia.
    + apply u32_range.
  - apply seqZ_logsize. unfold LOGSIZE, MAXOPBLOCKS. lia.
Qed.

Lemma hdr_write_block n bl d t :
  length d = Z.to_nat BSIZE -> 0 <= t < n -> n <= LOGSIZE -> 0 <= nthZ 0 bl t < FSSIZE ->
  s32 (get32 (hdr_write n bl d) (hdr_off t)) = nthZ 0 bl t.
Proof.
  intros Hd Ht Hn Hb. unfold hdr_write. rewrite hdr_fold_get.
  - rewrite decide_True by (apply elem_of_seqZ; lia). unfold FSSIZE in Hb.
    rewrite u32_small, s32_small by lia. done.
  - rewrite length_put32; [done|]. unfold BSIZE in *. lia.
  - by apply seqZ_logsize.
  - lia.
Qed.

(** ** Commit *)

Definition home_writes (s : lst) : list ((Z * Z) * list Z) :=
  map (fun t => ((1, blk s t), view (bio s) (blk s t))) (seqZ 0 (lh_n s)).
Definition commit_head (s : lst) : list Z :=
  hdr_write (lh_n s) (lh_block s) (view (bio s) (log_start s)).
Definition commit_writes (s : lst) : list ((Z * Z) * list Z) :=
  log_writes s ++ ((1, log_start s), commit_head s) :: home_writes s
  ++ [((1, log_start s), hdr_write 0 (lh_block s) (commit_head s))].

Lemma disk_at_fun (f : Z -> Z) (g : Z -> list Z) l d t :
  t ∈ l -> (forall u, u ∈ l -> f u = f t -> g u = g t) ->
  disk_at (apply_writes (map (fun u => ((1, f u), g u)) l) d) ROOTDEV (f t) = g t.
Proof.
  intros Hin Hg. unfold disk_at. change (Z.land ROOTDEV 1) with 1. rewrite lookup_apply_writes.
  rewrite (last_write_fun (fun u => (1, f u)) g l t Hin); [done|].
  intros u Hu [= E]. by apply Hg.
Qed.

(** What the log blocks hold once [write_log] is done. *)
Lemma disk_at_log_writes s t :
  0 <= t < lh_n s ->
  disk_at (apply_writes (log_writes s) (disk (bio s))) ROOTDEV (log_start s + t + 1)
  = view (bio s) (blk s t).
Proof.
  intros Ht. apply (disk_at_fun (fun t => log_start s + t + 1) (fun t => view (bio s) (blk s t))).
  - apply elem_of_seqZ. lia.
  - intros u _ Hu. f_equal. f_equal. lia.
Qed.

Lemma disk_at_home_writes s d b :
  log_pre s -> b ∈ logged s ->
  disk_at (apply_writes (home_writes s) d) ROOTDEV b = view (bio s) b.
Proof.
  intros P Hb. rewrite <-(map_blk s (lp_room s P)) in Hb. apply list_elem_of_fmap in Hb as (t & -> & Ht).
  apply (disk_at_fun (blk s) (fun t => view (bio s) (blk s t))); [done|]. intros u _ ->. done.
Qed.

Lemma home_writes_keys s b : log_pre s -> (1, b) ∈ (home_writes s).*1 <-> b ∈ logged s.
Proof.
  intros P. rewrite <-(map_blk s (lp_room s P)). unfold home_writes.
  rewrite <-list_fmap_compose. rewrite !list_elem_of_fmap. simpl. naive_solver.
Qed.

Lemma log_writes_keys s b :
  log_pre s -> (1, b) ∈ (log_writes s).*1 -> in_log s b /\ b <> log_start s.
Proof.
  intros P. unfold log_writes. rewrite <-list_fmap_compose.
  intros (t & [= ->] & Ht)%list_elem_of_fmap. apply elem_of_seqZ in Ht.
  pose proof (lp_n s P). unfold in_log. lia.
Qed.

Lemma not_logged s b : log_pre s -> in_log s b -> b ∉ logged s.
Proof.
  intros P Hb Hin. pose proof (lp_blk s P) as Hf. rewrite Forall_forall in Hf. by apply (Hf b Hin).
Qed.

Lemma start_in_log s : geo s -> in_log s (log_start s).
Proof. intros []. unfold in_log. lia. Qed.

Lemma log_pre_bio s t : log_pre s -> log_pre (set_bio t s).
Proof. intros [[] P2 P3 P4]. split; [split|..]; done. Qed.

Lemma commit_spec s :
  log_pre s -> cache (bio s) (logged s) [] -> 0 < lh_n s ->
  wp commit (fun _ s' => s' = set_lh 0 (lh_block s) (set_bio (bio s') s) /\ cache (bio s') [] []
    /\ wrote (bio s) (bio s') (commit_writes s)) s.
Proof.
  intros P C Hn. pose proof (lp_geo s P) as G. pose proof (length_logged s P) as HL.
  assert (Hst : log_start s ∉ logged s) by (by apply not_logged, start_in_log).
  assert (HnL : 0 <= lh_n s <= LOGSIZE) by (pose proof (lp_n s P); destruct G; lia).
  unfold commit. apply wp_bind, wp_gets. rewrite (proj2 (Z.ltb_lt 0 (lh_n s)) Hn).
  apply wp_bind. eapply wp_mono; [by apply write_log_spec|].
  intros [] s1 (E1 & C1 & W1 & V1). rewrite E1. clear E1. revert C1 W1 V1. generalize (bio s1).
  intros b1 C1 W1 V1.
  apply wp_bind. eapply wp_mono.
  { apply (write_head_spec (set_bio b1 s) (logged s)); [by apply (geo_frame s)|done..]. }
  intros [] s2 (E2 & C2 & W2 & V2). rewrite E2. clear E2. cbn [bio set_bio log_start lh_n lh_block] in W2, V2.
  revert C2 W2 V2. generalize (bio s2). intros b2 C2 W2 V2.
  change (set_bio b2 (set_bio b1 s)) with (set_bio b2 s).
  apply wp_bind. eapply wp_mono.
  { apply (install_trans_spec (set_bio b2 s) (logged s)); [by apply log_pre_bio|done|by right]. }
  intros [] s3 (E3 & C3 & W3 & V3). rewrite E3. clear E3. cbn [bio set_bio] in W3, V3.
  revert C3 W3 V3. generalize (bio s3). intros b3 C3 W3 V3.
  apply wp_bind, wp_modS. cbv beta. cbn [lh_block set_bio].
  assert (Hview1 : view b1 (log_start s) = view (bio s) (log_start s)).
  { rewrite (ca_clean _ _ _ C1), (ca_clean _ _ _ C) by done. destruct W1 as (_ & -> & _).
    apply disk_at_writes_ne. intros Hin. by apply log_writes_keys in Hin as [_ ?]. }
  assert (Hview3 : view b3 (log_start s) = commit_head s).
  { change (logged (set_bio b2 s)) with (logged s) in V3. rewrite (V3 _ Hst).
    rewrite (ca_clean _ _ _ C2) by done. destruct W2 as (_ & -> & _). unfold disk_at.
    change (Z.land ROOTDEV 1) with 1. cbn [apply_writes fold_left fst snd].
    rewrite lookup_insert_eq, Hview1. done. }
  assert (Hinst : install_writes (set_bio b2 s) = home_writes s).
  { apply map_ext_in. intros t Ht%list_elem_of_In. apply elem_of_seqZ in Ht.
    change (blk (set_bio b2 s) t) with (blk s t). cbn [bio set_bio log_start]. f_equal.
    destruct (geo_range s (t + 1) G) as (_ & _ & _ & Hin); [pose proof (lp_n s P); lia|].
    rewrite Z.add_assoc in Hin. rewrite V2 by lia.
    rewrite (ca_clean _ _ _ C1) by (by apply not_logged). destruct W1 as (_ & -> & _).
    apply disk_at_log_writes. lia. }
  eapply wp_mono.
  { apply (write_head_spec (set_lh 0 (lh_block s) (set_bio b3 s)) []);
      [by apply (geo_frame s)|exact C3| |set_solver|].
    - simpl. unfold NBUF, MAXOPBLOCKS; lia.
    - simpl. unfold LOGSIZE, MAXOPBLOCKS; lia. }
  intros [] s4 (E4 & C4 & W4 & V4). cbn [bio set_bio set_lh log_start lh_n lh_block] in W4.
  rewrite Hview3 in W4. rewrite Hview1 in W2. rewrite Hinst in W3.
  split_and!; [rewrite E4; done|done|].
  unfold commit_writes. eapply wrote_trans; [exact W1|]. eapply (wrote_trans _ _ _ [_]); [exact W2|].
  eapply wrote_trans; [exact W3|exact W4].
Qed.

(** ** Recovery *)

(** The installation a header on disk asks for. *)
Definition head_n (d : gmap (Z * Z) (list Z)) (start : Z) : Z :=
  s32 (get32 (disk_at d ROOTDEV start) 0).
Definition head_block (d : gmap (Z * Z) (list Z)) (start t : Z) : Z :=
  s32 (get32 (disk_at d ROOTDEV start) (hdr_off t)).
Definition replay (d : gmap (Z * Z) (list Z)) (start : Z) : list ((Z * Z) * list Z) :=
  map (fun t => ((1, head_block d start t), disk_at d ROOTDEV (start + t + 1)))
    (seqZ 0 (head_n d start)).
(** The contents of block [b] that a disk stands for. *)
Definition contents (d : gmap (Z * Z) (list Z)) (start b : Z) : list Z :=
  disk_at (apply_writes (replay d start) d) ROOTDEV b.

(** The log of disk [d] can be replayed. *)
Definition head_ok (d : gmap (Z * Z) (list Z)) (start size : Z) : Prop :=
  0 <= head_n d start <= size - 1
  /\ forall t, 0 <= t < head_n d start -> data_block start size (head_block d start t).

Lemma length_hdr_blocks d n bl : length (hdr_blocks d n bl) = length bl.
Proof.
  unfold hdr_blocks. revert bl. induction (seqZ 0 n) as [|i l IH]; intros bl; [done|].
  simpl. rewrite IH. apply length_updZ.
Qed.

Lemma hdr_fold_nth d l bl t :
  (forall i, i ∈ l -> 0 <= i < Z.of_nat (length bl)) ->
  nthZ 0 (fold_left (fun bl i => updZ i (s32 (get32 d (hdr_off i))) bl) l bl) t
  = if decide (t ∈ l) then s32 (get32 d (hdr_off t)) else nthZ 0 bl t.
Proof.
  revert bl. induction l as [|i l IH]; intros bl Hl; [done|]. cbn [fold_left].
  rewrite IH by (intros j Hj; rewrite length_updZ; apply Hl; by constructor).
  destruct (decide (t ∈ l)) as [Ht|Ht].
  { rewrite decide_True by (by constructor). done. }
  destruct (decide (t = i)) as [->|Hne].
  - rewrite decide_True by constructor. apply nthZ_updZ_eq. apply Hl. constructor.
  - rewrite decide_False by set_solver. apply nthZ_updZ_ne. congruence.
Qed.

Lemma nthZ_hdr_blocks d n bl t :
  n <= Z.of_nat (length bl) -> 0 <= t < n ->
  nthZ 0 (hdr_blocks d n bl) t = s32 (get32 d (hdr_off t)).
Proof.
  intros Hn Ht. unfold hdr_blocks. rewrite hdr_fold_nth.
  - rewrite decide_True by (apply elem_of_seqZ; lia). done.
  - intros i. rewrite elem_of_seqZ. lia.
Qed.

Lemma read_head_spec s :
  geo s -> cache (bio s) [] [] -> head_ok (disk (bio s)) (log_start s) (log_size s) ->
  wp read_head (fun _ s' =>
    s' = set_lh (head_n (disk (bio s)) (log_start s))
           (hdr_blocks (disk_at (disk (bio s)) ROOTDEV (log_start s))
              (head_n (disk (bio s)) (log_start s)) (lh_block s)) (set_bio (bio s') s)
    /\ cache (bio s') [] [] /\ same_disk (bio s) (bio s')) s.
Proof.
  intros G C [Hn Hb]. destruct (geo_range s 0 G) as (E1 & E2 & E3 & _).
  { destruct G; lia. }
  rewrite Z.add_0_r in *. unfold read_head. apply wp_bind. unfold getS, wp at 1. rewrite E1, E2.
  apply wp_bind, wp_lift. eapply wp_mono.
  { apply (cache_bread _ _ _ _ C E3); [set_solver|left; unfold NBUF, MAXOPBLOCKS; simpl; lia]. }
  intros b s1 (C1 & D1 & V1). apply wp_bind, wp_lift. cbn [bio set_bio].
  apply (cache_bdata _ _ _ b (log_start s) _ C1); [set_solver|].
  rewrite V1, (ca_clean _ _ _ C) by set_solver. fold (head_n (disk (bio s)) (log_start s)).
  rewrite (proj2 (Z.ltb_ge LOGSIZE _)) by (destruct G; lia).
  apply wp_bind, wp_ret, wp_bind, wp_modS, wp_lift. cbn [bio set_bio set_lh].
  eapply wp_mono; [eapply cache_brelse; exact C1|].
  intros [] s2 (C2 & D2 & V2). cbn [bio set_bio]. split_and!; [done|done|].
  by eapply same_disk_trans.
Qed.

Definition recover_writes (d : gmap (Z * Z) (list Z)) (start : Z) (bl : list Z)
  : list ((Z * Z) * list Z) :=
  replay d start ++ [((1, start), hdr_write 0 bl (disk_at d ROOTDEV start))].

Lemma replay_keys d start size b :
  head_ok d start size -> (1, b) ∈ (replay d start).*1 -> data_block start size b.
Proof.
  intros [_ Hb]. unfold replay. rewrite <-list_fmap_compose.
  intros (t & [= ->] & Ht)%list_elem_of_fmap. apply Hb. apply elem_of_seqZ in Ht. lia.
Qed.

(** After [read_head] the log is ready to be installed. *)
Lemma read_head_pre s b :
  geo s -> length (lh_block s) = Z.to_nat LOGSIZE ->
  head_ok (disk (bio s)) (log_start s) (log_size s) ->
  same_disk (bio s) b -> cache b [] [] ->
  let s' := set_lh (head_n (disk (bio s)) (log_start s))
           (hdr_blocks (disk_at (disk (bio s)) ROOTDEV (log_start s))
              (head_n (disk (bio s)) (log_start s)) (lh_block s)) (set_bio b s) in
  log_pre s' /\ install_writes s' = replay (disk (bio s)) (log_start s).
Proof.
  intros G Hl [Hn Hb] (Hd & _) C. set (n := head_n _ _). cbv zeta. set (s' := set_lh _ _ _).
  assert (Hnl : n <= Z.of_nat (length (lh_block s))) by (destruct G; unfold LOGSIZE, MAXOPBLOCKS in *; lia).
  assert (Hblk : forall t, 0 <= t < n -> blk s' t = head_block (disk (bio s)) (log_start s) t).
  { intros t Ht. unfold blk, s'. cbn [lh_block set_lh]. apply nthZ_hdr_blocks; lia. }
  split; [split|].
  - by apply (geo_frame s).
  - unfold s'. cbn [lh_block set_lh]. by rewrite length_hdr_blocks.
  - exact Hn.
  - rewrite <-map_blk by (unfold s'; cbn [lh_n lh_block set_lh]; rewrite length_hdr_blocks; lia).
    apply Forall_map, Forall_forall. intros t Ht%elem_of_seqZ. rewrite Z.add_0_l in Ht.
    change (lh_n s') with n in Ht. rewrite Hblk by lia. apply Hb. fold n. lia.
  - apply map_ext_in. intros t Ht%list_elem_of_In. apply elem_of_seqZ in Ht.
    change (lh_n s') with n in Ht. rewrite Hblk by lia. f_equal. unfold s'.
    cbn [bio set_bio set_lh log_start]. rewrite (ca_clean _ _ _ C) by set_solver. by rewrite Hd.
Qed.

Lemma recover_spec s :
  geo s -> cache (bio s) [] [] -> length (lh_block s) = Z.to_nat LOGSIZE ->
  head_ok (disk (bio s)) (log_start s) (log_size s) -> committing s = false ->
  wp recover_from_log (fun _ s' => log_ok s' [] /\ lh_n s' = 0
    /\ log_start s' = log_start s /\ log_size s' = log_size s /\ outstanding s' = outstanding s
    /\ exists bl, wrote (bio s) (bio s') (recover_writes (disk (bio s)) (log_start s) bl)) s.
Proof.
  intros G C Hl Hok Hcm. unfold recover_from_log. apply wp_bind.
  eapply wp_mono; [by apply read_head_spec|]. intros [] s1 (E1 & C1 & D1).
  destruct (read_head_pre s (bio s1) G Hl Hok D1 C1) as [P Hins]. rewrite <-E1 in P, Hins.
  apply wp_bind. eapply wp_mono; [apply (install_trans_spec s1 [] P C1); by left|].
  intros [] s2 (E2 & C2 & W2 & V2). apply wp_bind, wp_modS. cbv beta. rewrite Hins in W2.
  assert (G2 : geo s2) by (rewrite E2, E1; by apply (geo_frame s)).
  assert (Hst : log_start s2 = log_start s) by (rewrite E2, E1; done).
  eapply wp_mono.
  { apply (write_head_spec (set_lh 0 (lh_block s2) s2) []);
      [by apply (geo_frame s2)|done|simpl; unfold NBUF, MAXOPBLOCKS; lia|set_solver|].
    simpl. unfold LOGSIZE, MAXOPBLOCKS. lia. }
  intros [] s3 (E3 & C3 & W3 & V3). cbn [bio set_lh log_start lh_n lh_block] in *.
  assert (Hv : view (bio s2) (log_start s2) = disk_at (disk (bio s)) ROOTDEV (log_start s)).
  { rewrite Hst, (ca_clean _ _ _ C2) by set_solver. destruct W2 as (_ & -> & _).
    destruct D1 as (-> & _). apply disk_at_writes_ne. intros Hin.
    eapply replay_keys in Hin; [|done]. destruct Hin as [_ Hin]. destruct G. lia. }
  rewrite Hv, Hst in W3.
  assert (W : wrote (bio s) (bio s3) (recover_writes (disk (bio s)) (log_start s) (lh_block s2))).
  { eapply wrote_trans; [eapply wrote_same_l; [exact D1|exact W2]|exact W3]. }
  assert (Hf : lh_n s3 = 0 /\ log_start s3 = log_start s /\ log_size s3 = log_size s
            /\ outstanding s3 = outstanding s) by (rewrite E3, E2, E1; done).
  split_and!; [|apply Hf..|].
  - split.
    + rewrite E3. by apply (geo_frame s2).
    + rewrite E3, E2, E1. simpl. by rewrite length_hdr_blocks.
    + rewrite E3. simpl. destruct G2. lia.
    + rewrite E3. exact C3.
    + rewrite E3. constructor.
    + constructor.
    + rewrite E3. unfold hdr_n. cbn [bio set_bio set_lh log_start]. rewrite Hst.
      destruct W3 as (_ & -> & _). unfold disk_at at 1. change (Z.land ROOTDEV 1) with 1.
      cbn [apply_writes fold_left fst snd]. rewrite lookup_insert_eq. cbn [default].
      apply hdr_write_n; [|unfold LOGSIZE, MAXOPBLOCKS; lia].
      rewrite <-(ca_clean _ _ _ C) by set_solver. apply length_view, C.
    + rewrite E3, E2, E1. simpl. exact Hcm.
  - exists (lh_block s2). exact W.
Qed.

(** ** Crashes *)

Lemma contents_empty d start b : head_n d start = 0 -> contents d start b = disk_at d ROOTDEV b.
Proof. intros Hn. unfold contents, replay. rewrite Hn. done. Qed.

Lemma disk_at_snoc ws b x d :
  disk_at (apply_writes (ws ++ [((1, b), x)]) d) ROOTDEV b = x.
Proof.
  unfold disk_at. change (Z.land ROOTDEV 1) with 1. rewrite apply_writes_app.
  cbn [apply_writes fold_left fst snd]. by rewrite lookup_insert_eq.
Qed.

Lemma elem_of_take_keys k (ws : list ((Z * Z) * list Z)) x : x ∈ (take k ws).*1 -> x ∈ ws.*1.
Proof.
  rewrite fmap_take. intros (i & Hi & _)%elem_of_take. by eapply list_elem_of_lookup_2.
Qed.

Lemma home_keys_take s k b :
  log_pre s -> in_log s b -> (1, b) ∉ (take k (home_writes s)).*1.
Proof.
  intros P Hb Hin%elem_of_take_keys. apply home_writes_keys in Hin; [|done]. by eapply not_logged.
Qed.

(** From the write of the header on, the disk stands for the new contents. *)
Lemma committed_disk s k :
  log_pre s -> cache (bio s) (logged s) [] ->
  let d := apply_writes (take k (home_writes s))
             (apply_writes (log_writes s ++ [((1, log_start s), commit_head s)]) (disk (bio s))) in
  head_n d (log_start s) = lh_n s
  /\ (forall t, 0 <= t < lh_n s -> head_block d (log_start s) t = blk s t)
  /\ replay d (log_start s) = home_writes s.
Proof.
  intros P C. set (d0 := apply_writes (log_writes s ++ _) (disk (bio s))). cbv zeta.
  set (d := apply_writes _ d0). pose proof (lp_geo s P) as G.
  assert (HnL : 0 <= lh_n s <= LOGSIZE) by (pose proof (lp_n s P); destruct G; lia).
  assert (Hv : length (view (bio s) (log_start s)) = Z.to_nat BSIZE) by apply length_view, C.
  assert (Hh : disk_at d ROOTDEV (log_start s) = commit_head s).
  { unfold d, d0. rewrite disk_at_writes_ne by (apply home_keys_take; [done|by apply start_in_log]).
    apply disk_at_snoc. }
  assert (Hn : head_n d (log_start s) = lh_n s).
  { unfold head_n. rewrite Hh. by apply hdr_write_n. }
  assert (Hb : forall t, 0 <= t < lh_n s -> head_block d (log_start s) t = blk s t).
  { intros t Ht. unfold head_block. rewrite Hh. apply hdr_write_block; [done|lia|lia|].
    by apply lp_block. }
  split_and!; [done|done|]. unfold replay. rewrite Hn. apply map_ext_in.
  intros t Ht%list_elem_of_In. apply elem_of_seqZ in Ht. rewrite Hb by lia. f_equal.
  destruct (geo_range s (t + 1) G) as (_ & _ & _ & Hin); [pose proof (lp_n s P); lia|].
  rewrite Z.add_assoc in Hin. unfold d, d0.
  rewrite disk_at_writes_ne by (by apply home_keys_take).
  rewrite apply_writes_app, disk_at_writes_ne.
  - apply disk_at_log_writes. lia.
  - cbn. intros Hx%list_elem_of_singleton. injection Hx as Hx. lia.
Qed.

(** All blocks of the transaction installed. *)
Lemma installed_disk s b :
  log_pre s -> cache (bio s) (logged s) [] -> ~ in_log s b ->
  disk_at (apply_writes (home_writes s)
    (apply_writes (log_writes s ++ [((1, log_start s), commit_head s)]) (disk (bio s)))) ROOTDEV b
  = view (bio s) b.
Proof.
  intros P C Hb. destruct (decide (b ∈ logged s)) as [Hin|Hin].
  - by apply disk_at_home_writes.
  - rewrite disk_at_writes_ne by (by rewrite home_writes_keys).
    rewrite disk_at_writes_ne; [by rewrite (ca_clean _ _ _ C)|].
    rewrite fmap_app. intros [Hx|Hx]%elem_of_app.
    + apply log_writes_keys in Hx as [? _]; done.
    + cbn in Hx. apply list_elem_of_singleton in Hx. injection Hx as ->. apply Hb, start_in_log, P.
Qed.

Lemma take_commit_writes s k :
  (exists j, take k (commit_writes s) = take j (log_writes s))
  \/ (exists j, take k (commit_writes s)
        = (log_writes s ++ [((1, log_start s), commit_head s)]) ++ take j (home_writes s))
  \/ take k (commit_writes s) = commit_writes s.
Proof.
  destruct (decide (k <= length (log_writes s))%nat) as [H1|H1].
  { left. exists k. unfold commit_writes. by rewrite take_app_le. }
  destruct (decide (k <= length (log_writes s) + S (length (home_writes s)))%nat) as [H2|H2].
  - right; left. exists (k - length (log_writes s) - 1)%nat. unfold commit_writes.
    rewrite take_app_ge by lia. rewrite <-app_assoc. f_equal.
    destruct (k - length (log_writes s))%nat as [|m] eqn:E; [lia|].
    cbn [take app]. f_equal. rewrite take_app_le by lia. f_equal. lia.
  - right; right. apply take_ge. unfold commit_writes.
    rewrite length_app. cbn [length]. rewrite length_app. cbn [length]. lia.
Qed.

Lemma log_ok_pre s H : log_ok s H -> log_pre s.
Proof. intros []. by split. Qed.

(** Crash while the log is being filled: the header still says empty. *)
Lemma crash_filling s j :
  log_ok s [] ->
  let d := apply_writes (take j (log_writes s)) (disk (bio s)) in
  head_n d (log_start s) = 0
  /\ (forall b, loggable s b -> contents d (log_start s) b = disk_at (disk (bio s)) ROOTDEV b).
Proof.
  intros Hok. pose proof (log_ok_pre s [] Hok) as P. cbv zeta.
  assert (Hn : head_n (apply_writes (take j (log_writes s)) (disk (bio s))) (log_start s) = 0).
  { unfold head_n. rewrite disk_at_writes_ne; [apply (lo_head s [] Hok)|].
    intros Hin%elem_of_take_keys. by apply log_writes_keys in Hin as [_ ?]. }
  split; [done|]. intros b [Hb Hnl]. rewrite contents_empty by done. apply disk_at_writes_ne.
  intros Hin%elem_of_take_keys. apply log_writes_keys in Hin as [? _]; done.
Qed.

(** Crash after the header is written. *)
Lemma crash_installing s j :
  log_ok s [] ->
  let d := apply_writes ((log_writes s ++ [((1, log_start s), commit_head s)])
                         ++ take j (home_writes s)) (disk (bio s)) in
  head_ok d (log_start s) (log_size s)
  /\ (forall b, loggable s b -> contents d (log_start s) b = view (bio s) b).
Proof.
  intros Hok. pose proof (log_ok_pre s [] Hok) as P. pose proof (lo_cache s [] Hok) as C. cbv zeta.
  rewrite apply_writes_app. destruct (committed_disk s j P C) as (H1 & H2 & H3). split; [split|].
  - rewrite H1. apply (lp_n s P).
  - rewrite H1. intros t Ht. rewrite H2 by done.
    pose proof (lp_blk s P) as Hf. rewrite Forall_forall in Hf. apply Hf. by apply lp_block.
  - intros b [Hb Hnl]. unfold contents. rewrite H3, apply_writes_again. by apply installed_disk.
Qed.

(** After the last write. *)
Lemma crash_done s :
  log_ok s [] ->
  let d := apply_writes (commit_writes s) (disk (bio s)) in
  head_n d (log_start s) = 0
  /\ (forall b, ~ in_log s b -> disk_at d ROOTDEV b = view (bio s) b).
Proof.
  intros Hok. pose proof (log_ok_pre s [] Hok) as P. pose proof (lo_cache s [] Hok) as C. cbv zeta.
  assert (E : commit_writes s = ((log_writes s ++ [((1, log_start s), commit_head s)])
     ++ home_writes s) ++ [((1, log_start s), hdr_write 0 (lh_block s) (commit_head s))]).
  { unfold commit_writes. rewrite <-!app_assoc. done. }
  rewrite E. split.
  - unfold head_n. rewrite disk_at_snoc. apply hdr_write_n; [|unfold LOGSIZE, MAXOPBLOCKS; lia].
    unfold commit_head. rewrite length_hdr_write; [apply length_view, C|apply length_view, C|].
    pose proof (lp_n s P). destruct (lp_geo s P). lia.
  - intros b Hb. rewrite apply_writes_app, disk_at_writes_ne.
    + rewrite apply_writes_app. by apply installed_disk.
    + cbn. intros Hx%list_elem_of_singleton. injection Hx as ->. apply Hb, start_in_log, P.
Qed.

(** Every prefix of the disk writes of a commit can be recovered, to all of the
    old contents or to all of the new. *)
Lemma commit_prefix s k :
  log_ok s [] ->
  let d := apply_writes (take k (commit_writes s)) (disk (bio s)) in
  head_ok d (log_start s) (log_size s)
  /\ ((forall b, loggable s b -> contents d (log_start s) b = disk_at (disk (bio s)) ROOTDEV b)
      \/ (forall b, loggable s b -> contents d (log_start s) b = view (bio s) b))
  /\ (take k (commit_writes s) = commit_writes s ->
      forall b, loggable s b -> contents d (log_start s) b = view (bio s) b).
Proof.
  intros Hok. cbv zeta. destruct (lo_geo s [] Hok) as [_ _ Hsz _].
  assert (Hz : forall d, head_n d (log_start s) = 0 -> head_ok d (log_start s) (log_size s)).
  { intros d Hd. split; rewrite Hd; [lia|]. intros t Ht. lia. }
  destruct (crash_done s Hok) as [D1 D2].
  assert (Hfull : forall b, loggable s b ->
    contents (apply_writes (commit_writes s) (disk (bio s))) (log_start s) b = view (bio s) b).
  { intros b [_ Hb]. rewrite contents_empty by done. by apply D2. }
  split_and!; [| |by intros ->].
  - destruct (take_commit_writes s k) as [(j & ->)|[(j & ->)| ->]].
    + by apply Hz, crash_filling.
    + by apply crash_installing.
    + by apply Hz.
  - destruct (take_commit_writes s k) as [(j & ->)|[(j & ->)| ->]].
    + left. by apply crash_filling.
    + right. by apply crash_installing.
    + right. exact Hfull.
Qed.

(** ** Booting *)

Definition boot (d : gmap (Z * Z) (list Z)) (pid : Z) : lst :=
  mk_lst (binit (bss d pid)) 0 0 0 false 0 0 (replicate (Z.to_nat LOGSIZE) 0).

(** A disk with a log that can be replayed. *)
Record log_disk (d : gmap (Z * Z) (list Z)) (start size : Z) : Prop := {
  ld_len : forall k x, d !! k = Some x -> length x = Z.to_nat BSIZE;
  ld_start : sb_logstart (decode_sb (disk_at d ROOTDEV 1)) = start;
  ld_size : sb_nlog (decode_sb (disk_at d ROOTDEV 1)) = size;
  ld_geo : 2 <= start /\ 2 <= size <= LOGSIZE /\ start + size <= FSSIZE;
  ld_head : head_ok d start size
}.

Lemma boot_cache d pid :
  (forall k x, d !! k = Some x -> length x = Z.to_nat BSIZE) ->
  cache (binit (bss d pid)) [] [] /\ disk (binit (bss d pid)) = d.
Proof.
  intros Hd. pose proof (binit_ok d pid Hd) as HB. revert HB. generalize (binit (bss d pid)).
  intros s (B1 & B2 & B3 & B4 & B5 & B6). split; [|exact B6]. split.
  - exact B1.
  - constructor.
  - constructor.
  - intros b. rewrite B4. set_solver.
  - intros i b. split; [intros Hh; exfalso; exact (B3 i b Hh)|set_solver].
  - intros b _. rewrite B5, B6. reflexivity.
  - rewrite B2. reflexivity.
Qed.

Lemma readsb_spec s :
  cache s [] [] ->
  wp (readsb ROOTDEV) (fun sb s' => sb = decode_sb (disk_at (disk s) ROOTDEV 1)
    /\ cache s' [] [] /\ same_disk s s') s.
Proof.
  intros C. unfold readsb. apply wp_bind. eapply wp_mono.
  { apply (cache_bread _ _ _ 1 C); [unfold FSSIZE; lia|set_solver|].
    left. unfold NBUF, MAXOPBLOCKS. simpl. lia. }
  intros b s1 (C1 & D1 & V1). apply wp_bind.
  apply (cache_bdata _ _ _ b 1 _ C1); [set_solver|]. rewrite V1, (ca_clean _ _ _ C) by set_solver.
  apply wp_bind. eapply wp_mono; [eapply cache_brelse; exact C1|].
  intros [] s2 (C2 & D2 & _). apply wp_ret. split_and!; [done|done|]. by eapply same_disk_trans.
Qed.

(** Started on a buffer cache that holds nothing the disk does not. *)
Lemma initlog_from s0 d start size :
  cache s0 [] [] -> disk s0 = d -> log_disk d start size ->
  wp (initlog ROOTDEV) (fun _ s' => log_ok s' [] /\ lh_n s' = 0
    /\ log_start s' = start /\ log_size s' = size /\ outstanding s' = 0
    /\ (exists bl, wrote s0 (bio s') (recover_writes d start bl))
    /\ (forall b, data_block start size b -> view (bio s') b = contents d start b))
    (mk_lst s0 0 0 0 false 0 0 (replicate (Z.to_nat LOGSIZE) 0)).
Proof.
  intros C Hd [Hlen Hst Hsz (G1 & G2 & G3) Hok].
  unfold initlog. apply wp_bind, wp_lift. change (u32 ROOTDEV) with ROOTDEV.
  eapply wp_mono; [apply readsb_spec; exact C|]. intros sb s1 (-> & C1 & D1).
  cbn [bio] in *. rewrite Hd, Hst, Hsz. apply wp_bind, wp_modS.
  unfold FSSIZE, LOGSIZE, MAXOPBLOCKS in *. rewrite !s32_small by lia.
  assert (Hd1 : disk s1 = d) by (destruct D1 as (-> & _); exact Hd).
  eapply wp_mono.
  - apply recover_spec; cbn [bio set_bio set_geo lh_block log_start log_size committing].
    + split; cbn; unfold FSSIZE, LOGSIZE, MAXOPBLOCKS; lia || done.
    + exact C1.
    + apply length_replicate.
    + rewrite Hd1. exact Hok.
    + reflexivity.
  - intros [] s2 (L & Hn & E1 & E2 & E3 & bl & W).
    cbn [bio set_bio set_geo log_start log_size outstanding] in *. rewrite Hd1 in W.
    split_and!; try done.
    + exists bl. eapply wrote_same_l; [exact D1|exact W].
    + intros b Hb. rewrite (ca_clean _ _ _ (lo_cache _ _ L)).
      * destruct W as (_ & -> & _). rewrite Hd1. unfold recover_writes.
        rewrite apply_writes_app, disk_at_writes_ne; [done|].
        cbn. intros Hx%list_elem_of_singleton. injection Hx as ->. destruct Hb as [_ Hb]. lia.
      * unfold logged. rewrite Hn. simpl. set_solver.
Qed.

Lemma initlog_spec d pid start size :
  log_disk d start size ->
  wp (initlog ROOTDEV) (fun _ s' => log_ok s' [] /\ lh_n s' = 0
    /\ log_start s' = start /\ log_size s' = size /\ outstanding s' = 0
    /\ (exists bl, wrote (binit (bss d pid)) (bio s') (recover_writes d start bl))
    /\ (forall b, data_block start size b -> view (bio s') b = contents d start b)) (boot d pid).
Proof.
  intros L. destruct (boot_cache d pid (ld_len _ _ _ L)) as [C Hd]. by apply initlog_from.
Qed.

(** ** Operations inside a transaction *)

(** Only the buffer cache has changed, and not the disk. *)
Definition same_log (s s' : lst) : Prop := s' = set_bio (bio s') s /\ same_disk (bio s) (bio s').

Lemma same_log_refl s : same_log s s.
Proof. split; [by destruct s|]. by apply wrote_nil, wrote_nil. Qed.

Lemma same_log_trans s1 s2 s3 : same_log s1 s2 -> same_log s2 s3 -> same_log s1 s3.
Proof.
  intros [E1 D1] [E2 D2]. split; [|by eapply same_disk_trans]. rewrite E2, E1 at 1. done.
Qed.

Lemma log_ok_bio s H H' t :
  log_ok s H -> cache t (logged s) H' -> Forall (loggable s) H'.*2 -> same_disk (bio s) t ->
  log_ok (set_bio t s) H' /\ same_log s (set_bio t s).
Proof.
  intros [L1 L2 L3 L4 L5 L6 L7 L8] C HH D. split; [|by split].
  split; [by apply (geo_frame s)|done..| |done].
  unfold hdr_n in *. cbn [bio set_bio log_start]. by destruct D as (-> & _).
Qed.

Lemma loggable_range s b : loggable s b -> 0 <= b < FSSIZE.
Proof. intros [? _]. lia. Qed.

Lemma log_bread s H b :
  log_ok s H -> loggable s b -> b ∉ H.*2 -> lh_n s + Z.of_nat (length H) < NBUF ->
  wp (bioM (bread ROOTDEV b)) (fun i s' => log_ok s' ((i, b) :: H) /\ same_log s s'
    /\ (forall c, view (bio s') c = view (bio s) c)) s.
Proof.
  intros L Hb Hn Hroom. apply wp_lift. eapply wp_mono.
  { apply (cache_bread _ _ _ b (lo_cache s H L) (loggable_range s b Hb) Hn). left.
    pose proof (lo_n s H L). unfold logged. rewrite length_take. lia. }
  intros i t (C & D & V).
  destruct (log_ok_bio s H ((i, b) :: H) t L C) as [H1 H2]; [|done|done].
  cbn. constructor; [done|apply L].
Qed.

Lemma log_brelse s H i b :
  log_ok s ((i, b) :: H) ->
  wp (bioM (brelse i)) (fun _ s' => log_ok s' H /\ same_log s s'
    /\ (forall c, view (bio s') c = view (bio s) c)) s.
Proof.
  intros L. apply wp_lift. eapply wp_mono; [eapply cache_brelse, (lo_cache _ _ L)|].
  intros [] t (C & D & V). pose proof (lo_held _ _ L) as HH. cbn in HH. apply Forall_cons in HH as [_ HH].
  destruct (log_ok_bio s _ H t L C HH D) as [H1 H2]. done.
Qed.

Lemma log_bdata s H i b (Q : list Z -> lst -> Prop) :
  log_ok s H -> (i, b) ∈ H -> Q (view (bio s) b) s -> wp (bioM (bdata i)) Q s.
Proof.
  intros L Hin HQ. apply wp_lift. apply (cache_bdata _ _ _ i b _ (lo_cache _ _ L) Hin).
  by destruct s.
Qed.

Lemma updZ_same (l : list Z) i x : nthZ 0 l i = x -> 0 <= i < Z.of_nat (length l) -> updZ i x l = l.
Proof.
  unfold nthZ, updZ. intros H Hi. destruct (Z.ltb_spec i 0); [lia|].
  apply list_insert_id. rewrite nth_lookup in H.
  destruct (lookup_lt_is_Some_2 l (Z.to_nat i)) as [y Hy]; [lia|]. rewrite Hy in *. simpl in H. by subst.
Qed.

(** Log absorption: a block already logged is not logged again. *)
Lemma absorb_spec s b :
  log_pre s -> lh_n s < log_size s - 1 -> 0 <= b < FSSIZE ->
  let i := absorb (lh_block s) (lh_n s) b in
  let s' := set_lh (if i =? lh_n s then lh_n s + 1 else lh_n s)
              (updZ i (s32 b) (lh_block s)) s in
  logged s' = logged_with (logged s) b /\ length (lh_block s') = length (lh_block s)
  /\ 0 <= lh_n s' <= log_size s - 1.
Proof.
  intros P Hn Hb. cbv zeta. pose proof (lp_room s P) as Hr. pose proof (lp_n s P) as Hn0.
  assert (Hlen : lh_n s < Z.of_nat (length (lh_block s))) by (destruct P as [[] ? ? ?]; lia).
  assert (Hs : s32 b = b) by (apply s32_small; unfold FSSIZE in *; lia).
  unfold logged_with, absorb. destruct (List.find _ _) as [t|] eqn:E.
  - apply List.find_some in E as [Ht E]. apply list_elem_of_In, elem_of_seqZ in Ht.
    destruct (lp_block s t P) as (B1 & B2 & B3 & _); [lia|]. fold (blk s t) in E.
    rewrite B3 in E. apply Z.eqb_eq in E. rewrite (proj2 (Z.eqb_neq t (lh_n s))) by lia.
    rewrite Hs, updZ_same by (done || lia). rewrite E in B1. rewrite decide_True by done.
    split_and!; [by destruct s|done|cbn; lia|cbn; lia].
  - rewrite Z.eqb_refl. cbn [lh_n lh_block set_lh]. rewrite length_updZ. split_and!; [|done|lia|lia].
    rewrite decide_False.
    + unfold logged. cbn [lh_n lh_block set_lh]. rewrite Hs. unfold updZ.
      destruct (Z.ltb_spec (lh_n s) 0); [lia|].
      replace (Z.to_nat (lh_n s + 1)) with (S (Z.to_nat (lh_n s))) by lia.
      rewrite (take_S_r _ _ b) by (apply list_lookup_insert_eq; lia).
      by rewrite take_insert_ge by lia.
    + rewrite <-(map_blk s Hr). intros (t & Hbt & Ht)%list_elem_of_fmap.
      eapply List.find_none in E; [|apply list_elem_of_In; exact Ht]. cbv beta in E.
      apply elem_of_seqZ in Ht. destruct (lp_block s t P) as (_ & _ & B3 & _); [lia|].
      fold (blk s t) in E. rewrite B3, Hbt in E. lia.
Qed.

(** The parts of the state [log_write] does not touch. *)
Definition same_tx (s s' : lst) : Prop :=
  log_start s' = log_start s /\ log_size s' = log_size s /\ log_dev s' = log_dev s
  /\ outstanding s' = outstanding s /\ committing s' = committing s
  /\ same_disk (bio s) (bio s').

Lemma same_log_tx s s' : same_log s s' -> same_tx s s'.
Proof. intros [E D]. rewrite E. by split_and!. Qed.

Lemma same_tx_trans s1 s2 s3 : same_tx s1 s2 -> same_tx s2 s3 -> same_tx s1 s3.
Proof.
  intros (A1 & A2 & A3 & A4 & A5 & A6) (B1 & B2 & B3 & B4 & B5 & B6).
  split_and!; try congruence; apply (same_disk_trans _ _ _ A6 B6).
Qed.

Lemma loggable_frame s s' b : same_tx s s' -> loggable s b -> loggable s' b.
Proof. intros (E1 & E2 & _). unfold loggable. by rewrite E1, E2. Qed.

Lemma log_update s H i b d :
  log_ok s ((i, b) :: H) -> 1 <= outstanding s -> lh_n s < log_size s - 1 ->
  length d = Z.to_nat BSIZE ->
  wp (bioM (set_bdata i d) ;; log_write i) (fun _ s' => log_ok s' ((i, b) :: H)
    /\ logged s' = logged_with (logged s) b /\ same_tx s s'
    /\ (forall c, view (bio s') c = if decide (c = b) then d else view (bio s) c)) s.
Proof.
  intros L Ho Hn Hd. pose proof (log_ok_pre _ _ L) as P. pose proof (lo_held _ _ L) as HH.
  cbn in HH. apply Forall_cons in HH as [Hb HH].
  assert (Hh : hold (bio s) i b) by (apply (ca_hold _ _ _ (lo_cache _ _ L)); by constructor).
  pose proof (cache_mark (bio s) _ H i b d (lo_cache _ _ L) Hd) as Hm.
  destruct (absorb_spec s b P Hn (loggable_range s b Hb)) as (A1 & A2 & A3).
  set (f := fun t => setbuf i (with_flags (Z.lor (flags (getbuf t i)) B_DIRTY) (getbuf t i)) t) in *.
  unfold set_bdata, mbind, M_bind, modS, wp in Hm. set (t1 := setbuf i _ (bio s)) in Hm.
  assert (Hbno : blockno (getbuf t1 i) = b).
  { apply hold_range in Hh as (Hi & _ & Hbn & _). unfold t1.
    rewrite getbuf_setbuf_eq; [done|]. rewrite (inv_len _ (ca_inv _ _ _ (lo_cache _ _ L))). lia. }
  unfold log_write, set_bdata, bioM, lift, mbind, M_bind, modS, gets, getS, wp.
  fold t1. cbn [outstanding set_bio]. rewrite (proj2 (Z.ltb_ge (outstanding s) 1)) by lia.
  cbn -[f absorb NBUF LOGSIZE]. rewrite (proj2 (Z.leb_gt LOGSIZE _)) by (destruct (lp_geo s P); lia).
  rewrite (proj2 (Z.leb_gt (log_size s - 1) _)) by lia. cbn -[f absorb NBUF LOGSIZE].
  fold (f t1). rewrite Hbno. destruct Hm as (C & D & V).
  set (n' := if _ =? _ then _ else _). set (bl' := updZ _ _ _). fold n' bl' in A1, A2, A3.
  change (set_bio (f t1) _) with (set_bio (f t1) (set_lh n' bl' s)).
  assert (Htx : same_tx s (set_bio (f t1) (set_lh n' bl' s))) by (by split_and!).
  change (logged (set_lh n' bl' s)) with (logged (set_bio (f t1) (set_lh n' bl' s))) in A1.
  split_and!; [|exact A1|exact Htx|exact V]. split.
  - by apply (geo_frame s); [..|apply L].
  - cbn. cbn in A2. rewrite A2. apply L.
  - exact A3.
  - rewrite A1. exact C.
  - rewrite A1. apply Forall_forall. intros c [Hc| ->]%elem_of_logged_with.
    + apply (loggable_frame s); [done|]. pose proof (lp_blk s P) as Hf. rewrite Forall_forall in Hf. auto.
    + by apply (loggable_frame s).
  - cbn. constructor; [by apply (loggable_frame s)|].
    eapply Forall_impl; [exact HH|]. intros c. by apply loggable_frame.
  - pose proof (lo_head _ _ L) as Hh0. unfold hdr_n in *. cbn [bio set_bio log_start set_lh].
    destruct D as (-> & _). exact Hh0.
  - apply L.
Qed.

Lemma log_ok_ops s H o : log_ok s H -> log_ok (set_ops o false s) H.
Proof. intros [L1 L2 L3 L4 L5 L6 L7 L8]. split; try done. by apply (geo_frame s). Qed.

Definition op_writes (s : lst) : list ((Z * Z) * list Z) :=
  if 0 <? lh_n s then commit_writes s else [].

(** [end_op] of the last operation commits. *)
Lemma end_op_last s :
  log_ok s [] -> outstanding s = 1 ->
  wp end_op (fun _ s' => log_ok s' [] /\ lh_n s' = 0 /\ outstanding s' = 0
    /\ log_start s' = log_start s /\ log_size s' = log_size s
    /\ wrote (bio s) (bio s') (op_writes s)
    /\ (forall b, ~ in_log s b -> view (bio s') b = view (bio s) b)) s.
Proof.
  intros L Ho. unfold end_op, op_writes. apply wp_bind, wp_modS. cbv beta.
  apply wp_bind. unfold getS, wp at 1. cbn [committing outstanding set_ops].
  rewrite (lo_comm _ _ L), Ho, Z.eqb_refl. apply wp_bind, wp_modS.
  set (s1 := set_ops _ _ _).
  assert (L1 : log_pre s1).
  { destruct (log_ok_pre _ _ L) as [P1 P2 P3 P4]. split; [by apply (geo_frame s)|done..]. }
  apply wp_bind. destruct (Z.ltb_spec 0 (lh_n s)) as [Hn|Hn].
  - eapply wp_mono; [apply commit_spec; [done|apply L|done]|].
    intros [] s2 (E & C & W). apply wp_modS. cbn [bio set_ops].
    change (bio s1) with (bio s) in W. change (commit_writes s1) with (commit_writes s) in W.
    destruct (crash_done s L) as [D1 D2]. pose proof W as (_ & Hd & _).
    split_and!; [|by rewrite E..|exact W|].
    + split; [rewrite E; apply (geo_frame s); [done..|apply L]|rewrite E; apply L| | | |constructor| |done].
      * rewrite E. change (0 <= 0 <= log_size s - 1). destruct (lo_geo _ _ L). lia.
      * rewrite E. exact C.
      * rewrite E. constructor.
      * unfold hdr_n. cbn [bio set_ops]. rewrite Hd. rewrite E. exact D1.
    + intros b Hb. rewrite (ca_clean _ _ _ C), Hd by set_solver. by apply D2.
  - unfold commit. apply wp_bind, wp_gets. rewrite (proj2 (Z.ltb_ge 0 _)) by (cbn; lia).
    apply wp_ret, wp_modS. change (set_ops _ _ _) with (set_ops 0 false s).
    pose proof (lo_n _ _ L).
    split_and!; try done; [by apply log_ok_ops|cbn; lia|by apply wrote_nil].
Qed.

Lemma begin_op_spec s H :
  log_ok s H -> lh_n s + (outstanding s + 1) * MAXOPBLOCKS <= LOGSIZE ->
  begin_op s = Ok tt (set_ops (outstanding s + 1) false s).
Proof.
  intros L Hn. unfold begin_op. rewrite (lo_comm _ _ L).
  by rewrite (proj2 (Z.ltb_ge LOGSIZE _)) by lia.
Qed.

(** ** Waiting and panicking *)

(** A second [bread] of a block the process holds sleeps for ever. *)
Lemma cache_bread_held s L H i b :
  cache s L H -> (i, b) ∈ H -> exists s', bread ROOTDEV b s = Block "acquiresleep" s'.
Proof.
  intros C Hin. apply (ca_hold _ _ _ C) in Hin. pose proof Hin as [Hs _].
  apply hold_range in Hin as (Hi & _ & _ & Hl). pose proof (ca_inv _ _ _ C) as I.
  destruct (inv_ring _ I) as (ord & Hr & Ho).
  unfold bread, bget, mbind, M_bind. rewrite (ring_walk_next _ _ _ _ Hr).
  rewrite (find_is_slot _ _ _ (inv_uniq _ I) Hr Ho), Hs.
  unfold acquirebuf. rewrite getbuf_setbuf_eq by (rewrite (inv_len _ I); lia).
  cbn [lock with_refcnt]. unfold acquiresleep. rewrite Hl. eauto.
Qed.

Lemma bget_spin k dv b s :
  bget dv b (add_spin k s) = match bget dv b s with
    | Ok i s' => Ok i (add_spin k s') | Panic m s' => Panic m (add_spin k s')
    | Block m s' => Block m (add_spin k s') | NoFuel => NoFuel end.
Proof.
  unfold bget. change (nxt (add_spin k s)) with (nxt s). change (prv (add_spin k s)) with (prv s).
  change (getbuf (add_spin k s)) with (getbuf s).
  destruct (walk _ (nxt s) _ _) as [[i|]|]; [|destruct (walk _ (prv s) _ _) as [[i|]|]; [|done..]|done];
    unfold mbind, M_bind, acquirebuf;
    match goal with |- context [setbuf i ?x (add_spin k s)] =>
      change (setbuf i x (add_spin k s)) with (add_spin k (setbuf i x s)) end;
    change (getbuf (add_spin k ?t)) with (getbuf t); change (curpid (add_spin k ?t)) with (curpid t);
    destruct (acquiresleep _ _); done.
Qed.

Lemma iderw_spin i s s' :
  nspin s = 0 -> iderw i s = Ok tt s' -> exists t, iderw i (add_spin 1 s) = Panic "sched locks" t.
Proof.
  intros Hn. unfold iderw, iderw_with. change (getbuf (add_spin 1 s)) with (getbuf s). cbv zeta.
  change (curpid (add_spin 1 s)) with (curpid s). change (havedisk1 (add_spin 1 s)) with (havedisk1 s).
  cbn [nspin add_spin]. rewrite Hn. repeat (case_match; [done|]). eauto.
Qed.

Lemma bget_nspin dv b s i s' : bget dv b s = Ok i s' -> nspin s' = nspin s.
Proof.
  unfold bget, mbind, M_bind, acquirebuf. intros H.
  destruct (walk _ (nxt s) _ _) as [[j|]|]; [|destruct (walk _ (prv s) _ _) as [[j|]|]; [|done..]|done];
    destruct (acquiresleep _ _); try done; by injection H as _ <-.
Qed.

(** The same call with a spin lock held either needs no disk access or panics. *)
Lemma bread_spin b s i s' :
  nspin s = 0 -> bread ROOTDEV b s = Ok i s' ->
  bread ROOTDEV b (add_spin 1 s) = Ok i (add_spin 1 s')
  \/ exists t, bread ROOTDEV b (add_spin 1 s) = Panic "sched locks" t.
Proof.
  intros Hn. unfold bread, mbind, M_bind. rewrite bget_spin.
  destruct (bget ROOTDEV b s) as [i0 s0| | |] eqn:E; [|done..]. apply bget_nspin in E.
  unfold gets. change (getbuf (add_spin 1 s0)) with (getbuf s0).
  destruct (_ =? 0) eqn:E0.
  - destruct (iderw i0 s0) as [[] s1| | |] eqn:E1; [|done..]. intros _. right.
    destruct (iderw_spin i0 s0 s1) as [t ->]; [congruence|done|eauto].
  - intros [= <- <-]. by left.
Qed.

Lemma bwrite_spin i s s' :
  nspin s = 0 -> bwrite i s = Ok tt s' -> exists t, bwrite i (add_spin 1 s) = Panic "sched locks" t.
Proof.
  intros Hn. unfold bwrite. change (getbuf (add_spin 1 s)) with (getbuf s). cbv zeta.
  change (curpid (add_spin 1 s)) with (curpid s). case_match; [done|].
  change (setbuf i ?x (add_spin 1 s)) with (add_spin 1 (setbuf i x s)). by apply iderw_spin.
Qed.

(** [write_log] with [log.lock] held does not get past its first disk write. *)
Lemma write_log_spin s :
  log_pre s -> cache (bio s) (logged s) [] -> 0 < lh_n s ->
  exists t, write_log (set_bio (add_spin 1 (bio s)) s) = Panic "sched locks" t.
Proof.
  intros P C Hn. pose proof (lp_n s P) as Hn'.
  destruct (lp_block s 0 P ltac:(lia)) as (B1 & B2 & B3 & B4).
  destruct (geo_range s 1 (lp_geo s P) ltac:(lia)) as (G1 & G2 & G3 & G4).
  assert (HaL : log_start s + 1 ∉ logged s) by (by apply not_logged).
  assert (HL : (length (logged s) + length (@nil (Z * Z)) < Z.to_nat NBUF)%nat)
    by (rewrite Nat.add_0_r; by apply length_logged).
  unfold write_log. unfold mbind, M_bind, getS.
  cbn [lh_n set_bio]. rewrite seqZ_cons by lia. cbn [forM].
  unfold mbind, M_bind, bioM, lift. cbn [bio set_bio log_dev log_start lh_block].
  rewrite Z.add_0_r, G1, G2. fold (blk s 0). rewrite B3.
  destruct (proj1 (wp_iff _ _ _) (cache_bread (bio s) (logged s) [] _ C G3 ltac:(set_solver)
    (or_introl HL))) as (i & t1 & E1 & C1 & D1 & V1).
  destruct (bread_spin _ _ _ _ (inv_spin _ (ca_inv _ _ _ C)) E1) as [-> | [t ->]]; [|eauto].
  cbn [bio set_bio].
  assert (Hne : blk s 0 ∉ [(i, log_start s + 1)].*2).
  { assert (Hx : blk s 0 <> log_start s + 1) by congruence.
    intros Hy. exact (Hx (proj1 (list_elem_of_singleton _ _) Hy)). }
  destruct (proj1 (wp_iff _ _ _) (cache_bread t1 _ _ (blk s 0) C1 B2 Hne (or_intror B1))) as (j & t2 & E2 & C2 & D2 & V2).
  destruct (bread_spin _ _ _ _ (inv_spin _ (ca_inv _ _ _ C1)) E2) as [-> | [t ->]]; [|eauto].
  cbn [bio set_bio bdata gets set_bdata modS]. unfold bdata, gets, set_bdata, modS. cbn [bio set_bio].
  assert (C2' : cache t2 (logged s) [(i, log_start s + 1); (j, blk s 0)])
    by (eapply cache_perm; [done|apply perm_swap|exact C2]).
  assert (Hd : data (getbuf t2 j) = view t2 (blk s 0)).
  { apply hold_view; [apply C2|]. apply C2. by constructor. }
  destruct (proj1 (wp_iff _ _ _) (cache_put t2 _ _ i _ (view t2 (blk s 0)) C2' G3
    (length_view _ _ (ca_inv _ _ _ C2)))) as ([] & t4 & E4 & _).
  unfold set_bdata, modS, mbind, M_bind in E4.
  change (getbuf (add_spin 1 t2)) with (getbuf t2). rewrite Hd.
  change (setbuf i ?x (add_spin 1 t2)) with (add_spin 1 (setbuf i x t2)).
  apply bwrite_spin in E4 as [t ->]; [eauto|]. exact (inv_spin _ (ca_inv _ _ _ C2)).
Qed.

(** [write_log] waits for a logged block the process itself holds. *)
Lemma write_log_held s H i :
  log_pre s -> cache (bio s) (logged s) H -> 0 < lh_n s -> (i, blk s 0) ∈ H ->
  log_start s + 1 ∉ H.*2 -> (length (logged s) + length H < Z.to_nat NBUF)%nat ->
  exists t, write_log s = Block "acquiresleep" t.
Proof.
  intros P C Hn Hin HaH HL. pose proof (lp_n s P) as Hn'.
  destruct (lp_block s 0 P ltac:(lia)) as (B1 & B2 & B3 & B4).
  destruct (geo_range s 1 (lp_geo s P) ltac:(lia)) as (G1 & G2 & G3 & G4).
  unfold write_log. unfold mbind, M_bind, getS.
  rewrite seqZ_cons by lia. cbn [forM]. unfold mbind, M_bind, bioM, lift.
  rewrite Z.add_0_r, G1, G2. fold (blk s 0). rewrite B3.
  destruct (proj1 (wp_iff _ _ _) (cache_bread (bio s) (logged s) H _ C G3 HaH (or_introl HL)))
    as (j & t1 & E1 & C1 & D1 & V1).
  rewrite E1. cbn [bio set_bio].
  destruct (cache_bread_held t1 _ _ i (blk s 0) C1) as [t ->]; [by constructor|eauto].
Qed.

Lemma setbuf_id s i : 0 <= i < Z.of_nat (length (bufs s)) -> setbuf i (getbuf s i) s = s.
Proof.
  intros Hi. destruct s as [bs ? ? ? ? ? ? ?]. unfold setbuf, getbuf, nthZ, updZ. cbn in *.
  f_equal. destruct (Z.ltb_spec i 0); [lia|]. apply list_insert_id.
  destruct (lookup_lt_is_Some_2 bs (Z.to_nat i)) as [y Hy]; [lia|].
  by rewrite nth_lookup, Hy.
Qed.

(** The [B_DIRTY] mark alone. *)
Lemma cache_mark_only s L H i b :
  cache s L ((i, b) :: H) ->
  cache (setbuf i (with_flags (Z.lor (flags (getbuf s i)) B_DIRTY) (getbuf s i)) s)
    (logged_with L b) ((i, b) :: H).
Proof.
  intros C. pose proof (ca_inv _ _ _ C) as I.
  assert (Hh : hold s i b) by (apply C; by constructor).
  pose proof (cache_mark s L H i b (view s b) C (length_view _ _ I)) as Hm.
  unfold set_bdata, mbind, M_bind, modS, wp in Hm.
  rewrite <-(hold_view s i b I Hh) in Hm.
  replace (with_data (data (getbuf s i)) (getbuf s i)) with (getbuf s i) in Hm by (by destruct (getbuf s i)).
  rewrite setbuf_id in Hm; [apply Hm|].
  rewrite (inv_len _ I). apply hold_range in Hh. lia.
Qed.

(** ** The reservation made by [begin_op] *)

(** The typical use of [log_write]: update one block. *)
Definition write_block (b : Z) (d : list Z) : M lst unit :=
  i ← bioM (bread ROOTDEV b);
  bioM (set_bdata i d) ;;
  log_write i ;;
  bioM (brelse i).

Lemma write_block_spec s b d :
  log_ok s [] -> loggable s b -> 1 <= outstanding s -> lh_n s < log_size s - 1 ->
  length d = Z.to_nat BSIZE ->
  wp (write_block b d) (fun _ s' => log_ok s' [] /\ logged s' = logged_with (logged s) b
    /\ same_tx s s'
    /\ (forall c, view (bio s') c = if decide (c = b) then d else view (bio s) c)) s.
Proof.
  intros L Hb Ho Hn Hd. unfold write_block. apply wp_bind. eapply wp_mono.
  { apply (log_bread s [] b L Hb); [set_solver|]. destruct (lo_geo _ _ L).
    unfold NBUF, LOGSIZE in *. simpl. lia. }
  intros i s1 (L1 & T1 & V1). pose proof T1 as [E1 _].
  assert (Ho1 : outstanding s1 = outstanding s) by (by rewrite E1).
  assert (Hn1 : lh_n s1 = lh_n s) by (by rewrite E1).
  assert (Hz1 : log_size s1 = log_size s) by (by rewrite E1).
  assert (Hl1 : logged s1 = logged s) by (by rewrite E1).
  apply wp_seq. eapply wp_mono; [apply (log_update s1 [] i b d L1); lia || done|].
  intros [] s2 (L2 & G2 & T2 & V2). eapply wp_mono; [eapply log_brelse; exact L2|].
  intros [] s3 (L3 & T3 & V3). split_and!; [done| | |].
  - destruct T3 as [-> _]. unfold logged in *. cbn [lh_n lh_block set_bio]. by rewrite G2, <-Hl1.
  - eapply same_tx_trans; [by apply same_log_tx|]. eapply same_tx_trans; [done|by apply same_log_tx].
  - intros c. rewrite V3, V2, V1. done.
Qed.

(** With the log full, the next update panics, whatever was reserved. *)
Lemma write_block_full s b d :
  log_ok s [] -> loggable s b -> 1 <= outstanding s -> lh_n s = log_size s - 1 ->
  exists s', write_block b d s = Panic "too big a transaction" s'.
Proof.
  intros L Hb Ho Hn. unfold write_block.
  destruct (proj1 (wp_iff _ _ _) (log_bread s [] b L Hb ltac:(set_solver)
    ltac:(destruct (lo_geo _ _ L); unfold NBUF, LOGSIZE in *; simpl; lia)))
    as (i & s1 & E1 & L1 & [T1 _] & V1).
  unfold mbind, M_bind at 1. rewrite E1. unfold log_write, mbind, M_bind, bioM, lift, set_bdata, modS, gets, getS.
  rewrite T1. cbn [outstanding set_bio bio log_size lh_n]. rewrite (proj2 (Z.ltb_ge (outstanding s) 1)) by lia.
  cbn [mret M_ret log_size lh_n set_bio]. unfold mret, M_ret. cbn [log_size lh_n set_bio].
  rewrite Hn, (proj2 (Z.leb_le (log_size s - 1) (log_size s - 1))), orb_true_r by lia.
  unfold panic. eauto.
Qed.

(** Operations running concurrently: [ops] gives, for every operation between
    its [begin_op] and its [end_op], the number of block updates it has made.
    An operation updates at most [MAXOPBLOCKS] blocks; updates of different
    operations interleave. *)
Inductive op_step : lst * gmap Z Z -> lst * gmap Z Z -> Prop :=
  | step_begin s s' ops p :
      ops !! p = None -> begin_op s = Ok tt s' -> op_step (s, ops) (s', <[p := 0]> ops)
  | step_write s s' ops p k b d :
      ops !! p = Some k -> k < MAXOPBLOCKS -> loggable s b -> length d = Z.to_nat BSIZE ->
      write_block b d s = Ok tt s' -> op_step (s, ops) (s', <[p := k + 1]> ops)
  | step_end s s' ops p k :
      ops !! p = Some k -> end_op s = Ok tt s' -> op_step (s, ops) (s', delete p ops).

(** What the running operations may still write. *)
Definition reserved (ops : gmap Z Z) : Z :=
  map_fold (fun _ k r => MAXOPBLOCKS - k + r) 0 ops.

Lemma reserved_insert ops p k :
  ops !! p = None -> reserved (<[p := k]> ops) = MAXOPBLOCKS - k + reserved ops.
Proof. intros Hp. unfold reserved. rewrite map_fold_insert_L; [done|intros; lia|done]. Qed.

Lemma reserved_delete ops p k :
  ops !! p = Some k -> reserved ops = MAXOPBLOCKS - k + reserved (delete p ops).
Proof.
  intros Hp. rewrite <-(insert_delete_id ops p k Hp) at 1.
  apply reserved_insert, lookup_delete_eq.
Qed.

Lemma reserved_bound ops :
  (forall p k, ops !! p = Some k -> 0 <= k <= MAXOPBLOCKS) ->
  0 <= reserved ops <= MAXOPBLOCKS * Z.of_nat (size ops).
Proof.
  induction ops as [|p k ops Hp IH] using map_ind; intros Hk.
  - unfold reserved. rewrite map_fold_empty, map_size_empty. lia.
  - rewrite reserved_insert, map_size_insert_None by done.
    assert (0 <= k <= MAXOPBLOCKS) by (apply (Hk p), lookup_insert_eq).
    assert (0 <= reserved ops <= MAXOPBLOCKS * Z.of_nat (size ops)); [|lia].
    apply IH. intros q j Hq. apply (Hk q). rewrite lookup_insert_ne; [done|congruence].
Qed.

Record op_inv (s : lst) (ops : gmap Z Z) : Prop := {
  oi_log : log_ok s [];
  oi_out : outstanding s = Z.of_nat (size ops);
  oi_k : forall p k, ops !! p = Some k -> 0 <= k <= MAXOPBLOCKS;
  oi_res : lh_n s + reserved ops <= LOGSIZE
}.

Lemma lh_n_logged s H : log_ok s H -> lh_n s = Z.of_nat (length (logged s)).
Proof.
  intros L. pose proof (lp_room s (log_ok_pre _ _ L)). unfold logged. rewrite length_take. lia.
Qed.

Lemma end_op_more s H :
  log_ok s H -> outstanding s <> 1 ->
  end_op s = Ok tt (set_ops (outstanding s - 1) false s).
Proof.
  intros L Ho. unfold end_op, mbind, M_bind, modS, getS. cbn [committing outstanding set_ops].
  rewrite (lo_comm _ _ L). by rewrite (proj2 (Z.eqb_neq _ 0)) by lia.
Qed.

Lemma op_inv_begin s s' ops p :
  op_inv s ops -> ops !! p = None -> begin_op s = Ok tt s' -> op_inv s' (<[p := 0]> ops).
Proof.
  intros [L Ho Hk Hr] Hp. unfold begin_op. rewrite (lo_comm _ _ L).
  destruct (Z.ltb_spec LOGSIZE (lh_n s + (outstanding s + 1) * MAXOPBLOCKS)) as [|Hb]; [done|].
  intros [= <-]. pose proof (reserved_bound ops Hk). split.
  - by apply log_ok_ops.
  - cbn. rewrite map_size_insert_None by done. lia.
  - intros q k. rewrite lookup_insert. case_decide; [|by apply Hk].
    intros [= <-]. unfold MAXOPBLOCKS. lia.
  - rewrite reserved_insert by done. cbn. lia.
Qed.

Lemma op_inv_write s s' ops p k b d :
  op_inv s ops -> ops !! p = Some k -> k < MAXOPBLOCKS -> loggable s b ->
  length d = Z.to_nat BSIZE -> write_block b d s = Ok tt s' -> op_inv s' (<[p := k + 1]> ops).
Proof.
  intros [L Ho Hk Hr] Hp Hlt Hb Hd Hw.
  assert (Ho1 : 1 <= outstanding s).
  { rewrite Ho. destruct (size ops) eqn:E; [|lia]. apply map_size_empty_inv in E.
    rewrite E, lookup_empty in Hp. done. }
  destruct (decide (lh_n s < log_size s - 1)) as [Hn|Hn].
  - pose proof (write_block_spec s b d L Hb Ho1 Hn Hd) as Hwp. unfold wp in Hwp. rewrite Hw in Hwp.
    destruct Hwp as (L' & Hl & (_ & _ & _ & Ho' & _) & _). pose proof (Hk p k Hp). split.
    + done.
    + rewrite Ho', Ho. by rewrite map_size_insert_Some.
    + intros q j. rewrite lookup_insert. case_decide; [|by apply Hk]. intros [= <-]. lia.
    + rewrite (lh_n_logged s' [] L'), Hl. rewrite (lh_n_logged s [] L) in Hr.
      rewrite (reserved_delete ops p k Hp) in Hr.
      rewrite <-insert_delete_eq, reserved_insert by apply lookup_delete_eq.
      unfold logged_with. case_decide; [lia|]. rewrite length_app. simpl. lia.
  - destruct (write_block_full s b d L Hb Ho1) as [t Ht]; [pose proof (lo_n _ _ L); lia|]. congruence.
Qed.

Lemma op_inv_end s s' ops p k :
  op_inv s ops -> ops !! p = Some k -> end_op s = Ok tt s' -> op_inv s' (delete p ops).
Proof.
  intros [L Ho Hk Hr] Hp He. pose proof (Hk p k Hp) as Hkp.
  assert (Hk' : forall q j, delete p ops !! q = Some j -> 0 <= j <= MAXOPBLOCKS).
  { intros q j Hq. apply lookup_delete_Some in Hq as [_ Hq]. by apply (Hk q). }
  assert (Hsz : size (delete p ops) = pred (size ops)) by (apply map_size_delete_Some; by exists k).
  assert (Hne : (size ops <> 0)%nat).
  { intros E%map_size_empty_inv. rewrite E, lookup_empty in Hp. done. }
  rewrite (reserved_delete ops p k Hp) in Hr.
  destruct (decide (outstanding s = 1)) as [Ho1|Ho1].
  - pose proof (end_op_last s L Ho1) as Hwp. unfold wp in Hwp. rewrite He in Hwp.
    destruct Hwp as (L' & Hn & Ho' & _). split; [done| |done|].
    + rewrite Ho', Hsz. lia.
    + pose proof (reserved_bound _ Hk') as Hb. rewrite Hsz in Hb.
      rewrite Hn. unfold LOGSIZE, MAXOPBLOCKS in *. lia.
  - rewrite (end_op_more s [] L Ho1) in He. injection He as <-. split; [by apply log_ok_ops| |done|].
    + cbn. rewrite Hsz. lia.
    + cbn. lia.
Qed.

Lemma op_inv_reachable s0 s ops :
  op_inv s0 ∅ -> rtc op_step (s0, ∅) (s, ops) -> op_inv s ops.
Proof.
  intros H0 Hr. enough (Hg : forall x y, rtc op_step x y -> op_inv x.1 x.2 -> op_inv y.1 y.2)
    by exact (Hg _ _ Hr H0).
  clear. intros x y Hr. induction Hr as [|x y z Hxy Hyz IH]; [done|]. intros Hx. apply IH.
  destruct Hxy; cbn in *; [by eapply op_inv_begin|by eapply op_inv_write|by eapply op_inv_end].
Qed.

(** ** Crash disks are well formed *)

Definition blocks_ok (d : gmap (Z * Z) (list Z)) : Prop :=
  forall k x, d !! k = Some x -> length x = Z.to_nat BSIZE.

Lemma blocks_ok_writes ws k d :
  blocks_ok d -> Forall (fun w => length w.2 = Z.to_nat BSIZE) ws ->
  blocks_ok (apply_writes (take k ws) d).
Proof.
  intros Hd Hw. apply (Forall_take _ k) in Hw. revert d Hd.
  induction Hw as [|[k' v] ws' Hv _ IH]; intros d Hd; [done|].
  change (blocks_ok (apply_writes ws' (<[k' := v]> d))). apply IH.
  intros q x. rewrite lookup_insert. case_decide; [intros [= <-]; exact Hv|apply Hd].
Qed.

Lemma commit_writes_ok s :
  log_ok s [] -> Forall (fun w => length w.2 = Z.to_nat BSIZE) (commit_writes s)
  /\ (1, 1) ∉ (commit_writes s).*1.
Proof.
  intros L. pose proof (log_ok_pre _ _ L) as P. pose proof (ca_inv _ _ _ (lo_cache _ _ L)) as I.
  destruct (lo_geo _ _ L) as [_ G1 G2 _]. pose proof (lp_n s P).
  assert (Hh : length (commit_head s) = Z.to_nat BSIZE).
  { unfold commit_head. rewrite length_hdr_write; [by apply length_view|by apply length_view|lia]. }
  unfold commit_writes. split.
  - apply Forall_app. split; [|constructor; [exact Hh|]].
    + apply Forall_map, Forall_forall. intros t _. by apply length_view.
    + apply Forall_app. split; [|constructor; [|constructor]].
      * apply Forall_map, Forall_forall. intros t _. by apply length_view.
      * cbn [snd]. rewrite length_hdr_write; [done|done|unfold LOGSIZE, MAXOPBLOCKS; lia].
  - rewrite fmap_app, fmap_cons, fmap_app. intros [Hx|Hx]%elem_of_app.
    + apply log_writes_keys in Hx as [Hx _]; [|done]. unfold in_log in Hx. lia.
    + apply elem_of_cons in Hx as [Hx|[Hx|Hx]%elem_of_app].
      * injection Hx as Hx. lia.
      * apply home_writes_keys in Hx; [|done]. pose proof (lp_blk s P) as Hf.
        rewrite Forall_forall in Hf. destruct (Hf _ Hx). lia.
      * cbn in Hx. apply list_elem_of_singleton in Hx. injection Hx as Hx. lia.
Qed.

(** The superblock of the disk describes the log. *)
Definition sb_describes (s : lst) : Prop :=
  sb_logstart (decode_sb (disk_at (disk (bio s)) ROOTDEV 1)) = log_start s
  /\ sb_nlog (decode_sb (disk_at (disk (bio s)) ROOTDEV 1)) = log_size s.

Lemma log_disk_commit s k :
  log_ok s [] -> sb_describes s ->
  log_disk (apply_writes (take k (commit_writes s)) (disk (bio s))) (log_start s) (log_size s).
Proof.
  intros L [S1 S2]. destruct (commit_writes_ok s L) as [Hw H1]. destruct (lo_geo _ _ L) as [_ G1 G2 G3].
  assert (Hsb : disk_at (apply_writes (take k (commit_writes s)) (disk (bio s))) ROOTDEV 1
                = disk_at (disk (bio s)) ROOTDEV 1).
  { apply disk_at_writes_ne. intros Hin%elem_of_take_keys. done. }
  split; [|by rewrite Hsb..|done|by apply commit_prefix].
  apply blocks_ok_writes; [|done]. exact (inv_disk _ (ca_inv _ _ _ (lo_cache _ _ L))).
Qed.

Lemma log_disk_clean s :
  log_ok s [] -> sb_describes s -> log_disk (disk (bio s)) (log_start s) (log_size s).
Proof.
  intros L [S1 S2]. destruct (lo_geo _ _ L) as [_ G1 G2 G3]. split; try done.
  - exact (inv_disk _ (ca_inv _ _ _ (lo_cache _ _ L))).
  - pose proof (lo_head _ _ L) as Hh. change (head_n (disk (bio s)) (log_start s) = 0) in Hh.
    split; rewrite Hh; [lia|intros; lia].
Qed.

Lemma op_writes_prefix s k :
  log_ok s [] -> sb_describes s ->
  let d := apply_writes (take k (op_writes s)) (disk (bio s)) in
  log_disk d (log_start s) (log_size s)
  /\ ((forall b, loggable s b -> contents d (log_start s) b = disk_at (disk (bio s)) ROOTDEV b)
      \/ (forall b, loggable s b -> contents d (log_start s) b = view (bio s) b)).
Proof.
  intros L Hsb. cbv zeta. unfold op_writes. case_match.
  - split; [by apply log_disk_commit|]. by apply commit_prefix.
  - rewrite take_nil. cbn [apply_writes fold_left]. split; [by apply log_disk_clean|]. left.
    intros b Hb. apply contents_empty. apply (lo_head _ _ L).
Qed.

(** ** Recovery and crashes during it *)

Lemma replay_prefix d start size k :
  head_ok d start size -> 2 <= size -> 
  let d' := apply_writes (take k (replay d start)) d in
  replay d' start = replay d start /\ head_ok d' start size.
Proof.
  intros Hok Hsz. cbv zeta. set (d' := apply_writes _ d).
  assert (Hd : forall b, start <= b < start + size -> disk_at d' ROOTDEV b = disk_at d ROOTDEV b).
  { intros b Hb. apply disk_at_writes_ne. intros Hin%elem_of_take_keys.
    eapply replay_keys in Hin as [_ Hin]; [|done]. done. }
  assert (Hh : disk_at d' ROOTDEV start = disk_at d ROOTDEV start) by (apply Hd; lia).
  split.
  - unfold replay, head_n, head_block. rewrite Hh. apply map_ext_in.
    intros t Ht%list_elem_of_In. apply elem_of_seqZ in Ht. destruct Hok as [Hn _].
    unfold head_n in Hn. f_equal. apply Hd. lia.
  - unfold head_ok, head_n, head_block in *. by rewrite Hh.
Qed.

Lemma recover_writes_ok d start size bl :
  log_disk d start size ->
  Forall (fun w => length w.2 = Z.to_nat BSIZE) (recover_writes d start bl)
  /\ (1, 1) ∉ (recover_writes d start bl).*1.
Proof.
  intros [Hl _ _ (G1 & G2 & G3) Hok].
  assert (Hb : forall b, length (disk_at d ROOTDEV b) = Z.to_nat BSIZE).
  { intros b. unfold disk_at. destruct (d !! _) eqn:E; [by eapply Hl|done]. }
  unfold recover_writes. split.
  - apply Forall_app. split; [|constructor; [|constructor]].
    + apply Forall_map, Forall_forall. intros t _. apply Hb.
    + cbn [snd]. rewrite length_hdr_write; [done|done|unfold LOGSIZE, MAXOPBLOCKS; lia].
  - rewrite fmap_app. intros [Hx|Hx]%elem_of_app.
    + eapply replay_keys in Hx as [Hx _]; [|done]. lia.
    + cbn in Hx. apply list_elem_of_singleton in Hx. injection Hx as Hx. lia.
Qed.

Lemma recover_prefix d start size bl k :
  log_disk d start size ->
  let d' := apply_writes (take k (recover_writes d start bl)) d in
  log_disk d' start size
  /\ (forall b, data_block start size b -> contents d' start b = contents d start b).
Proof.
  intros LD. destruct (recover_writes_ok d start size bl LD) as [Hw H1].
  destruct LD as [Hl S1 S2 (G1 & G2 & G3) Hok]. cbv zeta. set (d' := apply_writes _ d).
  assert (Hsb : disk_at d' ROOTDEV 1 = disk_at d ROOTDEV 1).
  { apply disk_at_writes_ne. intros Hin%elem_of_take_keys. done. }
  assert (Hgoal : head_ok d' start size
            /\ (forall b, data_block start size b -> contents d' start b = contents d start b));
    [|destruct Hgoal; split; [split; [by apply blocks_ok_writes|by rewrite Hsb..|done|done]|done]].
  unfold d', recover_writes.
  destruct (decide (k <= length (replay d start))%nat) as [Hk|Hk].
  - rewrite take_app_le by done. destruct (replay_prefix d start size k Hok) as [R1 R2]; [lia|].
    split; [done|]. intros b _. unfold contents. rewrite R1. by rewrite apply_writes_again.
  - rewrite take_ge by (rewrite length_app; simpl; lia).
    assert (Hz : head_n (apply_writes (replay d start ++ [((1, start),
              hdr_write 0 bl (disk_at d ROOTDEV start))]) d) start = 0).
    { unfold head_n. rewrite disk_at_snoc. apply hdr_write_n; [|unfold LOGSIZE, MAXOPBLOCKS; lia].
      unfold disk_at. destruct (d !! _) eqn:E; [by eapply Hl|done]. }
    split.
    + split; rewrite Hz; [lia|intros; lia].
    + intros b [_ Hb]. rewrite contents_empty by done. unfold contents.
      rewrite apply_writes_app, disk_at_writes_ne; [done|].
      cbn. intros Hx%list_elem_of_singleton. injection Hx as ->. lia.
Qed.

(** ** A small disk

    A superblock with the log where [mkfs] puts it, and nothing else. *)
Definition demo_disk : gmap (Z * Z) (list Z) :=
  {[(1, 1) := put32 16 2 (put32 12 LOGSIZE zero_block)]}.

Lemma demo_log_disk : log_disk demo_disk 2 LOGSIZE.
Proof.
  split.
  - intros k x H. unfold demo_disk in H. apply lookup_singleton_Some in H as [_ <-]. reflexivity.
  - vm_compute. reflexivity.
  - vm_compute. reflexivity.
  - unfold LOGSIZE, MAXOPBLOCKS, FSSIZE. lia.
  - split.
    + vm_compute. split; discriminate.
    + intros t Ht. replace (head_n demo_disk 2) with 0 in Ht by (vm_compute; reflexivity). lia.
Qed.

(** After booting from it. *)
Lemma demo_boot : exists s, initlog ROOTDEV (boot demo_disk 1) = Ok tt s
  /\ log_ok s [] /\ lh_n s = 0 /\ outstanding s = 0 /\ log_size s = LOGSIZE /\ log_start s = 2
  /\ sb_describes s.
Proof.
  destruct (proj1 (wp_iff _ _ _) (initlog_spec demo_disk 1 2 LOGSIZE demo_log_disk))
    as ([] & s & E & L & Hn & H1 & H2 & H3 & (bl & W) & V).
  exists s. split_and!; [exact E|exact L|exact Hn|exact H3|exact H2|exact H1|split].
  all: destruct W as (_ & -> & _); destruct (boot_cache demo_disk 1 (ld_len _ _ _ demo_log_disk)) as [_ ->];
    rewrite disk_at_writes_ne by (by apply (recover_writes_ok demo_disk 2 LOGSIZE bl demo_log_disk));
    rewrite ?H1, ?H2; vm_compute; reflexivity.
Qed.

(** Inside a transaction that has updated block 100. *)
Lemma demo_tx : exists s, log_ok s [] /\ sb_describes s /\ outstanding s = 1 /\ lh_n s = 1
  /\ log_size s = LOGSIZE /\ log_start s = 2 /\ view (bio s) 100 = replicate 512 7.
Proof.
  destruct demo_boot as (s & _ & L & Hn & Ho & Hz & Hs & Hsb).
  assert (L1 : log_ok (set_ops 1 false s) []) by (by apply log_ok_ops).
  destruct (proj1 (wp_iff _ _ _) (write_block_spec (set_ops 1 false s) 100 (replicate 512 7) L1
    ltac:(unfold loggable, data_block; cbn; rewrite Hz, Hs; unfold FSSIZE, LOGSIZE, MAXOPBLOCKS; lia)
    ltac:(cbn; lia) ltac:(cbn; rewrite Hn, Hz; unfold LOGSIZE, MAXOPBLOCKS; lia) eq_refl))
    as ([] & s2 & _ & L2 & Hl & (T1 & T2 & T3 & T4 & T5 & T6 & _) & V).
  exists s2. split_and!; [exact L2| |cbn in *; congruence| |cbn in *; congruence..|].
  - cbn in T1, T2, T6. unfold sb_describes. rewrite T6, T1, T2. exact Hsb.
  - rewrite (lh_n_logged s2 [] L2), Hl. unfold logged. cbn [lh_n set_ops]. rewrite Hn. reflexivity.
  - rewrite V. rewrite decide_True by reflexivity. reflexivity.
Qed.

(** ** Properties *)

(** C1: The last [end_op] of a transaction returns, having put the contents of
    every block written by the transaction on the disk, and is atomic across
    crashes: when the machine stops after any prefix of the disk writes it
    makes, [initlog] at the next boot succeeds and finds either the contents all
    blocks had before the transaction or those they all have after it. *)
Theorem end_op_crash_atomic s pid :
  log_ok s [] -> sb_describes s -> outstanding s = 1 ->
  exists s' ws, end_op s = Ok tt s' /\ log_ok s' [] /\ lh_n s' = 0
    /\ (forall b, loggable s b -> disk_at (disk (bio s')) ROOTDEV b = view (bio s) b)
    /\ dwrites (bio s') = dwrites (bio s) ++ ws
    /\ forall k, exists t,
         initlog ROOTDEV (boot (apply_writes (take k ws) (disk (bio s))) pid) = Ok tt t
         /\ log_ok t []
         /\ ((forall b, loggable s b -> view (bio t) b = disk_at (disk (bio s)) ROOTDEV b)
             \/ (forall b, loggable s b -> view (bio t) b = view (bio s) b)).
Proof.
  intros L Hsb Ho.
  destruct (proj1 (wp_iff _ _ _) (end_op_last s L Ho)) as ([] & s' & E & L' & Hn & _ & _ & _ & W & V).
  exists s', (op_writes s). split_and!; [done|done|done| |apply W|].
  - intros b [_ Hb]. rewrite <-V by done. symmetry. apply (ca_clean _ _ _ (lo_cache _ _ L')).
    unfold logged. rewrite Hn. set_solver.
  - intros k. destruct (op_writes_prefix s k L Hsb) as [LD Hc].
    destruct (proj1 (wp_iff _ _ _) (initlog_spec _ pid _ _ LD)) as ([] & t & Et & Lt & _ & _ & _ & _ & _ & Vt).
    exists t. split_and!; [done|done|].
    destruct Hc as [Hc|Hc]; [left|right]; intros b Hb; rewrite Vt by done; by apply Hc.
Qed.

Lemma end_op_crash_atomic_witness : exists s s' ws,
  view (bio s) 100 = replicate 512 7 /\ end_op s = Ok tt s'
  /\ disk_at (disk (bio s')) ROOTDEV 100 = view (bio s) 100
  /\ dwrites (bio s') = dwrites (bio s) ++ ws
  /\ exists t, initlog ROOTDEV (boot (apply_writes (take 1 ws) (disk (bio s))) 1) = Ok tt t.
Proof.
  destruct demo_tx as (s & L & Hsb & Ho & Hn & Hz & Hs & Hv).
  destruct (end_op_crash_atomic s 1 L Hsb Ho) as (s' & ws & E & _ & _ & Hd & Hw & Hk).
  exists s, s', ws. split; [exact Hv|]. split; [exact E|]. split; [|split; [exact Hw|]].
  - apply Hd. unfold loggable, data_block. rewrite Hz, Hs. unfold FSSIZE, LOGSIZE, MAXOPBLOCKS. lia.
  - destruct (Hk 1%nat) as (t & Et & _). exists t. exact Et.
Defined.

(** C6: [initlog] recovers any disk whose log header is well formed: it
    returns with an empty log and the contents the header commits to; and a
    crash after any prefix of the disk writes of recovery is recovered to the
    same contents. *)
Theorem recovery_crash_safe d pid start size :
  log_disk d start size ->
  exists s ws, initlog ROOTDEV (boot d pid) = Ok tt s /\ log_ok s [] /\ lh_n s = 0
    /\ (forall b, data_block start size b -> view (bio s) b = contents d start b)
    /\ dwrites (bio s) = ws
    /\ forall k pid', exists t,
         initlog ROOTDEV (boot (apply_writes (take k ws) d) pid') = Ok tt t /\ log_ok t []
         /\ (forall b, data_block start size b -> view (bio t) b = contents d start b).
Proof.
  intros LD.
  destruct (proj1 (wp_iff _ _ _) (initlog_spec d pid start size LD))
    as ([] & s & E & L & Hn & _ & _ & _ & (bl & W) & V).
  exists s, (recover_writes d start bl). split_and!; [done|done|done|done| |].
  - destruct W as (-> & _). unfold binit. cbv zeta.
    destruct (fold_left _ (seqZ 0 NBUF) (updZ _ _ _, _)). by rewrite binit_bufs.
  - intros k pid'. destruct (recover_prefix d start size bl k LD) as [LD' Hc].
    destruct (proj1 (wp_iff _ _ _) (initlog_spec _ pid' _ _ LD')) as ([] & t & Et & Lt & _ & _ & _ & _ & _ & Vt).
    exists t. split_and!; [done|done|]. intros b Hb. by rewrite Vt, Hc.
Qed.

Lemma recovery_crash_safe_witness : exists s ws,
  initlog ROOTDEV (boot demo_disk 1) = Ok tt s /\ lh_n s = 0 /\ dwrites (bio s) = ws
  /\ exists t, initlog ROOTDEV (boot (apply_writes (take 1 ws) demo_disk) 1) = Ok tt t.
Proof.
  destruct (recovery_crash_safe demo_disk 1 2 LOGSIZE demo_log_disk)
    as (s & ws & E & _ & Hn & _ & Hw & Hk).
  exists s, ws. split; [exact E|]. split; [exact Hn|]. split; [exact Hw|].
  destruct (Hk 1%nat 1) as (t & Et & _). exists t. exact Et.
Defined.

(** C27: Inside a transaction with room in the log, updating a held buffer and
    calling [log_write] returns: the block is logged once (a second update of
    the same block is absorbed), its new contents are seen by every later read,
    nothing is written to the disk yet, and no other block changes. *)
Theorem log_write_logs_once s H i b d :
  log_ok s ((i, b) :: H) -> 1 <= outstanding s -> lh_n s < log_size s - 1 ->
  length d = Z.to_nat BSIZE ->
  exists s', (bioM (set_bdata i d) ;; log_write i) s = Ok tt s'
    /\ log_ok s' ((i, b) :: H)
    /\ logged s' = (if decide (b ∈ logged s) then logged s else logged s ++ [b])
    /\ disk (bio s') = disk (bio s) /\ dwrites (bio s') = dwrites (bio s)
    /\ (forall c, view (bio s') c = if decide (c = b) then d else view (bio s) c).
Proof.
  intros L Ho Hn Hd.
  destruct (proj1 (wp_iff _ _ _) (log_update s H i b d L Ho Hn Hd))
    as ([] & s' & E & L' & Hl & (_ & _ & _ & _ & _ & D1 & D2 & _) & V).
  exists s'. split_and!; [exact E|exact L'|exact Hl|exact D1|exact D2|exact V].
Qed.

Lemma log_write_logs_once_witness : exists s i s',
  (bioM (set_bdata i (replicate 512 9)) ;; log_write i) s = Ok tt s'
  /\ view (bio s') 101 = replicate 512 9.
Proof.
  destruct demo_tx as (s & L & Hsb & Ho & Hn & Hz & Hs & _).
  assert (Hb : loggable s 101)
    by (unfold loggable, data_block; rewrite Hz, Hs; unfold FSSIZE, LOGSIZE, MAXOPBLOCKS; lia).
  assert (Hr : lh_n s + Z.of_nat (length (@nil (Z * Z))) < NBUF)
    by (rewrite Hn; unfold NBUF, MAXOPBLOCKS; cbn; lia).
  destruct (proj1 (wp_iff _ _ _) (log_bread s [] 101 L Hb ltac:(set_solver) Hr))
    as (i & s1 & _ & L1 & [E1 _] & _).
  destruct (log_write_logs_once s1 [] i 101 (replicate 512 9) L1) as (s' & E & _ & _ & _ & _ & V).
  - rewrite E1. cbn. lia.
  - rewrite E1. cbn [lh_n log_size set_bio]. rewrite Hn, Hz. unfold LOGSIZE, MAXOPBLOCKS. lia.
  - reflexivity.
  - exists s1, i, s'. split; [exact E|]. rewrite V. rewrite decide_True by reflexivity. reflexivity.
Defined.

(** C28: However operations interleave, the space reserved by [begin_op] is
    enough: in every reachable state the blocks already logged plus those the
    running operations may still write fit the log, [outstanding] counts the
    operations, and an update succeeds while the log has a free block. *)
Theorem log_reservation s0 s ops :
  log_ok s0 [] -> lh_n s0 = 0 -> outstanding s0 = 0 -> rtc op_step (s0, ∅) (s, ops) ->
  log_ok s [] /\ outstanding s = Z.of_nat (size ops) /\ lh_n s + reserved ops <= LOGSIZE
  /\ (forall p k b d, ops !! p = Some k -> loggable s b -> length d = Z.to_nat BSIZE ->
      lh_n s < log_size s - 1 -> exists s', write_block b d s = Ok tt s').
Proof.
  intros L Hn Ho Hr.
  assert (I0 : op_inv s0 ∅).
  { split; [done|by rewrite map_size_empty|intros p k Hp; by rewrite lookup_empty in Hp|].
    unfold reserved. rewrite map_fold_empty, Hn. unfold LOGSIZE, MAXOPBLOCKS. lia. }
  destruct (op_inv_reachable s0 s ops I0 Hr) as [L' Ho' Hk' Hres]. split_and!; [done..|].
  intros p k b d Hp Hb Hd Hroom.
  assert (Ho1 : 1 <= outstanding s).
  { rewrite Ho'. destruct (size ops) eqn:E; [|lia]. apply map_size_empty_inv in E.
    rewrite E, lookup_empty in Hp. done. }
  destruct (proj1 (wp_iff _ _ _) (write_block_spec s b d L' Hb Ho1 Hroom Hd)) as ([] & s' & E & _).
  eauto.
Qed.

Lemma log_reservation_witness : exists s,
  outstanding s = 1 /\ lh_n s + reserved {[1 := 0]} <= LOGSIZE.
Proof.
  destruct demo_boot as (s & _ & L & Hn & Ho & Hz & Hs & _).
  exists (set_ops (outstanding s + 1) false s).
  destruct (log_reservation s (set_ops (outstanding s + 1) false s) (<[1 := 0]> ∅) L Hn Ho)
    as (_ & H1 & H2 & _).
  - apply rtc_once. apply step_begin; [apply lookup_empty|].
    apply (begin_op_spec s [] L). rewrite Hn, Ho. unfold LOGSIZE, MAXOPBLOCKS. lia.
  - split; [cbn; lia|]. rewrite <-insert_empty. exact H2.
Defined.

(** A running operation updates the blocks [bs], one after the other. *)
Lemma op_writes_run p (d bs : list Z) : forall k s ops, length d = Z.to_nat BSIZE ->
  log_ok s [] -> 1 <= outstanding s -> ops !! p = Some k -> k + Z.of_nat (length bs) <= MAXOPBLOCKS ->
  Forall (loggable s) bs -> NoDup bs -> (forall b, b ∈ bs -> b ∉ logged s) ->
  lh_n s + Z.of_nat (length bs) <= log_size s - 1 ->
  exists s', rtc op_step (s, ops) (s', <[p := k + Z.of_nat (length bs)]> ops) /\ log_ok s' []
    /\ logged s' = logged s ++ bs /\ lh_n s' = lh_n s + Z.of_nat (length bs) /\ same_tx s s'.
Proof.
  induction bs as [|b bs IH]; intros k s ops Hd L Ho Hp Hk Hl Hnd Hnew Hroom; cbn [length] in *.
  - exists s. rewrite !Z.add_0_r, insert_id, app_nil_r by done. by split_and!.
  - apply Forall_cons in Hl as [Hb Hl]. apply NoDup_cons in Hnd as [Hnb Hnd].
    destruct (proj1 (wp_iff _ _ _) (write_block_spec s b d L Hb Ho ltac:(lia) Hd)) as ([] & s1 & E & L1 & G1 & T1 & _).
    unfold logged_with in G1. rewrite decide_False in G1 by (apply Hnew; constructor).
    assert (Hn1 : lh_n s1 = lh_n s + 1).
    { rewrite (lh_n_logged _ _ L1), (lh_n_logged _ _ L), G1, length_app. cbn [length]. lia. }
    pose proof T1 as (T2 & T3 & _ & T4 & _).
    destruct (IH (k + 1) s1 (<[p := k + 1]> ops)) as (s' & R & L' & G' & N' & T'); try done.
    { by rewrite T4. } { apply lookup_insert_eq. } { lia. }
    { unfold loggable in *. by rewrite T2, T3. }
    { intros c Hc. rewrite G1. intros [Hc'|Hc'%list_elem_of_singleton]%elem_of_app; [|by subst].
      by apply (Hnew c); [constructor|]. }
    { rewrite T3. lia. }
    exists s'. split_and!; [|done|by rewrite G', G1, <-app_assoc|lia|by eapply same_tx_trans].
    rewrite insert_insert_eq in R. replace (k + Z.of_nat (S (length bs))) with (k + 1 + Z.of_nat (length bs)) by lia.
    eapply rtc_l; [|exact R]. by apply (step_write s s1 ops p k b d); [|lia|..].
Qed.

(** Three operations begin on a clean log. *)
Lemma three_begin s : log_ok s [] -> lh_n s = 0 -> outstanding s = 0 ->
  exists s', rtc op_step (s, ∅) (s', <[3 := 0]> (<[2 := 0]> (<[1 := 0]> ∅)))
    /\ log_ok s' [] /\ s' = set_ops 3 false s.
Proof.
  intros L Hn Ho. set (s1 := set_ops 1 false s). set (s2 := set_ops 2 false s). set (s3 := set_ops 3 false s).
  assert (L' : forall k, log_ok (set_ops k false s) []) by (intros k; by apply log_ok_ops).
  exists s3. split_and!; [|apply L'|done].
  assert (B : forall t k, t = set_ops k false s -> 0 <= k <= 2 -> begin_op t = Ok tt (set_ops (k + 1) false s)).
  { intros t k -> Hk. rewrite (begin_op_spec _ []); [done|apply L'|]. cbn. rewrite Hn.
    unfold LOGSIZE, MAXOPBLOCKS. lia. }
  eapply rtc_l; [apply (step_begin s s1 ∅ 1); [done|]|].
  { apply (B s 0); [|lia]. destruct s, L; cbn in *; by subst. }
  eapply rtc_l; [apply (step_begin s1 s2 _ 2); [done|by apply (B s1 1)]|].
  apply rtc_once, (step_begin s2 s3 _ 3); [done|by apply (B s2 2)].
Qed.

(** C35: The reservation overlooks the header block.  On a clean log of [LOGSIZE]
    blocks, the size mkfs gives it, [begin_op] admits three operations.  Whatever 59
    different blocks outside the log they update, the first and the second
    operation [MAXOPBLOCKS] each and the third one less, the next update by the
    third - the last that its reservation allows - panics. *)
Theorem full_reservation_panics s0 b1 b2 b3 b d :
  log_ok s0 [] -> lh_n s0 = 0 -> outstanding s0 = 0 -> log_size s0 = LOGSIZE ->
  Z.of_nat (length b1) = MAXOPBLOCKS -> Z.of_nat (length b2) = MAXOPBLOCKS ->
  Z.of_nat (length b3) = MAXOPBLOCKS - 1 -> NoDup (b1 ++ b2 ++ b3) ->
  Forall (loggable s0) (b :: b1 ++ b2 ++ b3) -> length d = Z.to_nat BSIZE ->
  exists s, rtc op_step (s0, ∅) (s, {[1 := MAXOPBLOCKS; 2 := MAXOPBLOCKS; 3 := MAXOPBLOCKS - 1]})
    /\ logged s = b1 ++ b2 ++ b3 /\ panics (write_block b d) "too big a transaction" s.
Proof.
  intros L0 Hn0 Ho0 Hz E1 E2 E3 Hnd Hl Hd.
  destruct (three_begin s0 L0 Hn0 Ho0) as (s & R0 & L & Es).
  assert (Hlg : forall t u, same_tx t u -> forall bs, Forall (loggable t) bs -> Forall (loggable u) bs)
    by (intros t u (T2 & T3 & _) bs; unfold loggable; by rewrite T2, T3).
  assert (Hl' : Forall (loggable s) (b :: b1 ++ b2 ++ b3)) by (by rewrite Es).
  apply Forall_cons in Hl' as [Hb Hl']. apply Forall_app in Hl' as [Hl1 Hl']. apply Forall_app in Hl' as [Hl2 Hl3].
  apply NoDup_app in Hnd as (U1 & D1 & Hnd). apply NoDup_app in Hnd as (U2 & D2 & U3).
  assert (Hs : logged s = [] /\ outstanding s = 3 /\ log_size s = LOGSIZE /\ lh_n s = 0)
    by (rewrite Es; unfold logged; cbn; by rewrite Hn0).
  destruct Hs as (G0 & Ho & Hsz & Hn). unfold LOGSIZE, MAXOPBLOCKS in *.
  destruct (op_writes_run 1 d b1 0 s (<[3 := 0]> (<[2 := 0]> (<[1 := 0]> ∅)))) as (s1 & R1 & L1 & G1 & N1 & T1);
    try done || (unfold MAXOPBLOCKS; lia). { intros c _. rewrite G0. apply not_elem_of_nil. }
  rewrite G0 in G1. pose proof T1 as (_ & Hz1 & _ & Ho1 & _).
  destruct (op_writes_run 2 d b2 0 s1 (<[1 := 20]> (<[3 := 0]> (<[2 := 0]> (<[1 := 0]> ∅))))) as (s2 & R2 & L2 & G2 & N2 & T2);
    try done || (unfold MAXOPBLOCKS; lia). { by apply (Hlg s). }
  { intros c Hc. rewrite G1. intros Hc'. apply (D1 c Hc'), elem_of_app. by left. }
  rewrite G1 in G2. pose proof T2 as (_ & Hz2 & _ & Ho2 & _).
  destruct (op_writes_run 3 d b3 0 s2 (<[2 := 20]> (<[1 := 20]> (<[3 := 0]> (<[2 := 0]> (<[1 := 0]> ∅))))))
    as (s3 & R3 & L3 & G3 & N3 & T3); try done || (unfold MAXOPBLOCKS; lia).
  { apply (Hlg s1); [done|]. by apply (Hlg s). }
  { intros c Hc. rewrite G2. intros [Hc'|Hc']%elem_of_app; [|by apply (D2 c)].
    apply (D1 c Hc'), elem_of_app. by right. }
  rewrite G2 in G3. pose proof T3 as (_ & Hz3 & _ & Ho3 & _).
  exists s3. split; [|split; [by rewrite G3, <-app_assoc|]].
  - rewrite E1 in R1. rewrite E2 in R2. rewrite E3 in R3.
    etransitivity; [exact R0|]. etransitivity; [exact R1|]. etransitivity; [exact R2|]. exact R3.
  - apply write_block_full; [done| |lia|lia].
    assert (Forall (loggable s3) [b]) as [? _]%Forall_cons; [|done].
    apply (Hlg s2); [done|]. apply (Hlg s1); [done|]. apply (Hlg s); [done|by constructor].
Qed.

Lemma full_reservation_panics_witness : exists s0 s, initlog ROOTDEV (boot demo_disk 1) = Ok tt s0
  /\ rtc op_step (s0, ∅) (s, {[1 := 20; 2 := 20; 3 := 19]}) /\ logged s = seqZ 1000 59
  /\ panics (write_block 1059 zero_block) "too big a transaction" s.
Proof.
  destruct demo_boot as (s0 & E & L & Hn & Ho & Hz & Hs & _).
  destruct (full_reservation_panics s0 (seqZ 1000 20) (seqZ 1020 20) (seqZ 1040 19) 1059 zero_block L Hn Ho Hz)
    as (s & R & G & P); try reflexivity.
  - change (seqZ 1000 20 ++ seqZ 1020 20 ++ seqZ 1040 19) with (seqZ 1000 59). apply NoDup_seqZ.
  - change (1059 :: _) with (1059 :: seqZ 1000 59). apply Forall_forall. intros c Hc.
    assert (1000 <= c < 1060) by (apply elem_of_cons in Hc as [->|Hc%elem_of_seqZ]; lia).
    unfold loggable, data_block. rewrite Hz, Hs. unfold FSSIZE, LOGSIZE, MAXOPBLOCKS. lia.
  - exists s0, s. exact (conj E (conj R (conj G P))).
Defined.

(** [log_write] outside a transaction hangs: the transaction it starts for
    itself commits while the caller still holds the buffer, and the commit
    waits for that buffer for ever. *)
Theorem log_write_outside_op_hangs s i b :
  log_ok s [(i, b)] -> outstanding s = 0 -> lh_n s = 0 ->
  exists s', log_write i s = Block "acquiresleep" s'.
Proof.
  intros L Ho Hn. pose proof (log_ok_pre _ _ L) as P. destruct (lo_geo _ _ L) as [G0 G1 G2 G3].
  pose proof (lo_held _ _ L) as HH. cbn in HH. apply Forall_cons in HH as [Hb _].
  assert (Hh : hold (bio s) i b) by (apply (lo_cache _ _ L); by constructor).
  apply hold_range in Hh as (_ & _ & Hbno & _).
  pose proof (cache_mark_only _ _ _ _ _ (lo_cache _ _ L)) as C1.
  set (t1 := setbuf i _ (bio s)) in C1.
  set (s3 := mk_lst t1 (log_start s) (log_size s) 0 true (log_dev s) 1
               (updZ 0 (s32 b) (lh_block s))).
  assert (Hlg : logged s = []) by (unfold logged; by rewrite Hn).
  destruct (absorb_spec s b P) as (A1 & A2 & A3); [lia|by eapply loggable_range|].
  assert (Ha : absorb (lh_block s) (lh_n s) b = 0) by (by rewrite Hn).
  rewrite Ha, Hn, Z.eqb_refl in A1, A2, A3. change (0 + 1) with 1 in *.
  assert (Hl3 : logged s3 = logged_with (logged s) b) by exact A1.
  assert (Hlog : logged s3 = [b]) by (rewrite Hl3, Hlg; done).
  assert (P3 : log_pre s3).
  { split; [by apply (geo_frame s)|rewrite <-(lp_len s P); exact A2|exact A3|].
    rewrite Hlog. constructor; [exact Hb|constructor]. }
  destruct (write_log_held s3 [(i, b)] i P3) as [t Ht].
  - rewrite Hl3. exact C1.
  - done.
  - pose proof (lookup_logged s3 0 (lp_room _ P3) ltac:(cbn; lia)) as H0.
    rewrite Hlog in H0. injection H0 as H0. assert (blk s3 0 = b) as -> by (symmetry; exact H0).
    constructor.
  - cbn. intros Hx%list_elem_of_singleton. destruct Hb as [_ Hb]. lia.
  - rewrite Hlog. unfold NBUF, MAXOPBLOCKS. simpl. lia.
  - exists t. unfold log_write, mbind, M_bind, gets, getS, modS, bioM, lift. rewrite Ho.
    change (0 <? 1) with true. cbv iota.
    rewrite (begin_op_spec s [(i, b)] L) by (rewrite Ho, Hn; unfold LOGSIZE, MAXOPBLOCKS; lia).
    cbn [lh_n log_size set_ops lh_block bio]. rewrite Hbno, Ha, Hn.
    rewrite (proj2 (Z.leb_gt (log_size s - 1) 0)) by lia.
    change (LOGSIZE <=? 0) with false. cbn [orb mret M_ret].
    unfold end_op, commit, mbind, M_bind, gets, getS, modS, mret, M_ret.
    cbn [bio set_lh set_bio set_ops committing outstanding lh_n].
    rewrite Ho. change (0 + 1 - 1 =? 0) with true. cbv iota.
    cbn [bio set_lh set_bio set_ops committing outstanding lh_n log_start log_size log_dev lh_block].
    change (0 =? 0) with true. cbv iota. change (0 <? 0 + 1) with true. cbv iota.
    change (0 + 1 - 1) with 0. change (0 + 1) with 1. fold t1. cbv beta.
    change (set_ops 0 true _) with s3. rewrite Ht. done.
Qed.

Lemma log_write_outside_op_hangs_witness : exists s i s',
  outstanding s = 0 /\ log_write i s = Block "acquiresleep" s'.
Proof.
  destruct demo_boot as (s & _ & L & Hn & Ho & Hz & Hs & _).
  assert (Hb : loggable s 101)
    by (unfold loggable, data_block; rewrite Hz, Hs; unfold FSSIZE, LOGSIZE, MAXOPBLOCKS; lia).
  assert (Hr : lh_n s + Z.of_nat (length (@nil (Z * Z))) < NBUF)
    by (rewrite Hn; unfold NBUF, MAXOPBLOCKS; cbn; lia).
  destruct (proj1 (wp_iff _ _ _) (log_bread s [] 101 L Hb ltac:(set_solver) Hr))
    as (i & s1 & _ & L1 & [E1 _] & _).
  assert (Ho1 : outstanding s1 = 0) by (rewrite E1; exact Ho).
  destruct (log_write_outside_op_hangs s1 i 101 L1 Ho1) as (s' & E); [rewrite E1; exact Hn|].
  exists s1, i, s'. split; [exact Ho1|exact E].
Defined.

(** [log_sync] with anything to commit panics: it commits with [log.lock]
    held, and the disk driver sleeps. *)
Theorem log_sync_panics s :
  log_ok s [] -> 0 < lh_n s -> exists s', log_sync s = Panic "sched locks" s'.
Proof.
  intros L Hn. unfold log_sync, commit, mbind, M_bind, bioM, lift, modS, getS, gets.
  cbn [bio set_bio committing lh_n]. rewrite (lo_comm _ _ L).
  unfold mret, M_ret. cbn [lh_n set_bio].
  rewrite (proj2 (Z.ltb_lt 0 (lh_n s)) Hn). change (lh_n (set_bio _ s)) with (lh_n s).
  rewrite (proj2 (Z.ltb_lt 0 (lh_n s)) Hn). cbv beta.
  destruct (write_log_spin s (log_ok_pre _ _ L) (lo_cache _ _ L) Hn) as [t ->]. eauto.
Qed.

Lemma log_sync_panics_witness : exists s s', log_sync s = Panic "sched locks" s'.
Proof.
  destruct demo_tx as (s & L & Hsb & Ho & Hn & _).
  destruct (log_sync_panics s L) as (s' & E); [rewrite Hn; reflexivity|].
  exists s, s'. exact E.
Defined.
