(* ===== verification/Fs.v ===== *)
(** * Fs: blocks, inodes, directories and path names

    Model of src/kernel/fs.c on top of the log: the block allocator, the inode
    cache with its reference counts and sleep locks, the mapping of file blocks
    through direct and indirect blocks, [readi]/[writei], directories and path
    lookup with symbolic links.  The file holds the definitions; the theorems
    are in Balloc (the allocator), Content (the bytes of a file), Inode (the
    cache), Trunc (freeing) and Dir (directories and paths).

    Device files are served by [devsw], a parameter here. *)

From Stdlib Require Import ZArith Lia ZifyBool.
From stdpp Require Import base gmap strings numbers list.
From S2P Require Import Prelude CString Bio Log.

Local Open Scope Z_scope.

(** ** Constants of fs.h, param.h and stat.h *)

Definition ROOTINO : Z := 1.
Definition NDIRECT : Z := 10.
Definition NINDIRECT : Z := 128.
Definition NDINDIRECT : Z := NINDIRECT * NINDIRECT.
Definition NTINDIRECT : Z := NDINDIRECT * NINDIRECT.
Definition MAXFILE : Z := NDIRECT + NINDIRECT + NDINDIRECT + NTINDIRECT.
Definition DINODE_SIZE : Z := 72.
Definition IPB : Z := 7.
Definition BPB : Z := 4096.
Definition DIRSIZ : Z := 14.
Definition DIRENT_SIZE : Z := 16.
Definition NINODE : Z := 50.
Definition NDEV : Z := 10.
Definition T_DIR : Z := 1.
Definition T_FILE : Z := 2.
Definition T_DEV : Z := 3.
Definition T_SYMLINK : Z := 4.

(** ** State *)

Record inode : Type := mk_inode {
  idev : Z; inum : Z; iref : Z; ilk : sleeplock; ivalid : bool;
  itype : Z; imajor : Z; iminor : Z; inlink : Z; isize : Z;
  iaddrs : list Z; iatime : Z; imtime : Z
}.
Definition inode0 : inode :=
  mk_inode 0 0 0 initsleeplock false 0 0 0 0 0 (replicate 11 0) 0 0.

(** [clock] is what the hardware clock would answer now; [cwd] the inode of the
    process's current directory. *)
Record fstate : Type := mk_fs {
  flog : lst; fsb : superblock; icache : list inode; curtime : Z; clock : Z; cwd : Z
}.

Definition NULL : Z := -1.

Definition set_flog (l : lst) (s : fstate) : fstate :=
  mk_fs l (fsb s) (icache s) (curtime s) (clock s) (cwd s).
Definition set_fsb (b : superblock) (s : fstate) : fstate :=
  mk_fs (flog s) b (icache s) (curtime s) (clock s) (cwd s).
Definition set_icache (c : list inode) (s : fstate) : fstate :=
  mk_fs (flog s) (fsb s) c (curtime s) (clock s) (cwd s).
Definition set_curtime (t : Z) (s : fstate) : fstate :=
  mk_fs (flog s) (fsb s) (icache s) t (clock s) (cwd s).

Definition logM {A : Type} (m : M lst A) : M fstate A := lift flog set_flog m.
Definition bioF {A : Type} (m : M bst A) : M fstate A := logM (bioM m).

Definition geti (s : fstate) (ip : Z) : inode := nthZ inode0 (icache s) ip.
Definition seti (ip : Z) (x : inode) (s : fstate) : fstate := set_icache (updZ ip x (icache s)) s.
Definition updi (ip : Z) (f : inode -> inode) : M fstate unit :=
  modS (fun s => seti ip (f (geti s ip)) s).
Definition pid_of (s : fstate) : Z := curpid (bio (flog s)).

Definition with_ref (r : Z) (x : inode) : inode :=
  mk_inode (idev x) (inum x) r (ilk x) (ivalid x) (itype x) (imajor x) (iminor x) (inlink x)
    (isize x) (iaddrs x) (iatime x) (imtime x).
Definition with_ilk (l : sleeplock) (x : inode) : inode :=
  mk_inode (idev x) (inum x) (iref x) l (ivalid x) (itype x) (imajor x) (iminor x) (inlink x)
    (isize x) (iaddrs x) (iatime x) (imtime x).
Definition with_valid (v : bool) (x : inode) : inode :=
  mk_inode (idev x) (inum x) (iref x) (ilk x) v (itype x) (imajor x) (iminor x) (inlink x)
    (isize x) (iaddrs x) (iatime x) (imtime x).
Definition with_type (t : Z) (x : inode) : inode :=
  mk_inode (idev x) (inum x) (iref x) (ilk x) (ivalid x) t (imajor x) (iminor x) (inlink x)
    (isize x) (iaddrs x) (iatime x) (imtime x).
Definition with_dev (ma mi : Z) (x : inode) : inode :=
  mk_inode (idev x) (inum x) (iref x) (ilk x) (ivalid x) (itype x) ma mi (inlink x)
    (isize x) (iaddrs x) (iatime x) (imtime x).
Definition with_nlink (n : Z) (x : inode) : inode :=
  mk_inode (idev x) (inum x) (iref x) (ilk x) (ivalid x) (itype x) (imajor x) (iminor x) n
    (isize x) (iaddrs x) (iatime x) (imtime x).
Definition with_size (n : Z) (x : inode) : inode :=
  mk_inode (idev x) (inum x) (iref x) (ilk x) (ivalid x) (itype x) (imajor x) (iminor x) (inlink x)
    n (iaddrs x) (iatime x) (imtime x).
Definition with_addrs (a : list Z) (x : inode) : inode :=
  mk_inode (idev x) (inum x) (iref x) (ilk x) (ivalid x) (itype x) (imajor x) (iminor x) (inlink x)
    (isize x) a (iatime x) (imtime x).
Definition with_atime (t : Z) (x : inode) : inode :=
  mk_inode (idev x) (inum x) (iref x) (ilk x) (ivalid x) (itype x) (imajor x) (iminor x) (inlink x)
    (isize x) (iaddrs x) t (imtime x).
Definition with_mtime (t : Z) (x : inode) : inode :=
  mk_inode (idev x) (inum x) (iref x) (ilk x) (ivalid x) (itype x) (imajor x) (iminor x) (inlink x)
    (isize x) (iaddrs x) (iatime x) t.

(** [ip->addrs[k]].  The array has [NDIRECT + 1] elements and is followed in
    the struct by [atime] and [mtime], so the elements [NDIRECT + 1] and
    [NDIRECT + 2] that the code uses are those two fields. *)
Definition addr_get (x : inode) (k : Z) : Z :=
  if k <=? NDIRECT then nthZ 0 (iaddrs x) k
  else if k =? NDIRECT + 1 then u32 (iatime x) else u32 (imtime x).
Definition addr_set (k v : Z) (x : inode) : inode :=
  if k <=? NDIRECT then with_addrs (updZ k v (iaddrs x)) x
  else if k =? NDIRECT + 1 then with_atime (s32 v) x else with_mtime (s32 v) x.

(** ** Blocks *)

Definition fsupdtime : M fstate unit := modS (fun s => set_curtime (clock s) s).

Definition bzero (dv bno : Z) : M fstate unit :=
  bp ← bioF (bread dv bno);
  bioF (set_bdata bp zero_block) ;;
  logM (log_write bp) ;;
  bioF (brelse bp).

Definition bblock (s : fstate) (b : Z) : Z := u32 (b / BPB + sb_bmapstart (fsb s)).

(** Bit [bi] of a bitmap block. *)
Definition bit_at (d : list Z) (bi : Z) : bool :=
  negb (Z.land (nthZ 0 d (bi / 8)) (Z.shiftl 1 (bi mod 8)) =? 0).
Definition bit_set (bi : Z) (d : list Z) : list Z :=
  updZ (bi / 8) (u8 (Z.lor (nthZ 0 d (bi / 8)) (Z.shiftl 1 (bi mod 8)))) d.
Definition bit_clear (bi : Z) (d : list Z) : list Z :=
  updZ (bi / 8) (u8 (Z.land (nthZ 0 d (bi / 8)) (Z.lnot (Z.shiftl 1 (bi mod 8))))) d.

Definition balloc (dv : Z) : M fstate Z :=
  s ← getS;
  let size := sb_size (fsb s) in
  r ← forR (map (Z.mul BPB) (seqZ 0 ((size + BPB - 1) / BPB))) (fun b =>
        bp ← bioF (bread dv (bblock s b));
        d ← bioF (bdata bp);
        match List.find (fun bi => negb (bit_at d bi)) (seqZ 0 (Z.min BPB (size - b))) with
        | Some bi =>
            bioF (set_bdata bp (bit_set bi d)) ;;
            logM (log_write bp) ;;
            bioF (brelse bp) ;;
            bzero dv (b + bi) ;;
            mret (Some (b + bi))
        | None => bioF (brelse bp) ;; mret None
        end);
  match r with
  | Some b => mret b
  | None => panic "balloc: out of blocks"
  end.

Definition bfree (dv b : Z) : M fstate unit :=
  s ← getS;
  bp ← bioF (bread dv (bblock s b));
  d ← bioF (bdata bp);
  let bi := b mod BPB in
  if negb (bit_at d bi) then panic "freeing free block"
  else
    bioF (set_bdata bp (bit_clear bi d)) ;;
    logM (log_write bp) ;;
    bioF (brelse bp).

(** ** Inodes *)

Definition iblock (s : fstate) (i : Z) : Z := u32 (i / IPB + sb_inodestart (fsb s)).
(** Byte offset of inode [i] in its block. *)
Definition ioff (i : Z) : nat := Z.to_nat (DINODE_SIZE * (i mod IPB)).

Definition iinit (dv : Z) : M fstate unit :=
  modS (fun s => set_icache (map (with_ilk initsleeplock) (icache s)) s) ;;
  fsupdtime ;;
  b ← bioF (readsb dv);
  modS (fun s => set_fsb (mk_sb (sb_size b) (sb_nblocks b) (sb_ninodes b) (sb_nlog b)
                   (sb_logstart b) (sb_inodestart b) (sb_bmapstart b) (curtime s) (sb_modtime b)) s).

(** A hit in the inode cache, or else the first entry not in use. *)
Definition iget (dv i : Z) : M fstate Z := fun s =>
  match List.find (fun ip => (0 <? iref (geti s ip)) && (idev (geti s ip) =? dv)
                             && (inum (geti s ip) =? i)) (seqZ 0 NINODE) with
  | Some ip => Ok ip (seti ip (with_ref (iref (geti s ip) + 1) (geti s ip)) s)
  | None =>
      match List.find (fun ip => iref (geti s ip) =? 0) (seqZ 0 NINODE) with
      | Some ip =>
          let x := geti s ip in
          Ok ip (seti ip (mk_inode dv i 1 (ilk x) false (itype x) (imajor x) (iminor x)
                            (inlink x) (isize x) (iaddrs x) (iatime x) (imtime x)) s)
      | None => Panic "iget: no inodes" s
      end
  end.

Definition ialloc (dv type : Z) : M fstate Z :=
  fsupdtime ;;
  s ← getS;
  r ← forR (seqZ 1 (sb_ninodes (fsb s) - 1)) (fun i =>
        bp ← bioF (bread dv (iblock s i));
        d ← bioF (bdata bp);
        if get16 d (ioff i) =? 0 then
          bioF (set_bdata bp (put16 (ioff i) (u16 type)
                  (splice (ioff i) (replicate (Z.to_nat DINODE_SIZE) 0) d))) ;;
          logM (log_write bp) ;;
          bioF (brelse bp) ;;
          ip ← iget dv i;
          mret (Some ip)
        else bioF (brelse bp) ;; mret None);
  match r with
  | Some ip => mret ip
  | None => panic "ialloc: no inodes"
  end.

(** The fields [iupdate] stores in the [struct dinode] at offset [o]. *)
Definition put_words (o : nat) (a d : list Z) : list Z :=
  fold_left (fun d k => put32 (o + 4 * Z.to_nat k) (u32 (nthZ 0 a k)) d) (seqZ 0 (NDIRECT + 1)) d.
Definition put_dinode (o : nat) (x : inode) (d : list Z) : list Z :=
  let d := put16 o (u16 (itype x)) d in
  let d := put16 (o + 2) (u16 (imajor x)) d in
  let d := put16 (o + 4) (u16 (iminor x)) d in
  let d := put16 (o + 6) (u16 (inlink x)) d in
  let d := put32 (o + 8) (u32 (isize x)) d in
  let d := put32 (o + 64) (u32 (iatime x)) d in
  let d := put32 (o + 68) (u32 (imtime x)) d in
  put_words (o + 12) (iaddrs x) d.
(** The fields [ilock] loads. *)
Definition get_dinode (d : list Z) (o : nat) (x : inode) : inode :=
  mk_inode (idev x) (inum x) (iref x) (ilk x) (ivalid x)
    (s16 (get16 d o)) (s16 (get16 d (o + 2))) (s16 (get16 d (o + 4))) (s16 (get16 d (o + 6)))
    (get32 d (o + 8)) (map (fun k => get32 d (o + 12 + 4 * Z.to_nat k)) (seqZ 0 (NDIRECT + 1)))
    (s32 (get32 d (o + 64))) (s32 (get32 d (o + 68))).

Definition iupdate (ip : Z) : M fstate unit :=
  s ← getS;
  let x := geti s ip in
  bp ← bioF (bread (idev x) (iblock s (inum x)));
  d ← bioF (bdata bp);
  bioF (set_bdata bp (put_dinode (ioff (inum x)) x d)) ;;
  logM (log_write bp) ;;
  bioF (brelse bp).

Definition idup (ip : Z) : M fstate Z :=
  updi ip (fun x => with_ref (iref x + 1) x) ;; mret ip.

Definition acquirei (ip : Z) : M fstate unit := fun s =>
  match acquiresleep (pid_of s) (ilk (geti s ip)) with
  | Some lk => Ok tt (seti ip (with_ilk lk (geti s ip)) s)
  | None => Block "acquiresleep" s
  end.
Definition releasei (ip : Z) : M fstate unit :=
  updi ip (fun x => with_ilk (releasesleep (ilk x)) x).

Definition ilock (ip : Z) : M fstate unit :=
  s ← getS;
  if (ip =? NULL) || (iref (geti s ip) <? 1) then panic "ilock"
  else
    acquirei ip ;;
    x ← gets (fun s => geti s ip);
    if ivalid x then mret tt
    else
      bp ← bioF (bread (idev x) (iblock s (inum x)));
      d ← bioF (bdata bp);
      updi ip (get_dinode d (ioff (inum x))) ;;
      bioF (brelse bp) ;;
      updi ip (with_valid true) ;;
      y ← gets (fun s => geti s ip);
      if itype y =? 0 then panic "ilock: no type" else mret tt.

Definition iunlock (ip : Z) : M fstate unit :=
  s ← getS;
  if (ip =? NULL) || negb (holdingsleep (pid_of s) (ilk (geti s ip))) || (iref (geti s ip) <? 1)
  then panic "iunlock"
  else releasei ip.

(** ** Inode content *)

(** [a[i]] of the block of addresses at [addr], allocated when it is zero. *)
Definition ind_slot (dv addr i : Z) : M fstate Z :=
  bp ← bioF (bread dv addr);
  d ← bioF (bdata bp);
  let a := get32 d (Z.to_nat (4 * i)) in
  if a =? 0 then
    n ← balloc dv;
    bioF (set_bdata bp (put32 (Z.to_nat (4 * i)) n d)) ;;
    logM (log_write bp) ;;
    bioF (brelse bp) ;;
    mret n
  else bioF (brelse bp) ;; mret a.

(** [ip->addrs[k]], allocated when it is zero. *)
Definition addr_slot (ip k : Z) : M fstate Z :=
  x ← gets (fun s => geti s ip);
  if addr_get x k =? 0 then
    n ← balloc (idev x);
    updi ip (addr_set k n) ;;
    mret n
  else mret (addr_get x k).

Definition bmap (ip bn : Z) : M fstate Z :=
  dv ← gets (fun s => idev (geti s ip));
  if bn <? NDIRECT then addr_slot ip bn
  else
    let bn := bn - NDIRECT in
    if bn <? NINDIRECT then
      a ← addr_slot ip NDIRECT;
      ind_slot dv a bn
    else
      let bn := bn - NINDIRECT in
      if bn <? NDINDIRECT then
        a ← addr_slot ip (NDIRECT + 1);
        l1 ← ind_slot dv a (bn / NINDIRECT);
        ind_slot dv l1 (bn mod NINDIRECT)
      else
        let bn := bn - NDINDIRECT in
        if bn <? NTINDIRECT then
          let rem := bn mod NDINDIRECT in
          a ← addr_slot ip (NDIRECT + 2);
          l2 ← ind_slot dv a (bn / NDINDIRECT);
          l1 ← ind_slot dv l2 (rem / NINDIRECT);
          ind_slot dv l1 (rem mod NINDIRECT)
        else panic "bmap: out of range".

(** Free the blocks listed in the block at [addr], through [k] further levels
    of indirection, and then that block. *)
Fixpoint free_tree (k : nat) (dv addr : Z) : M fstate unit :=
  bp ← bioF (bread dv addr);
  d ← bioF (bdata bp);
  forM (seqZ 0 NINDIRECT) (fun j =>
    let a := get32 d (Z.to_nat (4 * j)) in
    if a =? 0 then mret tt
    else match k with O => bfree dv a | S k' => free_tree k' dv a end) ;;
  bioF (brelse bp) ;;
  bfree dv addr.

Definition itrunc (ip : Z) : M fstate unit :=
  dv ← gets (fun s => idev (geti s ip));
  forM (seqZ 0 NDIRECT) (fun i =>
    a ← gets (fun s => addr_get (geti s ip) i);
    if a =? 0 then mret tt else bfree dv a ;; updi ip (addr_set i 0)) ;;
  forM [(NDIRECT, 0%nat); (NDIRECT + 1, 1%nat); (NDIRECT + 2, 2%nat)] (fun kl =>
    a ← gets (fun s => addr_get (geti s ip) kl.1);
    if a =? 0 then mret tt else free_tree kl.2 dv a ;; updi ip (addr_set kl.1 0)) ;;
  updi ip (with_size 0) ;;
  iupdate ip.

Definition iput (ip : Z) : M fstate unit :=
  acquirei ip ;;
  x ← gets (fun s => geti s ip);
  (if ivalid x && (inlink x =? 0) && (iref x =? 1) then
     itrunc ip ;;
     updi ip (with_type 0) ;;
     iupdate ip ;;
     updi ip (with_valid false)
   else mret tt) ;;
  releasei ip ;;
  updi ip (fun x => with_ref (iref x - 1) x).

Definition iunlockput (ip : Z) : M fstate unit := iunlock ip ;; iput ip.

Record stat : Type := mk_stat {
  st_type : Z; st_dev : Z; st_ino : Z; st_nlink : Z; st_size : Z; st_atime : Z; st_mtime : Z
}.
Definition stati (ip : Z) : M fstate stat :=
  x ← gets (fun s => geti s ip);
  mret (mk_stat (itype x) (idev x) (inum x) (inlink x) (isize x) (iatime x) (imtime x)).

(** [devsw]: the read and write functions of each major device number. *)
Record devsw_t : Type := mk_devsw {
  dread : Z -> option (Z -> Z -> M fstate (Z * list Z));
  dwrite : Z -> option (Z -> list Z -> M fstate Z)
}.

Definition set_modtime : M fstate unit :=
  modS (fun s => let b := fsb s in
    set_fsb (mk_sb (sb_size b) (sb_nblocks b) (sb_ninodes b) (sb_nlog b) (sb_logstart b)
      (sb_inodestart b) (sb_bmapstart b) (sb_mounttime b) (curtime s)) s).

Section content.
Context (devsw : devsw_t).

(** [readi] yields its return value and the bytes copied to [dst].  Every
    round of the loop but the first and the last copies a whole block, so the
    fuel suffices. *)
Definition readi_loop (ip n : Z) : nat -> Z * Z * list Z -> M fstate (list Z) := fun fuel =>
  loop fuel (fun '(tot, off, acc) =>
    if tot <? n then
      dv ← gets (fun s => idev (geti s ip));
      b ← bmap ip (off / BSIZE);
      bp ← bioF (bread dv b);
      d ← bioF (bdata bp);
      let m := Z.min (n - tot) (BSIZE - off mod BSIZE) in
      bioF (brelse bp) ;;
      mret (inl (tot + m, off + m, acc ++ slice (Z.to_nat (off mod BSIZE)) (Z.to_nat m) d))
    else mret (inr acc)).

Definition readi (ip off n : Z) : M fstate (Z * list Z) :=
  fsupdtime ;;
  set_modtime ;;
  t ← gets curtime;
  updi ip (with_atime t) ;;
  x ← gets (fun s => geti s ip);
  if itype x =? T_DEV then
    if (imajor x <? 0) || (NDEV <=? imajor x) then mret (-1, [])
    else match dread devsw (imajor x) with
         | Some f => f ip n
         | None => mret (-1, [])
         end
  else if (isize x <? off) || (u32 (off + n) <? off) then mret (-1, [])
  else
    let n := if isize x <? u32 (off + n) then isize x - off else n in
    bs ← readi_loop ip n (Z.to_nat (n / BSIZE + 3)) (0, off, []);
    mret (s32 n, bs).

(** [writei]; [src] holds the [n] bytes to be written. *)
Definition writei_loop (ip n : Z) : nat -> Z * Z * list Z -> M fstate Z := fun fuel =>
  loop fuel (fun '(tot, off, src) =>
    if tot <? n then
      dv ← gets (fun s => idev (geti s ip));
      b ← bmap ip (off / BSIZE);
      bp ← bioF (bread dv b);
      d ← bioF (bdata bp);
      let m := Z.min (n - tot) (BSIZE - off mod BSIZE) in
      bioF (set_bdata bp (splice (Z.to_nat (off mod BSIZE)) (take (Z.to_nat m) src) d)) ;;
      logM (log_write bp) ;;
      bioF (brelse bp) ;;
      mret (inl (tot + m, off + m, drop (Z.to_nat m) src))
    else mret (inr off)).

Definition writei (ip : Z) (src : list Z) (off : Z) : M fstate Z :=
  let n := Z.of_nat (length src) in
  fsupdtime ;;
  set_modtime ;;
  t ← gets curtime;
  updi ip (with_mtime t) ;;
  x ← gets (fun s => geti s ip);
  if itype x =? T_DEV then
    if (imajor x <? 0) || (NDEV <=? imajor x) then mret (-1)
    else match dwrite devsw (imajor x) with
         | Some f => f ip src
         | None => mret (-1)
         end
  else if (isize x <? off) || (u32 (off + n) <? off) then mret (-1)
  else if u32 (MAXFILE * BSIZE) <? u32 (off + n) then mret (-1)
  else
    off ← writei_loop ip n (Z.to_nat (n / BSIZE + 3)) (0, off, src);
    y ← gets (fun s => geti s ip);
    (if (0 <? n) && (isize y <? off) then updi ip (with_size off) ;; iupdate ip else mret tt) ;;
    mret (s32 n).

(** ** Directories *)

Definition namecmp (s t : list Z) : Z := strncmp (arr s) (arr t) DIRSIZ.

(** [struct dirent]: [ushort inum; char name[DIRSIZ]]. *)
Definition de_inum (de : list Z) : Z := get16 de 0.
Definition de_name (de : list Z) : list Z := slice 2 (Z.to_nat DIRSIZ) de.

(** The offsets at which a directory of this size has entries. *)
Definition de_offs (size : Z) : list Z :=
  map (Z.mul DIRENT_SIZE) (seqZ 0 ((size + DIRENT_SIZE - 1) / DIRENT_SIZE)).

(** Result: the inode found and the offset of its entry. *)
Definition dirlookup (dp : Z) (name : list Z) : M fstate (option (Z * Z)) :=
  x ← gets (fun s => geti s dp);
  if negb (itype x =? T_DIR) then panic "dirlookup not DIR"
  else
    forR (de_offs (isize x)) (fun off =>
      r ← readi dp off DIRENT_SIZE;
      if negb (r.1 =? DIRENT_SIZE) then panic "dirlookup read"
      else if de_inum r.2 =? 0 then mret None
      else if namecmp name (de_name r.2) =? 0 then
        ip ← iget (idev x) (de_inum r.2);
        mret (Some (ip, off))
      else mret None).

Definition mk_dirent (i : Z) (name : list Z) : list Z :=
  le_encode 2 (u16 i) ++ map (strncpy (fun _ => 0) (arr name) DIRSIZ) (seqZ 0 DIRSIZ).

Definition dirlink (dp : Z) (name : list Z) (i : Z) : M fstate Z :=
  found ← dirlookup dp name;
  match found with
  | Some (ip, _) => iput ip ;; mret (-1)
  | None =>
      size ← gets (fun s => isize (geti s dp));
      r ← forR (de_offs size) (fun off =>
            r ← readi dp off DIRENT_SIZE;
            if negb (r.1 =? DIRENT_SIZE) then panic "dirlink read"
            else if de_inum r.2 =? 0 then mret (Some off) else mret None);
      let off := match r with Some off => off
                 | None => DIRENT_SIZE * ((size + DIRENT_SIZE - 1) / DIRENT_SIZE) end in
      w ← writei dp (mk_dirent i name) off;
      if negb (w =? DIRENT_SIZE) then panic "dirlink" else mret 0
  end.

(** ** Paths

    A path is the list of the bytes before its NUL. *)

Definition SLASH : Z := 47.

Fixpoint skip_slashes (path : list Z) : list Z :=
  match path with
  | c :: path' => if c =? SLASH then skip_slashes path' else path
  | [] => []
  end.
Fixpoint split_elem (path : list Z) : list Z * list Z :=
  match path with
  | c :: path' =>
      if c =? SLASH then ([], path)
      else let '(e, rest) := split_elem path' in (c :: e, rest)
  | [] => ([], [])
  end.

(** [None] is the null pointer; otherwise the rest of the path and [name]. *)
Definition skipelem (path name : list Z) : option (list Z * list Z) :=
  match skip_slashes path with
  | [] => None
  | p =>
      let '(s, rest) := split_elem p in
      let len := Z.of_nat (length s) in
      let name := if DIRSIZ <=? len then splice 0 (take (Z.to_nat DIRSIZ) s) name
                  else splice 0 (s ++ [0]) name in
      Some (skip_slashes rest, name)
  end.

Definition namex (path : list Z) (nameiparent : bool) (name : list Z) : M fstate (Z * list Z) :=
  dir ← gets cwd;
  ip ← (if arr path 0 =? SLASH then iget ROOTDEV ROOTINO else idup dir);
  loop (S (length path)) (fun '(ip, path, name) =>
    match skipelem path name with
    | None =>
        if nameiparent then iput ip ;; mret (inr (NULL, name)) else mret (inr (ip, name))
    | Some (path, name) =>
        ilock ip ;;
        x ← gets (fun s => geti s ip);
        if negb (itype x =? T_DIR) then iunlockput ip ;; mret (inr (NULL, name))
        else if nameiparent && (arr path 0 =? 0) then iunlock ip ;; mret (inr (ip, name))
        else
          next ← dirlookup ip name;
          match next with
          | None => iunlockput ip ;; mret (inr (NULL, name))
          | Some (next, _) => iunlockput ip ;; mret (inl (next, path, name))
          end
    end) (ip, path, name).

Definition name0 : list Z := replicate (Z.to_nat DIRSIZ) 0.

(** The bytes of [ip->addrs], where a symbolic link keeps its target.  A target
    longer than the array overruns the buffer [target]. *)
Definition addrs_bytes (x : inode) : list Z := concat (map (le_encode 4) (iaddrs x)).

Definition nameifollow (ip : Z) : M fstate Z :=
  x ← gets (fun s => geti s ip);
  if Z.of_nat (length (addrs_bytes x)) <? isize x then panic "undefined"
  else
    r ← namex (cstr (arr (addrs_bytes x)) 0 (Z.to_nat (isize x))) false name0;
    mret r.1.

(** The first test of the loop reads [ip->type] also when [namex] returned a
    null pointer. *)
Definition namei (path : list Z) : M fstate Z :=
  r ← namex path false name0;
  if r.1 =? NULL then panic "undefined"
  else
    loop 12 (fun '(ip, depth) =>
      t ← gets (fun s => itype (geti s ip));
      if t =? T_SYMLINK then
        next ← nameifollow ip;
        iput ip ;;
        if next =? NULL then mret (inr NULL)
        else if 10 <? depth + 1 then mret (inr NULL)
        else mret (inl (next, depth + 1))
      else mret (inr ip)) (r.1, 0).

Definition nameiparent (path name : list Z) : M fstate (Z * list Z) := namex path true name.
End content.

Definition fssync : M fstate unit :=
  logM begin_op ;;
  logM log_sync ;;
  bioF bsync ;;
  logM end_op.
