(* ===== verification/Balloc.v ===== *)
(** * Balloc: the block layer of the file system

    The invariant the file system keeps on top of the log ([fs_ok]), the steps
    [bread], [log_write], [brelse] in its terms, and the theorems about the block
    allocator of src/kernel/fs.c ([balloc], [bfree], [bzero]). *)

From Stdlib Require Import ZArith Lia ZifyBool.
From stdpp Require Import base gmap strings numbers list.
From S2P Require Import Prelude CString Bio Log Fs.

Local Open Scope Z_scope.

(** ** The invariant *)

(** The contents of block [b] as the file system sees it. *)
Definition blkv (s : fstate) (b : Z) : list Z := view (bio (flog s)) b.
Definition is_bytes (d : list Z) : Prop := Forall (fun x => 0 <= x < 256) d.

(** Layout: log, inode blocks, bitmap, data. *)
Definition data_start (s : fstate) : Z :=
  sb_bmapstart (fsb s) + (sb_size (fsb s) - 1) / BPB + 1.
Record fs_geo (s : fstate) : Prop := {
  fg_inodes : log_start (flog s) + log_size (flog s) <= sb_inodestart (fsb s);
  fg_ninodes : 0 < sb_ninodes (fsb s);
  fg_bmap : sb_inodestart (fsb s) + sb_ninodes (fsb s) / IPB + 1 <= sb_bmapstart (fsb s);
  fg_data : data_start s <= sb_size (fsb s);
  fg_size : 0 < sb_size (fsb s) <= FSSIZE
}.

Definition used (s : fstate) (b : Z) : bool := bit_at (blkv s (bblock s b)) (b mod BPB).
Definition is_bitmap (s : fstate) (b : Z) : Prop := sb_bmapstart (fsb s) <= b < data_start s.

Record fs_ok (s : fstate) (H : list (Z * Z)) : Prop := {
  fo_log : log_ok (flog s) H;
  fo_geo : fs_geo s;
  fo_bytes : forall b, is_bytes (blkv s b);
  fo_meta : forall b, 0 <= b < data_start s -> used s b = true
}.

(** Room for [k] more blocks in the transaction. *)
Record room (s : fstate) (H : list (Z * Z)) (k : Z) : Prop := {
  ro_out : 1 <= outstanding (flog s);
  ro_log : lh_n (flog s) + k <= log_size (flog s) - 1;
  ro_buf : lh_n (flog s) + k + Z.of_nat (length H) < NBUF
}.

(** What a step may not change besides the blocks it writes. *)
Record fframe (s s' : fstate) (k : Z) : Prop := {
  ff_eq : s' = set_flog (flog s') s;
  ff_tx : same_tx (flog s) (flog s');
  ff_n : lh_n (flog s') <= lh_n (flog s) + k;
  ff_log : exists l, logged (flog s') = logged (flog s) ++ l /\ Z.of_nat (length l) <= k
}.
(** A step that changes no block. *)
Definition quiet (s s' : fstate) : Prop :=
  fframe s s' 0 /\ forall c, blkv s' c = blkv s c.

Lemma set_flog_set a b s : set_flog a (set_flog b s) = set_flog a s.
Proof. done. Qed.

Lemma fframe_refl s : fframe s s 0.
Proof.
  split; [by destruct s|apply same_log_tx, same_log_refl|lia|]. exists []. by rewrite app_nil_r.
Qed.

Lemma fframe_trans s1 s2 s3 k1 k2 :
  fframe s1 s2 k1 -> fframe s2 s3 k2 -> fframe s1 s3 (k1 + k2).
Proof.
  intros [E1 T1 N1 (l1 & L1 & K1)] [E2 T2 N2 (l2 & L2 & K2)]. split.
  - rewrite E2, E1 at 1. done.
  - by eapply same_tx_trans.
  - lia.
  - exists (l1 ++ l2). rewrite L2, L1, length_app, app_assoc. split; [done|lia].
Qed.

Lemma fframe_weaken s s' k k' : fframe s s' k -> k <= k' -> fframe s s' k'.
Proof.
  intros [E T N (l & Hl & Hn)] Hk. split; [done|done|lia|]. exists l. split; [done|lia].
Qed.

Lemma quiet_refl s : quiet s s.
Proof. split; [apply fframe_refl|done]. Qed.

Lemma quiet_trans s1 s2 s3 : quiet s1 s2 -> quiet s2 s3 -> quiet s1 s3.
Proof.
  intros [F1 V1] [F2 V2]. split; [apply (fframe_trans _ _ _ 0 0 F1 F2)|].
  intros c. by rewrite V2.
Qed.

Lemma fframe_sb s s' k : fframe s s' k -> fsb s' = fsb s.
Proof. intros [E _ _ _]. by rewrite E. Qed.
Lemma fframe_icache s s' k : fframe s s' k -> icache s' = icache s.
Proof. intros [E _ _ _]. by rewrite E. Qed.
Lemma fframe_geti s s' k ip : fframe s s' k -> geti s' ip = geti s ip.
Proof. intros F. unfold geti. by rewrite (fframe_icache _ _ _ F). Qed.

Lemma fs_geo_frame s s' k : fframe s s' k -> fs_geo s -> fs_geo s'.
Proof.
  intros F [G1 G2 G3 G4 G5]. pose proof (fframe_sb _ _ _ F) as Hsb.
  destruct (ff_tx _ _ _ F) as (T1 & T2 & _). unfold data_start in *.
  split; unfold data_start; rewrite ?Hsb, ?T1, ?T2; done.
Qed.

Lemma fframe_loggable s s' k b : fframe s s' k -> loggable (flog s) b -> loggable (flog s') b.
Proof. intros F. apply loggable_frame. apply F. Qed.

Lemma fs_ok_quiet s s' H H' : fs_ok s H -> quiet s s' -> log_ok (flog s') H' -> fs_ok s' H'.
Proof.
  intros [L G B Mt] [F V] L'. pose proof (fframe_sb _ _ _ F) as Hsb. split; [done| | |].
  - by eapply fs_geo_frame.
  - intros b. rewrite V. apply B.
  - intros b. unfold data_start, used, bblock. rewrite Hsb, V. apply Mt.
Qed.

Lemma room_quiet s s' H H' k :
  room s H k -> quiet s s' -> length H' = length H -> room s' H' k.
Proof.
  intros [R1 R2 R3] [[_ T N _] _] Hl. destruct T as (_ & T2 & _ & T4 & _).
  split; rewrite ?T2, ?T4, ?Hl; lia.
Qed.

(** ** Steps *)

Lemma fframe_same_log s l : same_log (flog s) l -> fframe s (set_flog l s) 0.
Proof.
  intros T. split; [done|by apply same_log_tx|..]; destruct T as [-> _].
  - cbn. lia.
  - exists []. by rewrite app_nil_r.
Qed.

Lemma fs_bread s H b :
  fs_ok s H -> loggable (flog s) b -> b ∉ H.*2 ->
  lh_n (flog s) + Z.of_nat (length H) < NBUF ->
  wp (bioF (bread ROOTDEV b)) (fun i s' => fs_ok s' ((i, b) :: H) /\ quiet s s') s.
Proof.
  intros O Hb Hn Hr. apply wp_lift. eapply wp_mono; [by apply log_bread; [apply O|..]|].
  intros i l (L & T & V). cbv beta.
  assert (Q : quiet s (set_flog l s)).
  { split; [|done]. by apply fframe_same_log. }
  split; [|done]. by eapply fs_ok_quiet.
Qed.

Lemma fs_brelse s H i b :
  fs_ok s ((i, b) :: H) ->
  wp (bioF (brelse i)) (fun _ s' => fs_ok s' H /\ quiet s s') s.
Proof.
  intros O. apply wp_lift. eapply wp_mono; [eapply log_brelse, (fo_log _ _ O)|].
  intros [] l (L & T & V).
  assert (Q : quiet s (set_flog l s)).
  { split; [|done]. by apply fframe_same_log. }
  split; [|done]. by eapply fs_ok_quiet.
Qed.

Lemma fs_bdata s H i b (Q : list Z -> fstate -> Prop) :
  fs_ok s H -> (i, b) ∈ H -> Q (blkv s b) s -> wp (bioF (bdata i)) Q s.
Proof.
  intros O Hin HQ. apply wp_lift. eapply log_bdata; [apply O|done|]. by destruct s.
Qed.

(** The two steps of an update, as the file system uses them. *)
Lemma wp_fs2 {A} (m1 : M bst unit) (m2 : M lst unit) (k : M fstate A) Q s :
  wp (bioM m1 ;; m2) (fun _ l => wp k Q (set_flog l s)) (flog s) ->
  wp (bioF m1 ;; logM m2 ;; k) Q s.
Proof.
  unfold wp, mbind, M_bind, bioF, logM, lift. destruct (bioM m1 (flog s)) as [[] l| | |]; [|done..].
  cbn [flog set_flog]. by destruct (m2 l) as [[] l'| | |].
Qed.

Record updated (s s' : fstate) (b : Z) (d : list Z) : Prop := {
  up_frame : fframe s s' 1;
  up_logged : logged (flog s') = logged_with (logged (flog s)) b;
  up_view : forall c, blkv s' c = if decide (c = b) then d else blkv s c
}.

Lemma fs_update {A} s H i b d (k : M fstate A) Q :
  fs_ok s ((i, b) :: H) -> 1 <= outstanding (flog s) -> lh_n (flog s) < log_size (flog s) - 1 ->
  length d = Z.to_nat BSIZE ->
  (forall s', log_ok (flog s') ((i, b) :: H) -> updated s s' b d -> wp k Q s') ->
  wp (bioF (set_bdata i d) ;; logM (log_write i) ;; k) Q s.
Proof.
  intros O Ho Hn Hd Hk. apply wp_fs2. eapply wp_mono; [by apply log_update; [apply O|..]|].
  intros [] l (L & Hl & T & V). apply Hk; [done|]. split; [|done|done]. split; [done|done| |].
  - cbn [flog set_flog]. rewrite (lh_n_logged _ _ L), Hl, (lh_n_logged _ _ (fo_log _ _ O)).
    unfold logged_with. case_decide; [lia|]. rewrite length_app. simpl. lia.
  - cbn [flog set_flog]. rewrite Hl. unfold logged_with. case_decide; [|by exists [b]].
    exists []. rewrite app_nil_r. simpl. split; [done|lia].
Qed.

(** An update of a block outside the bitmap keeps the invariant. *)
Lemma fs_ok_updated s s' H H' b d :
  fs_ok s H -> updated s s' b d -> log_ok (flog s') H' -> is_bytes d -> ~ is_bitmap s b ->
  fs_ok s' H' /\ (forall c, 0 <= c < sb_size (fsb s) -> used s' c = used s c).
Proof.
  intros O [F _ V] L' Hd Hb. pose proof (fframe_sb _ _ _ F) as Hsb. pose proof (fo_geo _ _ O) as G.
  assert (Hu : forall c, 0 <= c < sb_size (fsb s) -> used s' c = used s c).
  { intros c Hc. unfold used, bblock. rewrite Hsb, V, decide_False; [done|].
    intros E. apply Hb. unfold is_bitmap, data_start. rewrite <-E.
    assert (0 <= c / BPB <= (sb_size (fsb s) - 1) / BPB).
    { split; [apply Z.div_pos; unfold BPB; lia|]. apply Z.div_le_mono; [unfold BPB|]; lia. }
    destruct G as [G1 G2 G3 G4 G5]. destruct (lo_geo _ _ (fo_log _ _ O)) as [_ P1 P2 P3].
    assert (0 <= sb_ninodes (fsb s) / IPB) by (apply Z.div_pos; unfold IPB; lia).
    unfold data_start in *. rewrite u32_small by (unfold FSSIZE in *; lia). lia. }
  split; [|done]. split; [done|by eapply fs_geo_frame| |].
  - intros c. rewrite V. case_decide; [done|apply O].
  - intros c Hc. unfold data_start in Hc. rewrite Hsb in Hc. fold (data_start s) in Hc.
    rewrite Hu by (destruct G; lia). by apply O.
Qed.

(** ** Bits *)

Lemma testbit_byte_mask x k : 0 <= k -> (Z.land x (Z.shiftl 1 k) =? 0) = negb (Z.testbit x k).
Proof.
  intros Hk. destruct (Z.testbit x k) eqn:E; simpl.
  - apply Z.eqb_neq. intros H. assert (Hb : Z.testbit (Z.land x (Z.shiftl 1 k)) k = false)
      by (rewrite H; apply Z.bits_0).
    rewrite Z.land_spec, E, Z.shiftl_1_l, Z.pow2_bits_true in Hb by done. done.
  - apply Z.eqb_eq. apply Z.bits_inj'. intros n Hn.
    rewrite Z.land_spec, Z.shiftl_1_l, Z.bits_0, Z.pow2_bits_eqb by done.
    destruct (Z.eqb_spec k n) as [->|]; [by rewrite E|by rewrite andb_false_r].
Qed.

Lemma bit_at_testbit d bi :
  0 <= bi -> bit_at d bi = Z.testbit (nthZ 0 d (bi / 8)) (bi mod 8).
Proof.
  intros Hb. unfold bit_at. rewrite testbit_byte_mask by (apply Z.mod_pos_bound; lia).
  by destruct (Z.testbit _ _).
Qed.

Lemma testbit_u8 x k : 0 <= k < 8 -> Z.testbit (u8 x) k = Z.testbit x k.
Proof. intros Hk. unfold u8. change 256 with (2 ^ 8). apply Z.mod_pow2_bits_low. lia. Qed.

Lemma div_mod_8_inj a b : a / 8 = b / 8 -> a mod 8 = b mod 8 -> a = b.
Proof. intros H1 H2. rewrite (Z.div_mod a 8), (Z.div_mod b 8) by lia. congruence. Qed.

(** Writing one byte changes one bit of the map. *)
Lemma bit_at_upd d bi c v bit :
  0 <= bi -> bi / 8 < Z.of_nat (length d) -> 0 <= c ->
  (forall k, 0 <= k < 8 ->
     Z.testbit v k = if decide (k = bi mod 8) then bit else Z.testbit (nthZ 0 d (bi / 8)) k) ->
  bit_at (updZ (bi / 8) v d) c = if decide (c = bi) then bit else bit_at d c.
Proof.
  intros Hb Hlen Hc Hv. assert (H0 : 0 <= bi / 8) by (apply Z.div_pos; lia).
  rewrite !bit_at_testbit by done. pose proof (Z.mod_pos_bound c 8).
  destruct (decide (c / 8 = bi / 8)) as [E|E].
  - rewrite E, nthZ_updZ_eq by lia. rewrite Hv by lia.
    destruct (decide (c = bi)) as [->|Hne].
    + by rewrite decide_True.
    + rewrite decide_False; [done|]. intros Hm. apply Hne. by apply div_mod_8_inj.
  - rewrite nthZ_updZ_ne by congruence. rewrite decide_False; [done|]. congruence.
Qed.

Lemma bit_at_set d bi c :
  0 <= bi -> bi / 8 < Z.of_nat (length d) -> 0 <= c ->
  bit_at (bit_set bi d) c = if decide (c = bi) then true else bit_at d c.
Proof.
  intros Hb Hl Hc. apply bit_at_upd; [done..|]. intros k Hk.
  pose proof (Z.mod_pos_bound bi 8).
  rewrite testbit_u8, Z.lor_spec, Z.shiftl_1_l, Z.pow2_bits_eqb by lia.
  case_decide as E; [rewrite E, Z.eqb_refl; apply orb_true_r|].
  rewrite (proj2 (Z.eqb_neq _ _)) by congruence. apply orb_false_r.
Qed.

Lemma bit_at_clear d bi c :
  0 <= bi -> bi / 8 < Z.of_nat (length d) -> 0 <= c ->
  bit_at (bit_clear bi d) c = if decide (c = bi) then false else bit_at d c.
Proof.
  intros Hb Hl Hc. apply bit_at_upd; [done..|]. intros k Hk.
  pose proof (Z.mod_pos_bound bi 8).
  rewrite testbit_u8, Z.land_spec, Z.lnot_spec, Z.shiftl_1_l, Z.pow2_bits_eqb by lia.
  case_decide as E; [rewrite E, Z.eqb_refl; apply andb_false_r|].
  rewrite (proj2 (Z.eqb_neq _ _)) by congruence. apply andb_true_r.
Qed.

Lemma is_bytes_updZ i x d : is_bytes d -> 0 <= x < 256 -> is_bytes (updZ i x d).
Proof. intros Hd Hx. unfold updZ. case_match; [done|]. by apply Forall_insert. Qed.

Lemma is_bytes_bit_set bi d : is_bytes d -> is_bytes (bit_set bi d).
Proof. intros Hd. apply is_bytes_updZ; [done|]. apply u8_range. Qed.
Lemma is_bytes_bit_clear bi d : is_bytes d -> is_bytes (bit_clear bi d).
Proof. intros Hd. apply is_bytes_updZ; [done|]. apply u8_range. Qed.
Lemma is_bytes_zero : is_bytes zero_block.
Proof. apply Forall_replicate. lia. Qed.

(** ** Addresses of blocks *)

Lemma sb_bounds s H :
  fs_ok s H -> 2 <= sb_bmapstart (fsb s) /\ data_start s <= sb_size (fsb s) <= FSSIZE
  /\ log_start (flog s) + log_size (flog s) <= sb_bmapstart (fsb s)
  /\ sb_bmapstart (fsb s) < data_start s.
Proof.
  intros O. destruct (fo_geo _ _ O) as [G1 G2 G3 G4 G5].
  destruct (lo_geo _ _ (fo_log _ _ O)) as [_ P1 P2 P3].
  assert (0 <= sb_ninodes (fsb s) / IPB) by (apply Z.div_pos; unfold IPB; lia).
  assert (0 <= (sb_size (fsb s) - 1) / BPB) by (apply Z.div_pos; unfold BPB; lia).
  unfold data_start in *. lia.
Qed.

Lemma bblock_bitmap s H b :
  fs_ok s H -> 0 <= b < sb_size (fsb s) ->
  bblock s b = b / BPB + sb_bmapstart (fsb s) /\ is_bitmap s (bblock s b).
Proof.
  intros O Hb. pose proof (sb_bounds s H O) as (B1 & B2 & B3 & B4).
  assert (0 <= b / BPB <= (sb_size (fsb s) - 1) / BPB).
  { split; [apply Z.div_pos; unfold BPB; lia|]. apply Z.div_le_mono; [unfold BPB|]; lia. }
  unfold bblock, is_bitmap, data_start in *.
  rewrite u32_small by (unfold FSSIZE in *; lia). lia.
Qed.

Lemma bitmap_loggable s H b : fs_ok s H -> is_bitmap s b -> loggable (flog s) b.
Proof.
  intros O Hb. pose proof (sb_bounds s H O) as (B1 & B2 & B3 & B4).
  unfold is_bitmap in Hb. split; [lia|]. lia.
Qed.

Lemma data_loggable s H b :
  fs_ok s H -> data_start s <= b < sb_size (fsb s) -> loggable (flog s) b /\ ~ is_bitmap s b.
Proof.
  intros O Hb. pose proof (sb_bounds s H O) as (B1 & B2 & B3 & B4).
  unfold is_bitmap. split; [split; [lia|lia]|lia].
Qed.

(** ** The allocator *)

Definition held_ok (s : fstate) (H : list (Z * Z)) : Prop :=
  Forall (fun b => 0 <= b < sb_size (fsb s) /\ used s b = true /\ ~ is_bitmap s b) H.*2.

Lemma held_ok_notin s H b : held_ok s H -> is_bitmap s b \/ used s b = false -> b ∉ H.*2.
Proof.
  intros Hh Hb Hin. unfold held_ok in Hh. rewrite Forall_forall in Hh.
  destruct (Hh b Hin) as (_ & Hu & Hn). destruct Hb; [done|congruence].
Qed.

Lemma used_updated s s' H b bit d' :
  fs_ok s H -> 0 <= b < sb_size (fsb s) -> updated s s' (bblock s b) d' ->
  (forall j, 0 <= j < BPB ->
     bit_at d' j = if decide (j = b mod BPB) then bit else bit_at (blkv s (bblock s b)) j) ->
  forall c, 0 <= c < sb_size (fsb s) -> used s' c = if decide (c = b) then bit else used s c.
Proof.
  intros O Hb [F _ V] Hbit c Hc. unfold used at 1.
  replace (bblock s' c) with (bblock s c) by (unfold bblock; by rewrite (fframe_sb _ _ _ F)).
  rewrite V. destruct (bblock_bitmap s H b O Hb) as [E1 _]. destruct (bblock_bitmap s H c O Hc) as [E2 _].
  assert (Hm : 0 <= c mod BPB < BPB) by (apply Z.mod_pos_bound; unfold BPB; lia).
  destruct (decide (bblock s c = bblock s b)) as [E|E].
  - rewrite Hbit by done. destruct (decide (c = b)) as [->|Hne]; [by rewrite decide_True|].
    rewrite decide_False; [unfold used; by rewrite E|]. intros Em. apply Hne.
    rewrite (Z.div_mod c BPB), (Z.div_mod b BPB) by (unfold BPB; lia).
    rewrite Em. f_equal. f_equal. lia.
  - rewrite decide_False; [done|]. congruence.
Qed.

Lemma fs_ok_bitmap s s' H H' b bit d' :
  fs_ok s H -> 0 <= b < sb_size (fsb s) -> updated s s' (bblock s b) d' -> is_bytes d' ->
  log_ok (flog s') H' ->
  (forall c, 0 <= c < sb_size (fsb s) -> used s' c = if decide (c = b) then bit else used s c) ->
  bit = true \/ data_start s <= b -> fs_ok s' H'.
Proof.
  intros O Hb [F _ V] Hd L' Hu Hbit. pose proof (fframe_sb _ _ _ F) as Hsb.
  pose proof (sb_bounds s H O) as (B1 & B2 & B3 & B4). split; [done| | |].
  - eapply fs_geo_frame; [done|apply O].
  - intros c. rewrite V. case_decide; [done|apply O].
  - intros c. unfold data_start. rewrite Hsb. fold (data_start s). intros Hc.
    rewrite Hu by lia. case_decide; [|by apply O]. destruct Hbit; [done|lia].
Qed.

Lemma bzero_spec s H b :
  fs_ok s H -> room s H 1 -> data_start s <= b < sb_size (fsb s) -> b ∉ H.*2 ->
  wp (bzero ROOTDEV b) (fun _ s' => fs_ok s' H /\ fframe s s' 1
    /\ (forall c, 0 <= c < sb_size (fsb s) -> used s' c = used s c)
    /\ (forall c, blkv s' c = if decide (c = b) then zero_block else blkv s c)) s.
Proof.
  intros O R Hb Hn. destruct (data_loggable s H b O Hb) as [Hlg Hnb]. destruct R as [R1 R2 R3].
  unfold bzero. apply wp_bind. eapply wp_mono; [apply fs_bread; [done|done|done|lia]|].
  intros i s1 (O1 & Q1). pose proof Q1 as [F1 V1].
  destruct (ff_tx _ _ _ F1) as (_ & T2 & _ & T4 & _). pose proof (ff_n _ _ _ F1) as N1.
  eapply fs_update; [done|lia|lia|done|]. intros s2 L2 U2.
  destruct (fs_ok_updated s1 s2 ((i, b) :: H) ((i, b) :: H) b _ O1 U2 L2 is_bytes_zero) as [O2 Hu2].
  { unfold is_bitmap, data_start. rewrite (fframe_sb _ _ _ F1). exact Hnb. }
  eapply wp_mono; [eapply fs_brelse; exact O2|]. intros [] s3 (O3 & F3 & V3).
  destruct U2 as [F2 Hl2 V2]. pose proof (fframe_sb _ _ _ F1) as Hsb1. pose proof (fframe_sb _ _ _ F2) as Hsb2.
  pose proof (fframe_sb _ _ _ F3) as Hsb3. split_and!; [done| | |].
  - exact (fframe_trans _ _ _ 1 0 (fframe_trans _ _ _ 0 1 F1 F2) F3).
  - intros c Hc. rewrite Hsb1 in Hu2. transitivity (used s2 c).
    { unfold used, bblock. by rewrite V3, Hsb3. }
    rewrite Hu2 by done. unfold used, bblock. by rewrite V1, Hsb1.
  - intros c. rewrite V3, V2. by rewrite V1.
Qed.

Record allocated (s s' : fstate) (b : Z) : Prop := {
  al_free : used s b = false;
  al_range : data_start s <= b < sb_size (fsb s);
  al_first : forall c, 0 <= c < b -> used s c = true;
  al_used : forall c, 0 <= c < sb_size (fsb s) ->
              used s' c = if decide (c = b) then true else used s c;
  al_zero : blkv s' b = zero_block;
  al_rest : forall c, c <> b -> ~ is_bitmap s c -> blkv s' c = blkv s c;
  al_frame : fframe s s' 2
}.

(** One bitmap block has a free bit: the rest of [balloc]'s loop body. *)
Lemma balloc_found s H i b0 bi :
  let b := BPB * b0 + bi in
  fs_ok s ((i, bblock s b) :: H) -> held_ok s H -> room s H 2 ->
  0 <= bi < BPB -> 0 <= b0 -> b < sb_size (fsb s) -> used s b = false ->
  (forall c, 0 <= c < b -> used s c = true) ->
  wp (bioF (set_bdata i (bit_set bi (blkv s (bblock s b)))) ;;
      logM (log_write i) ;; bioF (brelse i) ;; bzero ROOTDEV b ;; mret (Some b))
    (fun r s' => r = Some b /\ fs_ok s' H /\ allocated s s' b) s.
Proof.
  intros b O Hh R Hbi Hb0 Hsz Hfree Hfirst. destruct R as [R1 R2 R3].
  assert (Hb : 0 <= b < sb_size (fsb s)) by (unfold b, BPB in *; lia).
  assert (Hmod : b mod BPB = bi).
  { unfold b. rewrite Z.add_comm, Z.mul_comm, Z.mod_add, Z.mod_small; unfold BPB in *; lia. }
  assert (Hrange : data_start s <= b).
  { destruct (decide (data_start s <= b)); [done|]. pose proof (fo_meta _ _ O b). rewrite H0 in Hfree by lia. done. }
  assert (Hlen : length (blkv s (bblock s b)) = Z.to_nat BSIZE)
    by (apply length_view, (lo_cache _ _ (fo_log _ _ O))).
  assert (Hbyte : bi / 8 < Z.of_nat (length (blkv s (bblock s b)))).
  { rewrite Hlen. apply Z.div_lt_upper_bound; unfold BSIZE, BPB in *; lia. }
  eapply fs_update; [done|lia|lia|by unfold bit_set; rewrite length_updZ|]. intros s1 L1 U1.
  assert (Hu1 : forall c, 0 <= c < sb_size (fsb s) ->
            used s1 c = if decide (c = b) then true else used s c).
  { eapply used_updated; [done|done|done|]. intros j Hj. rewrite bit_at_set, Hmod by lia. done. }
  assert (O1 : fs_ok s1 ((i, bblock s b) :: H)).
  { eapply (fs_ok_bitmap s s1 _ _ b true); [done|done|done| |done|done|by left].
    apply is_bytes_bit_set, (fo_bytes _ _ O). }
  destruct U1 as [F1 _ V1]. destruct (ff_tx _ _ _ F1) as (_ & T2 & _ & T4 & _).
  pose proof (ff_n _ _ _ F1) as N1. pose proof (fframe_sb _ _ _ F1) as Hsb1.
  apply wp_bind. eapply wp_mono; [eapply fs_brelse; exact O1|]. intros [] s2 (O2 & F2 & V2).
  destruct (ff_tx _ _ _ F2) as (_ & T2' & _ & T4' & _).
  pose proof (ff_n _ _ _ F2) as N2. pose proof (fframe_sb _ _ _ F2) as Hsb2.
  assert (Hds2 : data_start s2 = data_start s) by (unfold data_start; by rewrite Hsb2, Hsb1).
  apply wp_bind. eapply wp_mono.
  { apply bzero_spec; [done|split; lia|rewrite Hds2, Hsb2, Hsb1; lia|].
    apply (held_ok_notin s); [done|by right]. }
  intros [] s3 (O3 & F3 & Hu3 & V3). apply wp_ret.
  split_and!; [done|done|]. split; [done|done|done| | | |].
  - intros c Hc. rewrite Hu3 by (by rewrite Hsb2, Hsb1). rewrite <-Hu1 by done.
    unfold used, bblock. by rewrite V2, Hsb2.
  - rewrite V3. by rewrite decide_True.
  - intros c Hc Hnb. rewrite V3, decide_False, V2, V1, decide_False; [done| |done].
    intros ->. apply Hnb. by eapply bblock_bitmap.
  - exact (fframe_trans _ _ _ 1 1 (fframe_trans _ _ _ 1 0 F1 F2) F3).
Qed.

Lemma bitmap_starts size done x rest :
  0 < size -> map (Z.mul BPB) (seqZ 0 ((size + BPB - 1) / BPB)) = done ++ x :: rest ->
  x = BPB * Z.of_nat (length done) /\ 0 <= x < size.
Proof.
  intros Hs Hl.
  assert (Hx : map (Z.mul BPB) (seqZ 0 ((size + BPB - 1) / BPB)) !! length done = Some x)
    by (rewrite Hl; apply list_lookup_middle; done).
  rewrite list_lookup_fmap in Hx. apply fmap_Some in Hx as (k & Hk & ->).
  apply lookup_seqZ in Hk as [-> Hk]. split; [lia|].
  assert (BPB * ((size + BPB - 1) / BPB) <= size + BPB - 1) by (apply Z.mul_div_le; unfold BPB; lia).
  unfold BPB in *. lia.
Qed.

Lemma quiet_used s s' : quiet s s' -> forall c, used s' c = used s c.
Proof. intros [F V] c. unfold used, bblock. by rewrite V, (fframe_sb _ _ _ F). Qed.

Lemma held_ok_quiet s s' H : quiet s s' -> held_ok s H -> held_ok s' H.
Proof.
  intros Q Hh. unfold held_ok in *. eapply Forall_impl; [exact Hh|]. intros c (C1 & C2 & C3).
  rewrite (quiet_used s s' Q). destruct Q as [F _].
  unfold is_bitmap, data_start. by rewrite (fframe_sb _ _ _ F).
Qed.

Lemma allocated_quiet s s1 s2 b : quiet s s1 -> allocated s1 s2 b -> allocated s s2 b.
Proof.
  intros Q [A1 A2 A3 A4 A5 A6 A7]. pose proof (quiet_used s s1 Q) as Hus. destruct Q as [F V].
  pose proof (fframe_sb _ _ _ F) as Hsb. split.
  - by rewrite <-Hus.
  - unfold data_start in *. by rewrite <-Hsb.
  - intros c Hc. rewrite <-Hus. by apply A3.
  - intros c Hc. rewrite A4 by (by rewrite Hsb). by rewrite Hus.
  - done.
  - intros c Hc Hnb. rewrite A6, V; [done|done|]. unfold is_bitmap, data_start. by rewrite Hsb.
  - exact (fframe_trans _ _ _ 0 2 F A7).
Qed.

(** The blocks a bitmap block covers. *)
Lemma bitmap_bits s H x k j :
  fs_ok s H -> x = BPB * k -> 0 <= x -> 0 <= j < BPB -> x + j < sb_size (fsb s) ->
  bblock s (x + j) = bblock s x /\ used s (x + j) = bit_at (blkv s (bblock s x)) j.
Proof.
  intros O Hx Hx0 Hj Hxj. destruct (bblock_bitmap s H (x + j) O ltac:(lia)) as [Ej _].
  destruct (bblock_bitmap s H x O ltac:(lia)) as [Eb _].
  assert (Hd : (x + j) / BPB = x / BPB /\ (x + j) mod BPB = j).
  { rewrite Hx. unfold BPB in *. split.
    - rewrite Z.mul_comm, Z.add_comm, Z.div_add, Z.div_mul, Z.div_small; lia.
    - rewrite Z.mul_comm, Z.add_comm, Z.mod_add, Z.mod_small; lia. }
  destruct Hd as [Hd1 Hd2].
  assert (Eq : bblock s (x + j) = bblock s x) by (rewrite Ej, Eb, Hd1; done).
  split; [done|]. unfold used. by rewrite Eq, Hd2.
Qed.

(** What one pass over the bitmap finds. *)
Lemma balloc_scan s H :
  fs_ok s H -> held_ok s H -> room s H 2 ->
  wp (forR (map (Z.mul BPB) (seqZ 0 ((sb_size (fsb s) + BPB - 1) / BPB))) (fun b =>
        bp ← bioF (bread ROOTDEV (bblock s b));
        d ← bioF (bdata bp);
        match List.find (fun bi => negb (bit_at d bi)) (seqZ 0 (Z.min BPB (sb_size (fsb s) - b))) with
        | Some bi =>
            bioF (set_bdata bp (bit_set bi d)) ;;
            logM (log_write bp) ;;
            bioF (brelse bp) ;;
            bzero ROOTDEV (b + bi) ;;
            mret (Some (b + bi))
        | None => bioF (brelse bp) ;; mret None
        end))
    (fun r s' => fs_ok s' H /\ match r with
       | Some b => allocated s s' b
       | None => quiet s s' /\ forall c, 0 <= c < sb_size (fsb s) -> used s c = true
       end) s.
Proof.
  intros O Hh R. pose proof (fg_size _ (fo_geo _ _ O)) as Hsz.
  apply (wp_forR _ _ (fun done s' => fs_ok s' H /\ quiet s s'
    /\ forall c, 0 <= c < sb_size (fsb s) -> c < BPB * Z.of_nat (length done) -> used s c = true)).
  - split_and!; [done|apply quiet_refl|]. simpl. lia.
  - intros done x rest s1 Hl (O1 & Q1 & Hu1). apply bitmap_starts in Hl as [Hx Hxr]; [|lia].
    pose proof Q1 as [F1 V1]. pose proof (fframe_sb _ _ _ F1) as Hsb1.
    destruct (bblock_bitmap s H x O Hxr) as [Eb Hbm].
    assert (Hds : data_start s1 = data_start s) by (unfold data_start; by rewrite Hsb1).
    assert (R1 : room s1 H 2) by (by eapply room_quiet).
    apply wp_bind. eapply wp_mono.
    { apply fs_bread; [done| |by apply (held_ok_notin s); [|left]|destruct R1; lia].
      eapply (fframe_loggable s); [done|]. by eapply bitmap_loggable. }
    intros i s2 (O2 & Q2). pose proof (quiet_trans _ _ _ Q1 Q2) as Q12. pose proof Q12 as [F2 V2].
    pose proof (fframe_sb _ _ _ F2) as Hsb2.
    apply wp_bind. eapply fs_bdata; [exact O2|by constructor|]. rewrite V2.
    assert (Hblk : forall j, 0 <= j < BPB -> x + j < sb_size (fsb s) ->
              bblock s (x + j) = bblock s x /\ used s (x + j) = bit_at (blkv s (bblock s x)) j)
      by (intros j Hj Hxj; eapply bitmap_bits; [done|exact Hx|lia|done|done]).
    destruct (List.find _ _) as [bi|] eqn:Ef.
    + apply find_seqZ in Ef as (Hbi & Hbit & Hlt). apply negb_true_iff in Hbit.
      destruct (Hblk bi ltac:(lia) ltac:(lia)) as [E1 E2].
      pose proof (quiet_used s s2 Q12) as Hus.
      assert (Ebs : bblock s2 (x + bi) = bblock s x) by (unfold bblock; rewrite Hsb2; exact E1).
      eapply wp_mono.
      { rewrite <-V2, <-Ebs. rewrite <-Ebs in O2. rewrite Hx in *.
        apply (balloc_found s2 H i (Z.of_nat (length done)) bi); [done| | |lia|lia|rewrite Hsb2; lia| |].
        - by eapply held_ok_quiet.
        - by eapply room_quiet.
        - rewrite Hus, E2. done.
        - intros c Hc. rewrite Hus.
          destruct (decide (c < BPB * Z.of_nat (length done))); [apply Hu1; lia|].
          specialize (Hlt (c - BPB * Z.of_nat (length done)) ltac:(lia)). apply negb_false_iff in Hlt.
          destruct (Hblk (c - BPB * Z.of_nat (length done))) as [_ E]; [lia|lia|].
          rewrite <-E in Hlt. rewrite <-Hlt. f_equal. lia. }
      intros r s3 (-> & O3 & A3). split; [done|]. by eapply allocated_quiet.
    + apply wp_bind. eapply wp_mono; [eapply fs_brelse; exact O2|].
      intros [] s3 (O3 & Q3). apply wp_ret. split_and!; [done|by eapply quiet_trans|].
      intros c Hc Hlt. rewrite length_app in Hlt. simpl in Hlt.
      destruct (decide (c < BPB * Z.of_nat (length done))); [apply Hu1; lia|].
      pose proof (find_seqZ_None _ _ _ Ef (c - x) ltac:(unfold BPB in *; lia)) as Hb.
      apply negb_false_iff in Hb. destruct (Hblk (c - x)) as [_ E]; [unfold BPB in *; lia|lia|].
      rewrite <-E in Hb. rewrite <-Hb. f_equal. lia.
  - intros s' (O' & Q' & Hu). split_and!; [done|done|]. intros c Hc. apply Hu; [done|].
    rewrite length_map, length_seqZ.
    pose proof (Z.div_mod (sb_size (fsb s) + BPB - 1) BPB ltac:(unfold BPB; lia)).
    pose proof (Z.mod_pos_bound (sb_size (fsb s) + BPB - 1) BPB ltac:(unfold BPB; lia)).
    unfold BPB in *. lia.
Qed.

Lemma balloc_spec s H :
  fs_ok s H -> held_ok s H -> room s H 2 ->
  (exists b, 0 <= b < sb_size (fsb s) /\ used s b = false) ->
  wp (balloc ROOTDEV) (fun b s' => fs_ok s' H /\ allocated s s' b) s.
Proof.
  intros O Hh R (b & Hb & Hfree). unfold balloc. apply wp_bind. unfold getS, wp at 1. cbv zeta.
  apply wp_bind. eapply wp_mono; [by apply balloc_scan|].
  intros [c|] s' [O' Hr]; [by apply wp_ret|]. destruct Hr as [_ Hall]. rewrite Hall in Hfree by done. done.
Qed.

Record freed (s s' : fstate) (b : Z) : Prop := {
  fr_used : forall c, 0 <= c < sb_size (fsb s) ->
              used s' c = if decide (c = b) then false else used s c;
  fr_rest : forall c, ~ is_bitmap s c -> blkv s' c = blkv s c;
  fr_frame : fframe s s' 1;
  fr_logged : logged (flog s') = logged_with (logged (flog s)) (bblock s b)
}.

Lemma quiet_logged s s' : quiet s s' -> logged (flog s') = logged (flog s).
Proof.
  intros [F _]. destruct (ff_log _ _ _ F) as ([|x l] & -> & Hl); [apply app_nil_r|simpl in Hl; lia].
Qed.

Lemma bfree_spec s H b :
  fs_ok s H -> held_ok s H -> room s H 1 -> data_start s <= b < sb_size (fsb s) ->
  used s b = true ->
  wp (bfree ROOTDEV b) (fun _ s' => fs_ok s' H /\ freed s s' b) s.
Proof.
  intros O Hh [R1 R2 R3] Hb Hu. pose proof (sb_bounds s H O) as (B1 & B2 & B3 & B4).
  destruct (bblock_bitmap s H b O) as [Eb Hbm]; [lia|].
  unfold bfree. apply wp_bind. unfold getS, wp at 1. apply wp_bind. eapply wp_mono.
  { apply fs_bread; [done|by eapply bitmap_loggable|by apply (held_ok_notin s); [|left]|lia]. }
  intros i s1 (O1 & Q1). pose proof Q1 as [F1 V1]. pose proof (fframe_sb _ _ _ F1) as Hsb1.
  destruct (ff_tx _ _ _ F1) as (_ & T2 & _ & T4 & _). pose proof (ff_n _ _ _ F1) as N1.
  apply wp_bind. eapply fs_bdata; [exact O1|by constructor|]. rewrite V1.
  fold (used s b). rewrite Hu. cbn [negb].
  assert (Hlen : length (blkv s (bblock s b)) = Z.to_nat BSIZE)
    by (apply length_view, (lo_cache _ _ (fo_log _ _ O))).
  assert (Hm : 0 <= b mod BPB < BPB) by (apply Z.mod_pos_bound; unfold BPB; lia).
  assert (Eb1 : bblock s1 b = bblock s b) by (unfold bblock; by rewrite Hsb1).
  eapply fs_update; [exact O1|lia|lia|by unfold bit_clear; rewrite length_updZ|]. intros s2 L2 U2.
  assert (Hu2 : forall c, 0 <= c < sb_size (fsb s1) ->
            used s2 c = if decide (c = b) then false else used s1 c).
  { rewrite <-Eb1 in U2. eapply used_updated; [exact O1|rewrite Hsb1; lia|exact U2|]. intros j Hj.
    rewrite Eb1, V1. apply bit_at_clear; [lia| |lia]. rewrite Hlen.
    apply Z.div_lt_upper_bound; unfold BSIZE, BPB in *; lia. }
  assert (O2 : fs_ok s2 ((i, bblock s b) :: H)).
  { rewrite <-Eb1 in U2. eapply (fs_ok_bitmap s1 s2 _ _ b false); [exact O1|rewrite Hsb1; lia|exact U2| |done|done|].
    - apply is_bytes_bit_clear, (fo_bytes _ _ O).
    - right. unfold data_start in *. rewrite Hsb1. lia. }
  eapply wp_mono; [eapply fs_brelse; exact O2|]. intros [] s3 (O3 & Q3). split; [done|].
  destruct U2 as [F2 Hl2 V2]. split.
  - intros c Hc. rewrite (quiet_used _ _ Q3), Hu2 by (by rewrite Hsb1).
    by rewrite (quiet_used _ _ Q1).
  - intros c Hnb. destruct Q3 as [_ V3]. rewrite V3, V2, decide_False; [apply V1|].
    intros ->. done.
  - destruct Q3 as [F3 _]. exact (fframe_trans _ _ _ 1 0 (fframe_trans _ _ _ 0 1 F1 F2) F3).
  - by rewrite (quiet_logged _ _ Q3), Hl2, (quiet_logged _ _ Q1).
Qed.

(** ** A small file system

    200 blocks, of which 0 to 65 hold the boot block, the superblock, the log,
    20 inodes and the bitmap; the root directory is inode 1 and inode 2 is a
    regular file, both empty. *)
Definition demo_sb : superblock := mk_sb 200 134 20 LOGSIZE 2 62 65 0 0.
Definition demo_super : list Z :=
  put32 24 65 (put32 20 62 (put32 16 2 (put32 12 LOGSIZE (put32 8 20 (put32 4 134 (put32 0 200 zero_block)))))).
Definition demo_dinode (ino type : Z) : list Z -> list Z := fun d =>
  put16 (ioff ino + 6) 1 (put16 (ioff ino) type d).
Definition demo_fs_disk : gmap (Z * Z) (list Z) :=
  <[(1, 1) := demo_super]>
  (<[(1, 62) := demo_dinode 2 T_FILE (demo_dinode 1 T_DIR zero_block)]>
  (<[(1, 65) := replicate 8 255 ++ [3] ++ replicate 503 0]> ∅)).

Definition demo_inode (ino type : Z) : inode :=
  mk_inode ROOTDEV ino 1 (mk_lock true 1) true type 0 0 1 0 (replicate 11 0) 0 0.
Definition demo_icache : list inode :=
  [demo_inode 1 T_DIR; demo_inode 2 T_FILE] ++ replicate 48 inode0.

Lemma demo_fs_log_disk : log_disk demo_fs_disk 2 LOGSIZE.
Proof.
  split.
  - intros k x H. unfold demo_fs_disk in H.
    rewrite !lookup_insert in H. repeat case_decide; simplify_eq/=; vm_compute; reflexivity.
  - vm_compute. reflexivity.
  - vm_compute. reflexivity.
  - unfold LOGSIZE, MAXOPBLOCKS, FSSIZE. lia.
  - assert (E : head_n demo_fs_disk 2 = 0) by (vm_compute; reflexivity). split; rewrite E.
    + unfold LOGSIZE, MAXOPBLOCKS. lia.
    + intros t Ht. lia.
Qed.

Lemma disk_at_bytes d b :
  (forall k x, d !! k = Some x -> is_bytes x) -> is_bytes (disk_at d ROOTDEV b).
Proof. intros H. unfold disk_at. destruct (d !! _) eqn:E; [by eapply H|apply is_bytes_zero]. Qed.

Lemma is_bytes_forallb l : forallb (fun x => (0 <=? x) && (x <? 256)) l = true -> is_bytes l.
Proof.
  intros Hl. apply List.Forall_forall. intros y Hy. rewrite forallb_forall in Hl.
  specialize (Hl y Hy). lia.
Qed.

Lemma demo_fs_bytes k x : demo_fs_disk !! k = Some x -> is_bytes x.
Proof.
  unfold demo_fs_disk. rewrite !lookup_insert, lookup_empty. intros H.
  repeat case_decide; simplify_eq/=; apply is_bytes_forallb; vm_compute; reflexivity.
Qed.

Lemma demo_bitmap b :
  0 <= b < 200 -> bit_at (disk_at demo_fs_disk ROOTDEV 65) b = (b <? 66).
Proof.
  intros Hb.
  assert (Hall : forallb (fun b => eqb (bit_at (disk_at demo_fs_disk ROOTDEV 65) b) (b <? 66))
                   (seqZ 0 200) = true) by (vm_compute; reflexivity).
  rewrite forallb_forall in Hall. apply eqb_prop, Hall. apply list_elem_of_In, elem_of_seqZ. lia.
Qed.

(** In a transaction that has written nothing yet, with the clock of the
    machine at a date in 2023. *)
Definition demo_state (l : lst) : fstate := mk_fs l demo_sb demo_icache 0 1700000000 0.
Record demo_ok (s : fstate) : Prop := {
  dm_ok : fs_ok s [];
  dm_room : forall k, k <= 59 -> room s [] k;
  dm_view : forall b, 62 <= b < 200 -> blkv s b = disk_at demo_fs_disk ROOTDEV b;
  dm_used : forall b, 0 <= b < 200 -> used s b = (b <? 66);
  dm_pid : pid_of s = 1
}.

Lemma demo_fs : exists l, demo_ok (demo_state l).
Proof.
  destruct (wp_run _ _ _ (initlog_spec demo_fs_disk 1 2 LOGSIZE demo_fs_log_disk))
    as ([] & l & _ & L & Hn & H1 & H2 & H3 & (bl & W) & V).
  exists (set_ops 1 false l). set (s := demo_state _).
  assert (Hv : forall b, 62 <= b < 200 -> blkv s b = disk_at demo_fs_disk ROOTDEV b).
  { intros b Hb. change (blkv s b) with (view (bio l) b).
    rewrite V by (unfold data_block, FSSIZE, LOGSIZE, MAXOPBLOCKS; lia).
    apply contents_empty. vm_compute. reflexivity. }
  assert (Hu : forall b, 0 <= b < 200 -> used s b = (b <? 66)).
  { intros b Hb. unfold used. change (bblock s b) with (u32 (b / BPB + 65)).
    rewrite Z.div_small by (unfold BPB; lia). change (u32 (0 + 65)) with 65.
    rewrite Hv by lia. rewrite Z.mod_small by (unfold BPB; lia). by apply demo_bitmap. }
  split; [split| |exact Hv|exact Hu|].
  - by apply log_ok_ops.
  - split; change (flog s) with (set_ops 1 false l); cbn [log_start log_size set_ops];
      rewrite ?H1, ?H2; vm_compute; repeat split; discriminate.
  - intros b. change (blkv s b) with (view (bio l) b).
    rewrite (ca_clean _ _ _ (lo_cache _ _ L)) by (unfold logged; rewrite Hn; set_solver).
    destruct W as (_ & -> & _).
    destruct (boot_cache demo_fs_disk 1 (ld_len _ _ _ demo_fs_log_disk)) as [_ ->].
    apply disk_at_bytes. intros k x. change (recover_writes demo_fs_disk 2 bl)
      with [((1, 2), hdr_write 0 bl zero_block)]. cbn [apply_writes fold_left].
    rewrite lookup_insert. case_decide; [intros [= <-]|apply demo_fs_bytes].
    change (hdr_write 0 bl zero_block) with (put32 0 0 zero_block).
    apply is_bytes_forallb. vm_compute. reflexivity.
  - intros b Hb. change (data_start s) with 66 in Hb. rewrite Hu by lia. lia.
  - intros k Hk. split; change (flog s) with (set_ops 1 false l);
      cbn [lh_n outstanding log_size set_ops length]; rewrite ?Hn, ?H2; try lia.
    + change LOGSIZE with 60. lia.
    + change NBUF with 60. lia.
  - change (pid_of s) with (curpid (bio l)). destruct W as (_ & _ & ->).
    unfold binit. cbv zeta. destruct (fold_left _ (seqZ 0 NBUF) (updZ _ _ _, _)). by rewrite binit_bufs.
Qed.

(** ** Properties *)

(** C26: [balloc] either returns the least block number that is free in the
    bitmap, after marking it in use and clearing its contents and without
    touching any other block outside the bitmap, or, exactly when no block of
    the file system is free, panics. *)
Theorem balloc_first_free s H :
  fs_ok s H -> held_ok s H -> room s H 2 ->
  match balloc ROOTDEV s with
  | Ok b s' =>
      fs_ok s' H /\ data_start s <= b < sb_size (fsb s) /\ used s b = false
      /\ (forall c, 0 <= c < b -> used s c = true)
      /\ (forall c, 0 <= c < sb_size (fsb s) ->
           used s' c = if decide (c = b) then true else used s c)
      /\ blkv s' b = zero_block
      /\ (forall c, c <> b -> ~ is_bitmap s c -> blkv s' c = blkv s c)
  | Panic msg _ =>
      msg = "balloc: out of blocks"%string
      /\ forall c, 0 <= c < sb_size (fsb s) -> used s c = true
  | _ => False
  end.
Proof.
  intros O Hh R. destruct (wp_run _ _ _ (balloc_scan s H O Hh R)) as (r & s' & E & O' & Hr).
  unfold balloc, mbind, M_bind, getS at 1. cbv zeta. unfold mbind, M_bind in E. rewrite E.
  destruct r as [b|].
  - destruct Hr as [A1 A2 A3 A4 A5 A6 _]. done.
  - by destruct Hr.
Qed.

Lemma balloc_first_free_witness : exists s b s',
  balloc ROOTDEV s = Ok b s' /\ blkv s' b = zero_block /\ used s' b = true.
Proof.
  destruct demo_fs as (l & D). set (s := demo_state l) in D.
  assert (Hh : held_ok s []) by apply Forall_nil_2.
  pose proof (balloc_first_free s [] (dm_ok _ D) Hh (dm_room _ D 2 ltac:(lia))) as T.
  destruct (balloc ROOTDEV s) as [b s'|msg s'| |] eqn:E; [| |done..].
  - exists s, b, s'. destruct T as (_ & Hb & _ & _ & Hu & Hz & _).
    split_and!; [exact E|exact Hz|]. change (data_start s) with 66 in Hb. rewrite Hu by lia. by rewrite decide_True.
  - destruct T as (_ & Hall). specialize (Hall 100 ltac:(cbn; lia)).
    rewrite (dm_used _ D) in Hall by lia. done.
Defined.
