(* ===== verification/Content.v ===== *)
(** * Content: the bytes of a file

    Theorems about [bmap], [readi], [writei] and [itrunc] of src/kernel/fs.c, for
    files within the direct and the single indirect blocks: what a file holds
    is a function of its block addresses ([slotv], [fblock], [fbyte]); mapping
    a block preserves it, [readi] returns it and [writei] updates it.  Larger
    files are out of reach of the code itself, because the addresses of the
    double and triple indirect blocks are kept in the fields [atime] and
    [mtime]; Trunc shows what happens then. *)

From Stdlib Require Import ZArith Lia ZifyBool.
From stdpp Require Import base gmap strings numbers list.
From S2P Require Import Prelude CString Bio Log Fs Balloc.

Local Open Scope Z_scope.

(** ** Free blocks *)

Definition nfree (s : fstate) : Z :=
  Z.of_nat (count (fun b => negb (used s b)) (seqZ 0 (sb_size (fsb s)))).

Lemma nfree_pos s : 0 < nfree s -> exists b, 0 <= b < sb_size (fsb s) /\ used s b = false.
Proof.
  unfold nfree, count. destruct (List.filter _ _) as [|b l] eqn:E; [simpl; lia|]. intros _. exists b.
  assert (Hin : In b (List.filter (fun b => negb (used s b)) (seqZ 0 (sb_size (fsb s)))))
    by (rewrite E; by left).
  apply List.filter_In in Hin as [Hin Hu]. apply list_elem_of_In, elem_of_seqZ in Hin.
  apply negb_true_iff in Hu. split; [lia|done].
Qed.

Lemma nfree_ext s s' :
  fsb s' = fsb s -> (forall c, 0 <= c < sb_size (fsb s) -> used s' c = used s c) ->
  nfree s' = nfree s.
Proof.
  intros Hsb Hu. unfold nfree. rewrite Hsb. f_equal. apply count_ext.
  intros x Hx. apply elem_of_seqZ in Hx. by rewrite Hu by lia.
Qed.

Lemma nfree_allocated s s' b :
  fsb s' = fsb s -> 0 <= b < sb_size (fsb s) -> used s b = false ->
  (forall c, 0 <= c < sb_size (fsb s) -> used s' c = if decide (c = b) then true else used s c) ->
  nfree s = nfree s' + 1.
Proof.
  intros Hsb Hb Hfree Hu. unfold nfree. rewrite Hsb.
  rewrite (count_off (fun b => negb (used s b))
    (fun c => negb (if decide (c = b) then true else used s c)) _ b).
  - rewrite (count_ext (fun c => negb (used s' c))
      (fun c => negb (if decide (c = b) then true else used s c))); [lia|].
    intros x Hx. apply elem_of_seqZ in Hx. by rewrite Hu by lia.
  - apply NoDup_seqZ.
  - apply elem_of_seqZ. lia.
  - by rewrite Hfree.
  - by rewrite decide_True.
  - intros x Hx. by rewrite decide_False.
Qed.

(** ** The blocks of a file

    Slots 0 to 10 are [ip->addrs] (slot 10 is the indirect block), slots 11 to
    138 the entries of the indirect block; 0 is no block. *)
Definition NSLOT : Z := NDIRECT + 1 + NINDIRECT.
Definition SMALL : Z := NDIRECT + NINDIRECT.

Definition slotv (s : fstate) (x : inode) (t : Z) : Z :=
  if t <=? NDIRECT then nthZ 0 (iaddrs x) t
  else if nthZ 0 (iaddrs x) NDIRECT =? 0 then 0
  else get32 (blkv s (nthZ 0 (iaddrs x) NDIRECT)) (Z.to_nat (4 * (t - NDIRECT - 1))).
Definition slot_of (bn : Z) : Z := if bn <? NDIRECT then bn else bn + 1.

(** Block [bn] and byte [k] of the file; blocks never written read as zeros. *)
Definition fblock (s : fstate) (x : inode) (bn : Z) : list Z :=
  let a := slotv s x (slot_of bn) in if a =? 0 then zero_block else blkv s a.
Definition fbyte (s : fstate) (x : inode) (k : Z) : Z :=
  nthZ 0 (fblock s x (k / BSIZE)) (k mod BSIZE).

Record file_ok (s : fstate) (x : inode) : Prop := {
  fi_dev : idev x = ROOTDEV;
  fi_len : length (iaddrs x) = 11%nat;
  fi_range : forall t, 0 <= t < NSLOT -> slotv s x t <> 0 ->
               data_start s <= slotv s x t < sb_size (fsb s) /\ used s (slotv s x t) = true;
  fi_inj : forall t u, 0 <= t < NSLOT -> 0 <= u < NSLOT -> slotv s x t <> 0 ->
             slotv s x t = slotv s x u -> t = u
}.

Lemma slot_of_range bn : 0 <= bn < SMALL -> 0 <= slot_of bn < NSLOT /\ slot_of bn <> NDIRECT.
Proof. unfold slot_of, SMALL, NSLOT, NDIRECT, NINDIRECT. destruct (Z.ltb_spec bn 10); lia. Qed.

(** Filling the empty slot [t] of the file with the fresh block [n]. *)
Record filled (s s' : fstate) (x x' : inode) (t n : Z) : Prop := {
  fl_t : 0 <= t < NSLOT;
  fl_sb : fsb s' = fsb s;
  fl_x : x' = with_addrs (iaddrs x') x /\ length (iaddrs x') = 11%nat;
  fl_slot : forall u, 0 <= u < NSLOT -> slotv s' x' u = if decide (u = t) then n else slotv s x u;
  fl_old : slotv s x t = 0;
  fl_range : data_start s <= n < sb_size (fsb s);
  fl_fresh : used s n = false;
  fl_used : forall c, 0 <= c < sb_size (fsb s) ->
              used s' c = if decide (c = n) then true else used s c;
  fl_zero : blkv s' n = zero_block;
  fl_rest : forall c, c <> n -> ~ is_bitmap s c -> c <> slotv s x NDIRECT -> blkv s' c = blkv s c
}.

Lemma filled_file_ok s s' x x' t n H :
  fs_ok s H -> file_ok s x -> filled s s' x x' t n -> file_ok s' x'.
Proof.
  intros O [F1 F2 F3 F4] [I1 I2 [I3 I3'] I4 I5 I6 I7 I8 I9 I10].
  pose proof (sb_bounds s H O) as (B1 & B2 & B3 & B4). split.
  - by rewrite I3.
  - done.
  - intros u Hu. rewrite I4 by done. unfold data_start. rewrite I2. fold (data_start s).
    destruct (decide (u = t)) as [->|Hut].
    + intros _. split; [done|]. rewrite I8 by lia. by rewrite decide_True.
    + intros Hnz. destruct (F3 u Hu Hnz) as [H1 H2]. split; [done|]. rewrite I8 by lia.
      rewrite decide_False; [done|]. intros E. rewrite E in H2. congruence.
  - intros u v Hu Hv. rewrite !I4 by done.
    destruct (decide (u = t)) as [->|Hut], (decide (v = t)) as [->|Hvt]; try done.
    + intros _ E. destruct (F3 v Hv) as [_ H2]; [rewrite <-E; lia|]. rewrite <-E in H2. congruence.
    + intros Hnz E. destruct (F3 u Hu Hnz) as [_ H2]. rewrite E in H2. congruence.
    + by apply F4.
Qed.

Lemma filled_content s s' x x' t n H bn :
  fs_ok s H -> file_ok s x -> filled s s' x x' t n -> 0 <= bn < SMALL ->
  fblock s' x' bn = fblock s x bn.
Proof.
  intros O F I Hbn. pose proof (sb_bounds s H O) as (B1 & B2 & B3 & B4).
  destruct (slot_of_range bn Hbn) as [Hr Hne]. unfold fblock. rewrite (fl_slot _ _ _ _ _ _ I) by done.
  destruct (decide (slot_of bn = t)) as [E|E].
  - rewrite E, (fl_old _ _ _ _ _ _ I), Z.eqb_refl, (fl_zero _ _ _ _ _ _ I). by case_match.
  - case_match; [done|]. bool_split. destruct (fi_range _ _ F _ Hr) as [H1 H2]; [done|].
    apply (fl_rest _ _ _ _ _ _ I).
    + intros En. rewrite En in H2. pose proof (fl_fresh _ _ _ _ _ _ I). congruence.
    + unfold is_bitmap. lia.
    + intros En. apply Hne. apply (fi_inj _ _ F); [done|unfold NSLOT, NDIRECT, NINDIRECT; lia|done|done].
Qed.

(** ** What mapping a block may change *)

(** Everything but the addresses of inode [ip] and the blocks. *)
Record iframe (s s' : fstate) (ip k : Z) : Prop := {
  if_sb : fsb s' = fsb s;
  if_misc : curtime s' = curtime s /\ clock s' = clock s /\ cwd s' = cwd s;
  if_len : length (icache s') = length (icache s);
  if_other : forall j, j <> ip -> geti s' j = geti s j;
  if_ip : geti s' ip = with_addrs (iaddrs (geti s' ip)) (geti s ip);
  if_tx : same_tx (flog s) (flog s');
  if_n : lh_n (flog s') <= lh_n (flog s) + k
}.

Record ggrow (s s' : fstate) (ip k m : Z) : Prop := {
  gg_if : iframe s s' ip k;
  gg_used : forall c, 0 <= c < sb_size (fsb s) -> used s c = true -> used s' c = true;
  gg_rest : forall c, 0 <= c < sb_size (fsb s) -> used s c = true -> ~ is_bitmap s c ->
              (forall t, 0 <= t < NSLOT -> slotv s (geti s ip) t <> c) -> blkv s' c = blkv s c;
  gg_free : nfree s <= nfree s' + m;
  gg_fresh : forall t, 0 <= t < NSLOT ->
               slotv s' (geti s' ip) t = slotv s (geti s ip) t
               \/ slotv s (geti s ip) t = 0 /\ 0 <= slotv s' (geti s' ip) t < sb_size (fsb s)
                  /\ used s (slotv s' (geti s' ip) t) = false
}.
(** ... and the contents of the file stay as they are. *)
Record bgrow (s s' : fstate) (ip k m : Z) : Prop := {
  bg_g : ggrow s s' ip k m;
  bg_content : forall bn, 0 <= bn < SMALL ->
                 fblock s' (geti s' ip) bn = fblock s (geti s ip) bn
}.

Lemma with_addrs_id x : with_addrs (iaddrs x) x = x.
Proof. by destruct x. Qed.

Lemma iframe_refl s ip : iframe s s ip 0.
Proof.
  split; [done|done|done|done|by rewrite with_addrs_id|apply same_log_tx, same_log_refl|lia].
Qed.

Lemma iframe_trans s1 s2 s3 ip k1 k2 :
  iframe s1 s2 ip k1 -> iframe s2 s3 ip k2 -> iframe s1 s3 ip (k1 + k2).
Proof.
  intros [A1 (A2 & A2' & A2'') A3 A4 A5 A6 A7] [B1 (B2 & B2' & B2'') B3 B4 B5 B6 B7].
  split; [congruence|split_and!; congruence|congruence| | | |lia].
  - intros j Hj. by rewrite B4, A4.
  - rewrite B5, A5. done.
  - by eapply same_tx_trans.
Qed.

Lemma ggrow_refl s ip : ggrow s s ip 0 0.
Proof. split; [apply iframe_refl|done|done|lia|by left]. Qed.

Lemma bgrow_refl s ip : bgrow s s ip 0 0.
Proof. split; [apply ggrow_refl|done]. Qed.

Lemma ggrow_trans s1 s2 s3 ip k1 k2 m1 m2 :
  ggrow s1 s2 ip k1 m1 -> ggrow s2 s3 ip k2 m2 -> ggrow s1 s3 ip (k1 + k2) (m1 + m2).
Proof.
  intros [A1 A2 A3 A4 A5] [B1 B2 B3 B4 B5]. pose proof (if_sb _ _ _ _ A1) as Hsb.
  rewrite Hsb in *.
  assert (Hun : forall c, 0 <= c < sb_size (fsb s1) -> used s2 c = false -> used s1 c = false).
  { intros c Hc Hf. destruct (used s1 c) eqn:Eu; [|done]. rewrite A2 in Hf by done. done. }
  split.
  - by eapply iframe_trans.
  - auto.
  - intros c Hc Hu Hnb Hs. rewrite B3; [by apply A3|done|by apply A2| |].
    + unfold is_bitmap, data_start. by rewrite Hsb.
    + intros t Ht. destruct (A5 t Ht) as [E|(_ & _ & Hf)]; [rewrite E; by apply Hs|].
      intros E. rewrite E in Hf. congruence.
  - lia.
  - intros t Ht. destruct (B5 t Ht) as [E|(E & Hr & Hf)].
    + rewrite E. by apply A5.
    + right. destruct (A5 t Ht) as [E1|(E1 & _ & _)]; split_and!; [congruence|lia|lia|auto|done|lia|lia|auto].
Qed.

Lemma bgrow_trans s1 s2 s3 ip k1 k2 m1 m2 :
  bgrow s1 s2 ip k1 m1 -> bgrow s2 s3 ip k2 m2 -> bgrow s1 s3 ip (k1 + k2) (m1 + m2).
Proof.
  intros [A1 A2] [B1 B2]. split; [by eapply ggrow_trans|]. intros bn Hbn. by rewrite B2, A2.
Qed.

Lemma filled_bgrow s s' ip k t n H :
  fs_ok s H -> file_ok s (geti s ip) -> filled s s' (geti s ip) (geti s' ip) t n ->
  iframe s s' ip k -> bgrow s s' ip k 1.
Proof.
  intros O F I Fr. pose proof (sb_bounds s H O) as (B1 & B2 & B3 & B4).
  pose proof I as [I1 I2 I3 I4 I5 I6 I7 I8 I9 I10].
  split; [split; [done| | | |]|].
  - intros c Hc Hu. rewrite I8 by done. by case_decide.
  - intros c Hc Hu Hnb Hs. apply I10; [|done|].
    + intros ->. congruence.
    + intros E. apply (Hs NDIRECT); [unfold NSLOT, NDIRECT, NINDIRECT; lia|done].
  - rewrite (nfree_allocated s s' n I2 ltac:(lia) I7 I8). lia.
  - intros u Hu. rewrite I4 by done. case_decide as E; [|by left]. right. subst u.
    split_and!; [done|lia|lia|done].
  - intros bn Hbn. by eapply filled_content.
Qed.

Lemma geti_seti_eq s ip x :
  0 <= ip < Z.of_nat (length (icache s)) -> geti (seti ip x s) ip = x.
Proof. apply nthZ_updZ_eq. Qed.
Lemma geti_seti_ne s ip j x : j <> ip -> geti (seti ip x s) j = geti s j.
Proof. intros Hj. apply nthZ_updZ_ne. congruence. Qed.

Lemma seti_seti s ip x y : seti ip x (seti ip y s) = seti ip x s.
Proof. unfold seti. cbn. by rewrite updZ_updZ. Qed.

Lemma fs_ok_seti s H ip x : fs_ok s H -> fs_ok (seti ip x s) H.
Proof. intros [L [G1 G2 G3 G4 G5] B Mt]. by split. Qed.

Lemma held_ok_mono s s' H :
  fsb s' = fsb s -> (forall c, 0 <= c < sb_size (fsb s) -> used s c = true -> used s' c = true) ->
  held_ok s H -> held_ok s' H.
Proof.
  intros Hsb Hu Hh. unfold held_ok in *. eapply Forall_impl; [exact Hh|].
  intros c (H1 & H2 & H3). unfold is_bitmap, data_start. rewrite Hsb. split_and!; [lia|lia|auto|done].
Qed.

(** Slots of a file whose addresses change. *)
Lemma slotv_set s x k n t :
  length (iaddrs x) = 11%nat -> 0 <= k < NDIRECT -> 0 <= t < NSLOT ->
  slotv s (with_addrs (updZ k n (iaddrs x)) x) t = if decide (t = k) then n else slotv s x t.
Proof.
  intros Hl Hk Ht. unfold slotv. cbn [iaddrs with_addrs]. unfold NDIRECT in *.
  rewrite (nthZ_updZ_ne 0 k 10) by lia.
  destruct (Z.leb_spec t 10); [|rewrite decide_False by lia; done].
  destruct (decide (t = k)) as [->|Hne]; [apply nthZ_updZ_eq; lia|apply nthZ_updZ_ne; congruence].
Qed.

Lemma slotv_ext s s' x t :
  (forall c, c <> 0 -> c = nthZ 0 (iaddrs x) NDIRECT -> blkv s' c = blkv s c) ->
  slotv s' x t = slotv s x t.
Proof.
  intros Hb. unfold slotv. destruct (t <=? NDIRECT); [done|].
  destruct (Z.eqb_spec (nthZ 0 (iaddrs x) NDIRECT) 0); [done|]. by rewrite Hb.
Qed.

Lemma get32_zero off : get32 zero_block off = 0.
Proof.
  unfold get32, slice, zero_block. rewrite drop_replicate, take_replicate.
  generalize (4 `min` (Z.to_nat BSIZE - off))%nat. induction n as [|n IH]; [done|]. simpl. by rewrite IH.
Qed.

(** The state after mapping blocks of [ip]: at most [k] more blocks logged, at
    most [m] allocated. *)
Definition mapped (s s' : fstate) (ip : Z) (H : list (Z * Z)) (k m : Z) : Prop :=
  fs_ok s' H /\ held_ok s' H /\ file_ok s' (geti s' ip) /\ bgrow s s' ip k m.

Lemma mapped_refl s ip H :
  fs_ok s H -> held_ok s H -> file_ok s (geti s ip) -> mapped s s ip H 0 0.
Proof. intros. split_and!; [done..|apply bgrow_refl]. Qed.

Lemma mapped_weaken s s' ip H k m k' m' :
  mapped s s' ip H k m -> k <= k' -> m <= m' -> mapped s s' ip H k' m'.
Proof.
  intros (H1 & H2 & H3 & [[[A1 A2 A3 A4 A5 A6 A7] B1 B2 B3 B4] B5]) Hk Hm. split_and!; [done..|].
  split; [|done]. split; [|done|done|lia|done]. split; done || lia.
Qed.

Lemma mapped_trans s1 s2 s3 ip H k1 m1 k2 m2 :
  mapped s1 s2 ip H k1 m1 -> mapped s2 s3 ip H k2 m2 -> mapped s1 s3 ip H (k1 + k2) (m1 + m2).
Proof.
  intros (_ & _ & _ & G1) (O & Hh & F & G2). split_and!; [done..|]. by eapply bgrow_trans.
Qed.

Lemma slot_addrs s x k : k <= NDIRECT -> slotv s x k = nthZ 0 (iaddrs x) k.
Proof. intros Hk. unfold slotv. by rewrite (proj2 (Z.leb_le k NDIRECT)). Qed.

Lemma slot_block_kept s s' x n H :
  fs_ok s H -> file_ok s x -> allocated s s' n -> nthZ 0 (iaddrs x) NDIRECT <> 0 ->
  blkv s' (nthZ 0 (iaddrs x) NDIRECT) = blkv s (nthZ 0 (iaddrs x) NDIRECT).
Proof.
  intros O F A Hnz. rewrite <-(slot_addrs s x NDIRECT) in * by lia.
  destruct (fi_range _ _ F NDIRECT) as [H1 H2]; [unfold NSLOT, NDIRECT, NINDIRECT; lia|done|].
  apply (al_rest _ _ _ A).
  - intros E. rewrite E in H2. pose proof (al_free _ _ _ A). congruence.
  - unfold is_bitmap. lia.
Qed.

Lemma filled_addr s s1 H ip k n :
  fs_ok s H -> file_ok s (geti s ip) -> allocated s s1 n ->
  0 <= ip < Z.of_nat (length (icache s)) -> 0 <= k <= NDIRECT -> slotv s (geti s ip) k = 0 ->
  let s2 := seti ip (addr_set k n (geti s1 ip)) s1 in
  filled s s2 (geti s ip) (geti s2 ip) k n.
Proof.
  intros O F A Hip Hk Hold. pose proof A as [A1 A2 A3 A4 A5 A6 A7]. cbv zeta.
  rewrite (fframe_geti _ _ _ ip A7). unfold addr_set. rewrite (proj2 (Z.leb_le k NDIRECT)) by lia.
  set (x := geti s ip) in *. set (x' := with_addrs (updZ k n (iaddrs x)) x).
  pose proof (fi_len _ _ F) as Hl. pose proof (sb_bounds s H O) as (B1 & B2 & B3 & B4).
  rewrite geti_seti_eq by (rewrite (fframe_icache _ _ _ A7); lia).
  assert (Hs1 : forall t, slotv s1 x t = slotv s x t).
  { intros t. apply slotv_ext. intros c Hc ->. by eapply slot_block_kept. }
  split; try done.
  - unfold NSLOT, NDIRECT, NINDIRECT in *. lia.
  - apply (fframe_sb _ _ _ A7).
  - split; [done|]. unfold x'. cbn. by rewrite length_updZ.
  - intros t Ht. change (slotv (seti ip x' s1) x' t) with (slotv s1 x' t).
    destruct (decide (k = NDIRECT)) as [->|Hk'].
    + unfold slotv at 1. unfold x'. cbn [iaddrs with_addrs].
      rewrite nthZ_updZ_eq by (rewrite Hl; unfold NDIRECT; lia).
      destruct (Z.leb_spec t NDIRECT) as [Hle|Hgt].
      * destruct (decide (t = NDIRECT)) as [->|Hne].
        { apply nthZ_updZ_eq. rewrite Hl. unfold NDIRECT. lia. }
        rewrite nthZ_updZ_ne by congruence. by rewrite slot_addrs.
      * rewrite decide_False by lia. rewrite (proj2 (Z.eqb_neq n 0)) by lia. rewrite A5, get32_zero.
        unfold slotv. rewrite (proj2 (Z.leb_gt t NDIRECT)) by lia.
        rewrite slot_addrs in Hold by lia. by rewrite Hold.
    + unfold x'. rewrite slotv_set by (done || lia). case_decide; [done|]. apply Hs1.
  - intros c Hc Hnb _. by apply A6.
Qed.

Lemma iframe_addr s s1 ip k n j :
  fframe s s1 j -> 0 <= ip < Z.of_nat (length (icache s)) -> k <= NDIRECT ->
  iframe s (seti ip (addr_set k n (geti s1 ip)) s1) ip j.
Proof.
  intros Fr Hip Hk. pose proof (fframe_icache _ _ _ Fr) as Hic.
  split; [apply (fframe_sb _ _ _ Fr)| | | | |apply Fr|apply Fr].
  - rewrite (ff_eq _ _ _ Fr). done.
  - cbn. by rewrite length_updZ, Hic.
  - intros i Hi. rewrite geti_seti_ne by done. by eapply fframe_geti.
  - rewrite geti_seti_eq by (rewrite Hic; lia). rewrite (fframe_geti _ _ _ ip Fr).
    unfold addr_set. by rewrite (proj2 (Z.leb_le k NDIRECT)).
Qed.

Lemma addr_slot_spec s H ip k :
  fs_ok s H -> held_ok s H -> file_ok s (geti s ip) -> room s H 2 -> 0 < nfree s ->
  0 <= ip < Z.of_nat (length (icache s)) -> 0 <= k <= NDIRECT ->
  wp (addr_slot ip k) (fun a s' => mapped s s' ip H 2 1
    /\ a = slotv s' (geti s' ip) k /\ a <> 0) s.
Proof.
  intros O Hh F R Hf Hip Hk. unfold addr_slot. apply wp_bind, wp_gets.
  unfold addr_get. rewrite (proj2 (Z.leb_le k NDIRECT)) by lia.
  rewrite <-(slot_addrs s) by lia. destruct (Z.eqb_spec (slotv s (geti s ip) k) 0) as [E|E].
  - rewrite (fi_dev _ _ F). apply wp_bind. eapply wp_mono; [apply balloc_spec; [done..|by apply nfree_pos]|].
    intros n s1 [O1 A]. apply wp_bind, wp_modS, wp_ret.
    pose proof (filled_addr s s1 H ip k n O F A Hip Hk E) as I. cbv zeta in I.
    pose proof (iframe_addr s s1 ip k n 2 (al_frame _ _ _ A) Hip ltac:(lia)) as Fr.
    set (s2 := seti _ _ _) in *.
    pose proof (filled_bgrow s s2 ip 2 k n H O F I Fr) as G. split; [|split].
    + split_and!; [by apply fs_ok_seti| |exact (filled_file_ok s s2 _ _ k n H O F I)|done].
      eapply held_ok_mono; [apply Fr|apply (bg_g _ _ _ _ _ G)|done].
    + rewrite (fl_slot _ _ _ _ _ _ I), decide_True by (done || unfold NSLOT, NDIRECT, NINDIRECT in *; lia). done.
    + pose proof (sb_bounds s H O). pose proof (al_range _ _ _ A). lia.
  - apply wp_ret. split; [|done]. apply (mapped_weaken _ _ _ _ 0 0); [by apply mapped_refl|lia|lia].
Qed.

Lemma quiet_mapped s s' ip H H' :
  fs_ok s H -> file_ok s (geti s ip) -> held_ok s H' -> quiet s s' -> fs_ok s' H' ->
  mapped s s' ip H' 0 0.
Proof.
  intros O F Hh Q O'. pose proof (quiet_used _ _ Q) as Hu. pose proof Q as [Fr V].
  pose proof (fframe_sb _ _ _ Fr) as Hsb. pose proof (fframe_geti _ _ _ ip Fr) as Hg.
  assert (Hs : forall x t, slotv s' x t = slotv s x t) by (intros x t; by apply slotv_ext).
  split_and!; [done|by eapply held_ok_quiet| |].
  - rewrite Hg. destruct F as [F1 F2 F3 F4]. split; [done|done| |].
    + intros t Ht. rewrite Hs, Hu. unfold data_start. rewrite Hsb. by apply F3.
    + intros t u Ht Hu'. rewrite !Hs. by apply F4.
  - split; [split; [|by intros c _; rewrite Hu|by intros c _ _ _ _| |]|].
    + split; [done|rewrite (ff_eq _ _ _ Fr); done|by rewrite (fframe_icache _ _ _ Fr)| | |apply Fr|apply Fr].
      * intros j _. by eapply fframe_geti.
      * by rewrite Hg, with_addrs_id.
    + rewrite (nfree_ext s s' Hsb) by (intros; apply Hu). lia.
    + intros t _. left. by rewrite Hg, Hs.
    + intros bn _. rewrite Hg. unfold fblock. rewrite Hs. by rewrite V.
Qed.

Lemma length_blkv s H b : fs_ok s H -> length (blkv s b) = Z.to_nat BSIZE.
Proof. intros O. apply length_view, (lo_cache _ _ (fo_log _ _ O)). Qed.

Lemma get32_range d off : is_bytes d -> 0 <= get32 d off < 2 ^ 32.
Proof.
  intros Hd. unfold get32, slice.
  assert (Hb : is_bytes (take 4 (drop off d))) by (by apply Forall_take, Forall_drop).
  assert (Hl : (length (take 4 (drop off d)) <= 4)%nat) by (rewrite length_take; lia).
  revert Hb Hl. generalize (take 4 (drop off d)) as l. intros l Hb Hl.
  do 5 (destruct l as [|? l]; [simpl; repeat (apply Forall_cons in Hb as [? Hb]); lia|]).
  simpl in Hl. lia.
Qed.

Lemma is_bytes_splice off bs d : is_bytes bs -> is_bytes d -> is_bytes (splice off bs d).
Proof.
  intros Hb Hd. unfold splice, is_bytes. rewrite !Forall_app.
  split_and!; [by apply Forall_take|done|by apply Forall_drop].
Qed.
Lemma is_bytes_put32 off z d : is_bytes d -> is_bytes (put32 off z d).
Proof. apply is_bytes_splice, le_encode_bytes. Qed.
Lemma is_bytes_put16 off z d : is_bytes d -> is_bytes (put16 off z d).
Proof. apply is_bytes_splice, le_encode_bytes. Qed.

(** The indirect block [a] of the file gets the fresh block [n] in entry [i]. *)
Lemma filled_ind s s1 s2 s3 x H j i n :
  fs_ok s H -> file_ok s x -> slotv s x NDIRECT <> 0 -> 0 <= i < NINDIRECT ->
  slotv s x (i + NDIRECT + 1) = 0 ->
  quiet s s1 -> allocated s1 s2 n -> fs_ok s2 [(j, slotv s x NDIRECT)] ->
  updated s2 s3 (slotv s x NDIRECT) (put32 (Z.to_nat (4 * i)) n (blkv s (slotv s x NDIRECT))) ->
  (forall c, 0 <= c < sb_size (fsb s) -> used s3 c = used s2 c) ->
  filled s s3 x x (i + NDIRECT + 1) n.
Proof.
  intros O F Ha Hi Hold Q A O2 [F3 _ V3] Hu3.
  pose proof (allocated_quiet _ _ _ _ Q A) as [A1 A2 A3 A4 A5 A6 A7].
  destruct (fi_range _ _ F NDIRECT) as [Hr Hru]; [unfold NSLOT, NDIRECT, NINDIRECT in *; lia|done|].
  pose proof (sb_bounds s H O) as (B1 & B2 & B3 & B4).
  set (a := slotv s x NDIRECT) in *. assert (Han : a <> n) by congruence.
  assert (Ea : nthZ 0 (iaddrs x) NDIRECT = a) by (unfold a; by rewrite slot_addrs).
  split.
  - unfold NSLOT, NDIRECT, NINDIRECT in *. lia.
  - by rewrite (fframe_sb _ _ _ F3), (fframe_sb _ _ _ A7).
  - split; [by rewrite with_addrs_id|apply F].
  - intros u Hu. unfold slotv at 1. rewrite Ea. destruct (Z.leb_spec u NDIRECT) as [Hle|Hgt].
    + rewrite decide_False by lia. by rewrite slot_addrs.
    + rewrite (proj2 (Z.eqb_neq a 0)) by done. rewrite V3, decide_True by done.
      pose proof (length_blkv s H a O) as Hl.
      destruct (decide (u = i + NDIRECT + 1)) as [->|Hne].
      * replace (i + NDIRECT + 1 - NDIRECT - 1) with i by lia.
        apply get32_put32_eq; [|unfold FSSIZE in *; lia]. rewrite Hl. unfold NINDIRECT, BSIZE in *. lia.
      * rewrite get32_put32_ne.
        -- unfold slotv. rewrite Ea, (proj2 (Z.leb_gt u NDIRECT)) by lia.
           by rewrite (proj2 (Z.eqb_neq a 0)).
        -- rewrite Hl. unfold NINDIRECT, BSIZE in *. lia.
        -- unfold NDIRECT in *. lia.
  - done.
  - done.
  - done.
  - intros c Hc. rewrite Hu3 by done. by apply A4.
  - rewrite V3, decide_False by congruence. done.
  - intros c Hc Hnb Hca. rewrite V3, decide_False by done. by apply A6.
Qed.

Lemma ind_slot_spec s ip i :
  fs_ok s [] -> file_ok s (geti s ip) -> room s [] 4 -> 0 < nfree s ->
  0 <= i < NINDIRECT -> slotv s (geti s ip) NDIRECT <> 0 ->
  wp (ind_slot ROOTDEV (slotv s (geti s ip) NDIRECT) i) (fun v s' => mapped s s' ip [] 3 1
    /\ v = slotv s' (geti s' ip) (i + NDIRECT + 1) /\ v <> 0) s.
Proof.
  intros O F [R1 R2 R3] Hf Hi Ha. set (x := geti s ip) in *. set (a := slotv s x NDIRECT) in *.
  destruct (fi_range _ _ F NDIRECT) as [Hr Hru]; [unfold NSLOT, NDIRECT, NINDIRECT in *; lia|done|].
  fold a in Hr, Hru. destruct (data_loggable s [] a O Hr) as [Hlg Hnb]. pose proof (sb_bounds s [] O) as (B1 & B2 & B3 & B4).
  assert (Hslot : slotv s x (i + NDIRECT + 1) = get32 (blkv s a) (Z.to_nat (4 * i))).
  { unfold slotv at 1. assert (nthZ 0 (iaddrs x) NDIRECT = a) as -> by (unfold a; by rewrite slot_addrs).
    rewrite (proj2 (Z.leb_gt _ _)) by lia. rewrite (proj2 (Z.eqb_neq a 0)) by done.
    do 2 f_equal. lia. }
  assert (Ea : a = slotv s x NDIRECT) by done. clearbody a.
  unfold ind_slot. apply wp_bind. eapply wp_mono; [apply fs_bread; [done|done|set_solver|simpl in *; lia]|].
  intros j s1 (O1 & Q1). pose proof Q1 as [F1 V1]. pose proof (fframe_sb _ _ _ F1) as Hsb1.
  apply wp_bind. eapply fs_bdata; [exact O1|by constructor|]. rewrite V1, <-Hslot.
  destruct (ff_tx _ _ _ F1) as (_ & T2 & _ & T4 & _). pose proof (ff_n _ _ _ F1) as N1.
  destruct (Z.eqb_spec (slotv s x (i + NDIRECT + 1)) 0) as [E|E].
  - apply wp_bind. eapply wp_mono.
    { apply (balloc_spec s1 [(j, a)] O1).
      - constructor; [|constructor]. cbn. rewrite (quiet_used _ _ Q1), Hsb1.
        split_and!; [lia|lia|done|]. unfold is_bitmap, data_start in *. rewrite Hsb1. lia.
      - simpl in R3. split; simpl; lia.
      - apply nfree_pos. rewrite (nfree_ext s s1); [done|done|]. intros c _. by apply quiet_used. }
    intros n s2 (O2 & A2). pose proof (al_frame _ _ _ A2) as F2. pose proof (fframe_sb _ _ _ F2) as Hsb2.
    destruct (ff_tx _ _ _ F2) as (_ & T2' & _ & T4' & _). pose proof (ff_n _ _ _ F2) as N2.
    eapply fs_update; [exact O2|lia|lia| |].
    { rewrite length_put32; [by eapply length_blkv|]. rewrite (length_blkv s [] a O).
      unfold NINDIRECT, BSIZE in *. lia. }
    intros s3 L3 U3.
    assert (Hnb2 : ~ is_bitmap s2 a) by (unfold is_bitmap, data_start in *; rewrite Hsb2, Hsb1; lia).
    destruct (fs_ok_updated s2 s3 _ _ a _ O2 U3 L3) as [O3 Hu3]; [|done|].
    { apply is_bytes_put32, O. }
    rewrite Hsb2, Hsb1 in Hu3.
    rewrite Ea in Ha, O2, U3. pose proof (filled_ind s s1 s2 s3 x [] j i n O F Ha Hi E Q1 A2 O2 U3 Hu3) as I.
    rewrite <-Ea in Ha, O2, U3.
    apply wp_bind. eapply wp_mono; [eapply fs_brelse; exact O3|]. intros [] s4 (O4 & Q4). apply wp_ret.
    destruct U3 as [F3 _ V3].
    pose proof (fframe_trans _ _ _ _ _ (fframe_trans _ _ _ _ _ F1 F2) F3) as F13.
    pose proof (fframe_geti _ _ _ ip F13) as Hg3. fold x in Hg3.
    assert (Hif : iframe s s3 ip 3).
    { pose proof (fframe_icache _ _ _ F13) as Hic.
      split; [by apply (fframe_sb _ _ _ F13)|rewrite (ff_eq _ _ _ F13); done|by rewrite Hic| | |apply F13|apply F13].
      - intros k _. by eapply fframe_geti.
      - by rewrite Hg3, with_addrs_id. }
    assert (M3 : mapped s s3 ip [(j, a)] 3 1).
    { split_and!; [done| | |].
      - constructor; [|constructor]. cbn. rewrite (fl_used _ _ _ _ _ _ I) by lia.
        unfold is_bitmap, data_start in *. rewrite (fl_sb _ _ _ _ _ _ I). split_and!; [lia|lia| |lia].
        by case_decide.
      - rewrite Hg3. exact (filled_file_ok s s3 x x _ n [] O F I).
      - eapply filled_bgrow; [exact O|exact F|rewrite Hg3; exact I|done]. }
    assert (M4 : mapped s3 s4 ip [] 0 0).
    { eapply quiet_mapped; [exact O3|apply M3|constructor|done|done]. }
    split; [|split].
    + destruct M3 as (_ & _ & _ & G3), M4 as (_ & H4 & F4 & G4). split_and!; [done..|].
      apply (bgrow_trans _ _ _ _ 3 0 1 0 G3 G4).
    + destruct Q4 as [F4 V4]. rewrite (fframe_geti _ _ _ ip F4), Hg3.
      rewrite (slotv_ext s3 s4) by (intros; apply V4).
      rewrite (fl_slot _ _ _ _ _ _ I), decide_True by (done || unfold NSLOT, NDIRECT, NINDIRECT in *; lia). done.
    + pose proof (fl_range _ _ _ _ _ _ I). lia.
  - apply wp_bind. eapply wp_mono; [eapply fs_brelse; exact O1|]. intros [] s2 (O2 & Q2). apply wp_ret.
    pose proof (quiet_trans _ _ _ Q1 Q2) as Q. split; [|split].
    + apply (mapped_weaken _ _ _ _ 0 0); [|lia|lia]. eapply quiet_mapped; [exact O|exact F|constructor|done|done].
    + destruct Q as [F2 V2]. rewrite (fframe_geti _ _ _ ip F2). fold x.
      by rewrite (slotv_ext s s2) by (intros; apply V2).
    + done.
Qed.

(** ** [bmap] *)

Lemma room_mapped s s' ip k m r :
  room s [] r -> mapped s s' ip [] k m -> room s' [] (r - k).
Proof.
  intros [R1 R2 R3] (_ & _ & _ & G). destruct (gg_if _ _ _ _ _ (bg_g _ _ _ _ _ G)) as [_ _ _ _ _ (_ & T2 & _ & T4 & _) N].
  simpl in *. split; simpl; lia.
Qed.

Lemma bmap_spec s ip bn :
  fs_ok s [] -> file_ok s (geti s ip) -> room s [] 6 -> 2 <= nfree s ->
  0 <= ip < Z.of_nat (length (icache s)) -> 0 <= bn < SMALL ->
  wp (bmap ip bn) (fun a s' => mapped s s' ip [] 5 2
    /\ a = slotv s' (geti s' ip) (slot_of bn) /\ a <> 0) s.
Proof.
  intros O F R Hf Hip Hbn. unfold bmap, slot_of. apply wp_bind, wp_gets. rewrite (fi_dev _ _ F).
  assert (R2 : room s [] 2) by (destruct R; simpl in *; split; simpl; lia).
  destruct (Z.ltb_spec bn NDIRECT) as [Hd|Hd].
  - eapply wp_mono; [apply addr_slot_spec; [done|constructor|done|done|lia|done|lia]|].
    intros a s' (Hm & E & Ha). split; [|done]. eapply mapped_weaken; [exact Hm|lia|lia].
  - rewrite (proj2 (Z.ltb_lt (bn - NDIRECT) NINDIRECT)) by (unfold SMALL in *; lia).
    apply wp_bind. eapply wp_mono.
    { apply (addr_slot_spec s [] ip NDIRECT); [done|constructor|done|done|lia|done|unfold NDIRECT; lia]. }
    intros a s1 (M1 & E1 & Ha). pose proof (room_mapped _ _ _ _ _ _ R M1) as R1.
    pose proof M1 as (O1 & _ & F1 & G1). pose proof (gg_free _ _ _ _ _ (bg_g _ _ _ _ _ G1)) as Hf1.
    rewrite E1. rewrite E1 in Ha. eapply wp_mono.
    { apply (ind_slot_spec s1 ip (bn - NDIRECT)); [done|done|done|lia|unfold SMALL in *; lia|done]. }
    intros v s2 (M2 & E2 & Hv). split; [|split; [|done]].
    + exact (mapped_trans _ _ _ _ _ _ _ _ _ M1 M2).
    + rewrite E2. f_equal. lia.
Qed.

(** A block that is mapped is found without touching anything. *)
Lemma bmap_mapped s ip bn :
  fs_ok s [] -> file_ok s (geti s ip) -> 0 <= bn < SMALL ->
  slotv s (geti s ip) (slot_of bn) <> 0 ->
  wp (bmap ip bn) (fun a s' => a = slotv s (geti s ip) (slot_of bn) /\ fs_ok s' [] /\ quiet s s') s.
Proof.
  intros O F Hbn Hnz. unfold bmap, slot_of in *. apply wp_bind, wp_gets. rewrite (fi_dev _ _ F).
  set (x := geti s ip) in *.
  destruct (Z.ltb_spec bn NDIRECT) as [Hd|Hd].
  - unfold addr_slot. apply wp_bind, wp_gets. fold x. unfold addr_get.
    rewrite (proj2 (Z.leb_le bn NDIRECT)) by lia. rewrite <-(slot_addrs s) by lia.
    rewrite (proj2 (Z.eqb_neq _ 0)) by done. apply wp_ret. split_and!; [done|done|apply quiet_refl].
  - rewrite (proj2 (Z.ltb_lt (bn - NDIRECT) NINDIRECT)) by (unfold SMALL in *; lia).
    unfold slotv in Hnz. rewrite (proj2 (Z.leb_gt (bn + 1) NDIRECT)) in Hnz by lia.
    destruct (Z.eqb_spec (nthZ 0 (iaddrs x) NDIRECT) 0) as [E|E]; [done|].
    set (a := nthZ 0 (iaddrs x) NDIRECT) in *.
    assert (Ea : slotv s x NDIRECT = a) by (by rewrite slot_addrs).
    destruct (fi_range _ _ F NDIRECT) as [Hr _]; [unfold NSLOT, NDIRECT, NINDIRECT; lia|by rewrite Ea|].
    fold x in Hr. rewrite Ea in Hr. destruct (data_loggable s [] a O Hr) as [Hlg _].
    apply wp_bind. unfold addr_slot. apply wp_bind, wp_gets. fold x. unfold addr_get.
    rewrite (proj2 (Z.leb_le NDIRECT NDIRECT)) by lia. fold a. rewrite (proj2 (Z.eqb_neq a 0)) by done.
    apply wp_ret. unfold ind_slot. apply wp_bind. eapply wp_mono.
    { apply fs_bread; [done|done|set_solver|]. pose proof (lo_n _ _ (fo_log _ _ O)).
      destruct (lo_geo _ _ (fo_log _ _ O)). unfold NBUF, LOGSIZE in *. simpl. lia. }
    intros j s1 (O1 & Q1). apply wp_bind. eapply fs_bdata; [exact O1|by constructor|].
    destruct Q1 as [F1 V1]. rewrite V1.
    assert (Ei : slotv s x (bn + 1) = get32 (blkv s a) (Z.to_nat (4 * (bn - NDIRECT)))).
    { unfold slotv. rewrite (proj2 (Z.leb_gt (bn + 1) NDIRECT)) by lia. fold a.
      rewrite (proj2 (Z.eqb_neq a 0)) by done. do 2 f_equal. lia. }
    replace (4 * (bn + 1 - NDIRECT - 1)) with (4 * (bn - NDIRECT)) in Hnz by lia.
    rewrite (proj2 (Z.eqb_neq _ 0)) by done.
    apply wp_bind. eapply wp_mono; [eapply fs_brelse; exact O1|]. intros [] s2 (O2 & Q2).
    apply wp_ret. split_and!; [done|done|]. by apply (quiet_trans _ s1); [split|].
Qed.

(** ** [readi] *)

(** Every block of the first [e] bytes is mapped. *)
Definition full (s : fstate) (x : inode) (e : Z) : Prop :=
  forall bn, 0 <= bn -> bn * BSIZE < e -> slotv s x (slot_of bn) <> 0.

(** Blocks a transfer of [n] bytes at [off] still has to visit. *)
Definition nblk (off n : Z) : Z :=
  if n <=? 0 then 0 else (off + n - 1) / BSIZE - off / BSIZE + 1.

Lemma nblk_fuel off n :
  0 <= off -> 0 <= n -> 0 <= nblk off n /\ (Z.to_nat (nblk off n) < Z.to_nat (n / BSIZE + 3))%nat.
Proof.
  intros Ho Hn. unfold nblk, BSIZE in *. pose proof (Z.div_pos n 512).
  destruct (Z.leb_spec n 0); [lia|].
  pose proof (Z.div_mod (off + n - 1) 512). pose proof (Z.mod_pos_bound (off + n - 1) 512).
  pose proof (Z.div_mod off 512). pose proof (Z.mod_pos_bound off 512).
  pose proof (Z.div_mod n 512). pose proof (Z.mod_pos_bound n 512). lia.
Qed.

(** One round: [m] bytes inside one block. *)
Definition chunk (off n : Z) : Z := Z.min n (BSIZE - off mod BSIZE).

Lemma chunk_step off n :
  0 <= off -> 0 < n ->
  0 < chunk off n <= n /\ off mod BSIZE + chunk off n <= BSIZE
  /\ nblk (off + chunk off n) (n - chunk off n) + 1 = nblk off n.
Proof.
  intros Ho Hn. unfold chunk, nblk, BSIZE in *.
  pose proof (Z.div_mod off 512). pose proof (Z.mod_pos_bound off 512).
  rewrite (proj2 (Z.leb_gt n 0)) by lia. destruct (Z.le_gt_cases n (512 - off mod 512)).
  - rewrite Z.min_l by lia. rewrite (proj2 (Z.leb_le (n - n) 0)) by lia. split_and!; try lia.
    replace ((off + n - 1) / 512) with (off / 512); [lia|].
    apply Z.div_unique with (off mod 512 + n - 1); lia.
  - rewrite Z.min_r by lia. rewrite (proj2 (Z.leb_gt (n - (512 - off mod 512)) 0)) by lia.
    split_and!; try lia.
    replace (off + (512 - off mod 512) + (n - (512 - off mod 512)) - 1) with (off + n - 1) by lia.
    replace ((off + (512 - off mod 512)) / 512) with (off / 512 + 1); [lia|].
    apply Z.div_unique with 0; lia.
Qed.

Lemma in_chunk off n i :
  0 <= off -> 0 < n -> 0 <= i < chunk off n ->
  (off + i) / BSIZE = off / BSIZE /\ (off + i) mod BSIZE = off mod BSIZE + i.
Proof.
  intros Ho Hn Hi. unfold chunk, BSIZE in *.
  pose proof (Z.div_mod off 512). pose proof (Z.mod_pos_bound off 512). split.
  - symmetry. apply Z.div_unique with (off mod 512 + i); lia.
  - symmetry. apply Z.mod_unique with (off / 512); lia.
Qed.

Lemma small_block off n :
  0 <= off -> 0 < n -> off + n <= SMALL * BSIZE ->
  0 <= off / BSIZE < SMALL /\ off / BSIZE * BSIZE < off + n.
Proof.
  intros Ho Hn Hs. unfold BSIZE in *. pose proof (Z.div_mod off 512). pose proof (Z.mod_pos_bound off 512).
  pose proof (Z.div_pos off 512). split; [split; [lia|]|lia]. apply Z.div_lt_upper_bound; lia.
Qed.

(** The bytes of a chunk. *)
Lemma slice_fbyte s x off n H :
  fs_ok s H -> 0 <= off -> 0 < n -> slotv s x (slot_of (off / BSIZE)) <> 0 ->
  slice (Z.to_nat (off mod BSIZE)) (Z.to_nat (chunk off n)) (blkv s (slotv s x (slot_of (off / BSIZE))))
  = map (fbyte s x) (seqZ off (chunk off n)).
Proof.
  intros O Ho Hn Hnz. destruct (chunk_step off n Ho Hn) as (Hc & Hb & _).
  pose proof (length_blkv s H (slotv s x (slot_of (off / BSIZE))) O) as Hl.
  pose proof (Z.mod_pos_bound off BSIZE ltac:(unfold BSIZE; lia)) as Hm.
  apply list_eq. intros i. destruct (decide (i < Z.to_nat (chunk off n))%nat) as [Hi|Hi].
  - rewrite lookup_slice by done. rewrite list_lookup_fmap, lookup_seqZ_lt by lia. simpl.
    destruct (in_chunk off n (Z.of_nat i) Ho Hn ltac:(lia)) as [E1 E2].
    unfold fbyte, fblock. rewrite E1, E2. rewrite (proj2 (Z.eqb_neq _ 0)) by done.
    replace (Z.to_nat (off mod BSIZE) + i)%nat with (Z.to_nat (off mod BSIZE + Z.of_nat i)) by lia.
    apply nthZ_lookup. lia.
  - rewrite (proj2 (lookup_ge_None (slice _ _ _) i)).
    + symmetry. apply lookup_ge_None. rewrite length_map, length_seqZ. lia.
    + rewrite length_slice by lia. lia.
Qed.

Lemma quiet_slotv s s' x t : quiet s s' -> slotv s' x t = slotv s x t.
Proof. intros [_ V]. apply slotv_ext. intros; apply V. Qed.

Lemma quiet_file_ok s s' ip H H' :
  fs_ok s H -> file_ok s (geti s ip) -> quiet s s' -> fs_ok s' H' -> file_ok s' (geti s ip).
Proof.
  intros O F Q O'. pose proof Q as [Fr V]. pose proof (fframe_sb _ _ _ Fr) as Hsb.
  pose proof (quiet_used _ _ Q) as Hu. destruct F as [F1 F2 F3 F4]. split; [done|done| |].
  - intros t Ht. rewrite (quiet_slotv s s') by done. rewrite Hu. unfold data_start. rewrite Hsb. by apply F3.
  - intros t u Ht Hu'. rewrite !(quiet_slotv s s') by done. by apply F4.
Qed.

Lemma readi_loop_spec s ip off n :
  fs_ok s [] -> file_ok s (geti s ip) -> 0 <= off -> 0 <= n -> off + n <= SMALL * BSIZE ->
  full s (geti s ip) (off + n) ->
  wp (readi_loop ip n (Z.to_nat (n / BSIZE + 3)) (0, off, [])) (fun bs s' =>
    bs = map (fbyte s (geti s ip)) (seqZ off n) /\ fs_ok s' [] /\ quiet s s') s.
Proof.
  intros O F Ho Hn Hs Hfull. set (x := geti s ip) in *. unfold readi_loop.
  apply (wp_loop _ (fun '(tot, o, acc) s' => 0 <= tot <= n /\ o = off + tot
      /\ acc = map (fbyte s x) (seqZ off tot) /\ fs_ok s' [] /\ quiet s s')
    (fun '(tot, o, _) => Z.to_nat (nblk o (n - tot)))).
  - split_and!; [lia|lia|lia|done|done|apply quiet_refl].
  - rewrite Z.sub_0_r. by apply nblk_fuel.
  - intros [[tot o] acc] s1 (Ht & -> & -> & O1 & Q1). destruct (Z.ltb_spec tot n) as [Hlt|Hge].
    + pose proof Q1 as [Fr1 V1]. pose proof (fframe_geti _ _ _ ip Fr1) as Hg1. fold x in Hg1.
      destruct (small_block (off + tot) (n - tot)) as [Hb1 Hb2]; [lia..|].
      set (bn := (off + tot) / BSIZE) in *.
      assert (Hnz : slotv s x (slot_of bn) <> 0) by (apply Hfull; lia).
      assert (Hnz1 : slotv s1 (geti s1 ip) (slot_of bn) <> 0) by (by rewrite Hg1, (quiet_slotv s s1)).
      assert (F1 : file_ok s1 (geti s1 ip)) by (rewrite Hg1; by eapply quiet_file_ok).
      apply wp_bind, wp_gets. rewrite (fi_dev _ _ F1).
      apply wp_bind. eapply wp_mono; [by apply bmap_mapped|].
      intros a s2 (-> & O2 & Q2). rewrite Hg1, (quiet_slotv s s1) by done.
      pose proof (quiet_trans _ _ _ Q1 Q2) as Q02. pose proof Q02 as [Fr2 V2].
      destruct (fi_range _ _ F _ (proj1 (slot_of_range bn Hb1)) Hnz) as [Hr _].
      apply wp_bind. eapply wp_mono.
      { apply fs_bread; [done| |set_solver|].
        - eapply (fframe_loggable s); [exact Fr2|]. by apply (data_loggable s [] _ O).
        - pose proof (lo_n _ _ (fo_log _ _ O2)). destruct (lo_geo _ _ (fo_log _ _ O2)).
          unfold NBUF, LOGSIZE in *. simpl. lia. }
      intros i s3 (O3 & Q3). apply wp_bind. eapply fs_bdata; [exact O3|by constructor|].
      pose proof (quiet_trans _ _ _ Q02 Q3) as [Fr3 V3]. rewrite V3.
      apply wp_bind. eapply wp_mono; [eapply fs_brelse; exact O3|]. intros [] s4 (O4 & Q4). apply wp_ret.
      fold (chunk (off + tot) (n - tot)).
      destruct (chunk_step (off + tot) (n - tot)) as (C1 & C2 & C3); [lia..|]. split.
      * split_and!; [lia|lia|lia| |done|].
        -- unfold bn. rewrite (slice_fbyte s x (off + tot) (n - tot) [] O) by (done || lia).
           rewrite <-map_app. f_equal. symmetry. rewrite seqZ_app by lia. done.
        -- eapply quiet_trans; [exact Q02|]. by eapply quiet_trans.
      * replace (n - (tot + chunk (off + tot) (n - tot))) with (n - tot - chunk (off + tot) (n - tot)) by lia.
        pose proof (proj1 (nblk_fuel (off + tot + chunk (off + tot) (n - tot))
          (n - tot - chunk (off + tot) (n - tot)) ltac:(lia) ltac:(lia))). lia.
    + apply wp_ret. split_and!; [|done|done]. by replace tot with n by lia.
Qed.

(** The bookkeeping at the start of [readi] and [writei]. *)
Definition touch (f : Z -> inode -> inode) (ip : Z) (s : fstate) : fstate :=
  let b := fsb s in
  mk_fs (flog s) (mk_sb (sb_size b) (sb_nblocks b) (sb_ninodes b) (sb_nlog b) (sb_logstart b)
                    (sb_inodestart b) (sb_bmapstart b) (sb_mounttime b) (clock s))
    (updZ ip (f (clock s) (geti s ip)) (icache s)) (clock s) (clock s) (cwd s).

Lemma wp_touch {A} f ip (k : M fstate A) Q s :
  wp k Q (touch f ip s) ->
  wp (fsupdtime ;; set_modtime ;; t ← gets curtime; updi ip (f t) ;; k) Q s.
Proof. done. Qed.

Lemma fs_ok_touch f ip s H : fs_ok s H -> fs_ok (touch f ip s) H.
Proof. intros [L [G1 G2 G3 G4 G5] B Mt]. by split. Qed.

Lemma geti_touch f ip s :
  0 <= ip < Z.of_nat (length (icache s)) -> geti (touch f ip s) ip = f (clock s) (geti s ip).
Proof. apply nthZ_updZ_eq. Qed.

Lemma slotv_same s s' x x' t :
  (forall c, blkv s' c = blkv s c) -> iaddrs x' = iaddrs x -> slotv s' x' t = slotv s x t.
Proof. intros V E. unfold slotv. rewrite E. by rewrite V. Qed.

Lemma fbyte_same s s' x x' k :
  (forall c, blkv s' c = blkv s c) -> iaddrs x' = iaddrs x -> fbyte s' x' k = fbyte s x k.
Proof. intros V E. unfold fbyte, fblock. rewrite (slotv_same s s' x x') by done. by rewrite V. Qed.

Lemma file_ok_same s s' x x' :
  (forall c, blkv s' c = blkv s c) -> (forall c, used s' c = used s c) ->
  data_start s' = data_start s -> sb_size (fsb s') = sb_size (fsb s) ->
  iaddrs x' = iaddrs x -> idev x' = idev x -> file_ok s x -> file_ok s' x'.
Proof.
  intros V Hu H1 H2 E1 E2 [F1 F2 F3 F4].
  pose proof (fun t => slotv_same s s' x x' t V E1) as Hs. split; [congruence|congruence| |].
  - intros t Ht. rewrite Hs, Hu, H1, H2. by apply F3.
  - intros t u Ht Hu'. rewrite !Hs. by apply F4.
Qed.

Lemma file_ok_touch f ip s x :
  iaddrs (f (clock s) x) = iaddrs x -> idev (f (clock s) x) = idev x ->
  file_ok s x -> file_ok (touch f ip s) (f (clock s) x).
Proof. intros E1 E2. by apply file_ok_same. Qed.

Lemma readi_spec devsw s ip off n :
  let x := geti s ip in
  fs_ok s [] -> file_ok s x -> 0 <= ip < Z.of_nat (length (icache s)) ->
  itype x <> T_DEV -> isize x <= SMALL * BSIZE -> full s x (isize x) ->
  0 <= off <= isize x -> 0 <= n -> off + n < 2 ^ 32 ->
  wp (readi devsw ip off n) (fun r s' =>
    r = (Z.min n (isize x - off), map (fbyte s x) (seqZ off (Z.min n (isize x - off))))
    /\ fs_ok s' [] /\ quiet (touch with_atime ip s) s') s.
Proof.
  intros x O F Hip Ht Hsz Hfull Hoff Hn Hov. unfold readi. apply (wp_touch with_atime).
  set (s1 := touch with_atime ip s).
  assert (Hg : geti s1 ip = with_atime (clock s) x) by (by apply geti_touch).
  apply wp_bind, wp_gets. rewrite Hg. cbn [itype isize with_atime].
  rewrite (proj2 (Z.eqb_neq _ _)) by done. rewrite u32_small by lia.
  rewrite (proj2 (Z.ltb_ge (isize x) off)), (proj2 (Z.ltb_ge (off + n) off)) by lia. cbn [orb].
  set (n' := if isize x <? off + n then isize x - off else n).
  assert (En : n' = Z.min n (isize x - off)) by (unfold n'; destruct (Z.ltb_spec (isize x) (off + n)); lia).
  apply wp_bind. eapply wp_mono.
  { apply readi_loop_spec; [by apply fs_ok_touch| |lia|lia|lia|].
    - rewrite Hg. by apply (file_ok_touch with_atime).
    - rewrite Hg. intros bn Hb1 Hb2. rewrite (slotv_same s s1 x) by done. apply Hfull; lia. }
  intros bs s2 (-> & O2 & Q2). apply wp_ret. split_and!; [|done|done]. rewrite En.
  rewrite s32_small by (unfold SMALL, NDIRECT, NINDIRECT, BSIZE in *; lia). f_equal.
  apply map_ext. intros k. rewrite Hg. by apply fbyte_same.
Qed.

(** ** [iupdate] *)

Lemma length_put_words o a d :
  (o + 44 <= length d)%nat -> length (put_words o a d) = length d.
Proof.
  intros Ho. unfold put_words.
  assert (Hin : Forall (fun k => 0 <= k < 11) (seqZ 0 (NDIRECT + 1)))
    by (apply Forall_forall; intros k; rewrite elem_of_seqZ; unfold NDIRECT; lia).
  revert d Ho. induction Hin as [|k l Hk _ IH]; intros d Ho; simpl; [done|].
  rewrite IH; rewrite length_put32; lia.
Qed.

Lemma is_bytes_put_words o a d : is_bytes d -> is_bytes (put_words o a d).
Proof.
  unfold put_words. revert d. induction (seqZ 0 (NDIRECT + 1)) as [|k l IH]; intros d Hd; [done|].
  simpl. apply IH. by apply is_bytes_put32.
Qed.

Lemma length_put_dinode o x d : (o + 72 <= length d)%nat -> length (put_dinode o x d) = length d.
Proof.
  intros Ho. unfold put_dinode. cbv zeta. rewrite length_put_words;
  rewrite !length_put32; rewrite ?length_put32; rewrite ?length_put16; try lia;
  rewrite ?length_put32; rewrite ?length_put16; try lia; rewrite ?length_put16; try lia;
  rewrite ?length_put16; try lia; rewrite ?length_put16; lia.
Qed.

Lemma is_bytes_put_dinode o x d : is_bytes d -> is_bytes (put_dinode o x d).
Proof.
  intros Hd. unfold put_dinode. cbv zeta. apply is_bytes_put_words.
  do 3 apply is_bytes_put32. by do 4 apply is_bytes_put16.
Qed.

Lemma iblock_spec s H i :
  fs_ok s H -> 0 <= i < sb_ninodes (fsb s) ->
  iblock s i = i / IPB + sb_inodestart (fsb s) /\ loggable (flog s) (iblock s i)
  /\ ~ is_bitmap s (iblock s i) /\ 0 <= iblock s i < data_start s
  /\ sb_inodestart (fsb s) <= iblock s i < sb_bmapstart (fsb s).
Proof.
  intros O Hi. pose proof (sb_bounds s H O) as (B1 & B2 & B3 & B4).
  destruct (fo_geo _ _ O) as [G1 G2 G3 G4 G5]. destruct (lo_geo _ _ (fo_log _ _ O)) as [_ P1 P2 P3].
  assert (0 <= i / IPB <= sb_ninodes (fsb s) / IPB).
  { split; [apply Z.div_pos; unfold IPB; lia|]. apply Z.div_le_mono; [unfold IPB|]; lia. }
  unfold iblock. rewrite u32_small by (unfold FSSIZE in *; lia).
  unfold is_bitmap. split_and!; try lia. split; [lia|]. lia.
Qed.

Lemma ioff_range i : (ioff i + 72 <= Z.to_nat BSIZE)%nat.
Proof.
  unfold ioff, DINODE_SIZE, IPB, BSIZE. pose proof (Z.mod_pos_bound i 7). lia.
Qed.

Lemma iupdate_spec s ip :
  let x := geti s ip in
  fs_ok s [] -> room s [] 1 -> idev x = ROOTDEV -> 0 <= inum x < sb_ninodes (fsb s) ->
  wp (iupdate ip) (fun _ s' => fs_ok s' [] /\ fframe s s' 1
    /\ (forall c, 0 <= c < sb_size (fsb s) -> used s' c = used s c)
    /\ (forall c, blkv s' c = if decide (c = iblock s (inum x))
                              then put_dinode (ioff (inum x)) x (blkv s c) else blkv s c)) s.
Proof.
  intros x O [R1 R2 R3] Hd Hi. destruct (iblock_spec s [] (inum x) O Hi) as (_ & Hlg & Hnb & _ & _).
  unfold iupdate. apply wp_bind. unfold getS, wp at 1. fold x. rewrite Hd.
  apply wp_bind. eapply wp_mono; [apply fs_bread; [done|done|set_solver|simpl in *; lia]|].
  intros i s1 (O1 & Q1). pose proof Q1 as [F1 V1]. pose proof (fframe_sb _ _ _ F1) as Hsb1.
  destruct (ff_tx _ _ _ F1) as (_ & T2 & _ & T4 & _). pose proof (ff_n _ _ _ F1) as N1.
  apply wp_bind. eapply fs_bdata; [exact O1|by constructor|]. rewrite V1.
  eapply fs_update; [exact O1|lia|lia| |].
  { rewrite length_put_dinode; [by eapply length_blkv|]. rewrite (length_blkv s [] _ O). apply ioff_range. }
  intros s2 L2 U2.
  destruct (fs_ok_updated s1 s2 _ _ _ _ O1 U2 L2) as [O2 Hu2].
  { apply is_bytes_put_dinode, O. }
  { unfold is_bitmap, data_start in *. by rewrite Hsb1. }
  eapply wp_mono; [eapply fs_brelse; exact O2|]. intros [] s3 (O3 & Q3). destruct U2 as [F2 _ V2].
  split_and!; [done| | |].
  - destruct Q3 as [F3 _]. exact (fframe_trans _ _ _ 1 0 (fframe_trans _ _ _ 0 1 F1 F2) F3).
  - intros c Hc. rewrite (quiet_used _ _ Q3), Hu2 by (by rewrite Hsb1). by rewrite (quiet_used _ _ Q1).
  - intros c. destruct Q3 as [_ V3]. rewrite V3, V2. case_decide as E; [by rewrite E|apply V1].
Qed.

(** ** [writei] *)

Lemma slot_of_inj a b : 0 <= a -> 0 <= b -> slot_of a = slot_of b -> a = b.
Proof. unfold slot_of. intros Ha Hb. destruct (Z.ltb_spec a NDIRECT), (Z.ltb_spec b NDIRECT); lia. Qed.

(** Overwriting part of a mapped block of the file. *)
Lemma put_chunk {A} s ip bn o bs (r : A) :
  let x := geti s ip in let a := slotv s x (slot_of bn) in
  fs_ok s [] -> file_ok s x -> room s [] 1 -> 0 <= bn < SMALL -> a <> 0 ->
  (o + length bs <= Z.to_nat BSIZE)%nat -> is_bytes bs ->
  wp (bp ← bioF (bread ROOTDEV a);
      d ← bioF (bdata bp);
      bioF (set_bdata bp (splice o bs d)) ;;
      logM (log_write bp) ;;
      bioF (brelse bp) ;;
      mret r)
    (fun r' s' => r' = r /\ fs_ok s' [] /\ file_ok s' x /\ geti s' ip = x /\ ggrow s s' ip 1 0
      /\ forall j, 0 <= j < SMALL ->
           fblock s' x j = if decide (j = bn) then splice o bs (fblock s x bn) else fblock s x j) s.
Proof.
  intros x a O F [R1 R2 R3] Hbn Ha Ho Hbs. destruct (slot_of_range bn Hbn) as [Hsl Hne].
  destruct (fi_range _ _ F _ Hsl Ha) as [Hr Hru]. fold a in Hr, Hru.
  destruct (data_loggable s [] a O Hr) as [Hlg Hnb]. pose proof (sb_bounds s [] O) as (B1 & B2 & B3 & B4).
  assert (Ea : a = slotv s x (slot_of bn)) by done. clearbody a.
  apply wp_bind. eapply wp_mono; [apply fs_bread; [done|done|set_solver|simpl in *; lia]|].
  intros i s1 (O1 & Q1). pose proof Q1 as [F1 V1]. pose proof (fframe_sb _ _ _ F1) as Hsb1.
  destruct (ff_tx _ _ _ F1) as (_ & T2 & _ & T4 & _). pose proof (ff_n _ _ _ F1) as N1.
  apply wp_bind. eapply fs_bdata; [exact O1|by constructor|]. rewrite V1.
  pose proof (length_blkv s [] a O) as Hl.
  eapply fs_update; [exact O1|lia|lia|by rewrite length_splice; [done|lia]|].
  intros s2 L2 U2.
  destruct (fs_ok_updated s1 s2 _ _ _ _ O1 U2 L2) as [O2 Hu2].
  { apply is_bytes_splice; [done|apply O]. }
  { unfold is_bitmap, data_start in *. by rewrite Hsb1. }
  apply wp_bind. eapply wp_mono; [eapply fs_brelse; exact O2|]. intros [] s3 (O3 & Q3). apply wp_ret.
  destruct U2 as [F2 _ V2]. pose proof Q3 as [F3 V3].
  pose proof (fframe_trans _ _ _ _ _ (fframe_trans _ _ _ _ _ F1 F2) F3) as F13.
  pose proof (fframe_geti _ _ _ ip F13) as Hg. fold x in Hg. pose proof (fframe_sb _ _ _ F13) as Hsb.
  assert (Hu : forall c, 0 <= c < sb_size (fsb s) -> used s3 c = used s c).
  { intros c Hc. rewrite (quiet_used _ _ Q3), Hu2 by (by rewrite Hsb1). by rewrite (quiet_used _ _ Q1). }
  assert (V : forall c, blkv s3 c = if decide (c = a) then splice o bs (blkv s a) else blkv s c).
  { intros c. rewrite V3, V2. case_decide; [done|apply V1]. }
  assert (Hind : nthZ 0 (iaddrs x) NDIRECT <> 0 -> nthZ 0 (iaddrs x) NDIRECT <> a).
  { rewrite <-(slot_addrs s x NDIRECT) by lia. intros Hz E. apply Hne. symmetry.
    apply (fi_inj _ _ F); [unfold NSLOT, NDIRECT, NINDIRECT; lia|done|done|]. by rewrite E. }
  assert (Hs : forall t, slotv s3 x t = slotv s x t).
  { intros t. apply slotv_ext. intros c Hc E. rewrite V, decide_False; [done|]. rewrite E in *. auto. }
  split_and!; [done|done| |done| |].
  - destruct F as [G1 G2 G3 G4]. split; [done|done| |].
    + intros t Ht. rewrite Hs. unfold data_start. rewrite Hsb. intros Hz.
      destruct (G3 t Ht Hz) as [K1 K2]. split; [done|]. rewrite Hu; [done|]. unfold data_start in *. lia.
    + intros t u Ht Hu'. rewrite !Hs. by apply G4.
  - split.
    + pose proof (fframe_icache _ _ _ F13) as Hic.
      split; [done|rewrite (ff_eq _ _ _ F13); done|by rewrite Hic| | |apply F13|apply F13].
      * intros k _. by eapply fframe_geti.
      * by rewrite Hg, with_addrs_id.
    + intros c Hc. by rewrite Hu.
    + intros c Hc Huc Hbc Hsc. rewrite V, decide_False; [done|]. intros ->. by apply (Hsc (slot_of bn)).
    + rewrite (nfree_ext s s3 Hsb Hu). lia.
    + intros t Ht. left. by rewrite Hg.
  - intros j Hj. destruct (slot_of_range j Hj) as [Hslj Hnej]. unfold fblock. rewrite !Hs, <-Ea.
    rewrite (proj2 (Z.eqb_neq a 0)) by done.
    destruct (decide (j = bn)) as [->|Hjb].
    + rewrite <-Ea, (proj2 (Z.eqb_neq a 0)) by done. by rewrite V, decide_True.
    + destruct (Z.eqb_spec (slotv s x (slot_of j)) 0) as [|Hz]; [done|].
      rewrite V, decide_False; [done|]. intros E. apply Hjb. apply slot_of_inj; [lia|lia|].
      apply (fi_inj _ _ F); [done|done|done|congruence].
Qed.

Lemma nthZ_splice o bs (d : list Z) k :
  (o + length bs <= length d)%nat -> 0 <= k ->
  nthZ 0 (splice o bs d) k
  = if decide (Z.of_nat o <= k < Z.of_nat (o + length bs)) then nthZ 0 bs (k - Z.of_nat o) else nthZ 0 d k.
Proof.
  intros Hl Hk. unfold nthZ. rewrite (proj2 (Z.ltb_ge k 0)) by lia. rewrite !nth_lookup.
  case_decide as Hd.
  - rewrite (proj2 (Z.ltb_ge (k - Z.of_nat o) 0)) by lia. rewrite lookup_splice_in by lia.
    do 2 f_equal. lia.
  - rewrite lookup_splice_out by lia. done.
Qed.

(** [fbyte] after one round of the loop. *)
Lemma fbyte_put s s' x bn off m bs k H :
  fs_ok s H -> 0 <= off -> bn = off / BSIZE -> 0 <= k < SMALL * BSIZE -> 0 <= bn < SMALL ->
  off mod BSIZE + m <= BSIZE -> m = Z.of_nat (length bs) ->
  (forall j, 0 <= j < SMALL ->
     fblock s' x j = if decide (j = bn) then splice (Z.to_nat (off mod BSIZE)) bs (fblock s x bn)
                     else fblock s x j) ->
  fbyte s' x k = if decide (off <= k < off + m) then nthZ 0 bs (k - off) else fbyte s x k.
Proof.
  intros O Ho Hbn Hk Hb Hm Hlen Hf. unfold fbyte.
  assert (Hk512 : 0 <= k / BSIZE < SMALL).
  { split; [apply Z.div_pos; unfold BSIZE; lia|]. apply Z.div_lt_upper_bound; unfold BSIZE in *; lia. }
  pose proof (Z.mod_pos_bound off BSIZE ltac:(unfold BSIZE; lia)).
  pose proof (Z.mod_pos_bound k BSIZE ltac:(unfold BSIZE; lia)).
  pose proof (Z.div_mod k BSIZE ltac:(unfold BSIZE; lia)). pose proof (Z.div_mod off BSIZE ltac:(unfold BSIZE; lia)).
  rewrite Hf by done. destruct (decide (k / BSIZE = bn)) as [E|E].
  - assert (Hfl : length (fblock s x bn) = Z.to_nat BSIZE).
    { unfold fblock. case_match; [done|]. by eapply length_blkv. }
    rewrite nthZ_splice by lia. rewrite E. destruct (decide (off <= k < off + m)) as [Hin|Hin].
    + rewrite decide_True by (unfold BSIZE in *; lia). f_equal. unfold BSIZE in *. lia.
    + rewrite decide_False by (unfold BSIZE in *; lia). done.
  - rewrite decide_False; [done|]. intros Hin. apply E.
    assert (k / BSIZE < bn \/ bn < k / BSIZE) as [|] by lia; unfold BSIZE in *; lia.
Qed.

Lemma ggrow_weaken s s' ip k m k' m' :
  ggrow s s' ip k m -> k <= k' -> m <= m' -> ggrow s s' ip k' m'.
Proof.
  intros [[A1 A2 A3 A4 A5 A6 A7] B1 B2 B3 B4] Hk Hm.
  split; [|done|done|lia|done]. split; done || lia.
Qed.

Lemma room_ggrow s s' ip k m r : room s [] r -> ggrow s s' ip k m -> room s' [] (r - k).
Proof.
  intros [R1 R2 R3] G. destruct (gg_if _ _ _ _ _ G) as [_ _ _ _ _ (_ & T2 & _ & T4 & _) N].
  simpl in *. split; simpl; lia.
Qed.

(** Mapped blocks stay mapped. *)
Lemma ggrow_full s s' ip k m e : ggrow s s' ip k m -> file_ok s' (geti s' ip) -> e <= SMALL * BSIZE ->
  full s (geti s ip) e -> full s' (geti s' ip) e.
Proof.
  intros G F He Hf bn H1 H2. assert (Hb : 0 <= bn < SMALL) by (unfold BSIZE in *; lia).
  destruct (gg_fresh _ _ _ _ _ G (slot_of bn)) as [E|(E & _)].
  - apply slot_of_range. done.
  - rewrite E. by apply Hf.
  - by apply Hf in E.
Qed.

Definition written (s : fstate) (x : inode) (src : list Z) (off tot k : Z) : Z :=
  if decide (off <= k < off + tot) then nthZ 0 src (k - off) else fbyte s x k.

(** The loop invariant of [writei]. *)
Record winv (s0 s : fstate) (ip off : Z) (src : list Z) (tot : Z) : Prop := {
  wi_ok : fs_ok s [];
  wi_file : file_ok s (geti s ip);
  wi_grow : let d := nblk off (Z.of_nat (length src)) - nblk (off + tot) (Z.of_nat (length src) - tot) in
            ggrow s0 s ip (6 * d) (2 * d);
  wi_full : full s (geti s ip) (off + tot);
  wi_data : forall k, 0 <= k < SMALL * BSIZE ->
              fbyte s (geti s ip) k = written s0 (geti s0 ip) src off tot k
}.

(** One round of the loop. *)
Lemma writei_round s0 s ip off src tot :
  let n := Z.of_nat (length src) in let o := off + tot in let m := chunk o (n - tot) in
  0 <= off -> 0 <= tot < n -> off + n <= SMALL * BSIZE -> is_bytes src ->
  0 <= ip < Z.of_nat (length (icache s)) ->
  winv s0 s ip off src tot -> room s [] 7 -> 2 <= nfree s ->
  wp (b ← bmap ip (o / BSIZE);
      bp ← bioF (bread ROOTDEV b);
      d ← bioF (bdata bp);
      bioF (set_bdata bp (splice (Z.to_nat (o mod BSIZE)) (take (Z.to_nat m) (drop (Z.to_nat tot) src)) d)) ;;
      logM (log_write bp) ;;
      bioF (brelse bp) ;;
      mret (inl (tot + m, o + m, drop (Z.to_nat m) (drop (Z.to_nat tot) src))))
    (fun (r : (Z * Z * list Z) + Z) s' =>
       r = inl (tot + m, o + m, drop (Z.to_nat (tot + m)) src) /\ winv s0 s' ip off src (tot + m)
       /\ ggrow s s' ip 6 2) s.
Proof.
  intros n o m Hoff Ht Hs Hsrc Hip [W1 W2 W3 W4 W5] R Hf.
  destruct (small_block o (n - tot)) as [Hb1 Hb2]; [lia..|]. set (bn := o / BSIZE) in *.
  destruct (chunk_step o (n - tot)) as (C1 & C2 & C3); [lia..|]. fold m in C1, C2, C3.
  assert (R6 : room s [] 6) by (destruct R; simpl in *; split; simpl; lia).
  apply wp_bind. eapply wp_mono; [by apply bmap_spec|].
  intros a s1 (M1 & Ea & Ha). pose proof (room_mapped _ _ _ _ _ _ R M1) as R1.
  destruct M1 as (O1 & _ & F1 & [G1 Cn1]). rewrite Ea. rewrite Ea in Ha.
  assert (Hlen : length (take (Z.to_nat m) (drop (Z.to_nat tot) src)) = Z.to_nat m)
    by (rewrite length_take, length_drop; lia).
  pose proof (Z.mod_pos_bound o BSIZE ltac:(unfold BSIZE; lia)) as Hom.
  eapply wp_mono.
  { apply (put_chunk s1 ip bn); [done|done|destruct R1; simpl in *; split; simpl; lia|done|done| |].
    - rewrite Hlen. lia.
    - by apply Forall_take, Forall_drop. }
  intros r s2 (-> & O2 & F2 & Hg2 & G2 & Hblk). rewrite <-Hg2 in F2, Hblk.
  pose proof (ggrow_trans _ _ _ _ _ _ _ _ G1 G2) as G12. split_and!; [|split|done].
  - by rewrite drop_drop, <-Z2Nat.inj_add by lia.
  - done.
  - done.
  - cbv zeta in W3 |- *. fold n in W3 |- *. fold o in W3.
    replace (off + (tot + m)) with (o + m) by lia. replace (n - (tot + m)) with (n - tot - m) by lia.
    replace (6 * (nblk off n - nblk (o + m) (n - tot - m)))
      with (6 * (nblk off n - nblk o (n - tot)) + (5 + 1)) by lia.
    replace (2 * (nblk off n - nblk (o + m) (n - tot - m)))
      with (2 * (nblk off n - nblk o (n - tot)) + (2 + 0)) by lia.
    eapply ggrow_trans; [exact W3|exact G12].
  - intros j Hj1 Hj2. assert (Hjs : j <= bn).
    { unfold bn, BSIZE in *. pose proof (Z.div_mod o 512). lia. }
    destruct (decide (j = bn)) as [->|Hjb].
    + assert (Hs12 : forall t, 0 <= t < NSLOT -> slotv s1 (geti s1 ip) t <> 0 ->
                slotv s2 (geti s2 ip) t <> 0).
      { intros t Htt Hz. destruct (gg_fresh _ _ _ _ _ G2 t Htt) as [E|(E & _)]; [by rewrite E|done]. }
      apply Hs12; [|done]. by apply slot_of_range.
    + assert (Hfull2 : full s2 (geti s2 ip) (off + tot)).
      { eapply (ggrow_full s); [exact G12|done|lia|done]. }
      apply Hfull2; [done|]. unfold bn, BSIZE in *. pose proof (Z.div_mod o 512). lia.
  - intros k Hk. assert (Hk512 : 0 <= k / BSIZE < SMALL).
    { split; [apply Z.div_pos; unfold BSIZE; lia|]. apply Z.div_lt_upper_bound; unfold BSIZE in *; lia. }
    rewrite Hg2. rewrite Hg2 in Hblk.
    rewrite (fbyte_put s1 s2 (geti s1 ip) bn o m (take (Z.to_nat m) (drop (Z.to_nat tot) src)) k [] O1)
      by (done || (rewrite Hlen; lia) || lia).
    assert (E1 : fbyte s1 (geti s1 ip) k = fbyte s (geti s ip) k) by (unfold fbyte; by rewrite Cn1).
    rewrite E1, W5 by done. unfold written.
    destruct (decide (o <= k < o + m)) as [Hin|Hin].
    + rewrite decide_True by lia. unfold nthZ. rewrite !(proj2 (Z.ltb_ge _ 0)) by lia.
      rewrite !nth_lookup, lookup_take_lt, lookup_drop by lia. do 2 f_equal. lia.
    + destruct (decide (off <= k < off + tot)); [rewrite decide_True by lia; done|].
      rewrite decide_False by lia. done.
Qed.

Lemma writei_loop_spec s ip off src :
  let n := Z.of_nat (length src) in
  fs_ok s [] -> file_ok s (geti s ip) -> 0 <= ip < Z.of_nat (length (icache s)) ->
  0 <= off -> off + n <= SMALL * BSIZE -> is_bytes src -> full s (geti s ip) off ->
  room s [] (6 * nblk off n + 1) -> 2 * nblk off n <= nfree s ->
  wp (writei_loop ip n (Z.to_nat (n / BSIZE + 3)) (0, off, src)) (fun o s' =>
    o = off + n /\ winv s s' ip off src n /\ room s' [] 1) s.
Proof.
  intros n O F Hip Hoff Hs Hsrc Hfull R Hf. unfold writei_loop.
  apply (wp_loop _ (fun '(tot, o, l) s' => 0 <= tot <= n /\ o = off + tot
      /\ l = drop (Z.to_nat tot) src /\ winv s s' ip off src tot
      /\ length (icache s') = length (icache s)
      /\ room s' [] (6 * nblk o (n - tot) + 1) /\ 2 * nblk o (n - tot) <= nfree s')
    (fun '(tot, o, _) => Z.to_nat (nblk o (n - tot)))).
  - rewrite Z.add_0_r, Z.sub_0_r. split_and!; try done; try lia. split; try done.
    + cbv zeta. fold n. rewrite Z.add_0_r, Z.sub_0_r, Z.sub_diag. apply ggrow_refl.
    + by rewrite Z.add_0_r.
    + intros k Hk. unfold written. by rewrite decide_False by lia.
  - rewrite Z.sub_0_r. apply nblk_fuel; lia.
  - intros [[tot o] l] s1 (Ht & -> & -> & W & Hlen & R1 & Hf1). destruct (Z.ltb_spec tot n) as [Hlt|Hge].
    + destruct (chunk_step (off + tot) (n - tot)) as (C1 & C2 & C3); [lia..|].
      pose proof (proj1 (nblk_fuel (off + tot + chunk (off + tot) (n - tot))
          (n - tot - chunk (off + tot) (n - tot)) ltac:(lia) ltac:(lia))) as Hnn.
      apply wp_bind, wp_gets. rewrite (fi_dev _ _ (wi_file _ _ _ _ _ _ W)).
      fold (chunk (off + tot) (n - tot)). eapply wp_mono.
      { apply (writei_round s s1 ip off src tot); [lia|lia|lia|done|lia|done| |lia].
        destruct R1; simpl in *; split; simpl; lia. }
      intros r s2 (-> & W2 & G2). fold n. pose proof (room_ggrow _ _ _ _ _ _ R1 G2) as R2.
      set (m := chunk (off + tot) (n - tot)) in *. pose proof (gg_free _ _ _ _ _ G2) as Hfr.
      replace (n - (tot + m)) with (n - tot - m) by lia. split; [|lia].
      split_and!; [lia|lia|lia|done|done| | |lia].
      * rewrite (if_len _ _ _ _ (gg_if _ _ _ _ _ G2)). done.
      * destruct R2; simpl in *; split; simpl; lia.
    + apply wp_ret. replace tot with n in * by lia. split_and!; [done|done|].
      unfold nblk in R1. rewrite Z.sub_diag in R1. done.
Qed.

(** Updating a block below the data area does not touch a file. *)
Lemma meta_update s s' x b :
  (forall c, c <> b -> blkv s' c = blkv s c) -> b < data_start s -> file_ok s x ->
  (forall t, slotv s' x t = slotv s x t)
  /\ (forall k, 0 <= k < SMALL * BSIZE -> fbyte s' x k = fbyte s x k).
Proof.
  intros V Hb F.
  assert (Hs : forall t, slotv s' x t = slotv s x t).
  { intros t. apply slotv_ext. intros c Hc E. apply V. intros ->.
    destruct (fi_range _ _ F NDIRECT) as [Hr _]; [unfold NSLOT, NDIRECT, NINDIRECT; lia| |].
    - rewrite slot_addrs by lia. congruence.
    - rewrite slot_addrs in Hr by lia. lia. }
  split; [done|]. intros k Hk.
  assert (Hk512 : 0 <= k / BSIZE < SMALL).
  { split; [apply Z.div_pos; unfold BSIZE; lia|]. apply Z.div_lt_upper_bound; unfold BSIZE in *; lia. }
  destruct (slot_of_range _ Hk512) as [Hsl _]. unfold fbyte, fblock. rewrite Hs.
  destruct (Z.eqb_spec (slotv s x (slot_of (k / BSIZE))) 0); [done|]. rewrite V; [done|].
  intros E. destruct (fi_range _ _ F _ Hsl) as [Hr _]; [done|]. lia.
Qed.

Record wrote_file (s s' : fstate) (ip off : Z) (src : list Z) : Prop := {
  wf_ok : fs_ok s' [];
  wf_file : file_ok s' (geti s' ip);
  wf_inode : geti s' ip = with_addrs (iaddrs (geti s' ip))
               (with_size (Z.max (isize (geti s ip)) (off + Z.of_nat (length src)))
                  (with_mtime (clock s) (geti s ip)));
  wf_full : full s' (geti s' ip) (isize (geti s' ip));
  wf_data : forall k, 0 <= k < SMALL * BSIZE -> fbyte s' (geti s' ip) k
              = written s (geti s ip) src off (Z.of_nat (length src)) k;
  wf_other : forall j, j <> ip -> geti s' j = geti s j;
  wf_used : forall c, 0 <= c < sb_size (fsb s) -> used s c = true -> used s' c = true;
  wf_rest : forall c, 0 <= c < sb_size (fsb s) -> used s c = true -> ~ is_bitmap s c ->
              (forall t, 0 <= t < NSLOT -> slotv s (geti s ip) t <> c) ->
              c <> iblock s (inum (geti s ip)) -> blkv s' c = blkv s c;
  wf_disk : isize (geti s ip) < off + Z.of_nat (length src) ->
              blkv s' (iblock s (inum (geti s ip)))
              = put_dinode (ioff (inum (geti s ip))) (geti s' ip) (blkv s (iblock s (inum (geti s ip))));
  wf_tx : same_tx (flog s) (flog s');
  wf_len : length (icache s') = length (icache s)
}.

Lemma with_size_id x : with_size (isize x) x = x.
Proof. by destruct x. Qed.

(** The end of [writei] when the file does not grow. *)
Lemma writei_same_size s s2 ip off src :
  let x := geti s ip in let s1 := touch with_mtime ip s in
  0 <= ip < Z.of_nat (length (icache s)) -> isize x <= SMALL * BSIZE -> full s x (isize x) ->
  off + Z.of_nat (length src) <= isize x ->
  winv s1 s2 ip off src (Z.of_nat (length src)) -> wrote_file s s2 ip off src.
Proof.
  intros x s1 Hip Hsz Hfull Hend [W1 W2 W3 W4 W5]. cbv zeta in W3.
  set (d := nblk _ _ - nblk _ _) in W3. pose proof (gg_if _ _ _ _ _ W3) as If.
  assert (Hg1 : geti s1 ip = with_mtime (clock s) x) by (by apply geti_touch).
  pose proof (if_ip _ _ _ _ If) as Hg2. rewrite Hg1 in Hg2.
  assert (Hsz2 : isize (geti s2 ip) = isize x) by (rewrite Hg2; done).
  split; [done|done| | | | | | | | |].
  - rewrite Hg2 at 1. f_equal. rewrite Z.max_l by (fold x; lia).
    change (isize (geti s ip)) with (isize (with_mtime (clock s) x)).
    by rewrite with_size_id.
  - rewrite Hsz2. eapply (ggrow_full s1); [exact W3|done|done|].
    rewrite Hg1. intros bn H1 H2. rewrite (slotv_same s s1 x) by done. by apply Hfull.
  - intros k Hk. rewrite W5 by done. unfold written. case_decide; [done|].
    rewrite Hg1. by apply fbyte_same.
  - intros j Hj. rewrite (if_other _ _ _ _ If) by done. apply geti_seti_ne with (x := with_mtime (clock s) x). done.
  - exact (gg_used _ _ _ _ _ W3).
  - intros c Hc Hu Hnb Hs _. apply (gg_rest _ _ _ _ _ W3 c Hc Hu Hnb).
    intros t Ht. rewrite Hg1, (slotv_same s s1 x) by done. by apply Hs.
  - fold x. lia.
  - apply If.
  - rewrite (if_len _ _ _ _ If). apply length_updZ.
Qed.

(** The end of [writei] when the file grows. *)
Lemma writei_grows s s2 s4 ip off src :
  let x := geti s ip in let s1 := touch with_mtime ip s in
  let s3 := seti ip (with_size (off + Z.of_nat (length src)) (geti s2 ip)) s2 in
  fs_ok s [] -> file_ok s x -> 0 <= ip < Z.of_nat (length (icache s)) ->
  off + Z.of_nat (length src) <= SMALL * BSIZE ->
  0 <= inum x < sb_ninodes (fsb s) -> isize x < off + Z.of_nat (length src) ->
  winv s1 s2 ip off src (Z.of_nat (length src)) ->
  fs_ok s4 [] -> fframe s3 s4 1 ->
  (forall c, 0 <= c < sb_size (fsb s3) -> used s4 c = used s3 c) ->
  (forall c, blkv s4 c = if decide (c = iblock s3 (inum (geti s3 ip)))
      then put_dinode (ioff (inum (geti s3 ip))) (geti s3 ip) (blkv s3 c) else blkv s3 c) ->
  wrote_file s s4 ip off src.
Proof.
  intros x s1 s3 O F Hip Hs Hin Hend [W1 W2 W3 W4 W5] O4 F4 Hu4 V4. cbv zeta in W3.
  set (e := off + Z.of_nat (length src)) in *. set (d := nblk _ _ - nblk _ _) in W3.
  pose proof (gg_if _ _ _ _ _ W3) as If. pose proof (sb_bounds s [] O) as (B1 & B2 & B3 & B4).
  assert (Hg1 : geti s1 ip = with_mtime (clock s) x) by (by apply geti_touch).
  pose proof (if_ip _ _ _ _ If) as Hg2. rewrite Hg1 in Hg2. set (y := geti s2 ip) in *.
  assert (Hl2 : length (icache s2) = length (icache s)).
  { rewrite (if_len _ _ _ _ If). apply length_updZ. }
  assert (Hg3 : geti s3 ip = with_size e y) by (apply geti_seti_eq; lia).
  pose proof (fframe_geti _ _ _ ip F4) as Hg4. rewrite Hg3 in *.
  assert (Hsb2 : fsb s2 = fsb s1) by apply If.
  assert (Hib : iblock s3 (inum (with_size e y)) = iblock s (inum x)).
  { unfold iblock. change (fsb s3) with (fsb s2). rewrite Hsb2. cbn [inum with_size]. rewrite Hg2. done. }
  rewrite Hib in V4.
  destruct (iblock_spec s [] (inum x) O Hin) as (_ & _ & Hnb & Hmeta & _).
  assert (Hds : data_start s2 = data_start s) by (unfold data_start; by rewrite Hsb2).
  assert (F2' : file_ok s2 (with_size e y)) by (by apply (file_ok_same s2 s2 y)).
  destruct (meta_update s2 s4 (with_size e y) (iblock s (inum x))) as [Hsl4 Hfb4]; [|lia|done|].
  { intros c Hc. rewrite V4, decide_False by done. done. }
  assert (Hsb4 : fsb s4 = fsb s1) by (rewrite (fframe_sb _ _ _ F4); exact Hsb2).
  assert (Hu24 : forall c, 0 <= c < sb_size (fsb s) -> used s4 c = used s2 c).
  { intros c Hc. rewrite Hu4; [done|]. change (fsb s3) with (fsb s2). rewrite Hsb2. exact Hc. }
  split; rewrite ?Hg4.
  - done.
  - destruct F2' as [K1 K2 K3 K4]. split; [done|done| |].
    + intros t Ht. rewrite Hsl4. unfold data_start. rewrite Hsb4. intros Hz.
      destruct (K3 t Ht Hz) as [K5 K6]. rewrite Hds, Hsb2 in K5. split; [done|].
      rewrite Hu24; [done|]. change (sb_size (fsb s1)) with (sb_size (fsb s)) in K5. lia.
    + intros t u Ht Hu'. rewrite !Hsl4. by apply K4.
  - cbn [iaddrs with_size]. fold x e. rewrite Hg2. rewrite Z.max_r by lia. done.
  - cbn [isize with_size]. intros bn H1 H2. rewrite Hsl4.
    rewrite (slotv_same s2 s2 y) by done. by apply W4.
  - intros k Hk. rewrite Hfb4 by done. rewrite (fbyte_same s2 s2 y) by done. unfold y. rewrite W5 by done.
    unfold written. case_decide; [done|]. rewrite Hg1. by apply fbyte_same.
  - intros j Hj. rewrite (fframe_geti _ _ _ j F4). unfold s3. rewrite geti_seti_ne by done.
    rewrite (if_other _ _ _ _ If) by done. by apply geti_seti_ne with (x := with_mtime (clock s) x).
  - intros c Hc Hu. rewrite Hu24 by done. by apply (gg_used _ _ _ _ _ W3).
  - intros c Hc Hu Hnbc Hsc Hci. rewrite V4, decide_False by done.
    apply (gg_rest _ _ _ _ _ W3 c Hc Hu Hnbc).
    intros t Ht. rewrite Hg1, (slotv_same s s1 x) by done. by apply Hsc.
  - intros _. fold x. rewrite V4, decide_True by done. cbn [inum with_size].
    assert (Einum : inum y = inum x) by (rewrite Hg2; done). rewrite Einum. f_equal.
    change (blkv s3) with (blkv s2).
    apply (gg_rest _ _ _ _ _ W3); [|by apply O|done|].
    + change (sb_size (fsb s1)) with (sb_size (fsb s)). lia.
    + intros t Ht. rewrite Hg1, (slotv_same s s1 x) by done. intros E.
      destruct (decide (slotv s x t = 0)) as [Ez|Ez].
      * destruct (lo_geo _ _ (fo_log _ _ O)), (fo_geo _ _ O).
        destruct (iblock_spec s [] (inum x) O Hin) as (_ & _ & _ & _ & Hlow). lia.
      * destruct (fi_range _ _ F t Ht Ez) as [Hr _]. lia.
  - eapply same_tx_trans; [apply If|apply F4].
  - rewrite (fframe_icache _ _ _ F4). cbn. by rewrite length_updZ.
Qed.

Lemma max_bytes : u32 (MAXFILE * BSIZE) = 1082201088.
Proof. reflexivity. Qed.

Lemma writei_spec devsw s ip off src :
  let x := geti s ip in let n := Z.of_nat (length src) in
  fs_ok s [] -> file_ok s x -> 0 <= ip < Z.of_nat (length (icache s)) ->
  itype x <> T_DEV -> 0 <= inum x < sb_ninodes (fsb s) ->
  isize x <= SMALL * BSIZE -> full s x (isize x) ->
  0 <= off <= isize x -> off + n <= SMALL * BSIZE -> is_bytes src ->
  room s [] (6 * nblk off n + 1) -> 2 * nblk off n <= nfree s ->
  wp (writei devsw ip src off) (fun r s' => r = n /\ wrote_file s s' ip off src) s.
Proof.
  intros x n O F Hip Ht Hin Hsz Hfull Hoff Hs Hsrc R Hf. unfold writei. fold n.
  apply (wp_touch with_mtime). set (s1 := touch with_mtime ip s).
  assert (Hg1 : geti s1 ip = with_mtime (clock s) x) by (by apply geti_touch).
  apply wp_bind, wp_gets. rewrite Hg1. cbn [itype isize with_mtime].
  rewrite (proj2 (Z.eqb_neq _ _)) by done.
  assert (Hmax : off + n < 2 ^ 31) by (unfold SMALL, NDIRECT, NINDIRECT, BSIZE in *; lia).
  rewrite u32_small by lia.
  rewrite (proj2 (Z.ltb_ge (isize x) off)), (proj2 (Z.ltb_ge (off + n) off)) by lia. cbn [orb].
  rewrite (proj2 (Z.ltb_ge (u32 (MAXFILE * BSIZE)) (off + n)))
    by (pose proof max_bytes; unfold SMALL, NDIRECT, NINDIRECT, BSIZE in *; lia).
  apply wp_bind. eapply wp_mono.
  { apply writei_loop_spec; [by apply fs_ok_touch| |cbn; by rewrite length_updZ|lia|done|done| |by destruct R|exact Hf].
    - rewrite Hg1. by apply (file_ok_touch with_mtime).
    - rewrite Hg1. intros bn H1 H2. rewrite (slotv_same s s1 x) by done. apply Hfull; lia. }
  intros o s2 (-> & W & R2). apply wp_bind, wp_gets. fold n in W.
  assert (Hg2 : isize (geti s2 ip) = isize x /\ inum (geti s2 ip) = inum x /\ idev (geti s2 ip) = idev x).
  { pose proof (wi_grow _ _ _ _ _ _ W) as G. cbv zeta in G.
    rewrite (if_ip _ _ _ _ (gg_if _ _ _ _ _ G)), Hg1. done. }
  destruct Hg2 as (E1 & E2 & E3). rewrite E1, s32_small by lia.
  assert (Hl2 : length (icache s2) = length (icache s)).
  { pose proof (wi_grow _ _ _ _ _ _ W) as G. cbv zeta in G.
    rewrite (if_len _ _ _ _ (gg_if _ _ _ _ _ G)). apply length_updZ. }
  assert (Hsb2 : fsb s2 = fsb s1).
  { pose proof (wi_grow _ _ _ _ _ _ W) as G. apply (gg_if _ _ _ _ _ G). }
  fold n. destruct (Z.ltb_spec 0 n), (Z.ltb_spec (isize x) (off + n)); cbn [andb].
  - apply wp_bind, wp_bind. unfold updi, modS, wp at 1. set (s3 := seti ip _ s2).
    assert (Hg3 : geti s3 ip = with_size (off + n) (geti s2 ip)) by (apply geti_seti_eq; lia).
    eapply wp_mono.
    { apply iupdate_spec; [by apply fs_ok_seti, W|by destruct R2|rewrite Hg3; cbn; rewrite E3; apply F|].
      rewrite Hg3. cbn [inum with_size]. rewrite E2. change (fsb s3) with (fsb s2). rewrite Hsb2. exact Hin. }
    intros [] s4 (O4 & F4 & U4 & V4). apply wp_ret. split; [done|].
    by apply (writei_grows s s2 s4).
  - apply wp_bind, wp_ret, wp_ret. split; [done|]. by apply writei_same_size.
  - lia.
  - apply wp_bind, wp_ret, wp_ret. split; [done|]. by apply writei_same_size.
Qed.

(** What [writei] needs to store [src] at [off]: a well-formed file of the size
    the single indirect block covers, no hole before [off], and enough free
    blocks and log space. *)
Record writable (s : fstate) (ip off : Z) (src : list Z) : Prop := {
  wr_ok : fs_ok s [];
  wr_file : file_ok s (geti s ip);
  wr_ip : 0 <= ip < Z.of_nat (length (icache s));
  wr_type : itype (geti s ip) <> T_DEV;
  wr_inum : 0 <= inum (geti s ip) < sb_ninodes (fsb s);
  wr_size : isize (geti s ip) <= SMALL * BSIZE;
  wr_full : full s (geti s ip) (isize (geti s ip));
  wr_off : 0 <= off <= isize (geti s ip);
  wr_end : off + Z.of_nat (length src) <= SMALL * BSIZE;
  wr_src : is_bytes src;
  wr_room : room s [] (6 * nblk off (Z.of_nat (length src)) + 1);
  wr_free : 2 * nblk off (Z.of_nat (length src)) <= nfree s
}.

Lemma writei_ok devsw s ip off src :
  writable s ip off src ->
  wp (writei devsw ip src off)
     (fun r s' => r = Z.of_nat (length src) /\ wrote_file s s' ip off src) s.
Proof. intros []. by apply writei_spec. Qed.

(** Files that share no block with the one written keep their bytes. *)
Lemma wrote_file_other s s' ip off src y k :
  fs_ok s [] -> 0 <= inum (geti s ip) < sb_ninodes (fsb s) ->
  wrote_file s s' ip off src -> file_ok s y ->
  (forall t u, 0 <= t < NSLOT -> 0 <= u < NSLOT -> slotv s y t <> 0 ->
     slotv s y t <> slotv s (geti s ip) u) ->
  0 <= k < SMALL * BSIZE -> fbyte s' y k = fbyte s y k.
Proof.
  intros O Hin W F Hd Hk. pose proof (sb_bounds s [] O) as (B1 & B2 & B3 & B4).
  destruct (iblock_spec s [] (inum (geti s ip)) O Hin) as (_ & _ & _ & Hhi & _).
  assert (Hv : forall t, 0 <= t < NSLOT -> slotv s y t <> 0 -> blkv s' (slotv s y t) = blkv s (slotv s y t)).
  { intros t Ht Hnz. destruct (fi_range _ _ F t Ht Hnz) as [Hr Hu].
    apply (wf_rest _ _ _ _ _ W); [lia|done|unfold is_bitmap; lia| |lia].
    intros u Hu' E. by apply (Hd t u). }
  assert (Hs : forall t, 0 <= t < NSLOT -> slotv s' y t = slotv s y t).
  { intros t Ht. unfold slotv. case_match; [done|]. case_match; [done|]. bool_split.
    pose proof (Hv NDIRECT ltac:(unfold NSLOT, NDIRECT, NINDIRECT; lia)) as Hi.
    unfold slotv in Hi. rewrite (proj2 (Z.leb_le NDIRECT NDIRECT)) in Hi by lia. by rewrite Hi. }
  assert (Hb : 0 <= k / BSIZE < SMALL).
  { split; [apply Z.div_pos; unfold BSIZE; lia|apply Z.div_lt_upper_bound; unfold BSIZE in *; lia]. }
  destruct (slot_of_range _ Hb) as [Hr _].
  unfold fbyte, fblock. rewrite Hs by done. case_match; [done|]. bool_split. by rewrite Hv.
Qed.

(** ** Properties *)

(** C8: Within the 138 blocks that an inode can address without overwriting its
    time stamps - the 10 direct ones and the 128 of the indirect block - a file is
    what was written to it.  For a file without holes and a write that starts within
    the file and ends within those blocks, with free blocks and room in the
    transaction: writing [src] at [off] returns the number of bytes; reading any
    range of the file afterwards returns the bytes written where the range overlaps
    them and the old contents elsewhere, cut at the new size; and every file that
    shares no block with this one keeps its contents. *)
Theorem write_then_read devsw s ip off src :
  writable s ip off src ->
  let x := geti s ip in let n := Z.of_nat (length src) in let size' := Z.max (isize x) (off + n) in
  exists s', writei devsw ip src off s = Ok n s' /\ isize (geti s' ip) = size'
    /\ (forall off' n', 0 <= off' <= size' -> 0 <= n' -> off' + n' < 2 ^ 32 ->
          let m := Z.min n' (size' - off') in
          exists s'', readi devsw ip off' n' s'
                      = Ok (m, map (written s x src off n) (seqZ off' m)) s'')
    /\ (forall j, j <> ip -> file_ok s (geti s j) ->
          (forall t u, 0 <= t < NSLOT -> 0 <= u < NSLOT -> slotv s (geti s j) t <> 0 ->
             slotv s (geti s j) t <> slotv s x u) ->
          forall k, 0 <= k < SMALL * BSIZE -> fbyte s' (geti s' j) k = fbyte s (geti s j) k).
Proof.
  intros Wr x n size'. destruct (wp_run _ _ _ (writei_ok devsw s ip off src Wr)) as (r & s' & E & -> & W).
  pose proof Wr as [O F Hip Ht Hin Hsz Hfull Hoff Hend Hsrc _ _]. fold x in Ht, Hsz, Hoff. fold n in Hend.
  pose proof (wf_inode _ _ _ _ _ W) as Hx. fold x n size' in Hx.
  assert (Hsz' : isize (geti s' ip) = size') by (rewrite Hx; done).
  exists s'. split_and!; [done|done| |].
  - intros off' n' Ho' Hn' Hov m. pose proof (wf_len _ _ _ _ _ W) as Hlen.
    destruct (wp_run _ _ _ (readi_spec devsw s' ip off' n' (wf_ok _ _ _ _ _ W) (wf_file _ _ _ _ _ W)
      ltac:(rewrite Hlen; lia) ltac:(rewrite Hx; exact Ht) ltac:(rewrite Hsz'; lia)
      (wf_full _ _ _ _ _ W) ltac:(rewrite Hsz'; lia) Hn' Hov)) as (r & s'' & E' & -> & _ & _).
    exists s''. rewrite E'. rewrite Hsz'. do 2 f_equal. apply map_ext_in. intros k Hk.
    apply list_elem_of_In, elem_of_seqZ in Hk. apply (wf_data _ _ _ _ _ W). lia.
  - intros j Hj Fj Hd k Hk. rewrite (wf_other _ _ _ _ _ W) by done.
    by apply (wrote_file_other s s' ip off src).
Qed.

Lemma demo_slot0 l ip t : ip = 0 \/ ip = 1 -> 0 <= t -> slotv (demo_state l) (geti (demo_state l) ip) t = 0.
Proof.
  intros Hip Ht.
  assert (E : iaddrs (geti (demo_state l) ip) = replicate 11 0) by (destruct Hip as [-> | ->]; done).
  unfold slotv. rewrite E. case_match; [|done]. bool_split. unfold NDIRECT, nthZ in *.
  rewrite (proj2 (Z.ltb_ge t 0)) by lia. apply nth_lookup_Some, lookup_replicate. lia.
Qed.

Lemma demo_file_ok l ip : ip = 0 \/ ip = 1 -> file_ok (demo_state l) (geti (demo_state l) ip).
Proof.
  intros Hip. split.
  - by destruct Hip as [-> | ->].
  - by destruct Hip as [-> | ->].
  - intros t Ht. rewrite demo_slot0; [done|done|lia].
  - intros t u Ht _. rewrite demo_slot0; [done|done|lia].
Qed.

Lemma demo_nfree l : demo_ok (demo_state l) -> nfree (demo_state l) = 134.
Proof.
  intros D. unfold nfree. change (sb_size (fsb (demo_state l))) with 200.
  rewrite (count_ext _ (fun b => negb (b <? 66))); [vm_compute; reflexivity|].
  intros b Hb. apply elem_of_seqZ in Hb. by rewrite (dm_used _ D) by lia.
Qed.

Lemma demo_writable l ip src :
  demo_ok (demo_state l) -> ip = 0 \/ ip = 1 -> is_bytes src -> Z.of_nat (length src) <= 512 ->
  writable (demo_state l) ip 0 src.
Proof.
  intros D Hip Hsrc Hlen.
  assert (Hb : nblk 0 (Z.of_nat (length src)) <= 1).
  { unfold nblk, BSIZE. destruct (Z.leb_spec (Z.of_nat (length src)) 0); [lia|].
    rewrite (Z.div_small (0 + _ - 1)) by lia. done. }
  assert (Hz : isize (geti (demo_state l) ip) = 0) by (destruct Hip as [-> | ->]; done).
  split.
  - apply D.
  - by apply demo_file_ok.
  - change (length (icache (demo_state l))) with 50%nat. lia.
  - destruct Hip as [-> | ->]; done.
  - change (sb_ninodes (fsb (demo_state l))) with 20. destruct Hip as [-> | ->]; vm_compute; split; (discriminate || reflexivity).
  - rewrite Hz. done.
  - intros bn H1 H2. rewrite Hz in H2. unfold BSIZE in H2. lia.
  - lia.
  - unfold SMALL, NDIRECT, NINDIRECT, BSIZE. lia.
  - done.
  - apply (dm_room _ D). lia.
  - rewrite demo_nfree by done. lia.
Qed.

Lemma write_then_read_witness : exists devsw s s' s'',
  writei devsw 1 [104; 105] 0 s = Ok 2 s' /\ readi devsw 1 0 512 s' = Ok (2, [104; 105]) s''.
Proof.
  destruct demo_fs as (l & D). set (s := demo_state l) in D.
  assert (Hsrc : is_bytes [104; 105]) by (repeat constructor; lia).
  destruct (write_then_read (mk_devsw (fun _ => None) (fun _ => None)) s 1 0 [104; 105]
    (demo_writable l 1 _ D (or_intror eq_refl) Hsrc ltac:(simpl; lia)))
    as (s' & E & _ & R & _).
  destruct (R 0 512) as (s'' & E''); [vm_compute; split; discriminate|lia|lia|].
  exists (mk_devsw (fun _ => None) (fun _ => None)), s, s', s''. split; [exact E|exact E''].
Defined.
