(* ===== verification/Inode.v ===== *)
(** * Inode: the inode cache

    Theorems about the inode layer of src/kernel/fs.c: the layout of an inode on
    disk ([iupdate] and [ilock] are inverse), the cache entries ([iget] keeps at
    most one entry per inode and counts references), and [ialloc]. *)

From Stdlib Require Import ZArith Lia ZifyBool.
From stdpp Require Import base gmap strings numbers list.
From S2P Require Import Prelude CString Bio Log Fs Balloc Content.

Local Open Scope Z_scope.

(** ** The layout of an inode *)

Definition dinode_fields (x : inode) : list (nat * list Z) :=
  [(0%nat, le_encode 2 (u16 (itype x))); (2%nat, le_encode 2 (u16 (imajor x)));
   (4%nat, le_encode 2 (u16 (iminor x))); (6%nat, le_encode 2 (u16 (inlink x)));
   (8%nat, le_encode 4 (u32 (isize x))); (64%nat, le_encode 4 (u32 (iatime x)));
   (68%nat, le_encode 4 (u32 (imtime x)))]
  ++ map (fun k => ((12 + 4 * Z.to_nat k)%nat, le_encode 4 (u32 (nthZ 0 (iaddrs x) k))))
       (seqZ 0 (NDIRECT + 1)).

Lemma put_dinode_fields o x d : put_dinode o x d = put_fields o (dinode_fields x) d.
Proof.
  unfold put_dinode, put_words, put_fields, dinode_fields.
  change (seqZ 0 (NDIRECT + 1)) with [0; 1; 2; 3; 4; 5; 6; 7; 8; 9; 10].
  cbn [map app fold_left fst snd]. unfold put16, put32. rewrite !Nat.add_assoc, !Nat.add_0_r. done.
Qed.

Lemma dinode_apart x : all_apart (map extent (dinode_fields x)) = true.
Proof. vm_compute. reflexivity. Qed.

Lemma dinode_fits x : forallb (fits 72) (map extent (dinode_fields x)) = true.
Proof. vm_compute. reflexivity. Qed.

Lemma get_field o x d k n z :
  (o + 72 <= length d)%nat -> (k, le_encode n z) ∈ dinode_fields x -> 0 <= z < 256 ^ Z.of_nat n ->
  le_decode (slice (o + k) n (put_dinode o x d)) = z.
Proof.
  intros Hl Hin Hz. rewrite put_dinode_fields.
  pose proof (slice_put_fields_eq o 72 _ d _ (dinode_apart x) (dinode_fits x) Hl Hin) as E.
  cbn [fst snd] in E. rewrite length_le_encode in E. rewrite E. by apply le_decode_encode.
Qed.

(** The fields of an inode within the ranges of their C types. *)
Record inode_wf (x : inode) : Prop := {
  iw_type : - 2 ^ 15 <= itype x < 2 ^ 15;
  iw_major : - 2 ^ 15 <= imajor x < 2 ^ 15;
  iw_minor : - 2 ^ 15 <= iminor x < 2 ^ 15;
  iw_nlink : - 2 ^ 15 <= inlink x < 2 ^ 15;
  iw_size : 0 <= isize x < 2 ^ 32;
  iw_atime : - 2 ^ 31 <= iatime x < 2 ^ 31;
  iw_mtime : - 2 ^ 31 <= imtime x < 2 ^ 31;
  iw_len : length (iaddrs x) = 11%nat;
  iw_addrs : Forall (fun a => 0 <= a < 2 ^ 32) (iaddrs x)
}.

Lemma s16_u16 z : - 2 ^ 15 <= z < 2 ^ 15 -> s16 (u16 z) = z.
Proof. unfold s16, u16. intros. rewrite Zplus_mod_idemp_l. rewrite Z.mod_small; lia. Qed.

Lemma s32_u32 z : - 2 ^ 31 <= z < 2 ^ 31 -> s32 (u32 z) = z.
Proof. unfold s32, u32. intros. rewrite Zplus_mod_idemp_l. rewrite Z.mod_small; lia. Qed.

Lemma u16_range z : 0 <= u16 z < 256 ^ Z.of_nat 2.
Proof. unfold u16. change (256 ^ Z.of_nat 2) with 65536. apply Z.mod_pos_bound. lia. Qed.

(** Membership of one of the first elements of a list. *)
Ltac in_list := first [left; reflexivity | right; in_list].

(** What [ilock] loads from where [iupdate] stored [x]: the fields of [x]. *)
Lemma get_put_dinode o x y d :
  (o + 72 <= length d)%nat -> inode_wf x ->
  get_dinode (put_dinode o x d) o y
  = mk_inode (idev y) (inum y) (iref y) (ilk y) (ivalid y) (itype x) (imajor x) (iminor x)
      (inlink x) (isize x) (iaddrs x) (iatime x) (imtime x).
Proof.
  intros Hl []. unfold get_dinode, get16, get32.
  assert (E0 : forall k n z, In (k, le_encode n z) (dinode_fields x) -> 0 <= z < 256 ^ Z.of_nat n ->
            le_decode (slice (o + k) n (put_dinode o x d)) = z).
  { intros k n z Hin. apply get_field; [done|by apply list_elem_of_In]. }
  pose proof (E0 0%nat 2%nat _ ltac:(left; reflexivity) (u16_range _)) as F1. rewrite Nat.add_0_r in F1.
  rewrite F1. rewrite (E0 2%nat 2%nat (u16 (imajor x))), (E0 4%nat 2%nat (u16 (iminor x))),
    (E0 6%nat 2%nat (u16 (inlink x))), (E0 8%nat 4%nat (u32 (isize x))),
    (E0 64%nat 4%nat (u32 (iatime x))), (E0 68%nat 4%nat (u32 (imtime x)))
    by (apply u16_range || apply u32_range || (unfold dinode_fields; cbn [app]; in_list)).
  rewrite !s16_u16, !s32_u32, u32_small by done. f_equal.
  transitivity (map (nthZ 0 (iaddrs x)) (seqZ 0 (NDIRECT + 1))).
  - apply map_ext_in. intros k Hk. apply list_elem_of_In, elem_of_seqZ in Hk. unfold NDIRECT in Hk.
    rewrite <-Nat.add_assoc, (E0 _ _ (u32 (nthZ 0 (iaddrs x) k))).
    + apply u32_small. rewrite Forall_lookup in iw_addrs0. eapply iw_addrs0, nthZ_lookup. lia.
    + unfold dinode_fields. apply in_or_app. right. apply in_map_iff. exists k. split; [done|].
      apply list_elem_of_In, elem_of_seqZ. unfold NDIRECT. lia.
    + apply u32_range.
  - destruct (iaddrs x) as [|a0 [|a1 [|a2 [|a3 [|a4 [|a5 [|a6 [|a7 [|a8 [|a9 [|a10 [|]]]]]]]]]]]]; try done.
Qed.

(** Storing one inode of a block leaves the others alone. *)
Lemma get_put_dinode_ne i j x y d :
  length d = Z.to_nat BSIZE -> i mod IPB <> j mod IPB ->
  get_dinode (put_dinode (ioff i) x d) (ioff j) y = get_dinode d (ioff j) y.
Proof.
  intros Hl Hij. pose proof (ioff_range i) as Hi.
  assert (E : forall k n, (k + n <= 72)%nat ->
            slice (ioff j + k) n (put_dinode (ioff i) x d) = slice (ioff j + k) n d).
  { intros k n Hk. rewrite put_dinode_fields. apply (slice_put_fields_ne _ 72); [apply dinode_fits|lia|].
    intros w Hw. pose proof (dinode_fits x) as Hf. rewrite forallb_forall in Hf.
    specialize (Hf (extent w) ltac:(apply in_map; by apply list_elem_of_In)).
    apply bool_decide_eq_true in Hf. simpl in Hf. unfold ioff, DINODE_SIZE, IPB in *.
    pose proof (Z.mod_pos_bound i 7). pose proof (Z.mod_pos_bound j 7). lia. }
  pose proof (E 0%nat 2%nat ltac:(lia)) as E1. rewrite Nat.add_0_r in E1.
  unfold get_dinode, get16, get32. rewrite E1, !E by lia. f_equal. apply map_ext_in. intros k Hk.
  apply list_elem_of_In, elem_of_seqZ in Hk. unfold NDIRECT in Hk.
  rewrite <-!Nat.add_assoc. rewrite E by lia. done.
Qed.

(** ** Cache entries *)

Record icache_ok (s : fstate) : Prop := {
  ic_len : length (icache s) = Z.to_nat NINODE;
  ic_ref : forall i, 0 <= i < NINODE -> 0 <= iref (geti s i);
  ic_uniq : forall i j, 0 <= i < NINODE -> 0 <= j < NINODE ->
              0 < iref (geti s i) -> 0 < iref (geti s j) ->
              idev (geti s i) = idev (geti s j) -> inum (geti s i) = inum (geti s j) -> i = j
}.

(** Replacing an entry keeps at most one entry per inode when no other entry
    in use has the same inode. *)
Lemma icache_ok_seti s ip x :
  icache_ok s -> 0 <= ip < NINODE -> 0 <= iref x ->
  (forall j, 0 <= j < NINODE -> j <> ip -> 0 < iref (geti s j) ->
     ~ (idev (geti s j) = idev x /\ inum (geti s j) = inum x)) ->
  icache_ok (seti ip x s).
Proof.
  intros [C1 C2 C3] Hip Hx Hne.
  assert (Hg : forall j, geti (seti ip x s) j = if decide (j = ip) then x else geti s j).
  { intros j. case_decide as E; [subst; apply geti_seti_eq; lia|by apply geti_seti_ne]. }
  split.
  - cbn. by rewrite length_updZ.
  - intros j Hj. rewrite Hg. case_decide; [done|by apply C2].
  - intros i j Hi Hj. rewrite !Hg. destruct (decide (i = ip)) as [->|], (decide (j = ip)) as [->|].
    + done.
    + intros _ Hr E1 E2. exfalso. by apply (Hne j).
    + intros Hr _ E1 E2. exfalso. by apply (Hne i).
    + by apply C3.
Qed.

Definition ihit (s : fstate) (dv i ip : Z) : bool :=
  (0 <? iref (geti s ip)) && (idev (geti s ip) =? dv) && (inum (geti s ip) =? i).

(** ** [ilock] *)

Lemma ilock_load_spec s ip :
  let x := geti s ip in
  fs_ok s [] -> 0 <= ip < Z.of_nat (length (icache s)) -> lh_n (flog s) < NBUF ->
  1 <= iref x -> locked (ilk x) = false -> ivalid x = false ->
  idev x = ROOTDEV -> 0 <= inum x < sb_ninodes (fsb s) ->
  itype (get_dinode (blkv s (iblock s (inum x))) (ioff (inum x)) x) <> 0 ->
  wp (ilock ip) (fun _ s' => fs_ok s' [] /\ (forall c, blkv s' c = blkv s c)
    /\ geti s' ip = with_valid true (get_dinode (blkv s (iblock s (inum x))) (ioff (inum x))
                       (with_ilk (mk_lock true (pid_of s)) x))
    /\ (forall j, j <> ip -> geti s' j = geti s j)
    /\ fsb s' = fsb s /\ length (icache s') = length (icache s) /\ same_tx (flog s) (flog s')
    /\ lh_n (flog s') <= lh_n (flog s)) s.
Proof.
  intros x O Hip Hn Hr Hl Hv Hd Hi Ht.
  destruct (iblock_spec s [] (inum x) O Hi) as (_ & Hlg & _ & _ & _).
  unfold ilock. apply wp_bind. unfold getS, wp at 1. fold x.
  rewrite (proj2 (Z.eqb_neq ip NULL)) by (unfold NULL; lia).
  rewrite (proj2 (Z.ltb_ge (iref x) 1)) by lia. cbn [orb].
  apply wp_bind. unfold acquirei, wp at 1. fold x. unfold acquiresleep. rewrite Hl.
  set (s1 := seti ip _ s). apply wp_bind, wp_gets.
  assert (Hg1 : geti s1 ip = with_ilk (mk_lock true (pid_of s)) x) by (by apply geti_seti_eq).
  rewrite Hg1. cbn [ivalid with_ilk]. rewrite Hv. cbn [idev inum with_ilk]. rewrite Hd.
  assert (O1 : fs_ok s1 []) by (by apply fs_ok_seti).
  apply wp_bind. eapply wp_mono; [apply fs_bread; [done|done|apply not_elem_of_nil|simpl; rewrite Z.add_0_r; exact Hn]|].
  intros i s2 (O2 & Q2). pose proof Q2 as [F2 V2].
  apply wp_bind. eapply fs_bdata; [exact O2|by constructor|]. rewrite V2.
  apply wp_bind, wp_modS. set (s3 := seti ip _ s2).
  assert (Hl2 : length (icache s2) = length (icache s)).
  { rewrite (fframe_icache _ _ _ F2). cbn. apply length_updZ. }
  assert (Hg2 : geti s2 ip = geti s1 ip) by (by apply (fframe_geti _ _ _ ip F2)).
  apply wp_bind. eapply wp_mono; [eapply fs_brelse, (fs_ok_seti s2); exact O2|].
  intros [] s4 (O4 & Q4). pose proof Q4 as [F4 V4]. apply wp_bind, wp_modS. set (s5 := seti ip _ s4).
  assert (Hl4 : length (icache s4) = length (icache s)).
  { rewrite (fframe_icache _ _ _ F4). cbn. by rewrite length_updZ. }
  assert (Hg4 : geti s4 ip = get_dinode (blkv s (iblock s (inum x))) (ioff (inum x))
                   (with_ilk (mk_lock true (pid_of s)) x)).
  { rewrite (fframe_geti _ _ _ ip F4). unfold s3. rewrite geti_seti_eq by lia. by rewrite Hg2, Hg1. }
  assert (Hg5 : geti s5 ip = with_valid true (geti s4 ip)) by (unfold s5; apply geti_seti_eq; lia).
  apply wp_bind, wp_gets. rewrite (proj2 (Z.eqb_neq _ 0)).
  - apply wp_ret. split_and!.
    + by apply fs_ok_seti.
    + intros c. change (blkv s5 c) with (blkv s4 c). rewrite V4. apply V2.
    + by rewrite Hg5, Hg4.
    + intros j Hj. unfold s5. rewrite geti_seti_ne, (fframe_geti _ _ _ j F4) by done. unfold s3.
      rewrite geti_seti_ne, (fframe_geti _ _ _ j F2) by done. by apply geti_seti_ne.
    + transitivity (fsb s3); [apply (fframe_sb _ _ _ F4)|apply (fframe_sb _ _ _ F2)].
    + unfold s5. cbn. by rewrite length_updZ.
    + eapply same_tx_trans; [apply (ff_tx _ _ _ F2)|apply (ff_tx _ _ _ F4)].
    + pose proof (ff_n _ _ _ F2) as N2. pose proof (ff_n _ _ _ F4) as N4. cbn in *. lia.
  - rewrite Hg5, Hg4. exact Ht.
Qed.

(** ** Properties *)

(** C30: An inode written with [iupdate] and loaded again by [ilock] into any
    cache entry that stands for it has the same type, device numbers, link
    count, size, block addresses and times. *)
Theorem iupdate_ilock_roundtrip s ip jp :
  let x := geti s ip in let y := geti s jp in
  fs_ok s [] -> room s [] 1 -> lh_n (flog s) + 1 < NBUF ->
  0 <= jp < Z.of_nat (length (icache s)) -> jp <> ip ->
  idev x = ROOTDEV -> 0 <= inum x < sb_ninodes (fsb s) -> inode_wf x -> itype x <> 0 ->
  idev y = ROOTDEV -> inum y = inum x -> 1 <= iref y -> locked (ilk y) = false -> ivalid y = false ->
  exists s1 s2, iupdate ip s = Ok tt s1 /\ ilock jp s1 = Ok tt s2
    /\ geti s2 jp = mk_inode (idev y) (inum y) (iref y) (mk_lock true (pid_of s)) true
                      (itype x) (imajor x) (iminor x) (inlink x) (isize x) (iaddrs x)
                      (iatime x) (imtime x)
    /\ geti s2 ip = x.
Proof.
  intros x y O R Hn Hjp Hne Hd Hi Hwf Ht Hyd Hyi Hyr Hyl Hyv.
  destruct (wp_run _ _ _ (iupdate_spec s ip O R Hd Hi)) as ([] & s1 & E1 & O1 & F1 & U1 & V1).
  fold x in V1. pose proof (fframe_sb _ _ _ F1) as Hsb. pose proof (fframe_geti _ _ _ jp F1) as Hy.
  assert (Hb : blkv s1 (iblock s1 (inum y)) = put_dinode (ioff (inum x)) x (blkv s (iblock s (inum x)))).
  { unfold iblock at 1. rewrite Hsb, Hyi. rewrite V1. fold (iblock s (inum x)). by rewrite decide_True. }
  assert (Hlen : (ioff (inum x) + 72 <= length (blkv s (iblock s (inum x))))%nat).
  { rewrite (length_blkv s []) by done. apply ioff_range. }
  assert (Hp : pid_of s1 = pid_of s).
  { destruct (ff_tx _ _ _ F1) as (_ & _ & _ & _ & _ & D). unfold pid_of. apply D. }
  pose proof (ilock_load_spec s1 jp O1) as T. cbv zeta in T. rewrite Hy in T. fold y in T.
  destruct (wp_run _ _ _ (T ltac:(by rewrite (fframe_icache _ _ _ F1))
    ltac:(pose proof (ff_n _ _ _ F1); lia) Hyr Hyl Hyv Hyd ltac:(by rewrite Hsb, Hyi)
    ltac:(rewrite Hb, Hyi, get_put_dinode by done; done))) as ([] & s2 & E2 & O2 & V2 & G2 & G2' & _).
  exists s1, s2. split_and!; [done|done| |].
  - rewrite G2, Hb, Hyi, Hp, get_put_dinode by done. by rewrite <-Hyi.
  - rewrite G2' by done. apply (fframe_geti _ _ _ ip F1).
Qed.

(** [iget] keeps at most one cache entry per inode.  It returns the entry in
    use for the inode, with one more reference, when there is one; otherwise the
    first unused entry, with one reference and not yet valid; no other entry
    changes.  It panics exactly when the inode is not cached and all entries
    are in use. *)
Theorem iget_unique_entry s dv i :
  icache_ok s ->
  match iget dv i s with
  | Ok ip s' =>
      icache_ok s' /\ 0 <= ip < NINODE
      /\ idev (geti s' ip) = dv /\ inum (geti s' ip) = i
      /\ (if 0 <? iref (geti s ip)
          then geti s' ip = with_ref (iref (geti s ip) + 1) (geti s ip)
          else iref (geti s' ip) = 1 /\ ivalid (geti s' ip) = false
               /\ forall j, 0 <= j < NINODE -> ihit s dv i j = false)
      /\ (forall j, j <> ip -> geti s' j = geti s j)
  | Panic msg _ =>
      msg = "iget: no inodes"%string
      /\ forall j, 0 <= j < NINODE -> 0 < iref (geti s j) /\ ihit s dv i j = false
  | _ => False
  end.
Proof.
  intros C. pose proof C as [C1 C2 C3]. unfold iget.
  change (fun ip => (0 <? iref (geti s ip)) && (idev (geti s ip) =? dv) && (inum (geti s ip) =? i))
    with (ihit s dv i).
  destruct (List.find (ihit s dv i) _) as [ip|] eqn:E.
  - apply find_seqZ in E as (Hip & Hh & _). unfold ihit in Hh. bool_split.
    assert (Hg : forall x, geti (seti ip x s) ip = x) by (intros; apply geti_seti_eq; lia).
    rewrite Hg. cbn [idev inum with_ref]. split_and!; [|lia|lia|done|done| |].
    + apply icache_ok_seti; [done|lia|cbn; lia|]. intros j Hj Hne Hr [E1 E2]. cbn in E1, E2.
      by apply Hne, C3; try lia.
    + by rewrite (proj2 (Z.ltb_lt 0 _)) by lia.
    + intros j Hj. by apply geti_seti_ne.
  - pose proof (find_seqZ_None _ _ _ E) as Hmiss.
    clear E. destruct (List.find _ (seqZ 0 NINODE)) as [ip|] eqn:E2.
    + apply find_seqZ in E2 as (Hip & Hz & _). bool_split.
      assert (Hg : forall x, geti (seti ip x s) ip = x) by (intros; apply geti_seti_eq; lia).
      cbv zeta. rewrite Hg. cbn [idev inum iref ivalid]. split_and!; [|lia|lia|done|done| |].
      * apply icache_ok_seti; [done|lia|cbn; lia|]. cbn. intros j Hj Hne Hr [E1 E3].
        specialize (Hmiss j ltac:(lia)). unfold ihit in Hmiss. lia.
      * rewrite Hz. cbn. split_and!; [done|done|]. intros j Hj. apply Hmiss. lia.
      * intros j Hj. by apply geti_seti_ne.
    + pose proof (find_seqZ_None _ _ _ E2) as Hfull. split; [done|]. intros j Hj.
      specialize (Hfull j ltac:(lia)). specialize (C2 j Hj). split; [lia|]. apply Hmiss. lia.
Qed.

Lemma demo_icache_ok l : icache_ok (demo_state l).
Proof.
  assert (Hg : forall i, 2 <= i < NINODE -> geti (demo_state l) i = inode0).
  { intros i Hi. unfold geti, nthZ. rewrite (proj2 (Z.ltb_ge i 0)) by lia.
    apply nth_lookup_Some. cbn [icache demo_state]. unfold demo_icache.
    rewrite lookup_app_r by (simpl; lia). apply lookup_replicate_2. unfold NINODE in Hi. simpl. lia. }
  assert (Hc : forall i, 0 <= i < NINODE -> i = 0 \/ i = 1 \/ 2 <= i) by lia.
  split; [done|..].
  - intros i Hi. destruct (Hc i Hi) as [->|[->|H2]]; [done|done|]. rewrite Hg by lia. done.
  - intros i j Hi Hj Ri Rj _.
    assert (Hr : forall i, 0 <= i < NINODE -> 0 < iref (geti (demo_state l) i) -> i = 0 \/ i = 1).
    { intros k Hk Rk. destruct (Hc k Hk) as [->|[->|H2]]; [by left|by right|].
      rewrite Hg in Rk by lia. cbn in Rk. lia. }
    destruct (Hr i Hi Ri) as [-> | ->], (Hr j Hj Rj) as [-> | ->]; intros E; by vm_compute in E.
Qed.

Lemma iget_unique_entry_witness : exists s ip s',
  iget ROOTDEV 7 s = Ok ip s' /\ inum (geti s' ip) = 7 /\ icache_ok s'.
Proof.
  destruct demo_fs as (l & _). exists (demo_state l).
  pose proof (iget_unique_entry (demo_state l) ROOTDEV 7 (demo_icache_ok l)) as T.
  destruct (iget ROOTDEV 7 (demo_state l)) as [ip s'|msg s'| |]; [| |destruct T..].
  - exists ip, s'. destruct T as (T1 & _ & _ & T2 & _). split; [reflexivity|]. split; [exact T2|exact T1].
  - destruct T as [_ T]. destruct (T 2 ltac:(unfold NINODE; lia)) as [T2 _]. discriminate T2.
Defined.

(** Inode 2 in entry 1, and entry 2 about to be loaded with it. *)
Lemma iupdate_ilock_roundtrip_witness : exists s s1 s2,
  isize (geti s 1) = 700 /\ iupdate 1 s = Ok tt s1 /\ ilock 2 s1 = Ok tt s2
  /\ isize (geti s2 2) = 700.
Proof.
  destruct demo_fs as (l & D).
  set (y := mk_inode ROOTDEV 2 1 initsleeplock false 0 0 0 0 0 (replicate 11 0) 0 0).
  set (s := seti 2 y (seti 1 (with_size 700 (geti (demo_state l) 1)) (demo_state l))).
  assert (O : fs_ok s []) by (apply fs_ok_seti, fs_ok_seti, D).
  assert (R : room s [] 1) by (destruct (dm_room _ D 1 ltac:(lia)); by split).
  assert (Hn : lh_n (flog s) + 1 < NBUF) by (destruct (dm_room _ D 5 ltac:(lia)) as [_ _ R3]; simpl in *; lia).
  assert (Hwf : inode_wf (geti s 1)).
  { change (geti s 1) with (mk_inode 1 2 1 (mk_lock true 1) true 2 0 0 1 700 (replicate 11 0) 0 0).
    split; cbn; try lia. repeat (constructor; [lia|]). constructor. }
  destruct (iupdate_ilock_roundtrip s 1 2 O R Hn) as (s1 & s2 & E1 & E2 & G & _).
  all: try reflexivity; try exact Hwf; try discriminate.
  - change (length (icache s)) with 50%nat. lia.
  - change (inum (geti s 1)) with 2. change (sb_ninodes (fsb s)) with 20. lia.
  - exists s, s1, s2. split; [reflexivity|]. split; [exact E1|]. split; [exact E2|]. rewrite G. reflexivity.
Defined.
