(* ===== verification/Trunc.v ===== *)
(** * Trunc: giving up the blocks of a file

    Theorems about [itrunc] and [iput] of src/kernel/fs.c.  The bitmap blocks
    that [bfree] logs are logged once each, so truncating a file of any size
    needs little log space; [pot] counts the bitmap blocks still to come. *)

From Stdlib Require Import ZArith Lia ZifyBool.
From stdpp Require Import base gmap strings numbers list.
From S2P Require Import Prelude CString Bio Log Fs Balloc Content Inode.

Local Open Scope Z_scope.

Definition nbitmap (s : fstate) : Z := (sb_size (fsb s) - 1) / BPB + 1.
Definition pot (s : fstate) : Z :=
  Z.of_nat (count (fun b => negb (bool_decide (b ∈ logged (flog s))))
              (seqZ (sb_bmapstart (fsb s)) (nbitmap s))).

(** The blocks of [l] have been freed and nothing else outside the bitmap. *)
Record frees (s s' : fstate) (l : list Z) : Prop := {
  fe_sb : fsb s' = fsb s;
  fe_misc : curtime s' = curtime s /\ clock s' = clock s /\ cwd s' = cwd s;
  fe_used : forall c, 0 <= c < sb_size (fsb s) ->
              used s' c = if decide (c ∈ l) then false else used s c;
  fe_rest : forall c, ~ is_bitmap s c -> blkv s' c = blkv s c;
  fe_tx : same_tx (flog s) (flog s');
  fe_pot : lh_n (flog s') + pot s' <= lh_n (flog s) + pot s
}.
Definition nz (l : list Z) : list Z := filter (fun a => a <> 0) l.

Lemma frees_trans s1 s2 s3 l1 l2 : frees s1 s2 l1 -> frees s2 s3 l2 -> frees s1 s3 (l1 ++ l2).
Proof.
  intros [A1 (A2 & A3 & A4) A5 A6 A7 A8] [B1 (B2 & B3 & B4) B5 B6 B7 B8]. split.
  - congruence.
  - split_and!; congruence.
  - intros c Hc. rewrite B5, A5 by (by rewrite ?A1). rewrite A1 in *.
    destruct (decide (c ∈ l1 ++ l2)) as [Hin|Hin]; rewrite elem_of_app in Hin;
      destruct (decide (c ∈ l1)), (decide (c ∈ l2)); tauto.
  - intros c Hc. rewrite B6, A6; [done|done|]. unfold is_bitmap, data_start. by rewrite A1.
  - by eapply same_tx_trans.
  - lia.
Qed.

Lemma frees_quiet s s' : quiet s s' -> frees s s' [].
Proof.
  intros Q. pose proof Q as [F V]. pose proof (ff_eq _ _ _ F) as E.
  assert (Hsb : fsb s' = fsb s) by (by rewrite E). split.
  - done.
  - by rewrite E.
  - intros c _. by apply quiet_used.
  - intros c _. apply V.
  - apply F.
  - pose proof (ff_n _ _ _ F). unfold pot, nbitmap. rewrite Hsb, (quiet_logged _ _ Q). lia.
Qed.

Lemma frees_seti s ip x : frees s (seti ip x s) [].
Proof. by split. Qed.

Lemma pot_range s H b : fs_ok s H -> is_bitmap s b -> b ∈ seqZ (sb_bmapstart (fsb s)) (nbitmap s).
Proof. intros O Hb. apply elem_of_seqZ. unfold is_bitmap, data_start, nbitmap in *. lia. Qed.

Lemma pot_nonneg s : 0 <= pot s.
Proof. unfold pot. lia. Qed.

Lemma freed_frees s s' H b :
  fs_ok s H -> fs_ok s' H -> 0 <= b < sb_size (fsb s) -> freed s s' b -> frees s s' [b].
Proof.
  intros O O' Hb [Hu Hr F Hl]. pose proof (ff_eq _ _ _ F) as E.
  assert (Hsb : fsb s' = fsb s) by (by rewrite E).
  destruct (bblock_bitmap s H b O Hb) as [_ Hbm].
  split; [done|by rewrite E| |done|apply F|].
  - intros c Hc. rewrite Hu by done.
    destruct (decide (c = b)), (decide (c ∈ [b])) as [Hin|Hin]; try done.
    + subst. exfalso. apply Hin. by constructor.
    + apply list_elem_of_singleton in Hin. done.
  - rewrite (lh_n_logged _ _ (fo_log _ _ O')), (lh_n_logged _ _ (fo_log _ _ O)).
    unfold pot. rewrite Hl. unfold nbitmap. rewrite Hsb. fold (nbitmap s).
    unfold logged_with. case_decide as Hd; [lia|]. rewrite length_app. simpl.
    rewrite (count_off (fun c => negb (bool_decide (c ∈ logged (flog s))))
      (fun c => negb (bool_decide (c ∈ logged (flog s) ++ [bblock s b]))) _ (bblock s b)); [lia|..].
    + apply NoDup_seqZ.
    + by eapply pot_range.
    + by rewrite bool_decide_eq_false_2.
    + rewrite bool_decide_eq_true_2 by set_solver. done.
    + intros c Hc. f_equal. apply bool_decide_ext. set_solver.
Qed.

(** Room for freeing: whatever is freed, at most the bitmap blocks are logged. *)
Definition froom (s : fstate) (H : list (Z * Z)) (k : Z) : Prop := room s H (pot s + k).

Lemma froom_frees s s' H k l : froom s H k -> frees s s' l -> froom s' H k.
Proof.
  intros [R1 R2 R3] [_ _ _ _ (_ & T2 & _ & T4 & _) Hp]. split; rewrite ?T2, ?T4; lia.
Qed.

Lemma froom_room s H k j : froom s H k -> j <= k -> room s H j.
Proof. intros [R1 R2 R3] Hj. pose proof (pot_nonneg s). split; lia. Qed.

(** A block that may be freed while the buffers [H] are held. *)
Definition owned (s : fstate) (H : list (Z * Z)) (a : Z) : Prop :=
  data_start s <= a < sb_size (fsb s) /\ used s a = true /\ a ∉ H.*2.

Lemma owned_frees s s' H l a :
  fs_ok s H -> frees s s' l -> owned s H a -> a ∉ l -> owned s' H a.
Proof.
  intros O [A1 _ A3 _ _ _] (H1 & H2 & H3) Hn. pose proof (sb_bounds s H O) as (B1 & B2 & B3 & B4).
  unfold owned, data_start. rewrite A1. fold (data_start s). split_and!; [lia|lia| |done].
  rewrite A3 by lia. by rewrite decide_False.
Qed.

Lemma held_ok_frees s s' H l :
  held_ok s H -> frees s s' l -> (forall a, a ∈ l -> a ∉ H.*2) -> held_ok s' H.
Proof.
  unfold held_ok. rewrite !Forall_forall. intros Hh [A1 _ A3 _ _ _] Hd b Hb.
  destruct (Hh b Hb) as (H1 & H2 & H3). unfold is_bitmap, data_start. rewrite A1.
  split_and!; [lia|lia| |done]. rewrite A3 by done. rewrite decide_False; [done|].
  intros Hin. by apply (Hd b).
Qed.

(** [if (a) bfree(dev, a)]. *)
Definition free_opt (a : Z) : M fstate unit := if a =? 0 then mret tt else bfree ROOTDEV a.

Lemma nz_one a : nz [a] = if a =? 0 then [] else [a].
Proof.
  unfold nz. destruct (Z.eqb_spec a 0) as [->|Ha]; [done|].
  by rewrite filter_cons_True, filter_nil.
Qed.

Lemma free_opt_spec s H a :
  fs_ok s H -> held_ok s H -> froom s H 1 -> (a <> 0 -> owned s H a) ->
  wp (free_opt a) (fun _ s' => fs_ok s' H /\ frees s s' (nz [a]) /\ icache s' = icache s) s.
Proof.
  intros O Hh R Ho. rewrite nz_one. unfold free_opt. destruct (Z.eqb_spec a 0) as [->|Ha].
  - apply wp_ret. split_and!; [done| |done]. apply frees_quiet, quiet_refl.
  - destruct (Ho Ha) as (H1 & H2 & H3). pose proof (sb_bounds s H O) as (B1 & B2 & B3 & B4).
    eapply wp_mono; [apply bfree_spec; [done|done|by eapply froom_room|done|done]|].
    intros [] s' (O' & Fr). split_and!; [done|eapply (freed_frees s s' H); [done|done|lia|done]|].
    eapply fframe_icache. apply Fr.
Qed.

Lemma elem_of_nz a l : a ∈ nz l <-> a ∈ l /\ a <> 0.
Proof. unfold nz. rewrite list_elem_of_filter. tauto. Qed.

Lemma nz_app l1 l2 : nz (l1 ++ l2) = nz l1 ++ nz l2.
Proof. apply filter_app. Qed.

Lemma free_each s H l :
  fs_ok s H -> held_ok s H -> froom s H 1 -> NoDup (nz l) -> (forall a, a ∈ nz l -> owned s H a) ->
  wp (forM l free_opt) (fun _ s' => fs_ok s' H /\ frees s s' (nz l) /\ icache s' = icache s) s.
Proof.
  intros O Hh R Hnd Ho.
  apply (wp_forM _ _ (fun done s' => fs_ok s' H /\ frees s s' (nz done) /\ icache s' = icache s)).
  - split_and!; [done| |done]. apply frees_quiet, quiet_refl.
  - intros dn a rest s1 -> (O1 & F1 & I1). rewrite nz_app in Hnd, Ho.
    apply NoDup_app in Hnd as (_ & Hd & _).
    assert (Hh1 : held_ok s1 H).
    { eapply held_ok_frees; [exact Hh|exact F1|]. intros c Hc. apply Ho, elem_of_app. by left. }
    eapply wp_mono.
    { apply free_opt_spec; [done|done|by eapply froom_frees|]. intros Ha.
      assert (Hin : a ∈ nz (a :: rest)) by (apply elem_of_nz; split; [by constructor|done]).
      eapply owned_frees; [exact O|exact F1|apply Ho, elem_of_app; by right|].
      intros Hc. by apply (Hd a). }
    intros [] s2 (O2 & F2 & I2). split_and!; [done| |congruence].
    rewrite nz_app. by eapply frees_trans.
  - done.
Qed.

Lemma forM_map {S A B} (f : A -> B) (g : B -> M S unit) (l : list A) :
  forM l (fun j => g (f j)) = forM (map f l) g.
Proof. induction l as [|x l IH]; [done|]. cbn [forM map]. by rewrite IH. Qed.

(** The addresses in an indirect block. *)
Definition entries (d : list Z) : list Z :=
  map (fun j => get32 d (Z.to_nat (4 * j))) (seqZ 0 NINDIRECT).

Lemma froom_hold s s' i b k : froom s [] (k + 1) -> quiet s s' -> froom s' [(i, b)] k.
Proof.
  intros R Q. eapply froom_frees; [|by apply frees_quiet]. destruct R as [R1 R2 R3].
  split; simpl in *; lia.
Qed.

Lemma owned_quiet s s' H H' a : quiet s s' -> owned s H a -> a ∉ H'.*2 -> owned s' H' a.
Proof.
  intros Q (H1 & H2 & _) Hn. pose proof Q as [F V]. unfold owned, data_start.
  rewrite (quiet_used _ _ Q), (fframe_sb _ _ _ F). done.
Qed.

Lemma free_tree0_spec s a :
  fs_ok s [] -> froom s [] 2 -> owned s [] a ->
  NoDup (nz (entries (blkv s a)) ++ [a]) -> (forall e, e ∈ nz (entries (blkv s a)) -> owned s [] e) ->
  wp (free_tree 0 ROOTDEV a) (fun _ s' => fs_ok s' []
    /\ frees s s' (nz (entries (blkv s a)) ++ [a]) /\ icache s' = icache s) s.
Proof.
  intros O R Ha Hnd He. pose proof Ha as (Ha1 & Ha2 & _).
  pose proof (sb_bounds s [] O) as (B1 & B2 & B3 & B4).
  destruct (data_loggable s [] a O Ha1) as [Hlg Hnb]. apply NoDup_app in Hnd as (Hnd & Hna & _).
  cbn [free_tree]. apply wp_bind. eapply wp_mono.
  { apply fs_bread; [done|done|set_solver|]. destruct R as [_ _ R3]. pose proof (pot_nonneg s). simpl in *. lia. }
  intros i s1 (O1 & Q1). pose proof Q1 as [F1 V1].
  apply wp_bind. eapply fs_bdata; [exact O1|by constructor|]. rewrite V1.
  apply wp_bind. fold (free_opt).
  change (forM (seqZ 0 NINDIRECT) _) with
    (forM (seqZ 0 NINDIRECT) (fun j => free_opt (get32 (blkv s a) (Z.to_nat (4 * j))))).
  rewrite (forM_map (fun j => get32 (blkv s a) (Z.to_nat (4 * j)))). fold (entries (blkv s a)).
  assert (Hne : forall e, e ∈ nz (entries (blkv s a)) -> e ∉ [(i, a)].*2).
  { intros e Hin Hc. cbn in Hc. apply list_elem_of_singleton in Hc as ->.
    apply (Hna a Hin). by constructor. }
  assert (Hh1 : held_ok s1 [(i, a)]).
  { apply Forall_singleton. cbn [snd]. unfold is_bitmap, data_start.
    rewrite (quiet_used _ _ Q1), (fframe_sb _ _ _ F1). split_and!; [lia|lia|done|done]. }
  eapply wp_mono.
  { apply (free_each s1 [(i, a)]); [done|done|by apply (froom_hold s)|done|].
    intros e Hin. eapply owned_quiet; [done|by apply He|by apply Hne]. }
  intros [] s2 (O2 & F2 & I2). apply wp_bind. eapply wp_mono; [eapply fs_brelse; exact O2|].
  intros [] s3 (O3 & Q3).
  assert (F13 : frees s s3 (nz (entries (blkv s a)))).
  { pose proof (frees_trans _ _ _ _ _ (frees_quiet _ _ Q1) F2) as F12. simpl in F12.
    pose proof (frees_trans _ _ _ _ _ F12 (frees_quiet _ _ Q3)) as F. by rewrite app_nil_r in F. }
  assert (Ha3 : owned s3 [] a).
  { eapply owned_frees; [exact O|exact F13|done|]. intros Hin. apply (Hna a Hin). by constructor. }
  assert (R3 : froom s3 [] 2) by (by eapply froom_frees).
  destruct Ha3 as (Ha3 & Hu3 & _). eapply wp_mono.
  { apply bfree_spec; [done|apply Forall_nil_2|eapply froom_room; [done|lia]|done|done]. }
  intros [] s4 (O4 & Fr4). split_and!; [done| |].
  - eapply frees_trans; [exact F13|]. eapply freed_frees; [exact O3|done| |done].
    rewrite (fe_sb _ _ _ F13). lia.
  - rewrite (fframe_icache _ _ _ (fr_frame _ _ _ Fr4)). destruct Q3 as [F3 _].
    rewrite (fframe_icache _ _ _ F3), I2. apply (fframe_icache _ _ _ F1).
Qed.

(** ** Direct blocks *)

(** The first [k] addresses cleared. *)
Definition zeroed (k : nat) (a : list Z) : list Z := replicate k 0 ++ drop k a.

Lemma length_zeroed k a : (k <= length a)%nat -> length (zeroed k a) = length a.
Proof. intros. unfold zeroed. rewrite length_app, length_replicate, length_drop. lia. Qed.

Lemma zeroed_lookup k a : nthZ 0 (zeroed k a) (Z.of_nat k) = nthZ 0 a (Z.of_nat k).
Proof.
  unfold zeroed, nthZ. rewrite (proj2 (Z.ltb_ge _ 0)) by lia. rewrite Nat2Z.id, !nth_lookup.
  rewrite lookup_app_r, lookup_drop, length_replicate by (rewrite length_replicate; lia).
  do 2 f_equal. lia.
Qed.

Lemma zeroed_S k a : (k < length a)%nat -> updZ (Z.of_nat k) 0 (zeroed k a) = zeroed (S k) a.
Proof.
  intros Hk. unfold updZ. rewrite (proj2 (Z.ltb_ge _ 0)) by lia. rewrite Nat2Z.id. unfold zeroed.
  rewrite insert_app_r_alt by (rewrite length_replicate; lia). rewrite length_replicate, Nat.sub_diag.
  destruct (lookup_lt_is_Some_2 a k Hk) as [v Hv]. rewrite (drop_S a v k Hv). cbn [insert list_insert].
  by rewrite replicate_S_end, <-app_assoc.
Qed.

Lemma take_S_nthZ k (a : list Z) :
  (k < length a)%nat -> take (S k) a = take k a ++ [nthZ 0 a (Z.of_nat k)].
Proof.
  intros Hk. destruct (lookup_lt_is_Some_2 a k Hk) as [v Hv]. rewrite (take_S_r a k v Hv).
  do 2 f_equal. symmetry. unfold nthZ. rewrite (proj2 (Z.ltb_ge _ 0)) by lia.
  rewrite Nat2Z.id. by apply nth_lookup_Some.
Qed.

Lemma seqZ_prefix n dn i rest : seqZ 0 n = dn ++ i :: rest -> i = Z.of_nat (length dn) /\ i < n.
Proof.
  intros E. assert (Hi : seqZ 0 n !! length dn = Some i) by (rewrite E; by apply list_lookup_middle).
  apply lookup_seqZ in Hi. lia.
Qed.

Definition free_direct (dv ip : Z) : Z -> M fstate unit := fun i =>
  a ← gets (fun s => addr_get (geti s ip) i);
  if a =? 0 then mret tt else bfree dv a ;; updi ip (addr_set i 0).

Lemma free_direct_step s0 s ip k :
  let x := geti s0 ip in let a := nthZ 0 (iaddrs x) (Z.of_nat k) in
  fs_ok s0 [] -> froom s0 [] 1 -> 0 <= ip < Z.of_nat (length (icache s0)) ->
  length (iaddrs x) = 11%nat -> (k < 10)%nat ->
  fs_ok s [] -> frees s0 s (nz (take k (iaddrs x))) ->
  icache s = updZ ip (with_addrs (zeroed k (iaddrs x)) x) (icache s0) ->
  (a <> 0 -> owned s [] a) ->
  wp (free_direct ROOTDEV ip (Z.of_nat k)) (fun _ s' => fs_ok s' []
    /\ frees s0 s' (nz (take (S k) (iaddrs x)))
    /\ icache s' = updZ ip (with_addrs (zeroed (S k) (iaddrs x)) x) (icache s0)) s.
Proof.
  intros x a O0 R Hip Hl Hk O F I Ho. unfold free_direct. apply wp_bind, wp_gets.
  assert (Hx : geti s ip = with_addrs (zeroed k (iaddrs x)) x)
    by (unfold geti; rewrite I; by apply nthZ_updZ_eq).
  assert (Ea : addr_get (geti s ip) (Z.of_nat k) = a).
  { unfold addr_get. rewrite (proj2 (Z.leb_le _ NDIRECT)) by (unfold NDIRECT; lia).
    rewrite Hx. apply zeroed_lookup. }
  rewrite Ea. rewrite take_S_nthZ, nz_app by lia. fold a.
  rewrite nz_one, <-zeroed_S by lia. destruct (Z.eqb_spec a 0) as [E0|Hn].
  - apply wp_ret. rewrite app_nil_r. split_and!; [done|done|]. rewrite I. do 2 f_equal.
    rewrite <-E0. unfold a. rewrite <-zeroed_lookup, updZ_id by (rewrite length_zeroed; lia). done.
  - apply wp_bind. destruct (Ho Hn) as (H1 & H2 & H3). eapply wp_mono.
    { apply bfree_spec; [done|apply Forall_nil_2| |done|done].
      eapply froom_room; [by eapply froom_frees|lia]. }
    intros [] s1 (O1 & Fr). apply wp_modS. pose proof (sb_bounds s [] O) as (B1 & B2 & B3 & B4).
    pose proof (fframe_icache _ _ _ (fr_frame _ _ _ Fr)) as I1.
    split_and!; [by apply fs_ok_seti| |].
    + rewrite <-(app_nil_r (_ ++ [a])). eapply frees_trans; [|apply frees_seti].
      eapply frees_trans; [done|]. eapply freed_frees; [exact O|done|lia|done].
    + cbn [icache seti set_icache]. unfold geti. rewrite I1, I, nthZ_updZ_eq by done.
      unfold addr_set. rewrite (proj2 (Z.leb_le _ NDIRECT)) by (unfold NDIRECT; lia).
      cbn [iaddrs with_addrs]. by rewrite updZ_updZ.
Qed.

Lemma free_direct_all s ip :
  let x := geti s ip in
  fs_ok s [] -> froom s [] 1 -> 0 <= ip < Z.of_nat (length (icache s)) ->
  length (iaddrs x) = 11%nat ->
  NoDup (nz (take 10 (iaddrs x))) -> (forall a, a ∈ nz (take 10 (iaddrs x)) -> owned s [] a) ->
  wp (forM (seqZ 0 NDIRECT) (free_direct ROOTDEV ip)) (fun _ s' => fs_ok s' []
    /\ frees s s' (nz (take 10 (iaddrs x)))
    /\ icache s' = updZ ip (with_addrs (zeroed 10 (iaddrs x)) x) (icache s)) s.
Proof.
  intros x O R Hip Hl Hnd Ho.
  apply (wp_forM _ _ (fun dn s' => fs_ok s' [] /\ frees s s' (nz (take (length dn) (iaddrs x)))
    /\ icache s' = updZ ip (with_addrs (zeroed (length dn) (iaddrs x)) x) (icache s))).
  - split_and!; [done|apply frees_quiet, quiet_refl|].
    change (zeroed (length []) (iaddrs x)) with (iaddrs x). symmetry.
    replace (with_addrs (iaddrs x) x) with x by (by destruct x). by apply updZ_id.
  - intros dn i rest s1 E (O1 & F1 & I1). apply seqZ_prefix in E as [-> Hi]. unfold NDIRECT in Hi.
    rewrite length_app, Nat.add_1_r. apply (free_direct_step s); try done; [lia|]. fold x. intros Hn.
    assert (E10 : take 10 (iaddrs x) = take (length dn) (iaddrs x)
              ++ nthZ 0 (iaddrs x) (Z.of_nat (length dn)) :: drop (S (length dn)) (take 10 (iaddrs x))).
    { rewrite <-(take_drop (S (length dn)) (take 10 (iaddrs x))) at 1. rewrite take_take.
      rewrite Nat.min_l by lia. rewrite take_S_nthZ by lia. by rewrite <-app_assoc. }
    rewrite E10, nz_app in Hnd, Ho. apply NoDup_app in Hnd as (_ & Hd & _).
    set (a := nthZ 0 (iaddrs x) _) in *.
    assert (Hin : a ∈ nz (a :: drop (S (length dn)) (take 10 (iaddrs x))))
      by (apply elem_of_nz; split; [by constructor|done]).
    eapply owned_frees; [exact O|exact F1|apply Ho, elem_of_app; by right|]. intros Hc. by apply (Hd a).
  - intros s' Hs. rewrite length_seqZ in Hs. exact Hs.
Qed.

(** ** All the blocks of a small file *)

(** In the order in which they are freed. *)
Definition file_blocks (s : fstate) (x : inode) : list Z :=
  nz (map (slotv s x) (seqZ 0 NDIRECT ++ seqZ (NDIRECT + 1) NINDIRECT ++ [NDIRECT])).

Lemma take_slotv s x : length (iaddrs x) = 11%nat ->
  take 10 (iaddrs x) = map (slotv s x) (seqZ 0 NDIRECT).
Proof.
  intros Hl. apply list_eq. intros i. rewrite list_lookup_fmap.
  destruct (decide (i < 10)%nat) as [Hi|Hi].
  - rewrite lookup_take_lt by done. rewrite lookup_seqZ_lt by (unfold NDIRECT; lia). simpl.
    unfold slotv. rewrite (proj2 (Z.leb_le _ NDIRECT)) by (unfold NDIRECT; lia).
    replace i with (Z.to_nat (0 + Z.of_nat i)) at 1 by lia. apply nthZ_lookup. lia.
  - rewrite lookup_take_ge by lia. rewrite lookup_seqZ_ge by (unfold NDIRECT; lia). done.
Qed.

Lemma entries_slotv s x :
  slotv s x NDIRECT <> 0 ->
  entries (blkv s (slotv s x NDIRECT)) = map (slotv s x) (seqZ (NDIRECT + 1) NINDIRECT).
Proof.
  intros Hn. apply list_eq. intros i. unfold entries. rewrite !list_lookup_fmap.
  destruct (decide (i < 128)%nat) as [Hi|Hi].
  - rewrite !lookup_seqZ_lt by (unfold NINDIRECT; lia). simpl. f_equal.
    unfold slotv in *. rewrite (proj2 (Z.leb_gt (NDIRECT + 1 + _) NDIRECT)) by lia.
    rewrite (proj2 (Z.leb_le NDIRECT NDIRECT)) in Hn |- * by lia.
    rewrite (proj2 (Z.eqb_neq _ 0)) by done. do 2 f_equal. lia.
  - rewrite !lookup_seqZ_ge by (unfold NINDIRECT; lia). done.
Qed.

Lemma NoDup_nz_map (f : Z -> Z) l :
  NoDup l -> (forall t u, t ∈ l -> u ∈ l -> f t <> 0 -> f t = f u -> t = u) ->
  NoDup (nz (map f l)).
Proof.
  induction 1 as [|t l Ht Hnd IH]; intros Hf; [constructor|]. cbn [map].
  change (f t :: map f l) with ([f t] ++ map f l). rewrite nz_app, nz_one.
  assert (IH' : NoDup (nz (map f l))).
  { apply IH. intros u v Hu Hv. apply Hf; by constructor. }
  destruct (Z.eqb_spec (f t) 0) as [E|E]; [done|]. constructor; [|done].
  intros Hin%elem_of_nz. destruct Hin as [Hin _]. apply list_elem_of_In, in_map_iff in Hin as (u & Hu & Hin).
  apply list_elem_of_In in Hin. apply Ht. rewrite (Hf t u); [done|by constructor|by constructor|done|done].
Qed.

Lemma file_slots : NoDup (seqZ 0 NDIRECT ++ seqZ (NDIRECT + 1) NINDIRECT ++ [NDIRECT])
  /\ forall t, t ∈ seqZ 0 NDIRECT ++ seqZ (NDIRECT + 1) NINDIRECT ++ [NDIRECT] -> 0 <= t < NSLOT.
Proof.
  split.
  - apply (bool_decide_unpack _). vm_compute. exact I.
  - intros t. rewrite !elem_of_app, !elem_of_seqZ, list_elem_of_singleton.
    unfold NSLOT, NDIRECT, NINDIRECT. lia.
Qed.

Lemma file_blocks_ok s x :
  file_ok s x -> NoDup (file_blocks s x) /\ forall a, a ∈ file_blocks s x -> owned s [] a.
Proof.
  intros F. destruct file_slots as [H1 H2]. split.
  - apply NoDup_nz_map; [done|]. intros t u Ht Hu. by apply (fi_inj _ _ F); apply H2.
  - intros a Ha. apply elem_of_nz in Ha as [Ha Hn].
    apply list_elem_of_In, in_map_iff in Ha as (t & <- & Ht). apply list_elem_of_In in Ht.
    destruct (fi_range _ _ F t (H2 t Ht) Hn) as [Hr Hu]. split_and!; [lia|lia|done|apply not_elem_of_nil].
Qed.

(** One of the three levels of indirection in [itrunc]. *)
Definition free_level (dv ip : Z) (kl : Z * nat) : M fstate unit :=
  a ← gets (fun s => addr_get (geti s ip) kl.1);
  if a =? 0 then mret tt else free_tree kl.2 dv a ;; updi ip (addr_set kl.1 0).

Lemma itrunc_blocks s ip :
  let x := geti s ip in
  fs_ok s [] -> file_ok s x -> froom s [] 2 -> 0 <= ip < Z.of_nat (length (icache s)) ->
  wp (forM (seqZ 0 NDIRECT) (free_direct ROOTDEV ip) ;; free_level ROOTDEV ip (NDIRECT, 0%nat))
    (fun _ s' => fs_ok s' [] /\ frees s s' (file_blocks s x)
       /\ icache s' = updZ ip (with_addrs (replicate 11 0) x) (icache s)) s.
Proof.
  intros x O F R Hip. pose proof (fi_len _ _ F) as Hl.
  destruct (file_blocks_ok s x F) as [Hnd Hown].
  unfold file_blocks in Hnd, Hown |- *. rewrite map_app, nz_app, <-(take_slotv s x Hl) in Hnd, Hown |- *.
  apply NoDup_app in Hnd as (Hnd1 & Hd & Hnd2).
  apply wp_bind. eapply wp_mono.
  { apply free_direct_all; [done| |done|done|done|].
    - destruct R as [R1 R2 R3]. split; lia.
    - intros a Ha. apply Hown, elem_of_app. by left. }
  intros [] s1 (O1 & F1 & I1). fold x in F1, I1.
  assert (Hx : geti s1 ip = with_addrs (zeroed 10 (iaddrs x)) x)
    by (unfold geti; rewrite I1; by apply nthZ_updZ_eq).
  set (a := slotv s x NDIRECT).
  assert (Ea : addr_get (geti s1 ip) NDIRECT = a).
  { rewrite Hx. unfold addr_get. cbn [iaddrs with_addrs].
    change NDIRECT with (Z.of_nat 10) at 3. rewrite zeroed_lookup. done. }
  unfold free_level. apply wp_bind, wp_gets. cbn [fst snd]. rewrite Ea.
  rewrite map_app, nz_app in Hnd2, Hd, Hown |- *. cbn [map] in Hnd2, Hd, Hown |- *. fold a in Hnd2, Hd, Hown |- *.
  rewrite nz_one in Hnd2, Hd, Hown |- *.
  assert (Hz : replicate 11 0 = updZ 10 0 (zeroed 10 (iaddrs x))).
  { change 10 with (Z.of_nat 10) at 1. rewrite zeroed_S by lia. unfold zeroed.
    rewrite drop_ge by lia. by rewrite app_nil_r. }
  destruct (Z.eqb_spec a 0) as [E|E].
  - apply wp_ret. rewrite app_nil_r in *.
    assert (Hn : nz (map (slotv s x) (seqZ (NDIRECT + 1) NINDIRECT)) = []).
    { unfold nz. apply filter_none. intros v Hv. apply list_elem_of_In, in_map_iff in Hv as (t & <- & Ht).
      apply list_elem_of_In, elem_of_seqZ in Ht. unfold slotv.
      rewrite (proj2 (Z.leb_gt t NDIRECT)) by lia. rewrite (proj2 (Z.eqb_eq (nthZ 0 _ _) 0)); [tauto|exact E]. }
    rewrite Hn, app_nil_r. split_and!; [done|done|]. rewrite I1, Hz. do 2 f_equal.
    assert (E10 : nthZ 0 (zeroed 10 (iaddrs x)) 10 = 0) 
      by (etrans; [apply (zeroed_lookup 10)|exact E]).
    symmetry. rewrite <-E10 at 1. apply updZ_id. rewrite length_zeroed; lia.
  - pose proof (entries_slotv s x E) as En. fold a in En. rewrite <-En in Hnd2, Hd, Hown |- *.
    assert (Ha : a ∈ nz (entries (blkv s a)) ++ [a]) by (apply elem_of_app; right; by constructor).
    assert (Hv1 : blkv s1 a = blkv s a).
    { apply (fe_rest _ _ _ F1). destruct (Hown a) as (Hr & _); [apply elem_of_app; by right|].
      unfold is_bitmap. lia. }
    assert (Hown1 : forall c, c ∈ nz (entries (blkv s a)) ++ [a] -> owned s1 [] c).
    { intros c Hc. eapply owned_frees; [exact O|exact F1|apply Hown, elem_of_app; by right|].
      intros Hc'. by apply (Hd c Hc'). }
    apply wp_bind. eapply wp_mono.
    { apply free_tree0_spec; [done|by eapply froom_frees|by apply Hown1|by rewrite Hv1|].
      rewrite Hv1. intros e He. apply Hown1, elem_of_app. by left. }
    intros [] s2 (O2 & F2 & I2). rewrite Hv1 in F2. apply wp_modS. split_and!; [by apply fs_ok_seti| |].
    + rewrite <-(app_nil_r (nz (take 10 _) ++ _)). eapply frees_trans; [|apply frees_seti].
      by eapply frees_trans.
    + cbn [icache seti set_icache]. unfold geti. rewrite I2, I1, nthZ_updZ_eq, updZ_updZ by done.
      f_equal. unfold addr_set. cbn [iaddrs with_addrs].
      rewrite (proj2 (Z.leb_le NDIRECT NDIRECT)) by lia. rewrite Hz. done.
Qed.

(** [itrunc] up to the double indirect block. *)
Lemma itrunc_split ip :
  itrunc ip = (dv ← gets (fun s => idev (geti s ip));
    forM (seqZ 0 NDIRECT) (free_direct dv ip) ;;
    (free_level dv ip (NDIRECT, 0%nat) ;;
     free_level dv ip (NDIRECT + 1, 1%nat) ;;
     free_level dv ip (NDIRECT + 2, 2%nat) ;; mret tt) ;;
    updi ip (with_size 0) ;; iupdate ip).
Proof. done. Qed.

Lemma itrunc_small {A} s ip (k : M fstate A) Q :
  let x := geti s ip in
  fs_ok s [] -> file_ok s x -> froom s [] 2 -> 0 <= ip < Z.of_nat (length (icache s)) ->
  (forall s', fs_ok s' [] -> frees s s' (file_blocks s x) ->
     icache s' = updZ ip (with_addrs (replicate 11 0) x) (icache s) ->
     wp (free_level ROOTDEV ip (NDIRECT + 1, 1%nat) ;;
         free_level ROOTDEV ip (NDIRECT + 2, 2%nat) ;; mret tt) (fun _ s'' => wp k Q s'') s') ->
  wp (forM (seqZ 0 NDIRECT) (free_direct ROOTDEV ip) ;;
      (free_level ROOTDEV ip (NDIRECT, 0%nat) ;;
       free_level ROOTDEV ip (NDIRECT + 1, 1%nat) ;;
       free_level ROOTDEV ip (NDIRECT + 2, 2%nat) ;; mret tt) ;; k) Q s.
Proof.
  intros x O F R Hip Hk. pose proof (wp_bind_inv _ _ _ _ (itrunc_blocks s ip O F R Hip)) as W.
  apply wp_bind. eapply wp_mono; [exact W|]. intros [] s1 W1. apply wp_bind, wp_bind.
  eapply wp_mono; [exact W1|]. intros [] s2 (O2 & F2 & I2). by apply Hk.
Qed.

Record truncated (s s' : fstate) (ip : Z) : Prop := {
  tr_ok : fs_ok s' [];
  tr_used : forall c, 0 <= c < sb_size (fsb s) ->
              used s' c = if decide (c ∈ file_blocks s (geti s ip)) then false else used s c;
  tr_blk : forall c, ~ is_bitmap s c -> blkv s' c =
             if decide (c = iblock s (inum (geti s ip)))
             then put_dinode (ioff (inum (geti s ip))) (geti s' ip) (blkv s c) else blkv s c;
  tr_inode : geti s' ip = with_size 0 (with_addrs (replicate 11 0) (geti s ip));
  tr_other : forall j, j <> ip -> geti s' j = geti s j;
  tr_len : length (icache s') = length (icache s);
  tr_sb : fsb s' = fsb s;
  tr_room : room s' [] 1
}.

Lemma itrunc_spec s ip :
  let x := geti s ip in
  fs_ok s [] -> file_ok s x -> froom s [] 3 -> 0 <= ip < Z.of_nat (length (icache s)) ->
  0 <= inum x < sb_ninodes (fsb s) -> u32 (iatime x) = 0 -> u32 (imtime x) = 0 ->
  wp (itrunc ip) (fun _ s' => truncated s s' ip) s.
Proof.
  intros x O F R Hip Hi Ha Hm. rewrite itrunc_split. apply wp_bind, wp_gets. fold x.
  rewrite (fi_dev _ _ F). apply itrunc_small; [done|done|destruct R as [R1 R2 R3]; split; lia|done|].
  intros s1 O1 F1 I1. fold x in F1, I1.
  assert (Hx : geti s1 ip = with_addrs (replicate 11 0) x)
    by (unfold geti; rewrite I1; by apply nthZ_updZ_eq).
  assert (Hl1 : length (icache s1) = length (icache s)) by (rewrite I1; apply length_updZ).
  unfold free_level. apply wp_bind, wp_bind, wp_gets. rewrite Hx.
  change (addr_get _ (NDIRECT + 1, 1%nat).1) with (u32 (iatime x)). rewrite Ha, Z.eqb_refl.
  apply wp_ret, wp_bind, wp_bind, wp_gets. rewrite Hx.
  change (addr_get _ (NDIRECT + 2, 2%nat).1) with (u32 (imtime x)). rewrite Hm, Z.eqb_refl.
  apply wp_ret, wp_ret. apply wp_bind, wp_modS. set (s2 := seti ip _ s1).
  assert (Hx2 : geti s2 ip = with_size 0 (with_addrs (replicate 11 0) x))
    by (unfold s2; rewrite geti_seti_eq by lia; by rewrite Hx).
  assert (R2 : room s2 [] 3).
  { assert (R1 : froom s1 [] 3) by (by eapply froom_frees). apply (froom_room _ _ _ 3) in R1 as [? ? ?]; [|lia].
    by split. }
  pose proof (fe_sb _ _ _ F1) as Hsb1.
  eapply wp_mono.
  { apply iupdate_spec; [by apply fs_ok_seti|destruct R2; split; lia|rewrite Hx2; apply F|].
    rewrite Hx2. change (fsb s2) with (fsb s1). rewrite Hsb1. exact Hi. }
  intros [] s3 (O3 & F3 & U3 & V3). rewrite Hx2 in V3. cbn [inum with_size with_addrs] in V3.
  pose proof (fframe_geti _ _ _ ip F3) as G3. rewrite Hx2 in G3.
  split; fold x.
  - done.
  - intros c Hc. rewrite U3 by (change (fsb s2) with (fsb s1); by rewrite Hsb1).
    change (used s2 c) with (used s1 c). by apply (fe_used _ _ _ F1).
  - intros c Hc. rewrite V3, G3. change (blkv s2 c) with (blkv s1 c).
    replace (iblock s2 (inum x)) with (iblock s (inum x)) by (unfold iblock; by rewrite <-Hsb1).
    by rewrite (fe_rest _ _ _ F1).
  - done.
  - intros j Hj. rewrite (fframe_geti _ _ _ j F3). unfold s2. rewrite geti_seti_ne by done.
    unfold geti. rewrite I1. apply nthZ_updZ_ne. congruence.
  - rewrite (fframe_icache _ _ _ F3). cbn. rewrite length_updZ. done.
  - rewrite (fframe_sb _ _ _ F3). exact Hsb1.
  - destruct R2 as [R4 R5 R6]. destruct (ff_tx _ _ _ F3) as (_ & T2 & _ & T4 & _).
    pose proof (ff_n _ _ _ F3). split; rewrite ?T2, ?T4; lia.
Qed.

(** ** Dropping the last reference to an unlinked file *)

Record last_ref (s : fstate) (ip : Z) : Prop := {
  lr_ok : fs_ok s [];
  lr_file : file_ok s (geti s ip);
  lr_room : froom s [] 3;
  lr_ip : 0 <= ip < Z.of_nat (length (icache s));
  lr_inum : 0 <= inum (geti s ip) < sb_ninodes (fsb s);
  lr_valid : ivalid (geti s ip) = true;
  lr_nlink : inlink (geti s ip) = 0;
  lr_ref : iref (geti s ip) = 1
}.

Definition relock (lk : sleeplock) (ip : Z) (s : fstate) : fstate := seti ip (with_ilk lk (geti s ip)) s.

Lemma last_ref_relock s ip lk :
  last_ref s ip -> last_ref (relock lk ip s) ip
  /\ geti (relock lk ip s) ip = with_ilk lk (geti s ip)
  /\ file_blocks (relock lk ip s) (geti (relock lk ip s) ip) = file_blocks s (geti s ip).
Proof.
  intros [L1 L2 L3 L4 L5 L6 L7 L8].
  assert (Hg : geti (relock lk ip s) ip = with_ilk lk (geti s ip)) by (by apply geti_seti_eq).
  split_and!; [|done|by rewrite Hg].
  split; rewrite ?Hg; try done.
  - by apply fs_ok_seti.
  - by apply (file_ok_same s _ (geti s ip)).
  - destruct L3 as [R1 R2 R3]. by split.
  - cbn. by rewrite length_updZ.
Qed.

Lemma iput_last s ip :
  last_ref s ip -> locked (ilk (geti s ip)) = false ->
  iput ip s = (itrunc ip ;; updi ip (with_type 0) ;; iupdate ip ;; updi ip (with_valid false) ;;
               releasei ip ;; updi ip (fun x => with_ref (iref x - 1) x))
                (relock (mk_lock true (pid_of s)) ip s).
Proof.
  intros L Hl. destruct (last_ref_relock s ip (mk_lock true (pid_of s)) L) as ([] & Hg & _).
  unfold iput, mbind, M_bind, acquirei, acquiresleep. rewrite Hl. fold (relock (mk_lock true (pid_of s)) ip s).
  unfold gets. rewrite lr_valid0, lr_nlink0, lr_ref0.
  change (0 =? 0) with true. change (1 =? 1) with true. cbn [andb].
  destruct (itrunc ip _) as [[] s1| | |]; [|done..]. destruct (updi ip (with_type 0) s1) as [[] s2| | |]; [|done..].
  by destruct (iupdate ip s2) as [[] s3| | |].
Qed.

(** Reading a timestamp as a block number. *)
Lemma fs_bread_beyond s b :
  fs_ok s [] -> lh_n (flog s) < NBUF -> FSSIZE <= b ->
  panics (bioF (bread ROOTDEV b)) "incorrect blockno" s.
Proof.
  intros O Hn Hb. pose proof (lo_cache _ _ (fo_log _ _ O)) as C.
  destruct (bread_beyond_disk (bio (flog s)) b (ca_inv _ _ _ C) Hb) as [t E].
  - rewrite (ca_pin _ _ _ C). unfold pins. cbn.
    pose proof (lh_n_logged _ _ (fo_log _ _ O)). lia.
  - unfold panics, bioF, logM, bioM, lift. rewrite E. eauto.
Qed.

Lemma itrunc_timestamp s ip :
  let x := geti s ip in
  fs_ok s [] -> file_ok s x -> froom s [] 3 -> 0 <= ip < Z.of_nat (length (icache s)) ->
  FSSIZE <= u32 (iatime x) -> panics (itrunc ip) "incorrect blockno" s.
Proof.
  intros x O F R Hip Ha. rewrite itrunc_split. apply panics_gets. fold x. rewrite (fi_dev _ _ F).
  pose proof (wp_bind_inv _ _ _ _ (itrunc_blocks s ip O F ltac:(destruct R as [R1 R2 R3]; split; lia) Hip)) as W.
  eapply panics_bind_r; [exact W|]. intros [] s1 W1. apply panics_bind_l.
  eapply panics_bind_r; [exact W1|]. intros [] s2 (O2 & F2 & I2). apply panics_bind_l.
  unfold free_level. apply panics_gets.
  assert (Hx : geti s2 ip = with_addrs (replicate 11 0) x)
    by (unfold geti; rewrite I2; by apply nthZ_updZ_eq).
  rewrite Hx. change (addr_get _ (NDIRECT + 1, 1%nat).1) with (u32 (iatime x)).
  rewrite (proj2 (Z.eqb_neq _ 0)) by (unfold FSSIZE in Ha; lia).
  apply panics_bind_l. cbn [snd free_tree]. apply panics_bind_l.
  apply fs_bread_beyond; [done| |done].
  assert (R2 : froom s2 [] 3) by (by eapply froom_frees).
  destruct R2 as [_ _ R2]. pose proof (pot_nonneg s2). simpl in R2. lia.
Qed.

(** The steps of [iput] after [itrunc]. *)
Lemma iput_rest s1 s ip :
  truncated s s1 ip -> fs_ok s [] -> file_ok s (geti s ip) ->
  0 <= ip < Z.of_nat (length (icache s)) -> 0 <= inum (geti s ip) < sb_ninodes (fsb s) ->
  iref (geti s ip) = 1 ->
  wp (updi ip (with_type 0) ;; iupdate ip ;; updi ip (with_valid false) ;;
      releasei ip ;; updi ip (fun x => with_ref (iref x - 1) x))
    (fun _ s' => fs_ok s' []
       /\ (forall c, 0 <= c < sb_size (fsb s) ->
            used s' c = if decide (c ∈ file_blocks s (geti s ip)) then false else used s c)
       /\ get16 (blkv s' (iblock s (inum (geti s ip)))) (ioff (inum (geti s ip))) = 0
       /\ iref (geti s' ip) = 0 /\ ivalid (geti s' ip) = false
       /\ locked (ilk (geti s' ip)) = false
       /\ (forall j, j <> ip -> geti s' j = geti s j)) s1.
Proof.
  intros [T1 T2 T3 T4 T5 T6 T7 T8] O F Hip Hi Hr. set (x := geti s ip) in *.
  apply wp_bind, wp_modS. set (s2 := seti ip _ s1).
  assert (Hx2 : geti s2 ip = with_type 0 (geti s1 ip)) by (apply geti_seti_eq; lia).
  apply wp_bind. eapply wp_mono.
  { apply iupdate_spec; [by apply fs_ok_seti|by destruct T8|rewrite Hx2, T4; apply F|].
    rewrite Hx2, T4. change (fsb s2) with (fsb s1). by rewrite T7. }
  intros [] s3 (O3 & F3 & U3 & V3). rewrite Hx2, T4 in V3. cbn [inum with_type with_size with_addrs] in V3.
  assert (Hl3 : length (icache s3) = length (icache s)).
  { rewrite (fframe_icache _ _ _ F3). cbn. by rewrite length_updZ. }
  apply wp_bind, wp_modS. set (s4 := seti ip _ s3). apply wp_bind, wp_modS. set (s5 := seti ip _ s4).
  apply wp_modS. set (s6 := seti ip _ s5).
  assert (Hg4 : geti s4 ip = with_valid false (geti s3 ip)) by (apply geti_seti_eq; lia).
  assert (Hg5 : geti s5 ip = with_ilk (releasesleep (ilk (geti s4 ip))) (geti s4 ip))
    by (apply geti_seti_eq; cbn; rewrite length_updZ; lia).
  assert (Hg6 : geti s6 ip = with_ref (iref (geti s5 ip) - 1) (geti s5 ip))
    by (apply geti_seti_eq; cbn; rewrite !length_updZ; lia).
  assert (Hr3 : iref (geti s3 ip) = 1).
  { rewrite (fframe_geti _ _ _ ip F3), Hx2, T4. exact Hr. }
  assert (Hib : iblock s2 (inum x) = iblock s (inum x)).
  { unfold iblock. change (fsb s2) with (fsb s1). by rewrite T7. }
  split_and!.
  - by do 3 apply fs_ok_seti.
  - intros c Hc. change (used s6 c) with (used s3 c).
    rewrite U3 by (change (fsb s2) with (fsb s1); by rewrite T7). by apply T2.
  - change (blkv s6) with (blkv s3). rewrite V3, Hib, decide_True by done.
    unfold get16. match goal with |- le_decode (slice _ _ (put_dinode _ ?y ?d)) = _ =>
      pose proof (get_field (ioff (inum x)) y d 0 2 0) as G end.
    rewrite Nat.add_0_r in G. apply G.
    + rewrite (length_blkv s2 []) by (by apply fs_ok_seti). apply ioff_range.
    + apply list_elem_of_In. by left.
    + change (256 ^ Z.of_nat 2) with 65536. lia.
  - rewrite Hg6, Hg5, Hg4. cbn. lia.
  - by rewrite Hg6, Hg5, Hg4.
  - by rewrite Hg6, Hg5.
  - intros j Hj. unfold s6, s5, s4. rewrite !geti_seti_ne by done.
    rewrite (fframe_geti _ _ _ j F3). unfold s2. rewrite geti_seti_ne by done. by apply T5.
Qed.

(** ** Properties *)

(** C22: Dropping the last reference to a file without links, whose access and
    modification times are 0 - a file that mkfs made and that nobody has read or
    written since - frees exactly the blocks of the file in the bitmap, indirect
    block included, and the inode on disk, and releases the cache entry, leaving the
    other entries alone.  (What happens to a file with a time stamp is the next
    property.) *)
Theorem iput_frees_unlinked s ip :
  last_ref s ip -> locked (ilk (geti s ip)) = false ->
  u32 (iatime (geti s ip)) = 0 -> u32 (imtime (geti s ip)) = 0 ->
  exists s', iput ip s = Ok tt s' /\ fs_ok s' []
    /\ (forall c, 0 <= c < sb_size (fsb s) ->
         used s' c = if decide (c ∈ file_blocks s (geti s ip)) then false else used s c)
    /\ get16 (blkv s' (iblock s (inum (geti s ip)))) (ioff (inum (geti s ip))) = 0
    /\ iref (geti s' ip) = 0 /\ ivalid (geti s' ip) = false /\ locked (ilk (geti s' ip)) = false
    /\ (forall j, j <> ip -> geti s' j = geti s j).
Proof.
  intros L Hl Ha Hm. rewrite (iput_last s ip L Hl).
  destruct (last_ref_relock s ip (mk_lock true (pid_of s)) L) as (L' & Hg & Hfb).
  set (s0 := relock _ ip s) in *. destruct L' as [L1 L2 L3 L4 L5 L6 L7 L8].
  assert (W : wp (itrunc ip) (fun _ s' => truncated s0 s' ip) s0)
    by (apply itrunc_spec; rewrite ?Hg; try done; by rewrite <-Hg).
  destruct (wp_run _ _ _ W) as ([] & s1 & E1 & Tr).
  destruct (wp_run _ _ _ (iput_rest s1 s0 ip Tr L1 L2 L4 L5 L8))
    as ([] & s' & E' & O' & U' & Ty & R' & V' & Lk & Ot).
  exists s'. unfold mbind at 1, M_bind at 1. rewrite E1. split_and!; try done.
  - intros c Hc. rewrite U', Hfb by done. done.
  - rewrite Hg in Ty. exact Ty.
  - intros j Hj. rewrite Ot by done. by apply geti_seti_ne.
Qed.

(** The demo file without links and not locked. *)
Definition demo_unlinked (l : lst) : fstate :=
  seti 1 (with_nlink 0 (with_ilk initsleeplock (demo_inode 2 T_FILE))) (demo_state l).

Lemma demo_last_ref l : demo_ok (demo_state l) -> last_ref (demo_unlinked l) 1.
Proof.
  intros D. assert (Hg : geti (demo_unlinked l) 1 = with_nlink 0 (with_ilk initsleeplock (demo_inode 2 T_FILE)))
    by (apply geti_seti_eq; cbn; lia).
  split; rewrite ?Hg; try done.
  - apply fs_ok_seti, D.
  - apply (file_ok_same (demo_state l) _ (geti (demo_state l) 1)); try done.
    apply demo_file_ok. by right.
  - destruct (dm_room _ D 4 ltac:(lia)) as [R1 R2 R3].
    assert (Hp : pot (demo_unlinked l) <= 1).
    { unfold pot. change (seqZ _ _) with [65]. pose proof (count_le (fun b => negb (bool_decide
        (b ∈ logged (flog (demo_unlinked l))))) [65]). simpl in *. lia. }
    split; change (flog (demo_unlinked l)) with l; simpl in *; try lia.
Qed.

(** The demo file with a data block and an indirect block. *)
Definition demo_blocks (b c : Z) : inode :=
  with_nlink 0 (with_ilk initsleeplock (with_addrs ([b] ++ replicate 9 0 ++ [c]) (demo_inode 2 T_FILE))).

Lemma demo_balloc s : fs_ok s [] -> room s [] 2 -> (exists b, 0 <= b < sb_size (fsb s) /\ used s b = false) ->
  exists b s', balloc ROOTDEV s = Ok b s' /\ fs_ok s' [] /\ allocated s s' b /\ fsb s' = fsb s
    /\ icache s' = icache s /\ forall k, room s [] (k + 2) -> room s' [] k.
Proof.
  intros O R Hf. destruct (wp_run _ _ _ (balloc_spec s [] O ltac:(by apply Forall_nil) R Hf)) as (b & s' & E & O' & A).
  exists b, s'. pose proof (al_frame _ _ _ A) as F. split_and!; try done.
  - apply (fframe_sb _ _ _ F).
  - apply (fframe_icache _ _ _ F).
  - intros k [R1 R2 R3]. destruct (ff_tx _ _ _ F) as (_ & T2 & _ & T4 & _). pose proof (ff_n _ _ _ F).
    split; rewrite ?T2, ?T4; simpl in *; lia.
Qed.

Lemma demo_slots s b c t : blkv s c = zero_block -> 0 <= t < NSLOT ->
  slotv s (demo_blocks b c) t = if decide (t = 0) then b else if decide (t = NDIRECT) then c else 0.
Proof.
  intros Hz Ht. unfold slotv. change (nthZ 0 (iaddrs (demo_blocks b c)) NDIRECT) with c.
  destruct (Z.leb_spec t NDIRECT) as [Hd|Hd].
  - unfold NDIRECT in *. assert (Hin : t ∈ seqZ 0 11) by (apply elem_of_seqZ; lia).
    change (seqZ 0 11) with [0; 1; 2; 3; 4; 5; 6; 7; 8; 9; 10] in Hin.
    repeat (apply elem_of_cons in Hin as [->|Hin]; [reflexivity|]). by apply elem_of_nil in Hin.
  - rewrite !decide_False by (unfold NDIRECT in *; lia). destruct (c =? 0); [done|]. rewrite Hz.
    apply get32_zero.
Qed.

Lemma demo_file_blocks s b c : blkv s c = zero_block -> b <> 0 -> c <> 0 ->
  file_blocks s (demo_blocks b c) = [b; c].
Proof.
  intros Hz Hb Hc. unfold file_blocks, nz. rewrite !map_app, !filter_app.
  change (seqZ 0 NDIRECT) with [0; 1; 2; 3; 4; 5; 6; 7; 8; 9].
  rewrite (filter_none _ (map _ (seqZ (NDIRECT + 1) NINDIRECT))).
  2:{ intros a Ha Hna. apply list_elem_of_fmap in Ha as (t & -> & Ht%elem_of_seqZ). apply Hna.
      rewrite demo_slots by (done || unfold NSLOT, NDIRECT, NINDIRECT in *; lia).
      by rewrite !decide_False by (unfold NDIRECT in *; lia). }
  cbn [map]. rewrite !demo_slots by (done || (unfold NSLOT, NDIRECT, NINDIRECT; lia)).
  cbn [decide]. repeat (rewrite ?decide_True, ?decide_False by done; cbn [app]).
  rewrite !filter_cons. repeat case_decide; try done; congruence.
Qed.

Lemma demo_blocks_ok s b c : blkv s c = zero_block -> b <> c -> b <> 0 -> c <> 0 ->
  data_start s <= b < sb_size (fsb s) -> data_start s <= c < sb_size (fsb s) ->
  used s b = true -> used s c = true -> file_ok s (demo_blocks b c).
Proof.
  intros Hz Hne Hb0 Hc0 Hb Hc Ub Uc. split; try done.
  - intros t Ht. rewrite demo_slots by done. by repeat case_decide.
  - intros t u Ht Hu. rewrite !demo_slots by done. repeat case_decide; congruence.
Qed.

(** An unlinked file with two blocks. *)
Lemma demo_unlinked_blocks : exists s b c, last_ref s 1 /\ geti s 1 = demo_blocks b c
  /\ file_blocks s (geti s 1) = [b; c] /\ used s b = true /\ used s c = true
  /\ 0 <= b < sb_size (fsb s) /\ 0 <= c < sb_size (fsb s).
Proof.
  destruct demo_fs as (l & D). set (s0 := demo_state l).
  destruct (demo_balloc s0) as (b & s1 & _ & O1 & A1 & Sb1 & I1 & R1).
  { apply D. } { apply (dm_room _ D). lia. }
  { exists 150. split; [vm_compute; by split|]. unfold s0. by rewrite (dm_used _ D) by lia. }
  destruct (demo_balloc s1) as (c & s2 & _ & O2 & A2 & Sb2 & I2 & R2).
  { done. } { apply R1, (dm_room _ D). lia. }
  { exists 150. rewrite Sb1. split; [vm_compute; by split|].
    rewrite (al_used _ _ _ A1) by (vm_compute; by split). pose proof (al_first _ _ _ A1 150) as Hf.
    unfold s0 in *. rewrite (dm_used _ D) in * by lia. case_decide; [|done]. subst b.
    pose proof (al_first _ _ _ A1 100 ltac:(lia)) as H'. by rewrite (dm_used _ D) in H' by lia. }
  pose proof (al_range _ _ _ A1) as Hb. pose proof (al_range _ _ _ A2) as Hc.
  assert (Hds : data_start s0 = 66) by reflexivity. rewrite Hds in Hb.
  assert (Hds1 : data_start s1 = 66) by (unfold data_start; rewrite Sb1; reflexivity). rewrite Hds1, Sb1 in Hc.
  assert (Hds2 : data_start s2 = 66) by (unfold data_start; rewrite Sb2, Sb1; reflexivity).
  change (sb_size (fsb s0)) with 200 in Hb, Hc.
  assert (Ub : used s1 b = true) by (rewrite (al_used _ _ _ A1) by (change (sb_size _) with 200; lia); by rewrite decide_True).
  assert (Hne : b <> c) by (intros <-; pose proof (al_free _ _ _ A2); congruence).
  set (s := seti 1 (demo_blocks b c) s2).
  assert (Hg : geti s 1 = demo_blocks b c) by (apply geti_seti_eq; rewrite I2, I1; vm_compute; by split).
  assert (Hsz : sb_size (fsb s) = 200) by (change (fsb s) with (fsb s2); by rewrite Sb2, Sb1).
  assert (Us : used s b = true /\ used s c = true).
  { change (used s) with (used s2). rewrite !(al_used _ _ _ A2) by (rewrite Sb1; change (sb_size _) with 200; lia).
    rewrite decide_False, decide_True by done. done. }
  assert (Hz : blkv s c = zero_block) by apply (al_zero _ _ _ A2).
  exists s, b, c. rewrite Hg, Hsz. split; [|split_and!; try done; try lia; apply Us || idtac].
  - split; rewrite ?Hg; try done.
    + by apply fs_ok_seti.
    + apply demo_blocks_ok; try done; rewrite ?Hsz; change (data_start s) with (data_start s2); try lia; apply Us.
    + assert (R : room s2 [] 4) by (apply R2, R1, (dm_room _ D); lia). destruct R as [Q1 Q2 Q3].
      assert (Hp : pot s <= 1).
      { unfold pot, nbitmap. rewrite Hsz. change (fsb s) with (fsb s2). rewrite Sb2, Sb1.
        pose proof (count_le (fun b => negb (bool_decide (b ∈ logged (flog s))))
          (seqZ (sb_bmapstart (fsb s0)) ((200 - 1) / BPB + 1))) as H. change (length (seqZ _ _)) with 1%nat in H. lia. }
      split; change (flog s) with (flog s2); simpl in *; lia.
    + unfold s. change (icache (seti 1 (demo_blocks b c) s2)) with (updZ 1 (demo_blocks b c) (icache s2)).
      rewrite length_updZ, I2, I1. by vm_compute.
    + change (fsb s) with (fsb s2). rewrite Sb2, Sb1. by vm_compute.
  - apply demo_file_blocks; [done|lia|lia].
Qed.

Lemma iput_frees_unlinked_witness : exists s s' b c,
  iput 1 s = Ok tt s' /\ file_blocks s (geti s 1) = [b; c] /\ used s b = true /\ used s c = true
  /\ used s' b = false /\ used s' c = false /\ iref (geti s 1) = 1 /\ iref (geti s' 1) = 0.
Proof.
  destruct demo_unlinked_blocks as (s & b & c & L & Hg & Hfb & Ub & Uc & Hb & Hc).
  destruct (iput_frees_unlinked s 1 L) as (s' & E & _ & U & _ & R & _); [by rewrite Hg..|].
  exists s, s', b, c. rewrite !U, Hfb, !decide_True by (done || set_solver). rewrite Hg. by split_and!.
Defined.

(** C37: The addresses of the double and triple indirect blocks are stored in
    the fields [atime] and [mtime], so a file that has been read is damaged by
    the time stamp: when the clock shows any date after 1970-01-01 02:46:40,
    reading an unlinked open file and dropping its last reference panics in the
    disk driver. *)
Theorem iput_after_read_panics devsw s ip off n :
  last_ref s ip -> itype (geti s ip) <> T_DEV -> isize (geti s ip) <= SMALL * BSIZE ->
  full s (geti s ip) (isize (geti s ip)) -> 0 <= off <= isize (geti s ip) -> 0 <= n ->
  off + n < 2 ^ 32 -> ilk (geti s ip) = mk_lock true (pid_of s) ->
  FSSIZE <= clock s < 2 ^ 31 ->
  exists r s1, readi devsw ip off n s = Ok r s1
    /\ panics (iunlockput ip) "incorrect blockno" s1.
Proof.
  intros L Ht Hsz Hfull Hoff Hn Hov Hlk Hc. pose proof L as [L1 L2 L3 L4 L5 L6 L7 L8].
  destruct (wp_run _ _ _ (readi_spec devsw s ip off n L1 L2 L4 Ht Hsz Hfull Hoff Hn Hov))
    as (r & s1 & E & _ & O1 & Q1).
  exists r, s1. split; [done|]. set (t := touch with_atime ip s) in *. pose proof Q1 as [F1 V1].
  pose proof (ff_eq _ _ _ F1) as E1.
  assert (Hg : geti s1 ip = with_atime (clock s) (geti s ip)).
  { rewrite (fframe_geti _ _ _ ip F1). by apply geti_touch. }
  assert (L1' : last_ref s1 ip).
  { split; rewrite ?Hg; try done.
    - apply (file_ok_same s _ (geti s ip)); try done; [|by rewrite E1..].
      intros c. rewrite (quiet_used _ _ Q1). done.
    - eapply (froom_frees t s1); [|by apply frees_quiet]. destruct L3 as [R1 R2 R3]. by split.
    - rewrite (fframe_icache _ _ _ F1). cbn. by rewrite length_updZ.
    - by rewrite (fframe_sb _ _ _ F1). }
  assert (Hp : pid_of s1 = pid_of s).
  { destruct (ff_tx _ _ _ F1) as (_ & _ & _ & _ & _ & D). unfold pid_of. apply D. }
  unfold iunlockput, iunlock. unfold mbind at 1, M_bind at 1, mbind at 1, M_bind at 1, getS.
  unfold panics. rewrite Hg, Hp. cbn [ilk iref with_atime]. rewrite Hlk, L8. unfold holdingsleep.
  cbn [locked lpid]. rewrite Z.eqb_refl, (proj2 (Z.eqb_neq ip NULL)) by (unfold NULL; lia).
  cbn [andb negb orb]. change (1 <? 1) with false. cbv iota.
  unfold releasei, updi, modS. change (seti ip _ s1) with (relock (releasesleep (ilk (geti s1 ip))) ip s1).
  destruct (last_ref_relock s1 ip (releasesleep (ilk (geti s1 ip))) L1') as (L2' & Hg2 & _).
  rewrite (iput_last _ ip L2') by (by rewrite Hg2).
  set (s2 := relock (releasesleep _) ip s1) in *.
  destruct (last_ref_relock s2 ip (mk_lock true (pid_of s2)) L2') as ([K1 K2 K3 K4 _ _ _ _] & Hg3 & _).
  apply panics_bind_l. apply itrunc_timestamp; try done.
  rewrite Hg3, Hg2, Hg. cbn [iatime with_ilk with_atime]. rewrite u32_small; unfold FSSIZE in *; lia.
Qed.

Lemma iput_after_read_panics_witness : exists devsw s r s1,
  readi devsw 1 0 512 s = Ok r s1 /\ panics (iunlockput 1) "incorrect blockno" s1.
Proof.
  destruct demo_fs as (l & D).
  set (s := relock (mk_lock true 1) 1 (demo_unlinked l)).
  destruct (last_ref_relock _ 1 (mk_lock true 1) (demo_last_ref l D)) as (L & Hg & _).
  destruct (iput_after_read_panics (mk_devsw (fun _ => None) (fun _ => None)) s 1 0 512 L)
    as (r & s1 & E & P); try discriminate; try lia.
  - intros bn H1 H2. change (isize (geti s 1)) with 0 in H2. unfold BSIZE in H2. lia.
  - change (isize (geti s 1)) with 0. lia.
  - change (pid_of s) with (pid_of (demo_state l)). rewrite (dm_pid _ D). reflexivity.
  - change (clock s) with 1700000000. unfold FSSIZE. lia.
  - exists (mk_devsw (fun _ => None) (fun _ => None)), s, r, s1. split; [exact E|exact P].
Defined.
