(* ===== verification/Dir.v ===== *)
(** * Dir: directories and path names

    Theorems about [dirlookup], [dirlink] and [skipelem] of src/kernel/fs.c.  A
    directory is seen as the sequence of its entries ([dents]); looking a name
    up is searching that sequence, and linking a name replaces its first free
    entry or appends one. *)

From Stdlib Require Import ZArith Lia ZifyBool.
From stdpp Require Import base gmap strings numbers list.
From S2P Require Import Prelude CString Bio Log Fs Balloc Content Inode.

Local Open Scope Z_scope.

(** ** Entries *)

(** The name a byte array of [DIRSIZ] holds. *)
Definition dname (l : list Z) : list Z := cstr (arr l) 0 (Z.to_nat DIRSIZ).
(** Entry [k] of the directory with inode [x]. *)
Definition dent (s : fstate) (x : inode) (k : Z) : list Z :=
  map (fbyte s x) (seqZ (DIRENT_SIZE * k) DIRENT_SIZE).
Definition ndents (x : inode) : Z := isize x / DIRENT_SIZE.
Definition dmatch (s : fstate) (x : inode) (nm : list Z) (k : Z) : bool :=
  negb (de_inum (dent s x k) =? 0) && bool_decide (dname (de_name (dent s x k)) = nm).
Definition dir_find (s : fstate) (x : inode) (nm : list Z) : option Z :=
  List.find (dmatch s x nm) (seqZ 0 (ndents x)).
(** What the directory maps a name to. *)
Definition dir_inum (s : fstate) (x : inode) (nm : list Z) : option Z :=
  (fun k => de_inum (dent s x k)) <$> dir_find s x nm.

Record dir_ok (s : fstate) (dp : Z) : Prop := {
  dr_ok : fs_ok s [];
  dr_file : file_ok s (geti s dp);
  dr_ip : 0 <= dp < Z.of_nat (length (icache s));
  dr_type : itype (geti s dp) = T_DIR;
  dr_mul : isize (geti s dp) mod DIRENT_SIZE = 0;
  dr_size : 0 <= isize (geti s dp) <= SMALL * BSIZE;
  dr_full : full s (geti s dp) (isize (geti s dp))
}.

Lemma fbyte_range s x H k : fs_ok s H -> 0 <= fbyte s x k < 256.
Proof.
  intros O. unfold fbyte, fblock.
  assert (Hb : is_bytes (if slotv s x (slot_of (k / BSIZE)) =? 0 then zero_block
                         else blkv s (slotv s x (slot_of (k / BSIZE))))).
  { case_match; [apply is_bytes_zero|apply O]. }
  exact (arr_bytes _ _ Hb).
Qed.

Lemma dent_bytes s x H k : fs_ok s H -> is_bytes (dent s x k).
Proof.
  intros O. apply Forall_forall. intros b Hb. apply list_elem_of_In, in_map_iff in Hb as (j & <- & _).
  by eapply fbyte_range.
Qed.

Lemma length_dent s x k : length (dent s x k) = 16%nat.
Proof. unfold dent. rewrite length_map, length_seqZ. done. Qed.

Lemma is_bytes_slice o n d : is_bytes d -> is_bytes (slice o n d).
Proof. intros Hd. by apply Forall_take, Forall_drop. Qed.

(** [namecmp] decides the equality of names. *)
Lemma namecmp_spec a b :
  is_bytes a -> is_bytes b -> (namecmp a b =? 0) = bool_decide (dname b = dname a).
Proof.
  intros Ha Hb. unfold namecmp, strncmp, dname.
  pose proof (strncmp_loop_eq (arr a) (arr b) 0 (Z.to_nat DIRSIZ)
    (fun k => arr_bytes a k Ha) (fun k => arr_bytes b k Hb)) as E.
  case_bool_decide as Hc.
  - apply Z.eqb_eq, E. done.
  - apply Z.eqb_neq. intros E0. apply Hc. symmetry. by apply E.
Qed.

(** ** States that differ in time stamps and in what is cached *)

Record peeked (s s' : fstate) (dp : Z) : Prop := {
  pk_ok : fs_ok s' [];
  pk_blk : forall c, blkv s' c = blkv s c;
  pk_sb : sb_size (fsb s') = sb_size (fsb s) /\ sb_ninodes (fsb s') = sb_ninodes (fsb s)
          /\ sb_inodestart (fsb s') = sb_inodestart (fsb s)
          /\ sb_bmapstart (fsb s') = sb_bmapstart (fsb s);
  pk_dp : geti s' dp = with_atime (iatime (geti s' dp)) (geti s dp);
  pk_other : forall j, j <> dp -> geti s' j = geti s j;
  pk_len : length (icache s') = length (icache s);
  pk_tx : same_tx (flog s) (flog s');
  pk_n : lh_n (flog s') <= lh_n (flog s)
}.

Lemma with_atime_id x : with_atime (iatime x) x = x.
Proof. by destruct x. Qed.

Lemma peeked_refl s dp : fs_ok s [] -> peeked s s dp.
Proof.
  intros O. split; try done. by rewrite with_atime_id.
Qed.

Lemma peeked_trans s1 s2 s3 dp : peeked s1 s2 dp -> peeked s2 s3 dp -> peeked s1 s3 dp.
Proof.
  intros [A1 A2 (A3 & A4 & A5 & A6) A7 A8 A9 A10 A11] [B1 B2 (B3 & B4 & B5 & B6) B7 B8 B9 B10 B11].
  split; try done.
  - intros c. by rewrite B2.
  - split_and!; congruence.
  - rewrite B7 at 1. rewrite A7. done.
  - intros j Hj. by rewrite B8, A8.
  - congruence.
  - by eapply same_tx_trans.
  - lia.
Qed.

Lemma peeked_used s s' dp c : peeked s s' dp -> used s' c = used s c.
Proof.
  intros P. destruct (pk_sb _ _ _ P) as (_ & _ & _ & E). unfold used, bblock.
  by rewrite E, (pk_blk _ _ _ P).
Qed.

Lemma peeked_dent s s' dp k : peeked s s' dp -> dent s' (geti s' dp) k = dent s (geti s dp) k.
Proof.
  intros P. unfold dent. apply map_ext. intros j. apply fbyte_same; [apply P|].
  by rewrite (pk_dp _ _ _ P).
Qed.

Lemma peeked_dir_ok s s' dp : dir_ok s dp -> peeked s s' dp -> dir_ok s' dp.
Proof.
  intros [D1 D2 D3 D4 D5 D6 D7] P. pose proof (pk_dp _ _ _ P) as E.
  destruct (pk_sb _ _ _ P) as (E1 & E2 & E3 & E4).
  split; try (rewrite E; done).
  - apply P.
  - apply (file_ok_same s _ (geti s dp)); [apply P|intros c; by apply (peeked_used _ _ dp)| |done| | |done].
    + unfold data_start. by rewrite E1, E4.
    + by rewrite E.
    + by rewrite E.
  - by rewrite (pk_len _ _ _ P).
  - rewrite E. intros bn H1 H2. rewrite (slotv_same s s' (geti s dp)); [by apply D7|apply P|done].
Qed.

Lemma touch_peeked s s' dp :
  0 <= dp < Z.of_nat (length (icache s)) -> fs_ok s' [] -> quiet (touch with_atime dp s) s' ->
  peeked s s' dp.
Proof.
  intros Hdp O' Q. pose proof Q as [F V]. pose proof (ff_eq _ _ _ F) as E.
  assert (Hg : geti s' dp = with_atime (clock s) (geti s dp)).
  { rewrite (fframe_geti _ _ _ dp F). by apply geti_touch. }
  split.
  - done.
  - intros c. apply V.
  - by rewrite E.
  - by rewrite Hg.
  - intros j Hj. rewrite (fframe_geti _ _ _ j F). by apply geti_seti_ne.
  - rewrite (fframe_icache _ _ _ F). cbn. apply length_updZ.
  - apply (ff_tx _ _ _ F).
  - pose proof (ff_n _ _ _ F) as N. cbn in N. lia.
Qed.

(** Reading one entry. *)
Lemma read_dent devsw s dp k :
  dir_ok s dp -> 0 <= k < ndents (geti s dp) ->
  wp (readi devsw dp (DIRENT_SIZE * k) DIRENT_SIZE)
     (fun r s' => r = (DIRENT_SIZE, dent s (geti s dp) k) /\ peeked s s' dp) s.
Proof.
  intros [D1 D2 D3 D4 D5 D6 D7] Hk. unfold ndents in Hk.
  assert (Hend : DIRENT_SIZE * k + DIRENT_SIZE <= isize (geti s dp)).
  { unfold DIRENT_SIZE in *. pose proof (Z.div_mod (isize (geti s dp)) 16). lia. }
  unfold DIRENT_SIZE in *. eapply wp_mono.
  { apply readi_spec; try done; try lia.
    - by rewrite D4.
    - unfold SMALL, NDIRECT, NINDIRECT, BSIZE in *. lia. }
  intros r s' (-> & O' & Q). split; [|by apply touch_peeked].
  rewrite Z.min_l by lia. done.
Qed.

Lemma de_offs_dents x : isize x mod DIRENT_SIZE = 0 -> 0 <= isize x ->
  de_offs (isize x) = map (Z.mul DIRENT_SIZE) (seqZ 0 (ndents x)).
Proof.
  intros Hm Hs. unfold de_offs, ndents, DIRENT_SIZE in *. do 2 f_equal.
  pose proof (Z.div_mod (isize x) 16). symmetry. apply Z.div_unique with 15; lia.
Qed.

(** ** Scanning a directory *)

Lemma map_seqZ_prefix (f : Z -> Z) n dn y rest :
  map f (seqZ 0 n) = dn ++ y :: rest ->
  y = f (Z.of_nat (length dn)) /\ Z.of_nat (length dn) < n /\ dn = map f (seqZ 0 (Z.of_nat (length dn))).
Proof.
  intros E. assert (Hy : map f (seqZ 0 n) !! length dn = Some y) by (rewrite E; by apply list_lookup_middle).
  rewrite list_lookup_fmap in Hy. apply fmap_Some in Hy as (k & Hk & ->).
  apply lookup_seqZ in Hk as [-> Hlt]. split_and!; [done|done|].
  rewrite <-(take_app_length dn (f (0 + Z.of_nat (length dn)) :: rest)) at 1. rewrite <-E.
  rewrite <-fmap_take. f_equal. apply list_eq. intros i. destruct (decide (i < length dn)%nat).
  - rewrite lookup_take_lt by done. rewrite !lookup_seqZ_lt by lia. done.
  - rewrite lookup_take_ge by lia. rewrite lookup_seqZ_ge by lia. done.
Qed.

Section scan.
Context (devsw : devsw_t) {B : Type} (s : fstate) (dp : Z) (msg : string).
Context (body : Z -> list Z -> M fstate (option B)) (p : Z -> bool) (Q : option B -> fstate -> Prop).
Let x := geti s dp.
Hypothesis D : dir_ok s dp.
Hypothesis Hno : forall k s1, 0 <= k < ndents x -> peeked s s1 dp -> p k = false ->
  body (DIRENT_SIZE * k) (dent s x k) s1 = Ok None s1.
Hypothesis Hyes : forall k s1, 0 <= k < ndents x -> peeked s s1 dp -> p k = true ->
  (forall j, 0 <= j < k -> p j = false) ->
  wp (body (DIRENT_SIZE * k) (dent s x k)) (fun r s' => exists b, r = Some b /\ Q (Some b) s') s1.
Hypothesis Hend : forall s1, peeked s s1 dp -> (forall j, 0 <= j < ndents x -> p j = false) -> Q None s1.

Lemma dir_scan :
  wp (forR (de_offs (isize x)) (fun off =>
        r ← readi devsw dp off DIRENT_SIZE;
        if negb (r.1 =? DIRENT_SIZE) then panic msg else body off r.2)) Q s.
Proof.
  pose proof D as [D1 D2 D3 D4 D5 D6 D7]. fold x in D5, D6. rewrite de_offs_dents by (done || lia).
  apply (wp_forR _ _ (fun dn s1 => peeked s s1 dp
    /\ forall j, 0 <= j < Z.of_nat (length dn) -> p j = false)).
  - split; [by apply peeked_refl|]. simpl. intros j Hj. lia.
  - intros dn off rest s1 E (P1 & Hp). apply map_seqZ_prefix in E as (-> & Hlt & _).
    set (k := Z.of_nat (length dn)) in *. pose proof (peeked_dir_ok _ _ _ D P1) as Dk.
    assert (Hn : ndents (geti s1 dp) = ndents x) by (unfold ndents; by rewrite (pk_dp _ _ _ P1)).
    apply wp_bind. eapply wp_mono; [apply read_dent; [done|rewrite Hn; lia]|].
    intros r s2 (-> & P2). cbn [fst snd]. rewrite Z.eqb_refl. cbn [negb].
    rewrite (peeked_dent _ _ _ k P1). fold x.
    assert (P12 : peeked s s2 dp) by (by eapply peeked_trans).
    destruct (p k) eqn:Ek.
    + eapply wp_mono; [apply Hyes; [lia|done|done|done]|]. intros r s' (b & -> & HQ). exact HQ.
    + unfold wp. rewrite Hno by (done || lia). split; [done|]. rewrite length_app. simpl.
      intros j Hj. destruct (decide (j = k)) as [->|]; [done|]. apply Hp. lia.
  - intros s' (P & Hp). apply Hend; [done|]. intros j Hj. apply Hp.
    rewrite length_map, length_seqZ. lia.
Qed.
End scan.

Lemma find_Some_first (f : Z -> bool) n k :
  0 <= k < n -> f k = true -> (forall j, 0 <= j < k -> f j = false) -> List.find f (seqZ 0 n) = Some k.
Proof.
  intros Hk Hf Hj. destruct (List.find f (seqZ 0 n)) as [k'|] eqn:E.
  - apply find_seqZ in E as (H1 & H2 & H3). f_equal.
    destruct (Z.lt_trichotomy k k') as [|[|]]; [|done|].
    + rewrite H3 in Hf by lia. done.
    + rewrite Hj in H2 by lia. done.
  - pose proof (find_seqZ_None _ _ _ E k ltac:(lia)). congruence.
Qed.

Lemma find_None_all (f : Z -> bool) n :
  (forall j, 0 <= j < n -> f j = false) -> List.find f (seqZ 0 n) = None.
Proof.
  intros Hj. destruct (List.find f (seqZ 0 n)) as [k|] eqn:E; [|done].
  apply find_seqZ in E as (H1 & H2 & _). rewrite Hj in H2 by lia. done.
Qed.

(** ** [iget] when there is an unused entry *)

Definition spare (s : fstate) : Prop := exists j, 0 <= j < NINODE /\ iref (geti s j) = 0.

Lemma iget_spare s dv i :
  length (icache s) = Z.to_nat NINODE -> spare s ->
  exists ip s', iget dv i s = Ok ip s' /\ 0 <= ip < NINODE
    /\ idev (geti s' ip) = dv /\ inum (geti s' ip) = i /\ flog s' = flog s /\ fsb s' = fsb s
    /\ (forall j, j <> ip -> geti s' j = geti s j).
Proof.
  intros Hl (j & Hj & Hz). unfold iget.
  destruct (List.find _ (seqZ 0 NINODE)) as [ip|] eqn:E.
  - apply find_seqZ in E as (Hip & Hh & _). bool_split. eexists _, _. split; [done|].
    rewrite geti_seti_eq by lia. split_and!; try done; try lia. intros k Hk. by apply geti_seti_ne.
  - clear E. destruct (List.find _ (seqZ 0 NINODE)) as [ip|] eqn:E.
    + apply find_seqZ in E as (Hip & Hh & _). eexists _, _. split; [done|]. cbv zeta.
      rewrite geti_seti_eq by lia. split_and!; try done; try lia. intros k Hk. by apply geti_seti_ne.
    + pose proof (find_seqZ_None _ _ _ E j ltac:(lia)) as Hc. cbv beta in Hc. lia.
Qed.

Lemma peeked_spare s s' dp : peeked s s' dp -> spare s -> spare s'.
Proof.
  intros P (j & Hj & Hz). exists j. split; [done|]. destruct (decide (j = dp)) as [->|Hne].
  - rewrite (pk_dp _ _ _ P). exact Hz.
  - by rewrite (pk_other _ _ _ P).
Qed.

(** A reference just taken by [iget] is given back without touching the disk. *)
Lemma iget_iput s dv i ip s' : length (icache s) = Z.to_nat NINODE -> iget dv i s = Ok ip s' ->
  locked (ilk (geti s ip)) = false ->
  exists z, iput ip s' = Ok tt (seti ip z s) /\ iref z = iref (geti s ip).
Proof.
  intros Hlen E Hl.
  assert (exists y, 0 <= ip < NINODE /\ s' = seti ip y s /\ locked (ilk y) = false
    /\ ivalid y && (inlink y =? 0) && (iref y =? 1) = false /\ iref y = iref (geti s ip) + 1)
    as (y & Hip & -> & Hy & Hkeep & Hr).
  { unfold iget in E. destruct (List.find _ _) as [jp|] eqn:F.
    - injection E as -> <-. apply find_seqZ in F as (Hip & Hh & _). bool_split.
      eexists. split_and!; [lia|lia|done|done| |done]. cbn. lia.
    - clear F. destruct (List.find _ _) as [jp|] eqn:F; [|done].
      injection E as -> <-. apply find_seqZ in F as (Hip & Hh & _). bool_split.
      eexists. split_and!; [lia|lia|done|done|done|]. cbn. lia. }
  assert (Hg : forall w t, length (icache t) = Z.to_nat NINODE -> geti (seti ip w t) ip = w)
    by (intros w t Ht; apply geti_seti_eq; rewrite Ht; unfold NINODE in *; lia).
  assert (Hln : forall w t, length (icache t) = Z.to_nat NINODE -> length (icache (seti ip w t)) = Z.to_nat NINODE)
    by (intros w t Ht; cbn; by rewrite length_updZ).
  unfold iput, acquirei, acquiresleep, releasei, updi, gets, modS, mbind, M_bind.
  rewrite (Hg y) by done. rewrite Hy. rewrite Hg by auto. cbn [ivalid inlink iref with_ilk]. rewrite Hkeep.
  unfold mret, M_ret. rewrite !Hg by auto. rewrite !seti_seti. eexists. split; [done|]. cbn. lia.
Qed.

(** Another entry of the inode cache does not matter for a directory. *)
Lemma dir_ok_seti s dp ip z : dir_ok s dp -> ip <> dp -> dir_ok (seti ip z s) dp
  /\ forall nm, dir_inum (seti ip z s) (geti (seti ip z s) dp) nm = dir_inum s (geti s dp) nm.
Proof.
  intros [D1 D2 D3 D4 D5 D6 D7] Hne.
  assert (Hg : geti (seti ip z s) dp = geti s dp) by (by apply geti_seti_ne).
  rewrite Hg. split; [|done]. split; rewrite ?Hg; try done.
  - by apply fs_ok_seti.
  - destruct D2 as [F1 F2 F3 F4]. by split.
  - cbn. by rewrite length_updZ.
Qed.

(** ** [dirlookup] *)

Lemma dirlookup_spec devsw s dp name :
  let x := geti s dp in
  dir_ok s dp -> is_bytes name -> length (icache s) = Z.to_nat NINODE -> spare s ->
  wp (dirlookup devsw dp name) (fun r s' =>
    match dir_find s x (dname name) with
    | None => r = None /\ peeked s s' dp
    | Some k => exists s1 ip, peeked s s1 dp /\ r = Some (ip, DIRENT_SIZE * k)
                  /\ iget ROOTDEV (de_inum (dent s x k)) s1 = Ok ip s'
    end) s.
Proof.
  intros x D Hnm Hl Hsp. pose proof (fi_dev _ _ (dr_file _ _ D)) as Hdev. fold x in Hdev.
  unfold dirlookup. apply wp_bind, wp_gets. fold x.
  assert (Ht : itype x = T_DIR) by (apply (dr_type _ _ D)). rewrite Ht, Z.eqb_refl. cbn [negb].
  assert (Hde : forall k, is_bytes (de_name (dent s x k)))
    by (intros k; apply is_bytes_slice; eapply dent_bytes, D).
  apply (dir_scan devsw s dp _ (fun off de =>
    if de_inum de =? 0 then mret None
    else if namecmp name (de_name de) =? 0 then
      ip ← iget (idev x) (de_inum de); mret (Some (ip, off))
    else mret None) (dmatch s x (dname name))); [done|..].
  - intros k s1 Hk P Hp. unfold dmatch in Hp. fold x in Hp |- *.
    rewrite namecmp_spec by done. destruct (de_inum _ =? 0); [done|]. cbn [negb andb] in Hp.
    by rewrite Hp.
  - intros k s1 Hk P Hp Hfirst. fold x in Hk, Hp, Hfirst |- *.
    assert (Hf : dir_find s x (dname name) = Some k) by (by apply find_Some_first).
    rewrite Hf. unfold dmatch in Hp. apply andb_prop in Hp as [Hp1 Hp2]. apply negb_true_iff in Hp1.
    rewrite Hp1, namecmp_spec, Hp2, Hdev by done.
    destruct (iget_spare s1 ROOTDEV (de_inum (dent s x k))) as (ip & s2 & E & _).
    + by rewrite (pk_len _ _ _ P).
    + by eapply peeked_spare.
    + unfold wp, mbind, M_bind. rewrite E. eexists. split; [done|]. by exists s1, ip.
  - intros s1 P Hall. unfold dir_find. rewrite (find_None_all (dmatch s x (dname name))) by done. done.
Qed.

(** ** [dirlink] *)

Lemma length_mk_dirent i name : length (mk_dirent i name) = 16%nat.
Proof. unfold mk_dirent. rewrite length_app, length_le_encode, length_map, length_seqZ. done. Qed.

Lemma arr_map_seqZ (f : Z -> Z) n k : 0 <= k < n -> arr (map f (seqZ 0 n)) k = f k.
Proof. apply nthZ_map_seqZ. Qed.

Lemma mk_dirent_inum i name : 0 <= i < 2 ^ 16 -> de_inum (mk_dirent i name) = i.
Proof.
  intros Hi. unfold de_inum, get16, mk_dirent, slice. rewrite drop_0.
  rewrite take_app_length' by (by rewrite length_le_encode). unfold u16.
  rewrite le_decode_encode; rewrite Z.mod_small; try done; lia.
Qed.

Lemma mk_dirent_name i name : dname (de_name (mk_dirent i name)) = dname name.
Proof.
  unfold de_name, mk_dirent, slice. rewrite drop_app_length' by (by rewrite length_le_encode).
  rewrite take_ge by (rewrite length_map, length_seqZ; done).
  unfold dname, strncpy. rewrite <-(cstr_strncpy (fun _ => 0) (arr name)). apply cstr_ext.
  intros k Hk. apply arr_map_seqZ. unfold DIRSIZ in *. lia.
Qed.

Lemma mk_dirent_bytes i name : is_bytes name -> is_bytes (mk_dirent i name).
Proof.
  intros Hn. unfold mk_dirent. apply Forall_app. split; [apply le_encode_bytes|].
  apply Forall_forall. intros b Hb. apply list_elem_of_In, in_map_iff in Hb as (k & <- & Hk).
  apply list_elem_of_In, elem_of_seqZ in Hk. unfold strncpy.
  rewrite <-(Z.add_0_l k), strncpy_loop_in by (unfold DIRSIZ in *; lia).
  destruct (nth_in_or_default (Z.to_nat k) (cstr (arr name) 0 (Z.to_nat DIRSIZ)) 0) as [Hin| ->]; [|lia].
  pose proof (cstr_bytes (arr name) 0 (Z.to_nat DIRSIZ) (fun k => arr_bytes name k Hn)) as Hb.
  rewrite List.Forall_forall in Hb. by apply Hb.
Qed.

(** The entry [dirlink] fills: the first free one, or a new one at the end. *)
Definition free_slot (s : fstate) (x : inode) : Z :=
  match List.find (fun k => de_inum (dent s x k) =? 0) (seqZ 0 (ndents x)) with
  | Some k => k
  | None => ndents x
  end.

Lemma free_slot_range s x : 0 <= isize x -> 0 <= free_slot s x <= ndents x
  /\ (free_slot s x < ndents x -> de_inum (dent s x (free_slot s x)) = 0).
Proof.
  intros Hs. unfold free_slot.
  assert (0 <= ndents x) by (unfold ndents; apply Z.div_pos; unfold DIRENT_SIZE; lia).
  destruct (List.find _ _) as [k|] eqn:E; [|lia]. apply find_seqZ in E as (H1 & H2 & _). lia.
Qed.

(** Space for one more entry. *)
Record linkable (s : fstate) (dp : Z) : Prop := {
  lk_inum : 0 <= inum (geti s dp) < sb_ninodes (fsb s);
  lk_size : isize (geti s dp) + DIRENT_SIZE <= SMALL * BSIZE;
  lk_room : room s [] 7;
  lk_free : 2 <= nfree s
}.

Lemma nblk_dent j : 0 <= j -> nblk (DIRENT_SIZE * j) 16 = 1.
Proof.
  intros Hj. unfold nblk, DIRENT_SIZE, BSIZE. change (16 <=? 0) with false. cbv iota.
  rewrite (Z.div_mod j 32) by lia. set (q := j / 32). pose proof (Z.mod_pos_bound j 32 ltac:(lia)).
  rewrite (Z.mul_add_distr_l 16). replace (16 * (32 * q)) with (q * 512) by lia.
  replace (q * 512 + 16 * (j mod 32) + 16 - 1) with (q * 512 + (16 * (j mod 32) + 15)) by lia.
  rewrite !Z.div_add_l, !Z.div_small by lia. lia.
Qed.

Lemma peeked_writable s s2 dp i name :
  dir_ok s dp -> linkable s dp -> peeked s s2 dp -> is_bytes name ->
  writable s2 dp (DIRENT_SIZE * free_slot s (geti s dp)) (mk_dirent i name).
Proof.
  intros D [K1 K2 K3 K4] P Hn. pose proof (peeked_dir_ok _ _ _ D P) as [D1 D2 D3 D4 D5 D6 D7].
  pose proof (dr_size _ _ D) as Hs. pose proof (dr_mul _ _ D) as Hm.
  pose proof (pk_dp _ _ _ P) as E. destruct (pk_sb _ _ _ P) as (E1 & E2 & E3 & E4).
  destruct (free_slot_range s (geti s dp)) as [Hj _]; [lia|].
  assert (Hsz : isize (geti s2 dp) = isize (geti s dp)) by (by rewrite E).
  assert (Hoff : DIRENT_SIZE * free_slot s (geti s dp) <= isize (geti s dp)).
  { unfold ndents, DIRENT_SIZE in *. pose proof (Z.div_mod (isize (geti s dp)) 16). lia. }
  split; rewrite ?length_mk_dirent; try done.
  - by rewrite D4.
  - rewrite E, E2. done.
  - lia.
  - unfold DIRENT_SIZE in *. lia.
  - unfold DIRENT_SIZE in *. lia.
  - by apply mk_dirent_bytes.
  - change (Z.of_nat 16) with 16. rewrite nblk_dent by lia. destruct K3 as [R1 R2 R3].
    destruct (pk_tx _ _ _ P) as (_ & T2 & _ & T4 & _). pose proof (pk_n _ _ _ P).
    split; rewrite ?T2, ?T4; lia.
  - change (Z.of_nat 16) with 16. rewrite nblk_dent by lia.
    replace (nfree s2) with (nfree s); [lia|]. unfold nfree. rewrite E1. f_equal. apply count_ext.
    intros c _. by rewrite (peeked_used _ _ _ _ P).
Qed.

Lemma dent_written s s' dp j de k :
  0 <= j -> 0 <= k -> DIRENT_SIZE * k + DIRENT_SIZE <= SMALL * BSIZE ->
  wrote_file s s' dp (DIRENT_SIZE * j) de -> length de = 16%nat ->
  dent s' (geti s' dp) k = if decide (k = j) then de else dent s (geti s dp) k.
Proof.
  intros Hj Hk Hb W Hl. unfold dent.
  assert (E : forall q, q ∈ seqZ (DIRENT_SIZE * k) DIRENT_SIZE ->
            fbyte s' (geti s' dp) q = if decide (k = j) then nthZ 0 de (q - DIRENT_SIZE * j)
                                      else fbyte s (geti s dp) q).
  { intros q Hq. apply elem_of_seqZ in Hq. unfold DIRENT_SIZE in *.
    rewrite (wf_data _ _ _ _ _ W) by lia. unfold written. rewrite Hl. change (Z.of_nat 16) with 16.
    destruct (decide (k = j)) as [->|Hkj]; [rewrite decide_True by lia; done|].
    rewrite decide_False by lia. done. }
  case_decide as Hkj.
  - subst k. apply list_eq. intros q. rewrite list_lookup_fmap.
    destruct (decide (q < 16)%nat) as [Hq|Hq].
    + rewrite lookup_seqZ_lt by (unfold DIRENT_SIZE; lia). simpl. rewrite E.
      2: { apply elem_of_seqZ. unfold DIRENT_SIZE. lia. }
      replace (DIRENT_SIZE * j + Z.of_nat q - DIRENT_SIZE * j) with (Z.of_nat q) by lia.
      rewrite <-(nthZ_lookup 0 de) by lia. by rewrite Nat2Z.id.
    + rewrite lookup_seqZ_ge by (unfold DIRENT_SIZE; lia). simpl. symmetry. apply lookup_ge_None. lia.
  - apply map_ext_in. intros q Hq. apply E. by apply list_elem_of_In.
Qed.

Lemma find_ext_seqZ (f g : Z -> bool) n :
  (forall k, 0 <= k < n -> f k = g k) -> List.find f (seqZ 0 n) = List.find g (seqZ 0 n).
Proof.
  intros H. assert (Hin : forall k, k ∈ seqZ 0 n -> f k = g k)
    by (intros k Hk; apply elem_of_seqZ in Hk; apply H; lia).
  induction (seqZ 0 n) as [|k l IH]; [done|]. simpl. rewrite (Hin k) by constructor.
  destruct (g k); [done|]. apply IH. intros j Hj. apply Hin. by constructor.
Qed.

Lemma find_snoc (f : Z -> bool) n :
  f n = false -> List.find f (seqZ 0 (n + 1)) = List.find f (seqZ 0 n).
Proof.
  intros Hn. destruct (List.find f (seqZ 0 n)) as [k|] eqn:E.
  - apply find_seqZ in E as (H1 & H2 & H3). apply find_Some_first; [lia|done|].
    intros j Hj. apply H3. lia.
  - pose proof (find_seqZ_None _ _ _ E) as H. apply find_None_all. intros j Hj.
    destruct (decide (j = n)) as [->|]; [done|]. apply H. lia.
Qed.

(** What writing entry [j] does to the map from names to inode numbers. *)
Lemma dir_inum_written s s' x x' j de nm :
  0 <= j <= ndents x -> ndents x' = Z.max (ndents x) (j + 1) ->
  (j < ndents x -> de_inum (dent s x j) = 0) ->
  (forall k, 0 <= k < ndents x' -> dent s' x' k = if decide (k = j) then de else dent s x k) ->
  de_inum de <> 0 -> dir_find s x (dname (de_name de)) = None ->
  dir_inum s' x' nm = if decide (nm = dname (de_name de)) then Some (de_inum de) else dir_inum s x nm.
Proof.
  intros Hj Hn Hfree Hd Hi Hnone. unfold dir_inum, dir_find in *.
  pose proof (find_seqZ_None _ _ _ Hnone) as Hno. case_decide as Hnm.
  - rewrite (find_Some_first _ _ j); [|lia| |].
    + simpl. rewrite Hd by lia. by rewrite decide_True.
    + unfold dmatch. rewrite Hd, decide_True by (done || lia).
      rewrite (proj2 (Z.eqb_neq _ 0)) by done. subst nm. by rewrite bool_decide_eq_true_2.
    + intros k Hk. subst nm. rewrite <-(Hno k) by lia. unfold dmatch. rewrite Hd by lia.
      by rewrite decide_False by lia.
  - assert (Hext : forall k, 0 <= k < ndents x -> dmatch s' x' nm k = dmatch s x nm k).
    { intros k Hk. unfold dmatch. rewrite Hd by lia. case_decide as Hkj; [|done]. subst k.
      rewrite Hfree by lia. rewrite bool_decide_eq_false_2 by congruence.
      change (0 =? 0) with true. cbn. apply andb_false_r. }
    assert (E : List.find (dmatch s' x' nm) (seqZ 0 (ndents x'))
                = List.find (dmatch s x nm) (seqZ 0 (ndents x))).
    { rewrite <-(find_ext_seqZ _ _ _ Hext).
      destruct (decide (j < ndents x)) as [Hlt|Hge]; [do 2 f_equal; lia|].
      replace (ndents x') with (ndents x + 1) by lia. apply find_snoc. unfold dmatch.
      rewrite Hd, decide_True by lia. rewrite bool_decide_eq_false_2 by congruence.
      apply andb_false_r. }
    rewrite E. destruct (List.find (dmatch s x nm) _) as [k|] eqn:Ek; [|done]. simpl. f_equal.
    apply find_seqZ in Ek as (H1 & H2 & _). rewrite Hd by lia. rewrite decide_False; [done|].
    intros ->. unfold dmatch in H2. rewrite Hfree in H2 by lia. done.
Qed.

Lemma dirlink_spec devsw s dp name i :
  let x := geti s dp in
  dir_ok s dp -> linkable s dp -> is_bytes name -> length (icache s) = Z.to_nat NINODE -> spare s ->
  dir_find s x (dname name) = None ->
  wp (dirlink devsw dp name i) (fun r s' => r = 0 /\ exists s2, peeked s s2 dp
    /\ wrote_file s2 s' dp (DIRENT_SIZE * free_slot s x) (mk_dirent i name)) s.
Proof.
  intros x D K Hn Hl Hsp Hnone. unfold dirlink. apply wp_bind.
  eapply wp_mono; [by apply dirlookup_spec|]. fold x. rewrite Hnone. intros r s1 (-> & P1). cbv iota.
  apply wp_bind, wp_gets. pose proof (peeked_dir_ok _ _ _ D P1) as D1.
  assert (Hsz : isize (geti s1 dp) = isize x) by (by rewrite (pk_dp _ _ _ P1)).
  assert (Hnd : ndents (geti s1 dp) = ndents x) by (unfold ndents; by rewrite Hsz).
  apply wp_bind. eapply wp_mono.
  { apply (dir_scan devsw s1 dp _ (fun off de => if de_inum de =? 0 then mret (Some off) else mret None)
      (fun k => de_inum (dent s x k) =? 0)
      (fun r s2 => peeked s s2 dp /\ match r with
        | Some off => off = DIRENT_SIZE * free_slot s x
        | None => free_slot s x = ndents x end)); [done|..]; unfold free_slot.
    - intros k s2 Hk P2 Hp. rewrite (peeked_dent _ _ _ k P1). fold x. by rewrite Hp.
    - intros k s2 Hk P2 Hp Hfirst. rewrite (peeked_dent _ _ _ k P1). fold x. rewrite Hp.
      apply wp_ret. eexists. split; [done|]. split; [by eapply peeked_trans|].
      rewrite (find_Some_first _ _ k) by (done || lia). done.
    - intros s2 P2 Hall. split; [by eapply peeked_trans|]. rewrite find_None_all; [done|].
      rewrite <-Hnd. done. }
  intros r s2 (P2 & Hr).
  assert (Hoff : match r with Some off => off
             | None => DIRENT_SIZE * ((isize (geti s1 dp) + DIRENT_SIZE - 1) / DIRENT_SIZE) end
             = DIRENT_SIZE * free_slot s x).
  { destruct r as [off|]; [done|]. rewrite Hsz, Hr. unfold ndents, DIRENT_SIZE. f_equal.
    pose proof (dr_mul _ _ D) as Hm. fold x in Hm. unfold DIRENT_SIZE in Hm.
    pose proof (Z.div_mod (isize x) 16). symmetry. apply Z.div_unique with 15; lia. }
  rewrite Hoff. apply wp_bind.
  eapply wp_mono; [by apply writei_ok, peeked_writable|]. intros r' s3 (-> & W).
  rewrite length_mk_dirent. cbn. split; [done|]. by exists s2.
Qed.

Lemma linked_dir_ok s s2 s' dp i name :
  dir_ok s dp -> linkable s dp -> peeked s s2 dp ->
  wrote_file s2 s' dp (DIRENT_SIZE * free_slot s (geti s dp)) (mk_dirent i name) ->
  dir_ok s' dp /\ ndents (geti s' dp) = Z.max (ndents (geti s dp)) (free_slot s (geti s dp) + 1).
Proof.
  intros D K P W. pose proof (peeked_dir_ok _ _ _ D P) as [D1 D2 D3 D4 D5 D6 D7].
  pose proof (dr_size _ _ D) as Hs. pose proof (dr_mul _ _ D) as Hm. pose proof (lk_size _ _ K) as Hk.
  destruct (free_slot_range s (geti s dp)) as [Hj _]; [lia|].
  set (j := free_slot s (geti s dp)) in *. set (x := geti s dp) in *.
  assert (Hsz2 : isize (geti s2 dp) = isize x) by (by rewrite (pk_dp _ _ _ P)).
  pose proof (wf_inode _ _ _ _ _ W) as Hx'. rewrite length_mk_dirent, Hsz2 in Hx'.
  assert (Hsz : isize (geti s' dp) = Z.max (isize x) (DIRENT_SIZE * j + 16)) by (by rewrite Hx').
  unfold ndents in *. unfold DIRENT_SIZE in *.
  assert (Hdiv : isize x = 16 * (isize x / 16)) by (pose proof (Z.div_mod (isize x) 16); lia).
  assert (Hsz' : isize (geti s' dp) = (Z.max (isize x / 16) (j + 1)) * 16) by lia.
  split; [split|].
  - apply W.
  - apply W.
  - by rewrite (wf_len _ _ _ _ _ W).
  - rewrite Hx'. exact D4.
  - rewrite Hsz'. unfold DIRENT_SIZE. apply Z.mod_mul. lia.
  - lia.
  - apply W.
  - rewrite Hsz'. apply Z.div_mul. lia.
Qed.

(** ** Paths *)

(** The elements of a path: its maximal runs of bytes other than a slash. *)
Definition flush (cur : list Z) : list (list Z) := match cur with [] => [] | _ => [cur] end.
Fixpoint elems_acc (cur path : list Z) : list (list Z) :=
  match path with
  | [] => flush cur
  | c :: path' => if c =? SLASH then flush cur ++ elems_acc [] path' else elems_acc (cur ++ [c]) path'
  end.
Definition path_elems (path : list Z) : list (list Z) := elems_acc [] path.

Lemma path_elems_skip path : path_elems (skip_slashes path) = path_elems path.
Proof.
  unfold path_elems. induction path as [|c path IH]; [done|]. simpl. destruct (c =? SLASH) eqn:E; [done|].
  simpl. by rewrite E.
Qed.

Lemma elems_acc_split path e rest cur :
  split_elem path = (e, rest) -> elems_acc cur path = flush (cur ++ e) ++ path_elems rest.
Proof.
  unfold path_elems. revert e cur. induction path as [|c path IH]; intros e cur; simpl.
  - intros [= <- <-]. simpl. by rewrite !app_nil_r.
  - destruct (c =? SLASH) eqn:E.
    + intros [= <- <-]. simpl. by rewrite E, app_nil_r.
    + destruct (split_elem path) as [e' r'] eqn:Es. intros [= <- <-]. rewrite (IH e' (cur ++ [c])) by done.
      by rewrite <-app_assoc.
Qed.

Lemma split_elem_app path e rest :
  split_elem path = (e, rest) -> path = e ++ rest /\ Forall (fun c => c <> SLASH) e.
Proof.
  revert e. induction path as [|c path IH]; intros e; simpl; [by intros [= <- <-]|].
  destruct (Z.eqb_spec c SLASH) as [E|E]; [by intros [= <- <-]|].
  destruct (split_elem path) as [e' r'] eqn:Es. intros [= <- <-]. destruct (IH e' eq_refl) as [-> H].
  split; [done|]. by constructor.
Qed.

Lemma skip_slashes_length path : (length (skip_slashes path) <= length path)%nat.
Proof. induction path as [|c path IH]; simpl; [lia|]. case_match; simpl; lia. Qed.

Lemma skip_slashes_In path c : c ∈ skip_slashes path -> c ∈ path.
Proof.
  induction path as [|b path IH]; simpl; [done|]. case_match; [|done]. intros H1. constructor. by apply IH.
Qed.

Lemma skip_slashes_head path c path' : skip_slashes path = c :: path' -> c <> SLASH.
Proof.
  induction path as [|b path IH]; simpl; [done|]. destruct (Z.eqb_spec b SLASH); [done|]. congruence.
Qed.

(** The bytes of a name in a buffer. *)
Lemma cstr_list (p : Z -> Z) (l : list Z) i n :
  (forall k, (k < length l)%nat -> p (i + Z.of_nat k) = nth k l 0) -> Forall (fun c => c <> 0) l ->
  ((length l < n)%nat -> p (i + Z.of_nat (length l)) = 0) -> cstr p i n = take n l.
Proof.
  revert l i. induction n as [|n IH]; intros l i Hp Hnz Hend; [done|]. cbn [cstr].
  destruct l as [|c l]; cbn [take].
  - specialize (Hend ltac:(simpl; lia)). rewrite Z.add_0_r in Hend. by rewrite Hend.
  - inversion Hnz as [|? ? Hc Hl]; subst. pose proof (Hp 0%nat ltac:(simpl; lia)) as H0.
    rewrite Z.add_0_r in H0. cbn [nth] in H0. rewrite H0, (proj2 (Z.eqb_neq c 0)) by done. f_equal.
    apply IH; [|done|].
    + intros k Hk. change (nth k l 0) with (nth (S k) (c :: l) 0).
      rewrite <-(Hp (S k)) by (simpl; lia). f_equal. lia.
    + intros Hlt. rewrite <-Hend by (simpl; lia). f_equal. simpl. lia.
Qed.

Lemma arr_splice0 bs name k :
  (length bs <= length name)%nat -> (k < length bs)%nat -> arr (splice 0 bs name) (Z.of_nat k) = nth k bs 0.
Proof.
  intros Hl Hk. unfold arr, nthZ. rewrite (proj2 (Z.ltb_ge _ 0)) by lia. rewrite Nat2Z.id.
  rewrite !nth_lookup. rewrite lookup_splice_in by lia. by rewrite Nat.sub_0_r.
Qed.

(** ** Properties *)

Lemma dir_inum_peeked s s' dp nm : peeked s s' dp ->
  dir_inum s' (geti s' dp) nm = dir_inum s (geti s dp) nm.
Proof.
  intros P. assert (Hd : forall k, dent s' (geti s' dp) k = dent s (geti s dp) k) by (intros k; by apply peeked_dent).
  assert (Hf : dir_find s' (geti s' dp) nm = dir_find s (geti s dp) nm).
  { unfold dir_find, ndents. replace (isize (geti s' dp)) with (isize (geti s dp)) by (by rewrite (pk_dp _ _ _ P)).
    apply find_ext_seqZ. intros k _. unfold dmatch. by rewrite Hd. }
  unfold dir_inum. rewrite Hf. destruct (dir_find s (geti s dp) nm) as [k|]; [|reflexivity].
  exact (f_equal (fun e => Some (de_inum e)) (Hd k)).
Qed.

(** What the caller of [dirlink] keeps: the other entries of the inode cache, and
    of the directory's own entry the reference, the lock and the inode number. *)
Definition link_frame (s s1 : fstate) (dp : Z) : Prop :=
  length (icache s1) = length (icache s) /\ (forall j, j <> dp -> geti s1 j = geti s j)
  /\ iref (geti s1 dp) = iref (geti s dp) /\ ilk (geti s1 dp) = ilk (geti s dp)
  /\ inum (geti s1 dp) = inum (geti s dp).

Lemma link_spare s s1 dp : link_frame s s1 dp -> spare s -> spare s1.
Proof.
  intros (_ & Ho & Hr & _) (j & Hj & Hz). exists j. split; [done|].
  destruct (decide (j = dp)) as [->|Hne]; [by rewrite Hr|by rewrite Ho].
Qed.

(** [dirlink] of a name that is not there. *)
Lemma dirlink_new devsw s dp name i :
  dir_ok s dp -> linkable s dp -> is_bytes name -> 0 < i < 2 ^ 16 ->
  length (icache s) = Z.to_nat NINODE -> spare s -> dir_inum s (geti s dp) (dname name) = None ->
  exists s1, dirlink devsw dp name i s = Ok 0 s1 /\ dir_ok s1 dp /\ link_frame s s1 dp
    /\ forall nm, dir_inum s1 (geti s1 dp) nm
         = if decide (nm = dname name) then Some i else dir_inum s (geti s dp) nm.
Proof.
  intros D K Hn Hi Hl Hsp Hnone.
  assert (Hnone' : dir_find s (geti s dp) (dname name) = None).
  { unfold dir_inum in Hnone. by destruct (dir_find _ _ _). }
  destruct (wp_run _ _ _ (dirlink_spec devsw s dp name i D K Hn Hl Hsp Hnone')) as (r & s1 & E & -> & s2 & P & W).
  destruct (linked_dir_ok s s2 s1 dp i name D K P W) as [D1 Hnd].
  exists s1. split; [done|]. split; [done|]. split.
  { unfold link_frame. split; [by rewrite (wf_len _ _ _ _ _ W), (pk_len _ _ _ P)|].
    split; [intros j Hj; by rewrite (wf_other _ _ _ _ _ W), (pk_other _ _ _ P)|].
    rewrite (wf_inode _ _ _ _ _ W). cbn [iref ilk inum with_addrs with_size with_mtime]. by rewrite (pk_dp _ _ _ P). }
  intros nm.
  enough (T : dir_inum s1 (geti s1 dp) nm = if decide (nm = dname (de_name (mk_dirent i name)))
      then Some (de_inum (mk_dirent i name)) else dir_inum s (geti s dp) nm)
    by (rewrite mk_dirent_name, mk_dirent_inum in T by lia; exact T).
  destruct (free_slot_range s (geti s dp)) as [Hj Hf]; [apply D|].
  apply (dir_inum_written s s1 _ _ (free_slot s (geti s dp))); [done|done|done| | |].
  - intros k Hk. rewrite <-(peeked_dent _ _ _ k P).
    apply (dent_written s2 s1 dp); [lia|lia| |done|apply length_mk_dirent].
    pose proof (dr_size _ _ D1). unfold ndents, DIRENT_SIZE in *.
    pose proof (Z.div_mod (isize (geti s1 dp)) 16). pose proof (Z.mod_pos_bound (isize (geti s1 dp)) 16). lia.
  - rewrite mk_dirent_inum; lia.
  - by rewrite mk_dirent_name.
Qed.

(** [dirlink] of a name that is there. *)
Lemma dirlink_taken devsw s dp name i i' :
  dir_ok s dp -> is_bytes name -> length (icache s) = Z.to_nat NINODE -> spare s ->
  dir_inum s (geti s dp) (dname name) = Some i' -> 1 <= iref (geti s dp) -> i' <> inum (geti s dp) ->
  (forall j, j <> dp -> iref (geti s j) = 0 \/ inum (geti s j) = i' -> locked (ilk (geti s j)) = false) ->
  exists s1, dirlink devsw dp name i s = Ok (-1) s1 /\ dir_ok s1 dp
    /\ forall nm, dir_inum s1 (geti s1 dp) nm = dir_inum s (geti s dp) nm.
Proof.
  intros D Hn Hl Hsp Hf Href Hself Hfree. unfold dir_inum in Hf.
  destruct (wp_run _ _ _ (dirlookup_spec devsw s dp name D Hn Hl Hsp)) as (r & s2 & E & Hr).
  destruct (dir_find s (geti s dp) (dname name)) as [k|] eqn:Ek; [|done]. cbn in Hf. injection Hf as Hf.
  destruct Hr as (s1 & ip & P & -> & Eg). rewrite Hf in Eg.
  assert (Hl1 : length (icache s1) = Z.to_nat NINODE) by (by rewrite (pk_len _ _ _ P)).
  assert (Hip : ip <> dp /\ (iref (geti s1 ip) = 0 \/ inum (geti s1 ip) = i')).
  { pose proof (pk_dp _ _ _ P) as Hdp.
    assert (Hd : iref (geti s1 dp) = iref (geti s dp) /\ inum (geti s1 dp) = inum (geti s dp)) by (by rewrite Hdp).
    destruct Hd as [Hd1 Hd2]. unfold iget in Eg. destruct (List.find _ _) as [jp|] eqn:F.
    - injection Eg as -> _. apply find_seqZ in F as (_ & Hh & _). bool_split.
      split; [intros ->; congruence|by right].
    - clear F. destruct (List.find _ _) as [jp|] eqn:F; [|done]. injection Eg as -> _.
      apply find_seqZ in F as (_ & Hh & _). bool_split. split; [intros ->; lia|by left]. }
  destruct Hip as [Hne Hip]. rewrite (pk_other _ _ _ P) in Hip by done.
  destruct (iget_iput s1 _ _ _ _ Hl1 Eg) as (z & Ei & _).
  { rewrite (pk_other _ _ _ P) by done. by apply Hfree. }
  destruct (dir_ok_seti s1 dp ip z (peeked_dir_ok _ _ _ D P) Hne) as [D1 H1].
  exists (seti ip z s1). split; [|split; [done|]].
  - unfold dirlink. rewrite (bind_Ok _ _ _ _ _ E). by rewrite (bind_Ok _ _ _ _ _ Ei).
  - intros nm. rewrite H1. by apply dir_inum_peeked.
Qed.

(** C23: [dirlink] enters new names only.  Linking a name that the directory does
    not hold adds exactly that name: afterwards the directory maps it to the inode
    given and every other name as before, and [dirlookup] finds for every name the
    inode the directory maps it to.  Linking a name that it does hold, for another
    inode than its own whose lock is free, returns -1 and leaves every name as it
    was. *)
Theorem dirlink_then_dirlookup devsw s dp name i :
  dir_ok s dp -> is_bytes name -> length (icache s) = Z.to_nat NINODE -> spare s ->
  match dir_inum s (geti s dp) (dname name) with
  | None => linkable s dp -> 0 < i < 2 ^ 16 ->
      exists s1, dirlink devsw dp name i s = Ok 0 s1 /\ dir_ok s1 dp /\ link_frame s s1 dp
        /\ (forall nm, dir_inum s1 (geti s1 dp) nm
              = if decide (nm = dname name) then Some i else dir_inum s (geti s dp) nm)
        /\ (forall name', is_bytes name' -> exists r s2, dirlookup devsw dp name' s1 = Ok r s2
              /\ match dir_inum s1 (geti s1 dp) (dname name') with
                 | None => r = None
                 | Some i' => exists ip off, r = Some (ip, off)
                                /\ idev (geti s2 ip) = ROOTDEV /\ inum (geti s2 ip) = i'
                 end)
  | Some i' => 1 <= iref (geti s dp) -> i' <> inum (geti s dp) ->
      (forall j, j <> dp -> iref (geti s j) = 0 \/ inum (geti s j) = i' -> locked (ilk (geti s j)) = false) ->
      exists s1, dirlink devsw dp name i s = Ok (-1) s1 /\ dir_ok s1 dp
        /\ forall nm, dir_inum s1 (geti s1 dp) nm = dir_inum s (geti s dp) nm
  end.
Proof.
  intros D Hn Hl Hsp. destruct (dir_inum s (geti s dp) (dname name)) as [i'|] eqn:Hd.
  { intros. by eapply dirlink_taken. }
  intros K Hi. destruct (dirlink_new devsw s dp name i D K Hn Hi Hl Hsp Hd) as (s1 & E & D1 & F & H1).
  exists s1. do 4 (split; [done|]). intros name' Hn'.
  assert (Hl1 : length (icache s1) = Z.to_nat NINODE) by (destruct F as [-> _]; done).
  pose proof (link_spare _ _ _ F Hsp) as Hsp1.
  destruct (wp_run _ _ _ (dirlookup_spec devsw s1 dp name' D1 Hn' Hl1 Hsp1)) as (r & s3 & E3 & Hr).
  exists r, s3. split; [done|]. unfold dir_inum.
  destruct (dir_find s1 (geti s1 dp) (dname name')) as [k|]; simpl; [|by destruct Hr].
  destruct Hr as (s4 & ip & P4 & -> & Eg).
  destruct (iget_spare s4 ROOTDEV (de_inum (dent s1 (geti s1 dp) k))) as (ip' & s5 & E5 & _ & G1 & G2 & _).
  - by rewrite (pk_len _ _ _ P4).
  - by eapply peeked_spare.
  - rewrite Eg in E5. injection E5 as <- <-. eauto.
Qed.

Lemma demo_dir_ok l : demo_ok (demo_state l) -> dir_ok (demo_state l) 0.
Proof.
  intros D. split; try reflexivity.
  - apply D.
  - apply demo_file_ok. by left.
  - cbn. lia.
  - vm_compute. split; discriminate.
  - intros bn H1 H2. change (isize (geti (demo_state l) 0)) with 0 in H2. unfold BSIZE in H2. lia.
Qed.

Lemma demo_linkable l : demo_ok (demo_state l) -> linkable (demo_state l) 0.
Proof.
  intros D. split.
  - vm_compute. split; [discriminate|reflexivity].
  - vm_compute. discriminate.
  - apply (dm_room _ D). lia.
  - rewrite demo_nfree by exact D. lia.
Qed.

Lemma demo_unlocked l j : j <> 0 -> j <> 1 -> locked (ilk (geti (demo_state l) j)) = false.
Proof.
  intros H0 H1. unfold geti, nthZ. destruct (Z.ltb_spec j 0); [done|].
  replace (Z.to_nat j) with (S (S (Z.to_nat (j - 2)))) by lia. cbn [icache demo_state demo_icache app nth].
  rewrite nth_lookup. destruct (replicate 48 inode0 !! _) as [x|] eqn:E; [|done].
  by apply lookup_replicate in E as [-> _].
Qed.

(** A name is linked, found, and linked again in vain. *)
Lemma dirlink_then_dirlookup_witness : exists devsw s s1 r s2 s3,
  dirlink devsw 0 [97] 3 s = Ok 0 s1 /\ dirlookup devsw 0 [97] s1 = Ok (Some r) s2
  /\ inum (geti s2 r.1) = 3 /\ dirlink devsw 0 [97] 5 s1 = Ok (-1) s3.
Proof.
  destruct demo_fs as (l & D). set (s := demo_state l).
  assert (Hn : is_bytes [97]) by (repeat constructor; lia).
  assert (Hsp : spare s) by (exists 2; split; [unfold NINODE; lia|reflexivity]).
  set (devs := mk_devsw (fun _ => None) (fun _ => None)).
  destruct (dirlink_then_dirlookup devs s 0 [97] 3 (demo_dir_ok l D) Hn eq_refl Hsp (demo_linkable l D) ltac:(lia))
    as (s1 & E & D1 & F & Hm & Hl).
  destruct (Hl [97] Hn) as (r & s2 & E2 & Hr).
  rewrite Hm, decide_True in Hr by reflexivity. destruct Hr as (ip & off & -> & _ & Hi).
  pose proof F as (F1 & F2 & F3 & F4 & F5).
  pose proof (dirlink_then_dirlookup devs s1 0 [97] 5 D1 Hn F1 (link_spare _ _ _ F Hsp)) as H2.
  rewrite Hm, decide_True in H2 by reflexivity. destruct H2 as (s3 & E3 & _).
  - rewrite F3. vm_compute. discriminate.
  - rewrite F5. discriminate.
  - intros j Hj. rewrite F2 by exact Hj. destruct (decide (j = 1)) as [->|]; [by intros [?|?]|].
    intros _. by apply demo_unlocked.
  - exists devs, s, s1, (ip, off), s2, s3. exact (conj E (conj E2 (conj Hi E3))).
Defined.

Lemma skipelem_ok path name :
  Forall (fun c => c <> 0) path -> length name = Z.to_nat DIRSIZ ->
  match path_elems path with
  | [] => skipelem path name = None
  | e :: es => exists rest name', skipelem path name = Some (rest, name')
      /\ path_elems rest = es /\ dname name' = take (Z.to_nat DIRSIZ) e
      /\ length name' = length name /\ (forall c rest', rest = c :: rest' -> c <> SLASH)
      /\ (length rest < length path)%nat
  end.
Proof.
  intros Hnz Hl. unfold skipelem. rewrite <-path_elems_skip.
  pose proof (skip_slashes_length path) as Hlen.
  assert (Hnz' : Forall (fun c => c <> 0) (skip_slashes path)).
  { apply Forall_forall. intros c Hc. rewrite Forall_forall in Hnz. by apply Hnz, skip_slashes_In. }
  destruct (skip_slashes path) as [|c p] eqn:Ep; [done|].
  pose proof (skip_slashes_head _ _ _ Ep) as Hc.
  destruct (split_elem (c :: p)) as [e rest] eqn:Es.
  pose proof (elems_acc_split _ _ _ [] Es) as Ee. unfold path_elems at 1. rewrite Ee. simpl app.
  pose proof (split_elem_app _ _ _ Es) as [Happ _].
  assert (He : exists e', e = c :: e').
  { simpl in Es. rewrite (proj2 (Z.eqb_neq c SLASH)) in Es by done.
    destruct (split_elem p) as [e' r']. injection Es as <- <-. eauto. }
  destruct He as [e' He]. replace (flush e) with [e] by (by rewrite He). simpl app.
  assert (Hnze : Forall (fun c => c <> 0) e) by (rewrite Happ in Hnz'; by apply Forall_app in Hnz' as [? _]).
  assert (Hrest : (length rest < length path)%nat).
  { apply (f_equal length) in Happ. rewrite length_app, He in Happ. simpl in *. lia. }
  eexists _, _. split; [done|]. split; [apply path_elems_skip|].
  pose proof (skip_slashes_length rest).
  unfold DIRSIZ in *. destruct (Z.leb_spec 14 (Z.of_nat (length e))); split_and!; try lia.
  - transitivity (take (Z.to_nat DIRSIZ) (take (Z.to_nat 14) e)); [apply cstr_list|by rewrite take_take].
    + intros k Hk. apply arr_splice0; [rewrite length_take; lia|done].
    + by apply Forall_take.
    + rewrite length_take. unfold DIRSIZ. lia.
  - rewrite length_splice; rewrite ?length_take; lia.
  - intros d r. apply skip_slashes_head.
  - unfold dname. apply cstr_list.
    + intros k Hk. rewrite Z.add_0_l, arr_splice0 by (rewrite length_app; simpl; lia). by rewrite app_nth1.
    + done.
    + intros _. rewrite Z.add_0_l, arr_splice0 by (rewrite length_app; simpl; lia).
      rewrite app_nth2 by lia. by rewrite Nat.sub_diag.
  - rewrite length_splice; rewrite ?length_app; simpl; lia.
  - intros d r. apply skip_slashes_head.
Qed.

(** C31: [skipelem] takes the first element of a path: it fails exactly when the
    path has no element; otherwise it leaves the element, cut at [DIRSIZ] bytes,
    in [name], and returns the rest of the path, which has the remaining
    elements, no leading slash, and is shorter (so the loop of [namex] ends). *)
Theorem skipelem_splits path name :
  Forall (fun c => c <> 0) path -> length name = Z.to_nat DIRSIZ ->
  match path_elems path with
  | [] => skipelem path name = None
  | e :: es => exists rest name', skipelem path name = Some (rest, name')
      /\ path_elems rest = es /\ dname name' = take (Z.to_nat DIRSIZ) e
      /\ length name' = length name /\ (forall c rest', rest = c :: rest' -> c <> SLASH)
      /\ (length rest < length path)%nat
  end.
Proof. apply skipelem_ok. Qed.

(** The path [//ab/c]. *)
Lemma skipelem_splits_witness : exists rest name',
  skipelem [47; 47; 97; 98; 47; 99] name0 = Some (rest, name') /\ path_elems rest = [[99]]
  /\ dname name' = [97; 98].
Proof.
  destruct (skipelem_splits [47; 47; 97; 98; 47; 99] name0) as (rest & name' & E & H1 & H2 & _).
  - repeat (constructor; [discriminate|]). constructor.
  - reflexivity.
  - exists rest, name'. split; [exact E|]. split; [exact H1|exact H2].
Defined.
