(* ===== verification/Kalloc.v ===== *)
(** * Kalloc: physical memory and the page allocator

    Model of src/kernel/kalloc.c.  Physical memory is a map from word addresses
    to 32-bit words, as the page tables and the free list use it; bytes are
    parts of a word.  The free list is threaded through the free pages
    themselves.  [kmem.lock] is held around the list operations only, which do
    not sleep, so each operation is one atomic step and the lock is left out.

    [kend] is the linker's symbol [end]. *)

From Stdlib Require Import ZArith Lia ZifyBool.
From stdpp Require Import base gmap strings numbers list.
From S2P Require Import Prelude.

Local Open Scope Z_scope.

(** Division and remainder by constants inside [lia]. *)
#[local] Ltac Zify.zify_post_hook ::= Z.to_euclidean_division_equations.

(** ** Constants of memlayout.h and mmu.h *)

Definition EXTMEM : Z := 0x100000.
Definition PHYSTOP : Z := 0xE000000.
Definition DEVSPACE : Z := 0xFE000000.
Definition KERNBASE : Z := 0x80000000.
Definition KERNLINK : Z := KERNBASE + EXTMEM.
Definition PGSIZE : Z := 4096.

Definition V2P (a : Z) : Z := u32 (a - KERNBASE).
Definition P2V (a : Z) : Z := u32 (a + KERNBASE).
Definition PGROUNDUP (sz : Z) : Z := Z.land (u32 (sz + PGSIZE - 1)) (Z.lnot (PGSIZE - 1)).
Definition PGROUNDDOWN (a : Z) : Z := Z.land a (Z.lnot (PGSIZE - 1)).

(** ** Memory *)

(** [mem] is indexed by word; [kpgdir] is the kernel's page directory and [cr3]
    the register with the physical address of the one in use. *)
Record vst : Type := mk_vst {
  mem : gmap Z Z; use_lock : bool; freelist : Z; kpgdir : Z; cr3 : Z
}.
Definition set_mem (m : gmap Z Z) (s : vst) : vst :=
  mk_vst m (use_lock s) (freelist s) (kpgdir s) (cr3 s).
Definition set_freelist (r : Z) (s : vst) : vst :=
  mk_vst (mem s) (use_lock s) r (kpgdir s) (cr3 s).
Definition set_use_lock (b : bool) (s : vst) : vst :=
  mk_vst (mem s) b (freelist s) (kpgdir s) (cr3 s).

(** The word and the byte at a kernel virtual address. *)
Definition ld32 (m : gmap Z Z) (v : Z) : Z := default 0 (m !! (V2P v / 4)).
Definition st32 (v x : Z) (m : gmap Z Z) : gmap Z Z := <[V2P v / 4 := x]> m.
Definition ld8 (m : gmap Z Z) (v : Z) : Z := (ld32 m v / 256 ^ (v mod 4)) mod 256.
Definition st8 (v b : Z) (m : gmap Z Z) : gmap Z Z :=
  st32 v (ld32 m v + (b - ld8 m v) * 256 ^ (v mod 4)) m.

(** [memset(v, c, PGSIZE)] of a page, a word at a time. *)
Definition page_words (v : Z) : list Z := map (fun i => v + 4 * i) (seqZ 0 (PGSIZE / 4)).
Definition memset_page (v c : Z) (m : gmap Z Z) : gmap Z Z :=
  foldr (fun a m => st32 a (u8 c * 0x01010101) m) m (page_words v).
#[global] Arguments page_words : simpl never.
#[global] Arguments memset_page : simpl never.

(** ** The allocator *)

Section kalloc.
Context (kend : Z).

Definition kfree (v : Z) : M vst unit := fun s =>
  if negb (v mod PGSIZE =? 0) || (v <? kend) || (PHYSTOP <=? V2P v) then Panic "kfree" s
  else
    let m := memset_page v 1 (mem s) in
    let m := st32 v (freelist s) m in
    Ok tt (set_freelist v (set_mem m s)).

Definition kalloc : M vst Z := fun s =>
  let r := freelist s in
  if r =? 0 then Ok r s else Ok r (set_freelist (ld32 (mem s) r) s).

(** The pages of [[vstart, vend)]. *)
Definition pages_in (vstart vend : Z) : list Z :=
  let p := PGROUNDUP vstart in
  map (fun i => p + PGSIZE * i) (seqZ 0 ((vend - p) / PGSIZE)).
Definition freerange (vstart vend : Z) : M vst unit := forM (pages_in vstart vend) kfree.

Definition kinit1 (vstart vend : Z) : M vst unit :=
  modS (set_use_lock false) ;;
  freerange vstart vend.
Definition kinit2 (vstart vend : Z) : M vst unit :=
  freerange vstart vend ;;
  modS (set_use_lock true).
End kalloc.

(** ** Memory lemmas *)

Lemma V2P_small v : KERNBASE <= v < KERNBASE + PHYSTOP -> V2P v = v - KERNBASE.
Proof. unfold V2P, KERNBASE, PHYSTOP. intros. apply u32_small. lia. Qed.

Lemma P2V_small p : 0 <= p < PHYSTOP -> P2V p = p + KERNBASE.
Proof. unfold P2V, KERNBASE, PHYSTOP. intros. apply u32_small. lia. Qed.

Lemma P2V_V2P v : KERNBASE <= v < KERNBASE + PHYSTOP -> P2V (V2P v) = v.
Proof. intros H. rewrite V2P_small by done. rewrite P2V_small by lia. lia. Qed.

Lemma ld32_st32_eq v x m : ld32 (st32 v x m) v = x.
Proof. unfold ld32, st32. by rewrite lookup_insert_eq. Qed.

Lemma ld32_st32_ne v w x m :
  KERNBASE <= v < KERNBASE + PHYSTOP -> KERNBASE <= w < KERNBASE + PHYSTOP ->
  v / 4 <> w / 4 -> ld32 (st32 v x m) w = ld32 m w.
Proof.
  intros Hv Hw Hne. unfold ld32, st32. rewrite lookup_insert_ne; [done|].
  rewrite !V2P_small by done. unfold KERNBASE in *. lia.
Qed.

(** A page of the kernel's window on physical memory that the allocator may
    own. *)
Section pages.
Context (kend : Z).

Definition page_ok (v : Z) : Prop :=
  v mod PGSIZE = 0 /\ kend <= v /\ KERNBASE <= v < KERNBASE + PHYSTOP.
Definition in_page (p a : Z) : Prop := p <= a < p + PGSIZE.

Lemma page_ok_range p a : page_ok p -> in_page p a -> KERNBASE <= a < KERNBASE + PHYSTOP.
Proof. unfold page_ok, in_page, PGSIZE, KERNBASE, PHYSTOP. lia. Qed.

Lemma page_disjoint p q a : page_ok p -> page_ok q -> in_page p a -> in_page q a -> p = q.
Proof. unfold page_ok, in_page, PGSIZE. lia. Qed.

Lemma pages_apart p q a b :
  page_ok p -> page_ok q -> in_page p a -> in_page q b -> p <> q -> a / 4 <> b / 4.
Proof. unfold page_ok, in_page, PGSIZE. lia. Qed.

Lemma ld32_st32_page p q a b x m :
  page_ok p -> page_ok q -> in_page p a -> in_page q b -> p <> q ->
  ld32 (st32 a x m) b = ld32 m b.
Proof.
  intros Hp Hq Ha Hb Hne. apply ld32_st32_ne; [by apply (page_ok_range p)|by apply (page_ok_range q)|].
  by apply (pages_apart p q).
Qed.

Lemma elem_of_page_words p a : a ∈ page_words p <-> exists i, a = p + 4 * i /\ 0 <= i < 1024.
Proof.
  unfold page_words. rewrite list_elem_of_fmap. setoid_rewrite elem_of_seqZ. done.
Qed.

Lemma ld32_memset_in p c m a :
  in_page p a -> p mod PGSIZE = 0 -> KERNBASE <= p < KERNBASE + PHYSTOP ->
  ld32 (memset_page p c m) a = u8 c * 0x01010101.
Proof.
  intros Ha Hp Hr. unfold memset_page.
  assert (Hin : p + 4 * ((a - p) / 4) ∈ page_words p).
  { apply elem_of_page_words. exists ((a - p) / 4). unfold in_page, PGSIZE in *. lia. }
  assert (Heq : ld32 (foldr (fun a m => st32 a (u8 c * 16843009) m) m (page_words p))
                  (p + 4 * ((a - p) / 4)) = u8 c * 16843009).
  { generalize dependent (p + 4 * ((a - p) / 4)). intros b Hb.
    assert (Hbr : KERNBASE <= b < KERNBASE + PHYSTOP).
    { apply elem_of_page_words in Hb as (i & -> & ?). unfold KERNBASE, PHYSTOP, PGSIZE in *. lia. }
    assert (Hrs : forall x, x ∈ page_words p -> KERNBASE <= x < KERNBASE + PHYSTOP).
    { intros x (i & -> & ?)%elem_of_page_words. unfold KERNBASE, PHYSTOP, PGSIZE in *. lia. }
    clear -Hb Hbr Hrs. induction (page_words p) as [|x l IH]; [by apply not_elem_of_nil in Hb|].
    cbn [foldr]. destruct (decide (x / 4 = b / 4)) as [E|E].
    - unfold ld32, st32. rewrite !V2P_small by (done || apply Hrs; constructor).
      replace ((b - KERNBASE) / 4) with ((x - KERNBASE) / 4)
        by (unfold KERNBASE; lia).
      by rewrite lookup_insert_eq.
    - rewrite ld32_st32_ne; [|apply Hrs; constructor|done|done].
      apply IH; [|intros y Hy; apply Hrs; by constructor].
      apply elem_of_cons in Hb as [->|Hb]; [done|done]. }
  etransitivity; [|exact Heq]. unfold ld32. do 2 f_equal.
  unfold in_page, PGSIZE in *.
  rewrite !V2P_small by (unfold KERNBASE, PHYSTOP in *; lia). unfold KERNBASE. lia.
Qed.

Lemma ld32_memset_out p q c m a :
  page_ok p -> page_ok q -> in_page q a -> p <> q -> ld32 (memset_page p c m) a = ld32 m a.
Proof.
  intros Hp Hq Ha Hne. unfold memset_page.
  assert (Hrs : forall x, x ∈ page_words p -> in_page p x).
  { intros x (i & -> & ?)%elem_of_page_words. unfold in_page, PGSIZE. lia. }
  induction (page_words p) as [|x l IH]; [done|]. cbn [foldr].
  rewrite (ld32_st32_page p q); try done; [|apply Hrs; constructor].
  apply IH. intros y Hy. apply Hrs. by constructor.
Qed.

(** Two memories that hold the same words in a page. *)
Definition same_page (p : Z) (m m' : gmap Z Z) : Prop :=
  forall a, in_page p a -> ld32 m' a = ld32 m a.

#[global] Instance same_page_pre p : PreOrder (same_page p).
Proof.
  split; [done|]. intros m1 m2 m3 H1 H2 a Ha. by rewrite H2, H1.
Qed.

Lemma same_page_st32 p q a x m :
  page_ok p -> page_ok q -> in_page p a -> p <> q -> same_page q m (st32 a x m).
Proof. intros ? ? ? ? b Hb. by apply (ld32_st32_page p q). Qed.

(** ** The free list *)

Fixpoint chain (m : gmap Z Z) (r : Z) (l : list Z) : Prop :=
  match l with
  | [] => r = 0
  | p :: l' => r = p /\ chain m (ld32 m p) l'
  end.

Record kmem_ok (s : vst) (l : list Z) : Prop := {
  km_chain : chain (mem s) (freelist s) l;
  km_nodup : NoDup l;
  km_pages : forall p, p ∈ l -> page_ok p
}.

Lemma in_page_self p : in_page p p.
Proof. unfold in_page, PGSIZE. lia. Qed.

Lemma page_nonzero p : page_ok p -> p <> 0.
Proof. unfold page_ok, KERNBASE. lia. Qed.

Lemma chain_frame m m' r l :
  chain m r l -> (forall p, p ∈ l -> same_page p m m') -> chain m' r l.
Proof.
  revert r. induction l as [|p l IH]; intros r; simpl; [done|]. intros [-> Hc] Hs.
  split; [done|]. rewrite (Hs p ltac:(constructor) p (in_page_self p)).
  apply IH; [done|]. intros q Hq. apply Hs. by constructor.
Qed.

Lemma kmem_ok_frame s s' l :
  kmem_ok s l -> freelist s' = freelist s ->
  (forall p, p ∈ l -> same_page p (mem s) (mem s')) -> kmem_ok s' l.
Proof.
  intros [Hc Hn Hp] E Hs. split; [|done|done]. rewrite E. by eapply chain_frame.
Qed.

(** [kalloc] pops the list and leaves the memory alone. *)
Lemma kalloc_spec s l :
  kmem_ok s l ->
  match l with
  | [] => kalloc s = Ok 0 s
  | p :: l' => exists s', kalloc s = Ok p s' /\ kmem_ok s' l' /\ mem s' = mem s
                          /\ kpgdir s' = kpgdir s /\ cr3 s' = cr3 s
  end.
Proof.
  intros [Hc Hn Hp]. unfold kalloc. destruct l as [|p l]; simpl in Hc.
  - by rewrite Hc.
  - destruct Hc as [Hr Hc]. rewrite Hr.
    pose proof (page_nonzero p (Hp p ltac:(constructor))).
    rewrite (proj2 (Z.eqb_neq p 0)) by done.
    eexists. split; [done|]. split_and!; [|done..].
    apply NoDup_cons in Hn as [? ?]. split; [done|done|]. intros q Hq. apply Hp. by constructor.
Qed.

(** [kfree] pushes a page that is not on the list. *)
Lemma kfree_spec s l v :
  kmem_ok s l -> page_ok v -> v ∉ l ->
  exists s', kfree kend v s = Ok tt s' /\ kmem_ok s' (v :: l)
    /\ (forall q, page_ok q -> q <> v -> same_page q (mem s) (mem s'))
    /\ kpgdir s' = kpgdir s /\ cr3 s' = cr3 s.
Proof.
  intros [Hc Hn Hp] Hv Hnin. unfold kfree. pose proof Hv as (Hal & Hend & Hr).
  rewrite V2P_small by done.
  replace (negb (v mod PGSIZE =? 0) || (v <? kend) || (PHYSTOP <=? v - KERNBASE)) with false by lia.
  assert (Hsame : forall q, page_ok q -> q <> v ->
            same_page q (mem s) (st32 v (freelist s) (memset_page v 1 (mem s)))).
  { intros q Hq Hne a Ha. rewrite (ld32_st32_page v q); try done; [|apply in_page_self].
    by apply (ld32_memset_out v q). }
  eexists. split; [done|]. split_and!; [|done..].
  split; cbn [mem freelist set_freelist set_mem chain].
  - rewrite ld32_st32_eq. split; [done|]. eapply chain_frame; [done|].
    intros q Hq. apply Hsame; [by apply Hp|]. by intros ->.
  - by constructor.
  - intros q [->|Hq]%elem_of_cons; [done|by apply Hp].
Qed.

Lemma kfree_bad_page s v : 0 <= v < 2 ^ 32 -> ~ page_ok v -> KERNLINK <= kend ->
  kfree kend v s = Panic "kfree" s.
Proof.
  intros Hv Hbad He. unfold kfree. unfold page_ok in Hbad.
  destruct (negb (v mod PGSIZE =? 0) || (v <? kend) || (PHYSTOP <=? V2P v)) eqn:E; [done|].
  exfalso. apply Hbad. bool_split.
  assert (Hv2 : V2P v = v - KERNBASE).
  { apply u32_small. unfold KERNLINK, KERNBASE, EXTMEM in *. lia. }
  rewrite Hv2 in *. unfold KERNLINK, EXTMEM in *. lia.
Qed.

Lemma freerange_spec ps s l :
  kmem_ok s l -> (forall p, p ∈ ps -> page_ok p /\ p ∉ l) -> NoDup ps ->
  exists s', forM ps (kfree kend) s = Ok tt s' /\ kmem_ok s' (reverse ps ++ l).
Proof.
  revert s l. induction ps as [|p ps IH]; intros s l Hk Hps Hnd; [by exists s|].
  apply NoDup_cons in Hnd as [Hnp Hnd].
  destruct (Hps p ltac:(constructor)) as [Hp Hpl].
  destruct (kfree_spec s l p Hk Hp Hpl) as (s1 & E1 & Hk1 & _).
  destruct (IH s1 (p :: l) Hk1) as (s2 & E2 & Hk2); [|done|].
  - intros q Hq. destruct (Hps q ltac:(by constructor)) as [Hq1 Hq2]. split; [done|].
    intros [->|?]%elem_of_cons; done.
  - exists s2. cbn [forM]. unfold mbind, M_bind. rewrite E1, E2. split; [done|].
    by rewrite reverse_cons, <-app_assoc.
Qed.
End pages.

(** ** The contract of the allocator

    A client sees two sets of pages, those it holds and those that are free. *)

Inductive kop : Type := KAlloc | KFree (v : Z).

Section contract.
Context (kend : Z).

Definition kstep (op : kop) : M vst Z :=
  match op with KAlloc => kalloc | KFree v => kfree kend v ;; mret 0 end.
Fixpoint kruns (ops : list kop) : M vst (list Z) :=
  match ops with
  | [] => mret []
  | op :: ops' => r ← kstep op; rs ← kruns ops'; mret (r :: rs)
  end.

(** A page comes from the free ones, or the answer is 0 when there is none; a
    page given back must be held. *)
Definition spec_step (op : kop) (hf : list Z * list Z) : option (Z * (list Z * list Z)) :=
  match op, hf.2 with
  | KAlloc, [] => Some (0, hf)
  | KAlloc, p :: free => Some (p, (p :: hf.1, free))
  | KFree v, free =>
      if decide (v ∈ hf.1) then Some (0, (filter (fun p => p <> v) hf.1, v :: free)) else None
  end.
Fixpoint spec_runs (ops : list kop) (hf : list Z * list Z) : option (list Z * (list Z * list Z)) :=
  match ops with
  | [] => Some ([], hf)
  | op :: ops' =>
      '(r, hf1) ← spec_step op hf; '(rs, hf2) ← spec_runs ops' hf1; Some (r :: rs, hf2)
  end.

Lemma filter_out (v : Z) (l : list Z) :
  NoDup l -> v ∈ l -> v :: filter (fun p => p <> v) l ≡ₚ l.
Proof.
  intros Hn Hv. apply list_elem_of_split in Hv as (l1 & l2 & ->).
  apply NoDup_app in Hn as (_ & Hd & [Hn _]%NoDup_cons).
  rewrite filter_app, filter_cons_False by (intros H; by apply H).
  rewrite !filter_all; [apply Permutation_middle|..].
  - intros x Hx ->. done.
  - intros x Hx ->. apply (Hd v Hx). constructor.
Qed.

Lemma kstep_refines op s held free r held' free' :
  kmem_ok kend s free -> NoDup (held ++ free) -> (forall p, p ∈ held -> page_ok kend p) ->
  spec_step op (held, free) = Some (r, (held', free')) ->
  exists s', kstep op s = Ok r s' /\ kmem_ok kend s' free'
    /\ held' ++ free' ≡ₚ held ++ free
    /\ (forall p, p ∈ held -> KFree p <> op -> same_page p (mem s) (mem s') /\ p ∈ held').
Proof.
  intros Hk Hnd Hh. destruct op as [|v]; cbn [spec_step fst snd kstep].
  - pose proof (kalloc_spec kend s free Hk) as Hs. destruct free as [|q free]; intros [= <- <- <-].
    + exists s. split_and!; try done.
    + destruct Hs as (s' & E & Hk' & Em & _). exists s'. rewrite Em.
      split_and!; [done|done|apply Permutation_middle|].
      intros p Hp _. split; [done|]. by constructor.
  - case_decide as Hv; [|done]. intros [= <- <- <-].
    apply NoDup_app in Hnd as (Hnd & Hdis & _).
    destruct (kfree_spec kend s free v Hk (Hh v Hv) (Hdis v Hv)) as (s' & E & Hk' & Hs & _).
    exists s'. unfold mbind, M_bind. rewrite E. split_and!; [done|done| |].
    + rewrite <-Permutation_middle, app_comm_cons. by rewrite filter_out.
    + intros p Hp Hne. assert (p <> v) by congruence. split; [by apply Hs, H; apply Hh|].
      by apply list_elem_of_filter.
Qed.

(** C12: The free list refines the contract of a page allocator: against any
    sequence of [kalloc] and [kfree] in which the client gives back only pages
    it holds, the code never panics and gives the answers of the specification;
    every page is at all times either free or held once, so no page is handed
    out twice, none is lost, and a page that the client keeps is not written. *)
Theorem page_allocator ops s held free rs held' free' :
  kmem_ok kend s free -> NoDup (held ++ free) -> (forall p, p ∈ held -> page_ok kend p) ->
  spec_runs ops (held, free) = Some (rs, (held', free')) ->
  exists s', kruns ops s = Ok rs s' /\ kmem_ok kend s' free'
    /\ held' ++ free' ≡ₚ held ++ free /\ NoDup (held' ++ free')
    /\ (forall p, p ∈ held -> KFree p ∉ ops -> same_page p (mem s) (mem s') /\ p ∈ held').
Proof.
  revert s held free rs. induction ops as [|op ops IH]; intros s held free rs Hk Hnd Hh Hs.
  - injection Hs as <- <- <-. by exists s.
  - cbn [spec_runs] in Hs. destruct (spec_step op (held, free)) as [[r [h1 f1]]|] eqn:E1; [|done].
    cbn in Hs. destruct (spec_runs ops (h1, f1)) as [[rs' [h2 f2]]|] eqn:E2; [|done].
    injection Hs as <- -> ->.
    destruct (kstep_refines _ _ _ _ _ _ _ Hk Hnd Hh E1) as (s1 & R1 & Hk1 & P1 & S1).
    assert (Hh1 : forall p, p ∈ h1 -> page_ok kend p).
    { intros p Hp. assert (Hin : p ∈ held ++ free) by (rewrite <-P1; apply elem_of_app; by left).
      apply elem_of_app in Hin as [Hin|Hin]; [by apply Hh|by apply (km_pages _ _ _ Hk)]. }
    destruct (IH s1 h1 f1 rs' Hk1 ltac:(by rewrite P1) Hh1 E2) as (s2 & R2 & Hk2 & P2 & N2 & S2).
    exists s2. cbn [kruns]. unfold mbind, M_bind. rewrite R1, R2. split_and!; try done.
    + by rewrite P2.
    + intros p Hp Hf. apply not_elem_of_cons in Hf as [Hf1 Hf2].
      destruct (S1 p Hp Hf1) as [Hs1 Hp1]. destruct (S2 p Hp1 Hf2) as [Hs2 Hp2].
      split; [by etransitivity|done].
Qed.
End contract.

(** A machine that boots with [n] free pages. *)
Definition demo_kend : Z := 0x80110000.
Definition demo_boot : vst := mk_vst ∅ false 0 0 0.
Definition demo_free (n : Z) : list Z := map (fun i => demo_kend + PGSIZE * i) (seqZ 0 n).

Lemma demo_free_pages n p : n <= 1000 -> p ∈ demo_free n -> page_ok demo_kend p.
Proof.
  intros Hn. unfold demo_free. rewrite list_elem_of_fmap. intros (i & -> & Hi%elem_of_seqZ).
  unfold page_ok, demo_kend, PGSIZE, KERNBASE, PHYSTOP. lia.
Qed.

Lemma demo_kmem n : 0 <= n <= 1000 -> exists s,
  kinit1 demo_kend demo_kend (demo_kend + PGSIZE * n) demo_boot = Ok tt s
  /\ kmem_ok demo_kend s (reverse (demo_free n)).
Proof.
  intros Hn. unfold kinit1, freerange.
  assert (E : pages_in demo_kend (demo_kend + PGSIZE * n) = demo_free n).
  { unfold pages_in. change (PGROUNDUP demo_kend) with demo_kend.
    replace ((demo_kend + PGSIZE * n - demo_kend) / PGSIZE) with n by (unfold PGSIZE; lia). done. }
  rewrite E.
  destruct (freerange_spec demo_kend (demo_free n) (set_use_lock false demo_boot) [])
    as (s & E1 & Hk).
  - split; [done|constructor|]. intros p Hp. by apply not_elem_of_nil in Hp.
  - intros p Hp. split; [|apply not_elem_of_nil]. apply (demo_free_pages n); [lia|done].
  - apply NoDup_fmap_2; [|apply NoDup_seqZ]. intros i j. unfold PGSIZE. lia.
  - exists s. rewrite app_nil_r in Hk. split; [|done]. unfold mbind, M_bind, modS. by rewrite E1.
Qed.

Lemma page_allocator_witness : exists s s',
  kmem_ok demo_kend s [0x80112000; 0x80111000; 0x80110000]
  /\ kruns demo_kend [KAlloc; KAlloc; KFree 0x80112000; KAlloc; KAlloc; KAlloc] s
     = Ok [0x80112000; 0x80111000; 0; 0x80112000; 0x80110000; 0] s'.
Proof.
  destruct (demo_kmem 3) as (s & _ & Hk); [lia|].
  change (reverse (demo_free 3)) with [0x80112000; 0x80111000; 0x80110000] in Hk.
  destruct (page_allocator demo_kend [KAlloc; KAlloc; KFree 0x80112000; KAlloc; KAlloc; KAlloc]
    s [] [0x80112000; 0x80111000; 0x80110000] [0x80112000; 0x80111000; 0; 0x80112000; 0x80110000; 0]
    [0x80110000; 0x80112000; 0x80111000] [] Hk) as (s' & E & _).
  - exact (km_nodup _ _ _ Hk).
  - intros p Hp. by apply not_elem_of_nil in Hp.
  - reflexivity.
  - by exists s, s'.
Defined.
