(* ===== verification/Vm.v ===== *)
(** * Vm: page tables and user memory

    Model of src/kernel/vm.c on the memory of Kalloc: the two-level x86 page
    tables as words of physical pages, the kernel part of every address space,
    and the growing, shrinking, copying and freeing of the user part.  The
    segment registers, the task state segment and the TLB are left out; loading
    [cr3] is kept.  [loaduvm], which reads a file, is with [exec].

    [kend] and [kdata] are the linker's symbols [end] and [data]. *)

From Stdlib Require Import ZArith Lia ZifyBool.
From stdpp Require Import base gmap strings numbers list.
From S2P Require Import Prelude Kalloc.

Local Open Scope Z_scope.

#[local] Ltac Zify.zify_post_hook ::= Z.to_euclidean_division_equations.

(** ** Page tables *)

Definition NPDENTRIES : Z := 1024.
Definition PTE_P : Z := 1.
Definition PTE_W : Z := 2.
Definition PTE_U : Z := 4.

Definition PDX (va : Z) : Z := Z.land (Z.shiftr va 22) 0x3FF.
Definition PTX (va : Z) : Z := Z.land (Z.shiftr va 12) 0x3FF.
Definition PGADDR (d t o : Z) : Z :=
  u32 (Z.lor (Z.lor (Z.shiftl d 22) (Z.shiftl t 12)) o).
Definition PTE_ADDR (pte : Z) : Z := Z.land pte (Z.lnot 0xFFF).
Definition PTE_FLAGS (pte : Z) : Z := Z.land pte 0xFFF.
Definition has (flag e : Z) : bool := negb (Z.land e flag =? 0).

(** Kernel loads and stores through the kernel's window; another address is not
    one the model gives a meaning to. *)
Definition in_window (v : Z) : bool := (KERNBASE <=? v) && (v <? KERNBASE + PHYSTOP).
Definition kload (v : Z) : M vst Z := fun s =>
  if in_window v then Ok (ld32 (mem s) v) s else Panic "undefined" s.
Definition kstore (v x : Z) : M vst unit := fun s =>
  if in_window v then Ok tt (set_mem (st32 v x (mem s)) s) else Panic "undefined" s.
Definition kmemset (v c : Z) : M vst unit := fun s =>
  if in_window v then Ok tt (set_mem (memset_page v c (mem s)) s) else Panic "undefined" s.

(** [memmove] between two ranges of the window, byte by byte. *)
Definition copy_bytes (dst : Z) (bs : list Z) (m : gmap Z Z) : gmap Z Z :=
  snd (fold_left (fun '(a, m) b => (a + 1, st8 a b m)) bs (dst, m)).
Definition bytes_at (m : gmap Z Z) (v n : Z) : list Z := map (fun i => ld8 m (v + i)) (seqZ 0 n).
Definition kmemmove (dst : Z) (bs : list Z) : M vst unit := fun s =>
  if in_window dst && (dst + Z.of_nat (length bs) <=? KERNBASE + PHYSTOP)
  then Ok tt (set_mem (copy_bytes dst bs (mem s)) s) else Panic "undefined" s.
Definition kbytes (src n : Z) : M vst (list Z) := fun s =>
  if in_window src && (src + n <=? KERNBASE + PHYSTOP)
  then Ok (bytes_at (mem s) src n) s else Panic "undefined" s.

(** A range of pages of virtual memory, [for (; a < top; a += PGSIZE)]. *)
Definition upto (a top : Z) : list Z :=
  map (fun i => a + PGSIZE * i) (seqZ 0 ((top - a + PGSIZE - 1) / PGSIZE)).

Section vm.
Context (kend kdata : Z).

(** The address of the page table entry of [va], 0 when there is none. *)
Definition walkpgdir (pgdir va : Z) (alloc : bool) : M vst Z :=
  let pde := pgdir + 4 * PDX va in
  e ← kload pde;
  if has PTE_P e then mret (P2V (PTE_ADDR e) + 4 * PTX va)
  else if negb alloc then mret 0
  else
    pgtab ← kalloc;
    if pgtab =? 0 then mret 0
    else
      kmemset pgtab 0 ;;
      kstore pde (Z.lor (Z.lor (Z.lor (V2P pgtab) PTE_P) PTE_W) PTE_U) ;;
      mret (pgtab + 4 * PTX va).

(** The loop of [mappages] runs over the pages from [a] to [last] inclusive; the
    body yields the value to return, if any. *)
Definition map_page (pgdir a pa perm : Z) : M vst (option Z) :=
  pte ← walkpgdir pgdir a true;
  if pte =? 0 then mret (Some (-1))
  else
    e ← kload pte;
    if has PTE_P e then panic "remap"
    else
      kstore pte (Z.lor (Z.lor pa perm) PTE_P) ;;
      mret None.
Definition mappages (pgdir va size pa perm : Z) : M vst Z :=
  let a := PGROUNDDOWN va in
  let last := PGROUNDDOWN (u32 (va + size - 1)) in
  r ← forR (seqZ 0 (u32 (last - a) / PGSIZE + 1)) (fun i =>
        map_page pgdir (u32 (a + PGSIZE * i)) (u32 (pa + PGSIZE * i)) perm);
  mret (default 0 r).

(** [kmap]: virtual start, physical start and end, permissions. *)
Definition kmap : list (Z * Z * Z * Z) :=
  [ (KERNBASE, 0, EXTMEM, PTE_W);
    (KERNLINK, V2P KERNLINK, V2P kdata, 0);
    (kdata, V2P kdata, PHYSTOP, PTE_W);
    (DEVSPACE, DEVSPACE, 0, PTE_W) ].

(** An unmapped page table makes [deallocuvm] go on at the next directory
    entry.  Each round moves up by a page at least, so the fuel suffices as long
    as [oldsz] is not in the last directory entry, where the skip wraps. *)
Definition dealloc_page (pgdir a : Z) : M vst Z :=
  pte ← walkpgdir pgdir a false;
  if pte =? 0 then mret (u32 (PGADDR (PDX a + 1) 0 0 - PGSIZE))
  else
    e ← kload pte;
    (if has PTE_P e then
       let pa := PTE_ADDR e in
       if pa =? 0 then panic "kfree"
       else kfree kend (P2V pa) ;; kstore pte 0
     else mret tt) ;;
    mret a.
Definition deallocuvm (pgdir oldsz newsz : Z) : M vst Z :=
  if oldsz <=? newsz then mret oldsz
  else
    loop (S (Z.to_nat (oldsz / PGSIZE + 1))) (fun a =>
      if a <? oldsz then
        a ← dealloc_page pgdir a;
        mret (inl (u32 (a + PGSIZE)))
      else mret (inr newsz)) (PGROUNDUP newsz).

Definition freevm (pgdir : Z) : M vst unit :=
  if pgdir =? 0 then panic "freevm: no pgdir"
  else
    deallocuvm pgdir KERNBASE 0 ;;
    forM (seqZ 0 NPDENTRIES) (fun i =>
      e ← kload (pgdir + 4 * i);
      if has PTE_P e then kfree kend (P2V (PTE_ADDR e)) else mret tt) ;;
    kfree kend pgdir.

Definition setupkvm : M vst Z :=
  pgdir ← kalloc;
  if pgdir =? 0 then mret 0
  else
    kmemset pgdir 0 ;;
    (if DEVSPACE <? P2V PHYSTOP then panic "PHYSTOP too high" else mret tt) ;;
    r ← forR kmap (fun '(virt, phys_start, phys_end, perm) =>
          r ← mappages pgdir virt (u32 (phys_end - phys_start)) phys_start perm;
          if r <? 0 then freevm pgdir ;; mret (Some 0) else mret None);
    mret (default pgdir r).

Definition switchkvm : M vst unit :=
  modS (fun s => mk_vst (mem s) (use_lock s) (freelist s) (kpgdir s) (V2P (kpgdir s))).
Definition kvmalloc : M vst unit :=
  pgdir ← setupkvm;
  modS (fun s => mk_vst (mem s) (use_lock s) (freelist s) pgdir (cr3 s)) ;;
  switchkvm.

(** [memset] of a null page is a store through address 0. *)
Definition inituvm (pgdir : Z) (init : list Z) : M vst unit :=
  if PGSIZE <=? Z.of_nat (length init) then panic "inituvm: more than a page"
  else
    mem ← kalloc;
    kmemset mem 0 ;;
    _ ← mappages pgdir 0 PGSIZE (V2P mem) (Z.lor PTE_W PTE_U);
    kmemmove mem init.

Definition alloc_page (pgdir oldsz newsz a : Z) : M vst (option Z) :=
  mem ← kalloc;
  if mem =? 0 then
    deallocuvm pgdir newsz oldsz ;;
    mret (Some 0)
  else
    kmemset mem 0 ;;
    r ← mappages pgdir a PGSIZE (V2P mem) (Z.lor PTE_W PTE_U);
    if r <? 0 then
      deallocuvm pgdir newsz oldsz ;;
      kfree kend mem ;;
      mret (Some 0)
    else mret None.
Definition allocuvm (pgdir oldsz newsz : Z) : M vst Z :=
  if KERNBASE <=? newsz then mret 0
  else if newsz <? oldsz then mret oldsz
  else
    r ← forR (upto (PGROUNDUP oldsz) newsz) (alloc_page pgdir oldsz newsz);
    mret (default newsz r).

Definition clearpteu (pgdir uva : Z) : M vst unit :=
  pte ← walkpgdir pgdir uva false;
  if pte =? 0 then panic "clearpteu"
  else
    e ← kload pte;
    kstore pte (Z.land e (Z.lnot PTE_U)).

Definition copy_page (pgdir d i : Z) : M vst (option Z) :=
  pte ← walkpgdir pgdir i false;
  if pte =? 0 then panic "copyuvm: pte should exist"
  else
    e ← kload pte;
    if negb (has PTE_P e) then panic "copyuvm: page not present"
    else
      mem ← kalloc;
      if mem =? 0 then freevm d ;; mret (Some 0)
      else
        bs ← kbytes (P2V (PTE_ADDR e)) PGSIZE;
        kmemmove mem bs ;;
        r ← mappages d i PGSIZE (V2P mem) (PTE_FLAGS e);
        if r <? 0 then kfree kend mem ;; freevm d ;; mret (Some 0) else mret None.
Definition copyuvm (pgdir sz : Z) : M vst Z :=
  d ← setupkvm;
  if d =? 0 then mret 0
  else
    r ← forR (upto 0 sz) (copy_page pgdir d);
    mret (default d r).

(** The entry is loaded also when [walkpgdir] returned a null pointer. *)
Definition uva2ka (pgdir uva : Z) : M vst Z :=
  pte ← walkpgdir pgdir uva false;
  e ← kload pte;
  if negb (has PTE_P e) then mret 0
  else if negb (has PTE_U e) then mret 0
  else mret (P2V (PTE_ADDR e)).

(** Every round but the first begins at a page boundary. *)
Definition copyout (pgdir va : Z) (p : list Z) : M vst Z :=
  loop (Z.to_nat (Z.of_nat (length p) / PGSIZE + 3)) (fun '(va, buf) =>
    if (length buf =? 0)%nat then mret (inr 0)
    else
      let va0 := PGROUNDDOWN va in
      pa0 ← uva2ka pgdir va0;
      if pa0 =? 0 then mret (inr (-1))
      else
        let n := Z.min (PGSIZE - (va - va0)) (Z.of_nat (length buf)) in
        kmemmove (pa0 + (va - va0)) (take (Z.to_nat n) buf) ;;
        mret (inl (u32 (va0 + PGSIZE), drop (Z.to_nat n) buf))) (va, p).
End vm.
