(* ===== verification/Paging.v ===== *)
(** * Paging: what the page tables of an address space mean

    The words of a page directory and its page tables are related to two finite
    maps, from directory entries to page tables and from page numbers to page
    table entries.  [walkpgdir], [mappages] and [setupkvm] of Vm are specified
    on these maps, and [xlate], the walk of the hardware, reads them. *)

From Stdlib Require Import ZArith Lia ZifyBool.
From stdpp Require Import base gmap strings numbers list.
From S2P Require Import Prelude Kalloc Vm.

Local Open Scope Z_scope.

#[local] Ltac Zify.zify_post_hook ::= Z.to_euclidean_division_equations.

(** ** Arithmetic of addresses and entries *)

Lemma land_ones_mod a n : 0 <= n -> Z.land a (2 ^ n - 1) = a mod 2 ^ n.
Proof. intros. rewrite <-Z.land_ones by done. by rewrite Z.ones_equiv, Z.sub_1_r. Qed.

Lemma land_lnot_mod a : Z.land a (Z.lnot 4095) = a - a mod 4096.
Proof.
  change 4095 with (Z.ones 12). rewrite <-Z.ldiff_land, Z.ldiff_ones_r by lia.
  rewrite Z.shiftl_mul_pow2, Z.shiftr_div_pow2 by lia. change (2 ^ 12) with 4096. lia.
Qed.

Lemma PTE_ADDR_eq e : PTE_ADDR e = e - e mod 4096.
Proof. apply land_lnot_mod. Qed.
Lemma PTE_FLAGS_eq e : PTE_FLAGS e = e mod 4096.
Proof. apply (land_ones_mod e 12). lia. Qed.
Lemma PGROUNDDOWN_eq a : PGROUNDDOWN a = a - a mod 4096.
Proof. apply land_lnot_mod. Qed.
Lemma PGROUNDUP_eq a : 0 <= a <= 2 ^ 32 - 4096 -> PGROUNDUP a = (a + 4095) / 4096 * 4096.
Proof.
  intros Ha. unfold PGROUNDUP. change (PGSIZE - 1) with 4095. rewrite land_lnot_mod.
  unfold PGSIZE. rewrite u32_small by lia. lia.
Qed.

Lemma PDX_eq va : 0 <= va < 2 ^ 32 -> PDX va = va / 4194304.
Proof.
  intros H. unfold PDX. change 0x3FF with (2 ^ 10 - 1). rewrite land_ones_mod by lia.
  rewrite Z.shiftr_div_pow2 by lia. change (2 ^ 22) with 4194304. change (2 ^ 10) with 1024. lia.
Qed.
Lemma PTX_eq va : PTX va = va / 4096 mod 1024.
Proof.
  unfold PTX. change 0x3FF with (2 ^ 10 - 1). rewrite land_ones_mod by lia.
  by rewrite Z.shiftr_div_pow2 by lia.
Qed.

(** Joining a page address with flag bits. *)
Lemma lor_page pa f : pa mod 4096 = 0 -> 0 <= f < 4096 -> Z.lor pa f = pa + f.
Proof.
  intros Hp Hf. symmetry. apply Z.add_nocarry_lor.
  replace pa with (Z.shiftl (pa / 4096) 12)
    by (rewrite Z.shiftl_mul_pow2 by lia; change (2 ^ 12) with 4096; lia).
  apply Z.bits_inj'. intros n Hn. rewrite Z.land_spec, Z.bits_0.
  destruct (decide (n < 12)).
  - by rewrite Z.shiftl_spec_low.
  - rewrite (Z.bits_above_log2 f); [by rewrite andb_false_r|lia|].
    destruct (decide (f = 0)) as [->|]; [cbn; lia|].
    assert (Z.log2 f < 12) by (apply Z.log2_lt_pow2; lia). lia.
Qed.

Lemma lor_flags_range f g : 0 <= f < 4096 -> 0 <= g < 4096 -> 0 <= Z.lor f g < 4096.
Proof.
  intros Hf Hg. split; [apply Z.lor_nonneg; lia|].
  destruct (decide (Z.lor f g = 0)) as [->|Hne]; [lia|].
  assert (0 <= Z.lor f g) by (apply Z.lor_nonneg; lia).
  change 4096 with (2 ^ 12). apply Z.log2_lt_pow2; [lia|].
  rewrite Z.log2_lor by lia. apply Z.max_lub_lt.
  - destruct (decide (f = 0)) as [->|]; [cbn; lia|]. apply Z.log2_lt_pow2; lia.
  - destruct (decide (g = 0)) as [->|]; [cbn; lia|]. apply Z.log2_lt_pow2; lia.
Qed.

(** The entry made of a page address and flags. *)
Lemma entry_eq pa perm :
  pa mod 4096 = 0 -> 0 <= perm < 4096 ->
  Z.lor (Z.lor pa perm) PTE_P = pa + Z.lor perm PTE_P.
Proof.
  intros Hp Hf. rewrite <-Z.lor_assoc. apply lor_page; [done|].
  apply lor_flags_range; unfold PTE_P; lia.
Qed.

Lemma entry_addr pa f : pa mod 4096 = 0 -> 0 <= f < 4096 -> PTE_ADDR (pa + f) = pa.
Proof. intros. rewrite PTE_ADDR_eq. lia. Qed.
Lemma entry_flags pa f : pa mod 4096 = 0 -> 0 <= f < 4096 -> PTE_FLAGS (pa + f) = f.
Proof. intros. rewrite PTE_FLAGS_eq. lia. Qed.

Lemma land_low pa f g : pa mod 4096 = 0 -> 0 <= f < 4096 -> 0 <= g < 4096 ->
  Z.land (pa + f) g = Z.land f g.
Proof.
  intros Hp Hf Hg. rewrite <-(lor_page pa f) by done. rewrite Z.land_lor_distr_l.
  assert (Z.land pa g = 0) as ->; [|done].
  pose proof (lor_page pa g Hp Hg) as E. pose proof (Z.add_lor_land pa g). lia.
Qed.

Lemma has_entry g pa f : pa mod 4096 = 0 -> 0 <= f < 4096 -> 0 <= g < 4096 ->
  has g (pa + f) = has g f.
Proof. intros. unfold has. by rewrite land_low. Qed.

Lemma has_P_lor f : has PTE_P (Z.lor f PTE_P) = true.
Proof.
  unfold has, PTE_P. apply negb_true_iff, Z.eqb_neq. intros E.
  assert (Hb : Z.testbit (Z.land (Z.lor f 1) 1) 0 = true)
    by (rewrite Z.land_spec, Z.lor_spec; by rewrite orb_true_r).
  by rewrite E in Hb.
Qed.

(** ** Address spaces *)

(** The walk of the hardware: the entry that maps [va], if one is present. *)
Definition xlate (m : gmap Z Z) (pgdir va : Z) : option Z :=
  let e := ld32 m (pgdir + 4 * PDX va) in
  if has PTE_P e then
    let e' := ld32 m (P2V (PTE_ADDR e) + 4 * PTX va) in
    if has PTE_P e' then Some e' else None
  else None.

(** The contents of the directory [pgdir] and its page tables: [T] maps an index
    of the directory to the page table there, [U] a page number to its entry. *)
Record aspace (m : gmap Z Z) (pgdir : Z) (T U : gmap Z Z) : Prop := {
  as_pde : forall d, 0 <= d < 1024 ->
    ld32 m (pgdir + 4 * d) = match T !! d with Some t => V2P t + 7 | None => 0 end;
  as_tab : forall d t, T !! d = Some t -> 0 <= d < 1024;
  as_pte : forall d t j, T !! d = Some t -> 0 <= j < 1024 ->
    ld32 m (t + 4 * j) = default 0 (U !! (1024 * d + j));
  as_dom : forall n e, U !! n = Some e ->
    0 <= n < 1048576 /\ is_Some (T !! (n / 1024)) /\ has PTE_P e = true
}.

(** The pages an address space owns: the directory, the page tables and the
    frames of the user part. *)
Definition UPAGES : Z := KERNBASE / PGSIZE.
Definition frame (e : Z) : Z := P2V (PTE_ADDR e).
Definition tabs (T : gmap Z Z) : list Z := (map_to_list T).*2.
Definition uframes (U : gmap Z Z) : list Z :=
  map (fun p : Z * Z => frame p.2) (filter (fun p : Z * Z => p.1 < UPAGES) (map_to_list U)).
Definition pages (pgdir : Z) (T U : gmap Z Z) : list Z := pgdir :: tabs T ++ uframes U.

Lemma elem_of_tabs T t : t ∈ tabs T <-> exists d, T !! d = Some t.
Proof.
  unfold tabs. rewrite list_elem_of_fmap. split.
  - intros ([d t'] & -> & H). exists d. by apply elem_of_map_to_list.
  - intros [d H]. exists (d, t). split; [done|]. by apply elem_of_map_to_list.
Qed.

Lemma tabs_insert T d t : T !! d = None -> tabs (<[d := t]> T) ≡ₚ t :: tabs T.
Proof. intros H. unfold tabs. by rewrite map_to_list_insert. Qed.

Lemma tabs_inj T d d' t :
  NoDup (tabs T) -> T !! d = Some t -> T !! d' = Some t -> d = d'.
Proof.
  intros Hn H H'. destruct (decide (d = d')) as [->|Hne]; [done|]. exfalso.
  rewrite <-(insert_delete_id T d t H) in Hn.
  rewrite tabs_insert in Hn by apply lookup_delete_eq.
  apply NoDup_cons in Hn as [Hn _]. apply Hn, elem_of_tabs. exists d'.
  by rewrite lookup_delete_ne.
Qed.

Lemma elem_of_uframes U q :
  q ∈ uframes U <-> exists n e, U !! n = Some e /\ n < UPAGES /\ q = frame e.
Proof.
  unfold uframes. rewrite list_elem_of_fmap. split.
  - intros ([n e] & -> & [Hn He]%list_elem_of_filter). exists n, e.
    split_and!; [by apply elem_of_map_to_list|done|done].
  - intros (n & e & H & Hn & ->). exists (n, e). split; [done|]. apply list_elem_of_filter.
    split; [done|]. by apply elem_of_map_to_list.
Qed.

Lemma uframes_insert_user U n e :
  U !! n = None -> n < UPAGES -> uframes (<[n := e]> U) ≡ₚ frame e :: uframes U.
Proof.
  intros H Hn. unfold uframes. rewrite map_to_list_insert by done.
  by rewrite filter_cons_True.
Qed.

Lemma uframes_insert_kernel U n e :
  U !! n = None -> UPAGES <= n -> uframes (<[n := e]> U) ≡ₚ uframes U.
Proof.
  intros H Hn. unfold uframes. rewrite map_to_list_insert by done.
  rewrite filter_cons_False; [done|]. simpl. lia.
Qed.

Lemma uframes_delete U n e :
  U !! n = Some e -> n < UPAGES -> uframes U ≡ₚ frame e :: uframes (delete n U).
Proof.
  intros H Hn. rewrite <-(insert_delete_id U n e H) at 1.
  apply uframes_insert_user; [apply lookup_delete_eq|done].
Qed.

Section paging.
Context (kend kdata : Z).

Lemma page_word p j : page_ok kend p -> 0 <= j < 1024 ->
  in_page p (p + 4 * j) /\ in_window (p + 4 * j) = true.
Proof.
  unfold page_ok, in_page, in_window, PGSIZE, KERNBASE, PHYSTOP. intros. split; lia.
Qed.

Lemma page_V2P p : page_ok kend p -> V2P p = p - KERNBASE /\ V2P p mod 4096 = 0
  /\ 0 <= V2P p < PHYSTOP.
Proof.
  intros (Ha & _ & Hr). rewrite V2P_small by done.
  unfold PGSIZE, KERNBASE, PHYSTOP in *. lia.
Qed.

Lemma pde_flags t : page_ok kend t ->
  Z.lor (Z.lor (Z.lor (V2P t) PTE_P) PTE_W) PTE_U = V2P t + 7
  /\ has PTE_P (V2P t + 7) = true /\ P2V (PTE_ADDR (V2P t + 7)) = t.
Proof.
  intros Ht. destruct (page_V2P t Ht) as (E & Hm & Hr). split_and!.
  - rewrite <-!Z.lor_assoc. by apply lor_page.
  - by apply (has_entry 1 (V2P t) 7).
  - rewrite entry_addr by done. apply P2V_V2P, Ht.
Qed.

Lemma aspace_frame m m' pgdir T U :
  aspace m pgdir T U -> (forall q, q ∈ pgdir :: tabs T -> same_page q m m') ->
  aspace m' pgdir T U.
Proof.
  intros [H1 H2 H3 H4] Hs. split; [|done| |done].
  - intros d Hd. rewrite <-H1 by done. apply (Hs pgdir); [constructor|].
    unfold in_page, PGSIZE. lia.
  - intros d t j Ht Hj. rewrite <-(H3 d t j) by done. apply (Hs t).
    + constructor. apply elem_of_tabs. by exists d.
    + unfold in_page, PGSIZE. lia.
Qed.

Lemma aspace_xlate m pgdir T U va :
  aspace m pgdir T U -> (forall q, q ∈ tabs T -> page_ok kend q) -> 0 <= va < 2 ^ 32 ->
  xlate m pgdir va = U !! (va / 4096).
Proof.
  intros [H1 H2 H3 H4] Hp Hva. unfold xlate. rewrite PDX_eq, PTX_eq by done. rewrite H1 by lia.
  assert (Ed : va / 4096 / 1024 = va / 4194304) by lia.
  destruct (T !! (va / 4194304)) as [t|] eqn:Et.
  - assert (Hpt : page_ok kend t) by (apply Hp, elem_of_tabs; eauto).
    destruct (pde_flags t Hpt) as (_ & -> & ->). rewrite (H3 _ _ _ Et) by lia.
    replace (1024 * (va / 4194304) + (va / 4096) mod 1024) with (va / 4096) by lia.
    destruct (U !! (va / 4096)) as [e|] eqn:Eu; [|done].
    destruct (H4 _ _ Eu) as (_ & _ & He). cbn. by rewrite He.
  - cbn. destruct (U !! (va / 4096)) as [e|] eqn:Eu; [|done].
    destruct (H4 _ _ Eu) as (_ & [t Ht] & _). rewrite Ed in Ht. congruence.
Qed.

(** A fresh page table. *)
Lemma aspace_new_table m m1 pgdir T U d p :
  aspace m pgdir T U -> T !! d = None -> 0 <= d < 1024 ->
  page_ok kend pgdir -> page_ok kend p -> p <> pgdir ->
  (forall q, q ∈ tabs T -> page_ok kend q /\ q <> p /\ q <> pgdir) ->
  m1 = st32 (pgdir + 4 * d) (V2P p + 7) (memset_page p 0 m) ->
  aspace m1 pgdir (<[d := p]> T) U.
Proof.
  intros [H1 H2 H3 H4] Hd Hdr Hg Hp Hne Hq ->. split.
  - intros d' Hd'. destruct (decide (d = d')) as [<-|Hdd].
    + by rewrite ld32_st32_eq, lookup_insert_eq.
    + rewrite lookup_insert_ne by done. rewrite ld32_st32_ne.
      * rewrite (ld32_memset_out kend p pgdir); [by apply H1|done|done|by apply page_word|done].
      * apply (page_ok_range kend pgdir); [done|by apply page_word].
      * apply (page_ok_range kend pgdir); [done|by apply page_word].
      * unfold page_ok, PGSIZE in Hg. lia.
  - intros d' t. rewrite lookup_insert_Some. intros [[<- _]|[_ Ht]]; [done|by eapply H2].
  - intros d' t j Ht Hj. apply lookup_insert_Some in Ht as [[<- <-]|[Hdd Ht]].
    + rewrite (ld32_st32_page kend pgdir p); [|done|done|by apply page_word|by apply page_word|done].
      destruct (page_word p j Hp Hj) as [Hin _].
      rewrite ld32_memset_in; [|done|apply Hp|apply Hp]. cbn.
      destruct (U !! (1024 * d + j)) as [e|] eqn:Eu; [|done].
      destruct (H4 _ _ Eu) as (_ & [t Ht] & _).
      replace ((1024 * d + j) / 1024) with d in Ht by lia. congruence.
    + destruct (Hq t) as (Hpt & Htp & Htg); [apply elem_of_tabs; eauto|].
      rewrite (ld32_st32_page kend pgdir t); [|done|done|by apply page_word|by apply page_word|done].
      rewrite (ld32_memset_out kend p t); [by apply H3|done|done|by apply page_word|done].
  - intros n e He. destruct (H4 n e He) as (Hn & [t Ht] & Hp'). split; [done|]. split; [|done].
    destruct (decide (d = n / 1024)) as [<-|]; [rewrite lookup_insert_eq; eauto|].
    rewrite lookup_insert_ne by done. eauto.
Qed.

(** A page table entry written or cleared. *)
Lemma aspace_set_pte m pgdir T U d t j e :
  aspace m pgdir T U -> T !! d = Some t -> 0 <= j < 1024 ->
  page_ok kend pgdir -> NoDup (tabs T) ->
  (forall q, q ∈ tabs T -> page_ok kend q /\ q <> pgdir) ->
  (e = 0 \/ has PTE_P e = true) ->
  aspace (st32 (t + 4 * j) e m) pgdir T
    (if e =? 0 then delete (1024 * d + j) U else <[1024 * d + j := e]> U).
Proof.
  intros [H1 H2 H3 H4] Ht Hj Hg Hnd Hq He. pose proof (H2 _ _ Ht) as Hd.
  destruct (Hq t) as [Hpt Htg]; [apply elem_of_tabs; eauto|]. split.
  - intros d' Hd'. rewrite (ld32_st32_page kend t pgdir); [by apply H1|..]; try done;
      by apply page_word.
  - done.
  - intros d' t' j' Ht' Hj'. pose proof (H2 _ _ Ht') as Hd'.
    assert (Hl : forall x, (if e =? 0 then delete (1024 * d + j) U else <[1024 * d + j:=e]> U) !! x
       = if decide (x = 1024 * d + j) then (if e =? 0 then None else Some e) else U !! x).
    { intros x. destruct (e =? 0); case_decide; simplify_eq;
        rewrite ?lookup_delete_eq, ?lookup_insert_eq, ?lookup_delete_ne, ?lookup_insert_ne; done. }
    rewrite Hl. case_decide as Ex.
    + assert (d' = d /\ j' = j) as [-> ->] by lia. assert (t' = t) as -> by congruence.
      rewrite ld32_st32_eq. destruct (Z.eqb_spec e 0) as [->|]; done.
    + destruct (decide (t' = t)) as [->|Hne].
      * assert (d' = d) as -> by (by eapply tabs_inj).
        rewrite ld32_st32_ne; [by apply H3|..].
        -- apply (page_ok_range kend t); [done|by apply page_word].
        -- apply (page_ok_range kend t); [done|by apply page_word].
        -- unfold page_ok, PGSIZE in Hpt. lia.
      * destruct (Hq t') as [Hpt' _]; [apply elem_of_tabs; eauto|].
        rewrite (ld32_st32_page kend t t'); [by apply H3|..]; try done; by apply page_word.
  - intros n x. destruct (Z.eqb_spec e 0) as [->|Hne].
    + intros [_ Hx]%lookup_delete_Some. by apply H4.
    + intros [[<- <-]|[_ Hx]]%lookup_insert_Some; [|by apply H4].
      split; [lia|]. replace ((1024 * d + j) / 1024) with d by lia.
      split; [by eexists|]. by destruct He.
Qed.

(** ** Ownership

    [l] are the free pages, [X] pages that others hold. *)
Record vm_ok (s : vst) (l : list Z) (pgdir : Z) (T U : gmap Z Z) (X : list Z) : Prop := {
  vo_kmem : kmem_ok kend s l;
  vo_as : aspace (mem s) pgdir T U;
  vo_nodup : NoDup (l ++ pages pgdir T U ++ X);
  vo_pages : forall q, q ∈ pages pgdir T U ++ X -> page_ok kend q
}.

(** At most the pages [W] were written. *)
Record kept (W : list Z) (s s' : vst) : Prop := {
  kp_same : forall q, page_ok kend q -> q ∉ W -> same_page q (mem s) (mem s');
  kp_kpgdir : kpgdir s' = kpgdir s;
  kp_cr3 : cr3 s' = cr3 s
}.

(** Pages of the free list became page tables. *)
Definition tables_from (l : list Z) (T : gmap Z Z) (l' : list Z) (T' : gmap Z Z) : Prop :=
  exists used, l = used ++ l' /\ tabs T' ≡ₚ used ++ tabs T /\ T ⊆ T'.

Lemma tables_from_refl l T : tables_from l T l T.
Proof. exists []. done. Qed.

Lemma tables_from_trans l1 T1 l2 T2 l3 T3 :
  tables_from l1 T1 l2 T2 -> tables_from l2 T2 l3 T3 -> tables_from l1 T1 l3 T3.
Proof.
  intros (u1 & -> & P1 & S1) (u2 & -> & P2 & S2). exists (u1 ++ u2).
  split_and!; [by rewrite app_assoc| |by etransitivity].
  rewrite P2, P1, !app_assoc. f_equiv. apply Permutation_app_comm.
Qed.

Lemma tables_from_incl l T l' T' t : tables_from l T l' T' -> t ∈ tabs T -> t ∈ tabs T'.
Proof. intros (u & _ & P & _) Ht. rewrite P. apply elem_of_app. by right. Qed.

Lemma kept_refl W s : kept W s s.
Proof. done. Qed.

Lemma kept_trans W1 W2 W s1 s2 s3 :
  kept W1 s1 s2 -> kept W2 s2 s3 -> W1 ⊆ W -> W2 ⊆ W -> kept W s1 s3.
Proof.
  intros [Q1 K1 C1] [Q2 K2 C2] H1 H2. split; [|congruence|congruence]. intros q Hq Hn.
  etransitivity; [apply Q1|apply Q2]; try done; intros Hin; apply Hn; auto.
Qed.

Lemma kept_weaken W W' s s' : kept W s s' -> W ⊆ W' -> kept W' s s'.
Proof. intros [Q K C] H. split; [|done|done]. intros q Hq Hn. apply Q; [done|]. by intros ?%H. Qed.

Lemma tables_from_subset pgdir l T l' T' :
  tables_from l T l' T' -> pgdir :: tabs T ⊆ pgdir :: tabs T'.
Proof.
  intros Ht q [->|Hq]%elem_of_cons; [constructor|]. constructor. by eapply tables_from_incl.
Qed.

Section owned.
Context (s : vst) (l : list Z) (pgdir : Z) (T U : gmap Z Z) (X : list Z).
Context (V : vm_ok s l pgdir T U X).

Lemma vo_pgdir : page_ok kend pgdir.
Proof. apply (vo_pages _ _ _ _ _ _ V). constructor. Qed.

Lemma vo_tabs q : q ∈ tabs T -> page_ok kend q /\ q <> pgdir /\ q ∉ l.
Proof.
  intros Hq. pose proof (vo_nodup _ _ _ _ _ _ V) as Hn. split_and!.
  - apply (vo_pages _ _ _ _ _ _ V). unfold pages. set_solver.
  - intros ->. apply NoDup_app in Hn as (_ & _ & Hn). unfold pages in Hn. simpl in Hn.
    apply NoDup_cons in Hn as [Hn _]. apply Hn. rewrite <-app_assoc. set_solver.
  - intros Hl. apply NoDup_app in Hn as (_ & Hd & _). apply (Hd q Hl). unfold pages. set_solver.
Qed.

Lemma vo_tabs_nodup : NoDup (tabs T).
Proof.
  pose proof (vo_nodup _ _ _ _ _ _ V) as Hn. apply NoDup_app in Hn as (_ & _ & Hn).
  unfold pages in Hn. simpl in Hn. apply NoDup_cons in Hn as [_ Hn].
  rewrite <-app_assoc in Hn. by apply NoDup_app in Hn as (Hn & _ & _).
Qed.

Lemma vo_pgdir_free : pgdir ∉ l.
Proof.
  pose proof (vo_nodup _ _ _ _ _ _ V) as Hn. apply NoDup_app in Hn as (_ & Hd & _).
  intros Hl. apply (Hd pgdir Hl). constructor.
Qed.

Lemma vo_xlate va : 0 <= va < 2 ^ 32 -> xlate (mem s) pgdir va = U !! (va / 4096).
Proof.
  apply (aspace_xlate _ _ T). { apply (vo_as _ _ _ _ _ _ V). } apply vo_tabs.
Qed.

(** The directory entry that covers [va]. *)
Lemma vo_load_pde va : 0 <= va < 2 ^ 32 ->
  kload (pgdir + 4 * PDX va) s
  = Ok (match T !! (va / 4194304) with Some t => V2P t + 7 | None => 0 end) s.
Proof.
  intros Hva. rewrite PDX_eq by done. unfold kload.
  destruct (page_word pgdir (va / 4194304) vo_pgdir) as [_ ->]; [lia|].
  by rewrite (as_pde _ _ _ _ (vo_as _ _ _ _ _ _ V)) by lia.
Qed.

Lemma walk_present va t alloc :
  0 <= va < 2 ^ 32 -> T !! (va / 4194304) = Some t ->
  walkpgdir pgdir va alloc s = Ok (t + 4 * PTX va) s.
Proof.
  intros Hva Ht. unfold walkpgdir, mbind, M_bind. rewrite vo_load_pde by done. rewrite Ht.
  destruct (pde_flags t) as (_ & -> & ->); [|done]. apply vo_tabs, elem_of_tabs. eauto.
Qed.

Lemma walk_absent va :
  0 <= va < 2 ^ 32 -> T !! (va / 4194304) = None -> walkpgdir pgdir va false s = Ok 0 s.
Proof.
  intros Hva Ht. unfold walkpgdir, mbind, M_bind. rewrite vo_load_pde by done. by rewrite Ht.
Qed.
End owned.

(** [walkpgdir] makes a page table where there is none. *)
Lemma walk_alloc s l pgdir T U X va :
  vm_ok s l pgdir T U X -> 0 <= va < 2 ^ 32 -> T !! (va / 4194304) = None ->
  match l with
  | [] => walkpgdir pgdir va true s = Ok 0 s
  | p :: l' => exists s', walkpgdir pgdir va true s = Ok (p + 4 * PTX va) s'
      /\ vm_ok s' l' pgdir (<[va / 4194304 := p]> T) U X
      /\ kept (pgdir :: tabs (<[va / 4194304 := p]> T)) s s'
  end.
Proof.
  intros V Hva Ht. unfold walkpgdir, mbind, M_bind.
  rewrite (vo_load_pde _ _ _ _ _ _ V) by done. rewrite Ht. cbn [has].
  change (has PTE_P 0) with false. cbn [negb].
  pose proof (kalloc_spec kend s l (vo_kmem _ _ _ _ _ _ V)) as Hk.
  destruct l as [|p l]; [by rewrite Hk|].
  destruct Hk as (s1 & -> & Hk1 & Em & Ekp & Ec).
  assert (Hp : page_ok kend p) by (apply (km_pages _ _ _ (vo_kmem _ _ _ _ _ _ V)); constructor).
  rewrite (proj2 (Z.eqb_neq p 0)) by (by apply (page_nonzero kend)).
  pose proof (vo_pgdir _ _ _ _ _ _ V) as Hg.
  pose proof (vo_pgdir_free _ _ _ _ _ _ V) as Hgl. apply not_elem_of_cons in Hgl as [Hgp Hgl].
  destruct (page_word p 0 Hp) as [_ Hw]; [lia|]. rewrite Z.mul_0_r, Z.add_0_r in Hw.
  unfold kmemset. rewrite Hw. unfold kstore. rewrite PDX_eq by done.
  destruct (page_word pgdir (va / 4194304) Hg) as [Hin ->]; [lia|].
  destruct (pde_flags p Hp) as (-> & _). eexists. split; [done|].
  pose proof (vo_nodup _ _ _ _ _ _ V) as Hnd. cbn [app] in Hnd. apply NoDup_cons in Hnd as [Hnp Hnd].
  assert (Hsame : forall q, page_ok kend q -> q <> pgdir -> q <> p ->
    same_page q (mem s) (st32 (pgdir + 4 * (va / 4194304)) (V2P p + 7) (memset_page p 0 (mem s1)))).
  { intros q Hq H1 H2 a Ha. rewrite (ld32_st32_page kend pgdir q) by (done || congruence).
    rewrite (ld32_memset_out kend p q) by (done || congruence). by rewrite Em. }
  assert (Htp : forall q, q ∈ tabs T -> page_ok kend q /\ q <> p /\ q <> pgdir).
  { intros q Hq. destruct (vo_tabs _ _ _ _ _ _ V q Hq) as (? & ? & [? ?]%not_elem_of_cons). done. }
  split; [split|].
  - eapply kmem_ok_frame; [exact Hk1|done|]. cbn [mem set_mem]. rewrite Em in *.
    intros q Hq. apply Hsame.
    + apply (km_pages _ _ _ Hk1 q Hq).
    + by intros ->.
    + intros ->. apply Hnp, elem_of_app. by left.
  - cbn [mem set_mem]. eapply aspace_new_table; [apply V|done|lia|done|done|done|done|].
    by rewrite Em.
  - unfold pages in *. cbn [app] in *. rewrite tabs_insert by done.
    cbn [app]. rewrite (Permutation_swap p pgdir), <-Permutation_middle. by constructor.
  - unfold pages. intros q Hq. cbn [app] in Hq. rewrite tabs_insert in Hq by done.
    apply elem_of_cons in Hq as [->|Hq]; [done|]. cbn [app] in Hq.
    apply elem_of_cons in Hq as [->|Hq]; [done|].
    apply (vo_pages _ _ _ _ _ _ V). unfold pages. cbn [app]. by constructor.
  - split; [|done|done]. intros q Hq Hn. apply Hsame; [done|..].
    + intros ->. apply Hn. constructor.
    + intros ->. apply Hn. constructor. apply elem_of_tabs. exists (va / 4194304).
      apply lookup_insert_eq.
Qed.

(** Writing the entry of a page that is not mapped.  A frame that goes into the
    user part was held and is now owned by the address space. *)
Definition takes (n pa : Z) (X X' : list Z) : Prop :=
  if n <? UPAGES then X ≡ₚ P2V pa :: X' else X' = X.

Lemma set_entry s l pgdir T U X X' va t pa perm :
  vm_ok s l pgdir T U X -> 0 <= va < 2 ^ 32 ->
  T !! (va / 4194304) = Some t -> U !! (va / 4096) = None ->
  pa mod 4096 = 0 -> 0 <= pa -> 0 <= perm < 4096 -> takes (va / 4096) pa X X' ->
  exists s', kstore (t + 4 * PTX va) (Z.lor (Z.lor pa perm) PTE_P) s = Ok tt s'
    /\ vm_ok s' l pgdir T (<[va / 4096 := pa + Z.lor perm PTE_P]> U) X'
    /\ kept (pgdir :: tabs T) s s'.
Proof.
  intros V Hva Ht Hu Hpa Hpa0 Hperm HX. rewrite entry_eq by done. rewrite PTX_eq.
  assert (Hin : t ∈ tabs T) by (apply elem_of_tabs; eauto).
  destruct (vo_tabs _ _ _ _ _ _ V t Hin) as (Hpt & Htg & Htl).
  destruct (page_word t (va / 4096 mod 1024) Hpt) as [Hiw Hw]; [lia|].
  assert (Hf : 0 <= Z.lor perm PTE_P < 4096) by (apply lor_flags_range; unfold PTE_P; lia).
  assert (HP : has PTE_P (pa + Z.lor perm PTE_P) = true).
  { rewrite has_entry; [apply has_P_lor|done|done|unfold PTE_P; lia]. }
  assert (He : frame (pa + Z.lor perm PTE_P) = P2V pa) by (unfold frame; by rewrite entry_addr).
  unfold kstore. rewrite Hw. eexists. split; [done|].
  assert (Hsame : forall q, page_ok kend q -> q <> t -> same_page q (mem s)
     (st32 (t + 4 * (va / 4096 mod 1024)) (pa + Z.lor perm PTE_P) (mem s))).
  { intros q Hq Hne. by apply (same_page_st32 kend t q). }
  assert (Hperm' : pages pgdir T (<[va / 4096:=pa + Z.lor perm PTE_P]> U) ++ X'
                   ≡ₚ pages pgdir T U ++ X).
  { unfold takes in HX. unfold pages. cbn [app]. constructor. destruct (Z.ltb_spec (va / 4096) UPAGES).
    - rewrite uframes_insert_user by done. rewrite HX, He, <-!app_assoc. f_equiv.
      cbn [app]. apply Permutation_middle.
    - rewrite uframes_insert_kernel by done. by rewrite HX. }
  split; [split|].
  - eapply kmem_ok_frame; [apply V|done|]. intros q Hq. apply Hsame.
    + apply (km_pages _ _ _ (vo_kmem _ _ _ _ _ _ V) q Hq).
    + by intros ->.
  - cbn [mem set_mem].
    pose proof (aspace_set_pte _ _ _ _ (va / 4194304) t (va / 4096 mod 1024)
      (pa + Z.lor perm PTE_P) (vo_as _ _ _ _ _ _ V) Ht) as Has.
    destruct (Z.eqb_spec (pa + Z.lor perm PTE_P) 0) as [E0|_]; [by rewrite E0 in HP|].
    replace (1024 * (va / 4194304) + va / 4096 mod 1024) with (va / 4096) in Has by lia.
    apply Has; [lia|by apply (vo_pgdir _ _ _ _ _ _ V)|by apply (vo_tabs_nodup _ _ _ _ _ _ V)| |by right].
    intros q Hq. destruct (vo_tabs _ _ _ _ _ _ V q Hq) as (? & ? & _). done.
  - rewrite Hperm'. apply V.
  - intros q. rewrite Hperm'. apply V.
  - split; [|done|done]. intros q Hq Hn. apply Hsame; [done|]. intros ->. apply Hn. by constructor.
Qed.

(** One page mapped, or no page left for its table. *)
Lemma map_page_spec s l pgdir T U X X' va pa perm :
  vm_ok s l pgdir T U X -> 0 <= va < 2 ^ 32 -> U !! (va / 4096) = None ->
  pa mod 4096 = 0 -> 0 <= pa -> 0 <= perm < 4096 -> takes (va / 4096) pa X X' ->
  (l = [] /\ map_page pgdir va pa perm s = Ok (Some (-1)) s)
  \/ exists s' l' T', map_page pgdir va pa perm s = Ok None s'
      /\ vm_ok s' l' pgdir T' (<[va / 4096 := pa + Z.lor perm PTE_P]> U) X'
      /\ tables_from l T l' T' /\ kept (pgdir :: tabs T') s s'
      /\ (forall d, is_Some (T' !! d) -> d = va / 4194304 \/ is_Some (T !! d))
      /\ (length l <= S (length l'))%nat.
Proof.
  intros V Hva Hu Hpa Hpa0 Hperm HX.
  assert (Hrest : forall s1 l1 T1 t, vm_ok s1 l1 pgdir T1 U X -> T1 !! (va / 4194304) = Some t ->
    walkpgdir pgdir va true s = Ok (t + 4 * PTX va) s1 ->
    exists s', map_page pgdir va pa perm s = Ok None s'
      /\ vm_ok s' l1 pgdir T1 (<[va / 4096 := pa + Z.lor perm PTE_P]> U) X'
      /\ kept (pgdir :: tabs T1) s1 s').
  { intros s1 l1 T1 t V1 Ht E. unfold map_page, mbind, M_bind. rewrite E.
    destruct (vo_tabs _ _ _ _ _ _ V1 t) as (Hpt & _); [apply elem_of_tabs; eauto|].
    destruct (page_word t (PTX va) Hpt) as [Hin Hw]; [rewrite PTX_eq; lia|].
    rewrite (proj2 (Z.eqb_neq _ 0)) by (unfold page_ok, KERNBASE in Hpt; rewrite PTX_eq; lia).
    unfold kload at 1. rewrite Hw.
    rewrite (as_pte _ _ _ _ (vo_as _ _ _ _ _ _ V1) _ _ _ Ht) by (rewrite PTX_eq; lia).
    replace (1024 * (va / 4194304) + PTX va) with (va / 4096) by (rewrite PTX_eq; lia).
    rewrite Hu. cbn [default]. change (has PTE_P 0) with false. cbv iota.
    destruct (set_entry _ _ _ _ _ _ X' va t pa perm V1) as (s' & -> & V' & Q'); try done.
    by exists s'. }
  destruct (T !! (va / 4194304)) as [t|] eqn:Et.
  - right. destruct (Hrest s l T t V Et) as (s' & E & V' & Q').
    { by apply (walk_present _ _ _ _ _ _ V). }
    exists s', l, T. split_and!; [done|done|apply tables_from_refl|done|auto|lia].
  - pose proof (walk_alloc s l pgdir T U X va V Hva Et) as Hw. destruct l as [|p l].
    + left. split; [done|]. unfold map_page, mbind, M_bind. by rewrite Hw.
    + right. destruct Hw as (s1 & E1 & V1 & Q1).
      destruct (Hrest s1 l _ p V1 (lookup_insert_eq _ _ _) E1) as (s' & E & V' & Q').
      exists s', l, (<[va / 4194304 := p]> T). split_and!; [done|done| | | |done].
      * exists [p]. split_and!; [done|by apply tabs_insert|by apply insert_subseteq].
      * by eapply kept_trans.
      * intros d. destruct (decide (d = va / 4194304)) as [->|]; [auto|].
        rewrite lookup_insert_ne by done. auto.
Qed.

(** [mappages] of one page. *)
Lemma mappages_one s l pgdir T U X X' va pa perm :
  vm_ok s l pgdir T U X -> 0 <= va < 2 ^ 32 -> va mod 4096 = 0 -> U !! (va / 4096) = None ->
  pa mod 4096 = 0 -> 0 <= pa < 2 ^ 32 -> 0 <= perm < 4096 -> takes (va / 4096) pa X X' ->
  (l = [] /\ mappages pgdir va PGSIZE pa perm s = Ok (-1) s)
  \/ exists s' l' T', mappages pgdir va PGSIZE pa perm s = Ok 0 s'
      /\ vm_ok s' l' pgdir T' (<[va / 4096 := pa + Z.lor perm PTE_P]> U) X'
      /\ tables_from l T l' T' /\ kept (pgdir :: tabs T') s s'
      /\ (forall d, is_Some (T' !! d) -> d = va / 4194304 \/ is_Some (T !! d))
      /\ (length l <= S (length l'))%nat.
Proof.
  intros V Hva Hal Hu Hpa Hpa0 Hperm HX.
  assert (E : mappages pgdir va PGSIZE pa perm s
            = (r ← map_page pgdir va pa perm; mret (default 0 r)) s).
  { unfold mappages. rewrite !PGROUNDDOWN_eq. unfold PGSIZE.
    replace (u32 (va + 4096 - 1)) with (va + 4095) by (rewrite u32_small; lia).
    replace (va - va mod 4096) with va by lia.
    replace (va + 4095 - (va + 4095) mod 4096 - va) with 0 by lia.
    change (seqZ 0 (u32 0 / 4096 + 1)) with [0]. cbn [forR]. rewrite Z.mul_0_r, !Z.add_0_r.
    rewrite (u32_small va), (u32_small pa) by lia. unfold mbind, M_bind, mret, M_ret.
    by destruct (map_page pgdir va pa perm s) as [[|]| | |]. }
  rewrite E. unfold mbind, M_bind, mret, M_ret.
  destruct (map_page_spec s l pgdir T U X X' va pa perm) as [[-> Em]|(s' & l' & T' & Em & V' & H1 & H2 & H3 & H4)];
    [done..|lia|done|done| |]; rewrite Em.
  - by left.
  - right. by exists s', l', T'.
Qed.

(** ** Ranges of the kernel part *)

(** [k] pages from page number [n] on, mapped to the memory from [pa] on. *)
Fixpoint map_range (k : nat) (n pa fl : Z) (U : gmap Z Z) : gmap Z Z :=
  match k with
  | O => U
  | S k' => <[n + Z.of_nat k' := pa + 4096 * Z.of_nat k' + fl]> (map_range k' n pa fl U)
  end.

Lemma lookup_map_range k n pa fl U x :
  map_range k n pa fl U !! x
  = if decide (n <= x < n + Z.of_nat k) then Some (pa + 4096 * (x - n) + fl) else U !! x.
Proof.
  induction k as [|k IH]; cbn [map_range].
  - case_decide; [lia|done].
  - destruct (decide (x = n + Z.of_nat k)) as [->|].
    + rewrite lookup_insert_eq. rewrite decide_True by lia. f_equal. lia.
    + rewrite lookup_insert_ne by lia. rewrite IH. case_decide; case_decide; [done|lia|lia|done].
Qed.

(** Every page table has an entry. *)
Definition tight (T U : gmap Z Z) : Prop :=
  forall d, is_Some (T !! d) -> exists n, is_Some (U !! n) /\ n / 1024 = d.

Lemma tight_insert T T' U n e :
  tight T U -> (forall d, is_Some (T' !! d) -> d = n / 1024 \/ is_Some (T !! d)) ->
  tight T' (<[n := e]> U).
Proof.
  intros Ht Hd d [->|H]%Hd.
  - exists n. rewrite lookup_insert_eq. eauto.
  - destruct (Ht d H) as (x & Hx & <-). exists x. split; [|done].
    destruct (decide (n = x)) as [->|]; [rewrite lookup_insert_eq; eauto|].
    by rewrite lookup_insert_ne.
Qed.

Lemma mappages_kernel s l pgdir T U X va size pa perm :
  vm_ok s l pgdir T U X -> tight T U -> KERNBASE <= va -> va mod 4096 = 0 ->
  0 < size -> size mod 4096 = 0 -> va + size <= 2 ^ 32 ->
  pa mod 4096 = 0 -> 0 <= pa -> pa + size <= 2 ^ 32 -> 0 <= perm < 4096 ->
  (forall n, va / 4096 <= n < va / 4096 + size / 4096 -> U !! n = None) ->
  exists r s' l' T' k, mappages pgdir va size pa perm s = Ok r s'
    /\ vm_ok s' l' pgdir T' (map_range k (va / 4096) pa (Z.lor perm PTE_P) U) X
    /\ tables_from l T l' T' /\ kept (pgdir :: tabs T') s s'
    /\ tight T' (map_range k (va / 4096) pa (Z.lor perm PTE_P) U)
    /\ (r = 0 /\ Z.of_nat k = size / 4096
        \/ r = -1 /\ l' = [] /\ Z.of_nat k < size / 4096).
Proof.
  intros V Ht Hk Hva Hs0 Hs Htop Hpa Hpa0 Hptop Hperm Hfree.
  set (N := size / 4096).
  set (body := fun i => map_page pgdir (u32 (va + PGSIZE * i)) (u32 (pa + PGSIZE * i)) perm).
  assert (Hloop : wp (forR (seqZ 0 N) body) (fun r s' => exists l' T' k,
    vm_ok s' l' pgdir T' (map_range k (va / 4096) pa (Z.lor perm PTE_P) U) X
    /\ tables_from l T l' T' /\ kept (pgdir :: tabs T') s s'
    /\ tight T' (map_range k (va / 4096) pa (Z.lor perm PTE_P) U)
    /\ (r = None /\ Z.of_nat k = N \/ r = Some (-1) /\ l' = [] /\ Z.of_nat k < N)) s).
  { apply wp_forR with (I := fun done s' => exists l' T',
      vm_ok s' l' pgdir T' (map_range (length done) (va / 4096) pa (Z.lor perm PTE_P) U) X
      /\ tables_from l T l' T' /\ kept (pgdir :: tabs T') s s'
      /\ tight T' (map_range (length done) (va / 4096) pa (Z.lor perm PTE_P) U)).
    - exists l, T. split_and!; [done|apply tables_from_refl|done|done].
    - intros dn x rest s1 Hl (l1 & T1 & V1 & Tf1 & K1 & Ti1).
      assert (Hx : x = Z.of_nat (length dn)).
      { assert (E : seqZ 0 N !! length dn = Some x)
          by (rewrite Hl, lookup_app_r, Nat.sub_diag by lia; done).
        apply lookup_seqZ in E as [-> _]. lia. }
      assert (HxN : Z.of_nat (length dn) < N).
      { assert (E : length (seqZ 0 N) = length (dn ++ x :: rest)) by (by rewrite Hl).
        rewrite length_seqZ, length_app in E. cbn in E. lia. }
      assert (Eva : u32 (va + PGSIZE * x) = va + 4096 * x)
        by (unfold PGSIZE, KERNBASE in *; rewrite u32_small; lia).
      assert (Epa : u32 (pa + PGSIZE * x) = pa + 4096 * x)
        by (unfold PGSIZE; rewrite u32_small; lia).
      assert (En : (va + 4096 * x) / 4096 = va / 4096 + Z.of_nat (length dn)) by lia.
      unfold body, wp. rewrite Eva, Epa.
      destruct (map_page_spec s1 l1 pgdir T1 _ X X (va + 4096 * x) (pa + 4096 * x) perm V1)
        as [[-> E]|(s2 & l2 & T2 & E & V2 & Tf2 & K2 & D2 & _)].
      + unfold KERNBASE in Hk. lia.
      + rewrite En, lookup_map_range. rewrite decide_False by lia. apply Hfree. lia.
      + lia.
      + lia.
      + done.
      + unfold takes. rewrite En. unfold UPAGES, KERNBASE, PGSIZE in *.
        destruct (Z.ltb_spec (va / 4096 + Z.of_nat (length dn)) (2147483648 / 4096)); [lia|done].
      + rewrite E. exists [], T1, (length dn). split_and!; try done. right. done.
      + rewrite E. exists l2, T2. rewrite length_app, Nat.add_1_r. cbn [map_range].
        rewrite En in V2. rewrite Hx in V2.
        split_and!; [done|by eapply tables_from_trans| |].
        * eapply kept_trans; [exact K1|exact K2|by eapply tables_from_subset|done].
        * eapply tight_insert; [exact Ti1|]. intros d Hd. destruct (D2 d Hd) as [->|?]; [|by right].
          left. lia.
    - intros s1 (l1 & T1 & V1 & Tf1 & K1 & Ti1). exists l1, T1, (length (seqZ 0 N)).
      split_and!; try done. left. split; [done|]. rewrite length_seqZ. lia. }
  apply wp_run in Hloop as (r & s' & E & l' & T' & k & V' & Tf' & K' & Ti' & Hr).
  exists (default 0 r), s', l', T', k. split_and!; try done.
  - unfold mappages. rewrite !PGROUNDDOWN_eq. replace (va - va mod 4096) with va by lia.
    rewrite (u32_small (va + size - 1)) by (unfold KERNBASE in *; lia).
    replace (va + size - 1 - (va + size - 1) mod 4096 - va) with (size - 4096) by lia.
    rewrite (u32_small (size - 4096)) by (unfold KERNBASE in *; lia).
    replace ((size - 4096) / PGSIZE + 1) with N by (unfold N, PGSIZE; lia).
    fold body. unfold mbind, M_bind. by rewrite E.
  - destruct Hr as [[-> ?]|(-> & ? & ?)]; [by left|by right].
Qed.
End paging.
