(* ===== verification/Uvm.v ===== *)
(** * Uvm: the life of an address space

    Theorems about Vm: shrinking and freeing an address space give every page back,
    and [setupkvm] makes the kernel part or nothing. *)

From Stdlib Require Import ZArith Lia ZifyBool.
From stdpp Require Import base gmap strings numbers list.
From S2P Require Import Prelude Kalloc Vm Paging.

Local Open Scope Z_scope.

#[local] Ltac Zify.zify_post_hook ::= Z.to_euclidean_division_equations.

(** ** Removing a range of pages *)

(** [U] without the page numbers from [lo] up to [hi]. *)
Definition cut (lo hi : Z) (U : gmap Z Z) : gmap Z Z :=
  filter (fun p : Z * Z => ~ lo <= p.1 < hi) U.

Lemma lookup_cut lo hi U n :
  cut lo hi U !! n = if decide (lo <= n < hi) then None else U !! n.
Proof.
  unfold cut. case_decide as H.
  - apply map_lookup_filter_None. right. intros x _ Hx. by apply Hx.
  - destruct (U !! n) eqn:E.
    + apply map_lookup_filter_Some. done.
    + apply map_lookup_filter_None. by left.
Qed.

Lemma cut_empty lo U : cut lo lo U = U.
Proof. apply map_eq. intros n. rewrite lookup_cut. case_decide; [lia|done]. Qed.

Lemma cut_succ lo n U : lo <= n -> cut lo (n + 1) U = delete n (cut lo n U).
Proof.
  intros Hn. apply map_eq. intros x. destruct (decide (x = n)) as [->|].
  - rewrite lookup_delete_eq, lookup_cut. by rewrite decide_True by lia.
  - rewrite lookup_delete_ne, !lookup_cut by done. case_decide; case_decide; done || lia.
Qed.

Lemma cut_absent lo n n' U :
  lo <= n <= n' -> (forall x, n <= x < n' -> U !! x = None) -> cut lo n' U = cut lo n U.
Proof.
  intros Hn Hx. apply map_eq. intros x. rewrite !lookup_cut.
  case_decide; case_decide; try done; try lia. symmetry. apply Hx. lia.
Qed.

Section uvm.
Context (kend kdata : Z).

Abbreviation vm_ok := (vm_ok kend).
Abbreviation kept := (kept kend).

(** A user frame of the address space. *)
Lemma vo_frame s l pgdir T U X n e :
  vm_ok s l pgdir T U X -> U !! n = Some e -> n < UPAGES ->
  page_ok kend (frame e) /\ (frame e ∉ l) /\ frame e ∉ pgdir :: tabs T.
Proof.
  intros V He Hn. assert (Hin : frame e ∈ uframes U) by (apply elem_of_uframes; eauto).
  pose proof (vo_nodup _ _ _ _ _ _ _ V) as Hnd. split_and!.
  - apply (vo_pages _ _ _ _ _ _ _ V). unfold pages. set_solver.
  - intros Hl. apply NoDup_app in Hnd as (_ & Hd & _). apply (Hd _ Hl). unfold pages. set_solver.
  - intros Ht. apply NoDup_app in Hnd as (_ & _ & Hnd). apply NoDup_app in Hnd as (Hnd & _ & _).
    unfold pages in Hnd. rewrite app_comm_cons in Hnd. apply NoDup_app in Hnd as (_ & Hd & _).
    by apply (Hd (frame e)).
Qed.

Lemma vo_frame_in_pages U n e pgdir T :
  U !! n = Some e -> n < UPAGES -> frame e ∈ pages pgdir T U.
Proof.
  intros He Hn. unfold pages. apply elem_of_cons. right. apply elem_of_app. right.
  apply elem_of_uframes. eauto.
Qed.

(** Clearing the entry of a user page and freeing its frame. *)
Lemma free_entry s l pgdir T U X a t e :
  vm_ok s l pgdir T U X -> 0 <= a < KERNBASE ->
  T !! (a / 4194304) = Some t -> U !! (a / 4096) = Some e ->
  exists s', (kfree kend (frame e) ;; kstore (t + 4 * PTX a) 0) s = Ok tt s'
    /\ vm_ok s' (frame e :: l) pgdir T (delete (a / 4096) U) X
    /\ kept (pgdir :: tabs T ++ [frame e]) s s'.
Proof.
  intros V Ha Ht He.
  assert (Hn : a / 4096 < UPAGES) by (unfold UPAGES, KERNBASE, PGSIZE in *; lia).
  destruct (vo_frame _ _ _ _ _ _ _ _ V He Hn) as (Hf & Hfl & Hft).
  destruct (kfree_spec kend s l (frame e) (vo_kmem _ _ _ _ _ _ _ V) Hf Hfl)
    as (s1 & E1 & Hk1 & Hs1 & Hp1 & Hc1).
  assert (Hin : t ∈ tabs T) by (apply elem_of_tabs; eauto).
  destruct (vo_tabs _ _ _ _ _ _ _ V t Hin) as (Hpt & Htg & Htl).
  assert (Htf : t <> frame e) by (intros ->; apply Hft; by constructor).
  rewrite PTX_eq. destruct (page_word kend t (a / 4096 mod 1024) Hpt) as [Hiw Hw]; [lia|].
  unfold mbind, M_bind. rewrite E1. unfold kstore. rewrite Hw. eexists. split; [done|].
  set (m2 := st32 (t + 4 * (a / 4096 mod 1024)) 0 (mem s1)).
  assert (Hs2 : forall q, page_ok kend q -> q <> t -> q <> frame e -> same_page q (mem s) m2).
  { intros q Hq H1 H2. etransitivity; [by apply Hs1|]. by apply (same_page_st32 kend t q). }
  assert (Hp : frame e :: l ++ pages pgdir T (delete (a / 4096) U) ++ X
               ≡ₚ l ++ pages pgdir T U ++ X).
  { unfold pages. rewrite (uframes_delete U (a / 4096) e) by done. solve_Permutation. }
  split; [split|].
  - eapply kmem_ok_frame; [exact Hk1|done|]. cbn [mem set_mem].
    intros q Hq. apply (same_page_st32 kend t q); [done| |done|].
    + by apply (km_pages _ _ _ Hk1).
    + intros ->. apply elem_of_cons in Hq as [->|]; done.
  - cbn [mem set_mem].
    assert (A1 : aspace (mem s1) pgdir T U).
    { eapply aspace_frame; [apply V|]. intros q Hq. apply Hs1.
      - apply elem_of_cons in Hq as [->|Hq]; [by apply (vo_pgdir _ _ _ _ _ _ _ V)|].
        by apply (vo_tabs _ _ _ _ _ _ _ V).
      - intros ->. done. }
    pose proof (aspace_set_pte kend _ _ _ _ (a / 4194304) t (a / 4096 mod 1024) 0 A1 Ht) as A2.
    cbn [Z.eqb] in A2.
    replace (1024 * (a / 4194304) + a / 4096 mod 1024) with (a / 4096) in A2
      by (unfold KERNBASE in *; lia).
    apply A2; [lia|by apply (vo_pgdir _ _ _ _ _ _ _ V)|by apply (vo_tabs_nodup _ _ _ _ _ _ _ V)
      | |by left].
    intros q Hq. destruct (vo_tabs _ _ _ _ _ _ _ V q Hq) as (? & ? & _). done.
  - cbn [app]. rewrite Hp. apply V.
  - intros q Hq. destruct (decide (q ∈ pages pgdir T U ++ X)) as [Hq'|Hq'];
      [by apply (vo_pages _ _ _ _ _ _ _ V)|].
    exfalso. apply Hq'. apply elem_of_app in Hq as [Hq|Hq]; apply elem_of_app; [left|by right].
    unfold pages in *. rewrite (uframes_delete U (a / 4096) e) by done. set_solver.
  - split; [|by cbn|by cbn]. intros q Hq Hni. cbn [mem set_mem]. apply Hs2; [done|..].
    + intros ->. apply Hni. constructor. apply elem_of_app. by left.
    + intros ->. apply Hni. constructor. apply elem_of_app. right. constructor.
Qed.

Context (Hkend : KERNLINK <= kend).

(** One round of [deallocuvm]: the page goes, or there is none up to the end of
    the directory entry. *)
Lemma dealloc_page_spec s l pgdir T U X a :
  vm_ok s l pgdir T U X -> 0 <= a < KERNBASE -> a mod 4096 = 0 ->
  exists s' a' freed, dealloc_page kend pgdir a s = Ok a' s'
    /\ a <= a' < KERNBASE /\ a' mod 4096 = 0
    /\ vm_ok s' (freed ++ l) pgdir T (cut (a / 4096) (a' / 4096 + 1) U) X
    /\ freed ++ uframes (cut (a / 4096) (a' / 4096 + 1) U) ≡ₚ uframes U
    /\ kept (pgdir :: tabs T ++ freed) s s'
    /\ (a' = a \/ forall n, a / 4096 <= n <= a' / 4096 -> U !! n = None).
Proof.
  intros V Ha Hal. assert (Hva : 0 <= a < 2 ^ 32) by (unfold KERNBASE in *; lia).
  assert (Hcut : cut (a / 4096) (a / 4096 + 1) U = delete (a / 4096) U)
    by (rewrite cut_succ by lia; by rewrite cut_empty).
  unfold dealloc_page. destruct (T !! (a / 4194304)) as [t|] eqn:Et.
  - assert (Hin : t ∈ tabs T) by (apply elem_of_tabs; eauto).
    destruct (vo_tabs _ _ _ _ _ _ _ V t Hin) as (Hpt & Htg & Htl).
    destruct (page_word kend t (PTX a) Hpt) as [Hiw Hw]; [rewrite PTX_eq; lia|].
    unfold mbind at 1, M_bind at 1. rewrite (walk_present _ _ _ _ _ _ _ V a t) by done.
    rewrite (proj2 (Z.eqb_neq _ 0)) by (unfold page_ok, KERNBASE in Hpt; rewrite PTX_eq; lia).
    unfold mbind at 1, M_bind at 1, kload. rewrite Hw.
    rewrite (as_pte _ _ _ _ (vo_as _ _ _ _ _ _ _ V) _ _ _ Et) by (rewrite PTX_eq; lia).
    replace (1024 * (a / 4194304) + PTX a) with (a / 4096) by (rewrite PTX_eq; lia).
    destruct (U !! (a / 4096)) as [e|] eqn:Eu; cbn [from_option id].
    + destruct (as_dom _ _ _ _ (vo_as _ _ _ _ _ _ _ V) _ _ Eu) as (_ & _ & ->).
      assert (Hn : a / 4096 < UPAGES) by (unfold UPAGES, KERNBASE, PGSIZE in *; lia).
      destruct (vo_frame _ _ _ _ _ _ _ _ V Eu Hn) as (Hf & _ & _).
      destruct (Z.eqb_spec (PTE_ADDR e) 0) as [E0|_].
      { exfalso. unfold frame in Hf. rewrite E0 in Hf. unfold page_ok, KERNLINK, EXTMEM in *.
        change (P2V 0) with KERNBASE in Hf. lia. }
      destruct (free_entry _ _ _ _ _ _ _ _ _ V Ha Et Eu) as (s' & E' & V' & K').
      unfold frame in E' at 1. exists s', a, [frame e].
      unfold mbind at 1, M_bind at 1. rewrite E', Hcut. split_and!; try done; try lia.
      cbn [app]. symmetry. by apply uframes_delete.
    + change (has PTE_P 0) with false. cbv iota. exists s, a, [].
      rewrite Hcut, delete_id by done. split_and!; try done; lia.
  - unfold mbind, M_bind. rewrite (walk_absent _ _ _ _ _ _ _ V a) by done.
    cbn [Z.eqb]. assert (Hnone : forall n, n / 1024 = a / 4194304 -> U !! n = None).
    { intros n Hn. destruct (U !! n) as [e|] eqn:Eu; [|done].
      destruct (as_dom _ _ _ _ (vo_as _ _ _ _ _ _ _ V) _ _ Eu) as (_ & [t Ht] & _).
      rewrite Hn in Ht. congruence. }
    assert (Ea : u32 (PGADDR (PDX a + 1) 0 0 - PGSIZE) = (a / 4194304 + 1) * 4194304 - 4096).
    { unfold PGADDR. rewrite !Z.shiftl_0_l, !Z.lor_0_r, PDX_eq by done.
      rewrite Z.shiftl_mul_pow2 by lia. change (2 ^ 22) with 4194304.
      unfold PGSIZE, KERNBASE in *. rewrite (u32_small ((a / 4194304 + 1) * 4194304)) by lia.
      rewrite u32_small; lia. }
    rewrite Ea. exists s, ((a / 4194304 + 1) * 4194304 - 4096), [].
    assert (Ecut : cut (a / 4096) (((a / 4194304 + 1) * 4194304 - 4096) / 4096 + 1) U = U).
    { rewrite <-(cut_empty (a / 4096) U) at 2. apply cut_absent; [lia|].
      intros x Hx. apply Hnone. lia. }
    rewrite Ecut. unfold KERNBASE in *. split_and!; try done; try lia.
    right. intros n Hn. apply Hnone. lia.
Qed.

(** [deallocuvm] removes exactly the user pages from [newsz] up to [oldsz] and
    frees their frames. *)
Definition pgs (sz : Z) : Z := (sz + 4095) / 4096.

Lemma deallocuvm_spec s l pgdir T U X oldsz newsz :
  vm_ok s l pgdir T U X -> 0 <= newsz < oldsz -> oldsz <= KERNBASE ->
  exists s' freed, deallocuvm kend pgdir oldsz newsz s = Ok newsz s'
    /\ vm_ok s' (freed ++ l) pgdir T (cut (pgs newsz) (pgs oldsz) U) X
    /\ freed ++ uframes (cut (pgs newsz) (pgs oldsz) U) ≡ₚ uframes U
    /\ kept (pgdir :: tabs T ++ freed) s s'.
Proof.
  intros V Hsz Hold. unfold deallocuvm. rewrite (proj2 (Z.leb_gt oldsz newsz)) by lia.
  set (U' a := cut (pgs newsz) (Z.min (a / 4096) (pgs oldsz)) U).
  set (I := fun a s' => exists freed, PGROUNDUP newsz <= a <= KERNBASE /\ a mod 4096 = 0
    /\ vm_ok s' (freed ++ l) pgdir T (U' a) X /\ freed ++ uframes (U' a) ≡ₚ uframes U
    /\ kept (pgdir :: tabs T ++ freed) s s').
  assert (Hlo : PGROUNDUP newsz = 4096 * pgs newsz)
    by (rewrite PGROUNDUP_eq; unfold pgs, KERNBASE in *; lia).
  enough (Hwp : wp (loop (S (Z.to_nat (oldsz / PGSIZE + 1))) (fun a =>
      if a <? oldsz then a ← dealloc_page kend pgdir a; mret (inl (u32 (a + PGSIZE)))
      else mret (inr newsz)) (PGROUNDUP newsz))
    (fun r s' => r = newsz /\ exists freed,
      vm_ok s' (freed ++ l) pgdir T (cut (pgs newsz) (pgs oldsz) U) X
      /\ freed ++ uframes (cut (pgs newsz) (pgs oldsz) U) ≡ₚ uframes U
      /\ kept (pgdir :: tabs T ++ freed) s s') s).
  { apply wp_run in Hwp as (r & s' & E & -> & freed & H). by exists s', freed. }
  apply wp_loop with (I := I) (mu := fun a => Z.to_nat ((oldsz - a + 4095) / 4096)).
  - exists []. assert (EU : U' (PGROUNDUP newsz) = U).
    { unfold U'. rewrite Hlo. replace (4096 * pgs newsz / 4096) with (pgs newsz) by lia.
      rewrite Z.min_l by (unfold pgs; lia). apply cut_empty. }
    rewrite EU. split_and!; try done; unfold pgs, KERNBASE in *; lia.
  - rewrite Hlo. unfold pgs, PGSIZE. lia.
  - intros a s1 (freed & Ha & Hal & V1 & P1 & K1).
    assert (Ha0 : 0 <= a) by (rewrite Hlo in Ha; unfold pgs in Ha; lia).
    destruct (Z.ltb_spec a oldsz) as [Hlt|Hge].
    + destruct (dealloc_page_spec _ _ _ _ _ _ a V1) as (s2 & a' & fr & E & Ha' & Hal' & V2 & P2 & K2 & Hor);
        [lia|done|].
      unfold mbind, M_bind, wp. rewrite E. unfold mret, M_ret, PGSIZE.
      rewrite u32_small by (unfold KERNBASE in *; lia).
      assert (EU : cut (a / 4096) (a' / 4096 + 1) (U' a) = U' (a' + 4096)).
      { apply map_eq. intros n. unfold U'. rewrite !lookup_cut.
        unfold pgs in *. destruct Hor as [->|Hnone].
        - repeat case_decide; done || lia.
        - repeat case_decide; try done; try lia.
          all: specialize (Hnone n); unfold U' in Hnone; rewrite lookup_cut in Hnone;
            rewrite decide_False in Hnone by (unfold pgs; lia).
          all: try (symmetry; apply Hnone; lia); try (apply Hnone; lia). }
      split; [|lia]. exists (fr ++ freed). rewrite <-EU.
      split_and!; [lia|unfold KERNBASE in *; lia|lia| | |].
      * by rewrite <-app_assoc.
      * rewrite <-P1, <-P2. solve_Permutation.
      * eapply kept_trans; [exact K1|exact K2|..]; intros q Hq; set_solver.
    + split; [done|]. exists freed. assert (EU : U' a = cut (pgs newsz) (pgs oldsz) U).
      { unfold U'. rewrite Z.min_r; [done|]. unfold pgs. lia. }
      by rewrite EU in *.
Qed.

Lemma tabs_omap T :
  (forall d t, T !! d = Some t -> 0 <= d < 1024) ->
  tabs T ≡ₚ omap (fun d => T !! d) (seqZ 0 1024).
Proof.
  intros Hd. unfold tabs.
  assert (E : map_to_list T ≡ₚ omap (fun d => pair d <$> T !! d) (seqZ 0 1024)).
  { apply NoDup_Permutation; [apply NoDup_map_to_list| |].
    - apply (NoDup_fmap_1 fst). assert (Hf : forall l : list Z,
        (omap (fun d => pair d <$> T !! d) l).*1 = filter (fun d => is_Some (T !! d)) l).
      { induction l as [|x l IH]; [done|]. rewrite filter_cons. cbn [omap list_omap].
        destruct (T !! x) eqn:Ex; cbn [fmap option_fmap option_map].
        - rewrite decide_True by eauto. cbn. by rewrite <-IH.
        - rewrite decide_False by (by intros []). done. }
      rewrite Hf. apply NoDup_filter, NoDup_seqZ.
    - intros [d t]. rewrite elem_of_map_to_list, list_elem_of_omap. split.
      + intros Ht. exists d. split; [apply elem_of_seqZ; specialize (Hd _ _ Ht); lia|].
        by rewrite Ht.
      + intros (x & _ & Hx). destruct (T !! x) eqn:Ex; [|done]. by injection Hx as -> ->. }
  rewrite E. clear. induction (seqZ 0 1024) as [|x l IH]; [done|].
  cbn [omap list_omap]. destruct (T !! x); cbn; by rewrite <-IH.
Qed.

(** Freeing the page tables. *)
Lemma free_tables s l pgdir T U X :
  vm_ok s l pgdir T U X ->
  exists s' fr, forM (seqZ 0 NPDENTRIES) (fun i =>
      e ← kload (pgdir + 4 * i);
      if has PTE_P e then kfree kend (P2V (PTE_ADDR e)) else mret tt) s = Ok tt s'
    /\ kmem_ok kend s' (fr ++ l) /\ fr ≡ₚ tabs T /\ kept fr s s'.
Proof.
  intros V. pose proof (vo_pgdir _ _ _ _ _ _ _ V) as Hg.
  enough (Hwp : wp (forM (seqZ 0 NPDENTRIES) (fun i =>
      e ← kload (pgdir + 4 * i);
      if has PTE_P e then kfree kend (P2V (PTE_ADDR e)) else mret tt))
    (fun _ s' => exists fr, kmem_ok kend s' (fr ++ l)
       /\ fr ≡ₚ omap (fun d => T !! d) (seqZ 0 1024) /\ kept fr s s') s).
  { apply wp_run in Hwp as ([] & s' & E & fr & Hk & P & K). exists s', fr. split_and!; try done.
    rewrite P. symmetry. apply tabs_omap. apply (as_tab _ _ _ _ (vo_as _ _ _ _ _ _ _ V)). }
  apply wp_forM with (I := fun dn s' => exists fr, kmem_ok kend s' (fr ++ l)
       /\ fr ≡ₚ omap (fun d => T !! d) dn /\ kept fr s s').
  - exists []. split_and!; [apply V|done|done].
  - intros dn x rest s1 Hl (fr & Hk & P & K).
    assert (Hx : 0 <= x < 1024).
    { assert (H : x ∈ seqZ 0 NPDENTRIES) by (rewrite Hl; apply elem_of_app; right; constructor).
      by apply elem_of_seqZ in H. }
    assert (Hnx : x ∉ dn).
    { pose proof (NoDup_seqZ 0 NPDENTRIES) as Hn. rewrite Hl in Hn.
      apply NoDup_app in Hn as (_ & Hd & _). intros H. apply (Hd x H). constructor. }
    assert (Hfr : forall q, q ∈ fr -> q ∈ tabs T).
    { intros q. rewrite P, list_elem_of_omap. intros (d & _ & Hd). apply elem_of_tabs. eauto. }
    assert (Hsg : same_page pgdir (mem s) (mem s1)).
    { apply (kp_same _ _ _ _ K); [done|]. intros Hin%Hfr.
      by destruct (vo_tabs _ _ _ _ _ _ _ V _ Hin) as (_ & ? & _). }
    destruct (page_word kend pgdir x Hg Hx) as [Hin Hw].
    unfold mbind, M_bind, wp, kload. rewrite Hw, (Hsg _ Hin).
    rewrite (as_pde _ _ _ _ (vo_as _ _ _ _ _ _ _ V)) by done.
    rewrite omap_app. cbn [omap list_omap]. destruct (T !! x) as [t|] eqn:Et.
    + assert (Ht : t ∈ tabs T) by (apply elem_of_tabs; eauto).
      destruct (vo_tabs _ _ _ _ _ _ _ V t Ht) as (Hpt & Htg & Htl).
      destruct (pde_flags kend t Hpt) as (_ & -> & ->).
      destruct (kfree_spec kend s1 (fr ++ l) t Hk Hpt) as (s2 & -> & Hk2 & Hs2 & Ep & Ec).
      { intros [Hf|Hf]%elem_of_app; [|done]. rewrite P, list_elem_of_omap in Hf.
        destruct Hf as (d & Hd & Htd).
        assert (d = x) as -> by (eapply tabs_inj; [by apply (vo_tabs_nodup _ _ _ _ _ _ _ V)|done|done]).
        done. }
      exists (t :: fr). split_and!; [done|rewrite P; apply Permutation_cons_append|].
      destruct K as [K1 K2 K3]. split; [|congruence|congruence].
      intros q Hq [Hq1 Hq2]%not_elem_of_cons. etransitivity; [by apply K1|]. by apply Hs2.
    + change (has PTE_P 0) with false. cbv iota. exists fr. by rewrite app_nil_r.
  - done.
Qed.

(** [freevm] gives back every page of the address space. *)
Lemma freevm_spec s l pgdir T U X :
  vm_ok s l pgdir T U X ->
  exists s' l', freevm kend pgdir s = Ok tt s' /\ kmem_ok kend s' l'
    /\ l' ≡ₚ l ++ pages pgdir T U /\ kept (pages pgdir T U) s s'.
Proof.
  intros V. unfold freevm.
  rewrite (proj2 (Z.eqb_neq pgdir 0)) by (apply (page_nonzero kend), (vo_pgdir _ _ _ _ _ _ _ V)).
  destruct (deallocuvm_spec _ _ _ _ _ _ KERNBASE 0 V) as (s1 & freed & E1 & V1 & P1 & K1);
    [unfold KERNBASE; lia|done|].
  change (pgs 0) with 0 in *. change (pgs KERNBASE) with UPAGES in *.
  assert (Eu : uframes (cut 0 UPAGES U) = []).
  { destruct (uframes (cut 0 UPAGES U)) as [|q qs] eqn:E; [done|]. exfalso.
    assert (Hq : q ∈ uframes (cut 0 UPAGES U)) by (rewrite E; constructor).
    apply elem_of_uframes in Hq as (n & e & Hn & Hu & _).
    destruct (as_dom _ _ _ _ (vo_as _ _ _ _ _ _ _ V1) _ _ Hn) as (? & _).
    rewrite lookup_cut, decide_True in Hn by lia. done. }
  rewrite Eu, app_nil_r in P1.
  destruct (free_tables _ _ _ _ _ _ V1) as (s2 & fr & E2 & Hk2 & P2 & K2).
  destruct (kfree_spec kend s2 _ pgdir Hk2 (vo_pgdir _ _ _ _ _ _ _ V)) as (s3 & E3 & Hk3 & Hs3 & Ep & Ec).
  { intros [Hf|Hf]%elem_of_app.
    - rewrite P2 in Hf. by destruct (vo_tabs _ _ _ _ _ _ _ V _ Hf) as (_ & ? & _).
    - by apply (vo_pgdir_free _ _ _ _ _ _ _ V1). }
  exists s3, (pgdir :: fr ++ freed ++ l). 
  rewrite (bind_Ok _ _ _ _ _ E1), (bind_Ok _ _ _ _ _ E2), E3.
  split_and!; [done|done| |].
  - unfold pages. rewrite P2, P1. solve_Permutation.
  - assert (K3 : kept [pgdir] s2 s3).
    { split; [|done|done]. intros q Hq Hn. apply Hs3; [done|]. intros ->. apply Hn. constructor. }
    unfold pages. eapply kept_trans; [eapply kept_trans; [exact K1|exact K2|..]|exact K3|..].
    4: intros q ->%list_elem_of_singleton; constructor.
    3: reflexivity.
    + intros q. rewrite P1. done.
    + intros q. rewrite P2. intros Hq. constructor. apply elem_of_app. by left.
Qed.

(** ** The kernel part *)

(** The page numbers that [kmap] covers. *)
Definition kernel_page (n : Z) : Prop :=
  UPAGES <= n < UPAGES + PHYSTOP / PGSIZE \/ DEVSPACE / PGSIZE <= n < 1048576.

Lemma tabs_kernel_bound T U :
  tight T U -> (forall n, is_Some (U !! n) -> kernel_page n) -> (length (tabs T) <= 64)%nat.
Proof.
  intros Ht Hk. unfold tabs. rewrite length_fmap, <-(length_fmap fst).
  change 64%nat with (length (seqZ 512 56 ++ seqZ 1016 8)).
  apply submseteq_length, NoDup_submseteq; [apply NoDup_fst_map_to_list|].
  intros d ([d' t] & -> & Hin)%list_elem_of_fmap. apply elem_of_map_to_list in Hin.
  destruct (Ht d') as (n & Hn & <-); [eauto|]. apply Hk in Hn. cbn [fst].
  rewrite elem_of_app, !elem_of_seqZ. unfold kernel_page in Hn.
  change UPAGES with 524288 in Hn. change (PHYSTOP / PGSIZE) with 57344 in Hn.
  change (DEVSPACE / PGSIZE) with 1040384 in Hn. lia.
Qed.

(** A page directory under construction, and the state after giving up. *)
Definition building (s0 : vst) (l0 X : list Z) (pgdir : Z) (U : gmap Z Z) (s : vst) : Prop :=
  exists l T used, vm_ok s l pgdir T U X /\ tight T U /\ l0 = used ++ l
    /\ used ≡ₚ pgdir :: tabs T /\ kept used s0 s /\ (forall n, is_Some (U !! n) -> kernel_page n).
Definition gave_up (s0 : vst) (l0 : list Z) (s : vst) : Prop :=
  exists l, kmem_ok kend s l /\ l ≡ₚ l0 /\ kept l0 s0 s /\ (length l0 <= 65)%nat.

Lemma kernel_no_frames U : (forall n, is_Some (U !! n) -> kernel_page n) -> uframes U = [].
Proof.
  intros Hk. destruct (uframes U) as [|q qs] eqn:E; [done|]. exfalso.
  assert (Hq : q ∈ uframes U) by (rewrite E; constructor).
  apply elem_of_uframes in Hq as (n & e & Hn & Hu & _).
  destruct (Hk n) as [?|?]; [eauto|lia|]. change (DEVSPACE / PGSIZE) with 1040384 in *.
  change UPAGES with 524288 in *. lia.
Qed.

Lemma kmap_step s0 l0 X pgdir U s va pa pe perm size fl :
  building s0 l0 X pgdir U s -> u32 (pe - pa) = size -> Z.lor perm PTE_P = fl ->
  KERNBASE <= va -> va mod 4096 = 0 -> pa mod 4096 = 0 ->
  0 <= pa -> 0 < size -> size mod 4096 = 0 ->
  va + size <= 2 ^ 32 -> pa + size <= 2 ^ 32 -> 0 <= perm < 4096 ->
  (forall n, va / 4096 <= n < va / 4096 + size / 4096 -> U !! n = None /\ kernel_page n) ->
  exists r s', (r ← mappages pgdir va (u32 (pe - pa)) pa perm;
       if r <? 0 then freevm kend pgdir ;; mret (Some 0) else mret None) s = Ok r s'
    /\ (r = None /\ building s0 l0 X pgdir
          (map_range (Z.to_nat (size / 4096)) (va / 4096) pa fl U) s'
        \/ r = Some 0 /\ gave_up s0 l0 s').
Proof.
  intros (l & T & used & V & Ti & -> & Pu & K & Hk) -> <- Hva Hal Hpa Hpa0 Hs0 Hs Htop Hptop Hperm Hn.
  destruct (mappages_kernel kend s l pgdir T U X va size pa perm)
    as (r & s1 & l1 & T1 & k & E1 & V1 & (new & -> & Pn & Hsub) & K1 & Ti1 & Hr); try done; try lia.
  { intros n H. by apply Hn. }
  set (U1 := map_range k (va / 4096) pa (Z.lor perm PTE_P) U) in *.
  assert (Hk1 : forall n, is_Some (U1 !! n) -> kernel_page n).
  { intros n. unfold U1. rewrite lookup_map_range. case_decide; [|by apply Hk]. intros _.
    apply Hn. lia. }
  assert (Pu1 : used ++ new ≡ₚ pgdir :: tabs T1) by (rewrite Pn, Pu; solve_Permutation).
  assert (K1' : kept (used ++ new) s0 s1).
  { eapply kept_trans; [exact K|exact K1|..]; intros q Hq; [apply elem_of_app; by left|].
    by rewrite Pu1. }
  rewrite (bind_Ok _ _ _ _ _ E1). destruct Hr as [[-> Hkn]|(-> & -> & Hlt)].
  - exists None, s1. split; [done|]. left. split; [done|].
    replace (Z.to_nat (size / 4096)) with k by lia.
    exists l1, T1, (used ++ new). split_and!; try done. by rewrite app_assoc.
  - destruct (freevm_spec _ _ _ _ _ _ V1) as (s2 & l2 & E2 & Hk2 & P2 & K2).
    cbn [Z.ltb Z.compare]. rewrite (bind_Ok _ _ _ _ _ E2). exists (Some 0), s2.
    split; [done|]. right. split; [done|].
    assert (P3 : l2 ≡ₚ used ++ new).
    { rewrite P2. unfold pages. rewrite (kernel_no_frames U1), app_nil_r by done. by rewrite Pu1. }
    exists l2. rewrite app_nil_r. split_and!; [done|done| |].
    + eapply kept_trans; [exact K1'|exact K2|done|].
      intros q Hq. rewrite <-P3, P2. apply elem_of_app. by right.
    + rewrite Pu1. cbn [length]. pose proof (tabs_kernel_bound T1 U1 Ti1 Hk1). lia.
Qed.

(** The entry of page number [n] in the kernel part: low memory and the kernel's
    data writable, its code read-only, the devices at their own addresses. *)
Definition kentry (n : Z) : option Z :=
  if decide (UPAGES <= n < KERNLINK / PGSIZE) then Some (PGSIZE * (n - UPAGES) + 3)
  else if decide (KERNLINK / PGSIZE <= n < kdata / PGSIZE) then Some (PGSIZE * (n - UPAGES) + 1)
  else if decide (kdata / PGSIZE <= n < UPAGES + PHYSTOP / PGSIZE)
    then Some (PGSIZE * (n - UPAGES) + 3)
  else if decide (DEVSPACE / PGSIZE <= n < 1048576) then Some (PGSIZE * n + 3)
  else None.

Context (Hkdata : kdata mod 4096 = 0 /\ KERNLINK < kdata < KERNBASE + PHYSTOP).

Lemma vm_ok_new_dir s l p X m s1 :
  kmem_ok kend s l -> NoDup (l ++ p :: X) -> page_ok kend p -> (forall q, q ∈ X -> page_ok kend q) ->
  m = memset_page p 0 (mem s) -> s1 = set_mem m s ->
  vm_ok s1 l p ∅ ∅ X /\ kept [p] s s1.
Proof.
  intros Hk Hnd Hp HX -> ->.
  assert (Hs : forall q, page_ok kend q -> q <> p -> same_page q (mem s) (memset_page p 0 (mem s))).
  { intros q Hq Hne a Ha. apply (ld32_memset_out kend p q); done || congruence. }
  split; [split|].
  - eapply kmem_ok_frame; [exact Hk|done|]. intros q Hq. apply Hs; [by apply (km_pages _ _ _ Hk)|].
    intros ->. apply NoDup_app in Hnd as (_ & Hd & _). apply (Hd p Hq). constructor.
  - split.
    + intros d Hd. rewrite lookup_empty. cbn [mem set_mem].
      rewrite ld32_memset_in; [done| |apply Hp|apply Hp]. by apply (page_word kend).
    + intros d t H. by rewrite lookup_empty in H.
    + intros d t j H. by rewrite lookup_empty in H.
    + intros n e H. by rewrite lookup_empty in H.
  - done.
  - intros q [->|Hq]%elem_of_cons; [done|by apply HX].
  - split; [|done|done]. intros q Hq Hn. apply Hs; [done|]. intros ->. apply Hn. constructor.
Qed.

(** The map of the whole kernel part, in the order of [kmap]. *)
Definition kernel_map : gmap Z Z :=
  map_range (Z.to_nat ((0x100000000 - DEVSPACE) / 4096)) (DEVSPACE / 4096) DEVSPACE 3
  (map_range (Z.to_nat ((KERNBASE + PHYSTOP - kdata) / 4096)) (kdata / 4096) (V2P kdata) 3
  (map_range (Z.to_nat ((kdata - KERNLINK) / 4096)) (KERNLINK / 4096) EXTMEM 1
  (map_range (Z.to_nat (EXTMEM / 4096)) (KERNBASE / 4096) 0 3 ∅))).

Lemma kernel_map_entry n : kernel_map !! n = kentry n.
Proof.
  unfold kernel_map. rewrite !lookup_map_range, lookup_empty. unfold kentry.
  rewrite (V2P_small kdata) by (unfold KERNLINK, EXTMEM in *; lia).
  destruct Hkdata as [Hm Hr]. unfold KERNLINK, KERNBASE, EXTMEM, PHYSTOP, DEVSPACE, PGSIZE in *.
  assert (exists kd, kdata = 4096 * kd) as [kd ->] by (exists (kdata / 4096); lia). clear Hm.
  rewrite !(Z.mul_comm 4096 kd), Z.div_mul by lia.
  replace ((2147483648 + 234881024 - kd * 4096) / 4096) with (581632 - kd) by lia.
  replace ((kd * 4096 - (2147483648 + 1048576)) / 4096) with (kd - 524544) by lia.
  change UPAGES with 524288. assert (Hk : 524544 < kd < 581632) by lia. clear Hr Hkend.
  change ((4294967296 - 4261412864) / 4096) with 8192. change (1048576 / 4096) with 256.
  change (4261412864 / 4096) with 1040384. change (2147483648 / 4096) with 524288.
  change ((2147483648 + 1048576) / 4096) with 524544. change (234881024 / 4096) with 57344.
  rewrite !Z2Nat.id by lia.
  assert (n < 524288 \/ 524288 <= n < 524544 \/ 524544 <= n < kd \/ kd <= n < 581632
    \/ 581632 <= n < 1040384 \/ 1040384 <= n < 1048576 \/ 1048576 <= n) as Hc by lia.
  destruct Hc as [?|[?|[?|[?|[?|[?|?]]]]]];
    repeat (rewrite decide_False by lia); try rewrite decide_True by lia;
    repeat (rewrite decide_False by lia); try rewrite decide_True by lia; done || (f_equal; lia).
Qed.

Ltac unfold_layout := unfold KERNLINK, EXTMEM, KERNBASE, PHYSTOP, DEVSPACE in *.
Ltac kmap_side :=
  lazymatch goal with
  | |- forall _, _ => fail
  | |- u32 _ = _ => rewrite ?V2P_small by (unfold_layout; lia); unfold_layout; rewrite u32_small; lia
  | |- _ => first [done | rewrite ?V2P_small by (unfold_layout; lia); unfold_layout; lia]
  end.

Lemma setupkvm_spec s l X :
  kmem_ok kend s l -> NoDup (l ++ X) -> (forall q, q ∈ X -> page_ok kend q) ->
  exists r s', setupkvm kend kdata s = Ok r s'
    /\ (r = 0 /\ gave_up s l s' \/ building s l X r kernel_map s').
Proof.
  intros Hk Hnd HX. unfold setupkvm.
  pose proof (kalloc_spec kend s l Hk) as Ha. destruct l as [|p l].
  { exists 0, s. unfold mbind, M_bind. rewrite Ha. split; [done|]. left. split; [done|].
    exists []. split_and!; done || (cbn; lia). }
  destruct Ha as (s1 & E1 & Hk1 & Em & Ep & Ec). rewrite (bind_Ok _ _ _ _ _ E1).
  assert (Hp : page_ok kend p) by (apply (km_pages _ _ _ Hk); constructor).
  rewrite (proj2 (Z.eqb_neq p 0)) by (by apply (page_nonzero kend)).
  destruct (page_word kend p 0 Hp) as [_ Hw]; [lia|]. rewrite Z.mul_0_r, Z.add_0_r in Hw.
  set (s2 := set_mem (memset_page p 0 (mem s1)) s1).
  assert (E2 : kmemset p 0 s1 = Ok tt s2) by (unfold kmemset; by rewrite Hw).
  rewrite (bind_Ok _ _ _ _ _ E2). change (DEVSPACE <? P2V PHYSTOP) with false. cbv iota.
  destruct (vm_ok_new_dir s1 l p X (memset_page p 0 (mem s1)) s2 Hk1) as [V2 K2]; try done.
  { cbn [app] in Hnd. by rewrite <-Permutation_middle. }
  assert (B0 : building s (p :: l) X p ∅ s2).
  { exists l, ∅, [p]. split_and!; try done.
    - intros d [t Ht]. by rewrite lookup_empty in Ht.
    - eapply kept_trans; [|exact K2|done|done]. split; [|done|done]. intros q _ _. by rewrite Em.
    - intros n [e He]. by rewrite lookup_empty in He. }
  enough (Hl : exists r s', forR (kmap kdata) (fun '(virt, phys_start, phys_end, perm) =>
       r ← mappages p virt (u32 (phys_end - phys_start)) phys_start perm;
       if r <? 0 then freevm kend p ;; mret (Some 0) else mret None) s2 = Ok r s'
     /\ (r = Some 0 /\ gave_up s (p :: l) s' \/ r = None /\ building s (p :: l) X p kernel_map s')).
  { destruct Hl as (r & s' & E & Hr). unfold mbind at 1, M_bind at 1. cbn [mret M_ret].
    rewrite (bind_Ok _ _ _ _ _ E). exists (default p r), s'. split; [done|].
    destruct Hr as [[-> ?]|[-> ?]]; [by left|by right]. }
  clearbody s2. clear E1 E2 V2 K2. unfold kmap.
  assert (Ev : V2P kdata = kdata - KERNBASE) by (apply V2P_small; unfold KERNLINK, EXTMEM in *; lia).
  assert (Hkp : forall n, 524288 <= n < 581632 -> kernel_page n) by (left; done).
  assert (Hdp : forall n, 1040384 <= n < 1048576 -> kernel_page n) by (right; done).
  destruct Hkdata as [Hm Hr].
  destruct (kmap_step _ _ _ _ _ _ KERNBASE 0 EXTMEM PTE_W EXTMEM 3 B0) as (r1 & s3 & E3 & Hr1);
    [done..| |].
  { intros n Hn. split; [apply lookup_empty|]. apply Hkp. unfold KERNBASE, EXTMEM in *. lia. }
  erewrite forR_step by exact E3. destruct Hr1 as [[-> B1]|[-> G]]; [|exists (Some 0), s3; auto].
  change (V2P KERNLINK) with EXTMEM.
  destruct (kmap_step _ _ _ _ _ _ KERNLINK EXTMEM (V2P kdata) 0 (kdata - KERNLINK) 1 B1)
    as (r2 & s4 & E4 & Hr2); [kmap_side..| |].
  { intros n Hn. rewrite lookup_map_range, lookup_empty. unfold_layout.
    rewrite decide_False by lia. split; [done|]. apply Hkp. lia. }
  erewrite forR_step by exact E4. destruct Hr2 as [[-> B2]|[-> G]]; [|exists (Some 0), s4; auto].
  destruct (kmap_step _ _ _ _ _ _ kdata (V2P kdata) PHYSTOP PTE_W (KERNBASE + PHYSTOP - kdata) 3 B2)
    as (r3 & s5 & E5 & Hr3); [kmap_side..| |].
  { intros n Hn. rewrite !lookup_map_range, lookup_empty. unfold_layout.
    rewrite !decide_False by lia. split; [done|]. apply Hkp. lia. }
  erewrite forR_step by exact E5. destruct Hr3 as [[-> B3]|[-> G]]; [|exists (Some 0), s5; auto].
  destruct (kmap_step _ _ _ _ _ _ DEVSPACE DEVSPACE 0 PTE_W (0x100000000 - DEVSPACE) 3 B3)
    as (r4 & s6 & E6 & Hr4); [done..| |].
  { intros n Hn. rewrite !lookup_map_range, lookup_empty. unfold_layout.
    rewrite !decide_False by lia. split; [done|]. apply Hdp. lia. }
  erewrite forR_step by exact E6. destruct Hr4 as [[-> B4]|[-> G]]; [|exists (Some 0), s6; auto].
  exists None, s6. auto.
Qed.


(** C29: [setupkvm] builds the kernel part of an address space.  It returns; either
    there were at most 65 free pages, it returns 0 and every page is free again;
    or it returns a page directory in which the hardware finds, for every
    virtual address, exactly the mapping of [kmap] (user addresses unmapped,
    nothing accessible to user mode).  Pages in use are not written. *)
Theorem setupkvm_maps_kernel s l :
  kmem_ok kend s l ->
  exists r s', setupkvm kend kdata s = Ok r s'
    /\ (forall q, page_ok kend q -> q ∉ l -> same_page q (mem s) (mem s'))
    /\ (r = 0 /\ (length l <= 65)%nat /\ (exists l', kmem_ok kend s' l' /\ l' ≡ₚ l)
        \/ page_ok kend r
           /\ (forall va, 0 <= va < 2 ^ 32 -> xlate (mem s') r va = kentry (va / 4096))
           /\ exists used l', l = used ++ l' /\ r ∈ used /\ kmem_ok kend s' l').
Proof.
  intros Hk. destruct (setupkvm_spec s l [] Hk) as (r & s' & E & Hr).
  { rewrite app_nil_r. apply Hk. } { intros q Hq. by apply not_elem_of_nil in Hq. }
  exists r, s'. split; [done|].
  destruct Hr as [[-> (l' & Hk' & P & K & Hc)]|(l' & T & used & V & _ & -> & Pu & K & _)].
  - split; [apply K|]. left. split_and!; [done|done|]. by exists l'.
  - split.
    { intros q Hq [Hn _]%not_elem_of_app. by apply (kp_same _ _ _ _ K). }
    right. split_and!.
    + apply (vo_pgdir _ _ _ _ _ _ _ V).
    + intros va Hva. rewrite (vo_xlate _ _ _ _ _ _ _ V) by done. by apply kernel_map_entry.
    + exists used, l'. split_and!; [done| |apply V]. rewrite Pu. constructor.
Qed.

(** ** Pages in hand *)

Lemma vm_ok_kalloc s l pgdir T U X :
  vm_ok s l pgdir T U X ->
  match l with
  | [] => kalloc s = Ok 0 s
  | p :: l' => exists s', kalloc s = Ok p s' /\ vm_ok s' l' pgdir T U (p :: X)
                 /\ kept [] s s' /\ page_ok kend p
  end.
Proof.
  intros V. pose proof (kalloc_spec kend s l (vo_kmem _ _ _ _ _ _ _ V)) as Hk.
  destruct l as [|p l]; [done|]. destruct Hk as (s' & E & Hk & Em & Ep & Ec).
  assert (Hp : page_ok kend p) by (apply (km_pages _ _ _ (vo_kmem _ _ _ _ _ _ _ V)); constructor).
  exists s'. split_and!; [done| | |done].
  - split; [done|rewrite Em; apply V| |].
    + pose proof (vo_nodup _ _ _ _ _ _ _ V) as Hn. by rewrite <-!Permutation_middle.
    + intros q. rewrite <-Permutation_middle. intros [->|Hq]%elem_of_cons; [done|].
      by apply (vo_pages _ _ _ _ _ _ _ V).
  - split; [|done|done]. intros q _ _. by rewrite Em.
Qed.

Lemma vm_ok_kfree s l pgdir T U X p :
  vm_ok s l pgdir T U (p :: X) ->
  exists s', kfree kend p s = Ok tt s' /\ vm_ok s' (p :: l) pgdir T U X /\ kept [p] s s'.
Proof.
  intros V. pose proof (vo_nodup _ _ _ _ _ _ _ V) as Hn. rewrite <-!Permutation_middle in Hn.
  apply NoDup_cons in Hn as [Hp Hn]. apply not_elem_of_app in Hp as [Hpl Hpp].
  assert (Hpk : page_ok kend p).
  { apply (vo_pages _ _ _ _ _ _ _ V). rewrite <-Permutation_middle. constructor. }
  destruct (kfree_spec kend s l p (vo_kmem _ _ _ _ _ _ _ V) Hpk Hpl) as (s' & E & Hk & Hs & Ep & Ec).
  exists s'. split_and!; [done| |].
  - split; [done| | |].
    + eapply aspace_frame; [apply V|]. intros q Hq. apply Hs.
      * apply elem_of_cons in Hq as [->|Hq]; [apply (vo_pgdir _ _ _ _ _ _ _ V)|].
        by apply (vo_tabs _ _ _ _ _ _ _ V).
      * intros ->. apply Hpp. apply elem_of_app. left. unfold pages.
        apply elem_of_cons in Hq as [->|Hq]; [constructor|]. constructor. apply elem_of_app. by left.
    + cbn [app]. constructor; [|done]. by apply not_elem_of_app.
    + intros q Hq. apply (vo_pages _ _ _ _ _ _ _ V). rewrite <-Permutation_middle. by constructor.
  - split; [|done|done]. intros q Hq Hni. apply Hs; [done|]. intros ->. apply Hni. constructor.
Qed.

(** Writing a page in hand. *)
Lemma vm_ok_write s l pgdir T U X p m :
  vm_ok s l pgdir T U (p :: X) ->
  (forall q, page_ok kend q -> q <> p -> same_page q (mem s) m) ->
  vm_ok (set_mem m s) l pgdir T U (p :: X) /\ kept [p] s (set_mem m s).
Proof.
  intros V Hs. pose proof (vo_nodup _ _ _ _ _ _ _ V) as Hn. rewrite <-!Permutation_middle in Hn.
  apply NoDup_cons in Hn as [Hp Hn]. apply not_elem_of_app in Hp as [Hpl Hpp].
  split; [split|].
  - eapply kmem_ok_frame; [apply V|done|]. intros q Hq. apply Hs; [|by intros ->].
    apply (km_pages _ _ _ (vo_kmem _ _ _ _ _ _ _ V) q Hq).
  - cbn [mem set_mem]. eapply aspace_frame; [apply V|]. intros q Hq. apply Hs.
    + apply elem_of_cons in Hq as [->|Hq]; [apply (vo_pgdir _ _ _ _ _ _ _ V)|].
      by apply (vo_tabs _ _ _ _ _ _ _ V).
    + intros ->. apply Hpp. apply elem_of_app. left. unfold pages.
      apply elem_of_cons in Hq as [->|Hq]; [constructor|]. constructor. apply elem_of_app. by left.
  - apply V.
  - apply V.
  - split; [|done|done]. intros q Hq Hni. apply Hs; [done|]. intros ->. apply Hni. constructor.
Qed.

Lemma in_hand s l pgdir T U X p :
  vm_ok s l pgdir T U (p :: X) -> (p ∉ l) /\ (p ∉ pgdir :: tabs T) /\ p ∉ uframes U.
Proof.
  intros V. pose proof (vo_nodup _ _ _ _ _ _ _ V) as Hn. rewrite <-!Permutation_middle in Hn.
  apply NoDup_cons in Hn as [Hp Hn]. unfold pages in Hp. cbn [app] in Hp.
  apply not_elem_of_app in Hp as [Hpl Hpp]. split_and!; [done|..].
  - intros H. apply Hpp. apply elem_of_cons in H as [->|H]; [constructor|]. constructor.
    rewrite <-app_assoc. apply elem_of_app. by left.
  - intros H. apply Hpp. constructor. rewrite <-app_assoc, !elem_of_app. auto.
Qed.
End uvm.

Definition demo_kdata : Z := 0x80108000.

Lemma demo_layout : KERNLINK <= demo_kend
  /\ demo_kdata mod 4096 = 0 /\ KERNLINK < demo_kdata < KERNBASE + PHYSTOP.
Proof. vm_compute. done. Qed.

Lemma setupkvm_maps_kernel_witness : exists s l r s', kmem_ok demo_kend s l
  /\ setupkvm demo_kend demo_kdata s = Ok r s' /\ xlate (mem s') r 0x80000123 = Some 3
  /\ xlate (mem s') r 0x1000 = None.
Proof.
  destruct (demo_kmem 100) as (s & _ & Hk); [lia|].
  destruct (setupkvm_maps_kernel demo_kend demo_kdata (proj1 demo_layout) (proj2 demo_layout) s _ Hk)
    as (r & s' & E & _ & [(_ & Hc & _)|(_ & Hx & _)]).
  - exfalso. rewrite length_reverse in Hc. vm_compute in Hc. lia.
  - exists s, (reverse (demo_free 100)), r, s'. split_and!; [done|done|..];
      rewrite Hx by lia; reflexivity.
Defined.
