(* ===== verification/Ualloc.v ===== *)
(** * Ualloc: growing the user part of an address space

    [allocuvm] maps zeroed pages over the whole range, or nothing. *)

From Stdlib Require Import ZArith Lia ZifyBool.
From stdpp Require Import base gmap strings numbers list.
From S2P Require Import Prelude Kalloc Vm Paging Uvm.

Local Open Scope Z_scope.

#[local] Ltac Zify.zify_post_hook ::= Z.to_euclidean_division_equations.

Section ualloc.
Context (kend kdata : Z).
Context (Hkend : KERNLINK <= kend).

Abbreviation vm_ok := (vm_ok kend).
Abbreviation kept := (kept kend).

Definition zero_page (m : gmap Z Z) (p : Z) : Prop := forall a, in_page p a -> ld32 m a = 0.

(** [k] zeroed pages have been added from page number [lo] on, out of the pages
    that were free. *)
Record grown (s0 : vst) (l0 : list Z) (T0 U0 : gmap Z Z) (X : list Z) (pgdir lo k : Z)
    (s : vst) (l : list Z) (T U : gmap Z Z) : Prop := {
  gr_ok : vm_ok s l pgdir T U X;
  gr_tabs : T0 ⊆ T;
  gr_pages : l0 ++ tabs T0 ++ uframes U0 ≡ₚ l ++ tabs T ++ uframes U;
  gr_kept : kept (pgdir :: tabs T0 ++ l0) s0 s;
  gr_old : forall n, ~ lo <= n < lo + k -> U !! n = U0 !! n;
  gr_new : forall n, lo <= n < lo + k ->
    exists f, U !! n = Some (V2P f + 7) /\ page_ok kend f /\ zero_page (mem s) f
}.
#[local] Arguments gr_ok {_ _ _ _ _ _ _ _ _ _ _ _}.
#[local] Arguments gr_pages {_ _ _ _ _ _ _ _ _ _ _ _}.
#[local] Arguments gr_kept {_ _ _ _ _ _ _ _ _ _ _ _}.
#[local] Arguments gr_old {_ _ _ _ _ _ _ _ _ _ _ _}.
#[local] Arguments gr_new {_ _ _ _ _ _ _ _ _ _ _ _}.

Lemma grown_0 s l pgdir T U X lo :
  vm_ok s l pgdir T U X -> grown s l T U X pgdir lo 0 s l T U.
Proof. intros V. split; try done. intros n Hn. lia. Qed.

(** The pages that may be written by one step are among those free or used for
    page tables at the beginning. *)
Lemma grown_subset s0 l0 T0 U0 X pgdir lo k s l T U :
  grown s0 l0 T0 U0 X pgdir lo k s l T U -> NoDup (l0 ++ tabs T0 ++ uframes U0) ->
  (forall n, lo <= n < lo + k -> U0 !! n = None) ->
  pgdir :: tabs T ++ l ⊆ pgdir :: tabs T0 ++ l0.
Proof.
  intros G Hnd Hfree q Hq. apply elem_of_cons in Hq as [->|Hq]; [constructor|]. constructor.
  assert (Hin : q ∈ l0 ++ tabs T0 ++ uframes U0).
  { rewrite (gr_pages G). rewrite !elem_of_app.
    apply elem_of_app in Hq. tauto. }
  rewrite !elem_of_app in Hin. rewrite elem_of_app. destruct Hin as [?|[?|Hu]]; [auto|auto|].
  exfalso. apply elem_of_uframes in Hu as (n & e & He & Hn & ->).
  destruct (decide (lo <= n < lo + k)) as [Hr|Hr]; [by rewrite Hfree in He|].
  rewrite <-(gr_old G n Hr) in He.
  destruct (vo_frame kend _ _ _ _ _ _ n e (gr_ok G) He Hn) as (_ & H1 & H2).
  apply elem_of_app in Hq as [Hq|Hq]; [|done]. apply H2. by constructor.
Qed.

Lemma memset_zero p m : page_ok kend p -> zero_page (memset_page p 0 m) p.
Proof. intros Hp a Ha. by rewrite ld32_memset_in by (done || apply Hp). Qed.

(** Mapping a zeroed page in hand extends the range by one. *)
Lemma grown_map s0 l0 T0 U0 X pgdir lo k s l T U s2 l2 T2 p :
  grown s0 l0 T0 U0 X pgdir lo k s (p :: l) T U ->
  NoDup (l0 ++ tabs T0 ++ uframes U0) -> (forall n, lo <= n <= lo + k -> U0 !! n = None) ->
  0 <= lo -> 0 <= k -> lo + k < UPAGES -> page_ok kend p ->
  kept [p] s s2 -> zero_page (mem s2) p ->
  forall s3, vm_ok s3 l2 pgdir T2 (<[lo + k := V2P p + 7]> U) X -> tables_from l T l2 T2 ->
  kept (pgdir :: tabs T2) s2 s3 ->
  grown s0 l0 T0 U0 X pgdir lo (k + 1) s3 l2 T2 (<[lo + k := V2P p + 7]> U).
Proof.
  intros G Hnd Hfree Hlo Hk Hu Hp Kp Zp s3 V3 Tf K3.
  assert (Hsub : pgdir :: tabs T ++ p :: l ⊆ pgdir :: tabs T0 ++ l0).
  { eapply grown_subset; [exact G|done|]. intros n Hn. apply Hfree. lia. }
  destruct Tf as (used & -> & Pt & Hs).
  assert (Hfe : frame (V2P p + 7) = p).
  { unfold frame. apply (pde_flags kend p Hp). }
  assert (HU : U !! (lo + k) = None).
  { rewrite (gr_old G) by lia. apply Hfree. lia. }
  split.
  - done.
  - etransitivity; [apply G|done].
  - rewrite (gr_pages G), Pt, uframes_insert_user by done.
    rewrite Hfe. solve_Permutation.
  - eapply kept_trans; [apply (gr_kept G)| |done|].
    + apply (kept_trans kend [p] (pgdir :: tabs T2) (pgdir :: tabs T ++ p :: used ++ l2) _ s2);
        [done|done|..].
      * intros q ->%list_elem_of_singleton. set_solver.
      * intros q. rewrite Pt. clear. set_solver.
    + done.
  - intros n Hn. rewrite lookup_insert_ne by lia.
    apply (gr_old G). lia.
  - assert (Hz : forall f n, n < UPAGES -> <[lo + k := V2P p + 7]> U !! n = Some (V2P f + 7) ->
      page_ok kend f -> zero_page (mem s2) f -> zero_page (mem s3) f).
    { intros f n Hn Hf Hpf Hzf a Ha.
      assert (Ef : frame (V2P f + 7) = f) by (apply (pde_flags kend f Hpf)).
      destruct (vo_frame kend _ _ _ _ _ _ n _ V3 Hf Hn) as (_ & _ & Hni). rewrite Ef in Hni.
      rewrite (kp_same _ _ _ _ K3 f) by done. by apply Hzf. }
    intros n Hn. destruct (decide (n = lo + k)) as [->|Hne].
    + exists p. rewrite lookup_insert_eq. split_and!; [done|done|].
      apply (Hz p (lo + k)); [done|by rewrite lookup_insert_eq|done|done].
    + destruct (gr_new G n) as (f & Hf & Hpf & Hzf); [lia|].
      exists f. assert (Hf' : <[lo + k := V2P p + 7]> U !! n = Some (V2P f + 7))
        by (by rewrite lookup_insert_ne by lia).
      split_and!; [done|done|]. apply (Hz f n); [lia|done|done|].
      intros a Ha. rewrite (kp_same _ _ _ _ Kp f); [by apply Hzf|done| |done].
      intros ->%list_elem_of_singleton.
      assert (Ef : frame (V2P p + 7) = p) by done.
      destruct (vo_frame kend _ _ _ _ _ _ n _ (gr_ok G) Hf) as (_ & Hni & _);
        [lia|]. rewrite Ef in Hni. apply Hni. constructor.
Qed.

Section alloc.
Context (s0 : vst) (l0 : list Z) (T0 U0 : gmap Z Z) (X : list Z) (pgdir oldsz newsz : Z).
Context (Hsz : 0 <= oldsz <= newsz) (Htop : newsz < KERNBASE).
Context (Hnd : NoDup (l0 ++ tabs T0 ++ uframes U0)).
Context (Hfree : forall n, pgs oldsz <= n < pgs newsz -> U0 !! n = None).

Abbreviation G0 := (grown s0 l0 T0 U0 X pgdir (pgs oldsz)).

(** The frames that [deallocuvm] takes back were free at the beginning. *)
Lemma grown_freed k s l T U freed :
  G0 k s l T U -> freed ++ uframes U0 ≡ₚ uframes U -> freed ⊆ pgdir :: tabs T0 ++ l0.
Proof.
  intros G P q Hq. assert (Hu : q ∈ uframes U) by (rewrite <-P; apply elem_of_app; by left).
  assert (Hin : q ∈ l0 ++ tabs T0 ++ uframes U0).
  { rewrite (gr_pages G), !elem_of_app. auto. }
  rewrite !elem_of_app in Hin. rewrite elem_of_cons, elem_of_app.
  destruct Hin as [?|[?|H0]]; [auto|auto|]. exfalso.
  pose proof (vo_nodup _ _ _ _ _ _ _ (gr_ok G)) as Hn. apply NoDup_app in Hn as (_ & _ & Hn).
  apply NoDup_app in Hn as (Hn & _ & _). unfold pages in Hn. apply NoDup_cons in Hn as [_ Hn].
  apply NoDup_app in Hn as (_ & _ & Hn). rewrite <-P in Hn. apply NoDup_app in Hn as (_ & Hd & _).
  by apply (Hd q).
Qed.

Lemma grown_cut k s l T U :
  G0 k s l T U -> 0 <= k -> pgs oldsz + k <= pgs newsz -> cut (pgs oldsz) (pgs newsz) U = U0.
Proof.
  intros G Hk Hle. apply map_eq. intros n. rewrite lookup_cut. case_decide as Hn.
  - by rewrite Hfree.
  - apply (gr_old G). lia.
Qed.

(** Back to the beginning. *)
Lemma grown_back k s l T U s' l' :
  G0 k s l T U -> vm_ok s' l' pgdir T U0 X -> l' ++ uframes U0 ≡ₚ l ++ uframes U ->
  kept (pgdir :: tabs T0 ++ l0) s s' -> G0 0 s' l' T U0.
Proof.
  intros G V P K. split.
  - done.
  - apply G.
  - rewrite (gr_pages G). rewrite (Permutation_app_comm (tabs T)), app_assoc, <-P. solve_Permutation.
  - eapply kept_trans; [apply (gr_kept G)|exact K|done|done].
  - done.
  - intros n Hn. lia.
Qed.

Lemma alloc_page_spec k s l T U :
  G0 k s l T U -> 0 <= k -> pgs oldsz + k < pgs newsz ->
  Z.of_nat (length l0) <= Z.of_nat (length l) + 2 * k ->
  exists r s' l' T' U', alloc_page kend pgdir oldsz newsz (4096 * (pgs oldsz + k)) s = Ok r s'
    /\ (r = None /\ G0 (k + 1) s' l' T' U'
          /\ Z.of_nat (length l0) <= Z.of_nat (length l') + 2 * (k + 1)
        \/ r = Some 0 /\ G0 0 s' l' T' U' /\ Z.of_nat (length l0) < 2 * (k + 1)).
Proof.
  intros G Hk Hlt Hc. set (n := pgs oldsz + k) in *.
  assert (Hlo : 0 <= pgs oldsz) by (unfold pgs; lia).
  assert (Hno : oldsz < newsz) by (unfold n, pgs in *; lia).
  assert (Hn : 0 <= n < UPAGES) by (unfold n, pgs, UPAGES, PGSIZE, KERNBASE in *; lia).
  pose proof (gr_ok G) as V. unfold alloc_page.
  pose proof (vm_ok_kalloc _ _ _ _ _ _ _ V) as Ha. destruct l as [|p l].
  { rewrite (bind_Ok _ _ _ _ _ Ha). cbn [Z.eqb].
    destruct (deallocuvm_spec kend Hkend _ _ _ _ _ _ newsz oldsz V) as (s2 & freed & E2 & V2 & P2 & K2);
      [lia|lia|]. rewrite (grown_cut k _ _ _ _ G) in V2, P2 by lia.
    rewrite (bind_Ok _ _ _ _ _ E2). exists (Some 0), s2, (freed ++ []), T, U0.
    split; [done|]. right. split; [done|]. cbn [length] in Hc.
    split; [|lia]. eapply grown_back; [exact G|done| |].
    - by rewrite app_nil_r.
    - eapply kept_weaken; [exact K2|].
      assert (pgdir :: tabs T ++ [] ⊆ pgdir :: tabs T0 ++ l0) as Hs1.
      { eapply grown_subset; [exact G|done|]. intros x Hx. apply Hfree. unfold n in *. lia. }
      pose proof (grown_freed _ _ _ _ _ _ G P2) as Hs2.
      intros q Hq. rewrite elem_of_cons, elem_of_app in Hq. destruct Hq as [?|[?|?]]; [| |auto];
        apply Hs1; rewrite elem_of_cons, elem_of_app; auto. }
  destruct Ha as (s1 & E1 & V1 & K1 & Hp). rewrite (bind_Ok _ _ _ _ _ E1).
  rewrite (proj2 (Z.eqb_neq p 0)) by (by apply (page_nonzero kend)).
  destruct (vm_ok_write kend s1 l pgdir T U X p (memset_page p 0 (mem s1)) V1) as [V2 K2].
  { intros q Hq Hne a Ha. apply (ld32_memset_out kend p q); done || congruence. }
  set (s2 := set_mem (memset_page p 0 (mem s1)) s1) in *.
  assert (Z2 : zero_page (mem s2) p) by (by apply memset_zero).
  assert (K12 : kept [p] s s2) by (eapply kept_trans; [exact K1|exact K2|set_solver|done]).
  destruct (page_word kend p 0 Hp) as [_ Hw]; [lia|]. rewrite Z.mul_0_r, Z.add_0_r in Hw.
  assert (E2 : kmemset p 0 s1 = Ok tt s2) by (unfold kmemset; by rewrite Hw).
  rewrite (bind_Ok _ _ _ _ _ E2). clearbody s2. clear E1 E2 V1 K1 K2.
  destruct (page_V2P kend p Hp) as (_ & Hvm & Hvr).
  assert (Hdiv : 4096 * n / 4096 = n) by lia.
  assert (Hfn : forall x, pgs oldsz <= x <= pgs oldsz + k -> U0 !! x = None)
    by (intros; apply Hfree; unfold n in *; lia).
  destruct (mappages_one kend s2 l pgdir T U (p :: X) X (4096 * n) (V2P p) (Z.lor PTE_W PTE_U) V2)
    as [[-> E3]|(s3 & l3 & T3 & E3 & V3 & Tf3 & K3 & _ & C3)].
  - unfold UPAGES, KERNBASE, PGSIZE in Hn. lia.
  - lia.
  - rewrite Hdiv, (gr_old G) by lia. apply Hfn. lia.
  - done.
  - unfold PHYSTOP in Hvr. lia.
  - done.
  - unfold takes. rewrite Hdiv. rewrite (proj2 (Z.ltb_lt n UPAGES)) by lia.
    by rewrite P2V_V2P by apply Hp.
  - rewrite (bind_Ok _ _ _ _ _ E3). cbn [Z.ltb Z.compare].
    destruct (deallocuvm_spec kend Hkend _ _ _ _ _ _ newsz oldsz V2) as (s4 & freed & E4 & V4 & P4 & K4);
      [lia|lia|]. rewrite (grown_cut k _ _ _ _ G) in V4, P4 by lia.
    destruct (vm_ok_kfree _ _ _ _ _ _ _ _ V4) as (s5 & E5 & V5 & K5).
    rewrite (bind_Ok _ _ _ _ _ E4), (bind_Ok _ _ _ _ _ E5).
    exists (Some 0), s5, (p :: freed ++ []), T, U0. split; [done|]. right. split; [done|].
    cbn [length] in Hc. split; [|lia].
    assert (Hs1 : pgdir :: tabs T ++ [p] ⊆ pgdir :: tabs T0 ++ l0).
    { eapply grown_subset; [exact G|done|]. intros x Hx. apply Hfn. lia. }
    pose proof (grown_freed _ _ _ _ _ _ G P4) as Hs2.
    eapply grown_back; [exact G|done| |].
    + rewrite <-P4. solve_Permutation.
    + assert (Hpw : [p] ⊆ pgdir :: tabs T0 ++ l0).
      { intros q ->%list_elem_of_singleton. apply Hs1. constructor. apply elem_of_app. right. constructor. }
      assert (Htw : pgdir :: tabs T ++ freed ⊆ pgdir :: tabs T0 ++ l0).
      { intros q Hq. rewrite elem_of_cons, elem_of_app in Hq. destruct Hq as [?|[?|?]]; [| |auto];
          apply Hs1; rewrite elem_of_cons, elem_of_app; auto. }
      exact (kept_trans _ _ _ _ _ _ _ (kept_trans _ _ _ _ _ _ _ K12 K4 Hpw Htw) K5
               (reflexivity _) Hpw).
  - rewrite (bind_Ok _ _ _ _ _ E3). cbn [Z.ltb Z.compare]. rewrite Hdiv in V3.
    exists None, s3, l3, T3, (<[n := V2P p + 7]> U). split; [done|]. left. split; [done|].
    cbn [length] in Hc. split; [|lia]. eapply grown_map; done || lia.
Qed.

Lemma allocuvm_spec :
  vm_ok s0 l0 pgdir T0 U0 X ->
  exists r s' l' T' U', allocuvm kend pgdir oldsz newsz s0 = Ok r s'
    /\ (r = newsz /\ G0 (pgs newsz - pgs oldsz) s' l' T' U'
          /\ Z.of_nat (length l0) <= Z.of_nat (length l') + 2 * (pgs newsz - pgs oldsz)
        \/ r = 0 /\ G0 0 s' l' T' U' /\ Z.of_nat (length l0) < 2 * (pgs newsz - pgs oldsz)).
Proof.
  intros V. unfold allocuvm.
  rewrite (proj2 (Z.leb_gt KERNBASE newsz)), (proj2 (Z.ltb_ge newsz oldsz)) by lia.
  set (N := (newsz - PGROUNDUP oldsz + PGSIZE - 1) / PGSIZE).
  assert (Ea : PGROUNDUP oldsz = 4096 * pgs oldsz)
    by (rewrite PGROUNDUP_eq; unfold pgs, KERNBASE in *; lia).
  assert (EN : Z.of_nat (Z.to_nat N) = pgs newsz - pgs oldsz)
    by (unfold N; rewrite Ea; unfold PGSIZE, pgs; lia).
  enough (Hwp : wp (forR (upto (PGROUNDUP oldsz) newsz) (alloc_page kend pgdir oldsz newsz))
    (fun r s' => exists l' T' U', r = None /\ G0 (pgs newsz - pgs oldsz) s' l' T' U'
       /\ Z.of_nat (length l0) <= Z.of_nat (length l') + 2 * (pgs newsz - pgs oldsz)
       \/ r = Some 0 /\ G0 0 s' l' T' U' /\ Z.of_nat (length l0) < 2 * (pgs newsz - pgs oldsz)) s0).
  { apply wp_run in Hwp as (r & s' & E & l' & T' & U' & H). rewrite (bind_Ok _ _ _ _ _ E).
    exists (default newsz r), s', l', T', U'. split; [done|].
    destruct H as [[-> ?]|[-> ?]]; [by left|by right]. }
  unfold upto. fold N.
  apply wp_forR with (I := fun dn s' => exists l' T' U', G0 (Z.of_nat (length dn)) s' l' T' U'
    /\ Z.of_nat (length l0) <= Z.of_nat (length l') + 2 * Z.of_nat (length dn)).
  - exists l0, T0, U0. split; [by apply grown_0|cbn; lia].
  - intros dn x rest s1 Hl (l1 & T1 & U1 & G1 & C1).
    destruct (map_seqZ_split _ _ _ _ _ Hl) as [Hx Hlt].
    replace (PGROUNDUP oldsz + PGSIZE * Z.of_nat (length dn))
      with (4096 * (pgs oldsz + Z.of_nat (length dn))) in Hx by (rewrite Ea; unfold PGSIZE; lia).
    destruct (alloc_page_spec _ _ _ _ _ G1) as (r & s2 & l2 & T2 & U2 & E2 & Hr); [lia|lia|lia|].
    unfold wp. rewrite Hx, E2. rewrite length_app. cbn [length].
    destruct Hr as [(-> & G2 & C2)|(-> & G2 & C2)].
    + exists l2, T2, U2. by rewrite Nat2Z.inj_add.
    + exists l2, T2, U2. right. split_and!; [done|done|lia].
  - intros s1 (l1 & T1 & U1 & G1 & C1). exists l1, T1, U1. left. split; [done|].
    by rewrite length_map, length_seqZ, EN in G1, C1.
Qed.
End alloc.

(** C25: [allocuvm] is all or nothing.  From a well-formed address space with no
    page between the old and the new size, it returns; either it returns the new
    size, every new page is mapped user-writable to a zeroed frame and every
    other address translates as before; or memory ran out (there were fewer than
    two free pages for each new one), it returns 0, and every address translates
    as before.  In both cases pages in use keep their
    contents and no page is lost or owned twice. *)
Theorem allocuvm_all_or_nothing s l pgdir T U X oldsz newsz :
  vm_ok s l pgdir T U X -> 0 <= oldsz <= newsz -> newsz < KERNBASE ->
  (forall n, pgs oldsz <= n < pgs newsz -> U !! n = None) ->
  exists r s' l' T' U', allocuvm kend pgdir oldsz newsz s = Ok r s'
    /\ vm_ok s' l' pgdir T' U' X
    /\ l' ++ pages pgdir T' U' ≡ₚ l ++ pages pgdir T U
    /\ (forall q, page_ok kend q -> q ∈ uframes U ++ X -> same_page q (mem s) (mem s'))
    /\ (r = newsz
          /\ (forall va, pgs oldsz <= va / 4096 < pgs newsz -> exists f,
                xlate (mem s') pgdir va = Some (V2P f + 7) /\ page_ok kend f /\ zero_page (mem s') f)
          /\ (forall va, 0 <= va < 2 ^ 32 -> ~ pgs oldsz <= va / 4096 < pgs newsz ->
                xlate (mem s') pgdir va = xlate (mem s) pgdir va)
        \/ r = 0 /\ Z.of_nat (length l) < 2 * (pgs newsz - pgs oldsz)
          /\ forall va, 0 <= va < 2 ^ 32 -> xlate (mem s') pgdir va = xlate (mem s) pgdir va).
Proof.
  intros V Hsz Htop Hfree.
  assert (Hnd : NoDup (l ++ tabs T ++ uframes U)).
  { pose proof (vo_nodup _ _ _ _ _ _ _ V) as Hn. rewrite app_assoc in Hn.
    apply NoDup_app in Hn as (Hn & _ & _). unfold pages in Hn.
    rewrite <-Permutation_middle in Hn. by apply NoDup_cons in Hn as [_ Hn]. }
  destruct (allocuvm_spec s l T U X pgdir oldsz newsz Hsz Htop Hnd Hfree V)
    as (r & s' & l' & T' & U' & E & Hr).
  assert (Hg : exists k, grown s l T U X pgdir (pgs oldsz) k s' l' T' U')
    by (destruct Hr as [(_ & G & _)|(_ & G & _)]; eauto).
  destruct Hg as [k G].
  exists r, s', l', T', U'. split_and!; [done|apply G| | |].
  - unfold pages. rewrite <-!Permutation_middle. constructor. symmetry. apply (gr_pages G).
  - intros q Hq Hin. apply (kp_same _ _ _ _ (gr_kept G)); [done|]. intros Hw.
    pose proof (vo_nodup _ _ _ _ _ _ _ V) as Hn. unfold pages in Hn.
    assert (Hn2 : NoDup ((pgdir :: tabs T ++ l) ++ (uframes U ++ X))).
    { eapply NoDup_Permutation_proper; [|exact Hn]. solve_Permutation. }
    apply NoDup_app in Hn2 as (_ & Hd & _). by apply (Hd q).
  - assert (Hx : forall va, 0 <= va < 2 ^ 32 -> xlate (mem s') pgdir va = U' !! (va / 4096)
       /\ xlate (mem s) pgdir va = U !! (va / 4096)).
    { intros va Hva. split; [by apply (vo_xlate _ _ _ _ _ _ _ (gr_ok G))|by apply (vo_xlate _ _ _ _ _ _ _ V)]. }
    destruct Hr as [(-> & G1 & _)|(-> & G1 & C1)].
    + left. split_and!; [done| |].
      * intros va Hva. destruct (Hx va) as [-> _]; [unfold pgs, KERNBASE in *; lia|].
        destruct (gr_new G1 (va / 4096)) as (f & -> & Hf); [lia|]. by exists f.
      * intros va Hva Hn. destruct (Hx va Hva) as [-> ->]. apply (gr_old G1). lia.
    + right. split; [done|]. split; [done|]. intros va Hva. destruct (Hx va Hva) as [-> ->]. apply (gr_old G1). lia.
Qed.
End ualloc.

(** A machine with 100 pages of memory and an address space of two user pages. *)
Lemma demo_dir : exists s l pgdir, vm_ok demo_kend s l pgdir ∅ ∅ [] /\ length l = 99%nat.
Proof.
  destruct (demo_kmem 100) as (s & _ & Hk); [lia|].
  assert (Hlen : length (reverse (demo_free 100)) = 100%nat) by (rewrite length_reverse; done).
  pose proof (kalloc_spec demo_kend s _ Hk) as Ha.
  pose proof (km_nodup _ _ _ Hk) as Hnd.
  destruct (reverse (demo_free 100)) as [|p l] eqn:E; [done|].
  destruct Ha as (s1 & _ & Hk1 & _).
  destruct (vm_ok_new_dir demo_kend s1 l p [] (memset_page p 0 (mem s1))
    (set_mem (memset_page p 0 (mem s1)) s1) Hk1) as [V _]; [| | |done|done|].
  - by rewrite <-Permutation_middle, app_nil_r.
  - apply (km_pages _ _ _ Hk). constructor.
  - intros q Hq. by apply not_elem_of_nil in Hq.
  - eexists _, l, p. split; [exact V|]. cbn [length] in Hlen. lia.
Qed.

Lemma allocuvm_all_or_nothing_witness : exists s l pgdir s' l' T' U',
  vm_ok demo_kend s l pgdir ∅ ∅ [] /\ allocuvm demo_kend pgdir 0 8192 s = Ok 8192 s'
  /\ vm_ok demo_kend s' l' pgdir T' U' []
  /\ exists f, xlate (mem s') pgdir 4100 = Some (V2P f + 7).
Proof.
  destruct demo_dir as (s & l & pgdir & V & Hlen).
  destruct (allocuvm_all_or_nothing demo_kend (proj1 demo_layout) s l pgdir ∅ ∅ [] 0 8192 V)
    as (r & s' & l' & T' & U' & E & V' & _ & _ & [(-> & Hn & _)|(_ & Hc & _)]).
  - lia.
  - vm_compute. done.
  - intros n _. apply lookup_empty.
  - exists s, l, pgdir, s', l', T', U'. split_and!; try done.
    destruct (Hn 4100) as (f & Hf & _); [vm_compute; done|]. by exists f.
  - exfalso. rewrite Hlen in Hc. vm_compute in Hc. done.
Defined.

(** The same machine after [allocuvm]. *)
Lemma demo_user : exists s l pgdir T U, vm_ok demo_kend s l pgdir T U []
  /\ (forall n, 0 <= n < 2 -> exists f, U !! n = Some (V2P f + 7) /\ page_ok demo_kend f)
  /\ (95 <= length l)%nat.
Proof.
  destruct demo_dir as (s & l & pgdir & V & Hlen).
  destruct (allocuvm_spec demo_kend (proj1 demo_layout) s l ∅ ∅ [] pgdir 0 8192)
    as (r & s' & l' & T' & U' & _ & [(_ & G & Hc)|(_ & _ & Hc)]).
  - lia.
  - vm_compute. done.
  - pose proof (vo_nodup _ _ _ _ _ _ _ V) as Hn. rewrite app_nil_r in Hn. unfold pages in Hn.
    rewrite <-Permutation_middle in Hn. by apply NoDup_cons in Hn as [_ Hn].
  - intros n _. apply lookup_empty.
  - exact V.
  - change (pgs 8192 - pgs 0) with 2 in *. exists s', l', pgdir, T', U'.
    split_and!; [apply G| |lia]. intros n Hn.
    destruct (gr_new _ _ _ _ _ _ _ _ _ _ _ _ _ G n) as (f & Hf & Hp & _); [change (pgs 0) with 0; lia|].
    by exists f.
  - exfalso. rewrite Hlen in Hc. vm_compute in Hc. done.
Qed.
