(* ===== verification/Ucopy.v ===== *)
(** * Ucopy: bytes of user memory, [copyuvm] and [copyout]

    A copy of an address space has the contents of the original in pages of its
    own, and [copyout] writes what the program reads at that address. *)

From Stdlib Require Import ZArith Lia ZifyBool.
From stdpp Require Import base gmap strings numbers list.
From S2P Require Import Prelude Kalloc Vm Paging Uvm Ualloc.

Local Open Scope Z_scope.

#[local] Ltac Zify.zify_post_hook ::= Z.to_euclidean_division_equations.

(** ** Bytes *)

Definition window (v : Z) : Prop := KERNBASE <= v < KERNBASE + PHYSTOP.

Lemma mod4_cases v : v mod 4 = 0 \/ v mod 4 = 1 \/ v mod 4 = 2 \/ v mod 4 = 3.
Proof. lia. Qed.

Lemma ld8_range m v : 0 <= ld8 m v < 256.
Proof. unfold ld8. lia. Qed.

Lemma ld8_st8_eq v b m : 0 <= b < 256 -> ld8 (st8 v b m) v = b.
Proof.
  intros Hb. unfold st8, ld8 at 1. rewrite ld32_st32_eq. unfold ld8.
  generalize (ld32 m v). intros x.
  destruct (mod4_cases v) as [->|[->|[->| ->]]]; cbn [Z.pow Z.pow_pos Pos.iter Z.mul Pos.mul]; lia.
Qed.

Lemma ld8_st8_ne v w b m :
  0 <= b < 256 -> window v -> window w -> v <> w -> ld8 (st8 v b m) w = ld8 m w.
Proof.
  intros Hb Hv Hw Hne. destruct (decide (v / 4 = w / 4)) as [E|E].
  - assert (Hx : forall m, ld32 m w = ld32 m v).
    { intros m'. unfold ld32. do 2 f_equal. rewrite !V2P_small by done. unfold KERNBASE in *. lia. }
    unfold st8, ld8 at 1. rewrite (Hx (st32 _ _ _)), ld32_st32_eq. unfold ld8. rewrite (Hx m).
    generalize (ld32 m v). intros x. assert (Hm : v mod 4 <> w mod 4) by lia. clear -Hm Hb.
    destruct (mod4_cases v) as [Ev|[Ev|[Ev|Ev]]]; destruct (mod4_cases w) as [Ew|[Ew|[Ew|Ew]]];
      rewrite Ev, Ew in *; try done; cbn [Z.pow Z.pow_pos Pos.iter Z.mul Pos.mul]; lia.
  - unfold st8, ld8 at 1. rewrite ld32_st32_ne by done. done.
Qed.

Lemma copy_bytes_cons dst b bs m :
  copy_bytes dst (b :: bs) m = copy_bytes (dst + 1) bs (st8 dst b m).
Proof. done. Qed.

Lemma ld8_copy_out dst bs m w :
  Forall (fun b => 0 <= b < 256) bs -> window dst -> window (dst + Z.of_nat (length bs) - 1) ->
  window w -> (w < dst \/ dst + Z.of_nat (length bs) <= w) ->
  ld8 (copy_bytes dst bs m) w = ld8 m w.
Proof.
  revert dst m. induction bs as [|b bs IH]; intros dst m Hb Hd He Hw Hout; [done|].
  apply Forall_cons in Hb as [Hb Hbs]. cbn [length] in *. rewrite copy_bytes_cons.
  destruct bs as [|c bs].
  - cbn. apply ld8_st8_ne; [done..|lia].
  - rewrite IH; [apply ld8_st8_ne; done || lia|done|..]; unfold window in *; cbn [length] in *; lia.
Qed.

Lemma ld8_copy_in dst bs m i b :
  Forall (fun b => 0 <= b < 256) bs -> window dst -> window (dst + Z.of_nat (length bs) - 1) ->
  bs !! i = Some b -> ld8 (copy_bytes dst bs m) (dst + Z.of_nat i) = b.
Proof.
  revert dst m i. induction bs as [|c bs IH]; intros dst m i Hb Hd He Hi; [done|].
  apply Forall_cons in Hb as [Hc Hbs]. cbn [length] in *. rewrite copy_bytes_cons.
  destruct i as [|i].
  - injection Hi as ->. rewrite Z.add_0_r. destruct bs as [|c bs]; [cbn; by apply ld8_st8_eq|].
    rewrite ld8_copy_out; [by apply ld8_st8_eq|done|..]; unfold window in *; cbn [length] in *; lia.
  - replace (dst + Z.of_nat (S i)) with (dst + 1 + Z.of_nat i) by lia.
    assert (length bs <> 0%nat) by (intros E; by rewrite (nil_length_inv _ E) in Hi).
    apply IH; [done|..|done]; unfold window in *; lia.
Qed.

Lemma ld32_copy_out dst bs m w :
  window dst -> window (dst + Z.of_nat (length bs) - 1) -> window w ->
  (w / 4 < dst / 4 \/ (dst + Z.of_nat (length bs) - 1) / 4 < w / 4) ->
  ld32 (copy_bytes dst bs m) w = ld32 m w.
Proof.
  revert dst m. induction bs as [|b bs IH]; intros dst m Hd He Hw Hout; [done|].
  cbn [length] in *. rewrite copy_bytes_cons. destruct bs as [|c bs].
  - cbn. unfold st8. apply ld32_st32_ne; [done..|]. cbn in Hout. lia.
  - rewrite IH; [unfold st8; apply ld32_st32_ne; [done..|]|..]; unfold window in *;
      cbn [length] in *; lia.
Qed.

Lemma bytes_at_bytes m v n : Forall (fun b => 0 <= b < 256) (bytes_at m v n).
Proof. unfold bytes_at. apply Forall_map, Forall_forall. intros i _. apply ld8_range. Qed.

Lemma length_bytes_at m v n : length (bytes_at m v n) = Z.to_nat n.
Proof. unfold bytes_at. by rewrite length_map, length_seqZ. Qed.

Lemma lookup_bytes_at m v n i :
  (i < Z.to_nat n)%nat -> bytes_at m v n !! i = Some (ld8 m (v + Z.of_nat i)).
Proof.
  intros Hi. unfold bytes_at. change (map ?f ?l) with (f <$> l). rewrite list_lookup_fmap.
  rewrite lookup_seqZ_lt by lia. done.
Qed.

(** What a program reads at a virtual address. *)
Definition user_byte (m : gmap Z Z) (pgdir va : Z) : option Z :=
  e ← xlate m pgdir va; Some (ld8 m (frame e + va mod 4096)).

Section ucopy.
Context (kend kdata : Z).
Context (Hkend : KERNLINK <= kend).

Abbreviation vm_ok := (vm_ok kend).
Abbreviation kept := (kept kend).

Lemma page_window p : page_ok kend p -> window p /\ window (p + 4095).
Proof. unfold page_ok, window, PGSIZE, KERNBASE, PHYSTOP. lia. Qed.

Lemma same_page_byte p m m' i :
  page_ok kend p -> same_page p m m' -> 0 <= i < 4096 -> ld8 m' (p + i) = ld8 m (p + i).
Proof. intros Hp Hs Hi. unfold ld8. rewrite Hs; [done|]. unfold in_page, PGSIZE. lia. Qed.

(** Copying a whole page into a page in hand. *)
Lemma copy_page_bytes p src m m' :
  page_ok kend p -> m' = copy_bytes p (bytes_at m src 4096) m ->
  (forall q, page_ok kend q -> q <> p -> same_page q m m')
  /\ (forall i, 0 <= i < 4096 -> ld8 m' (p + i) = ld8 m (src + i)).
Proof.
  intros Hp ->. destruct (page_window p Hp) as [W1 W2]. split.
  - intros q Hq Hne a Ha. apply ld32_copy_out; rewrite ?length_bytes_at; [done| |..].
    + change (Z.of_nat (Z.to_nat 4096)) with 4096. replace (p + 4096 - 1) with (p + 4095) by lia. done.
    + by apply (page_ok_range kend q).
    + unfold page_ok, in_page, PGSIZE in *. lia.
  - intros i Hi. replace i with (Z.of_nat (Z.to_nat i)) by lia. apply ld8_copy_in.
    + apply bytes_at_bytes.
    + done.
    + rewrite length_bytes_at. change (Z.of_nat (Z.to_nat 4096)) with 4096.
      replace (p + 4096 - 1) with (p + 4095) by lia. done.
    + apply lookup_bytes_at. lia.
Qed.

(** Two address spaces side by side. *)
Lemma vm_ok_swap s l d Td Ud pgdir T U X :
  vm_ok s l d Td Ud (pages pgdir T U ++ X) -> aspace (mem s) pgdir T U ->
  vm_ok s l pgdir T U (pages d Td Ud ++ X).
Proof.
  intros V A. assert (P : pages pgdir T U ++ pages d Td Ud ++ X ≡ₚ pages d Td Ud ++ pages pgdir T U ++ X)
    by solve_Permutation.
  split; [apply V|done|rewrite P; apply V|]. intros q. rewrite P. apply V.
Qed.

Lemma flags_present e : has PTE_P e = true -> Z.lor (PTE_FLAGS e) PTE_P = PTE_FLAGS e.
Proof.
  intros H. apply Z.bits_inj'. intros n Hn. rewrite Z.lor_spec. unfold PTE_FLAGS, PTE_P.
  destruct (decide (n = 0)) as [->|].
  - rewrite Z.land_spec. unfold has, PTE_P in H. apply negb_true_iff, Z.eqb_neq in H.
    destruct (Z.testbit e 0) eqn:E; [done|]. exfalso. apply H. apply Z.bits_inj'. intros m Hm.
    rewrite Z.land_spec, Z.bits_0. destruct (decide (m = 0)) as [->|]; [by rewrite E|].
    destruct m; [done| |lia]. by rewrite andb_false_r.
  - destruct n; [done| |lia]. cbn. by rewrite orb_false_r.
Qed.

Context (Hkdata : kdata mod 4096 = 0 /\ KERNLINK < kdata < KERNBASE + PHYSTOP).

Lemma kentry_user n : n < UPAGES -> kentry kdata n = None.
Proof.
  intros Hn. unfold kentry. change UPAGES with 524288 in *.
  unfold KERNLINK, KERNBASE, EXTMEM, PHYSTOP, DEVSPACE, PGSIZE in *.
  rewrite !decide_False by lia. done.
Qed.

Section copy.
Context (s0 : vst) (l0 : list Z) (pgdir : Z) (T U : gmap Z Z) (X : list Z) (sz : Z).
Context (V0 : vm_ok s0 l0 pgdir T U X).
Context (Hsz : 0 <= sz <= KERNBASE).
Context (Hmap : forall n, 0 <= n < pgs sz -> is_Some (U !! n)).

(** [d] has copies of the first [k] pages, in pages that were free. *)
Record copied (d k : Z) (s : vst) (l : list Z) (Td Ud : gmap Z Z) : Prop := {
  cp_ok : vm_ok s l d Td Ud (pages pgdir T U ++ X);
  cp_pages : l0 ≡ₚ l ++ pages d Td Ud;
  cp_kept : kept l0 s0 s;
  cp_new : forall n, 0 <= n < k -> exists e f, U !! n = Some e
    /\ Ud !! n = Some (V2P f + PTE_FLAGS e) /\ page_ok kend f
    /\ (forall i, 0 <= i < 4096 -> ld8 (mem s) (f + i) = ld8 (mem s0) (frame e + i));
  cp_kernel : forall n, ~ 0 <= n < k -> Ud !! n = kentry kdata n
}.
Definition given_back (s : vst) : Prop :=
  exists l, kmem_ok kend s l /\ l ≡ₚ l0 /\ kept l0 s0 s.
(** The number of pages the copy of [k] pages has used. *)
Definition used_up (k : Z) (l : list Z) : Prop :=
  Z.of_nat (length l0) <= Z.of_nat (length l) + 65 + 2 * k.

Lemma parent_page q : q ∈ pages pgdir T U -> page_ok kend q /\ q ∉ l0.
Proof.
  intros Hq. split.
  - apply (vo_pages _ _ _ _ _ _ _ V0). apply elem_of_app. by left.
  - intros Hl. pose proof (vo_nodup _ _ _ _ _ _ _ V0) as Hn. apply NoDup_app in Hn as (_ & Hd & _).
    apply (Hd q Hl). apply elem_of_app. by left.
Qed.

Lemma copied_parent d k s l Td Ud :
  copied d k s l Td Ud -> vm_ok s l pgdir T U (pages d Td Ud ++ X).
Proof.
  intros C. apply vm_ok_swap; [apply C|]. eapply aspace_frame; [apply V0|]. intros q Hq.
  assert (Hin : q ∈ pages pgdir T U).
  { unfold pages. apply elem_of_cons in Hq as [->|Hq]; [constructor|]. constructor.
    apply elem_of_app. by left. }
  destruct (parent_page q Hin) as [Hp Hl]. by apply (kp_same _ _ _ _ (cp_kept _ _ _ _ _ _ C)).
Qed.

Lemma copied_give_up d s l Td Ud :
  vm_ok s l d Td Ud (pages pgdir T U ++ X) -> l0 ≡ₚ l ++ pages d Td Ud -> kept l0 s0 s ->
  exists s', freevm kend d s = Ok tt s' /\ given_back s'.
Proof.
  intros V P0 K0. destruct (freevm_spec kend Hkend _ _ _ _ _ _ V) as (s' & l' & E & Hk & P & K).
  exists s'. split; [done|]. exists l'. split_and!; [done|by rewrite P, P0|].
  eapply kept_trans; [exact K0|exact K|done|].
  intros q Hq. rewrite P0. apply elem_of_app. by right.
Qed.

(** The page of the parent that is copied. *)
Lemma copy_source d k s l Td Ud n :
  copied d k s l Td Ud -> 0 <= n < pgs sz ->
  exists t e, U !! n = Some e /\ has PTE_P e = true /\ page_ok kend (frame e) /\ (frame e ∉ l0)
    /\ walkpgdir pgdir (4096 * n) false s = Ok (t + 4 * PTX (4096 * n)) s
    /\ t + 4 * PTX (4096 * n) <> 0 /\ kload (t + 4 * PTX (4096 * n)) s = Ok e s.
Proof.
  intros C Hn. pose proof (copied_parent _ _ _ _ _ _ C) as V.
  assert (Hnu : n < UPAGES) by (unfold pgs, UPAGES, KERNBASE, PGSIZE in *; lia).
  destruct (Hmap n Hn) as [e He].
  destruct (as_dom _ _ _ _ (vo_as _ _ _ _ _ _ _ V) _ _ He) as (Hr & [t Ht] & HP).
  assert (Hin : frame e ∈ pages pgdir T U) by (by eapply vo_frame_in_pages).
  destruct (parent_page _ Hin) as [Hf Hfl].
  assert (Hpt : page_ok kend t) by (apply (vo_tabs _ _ _ _ _ _ _ V), elem_of_tabs; eauto).
  assert (Ept : PTX (4096 * n) = n mod 1024) by (rewrite PTX_eq; lia).
  exists t, e. split_and!; try done.
  - apply (walk_present _ _ _ _ _ _ _ V); [lia|]. by replace (4096 * n / 4194304) with (n / 1024) by lia.
  - unfold page_ok, KERNBASE in Hpt. lia.
  - rewrite Ept. unfold kload. destruct (page_word kend t (n mod 1024) Hpt) as [_ ->]; [lia|].
    rewrite (as_pte _ _ _ _ (vo_as _ _ _ _ _ _ _ V) _ _ _ Ht) by lia.
    replace (1024 * (n / 1024) + n mod 1024) with n by lia. by rewrite He.
Qed.

(** The new page is mapped. *)
Lemma copied_map d k s p l Td Ud s2 s3 l3 T3 e :
  copied d k s (p :: l) Td Ud -> 0 <= k < pgs sz -> page_ok kend p ->
  U !! k = Some e -> kept [p] s s2 ->
  (forall i, 0 <= i < 4096 -> ld8 (mem s2) (p + i) = ld8 (mem s0) (frame e + i)) ->
  vm_ok s3 l3 d T3 (<[k := V2P p + PTE_FLAGS e]> Ud) (pages pgdir T U ++ X) ->
  tables_from l Td l3 T3 -> kept (d :: tabs T3) s2 s3 ->
  copied d (k + 1) s3 l3 T3 (<[k := V2P p + PTE_FLAGS e]> Ud).
Proof.
  intros C Hk Hp He K2 B2 V3 (used & -> & Pt & Hs) K3.
  assert (Hku : k < UPAGES) by (unfold pgs, UPAGES, KERNBASE, PGSIZE in *; lia).
  destruct (page_V2P kend p Hp) as (_ & Hvm & _).
  assert (Hfl : 0 <= PTE_FLAGS e < 4096) by (rewrite PTE_FLAGS_eq; lia).
  assert (Efr : forall f x, page_ok kend f -> frame (V2P f + PTE_FLAGS x) = f).
  { intros f x Hf. destruct (page_V2P kend f Hf) as (_ & Hm & _). unfold frame.
    rewrite entry_addr by (done || (rewrite PTE_FLAGS_eq; lia)). apply P2V_V2P, Hf. }
  assert (Hnone : Ud !! k = None).
  { rewrite (cp_kernel _ _ _ _ _ _ C) by lia. by apply kentry_user. }
  assert (Hsub : [p] ⊆ l0 /\ d :: tabs T3 ⊆ l0).
  { split; intros q Hq; rewrite (cp_pages _ _ _ _ _ _ C); unfold pages.
    - apply list_elem_of_singleton in Hq as ->. constructor.
    - rewrite Pt in Hq. clear -Hq. set_solver. }
  destruct Hsub as [Hs1 Hs2]. split.
  - done.
  - rewrite (cp_pages _ _ _ _ _ _ C). unfold pages. rewrite Pt, uframes_insert_user by done.
    rewrite Efr by done. solve_Permutation.
  - exact (kept_trans _ _ _ _ _ _ _ (kept_trans _ _ _ _ _ _ _ (cp_kept _ _ _ _ _ _ C) K2
      (reflexivity _) Hs1) K3 (reflexivity _) Hs2).
  - assert (Hin : forall n x f, n < UPAGES -> page_ok kend f ->
      <[k := V2P p + PTE_FLAGS e]> Ud !! n = Some (V2P f + PTE_FLAGS x) ->
      forall i, 0 <= i < 4096 -> ld8 (mem s3) (f + i) = ld8 (mem s2) (f + i)).
    { intros n x f Hn Hf Hx i Hi. apply same_page_byte; [done| |done].
      destruct (vo_frame kend _ _ _ _ _ _ n _ V3 Hx Hn) as (_ & _ & Hni). rewrite Efr in Hni by done.
      by apply (kp_same _ _ _ _ K3). }
    intros n Hn. destruct (decide (n = k)) as [->|Hne].
    + exists e, p. rewrite lookup_insert_eq. split_and!; try done. intros i Hi.
      rewrite (Hin k e p) by (done || apply lookup_insert_eq). by apply B2.
    + destruct (cp_new _ _ _ _ _ _ C n) as (x & f & Hx & Hf & Hpf & Hb); [lia|].
      exists x, f. assert (Hf' : <[k := V2P p + PTE_FLAGS e]> Ud !! n = Some (V2P f + PTE_FLAGS x))
        by (by rewrite lookup_insert_ne by lia).
      split_and!; try done. intros i Hi. rewrite (Hin n x f) by (done || lia). rewrite <-Hb by done.
      apply same_page_byte; [done| |done]. apply (kp_same _ _ _ _ K2); [done|].
      intros ->%list_elem_of_singleton.
      destruct (vo_frame kend _ _ _ _ _ _ n _ (cp_ok _ _ _ _ _ _ C) Hf) as (_ & Hni & _); [lia|].
      rewrite Efr in Hni by done. apply Hni. constructor.
  - intros n Hn. rewrite lookup_insert_ne by lia. apply (cp_kernel _ _ _ _ _ _ C). lia.
Qed.

Lemma copy_page_spec d k s l Td Ud :
  copied d k s l Td Ud -> 0 <= k < pgs sz -> used_up k l ->
  exists r s', copy_page kend pgdir d (4096 * k) s = Ok r s'
    /\ (r = None /\ (exists l' T' U', copied d (k + 1) s' l' T' U' /\ used_up (k + 1) l')
        \/ r = Some 0 /\ given_back s' /\ used_up (pgs sz) []).
Proof.
  intros C Hk Hc. unfold used_up in *. cbn [length] in *. destruct (copy_source _ _ _ _ _ _ k C Hk)
    as (t & e & He & HP & Hf & Hfl & Ew & Hne & El).
  assert (Hku : k < UPAGES) by (unfold pgs, UPAGES, KERNBASE, PGSIZE in *; lia).
  unfold copy_page. rewrite (bind_Ok _ _ _ _ _ Ew), (proj2 (Z.eqb_neq _ 0)) by done.
  rewrite (bind_Ok _ _ _ _ _ El), HP. cbn [negb].
  pose proof (vm_ok_kalloc _ _ _ _ _ _ _ (cp_ok _ _ _ _ _ _ C)) as Ha. destruct l as [|p l].
  { rewrite (bind_Ok _ _ _ _ _ Ha). cbn [Z.eqb].
    destruct (copied_give_up d s [] Td Ud) as (s' & E & G); [apply C..|].
    rewrite (bind_Ok _ _ _ _ _ E).
    exists (Some 0), s'. split; [done|]. right. split_and!; [done|done|]. cbn [length] in Hc. lia. }
  destruct Ha as (s1 & E1 & V1 & K1 & Hp). rewrite (bind_Ok _ _ _ _ _ E1).
  rewrite (proj2 (Z.eqb_neq p 0)) by (by apply (page_nonzero kend)).
  assert (Eb : kbytes (P2V (PTE_ADDR e)) PGSIZE s1 = Ok (bytes_at (mem s1) (frame e) 4096) s1).
  { unfold kbytes. destruct (page_word kend (frame e) 0 Hf) as [_ Hw]; [lia|].
    rewrite Z.mul_0_r, Z.add_0_r in Hw. fold (frame e). rewrite Hw. cbn [andb].
    rewrite (proj2 (Z.leb_le _ _)); [done|].
    unfold page_ok, PGSIZE, KERNBASE, PHYSTOP in *. lia. }
  rewrite (bind_Ok _ _ _ _ _ Eb).
  set (m2 := copy_bytes p (bytes_at (mem s1) (frame e) 4096) (mem s1)).
  destruct (copy_page_bytes p (frame e) (mem s1) m2 Hp eq_refl) as [Hsame Hbytes].
  destruct (vm_ok_write kend s1 l d Td Ud _ p m2 V1 Hsame) as [V2 K2].
  assert (Em : kmemmove p (bytes_at (mem s1) (frame e) 4096) s1 = Ok tt (set_mem m2 s1)).
  { unfold kmemmove. destruct (page_word kend p 0 Hp) as [_ Hw]; [lia|].
    rewrite Z.mul_0_r, Z.add_0_r in Hw. rewrite Hw, length_bytes_at. cbn [andb].
    rewrite (proj2 (Z.leb_le _ _)); [done|].
    unfold page_ok, PGSIZE, KERNBASE, PHYSTOP in *. lia. }
  rewrite (bind_Ok _ _ _ _ _ Em).
  assert (K12 : kept [p] s (set_mem m2 s1)) by (eapply kept_trans; [exact K1|exact K2|set_solver|done]).
  assert (B2 : forall i, 0 <= i < 4096 ->
            ld8 (mem (set_mem m2 s1)) (p + i) = ld8 (mem s0) (frame e + i)).
  { intros i Hi. cbn [mem set_mem]. rewrite Hbytes by done. apply same_page_byte; [done| |done].
    etransitivity; [apply (kp_same _ _ _ _ (cp_kept _ _ _ _ _ _ C)); done|].
    apply (kp_same _ _ _ _ K1); [done|apply not_elem_of_nil]. }
  set (s2 := set_mem m2 s1) in *. clearbody s2. clear Em Eb Hsame Hbytes K1 K2 V1 E1.
  destruct (page_V2P kend p Hp) as (_ & Hvm & Hvr).
  assert (Hfr : 0 <= PTE_FLAGS e < 4096) by (rewrite PTE_FLAGS_eq; lia).
  assert (Hdiv : 4096 * k / 4096 = k) by lia.
  assert (Hx : Z.lor (PTE_FLAGS e) PTE_P = PTE_FLAGS e) by (by apply flags_present).
  destruct (mappages_one kend s2 l d Td Ud _ (pages pgdir T U ++ X) (4096 * k) (V2P p) (PTE_FLAGS e) V2)
    as [[-> E3]|(s3 & l3 & T3 & E3 & V3 & Tf3 & K3 & _ & C3)].
  - unfold UPAGES, KERNBASE, PGSIZE in Hku. lia.
  - lia.
  - rewrite Hdiv, (cp_kernel _ _ _ _ _ _ C) by lia. by apply kentry_user.
  - done.
  - unfold PHYSTOP in Hvr. lia.
  - done.
  - unfold takes. rewrite Hdiv. rewrite (proj2 (Z.ltb_lt k UPAGES)) by lia.
    by rewrite P2V_V2P by apply Hp.
  - rewrite (bind_Ok _ _ _ _ _ E3). cbn [Z.ltb Z.compare].
    destruct (vm_ok_kfree _ _ _ _ _ _ _ _ V2) as (s4 & E4 & V4 & K4).
    destruct (copied_give_up d s4 [p] Td Ud V4) as (s5 & E5 & G); [apply C| |].
    { assert (Hs : [p] ⊆ l0) by (intros q Hq; rewrite (cp_pages _ _ _ _ _ _ C); apply elem_of_app; by left).
      exact (kept_trans _ _ _ _ _ _ _ (kept_trans _ _ _ _ _ _ _ (cp_kept _ _ _ _ _ _ C) K12
        (reflexivity _) Hs) K4 (reflexivity _) Hs). }
    rewrite (bind_Ok _ _ _ _ _ E4), (bind_Ok _ _ _ _ _ E5). exists (Some 0), s5.
    split; [done|]. right. split_and!; [done|done|]. cbn [length] in Hc. lia.
  - rewrite (bind_Ok _ _ _ _ _ E3). cbn [Z.ltb Z.compare]. rewrite Hdiv, Hx in V3.
    exists None, s3. split; [done|]. left. split; [done|].
    eexists _, _, _. split; [by eapply copied_map|]. cbn [length] in Hc. lia.
Qed.

Lemma copyuvm_spec :
  exists r s', copyuvm kend kdata pgdir sz s0 = Ok r s'
    /\ (r = 0 /\ given_back s' /\ used_up (pgs sz) []
        \/ exists l' T' U', copied r (pgs sz) s' l' T' U').
Proof.
  unfold copyuvm.
  destruct (setupkvm_spec kend kdata Hkend Hkdata s0 l0 (pages pgdir T U ++ X)) as (d & s1 & E1 & H1).
  { apply V0. } { apply V0. } { apply V0. }
  rewrite (bind_Ok _ _ _ _ _ E1). destruct H1 as [[-> (l1 & Hk & P & K & Hc)]|B].
  { exists 0, s1. split; [done|]. left. split; [done|]. split; [by exists l1|].
    unfold used_up, pgs. cbn [length]. lia. }
  destruct B as (l1 & T1 & used & V1 & Hti & El & Pu & K1 & Hker).
  rewrite (proj2 (Z.eqb_neq d 0)) by (apply (page_nonzero kend), (vo_pgdir _ _ _ _ _ _ _ V1)).
  assert (C0 : copied d 0 s1 l1 T1 (kernel_map kdata)).
  { split; [done| | | |].
    - rewrite El. unfold pages. rewrite (kernel_no_frames (kernel_map kdata)) by done.
      rewrite app_nil_r, Pu. solve_Permutation.
    - eapply kept_weaken; [exact K1|]. rewrite El. intros q Hq. apply elem_of_app. by left.
    - intros n Hn. lia.
    - intros n _. by apply kernel_map_entry. }
  assert (U1 : used_up 0 l1).
  { pose proof (tabs_kernel_bound _ _ Hti Hker). unfold used_up. rewrite El, length_app, Pu.
    cbn [length]. lia. }
  set (N := (sz - 0 + PGSIZE - 1) / PGSIZE).
  assert (EN : Z.of_nat (Z.to_nat N) = pgs sz) by (unfold N, pgs, PGSIZE; lia).
  enough (Hwp : wp (forR (upto 0 sz) (copy_page kend pgdir d)) (fun r s' =>
     r = None /\ (exists l' T' U', copied d (pgs sz) s' l' T' U')
     \/ r = Some 0 /\ given_back s' /\ used_up (pgs sz) []) s1).
  { apply wp_run in Hwp as (r & s' & E & H). rewrite (bind_Ok _ _ _ _ _ E).
    exists (default d r), s'. split; [done|]. destruct H as [[-> ?]|[-> ?]]; [by right|by left]. }
  unfold upto. fold N.
  apply wp_forR with (I := fun dn s' => exists l' T' U', copied d (Z.of_nat (length dn)) s' l' T' U'
    /\ used_up (Z.of_nat (length dn)) l').
  - by exists l1, T1, (kernel_map kdata).
  - intros dn x rest s2 Hl (l2 & T2 & U2 & C2 & Hu2).
    destruct (map_seqZ_split _ _ _ _ _ Hl) as [-> Hlt]. rewrite Z.add_0_l.
    destruct (copy_page_spec _ _ _ _ _ _ C2) as (r & s3 & E3 & Hr); [lia|done|].
    unfold wp. change PGSIZE with 4096. rewrite E3, length_app. cbn [length].
    destruct Hr as [[-> H]|[-> H]]; [by rewrite Nat2Z.inj_add|by right].
  - intros s2 (l2 & T2 & U2 & C2 & _). left. split; [done|].
    rewrite length_map, length_seqZ, EN in C2. by exists l2, T2, U2.
Qed.
End copy.

Lemma copyuvm_result s l pgdir T U X sz :
  vm_ok s l pgdir T U X -> 0 <= sz <= KERNBASE ->
  (forall n, 0 <= n < pgs sz -> is_Some (U !! n)) ->
  exists r s', copyuvm kend kdata pgdir sz s = Ok r s'
    /\ (forall q, page_ok kend q -> q ∉ l -> same_page q (mem s) (mem s'))
    /\ ((exists l' T' U', vm_ok s' l' r T' U' (pages pgdir T U ++ X)
           /\ l ≡ₚ l' ++ pages r T' U'
           /\ (forall va, 0 <= va < 4096 * pgs sz ->
                 user_byte (mem s') r va = user_byte (mem s) pgdir va
                 /\ option_map PTE_FLAGS (xlate (mem s') r va)
                    = option_map PTE_FLAGS (xlate (mem s) pgdir va))
           /\ (forall va, 4096 * pgs sz <= va < 2 ^ 32 ->
                 xlate (mem s') r va = kentry kdata (va / 4096)))
        \/ r = 0 /\ (exists l', kmem_ok kend s' l' /\ l' ≡ₚ l)
           /\ Z.of_nat (length l) <= 65 + 2 * pgs sz).
Proof.
  intros V Hsz Hmap. destruct (copyuvm_spec s l pgdir T U X sz V Hsz Hmap) as (r & s' & E & Hr).
  assert (Hpg : 0 <= pgs sz <= UPAGES) by (unfold pgs, UPAGES, KERNBASE, PGSIZE in *; lia).
  exists r, s'. split; [done|]. destruct Hr as [(-> & (l' & Hk & P & K) & Hu)|(l' & T' & U' & C)].
  - split; [apply K|]. right. split_and!; [done|by exists l'|]. unfold used_up in Hu. cbn [length] in Hu. lia.
  - split; [apply (cp_kept _ _ _ _ _ _ _ _ _ _ _ _ C)|]. left. exists l', T', U'.
    pose proof (cp_ok _ _ _ _ _ _ _ _ _ _ _ _ C) as V'.
    assert (H32 : 4096 * UPAGES < 2 ^ 32) by (vm_compute; done).
    split_and!; [done|apply C| |].
    + intros va Hva.
      destruct (cp_new _ _ _ _ _ _ _ _ _ _ _ _ C (va / 4096)) as (e & f & He & Hf & Hp & Hb); [lia|].
      assert (X1 : xlate (mem s') r va = Some (V2P f + PTE_FLAGS e))
        by (rewrite (vo_xlate _ _ _ _ _ _ _ V') by lia; done).
      assert (X2 : xlate (mem s) pgdir va = Some e)
        by (rewrite (vo_xlate _ _ _ _ _ _ _ V) by lia; done).
      destruct (page_V2P kend f Hp) as (_ & Hvm & _).
      assert (Hfl : 0 <= PTE_FLAGS e < 4096) by (rewrite PTE_FLAGS_eq; lia).
      assert (Ef : frame (V2P f + PTE_FLAGS e) = f)
        by (unfold frame; rewrite entry_addr by done; apply P2V_V2P, Hp).
      unfold user_byte. rewrite X1, X2. cbn [mbind option_bind option_map].
      rewrite Ef, Hb by lia. rewrite entry_flags by done. done.
    + intros va Hva. rewrite (vo_xlate _ _ _ _ _ _ _ V') by lia.
      apply (cp_kernel _ _ _ _ _ _ _ _ _ _ _ _ C). unfold pgs in *. lia.
Qed.

(** C16: [copyuvm] copies an address space.  For a parent whose first [sz] bytes
    are mapped it never panics.  Either it returns a new page directory that the
    hardware reads as the parent's contents with the parent's permissions below
    [sz] and as the kernel's map above, all of it in pages that were free; or it
    returns 0, there were fewer than 66 free pages and two for each user page,
    and all pages are free again.  The parent's pages and everybody else's are
    not written. *)
Theorem copyuvm_copies s l pgdir T U X sz :
  vm_ok s l pgdir T U X -> 0 <= sz <= KERNBASE ->
  (forall n, 0 <= n < pgs sz -> is_Some (U !! n)) ->
  exists r s', copyuvm kend kdata pgdir sz s = Ok r s'
    /\ (forall q, page_ok kend q -> q ∉ l -> same_page q (mem s) (mem s'))
    /\ ((exists l' T' U', vm_ok s' l' r T' U' (pages pgdir T U ++ X)
           /\ l ≡ₚ l' ++ pages r T' U'
           /\ (forall va, 0 <= va < 4096 * pgs sz ->
                 user_byte (mem s') r va = user_byte (mem s) pgdir va
                 /\ option_map PTE_FLAGS (xlate (mem s') r va)
                    = option_map PTE_FLAGS (xlate (mem s) pgdir va))
           /\ (forall va, 4096 * pgs sz <= va < 2 ^ 32 ->
                 xlate (mem s') r va = kentry kdata (va / 4096)))
        \/ r = 0 /\ (exists l', kmem_ok kend s' l' /\ l' ≡ₚ l)
           /\ Z.of_nat (length l) <= 65 + 2 * pgs sz).
Proof. apply copyuvm_result. Qed.
End ucopy.

(** ** [copyout] *)

Section copyout.
Context (kend : Z).

Abbreviation vm_ok := (vm_ok kend).

Lemma uframes_inj U n n' e e' :
  NoDup (uframes U) -> U !! n = Some e -> U !! n' = Some e' -> n < UPAGES -> n' < UPAGES ->
  frame e = frame e' -> n = n'.
Proof.
  intros Hn He He' Hu Hu' Hf. destruct (decide (n = n')) as [->|Hne]; [done|]. exfalso.
  rewrite (uframes_delete U n e) in Hn by done. apply NoDup_cons in Hn as [Hn _]. apply Hn.
  apply elem_of_uframes. exists n', e'. by rewrite lookup_delete_ne.
Qed.

Lemma vo_uframes_nodup s l pgdir T U X : vm_ok s l pgdir T U X -> NoDup (uframes U).
Proof.
  intros V. pose proof (vo_nodup _ _ _ _ _ _ _ V) as Hn. apply NoDup_app in Hn as (_ & _ & Hn).
  apply NoDup_app in Hn as (Hn & _ & _). unfold pages in Hn. apply NoDup_cons in Hn as [_ Hn].
  by apply NoDup_app in Hn as (_ & _ & Hn).
Qed.

(** Writing a user frame keeps the address space. *)
Lemma vm_ok_write_frame s l pgdir T U X n e m :
  vm_ok s l pgdir T U X -> U !! n = Some e -> n < UPAGES ->
  (forall q, page_ok kend q -> q <> frame e -> same_page q (mem s) m) ->
  vm_ok (set_mem m s) l pgdir T U X.
Proof.
  intros V He Hn Hs. destruct (vo_frame kend _ _ _ _ _ _ n e V He Hn) as (Hf & Hl & Ht).
  split; [| |apply V|apply V].
  - eapply kmem_ok_frame; [apply V|done|]. intros q Hq. apply Hs; [|by intros ->].
    apply (km_pages _ _ _ (vo_kmem _ _ _ _ _ _ _ V) q Hq).
  - cbn [mem set_mem]. eapply aspace_frame; [apply V|]. intros q Hq. apply Hs; [|by intros ->].
    apply elem_of_cons in Hq as [->|Hq]; [apply (vo_pgdir _ _ _ _ _ _ _ V)|].
    by apply (vo_tabs _ _ _ _ _ _ _ V).
Qed.

Section space.
Context (l : list Z) (pgdir : Z) (T U : gmap Z Z) (X : list Z).

(** One chunk, inside a page. *)
Lemma copy_chunk s va e bs :
  vm_ok s l pgdir T U X -> U !! (va / 4096) = Some e -> 0 <= va < KERNBASE ->
  Forall (fun b => 0 <= b < 256) bs -> bs <> [] ->
  va mod 4096 + Z.of_nat (length bs) <= 4096 ->
  exists s', kmemmove (frame e + va mod 4096) bs s = Ok tt s' /\ vm_ok s' l pgdir T U X
    /\ forall a, 0 <= a < KERNBASE -> user_byte (mem s') pgdir a
         = if decide (va <= a < va + Z.of_nat (length bs)) then bs !! Z.to_nat (a - va)
           else user_byte (mem s) pgdir a.
Proof.
  intros V He Hva Hb Hne Hfit.
  assert (Hn : va / 4096 < UPAGES) by (unfold UPAGES, KERNBASE, PGSIZE in *; lia).
  destruct (vo_frame kend _ _ _ _ _ _ _ e V He Hn) as (Hf & Hl & Ht).
  assert (Hlen : 0 < Z.of_nat (length bs)) by (destruct bs; [done|cbn; lia]).
  set (dst := frame e + va mod 4096).
  assert (W1 : window dst /\ window (dst + Z.of_nat (length bs) - 1)).
  { unfold dst, window, page_ok, PGSIZE, KERNBASE, PHYSTOP in *. lia. }
  destruct W1 as [W1 W2]. set (m := copy_bytes dst bs (mem s)).
  assert (Hs : forall q, page_ok kend q -> q <> frame e -> same_page q (mem s) m).
  { intros q Hq Hqe a Ha. apply ld32_copy_out; [done|done|by apply (page_ok_range kend q)|].
    unfold dst, page_ok, in_page, PGSIZE in *. lia. }
  pose proof (vm_ok_write_frame _ _ _ _ _ _ _ _ m V He Hn Hs) as V'.
  exists (set_mem m s). split_and!; [|done|].
  - unfold kmemmove. fold dst. unfold in_window. unfold window in W1, W2.
    replace ((KERNBASE <=? dst) && (dst <? KERNBASE + PHYSTOP)
             && (dst + Z.of_nat (length bs) <=? KERNBASE + PHYSTOP)) with true by lia. done.
  - intros a Ha. unfold user_byte.
    rewrite (vo_xlate _ _ _ _ _ _ _ V'), (vo_xlate _ _ _ _ _ _ _ V) by (unfold KERNBASE in *; lia).
    destruct (decide (a / 4096 = va / 4096)) as [Ep|Ep].
    + rewrite Ep, He. cbn [mbind option_bind mem set_mem]. unfold m. case_decide as Hr.
      * destruct (bs !! Z.to_nat (a - va)) as [b|] eqn:Eb; [|apply lookup_ge_None in Eb; lia].
        f_equal. replace (frame e + a mod 4096) with (dst + Z.of_nat (Z.to_nat (a - va)))
          by (unfold dst; lia). by apply ld8_copy_in.
      * f_equal. apply ld8_copy_out; [done|done|done| |unfold dst; lia].
        unfold window, page_ok, PGSIZE, KERNBASE, PHYSTOP in *. lia.
    + rewrite decide_False by lia. destruct (U !! (a / 4096)) as [e'|] eqn:Ee; [|done].
      cbn [mbind option_bind mem set_mem]. f_equal.
      assert (Hn' : a / 4096 < UPAGES) by (unfold UPAGES, KERNBASE, PGSIZE in *; lia).
      destruct (vo_frame kend _ _ _ _ _ _ _ e' V Ee Hn') as (Hf' & _).
      apply (same_page_byte kend); [done| |lia]. apply Hs; [done|]. intros E.
      apply Ep. eapply (uframes_inj U); [by eapply vo_uframes_nodup|exact Ee|exact He|done..].
Qed.
Lemma uva2ka_user s va e :
  vm_ok s l pgdir T U X -> U !! (va / 4096) = Some e -> has PTE_U e = true -> 0 <= va < KERNBASE ->
  uva2ka pgdir va s = Ok (frame e) s /\ frame e <> 0.
Proof.
  intros V He HU Hva.
  assert (Hn : va / 4096 < UPAGES) by (unfold UPAGES, KERNBASE, PGSIZE in *; lia).
  destruct (vo_frame kend _ _ _ _ _ _ _ e V He Hn) as (Hf & _).
  destruct (as_dom _ _ _ _ (vo_as _ _ _ _ _ _ _ V) _ _ He) as (_ & [t Ht] & HP).
  replace (va / 4096 / 1024) with (va / 4194304) in Ht by lia.
  assert (Hpt : page_ok kend t) by (apply (vo_tabs _ _ _ _ _ _ _ V), elem_of_tabs; eauto).
  split; [|by apply (page_nonzero kend)]. unfold uva2ka.
  assert (Ew : walkpgdir pgdir va false s = Ok (t + 4 * PTX va) s)
    by (apply (walk_present _ _ _ _ _ _ _ V); [unfold KERNBASE in *; lia|done]).
  assert (El : kload (t + 4 * PTX va) s = Ok e s).
  { unfold kload. rewrite PTX_eq. destruct (page_word kend t (va / 4096 mod 1024) Hpt) as [_ ->]; [lia|].
    rewrite (as_pte _ _ _ _ (vo_as _ _ _ _ _ _ _ V) _ _ _ Ht) by lia.
    replace (1024 * (va / 4194304) + va / 4096 mod 1024) with (va / 4096) by lia. by rewrite He. }
  rewrite (bind_Ok _ _ _ _ _ Ew), (bind_Ok _ _ _ _ _ El), HP, HU. done.
Qed.

(** [copyout] to mapped user memory returns 0, and afterwards a program reads
    at that address the bytes given, and every other byte of its memory as
    before. *)
Theorem copyout_writes s va bs :
  vm_ok s l pgdir T U X -> 0 <= va -> va + Z.of_nat (length bs) <= KERNBASE ->
  Forall (fun b => 0 <= b < 256) bs ->
  (forall n, va / 4096 <= n < pgs (va + Z.of_nat (length bs)) ->
     exists e, U !! n = Some e /\ has PTE_U e = true) ->
  exists s', copyout pgdir va bs s = Ok 0 s' /\ vm_ok s' l pgdir T U X
    /\ forall a, 0 <= a < KERNBASE -> user_byte (mem s') pgdir a
         = if decide (va <= a < va + Z.of_nat (length bs)) then bs !! Z.to_nat (a - va)
           else user_byte (mem s) pgdir a.
Proof.
  intros V Hva Htop Hb Hmap.
  set (I := fun (x : Z * list Z) s' => exists k, (k <= length bs)%nat /\ x.2 = drop k bs
    /\ (k = length bs \/ x.1 = va + Z.of_nat k) /\ vm_ok s' l pgdir T U X
    /\ forall a, 0 <= a < KERNBASE -> user_byte (mem s') pgdir a
         = if decide (va <= a < va + Z.of_nat k) then bs !! Z.to_nat (a - va)
           else user_byte (mem s) pgdir a).
  set (mu := fun x : Z * list Z => if (length x.2 =? 0)%nat then 0%nat
               else Z.to_nat ((Z.of_nat (length x.2) + x.1 mod 4096 + 4095) / 4096)).
  enough (Hwp : wp (copyout pgdir va bs) (fun r s' => r = 0 /\ I (0, []) s') s).
  { apply wp_run in Hwp as (r & s' & E & -> & k & Hk & Hd & _ & V' & Hu). exists s'.
    assert (k = length bs) as ->; [|done].
    apply (f_equal length) in Hd. rewrite length_drop in Hd. cbn in Hd. lia. }
  apply (wp_loop _ I mu).
  - exists 0%nat. split_and!; [lia|done|right; cbn; lia|done|].
    intros a Ha. rewrite decide_False by lia. done.
  - unfold mu, PGSIZE. cbn [fst snd]. case_match; [lia|]. lia.
  - clear V. intros [va' buf] s1 (k & Hk & Hbuf & Hx & V & Hu). cbn [fst snd] in *.
    destruct (length buf =? 0)%nat eqn:E0.
    { apply Nat.eqb_eq in E0. apply wp_ret. split; [done|]. exists k.
      split_and!; [done|cbn; by rewrite <-Hbuf, (nil_length_inv _ E0)| |done|done].
      left. rewrite Hbuf, length_drop in E0. lia. }
    apply Nat.eqb_neq in E0. assert (Elen : length buf = (length bs - k)%nat) by (rewrite Hbuf; apply length_drop).
    destruct Hx as [->| ->]; [lia|]. rewrite PGROUNDDOWN_eq.
    set (v := va + Z.of_nat k) in *. set (n := Z.min (PGSIZE - (v - (v - v mod 4096))) (Z.of_nat (length buf))).
    destruct (Hmap (v / 4096)) as (e & He & HU); [unfold pgs, v; lia|].
    assert (Hv0 : (v - v mod 4096) / 4096 = v / 4096) by lia.
    destruct (uva2ka_user s1 (v - v mod 4096) e V) as [Eu Hnz];
      [by rewrite Hv0|done|unfold KERNBASE in *; lia|].
    assert (Hn : 0 < n <= 4096 - v mod 4096) by (unfold n, PGSIZE; lia).
    assert (Hcl : Z.of_nat (length (take (Z.to_nat n) buf)) = n)
      by (rewrite length_take; unfold n, PGSIZE in *; lia).
    destruct (copy_chunk s1 v e (take (Z.to_nat n) buf) V He) as (s2 & Em & V2 & Hu2).
    + unfold v, KERNBASE in *. lia.
    + rewrite Hbuf. by apply Forall_take, Forall_drop.
    + intros Enil. rewrite Enil in Hcl. cbn in Hcl. lia.
    + lia.
    + unfold wp. rewrite (bind_Ok _ _ _ _ _ Eu), (proj2 (Z.eqb_neq _ 0)) by done.
      replace (v - (v - v mod 4096)) with (v mod 4096) by lia.
      rewrite (bind_Ok _ _ _ _ _ Em). cbn [mret M_ret]. unfold mret, M_ret. split.
      * exists (k + Z.to_nat n)%nat. cbn [fst snd]. split_and!.
        -- unfold n. lia.
        -- by rewrite Hbuf, drop_drop.
        -- destruct (decide (Z.of_nat (length buf) <= n)); [left; unfold n in *; lia|right].
           unfold PGSIZE in *. rewrite u32_small by (unfold v, KERNBASE in *; lia). unfold n in *. lia.
        -- done.
        -- intros a Ha. rewrite Hu2, Hcl, Hu by done. subst v.
           repeat case_decide; try lia; try done.
           rewrite lookup_take_lt by lia. rewrite Hbuf, lookup_drop. f_equal. lia.
      * unfold mu. cbn [fst snd]. rewrite (proj2 (Nat.eqb_neq (length buf) 0)) by done.
        rewrite length_drop. case_match eqn:En; [lia|]. apply Nat.eqb_neq in En.
        unfold PGSIZE in *. rewrite u32_small by (unfold v, KERNBASE in *; lia). unfold n in *. lia.
Qed.
End space.
End copyout.

Lemma copyuvm_copies_witness : exists s l pgdir T U r s', vm_ok demo_kend s l pgdir T U []
  /\ copyuvm demo_kend demo_kdata pgdir 5000 s = Ok r s'
  /\ user_byte (mem s') r 4999 = user_byte (mem s) pgdir 4999.
Proof.
  destruct demo_user as (s & l & pgdir & T & U & V & HU & Hlen).
  destruct (copyuvm_copies demo_kend demo_kdata (proj1 demo_layout) (proj2 demo_layout)
    s l pgdir T U [] 5000 V) as (r & s' & E & _ & [(l' & T' & U' & _ & _ & Hb & _)|(_ & _ & Hc)]).
  - vm_compute. done.
  - intros n Hn. change (pgs 5000) with 2 in Hn. destruct (HU n Hn) as (f & -> & _). eauto.
  - exists s, l, pgdir, T, U, r, s'. split_and!; [done|done|].
    apply Hb. change (pgs 5000) with 2. lia.
  - exfalso. change (pgs 5000) with 2 in Hc. lia.
Defined.

Lemma copyout_writes_witness : exists s l pgdir T U s', vm_ok demo_kend s l pgdir T U []
  /\ copyout pgdir 4094 [1; 2; 3; 4] s = Ok 0 s'
  /\ user_byte (mem s') pgdir 4096 = Some 3 /\ user_byte (mem s') pgdir 8000 = user_byte (mem s) pgdir 8000.
Proof.
  destruct demo_user as (s & l & pgdir & T & U & V & HU & _).
  destruct (copyout_writes demo_kend l pgdir T U [] s 4094 [1; 2; 3; 4] V)
    as (s' & E & _ & Hb).
  - lia.
  - vm_compute. done.
  - repeat constructor; lia.
  - intros n Hn. change (4094 / 4096) with 0 in Hn.
    change (pgs (4094 + Z.of_nat (length [1; 2; 3; 4]))) with 2 in Hn.
    destruct (HU n Hn) as (f & -> & Hf). eexists. split; [done|].
    destruct (page_V2P demo_kend f Hf) as (_ & Hm & _). by apply (has_entry PTE_U (V2P f) 7).
  - exists s, l, pgdir, T, U, s'. split_and!; [done|done|..]; rewrite Hb by (vm_compute; done); reflexivity.
Defined.
