(* ===== verification/Spinlock.v ===== *)
(** * Spinlock: spin locks and the nesting of interrupt disabling

    Model of src/kernel/spinlock.c for several CPUs.  A CPU is its index; its
    interrupt flag, [ncli] and [intena] are its part of the state.  The routines
    are split at the points where other CPUs can act, between the atomic
    accesses to the lock; the interleavings are the step relation [sstep].
    The compiler and memory barriers have no counterpart: memory is sequentially
    consistent here. *)

From Stdlib Require Import ZArith Lia ZifyBool.
From stdpp Require Import base gmap strings numbers list relations.
From S2P Require Import Prelude Kalloc.

Local Open Scope Z_scope.

(** ** Model *)

(** [ifl]: the bit [FL_IF] of the CPU's flags. *)
Record cpu : Type := mk_cpu { ifl : bool; ncli : Z; intena : bool }.
(** [lcpu]: the holder, or none. *)
Record spinlock : Type := mk_spin { locked : Z; lcpu : option nat }.
Definition initlock : spinlock := mk_spin 0 None.

Record sst : Type := mk_sst { cpus : list cpu; locks : gmap Z spinlock }.

Definition cpu0 : cpu := mk_cpu false 0 false.
Definition getcpu (s : sst) (c : nat) : cpu := default cpu0 (cpus s !! c).
Definition getlk (s : sst) (l : Z) : spinlock := default initlock (locks s !! l).
Definition setcpu (c : nat) (x : cpu) (s : sst) : sst := mk_sst (<[c := x]> (cpus s)) (locks s).
Definition setlk (l : Z) (x : spinlock) (s : sst) : sst := mk_sst (cpus s) (<[l := x]> (locks s)).

(** Every routine takes the CPU that runs it. *)
Definition mycpu (c : nat) : M sst nat := fun s =>
  if ifl (getcpu s c) then Panic "mycpu called with interrupts enabled" s else Ok c s.

Definition pushcli (c : nat) : M sst unit :=
  eflags ← gets (fun s => ifl (getcpu s c));
  modS (fun s => let x := getcpu s c in setcpu c (mk_cpu false (ncli x) (intena x)) s) ;;
  i ← mycpu c;
  n ← gets (fun s => ncli (getcpu s i));
  (if n =? 0
   then modS (fun s => let x := getcpu s i in setcpu i (mk_cpu (ifl x) (ncli x) eflags) s)
   else mret tt) ;;
  modS (fun s => let x := getcpu s i in setcpu i (mk_cpu (ifl x) (ncli x + 1) (intena x)) s).

Definition popcli (c : nat) : M sst unit :=
  eflags ← gets (fun s => ifl (getcpu s c));
  if (eflags : bool) then panic "popcli - interruptible"
  else
    i ← mycpu c;
    modS (fun s => let x := getcpu s i in setcpu i (mk_cpu (ifl x) (ncli x - 1) (intena x)) s) ;;
    x ← gets (fun s => getcpu s i);
    if ncli x <? 0 then panic "popcli"
    else if (ncli x =? 0) && intena x
    then modS (fun s => let x := getcpu s c in setcpu c (mk_cpu true (ncli x) (intena x)) s)
    else mret tt.

Definition holding (c : nat) (l : Z) : M sst bool :=
  pushcli c ;;
  i ← mycpu c;
  r ← gets (fun s => negb (locked (getlk s l) =? 0) && bool_decide (lcpu (getlk s l) = Some i));
  popcli c ;;
  mret r.

(** [acquire] up to the spin loop, one [xchg], and the rest. *)
Definition acquire_enter (c : nat) (l : Z) : M sst unit :=
  pushcli c ;;
  h ← holding c l;
  if (h : bool) then panic "acquire" else mret tt.
Definition acquire_xchg (l : Z) : M sst Z :=
  old ← gets (fun s => locked (getlk s l));
  modS (fun s => setlk l (mk_spin 1 (lcpu (getlk s l))) s) ;;
  mret old.
Definition acquire_own (c : nat) (l : Z) : M sst unit :=
  i ← mycpu c;
  modS (fun s => setlk l (mk_spin (locked (getlk s l)) (Some i)) s).

(** [release] up to the store that frees the lock, and the rest. *)
Definition release_enter (c : nat) (l : Z) : M sst unit :=
  h ← holding c l;
  if negb h then panic "release"
  else modS (fun s => setlk l (mk_spin (locked (getlk s l)) None) s).
Definition release_store (l : Z) : M sst unit :=
  modS (fun s => setlk l (mk_spin 0 (lcpu (getlk s l))) s).

(** The routines as one CPU runs them undisturbed: a lock that is taken is
    never freed then. *)
Definition acquire (c : nat) (l : Z) : M sst unit :=
  acquire_enter c l ;;
  old ← acquire_xchg l;
  if negb (old =? 0) then block "acquire" else acquire_own c l.
Definition release (c : nat) (l : Z) : M sst unit :=
  release_enter c l ;;
  release_store l ;;
  popcli c.

(** [getcallerpcs] follows the chain of frames through the memory [rd]; [ebp] is
    an address, and [ebp[1]] the word after it. *)
Fixpoint getcallerpcs_loop (rd : Z -> Z) (fuel : nat) (ebp : Z) : list Z :=
  match fuel with
  | O => []
  | S fuel' =>
      if (ebp =? 0) || (ebp <? KERNBASE) || (ebp =? 0xffffffff) then replicate fuel 0
      else rd (u32 (ebp + 4)) :: getcallerpcs_loop rd fuel' (rd ebp)
  end.
Definition getcallerpcs (rd : Z -> Z) (v : Z) : list Z :=
  getcallerpcs_loop rd 10 (u32 (v - 8)).

Lemma getcallerpcs_length rd v : length (getcallerpcs rd v) = 10%nat.
Proof.
  unfold getcallerpcs. generalize 10%nat (u32 (v - 8)). intros n.
  induction n as [|n IH]; intros ebp; [done|]. cbn [getcallerpcs_loop].
  case_match; [by rewrite length_replicate|]. cbn. by rewrite IH.
Qed.

(** ** Interleavings *)

(** Where a CPU is: in code that may hold locks, spinning, just past the
    [xchg] that took the lock, or about to free it. *)
Inductive spc : Type := Run | Spin (l : Z) | Got (l : Z) | Rel (l : Z).
(** [held]: the locks between the end of [acquire] and the start of [release]. *)
Record thr : Type := mk_thr { pc : spc; held : list Z }.
Record mach : Type := mk_mach { ms : sst; thrs : list thr }.
Definition thr0 : thr := mk_thr Run [].
Definition getthr (m : mach) (c : nat) : thr := default thr0 (thrs m !! c).
Definition to (m : mach) (s : sst) (c : nat) (t : thr) : mach := mk_mach s (<[c := t]> (thrs m)).

(** A step of CPU [c]: a part of a routine that does not panic; outside any
    routine and lock it may turn interrupts on and off. *)
Inductive sstep (m : mach) : mach -> Prop :=
  | S_enter c l s h : (c < length (thrs m))%nat -> getthr m c = mk_thr Run h ->
      acquire_enter c l (ms m) = Ok tt s -> sstep m (to m s c (mk_thr (Spin l) h))
  | S_spin c l s h old : (c < length (thrs m))%nat -> getthr m c = mk_thr (Spin l) h ->
      acquire_xchg l (ms m) = Ok old s -> old <> 0 -> sstep m (to m s c (mk_thr (Spin l) h))
  | S_take c l s h : (c < length (thrs m))%nat -> getthr m c = mk_thr (Spin l) h ->
      acquire_xchg l (ms m) = Ok 0 s -> sstep m (to m s c (mk_thr (Got l) h))
  | S_own c l s h : (c < length (thrs m))%nat -> getthr m c = mk_thr (Got l) h ->
      acquire_own c l (ms m) = Ok tt s -> sstep m (to m s c (mk_thr Run (l :: h)))
  | S_release c l s h : (c < length (thrs m))%nat -> getthr m c = mk_thr Run h ->
      release_enter c l (ms m) = Ok tt s ->
      sstep m (to m s c (mk_thr (Rel l) (filter (fun x => x <> l) h)))
  | S_free c l s h : (c < length (thrs m))%nat -> getthr m c = mk_thr (Rel l) h ->
      (release_store l ;; popcli c) (ms m) = Ok tt s -> sstep m (to m s c (mk_thr Run h))
  | S_flag c b : (c < length (thrs m))%nat -> getthr m c = thr0 ->
      let x := getcpu (ms m) c in
      sstep m (to m (setcpu c (mk_cpu b (ncli x) (intena x)) (ms m)) c thr0).

(** All CPUs outside any lock, with interrupts on or off. *)
Definition fresh (ifs : list bool) : mach :=
  mk_mach (mk_sst (map (fun b => mk_cpu b 0 false) ifs) ∅) (map (fun _ => thr0) ifs).

(** ** The routines on the state of their CPU *)

Section routines.
Context (s : sst) (c : nat) (x : cpu).
Context (Hx : cpus s !! c = Some x).

Lemma getcpu_eq : getcpu s c = x.
Proof. unfold getcpu. by rewrite Hx. Qed.

Lemma getcpu_set y : getcpu (setcpu c y s) c = y.
Proof.
  unfold getcpu, setcpu. cbn [cpus]. rewrite list_lookup_insert_eq; [done|].
  by eapply lookup_lt_Some.
Qed.

Lemma setcpu_twice y z : setcpu c y (setcpu c z s) = setcpu c y s.
Proof. unfold setcpu. cbn [cpus locks]. by rewrite list_insert_insert_eq. Qed.

Lemma setcpu_same : setcpu c x s = s.
Proof. unfold setcpu. rewrite list_insert_id by done. by destruct s. Qed.

Lemma pushcli_spec :
  pushcli c s
  = Ok tt (setcpu c (mk_cpu false (ncli x + 1) (if ncli x =? 0 then ifl x else intena x)) s).
Proof.
  unfold pushcli, mycpu, gets, modS, mbind, M_bind, mret, M_ret. rewrite getcpu_eq, getcpu_set.
  cbn [ifl ncli intena]. rewrite getcpu_set. cbn [ifl ncli intena].
  destruct (ncli x =? 0) eqn:E; rewrite ?setcpu_twice, ?getcpu_set; cbn [ifl ncli intena];
    rewrite ?setcpu_twice, ?getcpu_set; cbn [ifl ncli intena]; by rewrite ?setcpu_twice.
Qed.

Lemma popcli_spec :
  ifl x = false -> 1 <= ncli x ->
  popcli c s
  = Ok tt (setcpu c (mk_cpu ((ncli x =? 1) && intena x) (ncli x - 1) (intena x)) s).
Proof.
  intros Hi Hn. unfold popcli, mycpu, gets, modS, mbind, M_bind, mret, M_ret. rewrite !getcpu_eq, Hi.
  cbn beta iota zeta. rewrite ?getcpu_eq, ?Hi. cbn beta iota zeta.
  rewrite ?getcpu_set, ?getcpu_eq, ?Hi. cbn [ifl ncli intena].
  rewrite (proj2 (Z.ltb_ge (ncli x - 1) 0)) by lia.
  replace (ncli x - 1 =? 0) with (ncli x =? 1) by lia.
  destruct ((ncli x =? 1) && intena x); [|done].
  rewrite getcpu_set. cbn [ifl ncli intena]. by rewrite setcpu_twice.
Qed.
End routines.

(** [holding] leaves the interrupt flag as it was. *)
Lemma holding_any s c x l :
  cpus s !! c = Some x -> 0 <= ncli x -> (ncli x <> 0 -> ifl x = false) ->
  holding c l s = Ok (negb (locked (getlk s l) =? 0) && bool_decide (lcpu (getlk s l) = Some c))
    (setcpu c (mk_cpu (ifl x) (ncli x) (if ncli x =? 0 then ifl x else intena x)) s).
Proof.
  intros Hx Hn Hi. unfold holding. rewrite (bind_Ok _ _ _ _ _ (pushcli_spec s c x Hx)).
  set (y := mk_cpu false (ncli x + 1) _). set (s1 := setcpu c y s).
  assert (Hy : cpus s1 !! c = Some y).
  { unfold s1, setcpu. cbn [cpus]. apply list_lookup_insert_eq. by eapply lookup_lt_Some. }
  unfold mycpu at 1. unfold mbind at 1, M_bind at 1. rewrite (getcpu_eq s1 c y Hy). cbn [ifl y].
  unfold gets at 1. unfold mbind at 1, M_bind at 1.
  erewrite bind_Ok by (apply (popcli_spec s1 c y Hy); [done|cbn; lia]).
  change (getlk s1 l) with (getlk s l). unfold mret, M_ret. f_equal.
  unfold s1. rewrite setcpu_twice. cbn [ncli intena y]. f_equal. f_equal; [|lia].
  destruct (Z.eqb_spec (ncli x) 0) as [E|E].
  - by rewrite E.
  - rewrite Hi by done. by rewrite (proj2 (Z.eqb_neq (ncli x + 1) 1)) by lia.
Qed.

(** With interrupts already off, it only looks. *)
Lemma holding_spec s c x l :
  cpus s !! c = Some x -> ifl x = false -> 1 <= ncli x ->
  holding c l s = Ok (negb (locked (getlk s l) =? 0) && bool_decide (lcpu (getlk s l) = Some c)) s.
Proof.
  intros Hx Hi Hn. rewrite (holding_any s c x l) by (done || lia). f_equal.
  rewrite (proj2 (Z.eqb_neq (ncli x) 0)) by lia.
  replace (mk_cpu (ifl x) (ncli x) (intena x)) with x by (by destruct x).
  by apply setcpu_same.
Qed.

Lemma acquire_enter_spec s c x l :
  cpus s !! c = Some x -> 0 <= ncli x ->
  acquire_enter c l s =
    let s1 := setcpu c (mk_cpu false (ncli x + 1) (if ncli x =? 0 then ifl x else intena x)) s in
    if negb (locked (getlk s l) =? 0) && bool_decide (lcpu (getlk s l) = Some c)
    then Panic "acquire" s1 else Ok tt s1.
Proof.
  intros Hx Hn. unfold acquire_enter. rewrite (bind_Ok _ _ _ _ _ (pushcli_spec s c x Hx)).
  set (y := mk_cpu false (ncli x + 1) _). set (s1 := setcpu c y s).
  assert (Hy : cpus s1 !! c = Some y).
  { unfold s1, setcpu. cbn [cpus]. apply list_lookup_insert_eq. by eapply lookup_lt_Some. }
  erewrite bind_Ok by (apply (holding_spec s1 c y l Hy); [done|cbn; lia]).
  change (getlk s1 l) with (getlk s l). by destruct (negb (locked (getlk s l) =? 0) && _).
Qed.

Lemma release_enter_spec s c x l :
  cpus s !! c = Some x -> 0 <= ncli x -> (ncli x <> 0 -> ifl x = false) ->
  release_enter c l s =
    let s1 := setcpu c (mk_cpu (ifl x) (ncli x) (if ncli x =? 0 then ifl x else intena x)) s in
    if negb (locked (getlk s l) =? 0) && bool_decide (lcpu (getlk s l) = Some c)
    then Ok tt (setlk l (mk_spin (locked (getlk s l)) None) s1) else Panic "release" s1.
Proof.
  intros Hx Hn Hi. unfold release_enter. rewrite (bind_Ok _ _ _ _ _ (holding_any s c x l Hx Hn Hi)).
  by destruct (negb (locked (getlk s l) =? 0) && _).
Qed.

(** ** The invariant *)

Definition owns (t : thr) (l : Z) : Prop := l ∈ held t \/ pc t = Got l \/ pc t = Rel l.
(** The nesting depth that [ncli] counts. *)
Definition depth (t : thr) : Z :=
  Z.of_nat (length (held t)) + match pc t with Run => 0 | _ => 1 end.
Definition thr_wf (t : thr) : Prop :=
  NoDup (held t) /\ match pc t with Run => True | Spin l | Got l | Rel l => l ∉ held t end.
Definition cpu_wf (t : thr) (x : cpu) : Prop :=
  ncli x = depth t /\ (depth t <> 0 -> ifl x = false).

Record inv (m : mach) : Prop := {
  iv_len : length (cpus (ms m)) = length (thrs m);
  iv_cpu : forall c t x, thrs m !! c = Some t -> cpus (ms m) !! c = Some x -> cpu_wf t x;
  iv_thr : forall c t, thrs m !! c = Some t -> thr_wf t;
  iv_excl : forall c1 c2 t1 t2 l, thrs m !! c1 = Some t1 -> thrs m !! c2 = Some t2 ->
    owns t1 l -> owns t2 l -> c1 = c2;
  iv_locked : forall l, locked (getlk (ms m) l) <> 0 <->
    exists c t, thrs m !! c = Some t /\ owns t l;
  iv_lcpu : forall l c, lcpu (getlk (ms m) l) = Some c <->
    exists t, thrs m !! c = Some t /\ l ∈ held t
}.

(** What a step of one CPU on one lock has to respect. *)
Lemma inv_update m s' c t t' l x' :
  inv m -> thrs m !! c = Some t -> thr_wf t' -> cpu_wf t' x' ->
  cpus s' = <[c := x']> (cpus (ms m)) ->
  (forall l', l' <> l -> getlk s' l' = getlk (ms m) l' /\ (owns t' l' <-> owns t l')
     /\ (l' ∈ held t' <-> l' ∈ held t)) ->
  (owns t' l -> owns t l \/ locked (getlk (ms m) l) = 0) ->
  (locked (getlk s' l) <> 0 <-> owns t' l \/ (~ owns t l /\ locked (getlk (ms m) l) <> 0)) ->
  lcpu (getlk s' l) = (if decide (l ∈ held t') then Some c
                       else if decide (l ∈ held t) then None else lcpu (getlk (ms m) l)) ->
  inv (to m s' c t').
Proof.
  intros I Ht Hwf Hcwf Hcpus Hoth Hown Hlk Hlc.
  assert (Hlt : (c < length (thrs m))%nat) by (by eapply lookup_lt_Some).
  assert (Hlook : forall c' u, <[c := t']> (thrs m) !! c' = Some u <->
            c' = c /\ u = t' \/ c' <> c /\ thrs m !! c' = Some u).
  { intros c' u. rewrite list_lookup_insert_Some. naive_solver. }
  (* nobody else owns [l] once [c] does *)
  assert (Hno : owns t' l -> forall c' u, c' <> c -> thrs m !! c' = Some u -> ~ owns u l).
  { intros Ho c' u Hne Hu Hou. destruct (Hown Ho) as [Ho'|E0].
    - apply Hne. by eapply (iv_excl _ I).
    - assert (locked (getlk (ms m) l) <> 0) by (apply (iv_locked _ I); eauto). done. }
  split; cbn [ms thrs to].
  - rewrite Hcpus, !length_insert. apply I.
  - intros c' u y Hu Hy. rewrite Hcpus in Hy. apply list_lookup_insert_Some in Hy.
    apply Hlook in Hu as [[-> ->]|[Hne Hu]].
    + destruct Hy as [(_ & <- & _)|[? _]]; done.
    + destruct Hy as [(? & _ & _)|[_ Hy]]; [done|]. by eapply (iv_cpu _ I).
  - intros c' u [[-> ->]|[_ Hu]]%Hlook; [done|by eapply (iv_thr _ I)].
  - intros c1 c2 t1 t2 l' H1 H2 O1 O2. apply Hlook in H1, H2.
    destruct (decide (l' = l)) as [->|Hl].
    + destruct H1 as [[-> ->]|[Hn1 H1]], H2 as [[-> ->]|[Hn2 H2]]; [done|..|by eapply (iv_excl _ I)].
      * by destruct (Hno O1 c2 t2 Hn2 H2).
      * by destruct (Hno O2 c1 t1 Hn1 H1).
    + destruct (Hoth l' Hl) as (_ & Ho & _).
      destruct H1 as [[-> ->]|[Hn1 H1]], H2 as [[-> ->]|[Hn2 H2]]; [done|..|by eapply (iv_excl _ I)];
        rewrite Ho in *; by eapply (iv_excl _ I).
  - intros l'. destruct (decide (l' = l)) as [->|Hl].
    + rewrite Hlk. split.
      * intros [Ho|[Hn Hk]]; [exists c, t'; rewrite Hlook; auto|].
        apply (iv_locked _ I) in Hk as (c' & u & Hu & Ho). exists c', u. rewrite Hlook.
        split; [|done]. right. split; [|done]. intros ->. congruence.
      * intros (c' & u & Hu & Ho). apply Hlook in Hu as [[-> ->]|[Hne Hu]]; [by left|].
        destruct (decide (locked (getlk (ms m) l) = 0)) as [E0|E0].
        { exfalso. assert (locked (getlk (ms m) l) <> 0) by (apply (iv_locked _ I); eauto). done. }
        right. split; [|done]. intros Ho'. apply Hne. by eapply (iv_excl _ I).
    + destruct (Hoth l' Hl) as (-> & Ho & _). rewrite (iv_locked _ I). split.
      * intros (c' & u & Hu & Ho'). destruct (decide (c' = c)) as [->|Hne].
        -- exists c, t'. rewrite Hlook. split; [by left|]. apply Ho. congruence.
        -- exists c', u. rewrite Hlook. auto.
      * intros (c' & u & [[-> ->]|[Hne Hu]]%Hlook & Ho'); [exists c, t; by rewrite <-Ho|eauto].
  - intros l' c'. destruct (decide (l' = l)) as [->|Hl].
    + rewrite Hlc. destruct (decide (l ∈ held t')) as [Hh'|Hh'].
      * split; [intros [= <-]; exists t'; rewrite Hlook; auto|].
        intros (u & [[-> ->]|[Hne Hu]]%Hlook & Hh); [done|].
        exfalso. apply (Hno ltac:(by left) c' u Hne Hu). by left.
      * destruct (decide (l ∈ held t)) as [Hh|Hh].
        -- split; [done|]. intros (u & [[-> ->]|[Hne Hu]]%Hlook & Hhu); [done|]. exfalso. apply Hne.
           eapply (iv_excl _ I); [exact Hu|exact Ht|by left|by left].
        -- rewrite (iv_lcpu _ I). split.
           ++ intros (u & Hu & Hhu). exists u. rewrite Hlook. split; [|done]. right. split; [|done].
              intros ->. congruence.
           ++ intros (u & [[-> ->]|[Hne Hu]]%Hlook & Hhu); [done|eauto].
    + destruct (Hoth l' Hl) as (-> & _ & Hh). rewrite (iv_lcpu _ I). split.
      * intros (u & Hu & Hhu). destruct (decide (c' = c)) as [->|Hne].
        -- exists t'. rewrite Hlook. split; [by left|]. apply Hh. congruence.
        -- exists u. rewrite Hlook. auto.
      * intros (u & [[-> ->]|[Hne Hu]]%Hlook & Hhu); [exists t; by rewrite <-Hh|eauto].
Qed.

Lemma getlk_setlk s l x l' : getlk (setlk l x s) l' = if decide (l' = l) then x else getlk s l'.
Proof.
  unfold getlk, setlk. cbn [locks]. case_decide; subst; [by rewrite lookup_insert_eq|].
  by rewrite lookup_insert_ne.
Qed.

Lemma getlk_setlk_eq s l x : getlk (setlk l x s) l = x.
Proof. by rewrite getlk_setlk, decide_True. Qed.

Lemma inv_lookup m c : inv m -> (c < length (thrs m))%nat ->
  exists x, thrs m !! c = Some (getthr m c) /\ cpus (ms m) !! c = Some x /\ cpu_wf (getthr m c) x
    /\ thr_wf (getthr m c).
Proof.
  intros I Hc. destruct (lookup_lt_is_Some_2 (thrs m) c Hc) as [t Ht].
  destruct (lookup_lt_is_Some_2 (cpus (ms m)) c) as [x Hx]; [by rewrite (iv_len _ I)|].
  unfold getthr. rewrite Ht. cbn. exists x. split_and!; [done|done|..].
  - by eapply (iv_cpu _ I).
  - by eapply (iv_thr _ I).
Qed.

(** [holding] answers the question its name asks. *)
Lemma holding_true m c t l : inv m -> thrs m !! c = Some t ->
  negb (locked (getlk (ms m) l) =? 0) && bool_decide (lcpu (getlk (ms m) l) = Some c) = true
  <-> l ∈ held t.
Proof.
  intros I Ht. rewrite andb_true_iff, negb_true_iff, Z.eqb_neq, bool_decide_eq_true.
  rewrite (iv_locked _ I), (iv_lcpu _ I). split.
  - intros [_ (t' & Ht' & Hl)]. congruence.
  - intros Hl. split; [exists c, t; split; [done|by left]|eauto].
Qed.

(** Unfold the small definitions of a step's side conditions. *)
Ltac thread_simpl :=
  unfold owns, thr_wf, cpu_wf, depth in *; cbn [pc held locked lcpu ncli ifl intena length] in *.

Lemma sstep_inv m m' : inv m -> sstep m m' -> inv m'.
Proof.
  intros I Hs.
  destruct Hs as [c l s h Hc Ht E|c l s h old Hc Ht E Hold|c l s h Hc Ht E|c l s h Hc Ht E
                 |c l s h Hc Ht E|c l s h Hc Ht E|c b Hc Ht x0];
    destruct (inv_lookup m c I Hc) as (x & Htl & Hx & [Hn Hi] & Hw); rewrite Ht in *.
  - (* enter *)
    rewrite (acquire_enter_spec _ _ x) in E by (done || (rewrite Hn; thread_simpl; lia)).
    cbn zeta in E. destruct (negb _ && _) eqn:Eh; [done|]. injection E as <-.
    assert (Hl : l ∉ h).
    { intros Hl. apply (holding_true m c _ l I Htl) in Hl. congruence. }
    eapply (inv_update m _ c _ _ l); [done|exact Htl|..|reflexivity| | | |].
    all: thread_simpl; rewrite ?decide_False by done; try done; try naive_solver lia.
  - (* spin *)
    unfold acquire_xchg, mbind, M_bind, gets, modS, mret, M_ret in E. injection E as <- <-.
    eapply (inv_update m _ c _ _ l x); [done|exact Htl|..].
    all: cbn [setlk cpus]; rewrite ?list_insert_id by done; rewrite ?getlk_setlk_eq; thread_simpl; try done.
    + intros l' Hl'. by rewrite getlk_setlk, decide_False.
    + auto.
    + destruct Hw as [_ Hw]. split; [intros _; right; split; [|done]|done].
      intros [?|[?|?]]; done.
    + destruct Hw as [_ Hw]. by rewrite !decide_False.
  - (* take *)
    unfold acquire_xchg, mbind, M_bind, gets, modS, mret, M_ret in E. injection E as E0 <-.
    eapply (inv_update m _ c _ _ l x); [done|exact Htl|..].
    all: cbn [setlk cpus]; rewrite ?list_insert_id by done; rewrite ?getlk_setlk_eq; thread_simpl; try done.
    + intros l' Hl'. rewrite getlk_setlk, decide_False by done. split; [done|]. split; [|done].
      split; intros [?|[?|?]]; try congruence; by left.
    + by right.
    + split; [intros _; left; auto|done].
    + destruct Hw as [_ Hw]. by rewrite !decide_False.
  - (* own *)
    unfold acquire_own, mycpu, mbind, M_bind, modS in E.
    rewrite (getcpu_eq _ _ _ Hx), Hi in E by (thread_simpl; lia). injection E as <-.
    eapply (inv_update m _ c _ _ l x); [done|exact Htl|..].
    all: cbn [setlk cpus]; rewrite ?list_insert_id by done; rewrite ?getlk_setlk_eq; thread_simpl; try done.
    + destruct Hw as [Hw1 Hw2]. split; [by constructor|done].
    + split; [lia|]. intros _. apply Hi. lia.
    + intros l' Hl'. rewrite getlk_setlk, decide_False by done. split; [done|].
      rewrite elem_of_cons. split; [|naive_solver]. naive_solver.
    + auto.
    + rewrite elem_of_cons. split; [intros _; left; left; by left|]. intros _.
      apply (iv_locked _ I). exists c. eexists. split; [exact Htl|]. right. by left.
    + by rewrite decide_True by constructor.
  - (* release *)
    rewrite (release_enter_spec _ _ x) in E; [|done|thread_simpl; lia|thread_simpl; lia || (intros; apply Hi; lia)].
    cbn zeta in E. destruct (negb _ && _) eqn:Eh; [|done]. injection E as <-.
    apply (holding_true m c _ l I Htl) in Eh. cbn [held] in Eh. destruct Hw as [Hw _]. cbn [held] in Hw.
    assert (Hf : l ∉ filter (fun x => x <> l) h) by (intros [? _]%list_elem_of_filter; done).
    assert (Hlen : length h = S (length (filter (fun x => x <> l) h))).
    { rewrite <-(filter_out l h) at 1 by done. done. }
    eapply (inv_update m _ c _ _ l); [done|exact Htl|..|reflexivity| | | |].
    all: rewrite ?getlk_setlk_eq; thread_simpl.
    + split; [by apply NoDup_filter|done].
    + split; [lia|]. intros _. apply Hi. lia.
    + intros l' Hl'. rewrite getlk_setlk, decide_False by done. split; [done|].
      rewrite list_elem_of_filter. naive_solver.
    + auto.
    + split; [intros _; left; auto|]. intros _. apply (iv_locked _ I).
      exists c. eexists. split; [exact Htl|by left].
    + by rewrite decide_False, decide_True.
  - (* free *)
    destruct Hw as [Hw1 Hw2]. thread_simpl.
    unfold release_store in E. unfold mbind, M_bind, modS in E.
    rewrite (popcli_spec _ c x) in E; [|done|apply Hi; lia|lia]. injection E as <-.
    eapply (inv_update m _ c _ _ l); [done|exact Htl|..|reflexivity| | | |].
    all: thread_simpl; try done.
    + split; [lia|]. intros Hd. rewrite (proj2 (Z.eqb_neq (ncli x) 1)) by lia. done.
    + intros l' Hl'. change (getlk (setcpu ?c ?y ?s) ?l) with (getlk s l).
      rewrite getlk_setlk, decide_False by done. naive_solver.
    + intros [?|[?|?]]; done.
    + change (getlk (setcpu ?c ?y ?s) ?l) with (getlk s l).
      rewrite getlk_setlk_eq. naive_solver.
    + change (getlk (setcpu ?c ?y ?s) ?l) with (getlk s l).
      rewrite getlk_setlk_eq. by rewrite !decide_False.
  - (* flag *)
    subst x0. eapply (inv_update m _ c _ _ 0); [done|exact Htl|..|reflexivity| | | |].
    all: unfold thr0 in *; rewrite ?(getcpu_eq _ _ _ Hx); thread_simpl; try done.
    + naive_solver.
    + split; [|intros [[Hk|[?|?]]|[_ Hk]]; try done; by apply not_elem_of_nil in Hk].
      intros Hk. right. split; [|done]. intros [Hk'|[?|?]]; try done. by apply not_elem_of_nil in Hk'.
Qed.

Lemma fresh_inv ifs : inv (fresh ifs).
Proof.
  assert (Ht : forall c t, thrs (fresh ifs) !! c = Some t -> t = thr0).
  { intros c t Hc. apply list_lookup_fmap_Some in Hc as (? & -> & _). done. }
  assert (No : forall l, ~ owns thr0 l).
  { intros l [Hk|[?|?]]; try done. by apply not_elem_of_nil in Hk. }
  split.
  - cbn. by rewrite !length_map.
  - intros c t x ->%Ht Hx. apply list_lookup_fmap_Some in Hx as (b & -> & _). done.
  - intros c t ->%Ht. split; [constructor|done].
  - intros c1 c2 t1 t2 l ->%Ht ->%Ht Ho. by destruct (No l).
  - intros l. unfold getlk. cbn. rewrite lookup_empty. cbn. split; [done|].
    intros (c & t & ->%Ht & Ho). by destruct (No l).
  - intros l c. unfold getlk. cbn. rewrite lookup_empty. cbn. split; [done|].
    intros (t & ->%Ht & Ho). by apply not_elem_of_nil in Ho.
Qed.

Lemma reachable_inv ifs m : rtc sstep (fresh ifs) m -> inv m.
Proof.
  revert m. apply (rtc_ind_r inv (fresh ifs)); [apply fresh_inv|].
  intros y z _ Hs Hy. by eapply sstep_inv.
Qed.

(** ** Undisturbed, [release] undoes [acquire] *)

Lemma acquire_release s c x l :
  cpus s !! c = Some x -> 0 <= ncli x -> (ncli x <> 0 -> ifl x = false) ->
  locked (getlk s l) = 0 ->
  exists s1 s2, acquire c l s = Ok tt s1 /\ release c l s1 = Ok tt s2
    /\ getlk s1 l = mk_spin 1 (Some c) /\ ifl (getcpu s1 c) = false
    /\ getlk s2 l = initlock /\ ifl (getcpu s2 c) = ifl x /\ ncli (getcpu s2 c) = ncli x.
Proof.
  intros Hx Hn Hi Hl. unfold acquire, release.
  set (y := mk_cpu false (ncli x + 1) (if ncli x =? 0 then ifl x else intena x)).
  set (s0 := setcpu c y s).
  set (s1 := setlk l (mk_spin 1 (Some c)) (setlk l (mk_spin 1 (lcpu (getlk s l))) s0)).
  assert (Hy : cpus s1 !! c = Some y).
  { unfold s1, setlk, s0, setcpu. cbn [cpus]. apply list_lookup_insert_eq. by eapply lookup_lt_Some. }
  assert (E0 : acquire_enter c l s = Ok tt s0).
  { rewrite (acquire_enter_spec s c x) by done. cbn zeta. by rewrite Hl. }
  set (s2 := setlk l (mk_spin 0 None) (setlk l (mk_spin 1 None) s1)).
  exists s1, (setcpu c (mk_cpu ((ncli y =? 1) && intena y) (ncli y - 1) (intena y)) s2).
  split_and!.
  - rewrite (bind_Ok _ _ _ _ _ E0).
    unfold acquire_xchg, acquire_own, mycpu, mbind, M_bind, gets, modS, mret, M_ret.
    change (getlk s0 l) with (getlk s l). rewrite Hl. cbn [negb Z.eqb].
    rewrite (getcpu_eq (setlk l _ s0) c y) by exact Hy. cbn [ifl y]. by rewrite getlk_setlk_eq.
  - assert (E1 : release_enter c l s1 = Ok tt (setlk l (mk_spin 1 None) s1)).
    { rewrite (release_enter_spec s1 c y l Hy) by (cbn; done || lia). cbn zeta.
      replace (getlk s1 l) with (mk_spin 1 (Some c)) by (symmetry; apply getlk_setlk_eq). cbn [locked lcpu]. rewrite bool_decide_eq_true_2 by done.
      cbn [negb Z.eqb andb]. rewrite (proj2 (Z.eqb_neq (ncli y) 0)) by (cbn; lia).
      replace (mk_cpu (ifl y) (ncli y) (intena y)) with y by done. by rewrite (setcpu_same s1 c y Hy). }
    rewrite (bind_Ok _ _ _ _ _ E1). unfold release_store. unfold mbind at 1, M_bind at 1, modS at 1.
    rewrite getlk_setlk_eq. apply (popcli_spec s2 c y); [exact Hy|done|cbn; lia].
  - apply getlk_setlk_eq.
  - by rewrite (getcpu_eq s1 c y).
  - change (getlk (setcpu ?c ?y ?s) ?l) with (getlk s l). apply getlk_setlk_eq.
  - rewrite (getcpu_set s2 c y) by exact Hy. cbn [ifl ncli intena y].
    destruct (Z.eqb_spec (ncli x) 0) as [E|E]; [by rewrite E|].
    rewrite Hi by done. by rewrite (proj2 (Z.eqb_neq (ncli x + 1) 1)) by lia.
  - rewrite (getcpu_set s2 c y) by exact Hy. cbn [ncli y]. lia.
Qed.

(** C14: from CPUs outside any lock, whatever the interleaving of their
    [acquire]s and [release]s: two CPUs never hold the same lock; a CPU that
    holds one has its interrupts off and [ncli] is the number of locks it holds;
    a free lock has [locked = 0], so that the next [xchg] takes it; [acquire]
    panics exactly on a lock the CPU already holds, and [release] exactly on
    one it does not. *)
Theorem mutual_exclusion ifs m c t x :
  rtc sstep (fresh ifs) m -> thrs m !! c = Some t -> cpus (ms m) !! c = Some x ->
  (forall l c' t', thrs m !! c' = Some t' -> l ∈ held t -> l ∈ held t' -> c = c') /\
  (held t <> [] -> ifl x = false) /\
  (pc t = Run -> ncli x = Z.of_nat (length (held t))) /\
  (forall l, (forall c' t', thrs m !! c' = Some t' -> ~ owns t' l) ->
     exists s, acquire_xchg l (ms m) = Ok 0 s) /\
  (pc t = Run -> forall l,
     (l ∈ held t -> exists s, acquire_enter c l (ms m) = Panic "acquire" s) /\
     (l ∉ held t -> exists s, acquire_enter c l (ms m) = Ok tt s) /\
     (l ∈ held t -> exists s, release_enter c l (ms m) = Ok tt s) /\
     (l ∉ held t -> exists s, release_enter c l (ms m) = Panic "release" s)).
Proof.
  intros I%reachable_inv Ht Hx. destruct (iv_cpu _ I c t x Ht Hx) as [Hn Hi].
  split_and!.
  - intros l c' t' Ht' Hl Hl'. eapply (iv_excl _ I); [done|done|by left|by left].
  - intros Hh. apply Hi. unfold depth. destruct (held t); [done|]. cbn [length]. case_match; lia.
  - intros Hp. rewrite Hn. unfold depth. rewrite Hp. lia.
  - intros l Hl. unfold acquire_xchg, gets, modS, mbind, M_bind, mret, M_ret.
    destruct (decide (locked (getlk (ms m) l) = 0)) as [->|E]; [eauto|].
    apply (iv_locked _ I) in E as (c' & t' & Ht' & Ho). by destruct (Hl _ _ Ht').
  - intros Hp l. pose proof (holding_true m c t l I Ht) as Hh.
    assert (0 <= ncli x) by (rewrite Hn; unfold depth; case_match; lia).
    rewrite (acquire_enter_spec _ _ x), (release_enter_spec _ _ x) by (done || (rewrite Hn; done)).
    cbn zeta. destruct (negb _ && _); split_and!; intros Hl; eauto; exfalso.
    all: try (by apply Hl, Hh). all: apply Hh in Hl; done.
Qed.

(** Two CPUs; the first took lock 7 with its interrupts on, the second spins. *)
Definition demo_contended : mach :=
  mk_mach (mk_sst [mk_cpu false 1 true; mk_cpu false 1 false] {[7 := mk_spin 1 (Some 0%nat)]})
    [mk_thr Run [7]; mk_thr (Spin 7) []].

Lemma demo_contended_reachable : rtc sstep (fresh [true; false]) demo_contended.
Proof.
  eapply rtc_l; [eapply (S_enter _ 0%nat 7); [cbn; lia|reflexivity|vm_compute; reflexivity]|].
  eapply rtc_l; [eapply (S_take _ 0%nat 7); [cbn; lia|reflexivity|vm_compute; reflexivity]|].
  eapply rtc_l; [eapply (S_own _ 0%nat 7); [cbn; lia|reflexivity|vm_compute; reflexivity]|].
  eapply rtc_l; [eapply (S_enter _ 1%nat 7); [cbn; lia|reflexivity|vm_compute; reflexivity]|].
  match goal with |- rtc _ ?a ?b => assert (a = b) as -> by (vm_compute; reflexivity) end.
  apply rtc_refl.
Qed.

Lemma mutual_exclusion_witness :
  exists s, release_enter 0 7 (ms demo_contended) = Ok tt s.
Proof.
  eapply (mutual_exclusion [true; false] demo_contended 0 (mk_thr Run [7]) (mk_cpu false 1 true)).
  - exact demo_contended_reachable.
  - reflexivity.
  - reflexivity.
  - reflexivity.
  - apply elem_of_cons. left. reflexivity.
Defined.
