(* ===== verification/Proc.v ===== *)
(** * Proc: the process table, sleeping and waking, and the scheduler

    Model of src/kernel/proc.c.  A process is its slot in [ptable.proc]; -1 is
    the null pointer.  Every access to the table happens with [ptable.lock]
    held, so the routines are given at the granularity of their critical
    sections, which Spinlock shows to exclude each other; what they do outside
    the table (memory, files) is composed with these sections in Kernel.  The
    step relation [pstep] interleaves the sections of several CPUs.

    A process that gives up its CPU keeps in [context] where it goes on.  The
    contents of its trap frame, which lies on its kernel stack, are a field. *)

From Stdlib Require Import ZArith Lia ZifyBool.
From stdpp Require Import base gmap strings numbers list relations.
From S2P Require Import Prelude CString.

Local Open Scope Z_scope.

(** ** Constants *)

Definition NPROC : Z := 64.
Definition NOFILE : Z := 16.
Definition SIGINT : Z := 2.
Definition SIGKILL : Z := 9.

(** ** Data *)

Inductive procstate : Type := UNUSED | EMBRYO | SLEEPING | RUNNABLE | RUNNING | ZOMBIE.
#[export] Instance procstate_eq : EqDecision procstate.
Proof. solve_decision. Defined.

(** The addresses processes sleep on: a process, the two counters of a pipe, the
    tick counter, the console's input index, a disk buffer, a sleep lock and the
    log. *)
Inductive chan_t : Type :=
  | ChProc (i : Z) | ChNread (p : Z) | ChNwrite (p : Z) | ChTicks | ChInput
  | ChBuf (b : Z) | ChLock (l : Z) | ChLog.
#[export] Instance chan_eq : EqDecision chan_t.
Proof. solve_decision. Defined.

(** Where a process that is not running goes on: in [forkret], or after the
    [sched] of [yield], of [sleep], of [sleep] called by [wait], of [exit]. *)
Inductive kctx : Type := KForkret | KYield | KSleep | KWait | KExit.

Record trapframe : Type := mk_tf {
  edi : Z; esi : Z; ebp : Z; oesp : Z; ebx : Z; edx : Z; ecx : Z; eax : Z;
  gs : Z; fs : Z; es : Z; ds : Z; trapno : Z;
  err : Z; eip : Z; cs : Z; eflags : Z; esp : Z; ss : Z
}.
Definition tf0 : trapframe := mk_tf 0 0 0 0 0 0 0 0 0 0 0 0 0 0 0 0 0 0 0.

(** [sig_regs]: the trap frame saved in the page [sig_tf]. *)
Record proc : Type := mk_proc {
  sz : Z; pgdir : Z; kstack : Z; state : procstate; pid : Z; parent : Z;
  tf : trapframe; context : kctx; chan : option chan_t; killed : Z;
  ofile : list Z; pcwd : Z; pname : list Z;
  pending : Z; blocked : Z; handlers : list Z; sig_tf : Z; sig_regs : trapframe
}.
Definition proc0 : proc :=
  mk_proc 0 0 0 UNUSED 0 (-1) tf0 KForkret None 0 (replicate 16 (-1)) (-1) (replicate 16 0)
    0 0 (replicate 32 0) 0 tf0.

Record pst : Type := mk_pst { procs : list proc; nextpid : Z; initproc : Z }.

Definition getp (s : pst) (i : Z) : proc := nthZ proc0 (procs s) i.
Definition setp (i : Z) (x : proc) (s : pst) : pst :=
  mk_pst (updZ i x (procs s)) (nextpid s) (initproc s).
Definition updp (i : Z) (f : proc -> proc) : M pst unit :=
  modS (fun s => setp i (f (getp s i)) s).

Definition with_state (x : procstate) (p : proc) : proc :=
  mk_proc (sz p) (pgdir p) (kstack p) x (pid p) (parent p) (tf p) (context p) (chan p) (killed p)
    (ofile p) (pcwd p) (pname p) (pending p) (blocked p) (handlers p) (sig_tf p) (sig_regs p).
Definition with_space (n d : Z) (p : proc) : proc :=
  mk_proc n d (kstack p) (state p) (pid p) (parent p) (tf p) (context p) (chan p) (killed p)
    (ofile p) (pcwd p) (pname p) (pending p) (blocked p) (handlers p) (sig_tf p) (sig_regs p).
Definition with_kstack (k : Z) (p : proc) : proc :=
  mk_proc (sz p) (pgdir p) k (state p) (pid p) (parent p) (tf p) (context p) (chan p) (killed p)
    (ofile p) (pcwd p) (pname p) (pending p) (blocked p) (handlers p) (sig_tf p) (sig_regs p).
Definition with_parent (x : Z) (p : proc) : proc :=
  mk_proc (sz p) (pgdir p) (kstack p) (state p) (pid p) x (tf p) (context p) (chan p) (killed p)
    (ofile p) (pcwd p) (pname p) (pending p) (blocked p) (handlers p) (sig_tf p) (sig_regs p).
Definition with_tf (x : trapframe) (p : proc) : proc :=
  mk_proc (sz p) (pgdir p) (kstack p) (state p) (pid p) (parent p) x (context p) (chan p) (killed p)
    (ofile p) (pcwd p) (pname p) (pending p) (blocked p) (handlers p) (sig_tf p) (sig_regs p).
Definition with_chan (x : option chan_t) (p : proc) : proc :=
  mk_proc (sz p) (pgdir p) (kstack p) (state p) (pid p) (parent p) (tf p) (context p) x (killed p)
    (ofile p) (pcwd p) (pname p) (pending p) (blocked p) (handlers p) (sig_tf p) (sig_regs p).
Definition with_context (x : kctx) (p : proc) : proc :=
  mk_proc (sz p) (pgdir p) (kstack p) (state p) (pid p) (parent p) (tf p) x (chan p) (killed p)
    (ofile p) (pcwd p) (pname p) (pending p) (blocked p) (handlers p) (sig_tf p) (sig_regs p).
Definition with_killed (x : Z) (p : proc) : proc :=
  mk_proc (sz p) (pgdir p) (kstack p) (state p) (pid p) (parent p) (tf p) (context p) (chan p) x
    (ofile p) (pcwd p) (pname p) (pending p) (blocked p) (handlers p) (sig_tf p) (sig_regs p).
Definition with_ofile (x : list Z) (p : proc) : proc :=
  mk_proc (sz p) (pgdir p) (kstack p) (state p) (pid p) (parent p) (tf p) (context p) (chan p)
    (killed p) x (pcwd p) (pname p) (pending p) (blocked p) (handlers p) (sig_tf p) (sig_regs p).
Definition with_pcwd (x : Z) (p : proc) : proc :=
  mk_proc (sz p) (pgdir p) (kstack p) (state p) (pid p) (parent p) (tf p) (context p) (chan p)
    (killed p) (ofile p) x (pname p) (pending p) (blocked p) (handlers p) (sig_tf p) (sig_regs p).
Definition with_pname (x : list Z) (p : proc) : proc :=
  mk_proc (sz p) (pgdir p) (kstack p) (state p) (pid p) (parent p) (tf p) (context p) (chan p)
    (killed p) (ofile p) (pcwd p) x (pending p) (blocked p) (handlers p) (sig_tf p) (sig_regs p).
Definition with_signals (pe bl : Z) (h : list Z) (p : proc) : proc :=
  mk_proc (sz p) (pgdir p) (kstack p) (state p) (pid p) (parent p) (tf p) (context p) (chan p)
    (killed p) (ofile p) (pcwd p) (pname p) pe bl h (sig_tf p) (sig_regs p).
Definition with_sig_tf (a : Z) (r : trapframe) (p : proc) : proc :=
  mk_proc (sz p) (pgdir p) (kstack p) (state p) (pid p) (parent p) (tf p) (context p) (chan p)
    (killed p) (ofile p) (pcwd p) (pname p) (pending p) (blocked p) (handlers p) a r.
Definition with_pid (x : Z) (p : proc) : proc :=
  mk_proc (sz p) (pgdir p) (kstack p) (state p) x (parent p) (tf p) (context p) (chan p) (killed p)
    (ofile p) (pcwd p) (pname p) (pending p) (blocked p) (handlers p) (sig_tf p) (sig_regs p).

Definition is_state (x : procstate) (s : pst) (i : Z) : bool := bool_decide (state (getp s i) = x).
Definition slots : list Z := seqZ 0 NPROC.

(** [safestrcpy] into a name of 16 bytes. *)
Definition copy_name (dst src : list Z) : list Z :=
  map (safestrcpy (arr dst) (arr src) 16) (seqZ 0 16).

(** ** Creation *)

(** The critical section of [allocproc]: a slot, or -1.  [nextpid] is an [int]. *)
Definition new_proc (n : Z) (p : proc) : proc :=
  with_sig_tf 0 (sig_regs p) (with_signals 0 0 (replicate 32 0) (with_pid n (with_state EMBRYO p))).
Definition alloc_slot : M pst Z := fun s =>
  match List.find (is_state UNUSED s) slots with
  | None => Ok (-1) s
  | Some i =>
      if nextpid s =? 2147483647 then Panic "undefined" s
      else
        let s := setp i (new_proc (nextpid s) (getp s i)) s in
        Ok i (mk_pst (procs s) (nextpid s + 1) (initproc s))
  end.

(** What [fork] copies to the child, given its new page directory; a null entry
    of the parent's files leaves the child's as it is. *)
Definition fork_ofile (cur np : proc) : list Z :=
  map (fun fd => if nthZ (-1) (ofile cur) fd =? -1 then nthZ (-1) (ofile np) fd
                 else nthZ (-1) (ofile cur) fd) (seqZ 0 NOFILE).
Definition with_eax (v : Z) (t : trapframe) : trapframe :=
  mk_tf (edi t) (esi t) (ebp t) (oesp t) (ebx t) (edx t) (ecx t) v (gs t) (fs t) (es t) (ds t)
    (trapno t) (err t) (eip t) (cs t) (eflags t) (esp t) (ss t).
Definition fork_copy (me d : Z) (cur np : proc) : proc :=
  with_pname (copy_name (pname np) (pname cur))
    (with_pcwd (pcwd cur)
      (with_ofile (fork_ofile cur np)
        (with_tf (with_eax 0 (tf cur)) (with_parent me (with_space (sz cur) d np))))).

(** The kernel stack that [allocproc] sets up: the process will start in
    [forkret]. *)
Definition init_kstack (k : Z) (p : proc) : proc := with_context KForkret (with_kstack k p).

(** The critical section that ends [fork] and [userinit]. *)
Definition make_runnable (np : Z) : M pst unit := updp np (with_state RUNNABLE).

(** ** Sleeping, waking and killing *)

Definition wakeup1 (ch : option chan_t) : M pst unit :=
  modS (fun s => mk_pst (map (fun p => if bool_decide (state p = SLEEPING) && bool_decide (chan p = ch)
                                       then with_state RUNNABLE p else p) (procs s))
                   (nextpid s) (initproc s)).
Definition wakeup (ch : chan_t) : M pst unit := wakeup1 (Some ch).

(** The process pointer [i] as a channel. *)
Definition proc_chan (i : Z) : option chan_t := if i =? -1 then None else Some (ChProc i).

(** The tests of [sched] on the process; the switch itself ends the section. *)
Definition sched (me : Z) (k : kctx) : M pst unit :=
  st ← gets (fun s => state (getp s me));
  if bool_decide (st = RUNNING) then panic "sched running"
  else updp me (with_context k).

Definition yield (me : Z) : M pst unit :=
  updp me (with_state RUNNABLE) ;;
  sched me KYield.

(** [sleep] up to the switch, and what it does on [chan] after it. *)
Definition sleep (me : Z) (ch : option chan_t) (k : kctx) : M pst unit :=
  updp me (with_chan ch) ;;
  updp me (with_state SLEEPING) ;;
  sched me k.
Definition sleep_end (me : Z) : M pst unit := updp me (with_chan None).

Definition kill (n sig : Z) : M pst Z := fun s =>
  if n =? 1 then Ok (-1) s
  else
    match List.find (fun i => pid (getp s i) =? n) slots with
    | None => Ok (-1) s
    | Some i =>
        let p := getp s i in
        let wake p := if bool_decide (state p = SLEEPING) then with_state RUNNABLE p else p in
        if sig =? SIGKILL then Ok 0 (setp i (wake (with_killed 1 p)) s)
        else if (sig <? 0) || (32 <=? sig) then Panic "undefined" s
        else Ok 0 (setp i (wake (with_signals (Z.lor (pending p) (Z.shiftl 1 sig)) (blocked p)
                                   (handlers p) p)) s)
    end.

(** ** Exit and wait *)

(** [exit] after the files are closed. *)
Definition exit (me : Z) : M pst unit :=
  s ← getS;
  wakeup1 (proc_chan (parent (getp s me))) ;;
  forM slots (fun j =>
    p ← gets (fun s => getp s j);
    if parent p =? me then
      updp j (with_parent (initproc s)) ;;
      (if bool_decide (state p = ZOMBIE) then wakeup1 (proc_chan (initproc s)) else mret tt)
    else mret tt) ;;
  updp me (with_state ZOMBIE) ;;
  sched me KExit.

(** One pass of [wait] over the table: whether there are children, and the first
    that has exited. *)
Definition children (s : pst) (me : Z) : list Z :=
  List.filter (fun j => parent (getp s j) =? me) slots.
Definition zombie_child (s : pst) (me : Z) : option Z := List.find (is_state ZOMBIE s) (children s me).
(** The slot of a child that [wait] has found. *)
Definition reap (j : Z) : M pst unit :=
  updp j (fun p => with_state UNUSED (with_sig_tf 0 (sig_regs p) (with_killed 0
    (with_pname (updZ 0 0 (pname p)) (with_parent (-1) (with_pid 0 (with_kstack 0 p))))))).

(** [wait] up to its return value, or up to [sleep] (no value). *)
Definition wait (me : Z) : M pst (option Z) :=
  s ← getS;
  match zombie_child s me with
  | Some j => reap j ;; mret (Some (pid (getp s j)))
  | None =>
      if (length (children s me) =? 0)%nat || negb (killed (getp s me) =? 0)
      then mret (Some (-1))
      else sleep me (proc_chan me) KWait ;; mret None
  end.

(** ** The scheduler *)

(** The rest of a pass: the next process to run. *)
Definition scheduler_scan (pos : Z) (s : pst) : option Z :=
  List.find (is_state RUNNABLE s) (seqZ pos (NPROC - pos)).

(** What a process does with the lock that the scheduler passes to it; true when
    it goes on running. *)
Definition resume (me : Z) : M pst bool :=
  k ← gets (fun s => context (getp s me));
  match k with
  | KForkret | KYield => mret true
  | KSleep => sleep_end me ;; mret true
  | KWait =>
      sleep_end me ;;
      r ← wait me;
      mret (match r with Some _ => true | None => false end)
  | KExit => panic "zombie exit"
  end.
Definition run (i : Z) : M pst bool :=
  updp i (with_state RUNNING) ;;
  resume i.

(** What [userinit] does to the table, given a kernel stack. *)
Definition userinit_slot (k : Z) : M pst unit :=
  p ← alloc_slot;
  updp p (init_kstack k) ;;
  modS (fun s => mk_pst (procs s) (nextpid s) p) ;;
  make_runnable p.

(** ** Interleavings *)

(** A CPU: the process it runs, or -1 in the scheduler, and the slot at which
    its scheduler goes on. *)
Record scpu : Type := mk_scpu { cproc : Z; spos : Z }.

(** [forking]: for a process inside [fork], the slot of the child, and whether
    the child has been filled in. *)
Record pmach : Type := mk_pm { pt : pst; scpus : list scpu; forking : gmap Z (Z * bool) }.

Inductive event : Type := Dispatch (c : nat) (i : Z) | PassEnd (c : nat) | Internal.

(** The sections a running process enters of its own accord (false: it has given
    up its CPU).  Only [wait] sleeps on a process. *)
Inductive psec : Type := PYield | PSleep (ch : chan_t) | PWait | PExit.
Definition enter (me : Z) (o : psec) : M pst bool :=
  match o with
  | PYield => yield me ;; mret false
  | PSleep ch => sleep me (Some ch) KSleep ;; mret false
  | PWait => r ← wait me; mret (match r with Some _ => true | None => false end)
  | PExit =>
      s ← getS;
      if me =? initproc s then panic "init exiting" else exit me ;; mret false
  end.
Definition not_proc (o : psec) : Prop :=
  match o with PSleep (ChProc _) => False | _ => True end.

Definition on_cpu (m : pmach) (c : nat) (x : scpu) (s : pst) (stays : bool) : pmach :=
  mk_pm s (<[c := mk_scpu (if stays then cproc x else -1) (spos x)]> (scpus m)) (forking m).

(** Interrupt handlers wake and kill at any time; a timer interrupt makes a
    process inside [fork] yield. *)
Inductive pstep (m : pmach) : event -> pmach -> Prop :=
  | P_pass c x : scpus m !! c = Some x -> cproc x = -1 -> scheduler_scan (spos x) (pt m) = None ->
      pstep m (PassEnd c) (mk_pm (pt m) (<[c := mk_scpu (-1) 0]> (scpus m)) (forking m))
  | P_run c x i s b : scpus m !! c = Some x -> cproc x = -1 ->
      scheduler_scan (spos x) (pt m) = Some i -> run i (pt m) = Ok b s ->
      pstep m (Dispatch c i) (on_cpu m c (mk_scpu i (i + 1)) s b)
  | P_enter c x o s b : scpus m !! c = Some x -> cproc x <> -1 -> not_proc o ->
      (forking m !! cproc x = None \/ o = PYield) ->
      enter (cproc x) o (pt m) = Ok b s -> pstep m Internal (on_cpu m c x s b)
  | P_wakeup ch s : wakeup ch (pt m) = Ok tt s ->
      pstep m Internal (mk_pm s (scpus m) (forking m))
  | P_kill n sig r s : kill n sig (pt m) = Ok r s ->
      pstep m Internal (mk_pm s (scpus m) (forking m))
  | P_alloc c x np s : scpus m !! c = Some x -> cproc x <> -1 -> forking m !! cproc x = None ->
      alloc_slot (pt m) = Ok np s -> np <> -1 ->
      pstep m Internal (mk_pm s (scpus m) (<[cproc x := (np, false)]> (forking m)))
  | P_fork_fail c x np s : scpus m !! c = Some x -> forking m !! cproc x = Some (np, false) ->
      updp np (fun p => with_state UNUSED (with_kstack 0 p)) (pt m) = Ok tt s ->
      pstep m Internal (mk_pm s (scpus m) (delete (cproc x) (forking m)))
  | P_fork_copy c x np d k s : scpus m !! c = Some x -> forking m !! cproc x = Some (np, false) ->
      updp np (fun p => fork_copy (cproc x) d (getp (pt m) (cproc x)) (init_kstack k p)) (pt m)
        = Ok tt s ->
      pstep m Internal (mk_pm s (scpus m) (<[cproc x := (np, true)]> (forking m)))
  | P_fork_go c x np s : scpus m !! c = Some x -> forking m !! cproc x = Some (np, true) ->
      make_runnable np (pt m) = Ok tt s ->
      pstep m Internal (mk_pm s (scpus m) (delete (cproc x) (forking m))).

Definition boot_table : pst := mk_pst (replicate (Z.to_nat NPROC) proc0) 1 (-1).
(** The machine after [userinit] on [n] CPUs. *)
Definition booted (s : pst) (n : nat) : pmach := mk_pm s (replicate n (mk_scpu (-1) 0)) ∅.

Inductive pruns : pmach -> list event -> pmach -> Prop :=
  | R_nil m : pruns m [] m
  | R_cons m e m1 l m2 : pstep m e m1 -> pruns m1 l m2 -> pruns m (e :: l) m2.
