(* ===== verification/Procinv.v ===== *)
(** * Procinv: what the process table keeps true

    The invariant of the step relation of Proc and its consequences: a process
    runs on at most one CPU, pids are unique, parents are alive, a process asleep
    in [wait] has living children only, and the scheduler starves nobody. *)

From Stdlib Require Import ZArith Lia ZifyBool.
From stdpp Require Import base gmap strings numbers list relations.
From S2P Require Import Prelude CString Proc.

Local Open Scope Z_scope.

(** ** The invariant *)

Definition slot (i : Z) : Prop := 0 <= i < NPROC.
Definition alive (p : proc) : Prop := state p = SLEEPING \/ state p = RUNNABLE \/ state p = RUNNING.

(** [g] is the table as a function, [n] the next pid, [ini] init's slot, [cp] the
    CPUs and [fk] the processes inside [fork]. *)
Record pinv (g : Z -> proc) (n ini : Z) (cp : list scpu) (fk : gmap Z (Z * bool)) : Prop := {
  pi_init : slot ini /\ alive (g ini) /\ parent (g ini) = -1;
  pi_cpu : forall (c : nat) x, cp !! c = Some x ->
    0 <= spos x <= NPROC /\ (cproc x <> -1 -> slot (cproc x) /\ state (g (cproc x)) = RUNNING);
  pi_run : forall i, slot i -> state (g i) = RUNNING -> exists (c : nat) x, cp !! c = Some x /\ cproc x = i;
  pi_one : forall (c1 c2 : nat) x1 x2, cp !! c1 = Some x1 -> cp !! c2 = Some x2 ->
    cproc x1 = cproc x2 -> cproc x1 <> -1 -> c1 = c2;
  pi_pid : forall i, slot i -> 0 <= pid (g i) < n /\ (state (g i) <> UNUSED -> pid (g i) <> 0);
  pi_pids : forall i j, slot i -> slot j -> pid (g i) = pid (g j) -> pid (g i) <> 0 -> i = j;
  pi_parent : forall i, slot i ->
    parent (g i) = -1 \/ slot (parent (g i)) /\ alive (g (parent (g i))) /\ parent (g i) <> i;
  pi_orphan : forall i, slot i -> parent (g i) = -1 ->
    i = ini \/ state (g i) = UNUSED \/ state (g i) = EMBRYO;
  pi_unused : forall i, slot i -> state (g i) = UNUSED -> parent (g i) = -1;
  pi_sleep : forall i, slot i -> state (g i) = SLEEPING -> chan (g i) <> None;
  pi_wait : forall i k, slot i -> state (g i) = SLEEPING -> chan (g i) = Some (ChProc k) ->
    k = i /\ (exists j, slot j /\ parent (g j) = i) /\ (forall j, slot j -> parent (g j) = i -> alive (g j));
  pi_fork : forall (i np : Z) (b : bool), fk !! i = Some (np, b) -> slot i /\ slot np
    /\ (state (g i) = RUNNING \/ state (g i) = RUNNABLE /\ context (g i) = KYield)
    /\ state (g np) = EMBRYO /\ parent (g np) = (if b then i else -1)
    /\ (b = true -> context (g np) <> KExit);
  pi_embryo : forall np, slot np -> state (g np) = EMBRYO -> exists (i : Z) b, fk !! i = Some (np, b);
  pi_child : forall (i1 i2 np : Z) b1 b2, fk !! i1 = Some (np, b1) -> fk !! i2 = Some (np, b2) -> i1 = i2;
  pi_ctx : forall i, slot i -> alive (g i) -> context (g i) <> KExit
}.

Arguments pi_init {g n ini cp fk}.
Arguments pi_cpu {g n ini cp fk}.
Arguments pi_run {g n ini cp fk}.
Arguments pi_one {g n ini cp fk}.
Arguments pi_pid {g n ini cp fk}.
Arguments pi_pids {g n ini cp fk}.
Arguments pi_parent {g n ini cp fk}.
Arguments pi_orphan {g n ini cp fk}.
Arguments pi_unused {g n ini cp fk}.
Arguments pi_sleep {g n ini cp fk}.
Arguments pi_wait {g n ini cp fk}.
Arguments pi_fork {g n ini cp fk}.
Arguments pi_embryo {g n ini cp fk}.
Arguments pi_child {g n ini cp fk}.
Arguments pi_ctx {g n ini cp fk}.

Definition upd (i : Z) (x : proc) (g : Z -> proc) : Z -> proc := fun j => if decide (j = i) then x else g j.

Lemma pinv_ext g g' n ini cp fk :
  (forall i, slot i -> g' i = g i) -> pinv g n ini cp fk -> pinv g' n ini cp fk.
Proof.
  intros E I. split.
  - rewrite E by apply I. apply I.
  - intros c x Hx. destruct (pi_cpu I c x Hx) as [Hp Hr]. split; [done|]. intros Hc.
    destruct (Hr Hc). by rewrite E.
  - intros i Hi. rewrite E by done. by apply I.
  - apply I.
  - intros i Hi. rewrite E by done. by apply I.
  - intros i j Hi Hj. rewrite !E by done. by apply I.
  - intros i Hi. rewrite E by done. destruct (pi_parent I i Hi) as [|(? & ? & ?)]; [by left|].
    right. by rewrite E.
  - intros i Hi. rewrite E by done. by apply I.
  - intros i Hi. rewrite E by done. by apply I.
  - intros i Hi. rewrite E by done. by apply I.
  - intros i k Hi. rewrite E by done. intros Hs Hc.
    destruct (pi_wait I i k Hi Hs Hc) as (? & (j & Hj & Hpj) & Ha). split; [done|]. split.
    + exists j. by rewrite E.
    + intros j' Hj'. rewrite E by done. by apply Ha.
  - intros i np b Hf. destruct (pi_fork I i np b Hf) as (? & ? & ?). by rewrite !E.
  - intros np Hnp. rewrite E by done. by apply I.
  - apply I.
  - intros i Hi. rewrite E by done. by apply I.
Qed.

(** Waking some sleepers. *)
Definition wakes (g g' : Z -> proc) : Prop := forall i, slot i ->
  g' i = g i \/ state (g i) = SLEEPING /\ g' i = with_state RUNNABLE (g i).

Lemma pinv_wakes g g' n ini cp fk : wakes g g' -> pinv g n ini cp fk -> pinv g' n ini cp fk.
Proof.
  intros W I.
  assert (Hal : forall i, slot i -> alive (g i) -> alive (g' i)).
  { intros i Hi. unfold alive. destruct (W i Hi) as [->|[? ->]]; cbn; naive_solver. }
  assert (Hpar : forall i, slot i -> parent (g' i) = parent (g i)).
  { intros i Hi. by destruct (W i Hi) as [->|[? ->]]. }
  assert (Hpid : forall i, slot i -> pid (g' i) = pid (g i)).
  { intros i Hi. by destruct (W i Hi) as [->|[? ->]]. }
  assert (Hctx : forall i, slot i -> context (g' i) = context (g i)).
  { intros i Hi. by destruct (W i Hi) as [->|[? ->]]. }
  assert (Hst : forall i st, slot i -> st <> SLEEPING -> st <> RUNNABLE ->
            state (g' i) = st <-> state (g i) = st).
  { intros i st Hi H1 H2. destruct (W i Hi) as [->|[? ->]]; cbn; naive_solver. }
  assert (Hsl : forall i, slot i -> state (g' i) = SLEEPING -> g' i = g i).
  { intros i Hi. by destruct (W i Hi) as [->|[? ->]]. }
  split.
  - destruct (pi_init I) as (H1 & H2 & H3). rewrite Hpar by done. auto.
  - intros c x Hx. destruct (pi_cpu I c x Hx) as [Hp Hr]. split; [done|]. intros Hc.
    destruct (Hr Hc). by rewrite Hst.
  - intros i Hi. rewrite Hst by done. by apply I.
  - apply I.
  - intros i Hi. rewrite Hpid by done. destruct (pi_pid I i Hi) as [? Hu].
    split; [done|]. intros Hn. apply Hu. by rewrite <-Hst.
  - intros i j Hi Hj. rewrite !Hpid by done. by apply I.
  - intros i Hi. rewrite Hpar by done. destruct (pi_parent I i Hi) as [|(? & ? & ?)]; auto.
  - intros i Hi. rewrite Hpar by done. rewrite !Hst by done. by apply I.
  - intros i Hi. rewrite Hpar, Hst by done. by apply I.
  - intros i Hi Hs. pose proof (Hsl i Hi Hs) as E. rewrite E in *. by apply I.
  - intros i k Hi Hs Hc. pose proof (Hsl i Hi Hs) as E. rewrite E in *.
    destruct (pi_wait I i k Hi Hs Hc) as (? & (j & Hj & Hpj) & Ha). split; [done|]. split.
    + exists j. by rewrite Hpar.
    + intros j' Hj'. rewrite Hpar by done. auto.
  - intros i np b Hf. destruct (pi_fork I i np b Hf) as (Hi & ? & Hif & ? & ? & ?).
    rewrite Hpar, (Hctx np) by done. split_and!; try done; [|by apply Hst].
    destruct (W i Hi) as [->|[E ->]]; [done|]. destruct Hif as [?|[? _]]; congruence.
  - intros np Hnp. rewrite Hst by done. by apply I.
  - apply I.
  - intros i Hi. rewrite Hctx by done. intros Hal'. apply (pi_ctx I i Hi).
    unfold alive in *. destruct (W i Hi) as [<-|[E _]]; auto.
Qed.

(** The steps that change one slot. *)
Section one_slot.
Context (g : Z -> proc) (n ini : Z) (cp : list scpu) (fk : gmap Z (Z * bool)).
Context (I : pinv g n ini cp fk).

Lemma pi_forker i np b : fk !! i = Some (np, b) -> alive (g i).
Proof. intros Hf. destruct (pi_fork I i np b Hf) as (_ & _ & Hi & _). unfold alive. naive_solver. Qed.

(** A slot whose state, pid and parent stay, and the channel if it sleeps. *)
Lemma pinv_same i y :
  state y = state (g i) -> pid y = pid (g i) -> parent y = parent (g i) ->
  context y = context (g i) ->
  (state y = SLEEPING -> chan y = chan (g i)) -> pinv (upd i y g) n ini cp fk.
Proof.
  intros Hs Hp Hr Hx Hc.
  assert (E : forall j, state (upd i y g j) = state (g j) /\ pid (upd i y g j) = pid (g j)
    /\ parent (upd i y g j) = parent (g j)
    /\ (state (g j) = SLEEPING -> chan (upd i y g j) = chan (g j))).
  { intros j. unfold upd. case_decide; subst; [|done]. rewrite <-Hs. auto. }
  assert (Ea : forall j, alive (upd i y g j) <-> alive (g j)).
  { intros j. unfold alive. by destruct (E j) as (-> & _). }
  assert (Es : forall j, state (upd i y g j) = state (g j)) by apply E.
  assert (Ei : forall j, pid (upd i y g j) = pid (g j)) by apply E.
  assert (Er : forall j, parent (upd i y g j) = parent (g j)) by apply E.
  assert (Ec : forall j, state (g j) = SLEEPING -> chan (upd i y g j) = chan (g j)) by apply E.
  assert (Ex : forall j, context (upd i y g j) = context (g j)).
  { intros j. unfold upd. case_decide; by subst. }
  split.
  - rewrite Ea, Er. apply I.
  - intros c x. rewrite Es. apply I.
  - intros j. rewrite Es. apply I.
  - apply I.
  - intros j. rewrite Es, Ei. apply I.
  - intros j k. rewrite !Ei. apply I.
  - intros j. rewrite Er, Ea. apply I.
  - intros j. rewrite Es, Er. apply I.
  - intros j. rewrite Es, Er. apply I.
  - intros j Hj. rewrite Es. intros H. rewrite Ec by done. by apply I.
  - intros j k Hj. rewrite Es. intros H. rewrite Ec by done. intros Hk.
    destruct (pi_wait I j k Hj H Hk) as (? & (j' & ? & ?) & Ha). split; [done|]. split.
    + exists j'. by rewrite Er.
    + intros j''. rewrite Er, Ea. apply Ha.
  - intros j np b. rewrite !Es, Er, !Ex. apply I.
  - intros j. rewrite Es. apply I.
  - apply I.
  - intros j. rewrite Ea, Ex. apply I.
Qed.

(** The scheduler of CPU [c] starts process [i]. *)
Lemma pinv_run c x i y k :
  cp !! c = Some x -> cproc x = -1 -> slot i -> state (g i) = RUNNABLE ->
  state y = RUNNING -> pid y = pid (g i) -> parent y = parent (g i) -> context y = context (g i) ->
  0 <= k <= NPROC -> pinv (upd i y g) n ini (<[c := mk_scpu i k]> cp) fk.
Proof.
  intros Hx Hc Hi Hg Hs Hp Hr Hcx Hk.
  assert (Hlt : (c < length cp)%nat) by (by eapply lookup_lt_Some).
  assert (Ea : forall j, alive (upd i y g j) <-> alive (g j)).
  { intros j. unfold alive, upd. case_decide; subst; [rewrite Hs, Hg; naive_solver|done]. }
  assert (Ei : forall j, pid (upd i y g j) = pid (g j)) by (intros j; unfold upd; case_decide; by subst).
  assert (Er : forall j, parent (upd i y g j) = parent (g j)) by (intros j; unfold upd; case_decide; by subst).
  assert (Ex : forall j, context (upd i y g j) = context (g j)).
  { intros j. unfold upd. case_decide; by subst. }
  assert (Es : forall j st, st <> RUNNING -> st <> RUNNABLE -> state (upd i y g j) = st <-> state (g j) = st).
  { intros j st. unfold upd. case_decide; subst; [rewrite Hs, Hg; naive_solver|done]. }
  assert (Hno : forall c' x', cp !! c' = Some x' -> cproc x' <> i).
  { intros c' x' Hx' E0. destruct (pi_cpu I c' x' Hx') as [_ Hr']. rewrite E0 in Hr'.
    destruct Hr' as [_ E]; [unfold slot in Hi; lia|]. congruence. }
  split.
  - rewrite Ea, Er. apply I.
  - intros c' x' [(-> & <- & _)|[Hne Hx']]%list_lookup_insert_Some.
    + cbn. split; [done|]. unfold upd. by rewrite decide_True.
    + destruct (pi_cpu I c' x' Hx') as [? Hr']. split; [done|]. intros Hc'. unfold upd.
      rewrite decide_False by (by eapply Hno). auto.
  - intros j Hj. unfold upd. case_decide as Hd; subst.
    + intros _. exists c, (mk_scpu i k). by rewrite list_lookup_insert_eq.
    + intros Hj'. destruct (pi_run I j Hj Hj') as (c' & x' & Hx' & <-). exists c', x'.
      rewrite list_lookup_insert_ne; [done|]. intros ->. rewrite Hx in Hx'. injection Hx' as <-.
      unfold slot in Hj. lia.
  - intros c1 c2 x1 x2 [(-> & <- & _)|[Hn1 H1]]%list_lookup_insert_Some
      [(-> & <- & _)|[Hn2 H2]]%list_lookup_insert_Some; cbn; try done.
    + intros E. by destruct (Hno _ _ H2).
    + intros E. by destruct (Hno _ _ H1).
    + by eapply (pi_one I).
  - intros j Hj. rewrite Ei. destruct (pi_pid I j Hj) as [? Hu]. split; [done|]. intros Hn.
    apply Hu. by rewrite <-Es.
  - intros j j'. rewrite !Ei. apply I.
  - intros j. rewrite Er, Ea. apply I.
  - intros j. rewrite Er, !Es by done. apply I.
  - intros j. rewrite Er, !Es by done. apply I.
  - intros j Hj. unfold upd. case_decide; subst; [by rewrite Hs|]. by apply I.
  - intros j k' Hj Hj' Hk'. assert (j <> i) by (intros ->; revert Hj'; unfold upd; rewrite decide_True; congruence).
    unfold upd in Hj', Hk'. rewrite decide_False in Hj', Hk' by done.
    destruct (pi_wait I j k' Hj Hj' Hk') as (? & (j' & ? & ?) & Ha). split; [done|]. split.
    + exists j'. by rewrite Er.
    + intros j''. rewrite Er, Ea. apply Ha.
  - intros j np b Hf. destruct (pi_fork I j np b Hf) as (? & ? & ? & ? & ? & ?). rewrite Er, (Ex np).
    split_and!; try done; [|by apply Es]. unfold upd. case_decide; auto.
  - intros np. rewrite Es by done. apply I.
  - apply I.
  - intros j. rewrite Ea, Ex. apply I.
Qed.

(** Process [i] gives up CPU [c]: it is runnable, or asleep on a channel; asleep
    on itself, it has children and none has exited. *)
Lemma pinv_leave c x i y k :
  cp !! c = Some x -> cproc x = i -> slot i -> pid y = pid (g i) -> parent y = parent (g i) ->
  0 <= k <= NPROC -> context y <> KExit ->
  state y = RUNNABLE /\ (context y = KYield \/ fk !! i = None) \/
    state y = SLEEPING /\ fk !! i = None /\ chan y <> None /\
    (forall p, chan y = Some (ChProc p) -> p = i /\ (exists j, slot j /\ parent (g j) = i)
       /\ (forall j, slot j -> parent (g j) = i -> alive (g j))) ->
  pinv (upd i y g) n ini (<[c := mk_scpu (-1) k]> cp) fk.
Proof.
  intros Hx Hc Hi Hp Hr Hk Hcx Hy.
  assert (Hlt : (c < length cp)%nat) by (by eapply lookup_lt_Some).
  assert (Hg : state (g i) = RUNNING).
  { destruct (pi_cpu I c x Hx) as [_ Hru]. rewrite Hc in Hru. apply Hru. unfold slot in Hi. lia. }
  assert (Hs : state y = RUNNABLE \/ state y = SLEEPING) by (destruct Hy as [[? _]|[? _]]; auto).
  assert (Ea : forall j, alive (upd i y g j) <-> alive (g j)).
  { intros j. unfold alive, upd. case_decide as Hd; [|done]. rewrite Hd, Hg. split; intros _; [auto|].
    destruct Hs; auto. }
  assert (Ei : forall j, pid (upd i y g j) = pid (g j)) by (intros j; unfold upd; case_decide; by subst).
  assert (Er : forall j, parent (upd i y g j) = parent (g j)) by (intros j; unfold upd; case_decide; by subst).
  assert (Eo : forall j, j <> i -> upd i y g j = g j) by (intros j Hj; unfold upd; by rewrite decide_False).
  assert (Es : forall j st, st = UNUSED \/ st = EMBRYO -> state (upd i y g j) = st <-> state (g j) = st).
  { intros j st Hst. unfold upd. case_decide as Hd; [|done]. rewrite Hd, Hg.
    destruct Hs as [->| ->], Hst as [->| ->]; done. }
  split.
  - rewrite Ea, Er. apply I.
  - intros c' x' [(-> & <- & _)|[Hne Hx']]%list_lookup_insert_Some; [done|].
    destruct (pi_cpu I c' x' Hx') as [? Hr']. split; [done|]. intros Hc'. unfold upd.
    rewrite decide_False; [auto|]. intros E. apply Hne. eapply (pi_one I); [exact Hx|exact Hx'|congruence|congruence].
  - intros j Hj. unfold upd. case_decide as Hd; subst; [intros E; destruct Hs; congruence|].
    intros Hj'. destruct (pi_run I j Hj Hj') as (c' & x' & Hx' & <-). exists c', x'.
    rewrite list_lookup_insert_ne; [done|]. intros ->. congruence.
  - intros c1 c2 x1 x2 [(-> & <- & _)|[Hn1 H1]]%list_lookup_insert_Some
      [(-> & <- & _)|[Hn2 H2]]%list_lookup_insert_Some; cbn; try done; try congruence.
    by eapply (pi_one I).
  - intros j Hj. rewrite Ei. destruct (pi_pid I j Hj) as [? Hu]. split; [done|]. intros Hn.
    apply Hu. intros E. apply Hn. apply Es; auto.
  - intros j j'. rewrite !Ei. apply I.
  - intros j. rewrite Er, Ea. apply I.
  - intros j. rewrite Er, !Es by auto. apply I.
  - intros j. rewrite Er, !Es by auto. apply I.
  - intros j Hj. unfold upd. case_decide as Hd; [|by apply I].
    intros E. destruct Hy as [[? _]|(_ & _ & ? & _)]; congruence.
  - intros j k' Hj Hj' Hk'.
    enough (k' = j /\ (exists j0, slot j0 /\ parent (g j0) = j)
            /\ (forall j0, slot j0 -> parent (g j0) = j -> alive (g j0))) as (? & (j0 & ? & ?) & Ha).
    { split; [done|]. split; [exists j0; by rewrite Er|]. intros j''. rewrite Er, Ea. apply Ha. }
    unfold upd in Hj', Hk'. case_decide as Hd; [|by apply (pi_wait I)].
    destruct Hy as [[? _]|(_ & _ & _ & Hy)]; [congruence|]. rewrite Hd. apply (Hy k' Hk').
  - intros j np b Hf. destruct (pi_fork I j np b Hf) as (? & ? & ? & Hnp & ? & ?). rewrite Er.
    assert (np <> i) by congruence. rewrite (Eo np) by done. split_and!; try done.
    unfold upd. case_decide as Hd; [|done]. right.
    destruct Hy as [[? [?|?]]|(_ & ? & _)]; [done|congruence..].
  - intros np. rewrite Es by auto. apply I.
  - apply I.
  - intros j Hj. rewrite Ea. unfold upd. case_decide; [done|]. by apply I.
Qed.

(** The scheduler of CPU [c] goes back to the first slot. *)
Lemma pinv_pass c x k : cp !! c = Some x -> cproc x = -1 -> 0 <= k <= NPROC ->
  pinv g n ini (<[c := mk_scpu (-1) k]> cp) fk.
Proof.
  intros Hx Hc Hk. split; try apply I.
  - intros c' x' [(-> & <- & _)|[Hn Hx']]%list_lookup_insert_Some; [done|]. by eapply (pi_cpu I).
  - intros i Hi Hr. destruct (pi_run I i Hi Hr) as (c' & x' & Hx' & E). exists c', x'.
    rewrite list_lookup_insert_ne; [done|]. intros ->. rewrite Hx in Hx'.
    injection Hx' as <-. unfold slot in Hi. lia.
  - intros c1 c2 x1 x2 [(-> & <- & _)|[Hn1 H1]]%list_lookup_insert_Some
      [(-> & <- & _)|[Hn2 H2]]%list_lookup_insert_Some; cbn; try done; try congruence.
    by eapply (pi_one I).
Qed.

(** [wait] frees the slot of an exited child. *)
Lemma pinv_reap i y :
  slot i -> state (g i) = ZOMBIE -> state y = UNUSED -> pid y = 0 -> parent y = -1 ->
  pinv (upd i y g) n ini cp fk.
Proof.
  intros Hi Hg Hs Hp Hr.
  assert (Ha : forall j, alive (g j) -> j <> i).
  { intros j Hj ->. unfold alive in Hj. rewrite Hg in Hj. destruct Hj as [?|[?|?]]; done. }
  assert (Eo : forall j, j <> i -> upd i y g j = g j) by (intros j Hj; unfold upd; by rewrite decide_False).
  assert (Ei : upd i y g i = y) by (unfold upd; by rewrite decide_True).
  destruct (pi_init I) as (Hini & Hia & Hip).
  split.
  - rewrite Eo by auto. done.
  - intros c x Hx. destruct (pi_cpu I c x Hx) as [? Hr']. split; [done|]. intros Hc.
    destruct (Hr' Hc) as [? E]. rewrite Eo; [done|]. congruence.
  - intros j Hj. unfold upd. case_decide; [congruence|]. by apply I.
  - apply I.
  - intros j Hj. unfold upd. case_decide; [|by apply I]. rewrite Hs, Hp. split; [|done].
    destruct (pi_pid I i Hi). lia.
  - intros j k Hj Hk. unfold upd. do 2 case_decide; try congruence. by apply I.
  - intros j Hj. destruct (decide (j = i)) as [->|Hd]; [rewrite Ei; by left|]. rewrite (Eo j Hd).
    destruct (pi_parent I j Hj) as [?|(? & Hal & ?)]; [by left|right]. rewrite Eo; auto.
  - intros j Hj. unfold upd. case_decide; [|by apply I]. auto.
  - intros j Hj. unfold upd. case_decide; [done|]. by apply I.
  - intros j Hj. unfold upd. case_decide; [congruence|]. by apply I.
  - intros j k Hj. unfold upd at 1 2. case_decide as Hd; [congruence|]. intros Hj' Hk.
    destruct (pi_wait I j k Hj Hj' Hk) as (? & (j' & ? & ?) & Hch). split; [done|].
    split; [exists j'; rewrite Eo; auto|].
    intros j''. unfold upd. case_decide; [unfold slot in Hj; lia|]. apply Hch.
  - intros j np b Hf. pose proof (pi_fork I j np b Hf) as HF.
    assert (np <> i) by (destruct HF as (_ & _ & _ & ? & _); congruence).
    assert (j <> i) by (eapply Ha, pi_forker; done). by rewrite !Eo.
  - intros np Hnp. unfold upd. case_decide; [congruence|]. by apply I.
  - apply I.
  - intros j Hj. unfold upd. case_decide; [|by apply I]. unfold alive. rewrite Hs.
    intros [?|[?|?]]; done.
Qed.

(** [allocproc] on behalf of the process [i]. *)
Lemma pinv_alloc i c x np y :
  cp !! c = Some x -> cproc x = i -> i <> -1 -> fk !! i = None ->
  slot np -> state (g np) = UNUSED -> state y = EMBRYO -> pid y = n -> 0 < n ->
  parent y = parent (g np) ->
  pinv (upd np y g) (n + 1) ini cp (<[i := (np, false)]> fk).
Proof.
  intros Hx Hc Hi Hfk Hnp Hg Hs Hp Hn Hr.
  assert (Ha : forall j, alive (g j) -> j <> np).
  { intros j Hj ->. unfold alive in Hj. rewrite Hg in Hj. destruct Hj as [?|[?|?]]; done. }
  assert (Eo : forall j, j <> np -> upd np y g j = g j) by (intros j Hj; unfold upd; by rewrite decide_False).
  assert (Ei : upd np y g np = y) by (unfold upd; by rewrite decide_True).
  assert (Er : forall j, parent (upd np y g j) = parent (g j)).
  { intros j. unfold upd. case_decide; congruence. }
  destruct (pi_cpu I c x Hx) as [_ Hru]. rewrite Hc in Hru. destruct (Hru Hi) as [Hsi Hgi].
  destruct (pi_init I) as (Hini & Hia & Hip).
  assert (Hfn : forall j b, fk !! j = Some (np, b) -> False).
  { intros j b Hf. destruct (pi_fork I j np b Hf) as (_ & _ & _ & ? & _). congruence. }
  split.
  - rewrite Eo by auto. done.
  - intros c' x' Hx'. destruct (pi_cpu I c' x' Hx') as [? Hr']. split; [done|]. intros Hc'.
    destruct (Hr' Hc') as [? E]. rewrite Eo; [done|]. congruence.
  - intros j Hj. unfold upd. case_decide; [congruence|]. by apply I.
  - apply I.
  - intros j Hj. unfold upd. case_decide; [split; lia|]. destruct (pi_pid I j Hj). split; [lia|done].
  - intros j k Hj Hk. unfold upd. destruct (pi_pid I j Hj), (pi_pid I k Hk).
    do 2 case_decide; try congruence; try lia. by apply I.
  - intros j Hj. rewrite Er. destruct (pi_parent I j Hj) as [?|(? & ? & ?)]; [by left|right].
    rewrite Eo; auto.
  - intros j Hj. rewrite Er. unfold upd. case_decide; [auto|]. by apply I.
  - intros j Hj. rewrite Er. unfold upd. case_decide; [congruence|]. by apply I.
  - intros j Hj. unfold upd. case_decide; [congruence|]. by apply I.
  - intros j k Hj. unfold upd at 1 2. case_decide as Hd; [congruence|]. intros Hj' Hk.
    destruct (pi_wait I j k Hj Hj' Hk) as (? & (j' & ? & ?) & Hch). split; [done|].
    split; [exists j'; by rewrite Er|].
    intros j'' Hj''. rewrite Er. intros E. rewrite Eo; auto.
  - intros j np' b. rewrite lookup_insert_Some. intros [[<- [= <- <-]]|[Hne Hf]].
    + rewrite Er, Ei, Eo by congruence. split_and!; auto. by apply (pi_unused I).
    + pose proof (pi_fork I j np' b Hf) as HF.
      assert (np' <> np) by (destruct HF as (_ & _ & _ & ? & _); congruence).
      assert (j <> np) by (eapply Ha, pi_forker; done). by rewrite !Eo.
  - intros k Hk. unfold upd. case_decide as Hd.
    + intros _. exists i, false. rewrite lookup_insert_eq. congruence.
    + intros He. destruct (pi_embryo I k Hk He) as (j & b & Hf). exists j, b.
      rewrite lookup_insert_ne; [done|]. congruence.
  - intros i1 i2 k b1 b2. rewrite !lookup_insert_Some.
    intros [[? ?]|[? Hf]] [[? ?]|[? Hf']]; simplify_eq; try done.
    + by destruct (Hfn _ _ Hf').
    + by destruct (Hfn _ _ Hf).
    + by eapply (pi_child I).
  - intros j Hj. unfold upd. case_decide; [|by apply I]. unfold alive. rewrite Hs.
    intros [?|[?|?]]; done.
Qed.

(** [fork] gives the slot back. *)
Lemma pinv_fail i np y :
  fk !! i = Some (np, false) -> state y = UNUSED -> pid y = pid (g np) -> parent y = parent (g np) ->
  pinv (upd np y g) n ini cp (delete i fk).
Proof.
  intros Hfk Hs Hp Hr. destruct (pi_fork I i np false Hfk) as (Hi & Hnp & Hgi & Hg & Hpar & Hcx).
  assert (Hn : forall j, alive (g j) -> j <> np).
  { intros j Hj ->. unfold alive in Hj. rewrite Hg in Hj. destruct Hj as [?|[?|?]]; done. }
  assert (Eo : forall j, j <> np -> upd np y g j = g j) by (intros j Hj; unfold upd; by rewrite decide_False).
  assert (Er : forall j, parent (upd np y g j) = parent (g j)).
  { intros j. unfold upd. case_decide; congruence. }
  assert (Ep : forall j, pid (upd np y g j) = pid (g j)).
  { intros j. unfold upd. case_decide; congruence. }
  split.
  - rewrite Eo by (apply Hn, I). apply I.
  - intros c' x' Hx'. destruct (pi_cpu I c' x' Hx') as [? Hr']. split; [done|]. intros Hc'.
    destruct (Hr' Hc') as [? E]. rewrite Eo; [done|]. congruence.
  - intros j Hj. unfold upd. case_decide; [congruence|]. by apply I.
  - apply I.
  - intros j Hj. rewrite Ep. unfold upd. destruct (pi_pid I j Hj) as [? Hu]. split; [done|].
    case_decide; [congruence|done].
  - intros j k Hj Hk. rewrite !Ep. by apply I.
  - intros j Hj. rewrite Er. destruct (pi_parent I j Hj) as [?|(? & ? & ?)]; [by left|right].
    rewrite Eo; auto.
  - intros j Hj. rewrite Er. unfold upd. case_decide; [auto|]. by apply I.
  - intros j Hj. rewrite Er. unfold upd. case_decide; [congruence|]. by apply I.
  - intros j Hj. unfold upd. case_decide; [congruence|]. by apply I.
  - intros j k Hj. unfold upd at 1 2. case_decide as Hd; [congruence|]. intros Hj' Hk.
    destruct (pi_wait I j k Hj Hj' Hk) as (? & (j' & ? & ?) & Hch). split; [done|].
    split; [exists j'; by rewrite Er|].
    intros j'' Hj''. rewrite Er. intros E. rewrite Eo; auto.
  - intros j np' b. rewrite lookup_delete_Some. intros [Hne Hf].
    assert (np' <> np) by (intros ->; apply Hne; by eapply (pi_child I)).
    assert (j <> np) by (eapply Hn, pi_forker; done). rewrite !Eo by done. by apply (pi_fork I).
  - intros k Hk. unfold upd. case_decide as Hd; [congruence|]. intros He.
    destruct (pi_embryo I k Hk He) as (j & b & Hf). exists j, b. rewrite lookup_delete_ne; [done|]. congruence.
  - intros i1 i2 k b1 b2. rewrite !lookup_delete_Some. intros [_ ?] [_ ?]. by eapply (pi_child I).
  - intros j Hj. unfold upd. case_decide; [|by apply I]. unfold alive. rewrite Hs.
    intros [?|[?|?]]; done.
Qed.

(** [fork] fills the child in. *)
Lemma pinv_copy c x i np y :
  cp !! c = Some x -> cproc x = i -> fk !! i = Some (np, false) ->
  state y = EMBRYO -> pid y = pid (g np) -> parent y = i -> context y <> KExit ->
  pinv (upd np y g) n ini cp (<[i := (np, true)]> fk).
Proof.
  intros Hx Hc Hfk Hs Hp Hr Hcy. destruct (pi_fork I i np false Hfk) as (Hi & Hnp & Hgi & Hg & Hpar & Hcx).
  assert (Ha : forall j, alive (g j) -> j <> np).
  { intros j Hj ->. unfold alive in Hj. rewrite Hg in Hj. destruct Hj as [?|[?|?]]; done. }
  assert (Eo : forall j, j <> np -> upd np y g j = g j) by (intros j Hj; unfold upd; by rewrite decide_False).
  assert (En : upd np y g np = y) by (unfold upd; by rewrite decide_True).
  assert (Es : forall j, state (upd np y g j) = state (g j)).
  { intros j. unfold upd. case_decide; congruence. }
  assert (Ep : forall j, pid (upd np y g j) = pid (g j)).
  { intros j. unfold upd. case_decide; congruence. }
  assert (Hai : alive (g i)) by (by eapply pi_forker).
  assert (Hin : i <> np) by (by apply Ha).
  split.
  - rewrite Eo by (apply Ha, I). apply I.
  - intros c' x'. rewrite Es. apply I.
  - intros j. rewrite Es. apply I.
  - apply I.
  - intros j. rewrite Ep, Es. apply I.
  - intros j k. rewrite !Ep. apply I.
  - intros j Hj. destruct (decide (j = np)) as [->|Hd].
    + right. rewrite En, Hr, Eo by done. auto.
    + rewrite (Eo j Hd). destruct (pi_parent I j Hj) as [?|(? & ? & ?)]; [by left|right]. rewrite Eo; auto.
  - intros j Hj. unfold upd. case_decide; [auto|]. by apply I.
  - intros j Hj. unfold upd. case_decide; [congruence|]. by apply I.
  - intros j Hj. unfold upd. case_decide; [congruence|]. by apply I.
  - intros j k Hj. unfold upd at 1 2. case_decide as Hd; [congruence|]. intros Hj' Hk.
    destruct (pi_wait I j k Hj Hj' Hk) as (? & (j' & Hj1 & Hj2) & Hch). split; [done|]. split.
    + exists j'. rewrite Eo; [done|]. intros ->. unfold slot in Hj. lia.
    + intros j'' Hj''. unfold upd. case_decide; [|by apply Hch]. rewrite Hr. intros ->.
      rewrite Hj' in Hgi. by destruct Hgi as [?|[? _]].
  - intros j np' b. rewrite lookup_insert_Some, !Es. intros [[<- [= <- <-]]|[Hne Hf]].
    + rewrite En, Eo by done. done.
    + assert (np' <> np) by (intros ->; apply Hne; by eapply (pi_child I)).
      assert (j <> np) by (eapply Ha, pi_forker; done). rewrite !Eo by done. by apply (pi_fork I).
  - intros k Hk. rewrite Es. intros He. destruct (pi_embryo I k Hk He) as (j & b & Hf).
    destruct (decide (i = j)) as [->|Hne]; [|exists j, b; by rewrite lookup_insert_ne].
    exists j, true. rewrite lookup_insert_eq. congruence.
  - intros i1 i2 k b1 b2. rewrite !lookup_insert_Some.
    intros [[? ?]|[? Hf]] [[? ?]|[? Hf']]; simplify_eq; try done; by eapply (pi_child I).
  - intros j Hj. unfold upd. case_decide; [|by apply I]. unfold alive. rewrite Hs.
    intros [?|[?|?]]; done.
Qed.

(** The child becomes runnable. *)
Lemma pinv_go i np y :
  fk !! i = Some (np, true) -> state y = RUNNABLE -> pid y = pid (g np) -> parent y = parent (g np) ->
  context y = context (g np) ->
  pinv (upd np y g) n ini cp (delete i fk).
Proof.
  intros Hfk Hs Hp Hr Hcy. destruct (pi_fork I i np true Hfk) as (Hi & Hnp & Hgi & Hg & Hpar & Hcx).
  assert (Ha : forall j, alive (g j) -> alive (upd np y g j)).
  { intros j Hj. unfold upd. case_decide; [|done]. unfold alive. auto. }
  assert (Hn : forall j, alive (g j) -> j <> np).
  { intros j Hj ->. unfold alive in Hj. rewrite Hg in Hj. destruct Hj as [?|[?|?]]; done. }
  assert (Eo : forall j, j <> np -> upd np y g j = g j) by (intros j Hj; unfold upd; by rewrite decide_False).
  assert (Er : forall j, parent (upd np y g j) = parent (g j)).
  { intros j. unfold upd. case_decide; congruence. }
  assert (Ep : forall j, pid (upd np y g j) = pid (g j)).
  { intros j. unfold upd. case_decide; congruence. }
  split.
  - rewrite Eo by (apply Hn, I). apply I.
  - intros c' x' Hx'. destruct (pi_cpu I c' x' Hx') as [? Hr']. split; [done|]. intros Hc'.
    destruct (Hr' Hc') as [? E]. rewrite Eo; [done|]. congruence.
  - intros j Hj. unfold upd. case_decide; [congruence|]. by apply I.
  - apply I.
  - intros j Hj. rewrite Ep. unfold upd. destruct (pi_pid I j Hj) as [? Hu]. split; [done|].
    case_decide as Hd; [|done]. intros _. apply Hu. congruence.
  - intros j k Hj Hk. rewrite !Ep. by apply I.
  - intros j Hj. rewrite Er. destruct (pi_parent I j Hj) as [?|(? & ? & ?)]; auto.
  - intros j Hj. rewrite Er. unfold upd. case_decide as Hd; [|by apply I].
    rewrite Hd, Hpar. unfold slot in Hi. lia.
  - intros j Hj. rewrite Er. unfold upd. case_decide; [congruence|]. by apply I.
  - intros j Hj. unfold upd. case_decide; [congruence|]. by apply I.
  - intros j k Hj. unfold upd at 1 2. case_decide as Hd; [congruence|]. intros Hj' Hk.
    destruct (pi_wait I j k Hj Hj' Hk) as (? & (j' & ? & ?) & Hch). split; [done|].
    split; [exists j'; by rewrite Er|]. intros j'' Hj''. rewrite Er. auto.
  - intros j np' b. rewrite lookup_delete_Some. intros [Hne Hf].
    assert (np' <> np) by (intros ->; apply Hne; by eapply (pi_child I)).
    assert (j <> np) by (eapply Hn, pi_forker; done). rewrite !Eo by done. by apply (pi_fork I).
  - intros k Hk. unfold upd. case_decide as Hd; [congruence|]. intros He.
    destruct (pi_embryo I k Hk He) as (j & b & Hf). exists j, b. rewrite lookup_delete_ne; [done|]. congruence.
  - intros i1 i2 k b1 b2. rewrite !lookup_delete_Some. intros [_ ?] [_ ?]. by eapply (pi_child I).
  - intros j Hj. unfold upd. case_decide; [|by apply I]. rewrite Hcy. auto.
Qed.
End one_slot.

(** [exit] of [i]: its parent is woken, its children pass to init, which is woken
    when one of them has exited. *)
Record exits (g g' : Z -> proc) (i ini : Z) : Prop := {
  ex_me : state (g' i) = ZOMBIE /\ pid (g' i) = pid (g i) /\ parent (g' i) = parent (g i);
  ex_other : forall j, slot j -> j <> i -> pid (g' j) = pid (g j) /\ chan (g' j) = chan (g j)
    /\ context (g' j) = context (g j)
    /\ parent (g' j) = (if decide (parent (g j) = i) then ini else parent (g j))
    /\ (state (g' j) = state (g j) \/ state (g j) = SLEEPING /\ state (g' j) = RUNNABLE);
  ex_parent : forall j, slot j -> j <> i -> chan (g j) = Some (ChProc (parent (g i))) ->
    state (g' j) <> SLEEPING;
  ex_init : forall k, slot k -> parent (g k) = i -> state (g k) = ZOMBIE ->
    chan (g ini) = Some (ChProc ini) -> state (g' ini) <> SLEEPING
}.

Lemma pinv_exit g g' n ini cp fk c x i k :
  pinv g n ini cp fk -> exits g g' i ini -> i <> ini ->
  cp !! c = Some x -> cproc x = i -> i <> -1 -> fk !! i = None -> 0 <= k <= NPROC ->
  pinv g' n ini (<[c := mk_scpu (-1) k]> cp) fk.
Proof.
  intros I [(Hme & Hmp & Hmr) Hot Hpa Hin] Hne Hx Hc Hi1 Hfk Hk.
  destruct (pi_cpu I c x Hx) as [_ Hru]. rewrite Hc in Hru. destruct (Hru Hi1) as [Hi Hg].
  destruct (pi_init I) as (Hini & Hia & Hip).
  assert (Ha : forall j, slot j -> j <> i -> alive (g j) -> alive (g' j)).
  { intros j Hj Hji Hal. unfold alive in *. destruct (Hot j Hj Hji) as (_ & _ & _ & _ & [->|[_ ->]]); auto. }
  assert (Es : forall j st, slot j -> j <> i -> st <> SLEEPING -> st <> RUNNABLE ->
            state (g' j) = st <-> state (g j) = st).
  { intros j st Hj Hji H1 H2. destruct (Hot j Hj Hji) as (_ & _ & _ & _ & [->|[-> ->]]); [done|].
    split; congruence. }
  assert (Ei : forall j, slot j -> pid (g' j) = pid (g j)).
  { intros j Hj. destruct (decide (j = i)) as [->|Hji]; [done|]. by apply Hot. }
  assert (Esl : forall j, slot j -> state (g' j) = SLEEPING ->
            j <> i /\ state (g j) = SLEEPING /\ chan (g' j) = chan (g j)).
  { intros j Hj Hs. assert (j <> i) by congruence. split; [done|].
    destruct (Hot j Hj) as (_ & -> & _ & _ & [<-|[? E]]); [done|auto|congruence]. }
  split.
  - split; [done|]. split; [by apply Ha|]. destruct (Hot ini Hini) as (_ & _ & _ & -> & _); [done|].
    rewrite Hip. by rewrite decide_False.
  - intros c' x' [(-> & <- & _)|[Hn Hx']]%list_lookup_insert_Some; [done|].
    destruct (pi_cpu I c' x' Hx') as [? Hr']. split; [done|]. intros Hc'. destruct (Hr' Hc') as [? E].
    split; [done|]. apply Es; try done. intros E2. apply Hn.
    eapply (pi_one I); [exact Hx|exact Hx'|congruence|congruence].
  - intros j Hj Hs. assert (Hji : j <> i) by congruence. apply Es in Hs; try done.
    destruct (pi_run I j Hj Hs) as (c' & x' & Hx' & Ec). exists c', x'.
    rewrite list_lookup_insert_ne; [done|]. intros ->. congruence.
  - intros c1 c2 x1 x2 [(-> & <- & _)|[Hn1 H1]]%list_lookup_insert_Some
      [(-> & <- & _)|[Hn2 H2]]%list_lookup_insert_Some; cbn; try done; try congruence.
    by eapply (pi_one I).
  - intros j Hj. rewrite Ei by done. destruct (pi_pid I j Hj) as [? Hu]. split; [done|]. intros Hn.
    apply Hu. destruct (decide (j = i)) as [->|Hji]; [congruence|]. by rewrite <-Es.
  - intros j j' Hj Hj'. rewrite !Ei by done. by apply I.
  - intros j Hj. destruct (decide (j = i)) as [->|Hji].
    + rewrite Hmr. destruct (pi_parent I i Hi) as [?|(? & ? & ?)]; auto.
    + destruct (Hot j Hj Hji) as (_ & _ & _ & -> & _). case_decide as Hd.
      * right. split_and!; auto. intros <-. congruence.
      * destruct (pi_parent I j Hj) as [?|(? & ? & ?)]; auto.
  - intros j Hj. destruct (decide (j = i)) as [->|Hji].
    + rewrite Hmr. intros E. destruct (pi_orphan I i Hi E) as [?|[?|?]]; congruence.
    + destruct (Hot j Hj Hji) as (_ & _ & _ & -> & _). rewrite !Es by done.
      case_decide as Hd; [unfold slot in Hini; lia|]. by apply I.
  - intros j Hj Hs. destruct (decide (j = i)) as [->|Hji]; [congruence|].
    apply Es in Hs; try done. destruct (Hot j Hj Hji) as (_ & _ & _ & -> & _).
    rewrite (pi_unused I j Hj Hs). by rewrite decide_False.
  - intros j Hj Hs. destruct (Esl j Hj Hs) as (? & ? & ->). by apply I.
  - intros j k' Hj Hs. destruct (Esl j Hj Hs) as (Hji & Hs0 & ->). intros Hk'.
    destruct (pi_wait I j k' Hj Hs0 Hk') as (-> & (j' & Hj' & Hpj) & Hch). split; [done|].
    assert (Hij : parent (g i) <> j) by (intros E; apply (Hpa j Hj Hji); congruence).
    split.
    + exists j'. assert (j' <> i) by congruence. destruct (Hot j' Hj') as (_ & _ & _ & -> & _); [done|].
      rewrite decide_False by congruence. done.
    + intros l Hl. destruct (decide (l = i)) as [->|Hli]; [congruence|].
      destruct (Hot l Hl Hli) as (_ & _ & _ & -> & _). case_decide as Hd.
      * intros <-. apply Ha; try done.
        assert (state (g l) <> ZOMBIE) by (intros E; by apply (Hin l Hl Hd E)).
        assert (state (g l) <> UNUSED) by (intros E; pose proof (pi_unused I l Hl E); congruence).
        assert (state (g l) <> EMBRYO).
        { intros E. destruct (pi_embryo I l Hl E) as (i0 & b & Hf).
          destruct (pi_fork I i0 l b Hf) as (_ & _ & _ & _ & Hb & _). destruct b; congruence. }
        unfold alive. destruct (state (g l)); auto; congruence.
      * intros E. apply Ha; auto.
  - intros j np b Hf. destruct (pi_fork I j np b Hf) as (? & Hnp & Hj & He & Hpn & Hcx).
    assert (Hji : j <> i) by congruence. assert (Hni : np <> i) by congruence.
    destruct (Hot np Hnp Hni) as (_ & _ & -> & -> & _). split_and!; try done.
    + destruct (Hot j) as (_ & _ & -> & _ & [->|[E _]]); try done. destruct Hj as [?|[? _]]; congruence.
    + by apply Es.
    + rewrite decide_False; [done|]. rewrite Hpn. by destruct b.
  - intros np Hnp Hs. assert (Hni : np <> i) by congruence. apply Es in Hs; try done. by apply I.
  - apply I.
  - intros j Hj Hal. assert (Hji : j <> i).
    { intros ->. unfold alive in Hal. rewrite Hme in Hal. destruct Hal as [?|[?|?]]; done. }
    destruct (Hot j Hj Hji) as (_ & _ & -> & _ & Hst). apply (pi_ctx I j Hj). unfold alive in *.
    destruct Hst as [<-|[? _]]; auto.
Qed.

(** ** The sections on the table *)

Definition tab (s : pst) : Prop := length (procs s) = Z.to_nat NPROC.

Lemma getp_setp_eq s i x : tab s -> slot i -> getp (setp i x s) i = x.
Proof. unfold tab, slot. intros. apply nthZ_updZ_eq. cbn. lia. Qed.

Lemma getp_setp s i x j : tab s -> slot i -> getp (setp i x s) j = upd i x (getp s) j.
Proof.
  intros Ht Hi. unfold upd. case_decide as Hd; [subst; by apply getp_setp_eq|].
  by apply nthZ_updZ_ne.
Qed.

Lemma setp_setp s i x y : setp i x (setp i y s) = setp i x s.
Proof. unfold setp. cbn. by rewrite updZ_updZ. Qed.

Lemma tab_setp s i x : tab s -> tab (setp i x s).
Proof. unfold tab. cbn. by rewrite length_updZ. Qed.

Lemma updp_Ok s i f : updp i f s = Ok tt (setp i (f (getp s i)) s).
Proof. done. Qed.

(** Two updates of one slot in sequence. *)
Lemma updp_updp s i f h {A} (k : M pst A) : tab s -> slot i ->
  (updp i f ;; updp i h ;; k) s = (updp i (fun p => h (f p)) ;; k) s.
Proof.
  intros Ht Hi. unfold updp, modS, mbind, M_bind. by rewrite getp_setp_eq, setp_setp by done.
Qed.

Lemma sched_Ok s i k : state (getp s i) <> RUNNING ->
  sched i k s = Ok tt (setp i (with_context k (getp s i)) s).
Proof.
  intros Hn. unfold sched, gets, mbind, M_bind. rewrite bool_decide_eq_false_2 by done. done.
Qed.

Lemma yield_Ok s i : tab s -> slot i ->
  yield i s = Ok tt (setp i (with_context KYield (with_state RUNNABLE (getp s i))) s).
Proof.
  intros Ht Hi. unfold yield. rewrite (bind_Ok _ _ _ _ _ (updp_Ok _ _ _)).
  rewrite sched_Ok by (rewrite getp_setp_eq by done; done).
  by rewrite getp_setp_eq, setp_setp by done.
Qed.

Lemma sleep_Ok s i ch k : tab s -> slot i ->
  sleep i ch k s = Ok tt (setp i (with_context k (with_state SLEEPING (with_chan ch (getp s i)))) s).
Proof.
  intros Ht Hi. unfold sleep. rewrite updp_updp by done. rewrite (bind_Ok _ _ _ _ _ (updp_Ok _ _ _)).
  rewrite sched_Ok by (rewrite getp_setp_eq by done; done).
  by rewrite getp_setp_eq, setp_setp by done.
Qed.

Lemma slots_in j : j ∈ slots <-> slot j.
Proof. unfold slots. rewrite elem_of_seqZ. unfold slot, NPROC. lia. Qed.

Lemma find_slot (f : Z -> bool) i : List.find f slots = Some i -> slot i /\ f i = true.
Proof. intros [Hi Hf]%find_some. split; [|done]. apply slots_in. by apply list_elem_of_In. Qed.

(** [wakeup1] *)
Definition woken (ch : option chan_t) (p : proc) : proc :=
  if bool_decide (state p = SLEEPING) && bool_decide (chan p = ch) then with_state RUNNABLE p else p.

Lemma getp_wakeup1 s ch : exists s', wakeup1 ch s = Ok tt s' /\ (tab s -> tab s')
  /\ nextpid s' = nextpid s /\ initproc s' = initproc s
  /\ (forall j, getp s' j = woken ch (getp s j)).
Proof.
  eexists. split; [reflexivity|]. cbn. split_and!; try done.
  - unfold tab. cbn. by rewrite length_map.
  - intros j. unfold getp, nthZ. cbn [procs]. case_match; [done|].
    change proc0 with (woken ch proc0) at 1. by rewrite map_nth.
Qed.

Lemma woken_state ch p : state (woken ch p) = state p \/ state p = SLEEPING /\ state (woken ch p) = RUNNABLE.
Proof.
  unfold woken. destruct (bool_decide_reflect (state p = SLEEPING)); cbn; [|auto].
  case_match; auto.
Qed.

Lemma woken_wakes g ch : wakes g (fun j => woken ch (g j)).
Proof.
  intros i _. unfold woken. destruct (bool_decide_reflect (state (g i) = SLEEPING)); cbn; [|auto].
  case_match; auto.
Qed.

Lemma woken_not_asleep ch p : chan p = ch -> state (woken ch p) <> SLEEPING.
Proof.
  intros Hc. unfold woken. destruct (bool_decide_reflect (state p = SLEEPING)); cbn; [|done].
  by rewrite bool_decide_eq_true_2.
Qed.

(** What holds while [exit] of [i] walks the table and has done the slots [D]. *)
Record exiting (s s' : pst) (i : Z) (D : list Z) : Prop := {
  xg_tab : tab s';
  xg_pid : nextpid s' = nextpid s /\ initproc s' = initproc s;
  xg_slot : forall j, pid (getp s' j) = pid (getp s j) /\ chan (getp s' j) = chan (getp s j)
    /\ context (getp s' j) = context (getp s j)
    /\ parent (getp s' j)
       = (if decide (j ∈ D /\ parent (getp s j) = i) then initproc s else parent (getp s j))
    /\ (state (getp s' j) = state (getp s j)
        \/ state (getp s j) = SLEEPING /\ state (getp s' j) = RUNNABLE)
}.
(** If [k] is a child that has exited, init does not sleep. *)
Definition announced (s s' : pst) (i k : Z) : Prop :=
  parent (getp s k) = i -> state (getp s k) = ZOMBIE ->
  chan (getp s (initproc s)) = proc_chan (initproc s) -> state (getp s' (initproc s)) <> SLEEPING.
Definition fewer_asleep (s s' : pst) : Prop :=
  forall j, state (getp s' j) = SLEEPING -> state (getp s j) = SLEEPING.

Section exiting.
Context (s : pst) (i : Z).

Lemma announced_mono s1 s2 k : fewer_asleep s1 s2 -> announced s s1 i k -> announced s s2 i k.
Proof. intros Hf Ha H1 H2 H3 H4. by apply (Ha H1 H2 H3), Hf. Qed.

Lemma exiting_wakeup s1 D ch : exiting s s1 i D ->
  wp (wakeup1 ch) (fun _ s2 => exiting s s2 i D /\ fewer_asleep s1 s2
    /\ (forall j, chan (getp s j) = ch -> state (getp s2 j) <> SLEEPING)) s1.
Proof.
  intros [Ht [Hp1 Hp2] Hs].
  destruct (getp_wakeup1 s1 ch) as (s2 & E & Ht2 & Hn & Hi & Hw). unfold wp. rewrite E.
  assert (Hf : forall j, pid (getp s2 j) = pid (getp s1 j) /\ chan (getp s2 j) = chan (getp s1 j)
            /\ context (getp s2 j) = context (getp s1 j) /\ parent (getp s2 j) = parent (getp s1 j)).
  { intros j. rewrite Hw. unfold woken. by case_match. }
  split_and!; [split|..].
  - auto.
  - split; congruence.
  - intros j. destruct (Hf j) as (-> & -> & -> & ->). destruct (Hs j) as (? & ? & ? & ? & Hsj).
    split_and!; try done. rewrite Hw. destruct (woken_state ch (getp s1 j)) as [->|[E' ->]]; [done|].
    destruct Hsj as [<-|[? ?]]; [auto|congruence].
  - intros j. rewrite Hw. destruct (woken_state ch (getp s1 j)) as [->|[-> ->]]; done.
  - intros j Hj. rewrite Hw. apply woken_not_asleep. destruct (Hs j) as (_ & -> & _). done.
Qed.

Lemma exiting_reparent s2 D j : exiting s s2 i D -> slot j -> j ∉ D -> parent (getp s j) = i ->
  let s3 := setp j (with_parent (initproc s) (getp s2 j)) s2 in
  exiting s s3 i (D ++ [j]) /\ fewer_asleep s2 s3.
Proof.
  intros [Ht [Hp1 Hp2] Hs] Hj HjD Hp s3.
  assert (E : forall k, getp s3 k = upd j (with_parent (initproc s) (getp s2 j)) (getp s2) k).
  { intros k. by apply getp_setp. }
  assert (Hst : forall k, state (getp s3 k) = state (getp s2 k)).
  { intros k. rewrite E. unfold upd. case_decide; by subst. }
  split; [split|].
  - by apply tab_setp.
  - done.
  - intros k. rewrite Hst. destruct (Hs k) as (? & ? & ? & Hk & ?). rewrite E. unfold upd.
    destruct (decide (k = j)) as [->|Hd].
    + split_and!; try done. cbn. rewrite decide_True; [done|]. split; [|done].
      apply elem_of_app. right. by left.
    + split_and!; try done. rewrite Hk. apply decide_ext.
      rewrite elem_of_app, list_elem_of_singleton. naive_solver.
  - intros k. by rewrite Hst.
Qed.

(** A round of the loop of [exit]. *)
Lemma exiting_slot s2 D j : exiting s s2 i D -> Forall (announced s s2 i) D -> slot j -> j ∉ D ->
  wp (p ← gets (fun s => getp s j);
      if parent p =? i then
        updp j (with_parent (initproc s)) ;;
        (if bool_decide (state p = ZOMBIE) then wakeup1 (proc_chan (initproc s)) else mret tt)
      else mret tt)
    (fun _ s3 => exiting s s3 i (D ++ [j]) /\ Forall (announced s s3 i) (D ++ [j])
       /\ fewer_asleep s2 s3) s2.
Proof.
  intros X HA Hj HjD. apply wp_bind, wp_gets.
  destruct (xg_slot _ _ _ _ X j) as (Ej1 & Ej2 & _ & Ej3 & Ej4).
  rewrite decide_False in Ej3 by (intros [? _]; done). rewrite Ej3.
  destruct (Z.eqb_spec (parent (getp s j)) i) as [Hp|Hp].
  - apply wp_bind. destruct (exiting_reparent s2 D j X Hj HjD Hp) as [X3 Hst]. cbn zeta in X3, Hst.
    unfold wp at 1, updp, modS. set (s3 := setp j _ s2) in *.
    assert (HA3 : Forall (announced s s3 i) D).
    { eapply Forall_impl; [exact HA|]. intros k. by apply announced_mono. }
    case_bool_decide as Hz.
    + eapply wp_mono; [by apply exiting_wakeup|]. intros [] s4 (X4 & Hsl & Hwk).
      split; [done|]. split; [|intros k Hk; by apply Hst, Hsl].
      apply Forall_app. split.
      * eapply Forall_impl; [exact HA3|]. intros k. by apply announced_mono.
      * apply Forall_singleton. intros _ _ H3. by apply Hwk.
    + apply wp_ret. split; [done|]. split; [|done].
      apply Forall_app. split; [done|]. apply Forall_singleton.
      intros _ Hz'. exfalso. destruct Ej4 as [E|[E _]]; congruence.
  - apply wp_ret. destruct X as [Xt Xp Xs]. split; [|split; [|by intros k]].
    + split; try done. intros k. destruct (Xs k) as (-> & -> & -> & -> & ?). split_and!; try done.
      apply decide_ext. rewrite elem_of_app, list_elem_of_singleton. naive_solver.
    + apply Forall_app. split; [done|]. apply Forall_singleton. by intros ?.
Qed.
End exiting.

Lemma proc_chan_slot i : slot i -> proc_chan i = Some (ChProc i).
Proof. intros Hi. unfold proc_chan. destruct (Z.eqb_spec i (-1)); [unfold slot in Hi; lia|done]. Qed.

Lemma exit_section s i : tab s -> slot i -> slot (initproc s) -> i <> initproc s ->
  slot (parent (getp s i)) -> parent (getp s i) <> i ->
  wp (exit i) (fun _ s' => tab s' /\ nextpid s' = nextpid s /\ initproc s' = initproc s
    /\ exits (getp s) (getp s') i (initproc s)) s.
Proof.
  intros Ht Hi Hini Hne Hps Hpar. unfold exit. apply wp_bind. unfold wp at 1, getS. apply wp_bind.
  assert (X0 : exiting s s i []).
  { split; auto. intros j. split_and!; auto. }
  eapply wp_mono; [by apply exiting_wakeup|]. intros [] s1 (X1 & _ & Hwk1). apply wp_bind.
  apply (wp_forM _ _ (fun D s' => exiting s s' i D /\ Forall (announced s s' i) D /\ fewer_asleep s1 s')).
  { split_and!; [done|constructor|by intros j]. }
  { intros D j rest s2 Hsl (X & HA & Hf).
    assert ((j ∉ D) /\ slot j) as [HjD Hj].
    { pose proof (NoDup_seqZ 0 NPROC) as Hnd. fold slots in Hnd. rewrite Hsl in Hnd.
      apply NoDup_app in Hnd as (_ & Hnd & _). split; [intros Hj; apply (Hnd j Hj); by left|].
      apply slots_in. rewrite Hsl. apply elem_of_app. right. by left. }
    eapply wp_mono; [by apply exiting_slot|]. intros [] s3 (X3 & HA3 & Hf3). split_and!; [done..|].
    intros k Hk. by apply Hf, Hf3. }
  intros s2 (X & HA & Hf). apply wp_bind. destruct X as [Xt [Xn Xi] Xs].
  unfold wp at 1, updp, modS. rewrite Forall_forall in HA. unfold wp.
  rewrite sched_Ok by (rewrite getp_setp_eq by done; done). rewrite setp_setp, getp_setp_eq by done.
  split_and!; [by apply tab_setp|done|done|].
  assert (G : forall j, j <> i -> getp (setp i (with_context KExit (with_state ZOMBIE (getp s2 i))) s2) j = getp s2 j).
  { intros j Hj. rewrite getp_setp by done. unfold upd. by rewrite decide_False. }
  split.
  - rewrite getp_setp_eq by done. cbn. destruct (Xs i) as (-> & _ & _ & -> & _).
    rewrite decide_False; [done|]. by intros [_ ?].
  - intros j Hj Hji. rewrite G by done. destruct (Xs j) as (? & ? & ? & -> & ?). split_and!; try done.
    apply decide_ext. rewrite slots_in. naive_solver.
  - intros j Hj Hji Hc. rewrite G by done. intros E. apply (Hwk1 j); [|by apply Hf].
    by rewrite proc_chan_slot.
  - intros k Hk H1 H2 H3. rewrite G by done. apply (HA k); [by apply slots_in|done..|].
    by rewrite proc_chan_slot.
Qed.

(** ** Every step keeps the invariant *)

Definition minv (s : pst) (cp : list scpu) (fk : gmap Z (Z * bool)) : Prop :=
  tab s /\ 0 < nextpid s /\ pinv (getp s) (nextpid s) (initproc s) cp fk.

(** A changed slot, from the lemma on the table as a function. *)
Lemma minv_setp s i y cp cp' fk fk' : minv s cp fk -> slot i ->
  pinv (upd i y (getp s)) (nextpid s) (initproc s) cp' fk' -> minv (setp i y s) cp' fk'.
Proof.
  intros (Ht & Hn & I) Hi I'. split_and!; [by apply tab_setp|done|]. eapply pinv_ext; [|exact I'].
  intros j Hj. by apply getp_setp.
Qed.

Section steps.
Context (s : pst) (cp : list scpu) (fk : gmap Z (Z * bool)).
Context (J : minv s cp fk).

Lemma cpu_running c x : cp !! c = Some x -> cproc x <> -1 ->
  slot (cproc x) /\ state (getp s (cproc x)) = RUNNING /\ 0 <= spos x <= NPROC.
Proof. destruct J as (_ & _ & I). intros Hx Hc. destruct (pi_cpu I c x Hx) as [? Hr]. by destruct (Hr Hc). Qed.

Lemma children_in j i : j ∈ children s i <-> slot j /\ parent (getp s j) = i.
Proof.
  unfold children. rewrite list_elem_of_In, filter_In, <-list_elem_of_In, slots_in, Z.eqb_eq. done.
Qed.

Lemma zombie_child_Some i j : zombie_child s i = Some j ->
  slot j /\ parent (getp s j) = i /\ state (getp s j) = ZOMBIE.
Proof.
  unfold zombie_child. intros [Hj Hz]%find_some. apply list_elem_of_In in Hj.
  apply children_in in Hj as [? ?].
  unfold is_state in Hz. by apply bool_decide_eq_true in Hz.
Qed.

Lemma zombie_child_None i j : zombie_child s i = None -> slot j -> parent (getp s j) = i ->
  state (getp s j) <> ZOMBIE.
Proof.
  unfold zombie_child. intros Hn Hj Hp Hz. assert (Hin : j ∈ children s i) by (by apply children_in).
  apply list_elem_of_In in Hin. pose proof (find_none _ _ Hn j Hin) as Hf.
  unfold is_state in Hf. by apply bool_decide_eq_false in Hf.
Qed.

(** A child of a process outside [fork] is alive or has exited. *)
Lemma child_alive i j : slot i -> fk !! i = None -> slot j -> parent (getp s j) = i ->
  state (getp s j) <> ZOMBIE -> alive (getp s j).
Proof.
  destruct J as (_ & _ & I). intros Hi Hf Hj Hp Hz.
  assert (state (getp s j) <> UNUSED) by (intros E; pose proof (pi_unused I j Hj E); unfold slot in Hi; lia).
  assert (state (getp s j) <> EMBRYO).
  { intros E. destruct (pi_embryo I j Hj E) as (i0 & b & Hf').
    destruct (pi_fork I i0 j b Hf') as (_ & _ & _ & _ & Hb & _). destruct b; [congruence|].
    unfold slot in Hi. lia. }
  unfold alive. destruct (state (getp s j)); auto; congruence.
Qed.

(** [wait], called by the process that CPU [c] runs. *)
Lemma wait_inv c x : cp !! c = Some x -> cproc x <> -1 -> fk !! cproc x = None ->
  exists r s', wait (cproc x) s = Ok r s'
    /\ minv s' (<[c := mk_scpu (match r with Some _ => cproc x | None => -1 end) (spos x)]> cp) fk
    /\ state (getp s' (cproc x)) <> RUNNABLE.
Proof.
  intros Hx Hc Hf. destruct (cpu_running c x Hx Hc) as (Hi & Hr & Hk).
  pose proof J as (Ht & Hn & I). unfold wait, getS. unfold mbind at 1, M_bind at 1.
  assert (Hcp : <[c := mk_scpu (cproc x) (spos x)]> cp = cp).
  { apply list_insert_id. rewrite Hx. by destruct x. }
  destruct (zombie_child s (cproc x)) as [j|] eqn:Ez.
  - apply zombie_child_Some in Ez as (Hj & Hp & Hz). eexists _, _. split; [reflexivity|].
    cbn iota. rewrite Hcp. split.
    { eapply minv_setp; [exact J|done|]. by apply pinv_reap. }
    rewrite getp_setp by done. unfold upd. case_decide; [done|congruence].
  - destruct ((length (children s (cproc x)) =? 0)%nat || negb (killed (getp s (cproc x)) =? 0)) eqn:Ek.
    + eexists _, _. split; [reflexivity|]. cbn iota. rewrite Hcp. split; [done|congruence].
    + exists None. rewrite (bind_Ok _ _ _ _ _ (sleep_Ok s _ _ _ Ht Hi)). eexists. split; [reflexivity|].
      split; [|by rewrite getp_setp_eq].
      eapply minv_setp; [exact J|done|]. eapply pinv_leave; try done. right. split_and!; try done.
      { cbn. by rewrite proc_chan_slot. }
      cbn [chan with_context with_state with_chan]. rewrite proc_chan_slot by done. intros p [= <-].
      split; [done|]. split.
      * apply orb_false_elim in Ek as [Ek _]. apply Nat.eqb_neq in Ek.
        destruct (children s (cproc x)) as [|j l] eqn:Ec; [done|]. exists j. apply children_in.
        rewrite Ec. by left.
      * intros j Hj Hp. apply (child_alive (cproc x)); try done. by apply (zombie_child_None (cproc x)).
Qed.

Lemma cpu_same c x : cp !! c = Some x -> <[c := mk_scpu (cproc x) (spos x)]> cp = cp.
Proof. intros Hx. apply list_insert_id. rewrite Hx. by destruct x. Qed.

(** A process that enters a section of its own accord: only init's exit fails. *)
Lemma enter_inv c x o : cp !! c = Some x -> cproc x <> -1 -> not_proc o ->
  fk !! cproc x = None \/ o = PYield ->
  (o = PExit /\ cproc x = initproc s /\ panics (enter (cproc x) o) "init exiting" s) \/
  exists b s', enter (cproc x) o s = Ok b s' /\
    minv s' (<[c := mk_scpu (if b then cproc x else -1) (spos x)]> cp) fk.
Proof.
  intros Hx Hc Ho Hf. destruct (cpu_running c x Hx Hc) as (Hi & Hr & Hk).
  pose proof J as (Ht & Hn & I). destruct o as [|ch| |]; cbn [enter].
  - right. exists false. eexists. rewrite (bind_Ok _ _ _ _ _ (yield_Ok s _ Ht Hi)). split; [reflexivity|].
    eapply minv_setp; [exact J|done|]. eapply pinv_leave; try done. left. auto.
  - right. destruct Hf as [Hf|?]; [|done].
    exists false. eexists. rewrite (bind_Ok _ _ _ _ _ (sleep_Ok s _ _ _ Ht Hi)). split; [reflexivity|].
    eapply minv_setp; [exact J|done|]. eapply pinv_leave; try done. right. split_and!; try done.
    cbn. intros p [= ->]. done.
  - right. destruct Hf as [Hf|?]; [|done]. destruct (wait_inv c x Hx Hc Hf) as (r & s' & E & J' & _).
    rewrite (bind_Ok _ _ _ _ _ E). eexists _, _. split; [reflexivity|]. by destruct r.
  - destruct Hf as [Hf|?]; [|done]. unfold getS. unfold mbind at 1, M_bind at 1, panics.
    unfold mbind at 2, M_bind at 2. destruct (Z.eqb_spec (cproc x) (initproc s)) as [E|E].
    { left. split_and!; try done. eexists. reflexivity. }
    right. destruct (pi_init I) as (Hini & _ & _).
    assert (slot (parent (getp s (cproc x))) /\ parent (getp s (cproc x)) <> cproc x) as [Hp1 Hp2].
    { destruct (pi_parent I _ Hi) as [Hp|(? & _ & ?)]; [|done].
      destruct (pi_orphan I _ Hi Hp) as [?|[?|?]]; congruence. }
    pose proof (exit_section s (cproc x) Ht Hi Hini E Hp1 Hp2) as W.
    destruct (wp_run _ _ _ W) as ([] & s' & Ex & Ht' & Hn' & Hi' & X).
    rewrite (bind_Ok _ _ _ _ _ Ex). exists false, s'. split; [reflexivity|].
    split_and!; [done|lia|]. rewrite Hn', Hi'. by eapply pinv_exit.
Qed.

End steps.

(** The scheduler starts a runnable process. *)
Lemma run_inv s cp fk c x i : minv s cp fk -> cp !! c = Some x -> cproc x = -1 -> slot i -> state (getp s i) = RUNNABLE ->
  exists b s', run i s = Ok b s' /\ minv s' (<[c := mk_scpu (if b then i else -1) (i + 1)]> cp) fk
    /\ state (getp s' i) <> RUNNABLE.
Proof.
  intros J Hx Hc Hi Hr. pose proof J as (Ht & Hn & I).
  assert (Hi1 : i <> -1) by (unfold slot in Hi; lia).
  set (cp1 := <[c := mk_scpu i (i + 1)]> cp).
  assert (Hx1 : cp1 !! c = Some (mk_scpu i (i + 1))).
  { apply list_lookup_insert_eq. by eapply lookup_lt_Some. }
  assert (J1 : minv (setp i (with_state RUNNING (getp s i)) s) cp1 fk).
  { eapply minv_setp; [exact J|done|]. eapply pinv_run; try done. unfold slot in Hi. lia. }
  unfold run. rewrite (bind_Ok _ _ _ _ _ (updp_Ok _ _ _)). set (s1 := setp i _ s) in *.
  assert (E1 : getp s1 i = with_state RUNNING (getp s i)) by (by apply getp_setp_eq).
  unfold resume, gets. unfold mbind at 1, M_bind at 1. rewrite E1. cbn [context with_state].
  assert (Hcx : context (getp s i) <> KExit) by (apply (pi_ctx I i Hi); unfold alive; auto).
  set (s2 := setp i (with_chan None (getp s1 i)) s1).
  assert (J2 : minv s2 cp1 fk).
  { pose proof J1 as (_ & _ & I1). eapply minv_setp; [exact J1|done|]. apply pinv_same; try done.
    cbn. rewrite E1. done. }
  destruct (context (getp s i)) eqn:Ec; [| | | |done].
  - exists true, s1. by rewrite E1.
  - exists true, s1. by rewrite E1.
  - exists true, s2. split; [done|]. split; [done|]. unfold s2. rewrite getp_setp_eq by (done || apply J1).
    by rewrite E1.
  - unfold sleep_end. rewrite (bind_Ok _ _ _ _ _ (updp_Ok _ _ _)). fold s2.
    assert (Hf : fk !! i = None).
    { destruct (fk !! i) as [[np b]|] eqn:Ef; [|done].
      destruct (pi_fork I i np b Ef) as (_ & _ & [?|[_ ?]] & _); congruence. }
    destruct (wait_inv s2 cp1 fk J2 c (mk_scpu i (i + 1)) Hx1 Hi1 Hf) as (r & s' & E & J' & Hst).
    cbn [cproc spos] in E, J', Hst. rewrite (bind_Ok _ _ _ _ _ E). eexists _, _. split; [reflexivity|].
    split; [|done]. unfold cp1 in J'. rewrite list_insert_insert_eq in J'. by destruct r.
Qed.

(** [wakeup] and [kill] change nothing but sleepers, which they wake, and flags. *)
Lemma wakeup_inv s cp fk ch s' : minv s cp fk -> wakeup ch s = Ok tt s' -> minv s' cp fk.
Proof.
  intros (Ht & Hn & I) E. unfold wakeup in E.
  destruct (getp_wakeup1 s (Some ch)) as (s1 & E1 & Ht1 & Hn1 & Hi1 & Hw).
  rewrite E1 in E. injection E as <-. split_and!; [auto|lia|]. rewrite Hn1, Hi1.
  eapply pinv_wakes; [|exact I]. intros i Hi. rewrite Hw. by apply woken_wakes.
Qed.

Lemma kill_inv s cp fk n sig r s' : minv s cp fk -> kill n sig s = Ok r s' -> minv s' cp fk.
Proof.
  intros J E. pose proof J as (Ht & Hn & I). unfold kill in E.
  destruct (n =? 1); [by injection E as _ <-|].
  destruct (List.find _ slots) as [i|] eqn:Ef; [|by injection E as _ <-].
  apply find_slot in Ef as [Hi _]. cbn zeta in E.
  assert (K : forall y, state y = state (getp s i) -> pid y = pid (getp s i) ->
    parent y = parent (getp s i) -> context y = context (getp s i) -> chan y = chan (getp s i) ->
    minv (setp i (if bool_decide (state y = SLEEPING) then with_state RUNNABLE y else y) s) cp fk).
  { intros y H1 H2 H3 H4 H5.
    assert (J1 : minv (setp i y s) cp fk).
    { eapply minv_setp; [exact J|done|]. by apply pinv_same. }
    destruct (bool_decide_reflect (state y = SLEEPING)) as [Hs|Hs]; [|done]. pose proof J1 as (Ht1 & _ & I1).
    rewrite <-(setp_setp s i _ y).
    replace (with_state RUNNABLE y) with (with_state RUNNABLE (getp (setp i y s) i))
      by (by rewrite getp_setp_eq).
    eapply minv_setp; [exact J1|done|]. eapply pinv_wakes; [|exact I1].
    intros j Hj. unfold upd. destruct (decide (j = i)) as [->|Hd]; [|by left]. right.
    by rewrite getp_setp_eq. }
  destruct (sig =? SIGKILL).
  - injection E as _ <-. by apply (K (with_killed 1 (getp s i))).
  - destruct (_ || _); [done|]. injection E as _ <-. by apply (K (with_signals _ _ _ (getp s i))).
Qed.

Lemma alloc_inv s cp fk c x np s' : minv s cp fk -> cp !! c = Some x -> cproc x <> -1 ->
  fk !! cproc x = None -> alloc_slot s = Ok np s' -> np <> -1 ->
  minv s' cp (<[cproc x := (np, false)]> fk).
Proof.
  intros (Ht & Hn & I) Hx Hc Hf E Hnp. unfold alloc_slot in E.
  destruct (List.find _ slots) as [i|] eqn:Ef; [|congruence].
  apply find_slot in Ef as [Hi Hu]. unfold is_state in Hu. apply bool_decide_eq_true in Hu.
  destruct (nextpid s =? 2147483647); [done|]. injection E as <- <-.
  split_and!; [by apply (tab_setp s)|cbn; lia|]. cbn [nextpid initproc].
  eapply pinv_ext; [|apply (pinv_alloc _ _ _ _ _ I _ c x i (new_proc (nextpid s) (getp s i))); done].
  intros j Hj. by apply (getp_setp s).
Qed.

Lemma scan_slot pos s i : 0 <= pos -> scheduler_scan pos s = Some i ->
  slot i /\ pos <= i /\ state (getp s i) = RUNNABLE
  /\ (forall j, pos <= j < i -> state (getp s j) <> RUNNABLE).
Proof.
  intros Hpos (Hi & Hr & Hb)%find_seqZ. unfold is_state in Hr, Hb. apply bool_decide_eq_true in Hr.
  unfold slot. split_and!; try lia; [done|]. intros j Hj. by eapply bool_decide_eq_false_1, Hb.
Qed.

Lemma scan_none pos s j : scheduler_scan pos s = None -> pos <= j < NPROC -> state (getp s j) <> RUNNABLE.
Proof.
  intros Hn Hj. eapply bool_decide_eq_false_1. apply (find_seqZ_None _ _ _ Hn). lia.
Qed.

Definition good (m : pmach) : Prop := minv (pt m) (scpus m) (forking m).

Lemma pstep_inv m e m' : good m -> pstep m e m' -> good m'.
Proof.
  unfold good. intros J Hs. pose proof J as (Ht & Hn & I).
  destruct Hs as [c x Hx Hc Hsc|c x i s b Hx Hc Hsc E|c x o s b Hx Hc Ho Hf E|ch s E|n sig r s E
    |c x np s Hx Hc Hf E Hnp|c x np s Hx Hf E|c x np d k s Hx Hf E|c x np s Hx Hf E];
    cbn [pt scpus forking on_cpu].
  - split_and!; [done|done|]. by eapply pinv_pass.
  - destruct (pi_cpu I c x Hx) as [Hp _].
    destruct (scan_slot (spos x) (pt m) i) as (Hi & _ & Hr & _); [lia|done|].
    destruct (run_inv _ _ _ c x i J Hx Hc Hi Hr) as (b' & s' & E' & J' & _). rewrite E in E'.
    injection E' as <- <-. done.
  - destruct (enter_inv _ _ _ J c x o Hx Hc Ho Hf) as [(_ & _ & s' & E')|(b' & s' & E' & J')];
      rewrite E in E'; [done|]. injection E' as <- <-. done.
  - by eapply wakeup_inv.
  - by eapply kill_inv.
  - by eapply alloc_inv.
  - injection E as <-. destruct (pi_fork I _ _ _ Hf) as (_ & Hnp & _).
    eapply minv_setp; [exact J|done|]. by apply pinv_fail.
  - injection E as <-. destruct (pi_fork I _ _ _ Hf) as (_ & Hnp & _ & He & _).
    eapply minv_setp; [exact J|done|]. by eapply pinv_copy.
  - injection E as <-. destruct (pi_fork I _ _ _ Hf) as (_ & Hnp & _).
    eapply minv_setp; [exact J|done|]. by eapply pinv_go.
Qed.

(** ** Reachable machines *)

Lemma booted_good k s n : userinit_slot k boot_table = Ok tt s -> good (booted s n).
Proof.
  set (p0 := with_state RUNNABLE (init_kstack k (new_proc 1 proc0))).
  assert (E : userinit_slot k boot_table
            = Ok tt (mk_pst (p0 :: replicate 63 proc0) 2 0)) by reflexivity.
  intros E'. assert (s = mk_pst (p0 :: replicate 63 proc0) 2 0) as -> by congruence.
  unfold good, booted. cbn [pt scpus forking].
  set (s0 := mk_pst _ 2 0). split_and!; [done|done|]. cbn [nextpid initproc].
  assert (G : forall j, slot j -> getp s0 j = upd 0 p0 (fun _ => proc0) j).
  { intros j Hj. unfold getp, nthZ, upd. destruct (Z.ltb_spec j 0); [unfold slot in Hj; lia|].
    case_decide as Hd; [by subst|]. cbn [procs s0]. destruct (Z.to_nat j) as [|n'] eqn:En; [lia|].
    rewrite nth_lookup. change ((p0 :: replicate 63 proc0) !! S n') with (replicate 63 proc0 !! n').
    destruct (replicate 63 proc0 !! n') as [q|] eqn:Eq; [|done].
    by apply lookup_replicate in Eq as [-> _]. }
  eapply pinv_ext; [exact G|]. clear E E' G.
  assert (P : forall c x, replicate n (mk_scpu (-1) 0) !! c = Some x -> x = mk_scpu (-1) 0).
  { intros c x [-> _]%lookup_replicate. done. }
  change (initproc s0) with 0. change (nextpid s0) with 2. clear s0.
  split; unfold upd; try done.
  - unfold alive, slot, NPROC. split; [lia|]. split; [auto|done].
  - intros c x ->%P. cbn. unfold NPROC. split; [lia|done].
  - intros i _. by case_decide.
  - intros c1 c2 x1 x2 ->%P ->%P. done.
  - intros i _. case_decide; cbn; split; done || lia.
  - intros i j _ _. do 2 case_decide; cbn; subst; try done.
  - intros i _. left. by case_decide.
  - intros i _ _. case_decide; auto.
  - intros i _. by case_decide.
  - intros i _. by case_decide.
  - intros i k' _. by case_decide.
  - intros np _. by case_decide.
  - intros i _. case_decide; cbn; [done|]. intros [?|[?|?]]; done.
Qed.

Lemma pruns_good m l m' : pruns m l m' -> good m -> good m'.
Proof. induction 1; [done|]. intros G. by eapply IHpruns, pstep_inv. Qed.

Definition reachable (m : pmach) : Prop :=
  exists k s n l, userinit_slot k boot_table = Ok tt s /\ pruns (booted s n) l m.

Lemma reachable_good m : reachable m -> good m.
Proof. intros (k & s & n & l & E & R). eapply pruns_good; [exact R|]. by eapply booted_good. Qed.

(** ** Fairness *)

(** Slots that the scheduler of a CPU visits before [i], a new pass included. *)
Definition distance (i : Z) (x : scpu) : Z :=
  if spos x <=? i then i - spos x else NPROC - spos x + i + 1.
Definition acts (c : nat) (e : event) : bool :=
  match e with Dispatch c' _ | PassEnd c' => bool_decide (c' = c) | Internal => false end.

Lemma pstep_distance m e m' c x i : good m -> pstep m e m' -> slot i ->
  state (getp (pt m) i) = RUNNABLE -> state (getp (pt m') i) = RUNNABLE ->
  scpus m !! c = Some x -> exists x', scpus m' !! c = Some x' /\
    distance i x' + (if acts c e then 1 else 0) <= distance i x.
Proof.
  intros J Hs Hi R R' Hx. pose proof J as (Ht & Hn & I). unfold slot, NPROC in Hi.
  assert (Hlt : (c < length (scpus m))%nat) by (by eapply lookup_lt_Some).
  assert (Hpos : forall c0 x0, scpus m !! c0 = Some x0 -> 0 <= spos x0 <= 64).
  { intros c0 x0 H0. destruct (pi_cpu I c0 x0 H0). unfold NPROC in *. lia. }
  destruct Hs as [c0 x0 Hx0 Hc Hsc|c0 x0 k s b Hx0 Hc Hsc E|c0 x0 o s b Hx0 Hc Ho Hf E| | | | | |];
    cbn [scpus on_cpu pt acts] in *; try (exists x; split; [done|lia]).
  - specialize (Hpos _ _ Hx0). case_bool_decide as Hd; [subst c0|exists x; rewrite list_lookup_insert_ne by done; split; [done|lia]].
    rewrite Hx in Hx0. injection Hx0 as <-. exists (mk_scpu (-1) 0).
    rewrite list_lookup_insert_eq by done. split; [done|]. unfold distance, NPROC. cbn [spos].
    destruct (Z.leb_spec (spos x) i) as [Hle|Hgt]; [|destruct (Z.leb_spec 0 i); lia].
    exfalso. by apply (scan_none _ _ i Hsc); [unfold NPROC; lia|].
  - specialize (Hpos _ _ Hx0).
    destruct (scan_slot (spos x0) (pt m) k) as (Hk & Hge & Hr & Hbe); [lia|done|].
    destruct (run_inv _ _ _ c0 x0 k J Hx0 Hc Hk Hr) as (b' & s' & E' & _ & Hst).
    rewrite E in E'. injection E' as <- <-.
    case_bool_decide as Hd; [subst c0|exists x; rewrite list_lookup_insert_ne by done; split; [done|lia]].
    rewrite Hx in Hx0. injection Hx0 as <-. eexists. rewrite list_lookup_insert_eq by done.
    split; [done|]. unfold distance. cbn [spos]. unfold slot, NPROC in *.
    assert (Hki : k <> i) by (intros ->; done).
    assert (Hord : spos x <= i -> k < i).
    { intros Hle. destruct (decide (k < i)); [done|]. exfalso. by apply (Hbe i); [lia|]. }
    destruct (Z.leb_spec (spos x) i), (Z.leb_spec (k + 1) i); lia.
  - destruct (decide (c0 = c)) as [->|Hd]; [|exists x; rewrite list_lookup_insert_ne by done; split; [done|lia]].
    rewrite Hx in Hx0. injection Hx0 as <-. eexists. rewrite list_lookup_insert_eq by done.
    split; [done|]. unfold distance. cbn [spos]. lia.
Qed.

(** Runs in which every machine satisfies [P]. *)
Inductive pruns_in (P : pmach -> Prop) : pmach -> list event -> pmach -> Prop :=
  | RI_nil m : P m -> pruns_in P m [] m
  | RI_cons m e m1 l m2 : P m -> pstep m e m1 -> pruns_in P m1 l m2 -> pruns_in P m (e :: l) m2.

Lemma pruns_in_distance i c m l m' x : 
  pruns_in (fun m => state (getp (pt m) i) = RUNNABLE) m l m' -> good m -> slot i ->
  scpus m !! c = Some x -> Z.of_nat (length (List.filter (acts c) l)) <= distance i x.
Proof.
  intros R J Hi. revert x. induction R as [m Hm|m e m1 l m2 Hm Hs R IH]; intros x Hx.
  - cbn. destruct J as (_ & _ & I). destruct (pi_cpu I c x Hx). unfold distance, slot, NPROC in *.
    case_match; lia.
  - assert (J1 : good m1) by (by eapply pstep_inv).
    assert (Hm1 : state (getp (pt m1) i) = RUNNABLE) by (by inversion R).
    destruct (pstep_distance m e m1 c x i J Hs Hi Hm Hm1 Hx) as (x' & Hx' & Hd).
    specialize (IH J1 x' Hx'). cbn [List.filter]. destruct (acts c e); cbn [length]; lia.
Qed.

(** ** Properties *)

(** C5: in every machine that the sections of any number of CPUs can reach after
    [userinit]: a process is RUNNING exactly when one CPU runs it; the pids of
    slots in use are positive and distinct; init is alive and every other process
    that is not being created has a living parent; and an idle CPU can
    start every RUNNABLE process, a running one can enter every section, except that
    init may not exit. *)
Theorem process_table_sound m : reachable m -> forall i, slot i ->
  let p := getp (pt m) i in
  (state p = RUNNING <-> exists c x, scpus m !! c = Some x /\ cproc x = i) /\
  (forall c1 c2 x1 x2, scpus m !! c1 = Some x1 -> scpus m !! c2 = Some x2 ->
     cproc x1 = i -> cproc x2 = i -> c1 = c2) /\
  (state p <> UNUSED -> 0 < pid p /\
     forall j, slot j -> state (getp (pt m) j) <> UNUSED -> pid (getp (pt m) j) = pid p -> j = i) /\
  alive (getp (pt m) (initproc (pt m))) /\
  (state p <> UNUSED -> state p <> EMBRYO -> i <> initproc (pt m) ->
     slot (parent p) /\ alive (getp (pt m) (parent p))) /\
  (forall c x, scpus m !! c = Some x -> cproc x = -1 -> state p = RUNNABLE ->
     exists b s, run i (pt m) = Ok b s) /\
  (state p = RUNNING -> forking m !! i = None -> forall o, not_proc o ->
     o = PExit /\ i = initproc (pt m) \/ exists b s, enter i o (pt m) = Ok b s).
Proof.
  intros J%reachable_good i Hi p. pose proof J as (Ht & Hn & I).
  assert (Hi1 : i <> -1) by (unfold slot in Hi; lia).
  destruct (pi_pid I i Hi) as [Hp Hpu]. fold p in Hp, Hpu.
  split_and!.
  - split; [by apply (pi_run I)|]. intros (c & x & Hx & E). destruct (pi_cpu I c x Hx) as [_ Hr].
    subst p. rewrite <-E in *. by apply Hr.
  - intros c1 c2 x1 x2 H1 H2 E1 E2. eapply (pi_one I); [done|done|congruence|congruence].
  - intros Hu. specialize (Hpu Hu). split; [lia|]. intros j Hj Hju E. symmetry.
    apply (pi_pids I); [done|done|by symmetry|done].
  - apply (pi_init I).
  - intros Hu He Hne. destruct (pi_parent I i Hi) as [Hp1|(? & ? & _)]; [|done].
    destruct (pi_orphan I i Hi Hp1) as [?|[?|?]]; done.
  - intros c x Hx Hc Hr. destruct (run_inv _ _ _ c x i J Hx Hc Hi Hr) as (b & s' & E & _). eauto.
  - intros Hr Hf o Ho. destruct (pi_run I i Hi Hr) as (c & x & Hx & E). subst i.
    destruct (enter_inv _ _ _ J c x o Hx Hi1 Ho ltac:(by left)) as [(? & ? & _)|(b & s' & E' & _)]; eauto.
Qed.

(** A process forks and waits for its child. *)
Definition after {A : Type} (r : res pst A) : pst :=
  match r with Ok _ s | Panic _ s | Block _ s => s | NoFuel => boot_table end.
Definition demo_s0 : pst := after (userinit_slot 4096 boot_table).
Definition demo_s1 : pst := after (run 0 demo_s0).
Definition demo_s2 : pst := after (alloc_slot demo_s1).
Definition demo_s3 : pst :=
  after (updp 1 (fun p => fork_copy 0 8192 (getp demo_s2 0) (init_kstack 12288 p)) demo_s2).
Definition demo_s4 : pst := after (make_runnable 1 demo_s3).
Definition demo_s5 : pst := after (wait 0 demo_s4).
Definition demo_waiting : pmach := mk_pm demo_s5 [mk_scpu (-1) 1] ∅.

Lemma demo_waiting_runs : exists l, pruns (booted demo_s0 1) l demo_waiting.
Proof.
  eexists. eapply R_cons.
  { apply (P_run _ 0%nat (mk_scpu (-1) 0) 0 demo_s1 true); vm_compute; reflexivity. }
  eapply R_cons.
  { apply (P_alloc _ 0%nat (mk_scpu 0 1) 1 demo_s2); [vm_compute; reflexivity|done|vm_compute; reflexivity..|done]. }
  eapply R_cons.
  { apply (P_fork_copy _ 0%nat (mk_scpu 0 1) 1 8192 12288 demo_s3); vm_compute; reflexivity. }
  eapply R_cons.
  { apply (P_fork_go _ 0%nat (mk_scpu 0 1) 1 demo_s4); vm_compute; reflexivity. }
  eapply R_cons.
  { apply (P_enter _ 0%nat (mk_scpu 0 1) PWait demo_s5 false);
      [vm_compute; reflexivity|done|done|left; vm_compute; reflexivity|vm_compute; reflexivity]. }
  match goal with |- pruns ?a _ ?b => assert (a = b) as -> by (vm_compute; reflexivity) end.
  apply R_nil.
Qed.

Lemma demo_waiting_reachable : reachable demo_waiting.
Proof.
  destruct demo_waiting_runs as [l R]. exists 4096, demo_s0, 1%nat, l. split; [reflexivity|exact R].
Qed.

Lemma process_table_sound_witness :
  slot (parent (getp (pt demo_waiting) 1)) /\ alive (getp (pt demo_waiting) (parent (getp (pt demo_waiting) 1))).
Proof.
  pose proof (process_table_sound demo_waiting demo_waiting_reachable 1) as H.
  destruct H as (_ & _ & _ & _ & H & _); [unfold slot, NPROC; lia|].
  apply H; vm_compute; discriminate.
Defined.

(** C21: [wait] misses no exit.  In every reachable machine a process asleep in
    [wait] has a child, and all its children are alive: an exit wakes the parent
    in the same critical section, and so does passing an exited child to init. *)
Theorem wait_misses_no_exit m : reachable m -> forall i k, slot i ->
  state (getp (pt m) i) = SLEEPING -> chan (getp (pt m) i) = Some (ChProc k) ->
  k = i /\ (exists j, slot j /\ parent (getp (pt m) j) = i) /\
  forall j, slot j -> parent (getp (pt m) j) = i -> alive (getp (pt m) j).
Proof. intros (_ & _ & I)%reachable_good i k Hi Hs Hc. by apply (pi_wait I). Qed.

Lemma wait_misses_no_exit_witness : alive (getp (pt demo_waiting) 1).
Proof.
  pose proof (wait_misses_no_exit demo_waiting demo_waiting_reachable 0 0) as H.
  destruct H as (_ & _ & H); [unfold slot, NPROC; lia|vm_compute; reflexivity..|].
  apply H; [unfold slot, NPROC; lia|vm_compute; reflexivity].
Defined.

(** C32: the scheduler starves nobody.  While a process stays RUNNABLE, the
    scheduler of any one CPU can take at most NPROC steps (processes it runs, and
    at most one new pass) before it would run that process; and the scheduler of
    an idle CPU always has a step to take. *)
Theorem scheduler_starves_nobody m i c l m' : reachable m -> slot i ->
  pruns_in (fun m => state (getp (pt m) i) = RUNNABLE) m l m' -> (c < length (scpus m))%nat ->
  Z.of_nat (length (List.filter (acts c) l)) <= NPROC /\
  (forall x, scpus m !! c = Some x -> cproc x = -1 ->
     exists e m1, pstep m e m1 /\ acts c e = true).
Proof.
  intros J%reachable_good Hi R Hc. destruct (lookup_lt_is_Some_2 (scpus m) c Hc) as [x Hx].
  pose proof J as (_ & _ & I). destruct (pi_cpu I c x Hx) as [Hp _]. split.
  - etransitivity; [by eapply pruns_in_distance|]. unfold distance, slot, NPROC in *.
    destruct (Z.leb_spec (spos x) i); lia.
  - intros y Hy Hyc. rewrite Hx in Hy. injection Hy as <-.
    destruct (scheduler_scan (spos x) (pt m)) as [k|] eqn:Es.
    + destruct (scan_slot (spos x) (pt m) k) as (Hk & _ & Hr & _); [lia|done|].
      destruct (run_inv _ _ _ c x k J Hx Hyc Hk Hr) as (b & s' & E & _).
      eexists _, _. split; [by eapply P_run|]. cbn. by apply bool_decide_eq_true.
    + eexists _, _. split; [by eapply P_pass|]. cbn. by apply bool_decide_eq_true.
Qed.

Lemma scheduler_starves_nobody_witness :
  exists e m1, pstep demo_waiting e m1 /\ acts 0 e = true.
Proof.
  pose proof (scheduler_starves_nobody demo_waiting 1 0 [] demo_waiting demo_waiting_reachable) as H.
  destruct H as [_ H]; [unfold slot, NPROC; lia|apply RI_nil; vm_compute; reflexivity|vm_compute; lia|].
  apply (H (mk_scpu (-1) 1)); reflexivity.
Defined.

(** [kill(0, SIGKILL)] finds a slot that is not in use, reports success, and
    leaves [killed] set there; [allocproc] does not clear it, so the next process
    created in that slot starts out killed. *)
Theorem kill_zero_kills_next_child m i d k cur : reachable m ->
  List.find (is_state UNUSED (pt m)) slots = Some i -> pid (getp (pt m) i) = 0 ->
  nextpid (pt m) < 2147483647 ->
  exists s1 s2, kill 0 SIGKILL (pt m) = Ok 0 s1 /\ alloc_slot s1 = Ok i s2 /\
    killed (fork_copy cur d (getp s2 cur) (init_kstack k (getp s2 i))) = 1.
Proof.
  intros (Ht & Hn & I)%reachable_good Hf Hp Hmax. pose proof Hf as (Hi & Hu & Hb)%find_seqZ.
  unfold is_state in Hu. apply bool_decide_eq_true in Hu.
  assert (Hsi : slot i) by (unfold slot, NPROC in *; lia).
  assert (E1 : List.find (fun j => pid (getp (pt m) j) =? 0) slots = Some i).
  { apply find_seqZ_first; [done|by rewrite Hp|]. intros j Hj.
    assert (Hju : state (getp (pt m) j) <> UNUSED) by (eapply bool_decide_eq_false_1, Hb; lia).
    destruct (pi_pid I j) as [_ Hj1]; [unfold slot, NPROC in *; lia|]. apply Z.eqb_neq, (Hj1 Hju). }
  set (s1 := setp i (with_killed 1 (getp (pt m) i)) (pt m)).
  assert (Ek : kill 0 SIGKILL (pt m) = Ok 0 s1).
  { unfold kill. cbn [Z.eqb]. rewrite E1. cbn zeta. unfold s1. cbn [with_killed state].
    rewrite Hu. reflexivity. }
  assert (G : forall j, state (getp s1 j) = state (getp (pt m) j)).
  { intros j. unfold s1. rewrite getp_setp by done. unfold upd. case_decide; by subst. }
  assert (E2 : List.find (is_state UNUSED s1) slots = Some i).
  { apply find_seqZ_first; unfold is_state in *; [done|by rewrite G; apply bool_decide_eq_true|].
    intros j Hj. rewrite G. by apply Hb. }
  eexists s1, _. split; [exact Ek|]. unfold alloc_slot. rewrite E2.
  rewrite (proj2 (Z.eqb_neq (nextpid s1) 2147483647)) by (cbn; lia). split; [reflexivity|].
  cbn [fork_copy init_kstack with_pname with_pcwd with_ofile with_tf with_parent with_space
       with_context with_kstack killed].
  change (getp (mk_pst (procs ?s) _ _) i) with (getp s i).
  rewrite getp_setp_eq by (done || by apply tab_setp). unfold s1. by rewrite getp_setp_eq.
Qed.

Lemma kill_zero_kills_next_child_witness :
  exists s1 s2, kill 0 SIGKILL (pt demo_waiting) = Ok 0 s1 /\ alloc_slot s1 = Ok 2 s2 /\
    killed (fork_copy 1 0 (getp s2 1) (init_kstack 0 (getp s2 2))) = 1.
Proof.
  apply (kill_zero_kills_next_child demo_waiting 2 0 0 1 demo_waiting_reachable); vm_compute; reflexivity.
Defined.
