(* ===== verification/Conout.v ===== *)
(** * Conout: console output, the keyboard and the serial port

    src/kernel/dev/char: [vgaputc], [consputc], [printint] and [cprintf] of
    console.c, [kbdgetc] of kbd.c with its tables, [uartputc] and [uartgetc] of
    uart.c.  The line discipline on top of them is in Console.

    The state has the text screen (25 rows of 80 cells) and its cursor, what was
    sent to the serial line, what the two devices have to deliver, and the static
    variables of the three files.  [con_locked] says that this processor holds
    [cons.lock]: to acquire it twice is a panic. *)

From Stdlib Require Import ZArith Lia ZifyBool.
From stdpp Require Import base strings numbers list.
From S2P Require Import Prelude.

Local Open Scope Z_scope.

(** ** State *)

Definition INPUT_BUF : Z := 128.
Definition CELLS : Z := 25 * 80.

Record cst : Type := mk_cst {
  crt : list Z; cursor : Z;
  uart_present : bool; uart_out : list Z; uart_in : list Z;
  kbd_in : list Z; shift : Z;
  ibuf : list Z; in_r : Z; in_w : Z; in_e : Z;
  con_locked : bool; con_locking : bool; panicked : bool
}.

Definition set_screen (m : list Z) (p : Z) (s : cst) : cst :=
  mk_cst m p (uart_present s) (uart_out s) (uart_in s) (kbd_in s) (shift s)
    (ibuf s) (in_r s) (in_w s) (in_e s) (con_locked s) (con_locking s) (panicked s).
Definition set_uart_out (l : list Z) (s : cst) : cst :=
  mk_cst (crt s) (cursor s) (uart_present s) l (uart_in s) (kbd_in s) (shift s)
    (ibuf s) (in_r s) (in_w s) (in_e s) (con_locked s) (con_locking s) (panicked s).
Definition set_uart_in (l : list Z) (s : cst) : cst :=
  mk_cst (crt s) (cursor s) (uart_present s) (uart_out s) l (kbd_in s) (shift s)
    (ibuf s) (in_r s) (in_w s) (in_e s) (con_locked s) (con_locking s) (panicked s).
Definition set_kbd (l : list Z) (m : Z) (s : cst) : cst :=
  mk_cst (crt s) (cursor s) (uart_present s) (uart_out s) (uart_in s) l m
    (ibuf s) (in_r s) (in_w s) (in_e s) (con_locked s) (con_locking s) (panicked s).
Definition set_input (b : list Z) (r w e : Z) (s : cst) : cst :=
  mk_cst (crt s) (cursor s) (uart_present s) (uart_out s) (uart_in s) (kbd_in s) (shift s)
    b r w e (con_locked s) (con_locking s) (panicked s).
Definition set_con_locked (b : bool) (s : cst) : cst :=
  mk_cst (crt s) (cursor s) (uart_present s) (uart_out s) (uart_in s) (kbd_in s) (shift s)
    (ibuf s) (in_r s) (in_w s) (in_e s) b (con_locking s) (panicked s).
Definition set_con_locking (b : bool) (s : cst) : cst :=
  mk_cst (crt s) (cursor s) (uart_present s) (uart_out s) (uart_in s) (kbd_in s) (shift s)
    (ibuf s) (in_r s) (in_w s) (in_e s) (con_locked s) b (panicked s).

(** [acquire(&cons.lock)] and [release] by one processor. *)
Definition acquire_cons : M cst unit :=
  b ← gets con_locked;
  if (b : bool) then panic "acquire" else modS (set_con_locked true).
Definition release_cons : M cst unit :=
  b ← gets con_locked;
  if (b : bool) then modS (set_con_locked false) else panic "release".

(** ** Screen and serial line *)

Definition BACKSPACE : Z := 0x100.
Definition BLANK : Z := Z.lor 32 0x0700.

Definition uartputc (c : Z) : M cst unit :=
  b ← gets uart_present;
  if (b : bool) then modS (fun s => set_uart_out (uart_out s ++ [c mod 256]) s) else mret tt.

(** Rows 1..23 move up, and the screen is cleared from [pos], the new place of the
    cursor, to the end of row 23; row 24 stays. *)
Definition scroll (m : list Z) (pos : Z) : list Z :=
  let m := drop 80 (take 1920 m) ++ drop 1840 m in
  take (Z.to_nat pos) m ++ replicate (Z.to_nat (24 * 80 - pos)) 0 ++ drop 1920 m.

(** The cursor after [c] and the clamping, before the scrolling. *)
Definition vga_pos (c pos : Z) : Z :=
  let p := if c =? 10 then pos + (80 - pos mod 80)
           else if c =? BACKSPACE then (if 0 <? pos then pos - 1 else pos)
           else pos + 1 in
  if p <? 0 then 0 else if CELLS <=? p then CELLS - 1 else p.

Definition crt_put (m : list Z) (pos v : Z) : M cst (list Z) :=
  if (0 <=? pos) && (pos <? CELLS) then mret (updZ pos v m) else panic "undefined".

Definition vgaputc (c : Z) : M cst unit :=
  s ← getS;
  let pos := cursor s in
  m ← (if (c =? 10) || (c =? BACKSPACE) then mret (crt s)
       else crt_put (crt s) pos (Z.lor (Z.land c 0xff) 0x0700));
  let p := vga_pos c pos in
  let scrolls := 24 <=? p / 80 in
  let q := if scrolls then p - 80 else p in
  m ← crt_put (if scrolls then scroll m q else m) q BLANK;
  modS (set_screen m q).

(** After a panic every processor that prints stops. *)
Definition consputc (c : Z) : M cst unit :=
  b ← gets panicked;
  if (b : bool) then block "panicked"
  else
    (if c =? BACKSPACE then uartputc 8 ;; uartputc 32 ;; uartputc 8 else uartputc c) ;;
    vgaputc c.

(** ** Formatted output *)

Definition digit (d : Z) : Z := if d <? 10 then 48 + d else 97 + (d - 10).

(** The digits of the [do] loop, lowest first; 32 rounds are enough for a word. *)
Fixpoint digits_of (fuel : nat) (x base : Z) : list Z :=
  match fuel with
  | O => []
  | S fuel =>
      digit (x mod base) :: (if x / base =? 0 then [] else digits_of fuel (x / base) base)
  end.

(** What [printint] has in [buf], last character first. *)
Definition int_buf (xx base : Z) (sign : bool) : list Z :=
  let neg := sign && (s32 xx <? 0) in
  digits_of 32 (if neg then u32 (- s32 xx) else u32 xx) base ++ (if neg then [45] else []).
Definition printint (xx base : Z) (sign : bool) : M cst unit :=
  let buf := int_buf xx base sign in
  if 16 <? Z.of_nat (length buf) then panic "undefined" else forM (rev buf) consputc.

(** An argument of [cprintf] is a word or a string, which may be null. *)
Inductive arg : Type := AInt (x : Z) | AStr (s : option (list Z)).

Fixpoint str (x : string) : list Z :=
  match x with
  | EmptyString => []
  | String a r => Z.of_N (Ascii.N_of_ascii a) :: str r
  end.

Definition take_arg (args : list arg) : M cst (arg * list arg) :=
  match args with a :: r => mret (a, r) | [] => panic "undefined" end.

(** The loop over the format, up to its NUL. *)
Fixpoint print_fmt (fmt : list Z) (args : list arg) : M cst unit :=
  match fmt with
  | [] => mret tt
  | c :: fmt =>
      if c =? 0 then mret tt
      else if negb (c =? 37) then consputc c ;; print_fmt fmt args
      else
        match fmt with
        | [] => mret tt
        | c :: fmt =>
            if c =? 0 then mret tt
            else if c =? 100 then
              a ← take_arg args;
              match a with
              | (AInt x, args) => printint x 10 true ;; print_fmt fmt args
              | _ => panic "undefined"
              end
            else if (c =? 120) || (c =? 112) then
              a ← take_arg args;
              match a with
              | (AInt x, args) => printint x 16 false ;; print_fmt fmt args
              | _ => panic "undefined"
              end
            else if c =? 115 then
              a ← take_arg args;
              match a with
              | (AStr s, args) =>
                  forM (default (str "(null)") s) consputc ;; print_fmt fmt args
              | _ => panic "undefined"
              end
            else if c =? 37 then consputc 37 ;; print_fmt fmt args
            else consputc 37 ;; consputc c ;; print_fmt fmt args
        end
  end.

Definition cprintf (fmt : list Z) (args : list arg) : M cst unit :=
  locking ← gets con_locking;
  (if (locking : bool) then acquire_cons else mret tt) ;;
  print_fmt fmt args ;;
  (if (locking : bool) then release_cons else mret tt).

(** The screen is cleared in place and the cursor moved to the top left. *)
Definition consolecls : M cst unit :=
  acquire_cons ;;
  modS (set_screen (replicate (Z.to_nat CELLS) BLANK) 0) ;;
  release_cons.

(** ** Serial input *)

Definition uartgetc : M cst Z :=
  s ← getS;
  match uart_in s with
  | c :: r => if uart_present s then modS (set_uart_in r) ;; mret c else mret (-1)
  | [] => mret (-1)
  end.

(** [uartinit]: [lsr] is the line status, all ones when there is no port; the
    receiver's queue is emptied.  The registers of the line (speed, format) are not
    part of the state. *)
Definition uartinit (lsr : Z) : M cst unit :=
  if lsr =? 0xFF then mret tt
  else
    s ← getS;
    putS (mk_cst (crt s) (cursor s) true (uart_out s) [] (kbd_in s) (shift s)
           (ibuf s) (in_r s) (in_w s) (in_e s) (con_locked s) (con_locking s) (panicked s)).

(** ** Keyboard *)

Definition SHIFT : Z := 1.
Definition CTL : Z := 2.
Definition ALT : Z := 4.
Definition CAPSLOCK : Z := 8.
Definition NUMLOCK : Z := 16.
Definition SCROLLLOCK : Z := 32.
Definition E0ESC : Z := 64.

(** A table given by its first entries and by designated ones. *)
Definition keymap (rows : list Z) (designated : list (Z * Z)) (i : Z) : Z :=
  match List.find (fun e => e.1 =? i) designated with
  | Some e => e.2
  | None => nthZ 0 rows i
  end.

Definition shiftcode : Z -> Z := keymap []
  [ (0x1D, CTL); (0x2A, SHIFT); (0x36, SHIFT); (0x38, ALT); (0x9D, CTL); (0xB8, ALT) ].
Definition togglecode : Z -> Z := keymap []
  [ (0x3A, CAPSLOCK); (0x45, NUMLOCK); (0x46, SCROLLLOCK) ].
Definition normalmap : Z -> Z := keymap
  [ 0; 27; 49; 50; 51; 52; 53; 54; 55; 56; 57; 48; 45; 61; 8; 9; 113; 119; 101; 114; 116; 121; 117; 105;
    111; 112; 91; 93; 10; 0; 97; 115; 100; 102; 103; 104; 106; 107; 108; 59; 39; 96; 0; 92; 122; 120; 99; 118;
    98; 110; 109; 44; 46; 47; 0; 42; 0; 32; 0; 0; 0; 0; 0; 0; 0; 0; 0; 0; 0; 0; 0; 55;
    56; 57; 45; 52; 53; 54; 43; 49; 50; 51; 48; 46; 0; 0; 0; 0 ]
  [ (0x9C, 10); (0xB5, 47); (0xC8, 226); (0xD0, 227); (0xC9, 230); (0xD1, 231); (0xCB, 228); (0xCD, 229);
    (0x97, 224); (0xCF, 225); (0xD2, 232); (0xD3, 233) ].
Definition shiftmap : Z -> Z := keymap
  [ 0; 27; 33; 64; 35; 36; 37; 94; 38; 42; 40; 41; 95; 43; 8; 9; 81; 87; 69; 82; 84; 89; 85; 73;
    79; 80; 123; 125; 10; 0; 65; 83; 68; 70; 71; 72; 74; 75; 76; 58; 34; 126; 0; 124; 90; 88; 67; 86;
    66; 78; 77; 60; 62; 63; 0; 42; 0; 32; 0; 0; 0; 0; 0; 0; 0; 0; 0; 0; 0; 0; 0; 55;
    56; 57; 45; 52; 53; 54; 43; 49; 50; 51; 48; 46; 0; 0; 0; 0 ]
  [ (0x9C, 10); (0xB5, 47); (0xC8, 226); (0xD0, 227); (0xC9, 230); (0xD1, 231); (0xCB, 228); (0xCD, 229);
    (0x97, 224); (0xCF, 225); (0xD2, 232); (0xD3, 233) ].
Definition ctlmap : Z -> Z := keymap
  [ 0; 0; 0; 0; 0; 0; 0; 0; 0; 0; 0; 0; 0; 0; 0; 0; 17; 23; 5; 18; 20; 25; 21; 9;
    15; 16; 0; 0; 13; 0; 1; 19; 4; 6; 7; 8; 10; 11; 12; 0; 0; 0; 0; 28; 26; 24; 3; 22;
    2; 14; 13; 0; 0; 239; 0; 0 ]
  [ (0x9C, 13); (0xB5, 239); (0xC8, 226); (0xD0, 227); (0xC9, 230); (0xD1, 231); (0xCB, 228); (0xCD, 229);
    (0x97, 224); (0xCF, 225); (0xD2, 232); (0xD3, 233) ].

Definition charcode (m : Z) : Z -> Z :=
  if m =? 0 then normalmap else if m =? 1 then shiftmap else ctlmap.

(** [c] with the letters swapped under caps lock. *)
Definition caps (c : Z) : Z :=
  if (97 <=? c) && (c <=? 122) then c - 32
  else if (65 <=? c) && (c <=? 90) then c + 32 else c.

(** The modifiers and the result of [kbdgetc] for the scan code [data]. *)
Definition key_step (sh data : Z) : Z * Z :=
  if data =? 0xE0 then (Z.lor sh E0ESC, 0)
  else if negb (Z.land data 0x80 =? 0) then
    let d := if negb (Z.land sh E0ESC =? 0) then data else Z.land data 0x7F in
    (Z.ldiff sh (Z.lor (shiftcode d) E0ESC), 0)
  else
    let esc := negb (Z.land sh E0ESC =? 0) in
    let d := if esc then Z.lor data 0x80 else data in
    let sh := if esc then Z.ldiff sh E0ESC else sh in
    let sh := Z.lxor (Z.lor sh (shiftcode d)) (togglecode d) in
    let c := charcode (Z.land sh (Z.lor CTL SHIFT)) d in
    (sh, if negb (Z.land sh CAPSLOCK =? 0) then caps c else c).

Definition kbdgetc : M cst Z :=
  s ← getS;
  match kbd_in s with
  | [] => mret (-1)
  | data :: r => let k := key_step (shift s) data in modS (set_kbd r k.1) ;; mret k.2
  end.
