(* ===== verification/Kernel.v ===== *)
(** * Kernel: the composed kernel state, user memory, pipes and open files

    One state holds the file system (Fs), physical memory with the page tables
    (Kalloc, Vm), the process table (Proc), the table of open files, the pipes and
    the console (Conout); the kernel code that one process runs threads it.  [kcur] is
    the slot of that process (-1 in the scheduler).  File-system code sees its pid and its current
    directory.  A call of [sleep] ends the run of the model with [Block]: what
    other processes do meanwhile is the subject of the step relations of Proc,
    Procinv and Pipe.

    This file has src/kernel/pipe.c and src/kernel/file.c, and the accesses of the
    kernel to user addresses, which go through the page tables of the process: a
    page fault in the kernel is the panic of [trap].  A pipe lives in a page of
    [kalloc]; its fields are kept in a map indexed by that page. *)

From Stdlib Require Import ZArith Lia ZifyBool.
From stdpp Require Import base gmap strings numbers list.
From S2P Require Import Prelude CString Bio Log Fs Kalloc Vm Proc Conout.

Local Open Scope Z_scope.

(** ** Constants of param.h, file.h, fcntl.h *)

Definition NFILE : Z := 100.
Definition PIPESIZE : Z := 512.
Definition F_APPEND : Z := 1.

(** ** State *)

Inductive ftype : Type := FD_NONE | FD_PIPE | FD_INODE.
#[export] Instance ftype_eq : EqDecision ftype.
Proof. solve_decision. Defined.

(** [fpipe] is the page of a pipe (0: none), [fip] an inode of the cache (-1:
    none). *)
Record file : Type := mk_file {
  ftyp : ftype; fref : Z; readable : bool; writable : bool;
  fpipe : Z; fip : Z; foff : Z; fflags : Z
}.
Definition file0 : file := mk_file FD_NONE 0 false false 0 (-1) 0 0.

Record pipe : Type := mk_pipe {
  pdata : list Z; nread : Z; nwrite : Z; readopen : Z; writeopen : Z
}.

(** [boottime] is the clock at boot, [fgproc] the slot in [input.fgproc]. *)
Record kst : Type := mk_kst {
  kfs : fstate; kvm : vst; kpt : pst; kft : list file; kpipes : gmap Z pipe;
  kcur : Z; ticks : Z; boottime : Z; fgproc : Z; kcons : cst
}.
Definition set_kfs (x : fstate) (s : kst) : kst :=
  mk_kst x (kvm s) (kpt s) (kft s) (kpipes s) (kcur s) (ticks s) (boottime s) (fgproc s) (kcons s).
Definition set_kvm (x : vst) (s : kst) : kst :=
  mk_kst (kfs s) x (kpt s) (kft s) (kpipes s) (kcur s) (ticks s) (boottime s) (fgproc s) (kcons s).
Definition set_kpt (x : pst) (s : kst) : kst :=
  mk_kst (kfs s) (kvm s) x (kft s) (kpipes s) (kcur s) (ticks s) (boottime s) (fgproc s) (kcons s).
Definition set_kft (x : list file) (s : kst) : kst :=
  mk_kst (kfs s) (kvm s) (kpt s) x (kpipes s) (kcur s) (ticks s) (boottime s) (fgproc s) (kcons s).
Definition set_kpipes (x : gmap Z pipe) (s : kst) : kst :=
  mk_kst (kfs s) (kvm s) (kpt s) (kft s) x (kcur s) (ticks s) (boottime s) (fgproc s) (kcons s).
Definition set_ticks (x : Z) (s : kst) : kst :=
  mk_kst (kfs s) (kvm s) (kpt s) (kft s) (kpipes s) (kcur s) x (boottime s) (fgproc s) (kcons s).
Definition set_fgproc (x : Z) (s : kst) : kst :=
  mk_kst (kfs s) (kvm s) (kpt s) (kft s) (kpipes s) (kcur s) (ticks s) (boottime s) x (kcons s).

Definition set_kcons (x : cst) (s : kst) : kst :=
  mk_kst (kfs s) (kvm s) (kpt s) (kft s) (kpipes s) (kcur s) (ticks s) (boottime s) (fgproc s) x.

(** ** Running a component *)

Definition curproc (s : kst) : proc := getp (kpt s) (kcur s).

(** The file system as the current process sees it. *)
Definition fs_view (s : kst) : fstate :=
  let f := kfs s in let l := flog f in let b := bio l in
  mk_fs (set_bio (mk_bst (bufs b) (nxt b) (prv b) (disk b) (dwrites b) (havedisk1 b)
                    (pid (curproc s)) (nspin b)) l)
    (fsb f) (icache f) (curtime f) (clock f) (pcwd (curproc s)).

Definition fsM {A : Type} (m : M fstate A) : M kst A := lift fs_view set_kfs m.
Definition opM {A : Type} (m : M lst A) : M kst A := fsM (logM m).
Definition vmM {A : Type} (m : M vst A) : M kst A := lift kvm set_kvm m.
Definition ptM {A : Type} (m : M pst A) : M kst A := lift kpt set_kpt m.

Definition conM {A : Type} (m : M cst A) : M kst A := lift kcons set_kcons m.

Definition myproc : M kst proc := gets curproc.
(** An assignment to a field of the current process. *)
Definition updcur (f : proc -> proc) : M kst unit := i ← gets kcur; ptM (updp i f).
Definition kwakeup (ch : chan_t) : M kst unit := ptM (wakeup ch).
Definition ksleep {A : Type} (ch : chan_t) : M kst A :=
  i ← gets kcur;
  if i =? -1 then panic "sleep"
  else ptM (sleep i (Some ch) KSleep) ;; block "sleep".

(** [kill] tells on the console that the first process is spared. *)
Definition kkill (n sig : Z) : M kst Z :=
  (if n =? 1 then conM (cprintf (str "kill: cannot kill init" ++ [10]) []) else mret tt) ;;
  ptM (kill n sig).

(** ** User memory *)

(** The translation of a user address by the page tables in use; [w] for a
    write. *)
Definition uaddr (w : bool) (va : Z) : M vst Z :=
  d ← gets (fun s => P2V (cr3 s));
  e ← kload (d + 4 * PDX va);
  if negb (has PTE_P e) || w && negb (has PTE_W e) then panic "trap"
  else
    t ← kload (P2V (PTE_ADDR e) + 4 * PTX va);
    if negb (has PTE_P t) || w && negb (has PTE_W t) then panic "trap"
    else mret (P2V (PTE_ADDR t) + va mod PGSIZE).

Definition kload8 (a : Z) : M vst Z := fun s =>
  if in_window a then Ok (ld8 (mem s) a) s else Panic "undefined" s.
Definition kstore8 (a b : Z) : M vst unit := fun s =>
  if in_window a then Ok tt (set_mem (st8 a b (mem s)) s) else Panic "undefined" s.
Definition uload8 (va : Z) : M vst Z := a ← uaddr false va; kload8 a.
Definition ustore8 (va b : Z) : M vst unit := a ← uaddr true va; kstore8 a b.

(** [n] bytes from [va] on. *)
Definition ubytes (va n : Z) : M kst (list Z) :=
  vmM (mapM (fun i => uload8 (u32 (va + i))) (seqZ 0 n)).
Definition ustore (va : Z) (bs : list Z) : M kst unit :=
  vmM (forM (imap (fun i b => (Z.of_nat i, b)) bs) (fun '(i, b) => ustore8 (u32 (va + i)) b)).

(** ** The file table *)

Definition getf (s : kst) (f : Z) : file := nthZ file0 (kft s) f.
Definition setf (f : Z) (x : file) (s : kst) : kst := set_kft (updZ f x (kft s)) s.
Definition updf (f : Z) (h : file -> file) : M kst unit := modS (fun s => setf f (h (getf s f)) s).

Definition with_fref (r : Z) (x : file) : file :=
  mk_file (ftyp x) r (readable x) (writable x) (fpipe x) (fip x) (foff x) (fflags x).
Definition with_ftyp (t : ftype) (x : file) : file :=
  mk_file t (fref x) (readable x) (writable x) (fpipe x) (fip x) (foff x) (fflags x).
Definition with_foff (o : Z) (x : file) : file :=
  mk_file (ftyp x) (fref x) (readable x) (writable x) (fpipe x) (fip x) o (fflags x).
Definition with_fflags (g : Z) (x : file) : file :=
  mk_file (ftyp x) (fref x) (readable x) (writable x) (fpipe x) (fip x) (foff x) g.

(** A free entry, now referenced once, or -1. *)
Definition filealloc : M kst Z := fun s =>
  match List.find (fun f => fref (getf s f) =? 0) (seqZ 0 NFILE) with
  | Some f => Ok f (setf f (with_fref 1 (getf s f)) s)
  | None => Ok (-1) s
  end.

Definition filedup (f : Z) : M kst Z :=
  x ← gets (fun s => getf s f);
  if fref x <? 1 then panic "filedup"
  else updf f (with_fref (fref x + 1)) ;; mret f.

(** ** Pipes *)

(** A pipe that has been freed is not accessed again. *)
Definition getpipe (p : Z) : M kst pipe := fun s =>
  match kpipes s !! p with Some x => Ok x s | None => Panic "undefined" s end.
Definition setpipe (p : Z) (x : pipe) : M kst unit :=
  modS (fun s => set_kpipes (<[p := x]> (kpipes s)) s).

(** Offset of [data] in the struct, after the spin lock. *)
Definition PIPE_DATA : Z := 52.

Section file.
Context (kend : Z) (devsw : devsw_t).

Definition pipeclose (p : Z) (writable : bool) : M kst unit :=
  x ← getpipe p;
  let y := if writable then mk_pipe (pdata x) (nread x) (nwrite x) (readopen x) 0
           else mk_pipe (pdata x) (nread x) (nwrite x) 0 (writeopen x) in
  setpipe p y ;;
  kwakeup (if writable then ChNread p else ChNwrite p) ;;
  if (readopen y =? 0) && (writeopen y =? 0) then
    modS (fun s => set_kpipes (delete p (kpipes s)) s) ;;
    vmM (kfree kend p)
  else mret tt.

(** The entry is emptied before what it referred to is let go. *)
Definition fileclose (f : Z) : M kst unit :=
  x ← gets (fun s => getf s f);
  if fref x <? 1 then panic "fileclose"
  else
    updf f (with_fref (fref x - 1)) ;;
    if 0 <? fref x - 1 then mret tt
    else
      updf f (fun y => with_ftyp FD_NONE (with_fref 0 y)) ;;
      match ftyp x with
      | FD_PIPE => pipeclose (fpipe x) (writable x)
      | FD_INODE => opM begin_op ;; fsM (iput (fip x)) ;; opM end_op
      | FD_NONE => mret tt
      end.

(** The two ends of a new pipe, or nothing. *)
Definition pipealloc : M kst (option (Z * Z)) :=
  f0 ← filealloc;
  if f0 =? -1 then mret None
  else
    f1 ← filealloc;
    if f1 =? -1 then fileclose f0 ;; mret None
    else
      p ← vmM kalloc;
      if p =? 0 then fileclose f0 ;; fileclose f1 ;; mret None
      else
        junk ← gets (fun s => bytes_at (mem (kvm s)) (p + PIPE_DATA) PIPESIZE);
        setpipe p (mk_pipe junk 0 0 1 1) ;;
        updf f0 (fun x => mk_file FD_PIPE (fref x) true false p (fip x) (foff x) (fflags x)) ;;
        updf f1 (fun x => mk_file FD_PIPE (fref x) false true p (fip x) (foff x) (fflags x)) ;;
        mret (Some (f0, f1)).

(** The test on which [pipewrite] waits: [inr v] to return [v], [inl true] to
    sleep, [inl false] when there is room. *)
Definition pipe_full (p : Z) : M kst (bool + Z) :=
  x ← getpipe p;
  if nwrite x =? u32 (nread x + PIPESIZE) then
    me ← myproc;
    if (readopen x =? 0) || negb (killed me =? 0) then mret (inr (-1))
    else kwakeup (ChNread p) ;; mret (inl true)
  else mret (inl false).
Definition pipe_put (p c : Z) : M kst unit :=
  x ← getpipe p;
  setpipe p (mk_pipe (updZ (nwrite x mod PIPESIZE) c (pdata x)) (nread x) (u32 (nwrite x + 1))
               (readopen x) (writeopen x)).

(** The loop of [pipewrite] from byte [i] on, [n] bytes before the end; [load]
    reads a byte of the caller's buffer.  The result is the byte reached, with the
    value to return, or with none when the writer sleeps. *)
Fixpoint write_loop (p : Z) (load : Z -> M kst Z) (total i : Z) (n : nat) : M kst (Z * option Z) :=
  match n with
  | O => kwakeup (ChNread p) ;; mret (i, Some total)
  | S n =>
      r ← pipe_full p;
      match r with
      | inr v => mret (i, Some v)
      | inl true => mret (i, None)
      | inl false => c ← load i; pipe_put p c ;; write_loop p load total (i + 1) n
      end
  end.
Definition pipewrite (p addr n : Z) : M kst Z :=
  r ← write_loop p (fun i => vmM (uload8 (u32 (addr + i)))) n 0 (Z.to_nat n);
  match r.2 with
  | Some v => mret v
  | None => ksleep (ChNwrite p)
  end.

(** The test on which [piperead] waits, and the removal of a byte, if any. *)
Definition pipe_wait (p : Z) : M kst bool :=
  x ← getpipe p;
  mret ((nread x =? nwrite x) && negb (writeopen x =? 0)).
Definition pipe_get (p : Z) : M kst (option Z) :=
  x ← getpipe p;
  if nread x =? nwrite x then mret None
  else
    setpipe p (mk_pipe (pdata x) (u32 (nread x + 1)) (nwrite x) (readopen x) (writeopen x)) ;;
    mret (Some (nthZ 0 (pdata x) (nread x mod PIPESIZE))).

(** The bytes that the loop of [piperead] takes, from byte [i] of the buffer on. *)
Fixpoint read_loop (p : Z) (store : Z -> Z -> M kst unit) (i : Z) (n : nat) : M kst (list Z) :=
  match n with
  | O => kwakeup (ChNwrite p) ;; mret []
  | S n =>
      c ← pipe_get p;
      match c with
      | None => kwakeup (ChNwrite p) ;; mret []
      | Some c => store i c ;; l ← read_loop p store (i + 1) n; mret (c :: l)
      end
  end.
(** What [piperead] does between two releases of the lock: it sleeps, gives up, or
    takes bytes. *)
Inductive read_result : Type := RSleep | RKilled | RBytes (l : list Z).
Definition read_section (p : Z) (store : Z -> Z -> M kst unit) (n : nat) : M kst read_result :=
  w ← pipe_wait p;
  if (w : bool) then
    me ← myproc; mret (if negb (killed me =? 0) then RKilled else RSleep)
  else l ← read_loop p store 0 n; mret (RBytes l).
Definition piperead (p addr n : Z) : M kst Z :=
  r ← read_section p (fun i c => vmM (ustore8 (u32 (addr + i)) c)) (Z.to_nat n);
  match r with
  | RSleep => ksleep (ChNread p)
  | RKilled => mret (-1)
  | RBytes l => mret (Z.of_nat (length l))
  end.

(** ** File operations *)

(** [struct stat] as [filestat] fills it in; the padding of the two shorts keeps
    what was there. *)
Definition stat_fields (x : stat) : list (Z * list Z) :=
  [ (20, le_encode 4 BSIZE); (4, le_encode 4 (u32 (st_dev x))); (8, le_encode 4 (u32 (st_ino x)));
    (0, le_encode 2 (u16 (st_type x))); (12, le_encode 2 (u16 (st_nlink x)));
    (16, le_encode 4 (u32 (st_size x))); (28, le_encode 4 (u32 (st_mtime x)));
    (24, le_encode 4 (u32 (st_atime x))) ].
Definition filestat (f st : Z) : M kst Z :=
  x ← gets (fun s => getf s f);
  if bool_decide (ftyp x = FD_INODE) then
    fsM (ilock (fip x)) ;;
    y ← fsM (stati (fip x));
    forM (stat_fields y) (fun '(o, bs) => ustore (st + o) bs) ;;
    fsM (iunlock (fip x)) ;;
    mret 0
  else mret (-1).

Definition fileread (f addr n : Z) : M kst Z :=
  x ← gets (fun s => getf s f);
  if negb (readable x) then mret (-1)
  else match ftyp x with
  | FD_PIPE => piperead (fpipe x) addr n
  | FD_INODE =>
      fsM (ilock (fip x)) ;;
      r ← fsM (readi devsw (fip x) (foff x) (u32 n));
      ustore addr r.2 ;;
      (if 0 <? r.1 then updf f (with_foff (u32 (foff x + r.1))) else mret tt) ;;
      fsM (iunlock (fip x)) ;;
      mret r.1
  | FD_NONE => panic "fileread"
  end.

(** A file is written in pieces that fit in one transaction each. *)
Definition WRITE_MAX : Z := (MAXOPBLOCKS - 1 - 1 - 2) / 2 * 512.
Definition filewrite (f addr n : Z) : M kst Z :=
  x ← gets (fun s => getf s f);
  (if negb (Z.land (fflags x) F_APPEND =? 0) then
     if fip x =? -1 then panic "undefined"
     else size ← gets (fun s => isize (geti (kfs s) (fip x))); updf f (with_foff size)
   else mret tt) ;;
  if negb (writable x) then mret (-1)
  else match ftyp x with
  | FD_PIPE => pipewrite (fpipe x) addr n
  | FD_INODE =>
      i ← loop (Z.to_nat (Z.max 0 n / WRITE_MAX + 2)) (fun i =>
            if i <? n then
              let n1 := Z.min (n - i) WRITE_MAX in
              opM begin_op ;;
              fsM (ilock (fip x)) ;;
              off ← gets (fun s => foff (getf s f));
              bs ← ubytes (u32 (addr + i)) n1;
              r ← fsM (writei devsw (fip x) bs off);
              (if 0 <? r then updf f (with_foff (u32 (off + r))) else mret tt) ;;
              fsM (iunlock (fip x)) ;;
              opM end_op ;;
              if r <? 0 then mret (inr i)
              else if negb (r =? n1) then panic "short filewrite"
              else mret (inl (i + r))
            else mret (inr i)) 0;
      mret (if i =? n then n else -1)
  | FD_NONE => panic "filewrite"
  end.
End file.
