(* ===== verification/Syscall.v ===== *)
(** * Syscall: the arguments of system calls, and the file-system calls

    Model of the argument fetching of src/kernel/syscall.c and of
    src/kernel/sysfile.c except [sys_exec].  Arguments lie on the user stack;
    [None] stands for the return value -1 of the fetching routines.  A fetched
    string is the list of its bytes: user memory does not change between the
    check and the use.  [fd] arguments that the code does not range-check index
    past [ofile], which the model does not follow.

    The [ioctl] functions of the devices are a parameter, as [devsw] is in Fs. *)

From Stdlib Require Import ZArith Lia ZifyBool.
From stdpp Require Import base gmap strings numbers list.
From S2P Require Import Prelude CString Bio Log Fs Kalloc Vm Proc Kernel.

Local Open Scope Z_scope.

(** ** syscall.c: fetching arguments *)

Definition fetchint (addr : Z) : M kst (option Z) :=
  p ← myproc;
  if (sz p <=? addr) || (sz p <? u32 (addr + 4)) then mret None
  else bs ← ubytes addr 4; mret (Some (s32 (le_decode bs))).

Definition fetchstr (addr : Z) : M kst (option (list Z)) :=
  p ← myproc;
  if sz p <=? addr then mret None
  else
    r ← forR (seqZ addr (sz p - addr)) (fun a =>
          c ← vmM (uload8 a);
          mret (if c =? 0 then Some (a - addr) else None));
    match r with
    | Some len => bs ← ubytes addr len; mret (Some bs)
    | None => mret None
    end.

Definition argint (n : Z) : M kst (option Z) :=
  p ← myproc;
  fetchint (u32 (esp (tf p) + 4 + 4 * n)).

Definition argptr (n size : Z) : M kst (option Z) :=
  p ← myproc;
  r ← argint n;
  match r with
  | None => mret None
  | Some i =>
      if (size <? 0) || (sz p <=? u32 i) || (sz p <? u32 (u32 i + size)) then mret None
      else mret (Some (u32 i))
  end.

Definition argstr (n : Z) : M kst (option (list Z)) :=
  r ← argint n;
  match r with None => mret None | Some addr => fetchstr (u32 addr) end.

(** [x ←? m; k]: [return -1] when the argument is not there. *)
Definition need {A : Type} (m : M kst (option A)) (k : A -> M kst Z) : M kst Z :=
  r ← m; match r with Some a => k a | None => mret (-1) end.

(** ** sysfile.c: descriptors *)

Definition ofile_at (p : proc) (fd : Z) : Z := nthZ (-1) (ofile p) fd.

Definition argfd (n : Z) : M kst (option (Z * Z)) :=
  r ← argint n;
  match r with
  | None => mret None
  | Some fd =>
      p ← myproc;
      if (fd <? 0) || (NOFILE <=? fd) || (ofile_at p fd =? -1) then mret None
      else mret (Some (fd, ofile_at p fd))
  end.

Definition fdalloc (f : Z) : M kst Z :=
  p ← myproc;
  match List.find (fun fd => ofile_at p fd =? -1) (seqZ 0 NOFILE) with
  | Some fd => updcur (fun p => with_ofile (updZ fd f (ofile p)) p) ;; mret fd
  | None => mret (-1)
  end.

Section sysfile.
Context (kend : Z) (devsw : devsw_t) (dioctl : Z -> option (Z -> Z -> Z -> M kst Z)).

Definition sys_dup : M kst Z :=
  need (argfd 0) (fun '(_, f) =>
    fd ← fdalloc f;
    if fd <? 0 then mret (-1) else filedup f ;; mret fd).

Definition sys_read : M kst Z :=
  need (argfd 0) (fun '(_, f) => need (argint 2) (fun n => need (argptr 1 n) (fun p =>
    fileread devsw f p n))).

Definition sys_write : M kst Z :=
  need (argfd 0) (fun '(_, f) => need (argint 2) (fun n => need (argptr 1 n) (fun p =>
    filewrite devsw f p n))).

Definition sys_close : M kst Z :=
  need (argfd 0) (fun '(fd, f) =>
    updcur (fun p => with_ofile (updZ fd (-1) (ofile p)) p) ;;
    fileclose kend f ;;
    mret 0).

Definition STAT_SIZE : Z := 32.
Definition sys_fstat : M kst Z :=
  need (argfd 0) (fun '(_, f) => need (argptr 1 STAT_SIZE) (fun st => filestat f st)).

(** ** Links and directories *)

(** A path that names nothing or the transaction that ends without effect. *)
Definition fail_op : M kst Z := opM end_op ;; mret (-1).
Definition putfail (ip : Z) : M kst Z := fsM (iunlockput ip) ;; fail_op.

(** The target of a symbolic link is kept in [ip->addrs]; the NUL after a target
    that fills the array falls on the first byte of [atime]. *)
Definition ADDRS_SIZE : Z := 44.
Definition words_of (bs : list Z) : list Z := map (fun k => get32 bs (4 * Z.to_nat k)) (seqZ 0 11).
Definition link_text (target : list Z) (x : inode) : inode :=
  let len := Z.min (Z.of_nat (length target)) ADDRS_SIZE in
  let text := take (Z.to_nat len) target in
  let x := with_addrs (words_of (splice 0 text (replicate (Z.to_nat ADDRS_SIZE) 0))) x in
  let x := if len =? ADDRS_SIZE then with_atime (s32 (u32 (iatime x) / 256 * 256)) x else x in
  with_size len x.

Definition sys_symlink : M kst Z :=
  need (argstr 0) (fun target => need (argstr 1) (fun linkpath =>
    opM begin_op ;;
    r ← fsM (nameiparent devsw linkpath name0);
    let '(parent, name) := r in
    if parent =? NULL then fail_op
    else
      dip ← fsM (namei devsw target);
      if dip =? NULL then fail_op
      else
        fsM (iput dip) ;;
        fsM (ilock parent) ;;
        e ← fsM (dirlookup devsw parent name);
        match e with
        | Some _ => putfail parent
        | None =>
            dv ← gets (fun s => idev (geti (kfs s) parent));
            ip ← fsM (ialloc dv T_SYMLINK);
            fsM (ilock ip) ;;
            fsM (updi ip (link_text target)) ;;
            fsM (iupdate ip) ;;
            fsM (iunlock ip) ;;
            i ← gets (fun s => inum (geti (kfs s) ip));
            l ← fsM (dirlink devsw parent name i);
            if l <? 0 then fsM (iput ip) ;; fsM (iunlockput parent) ;; mret (-1)
            else fsM (iunlockput parent) ;; opM end_op ;; mret 0
        end)).

Definition add_link (d : Z) (x : inode) : inode := with_nlink (s16 (inlink x + d)) x.

Definition sys_link : M kst Z :=
  need (argstr 0) (fun old => need (argstr 1) (fun new =>
    opM begin_op ;;
    ip ← fsM (namei devsw old);
    if ip =? NULL then fail_op
    else
      fsM (ilock ip) ;;
      x ← gets (fun s => geti (kfs s) ip);
      if itype x =? T_DIR then putfail ip
      else
        fsM (updi ip (add_link 1)) ;;
        fsM (iupdate ip) ;;
        fsM (iunlock ip) ;;
        let bad :=
          fsM (ilock ip) ;;
          fsM (updi ip (add_link (-1))) ;;
          fsM (iupdate ip) ;;
          putfail ip in
        r ← fsM (nameiparent devsw new name0);
        let '(dp, name) := r in
        if dp =? NULL then bad
        else
          fsM (ilock dp) ;;
          s ← gets kfs;
          ok ← (if idev (geti s dp) =? idev (geti s ip)
                then l ← fsM (dirlink devsw dp name (inum (geti s ip))); mret (0 <=? l)
                else mret false);
          if negb ok then fsM (iunlockput dp) ;; bad
          else
            fsM (iunlockput dp) ;;
            fsM (iput ip) ;;
            opM end_op ;;
            mret 0)).

(** Entries from the third on. *)
Definition isdirempty (dp : Z) : M fstate bool :=
  size ← gets (fun s => isize (geti s dp));
  r ← forR (List.filter (fun off => 2 * DIRENT_SIZE <=? off) (de_offs size)) (fun off =>
        r ← readi devsw dp off DIRENT_SIZE;
        if negb (r.1 =? DIRENT_SIZE) then panic "isdirempty: readi"
        else mret (if de_inum r.2 =? 0 then None else Some tt));
  mret (match r with Some _ => false | None => true end).

Definition DOT : list Z := [46; 0].
Definition DOTDOT : list Z := [46; 46; 0].

Definition sys_unlink : M kst Z :=
  need (argstr 0) (fun path =>
    opM begin_op ;;
    r ← fsM (nameiparent devsw path name0);
    let '(dp, name) := r in
    if dp =? NULL then fail_op
    else
      fsM (ilock dp) ;;
      if (namecmp name DOT =? 0) || (namecmp name DOTDOT =? 0) then putfail dp
      else
        e ← fsM (dirlookup devsw dp name);
        match e with
        | None => putfail dp
        | Some (ip, off) =>
            fsM (ilock ip) ;;
            x ← gets (fun s => geti (kfs s) ip);
            if inlink x <? 1 then panic "unlink: nlink < 1"
            else
              full ← (if itype x =? T_DIR then e ← fsM (isdirempty ip); mret (negb e) else mret false);
              if (full : bool) then fsM (iunlockput ip) ;; putfail dp
              else
                w ← fsM (writei devsw dp (replicate (Z.to_nat DIRENT_SIZE) 0) off);
                if negb (w =? DIRENT_SIZE) then panic "unlink: writei"
                else
                  (if itype x =? T_DIR then fsM (updi dp (add_link (-1))) ;; fsM (iupdate dp)
                   else mret tt) ;;
                  fsM (iunlockput dp) ;;
                  fsM (updi ip (add_link (-1))) ;;
                  fsM (iupdate ip) ;;
                  fsM (iunlockput ip) ;;
                  opM end_op ;;
                  mret 0
        end).

(** The inode created, locked, or null. *)
Definition create (path : list Z) (type major minor : Z) : M fstate Z :=
  r ← nameiparent devsw path name0;
  let '(dp, name) := r in
  if dp =? NULL then mret NULL
  else
    ilock dp ;;
    e ← dirlookup devsw dp name;
    match e with
    | Some (ip, _) =>
        iunlockput dp ;;
        ilock ip ;;
        t ← gets (fun s => itype (geti s ip));
        if (type =? T_FILE) && (t =? T_FILE) then mret ip
        else iunlockput ip ;; mret NULL
    | None =>
        dv ← gets (fun s => idev (geti s dp));
        ip ← ialloc dv type;
        ilock ip ;;
        updi ip (fun x => with_nlink 1 (with_dev (s16 major) (s16 minor) x)) ;;
        iupdate ip ;;
        i ← gets (fun s => inum (geti s ip));
        di ← gets (fun s => inum (geti s dp));
        (if type =? T_DIR then
           updi dp (add_link 1) ;;
           iupdate dp ;;
           l1 ← dirlink devsw ip DOT i;
           if l1 <? 0 then panic "create dots"
           else
             l2 ← dirlink devsw ip DOTDOT di;
             if l2 <? 0 then panic "create dots" else mret tt
         else mret tt) ;;
        l ← dirlink devsw dp name i;
        if l <? 0 then panic "create: dirlink"
        else iunlockput dp ;; mret ip
    end.

(** ** Opening *)

Definition O_RDONLY : Z := 0.
Definition O_WRONLY : Z := 1.
Definition O_RDWR : Z := 2.
Definition O_CREATE : Z := 0x200.
Definition O_APPEND : Z := 0x800.
Definition flag (m b : Z) : bool := negb (Z.land m b =? 0).

Definition sys_open : M kst Z :=
  need (argstr 0) (fun path => need (argint 1) (fun omode =>
    opM begin_op ;;
    ip ← (if flag omode O_CREATE then fsM (create path T_FILE 0 0)
          else
            ip ← fsM (namei devsw path);
            if ip =? NULL then mret NULL
            else
              fsM (ilock ip) ;;
              t ← gets (fun s => itype (geti (kfs s) ip));
              if (t =? T_DIR) && negb (omode =? O_RDONLY) then fsM (iunlockput ip) ;; mret NULL
              else mret ip);
    if ip =? NULL then fail_op
    else
      f ← filealloc;
      if f =? -1 then putfail ip
      else
        fd ← fdalloc f;
        if fd <? 0 then fileclose kend f ;; putfail ip
        else
          fsM (iunlock ip) ;;
          opM end_op ;;
          updf f (fun x => mk_file FD_INODE (fref x) (negb (flag omode O_WRONLY))
                             (flag omode O_WRONLY || flag omode O_RDWR) (fpipe x) ip 0 (fflags x)) ;;
          mret fd)).

Definition sys_mkdir : M kst Z :=
  opM begin_op ;;
  path ← argstr 0;
  match path with
  | None => fail_op
  | Some path =>
      ip ← fsM (create path T_DIR 0 0);
      if ip =? NULL then fail_op
      else fsM (iunlockput ip) ;; opM end_op ;; mret 0
  end.

Definition sys_mknod : M kst Z :=
  opM begin_op ;;
  path ← argstr 0;
  match path with
  | None => fail_op
  | Some path =>
      major ← argint 1;
      minor ← argint 2;
      match major, minor with
      | Some major, Some minor =>
          ip ← fsM (create path T_DEV major minor);
          if ip =? NULL then fail_op
          else fsM (iunlockput ip) ;; opM end_op ;; mret 0
      | _, _ => fail_op
      end
  end.

Definition sys_chdir : M kst Z :=
  opM begin_op ;;
  path ← argstr 0;
  match path with
  | None => fail_op
  | Some path =>
      ip ← fsM (namei devsw path);
      if ip =? NULL then fail_op
      else
        fsM (ilock ip) ;;
        t ← gets (fun s => itype (geti (kfs s) ip));
        if negb (t =? T_DIR) then putfail ip
        else
          fsM (iunlock ip) ;;
          p ← myproc;
          fsM (iput (pcwd p)) ;;
          opM end_op ;;
          updcur (with_pcwd ip) ;;
          mret 0
  end.

(** ** Pipes, control and the rest *)

Definition sys_pipe : M kst Z :=
  need (argptr 0 8) (fun fd =>
    need (pipealloc kend) (fun '(rf, wf) =>
      fd0 ← fdalloc rf;
      fd1 ← (if fd0 <? 0 then mret (-1) else fdalloc wf);
      if fd1 <? 0 then
        (if 0 <=? fd0 then updcur (fun p => with_ofile (updZ fd0 (-1) (ofile p)) p) else mret tt) ;;
        fileclose kend rf ;;
        fileclose kend wf ;;
        mret (-1)
      else
        ustore fd (le_encode 4 fd0) ;;
        ustore (fd + 4) (le_encode 4 fd1) ;;
        mret 0)).

(** [myproc()->ofile[fd]] without a check of [fd]. *)
Definition ofile_unchecked (fd : Z) : M kst Z :=
  p ← myproc;
  if (fd <? 0) || (NOFILE <=? fd) then panic "undefined" else mret (ofile_at p fd).

Definition sys_ioctl : M kst Z :=
  need (argint 0) (fun fd => need (argint 1) (fun request => need (argptr 2 4) (fun arg =>
    f ← ofile_unchecked fd;
    if f =? -1 then mret (-1)
    else
      x ← gets (fun s => getf s f);
      if negb (bool_decide (ftyp x = FD_INODE)) then mret (-1)
      else
        y ← gets (fun s => geti (kfs s) (fip x));
        if negb (itype y =? T_DEV) then mret (-1)
        else if (imajor y <? 0) || (NDEV <=? imajor y) then mret (-1)
        else match dioctl (imajor y) with
             | Some h => h (fip x) request arg
             | None => mret (-1)
             end))).

Definition F_GETFL : Z := 3.
Definition F_SETFL : Z := 4.
Definition sys_fcntl : M kst Z :=
  need (argint 0) (fun fd => need (argint 1) (fun cmd =>
    a ← argint 2;
    let arg := default 0 a in
    f ← ofile_unchecked fd;
    if f =? -1 then mret (-1)
    else
      x ← gets (fun s => getf s f);
      if cmd =? F_GETFL then
        mret (if readable x && negb (writable x) then O_RDONLY
              else if negb (readable x) && writable x then O_WRONLY else O_RDWR)
      else if cmd =? F_SETFL then
        (if flag arg O_APPEND then updf f (fun x => with_fflags (Z.lor (fflags x) F_APPEND) x)
         else mret tt) ;;
        mret 0
      else mret (-1))).

Definition sys_sync : M kst Z := fsM fssync ;; mret 0.

(** ** The current directory *)

(** [strlen] of a directory entry's name; one without a NUL runs on into the
    stack. *)
Definition name_len (name : list Z) : option Z := List.find (fun i => arr name i =? 0) (seqZ 0 DIRSIZ).

(** The name of inode [i] in the directory [dp]. *)
Definition getcwd_entry (dp i : Z) : M fstate (option (list Z)) :=
  size ← gets (fun s => isize (geti s dp));
  forR (de_offs size) (fun off =>
    r ← readi devsw dp off DIRENT_SIZE;
    if negb (r.1 =? DIRENT_SIZE) then panic "getcwd readi"
    else if de_inum r.2 =? i then
      match name_len (de_name r.2) with
      | Some len => mret (Some (take (Z.to_nat len) (de_name r.2)))
      | None => panic "undefined"
      end
    else mret None).

(** The path is built from its end in [temp], of which [acc] is the part filled;
    [None] is the return value -1.  Every round but the last adds a slash, so the
    size of [temp] bounds the rounds. *)
Definition TEMP_SIZE : Z := 512.
Definition getcwd_round (ip : Z) (acc : list Z) : M fstate ((Z * list Z) + option (Z * list Z)) :=
  i ← gets (fun s => inum (geti s ip));
  if i =? ROOTINO then mret (inr (Some (ip, acc)))
  else
    ilock ip ;;
    e ← dirlookup devsw ip DOTDOT;
    match e with
    | None => iunlockput ip ;; mret (inr None)
    | Some (parent, _) =>
        iunlockput ip ;;
        ilock parent ;;
        n ← getcwd_entry parent i;
        pi ← gets (fun s => inum (geti s parent));
        match n with
        | None => iunlock parent ;; iput parent ;; mret (inr None)
        | Some n =>
            let acc' := n ++ acc in
            let acc'' := if pi =? ROOTINO then acc' else SLASH :: acc' in
            if TEMP_SIZE - 1 <? Z.of_nat (length acc'') then iunlockput parent ;; mret (inr None)
            else iunlock parent ;; mret (inl (parent, acc''))
        end
    end.

Definition sys_getcwd : M kst Z :=
  need (argptr 0 1) (fun buf => need (argint 1) (fun size =>
    if (buf =? 0) || (size <=? 0) then mret (-1)
    else
      p ← myproc;
      ip ← fsM (idup (pcwd p));
      i ← gets (fun s => inum (geti (kfs s) ip));
      let root ip :=
        if size <? 2 then fsM (iput ip) ;; mret (-1)
        else ustore buf [SLASH; 0] ;; fsM (iput ip) ;; mret 0 in
      if i =? ROOTINO then root ip
      else
        r ← fsM (loop (Z.to_nat TEMP_SIZE + 1) (fun '(ip, acc) => getcwd_round ip acc) (ip, []));
        match r with
        | None => mret (-1)
        | Some (ip, acc) =>
            let len := Z.of_nat (length acc) in
            if len =? 0 then root ip
            else if size <=? len then fsM (iput ip) ;; mret (-1)
            else if arr acc 0 =? SLASH then ustore buf (acc ++ [0]) ;; fsM (iput ip) ;; mret 0
            else if TEMP_SIZE - 1 <? len + 1 then fsM (iput ip) ;; mret (-1)
            else ustore buf (SLASH :: acc ++ [0]) ;; fsM (iput ip) ;; mret 0
        end)).
End sysfile.
