(* ===== verification/Exec.v ===== *)
(** * Exec: running programs, creating and ending processes

    Model of src/kernel/exec.c with [loaduvm] and [switchuvm] of
    src/kernel/vm.c, of the parts of src/kernel/proc.c that involve memory and
    files ([allocproc], [userinit], [growproc], [fork], [exit], [wait], the
    scheduler's switch to a process, [forkret]) and of src/kernel/sysproc.c.

    [exit] and a [wait] that sleeps do not return to their caller in the model's
    run; they end it with [Block]. *)

From Stdlib Require Import ZArith Lia ZifyBool.
From stdpp Require Import base gmap strings numbers list.
From S2P Require Import Prelude CString Bio Log Fs Kalloc Vm Proc Kernel Syscall.

Local Open Scope Z_scope.

(** ** Constants of elf.h, param.h, mmu.h *)

Definition ELF_MAGIC : Z := 0x464C457F.
Definition ELF_PROG_LOAD : Z := 1.
Definition ELFHDR_SIZE : Z := 52.
Definition PROGHDR_SIZE : Z := 32.
Definition MAXARG : Z := 32.
Definition SEG_UCODE : Z := 3.
Definition SEG_UDATA : Z := 4.
Definition DPL_USER : Z := 3.
Definition FL_IF : Z := 0x200.

(** [struct elfhdr] and [struct proghdr]: the fields that are used. *)
Definition elf_magic (h : list Z) : Z := get32 h 0.
Definition elf_entry (h : list Z) : Z := get32 h 24.
Definition elf_phoff (h : list Z) : Z := get32 h 28.
Definition elf_phnum (h : list Z) : Z := get16 h 44.
Definition ph_type (h : list Z) : Z := get32 h 0.
Definition ph_off (h : list Z) : Z := get32 h 4.
Definition ph_vaddr (h : list Z) : Z := get32 h 8.
Definition ph_filesz (h : list Z) : Z := get32 h 16.
Definition ph_memsz (h : list Z) : Z := get32 h 20.

Definition with_eip (v : Z) (t : trapframe) : trapframe :=
  mk_tf (edi t) (esi t) (ebp t) (oesp t) (ebx t) (edx t) (ecx t) (eax t) (gs t) (fs t) (es t) (ds t)
    (trapno t) (err t) v (cs t) (eflags t) (esp t) (ss t).
Definition with_esp (v : Z) (t : trapframe) : trapframe :=
  mk_tf (edi t) (esi t) (ebp t) (oesp t) (ebx t) (edx t) (ecx t) (eax t) (gs t) (fs t) (es t) (ds t)
    (trapno t) (err t) (eip t) (cs t) (eflags t) v (ss t).

(** The segment registers and the task state segment are not part of the state. *)
Definition switchuvm (p : proc) : M vst unit :=
  if kstack p =? 0 then panic "switchuvm: no kstack"
  else if pgdir p =? 0 then panic "switchuvm: no pgdir"
  else modS (fun s => mk_vst (mem s) (use_lock s) (freelist s) (kpgdir s) (V2P (pgdir p))).

Section exec.
Context (kend kdata : Z) (devsw : devsw_t).

(** ** exec.c *)

Definition loaduvm (pgdir addr ip offset size : Z) : M kst Z :=
  if negb (addr mod PGSIZE =? 0) then panic "loaduvm: addr must be page aligned"
  else
    r ← forR (upto 0 size) (fun i =>
          pte ← vmM (walkpgdir pgdir (u32 (addr + i)) false);
          if pte =? 0 then panic "loaduvm: address should exist"
          else
            e ← vmM (kload pte);
            let n := Z.min (size - i) PGSIZE in
            r ← fsM (readi devsw ip (u32 (offset + i)) n);
            vmM (kmemmove (P2V (PTE_ADDR e)) r.2) ;;
            mret (if r.1 =? n then None else Some (-1)));
    mret (default 0 r).

(** One program header: the size of the image after it, [None] on an error. *)
Definition load_segment (ip pgdir off sz : Z) : M kst (option Z) :=
  r ← fsM (readi devsw ip off PROGHDR_SIZE);
  let ph := r.2 in
  if negb (r.1 =? PROGHDR_SIZE) then mret None
  else if negb (ph_type ph =? ELF_PROG_LOAD) then mret (Some sz)
  else if ph_memsz ph <? ph_filesz ph then mret None
  else if u32 (ph_vaddr ph + ph_memsz ph) <? ph_vaddr ph then mret None
  else
    sz ← vmM (allocuvm kend pgdir sz (u32 (ph_vaddr ph + ph_memsz ph)));
    if sz =? 0 then mret None
    else if negb (ph_vaddr ph mod PGSIZE =? 0) then mret None
    else
      l ← loaduvm pgdir (ph_vaddr ph) ip (ph_off ph) (ph_filesz ph);
      mret (if l <? 0 then None else Some sz).
Fixpoint load_segments (n : nat) (ip pgdir off sz : Z) : M kst (option Z) :=
  match n with
  | O => mret (Some sz)
  | S n' =>
      r ← load_segment ip pgdir off sz;
      match r with
      | None => mret None
      | Some sz => load_segments n' ip pgdir (u32 (off + PROGHDR_SIZE)) sz
      end
  end.

(** Push the argument strings; the stack pointer and the pointers pushed, in
    order. *)
Fixpoint push_args (pgdir : Z) (argv : list (list Z)) (argc sp : Z) (ptrs : list Z)
    : M kst (option (Z * list Z)) :=
  match argv with
  | [] => mret (Some (sp, ptrs))
  | a :: argv' =>
      if MAXARG <=? argc then mret None
      else
        let sp := Z.land (u32 (sp - (Z.of_nat (length a) + 1))) (Z.lnot 3) in
        r ← vmM (copyout pgdir sp (a ++ [0]));
        if r <? 0 then mret None else push_args pgdir argv' (argc + 1) sp (ptrs ++ [sp])
  end.

(** The words below the strings: return address, [argc], [argv] and its array. *)
Definition ustack (sp : Z) (ptrs : list Z) : list Z :=
  let argc := Z.of_nat (length ptrs) in
  [0xffffffff; argc; u32 (sp - (argc + 1) * 4)] ++ ptrs ++ [0].

(** The last component of the path. *)
Definition last_name (path : list Z) : list Z :=
  fold_left (fun last '(c, rest) => if c =? SLASH then rest else last)
    (imap (fun i c => (c, drop (S i) path)) path) path.

Definition exec_bad (pgdir ip : Z) : M kst Z :=
  (if pgdir =? 0 then mret tt else vmM (freevm kend pgdir)) ;;
  (if ip =? NULL then mret tt else fsM (iunlockput ip) ;; opM end_op) ;;
  mret (-1).

(** From the loaded image of size [sz] on. *)
Definition exec_stack (path : list Z) (argv : list (list Z)) (d entry size : Z) : M kst Z :=
  let sz0 := PGROUNDUP size in
  size ← vmM (allocuvm kend d sz0 (u32 (sz0 + 2 * PGSIZE)));
  if size =? 0 then exec_bad d NULL
  else
    vmM (clearpteu d (u32 (size - 2 * PGSIZE))) ;;
    r ← push_args d argv 0 size [];
    match r with
    | None => exec_bad d NULL
    | Some (sp, ptrs) =>
        let words := ustack sp ptrs in
        let sp := u32 (sp - 4 * Z.of_nat (length words)) in
        c ← vmM (copyout d sp (concat (map (le_encode 4) words)));
        if c <? 0 then exec_bad d NULL
        else
          updcur (fun p => with_pname (copy_name (pname p) (last_name path)) p) ;;
          old ← myproc;
          updcur (fun p => with_tf (with_esp sp (with_eip entry (tf p))) (with_space size d p)) ;;
          p ← myproc;
          vmM (switchuvm p) ;;
          vmM (freevm kend (pgdir old)) ;;
          mret 0
    end.

Definition exec (path : list Z) (argv : list (list Z)) : M kst Z :=
  opM begin_op ;;
  ip ← fsM (namei devsw path);
  if ip =? NULL then fail_op
  else
    fsM (ilock ip) ;;
    r ← fsM (readi devsw ip 0 ELFHDR_SIZE);
    let elf := r.2 in
    if negb (r.1 =? ELFHDR_SIZE) then exec_bad 0 ip
    else if negb (elf_magic elf =? ELF_MAGIC) then exec_bad 0 ip
    else
      d ← vmM (setupkvm kend kdata);
      if d =? 0 then exec_bad 0 ip
      else
        l ← load_segments (Z.to_nat (elf_phnum elf)) ip d (elf_phoff elf) 0;
        match l with
        | None => exec_bad d ip
        | Some size =>
            fsM (iunlockput ip) ;;
            opM end_op ;;
            exec_stack path argv d (elf_entry elf) size
        end.

(** The strings of the user's [argv], up to its null pointer. *)
Fixpoint fetch_argv (n : nat) (uargv : Z) : M kst (option (list (list Z))) :=
  match n with
  | O => mret None
  | S n' =>
      w ← fetchint uargv;
      match w with
      | None => mret None
      | Some uarg =>
          if uarg =? 0 then mret (Some [])
          else
            a ← fetchstr (u32 uarg);
            match a with
            | None => mret None
            | Some a =>
                rest ← fetch_argv n' (u32 (uargv + 4));
                mret (match rest with None => None | Some l => Some (a :: l) end)
            end
      end
  end.
Definition sys_exec : M kst Z :=
  need (argstr 0) (fun path => need (argint 1) (fun uargv =>
    need (fetch_argv (Z.to_nat MAXARG) (u32 uargv)) (fun argv => exec path argv))).

(** ** proc.c *)

Definition updslot (i : Z) (f : proc -> proc) : M kst unit := ptM (updp i f).

(** A new process with a kernel stack, or -1. *)
Definition allocproc : M kst Z :=
  i ← ptM alloc_slot;
  if i =? -1 then mret (-1)
  else
    k ← vmM kalloc;
    if k =? 0 then
      updslot i (fun p => with_state UNUSED (with_kstack 0 p)) ;;
      mret (-1)
    else
      updslot i (init_kstack k) ;;
      mret i.

(** [initcode]: the bytes that the build puts at [_binary_initcode_start]. *)
Definition INITCODE : list Z := [105; 110; 105; 116; 99; 111; 100; 101].
Definition userinit (initcode : list Z) : M kst unit :=
  i ← allocproc;
  if i =? -1 then panic "undefined"
  else
    modS (fun s => set_kpt (mk_pst (procs (kpt s)) (nextpid (kpt s)) i) s) ;;
    d ← vmM (setupkvm kend kdata);
    if d =? 0 then panic "userinit: out of memory?"
    else
      updslot i (with_space 0 d) ;;
      vmM (inituvm d initcode) ;;
      updslot i (with_space PGSIZE d) ;;
      let ds := Z.lor (Z.shiftl SEG_UDATA 3) DPL_USER in
      updslot i (with_tf (mk_tf 0 0 0 0 0 0 0 0 0 0 ds ds 0 0 0
                            (Z.lor (Z.shiftl SEG_UCODE 3) DPL_USER) FL_IF PGSIZE ds)) ;;
      updslot i (fun p => with_pname (copy_name (pname p) INITCODE) p) ;;
      root ← fsM (namei devsw [SLASH]);
      updslot i (with_pcwd root) ;;
      ptM (make_runnable i).

Definition growproc (n : Z) : M kst Z :=
  p ← myproc;
  size ← (if 0 <? n then vmM (allocuvm kend (pgdir p) (sz p) (u32 (sz p + n)))
          else if n <? 0 then vmM (deallocuvm kend (pgdir p) (sz p) (u32 (sz p + n)))
          else mret (sz p));
  if negb (n =? 0) && (size =? 0) then mret (-1)
  else
    updcur (with_space size (pgdir p)) ;;
    p ← myproc;
    vmM (switchuvm p) ;;
    mret 0.

(** [fork] after the copy of the address space. *)
Definition fork_finish (cur : proc) (np d : Z) : M kst Z :=
  me ← gets kcur;
  updslot np (fork_copy me d cur) ;;
  forM (seqZ 0 NOFILE) (fun fd =>
    if ofile_at cur fd =? -1 then mret tt else filedup (ofile_at cur fd) ;; mret tt) ;;
  fsM (idup (pcwd cur)) ;;
  n ← gets (fun s => pid (getp (kpt s) np));
  ptM (make_runnable np) ;;
  mret n.

Definition fork : M kst Z :=
  cur ← myproc;
  np ← allocproc;
  if np =? -1 then mret (-1)
  else
    d ← vmM (copyuvm kend kdata (pgdir cur) (sz cur));
    if d =? 0 then
      x ← gets (fun s => getp (kpt s) np);
      vmM (kfree kend (kstack x)) ;;
      updslot np (fun p => with_state UNUSED (with_kstack 0 (with_space (sz p) 0 p))) ;;
      mret (-1)
    else fork_finish cur np d.

(** The loop of [exit] over the open files. *)
Definition close_files : M kst unit :=
  forM (seqZ 0 NOFILE) (fun fd =>
    p ← myproc;
    if ofile_at p fd =? -1 then mret tt
    else
      fileclose kend (ofile_at p fd) ;;
      updcur (fun p => with_ofile (updZ fd (-1) (ofile p)) p)).

Definition exit {A : Type} : M kst A :=
  me ← gets kcur;
  ini ← gets (fun s => initproc (kpt s));
  if me =? ini then panic "init exiting"
  else
    close_files ;;
    p ← myproc;
    opM begin_op ;;
    fsM (iput (pcwd p)) ;;
    opM end_op ;;
    updcur (with_pcwd (-1)) ;;
    ptM (Proc.exit me) ;;
    block "exit".

(** The memory of the child that [wait] has found is given back first. *)
Definition wait : M kst Z :=
  me ← gets kcur;
  s ← gets kpt;
  match zombie_child s me with
  | Some j =>
      let p := getp s j in
      vmM (kfree kend (kstack p)) ;;
      vmM (freevm kend (pgdir p)) ;;
      (if sig_tf p =? 0 then mret tt else vmM (kfree kend (sig_tf p))) ;;
      ptM (reap j) ;;
      mret (pid p)
  | None =>
      if (length (children s me) =? 0)%nat || negb (killed (getp s me) =? 0) then mret (-1)
      else ptM (sleep me (proc_chan me) KWait) ;; block "sleep"
  end.

(** The scheduler starts the process in slot [i]. *)
Definition switch_to (i : Z) : M kst unit :=
  modS (fun s => mk_kst (kfs s) (kvm s) (kpt s) (kft s) (kpipes s) i (ticks s) (boottime s) (fgproc s) (kcons s)) ;;
  p ← myproc;
  vmM (switchuvm p) ;;
  updcur (with_state RUNNING).

(** The first process initialises the file system. *)
Definition forkret (first : bool) : M kst unit :=
  if first then fsM (iinit ROOTDEV) ;; opM (initlog ROOTDEV) else mret tt.

(** ** sysproc.c *)

Definition sys_fork : M kst Z := fork.
Definition sys_exit : M kst Z := exit.
Definition sys_wait : M kst Z := wait.

Definition sys_kill : M kst Z :=
  need (argint 0) (fun n => need (argint 1) (fun sig => kkill n sig)).

Definition sys_getpid : M kst Z := p ← myproc; mret (pid p).

(** The first process has no parent. *)
Definition sys_getppid : M kst Z :=
  p ← myproc;
  if parent p =? -1 then panic "undefined"
  else gets (fun s => pid (getp (kpt s) (parent p))).

Definition sys_kgetprogname : M kst Z :=
  need (argptr 0 16) (fun dst =>
    p ← myproc;
    ustore dst (cstr (arr (pname p)) 0 15 ++ [0]) ;;
    mret 0).

Definition sys_ksetprogname : M kst Z :=
  need (argstr 0) (fun src =>
    updcur (fun p => with_pname (copy_name (pname p) src) p) ;;
    mret 0).

(** [unix_uptime] reads the clock. *)
Definition sys_time : M kst Z := gets (fun s => clock (kfs s)).
Definition sys_uptime : M kst Z := gets (fun s => s32 (clock (kfs s) - boottime s)).

Definition sys_sbrk : M kst Z :=
  need (argint 0) (fun n =>
    p ← myproc;
    r ← growproc n;
    mret (if r <? 0 then -1 else s32 (sz p))).

(** [ticks - ticks0 < n] compares unsigned numbers; at first the difference is
    0. *)
Definition sys_sleep : M kst Z :=
  need (argint 0) (fun n =>
    if 0 <? u32 n then
      p ← myproc;
      if negb (killed p =? 0) then mret (-1) else ksleep ChTicks
    else mret 0).

Definition sys_sigaction : M kst Z :=
  need (argint 0) (fun sig => need (argptr 1 4) (fun handler =>
    if (sig <? 0) || (32 <=? sig) then mret (-1)
    else
      updcur (fun p => with_signals (pending p) (blocked p) (updZ sig handler (handlers p)) p) ;;
      mret 0)).

Definition sys_sigprocmask : M kst Z :=
  need (argint 0) (fun mask =>
    updcur (fun p => with_signals (pending p) (u32 mask) (handlers p) p) ;;
    mret 0).

(** The page of the saved frame is not given back. *)
Definition sys_sigreturn : M kst Z :=
  p ← myproc;
  (if sig_tf p =? 0 then mret tt
   else updcur (fun p => with_sig_tf 0 (sig_regs p) (with_tf (sig_regs p) p))) ;;
  mret 0.

Definition sys_setfg : M kst Z :=
  need (argint 0) (fun n =>
    s ← gets kpt;
    match List.find (fun i => pid (getp s i) =? n) slots with
    | Some i => modS (set_fgproc i) ;; mret 0
    | None => mret (-1)
    end).
End exec.
