(* ===== verification/Console.v ===== *)
(** * Console: the line discipline

    [consoleintr], [consoleread], [consolewrite], [consoleioctl] and [consoleinit]
    of src/kernel/dev/char/console.c and [procdump] of proc.c, over the state of
    Kernel.  Input is kept in a ring of 128 bytes with three counters that only
    grow (modulo 2^32): [in_r] up to where it has been read, [in_w] up to where it
    may be read, [in_e] the end of the line that is being edited. *)

From Stdlib Require Import ZArith Lia ZifyBool.
From stdpp Require Import base gmap strings numbers list.
From S2P Require Import Prelude CString Bio Log Fs Kalloc Vm Proc Conout Kernel.

Local Open Scope Z_scope.

Definition ctl (c : Z) : Z := c - 64.
Definition CTL_C : Z := ctl 67.
Definition CTL_D : Z := ctl 68.
Definition CTL_H : Z := ctl 72.
Definition CTL_P : Z := ctl 80.
Definition CTL_U : Z := ctl 85.

(** ** Process listing *)

Definition state_name (x : procstate) : list Z :=
  match x with
  | UNUSED => str "unused" | EMBRYO => str "embryo" | SLEEPING => str "sleep "
  | RUNNABLE => str "runble" | RUNNING => str "run   " | ZOMBIE => str "zombie"
  end.

Section console.
(** Kernel stacks are not part of the state: [backtrace] gives the return
    addresses [getcallerpcs] finds on the stack of a sleeping process. *)
Context (backtrace : proc -> list Z).

Definition procdump : M kst unit :=
  forM slots (fun i =>
    p ← gets (fun s => getp (kpt s) i);
    if bool_decide (state p = UNUSED) then mret tt
    else
      conM (cprintf (str "%d %s %s")
              [AInt (pid p); AStr (Some (state_name (state p))); AStr (Some (cstr (arr (pname p)) 0 16))]) ;;
      (if bool_decide (state p = SLEEPING) then
         forM (take 10 (backtrace p)) (fun pc => conM (cprintf (str " %p") [AInt pc]))
       else mret tt) ;;
      conM (cprintf [10] [])).

(** ** Input *)

(** [input.buf[e++ % INPUT_BUF] = c]. *)
Definition input_put (c : Z) : M cst unit :=
  modS (fun s => set_input (updZ (in_e s mod INPUT_BUF) (c mod 256) (ibuf s)) (in_r s) (in_w s)
                   (u32 (in_e s + 1)) s).
(** [input.w = input.e]. *)
Definition input_commit : M cst unit :=
  modS (fun s => set_input (ibuf s) (in_r s) (in_e s) (in_e s) s).
(** [input.e--] and the echo. *)
Definition input_erase : M cst unit :=
  modS (fun s => set_input (ibuf s) (in_r s) (in_w s) (u32 (in_e s - 1)) s) ;;
  consputc BACKSPACE.

(** The loop of control-U. *)
Definition kill_line : M cst unit :=
  loop (Z.to_nat INPUT_BUF + 1) (fun _ =>
    s ← getS;
    if negb (in_e s =? in_w s)
       && negb (nthZ 0 (ibuf s) (u32 (in_e s - 1) mod INPUT_BUF) =? 10)
    then input_erase ;; mret (inl tt) else mret (inr tt)) tt.

(** One character of [consoleintr]; the result says that a listing was asked
    for. *)
Definition console_char (c : Z) : M kst bool :=
  if c =? CTL_P then mret true
  else if c =? CTL_U then conM kill_line ;; mret false
  else if (c =? CTL_H) || (c =? 0x7f) then
    s ← gets kcons;
    (if in_e s =? in_w s then mret tt else conM input_erase) ;; mret false
  else if c =? CTL_C then
    fg ← gets fgproc;
    (if fg =? -1 then mret tt
     else
       n ← gets (fun s => pid (getp (kpt s) fg));
       kkill n SIGINT ;;
       conM (modS (fun s => set_input (ibuf s) (in_r s) (in_w s) (in_r s) s)) ;;
       conM (input_put 10) ;;
       conM input_commit ;;
       kwakeup ChInput) ;;
    mret false
  else
    s ← gets kcons;
    (if negb (c =? 0) && (u32 (in_e s - in_r s) <? INPUT_BUF) then
       let c := if c =? 13 then 10 else c in
       conM (input_put c) ;;
       conM (consputc c) ;;
       s ← gets kcons;
       if (c =? 10) || (c =? CTL_D) || (in_e s =? u32 (in_r s + INPUT_BUF)) then
         conM input_commit ;; kwakeup ChInput
       else mret tt
     else mret tt) ;;
    mret false.

(** The devices have finitely many characters to deliver, one per round. *)
Definition consoleintr (getc : M cst Z) : M kst unit :=
  conM acquire_cons ;;
  n ← gets (fun s => length (kbd_in (kcons s)) + length (uart_in (kcons s)))%nat;
  dump ← loop (S n) (fun dump =>
           c ← conM getc;
           if 0 <=? c then d ← console_char c; mret (inl (dump || d)) else mret (inr dump)) false;
  conM release_cons ;;
  if (dump : bool) then procdump else mret tt.

Definition kbdintr : M kst unit := consoleintr kbdgetc.
Definition uartintr : M kst unit := consoleintr uartgetc.

(** ** Reading and writing *)

(** A process that has been killed or has a signal to take. *)
Definition interrupted (p : proc) : bool :=
  negb (killed p =? 0) || negb (Z.ldiff (pending p) (blocked p) =? 0).

(** The loop of [consoleread]: [n] bytes are still wanted; how many were left, or
    nothing when the process is interrupted while it waits. *)
Fixpoint read_line (n : nat) (dst target : Z) : M kst (option Z) :=
  match n with
  | O => mret (Some 0)
  | S n' =>
      s ← gets kcons;
      if in_r s =? in_w s then
        p ← myproc;
        if interrupted p then mret None
        else conM release_cons ;; ksleep ChInput
      else
        let c := s8 (nthZ 0 (ibuf s) (in_r s mod INPUT_BUF)) in
        conM (modS (fun s => set_input (ibuf s) (u32 (in_r s + 1)) (in_w s) (in_e s) s)) ;;
        if c =? CTL_D then
          (if Z.of_nat n <? target then
             conM (modS (fun s => set_input (ibuf s) (u32 (in_r s - 1)) (in_w s) (in_e s) s))
           else mret tt) ;;
          mret (Some (Z.of_nat n))
        else
          vmM (ustore8 (u32 dst) (c mod 256)) ;;
          if c =? 10 then mret (Some (Z.of_nat n')) else read_line n' (dst + 1) target
  end.

Definition consoleread (ip dst n : Z) : M kst Z :=
  fsM (iunlock ip) ;;
  conM acquire_cons ;;
  r ← read_line (Z.to_nat n) dst n;
  conM release_cons ;;
  fsM (ilock ip) ;;
  mret match r with Some k => Z.max 0 n - k | None => -1 end.

Definition consolewrite (ip buf n : Z) : M kst Z :=
  fsM (iunlock ip) ;;
  conM acquire_cons ;;
  r ← forR (seqZ 0 n) (fun i =>
        p ← myproc;
        if interrupted p then mret (Some (-1))
        else c ← vmM (uload8 (u32 (buf + i))); conM (consputc c) ;; mret None);
  conM release_cons ;;
  fsM (ilock ip) ;;
  mret (default n r).

Definition IOCTL_CLEAR_SCREEN : Z := 1.
Definition consoleioctl (ip request arg : Z) : M kst Z :=
  if request =? IOCTL_CLEAR_SCREEN then conM consolecls ;; mret 0 else mret (-1).

(** From now on [cprintf] takes the lock. *)
Definition consoleinit : M cst unit := modS (set_con_locking true).
End console.
