(* ===== verification/Trap.v ===== *)
(** * Trap: system call dispatch, interrupts and signal delivery

    [syscalls] and [syscall] of src/kernel/syscall.c and [trap] of
    src/kernel/trap.c.  A trap frame goes in, and the frame with which the process
    returns comes out; a call of [exit], [sleep] or [yield] ends the run.  In the
    composed state a disk request is complete when [iderw] returns (Bio), so the
    disk's interrupt finds no request waiting; the driver's queue is the subject of
    Ide. *)

From Stdlib Require Import ZArith Lia ZifyBool.
From stdpp Require Import base gmap strings numbers list.
From S2P Require Import Prelude CString Bio Log Fs Kalloc Vm Proc Conout Kernel Syscall Exec Console.

Local Open Scope Z_scope.

(** ** Constants of traps.h *)

Definition T_SYSCALL : Z := 64.
Definition T_IRQ0 : Z := 32.
Definition IRQ_TIMER : Z := 0.
Definition IRQ_KBD : Z := 1.
Definition IRQ_COM1 : Z := 4.
Definition IRQ_IDE : Z := 14.
Definition IRQ_SPURIOUS : Z := 31.
Definition NSYSCALL : Z := 35.

Section trap.
Context (kend kdata : Z) (devsw : devsw_t) (dioctl : Z -> option (Z -> Z -> Z -> M kst Z))
  (backtrace : proc -> list Z).

(** ** System calls *)

(** The table [syscalls]: entry 0 is null. *)
Definition syscalls : list (option (M kst Z)) :=
  [ None; Some (sys_fork kend kdata); Some (sys_exit kend); Some (sys_wait kend); Some (sys_pipe kend);
    Some (sys_read devsw); Some sys_kill; Some (sys_exec kend kdata devsw); Some sys_fstat;
    Some (sys_chdir devsw); Some sys_dup; Some sys_getpid; Some (sys_sbrk kend); Some sys_sleep;
    Some sys_uptime; Some (sys_open kend devsw); Some (sys_write devsw); Some (sys_mknod devsw);
    Some (sys_unlink devsw); Some (sys_link devsw); Some (sys_mkdir devsw); Some (sys_close kend);
    Some sys_getppid; Some (sys_ioctl dioctl); Some (sys_getcwd devsw); Some sys_sync;
    Some sys_fcntl; Some sys_kgetprogname; Some sys_ksetprogname; Some sys_time;
    Some (sys_symlink devsw); Some sys_sigaction; Some sys_sigprocmask; Some sys_sigreturn;
    Some sys_setfg ].

Definition syscall : M kst unit :=
  p ← myproc;
  let num := s32 (eax (tf p)) in
  match (if (0 <? num) && (num <? NSYSCALL) then nthZ None syscalls num else None) with
  | Some f =>
      r ← f;
      updcur (fun p => with_tf (with_eax (u32 r) (tf p)) p)
  | None =>
      conM (cprintf (str "%d %s: unknown sys call %d" ++ [10])
              [AInt (pid p); AStr (Some (cstr (arr (pname p)) 0 16)); AInt num]) ;;
      updcur (fun p => with_tf (with_eax (u32 (-1)) (tf p)) p)
  end.

(** ** Traps *)

Definition from_user (t : trapframe) : bool := Z.land (cs t) 3 =? DPL_USER.

(** [exit] if the current process is killed or has a signal to take. *)
Definition exit_if_interrupted : M kst unit :=
  p ← myproc; if interrupted p then Exec.exit kend else mret tt.
Definition exit_if_killed (t : trapframe) : M kst unit :=
  me ← gets kcur;
  p ← myproc;
  if negb (me =? -1) && negb (killed p =? 0) && from_user t then Exec.exit kend else mret tt.

(** Interrupts and faults, by trap number; [cpu] runs the handler and [cr2] is the
    address of a page fault. *)
Definition trap_switch (cpu cr2 : Z) (t : trapframe) : M kst unit :=
  let n := trapno t in
  if n =? T_IRQ0 + IRQ_TIMER then
    if cpu =? 0 then modS (fun s => set_ticks (u32 (ticks s + 1)) s) ;; kwakeup ChTicks
    else mret tt
  else if n =? T_IRQ0 + IRQ_IDE then mret tt
  else if n =? T_IRQ0 + IRQ_IDE + 1 then mret tt
  else if n =? T_IRQ0 + IRQ_KBD then kbdintr backtrace
  else if n =? T_IRQ0 + IRQ_COM1 then uartintr backtrace
  else if (n =? T_IRQ0 + 7) || (n =? T_IRQ0 + IRQ_SPURIOUS) then
    conM (cprintf (str "cpu%d: spurious interrupt at %x:%x" ++ [10])
            [AInt cpu; AInt (cs t); AInt (eip t)])
  else
    me ← gets kcur;
    if (me =? -1) || (Z.land (cs t) 3 =? 0) then
      conM (cprintf (str "unexpected trap %d from cpu %d eip %x (cr2=0x%x)" ++ [10])
              [AInt n; AInt cpu; AInt (eip t); AInt cr2]) ;;
      panic "trap"
    else
      p ← myproc;
      conM (cprintf (str "pid %d %s: trap %d err %d on cpu %d eip 0x%x addr 0x%x--kill proc" ++ [10])
              [AInt (pid p); AStr (Some (cstr (arr (pname p)) 0 16)); AInt n; AInt (err t); AInt cpu;
               AInt (eip t); AInt cr2]) ;;
      updcur (with_killed 1).

(** The lowest signal of a mask; 0 when there is none. *)
Definition first_signal (m : Z) : Z :=
  default 0 (List.find (fun i => Z.testbit m i) (seqZ 0 32)).

(** The process goes on in its handler, with the signal on top of its stack and
    the interrupted frame saved; without memory for that frame the signal is
    lost. *)
Definition run_handler (sig h : Z) (t : trapframe) : M kst trapframe :=
  p ← myproc;
  a ← (if sig_tf p =? 0 then vmM kalloc else mret (sig_tf p));
  updcur (with_sig_tf a (sig_regs p)) ;;
  if a =? 0 then mret t
  else
    updcur (with_sig_tf a t) ;;
    let sp := u32 (esp t - 4) in
    ustore sp (le_encode 4 sig) ;;
    mret (with_eip h (with_esp sp t)).

Definition deliver (t : trapframe) : M kst trapframe :=
  p ← myproc;
  let sig := first_signal (Z.ldiff (pending p) (blocked p)) in
  if sig =? 0 then mret t
  else
    let h := nthZ 0 (handlers p) sig in
    updcur (fun p => with_signals (Z.clearbit (pending p) sig) (blocked p) (handlers p) p) ;;
    if (sig =? SIGKILL) || (sig =? SIGINT) && (h =? 0) then
      updcur (fun p => let p := with_killed 1 p in
                       if bool_decide (state p = SLEEPING) then with_state RUNNABLE p else p) ;;
      mret t
    else if negb (h =? 0) then run_handler sig h t
    else mret t.

(** A frame pushed in user mode lies at the top of the kernel stack, where [p->tf]
    points. *)
Definition trap (cpu cr2 : Z) (t : trapframe) : M kst trapframe :=
  me ← gets kcur;
  (if negb (me =? -1) && from_user t then updcur (with_tf t) ;; exit_if_interrupted
   else mret tt) ;;
  if trapno t =? T_SYSCALL then
    exit_if_interrupted ;;
    updcur (with_tf t) ;;
    syscall ;;
    exit_if_interrupted ;;
    p ← myproc;
    mret (tf p)
  else
    trap_switch cpu cr2 t ;;
    t ← (if negb (me =? -1) && from_user t then
           t ← deliver t; updcur (with_tf t) ;; mret t
         else mret t);
    exit_if_killed t ;;
    p ← myproc;
    (if negb (me =? -1) && bool_decide (state p = RUNNING) && (trapno t =? T_IRQ0 + IRQ_TIMER)
     then ptM (yield me) ;; block "yield" else mret tt) ;;
    exit_if_killed t ;;
    mret t.
End trap.
