(* ===== verification/Ide.v ===== *)
(** * Ide: the disk driver's queue and interrupt handler

    src/kernel/dev/ide.c as it runs: a process appends its buffer to [idequeue],
    starts the disk if the queue was empty and sleeps; the interrupt handler takes
    the first buffer off the queue, moves the data of a read, marks the buffer,
    and starts the disk on the next.  The buffer's data and flags and the registers
    written are modelled; the disk itself is hardware: a command in progress is
    carried out on the blocks that the registers name, and then raises an
    interrupt, with an error or without.

    Bio has [iderw] as one atomic step, for each outcome of the transfer.  The
    theorems here justify it: the interrupt that serves a buffer has exactly the
    effect of that step, after a disk error too; buffers are served in the order of
    their requests, and each within as many interrupts as its place in the queue. *)

From Stdlib Require Import ZArith Lia ZifyBool.
From stdpp Require Import base gmap strings numbers list relations.
From S2P Require Import Prelude Bio.

Local Open Scope Z_scope.
#[local] Ltac Zify.zify_post_hook ::= Z.to_euclidean_division_equations.

(** ** State *)

Definition IDE_CMD_READ : Z := 0x20.
Definition IDE_CMD_WRITE : Z := 0x30.
Definition IDE_CMD_RDMUL : Z := 0xc4.
Definition IDE_CMD_WRMUL : Z := 0xc5.
Definition SECTOR_SIZE : Z := 512.

(** The registers 0x1f2..0x1f7 as a command leaves them, and the data sent after a
    write command. *)
Record ide_regs : Type := mk_regs {
  r_count : Z; r_lba0 : Z; r_lba1 : Z; r_lba2 : Z; r_drive : Z; r_cmd : Z; r_data : list Z
}.

(** [qhead] is [idequeue] and [qnext] the links, both with -1 for null; [active]
    is the command that the disk works on. *)
Record ide : Type := mk_ide {
  ib : list buf; qnext : list Z; qhead : Z; active : option ide_regs;
  platter : gmap (Z * Z) (list Z); disk1 : bool
}.
Definition ibuf_at (s : ide) (i : Z) : buf := nthZ buf0 (ib s) i.
Definition next_of (s : ide) (i : Z) : Z := nthZ (-1) (qnext s) i.
Definition set_ib (i : Z) (b : buf) (s : ide) : ide :=
  mk_ide (updZ i b (ib s)) (qnext s) (qhead s) (active s) (platter s) (disk1 s).
Definition set_qnext (i j : Z) (s : ide) : ide :=
  mk_ide (ib s) (updZ i j (qnext s)) (qhead s) (active s) (platter s) (disk1 s).
Definition set_qhead (i : Z) (s : ide) : ide :=
  mk_ide (ib s) (qnext s) i (active s) (platter s) (disk1 s).
Definition set_active (r : option ide_regs) (s : ide) : ide :=
  mk_ide (ib s) (qnext s) (qhead s) r (platter s) (disk1 s).
Definition set_platter (d : gmap (Z * Z) (list Z)) (s : ide) : ide :=
  mk_ide (ib s) (qnext s) (qhead s) (active s) d (disk1 s).

(** ** The driver *)

(** The commands for a buffer: [idewait] has seen the disk ready. *)
Definition idestart (b : Z) : M ide unit :=
  if b =? -1 then panic "idestart"
  else
    x ← gets (fun s => ibuf_at s b);
    if FSSIZE <=? blockno x then panic "incorrect blockno"
    else
      let sector_per_block := BSIZE / SECTOR_SIZE in
      let sector := s32 (blockno x * sector_per_block) in
      let read_cmd := if sector_per_block =? 1 then IDE_CMD_READ else IDE_CMD_RDMUL in
      let write_cmd := if sector_per_block =? 1 then IDE_CMD_WRITE else IDE_CMD_WRMUL in
      if 7 <? sector_per_block then panic "idestart"
      else
        let dirty := negb (Z.land (flags x) B_DIRTY =? 0) in
        modS (set_active (Some (mk_regs sector_per_block
          (Z.land sector 0xff) (Z.land (Z.shiftr sector 8) 0xff) (Z.land (Z.shiftr sector 16) 0xff)
          (Z.lor (Z.lor 0xe0 (Z.shiftl (Z.land (dev x) 1) 4)) (Z.land (Z.shiftr sector 24) 0x0f))
          (if dirty then write_cmd else read_cmd) (if dirty then data x else [])))).

(** The end of the queue: the last buffer reached over [qnext]. *)
Fixpoint queue_last (fuel : nat) (s : ide) (i : Z) : option Z :=
  match fuel with
  | O => None
  | S fuel => if next_of s i =? -1 then Some i else queue_last fuel s (next_of s i)
  end.
Definition queue_append (b : Z) : M ide unit := fun s =>
  let s := set_qnext b (-1) s in
  if qhead s =? -1 then Ok tt (set_qhead b s)
  else
    match queue_last (length (qnext s)) s (qhead s) with
    | Some t => Ok tt (set_qnext t b s)
    | None => NoFuel
    end.

(** [iderw] by the process [pid] up to its wait, and the test on which it waits. *)
Definition iderw_submit (pid b : Z) : M ide unit :=
  x ← gets (fun s => ibuf_at s b);
  d1 ← gets disk1;
  if negb (holdingsleep pid (lock x)) then panic "iderw: buf not locked"
  else if Z.land (flags x) (Z.lor B_VALID B_DIRTY) =? B_VALID then panic "iderw: nothing to do"
  else if negb (dev x =? 0) && negb d1 then panic "iderw: ide disk 1 not present"
  else
    queue_append b ;;
    h ← gets qhead;
    if h =? b then idestart b else mret tt.
Definition iderw_done (s : ide) (b : Z) : bool :=
  Z.land (flags (ibuf_at s b)) (Z.lor B_VALID B_DIRTY) =? B_VALID.

(** The interrupt handler: [ok] is the answer of [idewait(1)], [input] what the
    data port delivers. *)
Definition ideintr (ok : bool) (input : list Z) : M ide unit :=
  b ← gets qhead;
  if b =? -1 then mret tt
  else
    n ← gets (fun s => next_of s b);
    modS (set_qhead n) ;;
    x ← gets (fun s => ibuf_at s b);
    let x := if (Z.land (flags x) B_DIRTY =? 0) && ok then with_data input x else x in
    modS (set_ib b (with_flags (Z.ldiff (Z.lor (flags x) B_VALID) B_DIRTY) x)) ;;
    if n =? -1 then mret tt else idestart n.

(** ** The disk *)

(** The block a command names: drive and logical block address. *)
Definition regs_block (r : ide_regs) : Z * Z :=
  (Z.land (Z.shiftr (r_drive r) 4) 1,
   Z.lor (Z.lor (r_lba0 r) (Z.shiftl (r_lba1 r) 8))
         (Z.lor (Z.shiftl (r_lba2 r) 16) (Z.shiftl (Z.land (r_drive r) 0x0f) 24))).
(** The disk after the command, and what a read delivers. *)
Definition disk_does (o : outcome) (r : ide_regs) (d : gmap (Z * Z) (list Z)) : gmap (Z * Z) (list Z) :=
  if r_cmd r =? IDE_CMD_WRITE
  then <[regs_block r := match o with Done => r_data r | Failed junk => junk end]> d else d.
Definition disk_reads (r : ide_regs) (d : gmap (Z * Z) (list Z)) : list Z :=
  default zero_block (d !! regs_block r).

(** The command in progress ends, with an error or without, and the handler runs. *)
Definition succeeds (o : outcome) : bool := match o with Done => true | Failed _ => false end.
Definition completes (o : outcome) (s : ide) : res ide unit :=
  match active s with
  | Some r => ideintr (succeeds o) (disk_reads r (platter s))
                (set_active None (set_platter (disk_does o r (platter s)) s))
  | None => Ok tt s
  end.

(** ** The queue *)

Fixpoint qchain (s : ide) (h : Z) (qs : list Z) : Prop :=
  match qs with
  | [] => h = -1
  | i :: r => h = i /\ 0 <= i < Z.of_nat (length (qnext s)) /\ qchain s (next_of s i) r
  end.

(** The registers for a buffer. *)
Definition regs_of (x : buf) : ide_regs :=
  let dirty := negb (Z.land (flags x) B_DIRTY =? 0) in
  mk_regs 1 (Z.land (blockno x) 0xff) (Z.land (Z.shiftr (blockno x) 8) 0xff) (Z.land (Z.shiftr (blockno x) 16) 0xff)
    (Z.lor (Z.lor 0xe0 (Z.shiftl (Z.land (dev x) 1) 4)) (Z.land (Z.shiftr (blockno x) 24) 0x0f))
    (if dirty then IDE_CMD_WRITE else IDE_CMD_READ) (if dirty then data x else []).

(** A buffer that [iderw] accepts. *)
Record request_ok (s : ide) (b : Z) : Prop := {
  rq_index : 0 <= b < Z.of_nat (length (ib s));
  rq_block : 0 <= blockno (ibuf_at s b) < FSSIZE;
  rq_locked : locked (lock (ibuf_at s b)) = true;
  rq_todo : iderw_done s b = false;
  rq_disk : dev (ibuf_at s b) = 0 \/ disk1 s = true
}.

Record ide_inv (s : ide) (qs : list Z) : Prop := {
  iv_len : length (qnext s) = length (ib s);
  iv_chain : qchain s (qhead s) qs;
  iv_nodup : NoDup qs;
  iv_req : forall b, b ∈ qs -> request_ok s b;
  iv_active : active s = match qs with [] => None | b :: _ => Some (regs_of (ibuf_at s b)) end
}.

Lemma two_bytes z : 0 <= z < 65536 ->
  Z.lor (Z.land z 255) (Z.shiftl (Z.land (Z.shiftr z 8) 255) 8) = z.
Proof.
  intros Hz. apply Z.bits_inj'. intros k Hk. change 255 with (Z.ones 8).
  rewrite Z.lor_spec, Z.land_spec, Z.shiftl_spec, Z.testbit_ones_nonneg by lia.
  destruct (Z.ltb_spec k 8); [rewrite (Z.testbit_neg_r _ (k - 8)) by lia; by rewrite orb_false_r, andb_true_r|].
  rewrite Z.land_spec, Z.shiftr_spec, Z.testbit_ones_nonneg by lia. rewrite andb_false_r, orb_false_l.
  replace (k - 8 + 8) with k by lia. destruct (Z.ltb_spec (k - 8) 8); [apply andb_true_r|].
  rewrite andb_false_r. symmetry. replace z with (z mod 2 ^ 16) by lia. apply Z.mod_pow2_bits_high. lia.
Qed.

Lemma regs_of_block x : 0 <= blockno x < FSSIZE ->
  regs_block (regs_of x) = (Z.land (dev x) 1, blockno x).
Proof.
  intros Hb. unfold regs_block, regs_of. cbn [r_drive r_lba0 r_lba1 r_lba2]. unfold FSSIZE in Hb.
  assert (Hhi : Z.shiftr (blockno x) 16 = 0 /\ Z.shiftr (blockno x) 24 = 0)
    by (rewrite !Z.shiftr_div_pow2 by lia; lia).
  destruct Hhi as [-> ->].
  assert (Hd : Z.land (dev x) 1 = 0 \/ Z.land (dev x) 1 = 1)
    by (change 1 with (Z.ones 1) at 1 2; rewrite Z.land_ones by lia; change (2 ^ 1) with 2; lia).
  f_equal.
  - destruct Hd as [-> | ->]; reflexivity.
  - transitivity (Z.lor (Z.land (blockno x) 255) (Z.shiftl (Z.land (Z.shiftr (blockno x) 8) 255) 8)).
    + destruct Hd as [-> | ->]; cbn; by rewrite ?Z.lor_0_r.
    + apply two_bytes. lia.
Qed.

(** [idestart] on a buffer that [iderw] accepts. *)
Lemma idestart_ok s b : request_ok s b -> b <> -1 ->
  idestart b s = Ok tt (set_active (Some (regs_of (ibuf_at s b))) s).
Proof.
  intros R Hb. unfold idestart. rewrite (proj2 (Z.eqb_neq b (-1))) by done.
  unfold gets, mbind, M_bind. pose proof (rq_block s b R) as Hr.
  rewrite (proj2 (Z.leb_gt FSSIZE _)) by lia. change (BSIZE / SECTOR_SIZE) with 1. cbn [Z.eqb Pos.eqb].
  change (7 <? 1) with false. cbn iota. rewrite Z.mul_1_r, s32_small by (unfold FSSIZE in *; lia). done.
Qed.

(** A chain depends on the links of its members only. *)
Lemma qchain_frame s s' h qs : length (qnext s') = length (qnext s) ->
  (forall i, i ∈ qs -> next_of s' i = next_of s i) -> qchain s h qs -> qchain s' h qs.
Proof.
  intros Hl. revert h. induction qs as [|i r IH]; intros h Hn; [done|]. cbn [qchain].
  intros (-> & Hi & Hr). split; [done|]. rewrite Hl, Hn by constructor. split; [done|].
  apply IH; [|done]. intros j Hj. apply Hn. by constructor.
Qed.

Lemma qchain_last s qs : forall h fuel b, qchain s h (qs ++ [b]) -> (length qs < fuel)%nat ->
  queue_last fuel s h = Some b.
Proof.
  induction qs as [|i r IH]; intros h fuel b H Hf; (destruct fuel as [|fuel]; [lia|]);
    cbn [app qchain queue_last] in *.
  - destruct H as (-> & _ & ->). done.
  - destruct H as (-> & Hi & Hr).
    assert (next_of s i <> -1) by (destruct r; cbn in Hr; lia).
    rewrite (proj2 (Z.eqb_neq _ _)) by done. apply IH; [done|]. cbn in Hf. lia.
Qed.

Lemma qchain_snoc s qs b : forall h, qchain s h qs -> 0 <= b < Z.of_nat (length (qnext s)) ->
  NoDup qs -> b ∉ qs -> next_of s b = -1 ->
  forall t, last qs = Some t -> qchain (set_qnext t b s) h (qs ++ [b]).
Proof.
  induction qs as [|i r IH]; intros h H Hb Hn Hni Hnb t Ht; [done|].
  cbn [app qchain] in *. destruct H as (-> & Hi & Hr). apply NoDup_cons in Hn as [Hir Hn].
  apply not_elem_of_cons in Hni as [Hbi Hbr]. cbn [qnext set_qnext]. rewrite length_updZ.
  split; [done|]. split; [done|]. destruct r as [|j r'].
  - injection Ht as ->. cbn in Hr |- *. unfold next_of. cbn [qnext set_qnext].
    rewrite nthZ_updZ_eq by done. rewrite nthZ_updZ_ne by (intros ->; done). rewrite length_updZ.
    split_and!; [done|lia|lia|exact Hnb].
  - assert (Hti : t <> i).
    { intros ->. apply Hir. change (last (j :: r') = Some i) in Ht. by apply last_Some_elem_of in Ht. }
    unfold next_of at 1. cbn [qnext set_qnext]. rewrite nthZ_updZ_ne by done.
    by apply IH.
Qed.

Lemma queue_short s qs : ide_inv s qs -> (length qs <= length (qnext s))%nat.
Proof.
  intros I. rewrite (iv_len s qs I).
  assert (Hs : qs ⊆+ seqZ 0 (Z.of_nat (length (ib s)))).
  { apply NoDup_submseteq; [apply I|]. intros b Hb. apply elem_of_seqZ.
    pose proof (rq_index s b (iv_req s qs I b Hb)). lia. }
  apply submseteq_length in Hs. rewrite length_seqZ in Hs. lia.
Qed.

Lemma request_frame s s' b : ib s' = ib s -> disk1 s' = disk1 s -> request_ok s b -> request_ok s' b.
Proof.
  intros Hi Hd [H1 H2 H3 H4 H5]. unfold iderw_done, ibuf_at in *.
  split; unfold iderw_done, ibuf_at; rewrite ?Hi, ?Hd; done.
Qed.

(** Appending a buffer. *)
Lemma append_ok s qs b : ide_inv s qs -> request_ok s b -> b ∉ qs ->
  exists s', queue_append b s = Ok tt s' /\ qchain s' (qhead s') (qs ++ [b])
    /\ qhead s' = hd b qs /\ length (qnext s') = length (qnext s)
    /\ ib s' = ib s /\ platter s' = platter s /\ disk1 s' = disk1 s /\ active s' = active s.
Proof.
  intros I R Hb. unfold queue_append. pose proof (rq_index s b R) as Hi. rewrite <-(iv_len s qs I) in Hi.
  set (s0 := set_qnext b (-1) s).
  assert (Hl0 : length (qnext s0) = length (qnext s)) by (cbn; by rewrite length_updZ).
  assert (Hc0 : qchain s0 (qhead s) qs).
  { eapply qchain_frame; [exact Hl0| |apply I]. intros i Hiq. unfold next_of. cbn.
    apply nthZ_updZ_ne. by intros ->. }
  assert (Hn0 : next_of s0 b = -1) by (unfold next_of; cbn; by apply nthZ_updZ_eq).
  change (qhead s0) with (qhead s). destruct qs as [|h qs'] eqn:Eq.
  - rewrite (iv_chain s [] I : qhead s = -1). cbn [Z.eqb Pos.eqb].
    eexists. split; [reflexivity|]. cbn [qhead set_qhead qnext ib platter disk1 active s0 set_qnext hd].
    cbn [app qchain]. split.
    { split; [done|]. cbn [qnext set_qhead]. rewrite Hl0. split; [done|exact Hn0]. }
    split; [done|]. split; [exact Hl0|done].
  - destruct (exists_last (l := h :: qs') ltac:(done)) as (q0 & t & Ht).
    assert (Hh : qhead s = h) by apply Hc0.
    assert (Hhr : 0 <= h) by (cbn in Hc0; lia). rewrite Hh in Hc0 |- *.
    rewrite (proj2 (Z.eqb_neq _ _)) by lia.
    pose proof (queue_short s _ I) as Hsh. rewrite Ht, length_app in Hsh. cbn in Hsh.
    rewrite (qchain_last s0 q0 h (length (qnext s0)) t) by (rewrite <-?Ht; try done; lia).
    eexists. split; [reflexivity|]. change (qhead (set_qnext t b s0)) with (qhead s). rewrite Hh. split.
    { apply qchain_snoc; try done; [by rewrite Hl0|apply I|rewrite Ht; apply last_snoc]. }
    split; [done|]. split; [cbn [qnext set_qnext]; by rewrite length_updZ|done].
Qed.

Lemma submit_ok s qs pid b : ide_inv s qs -> request_ok s b -> holdingsleep pid (lock (ibuf_at s b)) = true ->
  b ∉ qs -> exists s', iderw_submit pid b s = Ok tt s' /\ ide_inv s' (qs ++ [b])
    /\ ib s' = ib s /\ platter s' = platter s /\ disk1 s' = disk1 s.
Proof.
  intros I R Hp Hb. destruct (append_ok s qs b I R Hb) as (s1 & E & Hc & Hh & Hl & Hib & Hpl & Hd & Ha).
  unfold iderw_submit, gets. unfold mbind at 1 2, M_bind at 1 2. rewrite Hp. cbn [negb].
  pose proof (rq_todo s b R) as Ht. unfold iderw_done in Ht. rewrite Ht.
  replace (negb (dev (ibuf_at s b) =? 0) && negb (disk1 s)) with false
    by (destruct (rq_disk s b R) as [-> | ->]; cbn; by rewrite ?andb_false_r).
  rewrite (bind_Ok _ _ _ _ _ E). unfold mbind, M_bind.
  assert (Hreq : forall c, c ∈ qs ++ [b] -> request_ok s1 c).
  { intros c [Hc1 | ->%list_elem_of_singleton]%elem_of_app; (eapply request_frame; [done|done|]); [by apply (iv_req s qs I)|done]. }
  assert (Hnd : NoDup (qs ++ [b])).
  { apply NoDup_app. split_and!; [apply I|intros c Hc1 ->%list_elem_of_singleton; done|apply NoDup_singleton]. }
  destruct qs as [|h qs'].
  - cbn in Hh. rewrite Hh, Z.eqb_refl. pose proof (rq_index s b R).
    rewrite (idestart_ok s1 b); [|apply Hreq; set_solver|lia].
    eexists. split; [reflexivity|]. split; [|by split_and!]. split; cbn [qnext ib qhead active set_active app].
    + rewrite Hl, Hib. apply I.
    + exact Hc.
    + done.
    + intros c Hc1. eapply request_frame; [..|by apply Hreq]; done.
    + done.
  - cbn in Hh. assert (h <> b) by (intros ->; apply Hb; constructor).
    rewrite Hh, (proj2 (Z.eqb_neq h b)) by done.
    eexists. split; [reflexivity|]. split; [|by split_and!]. split.
    + rewrite Hl, Hib. apply I.
    + exact Hc.
    + done.
    + done.
    + cbn [app]. rewrite Ha, (iv_active _ _ I). unfold ibuf_at. by rewrite Hib.
Qed.

(** A buffer that the handler has marked is done. *)
Lemma served_flags f :
  (Z.land (Z.ldiff (Z.lor f B_VALID) B_DIRTY) (Z.lor B_VALID B_DIRTY) =? B_VALID) = true.
Proof.
  unfold B_VALID, B_DIRTY. apply Z.eqb_eq, Z.bits_inj'. intros k Hk.
  rewrite Z.land_spec, Z.ldiff_spec, Z.lor_spec.
  assert (k = 1 \/ k = 2 \/ Z.testbit (Z.lor 2 4) k = false /\ Z.testbit 2 k = false) as [->|[->|[-> ->]]].
  { destruct (decide (k = 1)); [auto|]. destruct (decide (k = 2)); [auto|]. right. right.
    change (Z.lor 2 4) with 6. split; [|change 2 with (2 ^ 1); apply Z.pow2_bits_false; lia].
    destruct (decide (k = 0)) as [->|]; [done|].
    apply Z.bits_above_log2; [lia|]. change (Z.log2 6) with 2. lia. }
  - by rewrite orb_true_r.
  - cbn. by rewrite andb_false_r.
  - by rewrite andb_false_r.
Qed.

(** The interrupt that ends a command. *)
Lemma completes_ok o s b qs : ide_inv s (b :: qs) ->
  let x := ibuf_at s b in
  let dirty := negb (Z.land (flags x) B_DIRTY =? 0) in
  let y := with_flags (Z.ldiff (Z.lor (flags x) B_VALID) B_DIRTY)
             (if negb dirty && succeeds o then with_data (disk_at (platter s) (dev x) (blockno x)) x else x) in
  let out := match o with Done => data x | Failed junk => junk end in
  exists s', completes o s = Ok tt s' /\ ide_inv s' qs /\ ib s' = updZ b y (ib s)
    /\ platter s' = (if dirty then <[(Z.land (dev x) 1, blockno x) := out]> (platter s) else platter s)
    /\ disk1 s' = disk1 s /\ iderw_done s' b = true.
Proof.
  intros I x dirty y out. pose proof (iv_req _ _ I b ltac:(constructor)) as R.
  pose proof (iv_nodup _ _ I) as Hn. apply NoDup_cons in Hn as [Hbq Hn].
  pose proof (rq_index _ _ R) as Hbi.
  unfold completes. rewrite (iv_active _ _ I). fold x. unfold disk_reads, disk_does.
  rewrite (regs_of_block x (rq_block _ _ R)). cbn [r_cmd r_data regs_of]. fold dirty.
  set (d := if (if dirty then IDE_CMD_WRITE else IDE_CMD_READ) =? IDE_CMD_WRITE
            then <[(Z.land (dev x) 1, blockno x) :=
                     match o with Done => if dirty then data x else [] | Failed junk => junk end]> (platter s)
            else platter s).
  assert (Hd : d = if dirty then <[(Z.land (dev x) 1, blockno x) := out]> (platter s) else platter s)
    by (unfold d, out; by destruct dirty, o).
  set (s1 := set_active None (set_platter d s)).
  destruct (iv_chain _ _ I) as (Hh & Hbl & Hch). set (n := next_of s b) in *.
  set (s2 := set_ib b y (set_qhead n s1)).
  assert (Hdone : iderw_done s2 b = true).
  { unfold iderw_done, ibuf_at, s2. cbn [ib set_ib]. rewrite nthZ_updZ_eq by done.
    apply served_flags. }
  assert (Hreq : forall c, c ∈ qs -> request_ok s2 c).
  { intros c Hc. assert (c <> b) by (intros ->; done).
    pose proof (iv_req _ _ I c ltac:(by constructor)) as [C1 C2 C3 C4 C5].
    assert (Hi : ibuf_at s2 c = ibuf_at s c) by (unfold ibuf_at, s2; cbn; by apply nthZ_updZ_ne).
    split; unfold iderw_done in *; rewrite ?Hi; try done. cbn. by rewrite length_updZ. }
  assert (Hchain : qchain s2 n qs) by (eapply qchain_frame; [..|exact Hch]; done).
  assert (Er : ideintr (succeeds o) (default zero_block (platter s !! (Z.land (dev x) 1, blockno x))) s1
    = (if n =? -1 then mret tt else idestart n) s2).
  { unfold ideintr, gets, modS. unfold mbind at 1, M_bind at 1. change (qhead s1) with (qhead s). rewrite Hh.
    rewrite (proj2 (Z.eqb_neq b (-1))) by lia. unfold mbind, M_bind.
    change (next_of s1 b) with n. change (ibuf_at (set_qhead n s1) b) with x.
    replace (Z.land (flags x) B_DIRTY =? 0) with (negb dirty) by (unfold dirty; by rewrite negb_involutive).
    unfold s2, y, disk_at. by destruct (negb dirty && succeeds o). }
  rewrite Er. destruct qs as [|c qs'].
  - assert (n = -1) as En by exact Hchain. rewrite En in *. exists s2. split; [done|].
    split_and!; try done. split; try done. cbn. rewrite length_updZ. apply I.
  - assert (n = c /\ 0 <= c) as [En Hc0] by (cbn in Hchain; lia). rewrite (proj2 (Z.eqb_neq n (-1))) by lia.
    rewrite En, (idestart_ok s2 c) by (lia || apply Hreq; constructor).
    eexists. split; [reflexivity|]. split; [|by split_and!]. split; cbn [qnext ib qhead active set_active].
    + cbn. rewrite length_updZ. apply I.
    + eapply qchain_frame; [..|exact Hchain]; done.
    + done.
    + intros e He. eapply request_frame; [..|by apply Hreq]; done.
    + done.
Qed.

(** ** The driver at work *)

(** [submitted] and [served] are the buffers given to the driver and those whose
    interrupt has come, in their order. *)
Record imach : Type := mk_im { drv : ide; submitted : list Z; served : list Z }.
Definition waiting (m : imach) : list Z := drop (length (served m)) (submitted m).

(** A process that holds the lock of a buffer asks for its transfer; the disk
    ends a command, with an error or without; and the holders of other buffers change them at will. *)
Inductive istep (m : imach) : imach -> Prop :=
  | I_submit pid b s' : b ∉ waiting m -> 0 <= b < Z.of_nat (length (ib (drv m))) ->
      0 <= blockno (ibuf_at (drv m) b) < FSSIZE -> iderw_submit pid b (drv m) = Ok tt s' ->
      istep m (mk_im s' (submitted m ++ [b]) (served m))
  | I_complete o s' : active (drv m) <> None -> completes o (drv m) = Ok tt s' ->
      istep m (mk_im s' (submitted m) (served m ++ [qhead (drv m)]))
  | I_touch b x : b ∉ waiting m -> istep m (mk_im (set_ib b x (drv m)) (submitted m) (served m)).

Definition ide_start (m : imach) : Prop :=
  length (qnext (drv m)) = length (ib (drv m)) /\ qhead (drv m) = -1 /\ active (drv m) = None
  /\ submitted m = [] /\ served m = [].
Definition ide_reached (m : imach) : Prop := exists m0, ide_start m0 /\ rtc istep m0 m.

Definition imach_inv (m : imach) : Prop :=
  submitted m = served m ++ waiting m /\ ide_inv (drv m) (waiting m).

Lemma waiting_eq m qs : submitted m = served m ++ qs -> waiting m = qs.
Proof. intros E. unfold waiting. rewrite E. by apply drop_app_length. Qed.

(** What a submission that returns has checked. *)
Lemma submit_checks pid b s s' : iderw_submit pid b s = Ok tt s' ->
  holdingsleep pid (lock (ibuf_at s b)) = true /\ iderw_done s b = false
  /\ (dev (ibuf_at s b) = 0 \/ disk1 s = true).
Proof.
  unfold iderw_submit, gets. unfold mbind at 1 2, M_bind at 1 2. unfold iderw_done.
  destruct (holdingsleep pid (lock (ibuf_at s b))); [cbn [negb]|done].
  destruct (Z.land _ _ =? B_VALID); [done|].
  destruct (negb (dev (ibuf_at s b) =? 0) && negb (disk1 s)) eqn:E; [done|]. intros _.
  split_and!; try done. destruct (disk1 s); [by right|]. left. lia.
Qed.

Lemma istep_inv m m' : imach_inv m -> istep m m' -> imach_inv m'.
Proof.
  intros [Hs I] S. destruct S as [pid b s' Hb Hi Hblk E|o s' Ha E|b x Hb].
  - destruct (submit_checks pid b _ _ E) as (Hp & Ht & Hd).
    assert (R : request_ok (drv m) b).
    { split; try done. unfold holdingsleep in Hp. by apply andb_prop in Hp as [? _]. }
    destruct (submit_ok _ _ pid b I R Hp Hb) as (s1 & E1 & I1 & _). rewrite E1 in E. injection E as <-.
    assert (Hs' : submitted m ++ [b] = served m ++ waiting m ++ [b]) by (by rewrite Hs at 1; rewrite <-app_assoc).
    unfold imach_inv. rewrite (waiting_eq (mk_im s1 _ _) _ Hs'). by split.
  - destruct (waiting m) as [|b qs] eqn:Ew; [by rewrite (iv_active _ _ I) in Ha|].
    destruct (completes_ok o _ _ _ I) as (s1 & E1 & I1 & _). rewrite E1 in E. injection E as <-.
    assert (Hh : qhead (drv m) = b) by apply (iv_chain _ _ I).
    assert (Hs' : submitted m = (served m ++ [qhead (drv m)]) ++ qs) by (rewrite Hs, Hh, <-app_assoc; done).
    unfold imach_inv. rewrite (waiting_eq (mk_im s1 _ _) _ Hs'). by split.
  - unfold imach_inv. change (waiting (mk_im (set_ib b x (drv m)) (submitted m) (served m))) with (waiting m).
    split; [done|]. destruct I as [H1 H2 H3 H4 H5].
    assert (Hk : forall c, c ∈ waiting m -> ibuf_at (set_ib b x (drv m)) c = ibuf_at (drv m) c)
      by (intros c Hc; unfold ibuf_at; cbn; apply nthZ_updZ_ne; by intros ->).
    split.
    + cbn. by rewrite length_updZ.
    + by eapply qchain_frame; [..|exact H2].
    + done.
    + intros c Hc. destruct (H4 c Hc) as [C1 C2 C3 C4 C5]. unfold iderw_done in *.
      split; unfold iderw_done; rewrite ?Hk by done; try done. cbn. by rewrite length_updZ.
    + etransitivity; [exact H5|]. cbn [drv]. destruct (waiting m) as [|c qs]; [done|].
      by rewrite Hk by constructor.
Qed.

Lemma ide_reached_inv m : ide_reached m -> imach_inv m.
Proof.
  intros (m0 & (Hl & Hh & Ha & Hs & Hv) & Hr).
  assert (imach_inv m0) as I.
  { unfold imach_inv, waiting. rewrite Hs, Hv. split; [done|]. split; try done; [apply NoDup_nil_2|].
    intros b Hb. by apply elem_of_nil in Hb. }
  clear -I Hr. induction Hr as [|m m1 m2 S _ IH]; [done|]. apply IH. by eapply istep_inv.
Qed.

(** ** Theorems *)

(** C24: the disk driver serves requests in their order.  However requests,
    interrupts and changes of other buffers interleave, the buffers served followed
    by those in the queue are the buffers submitted, each transfer goes to or comes
    from the block of its buffer, and while a buffer waits the disk has a command
    whose interrupt, with an error or without, serves the first in the queue without
    a panic. *)
Theorem ide_serves_in_order m : ide_reached m ->
  submitted m = served m ++ waiting m /\ NoDup (waiting m)
  /\ (forall b, b ∈ waiting m -> iderw_done (drv m) b = false)
  /\ forall b qs o, waiting m = b :: qs ->
       exists r s', active (drv m) = Some r /\ completes o (drv m) = Ok tt s'
         /\ regs_block r = (Z.land (dev (ibuf_at (drv m) b)) 1, blockno (ibuf_at (drv m) b))
         /\ istep m (mk_im s' (submitted m) (served m ++ [b])) /\ iderw_done s' b = true.
Proof.
  intros [Hs I]%ide_reached_inv. split; [done|]. split; [apply I|].
  split; [intros b Hb; apply (iv_req _ _ I b Hb)|]. intros b qs o Ew. rewrite Ew in I.
  destruct (completes_ok o _ _ _ I) as (s' & E & _ & _ & _ & _ & Hd). pose proof (iv_active _ _ I) as Ha.
  eexists _, s'. split; [exact Ha|]. split; [done|].
  split; [apply regs_of_block, (iv_req _ _ I); constructor|]. split; [|done].
  assert (Hh : qhead (drv m) = b) by apply (iv_chain _ _ I). rewrite <-Hh.
  apply (I_complete m o); [by rewrite Ha|done].
Qed.

(** C13: seen from the buffer cache a transfer is one step.  Whether the disk
    carries out a command or reports an error, the interrupt that serves a buffer
    changes buffers and disk exactly as [iderw_with] of Bio does when the process
    that holds the buffer calls it at that moment with that outcome; without an error
    that is [iderw].  After an error of a read the buffer counts as read, with the
    contents it had before. *)
Theorem ide_refines_iderw m b qs t o : ide_reached m -> waiting m = b :: qs ->
  bufs t = ib (drv m) -> disk t = platter (drv m) -> havedisk1 t = disk1 (drv m) -> nspin t = 0 ->
  lpid (lock (ibuf_at (drv m) b)) = curpid t ->
  exists s' t', completes o (drv m) = Ok tt s' /\ iderw_with o b t = Ok tt t'
    /\ bufs t' = ib s' /\ disk t' = platter s' /\ (o = Done -> iderw b t = Ok tt t')
    /\ (o <> Done -> Z.land (flags (ibuf_at (drv m) b)) B_DIRTY = 0 ->
        iderw_done s' b = true /\ data (ibuf_at s' b) = data (ibuf_at (drv m) b) /\ platter s' = platter (drv m)).
Proof.
  intros [Hs I]%ide_reached_inv Ew Hb Hd H1 Hn Hp. rewrite Ew in I.
  destruct (completes_ok o _ _ _ I) as (s' & E & _ & Hib & Hpl & _ & Hdone).
  pose proof (iv_req _ _ I b ltac:(constructor)) as [R1 R2 R3 R4 R5].
  set (x := ibuf_at (drv m) b) in *. cbv zeta in Hib, Hpl. fold x in Hib, Hpl.
  assert (W : exists t', iderw_with o b t = Ok tt t' /\ bufs t' = ib s' /\ disk t' = platter s').
  { unfold iderw_with. cbv zeta. change (getbuf t b) with (nthZ buf0 (bufs t) b). rewrite Hb.
    fold (ibuf_at (drv m) b). fold x. unfold holdingsleep. rewrite R3, Hp, Z.eqb_refl. cbn [andb negb].
    unfold iderw_done in R4. fold x in R4. rewrite R4.
    replace (negb (dev x =? 0) && negb (havedisk1 t)) with false
      by (rewrite H1; destruct R5 as [-> | ->]; cbn; by rewrite ?andb_false_r).
    rewrite (proj2 (Z.leb_gt FSSIZE _)), Hn by lia. cbn [Z.eqb negb].
    destruct (Z.land (flags x) B_DIRTY =? 0); cbn [negb andb] in Hib, Hpl;
      (eexists; split; [reflexivity|]); cbn [bufs disk setbuf]; rewrite Hib, Hpl, ?Hb, ?Hd; [|done].
    split; [|done]. destruct o; cbn [succeeds]; [done|]. by destruct x. }
  destruct W as (t' & Et & Hbt & Hdt). exists s', t'. split_and!; try done; [by intros ->|].
  intros Ho Hc. split; [done|]. rewrite Hc in Hib, Hpl. cbn [Z.eqb negb andb] in Hib, Hpl. split; [|done].
  unfold ibuf_at at 1. rewrite Hib, nthZ_updZ_eq by done. destruct o; [done|]. done.
Qed.

(** Three buffers; the process 7 wants the first read and the second written. *)
Definition demo_bufs : list buf :=
  [ mk_buf 0 1 40 (mk_lock true 7) 1 zero_block;
    mk_buf 6 1 41 (mk_lock true 7) 1 (replicate 512 9); buf0 ].
Definition demo_ide : ide :=
  mk_ide demo_bufs [0; 0; 0] (-1) None {[ (1, 40) := replicate 512 5 ]} true.
Definition after_ide (r : res ide unit) : ide := match r with Ok _ s => s | _ => demo_ide end.
Definition demo_queue : imach :=
  mk_im (after_ide (iderw_submit 7 1 (after_ide (iderw_submit 7 0 demo_ide)))) [0; 1] [].

Lemma demo_queue_reached : ide_reached demo_queue.
Proof.
  exists (mk_im demo_ide [] []). split; [by split_and!|].
  eapply (rtc_l _ _ (mk_im (after_ide (iderw_submit 7 0 demo_ide)) [0] [])).
  { apply (I_submit (mk_im demo_ide [] []) 7 0); [apply not_elem_of_nil|vm_compute; done|vm_compute; done|vm_compute; reflexivity]. }
  apply rtc_once.
  apply (I_submit (mk_im (after_ide (iderw_submit 7 0 demo_ide)) [0] []) 7 1);
    [vm_compute; set_solver|vm_compute; done|vm_compute; done|vm_compute; reflexivity].
Qed.

Lemma ide_serves_in_order_witness : submitted demo_queue = served demo_queue ++ waiting demo_queue
  /\ exists r s', active (drv demo_queue) = Some r /\ completes Done (drv demo_queue) = Ok tt s'
       /\ regs_block r = (1, 40) /\ iderw_done s' 0 = true.
Proof.
  destruct (ide_serves_in_order demo_queue demo_queue_reached) as (H1 & _ & _ & H2). split; [exact H1|].
  destruct (H2 0 [1] Done eq_refl) as (r & s' & Ha & Hc & Hb & _ & Hd). by exists r, s'.
Defined.

Definition demo_cache : bst :=
  mk_bst (ib (drv demo_queue)) [] [] (platter (drv demo_queue)) [] true 7 0.

(** The read of block 40 succeeds, or fails and delivers what the buffer held. *)
Lemma ide_refines_iderw_witness :
  (exists s' t', completes Done (drv demo_queue) = Ok tt s' /\ iderw 0 demo_cache = Ok tt t'
     /\ bufs t' = ib s' /\ disk t' = platter s')
  /\ exists s', completes (Failed []) (drv demo_queue) = Ok tt s' /\ iderw_done s' 0 = true
       /\ data (ibuf_at s' 0) = zero_block.
Proof.
  split.
  - destruct (ide_refines_iderw demo_queue 0 [1] demo_cache Done demo_queue_reached)
      as (s' & t' & E & _ & Hb & Hd & Hi & _); try (vm_compute; reflexivity).
    exists s', t'. exact (conj E (conj (Hi eq_refl) (conj Hb Hd))).
  - destruct (ide_refines_iderw demo_queue 0 [1] demo_cache (Failed []) demo_queue_reached)
      as (s' & t' & E & _ & _ & _ & _ & Hf); try (vm_compute; reflexivity).
    destruct Hf as (H1 & H2 & _); [discriminate|reflexivity|]. exists s'. exact (conj E (conj H1 H2)).
Defined.
