(* ===== verification/Usermem.v ===== *)
(** * Usermem: the kernel's accesses to user memory are safe

    The routines that fetch system call arguments (src/kernel/syscall.c) check
    addresses against the size of the process.  While every page below that size
    is mapped writable, what they accept can be read and written by the kernel
    without a fault, and a write changes nothing but the bytes of the buffer. *)

From Stdlib Require Import ZArith Lia ZifyBool.
From stdpp Require Import base gmap strings numbers list.
From S2P Require Import Prelude CString Bio Log Fs Kalloc Vm Paging Uvm Ualloc Ucopy Proc Procinv.
From S2P Require Import Conout Kernel Syscall.

Local Open Scope Z_scope.
#[local] Ltac Zify.zify_post_hook ::= Z.to_euclidean_division_equations.

(** ** The memory of the running process *)

(** The page tables in use are those at [d], and every page below [n] is mapped
    writable. *)
Record uspace (kend : Z) (v : vst) (n d : Z) (l : list Z) (T U : gmap Z Z) (X : list Z) : Prop := {
  us_vm : vm_ok kend v l d T U X;
  us_cr3 : cr3 v = V2P d;
  us_sz : 0 <= n < KERNBASE;
  us_map : forall k, 0 <= k < pgs n -> exists e, U !! k = Some e /\ has PTE_W e = true
}.

Section usermem.
Context (kend : Z).
Section space.
Context (n d : Z) (l : list Z) (T U : gmap Z Z) (X : list Z).

Lemma us_entry v va : uspace kend v n d l T U X -> 0 <= va < n ->
  exists e, U !! (va / 4096) = Some e /\ has PTE_W e = true /\ has PTE_P e = true /\ page_ok kend (frame e).
Proof.
  intros S Hva. destruct (us_map _ _ _ _ _ _ _ _ S (va / 4096)) as (e & He & HW); [unfold pgs; lia|].
  pose proof (us_sz _ _ _ _ _ _ _ _ S). exists e.
  destruct (as_dom _ _ _ _ (vo_as _ _ _ _ _ _ _ (us_vm _ _ _ _ _ _ _ _ S)) _ _ He) as (_ & _ & HP).
  destruct (vo_frame kend _ _ _ _ _ _ _ e (us_vm _ _ _ _ _ _ _ _ S) He) as (Hf & _);
    [unfold UPAGES, KERNBASE, PGSIZE in *; lia|]. done.
Qed.

(** The translation of an address below the size does not fault. *)
Lemma uaddr_ok v va w : uspace kend v n d l T U X -> 0 <= va < n ->
  exists e, U !! (va / 4096) = Some e /\ page_ok kend (frame e)
    /\ uaddr w va v = Ok (frame e + va mod 4096) v.
Proof.
  intros S Hva. destruct (us_entry v va S Hva) as (e & He & HW & HP & Hf).
  exists e. split; [done|]. split; [done|]. pose proof (us_vm _ _ _ _ _ _ _ _ S) as V.
  pose proof (us_sz _ _ _ _ _ _ _ _ S) as Hsz. pose proof (vo_as _ _ _ _ _ _ _ V) as A.
  destruct (as_dom _ _ _ _ A _ _ He) as (_ & [t Ht] & _).
  replace (va / 4096 / 1024) with (va / 4194304) in Ht by lia.
  assert (Hpt : page_ok kend t) by (apply (vo_tabs _ _ _ _ _ _ _ V), elem_of_tabs; eauto).
  pose proof (vo_pgdir _ _ _ _ _ _ _ V) as Hd.
  destruct (pde_flags kend t Hpt) as (_ & Hp7 & Hta).
  assert (Hw7 : has PTE_W (V2P t + 7) = true)
    by (apply (has_entry 2 (V2P t) 7); [apply (page_V2P kend t Hpt)|lia|lia]).
  assert (E1 : kload (d + 4 * PDX va) v = Ok (V2P t + 7) v)
    by (rewrite (vo_load_pde _ _ _ _ _ _ _ V), Ht by (unfold KERNBASE in *; lia); done).
  assert (E2 : kload (t + 4 * PTX va) v = Ok e v).
  { unfold kload. rewrite PTX_eq. destruct (page_word kend t (va / 4096 mod 1024) Hpt) as [_ ->]; [lia|].
    rewrite (as_pte _ _ _ _ A _ _ _ Ht) by lia.
    replace (1024 * (va / 4194304) + va / 4096 mod 1024) with (va / 4096) by lia. by rewrite He. }
  unfold uaddr, gets, mbind, M_bind. rewrite (us_cr3 _ _ _ _ _ _ _ _ S), P2V_V2P by apply Hd.
  rewrite E1, Hp7, Hw7, Hta. cbn [negb orb andb]. rewrite andb_false_r, E2, HP, HW. cbn [negb orb andb].
  by rewrite andb_false_r.
Qed.

Lemma frame_window va e : page_ok kend (frame e) -> in_window (frame e + va mod 4096) = true.
Proof. unfold page_ok, in_window, PGSIZE, KERNBASE, PHYSTOP. lia. Qed.

Lemma uload8_ok v va : uspace kend v n d l T U X -> 0 <= va < n ->
  exists b, uload8 va v = Ok b v /\ user_byte (mem v) d va = Some b /\ 0 <= b < 256.
Proof.
  intros S Hva. destruct (uaddr_ok v va false S Hva) as (e & He & Hf & E).
  exists (ld8 (mem v) (frame e + va mod 4096)). split; [|split; [|apply ld8_range]].
  - unfold uload8. rewrite (bind_Ok _ _ _ _ _ E). unfold kload8. by rewrite frame_window.
  - pose proof (us_sz _ _ _ _ _ _ _ _ S). unfold user_byte.
    rewrite (vo_xlate _ _ _ _ _ _ _ (us_vm _ _ _ _ _ _ _ _ S)), He by (unfold KERNBASE in *; lia). done.
Qed.

Lemma ustore8_ok v va b : uspace kend v n d l T U X -> 0 <= va < n -> 0 <= b < 256 ->
  exists v', ustore8 va b v = Ok tt v' /\ uspace kend v' n d l T U X
    /\ forall a, 0 <= a < KERNBASE ->
         user_byte (mem v') d a = if decide (a = va) then Some b else user_byte (mem v) d a.
Proof.
  intros S Hva Hb. destruct (uaddr_ok v va true S Hva) as (e & He & Hf & E).
  pose proof (us_sz _ _ _ _ _ _ _ _ S) as Hsz.
  destruct (copy_chunk kend l d T U X v va e [b] (us_vm _ _ _ _ _ _ _ _ S) He) as (v' & Ev & V' & Hu);
    [lia|by constructor|done|cbn; lia|].
  unfold kmemmove in Ev. case_match; [|done]. injection Ev as <-.
  exists (set_mem (st8 (frame e + va mod 4096) b (mem v)) v). split_and!.
  - unfold ustore8. rewrite (bind_Ok _ _ _ _ _ E). unfold kstore8. by rewrite frame_window.
  - split; [exact V'|apply S|done|apply S].
  - intros a Ha. specialize (Hu a Ha). etransitivity; [exact Hu|]. cbn [length].
    destruct (decide (a = va)) as [->|]; [rewrite decide_True by lia; by rewrite Z.sub_diag|].
    by rewrite decide_False by lia.
Qed.
End space.
End usermem.

(** ** Buffers *)

Lemma mapM_ok {S A B} (f : A -> M S B) (g : A -> B) (l : list A) (s : S) :
  (forall x, x ∈ l -> f x s = Ok (g x) s) -> mapM f l s = Ok (map g l) s.
Proof.
  induction l as [|x l IH]; intros H; [done|]. cbn [mapM map].
  erewrite bind_Ok by (apply H; by constructor).
  erewrite bind_Ok by (apply IH; intros y Hy; apply H; by constructor). done.
Qed.

(** [k] bytes of user memory at [va]. *)
Definition user_bytes (v : vst) (d va k : Z) : list Z :=
  map (fun i => default 0 (user_byte (mem v) d (va + i))) (seqZ 0 k).

(** The memory of the current process is sound. *)
Definition user_space (kend : Z) (s : kst) (l : list Z) (T U : gmap Z Z) (X : list Z) : Prop :=
  uspace kend (kvm s) (sz (curproc s)) (pgdir (curproc s)) l T U X.

Section buffers.
Context (kend : Z) (l : list Z) (T U : gmap Z Z) (X : list Z).

Lemma ubytes_ok s va k : user_space kend s l T U X -> 0 <= va -> va + k <= sz (curproc s) ->
  ubytes va k s = Ok (user_bytes (kvm s) (pgdir (curproc s)) va k) s.
Proof.
  intros S Hva Hk. unfold ubytes, vmM, lift. pose proof (us_sz _ _ _ _ _ _ _ _ S).
  rewrite (mapM_ok _ (fun i => default 0 (user_byte (mem (kvm s)) (pgdir (curproc s)) (va + i)))).
  - by destruct s.
  - intros i [Hi1 Hi2]%elem_of_seqZ. rewrite u32_small by (unfold KERNBASE in *; lia).
    destruct (uload8_ok kend _ _ _ _ _ _ _ (va + i) S) as (b & E & Hb & _); [lia|]. by rewrite Hb.
Qed.

(** [v'] is [v] with the bytes [bs] at [va]. *)
Definition overwrites (d va : Z) (bs : list Z) (v v' : vst) : Prop :=
  forall a, 0 <= a < KERNBASE -> user_byte (mem v') d a
    = if decide (va <= a < va + Z.of_nat (length bs)) then bs !! Z.to_nat (a - va)
      else user_byte (mem v) d a.

Lemma ustore_ok n d va bs v : uspace kend v n d l T U X -> 0 <= va ->
  va + Z.of_nat (length bs) <= n -> Forall (fun b => 0 <= b < 256) bs ->
  forall base, wp (forM (imap (fun i b => (Z.of_nat (base + i), b)) bs)
                   (fun '(i, b) => ustore8 (u32 (va - Z.of_nat base + i)) b))
    (fun _ v' => uspace kend v' n d l T U X /\ overwrites d va bs v v') v.
Proof.
  intros Us Hva Hn Hb. revert va v Us Hva Hn. induction Hb as [|b bs Hb Hbs IH]; intros va v Us Hva Hn base.
  - cbn. split; [done|]. intros a Ha. cbn. by rewrite decide_False by lia.
  - cbn [imap forM length] in *. pose proof (us_sz _ _ _ _ _ _ _ _ Us) as Hsz.
    replace (u32 (va - Z.of_nat base + Z.of_nat (base + 0))) with va
      by (rewrite u32_small; unfold KERNBASE in *; lia).
    destruct (ustore8_ok kend _ _ _ _ _ _ v va b Us) as (v1 & E & S1 & H1); [lia|done|].
    unfold wp. rewrite (bind_Ok _ _ _ _ _ E).
    specialize (IH (va + 1) v1 S1 ltac:(lia) ltac:(lia) (S base)).
    rewrite (imap_ext _ (fun i b => (Z.of_nat (S base + i), b))).
    2:{ intros i x _. cbn. do 2 f_equal. lia. }
    replace (va - Z.of_nat base) with (va + 1 - Z.of_nat (S base)) by lia.
    eapply wp_mono; [exact IH|]. intros [] v2 [S2 H2]. split; [done|].
    intros a Ha. rewrite H2, H1 by done. cbn [length].
    destruct (decide (a = va)) as [->|Hne].
    + rewrite decide_False, decide_True by lia. by rewrite Z.sub_diag.
    + case_decide; [rewrite decide_True by lia|by rewrite decide_False by lia].
      replace (Z.to_nat (a - va)) with (S (Z.to_nat (a - (va + 1)))) by lia. done.
Qed.
End buffers.

(** ** Fetching arguments *)

Section args.
Context (kend : Z) (l : list Z) (T U : gmap Z Z) (X : list Z).
Abbreviation user_space s := (user_space kend s l T U X).

(** The word that the process has at [a], if it lies below its size, and the
    [n]th argument of the system call, counted from the return address on. *)
Definition user_word (s : kst) (a : Z) : option Z :=
  if a + 4 <=? sz (curproc s)
  then Some (s32 (le_decode (user_bytes (kvm s) (pgdir (curproc s)) a 4))) else None.
Definition user_arg (s : kst) (n : Z) : option Z :=
  user_word s (u32 (esp (tf (curproc s)) + 4 + 4 * n)).

Lemma fetchint_ok s addr : user_space s -> 0 <= addr < 2 ^ 32 -> fetchint addr s = Ok (user_word s addr) s.
Proof.
  intros S Ha. unfold fetchint, user_word, myproc, gets. unfold mbind at 1, M_bind at 1.
  pose proof (us_sz _ _ _ _ _ _ _ _ S). destruct (Z.leb_spec (addr + 4) (sz (curproc s))).
  - rewrite (proj2 (orb_false_iff _ _)) by (unfold u32, KERNBASE in *; lia).
    by erewrite bind_Ok by (apply (ubytes_ok kend l T U X); [done|lia|done]).
  - rewrite (proj2 (orb_true_iff _ _)); [done|]. unfold u32, KERNBASE in *. lia.
Qed.

Lemma argint_ok s n : user_space s -> argint n s = Ok (user_arg s n) s.
Proof.
  intros S. unfold argint, myproc, gets, mbind, M_bind. apply fetchint_ok; [done|]. apply u32_range.
Qed.

Lemma argptr_eq s n size : user_space s ->
  argptr n size s = Ok (match user_arg s n with
    | None => None
    | Some i =>
        if (size <? 0) || (sz (curproc s) <=? u32 i) || (sz (curproc s) <? u32 (u32 i + size))
        then None else Some (u32 i)
    end) s.
Proof.
  intros S. unfold argptr, myproc, gets. unfold mbind at 1, M_bind at 1.
  rewrite (bind_Ok _ _ _ _ _ (argint_ok s n S)). destruct (user_arg s n); [|done]. by case_match.
Qed.

(** The search for the NUL, from [a] on. *)
Lemma find_nul s a k : user_space s -> 0 <= a -> a + k <= sz (curproc s) ->
  exists r, forR (seqZ a k) (fun b => c ← vmM (uload8 b); mret (if c =? 0 then Some (b - a) else None)) s = Ok r s
  /\ (r = None -> forall b, a <= b < a + k -> user_byte (mem (kvm s)) (pgdir (curproc s)) b <> Some 0)
  /\ forall len, r = Some len -> 0 <= len < k
     /\ user_bytes (kvm s) (pgdir (curproc s)) a (len + 1)
        = user_bytes (kvm s) (pgdir (curproc s)) a len ++ [0]
     /\ 0 ∉ user_bytes (kvm s) (pgdir (curproc s)) a len.
Proof.
  intros S Ha Hk. set (g := fun i => default 0 (user_byte (mem (kvm s)) (pgdir (curproc s)) (a + i))).
  assert (Hload : forall b, a <= b < a + k -> vmM (uload8 b) s = Ok (g (b - a)) s).
  { intros b Hb. destruct (uload8_ok kend _ _ _ _ _ _ _ b S) as (c & E & Hc & _); [lia|].
    unfold vmM, lift. rewrite E. unfold g. replace (a + (b - a)) with b by lia. rewrite Hc. by destruct s. }
  enough (Hw : wp (forR (seqZ a k) (fun b => c ← vmM (uload8 b); mret (if c =? 0 then Some (b - a) else None)))
    (fun r s' => s' = s /\ (r = None -> forall j, 0 <= j < k -> g j <> 0)
       /\ forall len, r = Some len -> 0 <= len < k /\ g len = 0 /\ forall j, 0 <= j < len -> g j <> 0) s).
  { apply wp_run in Hw as (r & s' & E & -> & Hnone & Hr). exists r. split; [done|]. split.
    { intros Er b Hb H0. apply (Hnone Er (b - a)); [lia|]. unfold g.
      replace (a + (b - a)) with b by lia. by rewrite H0. }
    intros len El.
    destruct (Hr len El) as (Hlen & H0 & Hn). split; [done|]. unfold user_bytes. fold g. split.
    - rewrite seqZ_app by lia. rewrite map_app. f_equal. rewrite Z.add_0_l.
      rewrite seqZ_cons, seqZ_nil by lia. cbn [map]. by rewrite H0.
    - change (map g (seqZ 0 len)) with (g <$> seqZ 0 len). intros (j & E0 & Hj%elem_of_seqZ)%list_elem_of_fmap.
      by apply (Hn j); [lia|]. }
  apply (wp_forR _ _ (fun dn s' => s' = s /\ forall j, 0 <= j < Z.of_nat (length dn) -> g j <> 0)).
  - split; [done|]. cbn. lia.
  - intros dn x rest s' Hl [-> Hn].
    assert (x = a + Z.of_nat (length dn) /\ Z.of_nat (length dn) < k) as [-> Hlt].
    { assert (E : seqZ a k !! length dn = Some x) by (rewrite Hl, lookup_app_r, Nat.sub_diag by lia; done).
      apply lookup_seqZ in E as [-> ?]. done. }
    unfold wp. rewrite (bind_Ok _ _ _ _ _ (Hload (a + Z.of_nat (length dn)) ltac:(lia))). cbn [mret M_ret].
    unfold mret, M_ret.
    replace (a + Z.of_nat (length dn) - a) with (Z.of_nat (length dn)) by lia.
    destruct (Z.eqb_spec (g (Z.of_nat (length dn))) 0) as [E0|E0].
    + split; [done|]. split; [done|]. intros len [= <-]. split_and!; [lia|lia|done|done].
    + split; [done|]. rewrite length_app. cbn [length]. intros j Hj.
      destruct (decide (j = Z.of_nat (length dn))) as [->|]; [done|]. apply Hn. lia.
  - intros s' [-> Hn]. split; [done|]. split; [|done]. intros _ j Hj. apply Hn. rewrite length_seqZ. lia.
Qed.

Lemma fetchstr_ok s addr : user_space s -> 0 <= addr -> exists r, fetchstr addr s = Ok r s
  /\ (r = None -> forall a, addr <= a < sz (curproc s) -> user_byte (mem (kvm s)) (pgdir (curproc s)) a <> Some 0)
  /\ forall str, r = Some str -> addr + Z.of_nat (length str) < sz (curproc s)
     /\ user_bytes (kvm s) (pgdir (curproc s)) addr (Z.of_nat (length str) + 1) = str ++ [0] /\ 0 ∉ str.
Proof.
  intros S Ha. unfold fetchstr, myproc, gets. unfold mbind at 1, M_bind at 1.
  destruct (Z.leb_spec (sz (curproc s)) addr).
  { eexists. split; [reflexivity|]. split; [intros _ a Ha'; lia|done]. }
  destruct (find_nul s addr (sz (curproc s) - addr) S Ha) as (r & E & Hnone & Hr); [lia|].
  rewrite (bind_Ok _ _ _ _ _ E). destruct r as [len|].
  2:{ eexists. split; [reflexivity|]. split; [|done]. intros _ a Ha'. apply Hnone; [done|lia]. }
  destruct (Hr len eq_refl) as (Hlen & Heq & Hn).
  erewrite bind_Ok by (apply (ubytes_ok kend l T U X); [done|lia|lia]). eexists. split; [reflexivity|].
  split; [done|]. intros str [= <-].
  assert (El : Z.of_nat (length (user_bytes (kvm s) (pgdir (curproc s)) addr len)) = len)
    by (unfold user_bytes; rewrite length_map, length_seqZ; lia).
  rewrite El. split_and!; [lia|done|done].
Qed.

Lemma ustore_args s p bs : user_space s -> 0 <= p -> p + Z.of_nat (length bs) <= sz (curproc s) ->
  Forall (fun b => 0 <= b < 256) bs ->
  exists v', ustore p bs s = Ok tt (set_kvm v' s) /\ user_space (set_kvm v' s)
    /\ overwrites (pgdir (curproc s)) p bs (kvm s) v'.
Proof.
  intros S Hp Hb Hbs. pose proof (ustore_ok kend l T U X _ _ p bs (kvm s) S Hp Hb Hbs 0) as W.
  rewrite Z.sub_0_r in W. apply wp_run in W as ([] & v' & E & S' & Ho). exists v'. split; [|by split].
  unfold ustore, vmM, lift. cbn [Nat.add] in E. by rewrite E.
Qed.
End args.

(** C18: system call arguments are fetched from the process and from nowhere else.
    While the pages below the size of a process are mapped writable, fetching an
    argument neither faults nor changes anything.  [argint] returns the word that
    the process has on its stack for that argument, and fails exactly when the word
    does not lie below its size.  [argstr] returns the string at the address that
    this word is, up to a NUL inside the process, and fails exactly when the word
    is not there or no NUL follows.  [argptr] returns this address exactly when a
    buffer of that size at it lies inside the process; the kernel then reads from
    the buffer the bytes that the process has there, and a write to it changes
    exactly those bytes and neither page tables nor free pages. *)
Theorem user_arguments_safe kend s l T U X n : user_space kend s l T U X ->
  let d := pgdir (curproc s) in
  argint n s = Ok (user_arg s n) s
  /\ match user_arg s n with
     | None => argstr n s = Ok None s
     | Some i =>
         (exists str, argstr n s = Ok (Some str) s /\ (0 ∉ str)
            /\ u32 i + Z.of_nat (length str) < sz (curproc s)
            /\ user_bytes (kvm s) d (u32 i) (Z.of_nat (length str) + 1) = str ++ [0])
         \/ argstr n s = Ok None s
            /\ forall a, u32 i <= a < sz (curproc s) -> user_byte (mem (kvm s)) d a <> Some 0
     end
  /\ forall size, size < 2 ^ 31 -> match user_arg s n with
     | None => argptr n size s = Ok None s
     | Some i =>
         if decide (0 <= size /\ u32 i < sz (curproc s) /\ u32 i + size <= sz (curproc s))
         then argptr n size s = Ok (Some (u32 i)) s
           /\ ubytes (u32 i) size s = Ok (user_bytes (kvm s) d (u32 i) size) s
           /\ forall bs, Z.of_nat (length bs) = size -> Forall (fun b => 0 <= b < 256) bs ->
                exists v', ustore (u32 i) bs s = Ok tt (set_kvm v' s)
                  /\ user_space kend (set_kvm v' s) l T U X /\ overwrites d (u32 i) bs (kvm s) v'
         else argptr n size s = Ok None s
     end.
Proof.
  intros S d. pose proof (argint_ok kend l T U X s n S) as Er. split; [done|]. split.
  - unfold argstr. rewrite (bind_Ok _ _ _ _ _ Er). destruct (user_arg s n) as [i|]; [|done].
    destruct (fetchstr_ok kend l T U X s (u32 i) S) as (q & E & Hnone & Hq); [apply u32_range|].
    destruct q as [str|]; [left|right; split; [exact E|by apply Hnone]].
    destruct (Hq str eq_refl) as (H1 & H2 & H3). by exists str.
  - intros size Hmax. rewrite (argptr_eq kend l T U X s n size S).
    destruct (user_arg s n) as [i|]; [|done].
    pose proof (us_sz _ _ _ _ _ _ _ _ S) as Hsz. pose proof (u32_range i) as Hi. case_decide as Hin.
    + rewrite (proj2 (orb_false_iff _ _)) by (unfold KERNBASE in *; rewrite (u32_small (u32 i + size)); lia).
      split; [done|]. split; [apply (ubytes_ok kend l T U X); [done|apply Hi|lia]|].
      intros bs <- Hbs. by apply ustore_args; [|apply Hi|lia|].
    + rewrite (proj2 (orb_true_iff _ _)); [done|].
      destruct (Z.ltb_spec size 0); [by left|]. destruct (Z.leb_spec (sz (curproc s)) (u32 i)); [by left|].
      right. unfold KERNBASE in *. rewrite (u32_small (u32 i + size)); lia.
Qed.

(** The machine of Ualloc, with a process of two pages in slot 1. *)
Definition demo_proc (d : Z) : proc :=
  with_space 8192 d (with_tf (with_eax 5 (mk_tf 0 0 0 0 0 0 0 0 0 0 0 0 64 0 0 3 0 4000 0)) (with_state RUNNING proc0)).
Definition demo_kst (f : fstate) (v : vst) (c : cst) (x : proc) : kst :=
  mk_kst f v (mk_pst (<[1%nat := x]> (replicate 64 proc0)) 3 0) [] ∅ 1 0 0 (-1) c.

Lemma demo_uspace : exists v p l d T U, uspace demo_kend v 8192 d (p :: l) T U [].
Proof.
  destruct demo_user as (v & [|p l] & d & T & U & V & HU & Hl); [cbn in Hl; lia|].
  exists (mk_vst (mem v) (use_lock v) (freelist v) (kpgdir v) (V2P d)), p, l, d, T, U.
  split.
  - destruct V as [[H1 H2 H3] H4 H5 H6]. by split; [split| | |].
  - done.
  - done.
  - intros k Hk. change (pgs 8192) with 2 in Hk.
    destruct (HU k Hk) as (q & Hq & Hok). exists (V2P q + 7). split; [done|].
    apply (has_entry 2 (V2P q) 7); [apply (page_V2P demo_kend q Hok)|lia|lia].
Qed.

Lemma demo_user_space f c : exists v l d T U, user_space demo_kend (demo_kst f v c (demo_proc d)) l T U [].
Proof. destruct demo_uspace as (v & p & l & d & T & U & S). by exists v, (p :: l), d, T, U. Qed.

(** Any file system and console will do. *)
Definition any_fs : fstate := mk_fs (boot ∅ 1) (mk_sb 0 0 0 0 0 0 0 0 0) [] 0 0 0.
Definition any_cst : cst :=
  mk_cst (replicate 2000 0) 0 true [] [] [] 0 (replicate 128 0) 0 0 0 false true false.

(** A process whose argument 1 is the address 100. *)
Lemma demo_argument : exists s l T U, user_space demo_kend s l T U [] /\ user_arg s 1 = Some 100
  /\ sz (curproc s) = 8192.
Proof.
  destruct (demo_user_space any_fs any_cst) as (v & l & d & T & U & S).
  set (s := demo_kst any_fs v any_cst (demo_proc d)) in S.
  destruct (ustore_args demo_kend l T U [] s 4008 (le_encode 4 100) S) as (v' & _ & S' & Ho);
    [lia|vm_compute; discriminate|apply le_encode_bytes|].
  exists (set_kvm v' s), l, T, U. split; [done|]. split; [|done].
  unfold user_arg, user_word, user_bytes. change (u32 _) with 4008. change (sz _) with 8192. cbn [Z.leb Z.compare].
  change (pgdir (curproc (set_kvm v' s))) with (pgdir (curproc s)). change (kvm (set_kvm v' s)) with v'.
  change (seqZ 0 4) with [0; 1; 2; 3]. cbn [map]. by rewrite !Ho by (unfold KERNBASE; lia).
Qed.

Lemma user_arguments_safe_witness : exists s l T U, user_space demo_kend s l T U []
  /\ argint 1 s = Ok (Some 100) s /\ argptr 1 16 s = Ok (Some 100) s /\ argptr 1 8093 s = Ok None s.
Proof.
  destruct demo_argument as (s & l & T & U & S & Ha & Hz). exists s, l, T, U. split; [done|].
  destruct (user_arguments_safe demo_kend s l T U [] 1 S) as (H1 & _ & H2). rewrite Ha in H1, H2.
  split; [exact H1|]. split.
  - specialize (H2 16 ltac:(lia)). rewrite decide_True in H2; [apply H2|]. rewrite Hz. vm_compute. by split_and!.
  - specialize (H2 8093 ltac:(lia)). rewrite decide_False in H2; [exact H2|]. rewrite Hz. vm_compute. by intros (_ & _ & []).
Defined.
