(* ===== verification/Pipe.v ===== *)
(** * Pipe: a pipe is a queue of bytes, and nobody sleeps in vain

    The ring of a pipe (src/kernel/pipe.c) represents a queue of at most 512 bytes.
    Writers and readers run interleaved: a step is what one of them does from the
    acquisition of the pipe's lock to its release, in [sleep] or at the end, or
    whatever else the kernel does to the process table.  The bytes that come out
    are those that went in, in their order, and a process asleep on a pipe has a
    reason to be - except after a writer was killed in the middle of a write. *)

From Stdlib Require Import ZArith Lia ZifyBool.
From stdpp Require Import base gmap strings numbers list relations.
From S2P Require Import Prelude CString Bio Log Fs Kalloc Vm Ualloc Ucopy Proc Procinv Conout Kernel Syscall Usermem.

Local Open Scope Z_scope.
#[local] Ltac Zify.zify_post_hook ::= Z.to_euclidean_division_equations.

(** ** The ring as a queue *)

Record pipe_rep (x : pipe) (q : list Z) : Prop := {
  pr_len : Z.of_nat (length (pdata x)) = PIPESIZE;
  pr_nread : 0 <= nread x < 2 ^ 32;
  pr_nwrite : nwrite x = u32 (nread x + Z.of_nat (length q));
  pr_fits : Z.of_nat (length q) <= PIPESIZE;
  pr_data : forall i, 0 <= i < Z.of_nat (length q) ->
    nthZ 0 (pdata x) ((nread x + i) mod PIPESIZE) = nthZ 0 q i
}.

Lemma pipe_full_iff x q : pipe_rep x q ->
  (nwrite x =? u32 (nread x + PIPESIZE)) = (Z.of_nat (length q) =? PIPESIZE).
Proof. intros [_ Hr Hw Hf _]. rewrite Hw. unfold u32, PIPESIZE in *. lia. Qed.

Lemma pipe_empty_iff x q : pipe_rep x q -> (nread x =? nwrite x) = (Z.of_nat (length q) =? 0).
Proof. intros [_ Hr Hw Hf _]. rewrite Hw. unfold u32, PIPESIZE in *. lia. Qed.

Lemma pipe_rep_put x q c : pipe_rep x q -> Z.of_nat (length q) < PIPESIZE ->
  pipe_rep (mk_pipe (updZ (nwrite x mod PIPESIZE) c (pdata x)) (nread x) (u32 (nwrite x + 1))
              (readopen x) (writeopen x)) (q ++ [c]).
Proof.
  intros [Hl Hr Hw Hf Hd] Hlt. split; cbn [pdata nread nwrite].
  - by rewrite length_updZ.
  - done.
  - rewrite Hw, length_app. cbn [length]. unfold u32. lia.
  - rewrite length_app. cbn [length]. lia.
  - rewrite length_app. cbn [length]. intros i Hi. rewrite nthZ_app by lia.
    assert (Hm : nwrite x mod PIPESIZE = (nread x + Z.of_nat (length q)) mod PIPESIZE)
      by (rewrite Hw; unfold u32, PIPESIZE; lia).
    rewrite Hm. destruct (Z.ltb_spec i (Z.of_nat (length q))).
    + rewrite nthZ_updZ_ne; [apply Hd; lia|]. unfold PIPESIZE in *. lia.
    + replace i with (Z.of_nat (length q)) by lia. rewrite Z.sub_diag.
      apply nthZ_updZ_eq. unfold PIPESIZE in *. lia.
Qed.

Lemma pipe_rep_get x c q : pipe_rep x (c :: q) ->
  nthZ 0 (pdata x) (nread x mod PIPESIZE) = c /\
  pipe_rep (mk_pipe (pdata x) (u32 (nread x + 1)) (nwrite x) (readopen x) (writeopen x)) q.
Proof.
  intros [Hl Hr Hw Hf Hd]. cbn [length] in *. split.
  - specialize (Hd 0 ltac:(lia)). rewrite Z.add_0_r in Hd. exact Hd.
  - split; cbn [pdata nread nwrite]; [done|apply u32_range| |lia|].
    + rewrite Hw. unfold u32. lia.
    + intros i Hi. specialize (Hd (i + 1) ltac:(lia)).
      replace ((u32 (nread x + 1) + i) mod PIPESIZE) with ((nread x + (i + 1)) mod PIPESIZE)
        by (unfold u32, PIPESIZE; lia).
      rewrite Hd. unfold nthZ. rewrite !(proj2 (Z.ltb_ge _ 0)) by lia.
      replace (Z.to_nat (i + 1)) with (S (Z.to_nat i)) by lia. done.
Qed.

(** The pipe [p] of a state holds [q], its ends open as told. *)
Definition pipe_at (s : kst) (p : Z) (q : list Z) (ro wo : Z) : Prop :=
  exists x, kpipes s !! p = Some x /\ pipe_rep x q /\ readopen x = ro /\ writeopen x = wo.

(** ** The loops of the writer and of the reader *)

(** [kpt s'] is [kpt s] after [wakeup(ch)]. *)
Definition woke (ch : chan_t) (s s' : kst) : Prop :=
  (tab (kpt s) -> tab (kpt s')) /\ forall i, getp (kpt s') i = woken (Some ch) (getp (kpt s) i).

Lemma wp_kwakeup ch (Q : unit -> kst -> Prop) s :
  (forall s', kvm s' = kvm s -> kcur s' = kcur s -> kpipes s' = kpipes s -> woke ch s s' -> Q tt s') ->
  wp (kwakeup ch) Q s.
Proof.
  intros HQ. destruct (getp_wakeup1 (kpt s) (Some ch)) as (t & E & Ht & _ & _ & Hw).
  unfold wp, kwakeup, ptM, lift, wakeup. rewrite E. by apply HQ.
Qed.

Lemma wp_getpipe p x (Q : pipe -> kst -> Prop) s :
  kpipes s !! p = Some x -> Q x s -> wp (getpipe p) Q s.
Proof. intros E HQ. unfold wp, getpipe. by rewrite E. Qed.

Section loops.
Context (p : Z).

(** [load] reads byte [i] of a buffer [b] that lies in memory [v]. *)
Definition loads (load : Z -> M kst Z) (b : Z -> Z) (v : vst) (lo hi : Z) : Prop :=
  forall i s, lo <= i < hi -> kvm s = v -> load i s = Ok (b i) s.

(** How a writer leaves its loop at byte [j]: to sleep, done, or giving up. *)
Definition write_end (s s' : kst) (q : list Z) (ro total rest : Z) (o : option Z) : Prop :=
  match o with
  | None => 0 < rest /\ Z.of_nat (length q) = PIPESIZE /\ ro <> 0 /\ killed (curproc s) = 0
            /\ woke (ChNread p) s s'
  | Some v => rest = 0 /\ v = total /\ woke (ChNread p) s s'
              \/ 0 < rest /\ v = -1 /\ Z.of_nat (length q) = PIPESIZE
                 /\ (ro = 0 \/ killed (curproc s) <> 0) /\ kpt s' = kpt s
  end.

Lemma write_loop_spec load b total n : forall i s q ro wo,
  loads load b (kvm s) i (i + Z.of_nat n) -> pipe_at s p q ro wo ->
  wp (write_loop p load total i n) (fun r s' =>
    let q' := q ++ map b (seqZ i (r.1 - i)) in
    i <= r.1 <= i + Z.of_nat n /\ pipe_at s' p q' ro wo /\ kvm s' = kvm s /\ kcur s' = kcur s
    /\ write_end s s' q' ro total (i + Z.of_nat n - r.1) r.2) s.
Proof.
  induction n as [|n IH]; intros i s q ro wo Hload Hp; cbn [write_loop].
  - apply wp_bind, wp_kwakeup. intros s' Hv Hc Hk Hw. apply wp_ret. cbn [fst snd].
    rewrite Z.sub_diag, seqZ_nil, app_nil_r by lia. destruct Hp as (x & E & Hr).
    split; [lia|]. split; [exists x; by rewrite Hk|]. split_and!; [done..|].
    left. split_and!; [lia|done|apply Hw].
  - destruct Hp as (x & E & Hr & Hro & Hwo). apply wp_bind. unfold pipe_full.
    apply wp_bind, (wp_getpipe p x); [done|]. rewrite (pipe_full_iff x q) by done.
    destruct (Z.eqb_spec (Z.of_nat (length q)) PIPESIZE) as [Hfull|Hroom].
    + apply wp_bind, wp_gets.
      assert (Hq : q ++ map b (seqZ i (i - i)) = q) by (rewrite Z.sub_diag, seqZ_nil, app_nil_r by lia; done).
      destruct ((readopen x =? 0) || negb (killed (curproc s) =? 0)) eqn:G.
      * do 2 apply wp_ret. cbn [fst snd]. rewrite Hq.
        split; [lia|]. split; [by exists x|]. split_and!; [done..|].
        right. split_and!; [lia|done|done|lia|done].
      * apply wp_bind, wp_kwakeup. intros s' Hv Hc Hk Hw. do 2 apply wp_ret. cbn [fst snd]. rewrite Hq.
        split; [lia|]. split; [exists x; by rewrite Hk|]. split_and!; [done..|].
        cbn [write_end]. split_and!; [lia|lia|lia|lia|apply Hw].
    + apply wp_ret. apply wp_bind. unfold wp at 1. rewrite (Hload i s) by (auto; lia).
      apply wp_bind. unfold pipe_put. apply wp_bind, (wp_getpipe p x); [done|]. apply wp_modS.
      pose proof (pr_fits _ _ Hr). eapply wp_mono.
      * apply (IH (i + 1) _ (q ++ [b i]) ro wo).
        -- intros j s1 Hj Hv. apply Hload; [lia|done].
        -- eexists. split; [apply lookup_insert_eq|]. split; [|done]. apply pipe_rep_put; [done|lia].
      * intros [j o] s' (Hj & Hp' & Hv & Hc & He). cbn [fst snd] in *.
        rewrite <-app_assoc in Hp', He.
        replace ([b i] ++ map b (seqZ (i + 1) (j - (i + 1)))) with (map b (seqZ i (j - i))) in Hp', He
          by (rewrite (seqZ_cons i) by lia; cbn; do 3 f_equal; lia).
        split; [lia|]. split_and!; [done..|].
        replace (i + Z.of_nat (S n) - j) with (i + 1 + Z.of_nat n - j) by lia. exact He.
Qed.

(** Only the bytes that a writer loads matter. *)
Lemma write_loop_ext load load' b total n : forall i s,
  loads load b (kvm s) i (i + Z.of_nat n) -> loads load' b (kvm s) i (i + Z.of_nat n) ->
  write_loop p load total i n s = write_loop p load' total i n s.
Proof.
  induction n as [|n IH]; intros i s H H'; cbn [write_loop]; [done|].
  unfold mbind, M_bind. destruct (pipe_full p s) as [[[]|v] s1| | |] eqn:E; try done.
  assert (s1 = s) as ->.
  { unfold pipe_full, getpipe, kwakeup, mbind, M_bind in E. destruct (kpipes s !! p); [|done].
    destruct (nwrite _ =? _); [|by injection E]. unfold myproc, gets in E.
    destruct (_ || _); [done|]. by destruct (ptM _ s). }
  rewrite (H i s), (H' i s) by (lia || done). unfold pipe_put, getpipe, setpipe, modS, mbind, M_bind.
  destruct (kpipes s !! p); [|done]. apply IH; intros k s1 Hk Hv; [apply H|apply H']; by (lia || done).
Qed.

(** [store] leaves pipes and processes alone. *)
Definition stores (store : Z -> Z -> M kst unit) : Prop :=
  forall i c s, wp (store i c) (fun _ s' => kpipes s' = kpipes s /\ kpt s' = kpt s /\ kcur s' = kcur s) s.

Lemma read_loop_spec store n : stores store -> forall i s q ro wo,
  pipe_at s p q ro wo ->
  wp (read_loop p store i n) (fun l s' =>
    l = take n q /\ pipe_at s' p (drop n q) ro wo /\ kcur s' = kcur s /\ woke (ChNwrite p) s s') s.
Proof.
  intros Hst. induction n as [|n IH]; intros i s q ro wo Hp; cbn [read_loop].
  - apply wp_bind, wp_kwakeup. intros s' Hv Hc Hk Hw. apply wp_ret. destruct Hp as (x & E & Hr).
    split_and!; try done. exists x. by rewrite Hk.
  - destruct Hp as (x & E & Hr & Hro & Hwo). apply wp_bind. unfold pipe_get.
    apply wp_bind, (wp_getpipe p x); [done|]. rewrite (pipe_empty_iff x q) by done.
    destruct q as [|c q]; cbn [length].
    + apply wp_ret, wp_bind, wp_kwakeup. intros s' Hv Hc Hk Hw. apply wp_ret.
      rewrite take_nil, drop_nil. split_and!; try done. exists x. by rewrite Hk.
    + rewrite (proj2 (Z.eqb_neq _ _)) by lia. apply wp_bind, wp_modS, wp_ret.
      destruct (pipe_rep_get x c q Hr) as [-> Hr']. apply wp_bind. eapply wp_mono; [apply Hst|].
      intros [] s1 (Hk1 & Ht1 & Hc1). apply wp_bind. eapply wp_mono.
      * apply (IH (i + 1) s1 q ro wo). eexists. rewrite Hk1. split; [apply lookup_insert_eq|].
        split; [exact Hr'|done].
      * intros l s' (-> & Hp' & Hc & Hw). apply wp_ret. split_and!; try done.
        -- by rewrite Hc.
        -- destruct Hw as [Hw1 Hw2]. split; [intros Ht; apply Hw1; by rewrite Ht1|].
           intros j. rewrite Hw2, Ht1. done.
Qed.
End loops.

(** ** Writers and readers at work *)

(** What a process is doing on the pipe: writing the bytes [bs], of which [i] are
    written, or reading up to [n] bytes. *)
Inductive job : Type := Idle | Writing (bs : list Z) (i : Z) | Reading (n : nat).

(** [sent] and [got] are all the bytes put into the pipe and taken from it, in
    their order; [aborted] says that a writer gave up because it was killed. *)
Record pmachine : Type := mk_pmachine {
  ks : kst; jobs : Z -> job; sent : list Z; got : list Z; aborted : bool
}.

Definition as_proc (i : Z) (s : kst) : kst :=
  mk_kst (kfs s) (kvm s) (kpt s) (kft s) (kpipes s) i (ticks s) (boottime s) (fgproc s) (kcons s).
Definition set_job (i : Z) (j : job) (f : Z -> job) : Z -> job := fun k => if decide (k = i) then j else f k.
Definition awake (s : kst) (i : Z) : Prop := slot i /\ state (getp (kpt s) i) <> SLEEPING.
Definition asleep (s : kst) (ch : chan_t) (i : Z) : Prop :=
  slot i /\ state (getp (kpt s) i) = SLEEPING /\ chan (getp (kpt s) i) = Some ch.

Section machine.
Context (kend p : Z).

(** The byte of a writer's buffer, and a reader's buffer that takes any byte. *)
Definition load_buf (bs : list Z) (i : Z) : M kst Z := mret (nthZ 0 bs i).
Definition store_buf (i c : Z) : M kst unit := mret tt.

Definition writing (j : job) : bool := match j with Writing _ _ => true | _ => false end.
Definition reading (j : job) : bool := match j with Reading _ => true | _ => false end.

(** An end is used while it is open, and closed when no call is using it: the
    descriptor holds a reference.  [M_kernel] is anything else that the kernel
    does, as long as it puts nobody to sleep on this pipe. *)
Inductive mstep (m : pmachine) : pmachine -> Prop :=
  | M_write i bs x : awake (ks m) i -> jobs m i = Idle ->
      kpipes (ks m) !! p = Some x -> writeopen x <> 0 ->
      mstep m (mk_pmachine (ks m) (set_job i (Writing bs 0) (jobs m)) (sent m) (got m) (aborted m))
  | M_read i n x : awake (ks m) i -> jobs m i = Idle ->
      kpipes (ks m) !! p = Some x -> readopen x <> 0 ->
      mstep m (mk_pmachine (ks m) (set_job i (Reading n) (jobs m)) (sent m) (got m) (aborted m))
  | M_put i bs k j v s' : awake (ks m) i -> jobs m i = Writing bs k ->
      write_loop p (load_buf bs) (Z.of_nat (length bs)) k (length bs - Z.to_nat k) (as_proc i (ks m))
        = Ok (j, Some v) s' ->
      mstep m (mk_pmachine s' (set_job i Idle (jobs m)) (sent m ++ map (nthZ 0 bs) (seqZ k (j - k)))
                 (got m) (aborted m || (v =? -1) && negb (killed (getp (kpt (ks m)) i) =? 0)))
  | M_put_sleep i bs k j s' s'' : awake (ks m) i -> jobs m i = Writing bs k ->
      write_loop p (load_buf bs) (Z.of_nat (length bs)) k (length bs - Z.to_nat k) (as_proc i (ks m))
        = Ok (j, None) s' ->
      ptM (sleep i (Some (ChNwrite p)) KSleep) s' = Ok tt s'' ->
      mstep m (mk_pmachine s'' (set_job i (Writing bs j) (jobs m))
                 (sent m ++ map (nthZ 0 bs) (seqZ k (j - k))) (got m) (aborted m))
  | M_get i n l s' : awake (ks m) i -> jobs m i = Reading n ->
      read_section p store_buf n (as_proc i (ks m)) = Ok (RBytes l) s' ->
      mstep m (mk_pmachine s' (set_job i Idle (jobs m)) (sent m) (got m ++ l) (aborted m))
  | M_get_killed i n s' : awake (ks m) i -> jobs m i = Reading n ->
      read_section p store_buf n (as_proc i (ks m)) = Ok RKilled s' ->
      mstep m (mk_pmachine s' (set_job i Idle (jobs m)) (sent m) (got m) (aborted m))
  | M_get_sleep i n s' s'' : awake (ks m) i -> jobs m i = Reading n ->
      read_section p store_buf n (as_proc i (ks m)) = Ok RSleep s' ->
      ptM (sleep i (Some (ChNread p)) KSleep) s' = Ok tt s'' ->
      mstep m (mk_pmachine s'' (set_job i (Reading n) (jobs m)) (sent m) (got m) (aborted m))
  | M_close (w : bool) s' : (forall i, if w then writing (jobs m i) = false else reading (jobs m i) = false) ->
      pipeclose kend p w (ks m) = Ok tt s' ->
      mstep m (mk_pmachine s' (jobs m) (sent m) (got m) (aborted m))
  | M_kernel t v : tab t ->
      (forall i ch, ch = ChNread p \/ ch = ChNwrite p ->
         asleep (set_kpt t (ks m)) ch i -> asleep (ks m) ch i) ->
      mstep m (mk_pmachine (set_kvm v (set_kpt t (ks m))) (jobs m) (sent m) (got m) (aborted m)).

(** The pipe of [pipealloc], before anyone uses it. *)
Definition fresh_pipe (m : pmachine) : Prop :=
  tab (kpt (ks m)) /\ pipe_at (ks m) p [] 1 1
  /\ (forall i ch, ch = ChNread p \/ ch = ChNwrite p -> ~ asleep (ks m) ch i)
  /\ (forall i, jobs m i = Idle) /\ sent m = [] /\ got m = [] /\ aborted m = false.
Definition reached (m : pmachine) : Prop := exists m0, fresh_pipe m0 /\ rtc mstep m0 m.

(** ** The invariant *)

(** Who may be asleep on a pipe that holds [q]. *)
Definition sleepers_ok (s : kst) (js : Z -> job) (q : list Z) (ab : bool) : Prop :=
  (forall i, asleep s (ChNwrite p) i -> writing (js i) = true /\ Z.of_nat (length q) = PIPESIZE)
  /\ (forall i, asleep s (ChNread p) i -> reading (js i) = true /\ (ab = false -> q = [])).
Definition users_ok (js : Z -> job) (ro wo : Z) : Prop :=
  (forall i, writing (js i) = true -> wo <> 0) /\ (forall i, reading (js i) = true -> ro <> 0).

(** A pipe that was freed is out of use. *)
Definition pipe_state_ok (m : pmachine) : Prop :=
  match kpipes (ks m) !! p with
  | None => (exists q, sent m = got m ++ q) /\ (forall i, jobs m i = Idle)
            /\ forall i ch, ch = ChNread p \/ ch = ChNwrite p -> ~ asleep (ks m) ch i
  | Some x => exists q, pipe_rep x q /\ sent m = got m ++ q
                        /\ users_ok (jobs m) (readopen x) (writeopen x)
                        /\ sleepers_ok (ks m) (jobs m) q (aborted m)
                        /\ (forall i, asleep (ks m) (ChNwrite p) i -> readopen x <> 0)
                        /\ (forall i, asleep (ks m) (ChNread p) i -> writeopen x <> 0)
  end.
Definition jobs_ok (m : pmachine) : Prop :=
  forall i bs k, jobs m i = Writing bs k -> 0 <= k <= Z.of_nat (length bs).
Definition pipe_inv (m : pmachine) : Prop := tab (kpt (ks m)) /\ jobs_ok m /\ pipe_state_ok m.

(** A wakeup leaves asleep only who slept elsewhere. *)
Lemma woke_asleep ch ch' s s' i : woke ch s s' -> asleep s' ch' i -> asleep s ch' i /\ ch' <> ch.
Proof.
  intros [_ Hw] (Hi & Hs & Hc). rewrite Hw in Hs, Hc.
  assert (Hcc : chan (woken (Some ch) (getp (kpt s) i)) = chan (getp (kpt s) i))
    by (unfold woken; by case_match).
  rewrite Hcc in Hc. split.
  - split_and!; try done. by destruct (woken_state (Some ch) (getp (kpt s) i)) as [<-|[_ E]]; [|congruence].
  - intros ->. by apply (woken_not_asleep (Some ch) (getp (kpt s) i)).
Qed.

(** A process that goes to sleep. *)
Lemma sleep_asleep i ch s s' : tab (kpt s) -> slot i ->
  ptM (sleep i (Some ch) KSleep) s = Ok tt s' ->
  tab (kpt s') /\ kpipes s' = kpipes s /\ asleep s' ch i
  /\ forall j ch', asleep s' ch' j -> asleep s ch' j \/ j = i /\ ch' = ch.
Proof.
  intros Ht Hi E. unfold ptM, lift, sleep, updp, sched, gets, modS, mbind, M_bind in E.
  rewrite !getp_setp_eq in E by (try done; unfold tab in *; cbn; by rewrite ?length_updZ).
  cbn [state with_state] in E. rewrite bool_decide_eq_false_2 in E by done.
  injection E as <-. cbn [kpt kpipes set_kpt].
  assert (Hlen : forall x t, tab t -> tab (setp i x t)) by (unfold tab; intros; cbn; by rewrite length_updZ).
  split; [auto|]. split; [done|]. unfold asleep. cbn [kpt set_kpt].
  split; [by rewrite !getp_setp_eq by auto|].
  intros j ch'. destruct (decide (j = i)) as [->|Hne].
  - rewrite !getp_setp_eq by auto. intros (_ & _ & [= <-]). by right.
  - unfold getp, setp. cbn [procs]. rewrite !nthZ_updZ_ne by auto. by left.
Qed.

Lemma asleep_as_proc s ch i j : asleep (as_proc i s) ch j = asleep s ch j.
Proof. done. Qed.

Lemma set_job_ok m i j :
  jobs_ok m -> (forall bs k, j = Writing bs k -> 0 <= k <= Z.of_nat (length bs)) ->
  forall a bs k, set_job i j (jobs m) a = Writing bs k -> 0 <= k <= Z.of_nat (length bs).
Proof. intros HJ Hj a bs k. unfold set_job. case_decide; [apply Hj|apply HJ]. Qed.

(** An end in use is open. *)
Lemma in_use m i : pipe_inv m -> jobs m i <> Idle -> exists x q,
  kpipes (ks m) !! p = Some x /\ pipe_rep x q /\ sent m = got m ++ q
  /\ users_ok (jobs m) (readopen x) (writeopen x) /\ sleepers_ok (ks m) (jobs m) q (aborted m)
  /\ (forall i, asleep (ks m) (ChNwrite p) i -> readopen x <> 0)
  /\ (forall i, asleep (ks m) (ChNread p) i -> writeopen x <> 0).
Proof.
  intros (_ & _ & HP) Hj. unfold pipe_state_ok in HP. destruct (kpipes (ks m) !! p) as [x|].
  - destruct HP as (q & HP). by exists x, q.
  - destruct HP as (_ & HI & _). by specialize (HI i).
Qed.

(** A step of process [i] that leaves queue [q'] in pipe [x'], makes [j] of its
    job, and puts to sleep nobody but [i]. *)
Lemma step_inv m i j x s' x' q' snt gt ab :
  pipe_inv m -> slot i -> kpipes (ks m) !! p = Some x ->
  users_ok (jobs m) (readopen x) (writeopen x) ->
  (writing j = true -> writeopen x <> 0) -> (reading j = true -> readopen x <> 0) ->
  (forall bs k, j = Writing bs k -> 0 <= k <= Z.of_nat (length bs)) ->
  tab (kpt s') -> kpipes s' !! p = Some x' -> pipe_rep x' q' ->
  readopen x' = readopen x -> writeopen x' = writeopen x -> snt = gt ++ q' ->
  (forall a, asleep s' (ChNwrite p) a -> Z.of_nat (length q') = PIPESIZE /\ readopen x <> 0
     /\ (a = i /\ writing j = true \/ a <> i /\ asleep (ks m) (ChNwrite p) a)) ->
  (forall a, asleep s' (ChNread p) a -> (ab = false -> q' = []) /\ writeopen x <> 0
     /\ (a = i /\ reading j = true \/ a <> i /\ asleep (ks m) (ChNread p) a)) ->
  pipe_inv (mk_pmachine s' (set_job i j (jobs m)) snt gt ab).
Proof.
  intros (Ht & HJ & HP) Hi Hx [Hu1 Hu2] Hj1 Hj2 Hjk Ht' Hx' Hr' Hro Hwo Hs Hw Hrd.
  unfold pipe_state_ok in HP. rewrite Hx in HP. destruct HP as (q0 & _ & _ & _ & [Hs1 Hs2] & _).
  split; [done|]. split; [intros a bs k; by apply set_job_ok|].
  unfold pipe_state_ok. cbn [ks jobs sent got aborted]. rewrite Hx', Hro, Hwo. exists q'.
  assert (Hjob : forall a, a <> i -> set_job i j (jobs m) a = jobs m a)
    by (intros; unfold set_job; by rewrite decide_False).
  assert (Hjobi : set_job i j (jobs m) i = j) by (unfold set_job; by rewrite decide_True).
  split; [done|]. split; [done|]. split; [split; intros a|split; [split; intros a Ha|split; intros a Ha]].
  - destruct (decide (a = i)) as [->|]; [by rewrite Hjobi|rewrite Hjob by done; apply Hu1].
  - destruct (decide (a = i)) as [->|]; [by rewrite Hjobi|rewrite Hjob by done; apply Hu2].
  - destruct (Hw a Ha) as (? & ? & [[-> ?]|[? Ha']]); [by rewrite Hjobi|].
    rewrite Hjob by done. by destruct (Hs1 a Ha').
  - destruct (Hrd a Ha) as (? & ? & [[-> ?]|[? Ha']]); [by rewrite Hjobi|].
    rewrite Hjob by done. by destruct (Hs2 a Ha').
  - by destruct (Hw a Ha) as (? & ? & _).
  - by destruct (Hrd a Ha) as (? & ? & _).
Qed.

Lemma awake_not_asleep s ch i : awake s i -> ~ asleep s ch i.
Proof. intros [_ Hn] (_ & Hs & _). done. Qed.

(** A step that starts a call. *)
Lemma start_inv m i j x : pipe_inv m -> awake (ks m) i -> kpipes (ks m) !! p = Some x ->
  (writing j = true -> writeopen x <> 0) -> (reading j = true -> readopen x <> 0) ->
  (forall bs k, j = Writing bs k -> 0 <= k <= Z.of_nat (length bs)) ->
  pipe_inv (mk_pmachine (ks m) (set_job i j (jobs m)) (sent m) (got m) (aborted m)).
Proof.
  intros I Hi Hx Hw Hr Hk. pose proof I as (Ht & HJ & HP). unfold pipe_state_ok in HP.
  rewrite Hx in HP. destruct HP as (q & Hq & Hs & Hu & [Hs1 Hs2] & Hs3 & Hs4).
  eapply (step_inv m i j x); eauto; [apply Hi|..]; intros a Ha;
    (assert (a <> i) by (intros ->; by apply (awake_not_asleep _ _ _ Hi) in Ha));
    [destruct (Hs1 a Ha)|destruct (Hs2 a Ha)]; split_and!; eauto.
Qed.

(** The run of a writer, with the queue before and after. *)
Lemma write_run m i bs k j o s' : pipe_inv m -> awake (ks m) i -> jobs m i = Writing bs k ->
  write_loop p (load_buf bs) (Z.of_nat (length bs)) k (length bs - Z.to_nat k) (as_proc i (ks m))
    = Ok (j, o) s' ->
  exists x q x', let q' := q ++ map (nthZ 0 bs) (seqZ k (j - k)) in
    kpipes (ks m) !! p = Some x /\ users_ok (jobs m) (readopen x) (writeopen x)
    /\ kpipes s' !! p = Some x' /\ pipe_rep x' q' /\ readopen x' = readopen x /\ writeopen x' = writeopen x
    /\ sent m ++ map (nthZ 0 bs) (seqZ k (j - k)) = got m ++ q' /\ k <= j <= Z.of_nat (length bs)
    /\ (forall a, asleep (ks m) (ChNwrite p) a ->
          Z.of_nat (length q') = PIPESIZE /\ readopen x <> 0 /\ a <> i)
    /\ (forall a, asleep (ks m) (ChNread p) a -> writeopen x <> 0 /\ readopen x <> 0 /\ a <> i)
    /\ write_end p (as_proc i (ks m)) s' q' (readopen x) (Z.of_nat (length bs))
         (Z.of_nat (length bs) - j) o.
Proof.
  intros I Hi Hj E. destruct (in_use m i I) as (x & q & Hx & Hq & Hs & Hu & [Hs1 Hs2] & Hs3 & Hs4); [by rewrite Hj|].
  pose proof I as (Ht & HJ & _). specialize (HJ i bs k Hj).
  pose proof (write_loop_spec p (load_buf bs) (nthZ 0 bs) (Z.of_nat (length bs)) (length bs - Z.to_nat k) k
    (as_proc i (ks m)) q (readopen x) (writeopen x)) as W.
  unfold wp in W. rewrite E in W. cbn [fst snd] in W.
  destruct W as (Hjr & (x' & Hx' & Hr' & Hro & Hwo) & _ & _ & He); [done|by exists x|].
  replace (k + Z.of_nat (length bs - Z.to_nat k)) with (Z.of_nat (length bs)) in * by lia.
  assert (Hne : forall ch a, asleep (ks m) ch a -> a <> i)
    by (intros ch a Ha ->; by apply (awake_not_asleep _ _ _ Hi) in Ha).
  pose proof (pr_fits _ _ Hr') as Hfit. rewrite length_app in Hfit.
  exists x, q, x'. cbn zeta. split; [done|]. split; [done|]. split; [done|]. split; [done|].
  split; [done|]. split; [done|]. split; [by rewrite Hs, app_assoc|]. split; [lia|].
  split; [|split; [|done]]; intros a Ha.
  - destruct (Hs1 a Ha). split_and!; [rewrite length_app; lia|eauto|eauto].
  - destruct (Hs2 a Ha). split_and!; [eauto|by apply (proj2 Hu a)|eauto].
Qed.

Lemma write_inv m i bs k j v s' : pipe_inv m -> awake (ks m) i -> jobs m i = Writing bs k ->
  write_loop p (load_buf bs) (Z.of_nat (length bs)) k (length bs - Z.to_nat k) (as_proc i (ks m))
    = Ok (j, Some v) s' ->
  pipe_inv (mk_pmachine s' (set_job i Idle (jobs m)) (sent m ++ map (nthZ 0 bs) (seqZ k (j - k)))
              (got m) (aborted m || (v =? -1) && negb (killed (getp (kpt (ks m)) i) =? 0))).
Proof.
  intros I Hi Hj E. pose proof I as (Ht & _ & _).
  destruct (write_run m i bs k j (Some v) s' I Hi Hj E)
    as (x & q & x' & Hx & Hu & Hx' & Hr' & Hro & Hwo & Hs & Hjr & Hsw & Hsr & He).
  destruct He as [(_ & _ & Hwk)|(Hlt & -> & Hfull & Hor & Hpt)].
  - refine (step_inv m i Idle x s' x' _ _ _ _ I (proj1 Hi) Hx Hu _ _ _ (proj1 Hwk Ht) Hx' Hr' Hro Hwo Hs _ _);
      [done|done|done|..]; intros a Ha; apply (woke_asleep _ _ _ _ _ Hwk) in Ha as [Ha Hch]; [|done].
    destruct (Hsw a Ha) as (? & ? & ?). split_and!; [done|done|by right].
  - assert (Has : forall ch a, asleep s' ch a -> asleep (ks m) ch a) by (unfold asleep; rewrite Hpt; done).
    assert (Ht' : tab (kpt s')) by (rewrite Hpt; done).
    refine (step_inv m i Idle x s' x' _ _ _ _ I (proj1 Hi) Hx Hu _ _ _ Ht' Hx' Hr' Hro Hwo Hs _ _);
      [done|done|done|..]; intros a Ha; apply Has in Ha.
    + destruct (Hsw a Ha) as (? & ? & ?). split_and!; [done|done|by right].
    + destruct (Hsr a Ha) as (? & ? & ?). split_and!; [|done|by right].
      intros Hab. exfalso. apply orb_false_elim in Hab as [_ Hab]. cbn in Hab.
      assert (killed (curproc (as_proc i (ks m))) = 0) by (unfold curproc; cbn; lia).
      by destruct Hor.
Qed.

Lemma write_sleep_inv m i bs k j s' s'' : pipe_inv m -> awake (ks m) i -> jobs m i = Writing bs k ->
  write_loop p (load_buf bs) (Z.of_nat (length bs)) k (length bs - Z.to_nat k) (as_proc i (ks m))
    = Ok (j, None) s' ->
  ptM (sleep i (Some (ChNwrite p)) KSleep) s' = Ok tt s'' ->
  pipe_inv (mk_pmachine s'' (set_job i (Writing bs j) (jobs m))
              (sent m ++ map (nthZ 0 bs) (seqZ k (j - k))) (got m) (aborted m)).
Proof.
  intros I Hi Hj E Es. pose proof I as (Ht & HJ & _). specialize (HJ i bs k Hj).
  destruct (write_run m i bs k j None s' I Hi Hj E)
    as (x & q & x' & Hx & Hu & Hx' & Hr' & Hro & Hwo & Hs & Hjr & Hsw & Hsr & He).
  destruct He as (Hlt & Hfull & Hr0 & Hk0 & Hwk).
  destruct (sleep_asleep i (ChNwrite p) s' s'') as (Ht'' & Hk'' & _ & Has); [by apply Hwk|apply Hi|done|].
  rewrite <-Hk'' in Hx'.
  refine (step_inv m i (Writing bs j) x s'' x' _ _ _ _ I (proj1 Hi) Hx Hu _ _ _ Ht'' Hx' Hr' Hro Hwo Hs _ _).
  - intros _. apply (proj1 Hu i). by rewrite Hj.
  - done.
  - intros bs' k' [= <- <-]. lia.
  - intros a [Ha|[-> _]]%Has; [|split_and!; [done|done|by left]].
    apply (woke_asleep _ _ _ _ _ Hwk) in Ha as [Ha _]. destruct (Hsw a Ha) as (? & ? & ?).
    split_and!; [done|done|by right].
  - intros a [Ha|[_ ?]]%Has; [|done].
    apply (woke_asleep _ _ _ _ _ Hwk) in Ha as [_ Hne]. done.
Qed.

(** The run of a reader on the queue [q]. *)
Lemma read_run s x q n r s' : kpipes s !! p = Some x -> pipe_rep x q ->
  read_section p store_buf n s = Ok r s' ->
  match r with
  | RSleep => s' = s /\ q = [] /\ writeopen x <> 0 /\ killed (curproc s) = 0
  | RKilled => s' = s /\ killed (curproc s) <> 0
  | RBytes l => l = take n q /\ pipe_at s' p (drop n q) (readopen x) (writeopen x)
                /\ woke (ChNwrite p) s s' /\ (q = [] -> writeopen x = 0)
  end.
Proof.
  intros Hx Hr. unfold read_section, pipe_wait, getpipe, mbind, M_bind. rewrite Hx.
  cbn [mret M_ret]. unfold mret, M_ret. rewrite (pipe_empty_iff x q Hr).
  destruct ((Z.of_nat (length q) =? 0) && negb (writeopen x =? 0)) eqn:G.
  - unfold myproc, gets. destruct (killed (curproc s) =? 0) eqn:K; cbn [negb]; intros [= <- <-]; [|split; [done|lia]].
    split_and!; [done|apply length_zero_iff_nil; lia|lia|lia].
  - pose proof (read_loop_spec p store_buf n ltac:(intros ? ? ?; by apply wp_ret) 0 s q
      (readopen x) (writeopen x)) as W.
    unfold wp in W. destruct (read_loop p store_buf 0 n s) as [l s1| | |]; try done.
    intros [= <- <-]. destruct W as (-> & Hp & _ & Hw); [by exists x|].
    split_and!; [done|done|done|]. intros ->. cbn [length] in G. lia.
Qed.

Lemma read_section_ok n s x q : kpipes s !! p = Some x -> pipe_rep x q ->
  exists r s', read_section p store_buf n s = Ok r s'.
Proof.
  intros Hx Hr. unfold read_section, pipe_wait, getpipe, mbind, M_bind. rewrite Hx.
  unfold mret, M_ret. case_match; [by eexists _, _|].
  pose proof (read_loop_spec p store_buf n ltac:(intros ? ? ?; by apply wp_ret) 0 s q
    (readopen x) (writeopen x)) as W.
  apply wp_run in W as (l & s' & -> & _); [|by exists x]. by eexists _, _.
Qed.

Lemma read_inv m i n l s' : pipe_inv m -> awake (ks m) i -> jobs m i = Reading n ->
  read_section p store_buf n (as_proc i (ks m)) = Ok (RBytes l) s' ->
  pipe_inv (mk_pmachine s' (set_job i Idle (jobs m)) (sent m) (got m ++ l) (aborted m)).
Proof.
  intros I Hi Hj E. destruct (in_use m i I) as (x & q & Hx & Hq & Hs & Hu & [Hs1 Hs2] & Hs3 & Hs4); [by rewrite Hj|].
  destruct (read_run (as_proc i (ks m)) x q n _ _ Hx Hq E) as (-> & (x' & Hx' & Hr' & Hro & Hwo) & Hwk & _).
  pose proof I as (Ht & _ & _).
  refine (step_inv m i Idle x s' x' _ _ _ _ I (proj1 Hi) Hx Hu _ _ _ (proj1 Hwk Ht) Hx' Hr' Hro Hwo _ _ _);
    [done|done|done|by rewrite Hs, <-app_assoc, take_drop|..];
    intros a Ha; apply (woke_asleep _ _ _ _ _ Hwk) in Ha as [Ha Hch]; [done|].
  destruct (Hs2 a Ha) as [_ Hem]. split_and!; [intros Hab; by rewrite Hem, drop_nil|eauto|].
  right. split; [|done]. intros ->. by apply (awake_not_asleep _ _ _ Hi) in Ha.
Qed.

Lemma read_sleep_inv m i n s' s'' : pipe_inv m -> awake (ks m) i -> jobs m i = Reading n ->
  read_section p store_buf n (as_proc i (ks m)) = Ok RSleep s' ->
  ptM (sleep i (Some (ChNread p)) KSleep) s' = Ok tt s'' ->
  pipe_inv (mk_pmachine s'' (set_job i (Reading n) (jobs m)) (sent m) (got m) (aborted m)).
Proof.
  intros I Hi Hj E Es. destruct (in_use m i I) as (x & q & Hx & Hq & Hs & Hu & [Hs1 Hs2] & Hs3 & Hs4); [by rewrite Hj|].
  destruct (read_run (as_proc i (ks m)) x q n _ _ Hx Hq E) as (-> & Hem & Hw0 & _).
  pose proof I as (Ht & _ & _).
  destruct (sleep_asleep i (ChNread p) (as_proc i (ks m)) s'') as (Ht'' & Hk'' & _ & Has); [done|apply Hi|done|].
  assert (Hne : forall ch a, asleep (ks m) ch a -> a <> i)
    by (intros ch a Ha ->; by apply (awake_not_asleep _ _ _ Hi) in Ha).
  assert (Hx'' : kpipes s'' !! p = Some x) by (by rewrite Hk'').
  refine (step_inv m i (Reading n) x s'' x q _ _ _ I (proj1 Hi) Hx Hu _ _ _ Ht'' Hx'' Hq eq_refl eq_refl Hs _ _).
  - done.
  - intros _. apply (proj2 Hu i). by rewrite Hj.
  - done.
  - intros a [Ha|[_ ?]]%Has; [|done]. change (asleep (ks m) (ChNwrite p) a) in Ha.
    destruct (Hs1 a Ha). split_and!; [done|eauto|right; eauto].
  - intros a [Ha|[-> _]]%Has; [|split_and!; [done|done|by left]].
    change (asleep (ks m) (ChNread p) a) in Ha. split_and!; [done|done|right; eauto].
Qed.

Lemma read_killed_inv m i n s' : pipe_inv m -> awake (ks m) i -> jobs m i = Reading n ->
  read_section p store_buf n (as_proc i (ks m)) = Ok RKilled s' ->
  pipe_inv (mk_pmachine s' (set_job i Idle (jobs m)) (sent m) (got m) (aborted m)).
Proof.
  intros I Hi Hj E. destruct (in_use m i I) as (x & q & Hx & Hq & _); [by rewrite Hj|].
  destruct (read_run (as_proc i (ks m)) x q n _ _ Hx Hq E) as [-> _].
  destruct (start_inv m i Idle x I Hi Hx) as (? & ? & ?); done.
Qed.

Lemma kernel_inv m t v : pipe_inv m -> tab t ->
  (forall i ch, ch = ChNread p \/ ch = ChNwrite p -> asleep (set_kpt t (ks m)) ch i -> asleep (ks m) ch i) ->
  pipe_inv (mk_pmachine (set_kvm v (set_kpt t (ks m))) (jobs m) (sent m) (got m) (aborted m)).
Proof.
  intros (Ht & HJ & HP) Ht' Has. split; [done|]. split; [done|].
  unfold pipe_state_ok in *. cbn [ks jobs sent got aborted kpipes set_kvm set_kpt].
  assert (Hr : forall i, asleep (set_kvm v (set_kpt t (ks m))) (ChNread p) i -> asleep (ks m) (ChNread p) i)
    by (intros i Hi; apply Has; [by left|exact Hi]).
  assert (Hw : forall i, asleep (set_kvm v (set_kpt t (ks m))) (ChNwrite p) i -> asleep (ks m) (ChNwrite p) i)
    by (intros i Hi; apply Has; [by right|exact Hi]).
  destruct (kpipes (ks m) !! p) as [x|].
  - destruct HP as (q & Hq & Hs & Hu & [Hs1 Hs2] & Hs3 & Hs4). exists q.
    split_and!; try done; [split|..]; intros i Hi; eauto.
  - destruct HP as (Hq & HI & Hn). split_and!; try done. intros i ch Hch Hi. eapply (Hn i ch Hch), Has; done.
Qed.

(** [pipeclose]: the end is closed and its peers are awake; the second call frees
    the pipe. *)
Definition close_end (w : bool) (x : pipe) : pipe :=
  if w then mk_pipe (pdata x) (nread x) (nwrite x) (readopen x) 0
  else mk_pipe (pdata x) (nread x) (nwrite x) 0 (writeopen x).
Lemma pipeclose_spec w s s' : pipeclose kend p w s = Ok tt s' ->
  exists x, kpipes s !! p = Some x /\ woke (if w then ChNread p else ChNwrite p) s s'
    /\ kpipes s' !! p = if (readopen (close_end w x) =? 0) && (writeopen (close_end w x) =? 0)
                        then None else Some (close_end w x).
Proof.
  unfold pipeclose, getpipe, mbind, M_bind at 1. destruct (kpipes s !! p) as [x|] eqn:Hx; [|done].
  fold (close_end w x). set (y := close_end w x). set (ch := if w then ChNread p else ChNwrite p).
  unfold setpipe, modS. cbn beta iota. set (s0 := set_kpipes (<[p:=y]> (kpipes s)) s).
  pose proof (wp_kwakeup ch (fun _ s' => kpipes s' = kpipes s0 /\ woke ch s0 s') s0) as W.
  unfold wp in W. unfold M_bind at 1 2. cbn beta iota. intros E. exists x. split; [done|].
  unfold M_bind in E. fold s0 in E. destruct (kwakeup ch s0) as [[] s1| | |]; try done.
  destruct W as [Hk [Hwt Hw]]; [auto|]. destruct ((readopen y =? 0) && (writeopen y =? 0)) eqn:G.
  - unfold vmM, lift in E. match type of E with context [kfree ?a ?b ?c] => destruct (kfree a b c) end; try done.
    injection E as _ <-. split; [by split|]. change (close_end w x) with y. rewrite G. apply lookup_delete_eq.
  - injection E as <-. split; [by split|]. change (close_end w x) with y. rewrite G, Hk. apply lookup_insert_eq.
Qed.

Lemma close_inv m (w : bool) s' : pipe_inv m ->
  (forall i, if w then writing (jobs m i) = false else reading (jobs m i) = false) ->
  pipeclose kend p w (ks m) = Ok tt s' ->
  pipe_inv (mk_pmachine s' (jobs m) (sent m) (got m) (aborted m)).
Proof.
  intros (Ht & HJ & HP) Hw (x & Hx & Hwk & Hx')%pipeclose_spec. split; [by apply Hwk|]. split; [done|].
  unfold pipe_state_ok in *. rewrite Hx in HP. destruct HP as (q & Hq & Hs & [Hu1 Hu2] & [Hs1 Hs2] & Hs3 & Hs4).
  cbn [ks jobs sent got aborted]. rewrite Hx'.
  assert (Hno : forall i ch, asleep s' ch i -> asleep (ks m) ch i /\ ch <> if w then ChNread p else ChNwrite p)
    by (intros i ch; by apply woke_asleep).
  assert (Hrep : pipe_rep (close_end w x) q) by (destruct w, Hq; by split).
  destruct ((readopen (close_end w x) =? 0) && (writeopen (close_end w x) =? 0)) eqn:G.
  - split; [by exists q|]. apply andb_prop in G as [G1 G2].
    split.
    + intros i. destruct (jobs m i) eqn:Ej; [done|exfalso|exfalso].
      * specialize (Hu1 i). specialize (Hw i). rewrite Ej in Hu1, Hw. destruct w; [done|].
        apply Hu1; [done|]. cbn in G2. lia.
      * specialize (Hu2 i). specialize (Hw i). rewrite Ej in Hu2, Hw. destruct w; [|done].
        apply Hu2; [done|]. cbn in G1. lia.
    + intros i ch Hch [Ha Hne]%Hno. destruct w, Hch as [->| ->]; try done.
      * apply (Hs3 i Ha). cbn in G1. lia.
      * apply (Hs4 i Ha). cbn in G2. lia.
  - exists q. split; [done|]. split; [done|]. split; [|split; [split|split]].
    + split; intros i Hi; specialize (Hw i); destruct w; try congruence; cbn; eauto.
    + intros i [Ha _]%Hno. auto.
    + intros i [Ha _]%Hno. auto.
    + intros i [Ha Hne]%Hno. destruct w; [|done]. cbn. eauto.
    + intros i [Ha Hne]%Hno. destruct w; [done|]. cbn. eauto.
Qed.

Lemma mstep_inv m m' : pipe_inv m -> mstep m m' -> pipe_inv m'.
Proof.
  intros I S. destruct S.
  - eapply start_inv; try done. intros ? ? [= <- <-]. lia.
  - by eapply start_inv.
  - by eapply write_inv.
  - by eapply write_sleep_inv.
  - by eapply read_inv.
  - by eapply read_killed_inv.
  - by eapply read_sleep_inv.
  - by eapply close_inv.
  - by apply kernel_inv.
Qed.

Lemma reached_inv m : reached m -> pipe_inv m.
Proof.
  intros (m0 & (Ht & (x & Hx & Hq & Hro & Hwo) & Hn & HJ & Hs & Hg & Ha) & Hsteps).
  assert (pipe_inv m0) as I.
  { split; [done|]. split; [intros i bs k; by rewrite HJ|]. unfold pipe_state_ok. rewrite Hx.
    exists []. rewrite Hs, Hg. split; [done|]. split; [done|]. split; [split; intros i; by rewrite HJ|].
    split; [split|split]; intros i Hi; exfalso; (eapply Hn; [|exact Hi]); auto. }
  clear -I Hsteps. induction Hsteps as [|m m1 m2 S _ IH]; [done|]. apply IH. by eapply mstep_inv.
Qed.

(** A process that is awake can go on. *)
Lemma sleep_runs i ch s : tab (kpt s) -> slot i -> exists s', ptM (sleep i (Some ch) KSleep) s = Ok tt s'.
Proof.
  intros Ht Hi. unfold ptM, lift, sleep, updp, sched, gets, modS, mbind, M_bind.
  rewrite !getp_setp_eq by (unfold tab in *; cbn; rewrite ?length_updZ; done).
  cbn [state with_state]. rewrite bool_decide_eq_false_2 by done. by eexists.
Qed.

Lemma user_steps m i : pipe_inv m -> awake (ks m) i -> jobs m i <> Idle -> exists m', mstep m m'.
Proof.
  intros I Hi Hj. destruct (in_use m i I Hj) as (x & q & Hx & Hq & _).
  assert (Hsl : forall ch s, tab (kpt s) -> exists s', ptM (sleep i (Some ch) KSleep) s = Ok tt s')
    by (intros ch s Ht; apply sleep_runs; [done|apply Hi]).
  destruct (jobs m i) as [|bs k|n] eqn:Ej; [done|..].
  - pose proof (write_loop_spec p (load_buf bs) (nthZ 0 bs) (Z.of_nat (length bs)) (length bs - Z.to_nat k) k
      (as_proc i (ks m)) q (readopen x) (writeopen x)) as W.
    apply wp_run in W as ([j o] & s' & E & _ & _ & _ & _ & He); [|done|by exists x].
    destruct o as [v|]; [eexists; by eapply M_put|].
    destruct (Hsl (ChNwrite p) s') as [s'' Es]; [apply He, I|]. eexists. by eapply M_put_sleep.
  - destruct (read_section_ok n (as_proc i (ks m)) x q Hx Hq) as (r & s' & E).
    destruct r as [| |l]; [|eexists; by eapply M_get_killed|eexists; by eapply M_get].
    destruct (read_run (as_proc i (ks m)) x q n _ _ Hx Hq E) as (-> & _).
    destruct (Hsl (ChNread p) (as_proc i (ks m))) as [s'' Es]; [apply I|]. eexists. by eapply M_get_sleep.
Qed.
End machine.

(** ** Theorems *)

(** C7: a pipe is a queue of bytes.  However writers, readers, closes and the rest
    of the kernel interleave, the bytes taken from a pipe followed by the at most
    512 bytes its ring holds are exactly the bytes put into it, in their order:
    none is lost, duplicated or reordered, across the wrap of the ring and of the
    counters. *)
Theorem pipe_is_a_queue kend p m : reached kend p m ->
  exists q, sent m = got m ++ q /\
  forall x, kpipes (ks m) !! p = Some x -> pipe_rep x q /\ Z.of_nat (length q) <= 512.
Proof.
  intros (_ & _ & HP)%reached_inv. unfold pipe_state_ok in HP. destruct (kpipes (ks m) !! p) as [x|].
  - destruct HP as (q & Hq & Hs & _). exists q. split; [done|]. intros x' [= <-]. split; [done|apply Hq].
  - destruct HP as ((q & Hs) & _). exists q. by split.
Qed.

(** C19: nobody sleeps on a pipe in vain.  Unless a writer gave up because it was
    killed, a reader is asleep only while the pipe is empty and its write end open,
    a writer only while the pipe is full and its read end open, never both; and a
    process in a call on the pipe that is not asleep can always go on. *)
Theorem pipe_no_lost_wakeup kend p m : reached kend p m -> aborted m = false ->
  (forall i, asleep (ks m) (ChNread p) i ->
     exists x, kpipes (ks m) !! p = Some x /\ pipe_rep x [] /\ writeopen x <> 0)
  /\ (forall i, asleep (ks m) (ChNwrite p) i ->
     exists x q, kpipes (ks m) !! p = Some x /\ pipe_rep x q /\ Z.of_nat (length q) = PIPESIZE
                 /\ readopen x <> 0)
  /\ (forall i j, asleep (ks m) (ChNread p) i -> ~ asleep (ks m) (ChNwrite p) j)
  /\ (forall i, awake (ks m) i -> jobs m i <> Idle -> exists m', mstep kend p m m').
Proof.
  intros I%reached_inv Hab.
  assert (Hgo : forall i, awake (ks m) i -> jobs m i <> Idle -> exists m', mstep kend p m m')
    by (intros i; by apply user_steps).
  destruct I as (_ & _ & HP). unfold pipe_state_ok in HP. destruct (kpipes (ks m) !! p) as [x|].
  - destruct HP as (q & Hq & _ & _ & [Hs1 Hs2] & Hs3 & Hs4). split_and!; [| | |done].
    + intros i Hi. exists x. destruct (Hs2 i Hi) as [_ He]. rewrite He in Hq by done. eauto.
    + intros i Hi. exists x, q. destruct (Hs1 i Hi). eauto.
    + intros i j Hi Hj. destruct (Hs2 i Hi) as [_ He]. destruct (Hs1 j Hj) as [_ Hl].
      by rewrite He in Hl.
  - destruct HP as (_ & _ & Hn). split_and!; [| | |done].
    + intros i Hi. by destruct (Hn i (ChNread p)); [left|].
    + intros i Hi. by destruct (Hn i (ChNwrite p)); [right|].
    + intros i j Hi. by destruct (Hn i (ChNread p)); [left|].
Qed.

(** *** A reader that waits, and a writer that is killed *)

Section stranded.
Context (kend p : Z) (f : fstate) (v : vst) (c : cst).

(** Process 1 is about to read, process 2 to write though it is killed. *)
Definition two_procs : pst :=
  mk_pst (<[1%nat := with_state RUNNING proc0]> (<[2%nat := with_killed 1 (with_state RUNNING proc0)]>
            (replicate 64 proc0))) 3 0.
Definition new_pipe : pipe := mk_pipe (replicate 512 0) 0 0 1 1.
Definition demo_start : pmachine :=
  mk_pmachine (mk_kst f v two_procs [] {[p := new_pipe]} 1 0 0 (-1) c) (fun _ => Idle) [] [] false.

Lemma new_pipe_rep : pipe_rep new_pipe [].
Proof. by split; try done; intros i Hi; cbn in Hi; lia. Qed.

Lemma two_procs_awake i : state (getp two_procs i) <> SLEEPING.
Proof.
  unfold getp, nthZ. destruct (i <? 0); [done|]. cbn [procs two_procs].
  destruct (decide (Z.to_nat i < 64)%nat).
  - assert (Ha : forallb (fun n => negb (bool_decide (state (nth n (procs two_procs) proc0) = SLEEPING))) (seq 0 64) = true)
      by (vm_compute; reflexivity).
    rewrite forallb_forall in Ha. specialize (Ha (Z.to_nat i)). cbn [procs two_procs] in Ha.
    apply negb_true_iff, bool_decide_eq_false in Ha; [done|]. apply in_seq. lia.
  - rewrite nth_overflow; [done|]. rewrite !length_insert, length_replicate. lia.
Qed.

Lemma demo_fresh : fresh_pipe p demo_start.
Proof.
  split; [done|]. split; [exists new_pipe; split; [apply lookup_insert_eq|split; [apply new_pipe_rep|done]]|].
  split; [|done]. intros i ch _ (_ & Hs & _). by apply (two_procs_awake i).
Qed.

(** The reader goes to sleep. *)
Lemma demo_reads : exists m, reached kend p m /\ asleep (ks m) (ChNread p) 1 /\ jobs m 2 = Idle
  /\ aborted m = false /\ awake (ks m) 2 /\ killed (getp (kpt (ks m)) 2) = 1 /\ kvm (ks m) = v
  /\ kpipes (ks m) !! p = Some new_pipe.
Proof.
  assert (Hx : kpipes (ks demo_start) !! p = Some new_pipe) by apply lookup_insert_eq.
  assert (Hw1 : awake (ks demo_start) 1) by (split; [done|apply two_procs_awake]).
  set (m1 := mk_pmachine (ks demo_start) (set_job 1 (Reading 1) (jobs demo_start)) [] [] false).
  assert (S1 : mstep kend p demo_start m1) by (by apply (M_read kend p demo_start 1 1 new_pipe)).
  destruct (read_section_ok p 1 (as_proc 1 (ks m1)) new_pipe [] Hx new_pipe_rep) as (r & s1 & E).
  assert (r = RSleep /\ s1 = as_proc 1 (ks m1)) as [-> ->].
  { pose proof (read_run p (as_proc 1 (ks m1)) new_pipe [] 1 r s1 Hx new_pipe_rep E) as R.
    destruct r as [| |l]; [by destruct R as [-> _]|by destruct R as [_ R]|].
    destruct R as (_ & _ & _ & R). by specialize (R eq_refl). }
  assert (Es : exists s2, ptM (sleep 1 (Some (ChNread p)) KSleep) (as_proc 1 (ks m1)) = Ok tt s2
    /\ state (getp (kpt s2) 2) <> SLEEPING /\ killed (getp (kpt s2) 2) = 1 /\ kvm s2 = v)
    by (eexists; split; [reflexivity|split; [discriminate|split; reflexivity]]).
  destruct Es as (s2 & Es & H2 & Hk & Hv2).
  destruct (sleep_asleep 1 (ChNread p) (as_proc 1 (ks m1)) s2) as (Ht & Hp & Ha & _); [done..|].
  eexists. split.
  - exists demo_start. split; [apply demo_fresh|]. eapply rtc_l; [exact S1|]. eapply rtc_once.
    eapply M_get_sleep; [exact Hw1|reflexivity|exact E|exact Es].
  - cbn [ks jobs aborted]. split_and!; try done. by rewrite Hp.
Qed.

End stranded.

(** A reader sleeps on an empty pipe, open at both ends. *)
Lemma reader_waits kend p m r : reached kend p m -> aborted m = false -> asleep (ks m) (ChNread p) r ->
  exists x, kpipes (ks m) !! p = Some x /\ pipe_rep x [] /\ readopen x <> 0 /\ writeopen x <> 0.
Proof.
  intros (_ & _ & HP)%reached_inv Hab Ha. unfold pipe_state_ok in HP.
  destruct (kpipes (ks m) !! p) as [x|].
  - destruct HP as (q & Hq & _ & [_ Hu] & [_ Hs] & _ & Hwo). destruct (Hs r Ha) as [Hrd He].
    rewrite (He Hab) in Hq. exists x. split_and!; eauto.
  - destruct HP as (_ & _ & Hno). destruct (Hno r (ChNread p)); [by left|done].
Qed.

(** A write of more than 512 bytes into an empty pipe with a reader asleep fills
    the pipe; then it depends on whether the writer is killed. *)
Lemma overlong_write kend p m r i load b n : reached kend p m -> aborted m = false ->
  asleep (ks m) (ChNread p) r -> 512 < Z.of_nat n ->
  loads load b (kvm (ks m)) 0 (Z.of_nat n) ->
  exists s' x' o, write_loop p load (Z.of_nat n) 0 n (as_proc i (ks m)) = Ok (512, o) s'
    /\ kpipes s' !! p = Some x' /\ pipe_rep x' (map b (seqZ 0 512)) /\ writeopen x' <> 0 /\ kcur s' = i
    /\ if killed (getp (kpt (ks m)) i) =? 0 then o = None /\ woke (ChNread p) (ks m) s'
       else o = Some (-1) /\ kpt s' = kpt (ks m).
Proof.
  intros HR Hab Ha Hn Hl. destruct (reader_waits _ _ _ _ HR Hab Ha) as (x & Hx & Hq & Hu & Hwo).
  pose proof (write_loop_spec p load b (Z.of_nat n) n 0 (as_proc i (ks m)) [] (readopen x) (writeopen x)) as W.
  apply wp_run in W as ([j o] & s' & E & Hj & (x' & Hx' & Hq' & Hro' & Hwo') & _ & Hc & Hend);
    [|by rewrite Z.add_0_l|by exists x]. cbn [fst snd app] in *. rewrite Z.sub_0_r in Hq', Hend.
  pose proof (pr_fits _ _ Hq') as Hfit. rewrite length_map, length_seqZ in Hfit. unfold PIPESIZE in Hfit.
  unfold write_end in Hend. rewrite length_map, length_seqZ in Hend. unfold PIPESIZE in Hend.
  assert (j = 512) as -> by (destruct o; lia).
  exists s', x', o. split_and!; try done; [by rewrite Hwo'|].
  change (curproc (as_proc i (ks m))) with (getp (kpt (ks m)) i) in Hend.
  destruct o as [v|].
  - destruct Hend as [?|(_ & -> & _ & [?|Hk] & Hpt)]; [lia|done|]. by rewrite (proj2 (Z.eqb_neq _ 0)).
  - destruct Hend as (_ & _ & _ & -> & Hw). done.
Qed.

(** [ksleep] of process [i] puts it to sleep and nobody else. *)
Lemma ksleep_blocks {A} i ch s : tab (kpt s) -> slot i -> kcur s = i ->
  exists t, ksleep (A := A) ch s = Block "sleep" (set_kpt t s) /\ asleep (set_kpt t s) ch i
    /\ forall j ch', asleep (set_kpt t s) ch' j -> asleep s ch' j \/ j = i /\ ch' = ch.
Proof.
  intros Ht Hi Hc. destruct (sleep_runs i ch s Ht Hi) as [s' E].
  assert (exists t, s' = set_kpt t s) as [t ->].
  { revert E. unfold ptM, lift. destruct (sleep _ _ _ (kpt s)); try done. intros [= _ <-]. eauto. }
  destruct (sleep_asleep i ch s _ Ht Hi E) as (_ & _ & Ha & Hs). exists t. split; [|done].
  unfold ksleep, gets, mbind, M_bind. unfold slot in Hi.
  rewrite Hc, (proj2 (Z.eqb_neq i (-1))) by lia. by rewrite E.
Qed.

(** A call of [pipewrite] that returns, as steps of the machine. *)
Lemma put_steps kend p m i load b n j v s' : awake (ks m) i -> jobs m i = Idle ->
  (exists x, kpipes (ks m) !! p = Some x /\ writeopen x <> 0) ->
  loads load b (kvm (ks m)) 0 (0 + Z.of_nat n) ->
  write_loop p load (Z.of_nat n) 0 n (as_proc i (ks m)) = Ok (j, Some v) s' ->
  exists m', rtc (mstep kend p) m m' /\ ks m' = s'.
Proof.
  intros Hw Hj (x & Hx & Hwo) Hl E. set (bs := map b (seqZ 0 (Z.of_nat n))).
  assert (Hb : length bs = n) by (unfold bs; rewrite length_map, length_seqZ; lia).
  eexists. split; [|shelve]. eapply rtc_l; [by eapply (M_write kend p m i bs)|]. eapply rtc_once.
  eapply (M_put kend p _ i bs 0); [exact Hw|cbn; unfold set_job; by rewrite decide_True|].
  cbn [ks]. rewrite Hb, Nat.sub_0_r. rewrite (write_loop_ext p _ load b); [exact E| |done].
  intros k s1 Hk _. unfold load_buf, bs. by rewrite nthZ_map_seqZ by lia.
  Unshelve. done.
Qed.

(** C39: a writer killed in the middle of a write strands the reader.  Let a
    process sleep in [piperead] on an empty pipe, and another write more than 512
    bytes.  When the writer is not killed, [pipewrite] fills the pipe, wakes the
    reader and sleeps.  When it is killed, [pipewrite] fills the pipe and returns -1
    without a wakeup: the reader stays asleep on a full pipe whose write end is
    open, in a state that the pipe can really reach. *)
Theorem killed_writer_strands_reader kend p m r i addr b n : reached kend p m -> aborted m = false ->
  asleep (ks m) (ChNread p) r -> awake (ks m) i -> jobs m i = Idle -> 512 < n ->
  loads (fun k => vmM (uload8 (u32 (addr + k)))) b (kvm (ks m)) 0 n ->
  exists s' x', kpipes s' !! p = Some x' /\ pipe_rep x' (map b (seqZ 0 512)) /\ writeopen x' <> 0
  /\ if killed (getp (kpt (ks m)) i) =? 0
     then pipewrite p addr n (as_proc i (ks m)) = Block "sleep" s' /\ ~ asleep s' (ChNread p) r
     else pipewrite p addr n (as_proc i (ks m)) = Ok (-1) s' /\ asleep s' (ChNread p) r
          /\ exists m', rtc (mstep kend p) m m' /\ ks m' = s'.
Proof.
  intros HR Hab Ha Hw Hj Hn Hl. set (load := fun k => vmM (uload8 (u32 (addr + k)))) in Hl.
  assert (En : n = Z.of_nat (Z.to_nat n)) by lia.
  destruct (overlong_write kend p m r i load b (Z.to_nat n) HR Hab Ha) as (s' & x' & o & E & Hx & Hq & Hwo & Hc & Ho);
    [lia|by rewrite <-En|]. rewrite <-En in E. unfold pipewrite. fold load.
  unfold mbind, M_bind. rewrite E. cbn [snd]. destruct (killed (getp (kpt (ks m)) i) =? 0) eqn:Hk.
  - destruct Ho as [-> Hwk]. destruct (reached_inv _ _ _ HR) as (Ht & _ & _).
    destruct (ksleep_blocks (A := Z) i (ChNwrite p) s') as (t & -> & _ & Hs); [by apply Hwk|apply Hw|done|].
    exists (set_kpt t s'), x'. split_and!; try done.
    intros [Hr|[_ ?]]%Hs; [|done]. by destruct (woke_asleep _ _ _ _ _ Hwk Hr).
  - destruct Ho as [-> Hpt]. exists s', x'. split_and!; try done; [unfold asleep; by rewrite Hpt|].
    rewrite En, Nat2Z.id in E. destruct (reader_waits _ _ _ _ HR Hab Ha) as (x & Hx0 & _ & _ & Hwo0).
    eapply put_steps; [done|done|by exists x| |exact E]. by rewrite Z.add_0_l, <-En.
Qed.

(** Process 2 writes three bytes, of which process 1 reads two. *)
Definition after_kst {A} (s : kst) (r : res kst A) : kst := match r with Ok _ s => s | _ => s end.
Definition demo_kst0 : kst := ks (demo_start 4096 any_fs demo_boot any_cst).
Definition demo_kst1 : kst :=
  after_kst demo_kst0 (write_loop 4096 (load_buf [1; 2; 3]) 3 0 3 (as_proc 2 demo_kst0)).
Definition demo_kst2 : kst := after_kst demo_kst1 (read_section 4096 store_buf 2 (as_proc 1 demo_kst1)).

Lemma demo_moved : exists js, reached 0 4096 (mk_pmachine demo_kst2 js [1; 2; 3] [1; 2] false).
Proof.
  eexists. exists (demo_start 4096 any_fs demo_boot any_cst). split; [apply demo_fresh|].
  eapply rtc_l; [eapply (M_write 0 4096 _ 2 [1; 2; 3] new_pipe);
    [split; [done|apply two_procs_awake]|done|apply lookup_insert_eq|done]|].
  eapply rtc_l; [eapply (M_put 0 4096 _ 2 [1; 2; 3] 0 3 3 demo_kst1);
    [split; [done|apply two_procs_awake]|done|vm_compute; reflexivity]|].
  eapply rtc_l; [eapply (M_read 0 4096 _ 1 2);
    [split; [done|vm_compute; done]|done|vm_compute; reflexivity|done]|].
  eapply rtc_l; [eapply (M_get 0 4096 _ 1 2 [1; 2] demo_kst2);
    [split; [done|vm_compute; done]|done|vm_compute; reflexivity]|].
  apply rtc_refl.
Qed.

Lemma pipe_is_a_queue_witness : exists x,
  kpipes demo_kst2 !! 4096 = Some x /\ nread x = 2 /\ nwrite x = 3 /\ pipe_rep x [3].
Proof.
  destruct demo_moved as [js Hr]. destruct (pipe_is_a_queue 0 4096 _ Hr) as (q & Hq & H).
  cbn [sent got app] in Hq. injection Hq as Hq. cbn [ks] in H.
  destruct (kpipes demo_kst2 !! 4096) as [x|] eqn:E; [|by vm_compute in E].
  exists x. split; [done|]. destruct (H x eq_refl) as [Hx _]. rewrite <-Hq in Hx.
  vm_compute in E. injection E as <-. by split_and!.
Defined.

Lemma pipe_no_lost_wakeup_witness : exists m x, reached 0 4096 m /\ asleep (ks m) (ChNread 4096) 1
  /\ kpipes (ks m) !! 4096 = Some x /\ pipe_rep x [] /\ writeopen x <> 0.
Proof.
  destruct (demo_reads 0 4096 any_fs demo_boot any_cst) as (m & Hr & Ha & _ & Hab & _).
  destruct (pipe_no_lost_wakeup 0 4096 m Hr Hab) as (H & _). destruct (H 1 Ha) as (x & Hx).
  by exists m, x.
Defined.

Lemma killed_writer_strands_reader_witness : exists m s', asleep (ks m) (ChNread 4096) 1
  /\ pipewrite 4096 0 513 (as_proc 2 (ks m)) = Ok (-1) s' /\ asleep s' (ChNread 4096) 1.
Proof.
  destruct demo_uspace as (v & pg & l & d & T & U & Us).
  destruct (demo_reads 0 4096 any_fs v any_cst) as (m & Hr & Ha & Hj & Hab & Hw & Hk & Hv & _).
  destruct (killed_writer_strands_reader 0 4096 m 1 2 0 (fun a => default 0 (user_byte (mem v) d a)) 513 Hr Hab Ha Hw Hj)
    as (s' & x' & _ & _ & _ & H); [lia| |rewrite Hk in H; destruct H as (H1 & H2 & _); exists m, s'; exact (conj Ha (conj H1 H2))].
  intros a s Ha' Hs. rewrite Z.add_0_l, u32_small by lia. unfold vmM, lift. rewrite Hs, Hv.
  destruct (uload8_ok demo_kend 8192 d _ T U [] v a Us) as (c & E & -> & _); [lia|]. rewrite E.
  rewrite <-Hv, <-Hs. by destruct s.
Defined.
