(* ===== verification/Line.v ===== *)
(** * Line: what the console shows and what it delivers

    Output: whatever is printed, [vgaputc] writes inside the screen and the serial
    line gets the characters; [printint] prints the digits of the number.  Input:
    the ring and its three counters implement a line editor, given here as a
    function of the lines committed and of the line being typed. *)

From Stdlib Require Import ZArith Lia ZifyBool.
From stdpp Require Import base gmap strings numbers list.
From S2P Require Import Prelude CString Bio Log Fs Kalloc Vm Paging Uvm Ualloc Ucopy Proc Procinv.
From S2P Require Import Conout Kernel Syscall Usermem Pipe Console.

Local Open Scope Z_scope.
#[local] Ltac Zify.zify_post_hook ::= Z.to_euclidean_division_equations.

(** ** Output *)

Record screen_ok (s : cst) : Prop := {
  so_crt : Z.of_nat (length (crt s)) = CELLS;
  so_cursor : 0 <= cursor s < CELLS;
  so_on : panicked s = false
}.

(** Everything but the screen and the serial output. *)
Definition quiet_input (s s' : cst) : Prop :=
  uart_present s' = uart_present s /\ uart_in s' = uart_in s /\ kbd_in s' = kbd_in s /\ shift s' = shift s
  /\ ibuf s' = ibuf s /\ in_r s' = in_r s /\ in_w s' = in_w s /\ in_e s' = in_e s
  /\ con_locked s' = con_locked s /\ con_locking s' = con_locking s /\ panicked s' = panicked s.

Lemma quiet_input_refl s : quiet_input s s.
Proof. by unfold quiet_input. Qed.
Lemma quiet_input_trans s1 s2 s3 : quiet_input s1 s2 -> quiet_input s2 s3 -> quiet_input s1 s3.
Proof. unfold quiet_input. intuition congruence. Qed.

Lemma vga_pos_range c pos : 0 <= pos < CELLS -> 0 <= vga_pos c pos < CELLS.
Proof. intros H. unfold vga_pos. cbn zeta. unfold CELLS in *. repeat case_match; lia. Qed.

Lemma length_scroll m pos : Z.of_nat (length m) = CELLS -> 0 <= pos < 1920 ->
  Z.of_nat (length (scroll m pos)) = CELLS.
Proof.
  intros Hm Hp. unfold scroll, CELLS in *. cbn zeta.
  rewrite !length_app, !length_take, !length_drop, length_replicate, !length_app, !length_drop, !length_take. lia.
Qed.

Lemma crt_put_ok m pos v (Q : list Z -> cst -> Prop) s : 0 <= pos < CELLS -> Q (updZ pos v m) s ->
  wp (crt_put m pos v) Q s.
Proof.
  intros Hp HQ. unfold crt_put. rewrite (proj2 (andb_true_iff _ _)) by (unfold CELLS in *; lia). exact HQ.
Qed.

Lemma vgaputc_ok c s : screen_ok s ->
  wp (vgaputc c) (fun _ s' => screen_ok s' /\ cursor s' < 24 * 80 /\ uart_out s' = uart_out s
                              /\ quiet_input s s') s.
Proof.
  intros [Hm Hc Hp]. unfold vgaputc. apply wp_bind. unfold wp at 1, getS. apply wp_bind.
  pose proof (vga_pos_range c (cursor s) Hc) as Hr. set (p := vga_pos c (cursor s)) in *.
  set (q := if 24 <=? p / 80 then p - 80 else p).
  assert (Hq : 0 <= q < 1920) by (unfold q, CELLS in *; destruct (Z.leb_spec 24 (p / 80)); lia).
  assert (Hfin : forall m, Z.of_nat (length m) = CELLS ->
    wp (m0 ← crt_put (if 24 <=? p / 80 then scroll m q else m) q BLANK; modS (set_screen m0 q))
      (fun _ s' => screen_ok s' /\ cursor s' < 24 * 80 /\ uart_out s' = uart_out s /\ quiet_input s s') s).
  { intros m Hl. apply wp_bind, crt_put_ok; [unfold CELLS; lia|]. apply wp_modS. cbn [cursor set_screen uart_out].
    split_and!; [|lia|done|by unfold quiet_input]. split; cbn [crt cursor panicked set_screen].
    - rewrite length_updZ. case_match; [by apply length_scroll|done].
    - unfold CELLS. lia.
    - done. }
  destruct ((c =? 10) || (c =? BACKSPACE)).
  - apply wp_ret. by apply Hfin.
  - apply crt_put_ok; [done|]. apply Hfin. by rewrite length_updZ.
Qed.

(** What the serial line gets for a character. *)
Definition uart_echo (c : Z) : list Z := if c =? BACKSPACE then [8; 32; 8] else [c mod 256].
Definition uart_gets (s s' : cst) (bs : list Z) : Prop :=
  uart_out s' = uart_out s ++ if uart_present s then bs else [].

Lemma uartputc_ok c s (Q : unit -> cst -> Prop) :
  (forall o, o = uart_out s ++ (if uart_present s then [c mod 256] else []) -> Q tt (set_uart_out o s)) ->
  wp (uartputc c) Q s.
Proof.
  intros HQ. unfold uartputc. apply wp_bind, wp_gets. destruct (uart_present s) eqn:E.
  - apply wp_modS, HQ. done.
  - apply wp_ret. rewrite app_nil_r in HQ. destruct s; by apply HQ.
Qed.

Lemma consputc_ok c s : screen_ok s ->
  wp (consputc c) (fun _ s' => screen_ok s' /\ uart_gets s s' (uart_echo c) /\ quiet_input s s') s.
Proof.
  intros S. unfold consputc. apply wp_bind, wp_gets. rewrite (so_on s S).
  assert (Hput : forall o s1, s1 = set_uart_out o s ->
    o = uart_out s ++ (if uart_present s then uart_echo c else []) ->
    wp (vgaputc c) (fun _ s' => screen_ok s' /\ uart_gets s s' (uart_echo c) /\ quiet_input s s') s1).
  { intros o s1 -> Ho. eapply wp_mono; [apply vgaputc_ok; destruct S; by split|].
    intros [] s' (S' & _ & Hu & Hq). split; [done|]. split; [|done]. unfold uart_gets. rewrite Hu. done. }
  apply wp_bind. unfold uart_echo in *. destruct (c =? BACKSPACE).
  - apply wp_bind, uartputc_ok. intros o1 E1. apply wp_bind, uartputc_ok. intros o2 E2.
    apply uartputc_ok. intros o3 E3. eapply Hput; [reflexivity|].
    cbn [uart_out set_uart_out uart_present] in *. rewrite E3, E2, E1. destruct (uart_present s);
      by rewrite ?app_nil_r, <-?app_assoc.
  - apply uartputc_ok. intros o E. by eapply Hput.
Qed.

Lemma puts_ok cs s : screen_ok s ->
  wp (forM cs consputc) (fun _ s' => screen_ok s' /\ uart_gets s s' (concat (map uart_echo cs)) /\ quiet_input s s') s.
Proof.
  intros S. revert s S. induction cs as [|c cs IH]; intros s S; cbn [forM map concat].
  - apply wp_ret. split; [done|]. split; [|apply quiet_input_refl]. unfold uart_gets. case_match; by rewrite app_nil_r.
  - apply wp_bind. eapply wp_mono; [by apply consputc_ok|]. intros [] s1 (S1 & H1 & Q1).
    eapply wp_mono; [by apply IH|]. intros [] s2 (S2 & H2 & Q2).
    split; [done|]. split; [|by eapply quiet_input_trans].
    unfold uart_gets in *. rewrite H2, H1. destruct Q1 as (-> & _).
    destruct (uart_present s); [by rewrite <-app_assoc|by rewrite !app_nil_r].
Qed.

(** ** Numbers *)

(** Reading a number back, most significant digit first. *)
Definition undigit (c : Z) : Z := if c <? 58 then c - 48 else c - 97 + 10.
Definition read_nat (base : Z) (text : list Z) : Z := fold_left (fun a c => a * base + undigit c) text 0.
Definition read_int (base : Z) (text : list Z) : Z :=
  match text with
  | c :: r => if c =? 45 then - read_nat base r else read_nat base text
  | [] => 0
  end.

Lemma undigit_digit d : 0 <= d < 16 -> undigit (digit d) = d.
Proof. intros H. unfold undigit, digit. repeat case_match; lia. Qed.

Lemma digit_range d : 0 <= d < 16 -> 48 <= digit d < 103.
Proof. intros H. unfold digit. case_match; lia. Qed.

Lemma read_nat_rev base d ds : read_nat base (rev (d :: ds)) = base * read_nat base (rev ds) + undigit d.
Proof. unfold read_nat. cbn [rev]. rewrite fold_left_app. cbn. lia. Qed.

Lemma digits_of_ok base : 2 <= base <= 16 -> forall n x, 0 <= x < base ^ Z.of_nat n -> (0 < n)%nat ->
  read_nat base (rev (digits_of n x base)) = x
  /\ Forall (fun c => 48 <= c < 103) (digits_of n x base)
  /\ digits_of n x base <> [] /\ (length (digits_of n x base) <= n)%nat.
Proof.
  intros Hb. induction n as [|n IH]; intros x Hx Hn; [lia|]. cbn [digits_of].
  rewrite Nat2Z.inj_succ, Z.pow_succ_r in Hx by lia.
  assert (Hm : 0 <= x mod base < 16) by (pose proof (Z.mod_pos_bound x base); lia).
  pose proof (Z.div_mod x base ltac:(lia)) as Hdm. pose proof (Z.div_pos x base ltac:(lia) ltac:(lia)).
  rewrite read_nat_rev, undigit_digit by done.
  destruct (Z.eqb_spec (x / base) 0) as [E|E].
  - split_and!; [cbn; lia|constructor; [by apply digit_range|done]|done|cbn; lia].
  - assert (Hlt : x / base < base ^ Z.of_nat n) by (apply Z.div_lt_upper_bound; lia).
    assert (Hn' : (0 < n)%nat) by (destruct n; [cbn in Hlt; lia|lia]).
    destruct (IH (x / base) ltac:(lia) Hn') as (-> & HF & _ & Hl).
    split_and!; [lia|constructor; [by apply digit_range|done]|done|cbn; lia].
Qed.

(** The fuel of [int_buf] does not matter once it is enough. *)
Lemma digits_of_fuel base x : 2 <= base -> forall n k, 0 <= x < base ^ Z.of_nat n -> (0 < n <= k)%nat ->
  digits_of k x base = digits_of n x base.
Proof.
  intros Hb n. revert x. induction n as [|n IH]; intros x k Hx Hn; [lia|].
  destruct k as [|k]; [lia|]. cbn [digits_of]. f_equal. destruct (Z.eqb_spec (x / base) 0) as [|E]; [done|].
  rewrite Nat2Z.inj_succ, Z.pow_succ_r in Hx by lia.
  assert (Hlt : x / base < base ^ Z.of_nat n) by (apply Z.div_lt_upper_bound; lia).
  pose proof (Z.div_pos x base ltac:(lia) ltac:(lia)).
  assert ((0 < n)%nat) by (destruct n; [cbn in Hlt; lia|lia]). apply IH; lia.
Qed.

Lemma int_buf_ok xx base sign : base = 10 \/ base = 16 ->
  (length (int_buf xx base sign) <= 11)%nat
  /\ Forall (fun c => 45 <= c < 103) (int_buf xx base sign)
  /\ read_int base (rev (int_buf xx base sign)) = if sign then s32 xx else u32 xx.
Proof.
  intros Hb. unfold int_buf. set (neg := sign && (s32 xx <? 0)).
  set (x := if neg then u32 (- s32 xx) else u32 xx).
  assert (Hx : 0 <= x < 2 ^ 32) by (unfold x; case_match; apply u32_range).
  assert (Hp : x < base ^ Z.of_nat 10) by (destruct Hb as [->| ->]; cbn; lia).
  rewrite (digits_of_fuel base x ltac:(lia) 10 32) by lia.
  destruct (digits_of_ok base ltac:(lia) 10 x ltac:(lia) ltac:(lia)) as (Hr & HF & Hne & Hl).
  assert (Hv : (if neg then - x else x) = if sign then s32 xx else u32 xx).
  { unfold x, neg. pose proof (s32_range xx). destruct sign; cbn [andb].
    - destruct (Z.ltb_spec (s32 xx) 0); unfold u32, s32 in *; lia.
    - done. }
  clearbody x neg. set (ds := digits_of 10 x base) in *. clearbody ds.
  split; [rewrite length_app; destruct neg; cbn [length]; lia|]. split.
  - apply Forall_app. split; [eapply Forall_impl; [exact HF|cbn; lia]|]. destruct neg; repeat constructor; lia.
  - rewrite <-Hv. destruct neg.
    + rewrite rev_app_distr. cbn [rev app read_int]. rewrite Z.eqb_refl, Hr. done.
    + rewrite app_nil_r. destruct (rev ds) as [|c r] eqn:E.
      { apply (f_equal (@rev Z)) in E. rewrite rev_involutive in E. done. }
      cbn [read_int]. replace (c =? 45) with false; [done|]. symmetry. apply Z.eqb_neq.
      assert (Hc : c ∈ ds) by (apply list_elem_of_In, in_rev; rewrite E; by left).
      rewrite Forall_forall in HF. specialize (HF c Hc). cbn in HF. lia.
Qed.

Lemma echo_plain cs : Forall (fun c => 0 <= c < 256) cs -> concat (map uart_echo cs) = cs.
Proof.
  induction 1 as [|c cs Hc _ IH]; [done|]. cbn [map concat]. rewrite IH. unfold uart_echo, BACKSPACE.
  rewrite (proj2 (Z.eqb_neq _ _)) by lia. by rewrite Z.mod_small.
Qed.

(** [printint] prints the number.  On a screen whose cursor is inside, it
    stays inside its buffer and the screen, and the text that goes out, read in the
    base it was printed in, is the number: signed with [sign], else as an unsigned
    word; the most negative number included. *)
Theorem printint_prints xx base sign s : base = 10 \/ base = 16 -> screen_ok s ->
  exists text s', printint xx base sign s = Ok tt s' /\ screen_ok s' /\ uart_gets s s' text
    /\ read_int base text = (if sign then s32 xx else u32 xx) /\ quiet_input s s'.
Proof.
  intros Hb S. destruct (int_buf_ok xx base sign Hb) as (Hl & HF & Hr).
  destruct (wp_run _ _ _ (puts_ok (rev (int_buf xx base sign)) s S)) as ([] & s' & E & S' & Hu & Hq).
  exists (rev (int_buf xx base sign)), s'. split_and!; try done.
  - unfold printint. cbn zeta. rewrite (proj2 (Z.ltb_ge _ _)) by lia. exact E.
  - rewrite echo_plain in Hu; [done|]. rewrite Forall_forall in *. intros c Hc.
    specialize (HF c ltac:(by apply list_elem_of_In, in_rev, list_elem_of_In)). cbn in HF. lia.
Qed.

Lemma printint_prints_witness : exists text s', printint (- 2 ^ 31) 10 true any_cst = Ok tt s'
  /\ uart_gets any_cst s' text /\ read_int 10 text = - 2 ^ 31.
Proof.
  destruct (printint_prints (- 2 ^ 31) 10 true any_cst) as (text & s' & E & _ & Hu & Hr & _);
    [by left|by split; vm_compute|]. exists text, s'. split_and!; [exact E|done|exact Hr].
Defined.

(** ** Input: the ring *)

(** The ring holds [q], which may be read, and then [l], the line being typed. *)
Record line_rep (s : cst) (q l : list Z) : Prop := {
  lr_len : Z.of_nat (length (ibuf s)) = INPUT_BUF;
  lr_r : 0 <= in_r s < 2 ^ 32;
  lr_w : in_w s = u32 (in_r s + Z.of_nat (length q));
  lr_e : in_e s = u32 (in_r s + Z.of_nat (length (q ++ l)));
  lr_fits : Z.of_nat (length (q ++ l)) <= INPUT_BUF;
  lr_data : forall i, 0 <= i < Z.of_nat (length (q ++ l)) ->
    nthZ 0 (ibuf s) ((in_r s + i) mod INPUT_BUF) = nthZ 0 (q ++ l) i
}.

Lemma line_rep_quiet s s' q l : quiet_input s s' -> line_rep s q l -> line_rep s' q l.
Proof.
  intros (_ & _ & _ & _ & Hb & Hr & Hw & He & _) [H1 H2 H3 H4 H5 H6].
  split; rewrite ?Hb, ?Hr, ?Hw, ?He; done.
Qed.

Lemma line_rep_put s q l c : line_rep s q l -> Z.of_nat (length (q ++ l)) < INPUT_BUF ->
  line_rep (set_input (updZ (in_e s mod INPUT_BUF) (c mod 256) (ibuf s)) (in_r s) (in_w s) (u32 (in_e s + 1)) s)
    q (l ++ [c mod 256]).
Proof.
  intros [H1 H2 H3 H4 H5 H6] Hlt. rewrite !length_app in *. split; cbn [ibuf in_r in_w in_e set_input];
    rewrite ?length_updZ, ?length_app; cbn [length]; try done; [rewrite H4; unfold u32; lia|lia|].
  intros i Hi. rewrite app_assoc.
  assert (Hm : in_e s mod INPUT_BUF = (in_r s + Z.of_nat (length (q ++ l))) mod INPUT_BUF)
    by (rewrite H4, length_app; unfold u32, INPUT_BUF; lia).
  rewrite Hm, nthZ_app by lia. rewrite length_app.
  destruct (Z.ltb_spec i (Z.of_nat (length q + length l))).
  - rewrite nthZ_updZ_ne; [apply H6; lia|]. unfold INPUT_BUF in *. lia.
  - replace i with (Z.of_nat (length q + length l)) by lia. rewrite Z.sub_diag.
    apply nthZ_updZ_eq. unfold INPUT_BUF in *. lia.
Qed.

Lemma line_rep_commit s q l : line_rep s q l -> line_rep (set_input (ibuf s) (in_r s) (in_e s) (in_e s) s) (q ++ l) [].
Proof. intros [H1 H2 H3 H4 H5 H6]. split; cbn [ibuf in_r in_w in_e set_input]; by rewrite ?app_nil_r. Qed.

Lemma line_rep_erase s q l c : line_rep s q (l ++ [c]) ->
  line_rep (set_input (ibuf s) (in_r s) (in_w s) (u32 (in_e s - 1)) s) q l.
Proof.
  intros [H1 H2 H3 H4 H5 H6]. rewrite app_assoc, length_app in *. cbn [length] in *.
  split; cbn [ibuf in_r in_w in_e set_input]; try done; [rewrite H4; unfold u32; lia|lia|].
  intros i Hi. rewrite H6 by lia. rewrite nthZ_app by lia.
  by rewrite (proj2 (Z.ltb_lt _ _)) by lia.
Qed.

(** Control-C leaves a single newline to read. *)
Lemma line_rep_reset s q l : line_rep s q l ->
  line_rep (set_input (updZ (in_r s mod INPUT_BUF) 10 (ibuf s)) (in_r s) (u32 (in_r s + 1)) (u32 (in_r s + 1)) s) [10] [].
Proof.
  intros [H1 H2 H3 H4 H5 H6]. split; cbn [ibuf in_r in_w in_e set_input app length];
    rewrite ?length_updZ; try done.
  intros i Hi. replace i with 0 by lia. rewrite Z.add_0_r. apply nthZ_updZ_eq. unfold INPUT_BUF in *. lia.
Qed.

Lemma line_rep_get s c q l : line_rep s (c :: q) l ->
  nthZ 0 (ibuf s) (in_r s mod INPUT_BUF) = c
  /\ line_rep (set_input (ibuf s) (u32 (in_r s + 1)) (in_w s) (in_e s) s) q l.
Proof.
  intros [H1 H2 H3 H4 H5 H6]. cbn [length app] in *. split.
  - specialize (H6 0 ltac:(lia)). rewrite Z.add_0_r in H6. exact H6.
  - split; cbn [ibuf in_r in_w in_e set_input]; try done; [apply u32_range| | |lia|].
    + rewrite H3. unfold u32. lia.
    + rewrite H4. unfold u32. lia.
    + intros i Hi. specialize (H6 (i + 1) ltac:(lia)).
      replace ((u32 (in_r s + 1) + i) mod INPUT_BUF) with ((in_r s + (i + 1)) mod INPUT_BUF)
        by (unfold u32, INPUT_BUF; lia).
      rewrite H6. unfold nthZ. rewrite !(proj2 (Z.ltb_ge _ 0)) by lia.
      by replace (Z.to_nat (i + 1)) with (S (Z.to_nat i)) by lia.
Qed.

(** The tests of the code. *)
Lemma line_empty s q l : line_rep s q l -> (in_e s =? in_w s) = (Z.of_nat (length l) =? 0).
Proof. intros [H1 H2 H3 H4 H5 H6]. rewrite H3, H4, length_app in *. unfold u32, INPUT_BUF in *. lia. Qed.
Lemma line_room s q l : line_rep s q l -> u32 (in_e s - in_r s) = Z.of_nat (length (q ++ l)).
Proof. intros [H1 H2 H3 H4 H5 H6]. rewrite H4. unfold u32, INPUT_BUF in *. lia. Qed.
Lemma line_full s q l : line_rep s q l ->
  (in_e s =? u32 (in_r s + INPUT_BUF)) = (Z.of_nat (length (q ++ l)) =? INPUT_BUF).
Proof. intros [H1 H2 H3 H4 H5 H6]. rewrite H4. unfold u32, INPUT_BUF in *. lia. Qed.
Lemma line_none s q l : line_rep s q l -> (in_r s =? in_w s) = (Z.of_nat (length q) =? 0).
Proof. intros [H1 H2 H3 H4 H5 H6]. rewrite H3, length_app in *. unfold u32, INPUT_BUF in *. lia. Qed.
Lemma line_last s q l c : line_rep s q (l ++ [c]) -> nthZ 0 (ibuf s) (u32 (in_e s - 1) mod INPUT_BUF) = c.
Proof.
  intros [H1 H2 H3 H4 H5 H6]. rewrite app_assoc, length_app in *. cbn [length] in *.
  specialize (H6 (Z.of_nat (length (q ++ l))) ltac:(lia)).
  rewrite nthZ_app, (proj2 (Z.ltb_ge _ _)), Z.sub_diag in H6 by lia.
  rewrite H4. replace (u32 (u32 (in_r s + Z.of_nat (length (q ++ l) + 1)) - 1) mod INPUT_BUF)
    with ((in_r s + Z.of_nat (length (q ++ l))) mod INPUT_BUF) by (unfold u32, INPUT_BUF; lia).
  exact H6.
Qed.

(** ** The line editor *)

(** What a key does to the bytes to be read and to the line being typed; [fg] says
    that there is a foreground process. *)
Definition ld_key (fg : bool) (c : Z) (x : list Z * list Z) : list Z * list Z :=
  let '(q, l) := x in
  if c =? CTL_P then (q, l)
  else if c =? CTL_U then (q, [])
  else if (c =? CTL_H) || (c =? 0x7f) then (q, removelast l)
  else if c =? CTL_C then if fg then ([10], []) else (q, l)
  else if negb (c =? 0) && (Z.of_nat (length (q ++ l)) <? INPUT_BUF) then
    let c := if c =? 13 then 10 else c in
    let l := l ++ [c] in
    if (c =? 10) || (c =? CTL_D) || (Z.of_nat (length (q ++ l)) =? INPUT_BUF) then (q ++ l, []) else (q, l)
  else (q, l).

(** The parts of the console that typing does not touch. *)
Definition con_same (s s' : cst) : Prop :=
  uart_present s' = uart_present s /\ uart_in s' = uart_in s /\ kbd_in s' = kbd_in s
  /\ con_locked s' = con_locked s /\ con_locking s' = con_locking s.

Lemma con_same_trans s1 s2 s3 : con_same s1 s2 -> con_same s2 s3 -> con_same s1 s3.
Proof. unfold con_same. intuition congruence. Qed.
Lemma quiet_same s s' : quiet_input s s' -> con_same s s'.
Proof. unfold quiet_input, con_same. intuition congruence. Qed.

(** A console with input [q] and [l]. *)
Record con_rep (s : cst) (q l : list Z) : Prop := {
  cr_screen : screen_ok s;
  cr_line : line_rep s q l;
  cr_nonl : Forall (fun c => c <> 10) l
}.

Lemma screen_set_input s b r w e : screen_ok s -> screen_ok (set_input b r w e s).
Proof. by intros [H1 H2 H3]. Qed.

Lemma input_erase_ok s q l c : con_rep s q (l ++ [c]) ->
  wp input_erase (fun _ s' => con_rep s' q l /\ con_same s s') s.
Proof.
  intros [S L N]. unfold input_erase. apply wp_bind, wp_modS.
  eapply wp_mono; [apply consputc_ok, screen_set_input, S|]. intros [] s' (S' & _ & Q).
  split; [|by apply quiet_same in Q].
  split; [done|by eapply line_rep_quiet, line_rep_erase|by apply Forall_app in N as [? _]].
Qed.

Lemma kill_line_ok q : forall fuel l s, con_rep s q l -> (length l < fuel)%nat ->
  wp (loop fuel (fun _ : unit =>
        s ← getS;
        if negb (in_e s =? in_w s)
           && negb (nthZ 0 (ibuf s) (u32 (in_e s - 1) mod INPUT_BUF) =? 10)
        then input_erase ;; mret (inl tt) else mret (inr tt)) tt)
     (fun _ s' => con_rep s' q [] /\ con_same s s') s.
Proof.
  induction fuel as [|fuel IH]; intros l s C Hl; [lia|]. cbn [loop]. apply wp_bind, wp_bind.
  unfold wp at 1, getS. rewrite (line_empty s q l) by apply C.
  destruct l as [|c l _] using rev_ind.
  - cbn. by split.
  - rewrite length_app in *. cbn [length] in *. rewrite (line_last s q l c) by apply C.
    rewrite (proj2 (Z.eqb_neq _ _)) by lia.
    assert (c <> 10) by (pose proof (cr_nonl _ _ _ C) as N; apply Forall_app in N as [_ N]; by inversion N).
    rewrite (proj2 (Z.eqb_neq c 10)) by done. cbn [negb andb].
    apply wp_bind. eapply wp_mono; [by eapply input_erase_ok|]. intros [] s1 [C1 E1].
    apply wp_ret. eapply wp_mono; [apply (IH l s1 C1); lia|]. intros [] s2 [C2 E2].
    split; [done|by eapply con_same_trans].
Qed.

(** ** Keys, with processes *)

(** The console of a state, and nobody waiting for bytes that are there. *)
Definition kcon (s : kst) (q l : list Z) : Prop :=
  con_rep (kcons s) q l /\ tab (kpt s) /\ (q <> [] -> forall i, ~ asleep s ChInput i).
(** The foreground process, if any, may be interrupted. *)
Definition fg_ok (s : kst) : Prop := fgproc s = -1 \/ pid (getp (kpt s) (fgproc s)) <> 1.
(** Typing leaves the rest of the kernel alone and may only wake processes. *)
Definition typed (s s' : kst) : Prop :=
  kfs s' = kfs s /\ kvm s' = kvm s /\ kft s' = kft s /\ kpipes s' = kpipes s /\ kcur s' = kcur s
  /\ fgproc s' = fgproc s /\ con_same (kcons s) (kcons s')
  /\ (forall i, pid (getp (kpt s') i) = pid (getp (kpt s) i))
  /\ (forall ch i, asleep s' ch i -> asleep s ch i).

Lemma typed_trans s1 s2 s3 : typed s1 s2 -> typed s2 s3 -> typed s1 s3.
Proof.
  intros (A1 & A2 & A3 & A4 & A5 & A6 & A7 & A8 & A9) (B1 & B2 & B3 & B4 & B5 & B6 & B7 & B8 & B9).
  unfold typed. do 6 (split; [congruence|]). split; [by eapply con_same_trans|].
  split; [intros i; by rewrite B8, A8|eauto].
Qed.
Lemma typed_fg s s' : typed s s' -> fg_ok s -> fg_ok s'.
Proof. intros (_ & _ & _ & _ & _ & E & _ & Hp & _). unfold fg_ok. by rewrite E, Hp. Qed.
Lemma typed_con c s : con_same (kcons s) c -> typed s (set_kcons c s).
Proof. unfold typed. by intros. Qed.

Lemma typed_wakeup ch s (Q : unit -> kst -> Prop) :
  (forall s', typed s s' -> kcons s' = kcons s -> (tab (kpt s) -> tab (kpt s'))
     -> (forall i, ~ asleep s' ch i) -> Q tt s') ->
  wp (kwakeup ch) Q s.
Proof.
  intros HQ. unfold kwakeup, ptM. apply wp_lift.
  destruct (getp_wakeup1 (kpt s) (Some ch)) as (t & E & Ht & _ & _ & Hw). unfold wakeup, wp. rewrite E.
  assert (W : woke ch s (set_kpt t s)) by (by split).
  apply HQ; [|done|done|].
  - unfold typed. do 6 (split; [done|]). split; [by unfold con_same|]. split.
    + intros i. cbn. rewrite Hw. unfold woken. by case_match.
    + intros ch' i Hi. by apply (woke_asleep ch ch' s _ i W).
  - intros i Hi. by apply (woke_asleep ch ch s _ i W) in Hi as [_ ?].
Qed.

(** An interrupt of a process other than init. *)
Lemma typed_kill n s : n <> 1 -> tab (kpt s) ->
  wp (kkill n SIGINT) (fun _ s' => typed s s' /\ kcons s' = kcons s /\ tab (kpt s')) s.
Proof.
  intros Hn Ht. unfold kkill. rewrite (proj2 (Z.eqb_neq n 1)) by done. apply wp_bind, wp_ret.
  unfold ptM. apply wp_lift. unfold wp, kill. rewrite (proj2 (Z.eqb_neq n 1)) by done.
  destruct (List.find _ slots) as [i|] eqn:F; [|by split_and!; try done; destruct s].
  apply find_seqZ in F as (Hi & Hp & _). cbn [Z.eqb SIGINT SIGKILL Pos.eqb].
  set (wake := fun p => if bool_decide (state p = SLEEPING) then with_state RUNNABLE p else p).
  match goal with |- context [setp i ?y _] => set (x := y) end.
  assert (Hx : pid x = pid (getp (kpt s) i) /\ state x <> SLEEPING).
  { unfold x, wake. case_bool_decide as B; cbn in *; [done|]. by split. }
  assert (Hg : forall j, getp (setp i x (kpt s)) j = if decide (j = i) then x else getp (kpt s) j)
    by (intros j; rewrite getp_setp by (done || unfold slot, NPROC; lia); done).
  change (2 =? 9) with false. cbn iota. change ((2 <? 0) || (32 <=? 2)) with false. cbn iota.
  split_and!; [|done|unfold tab in *; cbn; by rewrite length_updZ].
  unfold typed. do 6 (split; [done|]). split; [by unfold con_same|]. split; cbn [kpt set_kpt].
  - intros j. rewrite Hg. case_decide; [subst; apply Hx|done].
  - intros ch j (Hj & Hs & Hc). cbn [kpt set_kpt] in *. rewrite Hg in Hs, Hc.
    destruct (decide (j = i)); [by destruct Hx|]. done.
Qed.

(** Running console code that does not print with processes. *)
Lemma wp_con {A} (m : M cst A) (R : A -> cst -> Prop) (Q : A -> kst -> Prop) s :
  wp m R (kcons s) -> (forall a c, R a c -> Q a (set_kcons c s)) -> wp (conM m) Q s.
Proof. intros Hm HQ. unfold conM. apply wp_lift. eapply wp_mono; [exact Hm|exact HQ]. Qed.

Lemma kcon_edit s q l c : kcon s q l -> forall q' l', con_rep c q' l' -> q' = q -> kcon (set_kcons c s) q' l'.
Proof. intros (C & Ht & Ha) q' l' C' ->. by split. Qed.

Lemma removelast_snoc {A} (l : list A) c : removelast (l ++ [c]) = l.
Proof. rewrite removelast_app by done. cbn. apply app_nil_r. Qed.

(** A key handled: the input is [x], and the rest as [typed] says. *)
Definition key_done (s : kst) (x : list Z * list Z) (s' : kst) : Prop := kcon s' x.1 x.2 /\ typed s s'.

Lemma key_stays s q l : kcon s q l -> key_done s (q, l) s.
Proof.
  intros K. split; [done|]. unfold typed. do 6 (split; [done|]). split; [by unfold con_same|]. by split.
Qed.

Lemma key_kill_line s q l : kcon s q l -> wp (conM kill_line) (fun _ => key_done s (q, [])) s.
Proof.
  intros K. eapply wp_con; [unfold kill_line; eapply kill_line_ok; [apply K|]|].
  - destruct K as [[_ [_ _ _ _ L _] _] _]. rewrite length_app in L. unfold INPUT_BUF in *. lia.
  - intros [] c [C E]. split; [by eapply kcon_edit|by apply typed_con].
Qed.

Lemma key_erase s q l : kcon s q l ->
  wp (c ← gets kcons; if in_e c =? in_w c then mret tt else conM input_erase)
    (fun _ => key_done s (q, removelast l)) s.
Proof.
  intros K. apply wp_bind, wp_gets. rewrite (line_empty (kcons s) q l) by apply K.
  destruct l as [|c l _] using rev_ind.
  - apply wp_ret. by apply key_stays.
  - rewrite length_app, (proj2 (Z.eqb_neq _ _)) by (cbn; lia). pose proof K as [C _].
    rewrite removelast_snoc. eapply wp_con; [by eapply input_erase_ok|]. intros [] k [C' E'].
    split; [by eapply kcon_edit|by apply typed_con].
Qed.

(** What was typed is committed, and the readers are woken. *)
Lemma commit_ok s s1 q l : typed s s1 -> tab (kpt s1) -> line_rep (kcons s1) q l -> screen_ok (kcons s1) ->
  wp (conM input_commit ;; kwakeup ChInput) (fun _ => key_done s (q ++ l, [])) s1.
Proof.
  intros Ty Ht L S. apply wp_bind. unfold conM. apply wp_lift, wp_modS, typed_wakeup.
  intros s2 Ty2 Ec Ht2 Hn. split.
  - cbn [fst snd]. split; [|split; [by apply Ht2|done]]. rewrite Ec.
    split; [by apply screen_set_input|by apply line_rep_commit|done].
  - eapply typed_trans; [exact Ty|]. eapply typed_trans; [|exact Ty2]. apply typed_con. by unfold con_same.
Qed.

Lemma key_interrupt s q l n : kcon s q l -> n <> 1 ->
  wp (kkill n SIGINT ;; conM (modS (fun s => set_input (ibuf s) (in_r s) (in_w s) (in_r s) s)) ;;
      conM (input_put 10) ;; conM input_commit ;; kwakeup ChInput) (fun _ => key_done s ([10], [])) s.
Proof.
  intros (C & Ht & Ha) Hn. apply wp_bind. eapply wp_mono; [by apply typed_kill|].
  intros r s1 (Ty & Ec & Ht1). apply wp_bind. unfold conM at 1. apply wp_lift, wp_modS.
  apply wp_bind. unfold conM at 1. apply wp_lift, wp_modS. apply wp_bind. unfold conM. apply wp_lift, wp_modS.
  cbn [kcons set_kcons]. apply typed_wakeup. intros s2 Ty2 Ec2 Ht2 Hn2. rewrite <-Ec in C. split.
  - cbn [fst snd]. split; [|split; [by apply Ht2|done]]. rewrite Ec2. cbn [kcons set_kcons].
    cbn [ibuf in_r in_w in_e set_input]. change (10 mod 256) with 10.
    split; [do 3 apply screen_set_input; apply C|exact (line_rep_reset _ _ _ (cr_line _ _ _ C))|done].
  - eapply typed_trans; [exact Ty|]. eapply typed_trans; [|exact Ty2]. unfold typed.
    do 6 (split; [done|]). split; [by unfold con_same|]. by split.
Qed.

Lemma key_plain s q l c : kcon s q l -> Z.of_nat (length (q ++ l)) < INPUT_BUF -> 0 < c < 256 ->
  wp (conM (input_put c) ;; conM (consputc c) ;;
      s ← gets kcons;
      if (c =? 10) || (c =? CTL_D) || (in_e s =? u32 (in_r s + INPUT_BUF)) then
        conM input_commit ;; kwakeup ChInput
      else mret tt)
    (fun _ => key_done s (if (c =? 10) || (c =? CTL_D) || (Z.of_nat (length (q ++ l ++ [c])) =? INPUT_BUF)
                          then (q ++ l ++ [c], []) else (q, l ++ [c]))) s.
Proof.
  intros (C & Ht & Ha) Hlt Hc. apply wp_bind. unfold conM at 1. apply wp_lift, wp_modS.
  pose proof (line_rep_put (kcons s) q l c (cr_line _ _ _ C) Hlt) as L. rewrite (Z.mod_small c) in L |- * by lia.
  apply wp_bind. eapply wp_con; [apply consputc_ok; cbn; apply screen_set_input, C|].
  intros [] k (S & _ & Q). cbn [kcons set_kcons] in *. apply wp_bind, wp_gets. cbn [kcons set_kcons].
  pose proof (line_rep_quiet _ _ _ _ Q L) as L'. rewrite (line_full k q (l ++ [c]) L').
  set (s1 := set_kcons k (set_kcons _ s)).
  assert (Ty : typed s s1).
  { apply quiet_same in Q. unfold typed, s1. do 6 (split; [done|]). split; [|by split]. exact Q. }
  destruct ((c =? 10) || (c =? CTL_D) || _) eqn:E; [by apply commit_ok|].
  apply wp_ret. split; [|done]. cbn [fst snd]. split; [|by split]. split; [done|done|].
  apply Forall_app. split; [apply C|]. repeat constructor. lia.
Qed.

Lemma console_char_ok s q l c : kcon s q l -> fg_ok s -> 0 <= c < 256 ->
  wp (console_char c) (fun d s' => d = (c =? CTL_P)
        /\ key_done s (ld_key (negb (fgproc s =? -1)) c (q, l)) s') s.
Proof.
  intros K F Hc. unfold console_char, ld_key.
  destruct (c =? CTL_P) eqn:EP; [apply wp_ret; split; [done|by apply key_stays]|].
  destruct (c =? CTL_U).
  { apply wp_bind. eapply wp_mono; [by eapply key_kill_line|]. intros [] s' D. by apply wp_ret. }
  destruct ((c =? CTL_H) || (c =? 0x7f)).
  { apply wp_bind, wp_gets, wp_bind. eapply wp_mono; [exact (wp_bind_inv _ _ _ _ (key_erase s q l K))|].
    intros [] s' D. by apply wp_ret. }
  destruct (c =? CTL_C).
  { apply wp_bind, wp_gets. destruct (Z.eqb_spec (fgproc s) (-1)) as [E|E]; cbn [negb].
    - apply wp_bind, wp_ret, wp_ret. split; [done|by apply key_stays].
    - apply wp_bind, wp_bind, wp_gets. eapply wp_mono; [eapply key_interrupt; [exact K|]|].
      + by destruct F.
      + intros [] s' D. by apply wp_ret. }
  apply wp_bind, wp_gets. rewrite (line_room (kcons s) q l) by apply K.
  destruct (negb (c =? 0) && _) eqn:E.
  - apply wp_bind. eapply wp_mono; [apply (key_plain s q l (if c =? 13 then 10 else c) K)|].
    + lia.
    + destruct (Z.eqb_spec c 13); lia.
    + intros [] s' D. by apply wp_ret.
  - apply wp_bind, wp_ret, wp_ret. split; [done|by apply key_stays].
Qed.

(** ** A burst of characters *)

Definition type_all (fg : bool) (cs : list Z) (x : list Z * list Z) : list Z * list Z :=
  fold_left (fun x c => ld_key fg c x) cs x.

Lemma typed_same s s' : typed s s' -> con_same (kcons s) (kcons s').
Proof. by intros (_ & _ & _ & _ & _ & _ & E & _). Qed.

(** Frame of a burst: as [typed], but the serial input is consumed. *)
Definition burst (s s' : kst) : Prop :=
  kfs s' = kfs s /\ kvm s' = kvm s /\ kft s' = kft s /\ kpipes s' = kpipes s /\ kcur s' = kcur s
  /\ fgproc s' = fgproc s /\ con_locked (kcons s') = con_locked (kcons s)
  /\ (forall ch i, asleep s' ch i -> asleep s ch i).

Lemma type_loop cs : forall fuel s x, kcon s x.1 x.2 -> fg_ok s -> uart_present (kcons s) = true ->
  uart_in (kcons s) = cs -> Forall (fun c => 0 <= c < 256) cs -> CTL_P ∉ cs -> (length cs < fuel)%nat ->
  wp (loop fuel (fun dump =>
        c ← conM uartgetc;
        if 0 <=? c then d ← console_char c; mret (inl (dump || d)) else mret (inr dump)) false)
    (fun d s' => d = false /\ kcon s' (type_all (negb (fgproc s =? -1)) cs x).1 (type_all (negb (fgproc s =? -1)) cs x).2
       /\ uart_in (kcons s') = [] /\ burst s s') s.
Proof.
  induction cs as [|c cs IH]; intros fuel s [q l] K F Hu Hcs Hb Hp Hf; (destruct fuel as [|fuel]; [lia|]);
    cbn [loop]; apply wp_bind, wp_bind; unfold conM; apply wp_lift; unfold uartgetc; apply wp_bind;
    unfold wp at 1, getS; rewrite Hcs.
  - cbn. by split_and!.
  - rewrite Hu. apply wp_bind, wp_modS, wp_ret. apply Forall_cons in Hb as [Hc Hb].
    rewrite (proj2 (Z.leb_le 0 c)) by lia. apply not_elem_of_cons in Hp as [Hne Hp].
    set (s1 := set_kcons (set_uart_in cs (kcons s)) s).
    assert (K1 : kcon s1 q l) by (destruct K as ([[S1 S2 S3] [L1 L2 L3 L4 L5 L6] N] & Ht & Ha); by split; [split; [split|split|]|]).
    apply wp_bind. eapply wp_mono; [apply (console_char_ok s1 q l c K1 F Hc)|].
    intros d s2 (-> & K2 & Ty). apply wp_ret. rewrite (proj2 (Z.eqb_neq c CTL_P)) by done. cbn [orb].
    destruct (typed_same _ _ Ty) as (E1 & E2 & _ & E4 & _). pose proof Ty as (T1 & T2 & T3 & T4 & T5 & T6 & _ & _ & T9).
    change (fgproc s1) with (fgproc s) in *.
    eapply wp_mono; [apply (IH fuel s2 (ld_key (negb (fgproc s =? -1)) c (q, l)))|].
    + done.
    + by apply (typed_fg s1).
    + by rewrite E1.
    + by rewrite E2.
    + done.
    + done.
    + cbn [length] in Hf. lia.
    + intros d s3 (-> & K3 & Hin & B1 & B2 & B3 & B4 & B5 & B6 & B7 & B8).
      rewrite T6 in K3. cbn [type_all fold_left]. fold (type_all (negb (fgproc s =? -1)) cs).
      split; [done|]. split; [exact K3|]. split; [done|]. unfold burst.
      do 6 (split; [etransitivity; [eassumption|assumption]|]). split; [by rewrite B7, E4|].
      intros ch i Hi. apply B8, T9 in Hi. exact Hi.
Qed.

(** C17: the console edits lines.  The characters of a serial interrupt, handled
    one by one on the ring and its three counters, do exactly what the line editor
    [ld_key] says - erase, kill the line, commit at a newline, at control-D or when
    128 bytes are pending, interrupt - across the wrap of ring and counters, and
    nobody is left asleep while there is input to read. *)
Theorem console_edits_lines bt s q l cs : kcon s q l -> fg_ok s ->
  con_locked (kcons s) = false -> uart_present (kcons s) = true -> uart_in (kcons s) = cs ->
  Forall (fun c => 0 <= c < 256) cs -> CTL_P ∉ cs ->
  let x := type_all (negb (fgproc s =? -1)) cs (q, l) in
  exists s', uartintr bt s = Ok tt s' /\ con_rep (kcons s') x.1 x.2 /\ uart_in (kcons s') = []
    /\ (x.1 <> [] -> forall i, ~ asleep s' ChInput i) /\ burst s s'.
Proof.
  intros K F Hl Hu Hi Hb Hp x.
  set (s1 := set_kcons (set_con_locked true (kcons s)) s).
  assert (K1 : kcon s1 q l) by (destruct K as ([[S1 S2 S3] [L1 L2 L3 L4 L5 L6] N] & Ht & Ha); by split; [split; [split|split|]|]).
  enough (W : wp (uartintr bt) (fun _ s' => con_rep (kcons s') x.1 x.2 /\ uart_in (kcons s') = []
    /\ (x.1 <> [] -> forall i, ~ asleep s' ChInput i) /\ burst s s') s).
  { apply wp_run in W as ([] & s' & E & W). by exists s'. }
  unfold uartintr, consoleintr. apply wp_bind. unfold conM at 1. apply wp_lift. unfold acquire_cons.
  apply wp_bind, wp_gets. rewrite Hl. apply wp_modS. fold s1. apply wp_bind, wp_gets, wp_bind.
  eapply wp_mono; [apply (type_loop cs _ s1 (q, l) K1 F Hu Hi Hb Hp)|].
  { change (uart_in (kcons s1)) with (uart_in (kcons s)). rewrite Hi. lia. }
  intros d s2 (-> & (C2 & Ht2 & Ha2) & Hin & B). apply wp_bind. unfold conM. apply wp_lift. unfold release_cons.
  apply wp_bind, wp_gets. destruct B as (B1 & B2 & B3 & B4 & B5 & B6 & B7 & B8). rewrite B7. cbn [con_locked set_con_locked kcons set_kcons s1].
  apply wp_modS, wp_ret. change (fgproc s1) with (fgproc s) in *. fold x in C2, Ha2.
  split_and!.
  - cbn [kcons set_kcons]. destruct C2 as [[S1 S2 S3] [L1 L2 L3 L4 L5 L6] N]. by split; [split|split|].
  - done.
  - exact Ha2.
  - unfold burst. do 6 (split; [done|]). split; [by rewrite Hl|]. exact B8.
Qed.

(** Two characters, an erase, another and a newline, on a console with a little
    history. *)
Definition demo_con : cst :=
  mk_cst (replicate 2000 0) 1900 true [] [97; 98; 8; 99; 13] [] 0 (replicate 128 0) 4294967295 4294967295 4294967295
    false true false.
Definition demo_typing : kst := mk_kst any_fs demo_boot two_procs [] ∅ 1 0 0 (-1) demo_con.

Lemma demo_typing_ok : kcon demo_typing [] [].
Proof.
  split; [|by split]. split; [by split|split; try done; intros i Hi; cbn in Hi; lia|done].
Qed.

Lemma console_edits_lines_witness : exists s', uartintr (fun _ => []) demo_typing = Ok tt s'
  /\ con_rep (kcons s') [97; 99; 10] [].
Proof.
  destruct (console_edits_lines (fun _ => []) demo_typing [] [] [97; 98; 8; 99; 13]) as (s' & E & C & _);
    [apply demo_typing_ok|by left|reflexivity|reflexivity|reflexivity|repeat constructor; lia|by vm_compute; set_solver|].
  exists s'. split; [exact E|exact C].
Defined.

(** C40: control-C for init halts the machine.  [consoleintr] holds [cons.lock]
    when it calls [kill], and [kill] prints a message when asked to kill process 1,
    which takes the lock again; any process can make process 1 the foreground
    process with [setfg]. *)
Theorem ctrl_c_to_init_panics bt s r : con_locked (kcons s) = false -> con_locking (kcons s) = true ->
  uart_present (kcons s) = true -> uart_in (kcons s) = CTL_C :: r ->
  fgproc s <> -1 -> pid (getp (kpt s) (fgproc s)) = 1 -> panics (uartintr bt) "acquire" s.
Proof.
  intros Hl Hk Hu Hi Hf Hp. unfold uartintr, consoleintr.
  set (s1 := set_kcons (set_con_locked true (kcons s)) s).
  set (s2 := set_kcons (set_uart_in r (kcons s1)) s1).
  apply panics_bind_r with (Q := fun _ s' => s' = s1).
  { unfold conM. apply wp_lift. unfold acquire_cons. apply wp_bind, wp_gets. by rewrite Hl. }
  intros [] ? ->. apply panics_gets, panics_bind_l. cbn [loop]. apply panics_bind_l.
  apply panics_bind_r with (Q := fun c s' => c = CTL_C /\ s' = s2).
  { unfold conM. apply wp_lift. unfold uartgetc. apply wp_bind. unfold wp at 1, getS.
    change (uart_in (kcons s1)) with (uart_in (kcons s)). rewrite Hi.
    change (uart_present (kcons s1)) with (uart_present (kcons s)). by rewrite Hu. }
  intros c ? [-> ->]. change (0 <=? CTL_C) with true. cbn iota. apply panics_bind_l.
  unfold console_char. change (CTL_C =? CTL_P) with false. change (CTL_C =? CTL_U) with false.
  change ((CTL_C =? CTL_H) || (CTL_C =? 127)) with false. change (CTL_C =? CTL_C) with true. cbn iota.
  apply panics_gets. change (fgproc s2) with (fgproc s). rewrite (proj2 (Z.eqb_neq _ _) Hf).
  apply panics_bind_l, panics_gets. change (kpt s2) with (kpt s). rewrite Hp.
  apply panics_bind_l. unfold kkill. change (1 =? 1) with true. cbn iota. apply panics_bind_l.
  unfold panics, conM, lift, cprintf, gets, mbind, M_bind, acquire_cons.
  change (con_locking (kcons s2)) with (con_locking (kcons s)). rewrite Hk.
  change (con_locked (kcons s2)) with true. by eexists.
Qed.

Definition demo_ctrl_c : kst :=
  mk_kst any_fs demo_boot (mk_pst (<[1%nat := with_pid 1 (with_state SLEEPING proc0)]> (replicate 64 proc0)) 2 1)
    [] ∅ (-1) 0 0 1
    (mk_cst (replicate 2000 0) 0 true [] [3] [] 0 (replicate 128 0) 0 0 0 false true false).
Lemma ctrl_c_to_init_panics_witness : panics (uartintr (fun _ => [])) "acquire" demo_ctrl_c.
Proof. apply (ctrl_c_to_init_panics (fun _ => []) demo_ctrl_c []); reflexivity || discriminate. Defined.

(** ** Reading *)

(** What a read of [n] bytes takes from the committed input, and what it leaves;
    nothing when it has to wait for more.  [fresh]: nothing was read yet. *)
Fixpoint ld_take (fresh : bool) (n : nat) (q : list Z) : option (list Z * list Z) :=
  match n, q with
  | O, _ => Some ([], q)
  | _, [] => None
  | S n, c :: q' =>
      if c =? CTL_D then Some ([], if fresh then q' else q)
      else if c =? 10 then Some ([10], q')
      else match ld_take false n q' with Some (bs, r) => Some (c :: bs, r) | None => None end
  end.

Lemma set_input_back s w e : in_r s = u32 (u32 (in_r s + 1) - 1) ->
  set_input (ibuf s) (u32 (u32 (in_r s + 1) - 1)) w e (set_input (ibuf s) (u32 (in_r s + 1)) w e s)
  = set_input (ibuf s) (in_r s) w e s.
Proof. intros H. by rewrite <-H. Qed.

Section read.
Context (kend : Z) (pl : list Z) (T U : gmap Z Z) (X : list Z) (N d : Z).

(** What the loop of [consoleread] leaves alone. *)
Definition read_frame (s s' : kst) : Prop :=
  kfs s' = kfs s /\ kpt s' = kpt s /\ kcur s' = kcur s /\ con_locked (kcons s') = con_locked (kcons s).

Lemma overwrites_nil dst v : overwrites d dst [] v v.
Proof. intros a Ha. cbn [length]. by rewrite decide_False by lia. Qed.

Lemma overwrites_one dst c v v' : (forall a, 0 <= a < KERNBASE ->
    user_byte (mem v') d a = if decide (a = dst) then Some c else user_byte (mem v) d a) ->
  overwrites d dst [c] v v'.
Proof.
  intros Hv a Ha. rewrite Hv by done. cbn [length]. destruct (decide (a = dst)) as [->|].
  - rewrite decide_True by lia. by rewrite Z.sub_diag.
  - by rewrite decide_False by lia.
Qed.

Lemma overwrites_cons dst c bs v v1 v2 : overwrites d dst [c] v v1 -> overwrites d (dst + 1) bs v1 v2 ->
  overwrites d dst (c :: bs) v v2.
Proof.
  intros O1 O2 a Ha. rewrite O2, O1 by done. cbn [length]. destruct (decide (a = dst)) as [->|].
  - rewrite decide_False, !decide_True by lia. by rewrite Z.sub_diag.
  - case_decide.
    + rewrite decide_True by lia. replace (Z.to_nat (a - dst)) with (S (Z.to_nat (a - (dst + 1)))) by lia. done.
    + rewrite !decide_False by lia. done.
Qed.

Lemma read_line_ok target : forall n s q l dst bs r,
  con_rep (kcons s) q l -> Forall (fun c => 0 <= c < 256) q ->
  uspace kend (kvm s) N d pl T U X -> 0 <= dst -> dst + Z.of_nat n <= N ->
  Z.of_nat n <= target -> ld_take (Z.of_nat n =? target) n q = Some (bs, r) ->
  wp (read_line n dst target) (fun k s' =>
    k = Some (Z.of_nat n - Z.of_nat (length bs)) /\ con_rep (kcons s') r l
    /\ uspace kend (kvm s') N d pl T U X /\ overwrites d dst bs (kvm s) (kvm s')
    /\ read_frame s s') s.
Proof.
  pose proof overwrites_nil as Hnil.
  induction n as [|n IH]; intros s q l dst bs r C Hq Us Hdst Hn Ht E.
  - assert (E' : Some ([], q) = Some (bs, r)) by (by destruct q). injection E' as <- <-.
    cbn. split_and!; try done; apply C.
  - destruct q as [|c q]; [done|]. apply Forall_cons in Hq as [Hc Hq]. cbn [read_line ld_take] in *.
    apply wp_bind, wp_gets. rewrite (line_none (kcons s) (c :: q) l) by apply C.
    rewrite (proj2 (Z.eqb_neq _ _)) by (cbn; lia).
    destruct C as [Sc L Nl]. destruct (line_rep_get _ _ _ _ L) as [-> L'].
    assert (Hs8 : (s8 c =? CTL_D) = (c =? CTL_D) /\ (s8 c =? 10) = (c =? 10) /\ s8 c mod 256 = c)
      by (unfold s8, CTL_D, ctl; lia).
    destruct Hs8 as (-> & -> & ->). apply wp_bind. unfold conM at 1. apply wp_lift, wp_modS.
    set (s1 := set_kcons _ s).
    assert (C1 : con_rep (kcons s1) q l) by (split; [by apply screen_set_input|done|done]).
    destruct (c =? CTL_D).
    + apply wp_bind. destruct (Z.ltb_spec (Z.of_nat (S n)) target).
      * rewrite (proj2 (Z.eqb_neq _ _)) in E by lia. injection E as <- <-. unfold conM. apply wp_lift, wp_modS, wp_ret.
        assert (Eb : set_input (ibuf (kcons s1)) (u32 (in_r (kcons s1) - 1)) (in_w (kcons s1)) (in_e (kcons s1)) (kcons s1)
          = kcons s).
        { unfold s1. cbn [kcons set_kcons ibuf in_r in_w in_e set_input].
          rewrite set_input_back by (pose proof (lr_r _ _ _ L); unfold u32; lia). by destruct (kcons s). }
        rewrite Eb. cbn [kcons set_kcons kvm kpt s1 length]. by split_and!.
      * rewrite (proj2 (Z.eqb_eq _ _)) in E by lia. injection E as <- <-. apply wp_ret, wp_ret. cbn [length].
        by split_and!.
    + destruct (ustore8_ok kend _ _ _ _ _ _ (kvm s) dst c Us) as (v1 & Ev & S1 & Hv); [lia|done|].
      apply overwrites_one in Hv as Ho.
      pose proof (us_sz _ _ _ _ _ _ _ _ Us) as Hsz. rewrite u32_small by (unfold KERNBASE in *; lia).
      apply wp_bind. unfold vmM. apply wp_lift. unfold wp at 1. change (kvm s1) with (kvm s). rewrite Ev.
      destruct (c =? 10) eqn:E10.
      * injection E as <- <-. apply wp_ret. apply Z.eqb_eq in E10 as ->. cbn [kvm set_kvm kcons length].
        split_and!; try done. f_equal. lia.
      * destruct (ld_take false n q) as [[bs' r']|] eqn:E'; [|done]. injection E as <- <-.
        eapply wp_mono; [apply (IH (set_kvm v1 s1) q l (dst + 1) bs' r')|].
        -- done.
        -- done.
        -- done.
        -- lia.
        -- lia.
        -- lia.
        -- rewrite (proj2 (Z.eqb_neq _ _)) by lia. done.
        -- intros k s' (-> & C' & S' & O' & F). cbn [length].
           split_and!; try done; [f_equal; lia|by eapply overwrites_cons].
Qed.

(** When the committed input does not suffice, it is all taken and the process
    waits for more, unless it is interrupted. *)
Lemma read_line_waits target : forall n s q l dst,
  con_rep (kcons s) q l -> Forall (fun c => 0 <= c < 256) q ->
  uspace kend (kvm s) N d pl T U X -> 0 <= dst -> dst + Z.of_nat n <= N ->
  ld_take (Z.of_nat n =? target) n q = None -> Z.of_nat n <= target ->
  exists s', read_line n dst target s
      = (if interrupted (curproc s) then mret None else conM release_cons ;; ksleep ChInput) s'
    /\ con_rep (kcons s') [] l /\ overwrites d dst q (kvm s) (kvm s') /\ read_frame s s'.
Proof.
  induction n as [|n IH]; intros s q l dst C Hq Us Hdst Hn E Ht; [by destruct q|].
  cbn [read_line]. unfold gets at 1. unfold mbind at 1, M_bind at 1.
  rewrite (line_none (kcons s) q l) by apply C. destruct q as [|c q].
  - exists s. rewrite (proj2 (Z.eqb_eq _ _)) by done. unfold myproc, gets. unfold mbind at 1, M_bind at 1.
    split; [done|]. split_and!; try done; [apply C..|apply overwrites_nil].
  - rewrite (proj2 (Z.eqb_neq _ _)) by (cbn; lia). apply Forall_cons in Hq as [Hc Hq].
    cbn [ld_take] in E. destruct (c =? CTL_D) eqn:ED; [done|]. destruct (c =? 10) eqn:E10; [done|].
    destruct (ld_take false n q) as [[]|] eqn:E'; [done|].
    destruct C as [Sc L Nl]. destruct (line_rep_get _ _ _ _ L) as [-> L'].
    assert (Hs8 : (s8 c =? CTL_D) = (c =? CTL_D) /\ (s8 c =? 10) = (c =? 10) /\ s8 c mod 256 = c)
      by (unfold s8, CTL_D, ctl; lia).
    destruct Hs8 as (-> & -> & ->). rewrite ED, E10. unfold conM at 1, lift at 1, modS.
    unfold mbind at 1, M_bind at 1. set (s1 := set_kcons _ s).
    destruct (ustore8_ok kend _ _ _ _ _ _ (kvm s) dst c Us) as (v1 & Ev & S1 & Hv); [lia|done|].
    apply overwrites_one in Hv. pose proof (us_sz _ _ _ _ _ _ _ _ Us) as Hsz.
    rewrite u32_small by (unfold KERNBASE in *; lia).
    assert (Es : vmM (ustore8 dst c) s1 = Ok tt (set_kvm v1 s1)) by (unfold vmM, lift; change (kvm s1) with (kvm s); by rewrite Ev).
    rewrite (bind_Ok _ _ _ _ _ Es).
    destruct (IH (set_kvm v1 s1) q l (dst + 1)) as (s' & E1 & C' & O' & F); try done || lia.
    { split; [by apply screen_set_input|done|done]. }
    { by rewrite (proj2 (Z.eqb_neq _ _)) by lia. }
    exists s'. split; [exact E1|]. split_and!; try done; [apply C'..|by eapply overwrites_cons].
Qed.
End read.

(** An inode that the current process has locked, and the same inode unlocked. *)
Definition inode_held (f : fstate) (ip : Z) : Prop :=
  0 <= ip < Z.of_nat (length (icache f)) /\ 1 <= iref (geti f ip)
  /\ ilk (geti f ip) = mk_lock true (pid_of f) /\ ivalid (geti f ip) = true.
Definition inode_freed (ip : Z) (f : fstate) : fstate := seti ip (with_ilk (mk_lock false 0) (geti f ip)) f.

Lemma iunlock_held f ip : inode_held f ip -> iunlock ip f = Ok tt (inode_freed ip f).
Proof.
  intros (Hi & Hr & Hl & _). unfold iunlock, getS, mbind, M_bind. rewrite Hl. unfold holdingsleep.
  cbn [locked lpid]. rewrite Z.eqb_refl, (proj2 (Z.eqb_neq ip NULL)), (proj2 (Z.ltb_ge _ 1)) by (unfold NULL; lia).
  done.
Qed.

Lemma ilock_freed f ip : inode_held f ip -> ilock ip (inode_freed ip f) = Ok tt f.
Proof.
  intros (Hi & Hr & Hl & Hv). unfold ilock, acquirei, getS, gets, mbind, M_bind.
  assert (Hg : geti (inode_freed ip f) ip = with_ilk (mk_lock false 0) (geti f ip))
    by (unfold inode_freed, geti, seti; cbn; by apply nthZ_updZ_eq).
  rewrite (proj2 (Z.eqb_neq ip NULL)), (proj2 (Z.ltb_ge _ 1)) by (rewrite ?Hg; unfold NULL; cbn; lia).
  cbn [orb]. rewrite !Hg. change (pid_of (inode_freed ip f)) with (pid_of f).
  unfold acquiresleep. cbn [ilk with_ilk locked]. rewrite <-Hl.
  assert (E : seti ip (with_ilk (ilk (geti f ip)) (with_ilk (mk_lock false 0) (geti f ip))) (inode_freed ip f) = f).
  { unfold inode_freed, seti. cbn [icache set_icache]. rewrite updZ_updZ.
    replace (with_ilk _ (with_ilk _ (geti f ip))) with (geti f ip) by (by destruct (geti f ip)).
    unfold geti. rewrite updZ_id by done. by destruct f. }
  rewrite E. by rewrite Hv.
Qed.

(** [consoleread] up to its loop: the inode unlocked, the console locked. *)
Definition reading_state (ip : Z) (s : kst) : kst :=
  set_kcons (set_con_locked true (kcons s)) (set_kfs (inode_freed ip (fs_view s)) s).

Lemma consoleread_enter ip dst n s : inode_held (fs_view s) ip -> con_locked (kcons s) = false ->
  consoleread ip dst n s =
  (r ← read_line (Z.to_nat n) dst n; conM release_cons ;; fsM (ilock ip) ;;
   mret match r with Some k => Z.max 0 n - k | None => -1 end) (reading_state ip s).
Proof.
  intros Hi Hl. unfold consoleread, conM, fsM, acquire_cons, gets, modS.
  unfold mbind at 1, M_bind at 1. unfold lift at 1. rewrite (iunlock_held _ _ Hi).
  unfold mbind at 1, M_bind at 1. unfold lift at 1. unfold mbind at 1, M_bind at 1.
  change (con_locked (kcons (set_kfs (inode_freed ip (fs_view s)) s))) with (con_locked (kcons s)). by rewrite Hl.
Qed.

(** ... and from its loop on. *)
Lemma consoleread_leave ip (v : Z) s s1 : inode_held (fs_view s) ip -> read_frame (reading_state ip s) s1 ->
  (conM release_cons ;; fsM (ilock ip) ;; mret v) s1
  = Ok v (set_kfs (fs_view s) (set_kcons (set_con_locked false (kcons s1)) s1)).
Proof.
  intros Hi (Hf & Hp & Hc & Hl). unfold conM, fsM, release_cons, gets, modS.
  unfold mbind at 1, M_bind at 1. unfold lift at 1. unfold mbind at 1, M_bind at 1. rewrite Hl.
  change (con_locked (kcons (reading_state ip s))) with true. cbn iota.
  unfold mbind, M_bind. unfold lift. set (s2 := set_kcons _ s1).
  assert (E : fs_view s2 = inode_freed ip (fs_view s)).
  { unfold fs_view at 1, curproc. change (kfs s2) with (kfs s1). change (kpt s2) with (kpt s1).
    change (kcur s2) with (kcur s1). rewrite Hf, Hp, Hc. done. }
  by rewrite E, (ilock_freed _ _ Hi).
Qed.
(** C33: a read from the console delivers a line.  [consoleread] of [n] bytes,
    called with the inode of the console locked: when the committed input has
    enough, it takes at most [n] bytes up to and including a newline, or up to a
    control-D, which it leaves for the next read unless it is the first character,
    and returns how many those are.  Otherwise it takes what there is, and sleeps
    with console and inode unlocked, or returns -1 if the process is killed or has a
    signal to take - the bytes taken so far are then gone.  In every case the bytes
    taken and no others arrive in the buffer, the line being typed is not touched,
    and a call that returns leaves the console unlocked and the inode locked. *)
Theorem console_reads_line kend pl T U X s q l ip dst n :
  user_space kend s pl T U X -> con_rep (kcons s) q l -> Forall (fun c => 0 <= c < 256) q ->
  con_locked (kcons s) = false -> inode_held (fs_view s) ip -> tab (kpt s) -> slot (kcur s) ->
  0 <= dst -> 0 <= n -> dst + n <= sz (curproc s) ->
  let d := pgdir (curproc s) in
  let ends bs r s' := con_rep (kcons s') r l /\ overwrites d dst bs (kvm s) (kvm s')
                      /\ con_locked (kcons s') = false in
  match ld_take true (Z.to_nat n) q with
  | Some (bs, r) => exists s', consoleread ip dst n s = Ok (Z.of_nat (length bs)) s' /\ ends bs r s'
                      /\ kfs s' = fs_view s /\ kpt s' = kpt s
  | None =>
      if interrupted (curproc s)
      then exists s', consoleread ip dst n s = Ok (-1) s' /\ ends q [] s'
             /\ kfs s' = fs_view s /\ kpt s' = kpt s
      else exists s', consoleread ip dst n s = Block "sleep" s' /\ ends q [] s'
             /\ kfs s' = inode_freed ip (fs_view s) /\ asleep s' ChInput (kcur s)
  end.
Proof.
  intros Us C Hq Hl Hi Ht Hs Hd Hn Hb d ends. rewrite (consoleread_enter ip dst n s Hi Hl).
  set (s1 := reading_state ip s). set (k := Z.to_nat n).
  assert (En : Z.of_nat k = n) by (unfold k; lia). 
  replace (ld_take true k q) with (ld_take (Z.of_nat k =? n) k q) by (by rewrite En, Z.eqb_refl).
  assert (C1 : con_rep (kcons s1) q l) by (destruct C as [[S1 S2 S3] [L1 L2 L3 L4 L5 L6] N]; by split; [split|split|]).
  assert (Cu : forall x r, con_rep x r l -> con_rep (set_con_locked false x) r l)
    by (intros x r [[S1 S2 S3] [L1 L2 L3 L4 L5 L6] N]; by split; [split|split|]).
  destruct (ld_take (Z.of_nat k =? n) k q) as [[bs r]|] eqn:E.
  - destruct (wp_run _ _ _ (read_line_ok kend pl T U X _ _ n k s1 q l dst bs r C1 Hq Us Hd ltac:(lia) ltac:(lia) E))
      as (o & s2 & Es & -> & C2 & _ & O & F).
    rewrite (bind_Ok _ _ _ _ _ Es), (consoleread_leave ip _ s s2 Hi F). eexists. split.
    + f_equal. lia.
    + split; [split_and!; [by apply Cu|exact O|done]|]. split; [done|]. apply F.
  - destruct (read_line_waits kend pl T U X _ _ n k s1 q l dst C1 Hq Us Hd ltac:(lia) E ltac:(lia))
      as (s2 & Es & C2 & O & F). change (curproc s1) with (curproc s) in Es.
    destruct (interrupted (curproc s)).
    + rewrite (bind_Ok _ _ _ _ _ Es), (consoleread_leave ip _ s s2 Hi F). eexists. split; [done|].
      split; [split_and!; [by apply Cu|exact O|done]|]. split; [done|]. apply F.
    + destruct F as (Ff & Fp & Fc & Fl). set (s3 := set_kcons (set_con_locked false (kcons s2)) s2).
      destruct (ksleep_blocks (A := option Z) (kcur s) ChInput s3) as (t & E4 & Ha & _).
      { change (tab (kpt s2)). by rewrite Fp. } { done. } { exact Fc. }
      exists (set_kpt t s3). split.
      * unfold mbind at 1, M_bind at 1. rewrite Es. unfold conM, release_cons, gets, modS.
        unfold mbind, M_bind, lift. rewrite Fl. change (con_locked (kcons s1)) with true. cbn iota.
        cbn beta iota. fold s3. by rewrite E4.
      * split; [split_and!; [by apply Cu|exact O|done]|]. split; [exact Ff|exact Ha].
Qed.

(** "hi", a newline and "x" are there to be read. *)
Definition demo_lines : cst :=
  mk_cst (replicate 2000 0) 0 true [] [] [] 0 ([104; 105; 10; 120] ++ replicate 124 0) 0 4 4 false true false.
Definition demo_inode : inode := mk_inode 1 7 1 (mk_lock true 0) true 3 1 1 1 0 (replicate 11 0) 0 0.
Definition con_fs : fstate := mk_fs (boot ∅ 1) (mk_sb 0 0 0 0 0 0 0 0 0) [demo_inode] 0 0 0.

Lemma console_reads_line_witness : exists s s', consoleread 0 16 100 s = Ok 3 s'
  /\ con_rep (kcons s') [120] [] /\ overwrites (pgdir (curproc s)) 16 [104; 105; 10] (kvm s) (kvm s')
  /\ con_locked (kcons s') = false /\ locked (ilk (geti (kfs s') 0)) = true.
Proof.
  destruct (demo_user_space con_fs demo_lines) as (v & pl & d & T & U & S).
  set (s := demo_kst con_fs v demo_lines (demo_proc d)) in S.
  destruct (console_reads_line demo_kend pl T U [] s [104; 105; 10; 120] [] 0 16 100 S) as (s' & E & (C & O & Hl) & Hf & _).
  - split; [by split|split; try done|done]. intros i Hi. cbn in Hi.
    assert (i = 0 \/ i = 1 \/ i = 2 \/ i = 3) as [->|[->|[->| ->]]] by lia; reflexivity.
  - repeat constructor; lia.
  - reflexivity.
  - split_and!; reflexivity || (cbn; lia).
  - reflexivity.
  - done.
  - lia.
  - lia.
  - vm_compute. discriminate.
  - exists s, s'. rewrite Hf. exact (conj E (conj C (conj O (conj Hl eq_refl)))).
Defined.
