(* ===== verification/Signal.v ===== *)
(** * Signal: when a signal ends a process, and when its handler runs

    Consequences of [trap] (src/kernel/trap.c) for signals, with the saving of the
    interrupted frame in [deliver] and its restoring by [sys_sigreturn]
    (src/kernel/sysproc.c). *)

From Stdlib Require Import ZArith Lia ZifyBool.
From stdpp Require Import base gmap strings numbers list.
From S2P Require Import Prelude CString Bio Log Fs Kalloc Vm Paging Uvm Ualloc Ucopy Proc Procinv.
From S2P Require Import Conout Kernel Syscall Exec Console Trap Usermem.

Local Open Scope Z_scope.

(** ** The current process *)

Definition running (s : kst) : Prop := tab (kpt s) /\ slot (kcur s).
Definition setcur (f : proc -> proc) (s : kst) : kst :=
  set_kpt (setp (kcur s) (f (curproc s)) (kpt s)) s.

Lemma updcur_Ok f s : updcur f s = Ok tt (setcur f s).
Proof. done. Qed.
Lemma curproc_setcur f s : running s -> curproc (setcur f s) = f (curproc s).
Proof. intros [Ht Hi]. unfold curproc at 1. cbn. by apply getp_setp_eq. Qed.
Lemma running_setcur f s : running s -> running (setcur f s).
Proof. intros [Ht Hi]. split; [by apply tab_setp|done]. Qed.
Lemma setcur_setcur f g s : running s -> setcur f (setcur g s) = setcur (fun p => f (g p)) s.
Proof.
  intros R. unfold setcur at 1. rewrite curproc_setcur by done. unfold setcur. cbn.
  by rewrite setp_setp.
Qed.

(** ** Code that does not return *)

Definition never_returns {A} (m : M kst A) : Prop := forall s a s', m s <> Ok a s'.

Lemma never_bind {A B} (m : M kst A) (k : A -> M kst B) :
  (forall a, never_returns (k a)) -> never_returns (m ≫= k).
Proof. intros Hk s b s'. unfold mbind, M_bind. destruct (m s); [apply Hk|done..]. Qed.

Lemma exit_never_returns kend {A} : never_returns (Exec.exit kend (A := A)).
Proof.
  unfold Exec.exit. apply never_bind. intros me. apply never_bind. intros ini.
  destruct (me =? ini); [done|]. do 7 (apply never_bind; intros ?). done.
Qed.

Lemma bind_assoc {A B C} (m : M kst A) (f : A -> M kst B) (k : B -> M kst C) s :
  ((m ≫= f) ≫= k) s = (m ≫= (fun x => f x ≫= k)) s.
Proof. unfold mbind, M_bind. by destruct (m s). Qed.
Lemma bind_ext {A B} (m : M kst A) (f g : A -> M kst B) s :
  (forall a s', f a s' = g a s') -> (m ≫= f) s = (m ≫= g) s.
Proof. intros H. unfold mbind, M_bind. destruct (m s); [apply H|done..]. Qed.

(** What follows a call of [exit] does not run. *)
Lemma exit_bind kend {A B} (k : A -> M kst B) s : (Exec.exit kend ≫= k) s = Exec.exit kend s.
Proof.
  unfold Exec.exit. rewrite bind_assoc. apply bind_ext. intros me s1.
  rewrite bind_assoc. apply bind_ext. intros ini s2. destruct (me =? ini); [done|].
  do 7 (rewrite bind_assoc; apply bind_ext; intros ? ?). done.
Qed.

Lemma interrupted_bind kend {B} (k : unit -> M kst B) s : interrupted (curproc s) = true ->
  (exit_if_interrupted kend ≫= k) s = Exec.exit kend s.
Proof.
  intros Hi. unfold exit_if_interrupted, myproc. rewrite bind_assoc. unfold gets. unfold mbind at 1, M_bind at 1.
  rewrite Hi. apply exit_bind.
Qed.

Section signal.
Context (kend kdata : Z) (devsw : devsw_t) (dioctl : Z -> option (Z -> Z -> Z -> M kst Z))
  (backtrace : proc -> list Z).

(** C38: a signal that is pending when a process enters the kernel ends it.
    Whatever handler the process has installed, a trap from user mode - a system
    call, an interrupt - with a signal pending that is not blocked calls [exit] and
    does not return; handlers run only for signals that arrive during the trap. *)
Theorem pending_signal_exits cpu cr2 t s : running s -> from_user t = true ->
  Z.ldiff (pending (curproc s)) (blocked (curproc s)) <> 0 ->
  trap kend kdata devsw dioctl backtrace cpu cr2 t s = Exec.exit kend (setcur (with_tf t) s)
  /\ forall t' s', trap kend kdata devsw dioctl backtrace cpu cr2 t s <> Ok t' s'.
Proof.
  intros R Hu Hp.
  assert (E : trap kend kdata devsw dioctl backtrace cpu cr2 t s = Exec.exit kend (setcur (with_tf t) s)).
  { unfold trap, gets. unfold mbind at 1, M_bind at 1.
    replace (negb (kcur s =? -1)) with true by (destruct R as [_ [? ?]]; lia). rewrite Hu. cbn [andb].
    rewrite bind_assoc, (bind_Ok _ _ _ _ _ (updcur_Ok _ _)).
    apply interrupted_bind. rewrite curproc_setcur by done. unfold interrupted. cbn. lia. }
  split; [exact E|]. intros t' s'. rewrite E. apply exit_never_returns.
Qed.

(** ** Running a handler *)

(** The space of the current process, seen through an update of its slot. *)
Lemma user_space_setcur f s l T U X : running s ->
  sz (f (curproc s)) = sz (curproc s) -> pgdir (f (curproc s)) = pgdir (curproc s) ->
  user_space kend s l T U X -> user_space kend (setcur f s) l T U X.
Proof.
  intros R Hs Hd S. unfold user_space in *. rewrite curproc_setcur, Hs, Hd by done. exact S.
Qed.

Lemma ustore_frame s l T U X va bs : user_space kend s l T U X -> 0 <= va ->
  va + Z.of_nat (length bs) <= sz (curproc s) -> Forall (fun b => 0 <= b < 256) bs ->
  exists v', ustore va bs s = Ok tt (set_kvm v' s) /\ overwrites (pgdir (curproc s)) va bs (kvm s) v'.
Proof.
  intros S Hva Hb Hbs. destruct (ustore_args kend l T U X s va bs S Hva Hb Hbs) as (v' & E & _ & O). by exists v'.
Qed.

(** A page for the saved frame leaves user memory as it was. *)
Lemma kalloc_frame s p l T U X : user_space kend s (p :: l) T U X ->
  exists v', vmM kalloc s = Ok p (set_kvm v' s) /\ user_space kend (set_kvm v' s) l T U (p :: X)
    /\ mem v' = mem (kvm s) /\ p <> 0.
Proof.
  intros [V Hc Hs Hm]. destruct (vm_ok_kalloc kend _ _ _ _ _ _ V) as (v' & E & V' & K & Hp).
  assert (Em : mem v' = mem (kvm s)).
  { pose proof (kalloc_spec kend (kvm s) (p :: l) (vo_kmem _ _ _ _ _ _ _ V)) as (v2 & E2 & _ & Em & _).
    rewrite E in E2. by injection E2 as <-. }
  exists v'. split; [unfold vmM, lift; by rewrite E|].
  split; [|split; [done|by apply (page_nonzero kend)]].
  split; [exact V'| |exact Hs|exact Hm]. cbn [kvm set_kvm]. rewrite (kp_cr3 _ _ _ _ K). exact Hc.
Qed.

Lemma deliver_runs s t l T U X p h sig :
  running s -> user_space kend s (p :: l) T U X -> sig_tf (curproc s) = 0 ->
  first_signal (Z.ldiff (pending (curproc s)) (blocked (curproc s))) = sig -> 0 < sig < 32 -> sig <> SIGKILL ->
  nthZ 0 (handlers (curproc s)) sig = h -> h <> 0 -> 4 <= esp t -> esp t <= sz (curproc s) ->
  exists s', deliver t s = Ok (with_eip h (with_esp (esp t - 4) t)) s' /\ running s'
    /\ overwrites (pgdir (curproc s)) (esp t - 4) [sig; 0; 0; 0] (kvm s) (kvm s')
    /\ Z.testbit (pending (curproc s')) sig = false /\ p <> 0 /\ killed (curproc s') = killed (curproc s)
    /\ sig_tf (curproc s') = p /\ sig_regs (curproc s') = t.
Proof.
  intros R S Hst Hsig Hs1 Hs2 Hh Hh0 He1 He2. unfold deliver, myproc, gets. unfold mbind at 1, M_bind at 1.
  rewrite Hsig, Hh, (proj2 (Z.eqb_neq sig 0)) by lia. rewrite (bind_Ok _ _ _ _ _ (updcur_Ok _ _)).
  set (s1 := setcur _ s).
  assert (R1 : running s1) by (by apply running_setcur).
  assert (S1 : user_space kend s1 (p :: l) T U X) by (by apply user_space_setcur).
  assert (C1 : curproc s1 = with_signals (Z.clearbit (pending (curproc s)) sig) (blocked (curproc s))
                              (handlers (curproc s)) (curproc s)) by (unfold s1; by rewrite curproc_setcur).
  rewrite (proj2 (Z.eqb_neq sig SIGKILL)), (proj2 (Z.eqb_neq h 0)) by done. rewrite andb_false_r. cbn [orb negb].
  unfold run_handler, myproc, gets. unfold mbind at 1, M_bind at 1. rewrite C1. cbn [sig_tf with_signals].
  rewrite Hst. cbn [Z.eqb].
  destruct (kalloc_frame s1 p l T U X S1) as (v1 & E1 & S2 & Em & Hp0).
  rewrite (bind_Ok _ _ _ _ _ E1), (bind_Ok _ _ _ _ _ (updcur_Ok _ _)), (proj2 (Z.eqb_neq p 0)) by done.
  rewrite (bind_Ok _ _ _ _ _ (updcur_Ok _ _)). set (s2 := set_kvm v1 s1) in *.
  assert (R2 : running s2) by exact R1. rewrite setcur_setcur by done. set (s3 := setcur _ s2).
  assert (C3 : curproc s3 = with_sig_tf p t (curproc s1)).
  { unfold s3. rewrite curproc_setcur by done. change (curproc s2) with (curproc s1). by rewrite C1. }
  assert (S3 : user_space kend s3 l T U (p :: X)) by (by apply user_space_setcur).
  assert (Hd : sz (curproc s3) = sz (curproc s) /\ pgdir (curproc s3) = pgdir (curproc s)) by (by rewrite C3, C1).
  destruct Hd as [Hsz Hpd]. pose proof (us_sz _ _ _ _ _ _ _ _ S) as Hks.
  rewrite u32_small by (unfold KERNBASE in *; lia).
  assert (Hle : le_encode 4 sig = [sig; 0; 0; 0])
    by (cbn; rewrite (Z.mod_small sig 256), (Z.div_small sig 256) by lia; done).
  destruct (ustore_frame s3 l T U (p :: X) (esp t - 4) [sig; 0; 0; 0] S3) as (v2 & E2 & O2);
    [lia|cbn; lia|repeat constructor; lia|].
  rewrite Hle, (bind_Ok _ _ _ _ _ E2). eexists. split; [reflexivity|].
  change (curproc (set_kvm v2 s3)) with (curproc s3). rewrite C3, C1.
  split; [apply running_setcur; exact R2|]. split.
  { cbn [kvm set_kvm]. rewrite Hpd in O2. intros a Ha. rewrite O2 by done. case_decide; [done|].
    change (kvm s3) with v1. by rewrite Em. }
  split_and!; try done. cbn. apply Z.clearbit_eq.
Qed.

Lemma sigreturn_restores s : running s -> sig_tf (curproc s) <> 0 -> eax (tf (curproc s)) = 33 ->
  exists s2, syscall kend kdata devsw dioctl s = Ok tt s2
    /\ tf (curproc s2) = with_eax 0 (sig_regs (curproc s)) /\ kvm s2 = kvm s /\ sig_tf (curproc s2) = 0
    /\ interrupted (curproc s2) = interrupted (curproc s).
Proof.
  intros R Hs He. unfold syscall, myproc, gets. unfold mbind at 1, M_bind at 1. rewrite He.
  change (nthZ None (syscalls kend kdata devsw dioctl) (s32 33)) with (Some sys_sigreturn).
  change ((0 <? s32 33) && (s32 33 <? NSYSCALL)) with true. cbn iota.
  assert (E : sys_sigreturn s = Ok 0 (setcur (fun p => with_sig_tf 0 (sig_regs p) (with_tf (sig_regs p) p)) s)).
  { unfold sys_sigreturn, myproc, gets. unfold mbind at 1, M_bind at 1.
    rewrite (proj2 (Z.eqb_neq _ 0)) by done. by rewrite (bind_Ok _ _ _ _ _ (updcur_Ok _ _)). }
  rewrite (bind_Ok _ _ _ _ _ E), updcur_Ok. eexists. split; [reflexivity|].
  rewrite curproc_setcur by (by apply running_setcur). rewrite curproc_setcur by done. by split_and!.
Qed.

(** ** Whole traps *)

Abbreviation trap := (trap kend kdata devsw dioctl backtrace).

Lemma trap_enter cpu cr2 t s : running s -> from_user t = true -> interrupted (curproc s) = false ->
  trap cpu cr2 t s =
  (if trapno t =? T_SYSCALL then
     syscall kend kdata devsw dioctl ;; exit_if_interrupted kend ;; p ← myproc; mret (tf p)
   else
     trap_switch backtrace cpu cr2 t ;;
     t ← (t ← deliver t; updcur (with_tf t) ;; mret t);
     exit_if_killed kend t ;;
     p ← myproc;
     (if bool_decide (state p = RUNNING) && (trapno t =? T_IRQ0 + IRQ_TIMER)
      then ptM (yield (kcur s)) ;; block "yield" else mret tt) ;;
     exit_if_killed kend t ;;
     mret t) (setcur (with_tf t) s).
Proof.
  intros R Hu Hi. unfold Trap.trap, gets. unfold mbind at 1, M_bind at 1.
  replace (negb (kcur s =? -1)) with true by (destruct R as [_ [? ?]]; lia). rewrite Hu. cbn [andb].
  rewrite bind_assoc, (bind_Ok _ _ _ _ _ (updcur_Ok _ _)).
  assert (E : forall u, interrupted u = interrupted (with_tf t u)) by done.
  assert (Ex : exit_if_interrupted kend (setcur (with_tf t) s) = Ok tt (setcur (with_tf t) s)).
  { unfold exit_if_interrupted, myproc, gets, mbind, M_bind. by rewrite curproc_setcur, <-E, Hi by done. }
  rewrite (bind_Ok _ _ _ _ _ Ex). destruct (trapno t =? T_SYSCALL); [|done].
  rewrite (bind_Ok _ _ _ _ _ Ex), (bind_Ok _ _ _ _ _ (updcur_Ok _ _)). by rewrite setcur_setcur.
Qed.

Lemma not_killed_stays t s : killed (curproc s) = 0 -> exit_if_killed kend t s = Ok tt s.
Proof.
  intros Hk. unfold exit_if_killed, myproc, gets, mbind, M_bind. rewrite Hk. cbn [Z.eqb negb].
  by rewrite andb_false_r.
Qed.

(** An interrupt other than the timer's, from user mode. *)
Lemma trap_delivers cpu cr2 t t' s s1 s2 : running s -> from_user t = true -> interrupted (curproc s) = false ->
  trapno t <> T_SYSCALL -> trapno t' <> T_IRQ0 + IRQ_TIMER ->
  trap_switch backtrace cpu cr2 t (setcur (with_tf t) s) = Ok tt s1 ->
  deliver t s1 = Ok t' s2 -> running s2 -> killed (curproc s2) = 0 ->
  trap cpu cr2 t s = Ok t' (setcur (with_tf t') s2).
Proof.
  intros R Hu Hi Hn Hn' E1 E2 R2 Hk. rewrite trap_enter by done. rewrite (proj2 (Z.eqb_neq _ _)) by done.
  rewrite (bind_Ok _ _ _ _ _ E1), bind_assoc, (bind_Ok _ _ _ _ _ E2), bind_assoc.
  rewrite (bind_Ok _ _ _ _ _ (updcur_Ok _ _)). unfold mret, M_ret. unfold mbind at 1, M_bind at 1.
  assert (Hk' : killed (curproc (setcur (with_tf t') s2)) = 0) by (by rewrite curproc_setcur).
  rewrite (bind_Ok _ _ _ _ _ (not_killed_stays _ _ Hk')). unfold myproc, gets. unfold mbind at 1, M_bind at 1.
  rewrite (proj2 (Z.eqb_neq _ _) Hn'), andb_false_r. unfold mbind at 1, M_bind at 1.
  by rewrite (bind_Ok _ _ _ _ _ (not_killed_stays _ _ Hk')).
Qed.

Lemma trap_syscall cpu cr2 t s s2 : running s -> from_user t = true -> interrupted (curproc s) = false ->
  trapno t = T_SYSCALL -> syscall kend kdata devsw dioctl (setcur (with_tf t) s) = Ok tt s2 ->
  trap cpu cr2 t s = if interrupted (curproc s2) then Exec.exit kend s2 else Ok (tf (curproc s2)) s2.
Proof.
  intros R Hu Hi Hn E. rewrite trap_enter by done. rewrite Hn, Z.eqb_refl, (bind_Ok _ _ _ _ _ E).
  destruct (interrupted (curproc s2)) eqn:Hi2; [by apply interrupted_bind|].
  unfold exit_if_interrupted, myproc, gets, mbind, M_bind. by rewrite Hi2.
Qed.

(** C20: a delivered signal and its return.  Let a signal that is not blocked and
    has a handler arrive while the kernel serves an interrupt of user code, other
    than the timer's; the process is not killed, has no frame saved from an earlier
    signal, its stack pointer lies in its memory, and there is a free page.  Then
    the trap returns to the handler with the number of the signal on top of the
    user stack, everything else of the process's memory and of the frame unchanged
    and the signal no longer pending; and when the handler calls [sigreturn], that
    trap returns to the interrupted frame - but with register eax 0, which the return
    value of the call overwrites, and the page that held the frame is not freed.  A
    signal that arrives during a system call is not delivered: if one is pending
    when the call is done, the trap exits. *)
Theorem signal_handler_roundtrip cpu cr2 t s s1 l T U X p h sig :
  running s -> from_user t = true -> interrupted (curproc s) = false ->
  (trapno t <> T_SYSCALL -> trapno t <> T_IRQ0 + IRQ_TIMER ->
   trap_switch backtrace cpu cr2 t (setcur (with_tf t) s) = Ok tt s1 ->
   running s1 -> killed (curproc s1) = 0 -> user_space kend s1 (p :: l) T U X -> sig_tf (curproc s1) = 0 ->
   first_signal (Z.ldiff (pending (curproc s1)) (blocked (curproc s1))) = sig -> 0 < sig < 32 ->
   sig <> SIGKILL -> nthZ 0 (handlers (curproc s1)) sig = h -> h <> 0 ->
   4 <= esp t -> esp t <= sz (curproc s1) ->
   exists s', trap cpu cr2 t s = Ok (with_eip h (with_esp (esp t - 4) t)) s'
     /\ overwrites (pgdir (curproc s1)) (esp t - 4) [sig; 0; 0; 0] (kvm s1) (kvm s')
     /\ Z.testbit (pending (curproc s')) sig = false
     /\ forall u s2, running s2 -> sig_tf (curproc s2) = sig_tf (curproc s') ->
        sig_regs (curproc s2) = sig_regs (curproc s') -> interrupted (curproc s2) = false ->
        from_user u = true -> trapno u = T_SYSCALL -> eax u = 33 ->
        exists s3, trap cpu cr2 u s2 = Ok (with_eax 0 t) s3
          /\ kvm s3 = kvm s2 /\ sig_tf (curproc s2) = p /\ sig_tf (curproc s3) = 0)
  /\ (trapno t = T_SYSCALL -> syscall kend kdata devsw dioctl (setcur (with_tf t) s) = Ok tt s1 ->
      Z.ldiff (pending (curproc s1)) (blocked (curproc s1)) <> 0 ->
      trap cpu cr2 t s = Exec.exit kend s1).
Proof.
  intros R Hu Hi. split.
  - intros Hn Hn' E1 R1 Hk S Hst Hsig Hs1 Hs2 Hh Hh0 He1 He2.
    destruct (deliver_runs s1 t l T U X p h sig R1 S Hst Hsig Hs1 Hs2 Hh Hh0 He1 He2)
      as (s' & E & R' & O & Hp & Hp0 & Hk' & Htf & Hregs).
    set (t' := with_eip h (with_esp (esp t - 4) t)) in *. rewrite Hk in Hk'.
    exists (setcur (with_tf t') s'). rewrite curproc_setcur by done.
    split; [by apply (trap_delivers cpu cr2 t t' s s1)|]. split; [exact O|]. split; [exact Hp|].
    intros u s2 R2 Htf2 Hr2 Hi2 Hu2 Hnu Hax. change (sig_tf (with_tf _ _)) with (sig_tf (curproc s')) in Htf2.
    change (sig_regs (with_tf _ _)) with (sig_regs (curproc s')) in Hr2.
    destruct (sigreturn_restores (setcur (with_tf u) s2)) as (s3 & E3 & H1 & H2 & H3 & H4).
    + by apply running_setcur.
    + rewrite curproc_setcur by done. cbn. congruence.
    + by rewrite curproc_setcur.
    + rewrite curproc_setcur in H1, H4 by done. exists s3.
      rewrite (trap_syscall cpu cr2 u s2 s3) by done. rewrite H4.
      change (interrupted (with_tf u (curproc s2))) with (interrupted (curproc s2)). rewrite Hi2, H1.
      cbn [sig_regs with_tf]. rewrite Hr2, Hregs. split_and!; try done. congruence.
  - intros Hn E Hp. rewrite (trap_syscall cpu cr2 t s s1) by done.
    replace (interrupted (curproc s1)) with true; [done|]. unfold interrupted. lia.
Qed.
End signal.

(** A process with a handler for signal 2 at 64, interrupted in user mode; the
    parameters of the file system do not matter. *)
Definition no_dev : devsw_t := mk_devsw (fun _ => None) (fun _ => None).
Definition demo_frame : trapframe := mk_tf 0 0 0 0 0 0 0 77 0 0 0 0 33 0 100 27 0 4000 0.
Definition demo_signalled (d : Z) : proc :=
  with_signals 4 0 (updZ 2 64 (replicate 32 0)) (demo_proc d).

Lemma pending_signal_exits_witness : exists s, running s /\ nthZ 0 (handlers (curproc s)) 2 = 64
  /\ forall t' s', trap 0 0 no_dev (fun _ => None) (fun _ => []) 0 0 demo_frame s <> Ok t' s'.
Proof.
  exists (demo_kst any_fs demo_boot any_cst (demo_signalled 0)).
  assert (R : running (demo_kst any_fs demo_boot any_cst (demo_signalled 0))) by (by split).
  split; [done|]. split; [reflexivity|].
  apply (pending_signal_exits 0 0 no_dev (fun _ => None) (fun _ => []) 0 0 demo_frame _ R); [reflexivity|].
  vm_compute. discriminate.
Defined.

(** The same process, pid 5, in the foreground when control-C is typed. *)
Definition demo_fg (d : Z) : proc :=
  with_pid 5 (with_signals 0 0 (updZ 2 64 (replicate 32 0)) (demo_proc d)).
Definition demo_ctl_c : cst :=
  mk_cst (replicate 2000 0) 0 true [] [3] [] 0 (replicate 128 0) 0 0 0 false true false.
Definition demo_typed (v : vst) (d : Z) : kst :=
  mk_kst any_fs v (mk_pst (<[1%nat := demo_fg d]> (replicate 64 proc0)) 6 0) [] ∅ 1 0 0 1 demo_ctl_c.
Definition com1_frame : trapframe := mk_tf 0 0 0 0 0 0 0 77 0 0 0 0 36 0 100 27 0 4000 0.

Lemma demo_ctl_c_arrives v d : exists s1,
  trap_switch (fun _ => []) 0 0 com1_frame (setcur (with_tf com1_frame) (demo_typed v d)) = Ok tt s1
  /\ kvm s1 = v /\ kcur s1 = 1 /\ tab (kpt s1)
  /\ curproc s1 = with_signals 4 0 (updZ 2 64 (replicate 32 0)) (with_tf com1_frame (demo_fg d)).
Proof. eexists. split; [vm_compute; reflexivity|]. split_and!; vm_compute; reflexivity. Qed.

Lemma signal_handler_roundtrip_witness : exists s t' s', running s
  /\ trap demo_kend 0 no_dev (fun _ => None) (fun _ => []) 0 0 com1_frame s = Ok t' s' /\ eip t' = 64 /\ esp t' = 3996.
Proof.
  destruct demo_uspace as (v & p & l & d & T & U & S).
  destruct (demo_ctl_c_arrives v d) as (s1 & E1 & Hv & Hc & Ht & Hp).
  assert (R : running (demo_typed v d)) by (by split).
  destruct (signal_handler_roundtrip demo_kend 0 no_dev (fun _ => None) (fun _ => []) 0 0 com1_frame
    (demo_typed v d) s1 l T U [] p 64 2 R eq_refl eq_refl) as [H _].
  destruct H as (s' & E & _); rewrite ?Hp; try done; try exact E1.
  - split; [exact Ht|]. rewrite Hc. by split.
  - unfold user_space. rewrite Hp, Hv. exact S.
  - exists (demo_typed v d), (with_eip 64 (with_esp 3996 com1_frame)), s'. split; [exact R|]. split; [exact E|]. by split.
Defined.
