(* ===== verification/Fork.v ===== *)
(** * Fork: what a child shares with its parent and what it owns

    [fork] and [allocproc] (src/kernel/proc.c) put together the process table, the
    page allocator, the copying of an address space, the file table and the inode
    cache.  The theorem says what all of them hold afterwards, for the fork that
    succeeds and for the ones that run out of slots or of memory. *)

From Stdlib Require Import ZArith Lia ZifyBool.
From stdpp Require Import base gmap strings numbers list.
From S2P Require Import Prelude CString Bio Log Fs Kalloc Vm Paging Uvm Ualloc Ucopy Proc Procinv.
From S2P Require Import Conout Kernel Syscall Exec Console Trap Usermem Signal.

Local Open Scope Z_scope.
#[local] Ltac Zify.zify_post_hook ::= Z.to_euclidean_division_equations.

Section fork.
Context (kend kdata : Z).
Context (Hkend : KERNLINK <= kend).
Context (Hkdata : kdata mod 4096 = 0 /\ KERNLINK < kdata < KERNBASE + PHYSTOP).
Abbreviation vm_ok := (vm_ok kend).

(** ** [allocproc] *)

(** The process table with a new process in slot [i], its kernel stack at [k]. *)
Definition embryo (i k : Z) (s : pst) : pst :=
  let t := setp i (init_kstack k (new_proc (nextpid s) (getp s i))) s in
  mk_pst (procs t) (nextpid s + 1) (initproc s).
(** The slot [i] given up again, after it has used up a pid. *)
Definition abandoned (i : Z) (s s' : pst) : Prop :=
  tab s' /\ nextpid s' = nextpid s + 1 /\ initproc s' = initproc s /\ state (getp s' i) = UNUSED
  /\ forall j, slot j -> j <> i -> getp s' j = getp s j.

Lemma getp_mk (s : pst) n ini : getp (mk_pst (procs s) n ini) = getp s.
Proof. done. Qed.

Lemma getp_embryo i k s j : tab s -> slot i ->
  getp (embryo i k s) j = if decide (j = i) then init_kstack k (new_proc (nextpid s) (getp s i)) else getp s j.
Proof.
  intros Ht Hi. unfold embryo. rewrite getp_mk, getp_setp by done. reflexivity.
Qed.
Lemma tab_embryo i k s : tab s -> tab (embryo i k s).
Proof. intros Ht. by apply (tab_setp _ i _ Ht). Qed.

Lemma abandoned_setp i s s1 x : tab s1 -> slot i -> nextpid s1 = nextpid s + 1 -> initproc s1 = initproc s ->
  (forall j, slot j -> j <> i -> getp s1 j = getp s j) -> state x = UNUSED -> abandoned i s (setp i x s1).
Proof.
  intros Ht Hi Hn Hini Ho Hx. split_and!; [by apply tab_setp|done|done|by rewrite getp_setp_eq|].
  intros j Hj Hji. rewrite getp_setp by done. unfold upd. rewrite decide_False by done. auto.
Qed.

Lemma allocproc_spec s l d T U X :
  tab (kpt s) -> nextpid (kpt s) <> 2147483647 -> vm_ok (kvm s) l d T U X ->
  exists r s1, allocproc s = Ok r s1
    /\ ((r = -1 /\ s1 = s /\ forall i, slot i -> state (getp (kpt s) i) <> UNUSED)
        \/ (exists i t, r = -1 /\ slot i /\ state (getp (kpt s) i) = UNUSED /\ l = []
              /\ s1 = set_kpt t s /\ abandoned i (kpt s) t)
        \/ (exists k l' v, slot r /\ state (getp (kpt s) r) = UNUSED /\ l = k :: l'
              /\ s1 = set_kvm v (set_kpt (embryo r k (kpt s)) s)
              /\ vm_ok v l' d T U (k :: X) /\ mem v = mem (kvm s) /\ page_ok kend k)).
Proof.
  intros Ht Hn V. unfold allocproc, ptM, lift. unfold mbind at 1, M_bind at 1. unfold alloc_slot.
  destruct (List.find (is_state UNUSED (kpt s)) slots) as [i|] eqn:Hf.
  - apply find_slot in Hf as [Hi Hs]. apply bool_decide_eq_true in Hs.
    rewrite (proj2 (Z.eqb_neq _ _) Hn). destruct (Z.eqb_spec i (-1)) as [->|_]; [unfold slot in Hi; lia|].
    pose proof (vm_ok_kalloc kend _ _ _ _ _ _ V) as Ha. destruct l as [|k l'].
    + unfold mbind at 1, M_bind at 1, vmM, lift. cbn [kvm set_kpt]. rewrite Ha. cbn [Z.eqb].
      eexists _, _. split; [reflexivity|]. right. left. eexists i, _.
      split_and!; [done..| |]; [reflexivity|]. cbn.
      apply abandoned_setp; [by apply (tab_setp _ i)|done|done|done| |done].
      intros j Hj Hji. unfold getp. cbn [procs]. by rewrite nthZ_updZ_ne.
    + destruct Ha as (v & E & V' & _ & Hp).
      destruct (kalloc_spec kend _ _ (vo_kmem _ _ _ _ _ _ _ V)) as (v' & E' & _ & Em & _).
      rewrite E in E'. injection E' as <-. unfold mbind at 1, M_bind at 1, vmM, lift. cbn [kvm set_kpt]. rewrite E.
      assert (Hk : k <> 0) by (destruct Hp as (_ & ? & _); unfold KERNLINK, KERNBASE, EXTMEM in Hkend; lia).
      rewrite (proj2 (Z.eqb_neq _ _) Hk). eexists i, _. split; [reflexivity|]. right. right.
      exists k, l', v. split_and!; [done..| |done|done|done]. cbn. unfold embryo.
      unfold set_kvm, set_kpt. cbn. f_equal.
      unfold setp, getp. cbn [procs nextpid initproc]. unfold tab, slot in *.
      rewrite nthZ_updZ_eq by lia. by rewrite updZ_updZ.
  - exists (-1), s. split; [by destruct s|]. left. split_and!; [done|done|].
    intros i Hi Hs. assert (Hin : i ∈ slots) by by apply slots_in.
    apply list_elem_of_In in Hin. pose proof (find_none _ _ Hf i Hin) as Hx.
    apply bool_decide_eq_false in Hx. done.
Qed.

(** ** The descriptors *)

(** How many descriptors of [p] are open on the file [f]. *)
Definition opens (p : proc) (fds : list Z) (f : Z) : Z :=
  Z.of_nat (length (filter (fun fd => ofile_at p fd = f) fds)).
(** Every open descriptor holds a reference to an entry of the file table. *)
Definition files_ok (s : kst) (p : proc) : Prop :=
  forall fd, 0 <= fd < NOFILE -> ofile_at p fd <> -1 ->
    0 <= ofile_at p fd < Z.of_nat (length (kft s)) /\ 1 <= fref (getf s (ofile_at p fd)).

(** The file table of [s'] has one more reference for each of the descriptors. *)
Definition dupped (s s' : kst) (p : proc) (fds : list Z) : Prop :=
  exists t, s' = set_kft t s /\ length t = length (kft s)
    /\ forall f, 0 <= f -> nthZ file0 t f = with_fref (fref (getf s f) + opens p fds f) (getf s f).

Lemma with_fref_id x : with_fref (fref x) x = x.
Proof. by destruct x. Qed.

Lemma filedup_Ok s f : 1 <= fref (getf s f) ->
  filedup f s = Ok f (setf f (with_fref (fref (getf s f) + 1) (getf s f)) s).
Proof.
  intros Hf. unfold filedup. unfold gets, mbind at 1, M_bind at 1.
  by destruct (Z.ltb_spec (fref (getf s f)) 1); [lia|].
Qed.

Lemma filedup_all s p : files_ok s p ->
  wp (forM (seqZ 0 NOFILE) (fun fd =>
        if ofile_at p fd =? -1 then mret tt else filedup (ofile_at p fd) ;; mret tt))
     (fun _ s' => dupped s s' p (seqZ 0 NOFILE)) s.
Proof.
  intros Hok. apply wp_forM with (I := fun dn s' => dupped s s' p dn).
  - exists (kft s). split_and!; [by destruct s|done|]. intros f Hf. unfold opens. cbn.
    by rewrite Z.add_0_r, with_fref_id.
  - intros dn fd rest s' El (t & -> & Hlen & Ht).
    assert (Hfd : 0 <= fd < NOFILE).
    { apply (elem_of_seqZ 0 NOFILE fd). rewrite El. apply elem_of_app. right. constructor. }
    destruct (Z.eqb_spec (ofile_at p fd) (-1)) as [E|E].
    + apply wp_ret. exists t. split_and!; [done|done|]. intros f Hf. rewrite Ht by done.
      unfold opens. rewrite filter_app, filter_cons_False by lia. by rewrite app_nil_r.
    + destruct (Hok fd Hfd E) as [Hr H1]. set (g := ofile_at p fd) in *.
      assert (Hg : getf (set_kft t s) g = nthZ file0 t g) by done.
      assert (H2 : 1 <= fref (getf (set_kft t s) g)) by (rewrite Hg, Ht by lia; cbn; unfold opens; lia).
      apply wp_iff. eexists tt, _. split; [by rewrite (bind_Ok _ _ _ _ _ (filedup_Ok _ _ H2))|].
      eexists. split_and!; [reflexivity|cbn; by rewrite length_updZ|]. intros f Hf.
      change (kft (set_kft t s)) with t. rewrite Hg.
      unfold opens. rewrite filter_app, length_app. destruct (Z.eq_dec g f) as [<-|Hgf].
      * rewrite nthZ_updZ_eq by (rewrite Hlen; lia). rewrite Ht by lia. rewrite filter_cons_True by done.
        cbn. unfold with_fref, opens. cbn. f_equal. lia.
      * rewrite nthZ_updZ_ne, Ht by done. rewrite filter_cons_False by done. cbn. unfold opens. do 2 f_equal. lia.
  - done.
Qed.

(** ** [fork] *)

(** The process that calls [fork]: its memory below [sz] is mapped, its
    descriptors hold references and the pids are not used up. *)
Record may_fork (s : kst) (l : list Z) (T U : gmap Z Z) (X : list Z) : Prop := {
  mf_running : running s;
  mf_used : state (curproc s) <> UNUSED;
  mf_pid : nextpid (kpt s) <> 2147483647;
  mf_vm : vm_ok (kvm s) l (pgdir (curproc s)) T U X;
  mf_sz : 0 <= sz (curproc s) <= KERNBASE;
  mf_mapped : forall n, 0 <= n < pgs (sz (curproc s)) -> is_Some (U !! n);
  mf_files : files_ok s (curproc s)
}.

(** The process [c] in slot [np] is a child of the caller. *)
Record child (s : kst) (np : Z) (c : proc) : Prop := {
  ch_slot : slot np;
  ch_free : state (getp (kpt s) np) = UNUSED;
  ch_state : state c = RUNNABLE;
  ch_pid : pid c = nextpid (kpt s);
  ch_parent : parent c = kcur s;
  ch_tf : tf c = with_eax 0 (tf (curproc s));
  ch_context : context c = KForkret;
  ch_sz : sz c = sz (curproc s);
  ch_ofile : forall fd, 0 <= fd < NOFILE -> ofile_at (curproc s) fd <> -1 ->
    ofile_at c fd = ofile_at (curproc s) fd;
  ch_cwd : pcwd c = pcwd (curproc s);
  ch_pending : pending c = 0
}.

(** Its memory is a copy of the caller's, in pages that were free. *)
Definition child_memory (s s' : kst) (l : list Z) (T U : gmap Z Z) (X : list Z) (c : proc) : Prop :=
  exists l' T' U', vm_ok (kvm s') l' (pgdir c) T' U' (pages (pgdir (curproc s)) T U ++ kstack c :: X)
    /\ l ≡ₚ l' ++ kstack c :: pages (pgdir c) T' U'
    /\ forall va, 0 <= va < sz c ->
         user_byte (mem (kvm s')) (pgdir c) va = user_byte (mem (kvm s)) (pgdir (curproc s)) va.

(** The rest of the kernel's state after a fork into slot [np]. *)
Definition forked_rest (s s' : kst) (np : Z) : Prop :=
  (forall j, slot j -> j <> np -> getp (kpt s') j = getp (kpt s) j)
  /\ nextpid (kpt s') = nextpid (kpt s) + 1
  /\ length (kft s') = length (kft s)
  /\ (forall f, 0 <= f -> getf s' f
        = with_fref (fref (getf s f) + opens (curproc s) (seqZ 0 NOFILE) f) (getf s f))
  /\ icache (kfs s') = updZ (pcwd (curproc s))
       (with_ref (iref (geti (kfs s) (pcwd (curproc s))) + 1) (geti (kfs s) (pcwd (curproc s)))) (icache (kfs s)).

(** A fork that failed: the pages are free again, no reference was taken. *)
Definition not_forked (s s' : kst) (l : list Z) : Prop :=
  (exists l', kmem_ok kend (kvm s') l' /\ l' ≡ₚ l) /\ kft s' = kft s /\ kfs s' = kfs s
  /\ (s' = s \/ exists i, slot i /\ state (getp (kpt s) i) = UNUSED /\ abandoned i (kpt s) (kpt s')).

Lemma fork_no_memory s l T U X np k l' v2 :
  may_fork s l T U X -> slot np -> state (getp (kpt s) np) = UNUSED -> l = k :: l' -> page_ok kend k ->
  let s1 := set_kvm v2 (set_kpt (embryo np k (kpt s)) s) in
  (exists l2, kmem_ok kend v2 l2 /\ l2 ≡ₚ l') -> k ∉ l' ->
  exists s', (x ← gets (fun s => getp (kpt s) np);
      vmM (kfree kend (kstack x)) ;;
      updslot np (fun p => with_state UNUSED (with_kstack 0 (with_space (sz p) 0 p))) ;;
      mret (-1)) s1 = Ok (-1) s'
    /\ not_forked s s' l
    /\ (forall q, page_ok kend q -> q ∉ l -> same_page q (mem v2) (mem (kvm s'))).
Proof.
  intros F Hnp Hun -> Hk s1 (l2 & Hm & Pm) Hkl. pose proof (mf_running _ _ _ _ _ F) as [Ht _].
  assert (Hkl2 : k ∉ l2) by by rewrite Pm.
  destruct (kfree_spec kend v2 l2 k Hm Hk Hkl2) as (v3 & E & Hm3 & Hs & _).
  unfold gets, mbind at 1, M_bind at 1. unfold s1 at 1. cbn [kpt set_kvm set_kpt].
  rewrite getp_embryo, decide_True by done. cbn [kstack init_kstack with_context with_kstack].
  unfold mbind at 1, M_bind at 1, vmM, lift. unfold s1 at 1. cbn [kvm set_kvm]. rewrite E.
  eexists. split; [reflexivity|]. split.
  - split; [exists (k :: l2); split; [done|by rewrite Pm]|]. split_and!; [done|done|].
    right. exists np. split_and!; [done|done|]. cbn.
    apply abandoned_setp; [by apply tab_embryo|done|done|done| |done].
    intros j Hj Hne. by rewrite getp_embryo, decide_False.
  - intros q Hq Hql. apply Hs; [done|]. intros ->. apply Hql. constructor.
Qed.

Lemma fork_ofile_at cur x fd : 0 <= fd < NOFILE -> ofile_at cur fd <> -1 ->
  nthZ (-1) (fork_ofile cur x) fd = ofile_at cur fd.
Proof.
  intros Hfd Ho. unfold fork_ofile. rewrite nthZ_map_seqZ by done. unfold ofile_at in *. by case_match; [lia|].
Qed.

Lemma make_runnable_Ok np s :
  ptM (make_runnable np) s = Ok tt (set_kpt (setp np (with_state RUNNABLE (getp (kpt s) np)) (kpt s)) s).
Proof. done. Qed.

Lemma fork_finishes s np k d v : running s -> state (curproc s) <> UNUSED -> files_ok s (curproc s) ->
  slot np -> state (getp (kpt s) np) = UNUSED ->
  exists s', fork_finish (curproc s) np d (set_kvm v (set_kpt (embryo np k (kpt s)) s))
               = Ok (nextpid (kpt s)) s'
    /\ child s np (getp (kpt s') np) /\ pgdir (getp (kpt s') np) = d /\ kstack (getp (kpt s') np) = k
    /\ kvm s' = v /\ forked_rest s s' np.
Proof.
  intros [Ht Hcur] Hst Hfiles Hnp Hun. assert (Hne : kcur s <> np) by (intros <-; done).
  set (c := fork_copy (kcur s) d (curproc s) (getp (embryo np k (kpt s)) np)).
  set (s3 := set_kpt (setp np c (embryo np k (kpt s))) (set_kvm v s)).
  destruct (wp_run _ _ _ (filedup_all s3 (curproc s) Hfiles)) as ([] & s4 & E4 & (t & -> & Hlen & Hft)).
  set (s5 := set_kfs (seti (pcwd (curproc s)) (with_ref (iref (geti (kfs s) (pcwd (curproc s))) + 1)
    (geti (kfs s) (pcwd (curproc s)))) (fs_view (set_kft t s3))) (set_kft t s3)).
  assert (E1 : gets kcur (set_kvm v (set_kpt (embryo np k (kpt s)) s)) = Ok (kcur s)
    (set_kvm v (set_kpt (embryo np k (kpt s)) s))) by done.
  assert (E2 : updslot np (fork_copy (kcur s) d (curproc s)) (set_kvm v (set_kpt (embryo np k (kpt s)) s)) = Ok tt s3)
    by done.
  assert (E5 : fsM (idup (pcwd (curproc s))) (set_kft t s3) = Ok (pcwd (curproc s)) s5) by done.
  assert (Hc : forall j, getp (kpt s5) j = if decide (j = np) then c else getp (kpt s) j).
  { intros j. cbn [kpt s5 s3 set_kfs set_kft set_kpt set_kvm]. rewrite getp_setp by (by apply tab_embryo || done).
    unfold upd. case_decide; [done|]. rewrite getp_embryo by done. by rewrite decide_False. }
  assert (E6 : gets (fun s => pid (getp (kpt s) np)) s5 = Ok (nextpid (kpt s)) s5).
  { unfold gets. rewrite Hc, decide_True by done. unfold c. rewrite getp_embryo, decide_True by done. done. }
  assert (E7 := make_runnable_Ok np s5).
  unfold fork_finish. rewrite (bind_Ok _ _ _ _ _ E1), (bind_Ok _ _ _ _ _ E2), (bind_Ok _ _ _ _ _ E4),
    (bind_Ok _ _ _ _ _ E5), (bind_Ok _ _ _ _ _ E6), (bind_Ok _ _ _ _ _ E7).
  rewrite Hc, decide_True by reflexivity.
  assert (Ht5 : tab (kpt s5)) by (apply tab_setp; by apply tab_embryo).
  eexists. split; [reflexivity|]. cbn [kpt set_kpt]. rewrite getp_setp_eq by done.
  assert (Ec : c = fork_copy (kcur s) d (curproc s) (init_kstack k (new_proc (nextpid (kpt s)) (getp (kpt s) np))))
    by (unfold c; by rewrite getp_embryo, decide_True).
  split; [|split; [by rewrite Ec|split; [by rewrite Ec|split; [done|]]]].
  - rewrite Ec. split; [exact Hnp|exact Hun|reflexivity..| |reflexivity|reflexivity].
    intros fd Hfd Ho. by apply fork_ofile_at.
  - split; [|split; [reflexivity|split; [exact Hlen|split; [|reflexivity]]]].
    + intros j Hj Hjn. cbn [kpt set_kpt]. rewrite getp_setp by done. unfold upd. rewrite decide_False by done.
      rewrite Hc. by rewrite decide_False.
    + intros f Hf. by apply Hft.
Qed.

(** C4: [fork] as a whole.  For a process whose memory is mapped and whose
    descriptors hold references it does not panic.  Either it returns the pid of a
    child: a slot that was unused holds a RUNNABLE process with the caller's
    registers but 0 in eax, its size, descriptors and directory and no pending
    signal; the child's memory reads as the caller's, in pages that were free; each
    file has one more reference per descriptor, the directory one more; nobody
    else's slot changes.  Or it returns -1, because the table is full or pages are
    short, with all pages free again and no reference taken.  Pages that were in
    use, the caller's among them, are not written. *)
Theorem fork_copies_process s l T U X : may_fork s l T U X ->
  exists r s', fork kend kdata s = Ok r s'
    /\ (forall q, page_ok kend q -> q ∉ l -> same_page q (mem (kvm s)) (mem (kvm s')))
    /\ ((exists np, r = nextpid (kpt s) /\ child s np (getp (kpt s') np)
           /\ child_memory s s' l T U X (getp (kpt s') np) /\ forked_rest s s' np)
        \/ r = -1 /\ not_forked s s' l
           /\ ((forall i, slot i -> state (getp (kpt s) i) <> UNUSED)
               \/ Z.of_nat (length l) <= 66 + 2 * pgs (sz (curproc s)))).
Proof.
  intros F. pose proof F as [R Hst Hpid V Hsz Hmap Hfiles]. pose proof R as [Ht Hcur].
  unfold fork, myproc. rewrite (bind_Ok (gets curproc) _ s (curproc s) s) by reflexivity.
  destruct (allocproc_spec s l _ T U X Ht Hpid V) as (r & s1 & E1 & H1). rewrite (bind_Ok _ _ _ _ _ E1).
  destruct H1 as [(-> & -> & Hfull)|[(i & t & -> & Hi & Hun & -> & -> & Hab)|(k & l' & v & Hr & Hun & -> & -> & V1 & K1 & Hk)]].
  - cbn [Z.eqb]. exists (-1), s. split; [reflexivity|]. split; [done|]. right. split; [done|]. split; [|by left].
    split; [|by split_and!; [..|left]]. exists l. split; [apply V|done].
  - cbn [Z.eqb]. eexists (-1), _. split; [reflexivity|]. split; [done|]. right. split; [done|]. split.
    + split; [exists []; split; [apply V|done]|]. split_and!; [done|done|]. right. by exists i.
    + right. cbn. assert (0 <= pgs (sz (curproc s))) by (unfold pgs; lia). lia.
  - destruct (Z.eqb_spec r (-1)) as [->|_]; [unfold slot in Hr; lia|].
    destruct (copyuvm_result kend kdata Hkend Hkdata v l' _ T U (k :: X) (sz (curproc s)) V1 Hsz Hmap)
      as (d & v2 & E2 & Hsame & H2).
    assert (E3 : vmM (copyuvm kend kdata (pgdir (curproc s)) (sz (curproc s)))
      (set_kvm v (set_kpt (embryo r k (kpt s)) s)) = Ok d (set_kvm v2 (set_kpt (embryo r k (kpt s)) s)))
      by (unfold vmM, lift; cbn [kvm set_kvm]; by rewrite E2).
    rewrite (bind_Ok _ _ _ _ _ E3).
    assert (Hnd := km_nodup _ _ _ (vo_kmem _ _ _ _ _ _ _ V)). apply NoDup_cons in Hnd as [Hkl _].
    assert (Hsame2 : forall q, page_ok kend q -> q ∉ k :: l' -> same_page q (mem (kvm s)) (mem v2)).
    { intros q Hq [_ Hql]%not_elem_of_cons. rewrite <-K1. by apply Hsame. }
    destruct H2 as [(l2 & T' & U' & V2 & P2 & Hb & _)|(-> & Hm & Hfew)].
    + assert (Hd : d <> 0).
      { assert (Hp : page_ok kend d) by (apply (vo_pages _ _ _ _ _ _ _ V2); constructor).
        destruct Hp as (_ & ? & _). unfold KERNLINK, KERNBASE, EXTMEM in Hkend. lia. }
      rewrite (proj2 (Z.eqb_neq _ _) Hd).
      destruct (fork_finishes s r k d v2 R Hst Hfiles Hr Hun) as (s' & E4 & C & Cd & Ck & Cv & Crest).
      exists (nextpid (kpt s)), s'. split; [exact E4|]. rewrite Cv. split; [exact Hsame2|]. left. exists r.
      split; [done|]. split; [exact C|]. split; [|exact Crest]. exists l2, T', U'.
      rewrite Cd, Ck, Cv, (ch_sz _ _ _ C). split; [exact V2|]. split; [by rewrite P2, Permutation_middle|].
      intros va Hva. rewrite <-K1. apply Hb. unfold pgs. lia.
    + cbn [Z.eqb]. destruct (fork_no_memory s (k :: l') T U X r k l' v2 F Hr Hun eq_refl Hk Hm Hkl) as (s' & E4 & Hn & Hs4).
      exists (-1), s'. split; [exact E4|]. split.
      * intros q Hq Hql. etransitivity; [by apply Hsame2|by apply Hs4].
      * right. split_and!; [done|done|]. right. cbn [length]. lia.
Qed.
End fork.

(** A process with two pages and its descriptors 0 and 1 on one file. *)
Definition demo_parent (v : vst) (d : Z) : kst :=
  mk_kst any_fs v (mk_pst (<[1%nat := with_ofile (0 :: 0 :: replicate 14 (-1)) (demo_proc d)]> (replicate 64 proc0)) 3 0)
    [mk_file FD_INODE 2 true true 0 0 0 0] ∅ 1 0 0 (-1) any_cst.

Lemma demo_may_fork : exists v l d T U, may_fork demo_kend (demo_parent v d) l T U [] /\ (95 <= length l)%nat.
Proof.
  destruct demo_user as (v & l & d & T & U & V & HU & Hl). exists v, l, d, T, U. split; [|done].
  split; [done|done|done|exact V|vm_compute; done| |].
  - change (pgs (sz (curproc (demo_parent v d)))) with 2. intros n Hn. destruct (HU n Hn) as (f & -> & _). eauto.
  - intros fd Hfd. change (curproc (demo_parent v d)) with (with_ofile (0 :: 0 :: replicate 14 (-1)) (demo_proc d)).
    unfold NOFILE in Hfd. intros Ho. assert (Hz : fd = 0 \/ fd = 1).
    { destruct (Z_lt_ge_dec fd 2); [lia|]. exfalso. apply Ho.
      assert (Hin : Forall (fun k => nthZ (-1) (0 :: 0 :: replicate 14 (-1)) k = -1) (seqZ 2 14)) by (repeat constructor).
      rewrite Forall_forall in Hin. apply Hin, elem_of_seqZ. lia. }
    by destruct Hz as [-> | ->].
Qed.

Lemma fork_copies_process_witness : exists v l d T U s', may_fork demo_kend (demo_parent v d) l T U []
  /\ fork demo_kend demo_kdata (demo_parent v d) = Ok 3 s' /\ fref (getf s' 0) = 4.
Proof.
  destruct demo_may_fork as (v & l & d & T & U & F & Hl).
  destruct (fork_copies_process demo_kend demo_kdata (proj1 demo_layout) (proj2 demo_layout) _ l T U [] F)
    as (r & s' & E & _ & [(np & -> & _ & _ & (_ & _ & _ & Hf & _))|(_ & _ & [Hn|Hn])]).
  - exists v, l, d, T, U, s'. split; [done|]. split; [exact E|]. by rewrite Hf.
  - exfalso. by apply (Hn 0).
  - exfalso. change (pgs (sz (curproc (demo_parent v d)))) with 2 in Hn. lia.
Defined.
