(* ===== verification/Files.v ===== *)
(** * Files: the reference counts of open files

    The file table (src/kernel/file.c) counts references, the process table
    (src/kernel/proc.c) holds the descriptors, and the system calls of
    src/kernel/sysfile.c and src/kernel/proc.c create, copy and drop them.  A state
    is viewed as the descriptors of every process and the count of every entry;
    the table of system calls is checked against an invariant on that view: every
    descriptor is null or an entry of the table, and every count is the number of
    descriptors open on the entry, over all processes. *)

From Stdlib Require Import ZArith Lia ZifyBool.
From stdpp Require Import base gmap strings numbers list.
From S2P Require Import Prelude CString Bio Log Fs Kalloc Vm Paging Uvm Ualloc Ucopy Proc Procinv.
From S2P Require Import Conout Kernel Syscall Exec Console Trap Usermem Signal Fork.

Local Open Scope Z_scope.

(** ** Sums over lists *)

Definition zsum {A} (g : A -> Z) (l : list A) : Z := foldr (fun x n => g x + n) 0 l.

Lemma zsum_cons {A} (g : A -> Z) x l : zsum g (x :: l) = g x + zsum g l.
Proof. done. Qed.
Lemma zsum_nonneg {A} (g : A -> Z) l : (forall x, 0 <= g x) -> 0 <= zsum g l.
Proof. intros H. induction l as [|x l IH]; [done|]. rewrite zsum_cons. specialize (H x). lia. Qed.
Lemma zsum_app {A} (g : A -> Z) l1 l2 : zsum g (l1 ++ l2) = zsum g l1 + zsum g l2.
Proof. induction l1 as [|x l1 IH]; [done|]. cbn [app]. rewrite !zsum_cons, IH. lia. Qed.
Lemma zsum_insert {A} (g : A -> Z) l i x y : l !! i = Some y -> zsum g (<[i := x]> l) = zsum g l - g y + g x.
Proof.
  intros Hi. rewrite <-(take_drop_middle l i y Hi) at 2. rewrite (insert_take_drop l i x) by (by eapply lookup_lt_Some).
  rewrite !zsum_app, !zsum_cons. lia.
Qed.
Lemma zsum_updZ {A} (g : A -> Z) d l i x : 0 <= i < Z.of_nat (length l) ->
  zsum g (updZ i x l) = zsum g l - g (nthZ d l i) + g x.
Proof.
  intros Hi. unfold updZ. rewrite (proj2 (Z.ltb_ge i 0)) by lia. apply zsum_insert. by apply nthZ_lookup.
Qed.
Lemma zsum_pos {A} (g : A -> Z) l x : (forall x, 0 <= g x) -> x ∈ l -> g x <= zsum g l.
Proof.
  intros H Hx. apply list_elem_of_split in Hx as (l1 & l2 & ->). rewrite zsum_app, zsum_cons.
  pose proof (zsum_nonneg g l1 H). pose proof (zsum_nonneg g l2 H). lia.
Qed.
Lemma zsum_seqZ {A} (g : A -> Z) d l : zsum g l = zsum (fun k => g (nthZ d l k)) (seqZ 0 (Z.of_nat (length l))).
Proof.
  induction l as [|x l IH] using rev_ind; [done|]. rewrite length_app. cbn [length].
  replace (Z.of_nat (length l + 1)) with (Z.of_nat (length l) + 1) by lia.
  rewrite seqZ_app by lia. rewrite !zsum_app, IH. f_equal.
  - assert (H : forall k, k ∈ seqZ 0 (Z.of_nat (length l)) -> nthZ d (l ++ [x]) k = nthZ d l k).
    { intros k Hk%elem_of_seqZ. unfold nthZ. rewrite (proj2 (Z.ltb_ge k 0)) by lia.
      apply app_nth1. lia. }
    revert H. generalize (seqZ 0 (Z.of_nat (length l))). intros ks. induction ks as [|k ks IHk]; [done|].
    intros H. rewrite !zsum_cons. rewrite H by constructor. f_equal. apply IHk. intros j Hj. apply H. by constructor.
  - rewrite zsum_cons. change (seqZ (0 + Z.of_nat (length l)) 1) with [Z.of_nat 0 + (0 + Z.of_nat (length l))].
    rewrite zsum_cons. do 2 f_equal. unfold nthZ. rewrite (proj2 (Z.ltb_ge _ 0)) by lia. rewrite app_nth2 by lia.
    by replace (_ - _)%nat with O by lia.
Qed.

Definition one (f g : Z) : Z := if g =? f then 1 else 0.
Lemma one_nonneg f g : 0 <= one f g.
Proof. unfold one. case_match; lia. Qed.
Lemma one_null f : 0 <= f -> one f (-1) = 0.
Proof. unfold one. intros. case_match; lia. Qed.

(** ** The view *)

(** A slot without a process that runs or waits to: it has no descriptors. *)
Definition dead (p : proc) : bool :=
  match state p with UNUSED | ZOMBIE => true | _ => false end.
Definition pview (p : proc) : list Z * bool := (ofile p, dead p).
Record fview : Type := mk_fview { vprocs : list (list Z * bool); vrefs : list Z; vcur : Z }.
Definition view_of (s : kst) : fview :=
  mk_fview (map pview (procs (kpt s))) (map fref (kft s)) (kcur s).

Definition pv0 : list Z * bool := pview proc0.
Definition vproc (v : fview) (i : Z) : list Z * bool := nthZ pv0 (vprocs v) i.
Definition vset_proc (i : Z) (x : list Z * bool) (v : fview) : fview :=
  mk_fview (updZ i x (vprocs v)) (vrefs v) (vcur v).
Definition vref (v : fview) (f : Z) : Z := nthZ 0 (vrefs v) f.
Definition vset_ref (f n : Z) (v : fview) : fview := mk_fview (vprocs v) (updZ f n (vrefs v)) (vcur v).

(** The descriptors open on [f], over all processes. *)
Definition cnt (f : Z) (l : list Z) : Z := zsum (one f) l.
Definition openings (v : fview) (f : Z) : Z := zsum (fun x => cnt f x.1) (vprocs v).

Definition is_file (f : Z) : Prop := 0 <= f < NFILE.
Definition desc_ok (f : Z) : Prop := f = -1 \/ is_file f.
Record slot_ok (x : list Z * bool) : Prop := {
  so_len : length x.1 = Z.to_nat NOFILE;
  so_descs : Forall desc_ok x.1;
  so_dead : x.2 = true -> Forall (fun f => f = -1) x.1
}.

(** Well formed, but for references [d] that a system call holds while it runs. *)
Record files_wf (d : Z -> Z) (v : fview) : Prop := {
  fw_procs : length (vprocs v) = Z.to_nat NPROC;
  fw_refs_len : length (vrefs v) = Z.to_nat NFILE;
  fw_cur : slot (vcur v);
  fw_alive : (vproc v (vcur v)).2 = false;
  fw_slots : Forall slot_ok (vprocs v);
  fw_refs : forall f, is_file f -> vref v f = openings v f + d f
}.
Definition none : Z -> Z := fun _ => 0.

Lemma cnt_nonneg f l : 0 <= cnt f l.
Proof. apply zsum_nonneg, one_nonneg. Qed.

Section view.
Context (d : Z -> Z) (v : fview) (W : files_wf d v).

Lemma fw_slot i : slot i -> slot_ok (vproc v i).
Proof.
  intros Hi. pose proof (fw_slots _ _ W) as H. rewrite Forall_lookup in H. apply (H (Z.to_nat i)).
  apply nthZ_lookup. rewrite (fw_procs _ _ W). unfold slot in Hi. lia.
Qed.

Lemma fw_desc i fd : slot i -> desc_ok (nthZ (-1) (vproc v i).1 fd).
Proof.
  intros Hi. destruct (fw_slot i Hi) as [Hl Hd _]. unfold nthZ. case_match; [by left|].
  destruct (nth_lookup_or_length (vproc v i).1 (Z.to_nat fd) (-1)) as [H1|H1].
  - rewrite Forall_lookup in Hd. by eapply Hd.
  - rewrite nth_overflow by lia. by left.
Qed.

Lemma wf_ext d' : (forall f, is_file f -> d f = d' f) -> files_wf d' v.
Proof. intros H. destruct W. split; [done..|]. intros f Hf. rewrite <-H; auto. Qed.

Lemma wf_set_ref f n : is_file f -> files_wf (fun g => d g + one f g * (n - vref v f)) (vset_ref f n v).
Proof.
  intros Hf. destruct W as [H1 H2 H3 H4 H5 H6]. split; [done|by cbn; rewrite length_updZ|done|done|done|].
  intros g Hg. specialize (H6 g Hg). unfold vref, openings in *. cbn [vprocs vrefs vset_ref]. unfold one at 1.
  destruct (Z.eqb_spec g f) as [->|Hne].
  - rewrite nthZ_updZ_eq; [lia|]. rewrite H2. unfold is_file, NFILE in *. lia.
  - rewrite nthZ_updZ_ne by done. lia.
Qed.

Lemma wf_set_proc i x : slot i -> slot_ok x -> (i = vcur v -> x.2 = false) ->
  files_wf (fun g => d g + cnt g (vproc v i).1 - cnt g x.1) (vset_proc i x v).
Proof.
  intros Hi Hx Hc. destruct W as [H1 H2 H3 H4 H5 H6].
  assert (Hil : 0 <= i < Z.of_nat (length (vprocs v))) by (rewrite H1; unfold slot in Hi; lia).
  split; [by cbn; rewrite length_updZ|done|done| | |].
  - unfold vproc in *. cbn. destruct (Z.eq_dec i (vcur v)) as [He|Hne].
    + rewrite <-He, nthZ_updZ_eq by done. by apply Hc.
    + by rewrite nthZ_updZ_ne.
  - cbn. unfold updZ. rewrite (proj2 (Z.ltb_ge i 0)) by lia. by apply Forall_insert.
  - intros g Hg. specialize (H6 g Hg). unfold vref, openings, vproc in *. cbn [vprocs vrefs vset_proc].
    rewrite (zsum_updZ _ pv0) by done. lia.
Qed.
End view.

(** ** Code that leaves the view alone *)

Definition neutral {A} (m : M kst A) : Prop := forall s a s', m s = Ok a s' -> view_of s' = view_of s.
Definition pt_neutral {A} (m : M pst A) : Prop :=
  forall s a s', m s = Ok a s' -> map pview (procs s') = map pview (procs s).

Lemma neutral_ret {A} (a : A) : neutral (mret a).
Proof. by intros s b s' [= _ <-]. Qed.
Lemma neutral_gets {A} (g : kst -> A) : neutral (gets g).
Proof. by intros s b s' [= _ <-]. Qed.
Lemma neutral_panic {A} msg : neutral (panic msg : M kst A).
Proof. done. Qed.
Lemma neutral_block {A} why : neutral (block why : M kst A).
Proof. done. Qed.
Lemma neutral_bind {A B} (m : M kst A) (k : A -> M kst B) :
  neutral m -> (forall a, neutral (k a)) -> neutral (m ≫= k).
Proof.
  intros Hm Hk s b s'. unfold mbind, M_bind. destruct (m s) as [a s1| | |] eqn:E; try done.
  intros H. rewrite (Hk a s1 b s' H). by eapply Hm.
Qed.
Lemma neutral_lift {A T} (get : kst -> T) (set : T -> kst -> kst) (m : M T A) :
  (forall t s, view_of (set t s) = view_of s) -> neutral (lift get set m).
Proof. intros H s a s'. unfold lift. destruct (m (get s)); [|done..]. intros [= _ <-]. apply H. Qed.
Lemma neutral_fsM {A} (m : M fstate A) : neutral (fsM m).
Proof. by apply neutral_lift. Qed.
Lemma neutral_opM {A} (m : M lst A) : neutral (opM m).
Proof. by apply neutral_lift. Qed.
Lemma neutral_vmM {A} (m : M vst A) : neutral (vmM m).
Proof. by apply neutral_lift. Qed.
Lemma neutral_conM {A} (m : M cst A) : neutral (conM m).
Proof. by apply neutral_lift. Qed.
Lemma neutral_ptM {A} (m : M pst A) : pt_neutral m -> neutral (ptM m).
Proof.
  intros H s a s'. unfold ptM, lift. destruct (m (kpt s)) as [b t| | |] eqn:E; try done.
  intros [= _ <-]. unfold view_of. cbn. by rewrite (H _ _ _ E).
Qed.
Lemma neutral_forM {A} (l : list A) (body : A -> M kst unit) : (forall x, neutral (body x)) -> neutral (forM l body).
Proof.
  intros H. induction l as [|x l IH]; [by intros s b s' [= _ <-]|]. change (neutral (body x ;; forM l body)). apply neutral_bind; [apply H|done].
Qed.
Lemma neutral_forR {A B} (l : list A) (body : A -> M kst (option B)) :
  (forall x, neutral (body x)) -> neutral (forR l body).
Proof.
  intros H. induction l as [|x l IH]; [by intros s b s' [= _ <-]|].
  intros s b s'. cbn [forR]. unfold mbind, M_bind. destruct (body x s) as [r s1| | |] eqn:E; try done.
  pose proof (H _ _ _ _ E) as E1. destruct r as [r|]; [intros [= _ <-]; done|]. intros E2. by rewrite (IH _ _ _ E2).
Qed.
Lemma neutral_loop {A B} n (body : A -> M kst (A + B)) (x : A) : (forall x, neutral (body x)) -> neutral (loop n body x).
Proof.
  intros H. revert x. induction n as [|n IH]; [done|]. intros x s b s'. cbn [loop]. unfold mbind, M_bind.
  destruct (body x s) as [r s1| | |] eqn:E; try done. pose proof (H _ _ _ _ E) as E1.
  destruct r as [x'|r]; [|intros [= _ <-]; done]. intros E2. by rewrite (IH _ _ _ _ E2).
Qed.
Lemma neutral_modS f : (forall s, view_of (f s) = view_of s) -> neutral (modS f).
Proof. intros H s a s' [= _ <-]. apply H. Qed.
Lemma neutral_getpipe p : neutral (getpipe p).
Proof. intros s a s'. unfold getpipe. by case_match; [intros [= _ <-]|]. Qed.

Lemma map_updZ {A B} (h : A -> B) i x (l : list A) : map h (updZ i x l) = updZ i (h x) (map h l).
Proof. unfold updZ. case_match; [done|]. apply list_fmap_insert. Qed.
Lemma nthZ_map {A B} (h : A -> B) d i (l : list A) : nthZ (h d) (map h l) i = h (nthZ d l i).
Proof. unfold nthZ. case_match; [done|]. apply map_nth. Qed.
Lemma updZ_nthZ {A} (d : A) i l : updZ i (nthZ d l i) l = l.
Proof.
  unfold updZ, nthZ. case_match; [done|]. apply list_eq. intros k.
  destruct (decide (k = Z.to_nat i)) as [->|]; [|by rewrite list_lookup_insert_ne].
  destruct (nth_lookup_or_length l (Z.to_nat i) d) as [Hn|Hn].
  - rewrite Hn. apply list_lookup_insert_eq. by eapply lookup_lt_Some.
  - by rewrite list_insert_ge.
Qed.

(** *** The parts of the state *)

Lemma view_setp i x s : view_of (set_kpt (setp i x (kpt s)) s) = vset_proc i (pview x) (view_of s).
Proof. unfold view_of, vset_proc. cbn. by rewrite map_updZ. Qed.
Lemma view_getp i s : vproc (view_of s) i = pview (getp (kpt s) i).
Proof. unfold vproc, pv0, view_of, getp. cbn. apply nthZ_map. Qed.
Lemma view_setf f x s : view_of (setf f x s) = vset_ref f (fref x) (view_of s).
Proof. unfold view_of, vset_ref, setf. cbn. by rewrite map_updZ. Qed.
Lemma view_getf f s : vref (view_of s) f = fref (getf s f).
Proof. unfold vref, view_of, getf. cbn. change 0 with (fref file0). apply nthZ_map. Qed.
Lemma vset_proc_same i v : vset_proc i (vproc v i) v = v.
Proof. unfold vset_proc, vproc. rewrite updZ_nthZ. by destruct v. Qed.
Lemma vset_ref_same f v : vset_ref f (vref v f) v = v.
Proof. unfold vset_ref, vref. rewrite updZ_nthZ. by destruct v. Qed.

Lemma pt_neutral_updp i f : (forall p, pview (f p) = pview p) -> pt_neutral (updp i f).
Proof.
  intros H s a s' [= _ <-]. cbn. rewrite map_updZ, H. unfold getp. rewrite <-(nthZ_map pview). apply updZ_nthZ.
Qed.
Lemma pt_neutral_bind {A B} (m : M pst A) (k : A -> M pst B) :
  pt_neutral m -> (forall a, pt_neutral (k a)) -> pt_neutral (m ≫= k).
Proof.
  intros Hm Hk s b s'. unfold mbind, M_bind. destruct (m s) as [a s1| | |] eqn:E; try done.
  intros H. rewrite (Hk a s1 b s' H). by eapply Hm.
Qed.
Lemma pt_neutral_wakeup1 ch : pt_neutral (wakeup1 ch).
Proof.
  intros s a s' [= _ <-]. cbn. rewrite map_map. apply map_ext. intros p.
  destruct (bool_decide_reflect (state p = SLEEPING)) as [E|]; [|done].
  destruct (bool_decide (chan p = ch)); [|done]. unfold pview, dead. cbn. by rewrite E.
Qed.
Lemma pview_wake p : pview (if bool_decide (state p = SLEEPING) then with_state RUNNABLE p else p) = pview p.
Proof. destruct (bool_decide_reflect (state p = SLEEPING)) as [E|]; [|done]. unfold pview, dead. cbn. by rewrite E. Qed.
Lemma pt_neutral_kill n sig : pt_neutral (kill n sig).
Proof.
  intros s a s'. unfold kill. destruct (n =? 1); [by intros [= _ <-]|].
  destruct (List.find _ slots) as [i|]; [|by intros [= _ <-]].
  assert (G : forall q, pview q = pview (getp s i) -> map pview (procs (setp i
    (if bool_decide (state q = SLEEPING) then with_state RUNNABLE q else q) s)) = map pview (procs s)).
  { intros q Hq. cbn. rewrite map_updZ, pview_wake, Hq. unfold getp. rewrite <-(nthZ_map pview). apply updZ_nthZ. }
  destruct (sig =? SIGKILL); [intros [= _ <-]; by apply (G (with_killed 1 _))|]. case_match; [done|].
  intros [= _ <-]. by apply (G (with_signals _ _ _ _)).
Qed.

Lemma neutral_updcur f : (forall p, pview (f p) = pview p) -> neutral (updcur f).
Proof. intros H. apply neutral_bind; [apply neutral_gets|]. intros i. by apply neutral_ptM, pt_neutral_updp. Qed.
Lemma neutral_updf f h : (forall x, fref (h x) = fref x) -> neutral (updf f h).
Proof. intros H. apply neutral_modS. intros s. rewrite view_setf, H, <-view_getf. apply vset_ref_same. Qed.
Lemma neutral_setpipe p x : neutral (setpipe p x).
Proof. by apply neutral_modS. Qed.
Lemma neutral_kwakeup ch : neutral (kwakeup ch).
Proof. apply neutral_ptM, pt_neutral_wakeup1. Qed.
Lemma neutral_ksleep {A} ch : neutral (ksleep ch : M kst A).
Proof.
  intros s a s'. unfold ksleep, mbind, M_bind, gets. case_match; [done|].
  destruct (ptM _ s); done.
Qed.

Create HintDb neutral.
#[local] Hint Resolve neutral_ret neutral_gets neutral_panic neutral_block neutral_fsM neutral_opM neutral_vmM
  neutral_conM neutral_getpipe neutral_setpipe neutral_kwakeup neutral_ksleep : neutral.
(** Take code apart down to operations known to be neutral. *)
Ltac neutral :=
  repeat first
    [ solve [auto with neutral]
    | match goal with |- forall _, _ => intro end
    | apply neutral_updcur; solve [done]
    | apply neutral_updf; solve [done]
    | apply neutral_modS; solve [done]
    | apply neutral_forM | apply neutral_forR | apply neutral_loop
    | apply neutral_bind
    | match goal with
      | |- neutral (let '(_, _) := ?x in _) => destruct x
      | |- neutral (match ?x with _ => _ end) => destruct x eqn:?
            end ].

Lemma neutral_ubytes va n : neutral (ubytes va n).
Proof. apply neutral_vmM. Qed.
Lemma neutral_ustore va bs : neutral (ustore va bs).
Proof. apply neutral_vmM. Qed.
#[local] Hint Resolve neutral_ubytes neutral_ustore : neutral.
Lemma neutral_fetchint a : neutral (fetchint a).
Proof. unfold fetchint, myproc. neutral. Qed.
Lemma neutral_fetchstr a : neutral (fetchstr a).
Proof. unfold fetchstr, myproc. neutral. Qed.
#[local] Hint Resolve neutral_fetchint neutral_fetchstr : neutral.
Lemma neutral_argint n : neutral (argint n).
Proof. unfold argint, myproc. neutral. Qed.
#[local] Hint Resolve neutral_argint : neutral.
Lemma neutral_argptr n k : neutral (argptr n k).
Proof. unfold argptr, myproc. neutral. Qed.
Lemma neutral_argstr n : neutral (argstr n).
Proof. unfold argstr. neutral. Qed.
Lemma neutral_argfd n : neutral (argfd n).
Proof. unfold argfd, myproc. neutral. Qed.
Lemma neutral_need {A} (m : M kst (option A)) k : neutral m -> (forall a, neutral (k a)) -> neutral (need m k).
Proof. unfold need. intros Hm Hk. apply neutral_bind; [done|]. intros [a|]; neutral. Qed.
#[local] Hint Resolve neutral_argptr neutral_argstr neutral_argfd : neutral.

(** *** System calls that neither open nor close *)

Section calls.
Context (kend kdata : Z) (devsw : devsw_t) (dioctl : Z -> option (Z -> Z -> Z -> M kst Z))
  (backtrace : proc -> list Z).

Lemma neutral_pipe_full p : neutral (pipe_full p).
Proof. unfold pipe_full, myproc. neutral. Qed.
Lemma neutral_pipe_put p c : neutral (pipe_put p c).
Proof. unfold pipe_put. neutral. Qed.
#[local] Hint Resolve neutral_pipe_full neutral_pipe_put : neutral.
Lemma neutral_write_loop p load total n i : (forall i, neutral (load i)) -> neutral (write_loop p load total i n).
Proof. intros H. revert i. induction n as [|n IH]; intros i; cbn [write_loop]; neutral. Qed.
Lemma neutral_pipewrite p a n : neutral (pipewrite p a n).
Proof. unfold pipewrite. apply neutral_bind; [apply neutral_write_loop|]; neutral. Qed.
Lemma neutral_pipe_get p : neutral (pipe_get p).
Proof. unfold pipe_get. neutral. Qed.
#[local] Hint Resolve neutral_pipe_get : neutral.
Lemma neutral_read_loop p store n i : (forall i c, neutral (store i c)) -> neutral (read_loop p store i n).
Proof. intros H. revert i. induction n as [|n IH]; intros i; cbn [read_loop]; neutral. Qed.
Lemma neutral_piperead p a n : neutral (piperead p a n).
Proof.
  unfold piperead, read_section, pipe_wait, myproc. apply neutral_bind; [|neutral].
  apply neutral_bind; [neutral|]. intros [|]; [neutral|]. apply neutral_bind; [|neutral].
  apply neutral_read_loop. neutral.
Qed.
#[local] Hint Resolve neutral_pipewrite neutral_piperead : neutral.
Lemma neutral_fileread f a n : neutral (fileread devsw f a n).
Proof. unfold fileread. neutral. Qed.
Lemma neutral_filewrite f a n : neutral (filewrite devsw f a n).
Proof. unfold filewrite. neutral. Qed.
Lemma neutral_filestat f a : neutral (filestat f a).
Proof. unfold filestat. neutral. Qed.
#[local] Hint Resolve neutral_fileread neutral_filewrite neutral_filestat : neutral.

Lemma neutral_fail_op : neutral fail_op.
Proof. unfold fail_op. neutral. Qed.
#[local] Hint Resolve neutral_fail_op : neutral.
Lemma neutral_putfail ip : neutral (putfail ip).
Proof. unfold putfail. neutral. Qed.
#[local] Hint Resolve neutral_putfail : neutral.

Lemma neutral_sys_symlink : neutral (sys_symlink devsw).
Proof. unfold sys_symlink, need. neutral. Qed.
Lemma neutral_sys_link : neutral (sys_link devsw).
Proof. unfold sys_link, need. neutral. Qed.
Lemma neutral_sys_unlink : neutral (sys_unlink devsw).
Proof. unfold sys_unlink, need. neutral. Qed.
Lemma neutral_sys_getcwd : neutral (sys_getcwd devsw).
Proof. unfold sys_getcwd, need, myproc. neutral. Qed.
Lemma neutral_sys_chdir : neutral (sys_chdir devsw).
Proof. unfold sys_chdir, myproc. neutral. Qed.
Lemma neutral_sys_fcntl : neutral sys_fcntl.
Proof. unfold sys_fcntl, need, ofile_unchecked, myproc. neutral. Qed.
Lemma neutral_sys_ioctl : (forall n h, dioctl n = Some h -> forall ip r a, neutral (h ip r a)) ->
  neutral (sys_ioctl dioctl).
Proof.
  intros H. unfold sys_ioctl, need, ofile_unchecked, myproc. neutral.
  by eapply H.
Qed.

(** *** Programs and memory *)

Lemma neutral_loaduvm d a ip off n : neutral (loaduvm devsw d a ip off n).
Proof. unfold loaduvm. neutral. Qed.
#[local] Hint Resolve neutral_loaduvm : neutral.
Lemma neutral_load_segments n ip d off size : neutral (load_segments kend devsw n ip d off size).
Proof.
  revert off size. induction n as [|n IH]; intros; cbn [load_segments]; [neutral|].
  apply neutral_bind; [unfold load_segment; neutral|neutral].
Qed.
Lemma neutral_push_args d argv argc sp ptrs : neutral (push_args d argv argc sp ptrs).
Proof. revert argc sp ptrs. induction argv as [|a argv IH]; intros; cbn [push_args]; neutral. Qed.
Lemma neutral_exec_bad d ip : neutral (exec_bad kend d ip).
Proof. unfold exec_bad. neutral. Qed.
#[local] Hint Resolve neutral_load_segments neutral_push_args neutral_exec_bad : neutral.
Lemma neutral_exec path argv : neutral (exec kend kdata devsw path argv).
Proof. unfold exec, exec_stack, myproc. neutral. Qed.
Lemma neutral_fetch_argv n a : neutral (fetch_argv n a).
Proof. revert a. induction n as [|n IH]; intros; cbn [fetch_argv]; neutral. Qed.
Lemma neutral_growproc n : neutral (growproc kend n).
Proof. unfold growproc, myproc. neutral. Qed.
Lemma neutral_kkill n sig : neutral (kkill n sig).
Proof. unfold kkill. apply neutral_bind; [neutral|]. intros. apply neutral_ptM, pt_neutral_kill. Qed.
#[local] Hint Resolve neutral_exec neutral_fetch_argv neutral_growproc neutral_kkill : neutral.

Lemma bind_inv {S A B} (m : M S A) (k : A -> M S B) s b s' :
  (m ≫= k) s = Ok b s' -> exists a s1, m s = Ok a s1 /\ k a s1 = Ok b s'.
Proof. unfold mbind, M_bind. destruct (m s) as [a s1| | |]; try done. eauto. Qed.
Lemma vmM_inv {A} (m : M vst A) s a s' : vmM m s = Ok a s' -> exists v, s' = set_kvm v s.
Proof. unfold vmM, lift. destruct (m (kvm s)); try done. intros [= _ <-]. eauto. Qed.

(** The slot that [wait] frees is dead before and after. *)
Lemma neutral_reap j s a s' : state (getp (kpt s) j) = ZOMBIE -> ptM (reap j) s = Ok a s' -> view_of s' = view_of s.
Proof.
  intros Hz [= _ <-]. rewrite view_setp. etransitivity; [|apply (vset_proc_same j)]. f_equal.
  rewrite view_getp. unfold pview, dead. cbn. by rewrite Hz.
Qed.
Lemma zombie_child_state s me j : zombie_child s me = Some j -> state (getp s j) = ZOMBIE.
Proof. unfold zombie_child. intros [_ Hz]%find_some. by apply bool_decide_eq_true in Hz. Qed.
Lemma neutral_reaping j p s r s' : state (getp (kpt s) j) = ZOMBIE ->
  (vmM (kfree kend (kstack p)) ;;
   vmM (freevm kend (pgdir p)) ;;
   (if sig_tf p =? 0 then mret tt else vmM (kfree kend (sig_tf p))) ;;
   ptM (reap j) ;;
   mret (pid p)) s = Ok r s' -> view_of s' = view_of s.
Proof.
  intros Hz H.
  apply bind_inv in H as ([] & s2 & (v2 & ->)%vmM_inv & H). apply bind_inv in H as ([] & s3 & (v3 & ->)%vmM_inv & H).
  apply bind_inv in H as ([] & s4 & E4 & H). apply bind_inv in H as ([] & s5 & E5 & H). injection H as _ <-.
  assert (exists v, s4 = set_kvm v s) as [v ->].
  { destruct (sig_tf _ =? 0); [injection E4 as <-; eauto|]. apply vmM_inv in E4 as (v & ->). eauto. }
  by apply (neutral_reap j) in E5.
Qed.
#[local] Opaque zombie_child children slots.
Lemma neutral_wait : neutral (Exec.wait kend).
Proof.
  intros s r s' H. unfold Exec.wait in H.
  rewrite (bind_Ok (gets kcur) _ s (kcur s) s eq_refl) in H. rewrite (bind_Ok (gets kpt) _ s (kpt s) s eq_refl) in H.
  destruct (zombie_child (kpt s) (kcur s)) as [j|] eqn:Ez.
  - apply (neutral_reaping j (getp (kpt s) j) s r s'); [|exact H].
    by apply zombie_child_state in Ez.
  - revert H. destruct (_ || _); [apply neutral_ret|]. intros (? & ? & _ & H)%bind_inv. discriminate H.
Qed.

(** ** Code that opens and closes *)

Definition hoare {A} (P : fview -> Prop) (m : M kst A) (Q : A -> fview -> Prop) : Prop :=
  forall s a s', P (view_of s) -> m s = Ok a s' -> Q a (view_of s').

Lemma h_neutral {A} P (m : M kst A) : neutral m -> hoare P m (fun _ => P).
Proof. intros H s a s' HP E. by rewrite (H _ _ _ E). Qed.
Lemma h_bind {A B} P (m : M kst A) R (k : A -> M kst B) Q :
  hoare P m R -> (forall a, hoare (R a) (k a) Q) -> hoare P (m ≫= k) Q.
Proof. intros Hm Hk s b s' HP (a & s1 & E1 & E2)%bind_inv. eapply Hk, E2. by eapply Hm. Qed.
Lemma h_ret {A} (P : fview -> Prop) (a : A) Q : (forall v, P v -> Q a v) -> hoare P (mret a) Q.
Proof. intros H s b s' HP [= <- <-]. auto. Qed.
Lemma h_weaken {A} P P' (m : M kst A) Q Q' :
  hoare P m Q -> (forall v, P' v -> P v) -> (forall a v, Q a v -> Q' a v) -> hoare P' m Q'.
Proof. intros H HP HQ s a s' HP' E. eapply HQ, H; eauto. Qed.
Lemma h_seq {A B} P (m : M kst A) (k : A -> M kst B) Q :
  neutral m -> (forall a, hoare P (k a) Q) -> hoare P (m ≫= k) Q.
Proof. intros Hm Hk. eapply h_bind; [by apply h_neutral|done]. Qed.
Lemma h_need {A} P (m : M kst (option A)) (k : A -> M kst Z) (Q : Z -> fview -> Prop) :
  neutral m -> (forall v, P v -> Q (-1) v) -> (forall a, hoare P (k a) Q) -> hoare P (need m k) Q.
Proof. intros Hm H1 Hk. apply h_seq; [done|]. intros [a|]; [done|]. by apply h_ret. Qed.

Lemma one_comm f g : one f g = one g f.
Proof. unfold one. rewrite Z.eqb_sym. done. Qed.

Lemma h_filealloc d : hoare (files_wf d) filealloc (fun f v =>
  f = -1 /\ files_wf d v \/ is_file f /\ files_wf (fun g => d g + one f g) v).
Proof.
  intros s f s' W. unfold filealloc. destruct (List.find _ _) as [g|] eqn:Ef; intros [= <- <-]; [right|by left].
  apply find_some in Ef as [Hin H0]. apply list_elem_of_In, elem_of_seqZ in Hin.
  assert (Hg : is_file g) by (unfold is_file, NFILE in *; lia). split; [done|]. rewrite view_setf. cbn.
  eapply wf_ext; [by apply wf_set_ref|]. intros k Hk. cbn. rewrite view_getf. lia.
Qed.

Lemma h_filedup d f : is_file f -> hoare (files_wf d) (filedup f) (fun _ => files_wf (fun g => d g + one f g)).
Proof.
  intros Hf s a s' W. unfold filedup. intros (x & s1 & [= <- <-] & H)%bind_inv. destruct (_ <? 1); [done|].
  apply bind_inv in H as ([] & s2 & [= <-] & [= _ <-]). rewrite view_setf.
  eapply wf_ext; [by apply wf_set_ref|]. intros k Hk. cbn. rewrite view_getf. lia.
Qed.

Lemma vset_ref_ref f n m v : vset_ref f n (vset_ref f m v) = vset_ref f n v.
Proof. unfold vset_ref. cbn. by rewrite updZ_updZ. Qed.

Lemma neutral_pipeclose p w : neutral (pipeclose kend p w).
Proof. unfold pipeclose. neutral. Qed.

Lemma fileclose_view f s a s' : fileclose kend f s = Ok a s' ->
  view_of s' = vset_ref f (vref (view_of s) f - 1) (view_of s).
Proof.
  unfold fileclose. intros (x & s1 & [= <- <-] & H)%bind_inv. rewrite view_getf.
  destruct (Z.ltb_spec (fref (getf s f)) 1); [done|]. apply bind_inv in H as ([] & s2 & [= <-] & H).
  destruct (Z.ltb_spec 0 (fref (getf s f) - 1)).
  - injection H as _ <-. by rewrite view_setf.
  - apply bind_inv in H as ([] & s3 & [= <-] & H). eassert (neutral _) as Hn; [|apply Hn in H; rewrite H].
    { destruct (ftyp (getf s f)); [neutral|apply neutral_pipeclose|neutral]. }
    rewrite !view_setf, vset_ref_ref. cbn. by replace 0 with (fref (getf s f) - 1) by lia.
Qed.
Lemma h_fileclose d f : is_file f -> hoare (files_wf d) (fileclose kend f) (fun _ => files_wf (fun g => d g - one f g)).
Proof.
  intros Hf s a s' W E. rewrite (fileclose_view _ _ _ _ E). eapply wf_ext; [by apply wf_set_ref|].
  intros k Hk. cbn. lia.
Qed.

(** *** Descriptors of the current process *)

Definition desc (v : fview) (fd : Z) : Z := nthZ (-1) (vproc v (vcur v)).1 fd.
Definition fd_ok (fd : Z) : Prop := 0 <= fd < NOFILE.

Lemma desc_cur s fd : desc (view_of s) fd = ofile_at (curproc s) fd.
Proof. unfold desc. by rewrite view_getp. Qed.

Lemma Forall_updZ {A} (P : A -> Prop) i x l : Forall P l -> P x -> Forall P (updZ i x l).
Proof. intros Hl Hx. unfold updZ. case_match; [done|]. by apply Forall_insert. Qed.

Lemma cnt_updZ g fd x l : 0 <= fd < Z.of_nat (length l) ->
  cnt g (updZ fd x l) = cnt g l - one g (nthZ (-1) l fd) + one g x.
Proof. intros H. unfold cnt. by rewrite (zsum_updZ _ (-1)). Qed.

(** An assignment to a descriptor moves references. *)
Lemma h_set_desc d P fd f x : fd_ok fd -> desc_ok x ->
  (forall v, P v -> files_wf d v /\ desc v fd = f) ->
  hoare P (updcur (fun p => with_ofile (updZ fd x (ofile p)) p))
    (fun _ v => files_wf (fun g => d g + one g f - one g x) v /\ desc v fd = x
                /\ forall k, k <> fd -> exists v0, P v0 /\ desc v k = desc v0 k).
Proof.
  intros Hfd Hx HP s a s' H E. rewrite updcur_Ok in E. injection E as _ <-. unfold setcur, curproc. rewrite view_setp.
  destruct (HP _ H) as [W Hf]. pose proof (fw_cur _ _ W) as Hc. change (vcur (view_of s)) with (kcur s) in Hc.
  pose proof (fw_slot _ _ W _ Hc) as Hs. rewrite view_getp in Hs. destruct Hs as [Hl Hd Hdead]. cbn [pview fst snd] in Hl, Hd.
  set (p := getp (kpt s) (kcur s)) in *.
  assert (Ha : dead p = false). { pose proof (fw_alive _ _ W) as Ha. cbn [vcur view_of] in Ha. by rewrite view_getp in Ha. }
  assert (Hlen : 0 <= fd < Z.of_nat (length (ofile p))) by (unfold fd_ok in Hfd; rewrite Hl; lia).
  assert (Hp : 0 <= kcur s < Z.of_nat (length (vprocs (view_of s))))
    by (rewrite (fw_procs _ _ W); unfold slot in Hc; lia).
  assert (Hv : forall k, desc (vset_proc (kcur s) (pview (with_ofile (updZ fd x (ofile p)) p)) (view_of s)) k
               = nthZ (-1) (updZ fd x (ofile p)) k).
  { intros k. unfold desc, vproc. cbn [vcur vset_proc view_of vprocs] in *. by rewrite nthZ_updZ_eq. }
  split; [|split].
  - eapply wf_ext; [apply wf_set_proc; [exact W|done| |done]|].
    + split; cbn; [by rewrite length_updZ|by apply Forall_updZ|].
      intros Hdd. change (dead p = true) in Hdd. congruence.
    + intros g Hg. rewrite view_getp. cbn [pview fst with_ofile ofile].
      rewrite cnt_updZ by done. rewrite desc_cur in Hf. unfold ofile_at, curproc in Hf. fold p in Hf. rewrite Hf. fold p. lia.
  - rewrite Hv, nthZ_updZ_eq; done.
  - intros k Hk. exists (view_of s). split; [done|]. rewrite Hv, nthZ_updZ_ne by done. by rewrite desc_cur.
Qed.

Lemma h_fdalloc d P f : is_file f -> hoare (fun v => files_wf d v /\ P v) (fdalloc f) (fun fd v =>
  fd = -1 /\ files_wf d v /\ P v
  \/ fd_ok fd /\ files_wf (fun g => d g - one f g) v /\ desc v fd = f).
Proof.
  intros Hf s r s' W. unfold fdalloc, myproc. intros (p & s1 & [= <- <-] & H)%bind_inv.
  destruct (List.find _ _) as [fd|] eqn:Ef; [|injection H as <- <-; by left].
  apply bind_inv in H as ([] & s2 & E & [= <- <-]). apply find_some in Ef as [Hin H0].
  apply list_elem_of_In, elem_of_seqZ in Hin. assert (Hfd : fd_ok fd) by (unfold fd_ok, NOFILE in *; lia). right.
  destruct (h_set_desc d (fun v => files_wf d v /\ desc v fd = -1) fd (-1) f Hfd (or_intror Hf)) with s tt s2
    as (W' & Hd & _); [done| |done|].
  { split; [apply W|]. rewrite desc_cur. lia. }
  split; [done|]. split; [|done]. eapply wf_ext; [exact W'|]. intros g Hg. cbn. rewrite one_null by apply Hg.
  rewrite (one_comm g f). lia.
Qed.

Lemma h_argfd d n : hoare (files_wf d) (argfd n) (fun r v => files_wf d v
  /\ forall fd f, r = Some (fd, f) -> fd_ok fd /\ is_file f /\ desc v fd = f).
Proof.
  intros s r s' W E. assert (W' : files_wf d (view_of s')) by (by rewrite (neutral_argfd n _ _ _ E)).
  split; [done|]. intros fd f ->. unfold argfd, myproc in E. apply bind_inv in E as ([i|] & s1 & _ & E); [|done].
  apply bind_inv in E as (p & s2 & [= <- <-] & E). case_match; [done|]. injection E as <- <- <-.
  assert (Hfd : fd_ok i) by (unfold fd_ok; lia). split; [done|]. rewrite desc_cur. split; [|done].
  pose proof (fw_desc _ _ W' _ i (fw_cur _ _ W')) as [Hn|]; [|by rewrite <-desc_cur].
  change (desc (view_of s1) i = -1) in Hn. rewrite desc_cur in Hn. lia.
Qed.

(** *** System calls that open and close *)

Abbreviation wf := (files_wf none).
Definition keeps_files {A} (m : M kst A) : Prop := hoare wf m (fun _ => wf).

Lemma keeps_neutral {A} (m : M kst A) : neutral m -> keeps_files m.
Proof. apply h_neutral. Qed.

Lemma fd_not_neg fd : fd_ok fd -> (fd <? 0) = false.
Proof. unfold fd_ok. lia. Qed.
Lemma file_not_null f : is_file f -> (f =? -1) = false.
Proof. unfold is_file. lia. Qed.

Lemma keeps_sys_dup : keeps_files sys_dup.
Proof.
  unfold sys_dup, need. eapply h_bind; [apply h_argfd|]. intros [[fd0 f]|]; [|by apply h_ret; intros v []].
  intros s r s' [W Hr] H. destruct (Hr fd0 f eq_refl) as (_ & Hf & _).
  apply bind_inv in H as (fd & s1 & E1 & H).
  destruct (h_fdalloc none (fun _ => True) f Hf s fd s1 (conj W I) E1) as [(-> & W1 & _)|(Hfd & W1 & _)].
  - by injection H as _ <-.
  - rewrite fd_not_neg in H by done. apply bind_inv in H as (x & s2 & E2 & [= _ <-]).
    eapply wf_ext; [exact (h_filedup _ f Hf s1 x s2 W1 E2)|]. intros g Hg. unfold none. lia.
Qed.

Lemma keeps_sys_close : keeps_files (sys_close kend).
Proof.
  unfold sys_close, need. eapply h_bind; [apply h_argfd|]. intros [[fd f]|]; [|by apply h_ret; intros v []].
  intros s r s' [W Hr] H. destruct (Hr fd f eq_refl) as (Hfd & Hf & Hd).
  apply bind_inv in H as ([] & s1 & E1 & H). apply bind_inv in H as ([] & s2 & E2 & [= _ <-]).
  destruct (h_set_desc none (fun v => wf v /\ desc v fd = f) fd f (-1) Hfd (or_introl eq_refl) (fun v H => H) s tt s1
    (conj W Hd) E1) as (W1 & _).
  eapply wf_ext; [exact (h_fileclose _ f Hf s1 tt s2 W1 E2)|]. intros g Hg. unfold none.
  rewrite (one_null g) by apply Hg. rewrite (one_comm g f). lia.
Qed.

Lemma keeps_sys_open : keeps_files (sys_open kend devsw).
Proof.
  unfold sys_open. apply h_need; [neutral|done|]. intros path. apply h_need; [neutral|done|]. intros omode.
  apply h_seq; [neutral|]. intros _. apply h_seq; [neutral|]. intros ip.
  destruct (ip =? NULL); [apply keeps_neutral; neutral|].
  intros s r s' W H. apply bind_inv in H as (f & s1 & E1 & H).
  destruct (h_filealloc none s f s1 W E1) as [[-> W1]|[Hf W1]].
  { revert H. by apply keeps_neutral; [neutral|]. }
  rewrite file_not_null in H by done. apply bind_inv in H as (fd & s2 & E2 & H).
  destruct (h_fdalloc _ (fun _ => True) f Hf s1 fd s2 (conj W1 I) E2) as [(-> & W2 & _)|(Hfd & W2 & _)].
  - cbn in H. apply bind_inv in H as ([] & s3 & E3 & H).
    pose proof (h_fileclose _ f Hf s2 tt s3 W2 E3) as W3. apply neutral_putfail in H. rewrite H.
    eapply wf_ext; [exact W3|]. intros g Hg. unfold none. lia.
  - rewrite fd_not_neg in H by done. eassert (neutral _) as Hn; [|rewrite (Hn _ _ _ H)]; [neutral|].
    eapply wf_ext; [exact W2|]. intros g Hg. unfold none. lia.
Qed.

Lemma h_pipealloc : hoare wf (pipealloc kend) (fun r v =>
  match r with
  | None => wf v
  | Some (f0, f1) => is_file f0 /\ is_file f1 /\ files_wf (fun g => one f0 g + one f1 g) v
  end).
Proof.
  intros s r s' W H. unfold pipealloc in H. apply bind_inv in H as (f0 & s1 & E1 & H).
  destruct (h_filealloc _ s f0 s1 W E1) as [[-> W1]|[Hf0 W1]]; [by injection H as <- <-|].
  rewrite file_not_null in H by done. apply bind_inv in H as (f1 & s2 & E2 & H).
  destruct (h_filealloc _ s1 f1 s2 W1 E2) as [[-> W2]|[Hf1 W2]].
  { cbn in H. apply bind_inv in H as ([] & s3 & E3 & [= <- <-]).
    eapply wf_ext; [exact (h_fileclose _ f0 Hf0 s2 tt s3 W2 E3)|]. intros g Hg. unfold none. lia. }
  rewrite file_not_null in H by done. apply bind_inv in H as (p & s3 & (v3 & ->)%vmM_inv & H).
  change (view_of s2) with (view_of (set_kvm v3 s2)) in W2. destruct (p =? 0).
  - apply bind_inv in H as ([] & s4 & E4 & H). apply bind_inv in H as ([] & s5 & E5 & [= <- <-]).
    pose proof (h_fileclose _ f0 Hf0 _ tt s4 W2 E4) as W4.
    eapply wf_ext; [exact (h_fileclose _ f1 Hf1 s4 tt s5 W4 E5)|]. intros g Hg. unfold none. lia.
  - apply bind_inv in H as (junk & s4 & [= <- <-] & H). apply bind_inv in H as ([] & s5 & E5 & H).
    apply bind_inv in H as ([] & s6 & E6 & H). apply bind_inv in H as ([] & s7 & E7 & [= <- <-]).
    apply neutral_setpipe in E5. apply neutral_updf in E6; [|done]. apply neutral_updf in E7; [|done].
    split; [done|]. split; [done|]. rewrite E7, E6, E5. eapply wf_ext; [exact W2|]. intros g Hg. unfold none. lia.
Qed.

Lemma keeps_sys_pipe : keeps_files (sys_pipe kend).
Proof.
  unfold sys_pipe. apply h_need; [neutral|done|]. intros fd. unfold need.
  eapply h_bind; [apply h_pipealloc|]. intros [[rf wf0]|]; [|by apply h_ret].
  intros s r s' (Hr & Hw & W) H. apply bind_inv in H as (fd0 & s1 & E1 & H). apply bind_inv in H as (fd1 & s2 & E2 & H).
  destruct (h_fdalloc _ (fun _ => True) rf Hr s fd0 s1 (conj W I) E1) as [(-> & W1 & _)|(Hfd0 & W1 & Hd0)].
  - cbn in E2. injection E2 as <- <-. cbn in H. apply bind_inv in H as ([] & s3 & E3 & H).
    injection E3 as <-. apply bind_inv in H as ([] & s4 & E4 & H). apply bind_inv in H as ([] & s5 & E5 & [= _ <-]).
    pose proof (h_fileclose _ rf Hr s1 tt s4 W1 E4) as W4.
    eapply wf_ext; [exact (h_fileclose _ wf0 Hw s4 tt s5 W4 E5)|]. intros g Hg. unfold none. lia.
  - rewrite fd_not_neg in E2 by done.
    destruct (h_fdalloc _ (fun v => desc v fd0 = rf) wf0 Hw s1 fd1 s2 (conj W1 Hd0) E2) as [(-> & W2 & Hd)|(Hfd1 & W2 & _)].
    + cbn in H. rewrite (proj2 (Z.leb_le 0 fd0)) in H by apply Hfd0. apply bind_inv in H as ([] & s3 & E3 & H).
      apply bind_inv in H as ([] & s4 & E4 & H). apply bind_inv in H as ([] & s5 & E5 & [= _ <-]).
      destruct (h_set_desc _ _ fd0 rf (-1) Hfd0 (or_introl eq_refl) (fun v H => H) s2 tt s3 (conj W2 Hd) E3) as (W3 & _).
      pose proof (h_fileclose _ rf Hr s3 tt s4 W3 E4) as W4.
      eapply wf_ext; [exact (h_fileclose _ wf0 Hw s4 tt s5 W4 E5)|]. intros g Hg. unfold none.
      rewrite (one_null g) by apply Hg. rewrite (one_comm g rf). lia.
    + rewrite fd_not_neg in H by done. eassert (neutral _) as Hn; [|rewrite (Hn _ _ _ H)]; [neutral|].
      eapply wf_ext; [exact W2|]. intros g Hg. unfold none. lia.
Qed.

(** *** [fork] *)

Lemma wf_tab d s : files_wf d (view_of s) -> tab (kpt s).
Proof. intros W. pose proof (fw_procs _ _ W) as H. cbn in H. by rewrite length_map in H. Qed.
Lemma vset_proc_proc i x y v : vset_proc i x (vset_proc i y v) = vset_proc i x v.
Proof. unfold vset_proc. cbn. by rewrite updZ_updZ. Qed.
Lemma updslot_inv i f s a s' : updslot i f s = Ok a s' ->
  s' = set_kpt (setp i (f (getp (kpt s) i)) (kpt s)) s
  /\ view_of s' = vset_proc i (pview (f (getp (kpt s) i))) (view_of s).
Proof. intros [= _ <-]. split; [done|]. apply view_setp. Qed.

Lemma alloc_slot_view s i s' : tab (kpt s) -> ptM alloc_slot s = Ok i s' ->
  i = -1 /\ view_of s' = view_of s
  \/ slot i /\ state (getp (kpt s) i) = UNUSED /\ tab (kpt s')
     /\ getp (kpt s') i = new_proc (nextpid (kpt s)) (getp (kpt s) i)
     /\ view_of s' = vset_proc i (ofile (getp (kpt s) i), false) (view_of s).
Proof.
  intros Ht. unfold ptM, lift, alloc_slot.
  destruct (List.find (is_state UNUSED (kpt s)) slots) as [j|] eqn:Hf; [|intros [= <- <-]; by left].
  apply find_slot in Hf as [Hj Hs]. apply bool_decide_eq_true in Hs.
  destruct (nextpid (kpt s) =? 2147483647); [done|]. intros [= <- <-]. right.
  split; [done|]. split; [done|]. split; [by apply (tab_setp _ j)|]. split.
  - apply (getp_setp_eq (kpt s) j); done.
  - unfold view_of, vset_proc. cbn. by rewrite map_updZ.
Qed.

Lemma allocproc_view s np s' : wf (view_of s) -> allocproc s = Ok np s' ->
  np = -1 /\ view_of s' = view_of s
  \/ slot np /\ vproc (view_of s) np = (ofile (getp (kpt s) np), true) /\ tab (kpt s')
     /\ pview (getp (kpt s') np) = (ofile (getp (kpt s) np), false)
     /\ view_of s' = vset_proc np (ofile (getp (kpt s) np), false) (view_of s).
Proof.
  intros W H. pose proof (wf_tab _ _ W) as Ht. unfold allocproc in H. apply bind_inv in H as (i & s1 & E1 & H).
  destruct (alloc_slot_view _ _ _ Ht E1) as [[-> V1]|(Hi & Hun & Ht1 & Hg & V1)].
  { injection H as <- <-. by left. }
  assert (Hv : vproc (view_of s) i = (ofile (getp (kpt s) i), true)).
  { rewrite view_getp. unfold pview, dead. by rewrite Hun. }
  destruct (Z.eqb_spec i (-1)) as [->|_]; [unfold slot in Hi; lia|].
  apply bind_inv in H as (k & s2 & (v2 & ->)%vmM_inv & H). destruct (k =? 0).
  - apply bind_inv in H as ([] & s3 & (_ & V3)%updslot_inv & [= <- <-]). left. split; [done|].
    rewrite V3. change (view_of (set_kvm v2 s1)) with (view_of s1). rewrite V1, vset_proc_proc.
    cbn [kpt set_kvm]. rewrite Hg. etransitivity; [|apply (vset_proc_same i)]. by rewrite Hv.
  - apply bind_inv in H as ([] & s3 & (-> & V3)%updslot_inv & [= <- <-]). right. split; [done|]. split; [done|].
    split; [by apply tab_setp|]. cbn [kpt set_kpt set_kvm] in *. rewrite getp_setp_eq by done. rewrite Hg in *.
    split; [done|]. rewrite V3. change (view_of (set_kvm v2 s1)) with (view_of s1). by rewrite V1, vset_proc_proc.
Qed.

Lemma h_filedup_all cur fds d : (forall fd, desc_ok (ofile_at cur fd)) ->
  forall s s', files_wf d (view_of s) ->
  forM fds (fun fd => if ofile_at cur fd =? -1 then mret tt else filedup (ofile_at cur fd) ;; mret tt) s = Ok tt s' ->
  files_wf (fun g => d g + zsum (fun fd => one g (ofile_at cur fd)) fds) (view_of s') /\ kpt s' = kpt s.
Proof.
  intros Hok. revert d. induction fds as [|fd fds IH]; intros d s s' W H.
  - injection H as <-. split; [|done]. eapply wf_ext; [exact W|]. intros g Hg. cbn. lia.
  - apply bind_inv in H as ([] & s1 & E1 & H).
    assert (W1 : files_wf (fun g => d g + one g (ofile_at cur fd)) (view_of s1) /\ kpt s1 = kpt s).
    { destruct (Z.eqb_spec (ofile_at cur fd) (-1)) as [Ef|Ef].
      - injection E1 as <-. split; [|done]. eapply wf_ext; [exact W|]. intros g Hg. rewrite Ef, one_null by apply Hg. lia.
      - apply bind_inv in E1 as (x & s2 & E2 & [= <-]).
        destruct (Hok fd) as [|Hf]; [done|]. split.
        + eapply wf_ext; [exact (h_filedup d _ Hf s x s2 W E2)|]. intros g Hg. cbn. by rewrite one_comm.
        + unfold filedup in E2. apply bind_inv in E2 as (y & s3 & [= <- <-] & E2). destruct (_ <? 1); [done|].
          by apply bind_inv in E2 as ([] & s4 & [= <-] & [= _ <-]). }
    destruct W1 as [W1 K1]. destruct (IH _ _ _ W1 H) as [W2 K2]. split; [|congruence].
    eapply wf_ext; [exact W2|]. intros g Hg. rewrite zsum_cons. lia.
Qed.

Lemma fork_ofile_all cur x : length (ofile cur) = Z.to_nat NOFILE -> Forall (fun f => f = -1) (ofile x) ->
  fork_ofile cur x = ofile cur.
Proof.
  intros Hl Hx. unfold fork_ofile. apply list_eq. intros i.
  assert (Hn : forall fd, nthZ (-1) (ofile x) fd = -1).
  { intros fd. unfold nthZ. case_match; [done|]. destruct (nth_lookup_or_length (ofile x) (Z.to_nat fd) (-1)) as [H1|H1].
    - rewrite Forall_lookup in Hx. by eapply Hx.
    - by apply nth_overflow. }
  change (map ?f ?l) with (f <$> l). rewrite list_lookup_fmap.
  destruct (decide (i < Z.to_nat NOFILE)%nat) as [Hi|Hi].
  - rewrite lookup_seqZ_lt by lia. cbn [fmap option_fmap option_map]. rewrite Hn.
    replace (0 + Z.of_nat i) with (Z.of_nat i) by lia.
    pose proof (nthZ_lookup (-1) (ofile cur) (Z.of_nat i)) as E. rewrite Nat2Z.id in E. rewrite E by lia.
    case_match; [|done]. f_equal. lia.
  - rewrite lookup_seqZ_ge, lookup_ge_None_2 by lia. done.
Qed.

Lemma cnt_none g l : is_file g -> Forall (fun f => f = -1) l -> cnt g l = 0.
Proof.
  intros Hg H. induction H as [|x l -> _ IH]; [done|]. unfold cnt in *. rewrite zsum_cons, IH, one_null by apply Hg. done.
Qed.

Lemma fsM_inv {A} (m : M fstate A) s a s' : fsM m s = Ok a s' -> exists f, s' = set_kfs f s.
Proof. unfold fsM, lift. destruct (m (fs_view s)); try done. intros [= _ <-]. eauto. Qed.

Lemma fork_finish_keeps s s1 np d r s' :
  wf (view_of s) -> slot np -> np <> kcur s ->
  vproc (view_of s) np = (ofile (getp (kpt s) np), true) -> tab (kpt s1) ->
  pview (getp (kpt s1) np) = (ofile (getp (kpt s) np), false) ->
  view_of s1 = vset_proc np (ofile (getp (kpt s) np), false) (view_of s) ->
  fork_finish (curproc s) np d s1 = Ok r s' -> wf (view_of s').
Proof.
  intros W Hnp Hne Hv Ht1 Hg V1 H.
  pose proof (fw_slot _ _ W np Hnp) as [_ _ Hdead]. rewrite Hv in Hdead. specialize (Hdead eq_refl). cbn in Hdead.
  pose proof (fw_slot _ _ W _ (fw_cur _ _ W)) as Hcs. cbn [vcur view_of] in Hcs. rewrite view_getp in Hcs.
  pose proof Hcs as [Hl _ _]. cbn in Hl. injection Hg as Hgo Hgd.
  assert (Hok : forall fd, desc_ok (ofile_at (curproc s) fd)).
  { intros fd. rewrite <-desc_cur. apply (fw_desc _ _ W), (fw_cur _ _ W). }
  unfold fork_finish in H. apply bind_inv in H as (me & s2 & [= <- <-] & H).
  apply bind_inv in H as ([] & s2 & (-> & V2)%updslot_inv & H). rewrite V1, vset_proc_proc in V2.
  set (x := fork_copy _ d (curproc s) (getp (kpt s1) np)) in *.
  assert (Ex : pview x = (ofile (curproc s), false)).
  { unfold pview. cbn [x fork_copy ofile with_pname with_pcwd with_ofile with_tf with_parent with_space].
    rewrite fork_ofile_all by (done || by rewrite Hgo). f_equal. exact Hgd. }
  rewrite Ex in V2. clearbody x.
  apply bind_inv in H as ([] & s3 & E3 & H). apply bind_inv in H as (ip & s4 & (f4 & ->)%fsM_inv & H).
  apply bind_inv in H as (n & s5 & [= <- <-] & H). apply bind_inv in H as ([] & s6 & E6 & [= _ <-]).
  assert (Hx : slot_ok (ofile (curproc s), false)) by (by destruct Hcs).
  pose proof (wf_set_proc _ _ W np _ Hnp Hx (fun _ => eq_refl)) as W2. rewrite <-V2 in W2.
  destruct (h_filedup_all _ _ _ Hok _ _ W2 E3) as [W3 K3].
  apply (updslot_inv np (with_state RUNNABLE)) in E6 as [_ V6]. rewrite V6.
  change (view_of (set_kfs f4 s3)) with (view_of s3). cbn [kpt set_kfs]. rewrite K3. cbn [kpt set_kpt].
  rewrite getp_setp_eq by done.
  assert (Er : pview (with_state RUNNABLE x) = vproc (view_of s3) np).
  { rewrite view_getp, K3. cbn [kpt set_kpt]. rewrite getp_setp_eq by done. rewrite Ex. injection Ex as <- _. done. }
  rewrite Er, vset_proc_same. eapply wf_ext; [exact W3|]. intros g Hg. unfold none. rewrite Hv. cbn [fst].
  rewrite (cnt_none g) by done. unfold cnt. change (length (ofile (curproc s)) = Z.to_nat NOFILE) in Hl.
  rewrite (zsum_seqZ _ (-1) (ofile (curproc s))), Hl. unfold ofile_at. rewrite Z2Nat.id by done. lia.
Qed.

Lemma keeps_fork : keeps_files (fork kend kdata).
Proof.
  intros s r s' W H. unfold fork, myproc in H. rewrite (bind_Ok (gets curproc) _ s (curproc s) s eq_refl) in H.
  apply bind_inv in H as (np & s1 & E1 & H).
  destruct (allocproc_view _ _ _ W E1) as [[-> V1]|(Hnp & Hv & Ht1 & Hg & V1)].
  { injection H as _ <-. by rewrite V1. }
  destruct (Z.eqb_spec np (-1)) as [->|_]; [unfold slot in Hnp; lia|].
  pose proof (fw_cur _ _ W) as Hc. pose proof (fw_alive _ _ W) as Ha. cbn [vcur view_of] in Hc, Ha.
  assert (Hne : np <> kcur s) by (intros ->; by rewrite Hv in Ha).
  apply bind_inv in H as (d & s2 & (v2 & ->)%vmM_inv & H). destruct (d =? 0).
  - apply bind_inv in H as (x & s3 & [= <- <-] & H). apply bind_inv in H as ([] & s4 & (v4 & ->)%vmM_inv & H).
    apply bind_inv in H as ([] & s5 & (_ & V5)%updslot_inv & [= _ <-]). rewrite V5.
    change (view_of (set_kvm _ _)) with (view_of s1). rewrite V1, vset_proc_proc.
    assert (E : pview (with_state UNUSED (with_kstack 0 (with_space (sz (getp (kpt s1) np)) 0 (getp (kpt s1) np))))
                = vproc (view_of s) np) by (rewrite Hv; unfold pview in *; cbn in *; congruence).
    cbn [kpt set_kvm]. rewrite E, vset_proc_same. done.
  - exact (fork_finish_keeps s (set_kvm v2 s1) np d r s' W Hnp Hne Hv Ht1 Hg V1 H).
Qed.

(** *** [exit] *)

Lemma close_one s fd s' : wf (view_of s) -> fd_ok fd ->
  (p ← myproc; if ofile_at p fd =? -1 then mret tt else
     fileclose kend (ofile_at p fd) ;; updcur (fun p => with_ofile (updZ fd (-1) (ofile p)) p)) s = Ok tt s' ->
  wf (view_of s') /\ desc (view_of s') fd = -1 /\ forall k, k <> fd -> desc (view_of s') k = desc (view_of s) k.
Proof.
  intros W Hfd H. apply bind_inv in H as (p & s1 & [= <- <-] & H). rewrite <-desc_cur in H.
  destruct (Z.eqb_spec (desc (view_of s) fd) (-1)) as [E|E]; [by injection H as <-|].
  destruct (fw_desc _ _ W _ fd (fw_cur _ _ W)) as [|Hf]; [done|]. change (is_file (desc (view_of s) fd)) in Hf.
  apply bind_inv in H as ([] & s1 & E1 & H). pose proof (h_fileclose _ _ Hf _ _ _ W E1) as W1.
  apply fileclose_view in E1. assert (Hd : forall k, desc (view_of s1) k = desc (view_of s) k) by (intros k; by rewrite E1).
  destruct (h_set_desc (fun g => none g - one (desc (view_of s) fd) g) (fun v => v = view_of s1) fd (desc (view_of s) fd) (-1) Hfd (or_introl eq_refl)) with s1 tt s'
    as (W2 & Hd2 & Ho); [|done|done|].
  { intros v ->. by rewrite Hd. }
  split; [|split; [done|]].
  - eapply wf_ext; [exact W2|]. intros g Hg. cbn. rewrite (one_null g) by apply Hg. rewrite (one_comm g). unfold none. lia.
  - intros k Hk. destruct (Ho k Hk) as (v0 & -> & ->). apply Hd.
Qed.

Lemma close_files_closes s s' : wf (view_of s) -> close_files kend s = Ok tt s' ->
  wf (view_of s') /\ forall fd, fd_ok fd -> desc (view_of s') fd = -1.
Proof.
  unfold close_files. intros W H.
  enough (G : forall rest dn s, seqZ 0 NOFILE = dn ++ rest -> wf (view_of s) ->
    (forall fd, fd ∈ dn -> desc (view_of s) fd = -1) ->
    forM rest (fun fd => p ← myproc; if ofile_at p fd =? -1 then mret tt else
      fileclose kend (ofile_at p fd) ;; updcur (fun p => with_ofile (updZ fd (-1) (ofile p)) p)) s = Ok tt s' ->
    wf (view_of s') /\ forall fd, fd ∈ seqZ 0 NOFILE -> desc (view_of s') fd = -1).
  { destruct (G _ [] s eq_refl W) as [W' Hd]; [by intros fd ?%elem_of_nil|done|]. split; [done|].
    intros fd Hfd. apply Hd, elem_of_seqZ. unfold fd_ok in Hfd. lia. }
  clear s W H. intros rest. induction rest as [|fd rest IH]; intros dn s El W Hdn H.
  { injection H as <-. rewrite app_nil_r in El. split; [done|]. by rewrite El. }
  assert (Hfd : fd_ok fd).
  { apply (elem_of_seqZ 0 NOFILE fd). rewrite El. apply elem_of_app. right. constructor. }
  apply bind_inv in H as ([] & s1 & E1 & H). destruct (close_one s fd s1 W Hfd E1) as (W1 & Hd & Ho).
  apply (IH (dn ++ [fd]) s1); [by rewrite <-app_assoc|done| |done].
  intros k Hk. destruct (Z.eq_dec k fd) as [->|Hne]; [done|]. rewrite Ho by done. apply Hdn.
  apply elem_of_app in Hk as [|Hk]; [done|]. by apply list_elem_of_singleton in Hk.
Qed.

(** ** The table of system calls *)

Context (Hioctl : forall n h, dioctl n = Some h -> forall ip r a, neutral (h ip r a)).

Lemma neutral_exit {A} : neutral (Exec.exit kend : M kst A).
Proof. intros s a s' H. by apply exit_never_returns in H. Qed.

Lemma syscalls_keep : Forall (fun o => forall f, o = Some f -> keeps_files f) (syscalls kend kdata devsw dioctl).
Proof.
  unfold syscalls. repeat first [apply Forall_nil_2|apply Forall_cons_2]; intros f E;
    (discriminate E || injection E as <-).
  all: first [ apply keeps_fork | apply keeps_sys_pipe | apply keeps_sys_dup | apply keeps_sys_open
             | apply keeps_sys_close | apply keeps_neutral ].
  all: first [ apply neutral_exit | apply neutral_wait | apply neutral_sys_chdir | apply neutral_sys_unlink
             | apply neutral_sys_link | by apply neutral_sys_ioctl | apply neutral_sys_getcwd | apply neutral_sys_fcntl
             | apply neutral_sys_symlink | idtac ].
  all: unfold sys_read, sys_write, sys_fstat, sys_kill, sys_exec, sys_getpid, sys_getppid, sys_sbrk, sys_sleep,
    sys_uptime, sys_time, sys_mknod, sys_mkdir, sys_sync, sys_kgetprogname, sys_ksetprogname, sys_sigaction,
    sys_sigprocmask, sys_sigreturn, sys_setfg, need, myproc; neutral.
Qed.

Lemma keeps_syscall : keeps_files (syscall kend kdata devsw dioctl).
Proof.
  unfold syscall, myproc. apply h_seq; [neutral|]. intros p. cbv zeta.
  match goal with |- hoare _ (match ?x with Some _ => _ | None => _ end) _ => destruct x as [f|] eqn:E end;
    [|apply keeps_neutral; neutral].
  eapply h_bind; [|intros r; apply keeps_neutral; neutral]. destruct (_ && _); [|done].
  assert (Hin : Some f ∈ syscalls kend kdata devsw dioctl).
  { unfold nthZ in E. case_match; [done|]. rewrite nth_lookup in E.
    destruct (_ !! _) as [o|] eqn:El; cbn in E; [subst o|done]. by apply list_elem_of_lookup_2 in El. }
  pose proof syscalls_keep as H. rewrite Forall_forall in H. by apply (H _ Hin).
Qed.

Lemma neutral_exit_if_interrupted : neutral (exit_if_interrupted kend).
Proof. unfold exit_if_interrupted, myproc. apply neutral_bind; [neutral|]. intros p. case_match; [apply neutral_exit|neutral]. Qed.
Lemma neutral_exit_if_killed t : neutral (exit_if_killed kend t).
Proof.
  unfold exit_if_killed, myproc. apply neutral_bind; [neutral|]. intros me. apply neutral_bind; [neutral|]. intros p.
  case_match; [apply neutral_exit|neutral].
Qed.
Lemma neutral_consoleintr getc : neutral (consoleintr backtrace getc).
Proof. unfold consoleintr, console_char, procdump. neutral. Qed.
#[local] Hint Resolve neutral_exit_if_interrupted neutral_exit_if_killed neutral_consoleintr : neutral.
Lemma neutral_trap_switch cpu cr2 t : neutral (trap_switch backtrace cpu cr2 t).
Proof. unfold trap_switch, kbdintr, uartintr, myproc. neutral. Qed.
Lemma neutral_deliver t : neutral (deliver t).
Proof.
  unfold deliver, run_handler, myproc. neutral.
  apply neutral_ptM, pt_neutral_updp. intros p. apply (pview_wake (with_killed 1 p)).
Qed.
#[local] Hint Resolve neutral_trap_switch neutral_deliver : neutral.

Lemma neutral_then_block {A B} (m : M kst A) why : neutral (m ;; block why : M kst B).
Proof. by intros s b s' (? & ? & _ & H)%bind_inv. Qed.
#[local] Hint Resolve neutral_then_block : neutral.

Lemma keeps_trap cpu cr2 t : keeps_files (trap kend kdata devsw dioctl backtrace cpu cr2 t).
Proof.
  unfold trap, myproc. apply h_seq; [neutral|]. intros me. apply h_seq; [neutral|]. intros _.
  destruct (trapno t =? T_SYSCALL).
  - apply h_seq; [neutral|]. intros _. apply h_seq; [neutral|]. intros _.
    eapply h_bind; [apply keeps_syscall|]. intros []. apply keeps_neutral. neutral.
  - apply keeps_neutral. neutral.
Qed.

Lemma wf_no_stale s i fd : wf (view_of s) -> slot i ->
  desc_ok (ofile_at (getp (kpt s) i) fd)
  /\ (ofile_at (getp (kpt s) i) fd <> -1 -> 1 <= fref (getf s (ofile_at (getp (kpt s) i) fd))).
Proof.
  intros W Hi. pose proof (fw_desc _ _ W i fd Hi) as Hd. rewrite view_getp in Hd. cbn in Hd.
  change (nthZ (-1) (ofile (getp (kpt s) i)) fd) with (ofile_at (getp (kpt s) i) fd) in Hd.
  split; [done|]. intros Hn. destruct Hd as [|Hf]; [done|]. set (f := ofile_at _ _) in *.
  pose proof (fw_refs _ _ W f Hf) as Hr. rewrite view_getf in Hr. rewrite Hr. unfold none, openings.
  assert (Hin : pview (getp (kpt s) i) ∈ vprocs (view_of s)).
  { rewrite <-view_getp. unfold vproc. eapply list_elem_of_lookup_2, nthZ_lookup.
    rewrite (fw_procs _ _ W). unfold slot in Hi. lia. }
  assert (H1 : 1 <= cnt f (ofile (getp (kpt s) i))).
  { assert (Hm : f ∈ ofile (getp (kpt s) i)).
    { subst f. unfold ofile_at, nthZ in *. case_match; [done|].
      destruct (nth_lookup_or_length (ofile (getp (kpt s) i)) (Z.to_nat fd) (-1)) as [E|E].
      - by eapply list_elem_of_lookup_2.
      - by rewrite nth_overflow in Hn by lia. }
    pose proof (zsum_pos (one f) _ _ (one_nonneg f) Hm) as H. unfold one at 1 in H. rewrite Z.eqb_refl in H. exact H. }
  pose proof (zsum_pos (fun x => cnt f x.1) _ _ (fun x => cnt_nonneg f x.1) Hin) as H2. cbn [pview fst] in H2. lia.
Qed.

(** C3: open files are counted exactly.  Call the descriptors well formed when
    each of the 64 processes has 16 that are null or entries of the file table, a
    process that has exited has none, and the reference count of each entry is the
    number of descriptors on it, over all processes.  Every trap that returns -
    whatever system call, interrupt or signal it carries out - leaves them well
    formed, so that no descriptor is ever on an entry that is free; and the loop of
    [exit] leaves them well formed with none open. *)
Theorem descriptors_well_formed :
  (forall cpu cr2 t s t' s', wf (view_of s) -> trap kend kdata devsw dioctl backtrace cpu cr2 t s = Ok t' s' ->
     wf (view_of s')
     /\ forall i fd, slot i -> let f := ofile_at (getp (kpt s') i) fd in
          desc_ok f /\ (f <> -1 -> 1 <= fref (getf s' f)))
  /\ (forall s s', wf (view_of s) -> close_files kend s = Ok tt s' ->
        wf (view_of s') /\ forall fd, fd_ok fd -> ofile_at (curproc s') fd = -1).
Proof.
  split.
  - intros cpu cr2 t s t' s' W E. pose proof (keeps_trap cpu cr2 t s t' s' W E) as W'. split; [done|].
    intros i fd Hi. by apply wf_no_stale.
  - intros s s' W E. destruct (close_files_closes s s' W E) as [W' Hd]. split; [done|].
    intros fd Hfd. rewrite <-desc_cur. by apply Hd.
Qed.
End calls.

(** The console is the one device with an [ioctl]. *)
Definition console_ioctl (n : Z) : option (Z -> Z -> Z -> M kst Z) := if n =? 1 then Some consoleioctl else None.

(** A process with two descriptors on one file, in a [getpid]. *)
Definition demo_user_proc : proc :=
  with_ofile (0 :: 0 :: replicate 14 (-1))
    (with_tf (mk_tf 0 0 0 0 0 0 0 11 0 0 0 0 64 0 0 3 0 0 0) (with_state RUNNING (with_pid 7 proc0))).
Definition demo_open : kst :=
  mk_kst any_fs demo_boot (mk_pst (<[1%nat := demo_user_proc]> (replicate 64 proc0)) 8 0)
    (mk_file FD_NONE 2 true true 0 0 0 0 :: replicate 99 file0) ∅ 1 0 0 (-1) any_cst.

Lemma demo_open_wf : files_wf none (view_of demo_open).
Proof.
  assert (Hs : forall b l, length l = 16%nat -> (b = true -> Forall (fun f => f = -1) l) ->
    forallb (fun f => (f =? -1) || (0 <=? f) && (f <? NFILE)) l = true -> slot_ok (l, b)).
  { intros b l Hl Hb Hf. split; [done| |done]. apply Forall_forall. intros f Hin. rewrite forallb_forall in Hf.
    specialize (Hf f (proj1 (list_elem_of_In _ _) Hin)). unfold desc_ok, is_file. lia. }
  split; [done|done|done|done| |].
  - change (vprocs (view_of demo_open)) with (pv0 :: pview demo_user_proc :: replicate 62 pv0).
    assert (H0 : slot_ok pv0) by (apply Hs; [done|intros _; by apply Forall_replicate|done]).
    apply Forall_cons; split; [done|]. apply Forall_cons; split; [by apply Hs|by apply Forall_replicate].
  - intros f Hf. assert (H : forallb (fun f => vref (view_of demo_open) f =? openings (view_of demo_open) f) (seqZ 0 NFILE) = true)
      by (vm_compute; done).
    rewrite forallb_forall in H. specialize (H f). unfold none. rewrite <-list_elem_of_In, elem_of_seqZ in H.
    unfold is_file in Hf. lia.
Qed.

Definition returns {A} (r : res kst A) (P : kst -> bool) : bool := match r with Ok _ s => P s | _ => false end.
Lemma demo_trap_returns :
  returns (trap demo_kend demo_kdata no_dev console_ioctl (fun _ => []) 0 0 (tf demo_user_proc) demo_open)
    (fun s => fref (getf s 0) =? 2) = true.
Proof. vm_compute. done. Qed.
Lemma demo_close_returns : returns (close_files demo_kend demo_open) (fun s => fref (getf s 0) =? 0) = true.
Proof. vm_compute. done. Qed.

Lemma descriptors_well_formed_witness :
  (exists t' s', trap demo_kend demo_kdata no_dev console_ioctl (fun _ => []) 0 0 (tf demo_user_proc) demo_open = Ok t' s'
     /\ files_wf none (view_of s') /\ fref (getf s' 0) = 2)
  /\ exists s', close_files demo_kend demo_open = Ok tt s' /\ ofile_at (curproc s') 1 = -1 /\ fref (getf s' 0) = 0.
Proof.
  pose proof demo_trap_returns as Rt. pose proof demo_close_returns as Rc.
  destruct (descriptors_well_formed demo_kend demo_kdata no_dev console_ioctl (fun _ => [])) as [Ht Hc].
  { intros n h H ip r a. unfold console_ioctl in H. case_match; [injection H as <-|done].
    unfold consoleioctl. neutral. }
  specialize (Ht 0 0 (tf demo_user_proc) demo_open). specialize (Hc demo_open). split.
  - destruct (trap _ _ _ _ _ _ _ _ demo_open) as [t' s'| | |]; [|discriminate Rt..]. exists t', s'.
    destruct (Ht t' s' demo_open_wf eq_refl) as [W _]. split; [reflexivity|]. split; [exact W|by apply Z.eqb_eq].
  - destruct (close_files demo_kend demo_open) as [[] s'| | |]; [|discriminate Rc..]. exists s'.
    destruct (Hc s' demo_open_wf eq_refl) as [_ Hd]. split; [reflexivity|]. split; [by apply Hd|by apply Z.eqb_eq].
Defined.
