(* ===== verification/Umalloc.v ===== *)
(** * Umalloc: the user program's allocator

    Model of src/ulib/umalloc.c, the allocator of Kernighan and Ritchie: a ring of
    free blocks in order of address, each with a header of two words (the next
    block, the size in units of a header), searched first-fit from the block where
    the last search ended.  Memory is the program's own: the static header [base],
    and the heap from [lo] up to the break.  An access outside faults.

    [sbrk] is the system call: [grant b n] says whether the kernel lets a program
    with break [b] grow by [n] bytes.  A negative increment takes memory away,
    unless the new break, as an unsigned number, is above the old one, when nothing
    happens ([growproc] and [deallocuvm] of the kernel); with all of its memory
    gone, its code too, a program faults at once. *)

From Stdlib Require Import ZArith Lia ZifyBool.
From stdpp Require Import base gmap strings numbers list.
From S2P Require Import Prelude Kalloc Vm.

Local Open Scope Z_scope.
#[local] Ltac Zify.zify_post_hook ::= Z.to_euclidean_division_equations.

(** [sizeof(Header)]. *)
Definition HDR : Z := 8.

Record hst : Type := mk_hst { umem : gmap Z Z; freep : Z; brk : Z }.
Definition set_umem (m : gmap Z Z) (s : hst) : hst := mk_hst m (freep s) (brk s).
Definition set_freep (p : Z) (s : hst) : hst := mk_hst (umem s) p (brk s).
Definition set_brk (b : Z) (s : hst) : hst := mk_hst (umem s) (freep s) b.

Definition byte (m : gmap Z Z) (a : Z) : Z := default 0 (m !! a).
Definition word (m : gmap Z Z) (a : Z) : Z :=
  byte m a + 256 * byte m (a + 1) + 65536 * byte m (a + 2) + 16777216 * byte m (a + 3).
Definition put_word (a x : Z) (m : gmap Z Z) : gmap Z Z :=
  <[a := x mod 256]> (<[a + 1 := x / 256 mod 256]> (<[a + 2 := x / 65536 mod 256]>
    (<[a + 3 := x / 16777216 mod 256]> m))).

Section umalloc.
Context (base lo : Z) (grant : Z -> Z -> bool).

(** The program's memory is mapped up to the end of the page of its break. *)
Definition valid (s : hst) (a : Z) : bool :=
  ((base <=? a) && (a <? base + HDR) || (lo <=? a)) && (a <? PGROUNDUP (brk s)).
Definition load8 (a : Z) : M hst Z := fun s =>
  if valid s a then Ok (byte (umem s) a) s else Panic "trap" s.
Definition store8 (a x : Z) : M hst unit := fun s =>
  if valid s a then Ok tt (set_umem (<[a := x]> (umem s)) s) else Panic "trap" s.
Definition load (a : Z) : M hst Z := fun s =>
  if valid s a && valid s (a + 3) then Ok (word (umem s) a) s else Panic "trap" s.
Definition store (a x : Z) : M hst unit := fun s =>
  if valid s a && valid s (a + 3) then Ok tt (set_umem (put_word a x (umem s)) s) else Panic "trap" s.

(** The fields of a header. *)
Definition ptr (p : Z) : M hst Z := load p.
Definition size (p : Z) : M hst Z := load (p + 4).
Definition set_ptr (p x : Z) : M hst unit := store p x.
Definition set_size (p x : Z) : M hst unit := store (p + 4) x.

(** (char* )-1. *)
Definition SBRK_FAILED : Z := 0xffffffff.
Definition sbrk (n : Z) : M hst Z := fun s =>
  let b := brk s in
  if 0 <? n then if grant b n then Ok b (set_brk (b + n) s) else Ok SBRK_FAILED s
  else if n <? 0 then
    let b' := u32 (b + n) in
    if b <=? b' then Ok b s
    else if b' =? 0 then Panic "trap" s else Ok b (set_brk b' s)
  else Ok b s.

(** The block after which [bp] belongs; a ring has at most one block per unit of
    the heap. *)
Definition ring_fuel (s : hst) : nat := Z.to_nat ((brk s - lo) / HDR) + 3.
Definition find_place (bp : Z) : M hst Z :=
  fuel ← gets ring_fuel;
  p ← gets freep;
  loop fuel (fun p =>
    n ← ptr p;
    if (p <? bp) && (bp <? n) then mret (inr p)
    else if (n <=? p) && ((p <? bp) || (bp <? n)) then mret (inr p)
    else mret (inl n)) p.

(** The freed block is joined to the next one, and to the one before it. *)
Definition join_next (bp n : Z) : M hst unit :=
  bs ← size bp;
  if u32 (bp + HDR * bs) =? n then
    ns ← size n;
    set_size bp (u32 (bs + ns)) ;;
    nn ← ptr n;
    set_ptr bp nn
  else set_ptr bp n.
Definition join_prev (p bp : Z) : M hst unit :=
  ps ← size p;
  if u32 (p + HDR * ps) =? bp then
    bs ← size bp;
    set_size p (u32 (ps + bs)) ;;
    bn ← ptr bp;
    set_ptr p bn
  else set_ptr p bp.

Definition free (ap : Z) : M hst unit :=
  let bp := u32 (ap - HDR) in
  p ← find_place bp;
  n ← ptr p;
  join_next bp n ;;
  join_prev p bp ;;
  modS (set_freep p).

Definition morecore (nu : Z) : M hst Z :=
  let nu := if nu <? 4096 then 4096 else nu in
  p ← sbrk (s32 (u32 (nu * HDR)));
  if p =? SBRK_FAILED then mret 0
  else
    set_size p nu ;;
    free (p + HDR) ;;
    gets freep.

Definition nunits (nbytes : Z) : Z := u32 (u32 (nbytes + HDR - 1) / HDR + 1).

(** One round of the search: [prevp] and [p] are neighbours in the ring. *)
Definition malloc_round (nu : Z) (prevp p : Z) : M hst ((Z * Z) + Z) :=
  sz ← size p;
  if nu <=? sz then
    q ← (if sz =? nu then n ← ptr p; set_ptr prevp n ;; mret p
         else
           set_size p (sz - nu) ;;
           let q := u32 (p + HDR * (sz - nu)) in
           set_size q nu ;;
           mret q);
    modS (set_freep prevp) ;;
    mret (inr (u32 (q + HDR)))
  else
    f ← gets freep;
    if p =? f then
      p ← morecore nu;
      if p =? 0 then mret (inr 0) else n ← ptr p; mret (inl (p, n))
    else n ← ptr p; mret (inl (p, n)).

Definition malloc (nbytes : Z) : M hst Z :=
  let nu := nunits nbytes in
  f ← gets freep;
  (if f =? 0 then
     modS (set_freep base) ;;
     set_ptr base base ;;
     set_size base 0
   else mret tt) ;;
  fuel ← gets ring_fuel;
  prevp ← gets freep;
  p ← ptr prevp;
  loop (2 * fuel) (fun '(prevp, p) => malloc_round nu prevp p) (prevp, p).

(** [memset] and [memmove] of ulib.c. *)
Definition memset (dst c n : Z) : M hst unit := forM (seqZ 0 n) (fun i => store8 (dst + i) (c mod 256)).
Definition memmove (dst src n : Z) : M hst unit :=
  forM (seqZ 0 n) (fun i => c ← load8 (src + i); store8 (dst + i) c).

Definition calloc (nmemb sz : Z) : M hst Z :=
  if (nmemb =? 0) || (sz =? 0) then malloc 0
  else
    let total := u32 (nmemb * sz) in
    if negb (total / sz =? nmemb) then mret 0
    else
      p ← malloc total;
      if p =? 0 then mret 0 else memset p 0 total ;; mret p.

Definition realloc (p sz : Z) : M hst Z :=
  if p =? 0 then malloc sz
  else if sz =? 0 then free p ;; mret 0
  else
    hs ← size (u32 (p - HDR));
    let old := u32 ((hs - 1) * HDR) in
    q ← malloc sz;
    if q =? 0 then mret 0
    else
      memmove q p (Z.min old sz) ;;
      free p ;;
      mret q.
End umalloc.
