(* ===== verification/Uheap.v ===== *)
(** * Uheap: the allocator keeps the heap in order

    Theorems about Umalloc.  The heap is tiled by the blocks of the free ring, in
    order of address, and by the blocks given to the program: nothing is lost and
    nothing overlaps.  [malloc], [free], [calloc] and [realloc] keep it so, write
    nothing into the blocks the program holds, and return what they promise. *)

From Stdlib Require Import ZArith Lia ZifyBool.
From stdpp Require Import base gmap strings numbers list.
From S2P Require Import Prelude Kalloc Vm Paging Umalloc.

Local Open Scope Z_scope.
#[local] Ltac Zify.zify_post_hook ::= Z.to_euclidean_division_equations.

(** ** Words in memory *)

Lemma byte_insert_eq a x m : byte (<[a := x]> m) a = x.
Proof. unfold byte. by rewrite lookup_insert_eq. Qed.
Lemma byte_insert_ne a b x m : a <> b -> byte (<[a := x]> m) b = byte m b.
Proof. intros H. unfold byte. by rewrite lookup_insert_ne. Qed.

Lemma byte_put_word a x m b : b < a \/ a + 4 <= b -> byte (put_word a x m) b = byte m b.
Proof. intros H. unfold put_word. by rewrite !byte_insert_ne by lia. Qed.
Lemma word_put_eq a x m : 0 <= x < 2 ^ 32 -> word (put_word a x m) a = x.
Proof.
  intros Hx. unfold word, put_word. rewrite byte_insert_eq.
  rewrite (byte_insert_ne a (a + 1)), byte_insert_eq by lia.
  rewrite (byte_insert_ne a (a + 2)), (byte_insert_ne (a + 1) (a + 2)), byte_insert_eq by lia.
  rewrite (byte_insert_ne a (a + 3)), (byte_insert_ne (a + 1) (a + 3)), (byte_insert_ne (a + 2) (a + 3)), byte_insert_eq by lia.
  pose proof (Z.div_mod x 256). pose proof (Z.div_mod (x / 256) 256). pose proof (Z.div_mod (x / 65536) 256).
  rewrite (Z.div_div x 256 256) in * by lia. rewrite (Z.div_div x 65536 256) in * by lia.
  change (256 * 256) with 65536 in *. change (65536 * 256) with 16777216 in *.
  rewrite (Z.mod_small (x / 16777216) 256); [lia|].
  split; [apply Z.div_pos; lia|apply Z.div_lt_upper_bound; lia].
Qed.
Lemma word_put_ne a x m b : b + 4 <= a \/ a + 4 <= b -> word (put_word a x m) b = word m b.
Proof. intros H. unfold word. by rewrite !byte_put_word by lia. Qed.

(** ** Blocks *)

(** A block is its address and its size in units; the part after the header is
    the program's. *)
Abbreviation block := (Z * Z)%type.
Definition fin (b : block) : Z := b.1 + HDR * b.2.
Definition disj (x y : block) : Prop := fin x <= y.1 \/ fin y <= x.1.
Definition units (l : list block) : Z := foldr (fun b n => b.2 + n) 0 l.
Definition hd_addr (l : list block) (z : Z) : Z := match l with [] => z | b :: _ => b.1 end.

(** The blocks [l] are linked in this order, the last one to [z]. *)
Fixpoint links (m : gmap Z Z) (l : list block) (z : Z) : Prop :=
  match l with
  | [] => True
  | b :: l' => word m b.1 = hd_addr l' z /\ word m (b.1 + 4) = b.2 /\ links m l' z
  end.
(** They lie in this order between [e] and [top]. *)
Fixpoint gaps (e : Z) (l : list block) (top : Z) : Prop :=
  match l with
  | [] => e <= top
  | b :: l' => e <= b.1 /\ 0 <= b.2 /\ gaps (fin b) l' top
  end.
Fixpoint separate (l : list block) : Prop :=
  match l with [] => True | b :: l' => Forall (disj b) l' /\ separate l' end.

Lemma disj_sym x y : disj x y -> disj y x.
Proof. unfold disj. tauto. Qed.

Lemma hd_addr_app l1 l2 z : hd_addr (l1 ++ l2) z = hd_addr l1 (hd_addr l2 z).
Proof. by destruct l1. Qed.
Lemma units_app l1 l2 : units (l1 ++ l2) = units l1 + units l2.
Proof. induction l1 as [|b l1 IH]; [done|]. cbn. unfold units in *. rewrite IH. lia. Qed.

Lemma links_app m l1 l2 z : links m (l1 ++ l2) z <-> links m l1 (hd_addr l2 z) /\ links m l2 z.
Proof.
  induction l1 as [|b l1 IH]; [by cbn; tauto|]. cbn. rewrite IH, hd_addr_app. tauto.
Qed.
Lemma links_frame m m' l z :
  (forall b, b ∈ l -> word m' b.1 = word m b.1 /\ word m' (b.1 + 4) = word m (b.1 + 4)) ->
  links m l z -> links m' l z.
Proof.
  induction l as [|b l IH]; [done|]. intros H (H1 & H2 & H3). destruct (H b) as [E1 E2]; [constructor|].
  cbn. rewrite E1, E2. split; [done|]. split; [done|]. apply IH; [|done]. intros c Hc. apply H. by constructor.
Qed.
(** A word outside the headers of [l]. *)
Definition off_headers (w : Z) (l : list block) : Prop := Forall (fun b => w + 4 <= b.1 \/ b.1 + HDR <= w) l.
Lemma links_put m w x l z : off_headers w l -> links m l z -> links (put_word w x m) l z.
Proof.
  intros Ho. apply links_frame. intros b Hb. unfold off_headers, HDR in Ho. rewrite Forall_forall in Ho.
  specialize (Ho b Hb). by rewrite !word_put_ne by lia.
Qed.

Lemma gaps_app e l1 l2 top : gaps e (l1 ++ l2) top <-> exists mid, gaps e l1 mid /\ gaps mid l2 top.
Proof.
  revert e. induction l1 as [|b l1 IH]; intros e; cbn.
  - split; [intros H; exists e; split; [lia|done]|]. intros (mid & H1 & H2).
    destruct l2 as [|c l2]; cbn in *; [lia|]. destruct H2 as (? & ? & ?). split_and!; [lia|done|done].
  - split.
    + intros (? & ? & (mid & ? & ?)%IH). exists mid. tauto.
    + intros (mid & (? & ? & ?) & ?). split_and!; [done|done|]. apply IH. eauto.
Qed.
Lemma gaps_le e l top : gaps e l top -> e <= top.
Proof.
  revert e. induction l as [|b l IH]; intros e; cbn; [done|]. intros (H1 & H2 & H3%IH). unfold fin, HDR in *. lia.
Qed.
Lemma gaps_in e l top b : gaps e l top -> b ∈ l -> e <= b.1 /\ 0 <= b.2 /\ fin b <= top.
Proof.
  revert e. induction l as [|c l IH]; intros e; [by intros _ ?%elem_of_nil|]. cbn. intros (H1 & H2 & H3).
  rewrite elem_of_cons. intros [->|Hb]; [split_and!; [done|done|by eapply gaps_le]|].
  destruct (IH _ H3 Hb) as (? & ? & ?). unfold fin, HDR in *. split_and!; lia.
Qed.
Lemma gaps_weaken e e' l top top' : gaps e l top -> e' <= e -> top <= top' -> gaps e' l top'.
Proof.
  revert e e'. induction l as [|b l IH]; intros e e'; cbn; [lia|]. intros (? & ? & ?) ? ?.
  split_and!; [lia|done|]. by eapply IH.
Qed.

Section heap.
Context (base lo : Z).
Context (Hbase : 0 < base /\ base + HDR <= lo).
Abbreviation root := (base, 0).

(** ** The heap *)

(** A block that the program holds. *)
Record live_ok (s : hst) (bs : list block) (b : block) : Prop := {
  lv_lo : lo <= b.1;
  lv_pos : 1 <= b.2;
  lv_top : fin b <= brk s;
  lv_size : word (umem s) (b.1 + 4) = b.2;
  lv_disj : Forall (disj b) bs
}.
(** The free blocks [bs] are the ring after [base] and together with the blocks
    [live] of the program they fill the heap, each unit once. *)
Record heap (s : hst) (bs live : list block) : Prop := {
  hp_ring : links (umem s) (root :: bs) base;
  hp_gaps : gaps lo bs (brk s);
  hp_pos : Forall (fun b => 1 <= b.2) bs;
  hp_freep : freep s ∈ base :: map fst bs;
  hp_top : brk s <= KERNBASE;
  hp_live : Forall (live_ok s bs) live;
  hp_sep : separate live;
  hp_sum : HDR * (units bs + units live) = brk s - lo;
  hp_align : Forall (fun b => (b.1 - lo) mod HDR = 0) (bs ++ live)
}.

(** The bytes of a block after its header. *)
Definition same_data (m m' : gmap Z Z) (b : block) : Prop :=
  forall a, b.1 + HDR <= a < fin b -> byte m' a = byte m a.

(** *** Accesses *)

Definition is_hdr (s : hst) (a : Z) : Prop := a = base /\ lo <= brk s \/ lo <= a /\ a + HDR <= brk s.

Lemma valid_hdr s a w : brk s <= KERNBASE -> is_hdr s a -> a <= w < a + HDR -> valid base lo s w = true.
Proof.
  intros Ht Ha Hw. unfold valid, is_hdr, KERNBASE, HDR in *. rewrite PGROUNDUP_eq by lia. lia.
Qed.
Section access.
Context (s : hst) (Htop : brk s <= KERNBASE) (a : Z) (Ha : is_hdr s a).
Lemma ptr_Ok : ptr base lo a s = Ok (word (umem s) a) s.
Proof. unfold ptr, load. rewrite !(valid_hdr s a) by (done || unfold HDR; lia). done. Qed.
Lemma size_Ok : size base lo a s = Ok (word (umem s) (a + 4)) s.
Proof. unfold size, load. rewrite !(valid_hdr s a) by (done || unfold HDR; lia). done. Qed.
Lemma set_ptr_Ok x : set_ptr base lo a x s = Ok tt (set_umem (put_word a x (umem s)) s).
Proof. unfold set_ptr, store. rewrite !(valid_hdr s a) by (done || unfold HDR; lia). done. Qed.
Lemma set_size_Ok x : set_size base lo a x s = Ok tt (set_umem (put_word (a + 4) x (umem s)) s).
Proof. unfold set_size, store. rewrite !(valid_hdr s a) by (done || unfold HDR; lia). done. Qed.
End access.

(** *** The ring in order *)

Lemma ring_hdr s bs b : gaps lo bs (brk s) -> Forall (fun b => 1 <= b.2) bs -> b ∈ root :: bs -> is_hdr s b.1.
Proof.
  intros Hg Hp. rewrite elem_of_cons. intros [->|Hb]; [left; split; [done|by eapply gaps_le]|]. right.
  destruct (gaps_in _ _ _ _ Hg Hb) as (? & ? & ?). rewrite Forall_forall in Hp. specialize (Hp b Hb).
  unfold fin, HDR in *. lia.
Qed.
Lemma ring_gaps s bs : gaps lo bs (brk s) -> gaps base (root :: bs) (brk s).
Proof.
  intros Hg. cbn. split_and!; [lia|lia|]. eapply gaps_weaken; [exact Hg| |lia]. unfold fin, HDR in *. cbn. lia.
Qed.

(** The place of an address in the ring. *)
Lemma ring_split (r : list block) e top a : gaps e r top -> Forall (fun b => b.1 <> a) r -> r <> [] -> hd_addr r 0 < a ->
  exists l1 p l2, r = l1 ++ p :: l2 /\ p.1 < a /\ Forall (fun b => a < b.1) l2.
Proof.
  revert e. induction r as [|b r IH]; [done|]. intros e (H1 & H2 & H3) Hne _ Hlt. cbn in Hlt.
  apply Forall_cons in Hne as [Hb Hne]. destruct r as [|c r].
  { exists [], b, []. split_and!; [done|done|constructor]. }
  destruct (Z_lt_ge_dec c.1 a) as [Hc|Hc].
  - destruct (IH _ H3 Hne) as (l1 & p & l2 & E & Hp & Hl2); [done|done|].
    exists (b :: l1), p, l2. rewrite E. done.
  - exists [], b, (c :: r). split_and!; [done|done|]. apply Forall_forall. intros x Hx.
    apply Forall_cons in Hne as [Hc' _]. rewrite elem_of_cons in Hx. destruct Hx as [->|Hx]; [lia|].
    cbn in H3. destruct H3 as (? & ? & H3). destruct (gaps_in _ _ _ _ H3 Hx). unfold fin, HDR in *. lia.
Qed.

(** *** The search of [free] *)

Definition place_round (bp p : Z) : M hst (Z + Z) :=
  n ← ptr base lo p;
  if (p <? bp) && (bp <? n) then mret (inr p)
  else if (n <=? p) && ((p <? bp) || (bp <? n)) then mret (inr p)
  else mret (inl n).

Section place.
Context (s : hst) (bs : list block) (bp : Z).
Context (Hring : links (umem s) (root :: bs) base) (Hgaps : gaps lo bs (brk s)).
Context (Hpos : Forall (fun b => 1 <= b.2) bs) (Htop : brk s <= KERNBASE) (Hbp : lo <= bp).

Lemma ring_lt l0 b c l2 : root :: bs = l0 ++ b :: c :: l2 -> b.1 < c.1.
Proof.
  intros E. pose proof (ring_gaps s bs Hgaps) as G. rewrite E, gaps_app in G. destruct G as (e & _ & _ & _ & G & _).
  assert (Hb : b ∈ root :: bs) by (rewrite E; apply elem_of_app; right; constructor).
  assert (Hc : c ∈ bs).
  { destruct l0 as [|x l0]; injection E as _ E2; rewrite E2; [constructor|]. apply elem_of_app. right. do 2 constructor. }
  rewrite elem_of_cons in Hb. destruct Hb as [Hb|Hb].
  - rewrite Hb. destruct (gaps_in _ _ _ _ Hgaps Hc). unfold HDR in Hbase. cbn. lia.
  - rewrite Forall_forall in Hpos. specialize (Hpos b Hb). unfold fin, HDR in G. lia.
Qed.

Lemma place_step l0 b l : root :: bs = l0 ++ b :: l ->
  place_round bp b.1 s =
    (let n := hd_addr l base in
     if (b.1 <? bp) && (bp <? n) then Ok (inr b.1) s
     else if (n <=? b.1) && ((b.1 <? bp) || (bp <? n)) then Ok (inr b.1) s
     else Ok (inl n) s).
Proof.
  intros E. assert (Hb : b ∈ root :: bs) by (rewrite E; apply elem_of_app; right; constructor).
  pose proof Hring as R. rewrite E, links_app in R. destruct R as [_ [R _]]. unfold place_round.
  rewrite (bind_Ok _ _ _ _ _ (ptr_Ok s Htop b.1 (ring_hdr s bs b Hgaps Hpos Hb))). rewrite R.
  cbv zeta. destruct (_ && _); [done|]. destruct (_ && _); done.
Qed.

Lemma loop_step {S A B} fuel (body : A -> M S (A + B)) x y (t : S) :
  body x t = Ok (inl y) t -> loop (Datatypes.S fuel) body x t = loop fuel body y t.
Proof. intros E. cbn [loop]. by rewrite (bind_Ok _ _ _ _ _ E). Qed.

(** Blocks after the place are passed, and those before it. *)
Lemma skip_after l l0 fuel : root :: bs = l0 ++ l -> (forall b, b ∈ l -> bp < b.1) ->
  loop (length l + fuel) (place_round bp) (hd_addr l base) s = loop fuel (place_round bp) base s.
Proof.
  revert l0. induction l as [|b l IH]; intros l0 E H; [done|]. cbn [length Nat.add hd_addr].
  assert (Hb : bp < b.1) by (apply H; constructor).
  rewrite (loop_step _ _ _ (hd_addr l base)).
  - apply (IH (l0 ++ [b])); [by rewrite <-app_assoc|]. intros c Hc. apply H. by constructor.
  - rewrite (place_step l0 b l E). cbv zeta. replace (b.1 <? bp) with false by lia. cbn [andb orb].
    destruct l as [|c l]; cbn [hd_addr].
    + replace (bp <? base) with false by (unfold HDR in Hbase; lia). by rewrite andb_false_r.
    + pose proof (ring_lt _ _ _ _ E). by replace (c.1 <=? b.1) with false by lia.
Qed.
Lemma skip_before l l0 p l2 fuel : root :: bs = l0 ++ l ++ p :: l2 -> p.1 < bp ->
  loop (length l + fuel) (place_round bp) (hd_addr (l ++ p :: l2) base) s = loop fuel (place_round bp) p.1 s.
Proof.
  revert l0. induction l as [|b l IH]; intros l0 E H; [done|].
  rewrite <-app_comm_cons in *. cbn [length Nat.add hd_addr].
  rewrite (loop_step _ _ _ (hd_addr (l ++ p :: l2) base)).
  - apply (IH (l0 ++ [b])); [by rewrite <-app_assoc|done].
  - rewrite (place_step l0 b _ E). cbv zeta.
    assert (Hn : b.1 < hd_addr (l ++ p :: l2) base < bp \/ b.1 < hd_addr (l ++ p :: l2) base <= p.1).
    { destruct l as [|c l]; [left; split; [by eapply (ring_lt l0 b p l2)|done]|]. right.
      change (hd_addr ((c :: l) ++ p :: l2) base) with c.1. split; [by eapply (ring_lt l0 b c (l ++ p :: l2))|].
      pose proof (ring_gaps s bs Hgaps) as G. rewrite E, gaps_app in G. destruct G as (e & _ & _ & _ & _ & Hc2 & G).
      destruct (gaps_in (fin c) (l ++ p :: l2) (brk s) p G) as [? _]; [apply elem_of_app; right; constructor|].
      unfold fin, HDR in *. lia. }
    replace ((b.1 <? bp) && (bp <? hd_addr (l ++ p :: l2) base)) with false by lia.
    by replace (hd_addr (l ++ p :: l2) base <=? b.1) with false by lia.
Qed.

Lemma place_found l0 p l2 fuel : root :: bs = l0 ++ p :: l2 -> p.1 < bp -> Forall (fun b => bp < b.1) l2 ->
  loop (S fuel) (place_round bp) p.1 s = Ok p.1 s.
Proof.
  intros E Hp H2. cbn [loop].
  assert (Es : place_round bp p.1 s = Ok (inr p.1) s); [|by rewrite (bind_Ok _ _ _ _ _ Es)].
  rewrite (place_step l0 p l2 E). cbv zeta. destruct l2 as [|c l2]; cbn [hd_addr].
  - replace (bp <? base) with false by (unfold HDR in Hbase; lia). rewrite andb_false_r.
    assert (base <= p.1).
    { destruct (gaps_in _ _ _ p (ring_gaps s bs Hgaps)) as [? _]; [|done]. rewrite E. apply elem_of_app. right. constructor. }
    by replace ((base <=? p.1) && ((p.1 <? bp) || false)) with true by lia.
  - apply Forall_cons in H2 as [H2 _]. by replace ((p.1 <? bp) && (bp <? c.1)) with true by lia.
Qed.

Lemma search_place f l1 p l2 fuel : root :: bs = l1 ++ p :: l2 -> p.1 < bp -> Forall (fun b => bp < b.1) l2 ->
  f ∈ root :: bs -> (length (root :: bs) <= fuel)%nat -> loop fuel (place_round bp) f.1 s = Ok p.1 s.
Proof.
  intros E Hp H2 Hf Hfuel. rewrite E in Hf, Hfuel. rewrite length_app in Hfuel. cbn [length] in Hfuel.
  apply elem_of_app in Hf as [Hf|Hf]; [|apply elem_of_cons in Hf as [->|Hf]].
  - apply list_elem_of_split in Hf as (m1 & m2 & ->). rewrite length_app in Hfuel.
    replace fuel with (length (f :: m2) + S (fuel - length (f :: m2) - 1))%nat by (cbn [length] in *; lia).
    change f.1 with (hd_addr ((f :: m2) ++ p :: l2) base).
    rewrite (skip_before _ m1) by (by rewrite E, <-app_assoc || done). by eapply place_found.
  - replace fuel with (S (fuel - 1)) by lia. by eapply place_found.
  - pose proof Hf as (m1 & m2 & E2)%list_elem_of_split.
    assert (Hl2 : length l2 = (length m1 + length (f :: m2))%nat) by (by rewrite E2, length_app).
    replace fuel with (length (f :: m2) + (length l1 + S (fuel - length (f :: m2) - length l1 - 1)))%nat
      by (cbn [length] in *; lia).
    change f.1 with (hd_addr (f :: m2) base).
    rewrite (skip_after _ (l1 ++ p :: m1)).
    + replace base with (hd_addr (l1 ++ p :: l2) base) at 1 by (by rewrite <-E).
      rewrite (skip_before _ []) by done. by eapply place_found.
    + by rewrite E, E2, <-app_assoc.
    + intros b Hb. rewrite Forall_forall in H2. apply H2. rewrite E2. apply elem_of_app. by right.
Qed.
End place.

Lemma gaps_units e l top : gaps e l top -> HDR * units l <= top - e.
Proof.
  revert e. induction l as [|b l IH]; intros e; cbn [gaps units foldr]; [lia|].
  intros (? & ? & H%IH). unfold units, fin, HDR in *. lia.
Qed.
Lemma length_units l : Forall (fun b : block => 1 <= b.2) l -> Z.of_nat (length l) <= units l.
Proof. induction 1 as [|b l H _ IH]; [done|]. cbn [length units foldr]. unfold units in IH. lia. Qed.

(** The block after which a block that lies between the free blocks belongs. *)
Lemma find_place_ok s bs b : links (umem s) (root :: bs) base -> gaps lo bs (brk s) ->
  Forall (fun b => 1 <= b.2) bs -> brk s <= KERNBASE -> freep s ∈ base :: map fst bs ->
  lo <= b.1 -> 1 <= b.2 -> Forall (disj b) bs ->
  exists l1 p l2, root :: bs = l1 ++ p :: l2 /\ p.1 < b.1 /\ Forall (fun c => b.1 < c.1) l2
    /\ find_place base lo b.1 s = Ok p.1 s.
Proof.
  intros Hr Hg Hp Ht Hf Hlo Hb Hd.
  destruct (ring_split (root :: bs) base (brk s) b.1) as (l1 & p & l2 & E & Hpb & H2).
  - by apply ring_gaps.
  - apply Forall_cons. split; [cbn; unfold HDR in Hbase; lia|]. apply Forall_forall. intros c Hc.
    rewrite Forall_forall in Hd, Hp. specialize (Hd c Hc). specialize (Hp c Hc). unfold disj, fin, HDR in Hd. lia.
  - done.
  - cbn. unfold HDR in Hbase. lia.
  - exists l1, p, l2. split_and!; [done|done|done|].
    assert (exists f, f ∈ root :: bs /\ freep s = f.1) as (f & Hfin & Ef).
    { change (base :: map fst bs) with (map fst (root :: bs)) in Hf. apply list_elem_of_fmap in Hf as (f & -> & Hf). eauto. }
    unfold find_place. rewrite (bind_Ok (gets (ring_fuel lo)) _ s (ring_fuel lo s) s eq_refl).
    rewrite (bind_Ok (gets freep) _ s (freep s) s eq_refl). rewrite Ef.
    change (loop (ring_fuel lo s) (place_round b.1) f.1 s = Ok p.1 s).
    eapply (search_place s bs b.1); try done. pose proof (gaps_units _ _ _ Hg). pose proof (length_units _ Hp).
    unfold ring_fuel, HDR in *. cbn [length]. lia.
Qed.

(** ** [free] *)

(** Memory changed in the header at [a] only. *)
Definition same_but (a : Z) (m m' : gmap Z Z) : Prop :=
  forall w, w < a \/ a + HDR <= w -> byte m' w = byte m w.
Lemma same_but_word a m m' w : same_but a m m' -> w + 4 <= a \/ a + HDR <= w -> word m' w = word m w.
Proof. intros H Hw. unfold word. by rewrite !H by lia. Qed.
Lemma same_but_put a x m : same_but a m (put_word a x m) /\ same_but a m (put_word (a + 4) x m).
Proof. split; intros w Hw; apply byte_put_word; unfold HDR in Hw; lia. Qed.
Lemma same_but_trans a m1 m2 m3 : same_but a m1 m2 -> same_but a m2 m3 -> same_but a m1 m3.
Proof. intros H1 H2 w Hw. by rewrite H2, H1. Qed.
Lemma same_but_links a m m' l z : same_but a m m' -> Forall (fun b => b.1 + HDR <= a \/ a + HDR <= b.1) l ->
  links m l z -> links m' l z.
Proof.
  intros H Hl. apply links_frame. intros b Hb. rewrite Forall_forall in Hl. specialize (Hl b Hb).
  unfold HDR in *. by rewrite !(same_but_word a m m') by (done || unfold HDR; lia).
Qed.

(** Blocks that keep away from all of [l] keep away from all of [l']. *)
Definition keeps_away (l l' : list block) : Prop :=
  forall x : block, 1 <= x.2 -> Forall (disj x) l -> Forall (disj x) l'.

Section join.
Context (s : hst) (Htop : brk s <= KERNBASE).

Lemma hd_range e l : lo <= e -> gaps e l (brk s) -> 0 <= hd_addr l base < 2 ^ 32.
Proof.
  intros He Hg. destruct l as [|c l]; cbn [hd_addr]; [apply gaps_le in Hg|destruct Hg as (? & ? & Hd%gaps_le)];
    unfold fin, HDR, KERNBASE in *; lia.
Qed.

(** The header at [a] is written: the block is now first in the list. *)
Lemma new_header a n l m m' : 0 <= n -> same_but a m m' -> word m' a = hd_addr l base -> word m' (a + 4) = n ->
  Forall (fun c => a + HDR <= c.1) l -> links m l base -> gaps (fin (a, n)) l (brk s) ->
  links m' ((a, n) :: l) base /\ gaps a ((a, n) :: l) (brk s).
Proof.
  intros Hn Hs H1 H2 Ho Hl Hg. split.
  - cbn [links fst snd]. split_and!; [done|done|]. apply (same_but_links a m); [done| |done].
    eapply Forall_impl; [exact Ho|]. cbn. intros c Hc. by right.
  - cbn [gaps fst snd]. split_and!; [lia|done|done].
Qed.

Lemma gaps_off a n l : 1 <= n -> gaps (fin (a, n)) l (brk s) -> Forall (fun c => a + HDR <= c.1) l.
Proof.
  intros Hn Hg. apply Forall_forall. intros c Hc. destruct (gaps_in _ _ _ _ Hg Hc). unfold fin, HDR in *. cbn in *. lia.
Qed.

(** The block [b] is joined to a block [c] behind which the list [l] goes on. *)
Lemma absorb a n c l : is_hdr s a -> 0 <= n -> 1 <= c.2 -> fin (a, n) <= c.1 -> a + HDR <= c.1 ->
  word (umem s) (a + 4) = n -> links (umem s) (c :: l) base -> gaps c.1 (c :: l) (brk s) -> fin (a, n) = c.1 ->
  lo <= c.1 ->
  exists m', (sz ← size base lo c.1; set_size base lo a (u32 (n + sz)) ;; nn ← ptr base lo c.1; set_ptr base lo a nn) s
      = Ok tt (set_umem m' s) /\ same_but a (umem s) m'
    /\ links m' ((a, n + c.2) :: l) base /\ gaps a ((a, n + c.2) :: l) (brk s).
Proof.
  intros Hh Hn Hc Hfin Hoff Hsz (L1 & L2 & L3) (_ & _ & Hg) E Hlo. pose proof (gaps_le _ _ _ Hg) as Hcl.
  assert (Ha : 0 <= a) by (unfold is_hdr, HDR in *; lia).
  assert (Hhc : is_hdr s c.1) by (right; unfold fin, HDR in *; lia).
  rewrite (bind_Ok _ _ _ _ _ (size_Ok s Htop _ Hhc)), L2.
  rewrite (bind_Ok _ _ _ _ _ (set_size_Ok s Htop _ Hh _)). set (s1 := set_umem _ s).
  rewrite (bind_Ok _ _ _ _ _ (ptr_Ok s1 Htop c.1 Hhc)), (set_ptr_Ok s1 Htop _ Hh).
  assert (Hc1 : word (umem s1) c.1 = hd_addr l base).
  { rewrite <-L1. apply (same_but_word a); [apply same_but_put|lia]. }
  rewrite Hc1. exists (put_word a (hd_addr l base) (umem s1)). split; [done|].
  assert (S12 : same_but a (umem s) (put_word a (hd_addr l base) (umem s1))).
  { eapply same_but_trans; [|apply same_but_put]. apply same_but_put. }
  split; [done|]. apply (new_header _ _ _ (umem s)); [lia|done| | | |done|].
  - apply word_put_eq. by apply (hd_range (fin c)); [unfold fin, HDR in *; cbn in *; lia|].
  - rewrite word_put_ne by lia. cbn [s1 umem set_umem].
    rewrite u32_small by (unfold fin, HDR, KERNBASE in *; cbn in *; lia).
    apply word_put_eq. unfold fin, HDR, KERNBASE in *; cbn in *; lia.
  - apply Forall_forall. intros d Hd. destruct (gaps_in _ _ _ _ Hg Hd). unfold fin, HDR in *. lia.
  - eapply gaps_weaken; [exact Hg| |lia]. unfold fin, HDR in *. cbn in *. lia.
Qed.

Lemma join_next_ok b l : lo <= b.1 -> 1 <= b.2 -> fin b <= brk s -> word (umem s) (b.1 + 4) = b.2 ->
  links (umem s) l base -> gaps (fin b) l (brk s) -> Forall (fun c => 1 <= c.2) l ->
  exists m' n rest, join_next base lo b.1 (hd_addr l base) s = Ok tt (set_umem m' s) /\ same_but b.1 (umem s) m'
    /\ links m' ((b.1, n) :: rest) base /\ gaps b.1 ((b.1, n) :: rest) (brk s) /\ b.2 <= n
    /\ units ((b.1, n) :: rest) = b.2 + units l /\ keeps_away (b :: l) ((b.1, n) :: rest)
    /\ (exists l0, l = l0 ++ rest).
Proof.
  intros Hlo Hb Hfin Hsz Hl Hg Hp. destruct b as [a n]. cbn [fst snd] in *.
  assert (Hh : is_hdr s a) by (right; unfold fin, HDR in *; cbn in *; lia).
  assert (Hu : u32 (a + HDR * n) = fin (a, n)) by (apply u32_small; unfold fin, HDR, KERNBASE in *; cbn in *; lia).
  pose proof (gaps_off a n l Hb Hg) as Ho.
  unfold join_next. rewrite (bind_Ok _ _ _ _ _ (size_Ok s Htop _ Hh)), Hsz, Hu.
  destruct (Z.eqb_spec (fin (a, n)) (hd_addr l base)) as [E|E].
  - destruct l as [|c l]; [cbn in E; unfold fin, HDR in *; cbn in *; lia|].
    change (hd_addr (c :: l) base) with c.1 in *. apply Forall_cons in Hp as [Hc Hp].
    apply Forall_cons in Ho as [Hoc _]. destruct Hg as (Hg1 & Hg2 & Hg3).
    destruct (absorb a n c l) as (m' & E1 & E2 & E3 & E4); [done|lia|done|done|done|done|done| |done| |].
    { cbn [gaps]. split_and!; [lia|lia|done]. }
    { unfold HDR in *. lia. }
    exists m', (n + c.2), l. do 5 (split; [done || lia|]). split_and!; [| |by exists [c]].
    + cbn [units foldr snd]. fold (units l). lia.
    + intros x Hx Hd. apply Forall_cons in Hd as [D1 Hd]. apply Forall_cons in Hd as [D2 Hd].
      apply Forall_cons. split; [|done]. unfold disj, fin, HDR in *. cbn [fst snd] in *. lia.
  - rewrite (set_ptr_Ok s Htop _ Hh).
    exists (put_word a (hd_addr l base) (umem s)), n, l. split; [done|]. split; [apply same_but_put|].
    destruct (new_header a n l (umem s) (put_word a (hd_addr l base) (umem s))) as [L G];
      [lia|apply same_but_put| |by rewrite word_put_ne by lia|done|done|done|].
    + apply word_put_eq. apply (hd_range (fin (a, n))); [|done]. unfold fin, HDR in *; cbn in *; lia.
    + do 4 (split; [done || lia|]). split; [by intros x _|by exists []].
Qed.

Lemma join_prev_ok p q l : p = root \/ lo <= p.1 /\ 1 <= p.2 -> lo <= q.1 -> 1 <= q.2 -> fin p <= q.1 ->
  word (umem s) (p.1 + 4) = p.2 -> links (umem s) (q :: l) base -> gaps q.1 (q :: l) (brk s) ->
  exists m' n rest, join_prev base lo p.1 q.1 s = Ok tt (set_umem m' s) /\ same_but p.1 (umem s) m'
    /\ links m' ((p.1, n) :: rest) base /\ gaps p.1 ((p.1, n) :: rest) (brk s) /\ p.2 <= n
    /\ units ((p.1, n) :: rest) = p.2 + units (q :: l) /\ keeps_away (p :: q :: l) ((p.1, n) :: rest)
    /\ (exists l0, q :: l = l0 ++ rest) /\ (p = root -> n = 0)
    /\ (exists c, c ∈ (p.1, n) :: rest /\ q.2 <= c.2).
Proof.
  intros Hp Hlo Hq Hfin Hsz Hl Hg. destruct p as [a n]. cbn [fst snd] in *.
  pose proof Hg as (_ & _ & Hcl%gaps_le).
  assert (Hn : 0 <= n) by (destruct Hp as [[=]|]; lia).
  assert (Hoff : a + HDR <= q.1) by (destruct Hp as [[=]|]; unfold fin, HDR in *; cbn in *; lia).
  assert (Hh : is_hdr s a).
  { destruct Hp as [[=]|]; [left|right]; unfold fin, HDR in *; cbn in *; lia. }
  assert (Hu : u32 (a + HDR * n) = fin (a, n)).
  { apply u32_small. destruct Hp as [[=]|]; unfold fin, HDR, KERNBASE in *; cbn in *; lia. }
  unfold join_prev. rewrite (bind_Ok _ _ _ _ _ (size_Ok s Htop _ Hh)), Hsz, Hu.
  destruct (Z.eqb_spec (fin (a, n)) q.1) as [E|E].
  - destruct (absorb a n q l) as (m' & E1 & E2 & E3 & E4); [done..|].
    exists m', (n + q.2), l. do 5 (split; [done || lia|]). split_and!; [| |by exists [q]| |].
    + cbn [units foldr snd]. fold (units l). lia.
    + intros x Hx Hd. apply Forall_cons in Hd as [D1 Hd]. apply Forall_cons in Hd as [D2 Hd].
      apply Forall_cons. split; [|done]. unfold disj, fin, HDR in *. cbn [fst snd] in *. lia.
    + intros [=]. unfold fin, HDR in *; cbn in *; lia.
    + exists (a, n + q.2). split; [constructor|cbn; lia].
  - rewrite (set_ptr_Ok s Htop _ Hh).
    exists (put_word a q.1 (umem s)), n, (q :: l). split; [done|]. split; [apply same_but_put|].
    destruct (new_header a n (q :: l) (umem s) (put_word a q.1 (umem s))) as [L G];
      [lia|apply same_but_put| |by rewrite word_put_ne by lia| |done| |].
    + apply (word_put_eq a q.1). clear -Hbase Hlo Hq Hcl Htop. unfold fin, HDR, KERNBASE in *; lia.
    + apply Forall_forall. intros d Hd. destruct (gaps_in _ _ _ _ Hg Hd). unfold HDR in *. lia.
    + eapply gaps_weaken; [exact Hg|done|lia].
    + do 4 (split; [done || lia|]). split_and!; [by intros x _|by exists []|by intros [=]|].
      exists q. split; [do 2 constructor|lia].
Qed.
End join.

(** The part of the ring before a block is [base] and blocks of the heap. *)
Lemma ring_cases bs l1 (p : block) l2 : root :: bs = l1 ++ p :: l2 ->
  l1 = [] /\ p = root /\ bs = l2 \/ exists l1', l1 = root :: l1' /\ bs = l1' ++ p :: l2.
Proof.
  destruct l1 as [|c l1]; intros E; injection E as E1 E2; [by left|]. right. exists l1. by subst c.
Qed.

Lemma ring_rest bs l1 (p : block) l2 c : root :: bs = l1 ++ p :: l2 -> c ∈ l2 -> c ∈ bs.
Proof.
  intros E Hc. destruct (ring_cases _ _ _ _ E) as [(_ & _ & ->)|(l1' & _ & ->)]; [done|].
  apply elem_of_app. right. by constructor.
Qed.

(** The blocks around the place of [b]. *)
Lemma place_around s bs b l1 p l2 : root :: bs = l1 ++ p :: l2 -> p.1 < b.1 -> Forall (fun c => b.1 < c.1) l2 ->
  gaps lo bs (brk s) -> Forall (fun b => 1 <= b.2) bs -> lo <= b.1 -> 1 <= b.2 -> fin b <= brk s -> Forall (disj b) bs ->
  (p = root \/ lo <= p.1 /\ 1 <= p.2) /\ fin p <= b.1 /\ gaps (fin b) l2 (brk s)
  /\ Forall (fun c => 1 <= c.2) l2 /\ p ∈ root :: bs.
Proof.
  intros E Hpb H2 Hg Hp Hlo Hb Hfin Hd.
  assert (Hin : p ∈ root :: bs) by (rewrite E; apply elem_of_app; right; constructor).
  assert (G2 : gaps (fin p) l2 (brk s)).
  { pose proof (ring_gaps s bs Hg) as G. rewrite E, gaps_app in G. by destruct G as (? & _ & _ & _ & G). }
  assert (Hsub : forall c, c ∈ l2 -> c ∈ bs).
  { intros c. by apply (ring_rest _ _ _ _ _ E). }
  rewrite Forall_forall in Hp, Hd, H2. split_and!; [| | | |done].
  - apply elem_of_cons in Hin as [->|Hin]; [by left|right]. split; [|by apply Hp].
    by destruct (gaps_in _ _ _ _ Hg Hin).
  - apply elem_of_cons in Hin as [->|Hin]; [unfold fin, HDR in *; cbn; lia|].
    specialize (Hd p Hin). unfold disj, fin, HDR in *. specialize (Hp p Hin). lia.
  - destruct l2 as [|c l2]; [done|]. assert (Hc : c ∈ c :: l2) by constructor.
    specialize (Hd c (Hsub _ Hc)). specialize (H2 c Hc). specialize (Hp c (Hsub _ Hc)).
    cbn [gaps] in *. destruct G2 as (? & ? & ?). split_and!; [unfold disj, fin, HDR in *; lia|done|done].
  - apply Forall_forall. intros c Hc. apply Hp. by apply Hsub.
Qed.

(** What [free] finds around the block, and leaves. *)
Lemma free_ring s bs b : links (umem s) (root :: bs) base -> gaps lo bs (brk s) ->
  Forall (fun b => 1 <= b.2) bs -> brk s <= KERNBASE -> freep s ∈ base :: map fst bs ->
  live_ok s bs b ->
  exists l1 p l2 m1 m2 n rest, root :: bs = l1 ++ p :: l2 /\ fin p <= b.1
    /\ free base lo (b.1 + HDR) s = Ok tt (set_freep p.1 (set_umem m2 s))
    /\ same_but b.1 (umem s) m1 /\ same_but p.1 m1 m2
    /\ links m2 ((p.1, n) :: rest) base /\ gaps p.1 ((p.1, n) :: rest) (brk s)
    /\ p.2 <= n /\ units ((p.1, n) :: rest) = p.2 + b.2 + units l2
    /\ keeps_away (p :: b :: l2) ((p.1, n) :: rest)
    /\ (forall c, c ∈ rest -> c.1 = b.1 /\ 1 <= c.2 \/ c ∈ l2) /\ (length rest <= S (length l2))%nat /\ (p = root -> n = 0)
    /\ (exists c, c ∈ (p.1, n) :: rest /\ b.2 <= c.2).
Proof.
  intros Hr Hg Hp Ht Hf [Hlo Hb Hfin Hsz Hd].
  destruct (find_place_ok s bs b) as (l1 & p & l2 & E & Hpb & H2 & Efind); try done.
  pose proof Hr as Hr2. rewrite E, links_app in Hr2. destruct Hr2 as [_ (Rp & Rsz & R2)].
  destruct (place_around s bs b l1 p l2) as (Hpr & Hpf & Hg2 & Hp2 & Hin); try done.
  destruct (join_next_ok s Ht b l2) as (m1 & n1 & rest1 & J1 & S1 & L1 & G1 & N1 & U1 & K1 & [l0 E0]); try done.
  set (s1 := set_umem m1 s) in *.
  destruct (join_prev_ok s1 Ht p (b.1, n1) rest1) as (m2 & n & rest & J2 & S2 & L2 & G3 & N2 & U2 & K2 & [l3 E3] & Z2 & (c & C1 & C2)); try done.
  { cbn. lia. }
  { cbn [umem s1 set_umem]. rewrite (same_but_word b.1 (umem s)); [done|done|].
    destruct Hpr as [->|]; unfold fin, HDR in *; cbn in *; lia. }
  exists l1, p, l2, m1, m2, n, rest. split; [done|]. split; [done|]. split.
  { unfold free. replace (u32 (b.1 + HDR - HDR)) with b.1
      by (rewrite u32_small; unfold fin, HDR, KERNBASE in *; lia). cbv zeta.
    rewrite (bind_Ok _ _ _ _ _ Efind), (bind_Ok _ _ _ _ _ (ptr_Ok s Ht p.1 (ring_hdr s bs p Hg Hp Hin))), Rp.
    by rewrite (bind_Ok _ _ _ _ _ J1), (bind_Ok _ _ _ _ _ J2). }
  do 4 (split; [done|]). split; [done|]. split_and!.
  - rewrite U2, U1. lia.
  - intros x Hx [D1 [D2 D3]%Forall_cons]%Forall_cons. apply K2; [done|]. apply Forall_cons.
    split; [done|]. apply K1; [done|]. by apply Forall_cons.
  - intros d Hd'. assert (Hd2 : d ∈ (b.1, n1) :: rest1) by (rewrite E3; apply elem_of_app; by right).
    apply elem_of_cons in Hd2 as [->|Hd2]; [left; cbn; lia|]. right. rewrite E0. apply elem_of_app. by right.
  - apply (f_equal length) in E0, E3. rewrite length_app in E0, E3. cbn [length] in E3. lia.
  - done.
  - exists c. split; [done|]. cbn in C2. lia.
Qed.

Lemma live_out s bs x a c : live_ok s bs x -> c ∈ root :: bs -> 1 <= c.2 \/ c = root -> a = c.1 ->
  x.1 + HDR <= a /\ fin x <= a \/ a + HDR <= x.1.
Proof.
  intros [X1 X2 X3 X4 X5] Hc Hpos ->. apply elem_of_cons in Hc as [->|Hc]; [right; unfold HDR in *; cbn; lia|].
  rewrite Forall_forall in X5. specialize (X5 c Hc). assert (1 <= c.2 \/ c.1 = base) by (destruct Hpos as [| ->]; [by left|by right]).
  unfold disj, fin, HDR in *. lia.
Qed.

(** The data of the block [x] and its header are kept by writes to other headers. *)
Lemma kept m m' a (x : block) : 1 <= x.2 -> same_but a m m' -> fin x <= a \/ a + HDR <= x.1 ->
  same_data m m' x /\ word m' (x.1 + 4) = word m (x.1 + 4).
Proof.
  intros Hx Hs Ha. split; [intros w Hw; apply Hs|apply (same_but_word a); [done|]]; unfold fin, HDR in *; lia.
Qed.
Lemma same_data_trans m1 m2 m3 b : same_data m1 m2 b -> same_data m2 m3 b -> same_data m1 m3 b.
Proof. intros H1 H2 a Ha. by rewrite H2, H1. Qed.

Lemma ring_before s bs l1 (p : block) l2 c : gaps lo bs (brk s) -> Forall (fun b => 1 <= b.2) bs ->
  root :: bs = l1 ++ p :: l2 -> c ∈ l1 -> c.1 + HDR <= p.1.
Proof.
  intros Hg Hp E Hc. destruct (ring_cases _ _ _ _ E) as [(-> & _)|(l1' & -> & ->)]; [by apply elem_of_nil in Hc|].
  assert (Hin : p ∈ l1' ++ p :: l2) by (apply elem_of_app; right; constructor).
  destruct (gaps_in _ _ _ _ Hg Hin) as [Hlo _]. apply elem_of_cons in Hc as [->|Hc]; [unfold HDR in *; cbn; lia|].
  apply gaps_app in Hg as (mid & G1 & G2 & _). destruct (gaps_in _ _ _ _ G1 Hc) as (? & ? & ?).
  rewrite Forall_forall in Hp. specialize (Hp c). rewrite elem_of_app in Hp. specialize (Hp (or_introl Hc)).
  unfold fin, HDR in *. lia.
Qed.

(** The block [p] of the ring and those after it are replaced. *)
Lemma ring_replace s bs l1 p l2 n rest : gaps lo bs (brk s) -> Forall (fun b => 1 <= b.2) bs ->
  root :: bs = l1 ++ p :: l2 -> (1 <= p.2 -> 1 <= n) -> (p = root -> n = 0) -> gaps p.1 ((p.1, n) :: rest) (brk s) ->
  Forall (fun c => 1 <= c.2) rest -> Forall (fun c => lo <= c.1) rest ->
  exists bs', root :: bs' = l1 ++ (p.1, n) :: rest /\ gaps lo bs' (brk s) /\ Forall (fun b => 1 <= b.2) bs'
    /\ p.1 ∈ base :: map fst bs' /\ (forall c, c ∈ bs' -> c ∈ rest \/ c.1 ∈ map fst bs)
    /\ (1 <= p.2 \/ p = root).
Proof.
  intros Hg Hp E N Z (_ & _ & G) Hr Hlo. destruct (ring_cases _ _ _ _ E) as [(-> & -> & ->)|(l1' & -> & ->)].
  - exists rest. rewrite Z in * by done. split_and!; [done| |done|constructor|tauto|by right].
    destruct rest as [|c rest]; [cbn in *; pose proof (gaps_le _ _ _ Hg); lia|].
    apply Forall_cons in Hlo as [? _]. cbn [gaps] in *. destruct G as (? & ? & ?). split_and!; [lia|done|done].
  - exists (l1' ++ (p.1, n) :: rest).
    apply gaps_app in Hg as (mid & G1 & G2 & G3 & _). rewrite !Forall_app, !Forall_cons in *. destruct Hp as (P1 & P2 & _).
    split_and!; [done| |done|by apply N|done| | |by left].
    + apply gaps_app. exists mid. split; [done|]. cbn [gaps fst snd]. specialize (N P2). split_and!; [done|lia|done].
    + rewrite map_app. cbn. set_solver.
    + intros c. rewrite elem_of_app, elem_of_cons, map_app, elem_of_app. cbn.
      intros [Hc|[->|Hc]]; [right; left; by apply (list_elem_of_fmap_2 fst)|right; right; cbn; constructor|by left].
Qed.

(** A block of the program is as it was when two headers have been written. *)
Lemma live_after s bs bs' b p l1 l2 n rest m1 m2 f x : root :: bs = l1 ++ p :: l2 -> root :: bs' = l1 ++ (p.1, n) :: rest ->
  1 <= p.2 \/ p = root -> same_but b.1 (umem s) m1 -> same_but p.1 m1 m2 -> keeps_away (p :: b :: l2) ((p.1, n) :: rest) ->
  1 <= b.2 -> live_ok s bs x -> disj b x ->
  live_ok (set_freep f (set_umem m2 s)) bs' x /\ same_data (umem s) m2 x.
Proof.
  intros E E' Hppos S1 S2 K Hb Hl Hsb.
  assert (Hpin : p ∈ root :: bs) by (rewrite E; apply elem_of_app; right; constructor).
  pose proof Hl as [X1 X2 X3 X4 X5].
  destruct (kept (umem s) m1 b.1 x) as [D1 W1]; [done|done|unfold disj, fin, HDR in *; lia|].
  destruct (kept m1 m2 p.1 x) as [D2 W2]; [done|done|by destruct (live_out s bs x p.1 p) as [[]|]; auto|].
  split; [|by eapply same_data_trans]. split; [done|done|done|cbn; by rewrite W2, W1|].
  assert (D : Forall (disj x) (root :: bs)).
  { apply Forall_cons. split; [|done]. right. unfold fin, HDR in *. cbn. lia. }
  assert (Forall (disj x) (root :: bs')) as [_ ?]%Forall_cons; [|done].
  rewrite E'. rewrite E in D. apply Forall_app in D as [D3 [D4 D5]%Forall_cons].
  apply Forall_app. split; [done|]. apply K; [done|]. rewrite !Forall_cons. split_and!; [done|by apply disj_sym|done].
Qed.

Lemma free_ok s bs b live : heap s bs (b :: live) ->
  exists s' bs', free base lo (b.1 + HDR) s = Ok tt s' /\ heap s' bs' live /\ brk s' = brk s
    /\ Forall (same_data (umem s) (umem s')) live /\ (exists c, c ∈ bs' /\ b.2 <= c.2)
    /\ (length bs' <= S (length bs))%nat.
Proof.
  intros [Hr Hg Hp Hf Ht [Hb Hl]%Forall_cons [Hsb Hsl] Hsum Hal].
  destruct (free_ring s bs b) as (l1 & p & l2 & m1 & m2 & n & rest & E & Hpf & Ef & S1 & S2 & L & G & N & U & K & R & RL & Z & (c & C1 & C2)); try done.
  pose proof Hb as [B1 B2 B3 B4 B5].
  assert (Hrest : Forall (fun c => 1 <= c.2 /\ lo <= c.1) rest).
  { apply Forall_forall. intros d Hd. destruct (R d Hd) as [[-> ?]|Hd2]; [done|].
    pose proof (ring_rest _ _ _ _ _ E Hd2) as Hin.
    rewrite Forall_forall in Hp. split; [by apply Hp|]. by destruct (gaps_in _ _ _ _ Hg Hin). }
  apply Forall_and in Hrest as [R1 R2].
  destruct (ring_replace s bs l1 p l2 n rest) as (bs' & E' & G' & P' & F' & A' & Hppos); try done.
  { lia. }
  assert (Hpin : p ∈ root :: bs) by (rewrite E; apply elem_of_app; right; constructor).
  assert (Hx : Forall (fun x => live_ok (set_freep p.1 (set_umem m2 s)) bs' x /\ same_data (umem s) m2 x) live).
  { apply Forall_forall. intros x Hx. rewrite Forall_forall in Hl, Hsb.
    apply (live_after s bs bs' b p l1 l2 n rest m1); auto. }
  apply Forall_and in Hx as [Hx1 Hx2].
  exists (set_freep p.1 (set_umem m2 s)), bs'. split; [done|]. split; [|split_and!; [done|done| |]].
  - split; [|done|done|done|done|done|done| |].
    + rewrite E', links_app. split; [|done]. rewrite E, links_app in Hr. destruct Hr as [Hr _].
      apply (same_but_links p.1 m1); [done| |apply (same_but_links b.1 (umem s)); [done| |done]];
        apply Forall_forall; intros d Hd; pose proof (ring_before s bs l1 p l2 d Hg Hp E Hd); [lia|].
      unfold fin, HDR in *. destruct Hppos as [| ->]; [lia|cbn in *; lia].
    + assert (HU : units (root :: bs') + 0 = units (root :: bs) + b.2).
      { rewrite E, E', !units_app, U. cbn [units foldr]. fold (units l2). lia. }
      cbn [units foldr snd] in HU, Hsum. fold (units bs') (units bs) (units live) in HU, Hsum. cbn [brk set_freep set_umem]. lia.
    + apply Forall_app in Hal as [A1 [A2 A3]%Forall_cons]. apply Forall_app. split; [|done].
      rewrite Forall_forall in A1. apply Forall_forall. intros d Hd.
      assert (Hin : d.1 = b.1 \/ exists d', d' ∈ bs /\ d.1 = d'.1).
      { destruct (A' d Hd) as [Hd2|(d' & -> & ?)%list_elem_of_fmap]; [|right; by exists d'].
        destruct (R d Hd2) as [[? _]|Hd3]; [by left|]. right. exists d. split; [|done].
        by apply (ring_rest _ _ _ _ _ E). }
      destruct Hin as [->|(d' & ? & ->)]; [done|by apply A1].
  - exists c. split; [|done].
    assert (Hin : c ∈ root :: bs') by (rewrite E'; apply elem_of_app; by right).
    apply elem_of_cons in Hin as [->|]; [cbn in C2; lia|done].
  - apply (f_equal length) in E, E'. rewrite length_app in E, E'. cbn [length] in E, E'. lia.
Qed.

(** ** [malloc] *)

Context (grant : Z -> Z -> bool).

(** *** Taking a block *)

Lemma gaps_disj e l1 c l2 top : gaps e (l1 ++ c :: l2) top -> Forall (disj c) (l1 ++ l2).
Proof.
  intros (mid & G1 & G2 & _ & G3)%gaps_app. apply Forall_app. split; apply Forall_forall; intros x Hx.
  - destruct (gaps_in _ _ _ _ G1 Hx) as (? & ? & ?). right. lia.
  - destruct (gaps_in _ _ _ _ G3 Hx) as (? & _). by left.
Qed.
Lemma disj_inside (x c q : block) : disj x c -> c.1 <= q.1 -> fin q <= fin c -> disj x q.
Proof. unfold disj. lia. Qed.
Lemma ring_addr (x : block) bs : x ∈ root :: bs -> x.1 ∈ base :: map fst bs.
Proof. apply (list_elem_of_fmap_2 fst (root :: bs)). Qed.

(** The block [q], a part of the free block [c], goes to the program. *)
Lemma take_block s bs live bs' c q m' f : heap s bs live -> c ∈ bs -> c.1 <= q.1 -> fin q <= fin c -> 1 <= q.2 ->
  links m' (root :: bs') base -> gaps lo bs' (brk s) -> Forall (fun b => 1 <= b.2) bs' -> f ∈ base :: map fst bs' ->
  word m' (q.1 + 4) = q.2 -> Forall (disj q) bs' -> (forall x, lo <= x.1 -> Forall (disj x) bs -> Forall (disj x) bs') ->
  (forall x, x ∈ live -> same_data (umem s) m' x /\ word m' (x.1 + 4) = word (umem s) (x.1 + 4)) ->
  units bs' + q.2 = units bs -> (forall d, d ∈ bs' -> d.1 ∈ map fst bs) -> (q.1 - c.1) mod HDR = 0 ->
  heap (set_freep f (set_umem m' s)) bs' (q :: live) /\ Forall (same_data (umem s) m') live.
Proof.
  intros [Hr Hg Hp Hf Ht Hl Hs Hsum Hal] Hc Hqc Hqf Hq Hr' Hg' Hp' Hf' Hw Hd HD Hk Hu Ha Hqa.
  destruct (gaps_in _ _ _ _ Hg Hc) as (C1 & C2 & C3).
  split; [|apply Forall_forall; intros x Hx; by apply Hk].
  apply Forall_app in Hal as [A1 A2]. rewrite Forall_forall in A1, Hl.
  split; [done|done|done|done|done| | | |].
  - apply Forall_cons. split; [split; cbn; [lia|done|lia|done|done]|]. apply Forall_forall. intros x Hx.
    destruct (Hl x Hx) as [X1 X2 X3 X4 X5]. destruct (Hk x Hx) as [_ Hk2].
    split; [done|done|done|cbn; by rewrite Hk2|by apply HD].
  - split; [|done]. apply Forall_forall. intros x Hx. destruct (Hl x Hx) as [X1 X2 X3 X4 X5]. apply disj_sym.
    rewrite Forall_forall in X5. by apply (disj_inside x c q); [apply X5| |].
  - cbn [units foldr brk set_freep set_umem]. fold (units live). lia.
  - apply Forall_app. split; [|apply Forall_cons; split; [|done]].
    + apply Forall_forall. intros d Hd'. specialize (Ha d Hd').
      apply list_elem_of_fmap in Ha as (d' & Ed & Hd2). rewrite Ed. by apply A1.
    + specialize (A1 c Hc). unfold HDR in *. cbn in A1. lia.
Qed.

Section take.
Context (s : hst) (bs live : list block) (Hheap : heap s bs live).
Context (r1 : list block) (pr c : block) (r2 : list block) (E : root :: bs = r1 ++ pr :: c :: r2).

Lemma take_in : c ∈ bs /\ root :: bs = (r1 ++ [pr]) ++ c :: r2 /\ pr ∈ root :: bs /\ 1 <= c.2 /\ lo <= c.1
  /\ fin c <= brk s /\ (1 <= pr.2 \/ pr = root) /\ pr.1 + HDR <= c.1.
Proof.
  destruct Hheap as [Hr Hg Hp Hf Ht Hl Hs Hsum Hal].
  assert (E2 : root :: bs = (r1 ++ [pr]) ++ c :: r2) by (by rewrite <-app_assoc).
  assert (Hc : c ∈ bs) by (apply (ring_rest _ _ _ _ _ E); constructor).
  assert (Hpr : pr ∈ root :: bs) by (rewrite E; apply elem_of_app; right; constructor).
  destruct (gaps_in _ _ _ _ Hg Hc) as (? & ? & ?). pose proof Hp as Hp'. rewrite Forall_forall in Hp'.
  split_and!; [done|done|done|by apply Hp'|done|done| |].
  - apply elem_of_cons in Hpr as [->|]; [by right|left; by apply Hp'].
  - apply (ring_before s bs (r1 ++ [pr]) c r2); [done|done|done|]. apply elem_of_app. right. constructor.
Qed.

Lemma unlink : links (put_word pr.1 (hd_addr r2 base) (umem s)) (r1 ++ (pr.1, pr.2) :: r2) base.
Proof.
  destruct take_in as (Hc & E2 & Hpr & Hc2 & Hlo & Hfin & Hpos & Hoff).
  pose proof Hheap as [Hr Hg Hp Hf Ht Hl Hs Hsum Hal].
  pose proof (ring_gaps s bs Hg) as G. rewrite E2, gaps_app in G. destruct G as (mid & G1 & G2 & G3 & G4).
  assert (Hsame : same_but pr.1 (umem s) (put_word pr.1 (hd_addr r2 base) (umem s))) by apply same_but_put.
  rewrite E, links_app in Hr. destruct Hr as [Hr1 (Hr2 & Hr3 & Hr4 & Hr5 & Hr6)].
  apply links_app. split; [|cbn [links fst snd]; split_and!].
  - apply (same_but_links pr.1 (umem s)); [done| |done]. apply Forall_forall. intros d Hd'. left.
    by apply (ring_before s bs r1 pr (c :: r2)).
  - apply word_put_eq. apply (hd_range s Ht (fin c)); [unfold fin, HDR in *; lia|done].
  - by rewrite word_put_ne by lia.
  - apply (same_but_links pr.1 (umem s)); [done| |done]. apply Forall_forall. intros d Hd'. right.
    destruct (gaps_in _ _ _ _ G4 Hd'). unfold fin, HDR in *. lia.
Qed.

(** The whole block is unlinked. *)
Lemma take_whole : exists s' bs', set_ptr base lo pr.1 (hd_addr r2 base) s = Ok tt s'
  /\ heap (set_freep pr.1 s') bs' (c :: live) /\ Forall (same_data (umem s) (umem s')) live /\ brk s' = brk s.
Proof.
  destruct take_in as (Hc & E2 & Hpr & Hc2 & Hlo & Hfin & Hpos & Hoff).
  pose proof Hheap as [Hr Hg Hp Hf Ht Hl Hs Hsum Hal].
  pose proof (ring_gaps s bs Hg) as G. rewrite E, gaps_app in G. destruct G as (mid & G1 & G2 & G3 & G4).
  pose proof G4 as (G5 & G6 & G7). set (m' := put_word pr.1 (hd_addr r2 base) (umem s)).
  assert (Hrest : Forall (fun x => 1 <= x.2 /\ lo <= x.1) r2).
  { apply Forall_forall. intros d Hd. assert (Hin : d ∈ bs) by (by apply (ring_rest _ _ _ _ _ E2)).
    rewrite Forall_forall in Hp. split; [by apply Hp|]. by destruct (gaps_in _ _ _ _ Hg Hin). }
  apply Forall_and in Hrest as [R1 R2].
  destruct (ring_replace s bs r1 pr (c :: r2) pr.2 r2) as (bs' & E' & G' & P' & F' & A' & _); try done.
  { by intros ->. }
  { cbn [gaps fst snd]. split_and!; [lia|done|]. eapply gaps_weaken; [exact G7| |lia]. unfold fin, HDR in *. cbn. lia. }
  assert (Hsub : forall d, d ∈ root :: bs' -> d ∈ root :: bs).
  { intros d. rewrite E, E', !elem_of_app, !elem_of_cons. destruct pr. cbn. tauto. }
  exists (set_umem m' s), bs'. split; [by rewrite (set_ptr_Ok s Ht _ (ring_hdr s bs pr Hg Hp Hpr))|].
  assert (H : heap (set_freep pr.1 (set_umem m' s)) bs' (c :: live) /\ Forall (same_data (umem s) m') live);
    [|by destruct H].
  assert (Hd : Forall (disj c) (root :: bs')).
  { rewrite E'. pose proof (ring_gaps s bs Hg) as G. rewrite E2 in G. apply gaps_disj in G.
    rewrite <-app_assoc in G. destruct pr. done. }
  assert (Hsame : same_but pr.1 (umem s) m') by apply same_but_put.
  apply (take_block s bs live bs' c c m' pr.1); [done|done|lia|lia|done| |done|done|done| | | | | | |].
  - rewrite E'. by apply unlink.
  - rewrite (same_but_word pr.1 (umem s)) by (done || (unfold HDR in *; lia)).
    rewrite E2, links_app in Hr. by destruct Hr as [_ (_ & ? & _)].
  - by apply Forall_cons in Hd as [_ ?].
  - intros x Hx HD. rewrite Forall_forall in HD. apply Forall_forall. intros d Hd'. apply HD.
    assert (Hin : d ∈ root :: bs) by (apply Hsub; by constructor). apply elem_of_cons in Hin as [->|]; [|done].
    destruct (gaps_in _ _ _ _ G' Hd') as [Hb _]. unfold HDR in *. cbn in Hb. lia.
  - intros x Hx. rewrite Forall_forall in Hl. destruct (Hl x Hx). apply (kept (umem s) m' pr.1); [done|done|].
    destruct (live_out s bs x pr.1 pr) as [[]|]; auto.
  - assert (HU : units (root :: bs) = units (root :: bs') + c.2).
    { rewrite E, E', !units_app. cbn [units foldr snd]. fold (units r2). lia. }
    cbn [units foldr snd] in HU. fold (units bs) (units bs') in HU. lia.
  - intros d Hd'. destruct (A' d Hd') as [H|]; [|done]. apply (list_elem_of_fmap_2 fst). by apply (ring_rest _ _ _ _ _ E2).
  - by rewrite Z.sub_diag.
Qed.

(** The tail of the block is cut off. *)
Section part.
Context (nu : Z) (Hnu : 1 <= nu < c.2).
Abbreviation q := (c.1 + HDR * (c.2 - nu), nu).
Abbreviation m' := (put_word (q.1 + 4) nu (put_word (c.1 + 4) (c.2 - nu) (umem s))).

Lemma cut_links : links m' ((r1 ++ [pr]) ++ (c.1, c.2 - nu) :: r2) base.
Proof.
  destruct take_in as (Hc & E2 & Hpr & Hc2 & Hlo & Hfin & Hpos & Hoff).
  pose proof Hheap as [Hr Hg Hp Hf Ht Hl Hs Hsum Hal].
  pose proof (ring_gaps s bs Hg) as G. rewrite E2, gaps_app in G. destruct G as (mid & G1 & G2 & G3 & G4).
  rewrite E2, links_app in Hr. destruct Hr as [Hr1 (Hr2 & Hr3 & Hr4)].
  assert (O1 : Forall (fun b => b.1 + HDR <= c.1) (r1 ++ [pr])).
  { apply Forall_forall. intros d Hd. by apply (ring_before s bs (r1 ++ [pr]) c r2). }
  assert (O2 : Forall (fun b => fin c <= b.1) r2).
  { apply Forall_forall. intros d Hd. by destruct (gaps_in _ _ _ _ G4 Hd). }
  assert (Hoffq : forall l, Forall (fun b => b.1 + HDR <= c.1) l \/ Forall (fun b => fin c <= b.1) l ->
            forall z, links (umem s) l z -> links m' l z).
  { intros l Ho z. apply links_frame. intros b Hb.
    assert (b.1 + HDR <= c.1 \/ fin c <= b.1).
    { destruct Ho as [Ho|Ho]; rewrite Forall_forall in Ho; [left|right]; by apply Ho. }
    unfold fin, HDR in *. cbn [fst snd]. by rewrite !word_put_ne by lia. }
  apply links_app. split; [by apply Hoffq; [left|]|]. cbn [links fst snd]. split_and!.
  - unfold HDR. by rewrite !word_put_ne by lia.
  - unfold HDR. rewrite word_put_ne by lia. apply word_put_eq. unfold fin, HDR, KERNBASE in *. lia.
  - by apply Hoffq; [right|].
Qed.

Lemma take_part : exists bs', (set_size base lo c.1 (c.2 - nu) ;; set_size base lo q.1 nu ;; mret q.1) s = Ok q.1 (set_umem m' s)
  /\ heap (set_freep pr.1 (set_umem m' s)) bs' (q :: live) /\ Forall (same_data (umem s) m') live.
Proof.
  destruct take_in as (Hc & E2 & Hpr & Hc2 & Hlo & Hfin & Hpos & Hoff).
  pose proof Hheap as [Hr Hg Hp Hf Ht Hl Hs Hsum Hal].
  pose proof (ring_gaps s bs Hg) as G. rewrite E2, gaps_app in G. destruct G as (mid & G1 & G2 & G3 & G4).
  assert (Hq : c.1 <= q.1 /\ fin q = fin c /\ (q.1 - c.1) mod HDR = 0 /\ fin (c.1, c.2 - nu) = q.1).
  { unfold fin, HDR. cbn [fst snd]. lia. }
  destruct Hq as (Q1 & Q2 & Q3 & Q4).
  assert (Hrest : Forall (fun x => 1 <= x.2 /\ lo <= x.1) r2).
  { apply Forall_forall. intros d Hd. assert (Hin : d ∈ bs) by (by apply (ring_rest _ _ _ _ _ E2)).
    rewrite Forall_forall in Hp. split; [by apply Hp|]. by destruct (gaps_in _ _ _ _ Hg Hin). }
  apply Forall_and in Hrest as [R1 R2].
  destruct (ring_replace s bs (r1 ++ [pr]) c r2 (c.2 - nu) r2) as (bs' & E' & G' & P' & F' & A' & _); try done.
  { lia. }
  { intros ->. cbn in *. lia. }
  { cbn [gaps fst snd]. split_and!; [lia|lia|]. eapply gaps_weaken; [exact G4| |lia]. unfold fin, HDR in *. cbn in *. lia. }
  exists bs'. split.
  { rewrite (bind_Ok _ _ _ _ _ (set_size_Ok s Ht c.1 ltac:(right; unfold fin, HDR in *; lia) _)).
    rewrite (bind_Ok _ _ _ _ _ (set_size_Ok (set_umem _ s) Ht q.1 ltac:(right; unfold fin, HDR in *; cbn in *; lia) _)).
    done. }
  assert (HK : forall x, Forall (disj x) (root :: bs) -> Forall (disj x) (root :: bs')).
  { intros x. rewrite E2, E', !Forall_app, !Forall_cons. intros ([D1 D1'] & D2 & D3).
    refine (conj (conj D1 D1') (conj _ D3)). apply (disj_inside x c); [done|cbn; lia|]. unfold fin, HDR in *. cbn in *. lia. }
  apply (take_block s bs live bs' c q m' pr.1); [exact Hheap|exact Hc|exact Q1|lia|cbn; lia| |exact G'|exact P'| | | | | | | |exact Q3].
  - rewrite E'. exact cut_links.
  - apply ring_addr. rewrite E'. apply elem_of_app. left. apply elem_of_app. right. constructor.
  - apply word_put_eq. unfold fin, HDR, KERNBASE in *. cbn in *. lia.
  - assert (D : Forall (disj q) (root :: bs')) by (rewrite E'; apply Forall_app; split; [|apply Forall_cons; split];
      [|right; lia|]; apply Forall_forall; intros d Hd;
      [pose proof (gaps_in _ _ _ _ G1 Hd); right|destruct (gaps_in _ _ _ _ G4 Hd); left]; lia).
    by apply Forall_cons in D as [_ ?].
  - intros x Hx HD. assert (D : Forall (disj x) (root :: bs')); [|by apply Forall_cons in D as [_ ?]].
    apply HK. apply Forall_cons. split; [|done]. right. unfold fin, HDR in *. cbn. lia.
  - intros x Hx. rewrite Forall_forall in Hl. destruct (Hl x Hx) as [X1 X2 X3 X4 X5]. rewrite Forall_forall in X5.
    specialize (X5 c Hc).
    destruct (kept (umem s) (put_word (c.1 + 4) (c.2 - nu) (umem s)) c.1 x) as [D1 W1]; [done|apply same_but_put| |].
    { unfold disj, fin, HDR in *. lia. }
    destruct (kept (put_word (c.1 + 4) (c.2 - nu) (umem s)) m' q.1 x) as [D2 W2]; [done|apply same_but_put| |].
    { unfold disj, fin, HDR in *. cbn in *. lia. }
    split; [by eapply same_data_trans|by rewrite W2, W1].
  - assert (HU : units (root :: bs) = units (root :: bs') + nu).
    { rewrite E2, E', !units_app. cbn [units foldr snd]. fold (units r2). lia. }
    cbn [units foldr snd] in HU. fold (units bs) (units bs') in HU. cbn [snd]. lia.
  - intros d Hd'. destruct (A' d Hd') as [H|]; [|done]. apply (list_elem_of_fmap_2 fst). by apply (ring_rest _ _ _ _ _ E2).
Qed.
End part.

Lemma round_fits nu : 1 <= nu <= c.2 -> exists s' bs' b, malloc_round base lo grant nu pr.1 c.1 s = Ok (inr (b.1 + HDR)) s'
  /\ heap s' bs' (b :: live) /\ b.2 = nu /\ brk s' = brk s /\ Forall (same_data (umem s) (umem s')) live.
Proof.
  intros Hnu. destruct take_in as (Hc & E2 & Hpr & Hc2 & Hlo & Hfin & Hpos & Hoff).
  pose proof Hheap as [Hr Hg Hp Hf Ht Hl Hs Hsum Hal].
  assert (Hh : is_hdr s c.1) by (right; unfold fin, HDR in *; lia).
  rewrite E2, links_app in Hr. destruct Hr as [_ (W1 & W2 & _)].
  unfold malloc_round. rewrite (bind_Ok _ _ _ _ _ (size_Ok s Ht _ Hh)), W2. replace (nu <=? c.2) with true by lia.
  destruct (Z.eqb_spec c.2 nu) as [En|En].
  - destruct take_whole as (s' & bs' & E1 & H1 & H2 & H3). exists (set_freep pr.1 s'), bs', c.
    split; [|done].
    assert (Eq : (n ← ptr base lo c.1; set_ptr base lo pr.1 n ;; mret c.1) s = Ok c.1 s').
    { by rewrite (bind_Ok _ _ _ _ _ (ptr_Ok s Ht _ Hh)), W1, (bind_Ok _ _ _ _ _ E1). }
    rewrite (bind_Ok _ _ _ _ _ Eq). cbn. by rewrite u32_small by (unfold fin, HDR, KERNBASE in *; lia).
  - destruct (take_part nu) as (bs' & E1 & H1 & H2); [lia|].
    eexists _, bs', _. split; [|split; [exact H1|done]].
    assert (Hu : u32 (c.1 + HDR * (c.2 - nu)) = c.1 + HDR * (c.2 - nu))
      by (apply u32_small; unfold fin, HDR, KERNBASE in *; lia).
    cbv zeta. rewrite Hu. cbn [fst] in E1. rewrite (bind_Ok _ _ _ _ _ E1). cbn.
    by rewrite u32_small by (unfold fin, HDR, KERNBASE in *; lia).
Qed.
End take.

(** *** The search *)

Lemma loop_done {S A B} fuel (body : A -> M S (A + B)) x b (t t' : S) :
  body x t = Ok (inr b) t' -> loop (Datatypes.S fuel) body x t = Ok b t'.
Proof. intros E. cbn [loop]. by rewrite (bind_Ok _ _ _ _ _ E). Qed.

Fixpoint last_addr (a : Z) (l : list block) : Z := match l with [] => a | b :: l => last_addr b.1 l end.
Lemma last_split (f : block) l : exists l' pr, f :: l = l' ++ [pr] /\ last_addr f.1 l = pr.1.
Proof.
  revert f. induction l as [|b l IH]; intros f; [by exists [], f|].
  destruct (IH b) as (l' & pr & E1 & E2). exists (f :: l'), pr. split; [by rewrite E1|done].
Qed.

(** The first block of a list that has [nu] units. *)
Lemma first_fit nu (l : list block) : Forall (fun x => x.2 < nu) l \/
  exists v1 c v2, l = v1 ++ c :: v2 /\ Forall (fun x => x.2 < nu) v1 /\ nu <= c.2.
Proof.
  induction l as [|b l IH]; [by left|]. destruct (Z_lt_ge_dec b.2 nu) as [Hb|Hb]; [|right; exists [], b, l; split_and!; [done|done|lia]].
  destruct IH as [?|(v1 & c & v2 & -> & ? & ?)]; [left; by constructor|right].
  exists (b :: v1), c, v2. split_and!; [done|by constructor|done].
Qed.

Section search.
Context (s : hst) (bs live : list block) (Hheap : heap s bs live) (nu : Z) (Hnu : 1 <= nu).
Abbreviation mr := (fun '(prevp, p) => malloc_round base lo grant nu prevp p).

Lemma round_small prev l0 b l : root :: bs = l0 ++ b :: l -> b.2 < nu -> b.1 <> freep s ->
  malloc_round base lo grant nu prev b.1 s = Ok (inl (b.1, hd_addr l base)) s.
Proof.
  intros E Hb Hf. destruct Hheap as [Hr Hg Hp _ Ht _ _ _ _].
  assert (Hin : b ∈ root :: bs) by (rewrite E; apply elem_of_app; right; constructor).
  pose proof (ring_hdr s bs b Hg Hp Hin) as Hh. rewrite E, links_app in Hr. destruct Hr as [_ (W1 & W2 & _)].
  unfold malloc_round. rewrite (bind_Ok _ _ _ _ _ (size_Ok s Ht _ Hh)), W2. replace (nu <=? b.2) with false by lia.
  cbn [gets]. unfold gets. rewrite (bind_Ok _ _ _ (freep s) s) by done. replace (b.1 =? freep s) with false by lia.
  by rewrite (bind_Ok _ _ _ _ _ (ptr_Ok s Ht _ Hh)), W1.
Qed.

Lemma skip_small l l0 l3 prev fuel : root :: bs = l0 ++ l ++ l3 -> Forall (fun x => x.2 < nu /\ x.1 <> freep s) l ->
  loop (length l + fuel) mr (prev, hd_addr (l ++ l3) base) s = loop fuel mr (last_addr prev l, hd_addr l3 base) s.
Proof.
  revert l0 prev. induction l as [|b l IH]; intros l0 prev E H; [done|]. apply Forall_cons in H as [[H1 H2] H].
  rewrite <-app_comm_cons in *. cbn [length Nat.add hd_addr last_addr].
  rewrite (loop_step _ _ _ (b.1, hd_addr (l ++ l3) base)) by (by apply (round_small prev l0)).
  apply (IH (l0 ++ [b])); [by rewrite <-app_assoc|done].
Qed.

Context (f : block) (l1 l2 : list block) (Ef : root :: bs = l1 ++ f :: l2) (Hf : freep s = f.1).

Lemma not_freep x : x ∈ l1 \/ x ∈ l2 -> x.1 <> freep s.
Proof.
  destruct Hheap as [_ Hg Hp _ _ _ _ _ _]. rewrite Hf. intros [Hx|(v1 & v2 & Ev)%list_elem_of_split].
  - pose proof (ring_before s bs l1 f l2 x Hg Hp Ef Hx). unfold HDR in *. lia.
  - rewrite Ev in Ef. assert (E2 : root :: bs = (l1 ++ f :: v1) ++ x :: v2) by (by rewrite <-app_assoc).
    assert (H : f ∈ l1 ++ f :: v1) by (apply elem_of_app; right; constructor).
    pose proof (ring_before s bs _ x v2 f Hg Hp E2 H). unfold HDR in *. lia.
Qed.

Abbreviation found fuel st := (exists s' bs' b, loop fuel mr st s = Ok (b.1 + HDR) s'
    /\ heap s' bs' (b :: live) /\ b.2 = nu /\ brk s' = brk s /\ Forall (same_data (umem s) (umem s')) live).

(** The block is found before the search comes to [base] ... *)
Lemma found_after v1 c v2 fuel : l2 = v1 ++ c :: v2 -> Forall (fun x => x.2 < nu) v1 -> nu <= c.2 ->
  (length l2 <= fuel)%nat -> found fuel (freep s, hd_addr l2 base).
Proof.
  intros E2 S1 Hc Hfuel. destruct (last_split f v1) as (r1 & pr & E3 & E4).
  assert (E5 : root :: bs = (l1 ++ r1) ++ pr :: c :: v2).
  { rewrite Ef, E2. change (f :: v1 ++ c :: v2) with ((f :: v1) ++ c :: v2). by rewrite E3, <-!app_assoc. }
  destruct (round_fits s bs live Hheap (l1 ++ r1) pr c v2 E5 nu) as (s' & bs' & b & R1 & R2); [lia|].
  exists s', bs', b. split; [|done]. rewrite E2 in Hfuel |- *. rewrite length_app in Hfuel. cbn [length] in Hfuel.
  replace fuel with (length v1 + S (fuel - length v1 - 1))%nat by lia.
  rewrite (skip_small v1 (l1 ++ [f])), Hf, E4; [by apply loop_done|by rewrite Ef, E2, <-app_assoc|].
  apply Forall_forall. intros x Hx. rewrite Forall_forall in S1. split; [by apply S1|]. apply not_freep. right.
  rewrite E2. apply elem_of_app. by left.
Qed.

Lemma skip_l2 prev fuel : Forall (fun x => x.2 < nu) l2 ->
  loop (length l2 + fuel) mr (prev, hd_addr l2 base) s = loop fuel mr (last_addr prev l2, base) s.
Proof.
  intros S2. replace (hd_addr l2 base) with (hd_addr (l2 ++ []) base) by (by rewrite app_nil_r).
  rewrite (skip_small l2 (l1 ++ [f])); [done|by rewrite app_nil_r, <-app_assoc|].
  apply Forall_forall. intros x Hx. rewrite Forall_forall in S2. split; [by apply S2|]. apply not_freep. by right.
Qed.
Lemma skip_v1 v1 v2 prev fuel : root :: bs = v1 ++ v2 -> Forall (fun x => x.2 < nu) v1 -> (forall x, x ∈ v1 -> x ∈ l1) ->
  loop (length v1 + fuel) mr (prev, base) s = loop fuel mr (last_addr prev v1, hd_addr v2 base) s.
Proof.
  intros E S1 Hin. replace base with (hd_addr (v1 ++ v2) base) at 1 by (by rewrite <-E).
  apply (skip_small v1 []); [done|]. apply Forall_forall. intros x Hx. rewrite Forall_forall in S1.
  split; [by apply S1|]. apply not_freep. left. by apply Hin.
Qed.

(** ... or after. *)
Lemma found_before v1 c v2 fuel : root :: bs = v1 ++ c :: v2 -> Forall (fun x => x.2 < nu) v1 -> nu <= c.2 ->
  (forall x, x ∈ v1 -> x ∈ l1) -> Forall (fun x => x.2 < nu) l2 -> (length l2 + length v1 < fuel)%nat ->
  found fuel (freep s, hd_addr l2 base).
Proof.
  intros ER S1 Hc Hin S2 Hfuel. destruct v1 as [|x v1]; [injection ER as <- _; cbn in Hc; lia|].
  assert (x = root) as -> by (by injection ER). destruct (last_split root v1) as (r1 & pr & E3 & E4).
  assert (E5 : root :: bs = r1 ++ pr :: c :: v2) by (by rewrite ER, E3, <-app_assoc).
  destruct (round_fits s bs live Hheap r1 pr c v2 E5 nu) as (s' & bs' & b & R1 & R2); [lia|].
  exists s', bs', b. split; [|done].
  replace fuel with (length l2 + (length (root :: v1) + S (fuel - length l2 - length (root :: v1) - 1)))%nat by lia.
  rewrite skip_l2, (skip_v1 _ (c :: v2)) by done. cbn [last_addr hd_addr]. rewrite E4. by apply loop_done.
Qed.

Lemma search_fits fuel : (exists c, c ∈ bs /\ nu <= c.2) -> (length (root :: bs) <= fuel)%nat ->
  found fuel (freep s, hd_addr l2 base).
Proof.
  intros (c0 & Hc0 & Hfit) Hfuel. pose proof (f_equal length Ef) as EL. rewrite length_app in EL. cbn [length] in EL, Hfuel.
  destruct (first_fit nu l2) as [S2|(v1 & c & v2 & E2 & S1 & Hc)]; [|apply (found_after v1 c v2); [done|done|done|lia]].
  destruct (first_fit nu l1) as [S1|(v1 & c & v2 & E1 & S1 & Hc)].
  - apply (found_before l1 f l2); [done|done| |done|done|lia].
    destruct (Z_lt_ge_dec f.2 nu) as [Hlt|]; [exfalso|lia].
    assert (S : Forall (fun x => x.2 < nu) (root :: bs)) by (rewrite Ef; apply Forall_app; split; [done|by constructor]).
    rewrite Forall_forall in S. specialize (S c0 ltac:(by constructor)). cbn in S. lia.
  - assert (HL : length l1 = (length v1 + S (length v2))%nat) by (by rewrite E1, length_app).
    apply (found_before v1 c (v2 ++ f :: l2)); [by rewrite Ef, E1, <-app_assoc|done|done| |done|lia].
    intros x Hx. rewrite E1. apply elem_of_app. by left.
Qed.

(** When nothing fits, the search comes back to where it began. *)
Lemma search_none fuel : Forall (fun x => x.2 < nu) (root :: bs) ->
  exists prev, loop (length bs + fuel) mr (freep s, hd_addr l2 base) s = loop fuel mr (prev, freep s) s.
Proof.
  intros S. pose proof (f_equal length Ef) as EL. rewrite length_app in EL. cbn [length] in EL.
  rewrite Ef in S. apply Forall_app in S as [S1 [_ S2]%Forall_cons]. eexists.
  replace (length bs + fuel)%nat with (length l2 + (length l1 + fuel))%nat by lia.
  rewrite skip_l2, (skip_v1 l1 (f :: l2)) by done. cbn [hd_addr]. by rewrite Hf.
Qed.
End search.

(** *** More memory *)

(** The kernel gives no memory at or above [KERNBASE] ([allocuvm]). *)
Context (Hgrant : forall b n, grant b n = true -> b + n <= KERNBASE).

Lemma grow_heap s bs live nu : heap s bs live -> 1 <= nu -> brk s + HDR * nu <= KERNBASE ->
  heap (set_umem (put_word (brk s + 4) nu (umem s)) (set_brk (brk s + HDR * nu) s)) bs ((brk s, nu) :: live)
  /\ Forall (same_data (umem s) (put_word (brk s + 4) nu (umem s))) live.
Proof.
  intros [Hr Hg Hp Hf Ht Hl Hs Hsum Hal] Hnu Htop.
  assert (Hlob : lo <= brk s) by (by eapply gaps_le). assert (Hsame := same_but_put (brk s) nu (umem s)). destruct Hsame as [_ Hsame].
  assert (Hbs : Forall (fun b => fin b <= brk s) bs).
  { apply Forall_forall. intros b Hb. by destruct (gaps_in _ _ _ _ Hg Hb) as (? & ? & ?). }
  assert (Hk : Forall (fun x => same_data (umem s) (put_word (brk s + 4) nu (umem s)) x
                /\ word (put_word (brk s + 4) nu (umem s)) (x.1 + 4) = word (umem s) (x.1 + 4)) live).
  { eapply Forall_impl; [exact Hl|]. intros x [X1 X2 X3 X4 X5]. apply (kept _ _ (brk s)); [done|done|by left]. }
  split; [|by apply Forall_and in Hk as [? _]]. split; [| |done|done|done| | | |].
  - apply (same_but_links (brk s) (umem s)); [done| |done]. apply Forall_cons. split; [cbn; unfold HDR in *; lia|].
    eapply Forall_impl; [exact (proj2 (Forall_and _ _) (conj Hp Hbs))|].
    intros b [? ?]. left. unfold fin, HDR in *. lia.
  - eapply gaps_weaken; [exact Hg|lia|]. cbn. unfold HDR. lia.
  - apply Forall_cons. split.
    + split; cbn; [done|done|unfold fin; cbn; lia| |].
      * apply word_put_eq. unfold HDR, KERNBASE in *. lia.
      * eapply Forall_impl; [exact Hbs|]. intros b Hb. by right.
    + eapply Forall_impl; [exact (proj2 (Forall_and _ _) (conj Hl Hk))|].
      intros x [[X1 X2 X3 X4 X5] [_ K]]. split; [done|done|cbn; unfold HDR; lia|cbn; by rewrite K|done].
  - split; [|done]. eapply Forall_impl; [exact Hl|]. intros x [X1 X2 X3 X4 X5]. right. done.
  - cbn [units foldr snd]. fold (units live). cbn [brk set_umem set_brk]. lia.
  - apply Forall_app in Hal as [A1 A2]. apply Forall_app. split; [done|]. apply Forall_cons. split; [|done].
    cbn. rewrite <-Hsum, Z.mul_comm. apply Z.mod_mul. done.
Qed.

Definition chunk (nu : Z) : Z := HDR * Z.max 4096 nu.
Lemma morecore_eq nu s : 1 <= nu < 2 ^ 28 -> morecore base lo grant nu s =
  (p ← sbrk grant (chunk nu);
   if p =? SBRK_FAILED then mret 0
   else set_size base lo p (Z.max 4096 nu) ;; free base lo (p + HDR) ;; gets freep) s.
Proof.
  intros Hnu. unfold morecore, chunk. replace (if nu <? 4096 then 4096 else nu) with (Z.max 4096 nu) by (destruct (Z.ltb_spec nu 4096); lia).
  cbv zeta. replace (s32 (u32 (Z.max 4096 nu * HDR))) with (HDR * Z.max 4096 nu); [done|].
  unfold HDR. rewrite u32_small, s32_small by lia. lia.
Qed.

Lemma morecore_refused s nu : 1 <= nu < 2 ^ 28 -> grant (brk s) (chunk nu) = false -> morecore base lo grant nu s = Ok 0 s.
Proof.
  intros Hnu Hno. rewrite morecore_eq by done. unfold sbrk.
  replace (0 <? chunk nu) with true by (unfold chunk, HDR; lia).
  rewrite (bind_Ok _ _ _ SBRK_FAILED s); [done|]. by rewrite Hno.
Qed.

Lemma morecore_ok s bs live nu : heap s bs live -> 1 <= nu < 2 ^ 28 -> grant (brk s) (chunk nu) = true ->
  exists s' bs', morecore base lo grant nu s = Ok (freep s') s' /\ heap s' bs' live
    /\ Forall (same_data (umem s) (umem s')) live /\ (exists c, c ∈ bs' /\ nu <= c.2)
    /\ (length bs' <= S (length bs))%nat.
Proof.
  intros Hh Hnu Hyes. pose proof (Hgrant _ _ Hyes) as Hk. pose proof (gaps_le _ _ _ (hp_gaps _ _ _ Hh)) as Hlo.
  set (nu' := Z.max 4096 nu). destruct (grow_heap s bs live nu' Hh) as [H1 D1]; [lia|done|].
  destruct (free_ok _ bs (brk s, nu') live H1) as (s' & bs' & E1 & H2 & B & D2 & (c & C1 & C2) & L).
  exists s', bs'. split.
  - rewrite morecore_eq by done. rewrite (bind_Ok _ _ _ (brk s) (set_brk (brk s + HDR * nu') s)).
    2:{ unfold sbrk. replace (0 <? chunk nu) with true by (unfold chunk, HDR; lia). by rewrite Hyes. }
    replace (brk s =? SBRK_FAILED) with false by (unfold SBRK_FAILED, chunk, HDR, KERNBASE in *; lia).
    rewrite (bind_Ok _ _ _ _ _ (set_size_Ok (set_brk (brk s + HDR * nu') s) Hk (brk s)
      ltac:(right; cbn; unfold HDR in *; lia) nu')).
    cbn [fst] in E1. by rewrite (bind_Ok _ _ _ _ _ E1).
  - split; [done|]. split; [|split; [exists c; cbn in C2; split; [done|lia]|done]].
    eapply Forall_impl; [exact (proj2 (Forall_and _ _) (conj D1 D2))|].
    intros x [? ?]. by eapply same_data_trans.
Qed.

(** *** [malloc] as a whole *)

Lemma nunits_ok nbytes : 0 <= nbytes <= 2 ^ 31 - 16 -> 1 <= nunits nbytes < 2 ^ 28 /\ nbytes <= HDR * (nunits nbytes - 1).
Proof. intros H. unfold nunits, HDR. rewrite (u32_small (nbytes + 8 - 1)) by lia. rewrite u32_small by lia. lia. Qed.

Lemma ring_find s bs live : heap s bs live ->
  exists f l1 l2, root :: bs = l1 ++ f :: l2 /\ freep s = f.1 /\ freep s <> 0 /\ ptr base lo (freep s) s = Ok (hd_addr l2 base) s.
Proof.
  intros [Hr Hg Hp Hf Ht _ _ _ _]. change (base :: map fst bs) with (map fst (root :: bs)) in Hf.
  apply list_elem_of_fmap in Hf as (f & Ef & Hin). pose proof (ring_hdr s bs f Hg Hp Hin) as Hh.
  apply list_elem_of_split in Hin as (l1 & l2 & E). exists f, l1, l2. rewrite E, links_app in Hr.
  destruct Hr as [_ (W & _)]. rewrite Ef, (ptr_Ok s Ht _ Hh), W. split_and!; [done|done| |done].
  unfold is_hdr, HDR in *. lia.
Qed.
Lemma ring_fuel_enough s bs live : heap s bs live -> (length bs + 3 <= ring_fuel lo s)%nat.
Proof.
  intros [_ Hg Hp _ _ _ _ _ _]. pose proof (length_units _ Hp). pose proof (gaps_units _ _ _ Hg). unfold ring_fuel, HDR in *.
  pose proof (gaps_le _ _ _ Hg). lia.
Qed.

(** One turn of the ring that finds nothing asks for memory. *)
Lemma round_last s bs live nu prev : heap s bs live -> 1 <= nu -> Forall (fun x => x.2 < nu) (root :: bs) ->
  malloc_round base lo grant nu prev (freep s) s =
    (p ← morecore base lo grant nu; if p =? 0 then mret (inr 0) else n ← ptr base lo p; mret (inl (p, n))) s.
Proof.
  intros Hh Hnu Hall. destruct (ring_find s bs live Hh) as (f & l1 & l2 & E & Ef & _). destruct Hh as [Hr Hg Hp _ Ht _ _ _ _].
  assert (Hin : f ∈ root :: bs) by (rewrite E; apply elem_of_app; right; constructor).
  pose proof (ring_hdr s bs f Hg Hp Hin) as Hhd. rewrite Forall_forall in Hall. specialize (Hall f Hin). cbn in Hall.
  rewrite E, links_app in Hr. destruct Hr as [_ (_ & W & _)].
  unfold malloc_round. rewrite Ef, (bind_Ok _ _ _ _ _ (size_Ok s Ht _ Hhd)), W. replace (nu <=? f.2) with false by lia.
  rewrite (bind_Ok _ _ _ (freep s) s) by done. by replace (f.1 =? freep s) with true by lia.
Qed.

Lemma search_all s bs live nu : heap s bs live -> 1 <= nu < 2 ^ 28 ->
  exists r s' bs', (p ← ptr base lo (freep s); loop (2 * ring_fuel lo s) (fun '(prevp, p) => malloc_round base lo grant nu prevp p) (freep s, p)) s = Ok r s'
    /\ ((exists b, r = b.1 + HDR /\ heap s' bs' (b :: live) /\ b.2 = nu /\ Forall (same_data (umem s) (umem s')) live)
         \/ r = 0 /\ s' = s /\ bs' = bs /\ Forall (fun x => x.2 < nu) bs /\ grant (brk s) (chunk nu) = false).
Proof.
  intros Hh Hnu. pose proof (ring_fuel_enough _ _ _ Hh) as Hfuel.
  destruct (ring_find s bs live Hh) as (f & l1 & l2 & E & Ef & Hne & Ep). rewrite (bind_Ok _ _ _ _ _ Ep).
  destruct (first_fit nu bs) as [Hall|(v1 & c & v2 & Ec & _ & Hc)].
  2:{ destruct (search_fits s bs live Hh nu ltac:(lia) f l1 l2 E Ef (2 * ring_fuel lo s)) as (s' & bs' & b & R1 & R2 & R3 & R4 & R5).
      - exists c. split; [rewrite Ec; apply elem_of_app; right; constructor|done].
      - cbn [length]. lia.
      - exists (b.1 + HDR), s', bs'. split; [done|]. left. by exists b. }
  assert (Hall' : Forall (fun x : block => x.2 < nu) (root :: bs)) by (constructor; [cbn; lia|done]).
  destruct (search_none s bs live Hh nu f l1 l2 E Ef (S (2 * ring_fuel lo s - length bs - 1)) Hall') as [prev En].
  replace (length bs + S (2 * ring_fuel lo s - length bs - 1))%nat with (2 * ring_fuel lo s)%nat in En by lia. rewrite En.
  pose proof (round_last s bs live nu prev Hh ltac:(lia) Hall') as Er.
  destruct (grant (brk s) (chunk nu)) eqn:Hg.
  - destruct (morecore_ok s bs live nu Hh Hnu Hg) as (s1 & bs1 & E1 & H1 & D1 & Hfit & L).
    destruct (ring_find s1 bs1 live H1) as (f1 & k1 & k2 & Ek & Ef1 & Hne1 & Ep1).
    rewrite (bind_Ok _ _ _ _ _ E1) in Er. replace (freep s1 =? 0) with false in Er by lia.
    rewrite (bind_Ok _ _ _ _ _ Ep1) in Er.
    destruct (search_fits s1 bs1 live H1 nu ltac:(lia) f1 k1 k2 Ek Ef1 (2 * ring_fuel lo s - length bs - 1) Hfit) as (s' & bs' & b & R1 & R2 & R3 & R4 & R5); [cbn [length]; lia|].
    exists (b.1 + HDR), s', bs'. split.
    + cbn [loop]. by rewrite (bind_Ok _ _ _ _ _ Er).
    + left. exists b. split_and!; [done|done|done|].
      eapply Forall_impl; [exact (proj2 (Forall_and _ _) (conj D1 R5))|]. intros x [? ?]. by eapply same_data_trans.
  - rewrite (bind_Ok _ _ _ _ _ (morecore_refused s nu Hnu Hg)) in Er.
    exists 0, s, bs. split; [by apply loop_done|]. by right.
Qed.
End heap.
