(* ===== verification/Uallocator.v ===== *)
(** * Uallocator: what the allocator promises a program

    The contract of [malloc], [free], [calloc] and [realloc] of src/ulib/umalloc.c:
    a program sees a finite map from the pointers it holds to the bytes behind them.
    The allocator of Umalloc refines it: no access faults, no block that is handed
    out overlaps another one, and what the program stored stays. *)

From Stdlib Require Import ZArith Lia ZifyBool.
From stdpp Require Import base gmap strings numbers list.
From S2P Require Import Prelude Kalloc Vm Paging Umalloc Uheap.

Local Open Scope Z_scope.
#[local] Ltac Zify.zify_post_hook ::= Z.to_euclidean_division_equations.

(** ** The contract *)

Abbreviation contents := (gmap Z (list Z)).
Inductive request : Type :=
  | Malloc (n : Z) | Free (p : Z) | Calloc (nmemb sz : Z) | Realloc (p sz : Z) | Write (p i x : Z).

(** The bytes that a request asks for. *)
Definition wanted (r : request) : option Z :=
  match r with
  | Malloc n | Realloc _ n => Some n
  | Calloc nmemb sz => Some (nmemb * sz)
  | Free _ | Write _ _ _ => None
  end.
(** What a program may ask: blocks it holds, sizes below half of the address space
    (or, of [calloc], such that the product overflows). *)
Definition proper (σ : contents) (r : request) : Prop :=
  match r with
  | Malloc n => 0 <= n <= 2 ^ 31 - 16
  | Free p => is_Some (σ !! p)
  | Calloc nmemb sz => 0 <= nmemb < 2 ^ 32 /\ 0 <= sz < 2 ^ 32 /\ (nmemb * sz <= 2 ^ 31 - 16 \/ 2 ^ 32 <= nmemb * sz)
  | Realloc p sz => (p = 0 \/ is_Some (σ !! p)) /\ 0 <= sz <= 2 ^ 31 - 16
  | Write p i x => 0 <= x < 256 /\ exists d, σ !! p = Some d /\ 0 <= i < Z.of_nat (length d)
  end.

(** [fresh σ r n d]: at [r] there is a block of at least [n] bytes [d] that the
    program did not hold. *)
Definition fresh (σ : contents) (r n : Z) (d : list Z) : Prop :=
  r <> 0 /\ σ !! r = None /\ n <= Z.of_nat (length d).

(** [denied n]: the kernel has refused the memory for [n] bytes. *)
Inductive answers (denied : Z -> Prop) : request -> contents -> Z -> contents -> Prop :=
  | a_none r n σ : wanted r = Some n -> denied n -> answers denied r σ 0 σ
  | a_overflow nmemb sz σ : 2 ^ 32 <= nmemb * sz -> answers denied (Calloc nmemb sz) σ 0 σ
  | a_malloc n σ r d : fresh σ r n d -> answers denied (Malloc n) σ r (<[r := d]> σ)
  | a_calloc nmemb sz σ r d : fresh σ r (nmemb * sz) d ->
      take (Z.to_nat (nmemb * sz)) d = replicate (Z.to_nat (nmemb * sz)) 0 ->
      answers denied (Calloc nmemb sz) σ r (<[r := d]> σ)
  | a_free p σ : answers denied (Free p) σ 0 (delete p σ)
  | a_realloc_null sz σ r d : fresh σ r sz d -> answers denied (Realloc 0 sz) σ r (<[r := d]> σ)
  | a_realloc_zero p σ : p <> 0 -> answers denied (Realloc p 0) σ 0 (delete p σ)
  | a_realloc p sz σ r d d' : p <> 0 -> sz <> 0 -> σ !! p = Some d -> fresh σ r sz d' ->
      (forall i, 0 <= i < sz -> i < Z.of_nat (length d) -> d' !! Z.to_nat i = d !! Z.to_nat i) ->
      answers denied (Realloc p sz) σ r (<[r := d']> (delete p σ))
  | a_write p i x σ d : σ !! p = Some d -> answers denied (Write p i x) σ 0 (<[p := <[Z.to_nat i := x]> d]> σ).

Section allocator.
Context (base lo : Z) (grant : Z -> Z -> bool).
Context (Hbase : 0 < base /\ base + HDR <= lo).
Context (Hgrant : forall b n, grant b n = true -> b + n <= KERNBASE).
Abbreviation root := (base, 0).
Abbreviation heap := (heap base lo).

Definition serve (r : request) : M hst Z :=
  match r with
  | Malloc n => malloc base lo grant n
  | Free p => free base lo p ;; mret 0
  | Calloc nmemb sz => calloc base lo grant nmemb sz
  | Realloc p sz => realloc base lo grant p sz
  | Write p i x => store8 base lo (p + i) x ;; mret 0
  end.

(** ** What the program sees of the heap *)

Definition data (m : gmap Z Z) (b : block) : list Z := byte m <$> seqZ (b.1 + HDR) (HDR * (b.2 - 1)).
Definition view (m : gmap Z Z) (live : list block) : contents :=
  list_to_map ((fun b => (b.1 + HDR, data m b)) <$> live).

(** The heap before the first call, or in order. *)
Definition in_order (s : hst) (live : list block) : Prop :=
  freep s = 0 /\ brk s = lo /\ lo <= KERNBASE /\ live = [] \/ exists bs, heap s bs live.
Definition represents (s : hst) (σ : contents) : Prop := exists live, in_order s live /\ σ = view (umem s) live.

Lemma data_length m b : 1 <= b.2 -> Z.of_nat (length (data m b)) = HDR * (b.2 - 1).
Proof. intros H. unfold data. rewrite length_fmap, length_seqZ. unfold HDR. lia. Qed.
Lemma data_lookup m b i : 0 <= i < HDR * (b.2 - 1) -> data m b !! Z.to_nat i = Some (byte m (b.1 + HDR + i)).
Proof.
  intros H. unfold data. rewrite list_lookup_fmap, lookup_seqZ_lt by lia. cbn. do 2 f_equal. lia.
Qed.
Lemma data_ext m m' b : same_data m m' b -> data m' b = data m b.
Proof.
  intros H. unfold data. apply list_fmap_ext. intros i a Ha%lookup_seqZ. apply H. unfold fin, HDR in *. lia.
Qed.
Lemma view_ext m m' live : Forall (same_data m m') live -> view m' live = view m live.
Proof.
  intros H. unfold view. f_equal. apply list_fmap_ext. intros i b Hb%list_elem_of_lookup_2.
  rewrite Forall_forall in H. by rewrite (data_ext m m') by (by apply H).
Qed.

Lemma separate_perm (l l' : list block) : l ≡ₚ l' -> separate l -> separate l'.
Proof.
  induction 1 as [|x l l' HP IH|x y l|l l' l'' _ IH1 _ IH2]; [done| | |tauto].
  - intros [H1 H2]. split; [by rewrite <-HP|by apply IH].
  - intros [[H1 H2]%Forall_cons [H3 H4]]. split; [apply Forall_cons; split; [by apply disj_sym|done]|done].
Qed.
Lemma units_perm (l l' : list block) : l ≡ₚ l' -> units l = units l'.
Proof. unfold units. induction 1; cbn; lia. Qed.
Lemma heap_perm s bs live live' : live ≡ₚ live' -> heap s bs live -> heap s bs live'.
Proof.
  intros HP [Hr Hg Hp Hf Ht Hl Hs Hsum Hal]. split; [done|done|done|done|done|by rewrite <-HP|by eapply separate_perm| |].
  - by rewrite <-(units_perm _ _ HP).
  - by rewrite <-HP.
Qed.

(** The pointers are all different. *)
Lemma pointers s bs live : heap s bs live -> NoDup ((fun b => (b.1 + HDR, data (umem s) b)) <$> live).*1.
Proof.
  intros [_ _ _ _ _ Hl Hs _ _]. induction live as [|b live IH]; [constructor|].
  apply Forall_cons in Hl as [[B1 B2 _ _ _] Hl]. destruct Hs as [Hd Hs]. cbn. constructor; [|by apply IH].
  rewrite <-list_fmap_compose. intros (x & Ex & Hx)%list_elem_of_fmap. rewrite Forall_forall in Hl, Hd.
  specialize (Hd x Hx). destruct (Hl x Hx) as [X1 X2 _ _ _]. unfold disj, fin, HDR in *. cbn in Ex. lia.
Qed.
Lemma view_lookup s bs live p d : heap s bs live -> view (umem s) live !! p = Some d ->
  exists b live', live ≡ₚ b :: live' /\ p = b.1 + HDR /\ d = data (umem s) b /\ heap s bs (b :: live')
    /\ view (umem s) live = <[p := d]> (view (umem s) live') /\ view (umem s) live' !! p = None.
Proof.
  intros Hh Hp. apply elem_of_list_to_map in Hp; [|by eapply pointers].
  apply list_elem_of_fmap in Hp as (b & [= -> ->] & (l1 & l2 & ->)%list_elem_of_split).
  assert (HP : l1 ++ b :: l2 ≡ₚ b :: (l1 ++ l2)) by (symmetry; apply Permutation_middle).
  exists b, (l1 ++ l2). pose proof (heap_perm _ _ _ _ HP Hh) as Hh'. split_and!; [done|done|done|done| |].
  - change (<[b.1 + HDR := data (umem s) b]> (view (umem s) (l1 ++ l2))) with (view (umem s) (b :: l1 ++ l2)).
    unfold view. apply list_to_map_proper; [by eapply pointers|by rewrite HP].
  - apply not_elem_of_list_to_map_1. pose proof (pointers _ _ _ Hh') as HN. cbn in HN. by apply NoDup_cons in HN as [? _].
Qed.
Lemma view_new s bs b live m : heap s bs (b :: live) -> view m live !! (b.1 + HDR) = None.
Proof.
  intros Hh. apply not_elem_of_list_to_map_1. pose proof (pointers _ _ _ Hh) as HN. cbn in HN.
  apply NoDup_cons in HN as [Hn _]. by rewrite <-!list_fmap_compose in *.
Qed.

(** ** [malloc] and [free] *)

(** The first call sets up the ring. *)
Definition set_up (s : hst) : hst :=
  set_umem (put_word (base + 4) 0 (put_word base base (umem s))) (set_freep base s).
Lemma set_up_ok s : freep s = 0 -> brk s = lo -> lo <= KERNBASE ->
  (modS (set_freep base) ;; set_ptr base lo base base ;; set_size base lo base 0) s = Ok tt (set_up s)
  /\ heap (set_up s) [] [].
Proof.
  intros Hf Hb Hlo. assert (Ht : brk s <= KERNBASE) by lia. split.
  - rewrite (bind_Ok _ _ _ tt (set_freep base s)) by done.
    rewrite (bind_Ok _ _ _ _ _ (set_ptr_Ok base lo Hbase (set_freep base s) Ht base ltac:(left; cbn; lia) base)).
    exact (set_size_Ok base lo Hbase (set_umem _ (set_freep base s)) Ht base ltac:(left; cbn; lia) 0).
  - split; cbn [brk set_up set_umem set_freep]; [|cbn; lia|constructor|constructor|done|constructor|done|cbn; lia|constructor].
    unfold HDR, KERNBASE in *. cbn. rewrite word_put_ne, !word_put_eq by lia. done.
Qed.

Lemma malloc_start s live n : in_order s live ->
  exists s1 bs, heap s1 bs live /\ brk s1 = brk s /\ Forall (same_data (umem s) (umem s1)) live
    /\ malloc base lo grant n s = (p ← ptr base lo (freep s1); loop (2 * ring_fuel lo s1)
         (fun '(prevp, p) => malloc_round base lo grant (nunits n) prevp p) (freep s1, p)) s1.
Proof.
  intros [(Hf & Hb & Hlo & ->)|[bs Hh]].
  - destruct (set_up_ok s Hf Hb Hlo) as [E1 H1]. exists (set_up s), []. split; [done|]. split; [done|]. split; [done|].
    unfold malloc. cbv zeta. rewrite (bind_Ok _ _ _ (freep s) s) by done. rewrite Hf. cbn [Z.eqb].
    by rewrite (bind_Ok _ _ _ _ _ E1).
  - exists s, bs. destruct (ring_find base lo Hbase s bs live Hh) as (f & l1 & l2 & _ & _ & Hne & _).
    split; [done|]. split; [done|]. split; [by apply Forall_forall|].
    unfold malloc. cbv zeta. rewrite (bind_Ok _ _ _ (freep s) s) by done. by replace (freep s =? 0) with false by lia.
Qed.

Lemma malloc_units s live n : in_order s live -> 1 <= nunits n < 2 ^ 28 ->
  exists r s', malloc base lo grant n s = Ok r s' /\ Forall (same_data (umem s) (umem s')) live
    /\ ((exists b bs, r = b.1 + HDR /\ heap s' bs (b :: live) /\ b.2 = nunits n)
        \/ r = 0 /\ in_order s' live /\ grant (brk s) (chunk (nunits n)) = false).
Proof.
  intros Ho Hnu. destruct (malloc_start s live n Ho) as (s1 & bs & Hh & Hb & D & E1).
  destruct (search_all base lo Hbase grant Hgrant s1 bs live (nunits n) Hh Hnu) as (r & s' & bs' & E2 & Hr).
  exists r, s'. split; [by rewrite E1|split].
  - destruct Hr as [(b & _ & _ & _ & D2)|(_ & -> & _)]; [|done].
    eapply Forall_impl; [exact (proj2 (Forall_and _ _) (conj D D2))|]. intros x [? ?]. by eapply same_data_trans.
  - destruct Hr as [(b & -> & H1 & H2 & _)|(-> & -> & -> & _ & Hg)]; [left; by exists b, bs'|right].
    split_and!; [done|by right; exists bs|by rewrite <-Hb].
Qed.
Lemma malloc_ok s live n : in_order s live -> 0 <= n <= 2 ^ 31 - 16 ->
  exists r s', malloc base lo grant n s = Ok r s' /\ Forall (same_data (umem s) (umem s')) live
    /\ ((exists b bs, r = b.1 + HDR /\ heap s' bs (b :: live) /\ b.2 = nunits n)
        \/ r = 0 /\ in_order s' live /\ grant (brk s) (chunk (nunits n)) = false).
Proof. intros Ho Hn. apply malloc_units; [done|]. by apply nunits_ok. Qed.

(** *** Requests that are too large *)




Lemma free_view s bs live p d : heap s bs live -> view (umem s) live !! p = Some d ->
  exists s', free base lo p s = Ok tt s' /\ represents s' (delete p (view (umem s) live)).
Proof.
  intros Hh Hp. destruct (view_lookup s bs live p d Hh Hp) as (b & live' & HP & -> & -> & Hh' & -> & Hn).
  destruct (free_ok base lo Hbase s bs b live' Hh') as (s' & bs' & E & H1 & _ & D & _).
  exists s'. split; [done|]. exists live'. split; [right; by exists bs'|].
  rewrite delete_insert_id by done. symmetry. by apply view_ext.
Qed.

(** ** Writes into a block *)

Lemma inside_valid s bs live b a : heap s bs (b :: live) -> b.1 <= a < fin b -> valid base lo s a = true.
Proof.
  intros [_ _ _ _ Ht [[B1 B2 B3 _ _] _]%Forall_cons _ _ _] Ha. unfold valid.
  unfold fin, KERNBASE, HDR in *. rewrite PGROUNDUP_eq by lia. lia.
Qed.

(** Memory changed in the data of [b] only. *)
Definition changed_in (b : block) (m m' : gmap Z Z) : Prop :=
  forall a, a < b.1 + HDR \/ fin b <= a -> byte m' a = byte m a.
Lemma changed_word b m m' a : changed_in b m m' -> a + 4 <= b.1 + HDR \/ fin b <= a -> word m' a = word m a.
Proof. intros H Ha. unfold word. by rewrite !H by lia. Qed.

Lemma write_ok s bs b live m' : heap s bs (b :: live) -> changed_in b (umem s) m' ->
  heap (set_umem m' s) bs (b :: live) /\ Forall (same_data (umem s) m') live.
Proof.
  intros [Hr Hg Hp Hf Ht Hl Hs Hsum Hal] Hm. pose proof Hl as [[B1 B2 B3 B4 B5] Hl']%Forall_cons.
  assert (Hx : forall x, disj b x -> 1 <= x.2 -> word m' x.1 = word (umem s) x.1 /\ word m' (x.1 + 4) = word (umem s) (x.1 + 4)).
  { intros x Hd Hx. unfold disj, fin, HDR in *.
    split; apply (changed_word b); [done|unfold fin, HDR; lia|done|unfold fin, HDR; lia]. }
  pose proof Hs as [Hs1 Hs2]. rewrite Forall_forall in Hl', Hs1, Hp, B5. split.
  - split; [|done|by rewrite Forall_forall|done|done| |done|done|done].
    + eapply links_frame; [|exact Hr]. intros x [->|Hx']%elem_of_cons; [|apply Hx; [by apply B5|by apply Hp]].
      split; apply (changed_word b); try done; unfold HDR in *; cbn; lia.
    + rewrite <-Forall_forall in B5. apply Forall_cons. split.
      * split; [done|done|done| |done]. rewrite <-B4. apply (changed_word b); [done|unfold HDR; lia].
      * apply Forall_forall. intros x Hx'. destruct (Hl' x Hx') as [X1 X2 X3 X4 X5].
        split; [done|done|done| |done]. rewrite <-X4. by apply Hx; [apply Hs1|].
  - apply Forall_forall. intros x Hx' a Ha. apply Hm. specialize (Hs1 x Hx'). unfold disj, fin, HDR in *. lia.
Qed.

Lemma seqZ_next n l x r : seqZ 0 n = l ++ x :: r -> x = Z.of_nat (length l) /\ 0 <= x < n.
Proof.
  intros E. assert (H : seqZ 0 n !! length l = Some x) by (rewrite E; by apply list_lookup_middle).
  apply lookup_seqZ in H. lia.
Qed.

Definition upd (f g : Z -> Z) (a n : Z) (m' : gmap Z Z) : Prop :=
  forall w, byte m' w = if (a <=? w) && (w <? a + n) then g w else f w.
Lemma upd_step f g a n m x : 0 <= n -> upd f g a n m -> x = g (a + n) -> upd f g a (n + 1) (<[a + n := x]> m).
Proof.
  intros Hn H -> w. destruct (Z.eq_dec w (a + n)) as [->|Hw].
  - rewrite byte_insert_eq. by replace ((a <=? a + n) && (a + n <? a + (n + 1))) with true by lia.
  - rewrite byte_insert_ne, H by done.
    by replace ((a <=? w) && (w <? a + (n + 1))) with ((a <=? w) && (w <? a + n)) by lia.
Qed.

Lemma store8_Ok s m w x : valid base lo s w = true ->
  store8 base lo w x (set_umem m s) = Ok tt (set_umem (<[w := x]> m) s).
Proof. intros H. unfold store8. change (valid base lo (set_umem m s) w) with (valid base lo s w). by rewrite H. Qed.
Lemma load8_Ok s m w : valid base lo s w = true -> load8 base lo w (set_umem m s) = Ok (byte m w) (set_umem m s).
Proof. intros H. unfold load8. change (valid base lo (set_umem m s) w) with (valid base lo s w). by rewrite H. Qed.

Lemma memset_ok s a c n : 0 <= n -> (forall w, a <= w < a + n -> valid base lo s w = true) ->
  exists m', memset base lo a c n s = Ok tt (set_umem m' s) /\ upd (byte (umem s)) (fun _ => c mod 256) a n m'.
Proof.
  intros Hn Hv.
  enough (H : wp (memset base lo a c n) (fun _ s' => exists m', s' = set_umem m' s /\ upd (byte (umem s)) (fun _ => c mod 256) a n m') s).
  { apply wp_run in H as ([] & s' & E & m' & -> & H). by exists m'. }
  apply (wp_forM _ _ (fun l s' => exists m', s' = set_umem m' s /\ upd (byte (umem s)) (fun _ => c mod 256) a (Z.of_nat (length l)) m')).
  - exists (umem s). split; [by destruct s|]. intros w. by replace ((a <=? w) && (w <? a + Z.of_nat (@length Z []))) with false by (cbn; lia).
  - intros l x r s' [-> Hx]%seqZ_next (m' & -> & Hu). apply wp_iff.
    eexists _, _. split; [apply store8_Ok, Hv; lia|].
    eexists. split; [done|]. rewrite length_app. cbn [length]. rewrite Nat2Z.inj_add. by apply upd_step; [lia| |].
  - intros s' (m' & -> & Hu). rewrite length_seqZ, Z2Nat.id in Hu by done. by exists m'.
Qed.

Lemma memmove_ok s a b n : 0 <= n -> (forall w, a <= w < a + n -> valid base lo s w = true) ->
  (forall w, b <= w < b + n -> valid base lo s w = true) -> a + n <= b \/ b + n <= a ->
  exists m', memmove base lo a b n s = Ok tt (set_umem m' s)
    /\ upd (byte (umem s)) (fun w => byte (umem s) (w - a + b)) a n m'.
Proof.
  intros Hn Hv Hv2 Hd. set (g := fun w => byte (umem s) (w - a + b)).
  enough (H : wp (memmove base lo a b n) (fun _ s' => exists m', s' = set_umem m' s /\ upd (byte (umem s)) g a n m') s).
  { apply wp_run in H as ([] & s' & E & m' & -> & H). by exists m'. }
  apply (wp_forM _ _ (fun l s' => exists m', s' = set_umem m' s /\ upd (byte (umem s)) g a (Z.of_nat (length l)) m')).
  - exists (umem s). split; [by destruct s|]. intros w. by replace ((a <=? w) && (w <? a + Z.of_nat (@length Z []))) with false by (cbn; lia).
  - intros l x r s' [-> Hx]%seqZ_next (m' & -> & Hu). apply wp_bind, wp_iff.
    eexists _, _. split; [apply load8_Ok, Hv2; lia|].
    apply wp_iff. eexists _, _. split; [apply store8_Ok, Hv; lia|].
    eexists. split; [done|]. rewrite length_app. cbn [length]. rewrite Nat2Z.inj_add. apply upd_step; [lia|done|].
    rewrite Hu. unfold g.
    replace ((a <=? b + Z.of_nat (length l)) && (b + Z.of_nat (length l) <? a + Z.of_nat (length l))) with false by lia. f_equal. lia.
  - intros s' (m' & -> & Hu). rewrite length_seqZ, Z2Nat.id in Hu by done. by exists m'.
Qed.

Lemma upd_changed f g a n m m' b : f = byte m -> upd f g a n m' -> b.1 + HDR <= a -> a + n <= fin b -> changed_in b m m'.
Proof.
  intros -> Hu H1 H2 w Hw. rewrite Hu. by replace ((a <=? w) && (w <? a + n)) with false by lia.
Qed.

(** ** The requests *)

Section requests.
Context (s : hst) (live : list block) (Ho : in_order s live).
Abbreviation σ := (view (umem s) live).
Definition denied (n : Z) : Prop := grant (brk s) (chunk (nunits n)) = false.
Abbreviation served r := (exists v s' σ', serve r s = Ok v s' /\ answers denied r σ v σ' /\ represents s' σ').

(** The new block is seen as new. *)
Lemma new_block s' bs b n : heap s' bs (b :: live) -> Forall (same_data (umem s) (umem s')) live -> b.2 = nunits n ->
  0 <= n <= 2 ^ 31 - 16 ->
  represents s' (<[b.1 + HDR := data (umem s') b]> σ) /\ fresh σ (b.1 + HDR) n (data (umem s') b).
Proof.
  intros Hh D Hb Hn. destruct (nunits_ok n Hn) as [Hnu Hle]. pose proof (hp_live _ _ _ _ _ Hh) as [[B1 B2 _ _ _] _]%Forall_cons.
  split.
  - exists (b :: live). split; [right; by exists bs|]. change (view (umem s') (b :: live))
      with (<[b.1 + HDR := data (umem s') b]> (view (umem s') live)). by rewrite (view_ext _ _ _ D).
  - split; [unfold HDR in *; lia|]. split; [by eapply view_new|]. rewrite data_length by lia. lia.
Qed.

Lemma kept_view s' : in_order s' live -> Forall (same_data (umem s) (umem s')) live -> represents s' σ.
Proof. intros H D. exists live. split; [done|]. symmetry. by apply view_ext. Qed.

Lemma serve_malloc n : 0 <= n <= 2 ^ 31 - 16 -> served (Malloc n).
Proof.
  intros Hn. destruct (malloc_ok s live n Ho Hn) as (r & s' & E & D & [(b & bs & -> & Hh & Hb)|(-> & Ho' & Hg)]).
  - destruct (new_block s' bs b n Hh D Hb Hn) as [R F]. eexists _, s', _. split; [exact E|]. by split; [constructor|].
  - exists 0, s', σ. split; [done|]. split; [by apply (a_none _ _ n)|by apply kept_view].
Qed.

Lemma overflow_seen nmemb sz : 0 <= nmemb < 2 ^ 32 -> 0 < sz < 2 ^ 32 -> 2 ^ 32 <= nmemb * sz ->
  u32 (nmemb * sz) / sz <> nmemb.
Proof.
  intros Hn Hs Ho'. assert (H : u32 (nmemb * sz) <= nmemb * sz - 2 ^ 32).
  { unfold u32. rewrite Z.mod_eq by lia. assert (1 <= nmemb * sz / 4294967296) by (apply Z.div_le_lower_bound; lia). lia. }
  intros Eq. pose proof (Z.mul_div_le (u32 (nmemb * sz)) sz). pose proof (Z.mul_succ_div_gt (u32 (nmemb * sz)) sz). rewrite Eq in *. nia.
Qed.

Lemma zeroed f m b n : 0 <= n -> b.1 + HDR + n <= fin b -> upd f (fun _ => 0 mod 256) (b.1 + HDR) n m ->
  take (Z.to_nat n) (data m b) = replicate (Z.to_nat n) 0.
Proof.
  intros Hn Hin Hu. apply list_eq. intros i. destruct (decide (Z.of_nat i < n)) as [Hi|Hi].
  - rewrite lookup_take_lt, lookup_replicate_2 by lia. rewrite <-(Nat2Z.id i), data_lookup by (unfold fin, HDR in *; lia).
    rewrite Hu. by replace ((b.1 + HDR <=? b.1 + HDR + Z.of_nat i) && (b.1 + HDR + Z.of_nat i <? b.1 + HDR + n)) with true by lia.
  - rewrite lookup_take_ge by lia. symmetry. apply lookup_replicate_None. lia.
Qed.

Lemma serve_calloc nmemb sz : proper σ (Calloc nmemb sz) -> served (Calloc nmemb sz).
Proof.
  intros (Hn & Hs & Hc). cbn [serve]. unfold calloc. destruct ((nmemb =? 0) || (sz =? 0)) eqn:Hz.
  - assert (Hp0 : nmemb * sz = 0) by (apply orb_true_iff in Hz as [?|?]; [assert (nmemb = 0) as -> by lia|assert (sz = 0) as -> by lia]; lia).
    destruct (malloc_ok s live 0 Ho) as (r & s' & E & D & [(b & bs & -> & Hh & Hb)|(-> & Ho' & Hg)]); [lia| |].
    + destruct (new_block s' bs b 0 Hh D Hb) as [R F]; [lia|]. eexists _, s', _. split; [exact E|].
      split; [|exact R]. apply a_calloc; by rewrite Hp0.
    + exists 0, s', σ. split; [done|]. split; [|by apply kept_view]. apply (a_none _ _ (nmemb * sz)); [done|]. by rewrite Hp0.
  - apply orb_false_iff in Hz as [Hz1 Hz2]. cbv zeta. destruct Hc as [Hc|Hc].
    2:{ replace (u32 (nmemb * sz) / sz =? nmemb) with false by (symmetry; apply Z.eqb_neq, overflow_seen; lia).
        exists 0, s, σ. split; [done|]. split; [by apply a_overflow|by exists live]. }
    assert (Hpos : 0 <= nmemb * sz) by nia. rewrite u32_small by lia. rewrite Z.div_mul, Z.eqb_refl by lia. cbn [negb].
    set (n := nmemb * sz) in *.
    destruct (malloc_ok s live n Ho) as (r & s1 & E & D & [(b & bs & -> & Hh & Hb)|(-> & Ho' & Hg)]); [lia| |]; rewrite (bind_Ok _ _ _ _ _ E).
    2:{ exists 0, s1, σ. split; [done|]. split; [by apply (a_none _ _ n)|by apply kept_view]. }
    pose proof (hp_live _ _ _ _ _ Hh) as [[B1 B2 _ _ _] _]%Forall_cons. destruct (nunits_ok n) as [Hnu Hle]; [lia|].
    assert (Hin : b.1 + HDR + n <= fin b) by (unfold fin, HDR in *; lia).
    destruct (memset_ok s1 (b.1 + HDR) 0 n) as (m' & Em & Hu); [lia| |].
    { intros w Hw. apply (inside_valid s1 bs live b); [done|]. unfold fin, HDR in *. lia. }
    destruct (write_ok s1 bs b live m' Hh) as [Hh2 D2]; [eapply upd_changed; [done|exact Hu|lia|done]|].
    destruct (new_block (set_umem m' s1) bs b n Hh2) as [R F]; [|done|lia|].
    { eapply Forall_impl; [exact (proj2 (Forall_and _ _) (conj D D2))|]. intros x [? ?]. by eapply same_data_trans. }
    eexists _, (set_umem m' s1), _. split.
    { replace (b.1 + HDR =? 0) with false by (unfold HDR in *; lia). by rewrite (bind_Ok _ _ _ _ _ Em). }
    split; [|exact R]. apply a_calloc; [exact F|]. cbn [umem set_umem].
    by apply (zeroed (byte (umem s1))).
Qed.

(** A block that the program holds. *)
Lemma held p d : σ !! p = Some d -> exists bs, heap s bs live.
Proof. destruct Ho as [(_ & _ & _ & ->)|?]; [|done]. intros H. change (view (umem s) []) with (∅ : contents) in H. by rewrite lookup_empty in H. Qed.

Lemma serve_free p : is_Some (σ !! p) -> exists s', free base lo p s = Ok tt s' /\ represents s' (delete p σ).
Proof. intros [d Hd]. destruct (held p d Hd) as [bs Hh]. by eapply free_view. Qed.

Lemma serve_write p i x : proper σ (Write p i x) -> served (Write p i x).
Proof.
  intros (Hx & d & Hd & Hi). destruct (held p d Hd) as [bs Hh].
  destruct (view_lookup s bs live p d Hh Hd) as (b & live' & HP & -> & -> & Hh' & Ev & Hn).
  pose proof (hp_live _ _ _ _ _ Hh') as [[B1 B2 _ _ _] _]%Forall_cons. rewrite data_length in Hi by done.
  set (m' := <[b.1 + HDR + i := x]> (umem s)).
  destruct (write_ok s bs b live' m' Hh') as [Hh2 D2].
  { intros a Ha. unfold m'. apply byte_insert_ne. unfold fin, HDR in *. lia. }
  exists 0, (set_umem m' s), (<[b.1 + HDR := <[Z.to_nat i := x]> (data (umem s) b)]> σ). split_and!.
  - cbn [serve]. rewrite (bind_Ok _ _ _ tt (set_umem m' s)); [done|]. destruct s as [m f k].
    apply (store8_Ok (mk_hst m f k) m). apply (inside_valid _ bs live' b); [done|]. unfold fin, HDR in *. lia.
  - by constructor.
  - exists (b :: live'). split; [right; by exists bs|]. rewrite Ev, insert_insert_eq. cbn [umem set_umem].
    change (view m' (b :: live')) with (<[b.1 + HDR := data m' b]> (view m' live')). rewrite (view_ext _ _ _ D2). f_equal.
    apply list_eq. intros j. destruct (decide (Z.of_nat j < HDR * (b.2 - 1))) as [Hj|Hj].
    + rewrite <-(Nat2Z.id j), (data_lookup m') by lia. destruct (decide (i = Z.of_nat j)) as [->|Hne].
      * rewrite list_lookup_insert_eq; [by unfold m'; rewrite byte_insert_eq|].
        pose proof (data_length (umem s) b B2). lia.
      * rewrite list_lookup_insert_ne, data_lookup by lia. unfold m'. rewrite byte_insert_ne by lia. done.
    + pose proof (data_length m' b B2). pose proof (data_length (umem s) b B2).
      rewrite !lookup_ge_None_2 by (try rewrite length_insert; lia). done.
Qed.

Lemma seq_Ok {S A} (m1 m2 : M S unit) (k : M S A) s0 s' : (m1 ;; m2) s0 = Ok tt s' -> (m1 ;; m2 ;; k) s0 = k s'.
Proof.
  unfold mbind, M_bind. destruct (m1 s0) as [u s1| | |]; [|done..]. by intros ->.
Qed.

(** The copy of [realloc], and the old block freed. *)
Lemma move_block bs b live' s1 bs1 q n : heap s bs (b :: live') -> live ≡ₚ b :: live' ->
  heap s1 bs1 (q :: live) -> Forall (same_data (umem s) (umem s1)) live -> q.2 = nunits n -> 0 <= n <= 2 ^ 31 - 16 ->
  exists s3 m2, (memmove base lo (q.1 + HDR) (b.1 + HDR) (Z.min (HDR * (b.2 - 1)) n) ;; free base lo (b.1 + HDR)) s1 = Ok tt s3
    /\ represents s3 (<[q.1 + HDR := data m2 q]> (view (umem s) live'))
    /\ (forall i, 0 <= i < n -> i < HDR * (b.2 - 1) -> data m2 q !! Z.to_nat i = data (umem s) b !! Z.to_nat i).
Proof.
  intros Hb HP Hq D Hq2 Hn. destruct (nunits_ok n Hn) as [Hnu Hle]. set (k := Z.min (HDR * (b.2 - 1)) n).
  assert (Hq' : heap s1 bs1 (q :: b :: live')) by (eapply heap_perm; [|exact Hq]; by rewrite HP).
  assert (Hbq : heap s1 bs1 (b :: q :: live')) by (eapply heap_perm; [|exact Hq']; apply perm_swap).
  pose proof (hp_live _ _ _ _ _ Hq') as [[Q1 Q2 _ _ _] [[B1 B2 _ _ _] _]%Forall_cons]%Forall_cons.
  pose proof (hp_sep _ _ _ _ _ Hq') as [[Hd _]%Forall_cons _].
  destruct (memmove_ok s1 (q.1 + HDR) (b.1 + HDR) k) as (m2 & Em & Hu).
  { unfold k, HDR in *. lia. }
  { intros w Hw. apply (inside_valid s1 bs1 (b :: live') q); [done|]. unfold k, fin, HDR in *. lia. }
  { intros w Hw. apply (inside_valid s1 bs1 (q :: live') b); [done|]. unfold k, fin, HDR in *. lia. }
  { unfold k, disj, fin, HDR in *. lia. }
  destruct (write_ok s1 bs1 q (b :: live') m2 Hq') as [Hq2' D2].
  { eapply upd_changed; [done|exact Hu|lia|]. unfold k, fin, HDR in *. lia. }
  assert (Hbq2 : heap (set_umem m2 s1) bs1 (b :: q :: live')) by (eapply heap_perm; [|exact Hq2']; apply perm_swap).
  destruct (free_ok base lo Hbase _ bs1 b (q :: live') Hbq2) as (s3 & bs3 & Ef & H3 & _ & D3 & _).
  apply Forall_cons in D3 as [D3q D3]. apply Forall_cons in D2 as [_ D2]. rewrite HP in D. apply Forall_cons in D as [Db D].
  exists s3, m2. split; [by rewrite (bind_Ok _ _ _ _ _ Em)|]. split.
  - exists (q :: live'). split; [right; by exists bs3|].
    change (view (umem s3) (q :: live')) with (<[q.1 + HDR := data (umem s3) q]> (view (umem s3) live')).
    rewrite (data_ext _ _ _ D3q), (view_ext _ _ _ D3). cbn [umem set_umem].
    by rewrite (view_ext _ _ _ D2), (view_ext _ _ _ D).
  - intros i Hi Hi2. rewrite !data_lookup by (unfold HDR in *; lia). f_equal. rewrite Hu.
    replace ((q.1 + HDR <=? q.1 + HDR + i) && (q.1 + HDR + i <? q.1 + HDR + k)) with true by (unfold k; lia).
    replace (q.1 + HDR + i - (q.1 + HDR) + (b.1 + HDR)) with (b.1 + HDR + i) by lia.
    apply Db. unfold fin, HDR in *. lia.
Qed.

Lemma serve_realloc p sz : proper σ (Realloc p sz) -> served (Realloc p sz).
Proof.
  intros [Hp Hsz]. cbn [serve]. unfold realloc. destruct (Z.eqb_spec p 0) as [->|Hp0].
  { destruct (malloc_ok s live sz Ho Hsz) as (r & s' & E & D & [(b & bs & -> & Hh & Hb)|(-> & Ho' & Hg)]).
    - destruct (new_block s' bs b sz Hh D Hb Hsz) as [R F]. eexists _, s', _. split; [exact E|]. by split; [apply a_realloc_null|].
    - exists 0, s', σ. split; [done|]. split; [by apply (a_none _ _ sz)|by apply kept_view]. }
  destruct Hp as [|[d Hd]]; [done|]. destruct (Z.eqb_spec sz 0) as [->|Hz].
  { destruct (serve_free p) as (s' & E & R); [by exists d|]. exists 0, s', (delete p σ). rewrite (bind_Ok _ _ _ _ _ E).
    split; [done|]. by split; [apply a_realloc_zero|]. }
  destruct (held p d Hd) as [bs Hh]. destruct (view_lookup s bs live p d Hh Hd) as (b & live' & HP & Ep & Ed & Hh' & Ev & Hn).
  pose proof (hp_live _ _ _ _ _ Hh') as [[B1 B2 B3 B4 _] _]%Forall_cons. pose proof (hp_top _ _ _ _ _ Hh') as Ht.
  assert (Hb : is_hdr base lo s b.1) by (right; unfold fin, HDR in *; lia).
  rewrite Ep. replace (u32 (b.1 + HDR - HDR)) with b.1 by (rewrite u32_small; unfold fin, HDR, KERNBASE in *; lia).
  rewrite (bind_Ok _ _ _ _ _ (size_Ok base lo Hbase s Ht b.1 Hb)), B4. cbv zeta.
  replace (u32 ((b.2 - 1) * HDR)) with (HDR * (b.2 - 1)) by (rewrite u32_small; unfold fin, HDR, KERNBASE in *; lia).
  destruct (malloc_ok s live sz Ho Hsz) as (r & s1 & E & D & [(q & bs1 & -> & Hq & Hq2)|(-> & Ho' & Hg)]); rewrite (bind_Ok _ _ _ _ _ E).
  2:{ exists 0, s1, σ. split; [done|]. rewrite <-Ep. split; [by apply (a_none _ _ sz)|by apply kept_view]. }
  pose proof (hp_live _ _ _ _ _ Hq) as [[Q1 _ _ _ _] _]%Forall_cons.
  replace (q.1 + HDR =? 0) with false by (unfold HDR in *; lia).
  destruct (move_block bs b live' s1 bs1 q sz) as (s3 & m2 & Em & R & Hi); try done.
  destruct (new_block s1 bs1 q sz Hq D Hq2 Hsz) as [_ (F1 & F2 & F3)].
  exists (q.1 + HDR), s3, (<[q.1 + HDR := data m2 q]> (delete p σ)). split_and!.
  - by rewrite (seq_Ok _ _ _ _ _ Em).
  - rewrite <-Ep. apply (a_realloc _ p sz σ _ d); [done|done|done| |].
    + split; [done|]. split; [done|]. unfold data in *. by rewrite length_fmap in *.
    + intros i H1 H2. rewrite Ed in H2 |- *. rewrite data_length in H2 by done. by apply Hi.
  - rewrite Ev, delete_insert_id by done. done.
Qed.

Lemma serve_answers r : proper σ r -> served r.
Proof.
  destruct r as [n|p|nmemb sz|p sz|p i x]; intros Hr.
  - by apply serve_malloc.
  - destruct (serve_free p Hr) as (s' & E & R). exists 0, s', (delete p σ). cbn [serve]. rewrite (bind_Ok _ _ _ _ _ E).
    split; [done|]. by split; [constructor|].
  - by apply serve_calloc.
  - by apply serve_realloc.
  - by apply serve_write.
Qed.
End requests.

(** C11: The allocator of the user library refines its contract.  A program that holds
    nothing starts it in order; whatever it then asks for in a proper way, the call
    returns without a fault and answers as the contract says: a new block is none of
    those that the program holds and has the bytes that were asked for ([calloc]'s
    are 0, [realloc] keeps what fits), every other block keeps its bytes, and the
    answer is 0 only when the kernel has refused the memory or a product overflows. *)
Theorem allocator_refines_contract :
  (forall m, lo <= KERNBASE -> represents (mk_hst m 0 lo) ∅) /\
  (forall s σ r, represents s σ -> proper σ r ->
     exists v s' σ', serve r s = Ok v s' /\ answers (denied s) r σ v σ' /\ represents s' σ').
Proof.
  split.
  - intros m Hlo. exists []. split; [by left|done].
  - intros s σ r (live & Ho & ->) Hr. by apply serve_answers.
Qed.

End allocator.

(** The first block of a program is the end of the first chunk. *)
Lemma allocator_refines_contract_witness :
  exists v s' σ', serve 16 4096 (fun b n => b + n <=? KERNBASE) (Malloc 100) (mk_hst ∅ 0 4096) = Ok v s'
    /\ answers (denied (fun b n => b + n <=? KERNBASE) (mk_hst ∅ 0 4096)) (Malloc 100) ∅ v σ'
    /\ represents 16 4096 s' σ' /\ v = 4096 + 32768 - 104.
Proof.
  destruct (allocator_refines_contract 16 4096 (fun b n => b + n <=? KERNBASE)) as [H0 H1]; [unfold HDR; lia|intros b n; lia|].
  destruct (H1 (mk_hst ∅ 0 4096) ∅ (Malloc 100)) as (v & s' & σ' & E & A & R); [apply H0; unfold KERNBASE; lia|cbn; lia|].
  exists v, s', σ'. split; [done|]. split; [done|]. split; [done|].
  assert (Ev : match serve 16 4096 (fun b n => b + n <=? KERNBASE) (Malloc 100) (mk_hst ∅ 0 4096) with Ok v _ => v | _ => 0 end
               = 4096 + 32768 - 104) by (vm_compute; reflexivity).
  by rewrite E in Ev.
Defined.

