(* ===== verification/Sh.v ===== *)
(** * Sh: the shell's parser

    Model of the parsing half of src/bin/sh/sh.c: a recursive-descent parser that
    works in place on the line, with pointers into it, and allocates the nodes of the
    command as it goes; the words become strings when the whole line has been parsed
    and a NUL is written behind each of them.  A pointer into the line is an index, a
    pointer to a node its number in the order of allocation.  The shell does not
    check [malloc]; here it does not fail.  [panic] prints its message and exits. *)

From Stdlib Require Import ZArith Lia.
From stdpp Require Import base strings numbers list.
From S2P Require Import Prelude.

Local Open Scope Z_scope.

Definition MAXARGS : nat := 10.
Definition O_RDONLY : Z := 0.
Definition O_WRONLY : Z := 1.
Definition O_CREATE : Z := 0x200.

(** The nodes; a null pointer is [None]. *)
Inductive node : Type :=
  | execcmd (argv eargv : list (option nat))
  | redircmd (cmd file efile : nat) (mode fd : Z)
  | pipecmd (left right : nat)
  | listcmd (left right : nat)
  | backcmd (cmd : nat).

Record sst : Type := mk_sst { sbuf : list Z; nodes : list node }.

Definition ch (i : nat) : M sst Z := fun s =>
  match sbuf s !! i with Some c => Ok c s | None => Panic "undefined" s end.
Definition setch (i : nat) (c : Z) : M sst unit := fun s =>
  if decide (i < length (sbuf s))%nat then Ok tt (mk_sst (<[i := c]> (sbuf s)) (nodes s)) else Panic "undefined" s.
(** [malloc] and the assignments to the fields. *)
Definition new_node (n : node) : M sst nat := fun s =>
  Ok (length (nodes s)) (mk_sst (sbuf s) (nodes s ++ [n])).
Definition get_node (p : nat) : M sst node := fun s =>
  match nodes s !! p with Some n => Ok n s | None => Panic "undefined" s end.
Definition set_node (p : nat) (n : node) : M sst unit := fun s =>
  Ok tt (mk_sst (sbuf s) (<[p := n]> (nodes s))).
Definition panic {A} (msg : string) : M sst A := fun s => Panic msg s.

(** ** Characters *)

Definition NL : Z := 10.
Definition TAB : Z := 9.
Definition CR : Z := 13.
Definition VT : Z := 11.
Definition BAR : Z := 124.
Definition LPAR : Z := 40.
Definition RPAR : Z := 41.
Definition SEMI : Z := 59.
Definition AMP : Z := 38.
Definition LT : Z := 60.
Definition GT : Z := 62.
Definition PLUS : Z := 43.
(** ['a'], the token of a word. *)
Definition WORD : Z := 97.
Definition whitespace : list Z := [32; TAB; CR; NL; VT].
Definition symbols : list Z := [LT; BAR; GT; AMP; SEMI; LPAR; RPAR].

(** [strchr] of ulib.c: a NUL is never found. *)
Definition strchr (l : list Z) (c : Z) : bool := existsb (Z.eqb c) l.

(** ** Tokens *)

(** [while (s < es && strchr(whitespace, *s)) s++], with [n = es - s]. *)
Fixpoint skip_ws (n s : nat) : M sst nat :=
  match n with
  | O => mret s
  | S n' => c ← ch s; if strchr whitespace c then skip_ws n' (S s) else mret s
  end.
Fixpoint word_end (n s : nat) : M sst nat :=
  match n with
  | O => mret s
  | S n' => c ← ch s; if negb (strchr whitespace c) && negb (strchr symbols c) then word_end n' (S s) else mret s
  end.

(** The token, its first position and the one behind it, and the new [*ps]. *)
Definition gettoken (ps es : nat) : M sst (Z * nat * nat * nat) :=
  s ← skip_ws (es - ps) ps;
  c ← ch s;
  '(ret, e) ←
    (if c =? 0 then mret (c, s)
     else if (c =? BAR) || (c =? LPAR) || (c =? RPAR) || (c =? SEMI) || (c =? AMP) || (c =? LT) then mret (c, S s)
     else if c =? GT then
       c2 ← ch (S s);
       if c2 =? GT then mret (PLUS, S (S s)) else mret (c, S s)
     else e ← word_end (es - s) s; mret (WORD, e));
  ps ← skip_ws (es - e) e;
  mret (ret, s, e, ps).

Definition peek (ps es : nat) (toks : list Z) : M sst (bool * nat) :=
  s ← skip_ws (es - ps) ps;
  c ← ch s;
  mret (negb (c =? 0) && strchr toks c, s).

(** ** Commands *)

Definition redir_round (es : nat) : nat * nat -> M sst (nat * nat + nat * nat) :=
  fun '(cmd, ps) =>
    '(b, ps) ← peek ps es [LT; GT];
    if negb b then mret (inr (cmd, ps))
    else
      '(tok, _, _, ps) ← gettoken ps es;
      '(t, q, eq, ps) ← gettoken ps es;
      if negb (t =? WORD) then panic "missing file for redirection"
      else
        cmd ← (if tok =? LT then new_node (redircmd cmd q eq O_RDONLY 0)
               else if tok =? GT then new_node (redircmd cmd q eq (Z.lor O_WRONLY O_CREATE) 1)
               else if tok =? PLUS then new_node (redircmd cmd q eq (Z.lor O_WRONLY O_CREATE) 1)
               else mret cmd);
        mret (inl (cmd, ps)).
Definition parseredirs (cmd ps es : nat) : M sst (nat * nat) := loop (S es) (redir_round es) (cmd, ps).

(** [cmd->argv[argc] = q; cmd->eargv[argc] = eq]. *)
Definition set_arg (cmd argc : nat) (q eq : option nat) : M sst unit :=
  n ← get_node cmd;
  match n with
  | execcmd argv eargv =>
      if decide (argc < length argv)%nat then set_node cmd (execcmd (<[argc := q]> argv) (<[argc := eq]> eargv))
      else panic "undefined"
  | _ => panic "undefined"
  end.

Definition arg_round (cmd es : nat) : nat * nat * nat -> M sst (nat * nat * nat + nat * nat * nat) :=
  fun '(argc, ret, ps) =>
    '(b, ps) ← peek ps es [BAR; RPAR; AMP; SEMI];
    if (b : bool) then mret (inr (argc, ret, ps))
    else
      '(tok, q, eq, ps) ← gettoken ps es;
      if tok =? 0 then mret (inr (argc, ret, ps))
      else if negb (tok =? WORD) then panic "syntax"
      else
        set_arg cmd argc (Some q) (Some eq) ;;
        if decide (MAXARGS <= S argc)%nat then panic "too many args"
        else
          '(ret, ps) ← parseredirs ret ps es;
          mret (inl (S argc, ret, ps)).

(** The part of [parseexec] for a simple command. *)
Definition parsesimple (ps es : nat) : M sst (nat * nat) :=
  cmd ← new_node (execcmd (replicate MAXARGS None) (replicate MAXARGS None));
  '(ret, ps) ← parseredirs cmd ps es;
  '(argc, ret, ps) ← loop (S es) (arg_round cmd es) (0%nat, ret, ps);
  set_arg cmd argc None None ;;
  mret (ret, ps).

(** [while (peek(ps, es, "&")) ...] *)
Definition back_round (es : nat) : nat * nat -> M sst (nat * nat + nat * nat) :=
  fun '(cmd, ps) =>
    '(b, ps) ← peek ps es [AMP];
    if negb b then mret (inr (cmd, ps))
    else
      '(_, _, _, ps) ← gettoken ps es;
      cmd ← new_node (backcmd cmd);
      mret (inl (cmd, ps)).
Definition parsebacks (cmd ps es : nat) : M sst (nat * nat) := loop (S es) (back_round es) (cmd, ps).

Fixpoint parseline (fuel ps es : nat) : M sst (nat * nat) :=
  match fuel with
  | O => fun _ => NoFuel
  | S fuel =>
      '(cmd, ps) ← parsepipe fuel ps es;
      '(cmd, ps) ← parsebacks cmd ps es;
      '(b, ps) ← peek ps es [SEMI];
      if (b : bool) then
        '(_, _, _, ps) ← gettoken ps es;
        '(r, ps) ← parseline fuel ps es;
        cmd ← new_node (listcmd cmd r);
        mret (cmd, ps)
      else mret (cmd, ps)
  end
with parsepipe (fuel ps es : nat) : M sst (nat * nat) :=
  match fuel with
  | O => fun _ => NoFuel
  | S fuel =>
      '(cmd, ps) ← parseexec fuel ps es;
      '(b, ps) ← peek ps es [BAR];
      if (b : bool) then
        '(_, _, _, ps) ← gettoken ps es;
        '(r, ps) ← parsepipe fuel ps es;
        cmd ← new_node (pipecmd cmd r);
        mret (cmd, ps)
      else mret (cmd, ps)
  end
with parseexec (fuel ps es : nat) : M sst (nat * nat) :=
  match fuel with
  | O => fun _ => NoFuel
  | S fuel =>
      '(b, ps) ← peek ps es [LPAR];
      if (b : bool) then parseblock fuel ps es else parsesimple ps es
  end
with parseblock (fuel ps es : nat) : M sst (nat * nat) :=
  match fuel with
  | O => fun _ => NoFuel
  | S fuel =>
      '(b, ps) ← peek ps es [LPAR];
      if negb b then panic "parseblock"
      else
        '(_, _, _, ps) ← gettoken ps es;
        '(cmd, ps) ← parseline fuel ps es;
        '(b, ps) ← peek ps es [RPAR];
        if negb b then panic "syntax - missing )"
        else
          '(_, _, _, ps) ← gettoken ps es;
          parseredirs cmd ps es
  end.

(** ** Strings *)

Fixpoint nul_args (n i : nat) (argv eargv : list (option nat)) : M sst unit :=
  match n with
  | O => panic "undefined"
  | S n' =>
      match argv !! i with
      | Some (Some _) =>
          match eargv !! i with
          | Some (Some e) => setch e 0 ;; nul_args n' (S i) argv eargv
          | _ => panic "undefined"
          end
      | Some None => mret tt
      | None => panic "undefined"
      end
  end.
(** A node is allocated after the nodes it points to. *)
Fixpoint nulterminate (fuel cmd : nat) : M sst unit :=
  match fuel with
  | O => fun _ => NoFuel
  | S fuel =>
      n ← get_node cmd;
      match n with
      | execcmd argv eargv => nul_args (S MAXARGS) 0 argv eargv
      | redircmd c _ efile _ _ => nulterminate fuel c ;; setch efile 0
      | pipecmd l r => nulterminate fuel l ;; nulterminate fuel r
      | listcmd l r => nulterminate fuel l ;; nulterminate fuel r
      | backcmd c => nulterminate fuel c
      end
  end.

Fixpoint strlen (n s : nat) : M sst nat :=
  match n with
  | O => panic "undefined"
  | S n' => c ← ch s; if c =? 0 then mret O else k ← strlen n' (S s); mret (S k)
  end.

(** The line has fewer levels of nesting than characters, of four calls each. *)
Definition parsecmd : M sst nat :=
  n ← gets (fun s => length (sbuf s));
  es ← strlen n 0;
  '(cmd, ps) ← parseline (4 * es + 4) 0 es;
  '(_, ps) ← peek ps es [];
  if negb (ps =? es)%nat then panic "syntax"
  else
    k ← gets (fun s => length (nodes s));
    nulterminate k cmd ;;
    mret cmd.
