(* ===== verification/Shparse.v ===== *)
(** * Shparse: the shell parses its language

    Theorems about the parser of Sh.  The language is given by a lexical rule
    ([tokens]) and a grammar ([derives]).  The parser accepts exactly the sentences
    of the grammar, builds the command that the grammar assigns to the line, with its
    words as C strings, and rejects every other line with one of its messages; it
    never reads or writes outside the line and always comes to an end. *)

From Stdlib Require Import ZArith Lia.
From stdpp Require Import base strings numbers list.
From S2P Require Import Prelude Sh.

Local Open Scope Z_scope.

(** ** The language *)

Inductive tok : Type := Word (w : list Z) | Sym (c : Z).

Definition wordch (c : Z) : bool := negb (strchr whitespace c) && negb (strchr symbols c).
Fixpoint skip (r : list Z) : list Z :=
  match r with [] => [] | c :: r' => if strchr whitespace c then skip r' else r end.
Fixpoint takew (r : list Z) : list Z :=
  match r with [] => [] | c :: r' => if wordch c then c :: takew r' else [] end.
Fixpoint dropw (r : list Z) : list Z :=
  match r with [] => [] | c :: r' => if wordch c then dropw r' else r end.

(** The first token: [>>] is one symbol ([+] in the parser), a word is as long as
    possible. *)
Definition lex1 (r : list Z) : option (tok * list Z) :=
  match skip r with
  | [] => None
  | c :: r' =>
      if c =? GT then
        match r' with
        | c2 :: r'' => if c2 =? GT then Some (Sym PLUS, r'') else Some (Sym GT, r')
        | [] => Some (Sym GT, [])
        end
      else if strchr symbols c then Some (Sym c, r')
      else Some (Word (takew (c :: r')), dropw (c :: r'))
  end.
Fixpoint lexn (n : nat) (r : list Z) : list tok :=
  match n with
  | O => []
  | S n' => match lex1 r with None => [] | Some (t, r') => t :: lexn n' r' end
  end.
Definition tokens (r : list Z) : list tok := lexn (length r) r.

Inductive cmd : Type :=
  | Exec (args : list (list Z))
  | Redir (c : cmd) (file : list Z) (mode fd : Z)
  | Pipe (c d : cmd)
  | List (c d : cmd)
  | Back (c : cmd).

Definition is_redir (op : Z) : bool := (op =? LT) || (op =? GT) || (op =? PLUS).
Definition redirect (c : cmd) (r : Z * list Z) : cmd :=
  if r.1 =? LT then Redir c r.2 O_RDONLY 0 else Redir c r.2 (Z.lor O_WRONLY O_CREATE) 1.
(** The first redirection is innermost: it is carried out last. *)
Definition wrap (rs : list (Z * list Z)) (c : cmd) : cmd := foldl redirect c rs.
Fixpoint backs (k : nat) (c : cmd) : cmd := match k with O => c | S k' => backs k' (Back c) end.

Inductive redirs : list tok -> list (Z * list Z) -> Prop :=
  | rd_nil : redirs [] []
  | rd_cons op f ts rs : is_redir op = true -> redirs ts rs -> redirs (Sym op :: Word f :: ts) ((op, f) :: rs).
(** Words and redirections in any order. *)
Inductive simple : list tok -> list (list Z) -> list (Z * list Z) -> Prop :=
  | si_nil : simple [] [] []
  | si_word w ts args rs : simple ts args rs -> simple (Word w :: ts) (w :: args) rs
  | si_redir op f ts args rs : is_redir op = true -> simple ts args rs ->
      simple (Sym op :: Word f :: ts) args ((op, f) :: rs).

Inductive cat : Type := CLine | CPipe | CExec.
Inductive derives : cat -> list tok -> cmd -> Prop :=
  | d_simple ts args rs : simple ts args rs -> (length args < MAXARGS)%nat -> derives CExec ts (wrap rs (Exec args))
  | d_block ts c ts' rs : derives CLine ts c -> redirs ts' rs ->
      derives CExec (Sym LPAR :: ts ++ Sym RPAR :: ts') (wrap rs c)
  | d_exec ts c : derives CExec ts c -> derives CPipe ts c
  | d_pipe ts c ts' d : derives CExec ts c -> derives CPipe ts' d -> derives CPipe (ts ++ Sym BAR :: ts') (Pipe c d)
  | d_last ts c k : derives CPipe ts c -> derives CLine (ts ++ replicate k (Sym AMP)) (backs k c)
  | d_seq ts c k ts' d : derives CPipe ts c -> derives CLine ts' d ->
      derives CLine (ts ++ replicate k (Sym AMP) ++ Sym SEMI :: ts') (List (backs k c) d).

(** ** Characters and tokens *)

#[local] Arguments strchr : simpl never.
#[local] Arguments wordch : simpl never.

Lemma skip_idem r : skip (skip r) = skip r.
Proof. induction r as [|c r IH]; [done|]. cbn. destruct (strchr whitespace c) eqn:E; [exact IH|]. cbn. by rewrite E. Qed.
Lemma lex1_skip r : lex1 (skip r) = lex1 r.
Proof. unfold lex1. by rewrite skip_idem. Qed.
Lemma skip_length r : (length (skip r) <= length r)%nat.
Proof. induction r as [|c r IH]; cbn; [lia|]. destruct (strchr whitespace c); cbn; lia. Qed.
Lemma dropw_length r : (length (dropw r) <= length r)%nat.
Proof. induction r as [|c r IH]; cbn; [lia|]. destruct (wordch c); cbn; lia. Qed.
Lemma skip_head r c r' : skip r = c :: r' -> strchr whitespace c = false.
Proof.
  induction r as [|d r IH]; [done|]. cbn. destruct (strchr whitespace d) eqn:E; [exact IH|]. by intros [= <- _].
Qed.
Lemma lex1_shorter r t r' : lex1 r = Some (t, r') -> (length r' < length r)%nat.
Proof.
  unfold lex1. pose proof (skip_length r) as Hs. destruct (skip r) as [|c r0] eqn:E; [done|]. cbn [length] in Hs.
  destruct (c =? GT).
  - destruct r0 as [|c2 r1]; [intros [= _ <-]; cbn; lia|]. destruct (c2 =? GT); intros [= _ <-]; cbn in *; lia.
  - destruct (strchr symbols c) eqn:Es; intros [= _ <-]; [lia|].
    apply skip_head in E. assert (Hw : wordch c = true) by (unfold wordch; by rewrite E, Es). rewrite Hw.
    pose proof (dropw_length r0). lia.
Qed.
Lemma lexn_mono n m r : (length r <= n)%nat -> (length r <= m)%nat -> lexn n r = lexn m r.
Proof.
  revert m r. induction n as [|n IH]; intros [|m] r Hn Hm; [done| | |]; try (destruct r; [done|cbn in *; lia]).
  cbn [lexn]. destruct (lex1 r) as [[t r']|] eqn:E; [|done]. apply lex1_shorter in E. f_equal. apply IH; lia.
Qed.
Lemma tokens_eq r : tokens r = match lex1 r with None => [] | Some (t, r') => t :: tokens r' end.
Proof.
  unfold tokens at 1. destruct r as [|c r]; [done|]. cbn [length lexn]. destruct (lex1 (c :: r)) as [[t r']|] eqn:E; [|done].
  apply lex1_shorter in E. cbn in E. f_equal. apply lexn_mono; lia.
Qed.
Lemma tokens_skip r : tokens (skip r) = tokens r.
Proof. by rewrite (tokens_eq (skip r)), (tokens_eq r), lex1_skip. Qed.
Lemma tokens_length r : (length (tokens r) <= length r)%nat.
Proof.
  unfold tokens. generalize (length r) as n. intros n. revert r. induction n as [|n IH]; intros r; [done|]. cbn.
  destruct (lex1 r) as [[t r']|]; cbn; [|lia]. specialize (IH r'). lia.
Qed.
Lemma takew_spec r : r = takew r ++ dropw r /\ Forall (fun c => wordch c = true) (takew r)
  /\ match dropw r with [] => True | c :: _ => wordch c = false end.
Proof.
  induction r as [|c r (IH1 & IH2 & IH3)]; [done|]. cbn. destruct (wordch c) eqn:E; [|done].
  split_and!; [by rewrite <-app_comm_cons, <-IH1|by constructor|done].
Qed.

(** ** The parser on tokens

    What the parser does, token by token. *)

Definition starts (toks : list Z) (ts : list tok) : bool :=
  match ts with Sym c :: _ => strchr toks (if c =? PLUS then GT else c) | _ => false end.

Inductive pres (A : Type) : Type := POk (a : A) (ts : list tok) | PErr (msg : string) | PFuel.
Arguments POk {A} a ts. Arguments PErr {A} msg. Arguments PFuel {A}.

Fixpoint p_redirs (ts : list tok) : pres (list (Z * list Z)) :=
  match ts with
  | Sym op :: ts1 =>
      if is_redir op then
        match ts1 with
        | Word f :: ts2 =>
            match p_redirs ts2 with POk rs ts3 => POk ((op, f) :: rs) ts3 | PErr m => PErr m | PFuel => PFuel end
        | _ => PErr "missing file for redirection"
        end
      else POk [] ts
  | _ => POk [] ts
  end.
Fixpoint p_args (n argc : nat) (ts : list tok) : pres (list (list Z) * list (Z * list Z)) :=
  match n with
  | O => PFuel
  | S n' =>
      if starts [BAR; RPAR; AMP; SEMI] ts then POk ([], []) ts
      else
        match ts with
        | [] => POk ([], []) ts
        | Sym _ :: _ => PErr "syntax"
        | Word w :: ts1 =>
            if decide (MAXARGS <= S argc)%nat then PErr "too many args"
            else
              match p_redirs ts1 with
              | POk rs ts2 =>
                  match p_args n' (S argc) ts2 with
                  | POk (args, rs') ts3 => POk (w :: args, rs ++ rs') ts3
                  | PErr m => PErr m
                  | PFuel => PFuel
                  end
              | PErr m => PErr m
              | PFuel => PFuel
              end
        end
  end.
Lemma p_redirs_spec n ts : (length ts <= n)%nat -> match p_redirs ts with
  | POk rs ts' => exists ts1, ts = ts1 ++ ts' /\ redirs ts1 rs /\ starts [LT; GT] ts' = false
  | PErr m => m = "missing file for redirection"
  | PFuel => False
  end.
Proof.
  revert ts. induction n as [|n IH]; intros [|[w|op] ts] Hn; cbn in Hn; try lia; cbn [p_redirs]; try (exists []; split_and!; [done|constructor|done]).
  destruct (is_redir op) eqn:Hop.
  - destruct ts as [|[f|c] ts]; [done| |done]. specialize (IH ts ltac:(cbn in Hn; lia)). destruct (p_redirs ts) as [rs ts'|m|]; [|done|done].
    destruct IH as (ts1 & -> & H1 & H2). exists (Sym op :: Word f :: ts1). split_and!; [done|by constructor|done].
  - exists []. split_and!; [done|constructor|]. rewrite <-Hop. cbn [starts]. unfold is_redir, strchr. cbn [existsb].
    destruct (Z.eqb_spec op PLUS) as [->|]; [done|]. by rewrite !orb_false_r.
Qed.
Lemma p_redirs_fuel ts : p_redirs ts <> PFuel.
Proof. pose proof (p_redirs_spec _ ts (le_n _)) as H. by destruct (p_redirs ts). Qed.
Lemma p_redirs_shorter ts rs ts' : p_redirs ts = POk rs ts' -> (length ts' <= length ts)%nat.
Proof.
  intros E. pose proof (p_redirs_spec _ ts (le_n _)) as H. rewrite E in H. destruct H as (ts1 & -> & _). rewrite length_app. lia.
Qed.

Definition p_simple (ts : list tok) : pres cmd :=
  match p_redirs ts with
  | POk rs ts1 =>
      match p_args (S (length ts1)) 0 ts1 with
      | POk (args, rs') ts2 => POk (wrap (rs ++ rs') (Exec args)) ts2
      | PErr m => PErr m
      | PFuel => PFuel
      end
  | PErr m => PErr m
  | PFuel => PFuel
  end.
Fixpoint p_backs (c : cmd) (ts : list tok) : cmd * list tok :=
  match ts with
  | Sym op :: ts1 => if op =? AMP then p_backs (Back c) ts1 else (c, ts)
  | _ => (c, ts)
  end.

Definition pbind {A B} (m : pres A) (k : A -> list tok -> pres B) : pres B :=
  match m with POk a ts => k a ts | PErr e => PErr e | PFuel => PFuel end.

Fixpoint p_line (fuel : nat) (ts : list tok) : pres cmd :=
  match fuel with
  | O => PFuel
  | S fuel =>
      pbind (p_pipe fuel ts) (fun c ts1 =>
        let '(c, ts2) := p_backs c ts1 in
        if starts [SEMI] ts2 then pbind (p_line fuel (tail ts2)) (fun d ts3 => POk (List c d) ts3)
        else POk c ts2)
  end
with p_pipe (fuel : nat) (ts : list tok) : pres cmd :=
  match fuel with
  | O => PFuel
  | S fuel =>
      pbind (p_exec fuel ts) (fun c ts1 =>
        if starts [BAR] ts1 then pbind (p_pipe fuel (tail ts1)) (fun d ts2 => POk (Pipe c d) ts2)
        else POk c ts1)
  end
with p_exec (fuel : nat) (ts : list tok) : pres cmd :=
  match fuel with
  | O => PFuel
  | S fuel => if starts [LPAR] ts then p_block fuel ts else p_simple ts
  end
with p_block (fuel : nat) (ts : list tok) : pres cmd :=
  match fuel with
  | O => PFuel
  | S fuel =>
      pbind (p_line fuel (tail ts)) (fun c ts1 =>
        if starts [RPAR] ts1 then pbind (p_redirs (tail ts1)) (fun rs ts2 => POk (wrap rs c) ts2)
        else PErr "syntax - missing )")
  end.

(** *** Soundness *)

Definition errors : list string := ["syntax"; "missing file for redirection"; "syntax - missing )"; "too many args"].
#[local] Ltac in_errors := unfold errors; rewrite !elem_of_cons; tauto.

Lemma simple_redirs ts1 rs1 ts2 args rs2 : redirs ts1 rs1 -> simple ts2 args rs2 -> simple (ts1 ++ ts2) args (rs1 ++ rs2).
Proof. intros H Hs. induction H; [done|]. cbn. by constructor. Qed.

Lemma p_args_sound n argc ts : (length ts < n)%nat -> (argc < MAXARGS)%nat -> match p_args n argc ts with
  | POk (args, rs) ts' => exists ts1, ts = ts1 ++ ts' /\ simple ts1 args rs /\ (argc + length args < MAXARGS)%nat
  | PErr m => m ∈ errors
  | PFuel => False
  end.
Proof.
  revert argc ts. induction n as [|n IH]; intros argc ts Hn Ha; [lia|]. cbn [p_args].
  destruct (starts [BAR; RPAR; AMP; SEMI] ts); [exists []; split_and!; [done|constructor|cbn; lia]|].
  destruct ts as [|[w|c] ts]; [exists []; split_and!; [done|constructor|cbn; lia]| |in_errors].
  destruct (decide (MAXARGS <= S argc)%nat); [in_errors|]. cbn [length] in Hn.
  pose proof (p_redirs_spec _ ts (le_n _)) as Hr. destruct (p_redirs ts) as [rs ts2|m|]; [|rewrite Hr; in_errors|done].
  destruct Hr as (ts1 & -> & Hr & _). rewrite length_app in Hn. specialize (IH (S argc) ts2 ltac:(lia) ltac:(lia)).
  destruct (p_args n (S argc) ts2) as [[args rs'] ts3|m|]; [|done|done]. destruct IH as (ts4 & -> & Hs & Hl).
  exists (Word w :: ts1 ++ ts4). split_and!; [by rewrite <-app_comm_cons, app_assoc|constructor; by apply simple_redirs|cbn; lia].
Qed.
Lemma p_simple_sound ts : match p_simple ts with
  | POk c ts' => exists ts1, ts = ts1 ++ ts' /\ derives CExec ts1 c
  | PErr m => m ∈ errors
  | PFuel => False
  end.
Proof.
  unfold p_simple. pose proof (p_redirs_spec _ ts (le_n _)) as Hr.
  destruct (p_redirs ts) as [rs ts2|m|]; [|rewrite Hr; in_errors|done]. destruct Hr as (ts1 & -> & Hr & _).
  pose proof (p_args_sound (S (length ts2)) 0 ts2 ltac:(lia) ltac:(unfold MAXARGS; lia)) as Ha.
  destruct (p_args _ 0 ts2) as [[args rs'] ts3|m|]; [|done|done]. destruct Ha as (ts4 & -> & Hs & Hl).
  exists (ts1 ++ ts4). split; [by rewrite app_assoc|]. constructor; [by apply simple_redirs|lia].
Qed.

Lemma starts_sym c ts : strchr symbols c = true -> c <> GT -> starts [c] ts = true -> ts = Sym c :: tail ts.
Proof.
  intros Hc Hg. destruct ts as [|[w|op] ts]; [done|done|]. cbn. unfold strchr. cbn [existsb]. rewrite orb_false_r.
  destruct (op =? PLUS); intros H; apply Z.eqb_eq in H; congruence.
Qed.
Lemma p_backs_sound c ts : exists k, ts = replicate k (Sym AMP) ++ (p_backs c ts).2 /\ (p_backs c ts).1 = backs k c.
Proof.
  revert c. induction ts as [|[w|op] ts IH]; intros c; [by exists 0%nat|by exists 0%nat|]. cbn [p_backs].
  destruct (Z.eqb_spec op AMP) as [->|]; [|by exists 0%nat]. destruct (IH (Back c)) as (k & E1 & E2).
  exists (S k). by rewrite E1 at 1.
Qed.

Definition rank (k : cat) : nat := match k with CLine => 4 | CPipe => 3 | CExec => 2 end.
Definition sound (k : cat) (fuel : nat) (ts : list tok) (r : pres cmd) : Prop :=
  match r with
  | POk c ts' => exists ts1, ts = ts1 ++ ts' /\ derives k ts1 c
  | PErr m => m ∈ errors
  | PFuel => (fuel < 4 * length ts + rank k)%nat
  end.

Lemma p_sound fuel :
  (forall ts, sound CLine fuel ts (p_line fuel ts)) /\ (forall ts, sound CPipe fuel ts (p_pipe fuel ts)) /\
  (forall ts, sound CExec fuel ts (p_exec fuel ts)) /\
  (forall ts, starts [LPAR] ts = true -> sound CExec (S fuel) ts (p_block fuel ts)).
Proof.
  unfold sound. induction fuel as [|fuel (IH1 & IH2 & IH3 & IH4)]; [split_and!; intros ts; cbn; lia|].
  split_and!; intros ts.
  - cbn [p_line]. specialize (IH2 ts). destruct (p_pipe fuel ts) as [c ts1|m|]; [|done|cbn in *; lia]. cbn [pbind].
    destruct IH2 as (ts0 & -> & D1). destruct (p_backs_sound c ts1) as (k & E1 & E2).
    destruct (p_backs c ts1) as [c2 ts2]. cbn [fst snd] in *. subst c2.
    destruct (starts [SEMI] ts2) eqn:Hs.
    + apply starts_sym in Hs; [|done|done]. set (ts3 := tail ts2) in *. specialize (IH1 ts3).
      destruct (p_line fuel ts3) as [d ts4|m|]; cbn [pbind]; [|done|].
      * destruct IH1 as (ts5 & E5 & D5). exists (ts0 ++ replicate k (Sym AMP) ++ Sym SEMI :: ts5).
        split; [|by constructor]. rewrite E1, Hs, E5. by rewrite <-!app_assoc.
      * rewrite length_app, E1, length_app, Hs. cbn [length rank] in *. lia.
    + exists (ts0 ++ replicate k (Sym AMP)). split; [by rewrite <-app_assoc, <-E1|by constructor].
  - cbn [p_pipe]. specialize (IH3 ts). destruct (p_exec fuel ts) as [c ts1|m|]; [|done|cbn in *; lia]. cbn [pbind].
    destruct IH3 as (ts0 & -> & D1). destruct (starts [BAR] ts1) eqn:Hs.
    + apply starts_sym in Hs; [|done|done]. set (ts3 := tail ts1) in *. specialize (IH2 ts3).
      destruct (p_pipe fuel ts3) as [d ts4|m|]; cbn [pbind]; [|done|].
      * destruct IH2 as (ts5 & E5 & D5). exists (ts0 ++ Sym BAR :: ts5). split; [|by constructor]. by rewrite Hs, E5, <-app_assoc.
      * rewrite length_app, Hs. cbn [length rank] in *. lia.
    + exists ts0. split; [done|by constructor].
  - cbn [p_exec]. destruct (starts [LPAR] ts) eqn:Hs.
    + specialize (IH4 ts Hs). destruct (p_block fuel ts) as [c ts1|m|]; [done|done|]. done.
    + pose proof (p_simple_sound ts) as H. by destruct (p_simple ts).
  - intros Hs. apply starts_sym in Hs; [|done|done]. cbn [p_block]. set (ts1 := tail ts) in *. specialize (IH1 ts1).
    destruct (p_line fuel ts1) as [c ts2|m|]; cbn [pbind]; [|done|rewrite Hs; cbn [length rank] in *; lia].
    destruct IH1 as (ts3 & E3 & D). destruct (starts [RPAR] ts2) eqn:Hr; [|in_errors].
    apply starts_sym in Hr; [|done|done]. set (ts4 := tail ts2) in *. pose proof (p_redirs_spec _ ts4 (le_n _)) as Hp.
    destruct (p_redirs ts4) as [rs ts5|m|]; cbn [pbind]; [|rewrite Hp; in_errors|done].
    destruct Hp as (ts6 & E6 & R & _). exists (Sym LPAR :: ts3 ++ Sym RPAR :: ts6). split; [|by constructor].
    by rewrite Hs, E3, Hr, E6, <-app_comm_cons, <-app_assoc.
Qed.

(** *** Completeness *)

(** What may come after a phrase. *)
Definition follows (k : cat) : list Z :=
  match k with CLine => [RPAR] | CPipe => [RPAR; AMP; SEMI] | CExec => [BAR; RPAR; AMP; SEMI] end.
Definition follow (k : cat) (ts : list tok) : Prop :=
  ts = [] \/ exists c ts', ts = Sym c :: ts' /\ c ∈ follows k.

Lemma follow_weaken k k' ts : (forall c, c ∈ follows k -> c ∈ follows k') -> follow k ts -> follow k' ts.
Proof. intros H [->|(c & ts' & -> & Hc)]; [by left|right]. exists c, ts'. split; [done|by apply H]. Qed.
Lemma follow_sym k c ts : c ∈ follows k -> follow k (Sym c :: ts).
Proof. intros H. right. by exists c, ts. Qed.

#[local] Ltac in_follows := try (intros ? Hin; revert Hin); cbn [follows]; rewrite !elem_of_cons; tauto.
#[local] Ltac follow_cases H :=
  let c := fresh "c" in let ts := fresh "ts" in let Hc := fresh "Hc" in
  destruct H as [->|(c & ts & -> & Hc)]; [|cbn [follows] in Hc; rewrite !elem_of_cons, elem_of_nil in Hc].

Lemma follow_starts ts : follow CExec ts -> ts = [] \/ starts [BAR; RPAR; AMP; SEMI] ts = true.
Proof. intros H. follow_cases H; [by left|right]. destruct Hc as [->|[->|[->|[->|[]]]]]; done. Qed.
Lemma follow_no_redir ts : follow CExec ts -> p_redirs ts = POk [] ts.
Proof. intros H. follow_cases H; [done|]. destruct Hc as [->|[->|[->|[->|[]]]]]; done. Qed.
Lemma follow_pipe ts : follow CPipe ts -> starts [BAR] ts = false.
Proof. intros H. follow_cases H; [done|]. destruct Hc as [->|[->|[->|[]]]]; done. Qed.
Lemma follow_line ts : follow CLine ts -> starts [SEMI] ts = false /\ forall c, p_backs c ts = (c, ts).
Proof. intros H. follow_cases H; [done|]. destruct Hc as [->|[]]. done. Qed.

Lemma redirs_complete ts rs ts' : redirs ts rs -> follow CExec ts' -> p_redirs (ts ++ ts') = POk rs ts'.
Proof.
  intros H Hf. induction H as [|op f ts rs Hop _ IH]; [by apply follow_no_redir|]. cbn [app p_redirs]. by rewrite Hop, IH.
Qed.

(** The arguments, after the redirections in front of them. *)
Definition p_items (n argc : nat) (ts : list tok) : pres (list (list Z) * list (Z * list Z)) :=
  pbind (p_redirs ts) (fun rs ts1 => pbind (p_args n argc ts1) (fun '(args, rs') ts2 => POk (args, rs ++ rs') ts2)).
Lemma simple_complete ts args rs ts' n argc : simple ts args rs -> follow CExec ts' -> (length (ts ++ ts') < n)%nat ->
  (argc + length args < MAXARGS)%nat -> p_items n argc (ts ++ ts') = POk (args, rs) ts'.
Proof.
  intros H Hf. revert n argc. induction H as [|w ts args rs _ IH|op f ts args rs Hop _ IH]; intros n argc Hn Ha.
  - unfold p_items. cbn [app]. rewrite follow_no_redir by done. cbn [pbind app]. destruct n as [|n]; [lia|]. cbn [p_args].
    destruct (follow_starts ts' Hf) as [->|Hs]; [done|]. by rewrite Hs.
  - unfold p_items. rewrite <-app_comm_cons in *. cbn [p_redirs pbind]. destruct n as [|n]; [lia|]. cbn [p_args starts].
    cbn [length] in Hn, Ha. rewrite decide_False by lia. specialize (IH n (S argc) ltac:(lia) ltac:(lia)). unfold p_items in IH.
    destruct (p_redirs (ts ++ ts')) as [rs1 ts1|m|]; cbn [pbind] in *; [|done|done].
    destruct (p_args n (S argc) ts1) as [[args' rs'] ts2|m|]; cbn [pbind] in *; [|done|done].
    injection IH as -> -> ->. done.
  - unfold p_items. rewrite <-!app_comm_cons in *. cbn [p_redirs]. rewrite Hop. cbn [length] in Hn.
    specialize (IH n argc ltac:(lia) Ha). unfold p_items in IH.
    destruct (p_redirs (ts ++ ts')) as [rs1 ts1|m|]; cbn [pbind] in *; [|done|done].
    destruct (p_args n argc ts1) as [[args' rs'] ts2|m|]; cbn [pbind] in *; [|done|done].
    injection IH as -> <- ->. done.
Qed.
Lemma p_args_mono n m argc ts : p_args n argc ts <> PFuel -> (n <= m)%nat -> p_args m argc ts = p_args n argc ts.
Proof.
  revert m argc ts. induction n as [|n IH]; intros [|m] argc ts H Hm; [done|done|lia|]. cbn [p_args] in *.
  destruct (starts [BAR; RPAR; AMP; SEMI] ts); [done|]. destruct ts as [|[w|c] ts]; [done| |done].
  destruct (decide (MAXARGS <= S argc)%nat); [done|]. destruct (p_redirs ts) as [rs ts1|e|]; [|done|done].
  rewrite (IH m (S argc) ts1); [done| |lia]. intros E. by rewrite E in H.
Qed.
Lemma p_simple_complete ts args rs ts' : simple ts args rs -> (length args < MAXARGS)%nat -> follow CExec ts' ->
  p_simple (ts ++ ts') = POk (wrap rs (Exec args)) ts'.
Proof.
  intros Hs Hl Hf. pose proof (simple_complete ts args rs ts' (S (length (ts ++ ts'))) 0 Hs Hf ltac:(lia) Hl) as H.
  unfold p_items in H. unfold p_simple.
  pose proof (p_redirs_spec _ (ts ++ ts') (le_n _)) as Hr.
  destruct (p_redirs (ts ++ ts')) as [rs1 ts1|m|]; cbn [pbind] in *; [|done|done].
  pose proof (p_args_sound (S (length ts1)) 0 ts1 ltac:(lia) ltac:(unfold MAXARGS; lia)) as Ha.
  destruct Hr as (ts3 & E3 & _). rewrite (p_args_mono (S (length ts1))) in H;
    [|intros E; by rewrite E in Ha|rewrite E3, length_app; lia].
  destruct (p_args (S (length ts1)) 0 ts1) as [[args1 rs2] ts2|m|]; cbn [pbind] in H; [|done|done].
  injection H as -> <- ->. done.
Qed.

Lemma backs_complete k c ts : (forall d, p_backs d ts = (d, ts)) -> p_backs c (replicate k (Sym AMP) ++ ts) = (backs k c, ts).
Proof. intros H. revert c. induction k as [|k IH]; intros c; [apply H|]. cbn. apply IH. Qed.
Lemma follow_backs k ts : follow CPipe ts -> follow CPipe (replicate k (Sym AMP) ++ ts).
Proof. destruct k as [|k]; [done|]. intros _. apply follow_sym. in_follows. Qed.

Definition p_cat (k : cat) : nat -> list tok -> pres cmd :=
  match k with CLine => p_line | CPipe => p_pipe | CExec => p_exec end.

Lemma p_complete k ts c : derives k ts c -> forall ts' fuel, follow k ts' -> (4 * length (ts ++ ts') + rank k <= fuel)%nat ->
  p_cat k fuel (ts ++ ts') = POk c ts'.
Proof.
  induction 1 as [ts args rs Hs Hl|ts c ts1 rs _ IH Hr|ts c _ IH|ts c ts1 d _ IH1 _ IH2|ts c k _ IH|ts c k ts1 d _ IH1 _ IH2];
    intros ts' fuel Hf Hfuel; (destruct fuel as [|fuel]; [cbn [rank] in Hfuel; lia|]); cbn [p_cat rank] in *.
  - cbn [p_exec]. assert (Hn : starts [LPAR] (ts ++ ts') = false).
    { destruct Hs; [cbn [app]; follow_cases Hf; [done|]; by destruct Hc as [->|[->|[->|[->|[]]]]]|done|].
      cbn. unfold is_redir in *. destruct (Z.eqb_spec op PLUS); [done|]. destruct (Z.eqb_spec op LT) as [->|]; [done|].
      destruct (Z.eqb_spec op GT) as [->|]; [done|]. done. }
    rewrite Hn. by apply p_simple_complete.
  - rewrite <-app_comm_cons, <-app_assoc, <-app_comm_cons in *. cbn [length] in Hfuel. cbn [p_exec]. change (starts [LPAR] (Sym LPAR :: _)) with true.
    cbv iota. destruct fuel as [|fuel]; [lia|]. cbn [p_block tail].
    rewrite IH; [|by apply follow_sym; in_follows|lia]. cbn [pbind tail]. change (starts [RPAR] (Sym RPAR :: _)) with true.
    cbv iota. by rewrite (redirs_complete ts1 rs ts').
  - cbn [p_pipe]. rewrite IH; [|eapply follow_weaken; [|exact Hf]; in_follows|lia]. cbn [pbind]. by rewrite follow_pipe.
  - cbn [p_pipe]. rewrite <-app_assoc, <-app_comm_cons in *. rewrite length_app in Hfuel. cbn [length] in Hfuel.
    rewrite IH1; [|by apply follow_sym; in_follows|rewrite length_app; cbn [length]; lia]. cbn [pbind tail].
    change (starts [BAR] (Sym BAR :: _)) with true. cbv iota. by rewrite IH2 by (done || lia).
  - cbn [p_line]. rewrite <-app_assoc in *. destruct (follow_line ts' Hf) as [Hs Hb].
    rewrite IH; [|apply follow_backs; eapply follow_weaken; [|exact Hf]; in_follows|lia]. cbn [pbind].
    rewrite backs_complete by done. by rewrite Hs.
  - cbn [p_line]. rewrite <-!app_assoc, <-app_comm_cons in *. rewrite !length_app in Hfuel. cbn [length] in Hfuel.
    rewrite IH1; [|apply follow_backs, follow_sym; in_follows|rewrite !length_app; cbn [length]; lia]. cbn [pbind].
    rewrite backs_complete by done. cbv iota. change (starts [SEMI] (Sym SEMI :: _)) with true. cbv iota. cbn [tail].
    by rewrite IH2 by (done || lia).
Qed.


(** ** The line in memory *)

Section line.
Context (line junk : list Z) (Hline : Forall (fun c => c <> 0) line).
Abbreviation es := (length line).
Abbreviation buf := (line ++ 0 :: junk).
Abbreviation st ns := (mk_sst buf ns).
Abbreviation rest ps := (drop ps line).

(** A word between two positions, with what ends it. *)
Definition delim (d : Z) : Prop := d = 0 \/ wordch d = false.
Definition at_word (q e : nat) (w : list Z) : Prop :=
  e = (q + length w)%nat /\ w <> [] /\ Forall (fun c => wordch c = true /\ c <> 0) w
  /\ (forall i, (i < length w)%nat -> buf !! (q + i)%nat = w !! i) /\ exists d, buf !! e = Some d /\ delim d.

Lemma ch_in i c ns : line !! i = Some c -> ch i (st ns) = Ok c (st ns).
Proof. intros H. unfold ch. cbn [sbuf]. by rewrite (lookup_app_l_Some _ _ _ _ H). Qed.
Lemma ch_end ns : ch es (st ns) = Ok 0 (st ns).
Proof. unfold ch. cbn [sbuf]. by rewrite list_lookup_middle. Qed.
Lemma rest_cons s : (s < es)%nat -> exists c, line !! s = Some c /\ rest s = c :: rest (S s).
Proof. intros H. destruct (lookup_lt_is_Some_2 line s H) as [c Hc]. exists c. split; [done|]. by apply drop_S. Qed.
Lemma rest_nil s : rest s = [] <-> (es <= s)%nat.
Proof. split; [intros H%(f_equal length); rewrite length_drop in H; cbn in H; lia|apply drop_ge]. Qed.
(** The position of a suffix. *)
Lemma ch_head s c r ns : rest s = c :: r -> ch s (st ns) = Ok c (st ns) /\ rest (S s) = r /\ (s < es)%nat /\ c <> 0.
Proof.
  intros H. assert (Hs : (s < es)%nat) by (destruct (decide (s < es)%nat); [done|]; rewrite drop_ge in H by lia; done).
  destruct (rest_cons s Hs) as (d & Hd & E). rewrite E in H. injection H as -> <-.
  split_and!; [by apply ch_in|done|done|]. rewrite Forall_forall in Hline. apply Hline. by eapply list_elem_of_lookup_2.
Qed.

Lemma skip_ws_ok n s ns : (s + n = es)%nat -> exists s', skip_ws n s (st ns) = Ok s' (st ns)
  /\ (s <= s' <= es)%nat /\ rest s' = skip (rest s).
Proof.
  revert s. induction n as [|n IH]; intros s Hn; cbn [skip_ws].
  - exists s. rewrite drop_ge by lia. split_and!; [done|lia|lia|done].
  - destruct (rest_cons s) as (c & Hc & E); [lia|]. rewrite (bind_Ok _ _ _ _ _ (ch_in _ _ ns Hc)), E. cbn [skip].
    destruct (strchr whitespace c).
    + destruct (IH (S s)) as (s' & E1 & H1 & H2); [lia|]. exists s'. split_and!; [done|lia|lia|done].
    + exists s. split_and!; [done|lia|lia|done].
Qed.
Lemma word_end_ok n s ns : (s + n = es)%nat -> exists e, word_end n s (st ns) = Ok e (st ns)
  /\ e = (s + length (takew (rest s)))%nat /\ (e <= es)%nat /\ rest e = dropw (rest s).
Proof.
  revert s. induction n as [|n IH]; intros s Hn; cbn [word_end].
  - exists s. rewrite drop_ge by lia. cbn. split_and!; [done|lia|lia|done].
  - destruct (rest_cons s) as (c & Hc & E); [lia|]. rewrite (bind_Ok _ _ _ _ _ (ch_in _ _ ns Hc)), E. cbn [takew dropw].
    fold (wordch c). destruct (wordch c).
    + destruct (IH (S s)) as (e & E1 & H1 & H2 & H3); [lia|]. exists e. cbn [length]. split_and!; [done|lia|lia|done].
    + exists s. cbn. split_and!; [done|lia|lia|done].
Qed.
Lemma word_at q : takew (rest q) <> [] -> at_word q (q + length (takew (rest q))) (takew (rest q)).
Proof.
  intros Hne. destruct (takew_spec (rest q)) as (E & Hw & Hd). set (w := takew (rest q)) in *.
  assert (Hq : (q <= es)%nat) by (destruct (decide (q <= es)%nat); [done|]; exfalso; apply Hne; unfold w; by rewrite drop_ge by lia).
  assert (El : line = take q line ++ w ++ dropw (rest q)) by (by rewrite <-E, take_drop).
  assert (Hlen : length (take q line) = q) by (rewrite length_take; lia).
  split; [done|]. split; [done|]. split; [|split].
  - apply Forall_and. split; [done|]. rewrite El in Hline. apply Forall_app in Hline as [_ H]. by apply Forall_app in H as [? _].
  - intros i Hi. rewrite El, <-!app_assoc. rewrite lookup_app_r by lia. rewrite lookup_app_l by lia. f_equal. lia.
  - rewrite El, <-!app_assoc. rewrite lookup_app_r by lia. rewrite lookup_app_r by lia.
    replace (q + length w - length (take q line) - length w)%nat with 0%nat by lia.
    destruct (dropw (rest q)) as [|c r]; [exists 0; by split; [|left]|exists c; by split; [|right]].
Qed.

(** ** [gettoken] and [peek] *)

Definition code (t : tok) : Z := match t with Word _ => WORD | Sym c => c end.

Lemma gettoken_end ps ns : (ps <= es)%nat -> tokens (rest ps) = [] -> gettoken ps es (st ns) = Ok (0, es, es, es) (st ns).
Proof.
  intros Hps Ht. rewrite tokens_eq in Ht. destruct (skip_ws_ok (es - ps) ps ns) as (s & E & Hs & Er); [lia|].
  assert (Hn : skip (rest ps) = []).
  { unfold lex1 in Ht. destruct (skip (rest ps)) as [|c r]; [done|].
    destruct (c =? GT); [destruct r as [|c2 r]; [done|]; by destruct (c2 =? GT)|]. by destruct (strchr symbols c). }
  rewrite Hn in Er. apply rest_nil in Er. assert (s = es) as -> by lia.
  unfold gettoken. rewrite (bind_Ok _ _ _ _ _ E), (bind_Ok _ _ _ _ _ (ch_end ns)).
  rewrite (bind_Ok _ _ _ (0, es) (st ns)) by done. cbv beta iota. by rewrite Nat.sub_diag.
Qed.

(** The switch on the first character. *)
Definition one_token (s : nat) (c : Z) : M sst (Z * nat) :=
  if c =? 0 then mret (c, s)
  else if (c =? BAR) || (c =? LPAR) || (c =? RPAR) || (c =? SEMI) || (c =? AMP) || (c =? LT) then mret (c, S s)
  else if c =? GT then
    c2 ← ch (S s);
    if c2 =? GT then mret (PLUS, S (S s)) else mret (c, S s)
  else e ← word_end (es - s) s; mret (WORD, e).

Lemma strchr_symbols c : strchr symbols c =
  ((c =? BAR) || (c =? LPAR) || (c =? RPAR) || (c =? SEMI) || (c =? AMP) || (c =? LT)) || (c =? GT).
Proof.
  unfold strchr, symbols. cbn [existsb]. destruct (c =? LT), (c =? BAR), (c =? GT), (c =? AMP), (c =? SEMI), (c =? LPAR), (c =? RPAR); done.
Qed.

Lemma one_token_ok s c r t r' ns : rest s = c :: r -> strchr whitespace c = false -> lex1 (rest s) = Some (t, r') ->
  exists e, one_token s c (st ns) = Ok (code t, e) (st ns) /\ (s < e <= es)%nat /\ rest e = r'
    /\ (forall w, t = Word w -> at_word s e w).
Proof.
  intros Hs Hws Hlex. destruct (ch_head s c r ns Hs) as (Ec & Er & Hlt & Hc0).
  unfold lex1 in Hlex. rewrite Hs in Hlex. cbn [skip] in Hlex. rewrite Hws in Hlex. rewrite strchr_symbols in Hlex.
  unfold one_token. replace (c =? 0) with false by (symmetry; by apply Z.eqb_neq).
  destruct (c =? GT) eqn:Eg.
  - apply Z.eqb_eq in Eg as ->. cbn [orb Z.eqb]. change (GT =? BAR) with false. cbn.
    destruct r as [|c2 r2].
    + assert (S s = es) as Ee by (apply rest_nil in Er; lia). rewrite Ee, (bind_Ok _ _ _ _ _ (ch_end ns)).
      injection Hlex as <- <-. exists es. cbn. split_and!; [done|lia|lia|by apply drop_ge|done].
    + destruct (ch_head (S s) c2 r2 ns Er) as (Ec2 & Er2 & Hlt2 & _). rewrite (bind_Ok _ _ _ _ _ Ec2).
      destruct (c2 =? GT); injection Hlex as <- <-; [exists (S (S s))|exists (S s)]; (split_and!; [done|lia|lia|done|done]).
  - rewrite orb_false_r in Hlex.
    destruct ((c =? BAR) || (c =? LPAR) || (c =? RPAR) || (c =? SEMI) || (c =? AMP) || (c =? LT)) eqn:Esym.
    + injection Hlex as <- <-. exists (S s). split_and!; [done|lia|lia|done|done].
    + injection Hlex as <- <-.
      destruct (word_end_ok (es - s) s ns) as (e & E1 & Ee & He & Hr); [lia|].
      assert (Hw : wordch c = true).
      { unfold wordch. rewrite Hws, strchr_symbols, Esym, Eg. done. }
      assert (Hne : takew (rest s) <> []) by (rewrite Hs; cbn [takew]; by rewrite Hw).
      change (if wordch c then c :: takew r else []) with (takew (c :: r)).
      change (if wordch c then dropw r else c :: r) with (dropw (c :: r)).
      rewrite (bind_Ok _ _ _ _ _ E1), <-Hs. exists e. split_and!; [done| |done|done|].
      * destruct (takew (rest s)); [done|]. cbn in Ee. lia.
      * intros w [= <-]. rewrite Ee. by apply word_at.
Qed.

Lemma gettoken_tok ps t ts ns : (ps <= es)%nat -> tokens (rest ps) = t :: ts ->
  exists q e ps', gettoken ps es (st ns) = Ok (code t, q, e, ps') (st ns) /\ (ps < ps' <= es)%nat
    /\ tokens (rest ps') = ts /\ (forall w, t = Word w -> at_word q e w).
Proof.
  intros Hps Ht. rewrite tokens_eq in Ht. destruct (lex1 (rest ps)) as [[t0 r']|] eqn:El; [|done]. injection Ht as -> <-.
  destruct (skip_ws_ok (es - ps) ps ns) as (s & E & Hs & Er); [lia|].
  rewrite <-lex1_skip, <-Er in El. destruct (rest s) as [|c r] eqn:Ers; [done|].
  assert (Hws : strchr whitespace c = false) by (by eapply skip_head). rewrite <-Ers in El.
  destruct (one_token_ok s c r t r' ns Ers Hws El) as (e & E1 & He & Hr' & Hw).
  destruct (skip_ws_ok (es - e) e ns) as (ps' & E2 & Hps' & Er'); [lia|].
  exists s, e, ps'. split_and!; [|lia|lia|by rewrite Er', tokens_skip, Hr'|done].
  unfold gettoken. rewrite (bind_Ok _ _ _ _ _ E). destruct (ch_head s c r ns Ers) as (Ec & _). rewrite (bind_Ok _ _ _ _ _ Ec).
  fold (one_token s c). rewrite (bind_Ok _ _ _ _ _ E1). cbv beta iota. by rewrite (bind_Ok _ _ _ _ _ E2).
Qed.

Lemma peek_ok toks ps ns : (ps <= es)%nat -> forallb (strchr symbols) toks = true ->
  exists ps', peek ps es toks (st ns) = Ok (starts toks (tokens (rest ps)), ps') (st ns) /\ (ps <= ps' <= es)%nat
    /\ tokens (rest ps') = tokens (rest ps) /\ (ps' = es <-> tokens (rest ps) = []).
Proof.
  intros Hps Hsym. destruct (skip_ws_ok (es - ps) ps ns) as (s & E & Hs & Er); [lia|]. exists s.
  unfold peek. rewrite (bind_Ok _ _ _ _ _ E), Er, tokens_skip. rewrite (tokens_eq (rest ps)). rewrite <-lex1_skip, <-Er.
  destruct (rest s) as [|c r] eqn:Ers.
  - assert (s = es) as -> by (apply rest_nil in Ers; lia). rewrite (bind_Ok _ _ _ _ _ (ch_end ns)). cbn.
    split_and!; [done|lia|lia|done|done].
  - destruct (ch_head s c r ns Ers) as (Ec & _ & Hlt & Hc0). rewrite (bind_Ok _ _ _ _ _ Ec).
    assert (Hws : strchr whitespace c = false) by (by eapply skip_head).
    replace (c =? 0) with false by (symmetry; by apply Z.eqb_neq). cbn [negb andb].
    unfold lex1. cbn [skip]. rewrite Hws. destruct (c =? GT) eqn:Eg.
    + apply Z.eqb_eq in Eg as ->. destruct r as [|c2 r]; [|destruct (c2 =? GT)]; cbn; (split_and!; [done|lia|lia|done|split; [lia|done]]).
    + destruct (strchr symbols c) eqn:Esym; cbn.
      * replace (c =? PLUS) with false; [split_and!; [done|lia|lia|done|split; [lia|done]]|].
        symmetry. apply Z.eqb_neq. intros ->. done.
      * assert (Hno : strchr toks c = false).
        { destruct (strchr toks c) eqn:Et; [|done]. unfold strchr in Et. apply existsb_exists in Et as (d & Hd & Ed).
          apply Z.eqb_eq in Ed as ->. rewrite forallb_forall in Hsym. rewrite Hsym in Esym by done. done. }
        rewrite Hno. split_and!; [done|lia|lia|done|split; [lia|done]].
Qed.

Lemma lex1_sym r c r' : lex1 r = Some (Sym c, r') -> c = PLUS \/ strchr symbols c = true.
Proof.
  unfold lex1. destruct (skip r) as [|d r0]; [done|]. destruct (Z.eqb_spec d GT) as [->|].
  - destruct r0 as [|d2 r0]; [intros [= <- _]; by right|]. destruct (d2 =? GT); intros [= <- _]; [by left|by right].
  - destruct (strchr symbols d) eqn:E; [|done]. intros [= <- _]. by right.
Qed.
Lemma sym_not_word ps c ts : (ps <= es)%nat -> tokens (rest ps) = Sym c :: ts -> (c =? WORD) = false /\ (c =? 0) = false.
Proof.
  intros _ H. rewrite tokens_eq in H. destruct (lex1 (rest ps)) as [[t r]|] eqn:E; [|done]. injection H as -> _.
  apply lex1_sym in E as [->|E]; [done|]. split; apply Z.eqb_neq; intros ->; done.
Qed.

(** ** Nodes *)

(** Node [p] is the command [c]; [W q e w] says what the pointers to a word are. *)
Inductive rep (W : nat -> nat -> list Z -> Prop) (ns : list node) : nat -> cmd -> Prop :=
  | rep_exec p pes args : ns !! p = Some (execcmd ((Some ∘ fst <$> pes) ++ replicate (MAXARGS - length pes) None)
                                                  ((Some ∘ snd <$> pes) ++ replicate (MAXARGS - length pes) None)) ->
      (length pes < MAXARGS)%nat -> Forall2 (fun (pe : nat * nat) w => W pe.1 pe.2 w) pes args -> rep W ns p (Exec args)
  | rep_redir p p' q e mode fd c f : ns !! p = Some (redircmd p' q e mode fd) -> (p' < p)%nat -> W q e f -> rep W ns p' c ->
      rep W ns p (Redir c f mode fd)
  | rep_pipe p l r c d : ns !! p = Some (pipecmd l r) -> (l < p)%nat -> (r < p)%nat -> rep W ns l c -> rep W ns r d ->
      rep W ns p (Pipe c d)
  | rep_list p l r c d : ns !! p = Some (listcmd l r) -> (l < p)%nat -> (r < p)%nat -> rep W ns l c -> rep W ns r d ->
      rep W ns p (List c d)
  | rep_back p p' c : ns !! p = Some (backcmd p') -> (p' < p)%nat -> rep W ns p' c -> rep W ns p (Back c).

Lemma rep_mono W ns ns' p c : (forall i n, ns !! i = Some n -> ns' !! i = Some n) -> rep W ns p c -> rep W ns' p c.
Proof. intros H. induction 1; [eapply rep_exec|eapply rep_redir|eapply rep_pipe|eapply rep_list|eapply rep_back]; eauto. Qed.
Lemma rep_lt W ns p c : rep W ns p c -> (p < length ns)%nat.
Proof. destruct 1; by eapply lookup_lt_Some. Qed.

(** From [r], redirections lead to [p]. *)
Inductive chain (ns : list node) (p : nat) : nat -> list (Z * list Z) -> Prop :=
  | ch_nil : chain ns p p []
  | ch_snoc r r' q e op f rs : ns !! r = Some (if op =? LT then redircmd r' q e O_RDONLY 0 else redircmd r' q e (Z.lor O_WRONLY O_CREATE) 1) ->
      (r' < r)%nat -> at_word q e f -> chain ns p r' rs -> chain ns p r (rs ++ [(op, f)]).

Lemma chain_rep ns p r rs c : chain ns p r rs -> rep at_word ns p c -> rep at_word ns r (wrap rs c).
Proof.
  intros H Hp. induction H as [|r r' q e op f rs Hr Hlt Hw _ IH]; [done|].
  unfold wrap. rewrite foldl_snoc. fold (wrap rs c). unfold redirect. cbn [fst snd].
  destruct (op =? LT); by eapply rep_redir.
Qed.
Lemma chain_mono ns ns' p r rs : (forall i n, ns !! i = Some n -> (forall a b, n <> execcmd a b) -> ns' !! i = Some n) ->
  chain ns p r rs -> chain ns' p r rs.
Proof.
  intros H. induction 1 as [|r r' q e op f rs Hr Hlt Hw _ IH]; [constructor|].
  eapply ch_snoc; [apply H; [exact Hr|by destruct (op =? LT)]|done|done|done].
Qed.
Lemma chain_app ns p r rs r2 rs2 : chain ns p r rs -> chain ns r r2 rs2 -> chain ns p r2 (rs ++ rs2).
Proof.
  intros H. induction 1 as [|r2 r' q e op f rs2 Hr Hlt Hw _ IH]; [by rewrite app_nil_r|].
  rewrite app_assoc. by eapply ch_snoc.
Qed.

(** ** The parser works token by token *)

(** Nodes are only added. *)
Definition ext (ns ns' : list node) : Prop := forall i n, ns !! i = Some n -> ns' !! i = Some n.
Lemma ext_refl ns : ext ns ns.
Proof. by intros i n. Qed.
Lemma ext_trans ns1 ns2 ns3 : ext ns1 ns2 -> ext ns2 ns3 -> ext ns1 ns3.
Proof. intros H1 H2 i n H. by apply H2, H1. Qed.
Lemma ext_new ns n : ext ns (ns ++ [n]).
Proof. intros i m H. by apply lookup_app_l_Some. Qed.
#[local] Hint Resolve ext_refl ext_new : core.

(** [parses m r ok]: from the line, [m] does what the token parser does. *)
Definition parses {A B} (m : M sst A) (ns : list node) (r : pres B) (ok : A -> list node -> B -> list tok -> Prop) : Prop :=
  match r with
  | POk b ts => exists a ns', m (st ns) = Ok a (st ns') /\ ext ns ns' /\ ok a ns' b ts
  | PErr msg => exists s', m (st ns) = Panic msg s'
  | PFuel => m (st ns) = NoFuel
  end.
Definition at_tokens (ps ps' : nat) (ts : list tok) : Prop := (ps <= ps' <= es)%nat /\ tokens (rest ps') = ts.

Lemma parses_bind {A B C D} (m : M sst A) (k : A -> M sst C) ns (r : pres B) (kr : B -> list tok -> pres D) ok ok' :
  parses m ns r ok -> (forall a ns' b ts, ext ns ns' -> ok a ns' b ts -> parses (k a) ns' (kr b ts) ok') ->
  parses (m ≫= k) ns (pbind r kr) ok'.
Proof.
  intros Hm Hk. destruct r as [b ts|msg|]; cbn [parses pbind] in *.
  - destruct Hm as (a & ns' & E & Hp & Hok). specialize (Hk a ns' b ts Hp Hok). unfold parses in *. rewrite (bind_Ok _ _ _ _ _ E).
    destruct (kr b ts) as [d ts'|msg|]; [|done|done]. destruct Hk as (c & ns2 & E2 & Hp2 & Hok2).
    exists c, ns2. split_and!; [done|by eapply ext_trans|done].
  - destruct Hm as [s' E]. exists s'. unfold mbind, M_bind. by rewrite E.
  - unfold mbind, M_bind. by rewrite Hm.
Qed.
(** A step that the token parser does not see. *)
Lemma parses_step {A B C} (m : M sst A) (k : A -> M sst C) ns ns' a (r : pres B) ok :
  m (st ns) = Ok a (st ns') -> ext ns ns' -> parses (k a) ns' r ok -> parses (m ≫= k) ns r ok.
Proof.
  intros E Hp H. unfold parses in *. rewrite (bind_Ok _ _ _ _ _ E). destruct r as [b ts|msg|]; [|done|done].
  destruct H as (c & ns2 & E2 & Hp2 & Hok). exists c, ns2. split_and!; [done|by eapply ext_trans|done].
Qed.
Lemma parses_mono {A B} (m : M sst A) ns (r : pres B) (ok ok' : A -> list node -> B -> list tok -> Prop) :
  parses m ns r ok -> (forall a ns' b ts, ext ns ns' -> ok a ns' b ts -> ok' a ns' b ts) -> parses m ns r ok'.
Proof. intros H Hok. destruct r as [b ts|msg|]; [|done|done]. destruct H as (a & ns' & E & Hp & H). exists a, ns'. eauto. Qed.

Lemma new_node_Ok n ns : new_node n (st ns) = Ok (length ns) (st (ns ++ [n])).
Proof. done. Qed.

Lemma is_redir_starts op ts : starts [LT; GT] (Sym op :: ts) = is_redir op.
Proof.
  cbn [starts]. unfold is_redir, strchr. cbn [existsb]. destruct (Z.eqb_spec op PLUS) as [->|]; [done|].
  by rewrite !orb_false_r.
Qed.

Lemma redir_none cmd ps ns : (ps <= es)%nat -> starts [LT; GT] (tokens (rest ps)) = false ->
  exists ps', redir_round es (cmd, ps) (st ns) = Ok (inr (cmd, ps')) (st ns) /\ at_tokens ps ps' (tokens (rest ps)).
Proof.
  intros Hps Hs. destruct (peek_ok [LT; GT] ps ns Hps eq_refl) as (ps1 & E1 & H1 & T1 & _).
  exists ps1. split; [|by split]. unfold redir_round. rewrite (bind_Ok _ _ _ _ _ E1). by rewrite Hs.
Qed.
Lemma redir_one cmd ps ns op ts : (ps <= es)%nat -> tokens (rest ps) = Sym op :: ts -> is_redir op = true ->
  match ts with
  | Word f :: ts' => exists q e ps', redir_round es (cmd, ps) (st ns) =
        Ok (inl (length ns, ps')) (st (ns ++ [if op =? LT then redircmd cmd q e O_RDONLY 0 else redircmd cmd q e (Z.lor O_WRONLY O_CREATE) 1]))
      /\ at_word q e f /\ (ps < ps')%nat /\ at_tokens ps ps' ts'
  | _ => exists s', redir_round es (cmd, ps) (st ns) = Panic "missing file for redirection" s'
  end.
Proof.
  intros Hps Ht Hop. destruct (peek_ok [LT; GT] ps ns Hps eq_refl) as (ps1 & E1 & H1 & T1 & _).
  rewrite Ht, is_redir_starts, Hop in E1. rewrite Ht in T1.
  destruct (gettoken_tok ps1 (Sym op) ts ns) as (q0 & e0 & ps2 & E2 & H2 & T2 & _); [lia|done|]. cbn [code] in E2.
  destruct ts as [|t ts].
  { exists (st ns). unfold redir_round. rewrite (bind_Ok _ _ _ _ _ E1). cbn [negb]. rewrite (bind_Ok _ _ _ _ _ E2).
    rewrite (bind_Ok _ _ _ _ _ (gettoken_end ps2 ns ltac:(lia) T2)). done. }
  destruct (gettoken_tok ps2 t ts ns) as (q & e & ps3 & E3 & H3 & T3 & Hw); [lia|done|].
  destruct t as [f|c].
  - exists q, e, ps3. split; [|split; [by apply Hw|split; [lia|split; [lia|done]]]].
    unfold redir_round. rewrite (bind_Ok _ _ _ _ _ E1). cbn [negb]. rewrite (bind_Ok _ _ _ _ _ E2).
    rewrite (bind_Ok _ _ _ _ _ E3). cbn [code negb]. rewrite Z.eqb_refl. cbn [negb].
    unfold is_redir in Hop. destruct (op =? LT); [done|]. destruct (op =? GT); [done|]. cbn [orb] in Hop. by rewrite Hop.
  - assert (Hc : (c =? WORD) = false) by (apply (sym_not_word ps2 c ts); [lia|done]).
    exists (st ns). unfold redir_round. rewrite (bind_Ok _ _ _ _ _ E1). cbn [negb]. rewrite (bind_Ok _ _ _ _ _ E2).
    rewrite (bind_Ok _ _ _ _ _ E3). cbn [code]. by rewrite Hc.
Qed.

Lemma redirs_ok fuel cmd ps ns : (ps <= es)%nat -> (es - ps < fuel)%nat -> (cmd < length ns)%nat ->
  parses (loop fuel (redir_round es) (cmd, ps)) ns (p_redirs (tokens (rest ps)))
    (fun '(r, ps') ns' rs ts => at_tokens ps ps' ts /\ chain ns' cmd r rs /\ (r < length ns')%nat).
Proof.
  revert cmd ps ns. induction fuel as [|fuel IH]; intros cmd ps ns Hps Hfuel Hcmd; [lia|]. cbn [loop].
  destruct (starts [LT; GT] (tokens (rest ps))) eqn:Hs.
  - destruct (tokens (rest ps)) as [|[w|op] ts] eqn:Ht; [done|done|]. rewrite is_redir_starts in Hs.
    pose proof (redir_one cmd ps ns op ts Hps Ht Hs) as Hr. cbn [p_redirs]. rewrite Hs.
    destruct ts as [|[f|c] ts]; [destruct Hr as [s' E]; exists s'; unfold mbind, M_bind; by rewrite E| |
                                 destruct Hr as [s' E]; exists s'; unfold mbind, M_bind; by rewrite E].
    destruct Hr as (q & e & ps' & E & Hw & Hlt & [Hps' T]). set (nd := if op =? LT then _ else _) in E.
    eapply parses_step; [exact E|done|]. cbv beta iota.
    specialize (IH (length ns) ps' (ns ++ [nd])). rewrite T in IH.
    assert (IH' := IH ltac:(lia) ltac:(lia) ltac:(rewrite length_app; cbn; lia)). clear IH.
    destruct (p_redirs ts) as [rs ts'|msg|]; [|done|done].
    destruct IH' as ([r ps2] & ns2 & E2 & Hp2 & [Hps2 T2] & Hch & Hr2). exists (r, ps2), ns2.
    split; [done|]. split; [done|]. split; [split; [lia|done]|]. split; [|done].
    change ((op, f) :: rs) with ([] ++ [(op, f)] ++ rs). rewrite app_assoc. eapply chain_app; [|exact Hch].
    eapply ch_snoc; [|exact Hcmd|exact Hw|constructor].
    apply Hp2. by apply list_lookup_middle.
  - destruct (redir_none cmd ps ns Hps Hs) as (ps' & E & Ha).
    assert (Hp : p_redirs (tokens (rest ps)) = POk [] (tokens (rest ps))).
    { destruct (tokens (rest ps)) as [|[w|op] ts]; [done|done|]. rewrite is_redir_starts in Hs. cbn [p_redirs]. by rewrite Hs. }
    rewrite Hp. exists (cmd, ps'), ns. rewrite (bind_Ok _ _ _ _ _ E). split_and!; [done|done|done|constructor|done].
Qed.
Lemma parseredirs_ok cmd ps ns : (ps <= es)%nat -> (cmd < length ns)%nat ->
  parses (parseredirs cmd ps es) ns (p_redirs (tokens (rest ps)))
    (fun '(r, ps') ns' rs ts => at_tokens ps ps' ts /\ chain ns' cmd r rs /\ (r < length ns')%nat).
Proof. intros Hps Hc. apply redirs_ok; [done|lia|done]. Qed.

(** *** Simple commands *)

Definition exec_node (pes : list (nat * nat)) : node :=
  execcmd ((Some ∘ fst <$> pes) ++ replicate (MAXARGS - length pes) None)
          ((Some ∘ snd <$> pes) ++ replicate (MAXARGS - length pes) None).

Lemma insert_arg {A} (l : list (option A)) n k x : length l = n -> (n < k)%nat ->
  <[n := x]> (l ++ replicate (k - n) None) = l ++ x :: replicate (k - S n) None.
Proof.
  intros <- Hk. rewrite insert_app_r_alt, Nat.sub_diag by lia. by replace (k - length l)%nat with (S (k - S (length l))) by lia.
Qed.
Lemma set_arg_Ok cmd pes q e ns : ns !! cmd = Some (exec_node pes) -> (length pes < MAXARGS)%nat ->
  set_arg cmd (length pes) (Some q) (Some e) (st ns) = Ok tt (st (<[cmd := exec_node (pes ++ [(q, e)])]> ns)).
Proof.
  intros H Hl. unfold set_arg, get_node. rewrite (bind_Ok _ _ _ (exec_node pes) (st ns)) by (cbn [nodes]; by rewrite H).
  unfold exec_node. rewrite decide_True by (rewrite length_app, length_fmap, length_replicate; lia).
  rewrite !insert_arg by (by rewrite ?length_fmap). rewrite !fmap_app, length_app. cbn [length].
  rewrite <-!app_assoc, Nat.add_1_r. done.
Qed.
Lemma end_args_Ok cmd pes ns : ns !! cmd = Some (exec_node pes) -> (length pes < MAXARGS)%nat ->
  set_arg cmd (length pes) None None (st ns) = Ok tt (st ns).
Proof.
  intros H Hl. unfold set_arg, get_node. rewrite (bind_Ok _ _ _ (exec_node pes) (st ns)) by (cbn [nodes]; by rewrite H).
  unfold exec_node. rewrite decide_True by (rewrite length_app, length_fmap, length_replicate; lia).
  unfold set_node. cbn [sbuf nodes]. rewrite list_insert_id; [done|]. rewrite H. unfold exec_node. do 2 f_equal.
  - rewrite insert_arg by (by rewrite ?length_fmap). by replace (MAXARGS - length pes)%nat with (S (MAXARGS - S (length pes))) at 1 by lia.
  - rewrite insert_arg by (by rewrite ?length_fmap). by replace (MAXARGS - length pes)%nat with (S (MAXARGS - S (length pes))) at 1 by lia.
Qed.

Lemma arg_stop cmd argc ret ps ns : (ps <= es)%nat ->
  starts [BAR; RPAR; AMP; SEMI] (tokens (rest ps)) = true \/ tokens (rest ps) = [] ->
  exists ps', arg_round cmd es (argc, ret, ps) (st ns) = Ok (inr (argc, ret, ps')) (st ns) /\ at_tokens ps ps' (tokens (rest ps)).
Proof.
  intros Hps Hs. destruct (peek_ok [BAR; RPAR; AMP; SEMI] ps ns Hps eq_refl) as (ps1 & E1 & H1 & T1 & _).
  unfold arg_round. rewrite (bind_Ok _ _ _ _ _ E1). destruct Hs as [Hs|Hs].
  - rewrite Hs. exists ps1. by split; [|split].
  - rewrite Hs in T1 |- *. cbn [starts]. rewrite (bind_Ok _ _ _ _ _ (gettoken_end ps1 ns ltac:(lia) T1)).
    exists es. split; [done|]. split; [lia|]. by rewrite drop_all.
Qed.
Lemma arg_syntax cmd argc ret ps ns c ts : (ps <= es)%nat -> tokens (rest ps) = Sym c :: ts ->
  starts [BAR; RPAR; AMP; SEMI] (tokens (rest ps)) = false ->
  exists s', arg_round cmd es (argc, ret, ps) (st ns) = Panic "syntax" s'.
Proof.
  intros Hps Ht Hs. destruct (peek_ok [BAR; RPAR; AMP; SEMI] ps ns Hps eq_refl) as (ps1 & E1 & H1 & T1 & _).
  unfold arg_round. rewrite (bind_Ok _ _ _ _ _ E1), Hs. rewrite Ht in T1.
  destruct (gettoken_tok ps1 (Sym c) ts ns) as (q & e & ps2 & E2 & _); [lia|done|]. rewrite (bind_Ok _ _ _ _ _ E2). cbn [code].
  destruct (sym_not_word ps1 c ts) as [-> ->]; [lia|done|]. by exists (st ns).
Qed.
Lemma arg_word cmd ret ps ns w ts pes : (ps <= es)%nat -> tokens (rest ps) = Word w :: ts ->
  ns !! cmd = Some (exec_node pes) -> (length pes < MAXARGS)%nat ->
  exists q e ps1, at_word q e w /\ (ps < ps1)%nat /\ at_tokens ps ps1 ts /\
    arg_round cmd es (length pes, ret, ps) (st ns) =
      (if decide (MAXARGS <= S (length pes))%nat then panic "too many args"
       else '(ret, ps) ← parseredirs ret ps1 es; mret (inl (S (length pes), ret, ps)))
        (st (<[cmd := exec_node (pes ++ [(q, e)])]> ns)).
Proof.
  intros Hps Ht Hn Hl. destruct (peek_ok [BAR; RPAR; AMP; SEMI] ps ns Hps eq_refl) as (ps1 & E1 & H1 & T1 & _).
  rewrite Ht in T1, E1. destruct (gettoken_tok ps1 (Word w) ts ns) as (q & e & ps2 & E2 & H2 & T2 & Hw); [lia|done|].
  exists q, e, ps2. split; [by apply Hw|]. split; [lia|]. split; [split; [lia|done]|].
  unfold arg_round. rewrite (bind_Ok _ _ _ _ _ E1). cbn [starts]. rewrite (bind_Ok _ _ _ _ _ E2). cbn [code].
  change (WORD =? 0) with false. rewrite Z.eqb_refl. cbn [negb].
  by rewrite (bind_Ok _ _ _ _ _ (set_arg_Ok cmd pes q e ns Hn Hl)).
Qed.

Definition others_kept (cmd : nat) (ns ns' : list node) : Prop :=
  forall i nd, i <> cmd -> ns !! i = Some nd -> ns' !! i = Some nd.
Lemma others_refl cmd ns : others_kept cmd ns ns.
Proof. by intros i nd. Qed.
#[local] Hint Resolve others_refl : core.
Lemma chain_insert cmd ns pes nd p r rs : ns !! cmd = Some (exec_node pes) -> chain ns p r rs -> chain (<[cmd := nd]> ns) p r rs.
Proof.
  intros Hn. apply chain_mono. intros i m Hi Hm. destruct (decide (i = cmd)) as [->|Hne]; [|by rewrite list_lookup_insert_ne].
  rewrite Hn in Hi. injection Hi as <-. by destruct (Hm _ _ eq_refl).
Qed.
Lemma chain_ext ns ns' p r rs : ext ns ns' -> chain ns p r rs -> chain ns' p r rs.
Proof. intros H. apply chain_mono. intros i n Hi _. by apply H. Qed.

Lemma args_ok n fuel cmd ret ps ns pes rs0 : (ps <= es)%nat -> (es - ps < fuel)%nat -> (length (tokens (rest ps)) < n)%nat ->
  ns !! cmd = Some (exec_node pes) -> (length pes < MAXARGS)%nat -> chain ns cmd ret rs0 -> (ret < length ns)%nat ->
  match p_args n (length pes) (tokens (rest ps)) with
  | POk (args, rs) ts => exists pes' r ps' ns',
      loop fuel (arg_round cmd es) (length pes, ret, ps) (st ns) = Ok (length (pes ++ pes'), r, ps') (st ns')
      /\ others_kept cmd ns ns' /\ at_tokens ps ps' ts /\ ns' !! cmd = Some (exec_node (pes ++ pes'))
      /\ (length (pes ++ pes') < MAXARGS)%nat /\ Forall2 (fun (pe : nat * nat) w => at_word pe.1 pe.2 w) pes' args
      /\ chain ns' cmd r (rs0 ++ rs) /\ (r < length ns')%nat
  | PErr m => exists s', loop fuel (arg_round cmd es) (length pes, ret, ps) (st ns) = Panic m s'
  | PFuel => False
  end.
Proof.
  revert fuel ret ps ns pes rs0. induction n as [|n IH]; intros fuel ret ps ns pes rs0 Hps Hfuel Hlen Hn Hl Hch Hret; [lia|].
  destruct fuel as [|fuel]; [lia|]. cbn [loop p_args].
  destruct (starts [BAR; RPAR; AMP; SEMI] (tokens (rest ps))) eqn:Hs.
  { destruct (arg_stop cmd (length pes) ret ps ns Hps) as (ps' & E & Ha); [by left|]. rewrite (bind_Ok _ _ _ _ _ E).
    exists [], ret, ps', ns. rewrite !app_nil_r. do 2 (split; [done|]). by do 5 (split; [done|]). }
  destruct (tokens (rest ps)) as [|[w|c] ts] eqn:Ht.
  - destruct (arg_stop cmd (length pes) ret ps ns Hps) as (ps' & E & Ha); [by right|]. rewrite (bind_Ok _ _ _ _ _ E).
    rewrite Ht in Ha. exists [], ret, ps', ns. rewrite !app_nil_r. do 2 (split; [done|]). by do 5 (split; [done|]).
  - destruct (arg_word cmd ret ps ns w ts pes Hps Ht Hn Hl) as (q & e & ps1 & Hw & Hlt & [Hps1 T1] & E).
    set (ns1 := <[cmd := exec_node (pes ++ [(q, e)])]> ns) in E. cbn [length] in Hlen.
    destruct (decide (MAXARGS <= S (length pes))%nat) as [Hm|Hm]; [exists (st ns1); unfold mbind, M_bind; by rewrite E|].
    assert (Hcl : (cmd < length ns)%nat) by (by eapply lookup_lt_Some).
    assert (Hl1 : length ns1 = length ns) by apply length_insert.
    pose proof (parseredirs_ok ret ps1 ns1 ltac:(lia) ltac:(lia)) as Hr. rewrite T1 in Hr.
    destruct (p_redirs ts) as [rs ts2|m|] eqn:Ep.
    + destruct Hr as ([r2 ps2] & ns2 & E2 & Hx & [Hps2 T2] & Hch2 & Hr2).
      assert (Hn2 : ns2 !! cmd = Some (exec_node (pes ++ [(q, e)]))) by (apply Hx; by apply list_lookup_insert_eq).
      assert (Hc2 : chain ns2 cmd r2 (rs0 ++ rs)).
      { eapply chain_app; [|exact Hch2]. eapply chain_ext; [exact Hx|]. by eapply chain_insert. }
      assert (Hlen2 : (length (tokens (rest ps2)) < n)%nat).
      { rewrite T2. pose proof (p_redirs_shorter ts rs ts2 Ep). lia. }
      specialize (IH fuel r2 ps2 ns2 (pes ++ [(q, e)]) (rs0 ++ rs)). rewrite length_app, Nat.add_1_r, T2 in IH.
      rewrite T2 in Hlen2. specialize (IH ltac:(lia) ltac:(lia) Hlen2 Hn2 ltac:(lia) Hc2 Hr2).
      rewrite (bind_Ok _ _ _ (inl (S (length pes), r2, ps2)) (st ns2)) by (rewrite E; by rewrite (bind_Ok _ _ _ _ _ E2)).
      destruct (p_args n (S (length pes)) ts2) as [[args rs'] ts3|m|]; [|done|done].
      destruct IH as (pes' & r & ps' & ns' & E3 & Hk & [Hps3 T3] & Hn3 & Hl3 & Hf & Hc3 & Hr3).
      exists ((q, e) :: pes'), r, ps', ns'. rewrite <-!app_assoc in *. split; [done|].
      split; [|split; [split; [lia|done]|]].
      * intros i nd Hi Hnd. apply Hk; [done|]. apply Hx. unfold ns1. by rewrite list_lookup_insert_ne.
      * split_and!; try done. by constructor.
    + destruct Hr as [s' E2]. exists s'. unfold mbind, M_bind in *. rewrite E, E2. done.
    + by destruct (p_redirs_fuel ts).
  - destruct (arg_syntax cmd (length pes) ret ps ns c ts Hps Ht) as [s' E]; [by rewrite Ht|].
    exists s'. unfold mbind, M_bind. by rewrite E.
Qed.

Definition parsed (ps : nat) : nat * nat -> list node -> cmd -> list tok -> Prop :=
  fun '(p, ps') ns' c ts => at_tokens ps ps' ts /\ rep at_word ns' p c.

Lemma parsesimple_ok ps ns : (ps <= es)%nat -> parses (parsesimple ps es) ns (p_simple (tokens (rest ps))) (parsed ps).
Proof.
  intros Hps. unfold parsesimple, p_simple. set (cmd := length ns). set (ns1 := ns ++ [exec_node []]).
  assert (Hc1 : ns1 !! cmd = Some (exec_node [])) by (by apply list_lookup_middle).
  unfold parses. rewrite (bind_Ok _ _ _ cmd (st ns1)) by reflexivity.
  assert (Hcl : (cmd < length ns1)%nat) by (by eapply lookup_lt_Some).
  pose proof (parseredirs_ok cmd ps ns1 Hps Hcl) as Hr.
  destruct (p_redirs (tokens (rest ps))) as [rs ts1|m|] eqn:Ep; [|destruct Hr as [s' E]; exists s'; unfold mbind, M_bind; by rewrite E|by destruct (p_redirs_fuel _ Ep)].
  destruct Hr as ([r1 ps1] & ns2 & E1 & Hx1 & [Hps1 T1] & Hch1 & Hr1).
  pose proof (args_ok (S (length ts1)) (S es) cmd r1 ps1 ns2 [] rs ltac:(lia) ltac:(lia) ltac:(rewrite T1; lia) (Hx1 _ _ Hc1) ltac:(unfold MAXARGS; cbn; lia) Hch1 Hr1) as Ha.
  rewrite T1 in Ha. cbn [length] in Ha. destruct (p_args (S (length ts1)) 0 ts1) as [[args rs'] ts2|m|]; [|destruct Ha as [s' E]; exists s'|done].
  2:{ rewrite (bind_Ok _ _ _ _ _ E1). unfold mbind, M_bind. by rewrite E. }
  destruct Ha as (pes & r & ps' & ns' & E2 & Hk & [Hps2 T2] & Hn & Hl & Hf & Hch & Hr). cbn [app] in *.
  exists (r, ps'), ns'. split; [|split].
  - rewrite (bind_Ok _ _ _ _ _ E1), (bind_Ok _ _ _ _ _ E2). by rewrite (bind_Ok _ _ _ _ _ (end_args_Ok cmd pes ns' Hn Hl)).
  - intros i nd Hi. pose proof (lookup_lt_Some _ _ _ Hi) as Hlt.
    assert (Hne : i <> cmd) by (intros ->; by apply Nat.lt_irrefl in Hlt).
    apply Hk; [done|]. apply Hx1. unfold ns1. by apply lookup_app_l_Some.
  - split; [split; [lia|done]|]. eapply chain_rep; [exact Hch|]. by eapply rep_exec.
Qed.

(** *** Commands *)

Lemma backs_ok fuel p c ps ns : (ps <= es)%nat -> (es - ps < fuel)%nat -> rep at_word ns p c ->
  exists p' ps' ns', loop fuel (back_round es) (p, ps) (st ns) = Ok (p', ps') (st ns') /\ ext ns ns'
    /\ at_tokens ps ps' (p_backs c (tokens (rest ps))).2 /\ rep at_word ns' p' (p_backs c (tokens (rest ps))).1.
Proof.
  revert p c ps ns. induction fuel as [|fuel IH]; intros p c ps ns Hps Hfuel Hrep; [lia|]. cbn [loop].
  destruct (peek_ok [AMP] ps ns Hps eq_refl) as (ps1 & E1 & H1 & T1 & _).
  destruct (starts [AMP] (tokens (rest ps))) eqn:Hs.
  - destruct (tokens (rest ps)) as [|[w|op] ts] eqn:Ht; [done|done|].
    assert (op = AMP) as ->.
    { cbn in Hs. unfold strchr in Hs. cbn in Hs. rewrite orb_false_r in Hs. destruct (op =? PLUS); [done|]. by apply Z.eqb_eq. }
    destruct (gettoken_tok ps1 (Sym AMP) ts ns) as (q & e & ps2 & E2 & H2 & T2 & _); [lia|done|].
    destruct (IH (length ns) (Back c) ps2 (ns ++ [backcmd p])) as (p' & ps' & ns' & E3 & Hx & [Hp T3] & Hr); [lia|lia| |].
    { eapply rep_back; [by apply list_lookup_middle|by eapply rep_lt|]. eapply rep_mono; [apply ext_new|done]. }
    exists p', ps', ns'. rewrite T2 in T3, Hr. cbn [p_backs]. rewrite Z.eqb_refl. split_and!; [|by eapply ext_trans|split; [lia|done]|done].
    rewrite (bind_Ok _ _ _ (inl (length ns, ps2)) (st (ns ++ [backcmd p]))); [done|].
    unfold back_round. rewrite (bind_Ok _ _ _ _ _ E1). cbn [negb]. by rewrite (bind_Ok _ _ _ _ _ E2).
  - assert (Hb : p_backs c (tokens (rest ps)) = (c, tokens (rest ps))).
    { destruct (tokens (rest ps)) as [|[w|op] ts]; [done|done|]. cbn [p_backs]. destruct (Z.eqb_spec op AMP) as [->|]; done. }
    rewrite Hb. exists p, ps1, ns. split; [|split; [done|split; [split; [lia|done]|done]]].
    rewrite (bind_Ok _ _ _ (inr (p, ps1)) (st ns)); [done|]. unfold back_round. by rewrite (bind_Ok _ _ _ _ _ E1).
Qed.

(** Is the symbol there, take it. *)
Lemma take_symbol c ps ns : (ps <= es)%nat -> strchr symbols c = true -> c <> GT -> starts [c] (tokens (rest ps)) = true ->
  exists ps1 q e ps2, peek ps es [c] (st ns) = Ok (true, ps1) (st ns) /\ gettoken ps1 es (st ns) = Ok (c, q, e, ps2) (st ns)
    /\ (ps < ps2 <= es)%nat /\ tokens (rest ps2) = tail (tokens (rest ps)) /\ tokens (rest ps) = Sym c :: tail (tokens (rest ps)).
Proof.
  intros Hps Hc Hg Hs. destruct (peek_ok [c] ps ns Hps) as (ps1 & E1 & H1 & T1 & _); [cbn; by rewrite Hc|]. rewrite Hs in E1.
  destruct (tokens (rest ps)) as [|[w|op] ts] eqn:Ht; [done|done|].
  assert (op = c) as ->.
  { cbn in Hs. unfold strchr in Hs. cbn in Hs. rewrite orb_false_r in Hs. destruct (op =? PLUS); apply Z.eqb_eq in Hs; congruence. }
  destruct (gettoken_tok ps1 (Sym c) ts ns) as (q & e & ps2 & E2 & H2 & T2 & _); [lia|done|].
  exists ps1, q, e, ps2. split_and!; [done|done|lia|lia|done|done].
Qed.
Lemma no_symbol c ps ns : (ps <= es)%nat -> strchr symbols c = true -> starts [c] (tokens (rest ps)) = false ->
  exists ps1, peek ps es [c] (st ns) = Ok (false, ps1) (st ns) /\ at_tokens ps ps1 (tokens (rest ps)).
Proof.
  intros Hps Hc Hs. destruct (peek_ok [c] ps ns Hps) as (ps1 & E1 & H1 & T1 & _); [cbn; by rewrite Hc|]. rewrite Hs in E1.
  exists ps1. by split; [|split].
Qed.

Lemma ext_length ns ns' : ext ns ns' -> (length ns <= length ns')%nat.
Proof.
  intros H. destruct (length ns) as [|n] eqn:E; [lia|]. destruct (lookup_lt_is_Some_2 ns n) as [x Hx]; [lia|].
  apply H in Hx. apply lookup_lt_Some in Hx. lia.
Qed.
(** A node for two commands. *)
Lemma parsed_new ps ps' ns ns2 p q c d n e ts : ext ns ns2 -> rep at_word ns p c -> rep at_word ns2 q d -> at_tokens ps ps' ts ->
  ((p < length ns2)%nat -> (q < length ns2)%nat -> rep at_word (ns2 ++ [n]) p c -> rep at_word (ns2 ++ [n]) q d ->
     rep at_word (ns2 ++ [n]) (length ns2) e) ->
  parsed ps (length ns2, ps') (ns2 ++ [n]) e ts.
Proof.
  intros Hx Hp Hq Ha Hr. split; [done|]. pose proof (ext_length _ _ Hx). pose proof (rep_lt _ _ _ _ Hp).
  apply Hr; [lia|by eapply rep_lt| |]; (eapply rep_mono; [apply ext_new|]); [|done]. eapply rep_mono; [exact Hx|done].
Qed.

Section parse_step.
Context (fuel : nat).
Hypothesis IHline : forall ps ns, (ps <= es)%nat -> parses (parseline fuel ps es) ns (p_line fuel (tokens (rest ps))) (parsed ps).
Hypothesis IHpipe : forall ps ns, (ps <= es)%nat -> parses (parsepipe fuel ps es) ns (p_pipe fuel (tokens (rest ps))) (parsed ps).
Hypothesis IHexec : forall ps ns, (ps <= es)%nat -> parses (parseexec fuel ps es) ns (p_exec fuel (tokens (rest ps))) (parsed ps).
Hypothesis IHblock : forall ps ns, (ps <= es)%nat -> starts [LPAR] (tokens (rest ps)) = true ->
  parses (parseblock fuel ps es) ns (p_block fuel (tokens (rest ps))) (parsed ps).

Lemma parseline_step ps ns : (ps <= es)%nat -> parses (parseline (S fuel) ps es) ns (p_line (S fuel) (tokens (rest ps))) (parsed ps).
Proof.
  intros Hps. cbn [parseline p_line]. eapply parses_bind; [by apply IHpipe|].
  intros [p ps1] ns1 c ts Hx1 [[H1 <-] Hrep]. cbv beta iota.
  destruct (backs_ok (S es) p c ps1 ns1 ltac:(lia) ltac:(lia) Hrep) as (p2 & ps2 & ns2 & E2 & Hx2 & [H2 T2] & Hrep2).
  eapply parses_step; [exact E2|done|]. destruct (p_backs c (tokens (rest ps1))) as [c2 ts2]. cbn [fst snd] in *. subst ts2.
  destruct (starts [SEMI] (tokens (rest ps2))) eqn:Hs.
  - destruct (take_symbol SEMI ps2 ns2 ltac:(lia) eq_refl ltac:(done) Hs) as (ps3 & q & e & ps4 & E3 & E4 & H4 & T4 & _).
    eapply parses_step; [exact E3|done|]. eapply parses_step; [exact E4|done|]. cbv beta iota. rewrite <-T4.
    eapply parses_bind; [apply IHline; lia|]. intros [p5 ps5] ns5 d ts5 Hx5 [[H5 <-] Hrep5]. cbv beta iota.
    eapply parses_step; [apply new_node_Ok|done|]. eexists _, _. split; [done|]. split; [done|].
    apply (parsed_new ps ps5 ns2 ns5 p2 p5 c2 d); [done|done|done|split; [lia|done]|].
    intros L1 L2 R1 R2. by eapply rep_list; [apply list_lookup_middle| | | |].
  - destruct (no_symbol SEMI ps2 ns2 ltac:(lia) eq_refl Hs) as (ps3 & E3 & [H3 T3]).
    eapply parses_step; [exact E3|done|]. eexists _, _. split; [done|]. split; [done|]. split; [split; [lia|done]|done].
Qed.

Lemma parsepipe_step ps ns : (ps <= es)%nat -> parses (parsepipe (S fuel) ps es) ns (p_pipe (S fuel) (tokens (rest ps))) (parsed ps).
Proof.
  intros Hps. cbn [parsepipe p_pipe]. eapply parses_bind; [by apply IHexec|].
  intros [p ps1] ns1 c ts Hx1 [[H1 <-] Hrep]. cbv beta iota.
  destruct (starts [BAR] (tokens (rest ps1))) eqn:Hs.
  - destruct (take_symbol BAR ps1 ns1 ltac:(lia) eq_refl ltac:(done) Hs) as (ps3 & q & e & ps4 & E3 & E4 & H4 & T4 & _).
    eapply parses_step; [exact E3|done|]. eapply parses_step; [exact E4|done|]. cbv beta iota. rewrite <-T4.
    eapply parses_bind; [apply IHpipe; lia|]. intros [p5 ps5] ns5 d ts5 Hx5 [[H5 <-] Hrep5]. cbv beta iota.
    eapply parses_step; [apply new_node_Ok|done|]. eexists _, _. split; [done|]. split; [done|].
    apply (parsed_new ps ps5 ns1 ns5 p p5 c d); [done|done|done|split; [lia|done]|].
    intros L1 L2 R1 R2. by eapply rep_pipe; [apply list_lookup_middle| | | |].
  - destruct (no_symbol BAR ps1 ns1 ltac:(lia) eq_refl Hs) as (ps3 & E3 & [H3 T3]).
    eapply parses_step; [exact E3|done|]. eexists _, _. split; [done|]. split; [done|]. split; [split; [lia|done]|done].
Qed.

Lemma parseexec_step ps ns : (ps <= es)%nat -> parses (parseexec (S fuel) ps es) ns (p_exec (S fuel) (tokens (rest ps))) (parsed ps).
Proof.
  intros Hps. cbn [parseexec p_exec].
  destruct (peek_ok [LPAR] ps ns Hps eq_refl) as (ps1 & E1 & H1 & T1 & _).
  eapply parses_step; [exact E1|done|]. cbv beta iota.
  assert (Hm : forall a ns' b ts, parsed ps1 a ns' b ts -> parsed ps a ns' b ts).
  { intros [p ps'] ns' b ts [[Ha Hb] Hc]. split; [split; [lia|done]|done]. }
  destruct (starts [LPAR] (tokens (rest ps))) eqn:Hs; rewrite <-T1.
  - eapply parses_mono; [apply IHblock; [lia|by rewrite T1]|]. intros a ns' b ts _. apply Hm.
  - eapply parses_mono; [apply parsesimple_ok; lia|]. intros a ns' b ts _. apply Hm.
Qed.

Lemma parseblock_step ps ns : (ps <= es)%nat -> starts [LPAR] (tokens (rest ps)) = true ->
  parses (parseblock (S fuel) ps es) ns (p_block (S fuel) (tokens (rest ps))) (parsed ps).
Proof.
  intros Hps Hs. cbn [parseblock p_block].
  destruct (take_symbol LPAR ps ns Hps eq_refl ltac:(done) Hs) as (ps1 & q & e & ps2 & E1 & E2 & H2 & T2 & _).
  eapply parses_step; [exact E1|done|]. eapply parses_step; [exact E2|done|]. cbv beta iota. rewrite <-T2.
  eapply parses_bind; [apply IHline; lia|]. intros [p ps3] ns3 c ts3 Hx3 [[H3 <-] Hrep3]. cbv beta iota.
  destruct (starts [RPAR] (tokens (rest ps3))) eqn:Hs3.
  - destruct (take_symbol RPAR ps3 ns3 ltac:(lia) eq_refl ltac:(done) Hs3) as (ps4 & q4 & e4 & ps5 & E4 & E5 & H5 & T5 & _).
    eapply parses_step; [exact E4|done|]. eapply parses_step; [exact E5|done|]. cbv beta iota. rewrite <-T5.
    pose proof (parseredirs_ok p ps5 ns3 ltac:(lia) (rep_lt _ _ _ _ Hrep3)) as Hr.
    destruct (p_redirs (tokens (rest ps5))) as [rs ts|m|]; [|done|done].
    destruct Hr as ([r ps6] & ns6 & E6 & Hx6 & [H6 T6] & Hch & _). exists (r, ps6), ns6. split; [done|]. split; [done|].
    split; [split; [lia|done]|]. eapply chain_rep; [exact Hch|]. by eapply rep_mono.
  - destruct (no_symbol RPAR ps3 ns3 ltac:(lia) eq_refl Hs3) as (ps4 & E4 & _).
    eapply parses_step; [exact E4|done|]. by exists (st ns3).
Qed.
End parse_step.

Lemma parse_ok fuel :
  (forall ps ns, (ps <= es)%nat -> parses (parseline fuel ps es) ns (p_line fuel (tokens (rest ps))) (parsed ps)) /\
  (forall ps ns, (ps <= es)%nat -> parses (parsepipe fuel ps es) ns (p_pipe fuel (tokens (rest ps))) (parsed ps)) /\
  (forall ps ns, (ps <= es)%nat -> parses (parseexec fuel ps es) ns (p_exec fuel (tokens (rest ps))) (parsed ps)) /\
  (forall ps ns, (ps <= es)%nat -> starts [LPAR] (tokens (rest ps)) = true ->
     parses (parseblock fuel ps es) ns (p_block fuel (tokens (rest ps))) (parsed ps)).
Proof.
  induction fuel as [|fuel (H1 & H2 & H3 & H4)]; [done|].
  split_and!; [by apply parseline_step|by apply parsepipe_step|by apply parseexec_step|by apply parseblock_step].
Qed.

(** ** Strings *)

(** Some ends of words are now NULs. *)
Definition nulled (b : list Z) : Prop :=
  length b = length buf /\ forall i, b !! i = buf !! i \/ b !! i = Some 0 /\ exists d, buf !! i = Some d /\ delim d.
Definition more_nuls (b b' : list Z) : Prop := forall i, b !! i = Some 0 -> b' !! i = Some 0.
Definition ended (b : list Z) (q e : nat) (w : list Z) : Prop := at_word q e w /\ b !! e = Some 0.
(** A C string. *)
Definition string_at (b : list Z) (q : nat) (w : list Z) : Prop :=
  (forall i, (i < length w)%nat -> b !! (q + i)%nat = w !! i) /\ b !! (q + length w)%nat = Some 0 /\ Forall (fun c => c <> 0) w.

Lemma ended_string b q e w : nulled b -> ended b q e w -> string_at b q w.
Proof.
  intros [_ Hb] ((-> & _ & Hw & Hc & _) & He). split; [|split; [done|]].
  - intros i Hi. rewrite <-Hc by done. destruct (Hb (q + i)%nat) as [?|(_ & d & Hd & Hdel)]; [done|]. exfalso.
    rewrite Hc in Hd by done. rewrite Forall_forall in Hw. destruct (Hw d) as [W1 W2]; [by eapply list_elem_of_lookup_2|].
    destruct Hdel as [?|Hf]; [done|]. by rewrite W1 in Hf.
  - eapply Forall_impl; [exact Hw|]. by intros c [_ ?].
Qed.
Lemma rep_words (W W' : nat -> nat -> list Z -> Prop) ns p c : (forall q e w, W q e w -> W' q e w) -> rep W ns p c -> rep W' ns p c.
Proof.
  intros H. induction 1; [eapply rep_exec; [done|done|]|eapply rep_redir|eapply rep_pipe|eapply rep_list|eapply rep_back]; eauto.
  eapply Forall2_impl; [done|]. intros pe w. apply H.
Qed.
Lemma more_ended b b' q e w : more_nuls b b' -> ended b q e w -> ended b' q e w.
Proof. intros H [H1 H2]. split; [done|by apply H]. Qed.
Lemma more_trans b1 b2 b3 : more_nuls b1 b2 -> more_nuls b2 b3 -> more_nuls b1 b3.
Proof. intros H1 H2 i H. by apply H2, H1. Qed.

Lemma setch_ok b ns q e w : nulled b -> at_word q e w ->
  exists b', setch e 0 (mk_sst b ns) = Ok tt (mk_sst b' ns) /\ nulled b' /\ more_nuls b b' /\ ended b' q e w.
Proof.
  intros [Hl Hb] Hw. pose proof Hw as (_ & _ & _ & _ & d & Hd & Hdel). assert (He : (e < length b)%nat) by (rewrite Hl; by eapply lookup_lt_Some).
  exists (<[e := 0]> b). split; [unfold setch; cbn [sbuf nodes]; by rewrite decide_True|]. split; [split; [by rewrite length_insert|]|split].
  - intros i. destruct (decide (i = e)) as [->|]; [right; split; [by apply list_lookup_insert_eq|by exists d]|].
    rewrite list_lookup_insert_ne by done. apply Hb.
  - intros i Hi. destruct (decide (i = e)) as [->|]; [by apply list_lookup_insert_eq|]. by rewrite list_lookup_insert_ne.
  - split; [done|by apply list_lookup_insert_eq].
Qed.

Lemma nul_args_ok ns pes args b i n : Forall2 (fun (pe : nat * nat) w => at_word pe.1 pe.2 w) pes args -> (length pes < MAXARGS)%nat ->
  nulled b -> (i <= length pes)%nat -> (length pes - i < n)%nat ->
  exists b', nul_args n i ((Some ∘ fst <$> pes) ++ replicate (MAXARGS - length pes) None)
               ((Some ∘ snd <$> pes) ++ replicate (MAXARGS - length pes) None) (mk_sst b ns) = Ok tt (mk_sst b' ns)
    /\ nulled b' /\ more_nuls b b' /\ forall j pe w, (i <= j)%nat -> pes !! j = Some pe -> args !! j = Some w -> ended b' pe.1 pe.2 w.
Proof.
  intros Hf Hl. revert b i. induction n as [|n IH]; intros b i Hb Hi Hn; [lia|]. cbn [nul_args].
  destruct (decide (i = length pes)) as [->|Hne].
  - rewrite lookup_app_r, length_fmap, Nat.sub_diag by (by rewrite length_fmap).
    replace (MAXARGS - length pes)%nat with (S (MAXARGS - S (length pes))) by lia. cbn [replicate lookup list_lookup].
    exists b. split; [done|]. split; [done|]. split; [by intros k|]. intros j pe w Hj Hp. apply lookup_lt_Some in Hp. lia.
  - destruct (lookup_lt_is_Some_2 pes i) as [pe Hpe]; [lia|]. destruct (Forall2_lookup_l _ _ _ _ _ Hf Hpe) as (w & Hw & Hat).
    rewrite !lookup_app_l by (rewrite length_fmap; lia). rewrite !list_lookup_fmap, Hpe. cbn [fmap option_fmap option_map compose].
    destruct (setch_ok b ns pe.1 pe.2 w Hb Hat) as (b1 & E1 & Hb1 & M1 & En). rewrite (bind_Ok _ _ _ _ _ E1).
    destruct (IH b1 (S i) Hb1) as (b' & E2 & Hb' & M2 & Hall); [lia|lia|]. exists b'. split; [done|]. split; [done|].
    split; [by eapply more_trans|]. intros j pe' w' Hj Hp Hw'. destruct (decide (j = i)) as [->|]; [|by apply (Hall j); [lia| |]].
    rewrite Hpe in Hp. rewrite Hw in Hw'. injection Hp as <-. injection Hw' as <-. by eapply more_ended.
Qed.

Lemma nulterminate_ok ns p c : rep at_word ns p c -> forall fuel b, (p < fuel)%nat -> nulled b ->
  exists b', nulterminate fuel p (mk_sst b ns) = Ok tt (mk_sst b' ns) /\ nulled b' /\ more_nuls b b' /\ rep (ended b') ns p c.
Proof.
  induction 1 as [p pes args Hn Hl Hf|p p' q e mode fd c f Hn Hlt Hw _ IH|p l r c d Hn Hl Hr _ IH1 _ IH2|p l r c d Hn Hl Hr _ IH1 _ IH2|p p' c Hn Hlt _ IH];
    intros [|fuel] b Hp Hb; try lia; cbn [nulterminate];
    (rewrite (bind_Ok _ _ _ _ (mk_sst b ns)) by (unfold get_node; cbn [nodes]; rewrite Hn; reflexivity)).
  - destruct (nul_args_ok ns pes args b 0 (S MAXARGS) Hf Hl Hb) as (b' & E & Hb' & M & Hall); [lia|lia|]. exists b'.
    split; [done|]. split; [done|]. split; [done|]. eapply rep_exec; [done|done|]. apply Forall2_same_length_lookup.
    split; [by eapply Forall2_length|]. intros j pe w H1 H2. by apply (Hall j); [lia| |].
  - destruct (IH fuel b ltac:(lia) Hb) as (b1 & E1 & Hb1 & M1 & R1). destruct (setch_ok b1 ns q e f Hb1 Hw) as (b' & E2 & Hb' & M2 & En).
    exists b'. rewrite (bind_Ok _ _ _ _ _ E1). split; [done|]. split; [done|]. split; [by eapply more_trans|].
    eapply rep_redir; [done|done|done|]. eapply rep_words; [|exact R1]. intros ? ? ?. by apply more_ended.
  - destruct (IH1 fuel b ltac:(lia) Hb) as (b1 & E1 & Hb1 & M1 & R1). destruct (IH2 fuel b1 ltac:(lia) Hb1) as (b' & E2 & Hb' & M2 & R2).
    exists b'. rewrite (bind_Ok _ _ _ _ _ E1). split; [done|]. split; [done|]. split; [by eapply more_trans|].
    eapply rep_pipe; [done|done|done| |done]. eapply rep_words; [|exact R1]. intros ? ? ?. by apply more_ended.
  - destruct (IH1 fuel b ltac:(lia) Hb) as (b1 & E1 & Hb1 & M1 & R1). destruct (IH2 fuel b1 ltac:(lia) Hb1) as (b' & E2 & Hb' & M2 & R2).
    exists b'. rewrite (bind_Ok _ _ _ _ _ E1). split; [done|]. split; [done|]. split; [by eapply more_trans|].
    eapply rep_list; [done|done|done| |done]. eapply rep_words; [|exact R1]. intros ? ? ?. by apply more_ended.
  - destruct (IH fuel b ltac:(lia) Hb) as (b' & E & Hb' & M & R). exists b'. split; [done|]. split; [done|]. split; [done|by eapply rep_back].
Qed.

(** ** The whole parser *)

Lemma strlen_ok n s ns : (s <= es)%nat -> (es - s < n)%nat -> strlen n s (st ns) = Ok (es - s)%nat (st ns).
Proof.
  revert s. induction n as [|n IH]; intros s Hs Hn; [lia|]. cbn [strlen]. destruct (decide (s = es)) as [->|Hne].
  - rewrite (bind_Ok _ _ _ _ _ (ch_end ns)). cbn [Z.eqb]. by rewrite Nat.sub_diag.
  - destruct (rest_cons s) as (c & Hc & E); [lia|]. destruct (ch_head s c _ ns E) as (Ec & _ & _ & H0).
    rewrite (bind_Ok _ _ _ _ _ Ec). replace (c =? 0) with false by (symmetry; by apply Z.eqb_neq).
    rewrite (bind_Ok _ _ _ _ _ (IH (S s) ltac:(lia) ltac:(lia))). cbn. do 2 f_equal. lia.
Qed.

Lemma parsecmd_ok :
  match p_line (4 * es + 4) (tokens line) with
  | POk c [] => exists p b ns, parsecmd (st []) = Ok p (mk_sst b ns) /\ rep (fun q _ w => string_at b q w) ns p c
  | POk _ (_ :: _) => exists s', parsecmd (st []) = Panic "syntax" s'
  | PErr m => exists s', parsecmd (st []) = Panic m s'
  | PFuel => True
  end.
Proof.
  destruct (parse_ok (4 * es + 4)) as [H _]. specialize (H 0%nat [] ltac:(lia)). rewrite drop_0 in H.
  assert (El : strlen (length buf) 0 (st []) = Ok es (st [])).
  { rewrite strlen_ok; [by rewrite Nat.sub_0_r|lia|]. rewrite length_app. cbn [length]. lia. }
  assert (E0 : forall A (k : nat -> M sst A), (n ← gets (fun s => length (sbuf s)); es ← strlen n 0; k es) (st []) = k es (st [])).
  { intros A k. rewrite (bind_Ok _ _ _ (length buf) (st [])) by done. by rewrite (bind_Ok _ _ _ _ _ El). }
  unfold parsecmd. rewrite E0. clear E0 El.
  destruct (p_line (4 * es + 4) (tokens line)) as [c ts|m|]; [|destruct H as [s' E]; exists s'; unfold mbind, M_bind; by rewrite E|done].
  destruct H as ([p ps] & ns & E & _ & [[Hps T] Hrep]). rewrite (bind_Ok _ _ _ _ _ E).
  destruct (peek_ok [] ps ns ltac:(lia) eq_refl) as (ps' & E' & H' & T' & Hend). rewrite (bind_Ok _ _ _ _ _ E'). rewrite T in Hend.
  destruct ts as [|t0 ts].
  - replace (ps' =? es)%nat with true by (symmetry; apply Nat.eqb_eq; tauto). cbn [negb].
    destruct (nulterminate_ok ns p c Hrep (length ns) buf (rep_lt _ _ _ _ Hrep)) as (b & En & Hb & _ & Hr).
    { split; [done|]. intros i. by left. }
    exists p, b, ns. split.
    + rewrite (bind_Ok _ _ _ (length ns) (st ns)) by done. by rewrite (bind_Ok _ _ _ _ _ En).
    + eapply rep_words; [|exact Hr]. intros q e w. by apply ended_string.
  - replace (ps' =? es)%nat with false; [by exists (st ns)|]. symmetry. apply Nat.eqb_neq. intros Heq. by apply Hend in Heq.
Qed.
End line.

Lemma parsecmd_sound line junk : Forall (fun c => c <> 0) line ->
  match parsecmd (mk_sst (line ++ 0 :: junk) []) with
  | Ok p s => exists c, derives CLine (tokens line) c /\ (forall d, derives CLine (tokens line) d -> d = c)
      /\ rep (fun q _ w => string_at (sbuf s) q w) (nodes s) p c
  | Panic m _ => m ∈ errors /\ forall c, ~ derives CLine (tokens line) c
  | _ => False
  end.
Proof.
  intros Hline. pose proof (parsecmd_ok line junk Hline) as H. destruct (p_sound (4 * length line + 4)) as [Hs _].
  specialize (Hs (tokens line)). pose proof (tokens_length line) as Hlen.
  assert (Hc : forall c, derives CLine (tokens line) c -> p_line (4 * length line + 4) (tokens line) = POk c []).
  { intros c Hd. pose proof (p_complete CLine _ c Hd [] (4 * length line + 4)) as Hp. rewrite app_nil_r in Hp.
    apply Hp; [by left|]. cbn [rank]. lia. }
  destruct (p_line (4 * length line + 4) (tokens line)) as [c [|t ts]|m|]; cbn [sound] in Hs.
  - destruct H as (p & b & ns & -> & Hr). destruct Hs as (ts1 & E & Hd). rewrite app_nil_r in E. subst ts1.
    exists c. split_and!; [done| |done]. intros d Hd2. specialize (Hc d Hd2). congruence.
  - destruct H as [s' ->]. split; [in_errors|]. intros d Hd. by specialize (Hc d Hd).
  - destruct H as [s' ->]. split; [done|]. intros d Hd. by specialize (Hc d Hd).
  - unfold rank in Hs. lia.
Qed.

(** C15: The shell parses its language.  A line that the grammar derives as a command is
    parsed to the nodes of that command, which is the only one that the grammar gives
    it, and the pointers to its words are C strings; any other line is rejected with
    one of the messages.  Whatever the line, the parser comes to an end and touches
    nothing outside it. *)
Theorem parsecmd_parses_grammar line junk : Forall (fun c => c <> 0) line ->
  match parsecmd (mk_sst (line ++ 0 :: junk) []) with
  | Ok p s => exists c, derives CLine (tokens line) c /\ (forall d, derives CLine (tokens line) d -> d = c)
      /\ rep (fun q _ w => string_at (sbuf s) q w) (nodes s) p c
  | Panic m _ => m ∈ errors /\ forall c, ~ derives CLine (tokens line) c
  | _ => False
  end.
Proof. apply parsecmd_sound. Qed.

(** [ls -l <in|(wc;cat)>o&]. *)
Definition example_line : list Z :=
  [108; 115; 32; 45; 108; 32; 60; 105; 110; 124; 40; 119; 99; 59; 99; 97; 116; 41; 62; 111; 38; 10].
Lemma parsecmd_parses_grammar_witness :
  Forall (fun c => c <> 0) example_line /\
  exists p s c, parsecmd (mk_sst (example_line ++ [0]) []) = Ok p s /\ derives CLine (tokens example_line) c
    /\ rep (fun q _ w => string_at (sbuf s) q w) (nodes s) p c.
Proof.
  assert (H : Forall (fun c => c <> 0) example_line) by (repeat constructor; discriminate). split; [exact H|].
  pose proof (parsecmd_parses_grammar example_line [] H) as Hp.
  assert (E : match parsecmd (mk_sst (example_line ++ [0]) []) with Ok _ _ => true | _ => false end = true)
    by (vm_compute; reflexivity).
  revert Hp E. generalize (parsecmd (mk_sst (example_line ++ [0]) [])). intros [p s|m s|s|] Hp E; try discriminate E.
  destruct Hp as (c & H1 & _ & H2). exists p, s, c. split; [reflexivity|]. split; [exact H1|exact H2].
Defined.
