(* ===== verification/Shrun.v ===== *)
(** * Shrun: the shell runs what the line says

    Model of the other half of src/bin/sh/sh.c: [runcmd], [fork1], [panic] and the body
    of [main]'s loop.  A process of the shell has its table of descriptors, which [open],
    [dup] and [pipe] fill from the lowest free entry on; what it does is recorded as a
    list of events, those of a child inside the event of its [fork].  The tables of two
    processes are separate, so the order in which parent and child take their steps
    does not matter for the descriptors.  [found] says which paths [exec] succeeds on,
    [opens] which files can be opened, [forks] whether there is room for processes. *)

From Stdlib Require Import ZArith Lia.
From stdpp Require Import base strings numbers list.
From S2P Require Import Prelude Sh Shparse.

Local Open Scope Z_scope.

(** ** Model *)

Inductive ofile : Type := Std (n : nat) | PipeR (k : nat) | PipeW (k : nat) | File (name : list Z) (mode : Z).
Abbreviation table := (list (option ofile)).
Definition NOFILE : nat := 16.

#[local] Set Warnings "-register-all".
Inductive ev : Type :=
  | Execs (path : list Z) (argv : list (list Z)) (fds : table)
  | Forked (child : list ev)
  | Waited
  | Said (msg : string) (arg : list Z)
  | Setfg (child : bool)
  | Chdir (path : list Z)
  | Exited.

Record pst : Type := mk_pst { pmem : sst; fds : table; events : list ev; npipes : nat }.
Definition set_mem (m : sst) (s : pst) : pst := mk_pst m (fds s) (events s) (npipes s).
Definition set_fds (f : table) (s : pst) : pst := mk_pst (pmem s) f (events s) (npipes s).
Definition emit (e : ev) : M pst unit := fun s => Ok tt (mk_pst (pmem s) (fds s) (events s ++ [e]) (npipes s)).
Definition on_mem {A} (m : M sst A) : M pst A := lift pmem set_mem m.

Section run.
Context (found : list Z -> bool) (opens : list Z -> Z -> bool) (forks : bool).

(** *** System calls *)

Definition fdalloc (f : table) : option nat := fst <$> list_find (fun x => x = None) f.
Definition close (fd : nat) : M pst unit := fun s => Ok tt (set_fds (<[fd := None]> (fds s)) s).
Definition install (x : ofile) : M pst Z := fun s =>
  match fdalloc (fds s) with
  | Some fd => Ok (Z.of_nat fd) (set_fds (<[fd := Some x]> (fds s)) s)
  | None => Ok (-1) s
  end.
Definition open (name : list Z) (mode : Z) : M pst Z :=
  if opens name mode then install (File name mode) else mret (-1).
Definition dup (fd : nat) : M pst Z := fun s =>
  match fds s !! fd with
  | Some (Some x) => install x s
  | _ => Ok (-1) s
  end.
(** The pipe [npipes]: the read end, then the write end. *)
Definition pipe : M pst (option (nat * nat)) := fun s =>
  match fdalloc (fds s) with
  | None => Ok None s
  | Some r =>
      let f := <[r := Some (PipeR (npipes s))]> (fds s) in
      match fdalloc f with
      | None => Ok None s
      | Some w => Ok (Some (r, w)) (mk_pst (pmem s) (<[w := Some (PipeW (npipes s))]> f) (events s) (S (npipes s)))
      end
  end.
(** [exec] returns only when it fails. *)
Definition exec (path : list Z) (argv : list (list Z)) : M pst bool := fun s =>
  if found path then Ok true (mk_pst (pmem s) (fds s) (events s ++ [Execs path argv (fds s)]) (npipes s))
  else Ok false s.
Definition wait : M pst unit := emit Waited.
Definition exit : M pst unit := emit Exited.

(** [panic] prints and exits. *)
Definition shpanic {A} (msg : string) : M pst A := fun s =>
  Panic "exit" (mk_pst (pmem s) (fds s) (events s ++ [Said msg []; Exited]) (npipes s)).

(** The child has a copy of memory and descriptors. *)
Definition fork1 (child : M pst unit) : M pst unit := fun s =>
  if forks then
    match child (mk_pst (pmem s) (fds s) [] (npipes s)) with
    | Ok _ s1 | Panic "exit" s1 => Ok tt (mk_pst (pmem s) (fds s) (events s ++ [Forked (events s1)]) (npipes s1))
    | Panic msg s1 => Panic msg s1
    | Block c s1 => Block c s1
    | NoFuel => NoFuel
    end
  else shpanic "fork" s.

(** *** Strings in memory *)

Fixpoint cstr (n q : nat) : M sst (list Z) :=
  match n with
  | O => panic "undefined"
  | S n' => c ← ch q; if c =? 0 then mret [] else l ← cstr n' (S q); mret (c :: l)
  end.
Definition get_string (q : nat) : M pst (list Z) := on_mem (fun s => cstr (length (sbuf s)) q s).
Fixpoint args_from (n i : nat) (argv : list (option nat)) : M pst (list (list Z)) :=
  match n with
  | O => on_mem (panic "undefined")
  | S n' =>
      match argv !! i with
      | Some (Some q) => a ← get_string q; l ← args_from n' (S i) argv; mret (a :: l)
      | Some None => mret []
      | None => on_mem (panic "undefined")
      end
  end.

Definition SLASH : Z := 47.
Definition bin_prefix : list Z := [SLASH; 98; 105; 110; SLASH].

(** *** [runcmd] *)

Definition run_exec (a0 : list Z) (args : list (list Z)) : M pst unit :=
  b ← exec a0 args;
  if (b : bool) then mret tt
  else
    b ← (if negb (default 0 (head a0) =? SLASH) then
           if decide (length (bin_prefix ++ a0) < 128)%nat then exec (bin_prefix ++ a0) args
           else on_mem (panic "undefined")
         else mret false);
    if (b : bool) then mret tt else emit (Said "sh: %s does not exist" a0) ;; exit.

Fixpoint runcmd (fuel p : nat) : M pst unit :=
  match fuel with
  | O => fun _ => NoFuel
  | S fuel =>
      n ← on_mem (get_node p);
      match n with
      | execcmd argv _ =>
          args ← args_from (S MAXARGS) 0 argv;
          match args with
          | [] => exit
          | a0 :: _ => run_exec a0 args
          end
      | redircmd c file _ mode fd =>
          close (Z.to_nat fd) ;;
          name ← get_string file;
          r ← open name mode;
          if r <? 0 then emit (Said "open %s failed" name) ;; exit
          else runcmd fuel c
      | listcmd l r =>
          fork1 (runcmd fuel l) ;;
          wait ;;
          runcmd fuel r
      | pipecmd l r =>
          p ← pipe;
          match p with
          | None => shpanic "pipe"
          | Some (p0, p1) =>
              fork1 (close 1 ;; dup p1 ;; close p0 ;; close p1 ;; runcmd fuel l) ;;
              fork1 (close 0 ;; dup p0 ;; close p0 ;; close p1 ;; runcmd fuel r) ;;
              close p0 ;; close p1 ;;
              wait ;; wait ;;
              exit
          end
      | backcmd c =>
          fork1 (runcmd fuel c) ;;
          exit
      end
  end.

(** *** One round of [main] *)

(** [runcmd(parsecmd(buf))]. *)
Definition run_line : M pst unit := fun s =>
  match parsecmd (pmem s) with
  | Ok p m => runcmd (S p) p (set_mem m s)
  | Panic msg m => if decide (msg ∈ errors) then shpanic msg (set_mem m s) else Panic msg (set_mem m s)
  | Block c m => Block c (set_mem m s)
  | NoFuel => NoFuel
  end.

(** [buf] holds a line. *)
Definition main_round : M pst unit :=
  b0 ← on_mem (ch 0);
  b1 ← on_mem (ch 1);
  b2 ← on_mem (ch 2);
  if (b0 =? 99) && (b1 =? 100) && (b2 =? 32) then
    n ← on_mem (fun s => strlen (length (sbuf s)) 0 s);
    on_mem (setch (n - 1) 0) ;;
    path ← get_string 3;
    emit (Chdir path)
  else
    fork1 run_line ;;
    emit (Setfg true) ;;
    wait ;;
    emit (Setfg false).

(** ** What a command does *)

Definition std (i o e : ofile) : table := [Some i; Some o; Some e] ++ replicate 13 None.

(** A command with standard input [i], output [o] and error output [e], and no other
    descriptor open; [k] pipes have been made. *)
Fixpoint does (c : cmd) (i o e : ofile) (k : nat) : list ev * nat :=
  match c with
  | Exec [] => ([Exited], k)
  | Exec ((a0 :: _) as args) =>
      if found a0 then ([Execs a0 args (std i o e)], k)
      else if negb (default 0 (head a0) =? SLASH) && found (bin_prefix ++ a0)
      then ([Execs (bin_prefix ++ a0) args (std i o e)], k)
      else ([Said "sh: %s does not exist" a0; Exited], k)
  | Redir c name mode fd =>
      if opens name mode then
        if fd =? 0 then does c (File name mode) o e k else does c i (File name mode) e k
      else ([Said "open %s failed" name; Exited], k)
  | List c d =>
      let '(t1, k1) := does c i o e k in
      let '(t2, k2) := does d i o e k1 in
      (Forked t1 :: Waited :: t2, k2)
  | Pipe c d =>
      let '(t1, k1) := does c i (PipeW k) e (S k) in
      let '(t2, k2) := does d (PipeR k) o e k1 in
      ([Forked t1; Forked t2; Waited; Waited; Exited], k2)
  | Back c => let '(t1, k1) := does c i o e k in ([Forked t1; Exited], k1)
  end.

(** Redirections of the grammar, and names that fit behind [/bin/]. *)
Fixpoint runnable (c : cmd) : Prop :=
  match c with
  | Exec args => Forall (fun a => length a < 123)%nat args
  | Redir c _ _ fd => (fd = 0 \/ fd = 1) /\ runnable c
  | Pipe c d | List c d => runnable c /\ runnable d
  | Back c => runnable c
  end.

Section ok.
Context (b : list Z) (ns : list node).
Abbreviation mem := (mk_sst b ns).
Abbreviation at_string := (fun (q _ : nat) w => string_at b q w).

Lemma cstr_ok n q w : string_at b q w -> (length w < n)%nat -> cstr n q mem = Ok w mem.
Proof.
  revert q w. induction n as [|n IH]; intros q w (H1 & H2 & H3) Hn; [lia|]. cbn [cstr]. destruct w as [|c w].
  - cbn in H2. rewrite Nat.add_0_r in H2. rewrite (bind_Ok _ _ _ 0 mem); [done|]. unfold ch. cbn. by rewrite H2.
  - assert (E : b !! q = Some c) by (rewrite <-(Nat.add_0_r q); apply (H1 0%nat); cbn; lia).
    apply Forall_cons in H3 as [Hc H3]. rewrite (bind_Ok _ _ _ c mem) by (unfold ch; cbn; by rewrite E).
    replace (c =? 0) with false by (symmetry; by apply Z.eqb_neq).
    rewrite (bind_Ok _ _ _ w mem); [done|]. apply IH; [|cbn in Hn; lia]. split_and!; [| |done].
    + intros i Hi. specialize (H1 (S i) ltac:(cbn; lia)). rewrite <-Nat.add_succ_comm in H1. exact H1.
    + rewrite <-H2. cbn [length]. f_equal. lia.
Qed.
Lemma get_string_ok q w F evs k : string_at b q w -> get_string q (mk_pst mem F evs k) = Ok w (mk_pst mem F evs k).
Proof.
  intros H. unfold get_string, on_mem, lift. cbn [pmem]. rewrite (cstr_ok _ q w); [done|done|].
  destruct H as (_ & H & _). apply lookup_lt_Some in H. cbn [sbuf]. lia.
Qed.
Lemma args_from_ok pes args m i n F evs k : Forall2 (fun (pe : nat * nat) w => string_at b pe.1 w) pes args ->
  (i <= length pes)%nat -> (length pes - i < n)%nat -> (0 < m)%nat ->
  args_from n i ((Some ∘ fst <$> pes) ++ replicate m None) (mk_pst mem F evs k) = Ok (drop i args) (mk_pst mem F evs k).
Proof.
  intros Hf. revert i. induction n as [|n IH]; intros i Hi Hn Hm; [lia|]. cbn [args_from].
  pose proof (Forall2_length _ _ _ Hf) as Hl. destruct (decide (i = length pes)) as [->|Hne].
  - rewrite lookup_app_r, length_fmap, Nat.sub_diag by (by rewrite length_fmap). destruct m; [lia|]. cbn.
    by rewrite Hl, drop_all.
  - destruct (lookup_lt_is_Some_2 pes i) as [pe Hpe]; [lia|]. destruct (Forall2_lookup_l _ _ _ _ _ Hf Hpe) as (w & Hw & Hat).
    rewrite lookup_app_l by (rewrite length_fmap; lia). rewrite list_lookup_fmap, Hpe. cbn [fmap option_fmap option_map compose].
    rewrite (bind_Ok _ _ _ _ _ (get_string_ok _ _ F evs k Hat)), (bind_Ok _ _ _ _ _ (IH (S i) ltac:(lia) ltac:(lia) Hm)).
    by rewrite (drop_S _ _ _ Hw).
Qed.

(** [ran m s tr k]: the process [m] comes to its end, having done [tr] and made pipes up to [k]. *)
Definition ran (m : M pst unit) (s : pst) (r : list ev * nat) : Prop :=
  exists F, m s = Ok tt (mk_pst (pmem s) F (events s ++ r.1) r.2).

Lemma run_exec_ok a0 args i o e evs k : (length a0 < 123)%nat ->
  ran (run_exec a0 (a0 :: args)) (mk_pst mem (std i o e) evs k) (does (Exec (a0 :: args)) i o e k).
Proof.
  intros Hl. exists (std i o e). unfold run_exec. cbn [does]. set (s := mk_pst mem (std i o e) evs k).
  assert (Hno : (b ← mret false; if (b : bool) then mret tt else emit (Said "sh: %s does not exist" a0) ;; exit) s
    = Ok tt (mk_pst mem (std i o e) (evs ++ [Said "sh: %s does not exist" a0; Exited]) k)).
  { unfold exit, emit, mbind, M_bind. cbn. by rewrite <-app_assoc. }
  destruct (found a0) eqn:E1.
  { by rewrite (bind_Ok _ _ _ true (mk_pst mem (std i o e) (evs ++ [Execs a0 (a0 :: args) (std i o e)]) k)) by (unfold exec; by rewrite E1). }
  rewrite (bind_Ok _ _ _ false s) by (unfold exec; by rewrite E1). cbv iota.
  destruct (negb (default 0 (head a0) =? SLASH)); cbn [andb]; [|exact Hno].
  rewrite decide_True by (rewrite length_app; cbn [length bin_prefix]; lia). destruct (found (bin_prefix ++ a0)) eqn:E2.
  - by rewrite (bind_Ok _ _ _ true (mk_pst mem (std i o e) (evs ++ [Execs (bin_prefix ++ a0) (a0 :: args) (std i o e)]) k)) by (unfold exec; by rewrite E2).
  - rewrite (bind_Ok _ _ _ false s) by (unfold exec; by rewrite E2). exact Hno.
Qed.

Context (Hforks : forks = true).

Lemma fork1_ok (child : M pst unit) F evs k r : ran child (mk_pst mem F [] k) r ->
  fork1 child (mk_pst mem F evs k) = Ok tt (mk_pst mem F (evs ++ [Forked r.1]) r.2).
Proof. intros [F' E]. unfold fork1. rewrite Hforks. cbn [pmem fds npipes events]. by rewrite E. Qed.

Lemma runcmd_ok p c : rep at_string ns p c -> runnable c -> forall fuel i o e evs k, (p < fuel)%nat ->
  ran (runcmd fuel p) (mk_pst mem (std i o e) evs k) (does c i o e k).
Proof.
  induction 1 as [p pes args Hn Hl Hf|p p' q e0 mode fd c f Hn Hlt Hw _ IH|p l r c d Hn Hl Hr _ IH1 _ IH2|p l r c d Hn Hl Hr _ IH1 _ IH2|p p' c Hn Hlt _ IH];
    intros Hrun [|fuel] i o e evs k Hp; try lia; cbn [runnable] in Hrun; unfold ran; cbn [runcmd pmem events];
    (rewrite (bind_Ok _ _ _ _ (mk_pst mem (std i o e) evs k)) by (unfold on_mem, lift, get_node; cbn [pmem nodes]; rewrite Hn; reflexivity)); cbv beta iota.
  - rewrite (bind_Ok _ _ _ _ _ (args_from_ok pes args (MAXARGS - length pes) 0 (S MAXARGS) (std i o e) evs k Hf ltac:(lia) ltac:(lia) ltac:(lia))).
    rewrite drop_0. destruct args as [|a0 args]; [by exists (std i o e)|]. apply Forall_cons in Hrun as [Ha _].
    exact (run_exec_ok a0 args i o e evs k Ha).
  - destruct Hrun as [Hfd Hrun]. cbn [does].
    set (F1 := <[Z.to_nat fd := None]> (std i o e)).
    rewrite (bind_Ok _ _ _ tt (mk_pst mem F1 evs k)) by done.
    rewrite (bind_Ok _ _ _ _ _ (get_string_ok q f F1 evs k Hw)).
    unfold open. destruct (opens f mode).
    + destruct Hfd as [->| ->].
      * rewrite (bind_Ok _ _ _ 0 (mk_pst mem (std (File f mode) o e) evs k)) by done. cbn [Z.ltb Z.compare]. apply IH; [done|lia].
      * rewrite (bind_Ok _ _ _ 1 (mk_pst mem (std i (File f mode) e) evs k)) by done. cbn [Z.ltb Z.compare]. apply IH; [done|lia].
    + exists F1. rewrite (bind_Ok _ _ _ (-1) (mk_pst mem F1 evs k)) by done. unfold exit, emit, mbind, M_bind. cbn. by rewrite <-app_assoc.
  - destruct Hrun as [Hc Hd]. cbn [does]. set (F4 := [Some i; Some o; Some e; Some (PipeR k); Some (PipeW k)] ++ replicate 11 None).
    rewrite (bind_Ok _ _ _ (Some (3, 4)%nat) (mk_pst mem F4 evs (S k))) by reflexivity. cbv beta iota.
    destruct (does c i (PipeW k) e (S k)) as [t1 k1] eqn:E1. destruct (does d (PipeR k) o e k1) as [t2 k2] eqn:E2.
    destruct (IH1 Hc fuel i (PipeW k) e [] (S k) ltac:(lia)) as [G1 R1]. rewrite E1 in R1.
    destruct (IH2 Hd fuel (PipeR k) o e [] k1 ltac:(lia)) as [G2 R2]. rewrite E2 in R2.
    rewrite (bind_Ok _ _ _ tt (mk_pst mem F4 (evs ++ [Forked t1]) k1)) by (apply (fork1_ok _ F4 evs (S k) (t1, k1)); by exists G1).
    rewrite (bind_Ok _ _ _ tt (mk_pst mem F4 ((evs ++ [Forked t1]) ++ [Forked t2]) k2)) by (apply (fork1_ok _ F4 _ k1 (t2, k2)); by exists G2).
    exists (std i o e). unfold wait, exit, emit, close, mbind, M_bind. cbn [fst snd pmem events npipes set_fds].
    rewrite <-!app_assoc. reflexivity.
  - destruct Hrun as [Hc Hd]. cbn [does]. destruct (does c i o e k) as [t1 k1] eqn:E1.
    assert (R1 := IH1 Hc fuel i o e [] k ltac:(lia)). rewrite E1 in R1.
    rewrite (bind_Ok _ _ _ _ _ (fork1_ok _ _ evs _ _ R1)). cbn [fst snd].
    rewrite (bind_Ok _ _ _ tt (mk_pst mem (std i o e) ((evs ++ [Forked t1]) ++ [Waited]) k1)) by done.
    destruct (IH2 Hd fuel i o e ((evs ++ [Forked t1]) ++ [Waited]) k1 ltac:(lia)) as [F E]. exists F. rewrite E.
    cbn [pmem events]. destruct (does d i o e k1) as [t2 k2]. cbn [fst snd]. by rewrite <-!app_assoc.
  - cbn [does]. destruct (does c i o e k) as [t1 k1] eqn:E1.
    assert (R1 := IH Hrun fuel i o e [] k ltac:(lia)). rewrite E1 in R1. exists (std i o e).
    rewrite (bind_Ok _ _ _ _ _ (fork1_ok _ _ evs _ _ R1)). cbn [fst snd]. unfold exit, emit. cbn. by rewrite <-app_assoc.
Qed.
End ok.

(** ** From the line to its events *)

Lemma runnable_wrap rs c : runnable c -> runnable (wrap rs c).
Proof.
  revert c. induction rs as [|[op f] rs IH]; intros c H; [done|]. apply IH. unfold redirect. cbn [fst].
  destruct (op =? LT); (split; [|done]); [by left|by right].
Qed.
Lemma runnable_backs n c : runnable c -> runnable (backs n c).
Proof. revert c. induction n as [|n IH]; intros c H; [done|]. by apply IH. Qed.
Lemma simple_words ts args rs w : simple ts args rs -> w ∈ args -> Word w ∈ ts.
Proof.
  induction 1 as [|w' ts args rs _ IH|op f ts args rs _ _ IH]; [by rewrite elem_of_nil| |].
  - rewrite !elem_of_cons. intros [->|H]; [by left|right; by apply IH].
  - intros H. do 2 (apply elem_of_cons; right). by apply IH.
Qed.
Lemma derives_runnable n ts c : derives n ts c -> (forall w, Word w ∈ ts -> (length w < 123)%nat) -> runnable c.
Proof.
  induction 1 as [ts args rs Hs _|ts c ts1 rs _ IH _|ts c _ IH|ts c ts1 d _ IH1 _ IH2|ts c m _ IH|ts c m ts1 d _ IH1 _ IH2]; intros Hw.
  - apply runnable_wrap. cbn. apply Forall_forall. intros a Ha. apply Hw. by eapply simple_words.
  - apply runnable_wrap, IH. intros w H. apply Hw. rewrite elem_of_cons, elem_of_app. auto.
  - by apply IH.
  - split; [apply IH1|apply IH2]; intros w H; apply Hw; rewrite elem_of_app, elem_of_cons; auto.
  - apply runnable_backs, IH. intros w H. apply Hw. rewrite elem_of_app. auto.
  - split; [apply runnable_backs, IH1|apply IH2]; intros w H; apply Hw; rewrite !elem_of_app, elem_of_cons; auto.
Qed.
Lemma takew_length r : (length (takew r) <= length r)%nat.
Proof. destruct (takew_spec r) as [E _]. apply (f_equal length) in E. rewrite length_app in E. lia. Qed.
Lemma lexn_words n r w : Word w ∈ lexn n r -> (length w <= length r)%nat.
Proof.
  revert r. induction n as [|n IH]; intros r; cbn [lexn]; [by rewrite elem_of_nil|].
  destruct (lex1 r) as [[t r']|] eqn:E; [|by rewrite elem_of_nil]. pose proof (lex1_shorter _ _ _ E) as Hs.
  rewrite elem_of_cons. intros [<-|H]; [|specialize (IH _ H); lia].
  unfold lex1 in E. pose proof (skip_length r). destruct (skip r) as [|c r0]; [done|].
  destruct (c =? GT); [destruct r0 as [|c2 r0]; [done|]; by destruct (c2 =? GT)|].
  destruct (strchr symbols c); [done|]. injection E as <- _. etrans; [apply (takew_length (c :: r0))|done].
Qed.

Lemma run_line_ok line junk i o e k : forks = true -> Forall (fun c => c <> 0) line -> (length line < 100)%nat ->
  let s := mk_pst (mk_sst (line ++ 0 :: junk) []) (std i o e) [] k in
  (forall c, derives CLine (tokens line) c -> exists s', run_line s = Ok tt s' /\ (events s', npipes s') = does c i o e k) /\
  ((forall c, ~ derives CLine (tokens line) c) -> exists m s', m ∈ errors /\ run_line s = Panic "exit" s'
     /\ events s' = [Said m []; Exited] /\ npipes s' = k).
Proof.
  intros Hf Hline Hlen. cbv zeta. unfold run_line. cbn [pmem]. pose proof (parsecmd_sound line junk Hline) as H.
  destruct (parsecmd (mk_sst (line ++ 0 :: junk) [])) as [p [b ns]|m s|ch s|]; [| |done|done].
  - destruct H as (c & Hd & Hu & Hr). split; [|intros Hn; by destruct (Hn c)].
    intros c' Hc'. rewrite (Hu c' Hc').
    assert (Hrun : runnable c).
    { eapply derives_runnable; [exact Hd|]. intros w Hw. unfold tokens in Hw. apply lexn_words in Hw. lia. }
    destruct (runcmd_ok b ns Hf p c Hr Hrun (S p) i o e [] k ltac:(lia)) as [F E]. unfold set_mem. cbn [fds events npipes].
    eexists. split; [exact E|]. cbn. by destruct (does c i o e k).
  - destruct H as [Hm Hn]. split; [intros c Hc; by destruct (Hn c)|]. intros _. rewrite decide_True by done.
    eexists m, _. split_and!; done.
Qed.

Definition starts_cd (line : list Z) : bool :=
  match line with c0 :: c1 :: c2 :: _ => (c0 =? 99) && (c1 =? 100) && (c2 =? 32) | _ => false end.
Lemma main_fork line junk F evs k : (2 <= length line + length junk)%nat -> starts_cd line = false ->
  main_round (mk_pst (mk_sst (line ++ 0 :: junk) []) F evs k) =
    (fork1 run_line ;; emit (Setfg true) ;; wait ;; emit (Setfg false)) (mk_pst (mk_sst (line ++ 0 :: junk) []) F evs k).
Proof.
  intros Hl Hcd. set (s := mk_pst _ F evs k).
  assert (Hch : forall j, (j < 3)%nat -> exists c, (line ++ 0 :: junk) !! j = Some c /\ on_mem (ch j) s = Ok c s).
  { intros j Hj. destruct (lookup_lt_is_Some_2 (line ++ 0 :: junk) j) as [c Hc]; [rewrite length_app; cbn; lia|].
    exists c. split; [done|]. unfold on_mem, lift, ch. cbn. by rewrite Hc. }
  destruct (Hch 0%nat) as (c0 & H0 & E0); [lia|]. destruct (Hch 1%nat) as (c1 & H1 & E1); [lia|]. destruct (Hch 2%nat) as (c2 & H2 & E2); [lia|].
  unfold main_round. rewrite (bind_Ok _ _ _ _ _ E0), (bind_Ok _ _ _ _ _ E1), (bind_Ok _ _ _ _ _ E2).
  replace ((c0 =? 99) && (c1 =? 100) && (c2 =? 32)) with false; [done|]. symmetry.
  destruct line as [|d0 [|d1 [|d2 line]]]; cbn in H0, H1, H2; simplify_eq; cbn in Hcd |- *; try done.
  - by rewrite andb_false_r.
  - by rewrite !andb_false_r.
Qed.

(** C9: The shell does what the line says.  In a process with standard input, output
    and error output and nothing else open, a line that the grammar derives as the
    command [c] makes the child do exactly what [c] means: the stages of a pipeline
    share one pipe each between neighbours, a redirection replaces the descriptor it
    names, a program is started with its three descriptors and no other (no end of a
    pipe is left open), lists wait for their first half and background commands for
    nothing.  A line outside the grammar makes the child print a message and exit.
    The shell itself keeps its descriptors and waits for the child. *)
Theorem shell_runs_line line junk i o e evs k : forks = true -> Forall (fun c => c <> 0) line ->
  (length line + 1 + length junk = 100)%nat -> starts_cd line = false ->
  exists child k', main_round (mk_pst (mk_sst (line ++ 0 :: junk) []) (std i o e) evs k) =
      Ok tt (mk_pst (mk_sst (line ++ 0 :: junk) []) (std i o e) (evs ++ [Forked child; Setfg true; Waited; Setfg false]) k')
    /\ (forall c, derives CLine (tokens line) c -> (child, k') = does c i o e k)
    /\ ((forall c, ~ derives CLine (tokens line) c) -> exists m, m ∈ errors /\ child = [Said m []; Exited] /\ k' = k).
Proof.
  intros Hf Hline Hlen Hcd. rewrite main_fork by (lia || done).
  destruct (run_line_ok line junk i o e k Hf Hline) as [H1 H2]; [lia|]. cbv zeta in H1, H2.
  pose proof (parsecmd_sound line junk Hline) as Hp.
  assert (Hend : forall s1, fork1 run_line (mk_pst (mk_sst (line ++ 0 :: junk) []) (std i o e) evs k) =
             Ok tt (mk_pst (mk_sst (line ++ 0 :: junk) []) (std i o e) (evs ++ [Forked (events s1)]) (npipes s1)) ->
           (fork1 run_line ;; emit (Setfg true) ;; wait ;; emit (Setfg false)) (mk_pst (mk_sst (line ++ 0 :: junk) []) (std i o e) evs k) =
             Ok tt (mk_pst (mk_sst (line ++ 0 :: junk) []) (std i o e) (evs ++ [Forked (events s1); Setfg true; Waited; Setfg false]) (npipes s1))).
  { intros s1 E. rewrite (bind_Ok _ _ _ _ _ E). unfold wait, emit, mbind, M_bind. cbn. by rewrite <-!app_assoc. }
  destruct (parsecmd (mk_sst (line ++ 0 :: junk) [])) as [p s|m s|ch s|]; [| |done|done].
  - destruct Hp as (c & Hd & Hu & _). destruct (H1 c Hd) as (s' & E & Ed). exists (events s'), (npipes s').
    split; [apply Hend; unfold fork1; rewrite Hf; cbn [pmem fds npipes]; by rewrite E|]. split.
    + intros d Hd2. by rewrite (Hu d Hd2).
    + intros Hn. by destruct (Hn c).
  - destruct Hp as [_ Hn]. destruct (H2 Hn) as (m' & s' & Hm & E & Ee & Ek). exists (events s'), (npipes s').
    split; [apply Hend; unfold fork1; rewrite Hf; cbn [pmem fds npipes]; by rewrite E|]. split; [intros c Hc; by destruct (Hn c)|].
    intros _. by exists m'.
Qed.

(** [cd] takes the last character off the line: the newline, when there is one. *)
Lemma main_cd path x junk F evs k : Forall (fun c => c <> 0) (path ++ [x]) ->
  let buf := 99 :: 100 :: 32 :: (path ++ [x]) ++ 0 :: junk in
  exists m, main_round (mk_pst (mk_sst buf []) F evs k) = Ok tt (mk_pst m F (evs ++ [Chdir path]) k).
Proof.
  intros Hp. cbv zeta. set (line := 99 :: 100 :: 32 :: path ++ [x]).
  change (99 :: 100 :: 32 :: (path ++ [x]) ++ 0 :: junk) with (line ++ 0 :: junk).
  assert (Hline : Forall (fun c => c <> 0) line) by (repeat constructor; done).
  set (s := mk_pst (mk_sst (line ++ 0 :: junk) []) F evs k).
  assert (Hl : length line = (4 + length path)%nat) by (unfold line; cbn [length]; rewrite length_app; cbn; lia).
  assert (Hs : on_mem (fun s => strlen (length (sbuf s)) 0 s) s = Ok (length line) s).
  { unfold on_mem, lift, s. cbn [pmem sbuf]. rewrite (strlen_ok line junk Hline); [by rewrite Nat.sub_0_r|lia|].
    rewrite length_app. cbn [length]. lia. }
  set (b' := <[(length line - 1)%nat := 0]> (line ++ 0 :: junk)).
  assert (Eb : b' = [99; 100; 32] ++ path ++ 0 :: 0 :: junk).
  { assert (El : line ++ 0 :: junk = ([99; 100; 32] ++ path) ++ x :: 0 :: junk) by (unfold line; cbn; by rewrite <-app_assoc).
    unfold b'. rewrite Hl, El. replace (4 + length path - 1)%nat with (length ([99; 100; 32]%Z ++ path) + 0)%nat by (cbn; lia).
    rewrite insert_app_r. by rewrite <-app_assoc. }
  exists (mk_sst b' []). unfold main_round.
  rewrite (bind_Ok _ _ _ 99 s), (bind_Ok _ _ _ 100 s), (bind_Ok _ _ _ 32 s) by reflexivity.
  change ((99 =? 99) && (100 =? 100) && (32 =? 32)) with true. cbv iota. rewrite (bind_Ok _ _ _ _ _ Hs).
  rewrite (bind_Ok _ _ _ tt (mk_pst (mk_sst b' []) F evs k)).
  2:{ unfold on_mem, lift, setch, s. cbn [pmem sbuf nodes]. rewrite decide_True by (rewrite length_app; cbn; lia). done. }
  rewrite (bind_Ok _ _ _ path (mk_pst (mk_sst b' []) F evs k)); [done|]. apply get_string_ok. rewrite Eb.
  apply Forall_app in Hp as [Hp _]. split_and!; [| |done].
  - intros j Hj. rewrite lookup_app_r by (cbn; lia). rewrite lookup_app_l by (cbn; lia). f_equal. cbn. lia.
  - rewrite lookup_app_r by (cbn; lia). replace (3 + length path - length [99; 100; 32]%Z)%nat with (length path) by (cbn; lia).
    by apply list_lookup_middle.
Qed.
End run.

Lemma shell_runs_line_witness :
  exists child k', main_round (fun _ => true) (fun _ _ => true) true
      (mk_pst (mk_sst (example_line ++ 0 :: replicate 77 0) []) (std (Std 0) (Std 1) (Std 2)) [] 0) =
    Ok tt (mk_pst (mk_sst (example_line ++ 0 :: replicate 77 0) []) (std (Std 0) (Std 1) (Std 2))
             ([] ++ [Forked child; Setfg true; Waited; Setfg false]) k') /\ k' = 1%nat.
Proof.
  destruct (shell_runs_line (fun _ => true) (fun _ _ => true) true example_line (replicate 77 0) (Std 0) (Std 1) (Std 2) [] 0)
    as (child & k' & E & _); [reflexivity|repeat constructor; discriminate|reflexivity|reflexivity|].
  exists child, k'. split; [exact E|].
  assert (Ek : match main_round (fun _ => true) (fun _ _ => true) true
      (mk_pst (mk_sst (example_line ++ 0 :: replicate 77 0) []) (std (Std 0) (Std 1) (Std 2)) [] 0) with Ok _ s => npipes s | _ => 0%nat end = 1%nat)
    by (vm_compute; reflexivity).
  rewrite E in Ek. exact Ek.
Defined.
