(* ===== verification/Mkfs.v ===== *)
(** * Mkfs: the disk image builder

    Model of src/tools/mkfs.c, the program that runs on the build host and
    makes the first file system: the superblock, the inodes and directories for
    the files named on its command line, their contents and the bitmap.  The
    file holds the definitions; Mkimage proves what the image holds, and Mkboot
    that the kernel boots from it and finds the files.

    The image is a map from sectors to blocks.  Reading a sector that was never
    written leaves the caller's buffer uninitialised, and is undefined here;
    [exit(1)] is the failure ["exit"], a failed [assert] the failure
    ["assert"].  The host is little endian, as [iappend] supposes. *)

From Stdlib Require Import ZArith Lia ZifyBool.
From stdpp Require Import base gmap strings numbers list.
From S2P Require Import Prelude CString Bio Log Fs.

Local Open Scope Z_scope.

(** ** Layout

    [ boot block | sb block | log | inode blocks | free bit map | data blocks ] *)

Definition NINODES : Z := 200.
Definition nbitmap : Z := FSSIZE / (BSIZE * 8) + 1.
Definition ninodeblocks : Z := NINODES / IPB + 1.
Definition nlog : Z := LOGSIZE.
Definition nmeta : Z := 2 + nlog + ninodeblocks + nbitmap.
Definition nblocks : Z := FSSIZE - nmeta.

(** The value whose representation on the host is [x] in intel byte order. *)
Definition xshort (x : Z) : Z := le_decode [u8 x; u8 (Z.shiftr x 8)].
Definition xint (x : Z) : Z :=
  le_decode [u8 x; u8 (Z.shiftr x 8); u8 (Z.shiftr x 16); u8 (Z.shiftr x 24)].

(** The global [sb], as [main] sets it before anything else. *)
Definition sb : superblock :=
  mk_sb (xint FSSIZE) (xint nblocks) (xint NINODES) (xint nlog) (xint 2) (xint (2 + nlog))
    (xint (2 + nlog + ninodeblocks)) 0 0.
Definition sb_bytes (b : superblock) : list Z :=
  concat (map (le_encode 4) [sb_size b; sb_nblocks b; sb_ninodes b; sb_nlog b; sb_logstart b;
    sb_inodestart b; sb_bmapstart b; sb_mounttime b; sb_modtime b]).

Definition IBLOCK (i : Z) : Z := i / IPB + sb_inodestart sb.

(** ** State *)

Record mkst : Type := mk_mkst { img : gmap Z (list Z); freeinode : Z; freeblock : Z }.
Definition set_img (m : gmap Z (list Z)) (s : mkst) : mkst := mk_mkst m (freeinode s) (freeblock s).
Definition set_freeinode (i : Z) (s : mkst) : mkst := mk_mkst (img s) i (freeblock s).
Definition set_freeblock (b : Z) (s : mkst) : mkst := mk_mkst (img s) (freeinode s) b.

(** ** Sectors *)

Definition rsect (sec : Z) : M mkst (list Z) := fun s =>
  match img s !! sec with
  | Some d => Ok d s
  | None => Panic "undefined" s
  end.
Definition wsect (sec : Z) (buf : list Z) : M mkst unit :=
  modS (fun s => set_img (<[sec := buf]> (img s)) s).

(** ** Inodes *)

Record dinode : Type := mk_dinode {
  d_type : Z; d_major : Z; d_minor : Z; d_nlink : Z; d_size : Z; d_addrs : list Z;
  d_atime : Z; d_mtime : Z
}.
Definition set_dsize (n : Z) (x : dinode) : dinode :=
  mk_dinode (d_type x) (d_major x) (d_minor x) (d_nlink x) n (d_addrs x) (d_atime x) (d_mtime x).
Definition set_daddr (k a : Z) (x : dinode) : dinode :=
  mk_dinode (d_type x) (d_major x) (d_minor x) (d_nlink x) (d_size x) (updZ k a (d_addrs x))
    (d_atime x) (d_mtime x).

(** The bytes of a [struct dinode], and the one held in 72 bytes. *)
Definition dinode_bytes (x : dinode) : list Z :=
  le_encode 2 (d_type x) ++ le_encode 2 (d_major x) ++ le_encode 2 (d_minor x)
  ++ le_encode 2 (d_nlink x) ++ le_encode 4 (d_size x) ++ concat (map (le_encode 4) (d_addrs x))
  ++ le_encode 4 (d_atime x) ++ le_encode 4 (d_mtime x).
Definition dinode_at (d : list Z) (o : nat) : dinode :=
  mk_dinode (get16 d o) (get16 d (o + 2)) (get16 d (o + 4)) (get16 d (o + 6)) (get32 d (o + 8))
    (map (fun k => get32 d (o + 12 + 4 * Z.to_nat k)) (seqZ 0 (NDIRECT + 3)))
    (get32 d (o + 64)) (get32 d (o + 68)).

Definition winode (inum : Z) (ip : dinode) : M mkst unit :=
  let bn := IBLOCK inum in
  buf ← rsect bn;
  wsect bn (splice (ioff inum) (dinode_bytes ip) buf).
Definition rinode (inum : Z) : M mkst dinode :=
  buf ← rsect (IBLOCK inum);
  mret (dinode_at buf (ioff inum)).

Definition ialloc (type : Z) : M mkst Z :=
  inum ← gets freeinode;
  modS (set_freeinode (inum + 1)) ;;
  winode inum (mk_dinode (xshort type) 0 0 (xshort 1) (xint 0)
                 (replicate (Z.to_nat (NDIRECT + 3)) 0) (xint 0) (xint 0)) ;;
  mret inum.

(** ** The bitmap *)

Definition balloc (used : Z) : M mkst unit :=
  if used <? BSIZE * 8 then
    wsect (sb_bmapstart sb)
      (fold_left (fun buf i =>
         updZ (i / 8) (u8 (Z.lor (nthZ 0 buf (i / 8)) (Z.shiftl 1 (i mod 8)))) buf)
         (seqZ 0 used) zero_block)
  else panic "assert".

(** ** Appending to a file *)

(** [freeblock++] *)
Definition next_block : M mkst Z :=
  b ← gets freeblock;
  modS (set_freeblock (b + 1)) ;;
  mret b.

(** [din.addrs[k]], assigned the next block when it is zero. *)
Definition addr_entry (k : Z) (din : dinode) : M mkst (dinode * Z) :=
  if nthZ 0 (d_addrs din) k =? 0 then
    b ← next_block;
    mret (set_daddr k b din, b)
  else mret (din, nthZ 0 (d_addrs din) k).

(** [lbuf[i]] of the block of addresses at [addr], likewise. *)
Definition ind_entry (addr i : Z) : M mkst Z :=
  lbuf ← rsect addr;
  let a := get32 lbuf (Z.to_nat (4 * i)) in
  if a =? 0 then
    b ← next_block;
    wsect addr (put32 (Z.to_nat (4 * i)) b lbuf) ;;
    mret b
  else mret a.

Definition map_block (din : dinode) (fbn : Z) : M mkst (dinode * Z) :=
  if fbn <? NDIRECT then addr_entry fbn din
  else if fbn <? NDIRECT + NINDIRECT then
    let sind_idx := fbn - NDIRECT in
    '(din, a) ← addr_entry NDIRECT din;
    x ← ind_entry a sind_idx;
    mret (din, x)
  else if fbn <? NDIRECT + NINDIRECT + NDINDIRECT then
    let fbn_rel := fbn - (NDIRECT + NINDIRECT) in
    '(din, a) ← addr_entry (NDIRECT + 1) din;
    l2_addr ← ind_entry a (fbn_rel / NINDIRECT);
    x ← ind_entry l2_addr (fbn_rel mod NINDIRECT);
    mret (din, x)
  else
    let fbn_rel := fbn - (NDIRECT + NINDIRECT + NDINDIRECT) in
    '(din, a) ← addr_entry (NDIRECT + 2) din;
    l2_addr ← ind_entry a (fbn_rel / NDINDIRECT);
    l3_addr ← ind_entry l2_addr ((fbn_rel mod NDINDIRECT) / NINDIRECT);
    x ← ind_entry l3_addr ((fbn_rel mod NDINDIRECT) mod NINDIRECT);
    mret (din, x).

Definition append_round (st : dinode * Z * list Z) : M mkst ((dinode * Z * list Z) + (dinode * Z)) :=
  let '(din, off, p) := st in
  let n := Z.of_nat (length p) in
  if 0 <? n then
    let fbn := off / BSIZE in
    if MAXFILE <=? fbn then panic "exit"
    else
      '(din, x) ← map_block din fbn;
      let n1 := Z.min n ((fbn + 1) * BSIZE - off) in
      buf ← rsect x;
      wsect x (splice (Z.to_nat (off - fbn * BSIZE)) (take (Z.to_nat n1) p) buf) ;;
      mret (inl (din, off + n1, drop (Z.to_nat n1) p))
  else mret (inr (din, off)).

(** Every round but the first and the last fills a whole block, so the fuel
    suffices. *)
Definition iappend (inum : Z) (xp : list Z) : M mkst unit :=
  din ← rinode inum;
  '(din, off) ← loop (Z.to_nat (Z.of_nat (length xp) / BSIZE + 3)) append_round (din, d_size din, xp);
  winode inum (set_dsize off din).

(** ** Directories *)

(** A cleared [struct dirent] whose [inum] and [name] are then set; [strncpy]
    stops after [DIRSIZ] bytes. *)
Definition dirent (inum : Z) (name : list Z) : list Z :=
  le_encode 2 (xshort inum) ++ take (Z.to_nat DIRSIZ) name
  ++ replicate (Z.to_nat DIRSIZ - length name) 0.
Definition dot : list Z := [46].
Definition dotdot : list Z := [46; 46].

(** The name in an entry as a C string, without the padding at its end. *)
Fixpoint strip_pad (rev_nm : list Z) : list Z :=
  match rev_nm with
  | c :: r => if (c =? 0) || (c =? 32) then strip_pad r else rev_nm
  | [] => []
  end.
Fixpoint upto_nul (l : list Z) : list Z :=
  match l with
  | c :: r => if c =? 0 then [] else c :: upto_nul r
  | [] => []
  end.
Definition entry_name (nm : list Z) : list Z := upto_nul (reverse (strip_pad (reverse nm))).

(** The entries of one block of a directory. *)
Definition search_block (buf name : list Z) : option Z :=
  match List.find (fun j =>
          let inum := xshort (get16 buf (16 * Z.to_nat j)) in
          negb (inum =? 0)
          && bool_decide (entry_name (slice (16 * Z.to_nat j + 2) (Z.to_nat DIRSIZ) buf) = name))
          (seqZ 0 (BSIZE / DIRENT_SIZE)) with
  | Some j => Some (xshort (get16 buf (16 * Z.to_nat j)))
  | None => None
  end.
Definition dirlookup (dirinum : Z) (name : list Z) : M mkst Z :=
  din ← rinode dirinum;
  r ← forR (seqZ 0 NDIRECT) (fun i =>
        let addr := xint (nthZ 0 (d_addrs din) i) in
        if addr =? 0 then mret None
        else buf ← rsect addr; mret (search_block buf name));
  mret (default 0 r).

(** What the calls of [strtok(copy, "/")] return, one after the other. *)
Fixpoint strtok_acc (cur path : list Z) : list (list Z) :=
  match path with
  | [] => match cur with [] => [] | _ => [cur] end
  | c :: path' =>
      if c =? 47 then match cur with [] => strtok_acc [] path' | _ => cur :: strtok_acc [] path' end
      else strtok_acc (cur ++ [c]) path'
  end.
Definition strtok_all (path : list Z) : list (list Z) := strtok_acc [] path.

Fixpoint ensure_toks (parent : Z) (toks : list (list Z)) : M mkst Z :=
  match toks with
  | [] => mret parent
  | tok :: toks =>
      found ← dirlookup parent tok;
      if found =? 0 then
        inum ← ialloc T_DIR;
        iappend parent (dirent inum tok) ;;
        iappend inum (dirent inum dot) ;;
        iappend inum (dirent parent dotdot) ;;
        ensure_toks inum toks
      else ensure_toks found toks
  end.
Definition ensure_path (parent : Z) (path : list Z) : M mkst Z :=
  match path with
  | [] => mret parent
  | _ => ensure_toks parent (strtok_all (take 511 path))
  end.

(** ** The command line *)

(** What the host has under a path: nothing, something that is not a regular
    file, a file that cannot be opened, or a file with the results of the
    successive calls of [read], up to the first that is not positive. *)
Inductive hostfile : Type :=
| HNone
| HOther
| HUnreadable
| HReg (chunks : list (list Z)).

Definition userspace : list Z := [117; 115; 101; 114; 115; 112; 97; 99; 101; 47].

Definition strip_prefix (p : list Z) : list Z :=
  if bool_decide (take 10 p = userspace) then drop 10 p else p.
Fixpoint strip_slashes (rev_p : list Z) : list Z :=
  match rev_p with
  | c :: r => if c =? 47 then strip_slashes r else rev_p
  | [] => []
  end.
(** The path in the image. *)
Definition imgpath (hostpath : list Z) : list Z :=
  reverse (strip_slashes (reverse (strip_prefix (take 511 hostpath)))).

(** [strrchr(imgpath, '/')]: the parts before and after the last slash. *)
Fixpoint last_slash (p : list Z) : option (list Z * list Z) :=
  match p with
  | [] => None
  | c :: p' =>
      match last_slash p' with
      | Some (pre, base) => Some (c :: pre, base)
      | None => if c =? 47 then Some ([], p') else None
      end
  end.
Definition skip_underscore (name : list Z) : list Z :=
  match name with
  | c :: r => if c =? 95 then r else name
  | [] => []
  end.

Definition add_arg (rootino : Z) (arg : list Z * hostfile) : M mkst unit :=
  let '(hostpath, st) := arg in
  match st with
  | HNone => panic "exit"
  | _ =>
      let p := imgpath hostpath in
      '(parent, basename) ←
        match last_slash p with
        | Some (pre, base) => parent ← ensure_path rootino pre; mret (parent, base)
        | None => mret (rootino, p)
        end;
      let basename := skip_underscore basename in
      match st with
      | HReg chunks =>
          inum ← ialloc T_FILE;
          iappend parent (dirent inum basename) ;;
          forM chunks (fun buf => iappend inum buf)
      | HUnreadable => panic "exit"
      | _ => mret tt
      end
  end.

(** ** [main] *)

Definition main_init : M mkst Z :=
  modS (set_freeblock nmeta) ;;
  forM (seqZ 0 FSSIZE) (fun i => wsect i zero_block) ;;
  wsect 1 (splice 0 (sb_bytes sb) zero_block) ;;
  rootino ← ialloc T_DIR;
  (if rootino =? ROOTINO then mret tt else panic "assert") ;;
  iappend rootino (dirent rootino dot) ;;
  iappend rootino (dirent rootino dotdot) ;;
  mret rootino.

(** "fix size of root inode dir", and the bitmap. *)
Definition main_finish (rootino : Z) : M mkst unit :=
  din ← rinode rootino;
  let off := xint (d_size din) in
  let off := (off / BSIZE + 1) * BSIZE in
  winode rootino (set_dsize (xint off) din) ;;
  used ← gets freeblock;
  balloc used.

Definition main (args : list (list Z * hostfile)) : M mkst unit :=
  rootino ← main_init;
  forM args (add_arg rootino) ;;
  main_finish rootino.

(** The image file is truncated when it is opened. *)
Definition mkst0 : mkst := mk_mkst ∅ 1 0.
