(* ===== verification/Mkimage.v ===== *)
(** * Mkimage: what the image built by mkfs holds

    The invariant of src/tools/mkfs.c while it builds the image, for files
    within the direct and the single indirect blocks: the blocks of the files
    are distinct and below [freeblock], every file holds the bytes appended to
    it, and [freeblock] counts exactly the blocks in use.  [iappend] appends to
    one file and changes no other.  On top of that, [main] builds the tree of
    directories and files that a pure reading of the command line gives. *)

From Stdlib Require Import ZArith Lia ZifyBool.
From stdpp Require Import base gmap strings numbers list.
From S2P Require Import Prelude CString Bio Log Fs Balloc Content Mkfs.

Local Open Scope Z_scope.
#[local] Ltac Zify.zify_post_hook ::= Z.to_euclidean_division_equations.

(** ** Sectors *)

Definition blk (s : mkst) (b : Z) : list Z := default zero_block (img s !! b).

(** The image has the sectors [0] to [FSSIZE - 1]. *)
Definition sectors_ok (s : mkst) : Prop := forall b,
  match img s !! b with
  | Some d => 0 <= b < FSSIZE /\ length d = Z.to_nat BSIZE /\ is_bytes d
  | None => ~ (0 <= b < FSSIZE)
  end.

Definition put_blk (b : Z) (d : list Z) (s : mkst) : mkst := set_img (<[b := d]> (img s)) s.

Lemma blk_put s b d c : blk (put_blk b d s) c = if decide (c = b) then d else blk s c.
Proof.
  unfold blk, put_blk. cbn. destruct (decide (c = b)) as [->|Hne].
  - by rewrite lookup_insert_eq.
  - by rewrite lookup_insert_ne.
Qed.

Lemma sectors_put s b d :
  sectors_ok s -> 0 <= b < FSSIZE -> length d = Z.to_nat BSIZE -> is_bytes d ->
  sectors_ok (put_blk b d s).
Proof.
  intros S Hb Hl Hd c. unfold put_blk. cbn. destruct (decide (c = b)) as [->|Hne].
  - by rewrite lookup_insert_eq.
  - rewrite lookup_insert_ne by done. apply S.
Qed.

Lemma blk_block s b : sectors_ok s -> length (blk s b) = Z.to_nat BSIZE /\ is_bytes (blk s b).
Proof.
  intros S. unfold blk. specialize (S b). destruct (img s !! b); cbn; [tauto|].
  split; [done|apply is_bytes_zero].
Qed.

Lemma wp_rsect s b (Q : list Z -> mkst -> Prop) :
  sectors_ok s -> 0 <= b < FSSIZE -> Q (blk s b) s -> wp (rsect b) Q s.
Proof.
  intros S Hb HQ. unfold wp, rsect. unfold blk in HQ. specialize (S b).
  destruct (img s !! b); [done|]. tauto.
Qed.

Lemma wp_wsect s b d (Q : unit -> mkst -> Prop) : Q tt (put_blk b d s) -> wp (wsect b d) Q s.
Proof. done. Qed.

(** ** The blocks of a file

    As in Content: slots 0 to 10 are [addrs], slots 11 to 138 the entries of
    the indirect block. *)
Definition slot_at (f : Z -> list Z) (A : list Z) (t : Z) : Z :=
  if t <=? NDIRECT then nthZ 0 A t
  else if nthZ 0 A NDIRECT =? 0 then 0
  else get32 (f (nthZ 0 A NDIRECT)) (Z.to_nat (4 * (t - NDIRECT - 1))).
Definition dslot (s : mkst) (x : dinode) (t : Z) : Z := slot_at (blk s) (d_addrs x) t.

(** The slots in use in a file of [n] bytes, and their number. *)
Definition needed (t n : Z) : Prop :=
  if t <? NDIRECT then t * BSIZE < n
  else if t =? NDIRECT then NDIRECT * BSIZE < n else (t - 1) * BSIZE < n.
Definition blocks (n : Z) : Z :=
  let q := (n + BSIZE - 1) / BSIZE in if NDIRECT <? q then q + 1 else q.

Record din_wf (x : dinode) : Prop := {
  dw_len : length (d_addrs x) = 13%nat;
  dw_addrs : Forall (fun a => 0 <= a < 2 ^ 32) (d_addrs x);
  dw_short : Forall (fun a => 0 <= a < 2 ^ 16) [d_type x; d_major x; d_minor x; d_nlink x];
  dw_int : Forall (fun a => 0 <= a < 2 ^ 32) [d_size x; d_atime x; d_mtime x]
}.

(** The blocks of the files with inodes [D] are distinct, and those from
    [freeblock] on are untouched. *)
Record slots_ok (s : mkst) (D : list dinode) : Prop := {
  so_sect : sectors_ok s;
  so_free : nmeta <= freeblock s <= FSSIZE;
  so_zero : forall b, freeblock s <= b < FSSIZE -> blk s b = zero_block;
  so_wf : forall i x, D !! i = Some x -> din_wf x;
  so_range : forall i x t, D !! i = Some x -> 0 <= t < NSLOT -> dslot s x t <> 0 ->
               nmeta <= dslot s x t < freeblock s;
  so_inj : forall i j x y t u, D !! i = Some x -> D !! j = Some y -> 0 <= t < NSLOT ->
             0 <= u < NSLOT -> dslot s x t <> 0 -> dslot s x t = dslot s y u -> i = j /\ t = u
}.

(** The file maps the blocks of [n] bytes, and they hold [c], then zeros. *)
Definition bytes_ok (s : mkst) (x : dinode) (c : list Z) : Prop := forall k,
  0 <= k < SMALL * BSIZE -> dslot s x (slot_of (k / BSIZE)) <> 0 ->
  nthZ 0 (blk s (dslot s x (slot_of (k / BSIZE)))) (k mod BSIZE) = nthZ 0 c k.
Record holds (s : mkst) (x : dinode) (n : Z) (c : list Z) : Prop := {
  ho_need : forall t, 0 <= t < NSLOT -> dslot s x t <> 0 <-> needed t n;
  ho_bytes : bytes_ok s x c
}.

(** What a step on file [i] leaves alone. *)
Record others (s s' : mkst) (D : list dinode) (i : nat) : Prop := {
  ot_slots : forall j y t, j <> i -> D !! j = Some y -> 0 <= t < NSLOT ->
               dslot s' y t = dslot s y t;
  ot_blks : forall j y bn, j <> i -> D !! j = Some y -> 0 <= bn < SMALL ->
              dslot s y (slot_of bn) <> 0 ->
              blk s' (dslot s y (slot_of bn)) = blk s (dslot s y (slot_of bn));
  ot_meta : forall b, b < nmeta -> blk s' b = blk s b;
  ot_ino : freeinode s' = freeinode s
}.

Lemma nmeta_pos : 0 < nmeta.
Proof. done. Qed.
Lemma NSLOT_NDIRECT : 0 <= NDIRECT < NSLOT.
Proof. unfold NSLOT, NDIRECT, NINDIRECT. lia. Qed.
#[local] Hint Resolve NSLOT_NDIRECT : xv7.

Lemma others_same s D i : others s s D i.
Proof. done. Qed.

Lemma others_trans s1 s2 s3 D i x :
  others s1 s2 D i -> others s2 s3 (<[i := x]> D) i -> others s1 s3 D i.
Proof.
  intros [A1 A2 A3 A4] [B1 B2 B3 B4].
  assert (HD : forall j y, j <> i -> D !! j = Some y -> <[i := x]> D !! j = Some y)
    by (intros j y Hj Hy; by rewrite list_lookup_insert_ne by congruence).
  split.
  - intros j y t Hj Hy Ht. rewrite (B1 j) by auto. by apply (A1 j).
  - intros j y bn Hj Hy Hbn Hnz. destruct (slot_of_range bn Hbn) as [Hr _].
    rewrite <-(A1 j y _ Hj Hy Hr). rewrite (B2 j y bn); [|done|auto|done|by rewrite (A1 j y _ Hj Hy Hr)].
    rewrite (A1 j y _ Hj Hy Hr). by apply (A2 j).
  - intros b Hb. by rewrite B3, A3.
  - congruence.
Qed.

Lemma others_holds s s' D i j y n c :
  others s s' D i -> j <> i -> D !! j = Some y -> holds s y n c -> holds s' y n c.
Proof.
  intros [A1 A2 A3 A4] Hj Hy [Hn Hb]. split.
  - intros t Ht. rewrite (A1 j) by done. by apply Hn.
  - intros k Hk. assert (Hbn : 0 <= k / BSIZE < SMALL) by (unfold BSIZE in *; lia).
    destruct (slot_of_range _ Hbn) as [Hr _]. rewrite (A1 j y _ Hj Hy Hr). intros Hnz.
    rewrite (A2 j) by done. by apply Hb.
Qed.

(** ** Filling an empty slot *)

Definition same_meta (x x' : dinode) : Prop :=
  d_type x' = d_type x /\ d_major x' = d_major x /\ d_minor x' = d_minor x
  /\ d_nlink x' = d_nlink x /\ d_size x' = d_size x /\ d_atime x' = d_atime x
  /\ d_mtime x' = d_mtime x.

(** Slot [t] of the file gets the block [freeblock]; only the indirect block may
    change. *)
Record dfilled (s s' : mkst) (x x' : dinode) (t : Z) : Prop := {
  df_t : 0 <= t < NSLOT;
  df_free : freeblock s' = freeblock s + 1;
  df_ino : freeinode s' = freeinode s;
  df_sect : sectors_ok s';
  df_wf : din_wf x';
  df_meta : same_meta x x';
  df_old : dslot s x t = 0;
  df_slot : forall u, 0 <= u < NSLOT -> dslot s' x' u = if decide (u = t) then freeblock s else dslot s x u;
  df_blk : forall c, c = 0 \/ c <> dslot s x NDIRECT -> blk s' c = blk s c
}.

Lemma dslot_ext s s' x t :
  (nthZ 0 (d_addrs x) NDIRECT <> 0 ->
   blk s' (nthZ 0 (d_addrs x) NDIRECT) = blk s (nthZ 0 (d_addrs x) NDIRECT)) ->
  dslot s' x t = dslot s x t.
Proof.
  intros Hb. unfold dslot, slot_at. destruct (t <=? NDIRECT); [done|].
  destruct (Z.eqb_spec (nthZ 0 (d_addrs x) NDIRECT) 0); [done|]. by rewrite Hb.
Qed.

Lemma dslot_addr s x t : t <= NDIRECT -> dslot s x t = nthZ 0 (d_addrs x) t.
Proof. intros Ht. unfold dslot, slot_at. by rewrite (proj2 (Z.leb_le _ _)). Qed.

Section filled.
Context (s s' : mkst) (D : list dinode) (i : nat) (x x' : dinode) (t : Z).
Hypothesis (SO : slots_ok s D) (Hx : D !! i = Some x) (Hfree : freeblock s < FSSIZE)
  (F : dfilled s s' x x' t).

Lemma dfilled_others : others s s' D i.
Proof.
  pose proof NSLOT_NDIRECT as HN.
  assert (Hne : forall j y u, j <> i -> D !! j = Some y -> 0 <= u < NSLOT -> dslot s y u <> 0 ->
             blk s' (dslot s y u) = blk s (dslot s y u)).
  { intros j y u Hj Hy Hu Hnz. apply (df_blk _ _ _ _ _ F). right. intros E. apply Hj.
    by destruct (so_inj _ _ SO j i y x u NDIRECT). }
  split.
  - intros j y u Hj Hy Hu. apply dslot_ext. rewrite <-(dslot_addr s) by lia. intros Hnz. by apply (Hne j).
  - intros j y bn Hj Hy Hbn Hnz. destruct (slot_of_range bn Hbn) as [Hr _]. by apply (Hne j).
  - intros b Hb. apply (df_blk _ _ _ _ _ F). destruct (decide (b = 0)); [by left|]. right. intros E.
    pose proof (so_range _ _ SO i x NDIRECT Hx HN). lia.
  - apply F.
Qed.

Lemma dfilled_slots : slots_ok s' (<[i := x']> D).
Proof.
  pose proof NSLOT_NDIRECT as HN. pose proof dfilled_others as OT.
  pose proof (df_slot _ _ _ _ _ F) as Hsl. pose proof (df_free _ _ _ _ _ F) as Hf.
  pose proof (so_free _ _ SO) as Hfr. pose proof (so_range _ _ SO) as Hrg.
  assert (Hd : forall j y, <[i := x']> D !! j = Some y -> j = i /\ y = x' \/ j <> i /\ D !! j = Some y).
  { intros j y Hy. destruct (decide (j = i)) as [->|Hj].
    - rewrite list_lookup_insert_eq in Hy by (by eapply lookup_lt_Some). injection Hy as <-. by left.
    - rewrite list_lookup_insert_ne in Hy by congruence. by right. }
  split.
  - apply F.
  - lia.
  - intros b Hb. rewrite (df_blk _ _ _ _ _ F); [apply SO; lia|].
    right. intros E. pose proof (Hrg i x NDIRECT Hx HN). pose proof nmeta_pos. lia.
  - intros j y [[-> ->]|[Hj Hy]]%Hd; [apply F|]. by eapply SO.
  - intros j y u [[-> ->]|[Hj Hy]]%Hd Hu.
    + rewrite Hsl by done. case_decide; [lia|]. intros Hnz. specialize (Hrg i x u Hx Hu Hnz). lia.
    + rewrite (ot_slots _ _ _ _ OT j) by done. intros Hnz. specialize (Hrg j y u Hy Hu Hnz). lia.
  - intros j k y z u v Hy Hz Hu Hv.
    assert (Hs : forall j y u, <[i := x']> D !! j = Some y -> 0 <= u < NSLOT ->
      (j = i /\ u = t /\ dslot s' y u = freeblock s)
      \/ ~ (j = i /\ u = t) /\ exists y0, D !! j = Some y0 /\ dslot s' y u = dslot s y0 u).
    { clear - Hd Hsl OT Hx. intros j y u [[-> ->]|[Hj Hy]]%Hd Hu.
      - rewrite Hsl by done. case_decide; [by left|right]. split; [naive_solver|]. by exists x.
      - right. split; [naive_solver|]. exists y. by rewrite (ot_slots _ _ _ _ OT j). }
    destruct (Hs j y u Hy Hu) as [(-> & -> & E1)|(N1 & y0 & Hy0 & E1)],
      (Hs k z v Hz Hv) as [(-> & -> & E2)|(N2 & z0 & Hz0 & E2)]; rewrite E1, E2.
    + done.
    + intros _ E. specialize (Hrg k z0 v Hz0 Hv). pose proof nmeta_pos. lia.
    + intros Hnz E. specialize (Hrg j y0 u Hy0 Hu Hnz). lia.
    + by apply SO.
Qed.

(** The bytes stay as they are, if the new block is beyond them. *)
Lemma dfilled_bytes c :
  bytes_ok s x c ->
  (forall k, 0 <= k < SMALL * BSIZE -> slot_of (k / BSIZE) = t -> nthZ 0 c k = 0) -> bytes_ok s' x' c.
Proof.
  intros Hb Hz k Hk. pose proof NSLOT_NDIRECT as HN.
  assert (Hbn : 0 <= k / BSIZE < SMALL) by (unfold BSIZE in *; lia).
  destruct (slot_of_range _ Hbn) as [Hr Hne]. rewrite (df_slot _ _ _ _ _ F) by done.
  destruct (decide (slot_of (k / BSIZE) = t)) as [E|E]; intros Hnz.
  - rewrite Hz by done. rewrite (df_blk _ _ _ _ _ F), (so_zero _ _ SO) by
      (pose proof (so_free _ _ SO); pose proof (so_range _ _ SO i x NDIRECT Hx HN); lia).
    unfold nthZ, zero_block. rewrite (proj2 (Z.ltb_ge _ _)) by (unfold BSIZE; lia).
    apply nth_lookup_Some, lookup_replicate_2. unfold BSIZE. lia.
  - rewrite (df_blk _ _ _ _ _ F); [by apply Hb|]. right. intros En.
    destruct (so_inj _ _ SO i i x x _ NDIRECT Hx Hx Hr HN Hnz En). done.
Qed.
End filled.

(** ** The entries of the address tables *)

(** Entry [t], present before or filled now, holds block [b]. *)
Definition entered (s s' : mkst) (x x' : dinode) (t b : Z) : Prop :=
  (s' = s /\ x' = x /\ dslot s x t <> 0 \/ dslot s x t = 0 /\ dfilled s s' x x' t)
  /\ b = dslot s' x' t.

Lemma din_wf_daddr t a x : din_wf x -> 0 <= a < 2 ^ 32 -> din_wf (set_daddr t a x).
Proof.
  intros [W1 W2 W3 W4] Ha. split; [cbn; by rewrite length_updZ| |done|done].
  cbn. unfold updZ. case_match; [done|]. by apply Forall_insert.
Qed.

Lemma addr_entry_spec s D i x t :
  slots_ok s D -> D !! i = Some x -> freeblock s < FSSIZE -> 0 <= t <= NDIRECT ->
  wp (addr_entry t x) (fun r s' => entered s s' x r.1 t r.2) s.
Proof.
  intros SO Hx Hf Ht. pose proof (so_free _ _ SO) as Hfr. pose proof (so_wf _ _ SO i x Hx) as W.
  pose proof (dw_len _ W) as Hl. pose proof nmeta_pos as Hm.
  assert (HN : 0 <= t < NSLOT) by (pose proof NSLOT_NDIRECT; lia).
  unfold addr_entry. rewrite <-(dslot_addr s) by lia.
  destruct (Z.eqb_spec (dslot s x t) 0) as [Hz|Hnz].
  2:{ apply wp_ret. split; [by left|done]. }
  unfold next_block. apply wp_bind, wp_bind, wp_gets, wp_bind, wp_modS, wp_ret, wp_ret. cbn [fst snd].
  set (s' := set_freeblock _ _). set (x' := set_daddr _ _ _).
  assert (Hsl : forall u, 0 <= u < NSLOT -> dslot s' x' u = if decide (u = t) then freeblock s else dslot s x u).
  { intros u Hu. unfold dslot, slot_at, x'. cbn [d_addrs set_daddr]. change (blk s') with (blk s).
    destruct (Z.leb_spec u NDIRECT).
    - case_decide as E; [subst u; apply nthZ_updZ_eq; unfold NDIRECT in *; lia|by apply nthZ_updZ_ne].
    - rewrite decide_False by lia. destruct (decide (t = NDIRECT)) as [->|Hne].
      + rewrite nthZ_updZ_eq by (unfold NDIRECT; lia). rewrite <-(dslot_addr s), Hz by lia. cbn [Z.eqb].
        case_match; [done|]. rewrite (so_zero _ _ SO) by lia. apply get32_zero.
      + by rewrite nthZ_updZ_ne by done. }
  split.
  - right. split; [done|]. split; try done; [apply SO|].
    apply din_wf_daddr; [done|]. unfold FSSIZE in *. lia.
  - rewrite Hsl by done. by rewrite decide_True.
Qed.

Lemma slot_entry_off t u :
  NDIRECT < t < NSLOT -> NDIRECT < u < NSLOT -> u <> t ->
  (Z.to_nat (4 * (t - NDIRECT - 1)) + 4 <= Z.to_nat (4 * (u - NDIRECT - 1))
   \/ Z.to_nat (4 * (u - NDIRECT - 1)) + 4 <= Z.to_nat (4 * (t - NDIRECT - 1)))%nat.
Proof. lia. Qed.

Lemma ind_entry_spec s D i x t :
  slots_ok s D -> D !! i = Some x -> freeblock s < FSSIZE -> NDIRECT < t < NSLOT ->
  dslot s x NDIRECT <> 0 ->
  wp (ind_entry (dslot s x NDIRECT) (t - NDIRECT - 1)) (fun b s' => entered s s' x x t b) s.
Proof.
  intros SO Hx Hf Ht Ha. pose proof (so_free _ _ SO) as Hfr. pose proof nmeta_pos as Hm.
  pose proof NSLOT_NDIRECT as HN. pose proof (so_range _ _ SO i x NDIRECT Hx HN Ha) as Hr.
  set (a := dslot s x NDIRECT) in *.
  assert (Hsa : forall s u, NDIRECT < u -> dslot s x u = get32 (blk s a) (Z.to_nat (4 * (u - NDIRECT - 1)))).
  { intros s2 u Hu. unfold dslot, slot_at. rewrite (proj2 (Z.leb_gt _ _)) by lia.
    rewrite <-(dslot_addr s) by lia. fold a. by rewrite (proj2 (Z.eqb_neq a 0)). }
  destruct (blk_block s a (so_sect _ _ SO)) as [Hbl Hbb].
  unfold ind_entry. apply wp_bind, wp_rsect; [apply SO|lia|]. rewrite <-Hsa by lia.
  destruct (Z.eqb_spec (dslot s x t) 0) as [Hz|Hnz].
  2:{ apply wp_ret. split; [by left|done]. }
  unfold next_block. apply wp_bind, wp_bind, wp_gets, wp_bind, wp_modS, wp_ret.
  apply wp_bind, wp_wsect, wp_ret. set (s1 := set_freeblock _ s). set (d := put32 _ _ _).
  set (s' := put_blk a d s1).
  assert (Hoff : (Z.to_nat (4 * (t - NDIRECT - 1)) + 4 <= length (blk s a))%nat)
    by (rewrite Hbl; unfold NSLOT, NDIRECT, NINDIRECT, BSIZE in *; lia).
  assert (Hba : blk s' a = d) by (unfold s'; rewrite blk_put; by rewrite decide_True).
  assert (Hsl : forall u, 0 <= u < NSLOT -> dslot s' x u = if decide (u = t) then freeblock s else dslot s x u).
  { intros u Hu. destruct (decide (u <= NDIRECT)).
    { rewrite !dslot_addr by lia. by rewrite decide_False by lia. }
    rewrite !Hsa, Hba by lia. unfold d. case_decide as E.
    - subst u. apply get32_put32_eq; [lia|unfold FSSIZE in *; lia].
    - apply get32_put32_ne; [lia|]. apply slot_entry_off; lia || congruence. }
  split; [|rewrite Hsl by lia; by rewrite decide_True].
  right. split; [done|]. split; try done; try lia.
  - apply sectors_put; [apply SO|lia|unfold d; by rewrite length_put32|by apply is_bytes_put32].
  - by eapply SO.
  - intros c [->|Hc]; unfold s'; rewrite blk_put, decide_False by (fold a; lia || done); done.
Qed.

(** ** Mapping the next block of a file *)

Abbreviation len l := (Z.of_nat (length l)).

Lemma not_needed_beyond t n k : 0 <= k -> slot_of (k / BSIZE) = t -> ~ needed t n -> n <= k.
Proof.
  intros Hk <-. unfold slot_of, needed, NDIRECT, BSIZE.
  destruct (Z.ltb_spec (k / 512) 10) as [H|H].
  - rewrite (proj2 (Z.ltb_lt _ _)) by lia. lia.
  - rewrite (proj2 (Z.ltb_ge _ _)), (proj2 (Z.eqb_neq _ _)) by lia. lia.
Qed.

(** A step that maps blocks of file [i] and keeps its bytes [c]. *)
Record grown (s s' : mkst) (D : list dinode) (i : nat) (x x' : dinode) (c : list Z) : Prop := {
  gr_slots : slots_ok s' (<[i := x']> D);
  gr_others : others s s' D i;
  gr_bytes : bytes_ok s' x' c;
  gr_meta : same_meta x x'
}.

Lemma grown_refl s D i x c : slots_ok s D -> D !! i = Some x -> bytes_ok s x c -> grown s s D i x x c.
Proof. intros SO Hx Hb. split; [by rewrite list_insert_id|apply others_same|done|done]. Qed.

Lemma grown_trans s1 s2 s3 D i x1 x2 x3 c c' :
  grown s1 s2 D i x1 x2 c -> grown s2 s3 (<[i := x2]> D) i x2 x3 c' -> grown s1 s3 D i x1 x3 c'.
Proof.
  intros [A1 A2 A3 A4] [B1 B2 B3 B4]. rewrite list_insert_insert_eq in B1. split; [done| |done|].
  - by eapply others_trans.
  - unfold same_meta in *. naive_solver congruence.
Qed.

Lemma entered_grown s s' D i x x' t b c :
  slots_ok s D -> D !! i = Some x -> freeblock s < FSSIZE -> 0 <= t < NSLOT ->
  bytes_ok s x c -> (dslot s x t = 0 -> forall k, 0 <= k -> slot_of (k / BSIZE) = t -> len c <= k) ->
  entered s s' x x' t b ->
  grown s s' D i x x' c /\ b = dslot s' x' t /\ dslot s' x' t <> 0
  /\ (forall u, 0 <= u < NSLOT -> u <> t -> dslot s' x' u = dslot s x u)
  /\ freeblock s' = freeblock s + (if dslot s x t =? 0 then 1 else 0).
Proof.
  intros SO Hx Hf Ht Hb Hz [[(-> & -> & Hnz)|[Hs F]] E].
  - rewrite (proj2 (Z.eqb_neq _ _)) by done. split_and!; [by apply grown_refl|done|done|done|lia].
  - rewrite Hs. pose proof (df_slot _ _ _ _ _ F) as Hsl. split_and!.
    + split; [by eapply dfilled_slots|by eapply dfilled_others| |apply F].
      eapply dfilled_bytes; [done..|]. intros k Hk Ek. apply nthZ_beyond. by apply Hz; [|lia|].
    + done.
    + rewrite Hsl, decide_True by done. pose proof (so_free _ _ SO). pose proof nmeta_pos. lia.
    + intros u Hu Hne. by rewrite Hsl, decide_False.
    + apply F.
Qed.

(** The slots of a file that grows by a byte. *)
Lemma needed_next t n :
  0 <= n < SMALL * BSIZE -> 0 <= t < NSLOT ->
  needed t (n + 1) <-> needed t n \/ n mod BSIZE = 0
    /\ (t = slot_of (n / BSIZE) \/ t = NDIRECT /\ n / BSIZE = NDIRECT).
Proof.
  unfold needed, slot_of, SMALL, NSLOT, NDIRECT, NINDIRECT, BSIZE. intros Hn Ht.
  destruct (Z.ltb_spec t 10), (Z.eqb_spec t 10), (Z.ltb_spec (n / 512) 10); lia.
Qed.

Lemma blocks_next n :
  0 <= n -> blocks (n + 1) = blocks n + (if n mod BSIZE =? 0 then
                                          if n / BSIZE =? NDIRECT then 2 else 1 else 0).
Proof.
  intros Hn. unfold blocks, NDIRECT, BSIZE. cbv zeta.
  destruct (Z.ltb_spec 10 ((n + 1 + 512 - 1) / 512)), (Z.ltb_spec 10 ((n + 512 - 1) / 512)),
    (Z.eqb_spec (n mod 512) 0), (Z.eqb_spec (n / 512) 10); lia.
Qed.

Lemma needed_slot_of n : 0 <= n < SMALL * BSIZE -> needed (slot_of (n / BSIZE)) n <-> n mod BSIZE <> 0.
Proof.
  unfold needed, slot_of, SMALL, NDIRECT, NINDIRECT, BSIZE. intros Hn.
  destruct (Z.ltb_spec (n / 512) 10) as [H|H].
  - rewrite (proj2 (Z.ltb_lt _ _)) by lia. lia.
  - rewrite (proj2 (Z.ltb_ge _ _)), (proj2 (Z.eqb_neq _ _)) by lia. lia.
Qed.

Lemma needed_indirect n : 0 <= n -> needed NDIRECT n <-> NDIRECT * BSIZE < n.
Proof. done. Qed.

(** What [map_block] does for a file of [n] bytes that is to get one more. *)
Record mapped_next (s s' : mkst) (D : list dinode) (i : nat) (x x' : dinode) (b : Z) (c : list Z) : Prop := {
  mn_grown : grown s s' D i x x' c;
  mn_slot : b = dslot s' x' (slot_of (len c / BSIZE));
  mn_need : forall t, 0 <= t < NSLOT -> dslot s' x' t <> 0 <-> needed t (len c + 1);
  mn_free : freeblock s' = freeblock s + (blocks (len c + 1) - blocks (len c))
}.

Section map_block.
Context (s : mkst) (D : list dinode) (i : nat) (x : dinode) (c : list Z).
Hypothesis (SO : slots_ok s D) (Hx : D !! i = Some x) (Hroom : freeblock s + 2 <= FSSIZE)
  (Hh : holds s x (len c) c).

Lemma map_direct :
  len c / BSIZE < NDIRECT ->
  wp (map_block x (len c / BSIZE)) (fun r s' => mapped_next s s' D i x r.1 r.2 c) s.
Proof.
  intros Hd. pose proof NSLOT_NDIRECT as HN. set (n := len c) in *.
  assert (Hn : 0 <= n < SMALL * BSIZE) by (unfold SMALL, NDIRECT, NINDIRECT, BSIZE in *; lia).
  assert (Es : slot_of (n / BSIZE) = n / BSIZE) by (unfold slot_of; by rewrite (proj2 (Z.ltb_lt _ _))).
  assert (Ht : 0 <= n / BSIZE < NSLOT) by (unfold BSIZE in *; lia).
  pose proof (needed_slot_of n Hn) as Hneed. rewrite Es in Hneed.
  unfold map_block. rewrite (proj2 (Z.ltb_lt _ _)) by done. eapply wp_mono.
  { eapply addr_entry_spec; [done|done|lia|lia]. }
  intros [x' b] s' E. cbn [fst snd] in *. eapply entered_grown in E; [|done|done|lia|done|apply Hh|].
  2:{ intros Hz k Hk Ek. eapply not_needed_beyond; [done..|].
      intros Hc. by apply (ho_need _ _ _ _ Hh) in Hc. }
  destruct E as (G & Eb & Hnz & Hu & Hf). split; [done|by fold n; rewrite Es| |].
  - intros t Htr. fold n. rewrite needed_next by done. rewrite Es. destruct (decide (t = n / BSIZE)) as [->|Hne].
    + split; [|done]. intros _. destruct (decide (n mod BSIZE = 0)); [by right; auto|left; tauto].
    + rewrite Hu by done. rewrite (ho_need _ _ _ _ Hh) by done. fold n.
      split; [by left|]. intros [?|(_ & [?|[? ?]])]; [done|done|lia].
  - fold n. rewrite blocks_next by lia. rewrite Hf. pose proof (ho_need _ _ _ _ Hh (n / BSIZE) Ht) as Hd'.
    fold n in Hd'. destruct (Z.eqb_spec (dslot s x (n / BSIZE)) 0), (Z.eqb_spec (n mod BSIZE) 0);
      rewrite ?(proj2 (Z.eqb_neq (n / BSIZE) NDIRECT)) by lia; lia || tauto.
Qed.

Lemma map_indirect :
  NDIRECT <= len c / BSIZE < SMALL ->
  wp (map_block x (len c / BSIZE)) (fun r s' => mapped_next s s' D i x r.1 r.2 c) s.
Proof.
  intros Hd. pose proof NSLOT_NDIRECT as HN. set (n := len c) in *.
  assert (Hn : 0 <= n < SMALL * BSIZE) by (unfold BSIZE in *; lia).
  assert (Es : slot_of (n / BSIZE) = n / BSIZE + 1)
    by (unfold slot_of; rewrite (proj2 (Z.ltb_ge _ _)) by lia; lia).
  assert (Ht : NDIRECT < n / BSIZE + 1 < NSLOT) by (unfold SMALL, NSLOT, NDIRECT, NINDIRECT in *; lia).
  pose proof (needed_slot_of n Hn) as Hneed. rewrite Es in Hneed.
  unfold map_block. rewrite (proj2 (Z.ltb_ge _ _)), (proj2 (Z.ltb_lt _ _)) by (unfold SMALL in *; lia).
  cbv zeta. apply wp_bind. eapply wp_mono.
  { eapply (addr_entry_spec _ _ _ _ NDIRECT); [done|done|lia|lia]. }
  intros [x1 a] s1 E. cbn [fst snd] in *. eapply entered_grown in E; [|done|done|lia|done|apply Hh|].
  2:{ intros _ k Hk Ek. destruct (slot_of_range (k / BSIZE)); [|done].
      unfold slot_of, SMALL, NDIRECT, NINDIRECT, BSIZE in *. case_match; lia. }
  destruct E as (G1 & -> & Ha & Hu1 & Hf1). pose proof G1 as [SO1 _ Hb1 _].
  assert (Hx1 : <[i:=x1]> D !! i = Some x1) by (by apply list_lookup_insert_eq; eapply lookup_lt_Some).
  replace (n / BSIZE - NDIRECT) with ((n / BSIZE + 1) - NDIRECT - 1) by lia.
  apply wp_bind. eapply wp_mono.
  { eapply (ind_entry_spec s1 _ i x1); [done|done|case_match; lia|lia|done]. }
  intros b s2 E. apply wp_ret. cbn [fst snd] in *.
  assert (Hold : dslot s1 x1 (n / BSIZE + 1) = dslot s x (n / BSIZE + 1)) by (apply Hu1; lia).
  pose proof (ho_need _ _ _ _ Hh NDIRECT HN) as HdN. pose proof (ho_need _ _ _ _ Hh (n / BSIZE + 1) ltac:(lia)) as HdS.
  fold n in HdN, HdS. rewrite needed_indirect in HdN by lia.
  eapply entered_grown in E; [|done|done|case_match; lia|lia|done|].
  2:{ rewrite Hold. intros Hz k Hk Ek. eapply not_needed_beyond; [done..|]. intros Hc. tauto. }
  destruct E as (G2 & Eb & Hnz & Hu2 & Hf2). split.
  - by eapply grown_trans.
  - fold n. by rewrite Es.
  - intros t Htr. fold n. rewrite needed_next by done. rewrite Es.
    destruct (decide (t = n / BSIZE + 1)) as [->|Hne].
    + split; [|done]. intros _. destruct (decide (n mod BSIZE = 0)); [by right; auto|left; tauto].
    + rewrite Hu2 by done. destruct (decide (t = NDIRECT)) as [->|Hne2].
      * split; [|done]. intros _. unfold BSIZE, NDIRECT in *. rewrite needed_indirect by lia.
        unfold NDIRECT, BSIZE. lia.
      * rewrite Hu1 by done. rewrite (ho_need _ _ _ _ Hh) by done. fold n.
        split; [by left|]. intros [?|(_ & [?|[? ?]])]; done.
  - fold n. rewrite blocks_next by lia. rewrite Hf2, Hf1, Hold. unfold BSIZE, NDIRECT in *.
    destruct (Z.eqb_spec (dslot s x 10) 0), (Z.eqb_spec (dslot s x (n / 512 + 1)) 0),
      (Z.eqb_spec (n mod 512) 0), (Z.eqb_spec (n / 512) 10); lia || tauto.
Qed.

Lemma map_block_spec :
  len c < SMALL * BSIZE ->
  wp (map_block x (len c / BSIZE)) (fun r s' => mapped_next s s' D i x r.1 r.2 c) s.
Proof.
  intros Hc. destruct (Z.lt_ge_cases (len c / BSIZE) NDIRECT); [by apply map_direct|].
  apply map_indirect. unfold BSIZE in *. lia.
Qed.
End map_block.

(** ** Writing data *)

Lemma write_data s D i x bn d :
  let b := dslot s x (slot_of bn) in
  slots_ok s D -> D !! i = Some x -> 0 <= bn < SMALL -> b <> 0 ->
  length d = Z.to_nat BSIZE -> is_bytes d ->
  slots_ok (put_blk b d s) D /\ others s (put_blk b d s) D i
  /\ (forall t, dslot (put_blk b d s) x t = dslot s x t).
Proof.
  intros b SO Hx Hbn Hb Hl Hd. pose proof NSLOT_NDIRECT as HN. pose proof nmeta_pos as Hm.
  destruct (slot_of_range bn Hbn) as [Hr Hne]. set (s' := put_blk b d s).
  pose proof (so_range _ _ SO i x _ Hx Hr Hb) as Hrb. fold b in Hrb. pose proof (so_free _ _ SO) as Hf.
  assert (Hblk : forall c, c <> b -> blk s' c = blk s c)
    by (intros c Hc; unfold s'; by rewrite blk_put, decide_False).
  assert (Hsl : forall j y t, D !! j = Some y -> dslot s' y t = dslot s y t).
  { intros j y t Hy. apply dslot_ext. rewrite <-(dslot_addr s) by lia. intros Hnz. apply Hblk. intros E.
    destruct (so_inj _ _ SO j i y x NDIRECT (slot_of bn) Hy Hx HN Hr Hnz E). congruence. }
  split_and!; [|split|intros t; by apply (Hsl i)].
  - split.
    + apply sectors_put; [apply SO|lia|done|done].
    + done.
    + intros c Hc. change (freeblock s') with (freeblock s) in Hc. rewrite Hblk by lia. by apply SO.
    + apply SO.
    + intros j y t Hy Ht. rewrite (Hsl j y t Hy). by eapply SO.
    + intros j k y z t u Hy Hz Ht Hu. rewrite (Hsl j y t Hy), (Hsl k z u Hz). by apply SO.
  - intros j y t Hj Hy Ht. by eapply Hsl.
  - intros j y bn' Hj Hy Hbn' Hnz. destruct (slot_of_range bn' Hbn') as [Hr' _]. apply Hblk. intros E.
    destruct (so_inj _ _ SO j i y x _ _ Hy Hx Hr' Hr Hnz E). done.
  - intros c Hc. apply Hblk. lia.
  - done.
Qed.

(** The bytes after a chunk has been copied to the end of the file. *)
Lemma bytes_append s D i x c p :
  let b := dslot s x (slot_of (len c / BSIZE)) in
  slots_ok s D -> D !! i = Some x -> len c + len p <= SMALL * BSIZE -> p <> [] ->
  len c mod BSIZE + len p <= BSIZE -> is_bytes p -> b <> 0 -> bytes_ok s x c ->
  let s' := put_blk b (splice (Z.to_nat (len c mod BSIZE)) p (blk s b)) s in
  grown s s' D i x x (c ++ p) /\ (forall t, dslot s' x t = dslot s x t).
Proof.
  intros b SO Hx Hs Hp Hfit Hbp Hb Hc s'.
  destruct (blk_block s b (so_sect _ _ SO)) as [Hbl Hbb]. pose proof NSLOT_NDIRECT as HN.
  assert (0 < len p) by (destruct p; [done|simpl; lia]).
  assert (Hbn : 0 <= len c / BSIZE < SMALL) by (unfold BSIZE in *; lia).
  assert (Hlen : (Z.to_nat (len c mod BSIZE) + length p <= length (blk s b))%nat)
    by (rewrite Hbl; unfold BSIZE in *; lia).
  destruct (write_data s D i x (len c / BSIZE) (splice (Z.to_nat (len c mod BSIZE)) p (blk s b)) SO Hx Hbn Hb)
    as (SO' & OT & Hsl).
  { by rewrite length_splice. } { by apply is_bytes_splice. }
  split; [|exact Hsl]. split; [by rewrite list_insert_id|done| |done].
  intros k Hk. fold b s' in Hsl. rewrite Hsl. intros Hnz.
  assert (Hbn' : 0 <= k / BSIZE < SMALL) by (unfold BSIZE in *; lia).
  unfold s'. rewrite blk_put. destruct (decide (dslot s x (slot_of (k / BSIZE)) = b)) as [E|E].
  - destruct (slot_of_range _ Hbn) as [Hr _], (slot_of_range _ Hbn') as [Hr' _].
    destruct (so_inj _ _ SO i i x x _ _ Hx Hx Hr' Hr Hnz E) as [_ Es].
    apply slot_of_inj in Es; [|lia|lia]. rewrite nthZ_splice by (lia || (unfold BSIZE; lia)).
    case_decide as Hin.
    + rewrite nthZ_app_r by (unfold BSIZE in *; lia). f_equal. unfold BSIZE in *. lia.
    + rewrite <-E, Hc by done. destruct (decide (k < len c)).
      * symmetry. apply nthZ_app_l. lia.
      * rewrite !nthZ_beyond; [done|rewrite length_app; unfold BSIZE in *; lia|lia].
  - rewrite Hc by done. destruct (decide (k < len c)); [symmetry; apply nthZ_app_l; lia|].
    rewrite !nthZ_beyond; [done| |lia]. rewrite length_app.
    destruct (decide (k < len c + len p)); [|lia]. exfalso. apply E. unfold b.
    do 2 f_equal. unfold BSIZE in *. lia.
Qed.

(** ** A round of [iappend] *)

Lemma needed_within t n m :
  0 <= n -> 0 < m -> n mod BSIZE + m <= BSIZE -> needed t (n + m) <-> needed t (n + 1).
Proof.
  unfold needed, NDIRECT, BSIZE. intros Hn Hm Hf.
  destruct (Z.ltb_spec t 10), (Z.eqb_spec t 10); lia.
Qed.
Lemma blocks_within n m :
  0 <= n -> 0 < m -> n mod BSIZE + m <= BSIZE -> blocks (n + m) = blocks (n + 1).
Proof.
  unfold blocks, BSIZE. intros Hn Hm Hf.
  replace ((n + m + 512 - 1) / 512) with ((n + 1 + 512 - 1) / 512) by lia. done.
Qed.

(** File [i] has grown from [c] to [c']. *)
Record appended (s s' : mkst) (D : list dinode) (i : nat) (x x' : dinode) (c c' : list Z) : Prop := {
  ap_grown : grown s s' D i x x' c';
  ap_holds : holds s' x' (len c') c';
  ap_free : freeblock s' = freeblock s + (blocks (len c') - blocks (len c))
}.

Lemma append_round_spec s D i x c p :
  slots_ok s D -> D !! i = Some x -> holds s x (len c) c -> freeblock s + 2 <= FSSIZE ->
  len c + len p <= SMALL * BSIZE -> is_bytes p -> p <> [] ->
  let m := chunk (len c) (len p) in
  wp (append_round (x, len c, p)) (fun r s' => exists x',
    r = inl (x', len (c ++ take (Z.to_nat m) p), drop (Z.to_nat m) p)
    /\ appended s s' D i x x' c (c ++ take (Z.to_nat m) p)) s.
Proof.
  intros SO Hx Hh Hroom Hs Hbp Hp m.
  assert (Hp0 : 0 < len p) by (destruct p; [done|simpl; lia]).
  destruct (chunk_step (len c) (len p)) as (Hm & Hfit & _); [lia|done|]. fold m in Hm, Hfit.
  assert (Hbn : 0 <= len c / BSIZE < SMALL) by (unfold BSIZE in *; lia).
  unfold append_round. rewrite (proj2 (Z.ltb_lt _ _)) by done. cbv zeta.
  rewrite (proj2 (Z.leb_gt _ _)) by (unfold MAXFILE, NTINDIRECT, NDINDIRECT, SMALL, NDIRECT, NINDIRECT in *; lia).
  apply wp_bind. eapply wp_mono; [eapply map_block_spec; [exact SO|exact Hx|done|done|lia]|].
  intros [x' b] s1 [G Eb Hneed Hf]. cbn [fst snd] in *. subst b. pose proof G as [SO1 OT1 Hb1 _].
  assert (Hx1 : <[i:=x']> D !! i = Some x') by (by apply list_lookup_insert_eq; eapply lookup_lt_Some).
  destruct (slot_of_range _ Hbn) as [Hr _].
  assert (Hnz : dslot s1 x' (slot_of (len c / BSIZE)) <> 0).
  { apply Hneed; [done|]. apply needed_next; [lia|done|]. destruct (decide (len c mod BSIZE = 0)); [auto|].
    left. by apply needed_slot_of; [lia|]. }
  pose proof (so_range _ _ SO1 i x' _ Hx1 Hr Hnz) as Hrb. pose proof (so_free _ _ SO1). pose proof nmeta_pos.
  apply wp_bind, wp_rsect; [apply SO1|lia|]. apply wp_bind, wp_wsect, wp_ret.
  replace (Z.min (len p) ((len c / BSIZE + 1) * BSIZE - len c)) with m by (unfold m, chunk, BSIZE; lia).
  replace (len c - len c / BSIZE * BSIZE) with (len c mod BSIZE) by (unfold BSIZE; lia).
  set (p1 := take (Z.to_nat m) p). assert (Hp1 : len p1 = m) by (unfold p1; rewrite length_take; lia).
  destruct (bytes_append s1 _ i x' c p1 SO1 Hx1) as [G2 Hsl].
  { lia. } { intros E. rewrite E in Hp1. simpl in Hp1. lia. } { lia. } { by apply Forall_take. }
  { done. } { done. }
  set (s' := put_blk _ _ _) in *. exists x'. split.
  - f_equal. f_equal. f_equal. rewrite length_app. lia.
  - assert (E : len (c ++ p1) = len c + m) by (rewrite length_app; lia). split.
    + by eapply grown_trans.
    + split; [|by apply G2]. intros t Ht. rewrite Hsl, E, Hneed by done.
      symmetry. apply needed_within; lia.
    + rewrite E, blocks_within by lia. exact Hf.
Qed.

Lemma appended_trans s1 s2 s3 D i x1 x2 x3 c1 c2 c3 :
  appended s1 s2 D i x1 x2 c1 c2 -> appended s2 s3 (<[i := x2]> D) i x2 x3 c2 c3 ->
  appended s1 s3 D i x1 x3 c1 c3.
Proof. intros [A1 A2 A3] [B1 B2 B3]. split; [by eapply grown_trans|done|lia]. Qed.

Lemma blocks_mono m n : m <= n -> blocks m <= blocks n.
Proof.
  intros H. unfold blocks, BSIZE, NDIRECT. cbv zeta.
  destruct (Z.ltb_spec 10 ((m + 512 - 1) / 512)), (Z.ltb_spec 10 ((n + 512 - 1) / 512)); lia.
Qed.

Lemma append_loop_spec s D i x c p :
  slots_ok s D -> D !! i = Some x -> holds s x (len c) c ->
  freeblock s + (blocks (len (c ++ p)) - blocks (len c)) + 2 <= FSSIZE ->
  len (c ++ p) <= SMALL * BSIZE -> is_bytes p ->
  wp (loop (Z.to_nat (len p / BSIZE + 3)) append_round (x, len c, p)) (fun r s' =>
    r.2 = len (c ++ p) /\ appended s s' D i x r.1 c (c ++ p)) s.
Proof.
  intros SO Hx Hh Hroom Hs Hbp. pose proof (blocks_mono (len c) (len (c ++ p))) as Hmono.
  apply wp_loop with
    (I := fun '(x', off, p') s' => exists c', off = len c' /\ c' ++ p' = c ++ p
            /\ is_bytes p' /\ appended s s' D i x x' c c')
    (mu := fun '(x', off, p') => Z.to_nat (nblk off (len p'))).
  - exists c. split_and!; [done|done|done|]. split; [apply grown_refl; [done|done|apply Hh]|done|lia].
  - apply nblk_fuel; lia.
  - intros [[x' off] p'] s' (c' & -> & E & Hb' & A). destruct p' as [|a p''] eqn:Ep.
    { apply wp_ret. rewrite app_nil_r in E. subst c'. by split. }
    rewrite <-Ep in *. assert (Hx' : <[i:=x']> D !! i = Some x') by (by apply list_lookup_insert_eq; eapply lookup_lt_Some).
    assert (El : len c' + len p' = len (c ++ p)) by (rewrite <-E, length_app; lia).
    pose proof (ap_free _ _ _ _ _ _ _ _ A) as Hf. pose proof (blocks_mono (len c') (len (c ++ p))).
    eapply wp_mono.
    { eapply append_round_spec; [apply A|exact Hx'|apply A|lia|lia|done|by rewrite Ep]. }
    intros r s2 (x2 & -> & A2). split.
    + exists (c' ++ take (Z.to_nat (chunk (len c') (len p'))) p'). split_and!; [done| |by apply Forall_drop|by eapply appended_trans].
      by rewrite <-app_assoc, take_drop.
    + destruct (chunk_step (len c') (len p')) as (Hm & _ & Hn); [lia|rewrite Ep; simpl; lia|].
      rewrite length_drop, length_app, length_take.
      replace (Z.of_nat (length c' + Z.to_nat (chunk (len c') (len p')) `min` length p'))
        with (len c' + chunk (len c') (len p')) by lia.
      replace (Z.of_nat (length p' - Z.to_nat (chunk (len c') (len p'))))
        with (len p' - chunk (len c') (len p')) by lia.
      pose proof (proj1 (nblk_fuel (len c' + chunk (len c') (len p')) (len p' - chunk (len c') (len p')) ltac:(lia) ltac:(lia))).
      lia.
Qed.

(** ** Inodes in the image *)

Lemma length_dinode_bytes x : din_wf x -> length (dinode_bytes x) = 72%nat.
Proof.
  intros [Hl _ _ _]. destruct x as [ty ma mi nl sz A at' mt]. cbn [d_addrs] in Hl.
  do 14 (destruct A as [|? A]; [try discriminate Hl|]); try discriminate Hl. reflexivity.
Qed.

Lemma is_bytes_dinode x : is_bytes (dinode_bytes x).
Proof.
  unfold dinode_bytes, is_bytes. rewrite !Forall_app. split_and!; try apply le_encode_bytes.
  apply Forall_concat, Forall_map, Forall_forall. intros a _. apply le_encode_bytes.
Qed.

Lemma dinode_at_bytes x : din_wf x -> dinode_at (dinode_bytes x) 0 = x.
Proof.
  intros [Hl HA Hs Hi]. destruct x as [ty ma mi nl sz A at' mt]. cbn [d_addrs d_type d_major d_minor d_nlink d_size d_atime d_mtime] in *.
  do 14 (destruct A as [|? A]; [try discriminate Hl|]); try discriminate Hl. clear Hl.
  repeat match goal with H : Forall _ (_ :: _) |- _ => apply Forall_cons in H as [? H] end.
  unfold dinode_at, get16, get32.
  change (seqZ 0 (NDIRECT + 3)) with [0; 1; 2; 3; 4; 5; 6; 7; 8; 9; 10; 11; 12]. cbn [map].
  set (d := dinode_bytes _).
  f_equal; try (apply (le_decode_encode 2); done); try (apply (le_decode_encode 4); done).
  repeat (apply (f_equal2 cons); [apply (le_decode_encode 4); done|]). done.
Qed.

Lemma dinode_at_splice o x d :
  din_wf x -> (o + 72 <= length d)%nat -> dinode_at (splice o (dinode_bytes x) d) o = x.
Proof.
  intros W Hl. rewrite <-(dinode_at_bytes x W) at 2. pose proof (length_dinode_bytes x W) as Hlen.
  unfold dinode_at, get16, get32. rewrite <-(Nat.add_0_r o) at 1.
  rewrite !slice_splice_in by lia. f_equal. apply map_ext_in. intros k Hk.
  apply list_elem_of_In, elem_of_seqZ in Hk. unfold NDIRECT in Hk.
  rewrite <-Nat.add_assoc, slice_splice_in by lia. done.
Qed.

Lemma dinode_at_splice_ne o o' bs d :
  length bs = 72%nat -> (o + 72 <= length d)%nat -> (o + 72 <= o' \/ o' + 72 <= o)%nat ->
  dinode_at (splice o bs d) o' = dinode_at d o'.
Proof.
  intros Hb Hl Ho. unfold dinode_at, get16, get32. rewrite !slice_splice_ne by lia. f_equal.
  apply map_ext_in. intros k Hk. apply list_elem_of_In, elem_of_seqZ in Hk. unfold NDIRECT in Hk.
  by rewrite slice_splice_ne by lia.
Qed.

Definition din (s : mkst) (i : Z) : dinode := dinode_at (blk s (IBLOCK i)) (ioff i).

Lemma IBLOCK_range i : 0 <= i < NINODES -> 62 <= IBLOCK i < 91.
Proof. unfold IBLOCK, NINODES, IPB. change (sb_inodestart sb) with 62. lia. Qed.

Lemma din_put_eq s i x :
  sectors_ok s -> din_wf x ->
  din (put_blk (IBLOCK i) (splice (ioff i) (dinode_bytes x) (blk s (IBLOCK i))) s) i = x.
Proof.
  intros S W. unfold din. rewrite blk_put, decide_True by done.
  apply dinode_at_splice; [done|]. destruct (blk_block s (IBLOCK i) S) as [-> _]. apply ioff_range.
Qed.

Lemma din_put_ne s i j x :
  sectors_ok s -> din_wf x -> 0 <= i -> 0 <= j -> i <> j ->
  din (put_blk (IBLOCK i) (splice (ioff i) (dinode_bytes x) (blk s (IBLOCK i))) s) j = din s j.
Proof.
  intros S W Hi Hj Hij. unfold din. rewrite blk_put. destruct (decide (IBLOCK j = IBLOCK i)) as [E|E]; [|done].
  rewrite E. apply dinode_at_splice_ne; [by apply length_dinode_bytes| |].
  - destruct (blk_block s (IBLOCK i) S) as [-> _]. apply ioff_range.
  - unfold IBLOCK, ioff, DINODE_SIZE, IPB in *. lia.
Qed.

(** ** The invariant *)

Definition inodes (s : mkst) (n : nat) : list dinode := map (fun i => din s (Z.of_nat i)) (seq 0 n).

Lemma lookup_inodes s n i x : inodes s n !! i = Some x <-> (i < n)%nat /\ x = din s (Z.of_nat i).
Proof.
  unfold inodes. rewrite list_lookup_fmap. destruct (decide (i < n)%nat) as [Hi|Hi].
  - rewrite lookup_seq_lt by done. cbn. split; [by intros [= <-]|by intros [_ ->]].
  - rewrite lookup_seq_ge by lia. cbn. split; [done|lia].
Qed.

(** The blocks all the files take. *)
Definition total (F : list (Z * list Z)) : Z := foldr (fun f n => blocks (len f.2) + n) 0 F.

Lemma total_insert F i ty c c' :
  F !! i = Some (ty, c) -> total (<[i := (ty, c')]> F) = total F + (blocks (len c') - blocks (len c)).
Proof.
  unfold total. revert i. induction F as [|f F IH]; intros [|i] Hi; simplify_eq/=; [lia|].
  rewrite IH by done. lia.
Qed.
Lemma total_app F G : total (F ++ G) = total F + total G.
Proof. unfold total. induction F as [|f F IH]; cbn; [done|]. rewrite IH. lia. Qed.

(** Inode [x] is that of a file of type [ty] with contents [c]. *)
Record file_at (s : mkst) (x : dinode) (ty : Z) (c : list Z) : Prop := {
  fa_type : d_type x = ty;
  fa_nlink : d_nlink x = if ty =? 0 then 0 else 1;
  fa_size : d_size x = len c;
  fa_holds : holds s x (len c) c
}.

Definition super_block : list Z := splice 0 (sb_bytes sb) zero_block.

(** The image has the files [F], one for each inode from 0 on (inode 0, which is
    never handed out, has type 0). *)
Record image_ok (s : mkst) (F : list (Z * list Z)) : Prop := {
  io_slots : slots_ok s (inodes s (length F));
  io_ino : freeinode s = len F;
  io_cap : 1 <= len F <= NINODES;
  io_free : freeblock s = nmeta + total F;
  io_file : forall i ty c, F !! i = Some (ty, c) -> file_at s (din s (Z.of_nat i)) ty c;
  io_super : blk s 1 = super_block;
  io_log : forall b, 2 <= b < 62 -> blk s b = zero_block;
  io_bmap : forall b, 91 <= b < nmeta -> blk s b = zero_block
}.

(** ** Writing a block of the meta data *)

Lemma meta_slot s D i x b d t :
  slots_ok s D -> D !! i = Some x -> 0 <= b < nmeta -> dslot (put_blk b d s) x t = dslot s x t.
Proof.
  intros SO Hx Hb. apply dslot_ext. rewrite <-(dslot_addr s) by lia. intros Hnz.
  pose proof (so_range _ _ SO i x NDIRECT Hx NSLOT_NDIRECT Hnz). rewrite blk_put, decide_False by lia. done.
Qed.

Lemma meta_slots_ok s D b d :
  slots_ok s D -> 0 <= b < nmeta -> length d = Z.to_nat BSIZE -> is_bytes d -> slots_ok (put_blk b d s) D.
Proof.
  intros SO Hb Hl Hd. pose proof (so_free _ _ SO) as Hf. split.
  - apply sectors_put; [apply SO|lia|done|done].
  - done.
  - intros c Hc. change (freeblock (put_blk b d s)) with (freeblock s) in Hc.
    rewrite blk_put, decide_False by lia. by apply SO.
  - apply SO.
  - intros j y t Hy Ht. rewrite (meta_slot s D j) by done. by eapply SO.
  - intros j k y z t u Hy Hz Ht Hu. rewrite (meta_slot s D j), (meta_slot s D k) by done. by apply SO.
Qed.

Lemma meta_holds s D i x b d n c :
  slots_ok s D -> D !! i = Some x -> 0 <= b < nmeta -> holds s x n c -> holds (put_blk b d s) x n c.
Proof.
  intros SO Hx Hb [Hn Hc]. split.
  - intros t Ht. rewrite (meta_slot s D i) by done. by apply Hn.
  - intros k Hk. rewrite (meta_slot s D i) by done. intros Hnz.
    assert (Hbn : 0 <= k / BSIZE < SMALL) by (unfold BSIZE in *; lia). destruct (slot_of_range _ Hbn) as [Hr _].
    pose proof (so_range _ _ SO i x _ Hx Hr Hnz). rewrite blk_put, decide_False by lia. by apply Hc.
Qed.

(** Storing a new size. *)
Lemma slots_ok_dsize s D i x n :
  slots_ok s D -> D !! i = Some x -> 0 <= n < 2 ^ 32 -> slots_ok s (<[i := set_dsize n x]> D).
Proof.
  intros SO Hx Hn.
  assert (Hd : forall j y, <[i := set_dsize n x]> D !! j = Some y ->
            exists y0, D !! j = Some y0 /\ d_addrs y = d_addrs y0 /\ din_wf y).
  { intros j y. destruct (decide (j = i)) as [->|Hj].
    - rewrite list_lookup_insert_eq by (by eapply lookup_lt_Some). intros [= <-].
      exists x. split_and!; [done|done|]. destruct (so_wf _ _ SO i x Hx) as [W1 W2 W3 W4]. split; [done..|].
      apply Forall_cons in W4 as [_ W4]. by constructor.
    - rewrite list_lookup_insert_ne by congruence. intros Hy. exists y. split_and!; [done|done|by eapply SO]. }
  split; try apply SO.
  - intros j y (y0 & _ & _ & W)%Hd. done.
  - intros j y t (y0 & Hy & E & _)%Hd. unfold dslot. rewrite E. by apply (so_range _ _ SO j).
  - intros j k y z t u (y0 & Hy & E & _)%Hd (z0 & Hz & E' & _)%Hd. unfold dslot. rewrite E, E'. by apply SO.
Qed.

Lemma holds_dsize s x m n c : holds s x n c -> holds s (set_dsize m x) n c.
Proof. intros [N B]. by split. Qed.

(** ** [ialloc], [iappend] *)

Lemma wp_rinode s i (Q : dinode -> mkst -> Prop) :
  sectors_ok s -> 0 <= i < NINODES -> Q (din s i) s -> wp (rinode i) Q s.
Proof.
  intros S Hi HQ. pose proof (IBLOCK_range i Hi). unfold rinode.
  apply wp_bind, wp_rsect; [done|unfold FSSIZE; lia|]. by apply wp_ret.
Qed.

Definition put_inode (i : Z) (x : dinode) (s : mkst) : mkst :=
  put_blk (IBLOCK i) (splice (ioff i) (dinode_bytes x) (blk s (IBLOCK i))) s.

Lemma wp_winode s i x (Q : unit -> mkst -> Prop) :
  sectors_ok s -> 0 <= i < NINODES -> Q tt (put_inode i x s) -> wp (winode i x) Q s.
Proof.
  intros S Hi HQ. pose proof (IBLOCK_range i Hi). unfold winode. cbv zeta.
  apply wp_bind, wp_rsect; [done|unfold FSSIZE; lia|]. by apply wp_wsect.
Qed.

Section put_inode.
Context (s : mkst) (D : list dinode) (i : Z) (x : dinode).
Hypothesis (SO : slots_ok s D) (Hi : 0 <= i < NINODES) (W : din_wf x).

Lemma IBLOCK_meta : 0 <= IBLOCK i < nmeta.
Proof. pose proof (IBLOCK_range i Hi). change nmeta with 94. lia. Qed.

Lemma put_inode_slots : slots_ok (put_inode i x s) D.
Proof.
  destruct (blk_block s (IBLOCK i) (so_sect _ _ SO)) as [Hl Hb]. apply meta_slots_ok; [done|apply IBLOCK_meta| |].
  - rewrite length_splice; [done|]. rewrite (length_dinode_bytes x W), Hl. apply ioff_range.
  - apply is_bytes_splice; [apply is_bytes_dinode|done].
Qed.

Lemma put_inode_holds j y n c : D !! j = Some y -> holds s y n c -> holds (put_inode i x s) y n c.
Proof. intros Hy. apply (meta_holds s D j); [done|done|apply IBLOCK_meta]. Qed.

Lemma put_inode_blk b : b < 62 \/ 91 <= b -> blk (put_inode i x s) b = blk s b.
Proof. intros Hb. pose proof (IBLOCK_range i Hi). unfold put_inode. by rewrite blk_put, decide_False by lia. Qed.

Lemma put_inode_din j : 0 <= j -> din (put_inode i x s) j = if decide (j = i) then x else din s j.
Proof.
  intros Hj. unfold put_inode. case_decide as E; [subst j; apply din_put_eq; [apply SO|done]|].
  apply din_put_ne; [apply SO|done|lia|lia|congruence].
Qed.
End put_inode.

Lemma inodes_put s D i x n :
  slots_ok s D -> 0 <= i < NINODES -> din_wf x -> (Z.to_nat i < n)%nat ->
  inodes (put_inode i x s) n = <[Z.to_nat i := x]> (inodes s n).
Proof.
  intros SO Hi W Hn. apply list_eq. intros j. destruct (decide (j < n)%nat) as [Hj|Hj].
  - assert (E : forall s, inodes s n !! j = Some (din s (Z.of_nat j))) by (intros; by apply lookup_inodes).
    rewrite E, (put_inode_din s D) by (done || lia). destruct (decide (j = Z.to_nat i)) as [->|Hne].
    + rewrite list_lookup_insert_eq by (unfold inodes; rewrite length_map, length_seq; lia).
      by rewrite decide_True by lia.
    + rewrite list_lookup_insert_ne by done. rewrite E. by rewrite decide_False by lia.
  - rewrite !lookup_ge_None_2; rewrite ?length_insert; unfold inodes; rewrite ?length_map, ?length_seq; done || lia.
Qed.

Lemma others_din s s' D i j : others s s' D i -> 0 <= j < NINODES -> din s' j = din s j.
Proof. intros OT Hj. unfold din. rewrite (ot_meta _ _ _ _ OT); [done|]. by apply IBLOCK_meta. Qed.

Lemma others_inodes s s' D i n : others s s' D i -> Z.of_nat n <= NINODES -> inodes s' n = inodes s n.
Proof.
  intros OT Hn. unfold inodes. apply map_ext_in. intros j Hj. apply in_seq in Hj.
  by apply (others_din _ _ _ _ _ OT); lia.
Qed.

(** Storing the inode of a file that has grown. *)
Lemma store_grown s s1 F i ty c c' x' :
  image_ok s F -> F !! i = Some (ty, c) -> len c' <= SMALL * BSIZE ->
  appended s s1 (inodes s (length F)) i (din s (Z.of_nat i)) x' c c' ->
  image_ok (put_inode (Z.of_nat i) (set_dsize (len c') x') s1) (<[i := (ty, c')]> F).
Proof.
  intros O HF Hlen [[SO1 OT Hb1 Hm] Hh1 Hf1]. pose proof (lookup_lt_Some _ _ _ HF) as Hi.
  pose proof O as [SO Oino Ocap Ofree Ofile Osup Olog Obm].
  destruct (Ofile i ty c HF) as [T1 T2 T3 T4]. assert (Hin : 0 <= Z.of_nat i < NINODES) by lia.
  assert (Hx : inodes s (length F) !! i = Some (din s (Z.of_nat i))) by (by apply lookup_inodes).
  assert (En : inodes s1 (length F) = inodes s (length F)) by (eapply others_inodes; [done|lia]).
  assert (Hx1 : <[i:=x']> (inodes s (length F)) !! i = Some x')
    by (by apply list_lookup_insert_eq; eapply lookup_lt_Some).
  set (x2 := set_dsize (len c') x').
  assert (SO2 : slots_ok s1 (<[i := x2]> (inodes s1 (length F)))).
  { rewrite En, <-(list_insert_insert_eq _ i x2 x'). apply slots_ok_dsize; [done|done|].
    unfold SMALL, NDIRECT, NINDIRECT, BSIZE in Hlen. lia. }
  assert (Hx2 : <[i:=x2]> (inodes s1 (length F)) !! i = Some x2).
  { apply list_lookup_insert_eq. unfold inodes. rewrite length_map, length_seq. done. }
  pose proof (so_wf _ _ SO2 i x2 Hx2) as W2.
  set (s2 := put_inode (Z.of_nat i) x2 s1).
  assert (Hdin : forall j, (j < length F)%nat ->
            din s2 (Z.of_nat j) = if decide (j = i) then x2 else din s (Z.of_nat j)).
  { intros j Hj. unfold s2. rewrite (put_inode_din s1 _ _ _ SO2 Hin W2) by lia.
    destruct (decide (j = i)) as [->|Hne]; [by rewrite decide_True|].
    rewrite decide_False by lia. eapply others_din; [done|lia]. }
  assert (Hblk : forall b, b < 62 \/ 91 <= b < nmeta -> blk s2 b = blk s b).
  { intros b Hb. unfold s2. rewrite put_inode_blk by lia. apply (ot_meta _ _ _ _ OT).
    change nmeta with 94 in *. lia. }
  split.
  - rewrite length_insert. unfold s2. rewrite (inodes_put _ _ _ _ _ SO2 Hin W2), Nat2Z.id by lia.
    by apply put_inode_slots.
  - rewrite length_insert, <-Oino. exact (ot_ino _ _ _ _ OT).
  - by rewrite length_insert.
  - rewrite (total_insert _ _ _ c) by done. change (freeblock s2) with (freeblock s1). lia.
  - intros j ty' c2. destruct (decide (j = i)) as [->|Hne].
    + rewrite list_lookup_insert_eq by done. intros [= <- <-]. rewrite Hdin, decide_True by done.
      destruct Hm as (M1 & M2 & M3 & M4 & M5 & M6 & M7). split; [cbn; congruence..|done|].
      apply (put_inode_holds s1 _ _ _ SO2 Hin i); [done|]. by apply holds_dsize.
    + rewrite list_lookup_insert_ne by done. intros HF'. pose proof (lookup_lt_Some _ _ _ HF') as Hj.
      rewrite Hdin, decide_False by done. destruct (Ofile j ty' c2 HF') as [U1 U2 U3 U4]. split; [done..|].
      apply (put_inode_holds s1 _ _ _ SO2 Hin j); [rewrite list_lookup_insert_ne by done; rewrite En; by apply lookup_inodes|].
      eapply others_holds; [done|exact Hne| |done]. by apply lookup_inodes.
  - by rewrite Hblk by lia.
  - intros b Hb. rewrite Hblk by lia. by apply Olog.
  - intros b Hb. rewrite Hblk by lia. by apply Obm.
Qed.

Lemma iappend_spec s F i ty c p :
  image_ok s F -> F !! i = Some (ty, c) -> len (c ++ p) <= SMALL * BSIZE -> is_bytes p ->
  nmeta + total (<[i := (ty, c ++ p)]> F) + 2 <= FSSIZE ->
  wp (iappend (Z.of_nat i) p) (fun _ s' => image_ok s' (<[i := (ty, c ++ p)]> F)) s.
Proof.
  intros O HF Hlen Hbp Hroom. pose proof (lookup_lt_Some _ _ _ HF) as Hi.
  pose proof O as [SO Oino Ocap Ofree Ofile _ _ _].
  destruct (Ofile i ty c HF) as [T1 T2 T3 T4]. rewrite (total_insert _ _ _ c) in Hroom by done.
  assert (Hin : 0 <= Z.of_nat i < NINODES) by lia.
  assert (Hx : inodes s (length F) !! i = Some (din s (Z.of_nat i))) by (by apply lookup_inodes).
  unfold iappend. apply wp_bind, wp_rinode; [apply SO|done|]. rewrite T3. apply wp_bind.
  eapply wp_mono; [eapply append_loop_spec; [exact SO|exact Hx|done|lia|done|done]|].
  intros [x' off] s1 [E A]. cbn [fst snd] in *. subst off.
  apply wp_winode; [apply A|done|]. by eapply store_grown.
Qed.

(** The conversions to intel byte order change nothing here. *)
Lemma xshort_small z : 0 <= z < 2 ^ 16 -> xshort z = z.
Proof.
  intros Hz. unfold xshort, u8. rewrite Z.shiftr_div_pow2 by lia. cbn [le_decode].
  change (2 ^ 8) with 256. lia.
Qed.
Lemma xint_small z : 0 <= z < 2 ^ 32 -> xint z = z.
Proof.
  intros Hz. unfold xint, u8. rewrite !Z.shiftr_div_pow2 by lia. cbn [le_decode].
  change (2 ^ 8) with 256. change (2 ^ 16) with 65536. change (2 ^ 24) with 16777216. lia.
Qed.

Definition new_dinode (ty : Z) : dinode := mk_dinode ty 0 0 1 0 (replicate 13 0) 0 0.

Lemma empty_slot s x t : d_addrs x = replicate 13 0 -> 0 <= t -> dslot s x t = 0.
Proof.
  intros HA Ht. unfold dslot, slot_at. rewrite HA. destruct (Z.leb_spec t NDIRECT).
  - unfold nthZ. rewrite (proj2 (Z.ltb_ge _ _)) by lia. apply nth_lookup_Some, lookup_replicate_2.
    unfold NDIRECT in *. lia.
  - done.
Qed.

Lemma new_dinode_wf ty : 0 <= ty < 2 ^ 16 -> din_wf (new_dinode ty).
Proof. intros Hty. split; cbn; [done| |..]; by repeat (constructor; [lia|]). Qed.

Lemma slots_ok_snoc s D x :
  slots_ok s D -> din_wf x -> (forall t, 0 <= t -> dslot s x t = 0) -> slots_ok s (D ++ [x]).
Proof.
  intros SO W Hz.
  assert (Hd : forall j y, (D ++ [x]) !! j = Some y -> D !! j = Some y \/ y = x).
  { intros j y [?|[_ Hy]]%lookup_app_Some; [by left|]. apply list_lookup_singleton_Some in Hy as [_ <-]. by right. }
  split; try apply SO.
  - intros j y [Hy| ->]%Hd; [by eapply SO|done].
  - intros j y t [Hy| ->]%Hd Ht; [by apply (so_range _ _ SO j)|]. rewrite Hz by lia. done.
  - intros j k y z t u [Hy| ->]%Hd [Hk| ->]%Hd Ht Hu.
    + by apply SO.
    + rewrite (Hz u) by lia. done.
    + rewrite (Hz t) by lia. done.
    + rewrite (Hz t) by lia. done.
Qed.

Lemma empty_holds s x : d_addrs x = replicate 13 0 -> holds s x 0 [].
Proof.
  intros HA. split.
  - intros t Ht. rewrite empty_slot by (done || lia). split; [done|]. unfold needed, NDIRECT, BSIZE.
    destruct (Z.ltb_spec t 10); [lia|]. destruct (Z.eqb_spec t 10); lia.
  - intros k Hk. rewrite empty_slot; [done|done|]. unfold slot_of, BSIZE. case_match; lia.
Qed.

Lemma ialloc_spec s F ty :
  image_ok s F -> len F < NINODES -> 0 < ty < 2 ^ 15 ->
  wp (ialloc ty) (fun r s' => r = len F /\ image_ok s' (F ++ [(ty, [])])) s.
Proof.
  intros [SO Oino Ocap Ofree Ofile Osup Olog Obm] Hcap Hty.
  unfold ialloc. apply wp_bind, wp_gets, wp_bind, wp_modS. rewrite Oino, xshort_small by lia.
  change (mk_dinode ty 0 0 (xshort 1) (xint 0) (replicate (Z.to_nat (NDIRECT + 3)) 0) (xint 0) (xint 0))
    with (new_dinode ty). set (s1 := set_freeinode _ s).
  assert (SO1 : slots_ok s1 (inodes s (length F))) by (destruct SO; by split).
  assert (W : din_wf (new_dinode ty)) by (apply new_dinode_wf; lia).
  apply wp_bind, wp_winode; [apply SO1|lia|]. apply wp_ret. split; [done|].
  assert (Hin : 0 <= len F < NINODES) by lia. set (s2 := put_inode _ _ _).
  assert (Hdin : forall j, (j <= length F)%nat ->
            din s2 (Z.of_nat j) = if decide (j = length F) then new_dinode ty else din s (Z.of_nat j)).
  { intros j Hj. unfold s2. rewrite (put_inode_din s1 _ _ _ SO1 Hin W) by lia.
    case_decide; [by rewrite decide_True by lia|]. by rewrite decide_False by lia. }
  assert (En : inodes s2 (S (length F)) = inodes s (length F) ++ [new_dinode ty]).
  { unfold inodes. rewrite seq_S, map_app. cbn [map Nat.add]. rewrite Hdin, decide_True by done. f_equal.
    apply map_ext_in. intros j Hj. apply in_seq in Hj. rewrite Hdin, decide_False by lia. done. }
  assert (SO2 : slots_ok s2 (inodes s (length F) ++ [new_dinode ty])).
  { apply put_inode_slots; [|done|done]. apply slots_ok_snoc; [done|done|].
    intros t Ht. by apply empty_slot. }
  assert (Hl : length (F ++ [(ty, [])]) = S (length F)) by (rewrite length_app; simpl; lia).
  split.
  - by rewrite Hl, En.
  - rewrite Hl. cbn [freeinode s2 put_inode put_blk set_img set_freeinode s1]. lia.
  - rewrite Hl. lia.
  - rewrite total_app. change (total [(ty, [])]) with 0. change (freeblock s2) with (freeblock s). lia.
  - intros j ty' c' Hj. apply lookup_app_Some in Hj as [Hj|[Hge Hj]].
    + pose proof (lookup_lt_Some _ _ _ Hj). rewrite Hdin, decide_False by lia.
      destruct (Ofile j ty' c' Hj) as [U1 U2 U3 U4]. split; [done..|].
      apply (put_inode_holds s1 _ _ _ SO1 Hin j); [by apply lookup_inodes|]. by destruct U4; split.
    + apply list_lookup_singleton_Some in Hj as [Hj [= <- <-]].
      replace j with (length F) by lia. rewrite Hdin, decide_True by lia. split; [done| |done|by apply empty_holds].
      cbn. by rewrite (proj2 (Z.eqb_neq ty 0)) by lia.
  - unfold s2. rewrite put_inode_blk; [done|lia|lia].
  - intros b Hb. unfold s2. rewrite put_inode_blk; [by apply Olog|lia|lia].
  - intros b Hb. unfold s2. rewrite put_inode_blk; [by apply Obm|lia|lia].
Qed.

(** ** The empty image *)

Definition zeroed (s : mkst) : Prop :=
  forall b, img s !! b = if decide (0 <= b < FSSIZE) then Some zero_block else None.

Lemma zero_all : wp (forM (seqZ 0 FSSIZE) (fun i => wsect i zero_block))
  (fun _ s => zeroed s /\ freeinode s = 1 /\ freeblock s = nmeta) (set_freeblock nmeta mkst0).
Proof.
  apply wp_forM with (I := fun done s => freeinode s = 1 /\ freeblock s = nmeta
    /\ forall b, img s !! b = if decide (b ∈ done) then Some zero_block else None).
  - split_and!; [done|done|]. intros b. rewrite decide_False by set_solver. apply lookup_empty.
  - intros done x rest s _ (H1 & H2 & Hb). apply wp_wsect. split_and!; [done|done|]. intros b.
    unfold put_blk. cbn [img set_img]. destruct (decide (b = x)) as [->|Hne].
    + rewrite lookup_insert_eq, decide_True by set_solver. done.
    + rewrite lookup_insert_ne by done. rewrite Hb.
      destruct (decide (b ∈ done)); [rewrite decide_True by set_solver|rewrite decide_False by set_solver]; done.
  - intros s (H1 & H2 & Hb). split_and!; [|done|done]. intros b. rewrite Hb.
    destruct (decide (0 <= b < FSSIZE)).
    + rewrite decide_True; [done|]. apply elem_of_seqZ. lia.
    + rewrite decide_False; [done|]. rewrite elem_of_seqZ. lia.
Qed.

Lemma super_block_ok : length super_block = Z.to_nat BSIZE /\ is_bytes super_block.
Proof. split; [vm_compute; reflexivity|]. apply is_bytes_forallb. vm_compute. reflexivity. Qed.

Lemma image_ok_empty s :
  zeroed s -> freeinode s = 1 -> freeblock s = nmeta -> image_ok (put_blk 1 super_block s) [(0, [])].
Proof.
  intros Hz Hi Hf. destruct super_block_ok as [Hl Hb].
  assert (Hblk : forall b, blk s b = zero_block) by (intros b; unfold blk; rewrite Hz; by case_decide).
  set (s1 := put_blk 1 super_block s).
  assert (Hblk1 : forall b, b <> 1 -> blk s1 b = zero_block) by (intros b Hb1; unfold s1; by rewrite blk_put, decide_False).
  set (x0 := mk_dinode 0 0 0 0 0 (replicate 13 0) 0 0).
  assert (E0 : din s1 0 = x0) by (unfold din; rewrite Hblk1 by done; vm_compute; reflexivity).
  assert (Hsl : forall t, 0 <= t -> dslot s1 x0 t = 0) by (intros; by apply empty_slot).
  assert (S : sectors_ok s1).
  { apply sectors_put; [|unfold FSSIZE; lia|done|done]. intros b. rewrite Hz. case_decide; [|done].
    split_and!; [lia|lia|done|apply is_bytes_zero]. }
  assert (Em : inodes s1 1 = [x0]) by (change (inodes s1 1) with [din s1 0]; by rewrite E0).
  split.
  - cbn [length]. rewrite Em. apply (slots_ok_snoc s1 []); [|by split; cbn; repeat (constructor; [lia|])|done].
    split; [done|change (freeblock s1) with (freeblock s); rewrite Hf; done| |intros; by rewrite lookup_nil in *..].
    intros b Hb1. change (freeblock s1) with (freeblock s) in Hb1. rewrite Hf in Hb1.
    apply Hblk1. pose proof nmeta_pos. change nmeta with 94 in *. lia.
  - done.
  - done.
  - change (freeblock s1) with (freeblock s). rewrite Hf. done.
  - intros i ty c Hc. apply list_lookup_singleton_Some in Hc as [-> [= <- <-]]. change (Z.of_nat 0) with 0. rewrite E0.
    split; [done..|]. by apply empty_holds.
  - unfold s1. by rewrite blk_put, decide_True.
  - intros b Hb1. apply Hblk1. lia.
  - intros b Hb1. apply Hblk1. lia.
Qed.

Lemma length_dirent i nm : length (dirent i nm) = 16%nat.
Proof.
  unfold dirent. rewrite !length_app, length_le_encode, length_take, length_replicate.
  change (Z.to_nat DIRSIZ) with 14%nat. lia.
Qed.
Lemma is_bytes_dirent i nm : is_bytes nm -> is_bytes (dirent i nm).
Proof.
  intros Hn. unfold dirent, is_bytes. rewrite !Forall_app. split_and!; [apply le_encode_bytes|by apply Forall_take|].
  apply Forall_replicate. lia.
Qed.

Definition root_bytes : list Z := dirent 1 dot ++ dirent 1 dotdot.

Lemma main_init_spec :
  wp main_init (fun r s => r = 1 /\ image_ok s [(0, []); (T_DIR, root_bytes)]) mkst0.
Proof.
  unfold main_init. apply wp_bind, wp_modS, wp_bind. eapply wp_mono; [apply zero_all|].
  intros [] s (Hz & Hi & Hf). apply wp_bind, wp_wsect.
  apply wp_bind. eapply wp_mono; [apply ialloc_spec; [by apply image_ok_empty|done|unfold T_DIR; lia]|].
  intros r s1 (-> & O1). apply wp_bind, wp_ret.
  apply wp_bind. eapply wp_mono.
  { eapply (iappend_spec _ _ 1 T_DIR []); [exact O1|done|done|by apply is_bytes_dirent; repeat constructor|vm_compute; discriminate]. }
  intros [] s2 O2. apply wp_bind. eapply wp_mono.
  { eapply (iappend_spec _ _ 1 T_DIR (dirent 1 dot)); [exact O2|done|done|by apply is_bytes_dirent; repeat constructor|vm_compute; discriminate]. }
  intros [] s3 O3. by apply wp_ret.
Qed.
