(* ===== verification/Mktree.v ===== *)
(** * Mktree: the tree of files mkfs builds

    The pure reading of mkfs's command line (src/tools/mkfs.c): a tree of
    directories and files, one node for each inode, to which every argument
    adds its directories and its file.  The theorem is that [main] builds an
    image that holds exactly this tree. *)

From Stdlib Require Import ZArith Lia ZifyBool.
From stdpp Require Import base gmap strings numbers list.
From S2P Require Import Prelude CString Bio Log Fs Balloc Content Inode Dir Mkfs Mkimage.

Local Open Scope Z_scope.
#[local] Ltac Zify.zify_post_hook ::= Z.to_euclidean_division_equations.

(** ** The tree *)

Inductive node : Type :=
| NFree
| NDir (ents : list (Z * list Z))
| NFile (c : list Z).

Definition ents_bytes (l : list (Z * list Z)) : list Z := concat (map (fun e => dirent e.1 e.2) l).
Definition file_of (nd : node) : Z * list Z :=
  match nd with
  | NFree => (0, [])
  | NDir l => (T_DIR, ents_bytes l)
  | NFile c => (T_FILE, c)
  end.
Definition files_of (T : list node) : list (Z * list Z) := map file_of T.

Definition tree0 : list node := [NFree; NDir [(1, dot); (1, dotdot)]].

(** A name as it is read back: cut at [DIRSIZ], without trailing blanks. *)
Definition stored_name (nm : list Z) : list Z :=
  reverse (strip_pad (reverse (take (Z.to_nat DIRSIZ) nm))).
Definition ent_lookup (l : list (Z * list Z)) (name : list Z) : option Z :=
  (fun ke => ke.2.1) <$> list_find (fun e => stored_name e.2 = name) l.

(** The directory at the end of a path of names, made where it does not
    exist; [None] when a name on the way is that of a file. *)
Definition add_ent (T : list node) (dir : Z) (e : Z * list Z) : option (list node) :=
  match T !! Z.to_nat dir with
  | Some (NDir l) => Some (<[Z.to_nat dir := NDir (l ++ [e])]> T)
  | _ => None
  end.
Definition add_dir (T : list node) (dir : Z) (name : list Z) : option (list node) :=
  let i := len T in
  T' ← add_ent T dir (i, name);
  Some (T' ++ [NDir [(i, dot); (dir, dotdot)]]).
Fixpoint tree_path (T : list node) (dir : Z) (names : list (list Z)) : option (list node * Z) :=
  match names with
  | [] => Some (T, dir)
  | name :: names =>
      match T !! Z.to_nat dir with
      | Some (NDir l) =>
          match ent_lookup l name with
          | Some i => tree_path T i names
          | None => T' ← add_dir T dir name; tree_path T' (len T) names
          end
      | _ => None
      end
  end.
Definition add_file (T : list node) (dir : Z) (name c : list Z) : option (list node) :=
  T' ← add_ent T dir (len T, name);
  Some (T' ++ [NFile c]).

(** The directories and the name an argument stands for. *)
Definition arg_dirs (hostpath : list Z) : list (list Z) :=
  match last_slash (imgpath hostpath) with
  | Some (pre, _) => strtok_all pre
  | None => []
  end.
Definition arg_name (hostpath : list Z) : list Z :=
  skip_underscore (match last_slash (imgpath hostpath) with
                   | Some (_, base) => base
                   | None => imgpath hostpath
                   end).

Definition tree_arg (T : list node) (arg : list Z * hostfile) : option (list node) :=
  match arg.2 with
  | HNone | HUnreadable => None
  | HOther => fst <$> tree_path T ROOTINO (arg_dirs arg.1)
  | HReg chunks =>
      '(T', dir) ← tree_path T ROOTINO (arg_dirs arg.1);
      add_file T' dir (arg_name arg.1) (concat chunks)
  end.
Fixpoint tree_args (T : list node) (args : list (list Z * hostfile)) : option (list node) :=
  match args with
  | [] => Some T
  | arg :: args => T' ← tree_arg T arg; tree_args T' args
  end.
(** The tree of a command line. *)
Definition tree_of (args : list (list Z * hostfile)) : option (list node) := tree_args tree0 args.

(** ** What fits in an image *)

Definition file_fits (f : Z * list Z) : bool :=
  (len f.2 <=? SMALL * BSIZE) && ((negb (f.1 =? T_DIR)) || (len f.2 <=? NDIRECT * BSIZE)).
Definition image_fits (F : list (Z * list Z)) : bool :=
  (len F <=? NINODES) && (nmeta + total F <? BSIZE * 8) && forallb file_fits F.

(** Growing files. *)
Definition fext (F F' : list (Z * list Z)) : Prop :=
  forall i ty c, F !! i = Some (ty, c) -> exists d, F' !! i = Some (ty, c ++ d).

Lemma fext_refl F : fext F F.
Proof. intros i ty c Hi. exists []. by rewrite app_nil_r. Qed.
Lemma fext_trans F1 F2 F3 : fext F1 F2 -> fext F2 F3 -> fext F1 F3.
Proof.
  intros H1 H2 i ty c Hi. destruct (H1 i ty c Hi) as [d Hd]. destruct (H2 _ _ _ Hd) as [e He].
  exists (d ++ e). by rewrite app_assoc.
Qed.
Lemma fext_snoc F f : fext F (F ++ [f]).
Proof. intros i ty c Hi. exists []. rewrite app_nil_r. by apply lookup_app_l_Some. Qed.
Lemma fext_insert F i ty c d : F !! i = Some (ty, c) -> fext F (<[i := (ty, c ++ d)]> F).
Proof.
  intros HF j ty' c' Hj. destruct (decide (j = i)) as [->|Hne].
  - rewrite list_lookup_insert_eq by (by eapply lookup_lt_Some). exists d. congruence.
  - rewrite list_lookup_insert_ne by congruence. exists []. by rewrite app_nil_r.
Qed.

Lemma fext_last F ty c d : fext (F ++ [(ty, c)]) (F ++ [(ty, c ++ d)]).
Proof.
  pose proof (fext_insert (F ++ [(ty, c)]) (length F) ty c d) as Hi.
  rewrite insert_app_r_alt, Nat.sub_diag in Hi by done. apply Hi. by apply list_lookup_middle.
Qed.

Lemma fext_length F F' : fext F F' -> (length F <= length F')%nat.
Proof.
  intros H. destruct (decide (length F = 0%nat)) as [->|Hn]; [lia|].
  destruct (lookup_lt_is_Some_2 F (length F - 1)) as [[ty c] Hx]; [lia|].
  destruct (H _ _ _ Hx) as [d Hd]. apply lookup_lt_Some in Hd. lia.
Qed.

Lemma blocks_nonneg n : 0 <= n -> 0 <= blocks n.
Proof. intros Hn. unfold blocks, BSIZE, NDIRECT. cbv zeta. case_match; lia. Qed.

Lemma total_nonneg F : 0 <= total F.
Proof. unfold total. induction F as [|f F IH]; cbn; [lia|]. pose proof (blocks_nonneg (len f.2)). lia. Qed.

Lemma total_fext F F' : fext F F' -> total F <= total F'.
Proof.
  revert F'. induction F as [|[ty c] F IH]; intros F' H; [apply total_nonneg|].
  destruct (H 0%nat ty c eq_refl) as [d Hd]. destruct F' as [|f F']; [done|]. injection Hd as ->.
  cbn. assert (fext F F') as HF by (intros i ty' c' Hi; by apply (H (S i))).
  specialize (IH _ HF). fold (total F) (total F').
  pose proof (blocks_mono (len c) (len (c ++ d))). rewrite length_app in *. lia.
Qed.

Lemma image_fits_fext F F' : fext F F' -> image_fits F' = true -> image_fits F = true.
Proof.
  intros H Hf. unfold image_fits in *. pose proof (fext_length _ _ H). pose proof (total_fext _ _ H).
  bool_split. rewrite forallb_forall in *. rewrite !andb_true_iff. split_and!; [lia|lia|].
  rewrite forallb_forall. intros [ty c] Hin%list_elem_of_In. apply list_elem_of_lookup in Hin as [i Hi].
  destruct (H i ty c Hi) as [d Hd]. assert (Hin' : In (ty, c ++ d) F') by (by apply list_elem_of_In, list_elem_of_lookup; exists i).
  specialize (H3 _ Hin'). unfold file_fits in *. cbn [fst snd] in *. rewrite length_app in *. lia.
Qed.

Lemma fits_file F i ty c : image_fits F = true -> F !! i = Some (ty, c) ->
  len c <= SMALL * BSIZE /\ (ty = T_DIR -> len c <= NDIRECT * BSIZE).
Proof.
  intros Hf Hi. unfold image_fits in Hf. bool_split. rewrite forallb_forall in *.
  assert (Hin : In (ty, c) F) by (by apply list_elem_of_In, list_elem_of_lookup; exists i).
  specialize (H0 _ Hin). unfold file_fits in H0. cbn in H0. bool_split. split; [lia|]. intros ->. lia.
Qed.
Lemma fits_room F : image_fits F = true -> len F <= NINODES /\ nmeta + total F + 2 <= FSSIZE.
Proof. intros Hf. unfold image_fits in Hf. unfold BSIZE, FSSIZE in *. bool_split. lia. Qed.

(** ** Entries of a directory *)

Definition name_ok (nm : list Z) : Prop := Forall (fun b => 0 < b < 256) nm.
Definition ent_ok (e : Z * list Z) : Prop := 1 <= e.1 < 2 ^ 16 /\ name_ok e.2.

(** Entry [k] of a directory with contents [c]. *)
Definition ebytes (c : list Z) (k : Z) : list Z := map (nthZ 0 c) (seqZ (DIRENT_SIZE * k) DIRENT_SIZE).

Lemma name_ok_bytes nm : name_ok nm -> is_bytes nm.
Proof. intros H. eapply Forall_impl; [exact H|]. cbv beta. lia. Qed.

Lemma length_ents_bytes l : length (ents_bytes l) = (16 * length l)%nat.
Proof.
  induction l as [|e l IH]; [done|]. unfold ents_bytes in *. cbn [map concat].
  rewrite length_app, length_dirent, IH. simpl. lia.
Qed.

Lemma ents_bytes_app l l' : ents_bytes (l ++ l') = ents_bytes l ++ ents_bytes l'.
Proof. unfold ents_bytes. by rewrite map_app, concat_app. Qed.

Lemma ents_bytes_snoc l e : ents_bytes (l ++ [e]) = ents_bytes l ++ dirent e.1 e.2.
Proof. rewrite ents_bytes_app. unfold ents_bytes at 2. cbn. by rewrite app_nil_r. Qed.

Lemma map_nthZ_all (d : list Z) : map (nthZ 0 d) (seqZ 0 (len d)) = d.
Proof.
  apply list_eq. intros j. rewrite list_lookup_fmap. destruct (decide (j < length d)%nat).
  - rewrite lookup_seqZ_lt by lia. cbn. rewrite <-(nthZ_lookup 0) by lia. f_equal. lia.
  - rewrite lookup_seqZ_ge by lia. rewrite lookup_ge_None_2 by lia. done.
Qed.

Lemma ebytes_beyond c k : 0 <= k -> len c <= 16 * k -> ebytes c k = replicate 16 0.
Proof.
  intros Hk Hl. unfold ebytes. rewrite (map_ext_in _ (fun _ => 0)); [done|].
  intros j Hj. apply list_elem_of_In, elem_of_seqZ in Hj. apply nthZ_beyond. unfold DIRENT_SIZE in *. lia.
Qed.

Lemma ebytes_ents l k :
  0 <= k -> ebytes (ents_bytes l) k = match l !! Z.to_nat k with
                                      | Some e => dirent e.1 e.2
                                      | None => replicate 16 0
                                      end.
Proof.
  intros Hk. destruct (l !! Z.to_nat k) as [e|] eqn:E.
  2:{ apply lookup_ge_None in E. apply ebytes_beyond; [done|]. rewrite length_ents_bytes. lia. }
  apply list_elem_of_split_length in E as (l1 & l2 & -> & Hl1).
  rewrite <-(map_nthZ_all (dirent e.1 e.2)), length_dirent. unfold ebytes.
  rewrite ents_bytes_app. change (e :: l2) with ([e] ++ l2). rewrite ents_bytes_app.
  change (ents_bytes [e]) with (dirent e.1 e.2 ++ []). rewrite app_nil_r.
  assert (Hp : len (ents_bytes l1) = 16 * k) by (rewrite length_ents_bytes; lia).
  replace (seqZ (DIRENT_SIZE * k) DIRENT_SIZE) with (map (Z.add (16 * k)) (seqZ 0 (Z.of_nat 16))).
  2:{ unfold seqZ. rewrite map_map. apply map_ext. intros j. unfold DIRENT_SIZE. lia. }
  rewrite map_map. apply map_ext_in. intros j Hj. apply list_elem_of_In, elem_of_seqZ in Hj.
  rewrite nthZ_app_r by lia. rewrite nthZ_app_l by (rewrite length_dirent; lia). f_equal. lia.
Qed.

Lemma dirent_inum i nm : 0 <= i < 2 ^ 16 -> get16 (dirent i nm) 0 = i.
Proof.
  intros Hi. unfold get16, slice, dirent. rewrite drop_0, take_app_length' by (by rewrite length_le_encode).
  rewrite le_decode_encode; rewrite xshort_small; done.
Qed.

Definition pad_name (nm : list Z) : list Z :=
  take (Z.to_nat DIRSIZ) nm ++ replicate (Z.to_nat DIRSIZ - length nm) 0.
Lemma dirent_name i nm : slice 2 (Z.to_nat DIRSIZ) (dirent i nm) = pad_name nm.
Proof.
  unfold slice, dirent. rewrite drop_app_length' by (by rewrite length_le_encode).
  rewrite take_ge; [done|]. rewrite length_app, length_take, length_replicate. lia.
Qed.

Lemma strip_zeros n l : strip_pad (replicate n 0 ++ l) = strip_pad l.
Proof. induction n as [|n IH]; [done|]. exact IH. Qed.

Lemma strip_pad_suffix l : strip_pad l `suffix_of` l.
Proof.
  induction l as [|c l IH]; [done|]. cbn. case_match; [|done]. by apply suffix_cons_r.
Qed.

Lemma upto_nul_id l : name_ok l -> upto_nul l = l.
Proof.
  induction 1 as [|c l Hc _ IH]; [done|]. cbn. rewrite (proj2 (Z.eqb_neq c 0)) by lia. by rewrite IH.
Qed.

Lemma entry_name_pad nm : name_ok nm -> entry_name (pad_name nm) = stored_name nm.
Proof.
  intros Hn. unfold entry_name, pad_name, stored_name. rewrite reverse_app, reverse_replicate, strip_zeros.
  apply upto_nul_id. destruct (strip_pad_suffix (reverse (take (Z.to_nat DIRSIZ) nm))) as [k Hk].
  assert (Hr : name_ok (reverse (take (Z.to_nat DIRSIZ) nm))) by (by apply Forall_reverse, Forall_take).
  rewrite Hk in Hr. apply Forall_app in Hr as [_ Hr]. by apply Forall_reverse.
Qed.

(** ** [dirlookup] *)

Definition inum_at (c : list Z) (k : Z) : Z := xshort (get16 (ebytes c k) 0).
Definition ematch (c name : list Z) (k : Z) : bool :=
  negb (inum_at c k =? 0)
  && bool_decide (entry_name (slice 2 (Z.to_nat DIRSIZ) (ebytes c k)) = name).

Section lookup.
Context (s : mkst) (F : list (Z * list Z)) (dir : nat) (ty : Z) (c : list Z).
Hypothesis (O : image_ok s F) (Hdir : F !! dir = Some (ty, c)) (Hsz : len c <= NDIRECT * BSIZE).
Let addr (i : Z) : Z := nthZ 0 (d_addrs (din s (Z.of_nat dir))) i.

Lemma dir_addr i : 0 <= i < NDIRECT ->
  (addr i <> 0 <-> i * BSIZE < len c) /\ (addr i <> 0 -> nmeta <= addr i < freeblock s).
Proof.
  intros Hi. destruct (io_file _ _ O _ _ _ Hdir) as [_ _ _ [Hn _]].
  assert (Hr : 0 <= i < NSLOT) by (pose proof NSLOT_NDIRECT; lia).
  unfold addr. rewrite <-(dslot_addr s) by lia. split.
  - rewrite Hn by done. unfold needed. by rewrite (proj2 (Z.ltb_lt _ _)) by lia.
  - intros Hnz. eapply (io_slots _ _ O); [|done|done]. apply lookup_inodes. split; [|done].
    by eapply lookup_lt_Some.
Qed.

Lemma dir_block i j :
  0 <= i < NDIRECT -> addr i <> 0 -> 0 <= j < 32 ->
  slice (16 * Z.to_nat j) 16 (blk s (addr i)) = ebytes c (32 * i + j).
Proof.
  intros Hi Ha Hj. destruct (io_file _ _ O _ _ _ Hdir) as [_ _ _ [_ Hb]].
  destruct (blk_block s (addr i)) as [Hl _]; [apply (io_slots _ _ O)|].
  apply list_eq. intros m. destruct (decide (m < 16)%nat) as [Hm|Hm].
  - rewrite lookup_slice by done. unfold ebytes. rewrite list_lookup_fmap, lookup_seqZ_lt by (unfold DIRENT_SIZE; lia).
    cbn. set (k := DIRENT_SIZE * (32 * i + j) + Z.of_nat m).
    assert (Ek : k / BSIZE = i /\ k mod BSIZE = 16 * j + Z.of_nat m) by (unfold k, DIRENT_SIZE, BSIZE; lia).
    destruct Ek as [E1 E2]. assert (Hk : 0 <= k < SMALL * BSIZE) by (unfold k, DIRENT_SIZE, SMALL, NDIRECT, NINDIRECT, BSIZE in *; lia).
    specialize (Hb k Hk). rewrite E1, E2 in Hb. unfold slot_of in Hb. rewrite (proj2 (Z.ltb_lt i NDIRECT)) in Hb by lia.
    rewrite dslot_addr in Hb by lia. fold (addr i) in Hb. rewrite <-Hb by done.
    rewrite <-(nthZ_lookup 0) by (rewrite Hl; unfold BSIZE; lia). f_equal. lia.
  - rewrite !lookup_ge_None_2; [done|unfold ebytes; rewrite length_map, length_seqZ; unfold DIRENT_SIZE; lia|].
    unfold slice. rewrite length_take. lia.
Qed.

Lemma search_dir_block name i :
  0 <= i < NDIRECT -> addr i <> 0 ->
  search_block (blk s (addr i)) name
  = (fun j => inum_at c (32 * i + j)) <$> List.find (fun j => ematch c name (32 * i + j)) (seqZ 0 32).
Proof.
  intros Hi Ha. unfold search_block. change (BSIZE / DIRENT_SIZE) with 32.
  assert (E1 : forall j, 0 <= j < 32 -> get16 (blk s (addr i)) (16 * Z.to_nat j) = get16 (ebytes c (32 * i + j)) 0).
  { intros j Hj. unfold get16. rewrite <-(dir_block i j), slice_slice by (done || lia). by rewrite Nat.add_0_r. }
  rewrite (find_ext_seqZ _ (fun j => ematch c name (32 * i + j))).
  - destruct (List.find _ (seqZ 0 32)) as [j|] eqn:Ef; [|done]. apply find_seqZ in Ef as (Hj & _).
    cbn [fmap option_fmap option_map]. unfold inum_at. by rewrite E1 by lia.
  - intros j Hj. cbv beta zeta. unfold ematch, inum_at. rewrite E1 by done. do 2 f_equal.
    rewrite <-(dir_block i j), slice_slice by (done || (unfold DIRSIZ; lia)). done.
Qed.

Lemma ematch_beyond name k : 0 <= k -> len c <= 16 * k -> ematch c name k = false.
Proof.
  intros Hk Hl. unfold ematch, inum_at. rewrite ebytes_beyond by done. reflexivity.
Qed.

Lemma dirlookup_image name :
  wp (dirlookup (Z.of_nat dir) name) (fun r s' => s' = s
    /\ r = match List.find (ematch c name) (seqZ 0 (NDIRECT * 32)) with
           | Some k => inum_at c k
           | None => 0
           end) s.
Proof.
  pose proof (lookup_lt_Some _ _ _ Hdir) as Hd. pose proof (io_cap _ _ O) as Hcap.
  pose proof (so_free _ _ (io_slots _ _ O)) as Hfr. pose proof nmeta_pos as Hm.
  unfold dirlookup. apply wp_bind, wp_rinode; [apply (io_slots _ _ O)|lia|]. apply wp_bind.
  apply wp_forR with (I := fun seen s' => s' = s
    /\ forall k, 0 <= k < 32 * len seen -> ematch c name k = false).
  - split; [done|]. intros k Hk. simpl in Hk. lia.
  - intros seen i rest s' E [-> Hno].
    assert (Hi : seqZ 0 NDIRECT !! length seen = Some i) by (rewrite E; by apply list_lookup_middle).
    apply lookup_seqZ in Hi as [Ei Hi]. assert (Hi' : 0 <= i < NDIRECT) by lia.
    destruct (dir_addr i Hi') as [Ha1 Ha2]. fold (addr i).
    assert (Hx : xint (addr i) = addr i).
    { apply xint_small. destruct (decide (addr i = 0)) as [->|Hnz]; [lia|].
      specialize (Ha2 Hnz). unfold FSSIZE in *. lia. }
    rewrite Hx. destruct (Z.eqb_spec (addr i) 0) as [Hz|Hnz].
    + apply wp_ret. split; [done|]. intros k Hk. rewrite length_app in Hk. simpl in Hk.
      destruct (decide (k < 32 * len seen)); [apply Hno; lia|]. apply ematch_beyond; [lia|].
      unfold BSIZE in *. lia.
    + specialize (Ha2 Hnz). apply wp_bind, wp_rsect; [apply (io_slots _ _ O)|lia|]. apply wp_ret.
      rewrite search_dir_block by done. destruct (List.find _ (seqZ 0 32)) as [j|] eqn:Ef; cbn.
      * apply find_seqZ in Ef as (Hj & Hf & Hfirst). split; [done|].
        rewrite (find_Some_first _ _ (32 * i + j)); [done|lia|done|].
        intros k Hk. destruct (decide (k < 32 * i)); [apply Hno; lia|].
        replace k with (32 * i + (k - 32 * i)) by lia. apply Hfirst. lia.
      * split; [done|]. intros k Hk. rewrite length_app in Hk. simpl in Hk.
        destruct (decide (k < 32 * len seen)); [apply Hno; lia|].
        pose proof (find_seqZ_None _ _ _ Ef (k - 32 * i) ltac:(lia)) as Hn. cbv beta in Hn.
        by replace (32 * i + (k - 32 * i)) with k in Hn by lia.
  - intros s' [-> Hno]. split; [done|]. rewrite find_None_all; [done|]. intros k Hk. apply Hno.
    rewrite length_seqZ. lia.
Qed.
End lookup.

Lemma ematch_ents l name k :
  Forall ent_ok l -> 0 <= k ->
  ematch (ents_bytes l) name k = match l !! Z.to_nat k with
                                 | Some e => bool_decide (stored_name e.2 = name)
                                 | None => false
                                 end.
Proof.
  intros Hl Hk. unfold ematch, inum_at. rewrite ebytes_ents by done.
  destruct (l !! Z.to_nat k) as [e|] eqn:E; [|reflexivity].
  rewrite Forall_lookup in Hl. destruct (Hl _ _ E) as [H1 H2].
  rewrite dirent_inum, xshort_small by lia. rewrite (proj2 (Z.eqb_neq e.1 0)) by lia.
  by rewrite dirent_name, entry_name_pad.
Qed.

Lemma find_ents l name :
  Forall ent_ok l -> len l <= NDIRECT * 32 ->
  match List.find (ematch (ents_bytes l) name) (seqZ 0 (NDIRECT * 32)) with
  | Some k => inum_at (ents_bytes l) k
  | None => 0
  end = default 0 (ent_lookup l name).
Proof.
  intros Hl Hn. unfold ent_lookup. destruct (list_find _ l) as [[k e]|] eqn:E.
  - apply list_find_Some in E as (Hk & He & Hfirst). pose proof (lookup_lt_Some _ _ _ Hk).
    rewrite (find_Some_first _ _ (Z.of_nat k)); [|lia|rewrite ematch_ents, Nat2Z.id, Hk by (done || lia); by apply bool_decide_eq_true|].
    + cbn [fmap option_fmap option_map default from_option id fst snd]. unfold inum_at.
      rewrite ebytes_ents, Nat2Z.id, Hk by lia.
      rewrite Forall_lookup in Hl. destruct (Hl _ _ Hk) as [H1 _]. by rewrite dirent_inum, xshort_small by lia.
    + intros j Hj. rewrite ematch_ents by (done || lia). case_match eqn:Ej; [|done].
      apply bool_decide_eq_false. eapply Hfirst; [done|lia].
  - apply list_find_None in E. rewrite find_None_all; [done|]. intros j Hj.
    rewrite ematch_ents by (done || lia). case_match eqn:Ej; [|done]. apply bool_decide_eq_false.
    rewrite Forall_lookup in E. by apply (E (Z.to_nat j)).
Qed.

(** ** Trees *)

Definition node_wf (nd : node) : Prop :=
  match nd with
  | NFree => True
  | NDir l => Forall ent_ok l
  | NFile c => is_bytes c
  end.
Definition tree_wf (T : list node) : Prop := Forall node_wf T.

(** A tree in which directories have got more entries, and nodes been added. *)
Definition node_ext (nd nd' : node) : Prop :=
  match nd with
  | NDir l => exists l', nd' = NDir (l ++ l')
  | _ => nd' = nd
  end.
Definition text (T T' : list node) : Prop :=
  forall i nd, T !! i = Some nd -> exists nd', T' !! i = Some nd' /\ node_ext nd nd'.

Lemma node_ext_refl nd : node_ext nd nd.
Proof. destruct nd as [|l|c]; cbn; [done| |done]. exists []. by rewrite app_nil_r. Qed.

Lemma text_refl T : text T T.
Proof. intros i nd Hi. exists nd. split; [done|apply node_ext_refl]. Qed.

Lemma text_trans T1 T2 T3 : text T1 T2 -> text T2 T3 -> text T1 T3.
Proof.
  intros H1 H2 i nd Hi. destruct (H1 i nd Hi) as (nd2 & Hi2 & E2). destruct (H2 i nd2 Hi2) as (nd3 & Hi3 & E3).
  exists nd3. split; [done|]. destruct nd as [|l|c]; cbn in *; [by subst| |by subst].
  destruct E2 as [l2 ->]. destruct E3 as [l3 ->]. exists (l2 ++ l3). by rewrite app_assoc.
Qed.

Lemma text_fext T T' : text T T' -> fext (files_of T) (files_of T').
Proof.
  intros H i ty c Hi. unfold files_of in *. rewrite list_lookup_fmap in Hi.
  destruct (T !! i) as [nd|] eqn:E; [|done]. injection Hi as Hi. destruct (H i nd E) as (nd' & E' & Hx).
  rewrite list_lookup_fmap, E'. cbn. destruct nd as [|l|b]; cbn in *; simplify_eq/=.
  - exists []. done.
  - destruct Hx as [l' ->]. exists (ents_bytes l'). cbn. by rewrite ents_bytes_app.
  - exists []. by rewrite app_nil_r.
Qed.

Lemma text_length T T' : text T T' -> (length T <= length T')%nat.
Proof. intros H%text_fext%fext_length. unfold files_of in H. by rewrite !length_map in H. Qed.

Lemma add_ent_text T dir e T' nd :
  add_ent T dir e = Some T' -> text T (T' ++ [nd]) /\ length T' = length T.
Proof.
  unfold add_ent. destruct (T !! Z.to_nat dir) as [[|l|c]|] eqn:E; [done| |done..]. intros [= <-].
  rewrite length_insert. split; [|done]. intros i nd' Hi. destruct (decide (i = Z.to_nat dir)) as [->|Hne].
  - exists (NDir (l ++ [e])). split; [|simplify_eq; by exists [e]].
    rewrite lookup_app_l by (rewrite length_insert; by eapply lookup_lt_Some).
    apply list_lookup_insert_eq. by eapply lookup_lt_Some.
  - exists nd'. split; [|apply node_ext_refl]. rewrite lookup_app_l by (rewrite length_insert; by eapply lookup_lt_Some).
    by rewrite list_lookup_insert_ne.
Qed.

Lemma add_ent_wf T dir e T' : add_ent T dir e = Some T' -> tree_wf T -> ent_ok e -> tree_wf T'.
Proof.
  unfold add_ent. destruct (T !! Z.to_nat dir) as [[|l|c]|] eqn:E; [done| |done..]. intros [= <-] W He.
  apply Forall_insert; [done|]. cbn. unfold tree_wf in W. rewrite Forall_lookup in W. specialize (W _ _ E).
  apply Forall_app. split; [done|]. by constructor.
Qed.

Lemma dot_ok : name_ok dot /\ name_ok dotdot.
Proof. split; repeat (constructor; [lia|]); constructor. Qed.

Lemma add_dir_ext T dir name T' :
  add_dir T dir name = Some T' ->
  text T T' /\ length T' = S (length T)
  /\ (tree_wf T -> name_ok name -> 1 <= dir < 2 ^ 16 -> 1 <= len T < 2 ^ 16 -> tree_wf T').
Proof.
  unfold add_dir. cbv zeta. destruct (add_ent T dir _) as [T1|] eqn:E; [|done]. cbn. intros [= <-].
  destruct (add_ent_text _ _ _ _ (NDir [(len T, dot); (dir, dotdot)]) E) as [H1 H2]. split_and!.
  - done.
  - rewrite length_app, H2. simpl. lia.
  - intros W Hn Hd Hl. apply Forall_app. split; [by eapply add_ent_wf; [..|split]|].
    constructor; [|constructor]. destruct dot_ok. by repeat constructor; cbn; try lia.
Qed.

Lemma tree_path_ext names : forall T dir T' dir',
  tree_path T dir names = Some (T', dir') -> text T T'
  /\ (tree_wf T -> Forall name_ok names -> 1 <= dir < 2 ^ 16 -> 1 <= len T -> len T' < 2 ^ 16 ->
      tree_wf T' /\ 1 <= dir' < 2 ^ 16).
Proof.
  induction names as [|name names IH]; intros T dir T' dir' H; cbn in H.
  { injection H as <- <-. split; [apply text_refl|done]. }
  destruct (T !! Z.to_nat dir) as [[|l|c]|] eqn:E; [done| |done..].
  destruct (ent_lookup l name) as [i|] eqn:El.
  - destruct (IH _ _ _ _ H) as [H1 H2]. split; [done|]. intros W Hn Hd Hl Hl'.
    apply Forall_cons in Hn as [_ Hn]. apply H2; [done|done| |done|done].
    unfold ent_lookup in El. destruct (list_find _ l) as [[k e]|] eqn:Ef; [|done]. injection El as <-.
    apply list_find_Some in Ef as (Hk & _). unfold tree_wf in W. rewrite Forall_lookup in W. specialize (W _ _ E).
    cbn in W. rewrite Forall_lookup in W. apply (W _ _ Hk).
  - destruct (add_dir T dir name) as [T1|] eqn:Ea; [|done]. cbn in H.
    destruct (add_dir_ext _ _ _ _ Ea) as (A1 & A2 & A3). destruct (IH _ _ _ _ H) as [H1 H2].
    split; [by eapply text_trans|]. intros W Hn Hd Hl Hl'. apply Forall_cons in Hn as [Hn1 Hn].
    pose proof (text_length _ _ H1). apply H2; [by apply A3; [..|lia]|done|lia|lia|done].
Qed.

(** ** Building the tree *)

Lemma append_last s F ty c p :
  image_ok s (F ++ [(ty, c)]) -> image_fits (F ++ [(ty, c ++ p)]) = true -> is_bytes p ->
  wp (iappend (len F) p) (fun _ s' => image_ok s' (F ++ [(ty, c ++ p)])) s.
Proof.
  intros O Hf Hp.
  assert (Hl : forall c, (F ++ [(ty, c)]) !! length F = Some (ty, c)) by (intros; by apply list_lookup_middle).
  assert (E : <[length F := (ty, c ++ p)]> (F ++ [(ty, c)]) = F ++ [(ty, c ++ p)]).
  { rewrite insert_app_r_alt by done. by rewrite Nat.sub_diag. }
  rewrite <-E in Hf |- *. eapply iappend_spec; [done|apply Hl| |done|by apply fits_room].
  eapply fits_file; [exact Hf|]. rewrite E. apply Hl.
Qed.

Lemma new_node {A} s T dir l name ty (k : Z -> M mkst A) Q :
  let T' := <[Z.to_nat dir := NDir (l ++ [(len T, name)])]> T in
  image_ok s (files_of T) -> T !! Z.to_nat dir = Some (NDir l) -> 0 <= dir -> name_ok name ->
  0 < ty < 2 ^ 15 -> image_fits (files_of T' ++ [(ty, [])]) = true ->
  (forall s', image_ok s' (files_of T' ++ [(ty, [])]) -> wp (k (len T)) Q s') ->
  wp (inum ← ialloc ty; iappend dir (dirent inum name) ;; k inum) Q s.
Proof.
  intros T' O Hdir Hd Hn Hty Hf Hk.
  assert (HL : length (files_of T) = length T) by apply length_map.
  assert (HL' : length (files_of T') = length T) by (unfold files_of; rewrite length_map; apply length_insert).
  destruct (fits_room _ Hf) as [Hcap Hroom]. rewrite length_app, HL' in Hcap. simpl in Hcap.
  assert (HF : files_of T !! Z.to_nat dir = Some (T_DIR, ents_bytes l))
    by (unfold files_of; by rewrite list_lookup_fmap, Hdir).
  pose proof (lookup_lt_Some _ _ _ HF) as Hlt.
  assert (E : <[Z.to_nat dir := (T_DIR, ents_bytes l ++ dirent (len T) name)]> (files_of T ++ [(ty, [])])
              = files_of T' ++ [(ty, [])]).
  { rewrite insert_app_l by done. f_equal. unfold T', files_of. rewrite list_fmap_insert. cbn.
    by rewrite ents_bytes_snoc. }
  apply wp_bind. eapply wp_mono; [apply ialloc_spec; [done|lia|done]|]. intros i s1 [-> O1]. rewrite HL in *.
  apply wp_bind. rewrite <-(Z2Nat.id dir) by done. eapply wp_mono.
  { eapply iappend_spec; [exact O1|by apply lookup_app_l_Some| |by apply is_bytes_dirent, name_ok_bytes|by rewrite E].
    eapply (fits_file _ (Z.to_nat dir) T_DIR); [exact Hf|]. rewrite <-E. apply list_lookup_insert_eq.
    rewrite length_app. lia. }
  intros [] s2 O2. rewrite E in O2. by apply Hk.
Qed.

Lemma make_dir {A} s T dir name T' (k : Z -> M mkst A) Q :
  image_ok s (files_of T) -> 0 <= dir -> name_ok name -> add_dir T dir name = Some T' ->
  image_fits (files_of T') = true -> (forall s', image_ok s' (files_of T') -> wp (k (len T)) Q s') ->
  wp (inum ← ialloc T_DIR; iappend dir (dirent inum name) ;; iappend inum (dirent inum dot) ;;
      iappend inum (dirent dir dotdot) ;; k inum) Q s.
Proof.
  intros O Hd Hn Ha Hf Hk. unfold add_dir, add_ent in Ha. cbv zeta in Ha.
  destruct (T !! Z.to_nat dir) as [[|l|c]|] eqn:E; [done| |done..]. cbn in Ha. injection Ha as <-.
  set (T1 := <[Z.to_nat dir := NDir (l ++ [(len T, name)])]> T) in *.
  assert (EF : files_of (T1 ++ [NDir [(len T, dot); (dir, dotdot)]])
               = files_of T1 ++ [(T_DIR, ([] ++ dirent (len T) dot) ++ dirent dir dotdot)]).
  { unfold files_of. rewrite map_app. cbn [map file_of]. unfold ents_bytes. cbn [map concat app fst snd].
    by rewrite app_nil_r. }
  rewrite EF in *. assert (HL : len (files_of T1) = len T) by (unfold files_of; rewrite length_map; unfold T1; by rewrite length_insert).
  eapply new_node; [done|done|done|done|unfold T_DIR; lia| |].
  { fold T1. eapply image_fits_fext; [|exact Hf]. eapply fext_trans; apply fext_last. }
  fold T1. intros s1 O1. rewrite <-HL at 1. apply wp_bind. destruct dot_ok as [D1 D2]. eapply wp_mono.
  { eapply append_last; [exact O1| |by apply is_bytes_dirent, name_ok_bytes].
    eapply image_fits_fext; [apply fext_last|exact Hf]. }
  intros [] s2 O2. rewrite <-HL at 1. apply wp_bind. eapply wp_mono.
  { eapply append_last; [exact O2|done|by apply is_bytes_dirent, name_ok_bytes]. }
  intros [] s3 O3. by apply Hk.
Qed.

Lemma ensure_toks_spec toks : forall T dir T' dir' s,
  image_ok s (files_of T) -> tree_wf T -> Forall name_ok toks -> 1 <= dir < 2 ^ 16 ->
  tree_path T dir toks = Some (T', dir') -> image_fits (files_of T') = true ->
  wp (ensure_toks dir toks) (fun r s' => r = dir' /\ image_ok s' (files_of T')) s.
Proof.
  induction toks as [|tok toks IH]; intros T dir T' dir' s O W Hn Hd Hp Hf.
  { injection Hp as <- <-. by apply wp_ret. }
  apply Forall_cons in Hn as [Hn1 Hn]. pose proof (tree_path_ext _ _ _ _ _ Hp) as [Hx _].
  pose proof (image_fits_fext _ _ (text_fext _ _ Hx) Hf) as HfT.
  cbn [tree_path] in Hp. cbn [ensure_toks].
  destruct (T !! Z.to_nat dir) as [[|l|c]|] eqn:E; [done| |done..].
  assert (HF : files_of T !! Z.to_nat dir = Some (T_DIR, ents_bytes l))
    by (unfold files_of; by rewrite list_lookup_fmap, E).
  destruct (fits_file _ _ _ _ HfT HF) as [_ Hsz]. specialize (Hsz eq_refl).
  assert (Hl : Forall ent_ok l) by (unfold tree_wf in W; rewrite Forall_lookup in W; exact (W _ _ E)).
  apply wp_bind. rewrite <-(Z2Nat.id dir) at 1 by lia.
  eapply wp_mono; [by eapply dirlookup_image|]. intros r s' [-> Hr].
  rewrite find_ents in Hr by (done || (rewrite length_ents_bytes in Hsz; unfold BSIZE in Hsz; lia)).
  destruct (ent_lookup l tok) as [i|] eqn:El; cbn in Hr; subst r.
  - assert (Hi : 1 <= i < 2 ^ 16).
    { unfold ent_lookup in El. destruct (list_find _ l) as [[k e]|] eqn:Ef; [|done]. injection El as <-.
      apply list_find_Some in Ef as (Hk & _). rewrite Forall_lookup in Hl. apply (Hl _ _ Hk). }
    rewrite (proj2 (Z.eqb_neq i 0)) by lia. by eapply IH.
  - cbn [Z.eqb]. destruct (add_dir T dir tok) as [T1|] eqn:Ea; [|done]. cbn in Hp.
    destruct (add_dir_ext _ _ _ _ Ea) as (A1 & A2 & A3).
    pose proof (tree_path_ext _ _ _ _ _ Hp) as [Hx1 _]. pose proof (image_fits_fext _ _ (text_fext _ _ Hx1) Hf) as Hf1.
    destruct (fits_room _ Hf1) as [Hcap _]. unfold files_of in Hcap. rewrite length_map, A2 in Hcap.
    pose proof (lookup_lt_Some _ _ _ E). unfold NINODES in Hcap.
    eapply make_dir; [done|lia|done|done|done|]. intros s1 O1. eapply IH; [done| |done|lia|done|done].
    by apply A3; [..|lia].
Qed.

(** ** Arguments *)

Lemma strtok_acc_ok path : forall cur, name_ok cur -> name_ok path -> Forall name_ok (strtok_acc cur path).
Proof.
  induction path as [|c path IH]; intros cur Hc Hp; cbn.
  - destruct cur; [constructor|]. by constructor.
  - apply Forall_cons in Hp as [Hc0 Hp]. case_match.
    + assert (Forall name_ok (strtok_acc [] path)) by (apply IH; [constructor|done]).
      destruct cur; [done|]. by constructor.
    + apply IH; [|done]. apply Forall_app. split; [done|]. by constructor.
Qed.

Lemma strip_slashes_suffix l : strip_slashes l `suffix_of` l.
Proof. induction l as [|c l IH]; [done|]. cbn. case_match; [|done]. by apply suffix_cons_r. Qed.

Lemma imgpath_ok hp : name_ok hp -> name_ok (imgpath hp) /\ (length (imgpath hp) <= 511)%nat.
Proof.
  intros Hn. unfold imgpath. destruct (strip_slashes_suffix (reverse (strip_prefix (take 511 hp)))) as [k Hk].
  assert (Hp : name_ok (strip_prefix (take 511 hp)) /\ (length (strip_prefix (take 511 hp)) <= 511)%nat).
  { pose proof (length_take_le hp 511). unfold strip_prefix. case_match.
    - split; [by apply Forall_drop, Forall_take|]. rewrite length_drop, length_take. lia.
    - split; [by apply Forall_take|]. rewrite length_take. lia. }
  destruct Hp as [H1 H2]. apply Forall_reverse in H1. rewrite <-length_reverse in H2. rewrite Hk in H1, H2.
  apply Forall_app in H1 as [_ H1]. rewrite length_app in H2. split; [by apply Forall_reverse|].
  rewrite length_reverse. lia.
Qed.

Lemma last_slash_app p pre base : last_slash p = Some (pre, base) -> p = pre ++ 47 :: base.
Proof.
  revert pre base. induction p as [|c p IH]; intros pre base H; [done|]. cbn in H.
  destruct (last_slash p) as [[pre' base']|] eqn:E.
  - injection H as <- <-. cbn. f_equal. by apply IH.
  - destruct (Z.eqb_spec c 47) as [->|]; [|done]. by injection H as <- <-.
Qed.

Lemma skip_underscore_ok nm : name_ok nm -> name_ok (skip_underscore nm).
Proof. destruct 1 as [|c l Hc Hl]; [constructor|]. cbn. case_match; [done|]. by constructor. Qed.

Lemma ensure_path_toks parent path :
  (length path <= 511)%nat -> ensure_path parent path = ensure_toks parent (strtok_all path).
Proof. intros Hl. unfold ensure_path. rewrite take_ge by done. by destruct path. Qed.

Lemma arg_ok hp : name_ok hp -> Forall name_ok (arg_dirs hp) /\ name_ok (arg_name hp).
Proof.
  intros Hn. destruct (imgpath_ok hp Hn) as [H1 _]. unfold arg_dirs, arg_name.
  destruct (last_slash (imgpath hp)) as [[pre base]|] eqn:E.
  - apply last_slash_app in E. rewrite E in H1. apply Forall_app in H1 as [H1 H2].
    apply Forall_cons in H2 as [_ H2]. split; [|by apply skip_underscore_ok].
    apply strtok_acc_ok; [constructor|done].
  - split; [constructor|]. by apply skip_underscore_ok.
Qed.

Definition host_ok (arg : list Z * hostfile) : Prop :=
  name_ok arg.1 /\ match arg.2 with HReg chunks => Forall is_bytes chunks | _ => True end.

Lemma append_chunks F ty chunks : forall s c,
  image_ok s (F ++ [(ty, c)]) -> image_fits (F ++ [(ty, c ++ concat chunks)]) = true ->
  Forall is_bytes chunks ->
  wp (forM chunks (fun buf => iappend (len F) buf))
    (fun _ s' => image_ok s' (F ++ [(ty, c ++ concat chunks)])) s.
Proof.
  induction chunks as [|b chunks IH]; intros s c O Hf Hb; cbn [concat] in *; cbn [forM].
  - rewrite app_nil_r. by apply wp_ret.
  - apply Forall_cons in Hb as [Hb Hbs]. rewrite app_assoc in Hf |- *. apply wp_bind. eapply wp_mono.
    { apply append_last; [exact O| |exact Hb]. eapply image_fits_fext; [apply fext_last|exact Hf]. }
    intros [] s1 O1. by apply IH.
Qed.

Lemma arg_parent s T hp T' dir' :
  image_ok s (files_of T) -> tree_wf T -> name_ok hp ->
  tree_path T ROOTINO (arg_dirs hp) = Some (T', dir') -> image_fits (files_of T') = true ->
  wp (match last_slash (imgpath hp) with
      | Some (pre, base) => parent ← ensure_path ROOTINO pre; mret (parent, base)
      | None => mret (ROOTINO, imgpath hp)
      end) (fun r s' => r.1 = dir' /\ skip_underscore r.2 = arg_name hp /\ image_ok s' (files_of T')) s.
Proof.
  intros O W Hn Hp Hf. destruct (arg_ok hp Hn) as [Hd _]. destruct (imgpath_ok hp Hn) as [_ Hl].
  unfold arg_dirs, arg_name in *. destruct (last_slash (imgpath hp)) as [[pre base]|] eqn:E.
  - apply last_slash_app in E. rewrite E, length_app in Hl. simpl in Hl.
    rewrite ensure_path_toks by lia. apply wp_bind. eapply wp_mono.
    { eapply ensure_toks_spec; [exact O|exact W|exact Hd|unfold ROOTINO; lia|exact Hp|exact Hf]. }
    intros r s' [-> O']. by apply wp_ret.
  - injection Hp as <- <-. by apply wp_ret.
Qed.

Lemma tree_arg_ext T arg T' :
  tree_arg T arg = Some T' -> text T T'
  /\ (tree_wf T -> host_ok arg -> 1 <= len T -> len T' < 2 ^ 16 -> tree_wf T').
Proof.
  destruct arg as [hp st]. unfold tree_arg, host_ok. cbn [fst snd]. destruct st as [| | |chunks]; [done| |done|].
  - destruct (tree_path _ _ _) as [[T1 dir]|] eqn:E; [|done]. cbn. intros [= <-].
    destruct (tree_path_ext _ _ _ _ _ E) as [H1 H2]. split; [done|]. intros W [Hn _] Hl Hl'.
    destruct (arg_ok hp Hn) as [Hd _]. by apply H2.
  - destruct (tree_path _ _ _) as [[T1 dir]|] eqn:E; [|done]. cbn. unfold add_file.
    destruct (add_ent _ _ _) as [T2|] eqn:Ea; [|done]. cbn. intros [= <-].
    destruct (tree_path_ext _ _ _ _ _ E) as [H1 H2].
    destruct (add_ent_text _ _ _ _ (NFile (concat chunks)) Ea) as [A1 A2]. split; [by eapply text_trans|].
    intros W [Hn Hc] Hl Hl'. destruct (arg_ok hp Hn) as [Hd Hnm]. rewrite length_app, A2 in Hl'. simpl in Hl'.
    pose proof (text_length _ _ H1). destruct H2 as [W1 _]; [done|done|unfold ROOTINO; lia|done|lia|].
    apply Forall_app. split; [eapply add_ent_wf; [done|done|]; split; cbn; [lia|done]|].
    constructor; [|constructor]. cbn. by apply Forall_concat.
Qed.

Lemma add_arg_spec s T arg T' :
  image_ok s (files_of T) -> tree_wf T -> host_ok arg -> tree_arg T arg = Some T' ->
  image_fits (files_of T') = true ->
  wp (add_arg ROOTINO arg) (fun _ s' => image_ok s' (files_of T')) s.
Proof.
  intros O W [Hn Hc] Ht Hf. destruct arg as [hp st]. unfold tree_arg, add_arg in *. cbn [fst snd] in *.
  destruct st as [| | |chunks]; [done| |done|].
  - destruct (tree_path _ _ _) as [[T1 dir]|] eqn:E; [|done]. cbn in Ht. injection Ht as <-.
    apply wp_bind. eapply wp_mono; [by eapply arg_parent|]. intros [parent base] s' (_ & _ & O'). by apply wp_ret.
  - destruct (tree_path _ _ _) as [[T1 dir]|] eqn:E; [|done]. cbn in Ht. unfold add_file, add_ent in Ht.
    destruct (T1 !! Z.to_nat dir) as [[|l|c]|] eqn:El; [done| |done..]. cbn in Ht. injection Ht as <-.
    set (T2 := <[Z.to_nat dir := NDir (l ++ [(len T1, arg_name hp)])]> T1) in *.
    assert (EF : files_of (T2 ++ [NFile (concat chunks)]) = files_of T2 ++ [(T_FILE, [] ++ concat chunks)]).
    { unfold files_of. by rewrite map_app. }
    rewrite EF in *. destruct (arg_ok hp Hn) as [Hd Hnm].
    assert (HL : len (files_of T2) = len T1) by (unfold files_of, T2; by rewrite length_map, length_insert).
    assert (Hx : text T1 (T2 ++ [NFile (concat chunks)])).
    { eapply (proj1 (add_ent_text T1 dir (len T1, arg_name hp) T2 _ _)). Unshelve. unfold add_ent. by rewrite El. }
    pose proof (image_fits_fext _ _ (text_fext _ _ Hx) ltac:(by rewrite EF)) as Hf1.
    apply wp_bind. eapply wp_mono; [by eapply arg_parent|]. intros [parent base] s' (Ep & Eb & O'). cbn [fst snd] in *. subst parent.
    rewrite Eb. eapply new_node; [exact O'|exact El| |exact Hnm|unfold T_FILE; lia| |].
    + destruct (tree_path_ext _ _ _ _ _ E) as [H1 H2]. destruct (fits_room _ Hf1) as [Hcap _].
      unfold files_of in Hcap. rewrite length_map in Hcap. pose proof (io_cap _ _ O) as Hl. unfold files_of in Hl.
      rewrite length_map in Hl. destruct H2 as [_ H2]; [done|done|unfold ROOTINO; lia|lia|unfold NINODES in Hcap; lia|lia].
    + eapply image_fits_fext; [apply fext_last|exact Hf].
    + fold T2. intros s2 O2. rewrite <-HL. by apply append_chunks.
Qed.

(** ** The bitmap *)

Lemma fold_bits l : forall d,
  length d = Z.to_nat BSIZE -> is_bytes d -> Forall (fun i => 0 <= i < BPB) l ->
  let d' := fold_left (fun buf i => bit_set i buf) l d in
  length d' = Z.to_nat BSIZE /\ is_bytes d'
  /\ (forall b, 0 <= b < BPB -> bit_at d' b = bool_decide (b ∈ l) || bit_at d b).
Proof.
  induction l as [|i l IH]; intros d Hd Hb Hl; cbn [fold_left].
  { split_and!; [done|done|]. intros b _. by rewrite bool_decide_false by set_solver. }
  apply Forall_cons in Hl as [Hi Hl].
  destruct (IH (bit_set i d)) as (H1 & H2 & H3); [|by apply is_bytes_bit_set|done|].
  { unfold bit_set. by rewrite length_updZ. }
  split_and!; [done|done|]. intros b Hbr. rewrite H3 by done.
  rewrite bit_at_set by (rewrite ?Hd; unfold BPB, BSIZE in *; lia).
  destruct (decide (b = i)) as [->|Hne].
  - rewrite orb_true_r. by rewrite bool_decide_true by set_solver.
  - f_equal. apply bool_decide_ext. set_solver.
Qed.

Lemma nthZ_zero k : nthZ 0 zero_block k = 0.
Proof.
  unfold nthZ. case_match; [done|]. rewrite nth_lookup. destruct (_ !! _) eqn:E; [|done].
  by apply lookup_replicate in E as [-> _].
Qed.

Lemma bitmap_block used :
  0 <= used <= BPB ->
  let d := fold_left (fun buf i => bit_set i buf) (seqZ 0 used) zero_block in
  length d = Z.to_nat BSIZE /\ is_bytes d /\ (forall b, 0 <= b < BPB -> bit_at d b = (b <? used)).
Proof.
  intros Hu. destruct (fold_bits (seqZ 0 used) zero_block) as (H1 & H2 & H3); [done|apply is_bytes_zero| |].
  { apply Forall_forall. intros i Hi%elem_of_seqZ. lia. }
  split_and!; [done|done|]. intros b Hb. rewrite H3 by done.
  replace (bit_at zero_block b) with false.
  - rewrite orb_false_r. destruct (Z.ltb_spec b used).
    + apply bool_decide_eq_true, elem_of_seqZ. lia.
    + apply bool_decide_eq_false. rewrite elem_of_seqZ. lia.
  - symmetry. unfold bit_at. by rewrite nthZ_zero.
Qed.

(** ** The finished image *)

(** The size of the root directory is rounded up beyond its last block. *)
Definition done_size (i : nat) (n : Z) : Z :=
  if decide (i = Z.to_nat ROOTINO) then (n / BSIZE + 1) * BSIZE else n.

Record file_done (s : mkst) (i : nat) (ty : Z) (c : list Z) : Prop := {
  fd_type : d_type (din s (Z.of_nat i)) = ty;
  fd_nlink : d_nlink (din s (Z.of_nat i)) = if ty =? 0 then 0 else 1;
  fd_size : d_size (din s (Z.of_nat i)) = done_size i (len c);
  fd_holds : holds s (din s (Z.of_nat i)) (len c) c
}.
Record image_done (s : mkst) (F : list (Z * list Z)) : Prop := {
  dn_slots : slots_ok s (inodes s (length F));
  dn_cap : 2 <= len F <= NINODES;
  dn_free : freeblock s = nmeta + total F;
  dn_small : freeblock s < BSIZE * 8;
  dn_file : forall i ty c, F !! i = Some (ty, c) -> file_done s i ty c;
  dn_super : blk s 1 = super_block;
  dn_log : forall b, 2 <= b < 62 -> blk s b = zero_block;
  dn_bits : forall b, 0 <= b < BPB -> bit_at (blk s 91) b = (b <? freeblock s);
  dn_bmap : forall b, 91 < b < nmeta -> blk s b = zero_block
}.

Lemma wp_balloc s used (Q : unit -> mkst -> Prop) :
  0 <= used < BSIZE * 8 ->
  (forall d, length d = Z.to_nat BSIZE -> is_bytes d ->
     (forall b, 0 <= b < BPB -> bit_at d b = (b <? used)) -> Q tt (put_blk 91 d s)) ->
  wp (balloc used) Q s.
Proof.
  intros Hu HQ. unfold balloc. rewrite (proj2 (Z.ltb_lt _ _)) by lia. apply wp_wsect.
  destruct (bitmap_block used) as (H1 & H2 & H3); [unfold BPB, BSIZE in *; lia|]. by apply HQ.
Qed.

(** The size of the root directory. *)
Lemma root_sized s F c :
  image_ok s F -> F !! Z.to_nat ROOTINO = Some (T_DIR, c) -> len c <= SMALL * BSIZE ->
  let s1 := put_inode ROOTINO (set_dsize ((len c / BSIZE + 1) * BSIZE) (din s ROOTINO)) s in
  slots_ok s1 (inodes s1 (length F)) /\ (forall i ty c, F !! i = Some (ty, c) -> file_done s1 i ty c).
Proof.
  intros O Hr Hlen s1. pose proof O as [SO Oino Ocap Ofree Ofile _ _ _].
  assert (Hsz : 0 <= (len c / BSIZE + 1) * BSIZE < 2 ^ 32) by (unfold SMALL, NDIRECT, NINDIRECT, BSIZE in *; lia).
  assert (Hin : 0 <= ROOTINO < NINODES) by (unfold ROOTINO, NINODES; lia).
  pose proof (lookup_lt_Some _ _ _ Hr) as Hr1. change (Z.to_nat ROOTINO) with 1%nat in *.
  set (x2 := set_dsize _ _) in *.
  assert (Hx : inodes s (length F) !! 1%nat = Some (din s ROOTINO)) by (by apply lookup_inodes).
  pose proof (slots_ok_dsize s _ 1 _ _ SO Hx Hsz) as SO2. fold x2 in SO2.
  assert (Hx2 : <[1%nat := x2]> (inodes s (length F)) !! 1%nat = Some x2)
    by (apply list_lookup_insert_eq; by eapply lookup_lt_Some).
  pose proof (so_wf _ _ SO2 _ _ Hx2) as W2. split.
  - unfold s1. rewrite (inodes_put _ _ _ _ _ SO2 Hin W2) by done. by apply put_inode_slots.
  - intros i ty c' Hi. pose proof (lookup_lt_Some _ _ _ Hi) as Hlt. destruct (Ofile _ _ _ Hi) as [U1 U2 U3 U4].
    assert (Ed : din s1 (Z.of_nat i) = if decide (i = 1%nat) then x2 else din s (Z.of_nat i)).
    { unfold s1. rewrite (put_inode_din s _ _ _ SO2 Hin W2) by lia. unfold ROOTINO.
      case_decide; [by rewrite decide_True by lia|by rewrite decide_False by lia]. }
    unfold ROOTINO, done_size in *. destruct (decide (i = 1%nat)) as [->|Hne].
    + rewrite Hr in Hi. injection Hi as <- <-. split; rewrite Ed; [done|done|done|].
      apply (put_inode_holds s _ _ _ SO2 Hin 1%nat); [done|]. by apply holds_dsize.
    + split; rewrite Ed; [done|done| |].
      * unfold done_size. by rewrite decide_False.
      * apply (put_inode_holds s _ _ _ SO2 Hin i); [|done]. rewrite list_lookup_insert_ne by congruence.
        by apply lookup_inodes.
Qed.

Lemma main_finish_spec s F c :
  image_ok s F -> image_fits F = true -> F !! Z.to_nat ROOTINO = Some (T_DIR, c) ->
  wp (main_finish ROOTINO) (fun _ s' => image_done s' F) s.
Proof.
  intros O Hf Hr. pose proof O as [SO Oino Ocap Ofree Ofile Osup Olog Obm].
  destruct (Ofile _ _ _ Hr) as [_ _ T3 _]. destruct (fits_file _ _ _ _ Hf Hr) as [Hlen _].
  destruct (root_sized s F c O Hr Hlen) as [SO1 HF1]. pose proof (lookup_lt_Some _ _ _ Hr) as Hr1.
  change (Z.to_nat ROOTINO) with 1%nat in *. change (Z.of_nat 1) with ROOTINO in *.
  assert (Hin : 0 <= ROOTINO < NINODES) by (unfold ROOTINO, NINODES; lia).
  unfold main_finish. apply wp_bind, wp_rinode; [apply SO|done|]. rewrite T3. cbv zeta.
  rewrite (xint_small (len c)), xint_small by (unfold SMALL, NDIRECT, NINDIRECT, BSIZE in *; lia).
  set (x2 := set_dsize _ _) in *. apply wp_bind, wp_winode; [apply SO|done|]. set (s1 := put_inode ROOTINO x2 s) in *.
  apply wp_bind, wp_gets, wp_balloc.
  { change (freeblock s1) with (freeblock s). unfold image_fits in Hf. pose proof (so_free _ _ SO). pose proof nmeta_pos. lia. }
  intros d Hd1 Hd2 Hd3. change (freeblock s1) with (freeblock s) in Hd3. set (s2 := put_blk 91 d s1).
  assert (Hm : 0 <= 91 < nmeta) by (change nmeta with 94; lia).
  assert (Hdin : forall i, 0 <= i < NINODES -> din s2 i = din s1 i).
  { intros i Hi. unfold din, s2. pose proof (IBLOCK_range i Hi). by rewrite blk_put, decide_False by lia. }
  assert (Em : inodes s2 (length F) = inodes s1 (length F)).
  { unfold inodes. apply map_ext_in. intros i Hi. apply in_seq in Hi. apply Hdin. lia. }
  assert (Hblk : forall b, b < 62 \/ 91 < b -> blk s2 b = blk s b).
  { intros b Hb. unfold s2, s1. rewrite blk_put, decide_False by lia. by rewrite put_inode_blk by (done || lia). }
  split.
  - rewrite Em. by apply meta_slots_ok.
  - lia.
  - exact Ofree.
  - change (freeblock s2) with (freeblock s). unfold image_fits in Hf. lia.
  - intros i ty c' Hi. pose proof (lookup_lt_Some _ _ _ Hi). destruct (HF1 _ _ _ Hi) as [U1 U2 U3 U4].
    split; rewrite Hdin by lia; [done..|]. eapply meta_holds; [exact SO1| |done|done]. by apply lookup_inodes.
  - by rewrite Hblk by lia.
  - intros b Hb. rewrite Hblk by lia. by apply Olog.
  - intros b Hb. unfold s2. rewrite blk_put, decide_True by done. by apply Hd3.
  - intros b Hb. rewrite Hblk by lia. apply Obm. lia.
Qed.

Lemma tree_args_ext args : forall T T',
  tree_args T args = Some T' -> text T T'
  /\ (tree_wf T -> Forall host_ok args -> 1 <= len T -> len T' < 2 ^ 16 -> tree_wf T').
Proof.
  induction args as [|arg args IH]; intros T T' H; cbn in H.
  { injection H as <-. split; [apply text_refl|done]. }
  destruct (tree_arg T arg) as [T1|] eqn:E; [|done]. cbn in H.
  destruct (tree_arg_ext _ _ _ E) as [A1 A2]. destruct (IH _ _ H) as [B1 B2].
  split; [by eapply text_trans|]. intros W Ha Hl Hl'. apply Forall_cons in Ha as [Ha1 Ha].
  pose proof (text_length _ _ B1). pose proof (text_length _ _ A1).
  apply B2; [apply A2; (done || lia)|done|lia|done].
Qed.

Lemma args_spec args : forall s T T',
  image_ok s (files_of T) -> tree_wf T -> Forall host_ok args -> tree_args T args = Some T' ->
  image_fits (files_of T') = true ->
  wp (forM args (add_arg ROOTINO)) (fun _ s' => image_ok s' (files_of T')) s.
Proof.
  induction args as [|arg args IH]; intros s T T' O W Ha H Hf; cbn [forM]; cbn in H.
  { injection H as <-. by apply wp_ret. }
  destruct (tree_arg T arg) as [T1|] eqn:E; [|done]. cbn in H. apply Forall_cons in Ha as [Ha1 Ha].
  destruct (tree_args_ext _ _ _ H) as [B1 _]. pose proof (image_fits_fext _ _ (text_fext _ _ B1) Hf) as Hf1.
  apply wp_bind. eapply wp_mono; [by eapply add_arg_spec|]. intros [] s1 O1.
  eapply IH; [done| |done|done|done]. destruct (tree_arg_ext _ _ _ E) as [_ A2].
  pose proof (io_cap _ _ O) as Hc. destruct (fits_room _ Hf1) as [Hc1 _]. unfold files_of in Hc, Hc1.
  rewrite length_map in Hc, Hc1. apply A2; [done|done|lia|unfold NINODES in Hc1; lia].
Qed.

Lemma tree0_wf : tree_wf tree0.
Proof.
  destruct dot_ok as [D1 D2]. repeat constructor; cbn; try lia; done.
Qed.

Lemma main_spec args T :
  Forall host_ok args -> tree_of args = Some T -> image_fits (files_of T) = true ->
  wp (main args) (fun _ s => image_done s (files_of T)) mkst0.
Proof.
  intros Ha Ht Hf. unfold main. apply wp_bind. eapply wp_mono; [apply main_init_spec|]. intros r s [-> O].
  change 1 with ROOTINO. apply wp_bind. eapply wp_mono.
  { eapply args_spec; [|exact tree0_wf|exact Ha|exact Ht|exact Hf].
    replace (files_of tree0) with [(0, []); (T_DIR, root_bytes)]; [done|]. reflexivity. }
  intros [] s1 O1. destruct (tree_args_ext _ _ _ Ht) as [Hx _].
  destruct (Hx 1%nat (NDir [(1, dot); (1, dotdot)]) eq_refl) as (nd & Hnd & l' & ->).
  eapply main_finish_spec; [done|done|]. unfold files_of. rewrite list_lookup_fmap.
  change (Z.to_nat ROOTINO) with 1%nat. by rewrite Hnd.
Qed.

(** ** Properties *)

(** C10: When the files of the command line fit, mkfs builds the image of their
    tree: every inode has the type of its node and maps distinct blocks that
    hold exactly the bytes of the file or the entries of the directory, in the
    order of the command line; the superblock and the empty log are in place;
    and the bitmap marks exactly the blocks in use, which are as few as these
    contents need. *)
Theorem mkfs_builds_tree args T :
  Forall host_ok args -> tree_of args = Some T -> image_fits (files_of T) = true ->
  exists m, main args mkst0 = Ok tt m /\ image_done m (files_of T).
Proof.
  intros Ha Ht Hf. destruct (wp_run _ _ _ (main_spec args T Ha Ht Hf)) as ([] & m & E & D).
  exists m. split; [exact E|exact D].
Qed.

(** [mkfs fs.img userspace/bin/_cat README] *)
Definition demo_args : list (list Z * hostfile) :=
  [(userspace ++ [98; 105; 110; 47; 95; 99; 97; 116], HReg [[127; 69]; [76; 70]]);
   ([82; 69; 65; 68; 77; 69], HReg [[104; 105]])].

Lemma mkfs_builds_tree_witness : exists m,
  main demo_args mkst0 = Ok tt m /\ freeblock m = 98 /\ d_type (din m 4) = T_FILE /\ d_size (din m 4) = 2.
Proof.
  destruct (tree_of demo_args) as [T|] eqn:E; [|vm_compute in E; discriminate E].
  assert (HT : Some T = tree_of demo_args) by (symmetry; exact E). vm_compute in HT. injection HT as HT.
  assert (Ha : Forall host_ok demo_args) by (repeat constructor; try lia; done).
  assert (Hf : image_fits (files_of T) = true) by (rewrite HT; vm_compute; reflexivity).
  destruct (mkfs_builds_tree demo_args T Ha E Hf) as (m & Em & D). exists m.
  split; [exact Em|]. clear Em. rewrite HT in D. split; [exact (dn_free _ _ D)|].
  destruct (dn_file _ _ D 4%nat T_FILE [104; 105] eq_refl) as [F1 _ F3 _]. split; [exact F1|exact F3].
Defined.
