(* ===== verification/Mkboot.v ===== *)
(** * Mkboot: the kernel on an image built by mkfs

    The composition of src/tools/mkfs.c with the kernel: the first process,
    in [forkret] (src/kernel/proc.c), initialises the file system from the image
    and recovers its (empty) log; path lookup ([namei]), [ilock] and [readi] of
    src/kernel/fs.c then find every file under its path, with the contents it
    had on the build host. *)

From Stdlib Require Import ZArith Lia ZifyBool.
From stdpp Require Import base gmap strings numbers list.
From S2P Require Import Prelude CString Bio Log Fs Balloc Content Inode Dir Mkfs Mkimage Mktree.

Local Open Scope Z_scope.
#[local] Ltac Zify.zify_post_hook ::= Z.to_euclidean_division_equations.

(** ** The disk *)

Definition disk_of (m : mkst) : gmap (Z * Z) (list Z) := kmap (pair 1) (img m).

Lemma disk_of_at m b : disk_at (disk_of m) ROOTDEV b = blk m b.
Proof. unfold disk_at, disk_of, blk. change (Z.land ROOTDEV 1) with 1. by rewrite lookup_kmap by apply _. Qed.

Lemma disk_of_blocks m k d :
  sectors_ok m -> disk_of m !! k = Some d -> length d = Z.to_nat BSIZE /\ is_bytes d.
Proof.
  intros S Hk. unfold disk_of in Hk. apply lookup_kmap_Some in Hk as (b & -> & Hb); [|apply _].
  specialize (S b). rewrite Hb in S. tauto.
Qed.

Lemma decode_super : decode_sb super_block = mk_sb 10000 9906 200 60 2 62 91 0 0.
Proof. vm_compute. reflexivity. Qed.

Lemma image_log_disk m F : image_done m F -> log_disk (disk_of m) 2 LOGSIZE.
Proof.
  intros D. assert (Hz : head_n (disk_of m) 2 = 0).
  { unfold head_n. rewrite disk_of_at, (dn_log _ _ D) by lia. vm_compute. reflexivity. }
  split.
  - intros k d Hk. by eapply disk_of_blocks; [apply (dn_slots _ _ D)|].
  - by rewrite disk_of_at, (dn_super _ _ D), decode_super.
  - by rewrite disk_of_at, (dn_super _ _ D), decode_super.
  - unfold LOGSIZE, MAXOPBLOCKS, FSSIZE. lia.
  - split; rewrite Hz; [unfold LOGSIZE, MAXOPBLOCKS; lia|]. intros t Ht. lia.
Qed.

(** ** Booting *)

(** The file system before the first process runs: the tables are cleared. *)
Definition fs_bss (d : gmap (Z * Z) (list Z)) (pid now : Z) : fstate :=
  mk_fs (boot d pid) (mk_sb 0 0 0 0 0 0 0 0 0) (replicate (Z.to_nat NINODE) inode0) 0 now NULL.

(** What [forkret] does in the first process. *)
Definition fs_start : M fstate unit := iinit ROOTDEV ;; logM (initlog ROOTDEV).

(** The kernel sees the blocks of the image. *)
Record on_image (s : fstate) (m : mkst) : Prop := {
  oi_ok : fs_ok s [];
  oi_sb : sb_size (fsb s) = 10000 /\ sb_ninodes (fsb s) = 200 /\ sb_inodestart (fsb s) = 62
          /\ sb_bmapstart (fsb s) = 91;
  oi_blk : forall b, 62 <= b < FSSIZE -> blkv s b = blk m b;
  oi_n : lh_n (flog s) = 0;
  oi_len : length (icache s) = Z.to_nat NINODE
}.

Lemma contents_image m F b : image_done m F -> contents (disk_of m) 2 b = blk m b.
Proof.
  intros D. rewrite contents_empty; [apply disk_of_at|]. unfold head_n.
  rewrite disk_of_at, (dn_log _ _ D) by lia. vm_compute. reflexivity.
Qed.

Lemma image_bit m F b :
  image_done m F -> 0 <= b < FSSIZE -> bit_at (blk m (b / BPB + 91)) (b mod BPB) = (b <? freeblock m).
Proof.
  intros D Hb. pose proof (dn_bits _ _ D) as Hbits. unfold BPB, FSSIZE in *.
  destruct (decide (b < 4096)) as [Hs|Hs].
  - rewrite (Z.div_small b), Z.mod_small by lia. apply Hbits. lia.
  - rewrite (dn_bmap _ _ D) by (change nmeta with 94; lia). unfold bit_at. rewrite nthZ_zero.
    symmetry. apply Z.ltb_ge. pose proof (dn_small _ _ D) as Hs'.
    unfold BSIZE in Hs'. lia.
Qed.

Lemma recovered_bytes m F bl b :
  image_done m F -> is_bytes (disk_at (apply_writes (recover_writes (disk_of m) 2 bl) (disk_of m)) ROOTDEV b).
Proof.
  intros D. apply disk_at_bytes. intros k x. unfold recover_writes, replay.
  assert (Hz : head_n (disk_of m) 2 = 0).
  { unfold head_n. rewrite disk_of_at, (dn_log _ _ D) by lia. vm_compute. reflexivity. }
  rewrite Hz, seqZ_nil by lia. cbn [map app]. unfold apply_writes. cbn [fold_left fst snd]. rewrite lookup_insert. case_decide.
  - intros [= <-]. rewrite disk_of_at, (dn_log _ _ D) by lia.
    apply is_bytes_forallb. vm_compute. reflexivity.
  - intros Hk. by eapply disk_of_blocks; [apply (dn_slots _ _ D)|].
Qed.

(** No inode is locked, only entry [ip] of the cache is in use, and no entry
    has been that of a symbolic link. *)
Definition idle (s : fstate) (ip : Z) : Prop := forall j, 0 <= j < NINODE ->
  locked (ilk (geti s j)) = false /\ itype (geti s j) <> T_SYMLINK /\ (j <> ip -> iref (geti s j) = 0).

Lemma on_image_boot m F l sb0 ic ct ck wd :
  image_done m F -> log_ok l [] -> lh_n l = 0 -> log_start l = 2 -> log_size l = LOGSIZE ->
  (forall b, data_block 2 LOGSIZE b -> view (bio l) b = contents (disk_of m) 2 b) ->
  (forall b, is_bytes (view (bio l) b)) ->
  sb_size sb0 = 10000 -> sb_ninodes sb0 = 200 -> sb_inodestart sb0 = 62 -> sb_bmapstart sb0 = 91 ->
  length ic = Z.to_nat NINODE -> on_image (mk_fs l sb0 ic ct ck wd) m.
Proof.
  intros D L Hn H1 H2 V Hb S1 S2 S3 S4 Hl. set (s := mk_fs _ _ _ _ _ _).
  assert (Hv : forall b, 62 <= b < FSSIZE -> blkv s b = blk m b).
  { intros b Hbr. change (blkv s b) with (view (bio l) b).
    rewrite V by (unfold data_block, LOGSIZE, MAXOPBLOCKS; lia). by eapply contents_image. }
  assert (Hds : data_start s = 94) by (unfold data_start, s; cbn [fsb]; rewrite S1, S4; reflexivity).
  split; [|done|done|done|done]. split.
  - done.
  - split; rewrite ?Hds; cbn [fsb flog s]; rewrite ?S1, ?S2, ?S3, ?S4, ?H1, ?H2; vm_compute; repeat split; discriminate.
  - intros b. apply Hb.
  - rewrite Hds. intros b Hbr. unfold used, bblock. cbn [fsb s]. rewrite S4.
    rewrite u32_small by (unfold BPB; lia). rewrite Hv by (unfold BPB, FSSIZE; lia).
    rewrite (image_bit m F) by (done || (unfold FSSIZE; lia)).
    pose proof (so_free _ _ (dn_slots _ _ D)) as Hf. change nmeta with 94 in Hf. lia.
Qed.

Lemma fs_start_spec m F pid now :
  image_done m F ->
  wp fs_start (fun _ s => on_image s m /\ idle s NULL) (fs_bss (disk_of m) pid now).
Proof.
  intros D. pose proof (image_log_disk m F D) as LD.
  pose proof (boot_cache (disk_of m) pid (ld_len _ _ _ LD)) as HB.
  unfold fs_bss, boot. revert HB. generalize (binit (bss (disk_of m) pid)). intros s0 [C Hd].
  unfold fs_start. apply wp_bind. unfold iinit. apply wp_bind, wp_modS, wp_bind, wp_modS, wp_bind.
  unfold bioF, logM, bioM. apply wp_lift, wp_lift. cbn [flog set_icache set_curtime bio].
  eapply wp_mono; [apply readsb_spec, C|]. intros b s1 (-> & C1 & D1). apply wp_modS.
  apply wp_lift. cbn [flog set_fsb set_flog set_bio].
  assert (Hd1 : disk s1 = disk_of m) by (destruct D1 as (-> & _); done).
  eapply wp_mono; [exact (initlog_from s1 (disk_of m) 2 LOGSIZE C1 Hd1 LD)|].
  intros [] l (L & Hn & H1 & H2 & H3 & (bl & W) & V).
  rewrite Hd, disk_of_at, (dn_super _ _ D), decode_super. split.
  - eapply (on_image_boot m F); try done.
    intros b. rewrite (ca_clean _ _ _ (lo_cache _ _ L)) by (unfold logged; rewrite Hn; set_solver).
    destruct W as (_ & -> & _). rewrite Hd1. by eapply recovered_bytes.
  - intros j Hj. set (s := set_flog _ _).
    assert (Hg : geti s j = inode0).
    { unfold geti, nthZ. rewrite (proj2 (Z.ltb_ge _ _)) by lia. apply nth_lookup_Some.
      cbn [icache s set_flog set_fsb set_curtime set_icache fs_bss]. rewrite list_lookup_fmap, lookup_replicate_2 by lia. done. }
    rewrite Hg. done.
Qed.

(** ** Inodes in the cache *)

(** Entry [x] has been loaded with inode [i] of the image. *)
Record cached (m : mkst) (i : Z) (x : inode) : Prop := {
  cd_dev : idev x = ROOTDEV;
  cd_inum : inum x = i;
  cd_valid : ivalid x = true;
  cd_type : itype x = d_type (din m i);
  cd_nlink : inlink x = d_nlink (din m i);
  cd_size : isize x = d_size (din m i);
  cd_addrs : iaddrs x = take 11 (d_addrs (din m i))
}.

Lemma s16_small z : 0 <= z < 2 ^ 15 -> s16 z = z.
Proof. unfold s16. lia. Qed.

Lemma load_cached m i x o d y :
  d = blk m (IBLOCK i) -> o = ioff i -> idev x = ROOTDEV -> inum x = i ->
  0 <= d_type (din m i) < 2 ^ 15 -> 0 <= d_nlink (din m i) < 2 ^ 15 ->
  y = with_valid true (get_dinode d o x) -> cached m i y.
Proof.
  intros -> -> Hd Hi Ht Hn ->. unfold din in *. cbn [d_type d_nlink dinode_at] in *.
  split; cbn -[seqZ Nat.mul]; [done|done|done|by apply s16_small|by apply s16_small|done|].
  reflexivity.
Qed.

Section image.
Context (m : mkst) (F : list (Z * list Z)).
Hypothesis (D : image_done m F) (Hfit : image_fits F = true)
  (Hroot : exists c, F !! 1%nat = Some (T_DIR, c) /\ len c mod BSIZE <> 0).

(** Inode [i] is that of a file with contents [c]. *)
Definition inode_of (i : Z) (ty : Z) (c : list Z) : Prop := 0 < i /\ F !! Z.to_nat i = Some (ty, c).

Lemma inode_of_range i ty c : inode_of i ty c -> 0 <= i < 200 /\ inodes m (length F) !! Z.to_nat i = Some (din m i).
Proof.
  intros [Hi HF]. pose proof (lookup_lt_Some _ _ _ HF). pose proof (dn_cap _ _ D). unfold NINODES in *.
  split; [lia|]. apply lookup_inodes. split; [done|]. f_equal. lia.
Qed.

Lemma file_done_of i ty c : inode_of i ty c -> file_done m (Z.to_nat i) ty c /\ Z.of_nat (Z.to_nat i) = i.
Proof. intros [Hi HF]. split; [by apply D|lia]. Qed.

Section cached.
Context (s : fstate) (x : inode) (i ty : Z) (c : list Z).
Hypothesis (OI : on_image s m) (Hi : inode_of i ty c) (Hc : cached m i x).

Lemma cached_slot t : 0 <= t < NSLOT -> slotv s x t = dslot m (din m i) t.
Proof.
  intros Ht. destruct (inode_of_range i ty c Hi) as [Hr Hd]. pose proof (dn_slots _ _ D) as SO.
  assert (Hn : forall k, 0 <= k <= NDIRECT -> nthZ 0 (iaddrs x) k = nthZ 0 (d_addrs (din m i)) k).
  { intros k Hk. rewrite (cd_addrs _ _ _ Hc). unfold nthZ. rewrite (proj2 (Z.ltb_ge k 0)) by lia.
    rewrite !nth_lookup, lookup_take_lt by (unfold NDIRECT in Hk; lia). done. }
  unfold slotv, dslot, slot_at. destruct (Z.leb_spec t NDIRECT); [apply Hn; lia|].
  rewrite Hn by (unfold NDIRECT; lia). destruct (Z.eqb_spec (nthZ 0 (d_addrs (din m i)) NDIRECT) 0) as [|Hnz]; [done|].
  rewrite (oi_blk _ _ OI); [done|]. rewrite <-(dslot_addr m) in * by lia.
  pose proof (so_range _ _ SO _ _ NDIRECT Hd NSLOT_NDIRECT Hnz). pose proof (so_free _ _ SO).
  change nmeta with 94 in *. lia.
Qed.

Lemma image_used b : nmeta <= b < freeblock m -> used s b = true.
Proof.
  intros Hb. pose proof (so_free _ _ (dn_slots _ _ D)) as Hf. change nmeta with 94 in *.
  destruct (oi_sb _ _ OI) as (_ & _ & _ & S4). unfold used, bblock. rewrite S4.
  rewrite u32_small by (unfold BPB, FSSIZE in *; lia).
  rewrite (oi_blk _ _ OI) by (unfold BPB, FSSIZE in *; lia). rewrite (image_bit m F) by (done || lia). lia.
Qed.

Lemma cached_file_ok : file_ok s x.
Proof.
  destruct (inode_of_range i ty c Hi) as [Hr Hd]. pose proof (dn_slots _ _ D) as SO.
  destruct (oi_sb _ _ OI) as (S1 & _ & _ & S4).
  assert (Hds : data_start s = 94) by (unfold data_start; rewrite S1, S4; reflexivity). split.
  - apply Hc.
  - rewrite (cd_addrs _ _ _ Hc), length_take, (dw_len _ (so_wf _ _ SO _ _ Hd)). done.
  - intros t Ht. rewrite cached_slot by done. intros Hnz. pose proof (so_range _ _ SO _ _ t Hd Ht Hnz) as Hrg.
    pose proof (so_free _ _ SO). rewrite Hds, S1. change nmeta with 94 in *. unfold FSSIZE in *.
    split; [lia|]. apply image_used. change nmeta with 94. lia.
  - intros t u Ht Hu. rewrite !cached_slot by done. intros Hnz E. by destruct (so_inj _ _ SO _ _ _ _ t u Hd Hd Ht Hu Hnz E).
Qed.

Lemma cached_full : 0 <= isize x <= SMALL * BSIZE /\ full s x (isize x).
Proof.
  destruct (file_done_of i ty c Hi) as [[_ _ Fs [Fn _]] Ei]. rewrite Ei in *. destruct Hi as [Hi0 HF].
  destruct (fits_file _ _ _ _ Hfit HF) as [Hlen Hdir].
  rewrite (cd_size _ _ _ Hc), Fs. unfold done_size, ROOTINO. change (Z.to_nat 1) with 1%nat.
  assert (Hfull : forall e, (forall bn, 0 <= bn -> bn * BSIZE < e -> bn < SMALL /\ bn * BSIZE < len c) -> full s x e).
  { intros e He bn Hb1 Hb2. destruct (He bn Hb1 Hb2) as [Hb3 Hb4]. destruct (slot_of_range bn) as [Hr _]; [lia|].
    rewrite cached_slot by done. apply Fn; [done|]. unfold needed, slot_of.
    destruct (Z.ltb_spec bn NDIRECT); [by rewrite (proj2 (Z.ltb_lt _ _)) by lia|].
    rewrite (proj2 (Z.ltb_ge _ _)), (proj2 (Z.eqb_neq _ _)) by lia. by replace (bn + 1 - 1) with bn by lia. }
  case_decide as E.
  - assert (i = 1) as -> by lia. destruct Hroot as (c1 & HF1 & Hm). change (Z.to_nat 1) with 1%nat in HF.
    rewrite HF1 in HF. injection HF as <- <-. specialize (Hdir eq_refl).
    unfold SMALL, NDIRECT, NINDIRECT, BSIZE in *. split; [lia|]. apply Hfull. intros bn H1 H2. lia.
  - unfold SMALL, NDIRECT, NINDIRECT, BSIZE in *. split; [lia|]. apply Hfull. intros bn H1 H2. lia.
Qed.

Lemma cached_byte k : 0 <= k < SMALL * BSIZE -> fbyte s x k = nthZ 0 c k.
Proof.
  intros Hk. destruct (file_done_of i ty c Hi) as [[_ _ _ [Fn Fb]] Ei]. rewrite Ei in *.
  assert (Hbn : 0 <= k / BSIZE < SMALL) by (unfold BSIZE in *; lia). destruct (slot_of_range _ Hbn) as [Hr _].
  unfold fbyte, fblock. rewrite cached_slot by done. cbv zeta.
  destruct (Z.eqb_spec (dslot m (din m i) (slot_of (k / BSIZE))) 0) as [Hz|Hnz].
  - rewrite nthZ_zero. symmetry. apply nthZ_beyond. eapply not_needed_beyond; [lia|done|].
    intros Hn. apply Fn in Hn; [|done]. done.
  - rewrite (oi_blk _ _ OI); [by apply Fb|]. destruct (inode_of_range i ty c Hi) as [_ Hd].
    pose proof (so_range _ _ (dn_slots _ _ D) _ _ _ Hd Hr Hnz). pose proof (so_free _ _ (dn_slots _ _ D)).
    change nmeta with 94 in *. lia.
Qed.
End cached.

(** ** Entries in use *)

Lemma on_image_seti s ip x : on_image s m -> on_image (seti ip x s) m.
Proof.
  intros [O S B N L]. split; [by apply fs_ok_seti|done|done|done|]. cbn. by rewrite length_updZ.
Qed.

Lemma on_image_keep s s' :
  on_image s m -> fs_ok s' [] -> (forall c, blkv s' c = blkv s c) ->
  sb_size (fsb s') = sb_size (fsb s) /\ sb_ninodes (fsb s') = sb_ninodes (fsb s)
    /\ sb_inodestart (fsb s') = sb_inodestart (fsb s) /\ sb_bmapstart (fsb s') = sb_bmapstart (fsb s) ->
  length (icache s') = length (icache s) -> lh_n (flog s') <= lh_n (flog s) -> on_image s' m.
Proof.
  intros [O S B N L] O' Hb (S1 & S2 & S3 & S4) Hl Hn. split; [done| | | |congruence].
  - by rewrite S1, S2, S3, S4.
  - intros b Hbr. by rewrite Hb, B.
  - pose proof (lo_n _ _ (fo_log _ _ O')). lia.
Qed.

(** What holds of the entries other than [ip]. *)
Definition rest_idle (s : fstate) (ip : Z) : Prop := forall j, 0 <= j < NINODE -> j <> ip ->
  locked (ilk (geti s j)) = false /\ itype (geti s j) <> T_SYMLINK /\ iref (geti s j) = 0.

(** Entry [ip] is the only one in use, for inode [i], and is not locked. *)
Record at_inode (s : fstate) (ip i : Z) : Prop := {
  ai_img : on_image s m;
  ai_ip : 0 <= ip < NINODE;
  ai_rest : rest_idle s ip;
  ai_ref : iref (geti s ip) = 1;
  ai_lock : locked (ilk (geti s ip)) = false;
  ai_type : itype (geti s ip) <> T_SYMLINK;
  ai_id : idev (geti s ip) = ROOTDEV /\ inum (geti s ip) = i;
  ai_valid : ivalid (geti s ip) = true -> cached m i (geti s ip)
}.
(** The same, locked by the process and loaded. *)
Record held_at (s : fstate) (ip i : Z) : Prop := {
  ha_img : on_image s m;
  ha_ip : 0 <= ip < NINODE;
  ha_rest : rest_idle s ip;
  ha_ref : iref (geti s ip) = 1;
  ha_lock : ilk (geti s ip) = mk_lock true (pid_of s);
  ha_cached : cached m i (geti s ip)
}.

Lemma rest_idle_ext s s' ip :
  rest_idle s ip -> (forall j, j <> ip -> geti s' j = geti s j) -> rest_idle s' ip.
Proof. intros H E j Hj Hne. rewrite E by done. by apply H. Qed.

Lemma image_type i ty c : inode_of i ty c -> 0 < ty -> d_type (din m i) = ty /\ d_nlink (din m i) = 1.
Proof.
  intros Hi Hty. destruct (file_done_of i ty c Hi) as [[F1 F2 _ _] Ei]. rewrite Ei in *.
  rewrite (proj2 (Z.eqb_neq ty 0)) in F2 by lia. done.
Qed.

Lemma ilock_at s ip i ty c :
  at_inode s ip i -> inode_of i ty c -> 0 < ty < 2 ^ 15 -> wp (ilock ip) (fun _ s' => held_at s' ip i) s.
Proof.
  intros [A1 A2 A3 A4 A5 A5' [A6 A7] A8] Hi Hty. destruct (inode_of_range i ty c Hi) as [Hr Hd].
  destruct (image_type i ty c Hi ltac:(lia)) as [T1 T2]. pose proof (oi_len _ _ A1) as Hl.
  assert (Hip : 0 <= ip < Z.of_nat (length (icache s))) by (rewrite Hl; unfold NINODE in *; lia).
  destruct (oi_sb _ _ A1) as (S1 & S2 & S3 & S4).
  destruct (ivalid (geti s ip)) eqn:Ev.
  - unfold ilock. apply wp_bind. unfold getS, wp at 1.
    rewrite (proj2 (Z.eqb_neq ip NULL)) by (unfold NULL; lia). rewrite A4. cbn [orb Z.ltb Z.compare].
    apply wp_bind. unfold acquirei, acquiresleep, wp at 1. rewrite A5. set (s1 := seti ip _ s).
    assert (Hg : geti s1 ip = with_ilk (mk_lock true (pid_of s)) (geti s ip)) by (by apply geti_seti_eq).
    apply wp_bind, wp_gets. rewrite Hg. cbn [ivalid with_ilk]. rewrite Ev. apply wp_ret.
    split; rewrite ?Hg; [by apply on_image_seti|done| |done|done|].
    + eapply rest_idle_ext; [done|]. intros j Hj. by apply geti_seti_ne.
    + destruct (A8 eq_refl). by split.
  - assert (Eb : blkv s (iblock s (inum (geti s ip))) = blk m (IBLOCK i)).
    { rewrite A7. unfold iblock. rewrite S3. rewrite u32_small by (unfold IPB; lia).
      rewrite (oi_blk _ _ A1) by (unfold IPB, FSSIZE; lia). done. }
    assert (Hld : forall x, idev x = ROOTDEV -> inum x = i ->
              cached m i (with_valid true (get_dinode (blkv s (iblock s (inum (geti s ip)))) (ioff (inum (geti s ip))) x))).
    { intros x X1 X2. rewrite Eb, A7. apply (load_cached m i x (ioff i) (blk m (IBLOCK i))); done || lia. }
    eapply wp_mono.
    { apply ilock_load_spec; [apply A1|done|rewrite (oi_n _ _ A1); unfold NBUF, MAXOPBLOCKS; lia|lia|done|done|done|rewrite A7, S2; lia|].
      pose proof (cd_type _ _ _ (Hld (geti s ip) A6 A7)) as Ht. cbn [itype with_valid] in Ht. lia. }
    intros [] s' (O' & V' & G' & G2 & Sb & Hl' & Tx & Hn). split; rewrite ?G'.
    + eapply on_image_keep; [done|done|done|by rewrite Sb|done|done].
    + done.
    + by eapply rest_idle_ext.
    + done.
    + cbn. destruct Tx as (_ & _ & _ & _ & _ & Dk). unfold pid_of. f_equal. symmetry. apply Dk.
    + by apply Hld.
Qed.

(** ** Looking up a name *)

Definition cut (nm : list Z) : list Z := take (Z.to_nat DIRSIZ) nm.
Definition kfind (l : list (Z * list Z)) (nm : list Z) : option Z :=
  (fun ke => ke.2.1) <$> list_find (fun e => cut e.2 = nm) l.

Lemma dname_pad nm : name_ok nm -> dname (pad_name nm) = cut nm.
Proof.
  intros Hn. unfold dname, cut. transitivity (take (Z.to_nat DIRSIZ) (take (Z.to_nat DIRSIZ) nm)).
  2:{ by rewrite take_take. }
  apply cstr_list.
  - intros k Hk. unfold arr, nthZ, pad_name. rewrite (proj2 (Z.ltb_ge _ _)) by lia.
    rewrite Z.add_0_l, Nat2Z.id. by rewrite app_nth1.
  - apply Forall_take. eapply Forall_impl; [exact Hn|]. cbv beta. lia.
  - intros Hlt. unfold arr, nthZ, pad_name. rewrite (proj2 (Z.ltb_ge _ _)) by lia.
    rewrite Z.add_0_l, Nat2Z.id, app_nth2 by lia. rewrite Nat.sub_diag.
    rewrite length_take in Hlt. by replace (Z.to_nat DIRSIZ - length nm)%nat with (S (Z.to_nat DIRSIZ - length nm - 1)) by lia.
Qed.

Lemma dmatch_dirent s x k e nm :
  dent s x k = dirent e.1 e.2 -> ent_ok e -> dmatch s x nm k = bool_decide (cut e.2 = nm) /\ de_inum (dent s x k) = e.1.
Proof.
  intros E [H1 H2]. unfold dmatch, de_inum, de_name. rewrite E, dirent_inum, dirent_name, dname_pad by (done || lia).
  by rewrite (proj2 (Z.eqb_neq e.1 0)) by lia.
Qed.

Lemma kfind_dir s x i l nm j :
  on_image s m -> inode_of i T_DIR (ents_bytes l) -> Forall ent_ok l -> cached m i x ->
  kfind l nm = Some j -> exists k, dir_find s x nm = Some k /\ de_inum (dent s x k) = j.
Proof.
  intros OI Hi Hl Hc Hk. unfold kfind in Hk. destruct (list_find _ l) as [[k e]|] eqn:Ef; [|done]. injection Hk as <-.
  apply list_find_Some in Ef as (Hk & He & Hfirst). pose proof (lookup_lt_Some _ _ _ Hk) as Hlt.
  destruct (cached_full s x i T_DIR _ OI Hi Hc) as [Hsz _].
  assert (Hnd : len l <= ndents x).
  { destruct (file_done_of _ _ _ Hi) as [[_ _ Fs _] Ei]. rewrite Ei in Fs. unfold ndents.
    rewrite (cd_size _ _ _ Hc), Fs, length_ents_bytes. unfold done_size, DIRENT_SIZE, BSIZE. case_decide; lia. }
  assert (Hde : forall q e', l !! q = Some e' -> dent s x (Z.of_nat q) = dirent e'.1 e'.2).
  { intros q e' Hq. pose proof (lookup_lt_Some _ _ _ Hq). transitivity (ebytes (ents_bytes l) (Z.of_nat q)).
    - unfold dent, ebytes. apply map_ext_in. intros b Hb. apply list_elem_of_In, elem_of_seqZ in Hb.
      apply (cached_byte s x i T_DIR); [done..|]. unfold ndents, DIRENT_SIZE in *. lia.
    - rewrite ebytes_ents, Nat2Z.id, Hq by lia. done. }
  rewrite Forall_lookup in Hl. exists (Z.of_nat k).
  destruct (dmatch_dirent s x _ e nm (Hde _ _ Hk) (Hl _ _ Hk)) as [M1 M2]. split; [|done].
  apply find_Some_first; [lia|by rewrite M1; apply bool_decide_eq_true|].
  intros q Hq. destruct (lookup_lt_is_Some_2 l (Z.to_nat q)) as [e' He']; [lia|].
  rewrite <-(Z2Nat.id q) by lia. destruct (dmatch_dirent s x _ e' nm (Hde _ _ He') (Hl _ _ He')) as [-> _].
  apply bool_decide_eq_false. eapply Hfirst; [done|lia].
Qed.

Lemma cached_dir_ok s ip i l :
  held_at s ip i -> inode_of i T_DIR (ents_bytes l) -> dir_ok s ip.
Proof.
  intros [A1 A2 A3 A4 A5 A6] Hi. destruct (image_type _ _ _ Hi ltac:(unfold T_DIR; lia)) as [T1 _].
  destruct (cached_full _ _ _ _ _ A1 Hi A6) as [Hsz Hfull]. split.
  - apply A1.
  - by eapply cached_file_ok.
  - rewrite (oi_len _ _ A1). unfold NINODE in *. lia.
  - rewrite (cd_type _ _ _ A6). done.
  - destruct (file_done_of _ _ _ Hi) as [[_ _ Fs _] Ei]. rewrite Ei in Fs.
    rewrite (cd_size _ _ _ A6), Fs, length_ents_bytes. unfold done_size, DIRENT_SIZE, BSIZE. case_decide; lia.
  - done.
  - done.
Qed.

(** [iget] with one entry in use. *)
Lemma iget_at s ip i r j :
  length (icache s) = Z.to_nat NINODE -> 0 <= ip < NINODE -> rest_idle s ip ->
  iref (geti s ip) = r -> 1 <= r -> idev (geti s ip) = ROOTDEV -> inum (geti s ip) = i ->
  if decide (j = i) then iget ROOTDEV j s = Ok ip (seti ip (with_ref (r + 1) (geti s ip)) s)
  else exists jp, 0 <= jp < NINODE /\ jp <> ip
    /\ iget ROOTDEV j s = Ok jp (seti jp (mk_inode ROOTDEV j 1 (ilk (geti s jp)) false (itype (geti s jp))
         (imajor (geti s jp)) (iminor (geti s jp)) (inlink (geti s jp)) (isize (geti s jp))
         (iaddrs (geti s jp)) (iatime (geti s jp)) (imtime (geti s jp))) s).
Proof.
  intros Hl Hip Hrest Hr Hr1 Hd Hi. unfold iget. case_decide as Ej.
  - subst j. rewrite (find_Some_first _ _ ip).
    + by rewrite Hr.
    + done.
    + rewrite Hr, Hd, Hi, !Z.eqb_refl, (proj2 (Z.ltb_lt _ _)) by lia. done.
    + intros q Hq. destruct (Hrest q) as (_ & _ & Hz); [lia|lia|]. by rewrite Hz.
  - rewrite find_None_all.
    2:{ intros q Hq. destruct (decide (q = ip)) as [->|Hne].
        - rewrite Hi, (proj2 (Z.eqb_neq i j)) by congruence. apply andb_false_r.
        - destruct (Hrest q) as (_ & _ & Hz); [lia|done|]. by rewrite Hz. }
    set (q := if ip =? 0 then 1 else 0).
    assert (Hq : 0 <= q < NINODE /\ q <> ip) by (unfold q, NINODE in *; destruct (Z.eqb_spec ip 0); lia).
    destruct Hq as [Hq1 Hq2]. destruct (Hrest q Hq1 Hq2) as (_ & _ & Hz).
    destruct (List.find _ (seqZ 0 NINODE)) as [jp|] eqn:E.
    + apply find_seqZ in E as (Hjp & Hjz & _). exists jp. split_and!; [lia|lia| |done].
      intros ->. lia.
    + pose proof (find_seqZ_None _ _ _ E q ltac:(lia)) as Hc. cbv beta in Hc. lia.
Qed.

(** Releasing an entry of a file with links only drops the reference. *)
Lemma iput_at s ip :
  let x := geti s ip in
  0 <= ip < Z.of_nat (length (icache s)) -> locked (ilk x) = false -> inlink x <> 0 ->
  iput ip s = Ok tt (seti ip (with_ref (iref x - 1) (with_ilk (mk_lock false 0) x)) s).
Proof.
  intros x Hip Hlk Hn. unfold iput.
  assert (E1 : acquirei ip s = Ok tt (seti ip (with_ilk (mk_lock true (pid_of s)) x) s)).
  { unfold acquirei, acquiresleep. fold x. by rewrite Hlk. }
  rewrite (bind_Ok _ _ _ _ _ E1). erewrite bind_Ok; [|reflexivity]. rewrite geti_seti_eq by done.
  cbn [ivalid inlink iref with_ilk]. rewrite (proj2 (Z.eqb_neq (inlink x) 0)) by done.
  rewrite andb_false_r. cbn [andb]. erewrite bind_Ok; [|reflexivity]. erewrite bind_Ok; [|reflexivity].
  unfold updi, modS. rewrite !geti_seti_eq, !seti_seti by (cbn; rewrite ?length_updZ; done). done.
Qed.

Lemma iunlockput_at s ip :
  let x := geti s ip in
  0 <= ip < Z.of_nat (length (icache s)) -> ilk x = mk_lock true (pid_of s) -> 1 <= iref x -> inlink x <> 0 ->
  iunlockput ip s = Ok tt (seti ip (with_ref (iref x - 1) (with_ilk (mk_lock false 0) x)) s).
Proof.
  intros x Hip Hlk Hr Hn. set (s1 := seti ip (with_ilk (mk_lock false 0) x) s).
  assert (E1 : iunlock ip s = Ok tt s1).
  { unfold iunlock. erewrite bind_Ok; [|reflexivity]. fold x.
    rewrite (proj2 (Z.eqb_neq ip NULL)) by (unfold NULL; lia). unfold holdingsleep. rewrite Hlk. cbn [locked lpid].
    rewrite Z.eqb_refl, (proj2 (Z.ltb_ge (iref x) 1)) by lia. done. }
  unfold iunlockput. rewrite (bind_Ok _ _ _ _ _ E1).
  assert (Hg : geti s1 ip = with_ilk (mk_lock false 0) x) by (by apply geti_seti_eq).
  rewrite iput_at; rewrite ?Hg; [|cbn; by rewrite length_updZ|done|done].
  unfold s1. by rewrite seti_seti.
Qed.

Lemma cached_type i ty c x : inode_of i ty c -> 0 < ty -> cached m i x -> itype x = ty /\ inlink x = 1.
Proof.
  intros Hi Hty Hc. destruct (image_type i ty c Hi Hty) as [T1 T2].
  by rewrite (cd_type _ _ _ Hc), (cd_nlink _ _ _ Hc).
Qed.

Lemma held_peeked s s' ip i : held_at s ip i -> peeked s s' ip -> held_at s' ip i.
Proof.
  intros [A1 A2 A3 A4 A5 A6] P. pose proof (pk_dp _ _ _ P) as E.
  split; [apply (on_image_keep s); [done|apply P..]|done| |by rewrite E| |].
  - eapply rest_idle_ext; [done|]. apply P.
  - rewrite E. cbn. rewrite A5. destruct (pk_tx _ _ _ P) as (_ & _ & _ & _ & _ & Dk). unfold pid_of.
    f_equal. symmetry. apply Dk.
  - rewrite E. destruct A6. by split.
Qed.

(** Dropping a locked directory, with the entry for inode [j] found in it. *)
Lemma leave_dir s ip i l j jp s2 :
  held_at s ip i -> inode_of i T_DIR (ents_bytes l) -> iget ROOTDEV j s = Ok jp s2 ->
  exists s3, iunlockput ip s2 = Ok tt s3 /\ at_inode s3 jp j.
Proof.
  intros [A1 A2 A3 A4 A5 A6] Hi Eg. pose proof (oi_len _ _ A1) as Hl.
  destruct (cached_type _ _ _ _ Hi ltac:(unfold T_DIR; lia) A6) as [Ty Nl].
  assert (Hip : 0 <= ip < Z.of_nat (length (icache s))) by (rewrite Hl; unfold NINODE in *; lia).
  pose proof (iget_at s ip i 1 j Hl A2 A3 A4 ltac:(lia) (cd_dev _ _ _ A6) (cd_inum _ _ _ A6)) as IG.
  destruct (decide (j = i)) as [->|Hj].
  - rewrite IG in Eg. injection Eg as <- <-. set (x := with_ref (1 + 1) (geti s ip)).
    assert (Hg : geti (seti ip x s) ip = x) by (by apply geti_seti_eq).
    eexists. split; [apply iunlockput_at; rewrite ?Hg; [cbn; by rewrite length_updZ|done|cbn; lia|cbn; lia]|].
    rewrite Hg, seti_seti. set (y := with_ref _ _).
    assert (Hy : geti (seti ip y s) ip = y) by (by apply geti_seti_eq).
    split; rewrite ?Hy; try done.
    + by apply on_image_seti.
    + eapply rest_idle_ext; [done|]. intros q Hq. by apply geti_seti_ne.
    + cbn. rewrite Ty. done.
    + split; apply A6.
    + intros _. destruct A6. by split.
  - destruct IG as (q & Hq & Hqne & IG). rewrite IG in Eg. injection Eg as <- <-.
    destruct (A3 q Hq Hqne) as (Q1 & Q2 & Q3). set (y := mk_inode _ _ _ _ _ _ _ _ _ _ _ _ _). set (s2' := seti q y s).
    assert (Hl2 : length (icache s2') = length (icache s)) by (cbn; by rewrite length_updZ).
    assert (Hg : geti s2' ip = geti s ip) by (apply geti_seti_ne; congruence).
    eexists. split; [apply iunlockput_at; rewrite ?Hg; [by rewrite Hl2|done|lia|lia]|].
    rewrite Hg. set (z := with_ref _ _). set (s3 := seti ip z s2').
    assert (Hy : geti s3 q = y).
    { unfold s3. rewrite geti_seti_ne by done. unfold s2'. apply geti_seti_eq. rewrite Hl. unfold NINODE in *. lia. }
    assert (Hz : geti s3 ip = z) by (apply geti_seti_eq; by rewrite Hl2).
    split; rewrite ?Hy; try done.
    + by apply on_image_seti, on_image_seti.
    + intros p Hp Hpq. destruct (decide (p = ip)) as [->|Hne].
      * rewrite Hz. cbn. rewrite Ty, A4. done.
      * unfold s3, s2'. rewrite !geti_seti_ne by done. by apply A3.
Qed.

Lemma lookup_at {A} devsw s ip i l name j (k : option (Z * Z) -> M fstate A) Q :
  held_at s ip i -> inode_of i T_DIR (ents_bytes l) -> Forall ent_ok l -> is_bytes name ->
  kfind l (dname name) = Some j ->
  (forall jp off s2 s3, iunlockput ip s2 = Ok tt s3 -> at_inode s3 jp j -> wp (k (Some (jp, off))) Q s2) ->
  wp (Fs.dirlookup devsw ip name ≫= k) Q s.
Proof.
  intros Hh Hi Hl Hn Hk HQ. pose proof Hh as [A1 A2 A3 A4 A5 A6].
  assert (Hsp : spare s).
  { set (q := if ip =? 0 then 1 else 0). exists q.
    assert (Hq : 0 <= q < NINODE /\ q <> ip) by (unfold q, NINODE in *; destruct (Z.eqb_spec ip 0); lia).
    destruct Hq as [Hq1 Hq2]. by destruct (A3 q Hq1 Hq2) as (_ & _ & Hz). }
  apply wp_bind. eapply wp_mono.
  { apply dirlookup_spec; [by eapply cached_dir_ok|done|apply A1|done]. }
  intros r s2 Hr. destruct (kfind_dir s _ i l _ j A1 Hi Hl A6 Hk) as (q & Ef & Ei). rewrite Ef in Hr.
  destruct Hr as (s1 & jp & P & -> & Eg). rewrite Ei in Eg.
  destruct (leave_dir s1 ip i l j jp s2) as (s3 & E3 & A3'); [by eapply held_peeked|done|done|].
  by eapply HQ.
Qed.

(** Reading a whole file. *)
Lemma read_at devsw s ip i c :
  at_inode s ip i -> inode_of i T_FILE c ->
  wp (ilock ip ;; n ← gets (fun s => isize (geti s ip)); readi devsw ip 0 n)
    (fun r _ => r = (len c, c)) s.
Proof.
  intros A Hi. apply wp_bind. eapply wp_mono; [eapply ilock_at; [done|done|unfold T_FILE; lia]|].
  intros [] s1 [A1 A2 A3 A4 A5 A6]. apply wp_bind, wp_gets.
  destruct (cached_type _ _ _ _ Hi ltac:(unfold T_FILE; lia) A6) as [Ty _].
  destruct (cached_full _ _ _ _ _ A1 Hi A6) as [Hsz Hfull].
  assert (Es : isize (geti s1 ip) = len c).
  { destruct (file_done_of _ _ _ Hi) as [[_ _ Fs _] Ei]. rewrite Ei in Fs. rewrite (cd_size _ _ _ A6), Fs.
    unfold done_size. rewrite decide_False; [done|]. intros E1. destruct Hi as [_ HF]. rewrite E1 in HF.
    destruct Hroot as (c1 & HF1 & _). change (Z.to_nat ROOTINO) with 1%nat in HF. rewrite HF1 in HF. discriminate HF. }
  rewrite Es in *. eapply wp_mono.
  { apply readi_spec; rewrite ?Es; try done; try lia.
    - apply A1.
    - by eapply cached_file_ok.
    - rewrite (oi_len _ _ A1). unfold NINODE in *. lia.
    - by rewrite Ty.
    - unfold SMALL, NDIRECT, NINDIRECT, BSIZE in Hsz. lia. }
  intros r s2 (-> & _). cbv beta. rewrite Es, Z.min_l by lia. f_equal.
  transitivity (map (nthZ 0 c) (seqZ 0 (len c))); [|apply map_nthZ_all].
  apply map_ext_in. intros k Hk. apply list_elem_of_In, elem_of_seqZ in Hk.
  eapply cached_byte; [done|done|done|lia].
Qed.

(** [iget] with no entry in use. *)
Lemma iget_idle s i : on_image s m -> idle s NULL -> wp (iget ROOTDEV i) (fun ip s' => at_inode s' ip i) s.
Proof.
  intros OI Hid. unfold wp, iget.
  assert (Hz : forall j, 0 <= j < NINODE -> iref (geti s j) = 0).
  { intros j Hj. destruct (Hid j Hj) as (_ & _ & Hz). apply Hz. unfold NULL. lia. }
  rewrite find_None_all by (intros j Hj; by rewrite Hz).
  rewrite (find_Some_first _ _ 0) by (unfold NINODE; try lia; by rewrite Hz).
  set (y := mk_inode _ _ _ _ _ _ _ _ _ _ _ _ _). cbv zeta. set (s' := seti 0 y s).
  assert (Hy : geti s' 0 = y) by (apply geti_seti_eq; rewrite (oi_len _ _ OI); done).
  destruct (Hid 0) as (H1 & H2 & _); [done|]. split; rewrite ?Hy; try done; [by apply on_image_seti|].
  intros j Hj Hne. unfold s'. rewrite geti_seti_ne by done. destruct (Hid j Hj) as (Q1 & Q2 & _).
  by rewrite Hz.
Qed.
End image.

(** ** Paths *)

(** The inode a path of names leads to, from directory [i] of the tree. *)
Fixpoint walk (T : list node) (i : Z) (names : list (list Z)) : option Z :=
  match names with
  | [] => Some i
  | nm :: names =>
      match T !! Z.to_nat i with
      | Some (NDir l) => j ← kfind l (cut nm); walk T j names
      | _ => None
      end
  end.

Lemma skip_slashes_Forall (P : Z -> Prop) path : Forall P path -> Forall P (skip_slashes path).
Proof. induction 1 as [|c path Hc Hp IH]; [constructor|]. cbn. case_match; [done|]. by constructor. Qed.

Lemma skipelem_Forall (P : Z -> Prop) path name rest name' :
  skipelem path name = Some (rest, name') -> Forall P path ->
  Forall P rest /\ (P 0 -> Forall P name -> Forall P name').
Proof.
  unfold skipelem. intros H Hp. apply skip_slashes_Forall in Hp.
  destruct (skip_slashes path) as [|c p]; [done|]. destruct (split_elem (c :: p)) as [e r] eqn:E.
  apply split_elem_app in E as [E _]. rewrite E in Hp. apply Forall_app in Hp as [He Hr].
  injection H as <- <-. split; [by apply skip_slashes_Forall|]. intros H0 Hn.
  case_match; unfold splice; apply Forall_app; (split; [by apply Forall_take|]); apply Forall_app;
    (split; [|by apply Forall_drop]); [by apply Forall_take|]. apply Forall_app. split; [done|]. by constructor.
Qed.

Section tree.
Context (m : mkst) (T : list node).
Hypothesis (D : image_done m (files_of T)) (Hfit : image_fits (files_of T) = true) (W : tree_wf T)
  (Hroot : exists l, T !! 1%nat = Some (NDir l) /\ len (ents_bytes l) mod BSIZE <> 0).

Lemma root_files : exists c, files_of T !! 1%nat = Some (T_DIR, c) /\ len c mod BSIZE <> 0.
Proof.
  destruct Hroot as (l & Hl & Hm). exists (ents_bytes l). split; [|done].
  unfold files_of. by rewrite list_lookup_fmap, Hl.
Qed.

Lemma tree_inode i nd : 0 < i -> T !! Z.to_nat i = Some nd -> inode_of (files_of T) i (file_of nd).1 (file_of nd).2.
Proof.
  intros Hi Hn. split; [done|]. unfold files_of. rewrite list_lookup_fmap, Hn. cbn. by destruct (file_of nd).
Qed.

Lemma tree_ents i l : T !! i = Some (NDir l) -> Forall ent_ok l.
Proof. intros Hl. unfold tree_wf in W. rewrite Forall_lookup in W. exact (W _ _ Hl). Qed.

Lemma kfind_pos i l nm j : T !! i = Some (NDir l) -> kfind l nm = Some j -> 0 < j.
Proof.
  intros Hl Hk. unfold kfind in Hk. destruct (list_find _ l) as [[k e]|] eqn:Ef; [|done]. injection Hk as <-.
  apply list_find_Some in Ef as (Hk & _). pose proof (tree_ents _ _ Hl) as He. rewrite Forall_lookup in He.
  destruct (He _ _ Hk) as [H1 _]. lia.
Qed.

Definition path_ok (path : list Z) : Prop := Forall (fun c => 0 < c < 256) path.

Lemma namex_walk devsw s ip i path j :
  at_inode m s ip i -> 0 < i -> path_ok path -> walk T i (path_elems path) = Some j ->
  wp (loop (S (length path)) (fun '(ip, path, name) =>
    match skipelem path name with
    | None => if false then iput ip ;; mret (inr (NULL, name)) else mret (inr (ip, name))
    | Some (path, name) =>
        ilock ip ;;
        x ← gets (fun s => geti s ip);
        if negb (itype x =? T_DIR) then iunlockput ip ;; mret (inr (NULL, name))
        else if false && (arr path 0 =? 0) then iunlock ip ;; mret (inr (ip, name))
        else
          next ← Fs.dirlookup devsw ip name;
          match next with
          | None => iunlockput ip ;; mret (inr (NULL, name))
          | Some (next, _) => iunlockput ip ;; mret (inl (next, path, name))
          end
    end) (ip, path, name0)) (fun r s' => at_inode m s' r.1 j /\ 0 < j) s.
Proof.
  intros A Hi Hp Hw. apply wp_loop with
    (I := fun '(ip, path, name) s => exists i, at_inode m s ip i /\ 0 < i /\ path_ok path
            /\ walk T i (path_elems path) = Some j /\ is_bytes name /\ length name = Z.to_nat DIRSIZ)
    (mu := fun '(ip, path, name) => length path).
  { exists i. split_and!; try done. apply Forall_replicate. lia. }
  { lia. }
  clear s ip i path A Hi Hp Hw. intros [[ip path] name] s (i & A & Hi & Hp & Hw & Hb & Hl).
  assert (Hnz : Forall (fun c => c <> 0) path) by (eapply Forall_impl; [exact Hp|]; cbv beta; lia).
  pose proof (skipelem_ok path name Hnz Hl) as SE. destruct (path_elems path) as [|e es].
  { rewrite SE. apply wp_ret. injection Hw as ->. done. }
  destruct SE as (rest & name' & SE & Hes & Hdn & Hl' & _ & Hlt). rewrite SE. cbn [walk] in Hw.
  destruct (T !! Z.to_nat i) as [[|l|c]|] eqn:El; [done| |done..].
  destruct (kfind l (cut e)) as [j1|] eqn:Ek; [|done]. cbn in Hw.
  pose proof (tree_inode i _ Hi El) as Hin. cbn [file_of fst snd] in Hin.
  apply wp_bind. eapply wp_mono; [eapply (ilock_at m _ D); [done|done|unfold T_DIR; lia]|].
  intros [] s1 H1. apply wp_bind, wp_gets.
  destruct (cached_type m _ D _ _ _ _ Hin ltac:(unfold T_DIR; lia) (ha_cached _ _ _ _ H1)) as [Ty _].
  rewrite Ty. cbn [negb Z.eqb andb]. change (T_DIR =? T_DIR) with true. cbn [negb].
  destruct (skipelem_Forall (fun c => 0 < c < 256) _ _ _ _ SE Hp) as [Hrest _].
  destruct (skipelem_Forall (fun c => 0 <= c < 256) _ _ _ _ SE (name_ok_bytes _ Hp)) as [_ Hname].
  eapply (lookup_at m _ D Hfit root_files); [exact H1|exact Hin|by eapply tree_ents|apply Hname; [lia|done]|by rewrite Hdn|].
  intros jp off s2 s3 E3 A3. unfold wp. rewrite (bind_Ok _ _ _ _ _ E3). split; [|done].
  exists j1. split_and!; [done|by eapply kfind_pos|done|by rewrite Hes|apply Hname; [lia|done]|congruence].
Qed.

Lemma namei_walk devsw s path j :
  on_image s m -> idle s NULL -> path_ok (SLASH :: path) -> walk T ROOTINO (path_elems (SLASH :: path)) = Some j ->
  wp (namei devsw (SLASH :: path)) (fun ip s' => at_inode m s' ip j /\ 0 < j) s.
Proof.
  intros OI Hid Hp Hw. unfold namei, namex. apply wp_bind, wp_bind, wp_gets.
  change (arr (SLASH :: path) 0 =? SLASH) with true. cbv iota. apply wp_bind.
  eapply wp_mono; [exact (iget_idle m (files_of T) s ROOTINO OI Hid)|]. intros ip s1 A1.
  eapply wp_mono; [eapply namex_walk; [exact A1|done|exact Hp|exact Hw]|].
  intros [ip2 nm] s2 [A2 Hj]. cbn [fst snd] in *. pose proof (ai_ip _ _ _ _ A2) as Hip.
  rewrite (proj2 (Z.eqb_neq ip2 NULL)) by (unfold NULL; lia). cbn [loop].
  apply wp_bind, wp_bind, wp_gets. rewrite (proj2 (Z.eqb_neq _ _) (ai_type _ _ _ _ A2)). by apply wp_ret, wp_ret.
Qed.
End tree.

(** ** Names that both programs read alike

    mkfs compares names without trailing blanks and beyond [DIRSIZ] bytes, the
    kernel compares the first [DIRSIZ] bytes. *)

Definition plain (nm : list Z) : Prop := stored_name nm = nm.

Lemma plain_cut nm : plain nm -> cut nm = nm.
Proof.
  intros Hp. unfold cut. apply take_ge.
  destruct (strip_pad_suffix (reverse (take (Z.to_nat DIRSIZ) nm))) as [k Hk].
  apply (f_equal length) in Hk. rewrite length_app, length_reverse, length_take in Hk.
  unfold plain, stored_name in Hp. apply (f_equal length) in Hp. rewrite length_reverse in Hp. lia.
Qed.

Definition node_plain (nd : node) : Prop :=
  match nd with NDir l => Forall (fun e => plain e.2) l | _ => True end.
Definition tree_plain (T : list node) : Prop := Forall node_plain T.

Lemma kfind_plain l nm : Forall (fun e => plain e.2) l -> kfind l nm = ent_lookup l nm.
Proof.
  unfold kfind, ent_lookup. induction 1 as [|e l He Hl IH]; [done|]. cbn [list_find].
  pose proof (plain_cut _ He) as Hc. unfold plain in He.
  destruct (decide (cut e.2 = nm)), (decide (stored_name e.2 = nm)); [done|congruence|congruence|].
  revert IH. by destruct (list_find _ l), (list_find _ l).
Qed.

Lemma dot_plain : plain dot /\ plain dotdot.
Proof. done. Qed.

Lemma add_ent_plain T dir e T' : add_ent T dir e = Some T' -> tree_plain T -> plain e.2 -> tree_plain T'.
Proof.
  unfold add_ent. destruct (T !! Z.to_nat dir) as [[|l|c]|] eqn:E; [done| |done..]. intros [= <-] W He.
  apply Forall_insert; [done|]. unfold tree_plain in W. rewrite Forall_lookup in W. specialize (W _ _ E).
  apply Forall_app. split; [done|]. by constructor.
Qed.

Lemma add_dir_plain T dir name T' : add_dir T dir name = Some T' -> tree_plain T -> plain name -> tree_plain T'.
Proof.
  unfold add_dir. cbv zeta. destruct (add_ent T dir _) as [T1|] eqn:E; [|done]. cbn. intros [= <-] W Hn.
  apply Forall_app. split; [by eapply add_ent_plain|]. constructor; [|constructor].
  by repeat constructor.
Qed.

Lemma node_at_plain T i l : tree_plain T -> T !! i = Some (NDir l) -> Forall (fun e => plain e.2) l.
Proof. intros W Hl. unfold tree_plain in W. rewrite Forall_lookup in W. exact (W _ _ Hl). Qed.

(** ** Growing trees *)

Lemma kfind_app l l' nm j : kfind l nm = Some j -> kfind (l ++ l') nm = Some j.
Proof.
  unfold kfind. destruct (list_find _ l) as [[k e]|] eqn:E; [|done].
  intros [= <-]. by rewrite (list_find_app_l _ _ _ _ _ E).
Qed.

Lemma kfind_snoc l i nm : plain nm -> kfind l nm = None -> kfind (l ++ [(i, nm)]) nm = Some i.
Proof.
  intros Hp. unfold kfind. destruct (list_find _ l) as [[k e]|] eqn:E; [done|]. intros _.
  rewrite (list_find_app_r _ _ _ E). cbn. rewrite decide_True by (by apply plain_cut). done.
Qed.

Lemma walk_text T T' names : text T T' -> forall i j, walk T i names = Some j -> walk T' i names = Some j.
Proof.
  intros Hx. induction names as [|nm names IH]; intros i j; cbn [walk]; [done|].
  destruct (T !! Z.to_nat i) as [[|l|c]|] eqn:E; [done| |done..].
  destruct (Hx _ _ E) as (nd' & E' & l' & ->). rewrite E'.
  destruct (kfind l (cut nm)) as [k|] eqn:Ek; [|done]. cbn. rewrite (kfind_app _ l' _ _ Ek). cbn. apply IH.
Qed.

Lemma walk_app T names names' i j :
  walk T i names = Some j -> walk T i (names ++ names') = walk T j names'.
Proof.
  revert i. induction names as [|nm names IH]; intros i; cbn [walk app].
  { by intros [= ->]. }
  destruct (T !! Z.to_nat i) as [[|l|c]|]; [done| |done..].
  destruct (kfind l (cut nm)) as [k|]; [|done]. cbn. apply IH.
Qed.

Lemma tree_path_walk names : forall T dir T' dir',
  tree_path T dir names = Some (T', dir') -> tree_plain T -> Forall plain names ->
  tree_plain T' /\ walk T' dir names = Some dir'.
Proof.
  induction names as [|nm names IH]; intros T dir T' dir' H Wp Hn; cbn [tree_path] in H.
  { by injection H as <- <-. }
  apply Forall_cons in Hn as [Hn1 Hn]. destruct (T !! Z.to_nat dir) as [[|l|c]|] eqn:E; [done| |done..].
  pose proof (node_at_plain _ _ _ Wp E) as Hl. cbn [walk]. rewrite plain_cut by done.
  destruct (ent_lookup l nm) as [i|] eqn:El.
  - destruct (IH _ _ _ _ H Wp Hn) as [H1 H2]. split; [done|].
    destruct (tree_path_ext _ _ _ _ _ H) as [Hx _]. destruct (Hx _ _ E) as (nd & E' & l' & ->). rewrite E'.
    rewrite <-kfind_plain in El by done. by rewrite (kfind_app _ l' _ _ El).
  - destruct (add_dir T dir nm) as [T1|] eqn:Ea; [|done]. cbn in H.
    destruct (IH _ _ _ _ H (add_dir_plain _ _ _ _ Ea Wp Hn1) Hn) as [H1 H2]. split; [done|].
    unfold add_dir, add_ent in Ea. cbv zeta in Ea. rewrite E in Ea. cbn in Ea. injection Ea as Ea.
    pose proof (lookup_lt_Some _ _ _ E) as Hlt.
    assert (E1 : T1 !! Z.to_nat dir = Some (NDir (l ++ [(len T, nm)]))).
    { rewrite <-Ea, lookup_app_l by (by rewrite length_insert). by apply list_lookup_insert_eq. }
    destruct (tree_path_ext _ _ _ _ _ H) as [Hx _]. destruct (Hx _ _ E1) as (nd & E' & l' & ->). rewrite E'.
    rewrite <-kfind_plain in El by done. by rewrite (kfind_app _ l' _ _ (kfind_snoc _ _ _ Hn1 El)).
Qed.

Definition arg_plain (hp : list Z) : Prop := Forall plain (arg_dirs hp) /\ plain (arg_name hp).

Lemma tree_arg_plain T arg T' : tree_arg T arg = Some T' -> tree_plain T -> arg_plain arg.1 -> tree_plain T'.
Proof.
  destruct arg as [hp st]. unfold tree_arg. cbn [fst snd]. intros H Wp [Hd Hn].
  destruct st as [| | |chunks]; [done| |done|];
    (destruct (tree_path _ _ _) as [[T1 dir]|] eqn:E; [|done]); cbn in H;
    destruct (tree_path_walk _ _ _ _ _ E Wp Hd) as [W1 _].
  - by injection H as <-.
  - unfold add_file in H. destruct (add_ent _ _ _) as [T2|] eqn:Ea; [|done]. cbn in H. injection H as <-.
    apply Forall_app. split; [by eapply add_ent_plain|]. by repeat constructor.
Qed.

Lemma tree_args_plain args : forall T T',
  tree_args T args = Some T' -> tree_plain T -> Forall (fun a => arg_plain a.1) args -> tree_plain T'.
Proof.
  induction args as [|a args IH]; intros T T' H Wp Ha; cbn in H; [by injection H as <-|].
  apply Forall_cons in Ha as [Ha1 Ha]. destruct (tree_arg T a) as [T1|] eqn:E; [|done]. cbn in H.
  eapply IH; [done| |done]. by eapply tree_arg_plain.
Qed.

Lemma tree_args_app a1 a2 : forall T T',
  tree_args T (a1 ++ a2) = Some T' -> exists T1, tree_args T a1 = Some T1 /\ tree_args T1 a2 = Some T'.
Proof.
  induction a1 as [|a a1 IH]; intros T T' H; cbn in *; [by exists T|].
  destruct (tree_arg T a) as [T1|]; [|done]. cbn in *. by apply IH.
Qed.

(** The directory of the file has no entry of its name yet. *)
Definition fresh_arg (T : list node) (hp : list Z) : Prop :=
  match tree_path T ROOTINO (arg_dirs hp) with
  | Some (T1, dir) => walk T1 dir [arg_name hp] = None
  | None => True
  end.

(** The tree leads along the path of an argument to its file. *)
Lemma arg_found a1 hp chunks a2 T0 T :
  Forall (fun a => arg_plain a.1) (a1 ++ (hp, HReg chunks) :: a2) ->
  tree_of a1 = Some T0 -> fresh_arg T0 hp -> tree_of (a1 ++ (hp, HReg chunks) :: a2) = Some T ->
  exists i, 0 < i /\ walk T ROOTINO (arg_dirs hp ++ [arg_name hp]) = Some i
    /\ T !! Z.to_nat i = Some (NFile (concat chunks)).
Proof.
  intros Hp H0 Hfr H. apply Forall_app in Hp as [Hp1 Hp2]. apply Forall_cons in Hp2 as [[Hd Hn] Hp2].
  cbn [fst] in Hd, Hn. apply tree_args_app in H as (T0' & E0 & H). fold (tree_of a1) in E0. rewrite H0 in E0.
  injection E0 as <-. cbn [tree_args] in H. destruct (tree_arg T0 _) as [T3|] eqn:E3; [|done]. cbn in H.
  unfold tree_arg in E3. cbn [fst snd] in E3. unfold fresh_arg in Hfr.
  destruct (tree_path T0 ROOTINO (arg_dirs hp)) as [[T1 dir]|] eqn:E1; [|done]. cbn in E3.
  destruct (tree_path_walk _ _ _ _ _ E1) as [W1 Hw]; [by eapply tree_args_plain; [..|]; [exact H0|by repeat constructor|done]|done|].
  unfold add_file, add_ent in E3. cbn [walk] in Hfr.
  destruct (T1 !! Z.to_nat dir) as [[|l|c]|] eqn:El; [done| |done..]. cbn in E3. injection E3 as <-.
  set (T2 := <[Z.to_nat dir := NDir (l ++ [(len T1, arg_name hp)])]> T1) in *.
  assert (Hx : text T1 (T2 ++ [NFile (concat chunks)])).
  { apply (add_ent_text T1 dir (len T1, arg_name hp) T2). unfold add_ent. by rewrite El. }
  pose proof (lookup_lt_Some _ _ _ El) as Hlt. destruct (tree_args_ext _ _ _ H) as [Hx2 _].
  assert (EL : length T2 = length T1) by apply length_insert.
  exists (len T1). split_and!; [lia| |].
  - apply (walk_text _ _ _ Hx2). rewrite (walk_app _ _ _ _ dir) by (by apply (walk_text _ _ _ Hx)).
    cbn [walk]. rewrite lookup_app_l by lia. unfold T2. rewrite list_lookup_insert_eq by done.
    rewrite plain_cut in Hfr |- * by done. rewrite kfind_snoc; [done|done|].
    by destruct (kfind l (arg_name hp)).
  - destruct (Hx2 (length T1) (NFile (concat chunks))) as (nd & Hnd & ->); [|by rewrite Nat2Z.id].
    rewrite <-EL. by apply list_lookup_middle.
Qed.

(** ** Properties *)

(** The root directory does not end at the end of a block. *)
Definition root_partial (T : list node) : bool :=
  match T !! 1%nat with
  | Some (NDir l) => negb (len (ents_bytes l) mod BSIZE =? 0)
  | _ => false
  end.

(** A command line whose files fit in an image, with names both programs read
    alike. *)
Record buildable (args : list (list Z * hostfile)) (T : list node) : Prop := {
  bd_host : Forall host_ok args;
  bd_plain : Forall (fun a => arg_plain a.1) args;
  bd_tree : tree_of args = Some T;
  bd_fits : image_fits (files_of T) = true;
  bd_root : root_partial T = true
}.

Lemma buildable_tree args T :
  buildable args T ->
  tree_wf T /\ exists l, T !! 1%nat = Some (NDir l) /\ len (ents_bytes l) mod BSIZE <> 0.
Proof.
  intros [B1 B2 B3 B4 B5]. split.
  - destruct (tree_args_ext _ _ _ B3) as [_ HW]. destruct (fits_room _ B4) as [Hc _].
    unfold files_of in Hc. rewrite length_map in Hc. apply HW; [apply tree0_wf|done|done|unfold NINODES in Hc; lia].
  - unfold root_partial in B5. destruct (T !! 1%nat) as [[|l|c]|]; [done| |done..]. exists l. split; [done|]. lia.
Qed.

(** What a process does to read a file it names. *)
Definition read_path (devsw : devsw_t) (path : list Z) : M fstate (Z * list Z) :=
  ip ← namei devsw path;
  ilock ip ;;
  n ← gets (fun s => isize (geti s ip));
  readi devsw ip 0 n.

(** C2: mkfs and the kernel agree on the file system: when the files of the
    command line fit, mkfs succeeds, the kernel's first process initialises the
    file system from the image, and looking up and reading the path of any
    regular file of the command line (its path on the host without
    [userspace/], and without the underscore before its name) then returns
    exactly the bytes the file had on the host. *)
Theorem kernel_reads_mkfs devsw a1 hp chunks a2 T0 T path pid now :
  buildable (a1 ++ (hp, HReg chunks) :: a2) T -> tree_of a1 = Some T0 -> fresh_arg T0 hp ->
  path_ok (SLASH :: path) -> path_elems (SLASH :: path) = arg_dirs hp ++ [arg_name hp] ->
  exists m s s', main (a1 ++ (hp, HReg chunks) :: a2) mkst0 = Ok tt m
    /\ fs_start (fs_bss (disk_of m) pid now) = Ok tt s
    /\ read_path devsw (SLASH :: path) s = Ok (len (concat chunks), concat chunks) s'.
Proof.
  intros B H0 Hfr Hp He. destruct (buildable_tree _ _ B) as [W Hroot]. destruct B as [B1 B2 B3 B4 B5].
  destruct (arg_found _ _ _ _ _ _ B2 H0 Hfr B3) as (i & Hi & Hw & HT). rewrite <-He in Hw.
  destruct (wp_run _ _ _ (main_spec _ T B1 B3 B4)) as ([] & m & Em & D). exists m.
  enough (R : wp fs_start (fun _ s => wp (read_path devsw (SLASH :: path))
    (fun r _ => r = (len (concat chunks), concat chunks)) s) (fs_bss (disk_of m) pid now)).
  { destruct (wp_run _ _ _ R) as ([] & s & Es & (r & s' & Er & Hr)%wp_run). exists s, s'.
    split; [exact Em|]. split; [exact Es|]. by rewrite <-Hr. }
  clear Em. eapply wp_mono; [exact (fs_start_spec m _ pid now D)|]. intros [] s [OI Hid].
  unfold read_path. apply wp_bind. eapply wp_mono; [by eapply (namei_walk m T D B4 W Hroot)|].
  intros ip s1 [A1 _]. eapply (read_at m _ D B4); [by eapply root_files|exact A1|].
  exact (tree_inode T i _ Hi HT).
Qed.

Lemma kernel_reads_mkfs_witness : exists m s s',
  main demo_args mkst0 = Ok tt m /\ fs_start (fs_bss (disk_of m) 1 1700000000) = Ok tt s
  /\ read_path (mk_devsw (fun _ => None) (fun _ => None)) [47; 98; 105; 110; 47; 99; 97; 116] s
     = Ok (4, [127; 69; 76; 70]) s'.
Proof.
  assert (B : exists T, buildable demo_args T).
  { destruct (tree_of demo_args) as [T|] eqn:E; [|vm_compute in E; discriminate E]. exists T.
    assert (HT : Some T = tree_of demo_args) by (symmetry; exact E). vm_compute in HT. injection HT as HT.
    split; [|by repeat constructor|done|rewrite HT; vm_compute; reflexivity|rewrite HT; vm_compute; reflexivity].
    repeat constructor; try lia; done. }
  destruct B as [T B].
  apply (kernel_reads_mkfs (mk_devsw (fun _ => None) (fun _ => None)) []
    (userspace ++ [98; 105; 110; 47; 95; 99; 97; 116]) [[127; 69]; [76; 70]]
    [([82; 69; 65; 68; 77; 69], HReg [[104; 105]])] tree0 T [98; 105; 110; 47; 99; 97; 116] 1 1700000000).
  - exact B.
  - reflexivity.
  - vm_compute. reflexivity.
  - repeat constructor; lia.
  - vm_compute. reflexivity.
Defined.
